(* ===== verification/_CoqProject ===== *)
-Q . S2P
Prelude.v
RustStr.v
Host.v
LedgerPayloads.v
TrustSpine.v
Digests.v
Events.v
ReplayState.v
DemoHost.v
SigningSpec.v
Tape.v
TapeSpec.v
ManifestWitness.v
WorkflowGraph.v
Canonicalize.v
CanonicalizeSpec.v
ReducerCore.v
ReducerDispatch.v
ReducerActions.v
ReducerCandidates.v
ReducerPromotion.v
ReducerLifecycle.v
Reducer.v
Engine.v
ActivityDecision.v
TrustedRecovery.v
WorkflowSpec.v
WorkflowRefine.v
WorkflowRefineActions.v
WorkflowReplay.v
WorkflowEvolution.v
WorkflowInvariants.v
WorkflowEvidence.v
WorkflowBudget.v
WorkflowSchedule.v
WorkflowKeys.v
ReducerSafety.v
ReducerVerdict.v
SampleRun.v
EngineSpec.v
WorkflowTheorems.v
GraphProgress.v
RecoverySpec.v
RecoveryIndex.v
RecoveryTheorems.v
SampleRecovery.v
Store.v
StoreRows.v
StoreSeal.v
StoreSpec.v
StoreSession.v
SampleStore.v
ActivityEvidence.v
RetryContext.v
ActivityLane.v
LaneSpec.v
LaneTheorems.v
LaneTape.v
SampleLane.v
Serve.v
ServeSpec.v
RetryIdentity.v
ServeSeal.v
SampleServe.v
Memory.v
MemoryStore.v
MemorySpec.v
MemoryRefine.v
MemoryTheorems.v
SampleMemory.v
