(* ===== verification/Prelude.v ===== *)
(** * Verification of the Buildplane native control plane

    Buildplane runs software-building agents under a signed, append-only event
    tape.  The kernel writes events to a ledger ([bp-ledger]); the replay crate
    ([bp-replay]) reads them back, checks their signatures and folds them into a
    projection of the governed workflows, from which all later decisions are
    made.  Paths below are relative to [src/native/crates/].

    This development models the ledger's event language and validators, its event
    store and server, the whole replay path up to trusted recovery, and the memory
    store, and proves what a reader of the projection may rely on.

    ** The program and the files that model it

    - [Prelude], [RustStr], [Host]: Rust's [Result], [?], option and map idioms;
      the byte-string predicates of [bp-ledger/src/canonicalize.rs] and
      [bp-replay/src/transitions.rs]; the third-party crates the code calls
      (uuid, chrono, sha2, serde_json) as the class [Host] of functions without
      laws.
    - [LedgerPayloads], [TrustSpine], [Events]: the payload structs and enums of
      [bp-ledger/src/payload/], the event envelope ([event.rs]), the event kinds
      and their wire names ([kind.rs]), detached signatures ([signing.rs]).
      ed25519 and base64 are the class [Crypto].
    - [Digests]: the domain-separated body digests of
      [payload/trust_spine.rs]; each body is encoded as the JSON value that its
      serde attributes give.
    - [WorkflowGraph], [Canonicalize]: [canonicalize.rs] with the validators it
      calls in [payload/activity_claim.rs] and [payload/release_evaluation.rs],
      the cycle check on declared graphs, and [CanonicalCasRef] of
      [storage/cas.rs].
    - [ManifestWitness]: [v5_manifest_witness.rs].
    - [ReplayState]: the projection records and predicates of
      [bp-replay/src/state.rs].
    - [ReducerCore], [ReducerDispatch], [ReducerActions], [ReducerCandidates],
      [ReducerPromotion], [ReducerLifecycle], [Reducer]: the reducer of
      [bp-replay/src/transitions.rs].  A handler is split into a verdict, which
      is the new state or the way it was refused (rejected, ignored as a
      duplicate, panicked), and [finish], which records the refusal as the code's
      [reject_workflow_transition] does.  [apply_with_verified_signer] is the
      dispatcher over all payloads.
    - [Tape]: the checkpoint and tape-root verifier of [tape_integrity.rs].
    - [Engine]: row decoding and signature checks of [reader.rs]; signer roles,
      admission, recovery loop and seeking of [engine.rs].
    - [ActivityDecision], [TrustedRecovery]: [activity_decision.rs] and
      [trusted_recovery.rs]: opening a recovery snapshot (bounded read, replay,
      tape verification, indexes), its lookups, the decisions about recorded
      actions and promotions, pending work and pending approvals.
    - [Store]: the tape part of [bp-ledger/src/storage/sqlite.rs]: the tables
      [events] and [event_signatures] as maps keyed by their primary key, the append
      paths with their guards and the cached high-water mark, the cadence
      checkpoints and the governed seal.  An operation is a state transformer; a
      transaction commits the database it computes or nothing; ids and clock
      readings the code draws are arguments.
    - [ActivityEvidence], [RetryContext], [ActivityLane]: the execution-lease lane of
      the same file.  Before a lease is granted the store rebuilds from the tape the
      signed dispatch, the action request and, for a retry that creates a candidate,
      the chain of the failed attempt; then it writes the claim event, its signature
      and a row of [activity_claims] in one transaction.  Heartbeats extend the lease
      in [activity_claim_heartbeats], one result ends it; the fixed verifier lane
      derives its requests from a signed reviewer action.
    - [Serve]: [bp-ledger/src/serve.rs], the line protocol of the ledger process: the
      handshake, the guard on events a caller may supply, the closed control
      requests, the activity controls over the lane under the configured authority,
      and the governed lane, which is bound to one run, takes no events and seals the
      tape before and after each control.  A session is a list of lines, each with
      the clock readings and ids the server draws for it, and a list of responses.
    - [Memory], [MemoryStore]: the memory of the agents, apart from the tape.
      [bp-memory/src/lib.rs] has the items, their events and links, the repository
      trait (the class [MemoryRepository]), the in-memory repository and the service;
      [bp-storage-sqlite/src/lib.rs] implements the trait over two SQLite databases,
      one shared and one of the workspace, with export, import, the consistency
      report and pruning.

    Maps are [gmap string]; where the code iterates a [BTreeMap] in an order that
    matters, [btree_list] gives the entries in key order.  Machine integers are
    [Z]; the additions that the code checks ([checked_add]) are checked at their
    width, and floats are [spec_float].

    ** Specification and theorems

    - [WorkflowSpec] is the contract of the reducer: an abstract machine whose
      state is the declared graphs and the workflows, with one guarded step per
      kind of evidence.  [WorkflowRefine], [WorkflowRefineActions] and
      [WorkflowReplay] show that applying any event is a step of it.
    - [WorkflowEvolution], [WorkflowInvariants], [WorkflowEvidence],
      [WorkflowBudget], [WorkflowSchedule] prove invariants of the machine by
      induction on its steps, and [WorkflowTheorems] states them of every state
      that replay reaches: what a completed workflow rests on, that evidence is
      permanent and terminal phases final, unique leases and candidates, token
      and concurrency limits, dependency order, exact recovery queues, lease
      deadlines, agreement of receipts with results.
    - [ReducerSafety], [ReducerVerdict]: no [expect] of the reducer fails, and a
      refused event adds one diagnosis and nothing else.
    - [CanonicalizeSpec]: canonicalisation returns on every event; graph
      declarations are accepted exactly when they are well formed and acyclic;
      the envelope digest binds a dispatch, as far as the hash, the JSON encoder and the
      UUID printer tell the two dispatches in question apart.  [GraphProgress] combines this with
      the reducer: a recorded graph never deadlocks.
    - [EngineSpec]: the engine terminates, runs the machine, and changes a
      workflow only by a verified event whose signer holds the required role;
      reads are complete and typed.
    - [SigningSpec], [TapeSpec]: verification of a signature and of a tape
      characterised exactly; signing round trip; what a signature and a tape root
      bind.
    - [RecoverySpec], [RecoveryIndex], [RecoveryTheorems]: a snapshot opens exactly
      when the pinned kernel, the rows, replay and the checkpoint chain allow it;
      lookups, pending work and pending approvals are exact; every decision about
      a recorded action or promotion follows from certified evidence, and a settled
      action is decided once.
    - [StoreRows], [StoreSeal], [StoreSpec], [StoreSession]: tables in key order and
      rows that read back; the seal's chain check accepts only what the replay
      verifier accepts, so sealed sessions are recoverable end to end; sealing is
      idempotent; the tables only grow; the cached mark is exact; the cadence
      bounds the unsealed tail.  Emitting twice over one prefix is refused for good.
    - [LaneSpec], [LaneTheorems], [LaneTape]: a lease is granted once, a recorded
      result is final, no lease outlives the signed dispatch, the claim table never
      runs ahead of the tape, a repeated claim is answered; and two faults of the
      writers, which round a lease to milliseconds after comparing it and sign
      instants that replay does not accept.
    - [ServeSpec], [ServeSeal], [RetryIdentity]: a governed session writes only activity
      records of its run, and whatever it answers with a disposition can be recovered
      from the store as it stands; what a generic session writes never moves a
      workflow; the retry identities claims accept are those the server resolves.
    - [MemorySpec], [MemoryRefine], [MemoryTheorems]: the SQLite store answers sessions
      of the service as the in-memory repository does, reads the same afterwards up to
      the order of equal keys (searches apart, where FTS5 differs from the reference),
      and leaves a store its own report finds consistent; effective memory is selected exactly, proved against the
      interface [MemoryReads] that both repositories implement; a complete export
      restores the store; links across the two databases are listed on one side only
      and break partial imports, and replaced text stays searchable.
    - [WorkflowKeys]: composite map keys, and the collision of manifest keys.
    - [DemoHost], [SampleRun] and the [Sample*] modules: a concrete host and
      concrete tapes on which the theorems are evaluated.

    ** Bounds and fuel

    The cycle check carries one unit of fuel per node: every iteration visits a
    node not visited before ([drain_ok]).  [replay_to_end] and [fast_forward_to]
    carry one unit per event; the theorems about them state the result for the
    fuel the definitions give, so none of them is vacuous.

    ** Not modelled

    Of the store, claims under a sealed V5 dispatch and the control lanes for models,
    commands, acceptance, candidate completion, dispatch and plan admission and
    promotion, with their projection tables; the SQLite snapshot cache of
    [trusted_recovery.rs].  The CLI, the key ring, the authority broker, fork
    storage and the host, provider and pack crates are process, file and network code
    around the modelled core.  [otel_projection.rs]
    is a read-only export.  Parsing and printing of stored text are the classes
    [RowDecoder] and [RowEncoder], with their documented round trips as the class
    [RowLaws]; the encoding of a whole event for hashing is the parameter
    [event_to_vec].  Of the memory store, opening the database files and failures of
    SQLite itself; JSON, the scan order of a table and full-text matching are the class
    [MemoryHost]. *)
From Stdlib Require Import ZArith Lia SpecFloat.
From Stdlib Require Import String.
From stdpp Require Import base tactics option list gmap strings pretty sorting.

#[global] Open Scope Z_scope.
#[global] Open Scope list_scope.

(** ** Machine-level vocabulary

    A Rust [String] is its UTF-8 byte sequence, a Rocq [string] of 8-bit
    characters.  Unsigned machine integers are [Z].  A [Uuid] is its 128-bit
    value: the [uuid] crate orders UUIDs by that value.  A [DateTime] is the
    image of chrono's totally ordered UTC instants in [Z]. *)
Abbreviation u8 := Z (only parsing).
Abbreviation u16 := Z (only parsing).
Abbreviation u32 := Z (only parsing).
Abbreviation u64 := Z (only parsing).
Abbreviation Uuid := Z (only parsing).
Abbreviation EventId := Z (only parsing).
Abbreviation RunId := Z (only parsing).
Abbreviation DateTime := Z (only parsing).
Abbreviation f64 := spec_float (only parsing).

(** ** Results

    [Result A E] is Rust's [Result<A, E>]; [let*] is the [?] operator and
    [ensure] an early [return Err(..)] guarded by a condition. *)
Inductive Result (A E : Type) : Type :=
| Ok (a : A)
| Err (e : E).
Arguments Ok {A E} a.
Arguments Err {A E} e.

(** How a computation of the source can fail to return a value. *)
Inductive Crash :=
| Crash_Panic
| Crash_OutOfFuel.

(** How a fallible call ends without a value: with an error of its type, or in
    a crash. *)
Inductive Failure (E : Type) :=
| Errored (e : E)
| Stopped (c : Crash).
Arguments Errored {E} e.
Arguments Stopped {E} c.

Declare Scope rust_scope.
Delimit Scope rust_scope with rust.
#[global] Open Scope rust_scope.

Definition result_bind {A B E} (r : Result A E) (k : A -> Result B E) : Result B E :=
  match r with Ok a => k a | Err e => Err e end.

Definition is_ok {A E} (r : Result A E) : bool :=
  match r with Ok _ => true | Err _ => false end.

Definition result_ok {A E} (r : Result A E) : option A :=
  match r with Ok a => Some a | Err _ => None end.

Notation "'let*' x := r 'in' k" := (result_bind r (fun x => k))
  (at level 10, x pattern, r at level 100, k at level 200) : rust_scope.
Notation "'fail_if' b 'with' e ';;' k" := (if b then Err e else k)
  (at level 10, b at level 99, e at level 99, k at level 200) : rust_scope.
Notation "'some_or' x := o 'with' e ';;' k" :=
  (match o with Some x => k | None => Err e end)
  (at level 10, x name, o at level 99, e at level 99, k at level 200) : rust_scope.

Notation "'let_some' x := o 'else' v ';;' k" :=
  (match o with Some x => k | None => v end)
  (at level 10, x name, o at level 99, v at level 99, k at level 200) : rust_scope.

(** [Result::map_err], [Result::map], [Option::ok_or] and a [for] loop whose
    body may return early with an error. *)
Definition map_err {A E F} (f : E -> F) (r : Result A E) : Result A F :=
  match r with Ok a => Ok a | Err e => Err (f e) end.
Definition result_map {A B E} (f : A -> B) (r : Result A E) : Result B E :=
  match r with Ok a => Ok (f a) | Err e => Err e end.
Definition ok_or {A E} (o : option A) (e : E) : Result A E :=
  match o with Some a => Ok a | None => Err e end.
Fixpoint for_each {A E} (f : A -> Result unit E) (l : list A) : Result unit E :=
  match l with
  | [] => Ok tt
  | a :: l' => result_bind (f a) (fun _ => for_each f l')
  end.

(** [a == b] and [a != b] are the derived [PartialEq] of the code. *)
Notation "a == b" := (bool_decide (a = b)) (at level 70, no associativity) : rust_scope.
Notation "a != b" := (negb (bool_decide (a = b))) (at level 70, no associativity) : rust_scope.

(** [Option::is_some], [Option::is_some_and] and [Option::is_none_or]. *)
Definition is_some {A} (o : option A) : bool :=
  match o with Some _ => true | None => false end.
Definition is_none {A} (o : option A) : bool := negb (is_some o).
Definition is_some_and {A} (o : option A) (f : A -> bool) : bool :=
  match o with Some a => f a | None => false end.
Definition is_none_or {A} (o : option A) (f : A -> bool) : bool :=
  match o with Some a => f a | None => true end.

(** [BTreeMap::values().any(f)] and [.all(f)]. *)
Definition map_any {A} (f : A -> bool) (m : gmap string A) : bool :=
  existsb (fun kv => f kv.2) (map_to_list m).
Definition map_all {A} (f : A -> bool) (m : gmap string A) : bool :=
  forallb (fun kv => f kv.2) (map_to_list m).

(** The same over [iter()], whose items are key/value pairs. *)
Definition map_any_kv {A} (f : string * A -> bool) (m : gmap string A) : bool :=
  existsb f (map_to_list m).
Definition map_is_empty {A} (m : gmap string A) : bool :=
  match map_to_list m with [] => true | _ => false end.
Definition map_values {A} (m : gmap string A) : list A := (map_to_list m).*2.
Definition list_is_empty {A} (l : list A) : bool :=
  match l with [] => true | _ => false end.

(** The keys whose entry satisfies a predicate.  The program only asks whether
    there is none, exactly one or more, so their order is immaterial. *)
Definition filter_keys {A} (f : string * A -> bool) (m : gmap string A) : list string :=
  (List.filter f (map_to_list m)).*1.

(** A [BTreeMap] iterates in the byte order of its keys; used where the order
    of iteration is observable. *)
Definition key_le {A} (x y : string * A) : Prop := String.leb x.1 y.1 = true.
#[global] Instance key_le_dec {A} (x y : string * A) : Decision (key_le x y).
Proof. unfold key_le. apply _. Defined.
Definition btree_list {A} (m : gmap string A) : list (string * A) :=
  merge_sort key_le (map_to_list m).

(** [f64] equality: IEEE equality, so [NaN] differs from itself. *)
Definition f64_eqb (x y : f64) : bool := SFeqb x y.
Definition f64_leb (x y : f64) : bool := SFleb x y.
Definition f64_zero : f64 := S754_zero false.
Definition f64_one : f64 := S754_finite false 4503599627370496 (-52).
Definition f64_is_finite (x : f64) : bool :=
  match x with S754_zero _ | S754_finite _ _ _ => true | _ => false end.

#[global] Instance spec_float_eq_dec : EqDecision spec_float.
Proof. solve_decision. Defined.

(** ** Reflection of the code's boolean guards

    [bool_simp] turns boolean hypotheses built from [==], [!=], [&&], [||],
    [negb], comparisons and [is_some] into propositions; [guards] inverts a
    chain of early returns that ended in [Ok]. *)
Create HintDb guarded discriminated.

Lemma neqb_true (P : Prop) `{!Decision P} : negb (bool_decide P) = true <-> ~ P.
Proof. by rewrite negb_true_iff, bool_decide_eq_false. Qed.

Lemma neqb_false (P : Prop) `{!Decision P} : negb (bool_decide P) = false <-> P.
Proof. by rewrite negb_false_iff, bool_decide_eq_true. Qed.

Lemma is_some_true {A} (o : option A) : is_some o = true <-> exists a, o = Some a.
Proof. destruct o; simpl; split; naive_solver. Qed.

Lemma is_some_false {A} (o : option A) : is_some o = false <-> o = None.
Proof. destruct o; simpl; split; naive_solver. Qed.

Lemma is_none_true {A} (o : option A) : is_none o = true <-> o = None.
Proof. unfold is_none. by rewrite negb_true_iff, is_some_false. Qed.

Lemma is_none_false {A} (o : option A) : is_none o = false <-> exists a, o = Some a.
Proof. unfold is_none. by rewrite negb_false_iff, is_some_true. Qed.

Lemma is_some_and_true {A} (o : option A) f :
  is_some_and o f = true <-> exists a, o = Some a /\ f a = true.
Proof. destruct o; simpl; split; naive_solver. Qed.

Lemma is_none_or_false {A} (o : option A) f :
  is_none_or o f = false <-> exists a, o = Some a /\ f a = false.
Proof. destruct o; simpl; split; naive_solver. Qed.

Lemma map_any_true {A} (f : A -> bool) (m : gmap string A) :
  map_any f m = true <-> exists k a, m !! k = Some a /\ f a = true.
Proof.
  unfold map_any. rewrite existsb_exists. split.
  - intros ([k a] & Hin & Hf). exists k, a. split; [|done].
    apply elem_of_map_to_list. by apply list_elem_of_In.
  - intros (k & a & Hk & Hf). exists (k, a). split; [|done].
    apply list_elem_of_In. by apply elem_of_map_to_list.
Qed.

Lemma map_any_false {A} (f : A -> bool) (m : gmap string A) :
  map_any f m = false <-> forall k a, m !! k = Some a -> f a = false.
Proof.
  rewrite <- not_true_iff_false, map_any_true. split.
  - intros Hno k a Hk. apply not_true_iff_false. naive_solver.
  - intros Hall (k & a & Hk & Hf). by rewrite (Hall k a Hk) in Hf.
Qed.

Lemma map_all_true {A} (f : A -> bool) (m : gmap string A) :
  map_all f m = true <-> forall k a, m !! k = Some a -> f a = true.
Proof.
  unfold map_all. rewrite forallb_forall. split.
  - intros Hall k a Hk. apply (Hall (k, a)).
    apply list_elem_of_In. by apply elem_of_map_to_list.
  - intros Hall [k a] Hin. apply (Hall k). apply elem_of_map_to_list. by apply list_elem_of_In.
Qed.

Lemma map_any_kv_false {A} (f : string * A -> bool) (m : gmap string A) :
  map_any_kv f m = false <-> forall k a, m !! k = Some a -> f (k, a) = false.
Proof.
  unfold map_any_kv. rewrite <- not_true_iff_false, existsb_exists. split.
  - intros Hno k a Hk. apply not_true_iff_false. intros Hf. apply Hno. exists (k, a).
    split; [|done]. apply list_elem_of_In. by apply elem_of_map_to_list.
  - intros Hall ([k a] & Hin & Hf). apply list_elem_of_In, elem_of_map_to_list in Hin.
    by rewrite (Hall k a Hin) in Hf.
Qed.

Lemma btree_list_permutation {A} (m : gmap string A) : btree_list m ≡ₚ map_to_list m.
Proof. apply merge_sort_Permutation. Qed.

Lemma elem_of_btree_list {A} (m : gmap string A) k a : (k, a) ∈ btree_list m <-> m !! k = Some a.
Proof. by rewrite btree_list_permutation, elem_of_map_to_list. Qed.

Lemma NoDup_btree_list {A} (m : gmap string A) : NoDup (btree_list m).
Proof. rewrite btree_list_permutation. apply NoDup_map_to_list. Qed.

Lemma length_btree_list {A} (m : gmap string A) : length (btree_list m) = size m.
Proof. by rewrite btree_list_permutation, length_map_to_list. Qed.

(** How many entries of a map satisfy a predicate. *)
Definition map_count {A} (f : A -> bool) (m : gmap string A) : nat :=
  length (List.filter f (map_to_list m).*2).

Lemma filter_permutation {A} (f : A -> bool) (l l' : list A) :
  l ≡ₚ l' -> length (List.filter f l) = length (List.filter f l').
Proof. induction 1; cbn; repeat case_match; cbn; lia. Qed.

Lemma map_count_btree {A} (f : A -> bool) (m : gmap string A) :
  length (List.filter f (btree_list m).*2) = map_count f m.
Proof. apply filter_permutation. by rewrite btree_list_permutation. Qed.

Lemma map_count_insert {A} (f : A -> bool) (m : gmap string A) k a :
  map_count f (<[k := a]> m) = ((if f a then 1 else 0) + map_count f (delete k m))%nat.
Proof.
  unfold map_count. rewrite <- insert_delete_eq.
  rewrite (filter_permutation f _ _ (fmap_Permutation snd _ _
    (map_to_list_insert (delete k m) k a (lookup_delete_eq m k)))).
  cbn. by destruct (f a).
Qed.

Lemma map_count_new {A} (f : A -> bool) (m : gmap string A) k a :
  m !! k = None -> map_count f (<[k := a]> m) = ((if f a then 1 else 0) + map_count f m)%nat.
Proof. intros Hk. by rewrite map_count_insert, delete_id. Qed.

Lemma map_count_update {A} (f : A -> bool) (m : gmap string A) k a a' :
  m !! k = Some a -> (f a' = true -> f a = true) ->
  (map_count f (<[k := a']> m) <= map_count f m)%nat.
Proof.
  intros Hk Hf. rewrite <- (insert_id m k a) at 2 by done. rewrite !map_count_insert.
  destruct (f a'); [rewrite Hf by done; lia|destruct (f a); lia].
Qed.

Lemma map_count_ext {A} (f g : A -> bool) (m : gmap string A) :
  (forall a, f a = g a) -> map_count f m = map_count g m.
Proof. intros Hfg. unfold map_count. by rewrite (List.filter_ext f g) by done. Qed.

Lemma list_is_empty_true {A} (l : list A) : list_is_empty l = true <-> l = [].
Proof. by destruct l. Qed.

Lemma for_each_ok {A E} (f : A -> Result unit E) l u :
  for_each f l = Ok u -> Forall (fun a => f a = Ok tt) l.
Proof.
  induction l as [|a l IH]; cbn; [by constructor|]. destruct (f a) as [[]|] eqn:Hf; [|done].
  cbn. intros Hl. constructor; auto.
Qed.

Lemma Forall_zip_Forall2 {A B} (P : A -> B -> Prop) l k :
  length l = length k -> Forall (fun '(a, b) => P a b) (zip l k) -> Forall2 P l k.
Proof.
  revert k. induction l as [|a l IH]; intros [|b k] Hlen; try done.
  intros [??]%Forall_cons. constructor; auto.
Qed.

Lemma Ok_inj {A E} (a b : A) : @Ok A E a = Ok b -> a = b.
Proof. congruence. Qed.

Ltac bool_simp :=
  repeat match goal with
  | H : true = false |- _ => discriminate H
  | H : false = true |- _ => discriminate H
  | H : (_ || _) = false |- _ => apply orb_false_iff in H as [? ?]
  | H : (_ && _) = true |- _ => apply andb_true_iff in H as [? ?]
  | H : negb (bool_decide _) = true |- _ => apply neqb_true in H
  | H : negb (bool_decide _) = false |- _ => apply neqb_false in H
  | H : bool_decide _ = false |- _ => apply bool_decide_eq_false in H
  | H : bool_decide _ = true |- _ => apply bool_decide_eq_true in H
  | H : negb _ = true |- _ => apply negb_true_iff in H
  | H : negb _ = false |- _ => apply negb_false_iff in H
  | H : is_some _ = true |- _ => apply is_some_true in H as [? ?]
  | H : is_some _ = false |- _ => apply is_some_false in H
  | H : is_none _ = true |- _ => apply is_none_true in H
  | H : is_none _ = false |- _ => apply is_none_false in H as [? ?]
  | H : list_is_empty _ = true |- _ => apply list_is_empty_true in H
  | H : (_ <=? _)%nat = true |- _ => apply Nat.leb_le in H
  | H : (_ <=? _)%nat = false |- _ => apply Nat.leb_gt in H
  | H : (_ =? _)%nat = true |- _ => apply Nat.eqb_eq in H
  | H : (_ =? _)%nat = false |- _ => apply Nat.eqb_neq in H
  | H : (_ <=? _)%Z = true |- _ => apply Z.leb_le in H
  | H : (_ <=? _)%Z = false |- _ => apply Z.leb_gt in H
  | H : (_ <? _)%Z = true |- _ => apply Z.ltb_lt in H
  | H : (_ <? _)%Z = false |- _ => apply Z.ltb_ge in H
  end.

Lemma bind_ok {A B E} (r : Result A E) (k : A -> Result B E) b :
  result_bind r k = Ok b -> exists a, r = Ok a /\ k a = Ok b.
Proof. destruct r; simpl; [eauto|discriminate]. Qed.

Lemma map_err_ok {A E F} (f : E -> F) (r : Result A E) a :
  map_err f r = Ok a -> r = Ok a.
Proof. destruct r; simpl; congruence. Qed.

Ltac guards :=
  repeat match goal with
  | H : Ok _ = Ok _ |- _ => apply Ok_inj in H
  | H : Err _ = Ok _ |- _ => discriminate H
  | H : map_err _ _ = Ok _ |- _ => apply map_err_ok in H
  | H : result_bind _ _ = Ok _ |- _ =>
      apply bind_ok in H; destruct H as (? & ? & H); cbn beta iota in H
  | H : (if ?b then _ else _) = Ok _ |- _ => destruct b eqn:? in H; try discriminate H
  | E : ?o = Some _, H : match ?o with Some _ => _ | None => _ end = Ok _ |- _ =>
      rewrite E in H; cbn beta iota in H; try discriminate H
  | E : ?o = None, H : match ?o with Some _ => _ | None => _ end = Ok _ |- _ =>
      rewrite E in H; cbn beta iota in H; try discriminate H
  | H : match ?o with Some _ => _ | None => _ end = Ok _ |- _ =>
      destruct o eqn:? in H; try discriminate H
  | H : (let '(_, _) := ?x in _) = Ok _ |- _ => destruct x
  end; bool_simp.
