(* ===== verification/RustStr.v ===== *)
(** * Rust string operations and the canonical text grammars

    The [str] methods the code calls, on UTF-8 byte strings, and the canonical
    identifier grammars that guard every authority-bearing field: SHA-256
    digests, Git object ids, target branch refs and Buildplane candidate refs
    ([bp-ledger/src/canonicalize.rs], [bp-replay/src/transitions.rs]). *)
From Stdlib Require Import Ascii.
From S2P Require Import Prelude.
From stdpp Require Import base list strings pretty.

#[local] Open Scope string_scope.
#[local] Open Scope nat_scope.

(** ** Bytes *)
Definition byte_between (lo hi : nat) (c : ascii) : bool :=
  let n := nat_of_ascii c in (lo <=? n) && (n <=? hi).

(** [u8::is_ascii_digit], [b'a'..=b'f'], [is_ascii_alphanumeric]. *)
Definition is_ascii_digit : ascii -> bool := byte_between 48 57.
Definition is_lower_hex (c : ascii) : bool := is_ascii_digit c || byte_between 97 102 c.
Definition is_ascii_alphanumeric (c : ascii) : bool :=
  is_ascii_digit c || byte_between 65 90 c || byte_between 97 122 c.

(** ** [str] methods *)
Fixpoint str_all (f : ascii -> bool) (s : string) : bool :=
  match s with
  | EmptyString => true
  | String c s' => f c && str_all f s'
  end.

Fixpoint strip_prefix (p s : string) : option string :=
  match p, s with
  | EmptyString, _ => Some s
  | String a p', String b s' => if bool_decide (a = b) then strip_prefix p' s' else None
  | String _ _, EmptyString => None
  end.

Definition starts_with (p s : string) : bool := is_some (strip_prefix p s).

Definition str_skip (n : nat) (s : string) : string := String.substring n (String.length s - n) s.

Definition ends_with (suffix s : string) : bool :=
  (String.length suffix <=? String.length s) && (str_skip (String.length s - String.length suffix) s == suffix).

Fixpoint str_contains (sub s : string) : bool :=
  starts_with sub s ||
  match s with EmptyString => false | String _ s' => str_contains sub s' end.

(** [s.split(c)]: the pieces between separators, empty pieces included. *)
Fixpoint str_split (c : ascii) (s : string) : list string :=
  match s with
  | EmptyString => [""]
  | String a s' =>
      if bool_decide (a = c) then "" :: str_split c s'
      else match str_split c s' with
           | piece :: rest => String a piece :: rest
           | [] => [String a ""]
           end
  end.

(** [s.trim().is_empty()]: every character has the Unicode [White_Space]
    property.  The one-byte white space is U+0009..U+000D and U+0020; the
    two- and three-byte ones are listed by their UTF-8 encodings. *)
Definition ws1 (c : ascii) : bool := byte_between 9 13 c || (nat_of_ascii c =? 32).
Definition ws2 (a b : ascii) : bool :=
  (nat_of_ascii a =? 194) && ((nat_of_ascii b =? 133) || (nat_of_ascii b =? 160)).
Definition ws3 (a b c : ascii) : bool :=
  let a := nat_of_ascii a in let b := nat_of_ascii b in let c := nat_of_ascii c in
  ((a =? 225) && (b =? 154) && (c =? 128)) ||
  ((a =? 226) && (b =? 128) &&
     (((128 <=? c) && (c <=? 138)) || (c =? 168) || (c =? 169) || (c =? 175))) ||
  ((a =? 226) && (b =? 129) && (c =? 159)) ||
  ((a =? 227) && (b =? 128) && (c =? 128)).

Fixpoint trim_is_empty (s : string) : bool :=
  match s with
  | EmptyString => true
  | String a s1 =>
      if ws1 a then trim_is_empty s1 else
      match s1 with
      | EmptyString => false
      | String b s2 =>
          if ws2 a b then trim_is_empty s2 else
          match s2 with
          | EmptyString => false
          | String c s3 => if ws3 a b c then trim_is_empty s3 else false
          end
      end
  end.

(** [trim_start], [trim_end] and [trim]. *)
Fixpoint trim_start (s : string) : string :=
  match s with
  | EmptyString => s
  | String a s1 =>
      if ws1 a then trim_start s1 else
      match s1 with
      | EmptyString => s
      | String b s2 =>
          if ws2 a b then trim_start s2 else
          match s2 with
          | EmptyString => s
          | String c s3 => if ws3 a b c then trim_start s3 else s
          end
      end
  end.

Fixpoint trim_end (s : string) : string :=
  if trim_is_empty s then "" else
  match s with EmptyString => "" | String c s' => String c (trim_end s') end.

Definition trim (s : string) : string := trim_end (trim_start s).

(** [s.chars().any(char::is_whitespace)] *)
Fixpoint any_whitespace (s : string) : bool :=
  match s with
  | EmptyString => false
  | String a s1 =>
      ws1 a ||
      match s1 with
      | EmptyString => false
      | String b s2 =>
          ws2 a b || match s2 with EmptyString => false | String c _ => ws3 a b c end
      end || any_whitespace s1
  end.

(** [s.chars().any(char::is_control)]: U+0000..U+001F, U+007F and, in two
    bytes, U+0080..U+009F. *)
Fixpoint any_control (s : string) : bool :=
  match s with
  | EmptyString => false
  | String a s1 =>
      byte_between 0 31 a || (nat_of_ascii a =? 127) ||
      match s1 with
      | EmptyString => false
      | String b _ => (nat_of_ascii a =? 194) && byte_between 128 159 b
      end || any_control s1
  end.

Definition strip_suffix (suffix s : string) : option string :=
  if ends_with suffix s
  then Some (String.substring 0 (String.length s - String.length suffix) s) else None.

(** [s.rsplit_once(c)]: the texts before and after the last [c]. *)
Fixpoint rsplit_once (c : ascii) (s : string) : option (string * string) :=
  match s with
  | EmptyString => None
  | String a s' =>
      match rsplit_once c s' with
      | Some (before, after) => Some (String a before, after)
      | None => if bool_decide (a = c) then Some ("", s') else None
      end
  end.

(** ** Canonical grammars *)

(** [sha256:] followed by 64 lower-case hexadecimal digits. *)
Definition is_canonical_sha256_digest (value : string) : bool :=
  (String.length value =? 71) && starts_with "sha256:" value
  && str_all is_lower_hex (str_skip 7 value).

Definition is_canonical_git_object_id (value : string) : bool :=
  ((String.length value =? 40) || (String.length value =? 64)) && str_all is_lower_hex value.

Definition target_component_char (c : ascii) : bool :=
  is_ascii_alphanumeric c
  || (c == "-"%char) || (c == "_"%char) || (c == "."%char) || (c == "@"%char).

Definition target_component_ok (component : string) : bool :=
  (component != "") && negb (starts_with "." component)
  && negb (ends_with "." component) && (component != "@")
  && str_all target_component_char component.

Definition is_canonical_target_ref (value : string) : bool :=
  match strip_prefix "refs/heads/" value with
  | None => false
  | Some branch =>
      if (branch == "") || ends_with "/" branch || ends_with "." branch
         || ends_with ".lock" branch || str_contains ".." branch
         || str_contains "//" branch || str_contains "@{" branch
      then false
      else forallb target_component_ok (str_split "/"%char branch)
  end.

Definition BUILDPANE_CANDIDATE_REF_PREFIX : string := "refs/buildplane/candidates/".

Definition is_ascii_whitespace (c : ascii) : bool :=
  let n := nat_of_ascii c in
  (n =? 32) || (n =? 9) || (n =? 10) || (n =? 12) || (n =? 13).
Definition is_ascii_control (c : ascii) : bool :=
  let n := nat_of_ascii c in (n <=? 31) || (n =? 127).
Definition is_ascii (c : ascii) : bool := nat_of_ascii c <=? 127.

(** An authority actor: no surrounding white space, letters, digits and
    [: . _ - /]. *)
Definition actor_char (byte : ascii) : bool :=
  is_ascii_alphanumeric byte || (byte == ":"%char) || (byte == "."%char) || (byte == "_"%char)
  || (byte == "-"%char) || (byte == "/"%char).

Definition is_canonical_authority_actor (value : string) : bool :=
  (value != "") && (trim value == value) && str_all actor_char value.

Fixpoint str_any (f : ascii -> bool) (s : string) : bool :=
  match s with
  | EmptyString => false
  | String c s' => f c || str_any f s'
  end.

(** [bytes().enumerate().all(..)] of one ref segment: the byte at index 0 must
    be alphanumeric, the later ones may also be a dot, underscore or hyphen. *)
Definition ref_segment_tail_char (c : ascii) : bool :=
  is_ascii_alphanumeric c || (c == "."%char) || (c == "_"%char) || (c == "-"%char).
Definition ref_segment_bytes_ok (segment : string) : bool :=
  match segment with
  | EmptyString => true
  | String c rest => is_ascii_alphanumeric c && str_all ref_segment_tail_char rest
  end.
Definition ref_segment_ok (segment : string) : bool :=
  (segment != "") && negb (starts_with "." segment) && negb (ends_with "." segment)
  && negb (ends_with ".lock" segment) && ref_segment_bytes_ok segment.

Definition is_canonical_buildplane_ref_suffix (reference suffix : string) : bool :=
  if (suffix == "") || negb (str_all is_ascii reference)
     || str_any (fun byte => is_ascii_whitespace byte || is_ascii_control byte) reference
     || str_contains ".." reference || str_contains "//" reference
     || str_contains "@{" reference
  then false
  else forallb ref_segment_ok (str_split "/"%char suffix).

Definition is_canonical_buildplane_candidate_ref (candidate_ref : string) : bool :=
  match strip_prefix BUILDPANE_CANDIDATE_REF_PREFIX candidate_ref with
  | None => false
  | Some suffix => is_canonical_buildplane_ref_suffix candidate_ref suffix
  end.

Definition is_canonical_buildplane_promotion_receipt_ref (receipt_ref : string) : bool :=
  match strip_prefix "refs/buildplane/promotions/" receipt_ref with
  | None => false
  | Some suffix => is_canonical_buildplane_ref_suffix receipt_ref suffix
  end.

Definition promotion_receipt_ref_matches_candidate (receipt_ref candidate_ref : string) : bool :=
  if negb (is_canonical_buildplane_candidate_ref candidate_ref) then false
  else match strip_prefix BUILDPANE_CANDIDATE_REF_PREFIX candidate_ref with
       | Some candidate_suffix =>
           receipt_ref == ("refs/buildplane/promotions/" +:+ candidate_suffix)
       | None => false
       end.

(** ** Facts about the string operations *)

Lemma str_app_cons c (s t : string) : String c s +:+ t = String c (s +:+ t).
Proof. reflexivity. Qed.
Lemma str_app_nil (t : string) : "" +:+ t = t.
Proof. reflexivity. Qed.
Lemma str_app_assoc (s t u : string) : (s +:+ t) +:+ u = s +:+ (t +:+ u).
Proof.
  induction s as [|c s IH]; [done|]. by rewrite !str_app_cons, IH.
Qed.

Lemma str_app_nil_r (s : string) : s +:+ "" = s.
Proof. induction s as [|c s IH]; [done|]. by rewrite str_app_cons, IH. Qed.

Lemma str_all_impl (f g : ascii -> bool) s :
  (forall c, f c = true -> g c = true) -> str_all f s = true -> str_all g s = true.
Proof.
  intros Hfg. induction s as [|c s IH]; simpl; [done|].
  rewrite !andb_true_iff. intros [? ?]; auto.
Qed.

Lemma strip_prefix_Some p s r : strip_prefix p s = Some r <-> s = p +:+ r.
Proof.
  revert s r. induction p as [|a p IH]; intros s r; simpl.
  - rewrite str_app_nil. split; congruence.
  - destruct s as [|b s]; rewrite str_app_cons; [split; congruence|].
    case_bool_decide as E; subst; rewrite ?IH; split; intros; simplify_eq; done.
Qed.

Lemma strip_prefix_app p r : strip_prefix p (p +:+ r) = Some r.
Proof. by apply strip_prefix_Some. Qed.

Lemma str_all_app f s t : str_all f (s +:+ t) = str_all f s && str_all f t.
Proof.
  induction s as [|c s IH]; rewrite ?str_app_cons; simpl; [done|].
  by rewrite IH, andb_assoc.
Qed.

Lemma string_app_length s t : String.length (s +:+ t) = (String.length s + String.length t)%nat.
Proof. induction s as [|c s IH]; rewrite ?str_app_cons; simpl; [done|by rewrite IH]. Qed.

Lemma substring_all s : String.substring 0 (String.length s) s = s.
Proof. induction s as [|c s IH]; simpl; [done|by rewrite IH]. Qed.

Lemma str_skip_app p r : str_skip (String.length p) (p +:+ r) = r.
Proof.
  unfold str_skip. rewrite string_app_length.
  replace (String.length p + String.length r - String.length p)%nat with (String.length r) by lia.
  induction p as [|c p IH]; [apply substring_all|]. rewrite str_app_cons. exact IH.
Qed.

(** The reducer derives the receipt ref of a promotion from the candidate ref;
    the derived ref always passes the ledger's own receipt-ref grammar. *)
Lemma candidate_suffix_canonical suffix :
  is_canonical_buildplane_candidate_ref (BUILDPANE_CANDIDATE_REF_PREFIX +:+ suffix) =
  is_canonical_buildplane_promotion_receipt_ref ("refs/buildplane/promotions/" +:+ suffix).
Proof.
  unfold is_canonical_buildplane_candidate_ref, is_canonical_buildplane_promotion_receipt_ref.
  rewrite !strip_prefix_app. unfold is_canonical_buildplane_ref_suffix.
  reflexivity.
Qed.
