(* ===== verification/Host.v ===== *)
(** * The host interface: third-party code the program calls

    The crates outside the repository ([uuid], [chrono], [sha2], [serde_json],
    [ed25519-dalek], [base64]) enter the model as the operations of one class.
    Only what the sources call is listed.  No law is assumed here: a theorem
    that relies on a documented property of an operation names it as a
    hypothesis (for instance that distinct UUIDs print differently). *)
From S2P Require Import Prelude.
From stdpp Require Import base list strings.

(** ** JSON values

    [serde_json::Value] and the values produced by [#[derive(Serialize)]]:
    object members keep their order, the declaration order of the struct. *)
#[warnings="-register-all"] Inductive Json :=
| JNull
| JBool (b : bool)
| JInt (n : Z)
| JFloat (x : f64)
| JString (s : string)
| JArray (items : list Json)
| JObject (members : list (string * Json)).

Fixpoint json_eqb (x y : Json) {struct x} : bool :=
  let fix items_eqb (xs ys : list Json) {struct xs} : bool :=
    match xs, ys with
    | [], [] => true
    | a :: xs', b :: ys' => json_eqb a b && items_eqb xs' ys'
    | _, _ => false
    end in
  let fix members_eqb (xs ys : list (string * Json)) {struct xs} : bool :=
    match xs, ys with
    | [], [] => true
    | (k, a) :: xs', (l, b) :: ys' =>
        bool_decide (k = l) && json_eqb a b && members_eqb xs' ys'
    | _, _ => false
    end in
  match x, y with
  | JNull, JNull => true
  | JBool a, JBool b => bool_decide (a = b)
  | JInt a, JInt b => bool_decide (a = b)
  | JFloat a, JFloat b => bool_decide (a = b)
  | JString a, JString b => bool_decide (a = b)
  | JArray a, JArray b => items_eqb a b
  | JObject a, JObject b => members_eqb a b
  | _, _ => false
  end.

(** Structural induction with the hypotheses for nested lists. *)
Section JsonInd.
Context (P : Json -> Prop).
Context (Hnull : P JNull) (Hbool : forall b, P (JBool b)) (Hint : forall n, P (JInt n))
  (Hfloat : forall x, P (JFloat x)) (Hstring : forall s, P (JString s))
  (Harray : forall l, Forall P l -> P (JArray l))
  (Hobject : forall l, Forall (fun kv => P kv.2) l -> P (JObject l)).

Definition json_nested_ind : forall j, P j :=
  fix go j :=
    match j with
    | JNull => Hnull
    | JBool b => Hbool b
    | JInt n => Hint n
    | JFloat x => Hfloat x
    | JString s => Hstring s
    | JArray l =>
        Harray l ((fix all l : Forall P l :=
                     match l with
                     | [] => Forall_nil_2 _
                     | a :: l' => Forall_cons_2 _ _ _ (go a) (all l')
                     end) l)
    | JObject l =>
        Hobject l ((fix all l : Forall (fun kv => P kv.2) l :=
                      match l with
                      | [] => Forall_nil_2 _
                      | kv :: l' => Forall_cons_2 _ _ _ (go kv.2) (all l')
                      end) l)
    end.
End JsonInd.

Lemma json_eqb_eq x y : json_eqb x y = true <-> x = y.
Proof.
  revert y. induction x as [| | | | |l IH|l IH] using json_nested_ind; intros y;
    destruct y as [| | | | |l'|l']; simpl; rewrite ?bool_decide_eq_true; try (split; congruence).
  - revert l'. induction IH as [|a l Ha _ IHl]; intros [|b l']; try (split; congruence).
    rewrite andb_true_iff, Ha, IHl. split; [intros [-> ?]; congruence|].
    intros; simplify_eq; done.
  - revert l'. induction IH as [|[k a] l Ha _ IHl]; intros [|[k' b] l']; try (split; congruence).
    rewrite !andb_true_iff, bool_decide_eq_true, Ha, IHl. simpl.
    split; [intros [[-> ->] ?]; congruence|]. intros; simplify_eq; done.
Qed.

#[global] Instance Json_eq_dec : EqDecision Json.
Proof.
  refine (fun x y => match json_eqb x y as b return json_eqb x y = b -> Decision (x = y) with
                     | true => fun H => left (proj1 (json_eqb_eq x y) H)
                     | false => fun H => right _
                     end eq_refl).
  intros ->. assert (json_eqb y y = true) by (by apply json_eqb_eq). congruence.
Defined.

(** ** Third-party operations *)
Class Host := {
  (** [uuid::Uuid]'s [Display]: the hyphenated text of a UUID. *)
  uuid_to_string : Uuid -> string;
  (** [chrono::DateTime::parse_from_rfc3339(..).ok()], normalised to UTC. *)
  parse_from_rfc3339 : string -> option DateTime;
  (** [DateTime::checked_add_signed(Duration::milliseconds(ms))]. *)
  checked_add_milliseconds : DateTime -> Z -> option DateTime;
  (** [DateTime::to_rfc3339_opts(SecondsFormat::Millis, true)]. *)
  to_rfc3339_millis : DateTime -> string;
  (** [DateTime::to_rfc3339_opts(SecondsFormat::AutoSi, true)]. *)
  to_rfc3339_auto_si : DateTime -> string;
  (** [format!("{:x}", Sha256::digest(bytes))]. *)
  sha256_hex : string -> string;
  (** [serde_json::to_vec] of an already built value. *)
  serde_json_to_vec : Json -> string
}.
