(* ===== verification/LedgerPayloads.v ===== *)
(** * Ledger payloads outside the trust spine

    Run, plan, unit, activity, Git, model, tool and workspace records of
    [bp-ledger/src/payload/].  A struct [T] with field [f] becomes a Rocq
    record [T] whose projection is [<prefix>_f]; an enum [E] with variant [V]
    becomes the constructor [E_V].  [f32] sampling parameters share the [f64]
    carrier. *)
From S2P Require Import Prelude Host.
From stdpp Require Import base gmap strings.

Record RunStartedV1 := {
  rs_packet_hash : string;
  rs_git_head : string;
  rs_workspace_path : string;
  rs_config : gmap string Json;
  rs_parent_run_id : option RunId;
  rs_parent_event_id : option EventId
}.
#[global] Instance RunStartedV1_eq_dec : EqDecision RunStartedV1.
Proof. solve_decision. Defined.

Inductive RunOutcome :=
| RunOutcome_Passed
| RunOutcome_Failed
| RunOutcome_Cancelled.
#[global] Instance RunOutcome_eq_dec : EqDecision RunOutcome.
Proof. solve_decision. Defined.

Record RunCompletedV1 := {
  rc_outcome : RunOutcome;
  rc_duration_ms : string;
  rc_event_count : string;
  rc_unit_count : string
}.
#[global] Instance RunCompletedV1_eq_dec : EqDecision RunCompletedV1.
Proof. solve_decision. Defined.

Record ResultReadyV1 := {
  rr_run_id : string;
  rr_admission_event_id : string;
  rr_acceptance_event_id : string
}.
#[global] Instance ResultReadyV1_eq_dec : EqDecision ResultReadyV1.
Proof. solve_decision. Defined.

Record RunFailedV1 := {
  rfl_reason : string;
  rfl_terminating_event_id : option EventId
}.
#[global] Instance RunFailedV1_eq_dec : EqDecision RunFailedV1.
Proof. solve_decision. Defined.

Inductive RunAdmissionDecision :=
| RunAdmissionDecision_Pass
| RunAdmissionDecision_Blocked
| RunAdmissionDecision_Failed
| RunAdmissionDecision_InsufficientEvidence
| RunAdmissionDecision_UnsafeToRun.
#[global] Instance RunAdmissionDecision_eq_dec : EqDecision RunAdmissionDecision.
Proof. solve_decision. Defined.

Record RunAdmissionDeniedSideEffectV1 := {
  radse_effect : string;
  radse_reason : string
}.
#[global] Instance RunAdmissionDeniedSideEffectV1_eq_dec : EqDecision RunAdmissionDeniedSideEffectV1.
Proof. solve_decision. Defined.

Record RunAdmissionEvidenceInputV1 := {
  raei_kind : string;
  raei_reference : string;
  raei_digest : option string;
  raei_required : bool;
  raei_status : string;
  raei_reason : option string
}.
#[global] Instance RunAdmissionEvidenceInputV1_eq_dec : EqDecision RunAdmissionEvidenceInputV1.
Proof. solve_decision. Defined.

Record RunAdmissionRecordedV1 := {
  rar_receipt_id : string;
  rar_receipt_digest : string;
  rar_receipt_ref : option string;
  rar_idempotency_key : string;
  rar_decision : RunAdmissionDecision;
  rar_policy_profile_id : string;
  rar_requested_side_effects : list string;
  rar_allowed_side_effects : list string;
  rar_denied_side_effects : list RunAdmissionDeniedSideEffectV1;
  rar_missing_evidence : list string;
  rar_unsafe_requests : list string;
  rar_evidence_inputs : list RunAdmissionEvidenceInputV1;
  rar_quarantine : bool;
  rar_will_execute_worker : bool;
  rar_authorized_next_step : string;
  rar_decided_by : string;
  rar_decided_at : string
}.
#[global] Instance RunAdmissionRecordedV1_eq_dec : EqDecision RunAdmissionRecordedV1.
Proof. solve_decision. Defined.

Record PlanAdmittedV1 := {
  pa_plan_id : string;
  pa_plan_digest : string;
  pa_input_digest : string;
  pa_trusted_base : string;
  pa_decided_by : string;
  pa_decided_at : string;
  pa_idempotency_key : string;
  pa_authorized_next_step : string
}.
#[global] Instance PlanAdmittedV1_eq_dec : EqDecision PlanAdmittedV1.
Proof. solve_decision. Defined.

Inductive PlanReceiptOutcome :=
| PlanReceiptOutcome_Completed
| PlanReceiptOutcome_Failed
| PlanReceiptOutcome_Aborted.
#[global] Instance PlanReceiptOutcome_eq_dec : EqDecision PlanReceiptOutcome.
Proof. solve_decision. Defined.

Record PlanReceiptRecordedV1 := {
  plr_plan_id : string;
  plr_admission_event_id : EventId;
  plr_outcome : PlanReceiptOutcome;
  plr_side_effects : list string;
  plr_result_digest : string;
  plr_decided_at : string
}.
#[global] Instance PlanReceiptRecordedV1_eq_dec : EqDecision PlanReceiptRecordedV1.
Proof. solve_decision. Defined.

Inductive ActivityType :=
| ActivityType_Model
| ActivityType_Tool
| ActivityType_Command.
#[global] Instance ActivityType_eq_dec : EqDecision ActivityType.
Proof. solve_decision. Defined.

Record ActivityStartedV1 := {
  ast_run_id : RunId;
  ast_activity_id : string;
  ast_activity_type : ActivityType;
  ast_input_digest : string
}.
#[global] Instance ActivityStartedV1_eq_dec : EqDecision ActivityStartedV1.
Proof. solve_decision. Defined.

Record ActivityCompletedV1 := {
  acp_run_id : RunId;
  acp_activity_id : string;
  acp_result_digest : string;
  acp_result : Json
}.
#[global] Instance ActivityCompletedV1_eq_dec : EqDecision ActivityCompletedV1.
Proof. solve_decision. Defined.

Record UnitStartedV1 := {
  us_unit_id : string;
  us_parent_unit_id : option string;
  us_unit_kind : string;
  us_policy : Json
}.
#[global] Instance UnitStartedV1_eq_dec : EqDecision UnitStartedV1.
Proof. solve_decision. Defined.

Inductive UnitOutcome :=
| UnitOutcome_Passed
| UnitOutcome_Failed.
#[global] Instance UnitOutcome_eq_dec : EqDecision UnitOutcome.
Proof. solve_decision. Defined.

Record ArtifactRef := {
  ar_path : string;
  ar_hash : string;
  ar_size_bytes : u64
}.
#[global] Instance ArtifactRef_eq_dec : EqDecision ArtifactRef.
Proof. solve_decision. Defined.

Record UnitCompletedV1 := {
  uc_unit_id : string;
  uc_outcome : UnitOutcome;
  uc_artifacts : list ArtifactRef
}.
#[global] Instance UnitCompletedV1_eq_dec : EqDecision UnitCompletedV1.
Proof. solve_decision. Defined.

Record UnitFailedV1 := {
  uf_unit_id : string;
  uf_reason : string;
  uf_terminating_event_id : option EventId
}.
#[global] Instance UnitFailedV1_eq_dec : EqDecision UnitFailedV1.
Proof. solve_decision. Defined.

Inductive CancelCause :=
| CancelCause_Timeout
| CancelCause_ParentFailed
| CancelCause_OperatorInterrupt.
#[global] Instance CancelCause_eq_dec : EqDecision CancelCause.
Proof. solve_decision. Defined.

Record UnitCancelledV1 := {
  uca_unit_id : string;
  uca_cause : CancelCause
}.
#[global] Instance UnitCancelledV1_eq_dec : EqDecision UnitCancelledV1.
Proof. solve_decision. Defined.

Inductive CheckpointBoundary :=
| CheckpointBoundary_PreUnit
| CheckpointBoundary_PostUnit.
#[global] Instance CheckpointBoundary_eq_dec : EqDecision CheckpointBoundary.
Proof. solve_decision. Defined.

Inductive GitStatus :=
| GitStatus_Ok
| GitStatus_Failed (error : string).
#[global] Instance GitStatus_eq_dec : EqDecision GitStatus.
Proof. solve_decision. Defined.

Record GitCheckpointV1 := {
  gc_boundary : CheckpointBoundary;
  gc_reference : string;
  gc_commit_sha : string;
  gc_unit_id : string;
  gc_git_status : GitStatus
}.
#[global] Instance GitCheckpointV1_eq_dec : EqDecision GitCheckpointV1.
Proof. solve_decision. Defined.

Record Message := {
  m_role : string;
  m_content : string
}.
#[global] Instance Message_eq_dec : EqDecision Message.
Proof. solve_decision. Defined.

Record SamplingParams := {
  sp_temperature : option f64;
  sp_top_p : option f64;
  sp_max_tokens : option u32
}.
#[global] Instance SamplingParams_eq_dec : EqDecision SamplingParams.
Proof. solve_decision. Defined.

Inductive HeaderValue :=
| HeaderValue_Raw (value : string)
| HeaderValue_Redacted (hash : string) (hint : string).
#[global] Instance HeaderValue_eq_dec : EqDecision HeaderValue.
Proof. solve_decision. Defined.

Record ModelRequestV1 := {
  mr_provider : string;
  mr_model : string;
  mr_system : option string;
  mr_messages : list Message;
  mr_tools : list Json;
  mr_sampling : SamplingParams;
  mr_headers : gmap string HeaderValue
}.
#[global] Instance ModelRequestV1_eq_dec : EqDecision ModelRequestV1.
Proof. solve_decision. Defined.

Record ToolCall := {
  tca_id : string;
  tca_name : string;
  tca_arguments : Json
}.
#[global] Instance ToolCall_eq_dec : EqDecision ToolCall.
Proof. solve_decision. Defined.

Record Usage := {
  u_input_tokens : u32;
  u_output_tokens : u32
}.
#[global] Instance Usage_eq_dec : EqDecision Usage.
Proof. solve_decision. Defined.

Record ModelResponseV1 := {
  mres_content : option string;
  mres_tool_calls : list ToolCall;
  mres_usage : Usage;
  mres_stop_reason : string;
  mres_latency_ms : u64
}.
#[global] Instance ModelResponseV1_eq_dec : EqDecision ModelResponseV1.
Proof. solve_decision. Defined.

Record ToolResultV1 := {
  tr_tool_request_id : EventId;
  tr_stdout : string;
  tr_stderr : string;
  tr_exit_code : option Z;
  tr_output : option Json;
  tr_duration_ms : u64
}.
#[global] Instance ToolResultV1_eq_dec : EqDecision ToolResultV1.
Proof. solve_decision. Defined.

Record EnvRedaction := {
  er_redacted : bool;
  er_hash : string;
  er_hint : string
}.
#[global] Instance EnvRedaction_eq_dec : EqDecision EnvRedaction.
Proof. solve_decision. Defined.

Record ToolRequestStoredV1 := {
  trs_tool_name : string;
  trs_arguments : Json;
  trs_env : EnvRedaction;
  trs_working_directory : string;
  trs_unit_id : string
}.
#[global] Instance ToolRequestStoredV1_eq_dec : EqDecision ToolRequestStoredV1.
Proof. solve_decision. Defined.

Record WorkspaceReadV1 := {
  wr_tool_request_id : EventId;
  wr_path : string;
  wr_content_hash : string;
  wr_size_bytes : u64
}.
#[global] Instance WorkspaceReadV1_eq_dec : EqDecision WorkspaceReadV1.
Proof. solve_decision. Defined.

Inductive PostWriteState :=
| PostWriteState_Captured (hash : string) (size_bytes : u64)
| PostWriteState_Unreadable (reason : string).
#[global] Instance PostWriteState_eq_dec : EqDecision PostWriteState.
Proof. solve_decision. Defined.

Record WorkspaceWriteV1 := {
  ww_tool_request_id : EventId;
  ww_path : string;
  ww_hash_before : option string;
  ww_after : PostWriteState
}.
#[global] Instance WorkspaceWriteV1_eq_dec : EqDecision WorkspaceWriteV1.
Proof. solve_decision. Defined.

Inductive TapeRootAlgorithm :=
| TapeRootAlgorithm_Sha256Linear.
#[global] Instance TapeRootAlgorithm_eq_dec : EqDecision TapeRootAlgorithm.
Proof. solve_decision. Defined.

Record TapeCheckpointV1 := {
  tc_run_id : RunId;
  tc_checkpoint_index : u64;
  tc_through_event_id : EventId;
  tc_through_event_count : u64;
  tc_previous_checkpoint_event_id : option EventId;
  tc_tape_root_hash : string;
  tc_algorithm : TapeRootAlgorithm
}.
#[global] Instance TapeCheckpointV1_eq_dec : EqDecision TapeCheckpointV1.
Proof. solve_decision. Defined.

Record CapabilityDeniedV1 := {
  cd_run_id : string;
  cd_bundle_digest : string;
  cd_tool : string;
  cd_reason : string;
  cd_target : string
}.
#[global] Instance CapabilityDeniedV1_eq_dec : EqDecision CapabilityDeniedV1.
Proof. solve_decision. Defined.

Record AcceptanceCheckResultV1 := {
  achk_command : string;
  achk_exit_code : string;
  achk_status : string
}.
#[global] Instance AcceptanceCheckResultV1_eq_dec : EqDecision AcceptanceCheckResultV1.
Proof. solve_decision. Defined.

Record AcceptanceRecordedV1 := {
  acrec_plan_id : string;
  acrec_admission_event_id : string;
  acrec_contract_digest : string;
  acrec_outcome : string;
  acrec_diff_scope_status : string;
  acrec_out_of_scope_files : list string;
  acrec_checks : list AcceptanceCheckResultV1;
  acrec_evaluated_at : string
}.
#[global] Instance AcceptanceRecordedV1_eq_dec : EqDecision AcceptanceRecordedV1.
Proof. solve_decision. Defined.

Record OperatorDecisionRecordedV1 := {
  odr_run_id : string;
  odr_decision : string;
  odr_subject : string;
  odr_acceptance_event_id : option string;
  odr_admission_event_id : option string;
  odr_merge_commit : option string;
  odr_envelope : option string;
  odr_decided_by : string;
  odr_decided_at : string
}.
#[global] Instance OperatorDecisionRecordedV1_eq_dec : EqDecision OperatorDecisionRecordedV1.
Proof. solve_decision. Defined.

Inductive ReleaseEvaluationClaimKindV1 :=
| ReleaseEvaluationClaimKindV1_Trial
| ReleaseEvaluationClaimKindV1_TargetBranchImmutability
| ReleaseEvaluationClaimKindV1_BackwardReplayCompatibility
| ReleaseEvaluationClaimKindV1_RequiredCheck.
#[global] Instance ReleaseEvaluationClaimKindV1_eq_dec : EqDecision ReleaseEvaluationClaimKindV1.
Proof. solve_decision. Defined.

Inductive ReleaseEvaluationGovernanceV1 :=
| ReleaseEvaluationGovernanceV1_Governed
| ReleaseEvaluationGovernanceV1_Raw.
#[global] Instance ReleaseEvaluationGovernanceV1_eq_dec : EqDecision ReleaseEvaluationGovernanceV1.
Proof. solve_decision. Defined.

Record ReleaseEvaluationSourceEventRefV1 := {
  reser_source_event_id : EventId;
  reser_source_canonical_event_hash : string
}.
#[global] Instance ReleaseEvaluationSourceEventRefV1_eq_dec : EqDecision ReleaseEvaluationSourceEventRefV1.
Proof. solve_decision. Defined.

Record ReleaseEvaluationTrialSourcesV1 := {
  rets_model_request : ReleaseEvaluationSourceEventRefV1;
  rets_candidate : ReleaseEvaluationSourceEventRefV1;
  rets_acceptance : ReleaseEvaluationSourceEventRefV1;
  rets_review : ReleaseEvaluationSourceEventRefV1;
  rets_recovery : ReleaseEvaluationSourceEventRefV1;
  rets_terminal : ReleaseEvaluationSourceEventRefV1
}.
#[global] Instance ReleaseEvaluationTrialSourcesV1_eq_dec : EqDecision ReleaseEvaluationTrialSourcesV1.
Proof. solve_decision. Defined.

Record ReleaseEvaluationTrialClaimV1 := {
  retc_task_id : string;
  retc_provider : string;
  retc_trust_tier : string;
  retc_trial : u8;
  retc_governance : ReleaseEvaluationGovernanceV1;
  retc_passed : bool;
  retc_cost_usd_micros : u64;
  retc_latency_ms : u64;
  retc_tokens : u64;
  retc_tool_calls : u32;
  retc_candidate_count : u32;
  retc_reviewer_disagreed : bool;
  retc_false_approval : bool;
  retc_unauthorized_effects : u32;
  retc_duplicate_effects : u32;
  retc_safety_violations : u32;
  retc_recovery_correct : bool;
  retc_illegitimate_success : bool;
  retc_sources : ReleaseEvaluationTrialSourcesV1
}.
#[global] Instance ReleaseEvaluationTrialClaimV1_eq_dec : EqDecision ReleaseEvaluationTrialClaimV1.
Proof. solve_decision. Defined.

Record ReleaseEvaluationTargetBranchImmutabilityClaimV1 := {
  retbic_immutable : bool;
  retbic_source : ReleaseEvaluationSourceEventRefV1
}.
#[global] Instance ReleaseEvaluationTargetBranchImmutabilityClaimV1_eq_dec : EqDecision ReleaseEvaluationTargetBranchImmutabilityClaimV1.
Proof. solve_decision. Defined.

Record ReleaseEvaluationBackwardReplayCompatibilityClaimV1 := {
  rebrcc_compatible : bool;
  rebrcc_source : ReleaseEvaluationSourceEventRefV1
}.
#[global] Instance ReleaseEvaluationBackwardReplayCompatibilityClaimV1_eq_dec : EqDecision ReleaseEvaluationBackwardReplayCompatibilityClaimV1.
Proof. solve_decision. Defined.

Inductive ReleaseEvaluationCheckConclusionV1 :=
| ReleaseEvaluationCheckConclusionV1_Success
| ReleaseEvaluationCheckConclusionV1_Failure
| ReleaseEvaluationCheckConclusionV1_Cancelled
| ReleaseEvaluationCheckConclusionV1_Skipped
| ReleaseEvaluationCheckConclusionV1_TimedOut
| ReleaseEvaluationCheckConclusionV1_Neutral
| ReleaseEvaluationCheckConclusionV1_ActionRequired.
#[global] Instance ReleaseEvaluationCheckConclusionV1_eq_dec : EqDecision ReleaseEvaluationCheckConclusionV1.
Proof. solve_decision. Defined.

Record ReleaseEvaluationRequiredCheckClaimV1 := {
  rercc_name : string;
  rercc_conclusion : ReleaseEvaluationCheckConclusionV1;
  rercc_source : ReleaseEvaluationSourceEventRefV1
}.
#[global] Instance ReleaseEvaluationRequiredCheckClaimV1_eq_dec : EqDecision ReleaseEvaluationRequiredCheckClaimV1.
Proof. solve_decision. Defined.

Inductive ReleaseEvaluationClaimV1 :=
| ReleaseEvaluationClaimV1_Trial (p : ReleaseEvaluationTrialClaimV1)
| ReleaseEvaluationClaimV1_TargetBranchImmutability (p : ReleaseEvaluationTargetBranchImmutabilityClaimV1)
| ReleaseEvaluationClaimV1_BackwardReplayCompatibility (p : ReleaseEvaluationBackwardReplayCompatibilityClaimV1)
| ReleaseEvaluationClaimV1_RequiredCheck (p : ReleaseEvaluationRequiredCheckClaimV1).
#[global] Instance ReleaseEvaluationClaimV1_eq_dec : EqDecision ReleaseEvaluationClaimV1.
Proof. solve_decision. Defined.

Record ReleaseEvaluationEvidenceV1 := {
  ree_schema_version : u32;
  ree_release_commit : string;
  ree_release_ref : string;
  ree_policy_digest : string;
  ree_claim_kind : ReleaseEvaluationClaimKindV1;
  ree_claim : ReleaseEvaluationClaimV1;
  ree_claim_digest : string
}.
#[global] Instance ReleaseEvaluationEvidenceV1_eq_dec : EqDecision ReleaseEvaluationEvidenceV1.
Proof. solve_decision. Defined.

