(* ===== verification/TrustSpine.v ===== *)
(** * Trust-spine payloads

    The evidence records of the governed workflow
    ([bp-ledger/src/payload/trust_spine.rs]) and the activity-claim records
    ([bp-ledger/src/payload/activity_claim.rs]): dispatch envelopes V1 to V5,
    manifests, workflow graphs, actions and receipts, candidates, reviews,
    promotions, timers, cancellations and terminals.  Naming follows
    [LedgerPayloads]. *)
From S2P Require Import Prelude Host.
From stdpp Require Import base gmap strings.

Inductive ExecutionRoleV1 :=
| ExecutionRoleV1_Implementer
| ExecutionRoleV1_Reviewer
| ExecutionRoleV1_Adversary
| ExecutionRoleV1_Judge
| ExecutionRoleV1_Candidate.
#[global] Instance ExecutionRoleV1_eq_dec : EqDecision ExecutionRoleV1.
Proof. solve_decision. Defined.

Inductive CommitModeV1 :=
| CommitModeV1_Atomic
| CommitModeV1_Incremental
| CommitModeV1_Saga.
#[global] Instance CommitModeV1_eq_dec : EqDecision CommitModeV1.
Proof. solve_decision. Defined.

Inductive TrustTierV1 :=
| TrustTierV1_Raw
| TrustTierV1_Governed.
#[global] Instance TrustTierV1_eq_dec : EqDecision TrustTierV1.
Proof. solve_decision. Defined.

Record SignatureRefV1 := {
  sr_algorithm : string;
  sr_key_id : string;
  sr_signature : string
}.
#[global] Instance SignatureRefV1_eq_dec : EqDecision SignatureRefV1.
Proof. solve_decision. Defined.

Record DispatchBudgetV1 := {
  db_max_tokens : option u32;
  db_max_compute_time_ms : option u32
}.
#[global] Instance DispatchBudgetV1_eq_dec : EqDecision DispatchBudgetV1.
Proof. solve_decision. Defined.

Record DispatchEnvelopeV1 := {
  de_workflow_id : string;
  de_workflow_revision : string;
  de_unit_id : string;
  de_attempt : u32;
  de_execution_role : ExecutionRoleV1;
  de_commit_mode : CommitModeV1;
  de_provenance_ref : string;
  de_base_commit_sha : string;
  de_capability_bundle_digest : string;
  de_acceptance_contract_digest : string;
  de_context_manifest_digest : string;
  de_worker_manifest_digest : string;
  de_sandbox_profile_digest : string;
  de_budget : DispatchBudgetV1;
  de_trust_tier : TrustTierV1;
  de_idempotency_key : string;
  de_issued_at : string;
  de_expires_at : string;
  de_envelope_digest : string;
  de_signature_ref : SignatureRefV1
}.
#[global] Instance DispatchEnvelopeV1_eq_dec : EqDecision DispatchEnvelopeV1.
Proof. solve_decision. Defined.

Record DispatchEnvelopeBodyV2 := {
  deb2_workflow_id : string;
  deb2_workflow_revision : string;
  deb2_unit_id : string;
  deb2_attempt : u32;
  deb2_execution_role : ExecutionRoleV1;
  deb2_commit_mode : CommitModeV1;
  deb2_provenance_ref : string;
  deb2_base_commit_sha : string;
  deb2_capability_bundle_digest : string;
  deb2_acceptance_contract_digest : string;
  deb2_context_manifest_digest : string;
  deb2_worker_manifest_digest : string;
  deb2_sandbox_profile_digest : string;
  deb2_budget : DispatchBudgetV1;
  deb2_trust_tier : TrustTierV1;
  deb2_idempotency_key : string;
  deb2_issued_at : string;
  deb2_expires_at : string
}.
#[global] Instance DispatchEnvelopeBodyV2_eq_dec : EqDecision DispatchEnvelopeBodyV2.
Proof. solve_decision. Defined.

Record DispatchEnvelopeV2 := {
  de2_body : DispatchEnvelopeBodyV2;
  de2_envelope_digest : string
}.
#[global] Instance DispatchEnvelopeV2_eq_dec : EqDecision DispatchEnvelopeV2.
Proof. solve_decision. Defined.

Inductive ActionEvidenceVersionV1 :=
| ActionEvidenceVersionV1_SealedV2
| ActionEvidenceVersionV1_SealedV3.
#[global] Instance ActionEvidenceVersionV1_eq_dec : EqDecision ActionEvidenceVersionV1.
Proof. solve_decision. Defined.

Record DispatchEnvelopeV3 := {
  de3_body : DispatchEnvelopeBodyV2;
  de3_action_evidence_version : ActionEvidenceVersionV1;
  de3_repository_binding_digest : string;
  de3_ledger_authority_realm_digest : string;
  de3_governed_packet_digest : option string;
  de3_envelope_digest : string
}.
#[global] Instance DispatchEnvelopeV3_eq_dec : EqDecision DispatchEnvelopeV3.
Proof. solve_decision. Defined.

Record DispatchEnvelopeV4 := {
  de4_dispatch_v3 : DispatchEnvelopeV3;
  de4_workflow_graph_digest : string;
  de4_workflow_graph_declaration_event_ref : EventId;
  de4_envelope_digest : string
}.
#[global] Instance DispatchEnvelopeV4_eq_dec : EqDecision DispatchEnvelopeV4.
Proof. solve_decision. Defined.

Inductive ContextManifestEntryKindV1 :=
| ContextManifestEntryKindV1_RepositoryFile
| ContextManifestEntryKindV1_Memory
| ContextManifestEntryKindV1_Plan
| ContextManifestEntryKindV1_Policy
| ContextManifestEntryKindV1_Skill
| ContextManifestEntryKindV1_Document
| ContextManifestEntryKindV1_Artifact
| ContextManifestEntryKindV1_External.
#[global] Instance ContextManifestEntryKindV1_eq_dec : EqDecision ContextManifestEntryKindV1.
Proof. solve_decision. Defined.

Inductive ContextTrustLevelV1 :=
| ContextTrustLevelV1_Trusted
| ContextTrustLevelV1_Verified
| ContextTrustLevelV1_Untrusted
| ContextTrustLevelV1_Quarantined.
#[global] Instance ContextTrustLevelV1_eq_dec : EqDecision ContextTrustLevelV1.
Proof. solve_decision. Defined.

Inductive ContextTaintV1 :=
| ContextTaintV1_Clean
| ContextTaintV1_External
| ContextTaintV1_Retrieved
| ContextTaintV1_Remote
| ContextTaintV1_Skill.
#[global] Instance ContextTaintV1_eq_dec : EqDecision ContextTaintV1.
Proof. solve_decision. Defined.

Record ContextManifestEntryV1 := {
  cme_kind : ContextManifestEntryKindV1;
  cme_reference : string;
  cme_digest : string;
  cme_provenance_ref : string;
  cme_trust : ContextTrustLevelV1;
  cme_taint : ContextTaintV1
}.
#[global] Instance ContextManifestEntryV1_eq_dec : EqDecision ContextManifestEntryV1.
Proof. solve_decision. Defined.

Record ContextManifestContentV1 := {
  cmc_entries : list ContextManifestEntryV1
}.
#[global] Instance ContextManifestContentV1_eq_dec : EqDecision ContextManifestContentV1.
Proof. solve_decision. Defined.

Inductive WorkerProviderV1 :=
| WorkerProviderV1_Anthropic
| WorkerProviderV1_OpenAi.
#[global] Instance WorkerProviderV1_eq_dec : EqDecision WorkerProviderV1.
Proof. solve_decision. Defined.

Inductive WorkerHarnessV1 :=
| WorkerHarnessV1_AnthropicApiSdk
| WorkerHarnessV1_OpenAiApiSdk.
#[global] Instance WorkerHarnessV1_eq_dec : EqDecision WorkerHarnessV1.
Proof. solve_decision. Defined.

Record WorkerManifestContentV1 := {
  wmc_provider : WorkerProviderV1;
  wmc_model : string;
  wmc_harness : WorkerHarnessV1;
  wmc_image_digest : string;
  wmc_tool_manifest_digest : string;
  wmc_skill_manifest_digest : string;
  wmc_capability_bundle_digest : string;
  wmc_execution_role : ExecutionRoleV1
}.
#[global] Instance WorkerManifestContentV1_eq_dec : EqDecision WorkerManifestContentV1.
Proof. solve_decision. Defined.

Inductive SandboxRuntimeV1 :=
| SandboxRuntimeV1_RootlessOci.
#[global] Instance SandboxRuntimeV1_eq_dec : EqDecision SandboxRuntimeV1.
Proof. solve_decision. Defined.

Record SandboxProfileContentV1 := {
  spc_runtime : SandboxRuntimeV1;
  spc_rootless : bool;
  spc_image_digest : string;
  spc_read_only_rootfs : bool;
  spc_writable_overlay_digest : string;
  spc_mount_manifest_digest : string;
  spc_environment_manifest_digest : string;
  spc_network_policy_digest : string;
  spc_resource_policy_digest : string;
  spc_secret_handle_manifest_digest : string
}.
#[global] Instance SandboxProfileContentV1_eq_dec : EqDecision SandboxProfileContentV1.
Proof. solve_decision. Defined.

Record AttemptFeedbackV1 := {
  afb_feedback_ref : string;
  afb_feedback_digest : string
}.
#[global] Instance AttemptFeedbackV1_eq_dec : EqDecision AttemptFeedbackV1.
Proof. solve_decision. Defined.

Record PriorCandidateRefV1 := {
  pcr_candidate_ref : string;
  pcr_candidate_digest : string
}.
#[global] Instance PriorCandidateRefV1_eq_dec : EqDecision PriorCandidateRefV1.
Proof. solve_decision. Defined.

Record AttemptContextContentV1 := {
  acc_attempt : u32;
  acc_retry_feedback : list AttemptFeedbackV1;
  acc_prior_candidates : list PriorCandidateRefV1
}.
#[global] Instance AttemptContextContentV1_eq_dec : EqDecision AttemptContextContentV1.
Proof. solve_decision. Defined.

Record ContextManifestDeclaredV1 := {
  cmd_run_id : string;
  cmd_workflow_id : string;
  cmd_workflow_revision : string;
  cmd_unit_id : string;
  cmd_attempt : u32;
  cmd_provenance_ref : string;
  cmd_context_manifest : ContextManifestContentV1;
  cmd_context_manifest_digest : string;
  cmd_idempotency_key : string;
  cmd_declared_at : string
}.
#[global] Instance ContextManifestDeclaredV1_eq_dec : EqDecision ContextManifestDeclaredV1.
Proof. solve_decision. Defined.

Record WorkerManifestDeclaredV1 := {
  wmd_run_id : string;
  wmd_workflow_id : string;
  wmd_workflow_revision : string;
  wmd_unit_id : string;
  wmd_attempt : u32;
  wmd_provenance_ref : string;
  wmd_worker_manifest : WorkerManifestContentV1;
  wmd_worker_manifest_digest : string;
  wmd_idempotency_key : string;
  wmd_declared_at : string
}.
#[global] Instance WorkerManifestDeclaredV1_eq_dec : EqDecision WorkerManifestDeclaredV1.
Proof. solve_decision. Defined.

Record SandboxProfileDeclaredV1 := {
  spd_run_id : string;
  spd_workflow_id : string;
  spd_workflow_revision : string;
  spd_unit_id : string;
  spd_attempt : u32;
  spd_provenance_ref : string;
  spd_sandbox_profile : SandboxProfileContentV1;
  spd_sandbox_profile_digest : string;
  spd_idempotency_key : string;
  spd_declared_at : string
}.
#[global] Instance SandboxProfileDeclaredV1_eq_dec : EqDecision SandboxProfileDeclaredV1.
Proof. solve_decision. Defined.

Record AttemptContextDeclaredV1 := {
  acd_run_id : string;
  acd_workflow_id : string;
  acd_workflow_revision : string;
  acd_unit_id : string;
  acd_attempt : u32;
  acd_provenance_ref : string;
  acd_attempt_context : AttemptContextContentV1;
  acd_attempt_context_digest : string;
  acd_idempotency_key : string;
  acd_declared_at : string
}.
#[global] Instance AttemptContextDeclaredV1_eq_dec : EqDecision AttemptContextDeclaredV1.
Proof. solve_decision. Defined.

Record DispatchEnvelopeV5 := {
  de5_dispatch_v4 : DispatchEnvelopeV4;
  de5_context_manifest_declaration_event_ref : EventId;
  de5_context_manifest_digest : string;
  de5_worker_manifest_declaration_event_ref : EventId;
  de5_worker_manifest_digest : string;
  de5_sandbox_profile_declaration_event_ref : EventId;
  de5_sandbox_profile_digest : string;
  de5_attempt_context_declaration_event_ref : option EventId;
  de5_attempt_context_digest : option string;
  de5_envelope_digest : string
}.
#[global] Instance DispatchEnvelopeV5_eq_dec : EqDecision DispatchEnvelopeV5.
Proof. solve_decision. Defined.

Record GovernedDispatchV5AdmissionRecordedV1 := {
  gda_run_id : string;
  gda_source_dispatch_event_ref : EventId;
  gda_source_dispatch_event_digest : string;
  gda_dispatch_envelope_digest : string;
  gda_witness_evidence_digest : string;
  gda_semantic_identity_digest : string;
  gda_idempotency_key : string;
  gda_ledger_authority_realm_digest : string;
  gda_admitted_at : string
}.
#[global] Instance GovernedDispatchV5AdmissionRecordedV1_eq_dec : EqDecision GovernedDispatchV5AdmissionRecordedV1.
Proof. solve_decision. Defined.

Record WorkflowGraphNodeV1 := {
  wgn1_unit_id : string;
  wgn1_depends_on : list string
}.
#[global] Instance WorkflowGraphNodeV1_eq_dec : EqDecision WorkflowGraphNodeV1.
Proof. solve_decision. Defined.

Record WorkflowGraphDeclaredV1 := {
  wgd1_run_id : string;
  wgd1_workflow_id : string;
  wgd1_workflow_revision : string;
  wgd1_nodes : list WorkflowGraphNodeV1;
  wgd1_max_concurrent : u32;
  wgd1_graph_digest : string;
  wgd1_idempotency_key : string;
  wgd1_declared_at : string
}.
#[global] Instance WorkflowGraphDeclaredV1_eq_dec : EqDecision WorkflowGraphDeclaredV1.
Proof. solve_decision. Defined.

Record WorkflowGraphNodeV2 := {
  wgn2_unit_id : string;
  wgn2_depends_on : list string;
  wgn2_execution_role : ExecutionRoleV1;
  wgn2_governed_packet_digest : string
}.
#[global] Instance WorkflowGraphNodeV2_eq_dec : EqDecision WorkflowGraphNodeV2.
Proof. solve_decision. Defined.

Record WorkflowGraphDeclaredV2 := {
  wgd2_run_id : string;
  wgd2_workflow_id : string;
  wgd2_workflow_revision : string;
  wgd2_nodes : list WorkflowGraphNodeV2;
  wgd2_max_concurrent : u32;
  wgd2_graph_digest : string;
  wgd2_idempotency_key : string;
  wgd2_declared_at : string
}.
#[global] Instance WorkflowGraphDeclaredV2_eq_dec : EqDecision WorkflowGraphDeclaredV2.
Proof. solve_decision. Defined.

Inductive ActionKindV1 :=
| ActionKindV1_Filesystem
| ActionKindV1_Process
| ActionKindV1_Git
| ActionKindV1_Model
| ActionKindV1_Network
| ActionKindV1_Secret
| ActionKindV1_Mcp
| ActionKindV1_A2a
| ActionKindV1_ExternalService.
#[global] Instance ActionKindV1_eq_dec : EqDecision ActionKindV1.
Proof. solve_decision. Defined.

Inductive ActionReceiptOutcomeV2 :=
| ActionReceiptOutcomeV2_Succeeded
| ActionReceiptOutcomeV2_Failed
| ActionReceiptOutcomeV2_Denied
| ActionReceiptOutcomeV2_Unknown.
#[global] Instance ActionReceiptOutcomeV2_eq_dec : EqDecision ActionReceiptOutcomeV2.
Proof. solve_decision. Defined.

Record ActionResourceUsageV1 := {
  aru_wall_time_ms : u64;
  aru_cpu_time_ms : option u64;
  aru_peak_memory_bytes : option u64;
  aru_input_bytes : option u64;
  aru_output_bytes : option u64;
  aru_input_tokens : option u64;
  aru_output_tokens : option u64
}.
#[global] Instance ActionResourceUsageV1_eq_dec : EqDecision ActionResourceUsageV1.
Proof. solve_decision. Defined.

Record ActionRedactionV1 := {
  ared_field : string;
  ared_reason : string;
  ared_redacted_digest : option string
}.
#[global] Instance ActionRedactionV1_eq_dec : EqDecision ActionRedactionV1.
Proof. solve_decision. Defined.

Record ActionFailureV1 := {
  af_code : string;
  af_message_digest : string;
  af_retryable : bool
}.
#[global] Instance ActionFailureV1_eq_dec : EqDecision ActionFailureV1.
Proof. solve_decision. Defined.

Record ActionRequestedV2 := {
  ar2_run_id : string;
  ar2_workflow_id : string;
  ar2_unit_id : string;
  ar2_attempt : u32;
  ar2_provenance_ref : string;
  ar2_action_id : string;
  ar2_idempotency_key : string;
  ar2_action_kind : ActionKindV1;
  ar2_canonical_input_digest : string;
  ar2_canonical_input_ref : string;
  ar2_dispatch_envelope_digest : string;
  ar2_repository_binding_digest : string;
  ar2_ledger_authority_realm_digest : string;
  ar2_governed_packet_digest : option string;
  ar2_capability_bundle_digest : string;
  ar2_policy_digest : string;
  ar2_context_manifest_digest : string;
  ar2_worker_manifest_digest : string;
  ar2_sandbox_profile_digest : string;
  ar2_authority_actor : string;
  ar2_execution_role : ExecutionRoleV1;
  ar2_requested_at : string
}.
#[global] Instance ActionRequestedV2_eq_dec : EqDecision ActionRequestedV2.
Proof. solve_decision. Defined.

Record ModelRequestEvidenceV1 := {
  mre_schema_version : u32;
  mre_cas_ref : string;
  mre_digest : string
}.
#[global] Instance ModelRequestEvidenceV1_eq_dec : EqDecision ModelRequestEvidenceV1.
Proof. solve_decision. Defined.

Record TrustScopeEvidenceV1 := {
  tse_schema_version : u32;
  tse_cas_ref : string;
  tse_digest : string
}.
#[global] Instance TrustScopeEvidenceV1_eq_dec : EqDecision TrustScopeEvidenceV1.
Proof. solve_decision. Defined.

Record CandidateViewV1 := {
  cview_candidate_ref : string;
  cview_candidate_digest : string;
  cview_candidate_commit_sha : string;
  cview_tree_digest : string;
  cview_reviewer_context_manifest_digest : string;
  cview_reviewer_sandbox_profile_digest : string;
  cview_mount_path_digest : string;
  cview_read_only : bool;
  cview_network_disabled : bool
}.
#[global] Instance CandidateViewV1_eq_dec : EqDecision CandidateViewV1.
Proof. solve_decision. Defined.

Record ModelActionCandidateBindingV1 := {
  macb_candidate_created_event_ref : EventId;
  macb_candidate_digest : string;
  macb_candidate_commit_sha : string;
  macb_candidate_view_ref : string;
  macb_candidate_view_digest : string;
  macb_candidate_view : CandidateViewV1
}.
#[global] Instance ModelActionCandidateBindingV1_eq_dec : EqDecision ModelActionCandidateBindingV1.
Proof. solve_decision. Defined.

Record ModelActionIntentV1 := {
  mai_run_id : string;
  mai_workflow_id : string;
  mai_unit_id : string;
  mai_attempt : u32;
  mai_provenance_ref : string;
  mai_action_id : string;
  mai_idempotency_key : string;
  mai_dispatch_event_ref : EventId;
  mai_dispatch_envelope_digest : string;
  mai_action_request_event_ref : EventId;
  mai_action_request_digest : string;
  mai_canonical_input_ref : string;
  mai_canonical_input_digest : string;
  mai_model_request_evidence : ModelRequestEvidenceV1;
  mai_trust_scope_evidence : TrustScopeEvidenceV1;
  mai_candidate_binding : option ModelActionCandidateBindingV1;
  mai_intent_actor : string;
  mai_intended_at : string;
  mai_intent_digest : string
}.
#[global] Instance ModelActionIntentV1_eq_dec : EqDecision ModelActionIntentV1.
Proof. solve_decision. Defined.

Record ModelActionAuthorizedV2 := {
  maa2_intent_event_ref : EventId;
  maa2_intent_digest : string;
  maa2_model_request_evidence : ModelRequestEvidenceV1;
  maa2_trust_scope_evidence : TrustScopeEvidenceV1;
  maa2_candidate_binding : option ModelActionCandidateBindingV1;
  maa2_authorization_actor : string;
  maa2_expires_at : string;
  maa2_authorization_ref : string;
  maa2_authorization_digest : string
}.
#[global] Instance ModelActionAuthorizedV2_eq_dec : EqDecision ModelActionAuthorizedV2.
Proof. solve_decision. Defined.

Record ModelActionAuthorizedV1 := {
  maa1_run_id : string;
  maa1_workflow_id : string;
  maa1_unit_id : string;
  maa1_attempt : u32;
  maa1_provenance_ref : string;
  maa1_action_id : string;
  maa1_idempotency_key : string;
  maa1_dispatch_event_ref : string;
  maa1_dispatch_envelope_digest : string;
  maa1_action_request_ref : string;
  maa1_action_request_digest : string;
  maa1_packet_digest : string;
  maa1_canonical_input_digest : string;
  maa1_model_request_digest : string;
  maa1_trust_scope_digest : string;
  maa1_context_manifest_digest : string;
  maa1_policy_digest : string;
  maa1_sandbox_profile_digest : string;
  maa1_execution_role : ExecutionRoleV1;
  maa1_candidate_digest : option string;
  maa1_candidate_view_digest : option string;
  maa1_authorization_actor : string;
  maa1_expires_at : string;
  maa1_authorization_ref : string;
  maa1_authorization_digest : string
}.
#[global] Instance ModelActionAuthorizedV1_eq_dec : EqDecision ModelActionAuthorizedV1.
Proof. solve_decision. Defined.

Record ActionReceiptRecordedV2 := {
  arr2_run_id : string;
  arr2_workflow_id : string;
  arr2_unit_id : string;
  arr2_attempt : u32;
  arr2_provenance_ref : string;
  arr2_action_id : string;
  arr2_idempotency_key : string;
  arr2_action_request_digest : string;
  arr2_dispatch_envelope_digest : string;
  arr2_capability_bundle_digest : string;
  arr2_policy_digest : string;
  arr2_context_manifest_digest : string;
  arr2_worker_manifest_digest : string;
  arr2_sandbox_profile_digest : string;
  arr2_authority_actor : string;
  arr2_execution_role : ExecutionRoleV1;
  arr2_outcome : ActionReceiptOutcomeV2;
  arr2_result_digest : option string;
  arr2_result_ref : option string;
  arr2_evidence_digest : string;
  arr2_evidence_ref : string;
  arr2_resource_usage : ActionResourceUsageV1;
  arr2_redactions : list ActionRedactionV1;
  arr2_failure : option ActionFailureV1;
  arr2_authorization_ref : option string;
  arr2_action_receipt_ref : string;
  arr2_completed_at : string
}.
#[global] Instance ActionReceiptRecordedV2_eq_dec : EqDecision ActionReceiptRecordedV2.
Proof. solve_decision. Defined.

Record ActionReceiptSetEntryV1 := {
  arse_action_id : string;
  arse_action_receipt_ref : string;
  arse_action_receipt_digest : string
}.
#[global] Instance ActionReceiptSetEntryV1_eq_dec : EqDecision ActionReceiptSetEntryV1.
Proof. solve_decision. Defined.

Record ActionReceiptSetRecordedV1 := {
  arset_run_id : string;
  arset_workflow_id : string;
  arset_unit_id : string;
  arset_attempt : u32;
  arset_provenance_ref : string;
  arset_dispatch_envelope_digest : string;
  arset_action_receipt_set_ref : string;
  arset_action_receipt_set_digest : string;
  arset_receipts : list ActionReceiptSetEntryV1;
  arset_sealed_at : string
}.
#[global] Instance ActionReceiptSetRecordedV1_eq_dec : EqDecision ActionReceiptSetRecordedV1.
Proof. solve_decision. Defined.

Record AttemptContextRecordedV1 := {
  acr_run_id : string;
  acr_workflow_id : string;
  acr_workflow_revision : string;
  acr_unit_id : string;
  acr_prior_attempt : u32;
  acr_next_attempt : u32;
  acr_prior_dispatch_envelope_digest : string;
  acr_prior_terminal_event_ref : string;
  acr_prior_terminal_event_digest : string;
  acr_prior_action_receipt_ref : string;
  acr_prior_action_receipt_digest : string;
  acr_feedback_ref : string;
  acr_feedback_digest : string;
  acr_next_dispatch_envelope_digest : string;
  acr_next_dispatch_idempotency_key : string;
  acr_retry_action_namespace : string;
  acr_idempotency_key : string;
  acr_recorded_at : string;
  acr_attempt_context_digest : string
}.
#[global] Instance AttemptContextRecordedV1_eq_dec : EqDecision AttemptContextRecordedV1.
Proof. solve_decision. Defined.

Record CandidateCreatedV2 := {
  cc2_run_id : string;
  cc2_candidate_id : string;
  cc2_candidate_ref : string;
  cc2_workflow_id : string;
  cc2_unit_id : string;
  cc2_attempt : u32;
  cc2_provenance_ref : string;
  cc2_candidate_digest : string;
  cc2_base_commit_sha : string;
  cc2_candidate_commit_sha : string;
  cc2_commit_digest : string;
  cc2_tree_digest : string;
  cc2_patch_digest : string;
  cc2_changed_files_digest : string;
  cc2_envelope_digest : string;
  cc2_action_receipt_set_ref : string;
  cc2_action_receipt_set_digest : string
}.
#[global] Instance CandidateCreatedV2_eq_dec : EqDecision CandidateCreatedV2.
Proof. solve_decision. Defined.

Record CandidateCompletionRecordedV1 := {
  ccr_run_id : string;
  ccr_workflow_id : string;
  ccr_unit_id : string;
  ccr_attempt : u32;
  ccr_provenance_ref : string;
  ccr_candidate_created_event_ref : EventId;
  ccr_candidate_digest : string;
  ccr_candidate_create_action_id : string;
  ccr_action_request_ref : EventId;
  ccr_action_request_digest : string;
  ccr_activity_claim_event_ref : EventId;
  ccr_activity_claim_event_digest : string;
  ccr_activity_result_event_ref : EventId;
  ccr_activity_result_event_digest : string;
  ccr_action_receipt_ref : string;
  ccr_action_receipt_digest : string;
  ccr_completion_digest : string;
  ccr_completed_at : string
}.
#[global] Instance CandidateCompletionRecordedV1_eq_dec : EqDecision CandidateCompletionRecordedV1.
Proof. solve_decision. Defined.

Record CandidateCreatedV1 := {
  cc1_candidate_id : string;
  cc1_candidate_ref : string;
  cc1_workflow_id : string;
  cc1_unit_id : string;
  cc1_attempt : u32;
  cc1_provenance_ref : string;
  cc1_candidate_digest : string;
  cc1_base_commit_sha : string;
  cc1_candidate_commit_sha : string;
  cc1_commit_digest : string;
  cc1_tree_digest : string;
  cc1_patch_digest : string;
  cc1_changed_files_digest : string;
  cc1_envelope_digest : string;
  cc1_action_receipt_digest : string
}.
#[global] Instance CandidateCreatedV1_eq_dec : EqDecision CandidateCreatedV1.
Proof. solve_decision. Defined.

Inductive CandidateAcceptanceOutcomeV1 :=
| CandidateAcceptanceOutcomeV1_Passed
| CandidateAcceptanceOutcomeV1_Rejected.
#[global] Instance CandidateAcceptanceOutcomeV1_eq_dec : EqDecision CandidateAcceptanceOutcomeV1.
Proof. solve_decision. Defined.

Record CandidateAcceptanceRecordedV1 := {
  car_candidate_digest : string;
  car_candidate_commit_sha : string;
  car_acceptance_ref : string;
  car_acceptance_contract_digest : string;
  car_acceptance_digest : string;
  car_outcome : CandidateAcceptanceOutcomeV1;
  car_evaluated_at : string
}.
#[global] Instance CandidateAcceptanceRecordedV1_eq_dec : EqDecision CandidateAcceptanceRecordedV1.
Proof. solve_decision. Defined.

Inductive ReviewDecisionV1 :=
| ReviewDecisionV1_Approve
| ReviewDecisionV1_RequestChanges
| ReviewDecisionV1_Reject
| ReviewDecisionV1_Abstain.
#[global] Instance ReviewDecisionV1_eq_dec : EqDecision ReviewDecisionV1.
Proof. solve_decision. Defined.

Inductive ReviewFindingSeverityV1 :=
| ReviewFindingSeverityV1_Info
| ReviewFindingSeverityV1_Low
| ReviewFindingSeverityV1_Medium
| ReviewFindingSeverityV1_High
| ReviewFindingSeverityV1_Critical.
#[global] Instance ReviewFindingSeverityV1_eq_dec : EqDecision ReviewFindingSeverityV1.
Proof. solve_decision. Defined.

Record ReviewFindingV1 := {
  rf_severity : ReviewFindingSeverityV1;
  rf_check_id : string;
  rf_file : string;
  rf_line : u32;
  rf_explanation : string;
  rf_evidence_refs : list string
}.
#[global] Instance ReviewFindingV1_eq_dec : EqDecision ReviewFindingV1.
Proof. solve_decision. Defined.

Record ReviewVerdictOutputV1 := {
  rvo_candidate_digest : string;
  rvo_candidate_commit_sha : string;
  rvo_decision : ReviewDecisionV1;
  rvo_findings : list ReviewFindingV1;
  rvo_confidence : f64;
  rvo_candidate_view_digest : string
}.
#[global] Instance ReviewVerdictOutputV1_eq_dec : EqDecision ReviewVerdictOutputV1.
Proof. solve_decision. Defined.

Record ReviewVerdictRecordedV1 := {
  rv1_candidate_digest : string;
  rv1_candidate_commit_sha : string;
  rv1_review_ref : string;
  rv1_review_verdict_action_id : option string;
  rv1_review_action_request_digest : option string;
  rv1_review_action_receipt_ref : option string;
  rv1_review_action_receipt_digest : option string;
  rv1_review_output_ref : option string;
  rv1_review_output_digest : option string;
  rv1_decision : ReviewDecisionV1;
  rv1_findings : list ReviewFindingV1;
  rv1_confidence : f64;
  rv1_reviewer_manifest_digest : string;
  rv1_reviewed_at : string
}.
#[global] Instance ReviewVerdictRecordedV1_eq_dec : EqDecision ReviewVerdictRecordedV1.
Proof. solve_decision. Defined.

Record ReviewVerdictRecordedV2 := {
  rv2_run_id : string;
  rv2_workflow_id : string;
  rv2_unit_id : string;
  rv2_attempt : u32;
  rv2_provenance_ref : string;
  rv2_candidate_digest : string;
  rv2_candidate_commit_sha : string;
  rv2_review_ref : string;
  rv2_review_verdict_action_id : string;
  rv2_review_action_request_digest : string;
  rv2_review_action_receipt_ref : string;
  rv2_review_action_receipt_digest : string;
  rv2_review_output_ref : string;
  rv2_review_output_digest : string;
  rv2_review_output_semantic_digest : option string;
  rv2_decision : ReviewDecisionV1;
  rv2_findings : list ReviewFindingV1;
  rv2_confidence : f64;
  rv2_acceptance_ref : string;
  rv2_acceptance_digest : string;
  rv2_acceptance_contract_digest : string;
  rv2_candidate_envelope_digest : string;
  rv2_reviewer_workflow_id : string;
  rv2_reviewer_dispatch_envelope_digest : string;
  rv2_reviewer_unit_id : string;
  rv2_reviewer_attempt : u32;
  rv2_reviewer_execution_role : ExecutionRoleV1;
  rv2_review_action_receipt_set_ref : string;
  rv2_review_action_receipt_set_digest : string;
  rv2_candidate_view : CandidateViewV1;
  rv2_candidate_view_ref : string;
  rv2_candidate_view_digest : string;
  rv2_reviewer_manifest_digest : string;
  rv2_reviewer_authority : string;
  rv2_reviewed_at : string
}.
#[global] Instance ReviewVerdictRecordedV2_eq_dec : EqDecision ReviewVerdictRecordedV2.
Proof. solve_decision. Defined.

Inductive PromotionDecisionKindV1 :=
| PromotionDecisionKindV1_Promote
| PromotionDecisionKindV1_Reject.
#[global] Instance PromotionDecisionKindV1_eq_dec : EqDecision PromotionDecisionKindV1.
Proof. solve_decision. Defined.

Record PromotionApprovalRequestedV1 := {
  par_candidate_digest : string;
  par_base_commit_sha : string;
  par_target_ref : string;
  par_envelope_digest : string;
  par_acceptance_ref : string;
  par_review_refs : list string;
  par_requested_by : string;
  par_requested_at : string;
  par_idempotency_key : string
}.
#[global] Instance PromotionApprovalRequestedV1_eq_dec : EqDecision PromotionApprovalRequestedV1.
Proof. solve_decision. Defined.

Record PromotionDecisionRecordedV1 := {
  pdr_candidate_digest : string;
  pdr_base_commit_sha : string;
  pdr_target_ref : option string;
  pdr_envelope_digest : string;
  pdr_acceptance_ref : string;
  pdr_review_refs : list string;
  pdr_promotion_approval_request_ref : option string;
  pdr_decision : PromotionDecisionKindV1;
  pdr_authority : string;
  pdr_decided_by : string;
  pdr_decided_at : string;
  pdr_idempotency_key : string
}.
#[global] Instance PromotionDecisionRecordedV1_eq_dec : EqDecision PromotionDecisionRecordedV1.
Proof. solve_decision. Defined.

Inductive PromotionResultOutcomeV1 :=
| PromotionResultOutcomeV1_Promoted
| PromotionResultOutcomeV1_ReconciliationRequired
| PromotionResultOutcomeV1_Rejected.
#[global] Instance PromotionResultOutcomeV1_eq_dec : EqDecision PromotionResultOutcomeV1.
Proof. solve_decision. Defined.

Inductive PromotionWorktreeSyncStateV1 :=
| PromotionWorktreeSyncStateV1_PendingReconciliation
| PromotionWorktreeSyncStateV1_RootCheckoutStale
| PromotionWorktreeSyncStateV1_TargetAdvanced.
#[global] Instance PromotionWorktreeSyncStateV1_eq_dec : EqDecision PromotionWorktreeSyncStateV1.
Proof. solve_decision. Defined.

Record PromotionGitBindingV1 := {
  pgb_target_ref : string;
  pgb_target_head_before_sha : string;
  pgb_target_head_after_sha : option string;
  pgb_merged_head_sha : option string;
  pgb_candidate_commit_sha : string;
  pgb_merge_parent_shas : option (list string);
  pgb_merged_tree_sha : option string;
  pgb_merged_tree_digest : string;
  pgb_promotion_receipt_ref : option string;
  pgb_worktree_sync_state : option PromotionWorktreeSyncStateV1
}.
#[global] Instance PromotionGitBindingV1_eq_dec : EqDecision PromotionGitBindingV1.
Proof. solve_decision. Defined.

Record PromotionExecutionClaimedV1 := {
  pec_run_id : string;
  pec_promotion_decision_event_ref : EventId;
  pec_promotion_decision_event_digest : string;
  pec_dispatch_event_ref : EventId;
  pec_dispatch_envelope_digest : string;
  pec_candidate_digest : string;
  pec_candidate_ref : string;
  pec_candidate_commit_sha : string;
  pec_candidate_tree_digest : string;
  pec_base_commit_sha : string;
  pec_target_ref : string;
  pec_idempotency_key : string;
  pec_authority_actor : string;
  pec_lease_id : string;
  pec_claimed_at : string;
  pec_lease_expires_at : string;
  pec_promotion_execution_claim_digest : string
}.
#[global] Instance PromotionExecutionClaimedV1_eq_dec : EqDecision PromotionExecutionClaimedV1.
Proof. solve_decision. Defined.

Record PromotionExecutionLeaseBindingV1 := {
  pelb_promotion_execution_claim_event_ref : EventId;
  pelb_promotion_execution_claim_event_digest : string;
  pelb_lease_id : string
}.
#[global] Instance PromotionExecutionLeaseBindingV1_eq_dec : EqDecision PromotionExecutionLeaseBindingV1.
Proof. solve_decision. Defined.

Record PromotionResultRecordedV1 := {
  prr_candidate_digest : string;
  prr_idempotency_key : string;
  prr_promotion_decision_ref : string;
  prr_outcome : PromotionResultOutcomeV1;
  prr_merged_head_sha : option string;
  prr_promotion_git_binding : option PromotionGitBindingV1;
  prr_promotion_execution_lease_binding : option PromotionExecutionLeaseBindingV1;
  prr_completed_at : string
}.
#[global] Instance PromotionResultRecordedV1_eq_dec : EqDecision PromotionResultRecordedV1.
Proof. solve_decision. Defined.

Inductive ReconciliationResolutionOutcomeV1 :=
| ReconciliationResolutionOutcomeV1_Abandon
| ReconciliationResolutionOutcomeV1_Reject.
#[global] Instance ReconciliationResolutionOutcomeV1_eq_dec : EqDecision ReconciliationResolutionOutcomeV1.
Proof. solve_decision. Defined.

Record PromotionReconciliationResolvedV1 := {
  prec_candidate_digest : string;
  prec_promotion_decision_ref : string;
  prec_promotion_result_ref : string;
  prec_promotion_receipt_ref : string;
  prec_outcome : ReconciliationResolutionOutcomeV1;
  prec_authority : string;
  prec_resolved_by : string;
  prec_idempotency_key : string;
  prec_resolved_at : string
}.
#[global] Instance PromotionReconciliationResolvedV1_eq_dec : EqDecision PromotionReconciliationResolvedV1.
Proof. solve_decision. Defined.

Inductive WorkflowTerminalOutcomeV1 :=
| WorkflowTerminalOutcomeV1_Completed
| WorkflowTerminalOutcomeV1_Failed
| WorkflowTerminalOutcomeV1_Cancelled.
#[global] Instance WorkflowTerminalOutcomeV1_eq_dec : EqDecision WorkflowTerminalOutcomeV1.
Proof. solve_decision. Defined.

Inductive WorkflowTimerKindV1 :=
| WorkflowTimerKindV1_WorkflowDeadline.
#[global] Instance WorkflowTimerKindV1_eq_dec : EqDecision WorkflowTimerKindV1.
Proof. solve_decision. Defined.

Record WorkflowTimerScheduledV1 := {
  wts_run_id : string;
  wts_workflow_id : string;
  wts_workflow_revision : string;
  wts_unit_id : string;
  wts_attempt : u32;
  wts_dispatch_event_ref : EventId;
  wts_dispatch_envelope_digest : string;
  wts_timer_id : string;
  wts_timer_kind : WorkflowTimerKindV1;
  wts_due_at : string;
  wts_idempotency_key : string;
  wts_scheduled_by : string;
  wts_scheduled_at : string
}.
#[global] Instance WorkflowTimerScheduledV1_eq_dec : EqDecision WorkflowTimerScheduledV1.
Proof. solve_decision. Defined.

Record WorkflowTimerFiredV1 := {
  wtf_run_id : string;
  wtf_workflow_id : string;
  wtf_workflow_revision : string;
  wtf_unit_id : string;
  wtf_attempt : u32;
  wtf_timer_id : string;
  wtf_timer_schedule_event_ref : EventId;
  wtf_timer_schedule_event_digest : string;
  wtf_dispatch_event_ref : EventId;
  wtf_dispatch_envelope_digest : string;
  wtf_idempotency_key : string;
  wtf_fired_by : string;
  wtf_fired_at : string
}.
#[global] Instance WorkflowTimerFiredV1_eq_dec : EqDecision WorkflowTimerFiredV1.
Proof. solve_decision. Defined.

Inductive WorkflowCancellationCauseV1 :=
| WorkflowCancellationCauseV1_OperatorRequested
| WorkflowCancellationCauseV1_TimerElapsed.
#[global] Instance WorkflowCancellationCauseV1_eq_dec : EqDecision WorkflowCancellationCauseV1.
Proof. solve_decision. Defined.

Record WorkflowCancellationRequestedV1 := {
  wcr_run_id : string;
  wcr_workflow_id : string;
  wcr_workflow_revision : string;
  wcr_unit_id : string;
  wcr_attempt : u32;
  wcr_dispatch_event_ref : EventId;
  wcr_dispatch_envelope_digest : string;
  wcr_cancellation_id : string;
  wcr_cause : WorkflowCancellationCauseV1;
  wcr_timer_fired_event_ref : option EventId;
  wcr_timer_fired_event_digest : option string;
  wcr_requested_by : string;
  wcr_idempotency_key : string;
  wcr_requested_at : string
}.
#[global] Instance WorkflowCancellationRequestedV1_eq_dec : EqDecision WorkflowCancellationRequestedV1.
Proof. solve_decision. Defined.

Record WorkflowTerminalV1 := {
  wt1_workflow_id : string;
  wt1_workflow_revision : string;
  wt1_unit_id : string;
  wt1_attempt : u32;
  wt1_outcome : WorkflowTerminalOutcomeV1;
  wt1_candidate_digest : option string;
  wt1_promotion_result_ref : option string;
  wt1_reconciliation_resolution_ref : option string;
  wt1_reason : option string;
  wt1_idempotency_key : string;
  wt1_completed_at : string
}.
#[global] Instance WorkflowTerminalV1_eq_dec : EqDecision WorkflowTerminalV1.
Proof. solve_decision. Defined.

Record WorkflowTerminalV2 := {
  wt2_workflow_id : string;
  wt2_workflow_revision : string;
  wt2_unit_id : string;
  wt2_attempt : u32;
  wt2_outcome : WorkflowTerminalOutcomeV1;
  wt2_candidate_digest : option string;
  wt2_promotion_result_ref : option string;
  wt2_reconciliation_resolution_ref : option string;
  wt2_cancellation_request_event_ref : option EventId;
  wt2_cancellation_request_event_digest : option string;
  wt2_reason : option string;
  wt2_idempotency_key : string;
  wt2_completed_at : string
}.
#[global] Instance WorkflowTerminalV2_eq_dec : EqDecision WorkflowTerminalV2.
Proof. solve_decision. Defined.

Inductive ActivityResultOutcomeV1 :=
| ActivityResultOutcomeV1_Succeeded
| ActivityResultOutcomeV1_Failed
| ActivityResultOutcomeV1_Unknown.
#[global] Instance ActivityResultOutcomeV1_eq_dec : EqDecision ActivityResultOutcomeV1.
Proof. solve_decision. Defined.

Inductive ActivityClaimPurposeV1 :=
| ActivityClaimPurposeV1_Generic
| ActivityClaimPurposeV1_GovernedVerifierV1
| ActivityClaimPurposeV1_GovernedCommandActionV1
| ActivityClaimPurposeV1_GovernedModelActionV1
| ActivityClaimPurposeV1_GovernedAcceptanceCheckV1
| ActivityClaimPurposeV1_GovernedCandidateFinalizeV1.
#[global] Instance ActivityClaimPurposeV1_eq_dec : EqDecision ActivityClaimPurposeV1.
Proof. solve_decision. Defined.

Record ActivityClaimedV1 := {
  acl_run_id : RunId;
  acl_activity_id : string;
  acl_idempotency_key : string;
  acl_action_kind : ActionKindV1;
  acl_action_request_event_id : EventId;
  acl_action_request_digest : string;
  acl_dispatch_event_id : EventId;
  acl_dispatch_envelope_digest : string;
  acl_authority_actor : string;
  acl_purpose : ActivityClaimPurposeV1;
  acl_lease_id : string;
  acl_lease_expires_at : string;
  acl_claimed_at : string
}.
#[global] Instance ActivityClaimedV1_eq_dec : EqDecision ActivityClaimedV1.
Proof. solve_decision. Defined.

Record ActivityHeartbeatRecordedV1 := {
  ahb_run_id : RunId;
  ahb_activity_id : string;
  ahb_idempotency_key : string;
  ahb_heartbeat_id : option string;
  ahb_heartbeat_request_digest : option string;
  ahb_claim_event_id : EventId;
  ahb_claim_event_digest : string;
  ahb_lease_id : string;
  ahb_dispatch_event_id : EventId;
  ahb_dispatch_envelope_digest : string;
  ahb_lease_expires_at : string;
  ahb_heartbeat_at : string
}.
#[global] Instance ActivityHeartbeatRecordedV1_eq_dec : EqDecision ActivityHeartbeatRecordedV1.
Proof. solve_decision. Defined.

Record ActivityResultRecordedV1 := {
  arx_run_id : RunId;
  arx_activity_id : string;
  arx_idempotency_key : string;
  arx_claim_event_id : EventId;
  arx_claim_event_digest : string;
  arx_lease_id : string;
  arx_outcome : ActivityResultOutcomeV1;
  arx_result_digest : option string;
  arx_result_ref : option string;
  arx_evidence_digest : string;
  arx_evidence_ref : string;
  arx_recorded_at : string
}.
#[global] Instance ActivityResultRecordedV1_eq_dec : EqDecision ActivityResultRecordedV1.
Proof. solve_decision. Defined.

