(* ===== verification/Digests.v ===== *)
(** * Domain-separated digests of the trust-spine records

    Every authority record carries a detached SHA-256 digest of its own
    declaration-ordered JSON encoding, prefixed with a domain separator
    ([bp-ledger/src/payload/trust_spine.rs]).  [T_to_json] is the encoding that
    [#[derive(Serialize)]] and the field attributes give [T]: members in
    declaration order, [skip_serializing_if] members omitted, enum values by
    their wire name.  The SHA-256 function and the JSON printer are the host's. *)
From S2P Require Import Prelude RustStr Host TrustSpine.
From stdpp Require Import base list strings pretty.

#[local] Open Scope string_scope.
#[local] Open Scope list_scope.
#[local] Open Scope Z_scope.

(** The domain constants end in a NUL byte. *)
Definition nul_terminated (s : string) : string := s +:+ String Ascii.zero "".

Definition DISPATCH_ENVELOPE_V2_DIGEST_DOMAIN : string := nul_terminated "buildplane.dispatch-envelope.v2".

Definition CONTEXT_MANIFEST_CONTENT_V1_DIGEST_DOMAIN : string := nul_terminated "buildplane.context-manifest-content.v1".

Definition WORKER_MANIFEST_CONTENT_V1_DIGEST_DOMAIN : string := nul_terminated "buildplane.worker-manifest-content.v1".

Definition SANDBOX_PROFILE_CONTENT_V1_DIGEST_DOMAIN : string := nul_terminated "buildplane.sandbox-profile-content.v1".

Definition ATTEMPT_CONTEXT_CONTENT_V1_DIGEST_DOMAIN : string := nul_terminated "buildplane.attempt-context-content.v1".

Definition ACTION_REQUEST_V2_DIGEST_DOMAIN : string := nul_terminated "buildplane.action-request.v2".

Definition REVIEW_VERDICT_OUTPUT_V1_DIGEST_DOMAIN : string := nul_terminated "buildplane.review-verdict-output.v1".

Definition CANDIDATE_VIEW_V1_DIGEST_DOMAIN : string := nul_terminated "buildplane.candidate-view.v1".

Definition DISPATCH_ENVELOPE_V5_DIGEST_DOMAIN : string := nul_terminated "buildplane.dispatch-envelope.v5".

Definition WORKFLOW_GRAPH_V1_DIGEST_DOMAIN : string := nul_terminated "buildplane.workflow-graph.v1".

Definition WORKFLOW_GRAPH_V2_DIGEST_DOMAIN : string := nul_terminated "buildplane.workflow-graph.v2".

Definition MODEL_ACTION_INTENT_V1_DIGEST_DOMAIN : string := nul_terminated "buildplane.model-action-intent.v1".

Definition MODEL_ACTION_AUTHORIZED_V2_DIGEST_DOMAIN : string := nul_terminated "buildplane.model-action-authorized.v2".

Definition MODEL_ACTION_AUTHORIZED_V1_DIGEST_DOMAIN : string := nul_terminated "buildplane.model-action-authorized.v1".

Definition ACTION_RECEIPT_SET_V1_DIGEST_DOMAIN : string := nul_terminated "buildplane.action-receipt-set.v1".

Definition ATTEMPT_CONTEXT_RECORDED_V1_DIGEST_DOMAIN : string := nul_terminated "buildplane.attempt-context-recorded.v1".

Definition CANDIDATE_COMPLETION_RECORDED_V1_DIGEST_DOMAIN : string := nul_terminated "buildplane.candidate-completion-recorded.v1".

Definition PROMOTION_EXECUTION_CLAIMED_V1_DIGEST_DOMAIN : string := nul_terminated "buildplane.promotion-execution-claimed.v1".

Definition DISPATCH_ENVELOPE_V3_DIGEST_DOMAIN : string := nul_terminated "buildplane.dispatch-envelope.v3".

Definition DISPATCH_ENVELOPE_V4_DIGEST_DOMAIN : string := nul_terminated "buildplane.dispatch-envelope.v4".

Definition ACTION_RECEIPT_V2_DIGEST_DOMAIN : string := nul_terminated "buildplane.action-receipt.v2".

Definition GOVERNED_DISPATCH_POLICY_DIGEST_V1_DOMAIN : string := nul_terminated "buildplane.governed-dispatch-policy.v1".

(** The largest integer a JavaScript number represents exactly. *)
Definition TYPESCRIPT_SAFE_INTEGER_MAX : u64 := 9007199254740991.

Definition typescript_safe_u64 (value : u64) : Result Json string :=
  if TYPESCRIPT_SAFE_INTEGER_MAX <? value
  then Err ("resource usage value " +:+ pretty value
            +:+ " exceeds JavaScript Number.MAX_SAFE_INTEGER ("
            +:+ pretty TYPESCRIPT_SAFE_INTEGER_MAX +:+ ")")
  else Ok (JInt value).

(** An optional usage member: omitted when absent. *)
Definition optional_typescript_safe_u64 (name : string) (value : option u64)
    : Result (list (string * Json)) string :=
  match value with
  | None => Ok []
  | Some value => let* v := typescript_safe_u64 value in Ok [(name, v)]
  end.

Definition optional_member {A} (name : string) (f : A -> Json) (o : option A)
    : list (string * Json) :=
  match o with Some v => [(name, f v)] | None => [] end.

Definition option_to_json {A} (f : A -> Json) (o : option A) : Json :=
  match o with Some v => f v | None => JNull end.

(** [serde_json] writes a non-finite float as [null]. *)
Definition f64_to_json (x : f64) : Json := if f64_is_finite x then JFloat x else JNull.

Section Digests.
Context `{Host}.

Definition domain_separated_digest (domain : string) (value : Result Json string)
    : Result string string :=
  let* value := value in
  Ok ("sha256:" +:+ sha256_hex (domain +:+ serde_json_to_vec value)).

Definition ExecutionRoleV1_to_json (x : ExecutionRoleV1) : Json :=
  JString match x with
  | ExecutionRoleV1_Implementer => "implementer"
  | ExecutionRoleV1_Reviewer => "reviewer"
  | ExecutionRoleV1_Adversary => "adversary"
  | ExecutionRoleV1_Judge => "judge"
  | ExecutionRoleV1_Candidate => "candidate"
  end.

Definition CommitModeV1_to_json (x : CommitModeV1) : Json :=
  JString match x with
  | CommitModeV1_Atomic => "atomic"
  | CommitModeV1_Incremental => "incremental"
  | CommitModeV1_Saga => "saga"
  end.

Definition DispatchBudgetV1_to_json (x : DispatchBudgetV1) : Json :=
  JObject (optional_member "max_tokens" (fun v => JInt v) (db_max_tokens x)
    ++ optional_member "max_compute_time_ms" (fun v => JInt v) (db_max_compute_time_ms x)).

Definition TrustTierV1_to_json (x : TrustTierV1) : Json :=
  JString match x with
  | TrustTierV1_Raw => "raw"
  | TrustTierV1_Governed => "governed"
  end.

Definition DispatchEnvelopeBodyV2_to_json (x : DispatchEnvelopeBodyV2) : Json :=
  JObject ([("workflow_id", JString (deb2_workflow_id x));
    ("workflow_revision", JString (deb2_workflow_revision x));
    ("unit_id", JString (deb2_unit_id x));
    ("attempt", JInt (deb2_attempt x));
    ("execution_role", ExecutionRoleV1_to_json (deb2_execution_role x));
    ("commit_mode", CommitModeV1_to_json (deb2_commit_mode x));
    ("provenance_ref", JString (deb2_provenance_ref x));
    ("base_commit_sha", JString (deb2_base_commit_sha x));
    ("capability_bundle_digest", JString (deb2_capability_bundle_digest x));
    ("acceptance_contract_digest", JString (deb2_acceptance_contract_digest x));
    ("context_manifest_digest", JString (deb2_context_manifest_digest x));
    ("worker_manifest_digest", JString (deb2_worker_manifest_digest x));
    ("sandbox_profile_digest", JString (deb2_sandbox_profile_digest x));
    ("budget", DispatchBudgetV1_to_json (deb2_budget x));
    ("trust_tier", TrustTierV1_to_json (deb2_trust_tier x));
    ("idempotency_key", JString (deb2_idempotency_key x));
    ("issued_at", JString (deb2_issued_at x));
    ("expires_at", JString (deb2_expires_at x))]).

Definition ContextManifestEntryKindV1_to_json (x : ContextManifestEntryKindV1) : Json :=
  JString match x with
  | ContextManifestEntryKindV1_RepositoryFile => "repository_file"
  | ContextManifestEntryKindV1_Memory => "memory"
  | ContextManifestEntryKindV1_Plan => "plan"
  | ContextManifestEntryKindV1_Policy => "policy"
  | ContextManifestEntryKindV1_Skill => "skill"
  | ContextManifestEntryKindV1_Document => "document"
  | ContextManifestEntryKindV1_Artifact => "artifact"
  | ContextManifestEntryKindV1_External => "external"
  end.

Definition ContextTrustLevelV1_to_json (x : ContextTrustLevelV1) : Json :=
  JString match x with
  | ContextTrustLevelV1_Trusted => "trusted"
  | ContextTrustLevelV1_Verified => "verified"
  | ContextTrustLevelV1_Untrusted => "untrusted"
  | ContextTrustLevelV1_Quarantined => "quarantined"
  end.

Definition ContextTaintV1_to_json (x : ContextTaintV1) : Json :=
  JString match x with
  | ContextTaintV1_Clean => "clean"
  | ContextTaintV1_External => "external"
  | ContextTaintV1_Retrieved => "retrieved"
  | ContextTaintV1_Remote => "remote"
  | ContextTaintV1_Skill => "skill"
  end.

Definition ContextManifestEntryV1_to_json (x : ContextManifestEntryV1) : Json :=
  JObject ([("kind", ContextManifestEntryKindV1_to_json (cme_kind x));
    ("reference", JString (cme_reference x));
    ("digest", JString (cme_digest x));
    ("provenance_ref", JString (cme_provenance_ref x));
    ("trust", ContextTrustLevelV1_to_json (cme_trust x));
    ("taint", ContextTaintV1_to_json (cme_taint x))]).

Definition ContextManifestContentV1_to_json (x : ContextManifestContentV1) : Json :=
  JObject ([("entries", JArray (map (fun v => ContextManifestEntryV1_to_json v) (cmc_entries x)))]).

Definition WorkerProviderV1_to_json (x : WorkerProviderV1) : Json :=
  JString match x with
  | WorkerProviderV1_Anthropic => "anthropic"
  | WorkerProviderV1_OpenAi => "open_ai"
  end.

Definition WorkerHarnessV1_to_json (x : WorkerHarnessV1) : Json :=
  JString match x with
  | WorkerHarnessV1_AnthropicApiSdk => "anthropic_api_sdk"
  | WorkerHarnessV1_OpenAiApiSdk => "open_ai_api_sdk"
  end.

Definition WorkerManifestContentV1_to_json (x : WorkerManifestContentV1) : Json :=
  JObject ([("provider", WorkerProviderV1_to_json (wmc_provider x));
    ("model", JString (wmc_model x));
    ("harness", WorkerHarnessV1_to_json (wmc_harness x));
    ("image_digest", JString (wmc_image_digest x));
    ("tool_manifest_digest", JString (wmc_tool_manifest_digest x));
    ("skill_manifest_digest", JString (wmc_skill_manifest_digest x));
    ("capability_bundle_digest", JString (wmc_capability_bundle_digest x));
    ("execution_role", ExecutionRoleV1_to_json (wmc_execution_role x))]).

Definition SandboxRuntimeV1_to_json (x : SandboxRuntimeV1) : Json :=
  JString match x with
  | SandboxRuntimeV1_RootlessOci => "rootless_oci"
  end.

Definition SandboxProfileContentV1_to_json (x : SandboxProfileContentV1) : Json :=
  JObject ([("runtime", SandboxRuntimeV1_to_json (spc_runtime x));
    ("rootless", JBool (spc_rootless x));
    ("image_digest", JString (spc_image_digest x));
    ("read_only_rootfs", JBool (spc_read_only_rootfs x));
    ("writable_overlay_digest", JString (spc_writable_overlay_digest x));
    ("mount_manifest_digest", JString (spc_mount_manifest_digest x));
    ("environment_manifest_digest", JString (spc_environment_manifest_digest x));
    ("network_policy_digest", JString (spc_network_policy_digest x));
    ("resource_policy_digest", JString (spc_resource_policy_digest x));
    ("secret_handle_manifest_digest", JString (spc_secret_handle_manifest_digest x))]).

Definition AttemptFeedbackV1_to_json (x : AttemptFeedbackV1) : Json :=
  JObject ([("feedback_ref", JString (afb_feedback_ref x));
    ("feedback_digest", JString (afb_feedback_digest x))]).

Definition PriorCandidateRefV1_to_json (x : PriorCandidateRefV1) : Json :=
  JObject ([("candidate_ref", JString (pcr_candidate_ref x));
    ("candidate_digest", JString (pcr_candidate_digest x))]).

Definition AttemptContextContentV1_to_json (x : AttemptContextContentV1) : Json :=
  JObject ([("attempt", JInt (acc_attempt x));
    ("retry_feedback", JArray (map (fun v => AttemptFeedbackV1_to_json v) (acc_retry_feedback x)));
    ("prior_candidates", JArray (map (fun v => PriorCandidateRefV1_to_json v) (acc_prior_candidates x)))]).

Definition ActionKindV1_to_json (x : ActionKindV1) : Json :=
  JString match x with
  | ActionKindV1_Filesystem => "filesystem"
  | ActionKindV1_Process => "process"
  | ActionKindV1_Git => "git"
  | ActionKindV1_Model => "model"
  | ActionKindV1_Network => "network"
  | ActionKindV1_Secret => "secret"
  | ActionKindV1_Mcp => "mcp"
  | ActionKindV1_A2a => "a2a"
  | ActionKindV1_ExternalService => "external_service"
  end.

Definition ActionRequestedV2_to_json (x : ActionRequestedV2) : Json :=
  JObject ([("run_id", JString (ar2_run_id x));
    ("workflow_id", JString (ar2_workflow_id x));
    ("unit_id", JString (ar2_unit_id x));
    ("attempt", JInt (ar2_attempt x));
    ("provenance_ref", JString (ar2_provenance_ref x));
    ("action_id", JString (ar2_action_id x));
    ("idempotency_key", JString (ar2_idempotency_key x));
    ("action_kind", ActionKindV1_to_json (ar2_action_kind x));
    ("canonical_input_digest", JString (ar2_canonical_input_digest x));
    ("canonical_input_ref", JString (ar2_canonical_input_ref x));
    ("dispatch_envelope_digest", JString (ar2_dispatch_envelope_digest x));
    ("repository_binding_digest", JString (ar2_repository_binding_digest x));
    ("ledger_authority_realm_digest", JString (ar2_ledger_authority_realm_digest x))]
    ++ optional_member "governed_packet_digest" (fun v => JString v) (ar2_governed_packet_digest x)
    ++ [("capability_bundle_digest", JString (ar2_capability_bundle_digest x));
    ("policy_digest", JString (ar2_policy_digest x));
    ("context_manifest_digest", JString (ar2_context_manifest_digest x));
    ("worker_manifest_digest", JString (ar2_worker_manifest_digest x));
    ("sandbox_profile_digest", JString (ar2_sandbox_profile_digest x));
    ("authority_actor", JString (ar2_authority_actor x));
    ("execution_role", ExecutionRoleV1_to_json (ar2_execution_role x));
    ("requested_at", JString (ar2_requested_at x))]).

Definition ReviewDecisionV1_to_json (x : ReviewDecisionV1) : Json :=
  JString match x with
  | ReviewDecisionV1_Approve => "approve"
  | ReviewDecisionV1_RequestChanges => "request_changes"
  | ReviewDecisionV1_Reject => "reject"
  | ReviewDecisionV1_Abstain => "abstain"
  end.

Definition ReviewFindingSeverityV1_to_json (x : ReviewFindingSeverityV1) : Json :=
  JString match x with
  | ReviewFindingSeverityV1_Info => "info"
  | ReviewFindingSeverityV1_Low => "low"
  | ReviewFindingSeverityV1_Medium => "medium"
  | ReviewFindingSeverityV1_High => "high"
  | ReviewFindingSeverityV1_Critical => "critical"
  end.

Definition ReviewFindingV1_to_json (x : ReviewFindingV1) : Json :=
  JObject ([("severity", ReviewFindingSeverityV1_to_json (rf_severity x));
    ("check_id", JString (rf_check_id x));
    ("file", JString (rf_file x));
    ("line", JInt (rf_line x));
    ("explanation", JString (rf_explanation x));
    ("evidence_refs", JArray (map (fun v => JString v) (rf_evidence_refs x)))]).

Definition ReviewVerdictOutputV1_to_json (x : ReviewVerdictOutputV1) : Json :=
  JObject ([("candidate_digest", JString (rvo_candidate_digest x));
    ("candidate_commit_sha", JString (rvo_candidate_commit_sha x));
    ("decision", ReviewDecisionV1_to_json (rvo_decision x));
    ("findings", JArray (map (fun v => ReviewFindingV1_to_json v) (rvo_findings x)));
    ("confidence", f64_to_json (rvo_confidence x));
    ("candidate_view_digest", JString (rvo_candidate_view_digest x))]).

Definition CandidateViewV1_to_json (x : CandidateViewV1) : Json :=
  JObject ([("candidate_ref", JString (cview_candidate_ref x));
    ("candidate_digest", JString (cview_candidate_digest x));
    ("candidate_commit_sha", JString (cview_candidate_commit_sha x));
    ("tree_digest", JString (cview_tree_digest x));
    ("reviewer_context_manifest_digest", JString (cview_reviewer_context_manifest_digest x));
    ("reviewer_sandbox_profile_digest", JString (cview_reviewer_sandbox_profile_digest x));
    ("mount_path_digest", JString (cview_mount_path_digest x));
    ("read_only", JBool (cview_read_only x));
    ("network_disabled", JBool (cview_network_disabled x))]).

Definition ActionEvidenceVersionV1_to_json (x : ActionEvidenceVersionV1) : Json :=
  JString match x with
  | ActionEvidenceVersionV1_SealedV2 => "sealed-v2"
  | ActionEvidenceVersionV1_SealedV3 => "sealed_v3"
  end.

Definition DispatchEnvelopeV3_to_json (x : DispatchEnvelopeV3) : Json :=
  JObject ([("body", DispatchEnvelopeBodyV2_to_json (de3_body x));
    ("action_evidence_version", ActionEvidenceVersionV1_to_json (de3_action_evidence_version x));
    ("repository_binding_digest", JString (de3_repository_binding_digest x));
    ("ledger_authority_realm_digest", JString (de3_ledger_authority_realm_digest x))]
    ++ optional_member "governed_packet_digest" (fun v => JString v) (de3_governed_packet_digest x)
    ++ [("envelope_digest", JString (de3_envelope_digest x))]).

Definition DispatchEnvelopeV4_to_json (x : DispatchEnvelopeV4) : Json :=
  JObject ([("dispatch_v3", DispatchEnvelopeV3_to_json (de4_dispatch_v3 x));
    ("workflow_graph_digest", JString (de4_workflow_graph_digest x));
    ("workflow_graph_declaration_event_ref", JString (uuid_to_string (de4_workflow_graph_declaration_event_ref x)));
    ("envelope_digest", JString (de4_envelope_digest x))]).

Definition WorkflowGraphNodeV1_to_json (x : WorkflowGraphNodeV1) : Json :=
  JObject ([("unit_id", JString (wgn1_unit_id x));
    ("depends_on", JArray (map (fun v => JString v) (wgn1_depends_on x)))]).

Definition WorkflowGraphNodeV2_to_json (x : WorkflowGraphNodeV2) : Json :=
  JObject ([("unit_id", JString (wgn2_unit_id x));
    ("depends_on", JArray (map (fun v => JString v) (wgn2_depends_on x)));
    ("execution_role", ExecutionRoleV1_to_json (wgn2_execution_role x));
    ("governed_packet_digest", JString (wgn2_governed_packet_digest x))]).

Definition ModelRequestEvidenceV1_to_json (x : ModelRequestEvidenceV1) : Json :=
  JObject ([("schema_version", JInt (mre_schema_version x));
    ("cas_ref", JString (mre_cas_ref x));
    ("digest", JString (mre_digest x))]).

Definition TrustScopeEvidenceV1_to_json (x : TrustScopeEvidenceV1) : Json :=
  JObject ([("schema_version", JInt (tse_schema_version x));
    ("cas_ref", JString (tse_cas_ref x));
    ("digest", JString (tse_digest x))]).

Definition ModelActionCandidateBindingV1_to_json (x : ModelActionCandidateBindingV1) : Json :=
  JObject ([("candidate_created_event_ref", JString (uuid_to_string (macb_candidate_created_event_ref x)));
    ("candidate_digest", JString (macb_candidate_digest x));
    ("candidate_commit_sha", JString (macb_candidate_commit_sha x));
    ("candidate_view_ref", JString (macb_candidate_view_ref x));
    ("candidate_view_digest", JString (macb_candidate_view_digest x));
    ("candidate_view", CandidateViewV1_to_json (macb_candidate_view x))]).

Definition ActionReceiptSetEntryV1_to_json (x : ActionReceiptSetEntryV1) : Json :=
  JObject ([("action_id", JString (arse_action_id x));
    ("action_receipt_ref", JString (arse_action_receipt_ref x));
    ("action_receipt_digest", JString (arse_action_receipt_digest x))]).

Definition ActionReceiptOutcomeV2_to_json (x : ActionReceiptOutcomeV2) : Json :=
  JString match x with
  | ActionReceiptOutcomeV2_Succeeded => "succeeded"
  | ActionReceiptOutcomeV2_Failed => "failed"
  | ActionReceiptOutcomeV2_Denied => "denied"
  | ActionReceiptOutcomeV2_Unknown => "unknown"
  end.

Definition ActionRedactionV1_to_json (x : ActionRedactionV1) : Json :=
  JObject ([("field", JString (ared_field x));
    ("reason", JString (ared_reason x))]
    ++ optional_member "redacted_digest" (fun v => JString v) (ared_redacted_digest x)).

Definition ActionFailureV1_to_json (x : ActionFailureV1) : Json :=
  JObject ([("code", JString (af_code x));
    ("message_digest", JString (af_message_digest x));
    ("retryable", JBool (af_retryable x))]).

Definition ActionResourceUsageV1_to_json (x : ActionResourceUsageV1) : Result Json string :=
  let* wall_time_ms := typescript_safe_u64 (aru_wall_time_ms x) in
  let* cpu_time_ms := optional_typescript_safe_u64 "cpu_time_ms" (aru_cpu_time_ms x) in
  let* peak_memory_bytes := optional_typescript_safe_u64 "peak_memory_bytes" (aru_peak_memory_bytes x) in
  let* input_bytes := optional_typescript_safe_u64 "input_bytes" (aru_input_bytes x) in
  let* output_bytes := optional_typescript_safe_u64 "output_bytes" (aru_output_bytes x) in
  let* input_tokens := optional_typescript_safe_u64 "input_tokens" (aru_input_tokens x) in
  let* output_tokens := optional_typescript_safe_u64 "output_tokens" (aru_output_tokens x) in
  Ok (JObject ([("wall_time_ms", wall_time_ms)]
    ++ cpu_time_ms ++ peak_memory_bytes ++ input_bytes ++ output_bytes ++ input_tokens ++ output_tokens)).

Definition ActionReceiptRecordedV2_to_json (x : ActionReceiptRecordedV2) : Result Json string :=
  let* resource_usage := ActionResourceUsageV1_to_json (arr2_resource_usage x) in
  Ok (JObject ([("run_id", JString (arr2_run_id x));
    ("workflow_id", JString (arr2_workflow_id x));
    ("unit_id", JString (arr2_unit_id x));
    ("attempt", JInt (arr2_attempt x));
    ("provenance_ref", JString (arr2_provenance_ref x));
    ("action_id", JString (arr2_action_id x));
    ("idempotency_key", JString (arr2_idempotency_key x));
    ("action_request_digest", JString (arr2_action_request_digest x));
    ("dispatch_envelope_digest", JString (arr2_dispatch_envelope_digest x));
    ("capability_bundle_digest", JString (arr2_capability_bundle_digest x));
    ("policy_digest", JString (arr2_policy_digest x));
    ("context_manifest_digest", JString (arr2_context_manifest_digest x));
    ("worker_manifest_digest", JString (arr2_worker_manifest_digest x));
    ("sandbox_profile_digest", JString (arr2_sandbox_profile_digest x));
    ("authority_actor", JString (arr2_authority_actor x));
    ("execution_role", ExecutionRoleV1_to_json (arr2_execution_role x));
    ("outcome", ActionReceiptOutcomeV2_to_json (arr2_outcome x))]
    ++ optional_member "result_digest" (fun v => JString v) (arr2_result_digest x)
    ++ optional_member "result_ref" (fun v => JString v) (arr2_result_ref x)
    ++ [("evidence_digest", JString (arr2_evidence_digest x));
    ("evidence_ref", JString (arr2_evidence_ref x))]
    ++ [("resource_usage", resource_usage)]
    ++ [("redactions", JArray (map (fun v => ActionRedactionV1_to_json v) (arr2_redactions x)))]
    ++ optional_member "failure" (fun v => ActionFailureV1_to_json v) (arr2_failure x)
    ++ optional_member "authorization_ref" (fun v => JString v) (arr2_authorization_ref x)
    ++ [("action_receipt_ref", JString (arr2_action_receipt_ref x));
    ("completed_at", JString (arr2_completed_at x))])).

Definition dispatch_envelope_v2_body_digest (body : DispatchEnvelopeBodyV2) : Result string string :=
  domain_separated_digest DISPATCH_ENVELOPE_V2_DIGEST_DOMAIN (Ok (DispatchEnvelopeBodyV2_to_json body)).

Definition context_manifest_content_v1_digest (manifest : ContextManifestContentV1) : Result string string :=
  domain_separated_digest CONTEXT_MANIFEST_CONTENT_V1_DIGEST_DOMAIN (Ok (ContextManifestContentV1_to_json manifest)).

Definition worker_manifest_content_v1_digest (manifest : WorkerManifestContentV1) : Result string string :=
  domain_separated_digest WORKER_MANIFEST_CONTENT_V1_DIGEST_DOMAIN (Ok (WorkerManifestContentV1_to_json manifest)).

Definition sandbox_profile_content_v1_digest (profile : SandboxProfileContentV1) : Result string string :=
  domain_separated_digest SANDBOX_PROFILE_CONTENT_V1_DIGEST_DOMAIN (Ok (SandboxProfileContentV1_to_json profile)).

Definition attempt_context_content_v1_digest (context : AttemptContextContentV1) : Result string string :=
  domain_separated_digest ATTEMPT_CONTEXT_CONTENT_V1_DIGEST_DOMAIN (Ok (AttemptContextContentV1_to_json context)).

Definition action_requested_v2_digest (request : ActionRequestedV2) : Result string string :=
  domain_separated_digest ACTION_REQUEST_V2_DIGEST_DOMAIN (Ok (ActionRequestedV2_to_json request)).

Definition review_verdict_output_v1_digest (output : ReviewVerdictOutputV1) : Result string string :=
  domain_separated_digest REVIEW_VERDICT_OUTPUT_V1_DIGEST_DOMAIN (Ok (ReviewVerdictOutputV1_to_json output)).

Definition candidate_view_v1_digest (view : CandidateViewV1) : Result string string :=
  domain_separated_digest CANDIDATE_VIEW_V1_DIGEST_DOMAIN (Ok (CandidateViewV1_to_json view)).

Definition DispatchEnvelopeV5DigestMaterial_to_json (envelope : DispatchEnvelopeV5) : Json :=
  JObject
   ([("dispatch_v4", DispatchEnvelopeV4_to_json (de5_dispatch_v4 envelope));
    ("context_manifest_declaration_event_ref", JString (uuid_to_string (de5_context_manifest_declaration_event_ref envelope)));
    ("context_manifest_digest", JString (de5_context_manifest_digest envelope));
    ("worker_manifest_declaration_event_ref", JString (uuid_to_string (de5_worker_manifest_declaration_event_ref envelope)));
    ("worker_manifest_digest", JString (de5_worker_manifest_digest envelope));
    ("sandbox_profile_declaration_event_ref", JString (uuid_to_string (de5_sandbox_profile_declaration_event_ref envelope)));
    ("sandbox_profile_digest", JString (de5_sandbox_profile_digest envelope))]
    ++ optional_member "attempt_context_declaration_event_ref" (fun v => JString (uuid_to_string v)) (de5_attempt_context_declaration_event_ref envelope)
    ++ optional_member "attempt_context_digest" (fun v => JString v) (de5_attempt_context_digest envelope)).

Definition dispatch_envelope_v5_digest (envelope : DispatchEnvelopeV5) : Result string string :=
  domain_separated_digest DISPATCH_ENVELOPE_V5_DIGEST_DOMAIN
    (Ok (DispatchEnvelopeV5DigestMaterial_to_json envelope)).

Definition workflow_graph_v1_digest (declaration : WorkflowGraphDeclaredV1) : Result string string :=
  domain_separated_digest WORKFLOW_GRAPH_V1_DIGEST_DOMAIN (Ok (JObject
   ([("run_id", JString (wgd1_run_id declaration));
    ("workflow_id", JString (wgd1_workflow_id declaration));
    ("workflow_revision", JString (wgd1_workflow_revision declaration));
    ("nodes", JArray (map (fun v => WorkflowGraphNodeV1_to_json v) (wgd1_nodes declaration)));
    ("max_concurrent", JInt (wgd1_max_concurrent declaration))]))).

Definition workflow_graph_v2_digest (declaration : WorkflowGraphDeclaredV2) : Result string string :=
  domain_separated_digest WORKFLOW_GRAPH_V2_DIGEST_DOMAIN (Ok (JObject
   ([("run_id", JString (wgd2_run_id declaration));
    ("workflow_id", JString (wgd2_workflow_id declaration));
    ("workflow_revision", JString (wgd2_workflow_revision declaration));
    ("nodes", JArray (map (fun v => WorkflowGraphNodeV2_to_json v) (wgd2_nodes declaration)));
    ("max_concurrent", JInt (wgd2_max_concurrent declaration))]))).

Definition model_action_intent_v1_digest (intent : ModelActionIntentV1) : Result string string :=
  domain_separated_digest MODEL_ACTION_INTENT_V1_DIGEST_DOMAIN (Ok (JObject
   ([("run_id", JString (mai_run_id intent));
    ("workflow_id", JString (mai_workflow_id intent));
    ("unit_id", JString (mai_unit_id intent));
    ("attempt", JInt (mai_attempt intent));
    ("provenance_ref", JString (mai_provenance_ref intent));
    ("action_id", JString (mai_action_id intent));
    ("idempotency_key", JString (mai_idempotency_key intent));
    ("dispatch_event_ref", JString (uuid_to_string (mai_dispatch_event_ref intent)));
    ("dispatch_envelope_digest", JString (mai_dispatch_envelope_digest intent));
    ("action_request_event_ref", JString (uuid_to_string (mai_action_request_event_ref intent)));
    ("action_request_digest", JString (mai_action_request_digest intent));
    ("canonical_input_ref", JString (mai_canonical_input_ref intent));
    ("canonical_input_digest", JString (mai_canonical_input_digest intent));
    ("model_request_evidence", ModelRequestEvidenceV1_to_json (mai_model_request_evidence intent));
    ("trust_scope_evidence", TrustScopeEvidenceV1_to_json (mai_trust_scope_evidence intent));
    ("candidate_binding", option_to_json (fun v => ModelActionCandidateBindingV1_to_json v) (mai_candidate_binding intent));
    ("intent_actor", JString (mai_intent_actor intent));
    ("intended_at", JString (mai_intended_at intent))]))).

Definition model_action_authorized_v2_digest (authorization : ModelActionAuthorizedV2) : Result string string :=
  domain_separated_digest MODEL_ACTION_AUTHORIZED_V2_DIGEST_DOMAIN (Ok (JObject
   ([("intent_event_ref", JString (uuid_to_string (maa2_intent_event_ref authorization)));
    ("intent_digest", JString (maa2_intent_digest authorization));
    ("model_request_evidence", ModelRequestEvidenceV1_to_json (maa2_model_request_evidence authorization));
    ("trust_scope_evidence", TrustScopeEvidenceV1_to_json (maa2_trust_scope_evidence authorization));
    ("candidate_binding", option_to_json (fun v => ModelActionCandidateBindingV1_to_json v) (maa2_candidate_binding authorization));
    ("authorization_actor", JString (maa2_authorization_actor authorization));
    ("expires_at", JString (maa2_expires_at authorization));
    ("authorization_ref", JString (maa2_authorization_ref authorization))]))).

Definition model_action_authorized_v1_digest (authorization : ModelActionAuthorizedV1) : Result string string :=
  domain_separated_digest MODEL_ACTION_AUTHORIZED_V1_DIGEST_DOMAIN (Ok (JObject
   ([("run_id", JString (maa1_run_id authorization));
    ("workflow_id", JString (maa1_workflow_id authorization));
    ("unit_id", JString (maa1_unit_id authorization));
    ("attempt", JInt (maa1_attempt authorization));
    ("provenance_ref", JString (maa1_provenance_ref authorization));
    ("action_id", JString (maa1_action_id authorization));
    ("idempotency_key", JString (maa1_idempotency_key authorization));
    ("dispatch_event_ref", JString (maa1_dispatch_event_ref authorization));
    ("dispatch_envelope_digest", JString (maa1_dispatch_envelope_digest authorization));
    ("action_request_ref", JString (maa1_action_request_ref authorization));
    ("action_request_digest", JString (maa1_action_request_digest authorization));
    ("packet_digest", JString (maa1_packet_digest authorization));
    ("canonical_input_digest", JString (maa1_canonical_input_digest authorization));
    ("model_request_digest", JString (maa1_model_request_digest authorization));
    ("trust_scope_digest", JString (maa1_trust_scope_digest authorization));
    ("context_manifest_digest", JString (maa1_context_manifest_digest authorization));
    ("policy_digest", JString (maa1_policy_digest authorization));
    ("sandbox_profile_digest", JString (maa1_sandbox_profile_digest authorization));
    ("execution_role", ExecutionRoleV1_to_json (maa1_execution_role authorization));
    ("candidate_digest", option_to_json (fun v => JString v) (maa1_candidate_digest authorization));
    ("candidate_view_digest", option_to_json (fun v => JString v) (maa1_candidate_view_digest authorization));
    ("authorization_actor", JString (maa1_authorization_actor authorization));
    ("expires_at", JString (maa1_expires_at authorization));
    ("authorization_ref", JString (maa1_authorization_ref authorization))]))).

Definition action_receipt_set_v1_digest (set : ActionReceiptSetRecordedV1) : Result string string :=
  domain_separated_digest ACTION_RECEIPT_SET_V1_DIGEST_DOMAIN (Ok (JObject
   ([("run_id", JString (arset_run_id set));
    ("workflow_id", JString (arset_workflow_id set));
    ("unit_id", JString (arset_unit_id set));
    ("attempt", JInt (arset_attempt set));
    ("provenance_ref", JString (arset_provenance_ref set));
    ("dispatch_envelope_digest", JString (arset_dispatch_envelope_digest set));
    ("action_receipt_set_ref", JString (arset_action_receipt_set_ref set));
    ("receipts", JArray (map (fun v => ActionReceiptSetEntryV1_to_json v) (arset_receipts set)));
    ("sealed_at", JString (arset_sealed_at set))]))).

Definition attempt_context_recorded_v1_digest (context : AttemptContextRecordedV1) : Result string string :=
  domain_separated_digest ATTEMPT_CONTEXT_RECORDED_V1_DIGEST_DOMAIN (Ok (JObject
   ([("run_id", JString (acr_run_id context));
    ("workflow_id", JString (acr_workflow_id context));
    ("workflow_revision", JString (acr_workflow_revision context));
    ("unit_id", JString (acr_unit_id context));
    ("prior_attempt", JInt (acr_prior_attempt context));
    ("next_attempt", JInt (acr_next_attempt context));
    ("prior_dispatch_envelope_digest", JString (acr_prior_dispatch_envelope_digest context));
    ("prior_terminal_event_ref", JString (acr_prior_terminal_event_ref context));
    ("prior_terminal_event_digest", JString (acr_prior_terminal_event_digest context));
    ("prior_action_receipt_ref", JString (acr_prior_action_receipt_ref context));
    ("prior_action_receipt_digest", JString (acr_prior_action_receipt_digest context));
    ("feedback_ref", JString (acr_feedback_ref context));
    ("feedback_digest", JString (acr_feedback_digest context));
    ("next_dispatch_envelope_digest", JString (acr_next_dispatch_envelope_digest context));
    ("next_dispatch_idempotency_key", JString (acr_next_dispatch_idempotency_key context));
    ("retry_action_namespace", JString (acr_retry_action_namespace context));
    ("idempotency_key", JString (acr_idempotency_key context));
    ("recorded_at", JString (acr_recorded_at context))]))).

Definition candidate_completion_recorded_v1_digest (completion : CandidateCompletionRecordedV1) : Result string string :=
  domain_separated_digest CANDIDATE_COMPLETION_RECORDED_V1_DIGEST_DOMAIN (Ok (JObject
   ([("run_id", JString (ccr_run_id completion));
    ("workflow_id", JString (ccr_workflow_id completion));
    ("unit_id", JString (ccr_unit_id completion));
    ("attempt", JInt (ccr_attempt completion));
    ("provenance_ref", JString (ccr_provenance_ref completion));
    ("candidate_created_event_ref", JString (uuid_to_string (ccr_candidate_created_event_ref completion)));
    ("candidate_digest", JString (ccr_candidate_digest completion));
    ("candidate_create_action_id", JString (ccr_candidate_create_action_id completion));
    ("action_request_ref", JString (uuid_to_string (ccr_action_request_ref completion)));
    ("action_request_digest", JString (ccr_action_request_digest completion));
    ("activity_claim_event_ref", JString (uuid_to_string (ccr_activity_claim_event_ref completion)));
    ("activity_claim_event_digest", JString (ccr_activity_claim_event_digest completion));
    ("activity_result_event_ref", JString (uuid_to_string (ccr_activity_result_event_ref completion)));
    ("activity_result_event_digest", JString (ccr_activity_result_event_digest completion));
    ("action_receipt_ref", JString (ccr_action_receipt_ref completion));
    ("action_receipt_digest", JString (ccr_action_receipt_digest completion));
    ("completed_at", JString (ccr_completed_at completion))]))).

Definition promotion_execution_claimed_v1_digest (claim : PromotionExecutionClaimedV1) : Result string string :=
  domain_separated_digest PROMOTION_EXECUTION_CLAIMED_V1_DIGEST_DOMAIN (Ok (JObject
   ([("run_id", JString (pec_run_id claim));
    ("promotion_decision_event_ref", JString (uuid_to_string (pec_promotion_decision_event_ref claim)));
    ("promotion_decision_event_digest", JString (pec_promotion_decision_event_digest claim));
    ("dispatch_event_ref", JString (uuid_to_string (pec_dispatch_event_ref claim)));
    ("dispatch_envelope_digest", JString (pec_dispatch_envelope_digest claim));
    ("candidate_digest", JString (pec_candidate_digest claim));
    ("candidate_ref", JString (pec_candidate_ref claim));
    ("candidate_commit_sha", JString (pec_candidate_commit_sha claim));
    ("candidate_tree_digest", JString (pec_candidate_tree_digest claim));
    ("base_commit_sha", JString (pec_base_commit_sha claim));
    ("target_ref", JString (pec_target_ref claim));
    ("idempotency_key", JString (pec_idempotency_key claim));
    ("authority_actor", JString (pec_authority_actor claim));
    ("lease_id", JString (pec_lease_id claim));
    ("claimed_at", JString (pec_claimed_at claim));
    ("lease_expires_at", JString (pec_lease_expires_at claim))]))).

Definition dispatch_envelope_v3_body_digest (body : DispatchEnvelopeBodyV2) (action_evidence_version : ActionEvidenceVersionV1) (repository_binding_digest : string) (ledger_authority_realm_digest : string) (governed_packet_digest : option string) : Result string string :=
  domain_separated_digest DISPATCH_ENVELOPE_V3_DIGEST_DOMAIN (Ok (JObject
   ([("body", DispatchEnvelopeBodyV2_to_json body);
    ("action_evidence_version", ActionEvidenceVersionV1_to_json action_evidence_version);
    ("repository_binding_digest", JString repository_binding_digest);
    ("ledger_authority_realm_digest", JString ledger_authority_realm_digest)]
    ++ optional_member "governed_packet_digest" (fun v => JString v) governed_packet_digest))).

Definition dispatch_envelope_v4_digest (dispatch_v3 : DispatchEnvelopeV3) (workflow_graph_digest : string) (workflow_graph_declaration_event_ref : EventId) : Result string string :=
  domain_separated_digest DISPATCH_ENVELOPE_V4_DIGEST_DOMAIN (Ok (JObject
   ([("dispatch_v3", DispatchEnvelopeV3_to_json dispatch_v3);
    ("workflow_graph_digest", JString workflow_graph_digest);
    ("workflow_graph_declaration_event_ref", JString (uuid_to_string workflow_graph_declaration_event_ref))]))).

Definition action_receipt_recorded_v2_digest (receipt : ActionReceiptRecordedV2)
    : Result string string :=
  domain_separated_digest ACTION_RECEIPT_V2_DIGEST_DOMAIN
    (ActionReceiptRecordedV2_to_json receipt).

Definition governed_dispatch_policy_digest_v1 (acceptance_contract_digest : string)
    : Result string string :=
  if negb (is_canonical_sha256_digest acceptance_contract_digest)
  then Err "acceptance_contract_digest must be a canonical sha256 digest"
  else Ok ("sha256:" +:+ sha256_hex
             (GOVERNED_DISPATCH_POLICY_DIGEST_V1_DOMAIN +:+ acceptance_contract_digest)).
End Digests.
