(* ===== verification/Events.v ===== *)
(** * Events, signatures and their verification

    The event envelope and its closed kind and payload vocabularies
    ([bp-ledger/src/event.rs], [kind.rs], [payload/mod.rs]), the detached
    signature contract and [verify_event_signature]
    ([bp-ledger/src/signing.rs]), and the verified event the replay reader
    produces ([bp-replay/src/reader.rs]). *)
From S2P Require Import Prelude RustStr Host LedgerPayloads TrustSpine.
From stdpp Require Import base gmap strings.

#[local] Open Scope string_scope.

Inductive EventKind :=
| EventKind_RunStarted
| EventKind_RunCompleted
| EventKind_RunFailed
| EventKind_RunAdmissionRecorded
| EventKind_PlanAdmitted
| EventKind_PlanReceiptRecorded
| EventKind_ActivityStarted
| EventKind_ActivityCompleted
| EventKind_UnitStarted
| EventKind_UnitCompleted
| EventKind_UnitFailed
| EventKind_UnitCancelled
| EventKind_GitCheckpoint
| EventKind_ModelRequest
| EventKind_ModelResponse
| EventKind_ToolRequest
| EventKind_ToolResult
| EventKind_WorkspaceRead
| EventKind_WorkspaceWrite
| EventKind_CapabilityDenied
| EventKind_AcceptanceRecorded
| EventKind_OperatorDecisionRecorded
| EventKind_ResultReady
| EventKind_DispatchEnvelope
| EventKind_DispatchEnvelopeV2
| EventKind_DispatchEnvelopeV3
| EventKind_DispatchEnvelopeV4
| EventKind_DispatchEnvelopeV5
| EventKind_GovernedDispatchV5AdmissionRecordedV1
| EventKind_ContextManifestDeclaredV1
| EventKind_WorkerManifestDeclaredV1
| EventKind_SandboxProfileDeclaredV1
| EventKind_AttemptContextDeclaredV1
| EventKind_WorkflowGraphDeclaredV1
| EventKind_WorkflowGraphDeclaredV2
| EventKind_ActionRequestedV2
| EventKind_ModelActionIntentV1
| EventKind_ModelActionAuthorizedV1
| EventKind_ModelActionAuthorizedV2
| EventKind_ActivityClaimedV1
| EventKind_ActivityHeartbeatRecordedV1
| EventKind_ActivityResultRecordedV1
| EventKind_ActionReceiptRecordedV2
| EventKind_ActionReceiptSetRecordedV1
| EventKind_AttemptContextRecordedV1
| EventKind_CandidateCreated
| EventKind_CandidateCreatedV2
| EventKind_CandidateCompletionRecordedV1
| EventKind_CandidateAcceptanceRecorded
| EventKind_ReviewVerdictRecorded
| EventKind_ReviewVerdictRecordedV2
| EventKind_PromotionApprovalRequested
| EventKind_PromotionDecisionRecorded
| EventKind_PromotionExecutionClaimedV1
| EventKind_PromotionResultRecorded
| EventKind_PromotionReconciliationResolved
| EventKind_ReleaseEvaluationEvidenceV1
| EventKind_WorkflowTimerScheduledV1
| EventKind_WorkflowTimerFiredV1
| EventKind_WorkflowCancellationRequestedV1
| EventKind_WorkflowTerminal
| EventKind_WorkflowTerminalV2
| EventKind_TapeCheckpoint.
#[global] Instance EventKind_eq_dec : EqDecision EventKind.
Proof. solve_decision. Defined.

(** The variants of [EventKind]. *)
Definition event_kinds : list EventKind := [
  EventKind_RunStarted;
  EventKind_RunCompleted;
  EventKind_RunFailed;
  EventKind_RunAdmissionRecorded;
  EventKind_PlanAdmitted;
  EventKind_PlanReceiptRecorded;
  EventKind_ActivityStarted;
  EventKind_ActivityCompleted;
  EventKind_UnitStarted;
  EventKind_UnitCompleted;
  EventKind_UnitFailed;
  EventKind_UnitCancelled;
  EventKind_GitCheckpoint;
  EventKind_ModelRequest;
  EventKind_ModelResponse;
  EventKind_ToolRequest;
  EventKind_ToolResult;
  EventKind_WorkspaceRead;
  EventKind_WorkspaceWrite;
  EventKind_CapabilityDenied;
  EventKind_AcceptanceRecorded;
  EventKind_OperatorDecisionRecorded;
  EventKind_ResultReady;
  EventKind_DispatchEnvelope;
  EventKind_DispatchEnvelopeV2;
  EventKind_DispatchEnvelopeV3;
  EventKind_DispatchEnvelopeV4;
  EventKind_DispatchEnvelopeV5;
  EventKind_GovernedDispatchV5AdmissionRecordedV1;
  EventKind_ContextManifestDeclaredV1;
  EventKind_WorkerManifestDeclaredV1;
  EventKind_SandboxProfileDeclaredV1;
  EventKind_AttemptContextDeclaredV1;
  EventKind_WorkflowGraphDeclaredV1;
  EventKind_WorkflowGraphDeclaredV2;
  EventKind_ActionRequestedV2;
  EventKind_ModelActionIntentV1;
  EventKind_ModelActionAuthorizedV1;
  EventKind_ModelActionAuthorizedV2;
  EventKind_ActivityClaimedV1;
  EventKind_ActivityHeartbeatRecordedV1;
  EventKind_ActivityResultRecordedV1;
  EventKind_ActionReceiptRecordedV2;
  EventKind_ActionReceiptSetRecordedV1;
  EventKind_AttemptContextRecordedV1;
  EventKind_CandidateCreated;
  EventKind_CandidateCreatedV2;
  EventKind_CandidateCompletionRecordedV1;
  EventKind_CandidateAcceptanceRecorded;
  EventKind_ReviewVerdictRecorded;
  EventKind_ReviewVerdictRecordedV2;
  EventKind_PromotionApprovalRequested;
  EventKind_PromotionDecisionRecorded;
  EventKind_PromotionExecutionClaimedV1;
  EventKind_PromotionResultRecorded;
  EventKind_PromotionReconciliationResolved;
  EventKind_ReleaseEvaluationEvidenceV1;
  EventKind_WorkflowTimerScheduledV1;
  EventKind_WorkflowTimerFiredV1;
  EventKind_WorkflowCancellationRequestedV1;
  EventKind_WorkflowTerminal;
  EventKind_WorkflowTerminalV2;
  EventKind_TapeCheckpoint ].

(** [EventKind::as_wire]: the canonical snake-case wire name of a kind. *)
Definition as_wire (kind : EventKind) : string :=
  match kind with
  | EventKind_RunStarted => "run_started"
  | EventKind_RunCompleted => "run_completed"
  | EventKind_RunFailed => "run_failed"
  | EventKind_RunAdmissionRecorded => "run_admission_recorded"
  | EventKind_PlanAdmitted => "plan_admitted"
  | EventKind_PlanReceiptRecorded => "plan_receipt"
  | EventKind_ActivityStarted => "activity_started"
  | EventKind_ActivityCompleted => "activity_completed"
  | EventKind_UnitStarted => "unit_started"
  | EventKind_UnitCompleted => "unit_completed"
  | EventKind_UnitFailed => "unit_failed"
  | EventKind_UnitCancelled => "unit_cancelled"
  | EventKind_GitCheckpoint => "git_checkpoint"
  | EventKind_ModelRequest => "model_request"
  | EventKind_ModelResponse => "model_response"
  | EventKind_ToolRequest => "tool_request"
  | EventKind_ToolResult => "tool_result"
  | EventKind_WorkspaceRead => "workspace_read"
  | EventKind_WorkspaceWrite => "workspace_write"
  | EventKind_CapabilityDenied => "capability_denied"
  | EventKind_AcceptanceRecorded => "acceptance_recorded"
  | EventKind_OperatorDecisionRecorded => "operator_decision_recorded"
  | EventKind_ResultReady => "result_ready"
  | EventKind_DispatchEnvelope => "dispatch_envelope"
  | EventKind_DispatchEnvelopeV2 => "dispatch_envelope_v2"
  | EventKind_DispatchEnvelopeV3 => "dispatch_envelope_v3"
  | EventKind_DispatchEnvelopeV4 => "dispatch_envelope_v4"
  | EventKind_DispatchEnvelopeV5 => "dispatch_envelope_v5"
  | EventKind_GovernedDispatchV5AdmissionRecordedV1 => "governed_dispatch_v5_admission_recorded_v1"
  | EventKind_ContextManifestDeclaredV1 => "context_manifest_declared_v1"
  | EventKind_WorkerManifestDeclaredV1 => "worker_manifest_declared_v1"
  | EventKind_SandboxProfileDeclaredV1 => "sandbox_profile_declared_v1"
  | EventKind_AttemptContextDeclaredV1 => "attempt_context_declared_v1"
  | EventKind_WorkflowGraphDeclaredV1 => "workflow_graph_declared_v1"
  | EventKind_WorkflowGraphDeclaredV2 => "workflow_graph_declared_v2"
  | EventKind_ActionRequestedV2 => "action_requested_v2"
  | EventKind_ModelActionIntentV1 => "model_action_intent_v1"
  | EventKind_ModelActionAuthorizedV1 => "model_action_authorized_v1"
  | EventKind_ModelActionAuthorizedV2 => "model_action_authorized_v2"
  | EventKind_ActivityClaimedV1 => "activity_claimed_v1"
  | EventKind_ActivityHeartbeatRecordedV1 => "activity_heartbeat_recorded_v1"
  | EventKind_ActivityResultRecordedV1 => "activity_result_recorded_v1"
  | EventKind_ActionReceiptRecordedV2 => "action_receipt_recorded_v2"
  | EventKind_ActionReceiptSetRecordedV1 => "action_receipt_set_recorded_v1"
  | EventKind_AttemptContextRecordedV1 => "attempt_context_recorded_v1"
  | EventKind_CandidateCreated => "candidate_created"
  | EventKind_CandidateCreatedV2 => "candidate_created_v2"
  | EventKind_CandidateCompletionRecordedV1 => "candidate_completion_recorded_v1"
  | EventKind_CandidateAcceptanceRecorded => "candidate_acceptance_recorded"
  | EventKind_ReviewVerdictRecorded => "review_verdict_recorded"
  | EventKind_ReviewVerdictRecordedV2 => "review_verdict_recorded_v2"
  | EventKind_PromotionApprovalRequested => "promotion_approval_requested"
  | EventKind_PromotionDecisionRecorded => "promotion_decision_recorded"
  | EventKind_PromotionExecutionClaimedV1 => "promotion_execution_claimed_v1"
  | EventKind_PromotionResultRecorded => "promotion_result_recorded"
  | EventKind_PromotionReconciliationResolved => "promotion_reconciliation_resolved"
  | EventKind_ReleaseEvaluationEvidenceV1 => "release_evaluation_evidence_v1"
  | EventKind_WorkflowTimerScheduledV1 => "workflow_timer_scheduled_v1"
  | EventKind_WorkflowTimerFiredV1 => "workflow_timer_fired_v1"
  | EventKind_WorkflowCancellationRequestedV1 => "workflow_cancellation_requested_v1"
  | EventKind_WorkflowTerminal => "workflow_terminal"
  | EventKind_WorkflowTerminalV2 => "workflow_terminal_v2"
  | EventKind_TapeCheckpoint => "tape_checkpoint"
  end.

Inductive Payload :=
| Payload_RunStartedV1 (p : RunStartedV1)
| Payload_RunCompletedV1 (p : RunCompletedV1)
| Payload_RunFailedV1 (p : RunFailedV1)
| Payload_ResultReadyV1 (p : ResultReadyV1)
| Payload_RunAdmissionRecordedV1 (p : RunAdmissionRecordedV1)
| Payload_PlanAdmittedV1 (p : PlanAdmittedV1)
| Payload_PlanReceiptRecordedV1 (p : PlanReceiptRecordedV1)
| Payload_ActivityStartedV1 (p : ActivityStartedV1)
| Payload_ActivityCompletedV1 (p : ActivityCompletedV1)
| Payload_UnitStartedV1 (p : UnitStartedV1)
| Payload_UnitCompletedV1 (p : UnitCompletedV1)
| Payload_UnitFailedV1 (p : UnitFailedV1)
| Payload_UnitCancelledV1 (p : UnitCancelledV1)
| Payload_GitCheckpointV1 (p : GitCheckpointV1)
| Payload_ModelRequestV1 (p : ModelRequestV1)
| Payload_ModelResponseV1 (p : ModelResponseV1)
| Payload_ToolRequestStoredV1 (p : ToolRequestStoredV1)
| Payload_ToolResultV1 (p : ToolResultV1)
| Payload_WorkspaceReadV1 (p : WorkspaceReadV1)
| Payload_WorkspaceWriteV1 (p : WorkspaceWriteV1)
| Payload_TapeCheckpointV1 (p : TapeCheckpointV1)
| Payload_CapabilityDeniedV1 (p : CapabilityDeniedV1)
| Payload_AcceptanceRecordedV1 (p : AcceptanceRecordedV1)
| Payload_OperatorDecisionRecordedV1 (p : OperatorDecisionRecordedV1)
| Payload_DispatchEnvelopeV1 (p : DispatchEnvelopeV1)
| Payload_DispatchEnvelopeV2 (p : DispatchEnvelopeV2)
| Payload_DispatchEnvelopeV3 (p : DispatchEnvelopeV3)
| Payload_DispatchEnvelopeV4 (p : DispatchEnvelopeV4)
| Payload_DispatchEnvelopeV5 (p : DispatchEnvelopeV5)
| Payload_GovernedDispatchV5AdmissionRecordedV1 (p : GovernedDispatchV5AdmissionRecordedV1)
| Payload_ContextManifestDeclaredV1 (p : ContextManifestDeclaredV1)
| Payload_WorkerManifestDeclaredV1 (p : WorkerManifestDeclaredV1)
| Payload_SandboxProfileDeclaredV1 (p : SandboxProfileDeclaredV1)
| Payload_AttemptContextDeclaredV1 (p : AttemptContextDeclaredV1)
| Payload_WorkflowGraphDeclaredV1 (p : WorkflowGraphDeclaredV1)
| Payload_WorkflowGraphDeclaredV2 (p : WorkflowGraphDeclaredV2)
| Payload_ActionRequestedV2 (p : ActionRequestedV2)
| Payload_ModelActionIntentV1 (p : ModelActionIntentV1)
| Payload_ModelActionAuthorizedV1 (p : ModelActionAuthorizedV1)
| Payload_ModelActionAuthorizedV2 (p : ModelActionAuthorizedV2)
| Payload_ActivityClaimedV1 (p : ActivityClaimedV1)
| Payload_ActivityHeartbeatRecordedV1 (p : ActivityHeartbeatRecordedV1)
| Payload_ActivityResultRecordedV1 (p : ActivityResultRecordedV1)
| Payload_ActionReceiptRecordedV2 (p : ActionReceiptRecordedV2)
| Payload_ActionReceiptSetRecordedV1 (p : ActionReceiptSetRecordedV1)
| Payload_AttemptContextRecordedV1 (p : AttemptContextRecordedV1)
| Payload_CandidateCreatedV1 (p : CandidateCreatedV1)
| Payload_CandidateCreatedV2 (p : CandidateCreatedV2)
| Payload_CandidateCompletionRecordedV1 (p : CandidateCompletionRecordedV1)
| Payload_CandidateAcceptanceRecordedV1 (p : CandidateAcceptanceRecordedV1)
| Payload_ReviewVerdictRecordedV1 (p : ReviewVerdictRecordedV1)
| Payload_ReviewVerdictRecordedV2 (p : ReviewVerdictRecordedV2)
| Payload_PromotionApprovalRequestedV1 (p : PromotionApprovalRequestedV1)
| Payload_PromotionDecisionRecordedV1 (p : PromotionDecisionRecordedV1)
| Payload_PromotionExecutionClaimedV1 (p : PromotionExecutionClaimedV1)
| Payload_PromotionResultRecordedV1 (p : PromotionResultRecordedV1)
| Payload_PromotionReconciliationResolvedV1 (p : PromotionReconciliationResolvedV1)
| Payload_ReleaseEvaluationEvidenceV1 (p : ReleaseEvaluationEvidenceV1)
| Payload_WorkflowTimerScheduledV1 (p : WorkflowTimerScheduledV1)
| Payload_WorkflowTimerFiredV1 (p : WorkflowTimerFiredV1)
| Payload_WorkflowCancellationRequestedV1 (p : WorkflowCancellationRequestedV1)
| Payload_WorkflowTerminalV1 (p : WorkflowTerminalV1)
| Payload_WorkflowTerminalV2 (p : WorkflowTerminalV2).

Record Event := {
  ev_id : EventId;
  ev_run_id : RunId;
  ev_parent_event_id : option EventId;
  ev_schema_version : u32;
  ev_kind : EventKind;
  ev_occurred_at : DateTime;
  ev_payload : Payload
}.

Inductive SignatureAlgorithm :=
| SignatureAlgorithm_Ed25519.
#[global] Instance SignatureAlgorithm_eq_dec : EqDecision SignatureAlgorithm.
Proof. solve_decision. Defined.

Inductive VerificationStatus :=
| VerificationStatus_Verified
| VerificationStatus_Unsigned
| VerificationStatus_MissingKey
| VerificationStatus_HashMismatch
| VerificationStatus_BadSignature
| VerificationStatus_UnsupportedAlgorithm.
#[global] Instance VerificationStatus_eq_dec : EqDecision VerificationStatus.
Proof. solve_decision. Defined.

Record ActorKeyRef := {
  akr_actor_id : string;
  akr_key_id : string;
  akr_public_key_hash : option string
}.
#[global] Instance ActorKeyRef_eq_dec : EqDecision ActorKeyRef.
Proof. solve_decision. Defined.

Record EventSignatureV1 := {
  es_event_id : EventId;
  es_canonical_event_hash : string;
  es_signer : ActorKeyRef;
  es_algorithm : SignatureAlgorithm;
  es_signature : string;
  es_signed_at : DateTime
}.
#[global] Instance EventSignatureV1_eq_dec : EqDecision EventSignatureV1.
Proof. solve_decision. Defined.

Record TrustedPublicKeys := {
  tpk_by_public_key_hash : gmap string string
}.
#[global] Instance TrustedPublicKeys_eq_dec : EqDecision TrustedPublicKeys.
Proof. solve_decision. Defined.

Record VerifiedEvent := {
  ve_event : Event;
  ve_verification : VerificationStatus;
  ve_signature : option EventSignatureV1
}.

(** ** The canonicaliser and signature primitives

    [Canonicalizer] is what the ledger's [canonicalize] promises its clients:
    an event is validated (and, at schema version 1, returned unchanged) or
    refused with a displayed [LedgerError]; [event_to_vec] is the
    serde-derived JSON encoding of an event. *)
Class Canonicalizer := {
  canonicalize : Event -> Result Event string;
  event_to_vec : Event -> Result string string
}.

(** [ed25519-dalek] and [base64]. *)
Class Crypto := {
  SigningKey : Type;
  VerifyingKey : Type;
  verifying_key : SigningKey -> VerifyingKey;
  verifying_key_as_bytes : VerifyingKey -> string;
  verifying_key_from_bytes : string -> option VerifyingKey;
  ed25519_sign : SigningKey -> string -> string;
  ed25519_verify : VerifyingKey -> string -> string -> bool;
  url_safe_no_pad_encode : string -> string;
  url_safe_no_pad_decode : string -> option string
}.

Section Signing.
Context `{Host, Canonicalizer}.

Definition canonical_event_bytes (event : Event) : Result string string :=
  let* canonical := canonicalize event in
  event_to_vec canonical.

Definition canonical_event_hash (event : Event) : Result string string :=
  let* bytes := canonical_event_bytes event in
  Ok ("sha256:" +:+ sha256_hex bytes).

Definition public_key_for (keys : TrustedPublicKeys) (signer : ActorKeyRef) : option string :=
  hash ← akr_public_key_hash signer; tpk_by_public_key_hash keys !! hash.

Definition insert_public_key (keys : TrustedPublicKeys) (hash bytes : string)
    : TrustedPublicKeys :=
  {| tpk_by_public_key_hash := <[hash := bytes]> (tpk_by_public_key_hash keys) |}.

Context `{Crypto}.

Definition public_key_hash (key : VerifyingKey) : string :=
  "sha256:" +:+ sha256_hex (verifying_key_as_bytes key).

Definition sign_event (event : Event) (signing_key : SigningKey) (signer : ActorKeyRef)
    (signed_at : DateTime) : Result EventSignatureV1 string :=
  let* hash := canonical_event_hash event in
  let* message := canonical_event_bytes event in
  let signature := ed25519_sign signing_key message in
  let signer := {| signer with
    akr_public_key_hash := Some (public_key_hash (verifying_key signing_key)) |} in
  Ok {| es_event_id := ev_id event;
        es_canonical_event_hash := hash;
        es_signer := signer;
        es_algorithm := SignatureAlgorithm_Ed25519;
        es_signature := url_safe_no_pad_encode signature;
        es_signed_at := signed_at |}.

(** [<&[u8; n]>::try_from(bytes)]: the slice conversion checks the length. *)
Definition try_from_len (n : nat) (bytes : string) : option string :=
  if (String.length bytes =? n)%nat then Some bytes else None.

Definition verify_event_signature (event : Event) (signature : EventSignatureV1)
    (trusted_keys : TrustedPublicKeys) : VerificationStatus :=
  if es_event_id signature != ev_id event then VerificationStatus_HashMismatch else
  match canonical_event_hash event with
  | Err _ => VerificationStatus_HashMismatch
  | Ok actual_hash =>
  if es_canonical_event_hash signature != actual_hash
  then VerificationStatus_HashMismatch else
  match public_key_for trusted_keys (es_signer signature) with
  | None => VerificationStatus_MissingKey
  | Some public_key_bytes =>
  match try_from_len 32 public_key_bytes with
  | None => VerificationStatus_MissingKey
  | Some public_key_bytes =>
  match verifying_key_from_bytes public_key_bytes with
  | None => VerificationStatus_MissingKey
  | Some public_key =>
  if is_some_and (akr_public_key_hash (es_signer signature))
       (fun claimed_hash => public_key_hash public_key != claimed_hash)
  then VerificationStatus_MissingKey else
  match url_safe_no_pad_decode (es_signature signature) with
  | None => VerificationStatus_BadSignature
  | Some signature_bytes =>
  match try_from_len 64 signature_bytes with
  | None => VerificationStatus_BadSignature
  | Some detached_signature =>
  match canonical_event_bytes event with
  | Err _ => VerificationStatus_BadSignature
  | Ok message =>
  if ed25519_verify public_key message detached_signature
  then VerificationStatus_Verified else VerificationStatus_BadSignature
  end end end end end end end.
End Signing.
