(* ===== verification/ReplayState.v ===== *)
(** * Replay state

    The durable projection rebuilt from the signed tape
    ([bp-replay/src/state.rs]): one record per struct of the source, the closed
    workflow phases, and the two recovery predicates over V5 evidence.  A
    [BTreeMap<String, T>] is a [gmap string T]. *)
From S2P Require Import Prelude RustStr Host LedgerPayloads TrustSpine Digests Events.
From stdpp Require Import base gmap strings.

#[local] Open Scope string_scope.
#[local] Open Scope Z_scope.

Record PlanAdmissionReplayState := {
  pas_event_id : EventId;
  pas_plan_id : string;
  pas_plan_digest : string;
  pas_input_digest : string;
  pas_trusted_base : string;
  pas_decided_by : string;
  pas_decided_at : string;
  pas_idempotency_key : string;
  pas_authorized_next_step : string
}.
#[global] Instance PlanAdmissionReplayState_eq_dec : EqDecision PlanAdmissionReplayState.
Proof. solve_decision. Defined.

Record RecordedActivityState := {
  ras_run_id : option string;
  ras_activity_id : string;
  ras_activity_type : option string;
  ras_input_digest : option string;
  ras_started_event_id : option EventId;
  ras_completed_event_id : option EventId;
  ras_result_digest : option string;
  ras_result : option Json
}.
#[global] Instance RecordedActivityState_eq_dec : EqDecision RecordedActivityState.
Proof. solve_decision. Defined.

Record PlanAcceptanceReplayState := {
  pacs_event_id : EventId;
  pacs_plan_id : string;
  pacs_admission_event_id : string;
  pacs_contract_digest : string;
  pacs_outcome : string;
  pacs_diff_scope_status : string;
  pacs_out_of_scope_files : list string;
  pacs_evaluated_at : string
}.
#[global] Instance PlanAcceptanceReplayState_eq_dec : EqDecision PlanAcceptanceReplayState.
Proof. solve_decision. Defined.

Record PlanReceiptReplayState := {
  prcs_event_id : EventId;
  prcs_plan_id : string;
  prcs_admission_event_id : EventId;
  prcs_outcome : string;
  prcs_side_effects : list string;
  prcs_result_digest : string;
  prcs_decided_at : string
}.
#[global] Instance PlanReceiptReplayState_eq_dec : EqDecision PlanReceiptReplayState.
Proof. solve_decision. Defined.

Inductive WorkflowPhaseV1 :=
| WorkflowPhaseV1_Dispatched
| WorkflowPhaseV1_CandidateCreated
| WorkflowPhaseV1_AcceptancePassed
| WorkflowPhaseV1_ReviewApproved
| WorkflowPhaseV1_PromotionApprovalPending
| WorkflowPhaseV1_PromotionPending
| WorkflowPhaseV1_PromotionReconciliationRequired
| WorkflowPhaseV1_PromotionReconciliationResolved
| WorkflowPhaseV1_Promoted
| WorkflowPhaseV1_CancellationRequested
| WorkflowPhaseV1_Rejected
| WorkflowPhaseV1_Completed
| WorkflowPhaseV1_Failed
| WorkflowPhaseV1_Cancelled.
#[global] Instance WorkflowPhaseV1_eq_dec : EqDecision WorkflowPhaseV1.
Proof. solve_decision. Defined.

Record WorkflowDispatchReplayState := {
  wd_dispatch_version : u8;
  wd_event_id : EventId;
  wd_dispatch_event_digest : option string;
  wd_envelope_digest : string;
  wd_provenance_ref : string;
  wd_base_commit_sha : string;
  wd_repository_binding_digest : option string;
  wd_ledger_authority_realm_digest : option string;
  wd_governed_packet_digest : option string;
  wd_workflow_graph_digest : option string;
  wd_workflow_graph_declaration_event_ref : option EventId;
  wd_capability_bundle_digest : string;
  wd_acceptance_contract_digest : string;
  wd_context_manifest_digest : string;
  wd_worker_manifest_digest : string;
  wd_sandbox_profile_digest : string;
  wd_execution_role : ExecutionRoleV1;
  wd_commit_mode : CommitModeV1;
  wd_budget : DispatchBudgetV1;
  wd_trust_tier : TrustTierV1;
  wd_idempotency_key : string;
  wd_issued_at : string;
  wd_expires_at : string;
  wd_signature_ref : option SignatureRefV1;
  wd_action_evidence_version : option ActionEvidenceVersionV1
}.
#[global] Instance WorkflowDispatchReplayState_eq_dec : EqDecision WorkflowDispatchReplayState.
Proof. solve_decision. Defined.

Record WorkflowGraphV2ReplayState := {
  wg2s_event_id : EventId;
  wg2s_run_id : string;
  wg2s_workflow_id : string;
  wg2s_workflow_revision : string;
  wg2s_nodes : list WorkflowGraphNodeV2;
  wg2s_max_concurrent : u32;
  wg2s_graph_digest : string;
  wg2s_idempotency_key : string;
  wg2s_declared_at : string
}.
#[global] Instance WorkflowGraphV2ReplayState_eq_dec : EqDecision WorkflowGraphV2ReplayState.
Proof. solve_decision. Defined.

Record ContextManifestDeclarationReplayState := {
  cmds_event_id : EventId;
  cmds_run_id : string;
  cmds_workflow_id : string;
  cmds_workflow_revision : string;
  cmds_unit_id : string;
  cmds_attempt : u32;
  cmds_provenance_ref : string;
  cmds_context_manifest : ContextManifestContentV1;
  cmds_context_manifest_digest : string;
  cmds_idempotency_key : string;
  cmds_declared_at : string;
  cmds_verified_signer : option ActorKeyRef
}.
#[global] Instance ContextManifestDeclarationReplayState_eq_dec : EqDecision ContextManifestDeclarationReplayState.
Proof. solve_decision. Defined.

Record WorkerManifestDeclarationReplayState := {
  wmds_event_id : EventId;
  wmds_run_id : string;
  wmds_workflow_id : string;
  wmds_workflow_revision : string;
  wmds_unit_id : string;
  wmds_attempt : u32;
  wmds_provenance_ref : string;
  wmds_worker_manifest : WorkerManifestContentV1;
  wmds_worker_manifest_digest : string;
  wmds_idempotency_key : string;
  wmds_declared_at : string;
  wmds_verified_signer : option ActorKeyRef
}.
#[global] Instance WorkerManifestDeclarationReplayState_eq_dec : EqDecision WorkerManifestDeclarationReplayState.
Proof. solve_decision. Defined.

Record SandboxProfileDeclarationReplayState := {
  spds_event_id : EventId;
  spds_run_id : string;
  spds_workflow_id : string;
  spds_workflow_revision : string;
  spds_unit_id : string;
  spds_attempt : u32;
  spds_provenance_ref : string;
  spds_sandbox_profile : SandboxProfileContentV1;
  spds_sandbox_profile_digest : string;
  spds_idempotency_key : string;
  spds_declared_at : string;
  spds_verified_signer : option ActorKeyRef
}.
#[global] Instance SandboxProfileDeclarationReplayState_eq_dec : EqDecision SandboxProfileDeclarationReplayState.
Proof. solve_decision. Defined.

Record AttemptContextDeclarationReplayState := {
  acds_event_id : EventId;
  acds_run_id : string;
  acds_workflow_id : string;
  acds_workflow_revision : string;
  acds_unit_id : string;
  acds_attempt : u32;
  acds_provenance_ref : string;
  acds_attempt_context : AttemptContextContentV1;
  acds_attempt_context_digest : string;
  acds_idempotency_key : string;
  acds_declared_at : string;
  acds_verified_signer : option ActorKeyRef
}.
#[global] Instance AttemptContextDeclarationReplayState_eq_dec : EqDecision AttemptContextDeclarationReplayState.
Proof. solve_decision. Defined.

Record ManifestDispatchWitnessesReplayState := {
  mdw_dispatch_verified_signer : option ActorKeyRef;
  mdw_context_manifest : ContextManifestDeclarationReplayState;
  mdw_worker_manifest : WorkerManifestDeclarationReplayState;
  mdw_sandbox_profile : SandboxProfileDeclarationReplayState;
  mdw_attempt_context : option AttemptContextDeclarationReplayState
}.
#[global] Instance ManifestDispatchWitnessesReplayState_eq_dec : EqDecision ManifestDispatchWitnessesReplayState.
Proof. solve_decision. Defined.

Record V5AdmissionReceiptReplayState := {
  v5r_event_id : EventId;
  v5r_event_digest : string;
  v5r_run_id : string;
  v5r_parent_event_id : option EventId;
  v5r_source_dispatch_event_ref : EventId;
  v5r_source_dispatch_event_digest : string;
  v5r_dispatch_envelope_digest : string;
  v5r_witness_evidence_digest : string;
  v5r_semantic_identity_digest : string;
  v5r_idempotency_key : string;
  v5r_ledger_authority_realm_digest : string;
  v5r_occurred_at : string;
  v5r_admitted_at : string;
  v5r_verified_signer : option ActorKeyRef
}.
#[global] Instance V5AdmissionReceiptReplayState_eq_dec : EqDecision V5AdmissionReceiptReplayState.
Proof. solve_decision. Defined.

Record ActionRequestReplayState := {
  arqs_event_id : EventId;
  arqs_action_id : string;
  arqs_idempotency_key : string;
  arqs_action_kind : ActionKindV1;
  arqs_canonical_input_digest : string;
  arqs_canonical_input_ref : string;
  arqs_repository_binding_digest : string;
  arqs_ledger_authority_realm_digest : string;
  arqs_governed_packet_digest : option string;
  arqs_policy_digest : string;
  arqs_authority_actor : string;
  arqs_execution_role : ExecutionRoleV1;
  arqs_requested_at : string;
  arqs_action_request_digest : string
}.
#[global] Instance ActionRequestReplayState_eq_dec : EqDecision ActionRequestReplayState.
Proof. solve_decision. Defined.

Record ModelActionIntentReplayState := {
  mais_event_id : EventId;
  mais_dispatch_event_ref : EventId;
  mais_dispatch_envelope_digest : string;
  mais_action_request_event_ref : EventId;
  mais_action_request_digest : string;
  mais_canonical_input_ref : string;
  mais_canonical_input_digest : string;
  mais_model_request_evidence : ModelRequestEvidenceV1;
  mais_trust_scope_evidence : TrustScopeEvidenceV1;
  mais_candidate_binding : option ModelActionCandidateBindingV1;
  mais_intent_actor : string;
  mais_intended_at : string;
  mais_intent_digest : string
}.
#[global] Instance ModelActionIntentReplayState_eq_dec : EqDecision ModelActionIntentReplayState.
Proof. solve_decision. Defined.

Record ModelActionAuthorizationReplayState := {
  maas_event_id : EventId;
  maas_authorized_at : option string;
  maas_authorization_version : u8;
  maas_intent_event_ref : option EventId;
  maas_intent_digest : option string;
  maas_dispatch_event_ref : string;
  maas_dispatch_envelope_digest : string;
  maas_action_request_ref : string;
  maas_action_request_digest : string;
  maas_packet_digest : string;
  maas_canonical_input_digest : string;
  maas_model_request_digest : string;
  maas_model_request_evidence_ref : option string;
  maas_model_request_evidence_schema_version : option u32;
  maas_trust_scope_digest : string;
  maas_trust_scope_evidence_ref : option string;
  maas_trust_scope_evidence_schema_version : option u32;
  maas_context_manifest_digest : string;
  maas_policy_digest : string;
  maas_sandbox_profile_digest : string;
  maas_execution_role : ExecutionRoleV1;
  maas_candidate_digest : option string;
  maas_candidate_view_digest : option string;
  maas_candidate_binding : option ModelActionCandidateBindingV1;
  maas_authorization_actor : string;
  maas_expires_at : string;
  maas_authorization_ref : string;
  maas_authorization_digest : string
}.
#[global] Instance ModelActionAuthorizationReplayState_eq_dec : EqDecision ModelActionAuthorizationReplayState.
Proof. solve_decision. Defined.

Record ActivityHeartbeatReplayState := {
  ahs_event_id : EventId;
  ahs_event_digest : string;
  ahs_run_id : string;
  ahs_activity_id : string;
  ahs_idempotency_key : string;
  ahs_heartbeat_id : option string;
  ahs_heartbeat_request_digest : option string;
  ahs_claim_event_id : EventId;
  ahs_claim_event_digest : string;
  ahs_lease_id : string;
  ahs_dispatch_event_id : EventId;
  ahs_dispatch_envelope_digest : string;
  ahs_prior_lease_expires_at : string;
  ahs_lease_expires_at : string;
  ahs_heartbeat_at : string
}.
#[global] Instance ActivityHeartbeatReplayState_eq_dec : EqDecision ActivityHeartbeatReplayState.
Proof. solve_decision. Defined.

Record ActivityResultReplayState := {
  arxs_event_id : EventId;
  arxs_event_digest : string;
  arxs_run_id : string;
  arxs_activity_id : string;
  arxs_idempotency_key : string;
  arxs_claim_event_id : EventId;
  arxs_claim_event_digest : string;
  arxs_lease_id : string;
  arxs_outcome : ActivityResultOutcomeV1;
  arxs_result_digest : option string;
  arxs_result_ref : option string;
  arxs_evidence_digest : string;
  arxs_evidence_ref : string;
  arxs_recorded_at : string
}.
#[global] Instance ActivityResultReplayState_eq_dec : EqDecision ActivityResultReplayState.
Proof. solve_decision. Defined.

Record ActivityClaimReplayState := {
  acls_event_id : EventId;
  acls_claim_event_digest : string;
  acls_run_id : string;
  acls_activity_id : string;
  acls_idempotency_key : string;
  acls_action_kind : ActionKindV1;
  acls_action_request_event_id : EventId;
  acls_action_request_digest : string;
  acls_dispatch_event_id : EventId;
  acls_dispatch_envelope_digest : string;
  acls_authority_actor : string;
  acls_purpose : ActivityClaimPurposeV1;
  acls_lease_id : string;
  acls_lease_expires_at : string;
  acls_claimed_at : string;
  acls_signer : option ActorKeyRef;
  acls_heartbeats : list ActivityHeartbeatReplayState;
  acls_result : option ActivityResultReplayState
}.
#[global] Instance ActivityClaimReplayState_eq_dec : EqDecision ActivityClaimReplayState.
Proof. solve_decision. Defined.

Record ActionReceiptReplayState := {
  arcs_event_id : EventId;
  arcs_action_id : string;
  arcs_idempotency_key : string;
  arcs_action_request_digest : string;
  arcs_outcome : ActionReceiptOutcomeV2;
  arcs_result_digest : option string;
  arcs_result_ref : option string;
  arcs_evidence_digest : string;
  arcs_evidence_ref : string;
  arcs_resource_usage : ActionResourceUsageV1;
  arcs_redactions : list ActionRedactionV1;
  arcs_failure : option ActionFailureV1;
  arcs_authorization_ref : option string;
  arcs_action_receipt_ref : string;
  arcs_action_receipt_digest : string;
  arcs_completed_at : string
}.
#[global] Instance ActionReceiptReplayState_eq_dec : EqDecision ActionReceiptReplayState.
Proof. solve_decision. Defined.

Record ActionReplayState := {
  acts_request : ActionRequestReplayState;
  acts_model_intent : option ModelActionIntentReplayState;
  acts_model_authorization : option ModelActionAuthorizationReplayState;
  acts_activity_claim : option ActivityClaimReplayState;
  acts_receipt : option ActionReceiptReplayState
}.
#[global] Instance ActionReplayState_eq_dec : EqDecision ActionReplayState.
Proof. solve_decision. Defined.

Record ActionReceiptSetReplayState := {
  arss_event_id : EventId;
  arss_action_receipt_set_ref : string;
  arss_action_receipt_set_digest : string;
  arss_receipts : list ActionReceiptSetEntryV1;
  arss_sealed_at : string
}.
#[global] Instance ActionReceiptSetReplayState_eq_dec : EqDecision ActionReceiptSetReplayState.
Proof. solve_decision. Defined.

Record ActionEvidenceReplayState := {
  aes_action_evidence_version : ActionEvidenceVersionV1;
  aes_actions : gmap string ActionReplayState;
  aes_sealed_receipt_set : option ActionReceiptSetReplayState;
  aes_pending_action_ids : list string;
  aes_unknown_action_ids : list string;
  aes_failed_action_ids : list string
}.
#[global] Instance ActionEvidenceReplayState_eq_dec : EqDecision ActionEvidenceReplayState.
Proof. solve_decision. Defined.

Record AttemptContextReplayState := {
  acs_event_id : EventId;
  acs_context : AttemptContextRecordedV1
}.
#[global] Instance AttemptContextReplayState_eq_dec : EqDecision AttemptContextReplayState.
Proof. solve_decision. Defined.

Record WorkflowTimerFiredReplayState := {
  wtfs_event_id : EventId;
  wtfs_event_digest : string;
  wtfs_timer_schedule_event_ref : EventId;
  wtfs_timer_schedule_event_digest : string;
  wtfs_fired_by : string;
  wtfs_fired_at : string
}.
#[global] Instance WorkflowTimerFiredReplayState_eq_dec : EqDecision WorkflowTimerFiredReplayState.
Proof. solve_decision. Defined.

Record WorkflowTimerReplayState := {
  wtm_event_id : EventId;
  wtm_event_digest : string;
  wtm_run_id : string;
  wtm_workflow_id : string;
  wtm_workflow_revision : string;
  wtm_unit_id : string;
  wtm_attempt : u32;
  wtm_dispatch_event_ref : EventId;
  wtm_dispatch_envelope_digest : string;
  wtm_timer_id : string;
  wtm_timer_kind : WorkflowTimerKindV1;
  wtm_due_at : string;
  wtm_idempotency_key : string;
  wtm_scheduled_by : string;
  wtm_scheduled_at : string;
  wtm_fired : option WorkflowTimerFiredReplayState
}.
#[global] Instance WorkflowTimerReplayState_eq_dec : EqDecision WorkflowTimerReplayState.
Proof. solve_decision. Defined.

Record WorkflowCancellationReplayState := {
  wcs_event_id : EventId;
  wcs_event_digest : string;
  wcs_cancellation_id : string;
  wcs_cause : WorkflowCancellationCauseV1;
  wcs_timer_fired_event_ref : option EventId;
  wcs_timer_fired_event_digest : option string;
  wcs_requested_by : string;
  wcs_idempotency_key : string;
  wcs_requested_at : string
}.
#[global] Instance WorkflowCancellationReplayState_eq_dec : EqDecision WorkflowCancellationReplayState.
Proof. solve_decision. Defined.

Record CandidateArtifactReplayState := {
  ca_event_id : EventId;
  ca_candidate_id : string;
  ca_candidate_ref : string;
  ca_candidate_digest : string;
  ca_base_commit_sha : string;
  ca_candidate_commit_sha : string;
  ca_commit_digest : string;
  ca_tree_digest : string;
  ca_patch_digest : string;
  ca_changed_files_digest : string;
  ca_envelope_digest : string;
  ca_action_receipt_digest : option string;
  ca_action_receipt_set_ref : option string;
  ca_action_receipt_set_digest : option string
}.
#[global] Instance CandidateArtifactReplayState_eq_dec : EqDecision CandidateArtifactReplayState.
Proof. solve_decision. Defined.

Record CandidateCompletionReplayState := {
  ccs_event_id : EventId;
  ccs_completion : CandidateCompletionRecordedV1
}.
#[global] Instance CandidateCompletionReplayState_eq_dec : EqDecision CandidateCompletionReplayState.
Proof. solve_decision. Defined.

Record CandidateAcceptanceReplayState := {
  cas_event_id : EventId;
  cas_candidate_digest : string;
  cas_candidate_commit_sha : string;
  cas_acceptance_ref : string;
  cas_acceptance_contract_digest : string;
  cas_acceptance_digest : string;
  cas_outcome : CandidateAcceptanceOutcomeV1;
  cas_evaluated_at : string
}.
#[global] Instance CandidateAcceptanceReplayState_eq_dec : EqDecision CandidateAcceptanceReplayState.
Proof. solve_decision. Defined.

Record ReviewVerdictReplayState := {
  rvs_review_version : u8;
  rvs_event_id : EventId;
  rvs_candidate_digest : string;
  rvs_candidate_commit_sha : string;
  rvs_review_ref : string;
  rvs_decision : ReviewDecisionV1;
  rvs_findings : list ReviewFindingV1;
  rvs_confidence : f64;
  rvs_reviewer_manifest_digest : string;
  rvs_review_verdict_action_id : option string;
  rvs_review_action_request_digest : option string;
  rvs_review_action_receipt_ref : option string;
  rvs_review_action_receipt_digest : option string;
  rvs_review_output_ref : option string;
  rvs_review_output_digest : option string;
  rvs_review_output_semantic_digest : option string;
  rvs_acceptance_ref : option string;
  rvs_acceptance_digest : option string;
  rvs_acceptance_contract_digest : option string;
  rvs_candidate_envelope_digest : option string;
  rvs_reviewer_workflow_id : option string;
  rvs_reviewer_dispatch_envelope_digest : option string;
  rvs_reviewer_unit_id : option string;
  rvs_reviewer_attempt : option u32;
  rvs_reviewer_execution_role : option ExecutionRoleV1;
  rvs_review_action_receipt_set_ref : option string;
  rvs_review_action_receipt_set_digest : option string;
  rvs_candidate_view : option CandidateViewV1;
  rvs_candidate_view_ref : option string;
  rvs_candidate_view_digest : option string;
  rvs_reviewer_authority : option string;
  rvs_reviewed_at : string
}.
#[global] Instance ReviewVerdictReplayState_eq_dec : EqDecision ReviewVerdictReplayState.
Proof. solve_decision. Defined.

Record PromotionApprovalRequestReplayState := {
  pars_event_id : EventId;
  pars_event_digest : string;
  pars_candidate_digest : string;
  pars_base_commit_sha : string;
  pars_target_ref : string;
  pars_envelope_digest : string;
  pars_acceptance_ref : string;
  pars_review_refs : list string;
  pars_requested_by : string;
  pars_requested_at : string;
  pars_idempotency_key : string
}.
#[global] Instance PromotionApprovalRequestReplayState_eq_dec : EqDecision PromotionApprovalRequestReplayState.
Proof. solve_decision. Defined.

Record PromotionDecisionReplayState := {
  pds_event_id : EventId;
  pds_event_digest : string;
  pds_candidate_digest : string;
  pds_base_commit_sha : string;
  pds_target_ref : option string;
  pds_envelope_digest : string;
  pds_acceptance_ref : string;
  pds_review_refs : list string;
  pds_promotion_approval_request_ref : option string;
  pds_decision : PromotionDecisionKindV1;
  pds_authority : string;
  pds_decided_by : string;
  pds_decided_at : string;
  pds_idempotency_key : string
}.
#[global] Instance PromotionDecisionReplayState_eq_dec : EqDecision PromotionDecisionReplayState.
Proof. solve_decision. Defined.

Record PromotionExecutionClaimReplayState := {
  pecs_event_id : EventId;
  pecs_event_digest : string;
  pecs_claim : PromotionExecutionClaimedV1
}.
#[global] Instance PromotionExecutionClaimReplayState_eq_dec : EqDecision PromotionExecutionClaimReplayState.
Proof. solve_decision. Defined.

Record PromotionResultReplayState := {
  prs_event_id : EventId;
  prs_event_digest : string;
  prs_candidate_digest : string;
  prs_idempotency_key : string;
  prs_promotion_decision_ref : string;
  prs_outcome : PromotionResultOutcomeV1;
  prs_merged_head_sha : option string;
  prs_promotion_git_binding : option PromotionGitBindingV1;
  prs_promotion_execution_lease_binding : option PromotionExecutionLeaseBindingV1;
  prs_completed_at : string
}.
#[global] Instance PromotionResultReplayState_eq_dec : EqDecision PromotionResultReplayState.
Proof. solve_decision. Defined.

Record PromotionReconciliationReplayState := {
  precs_event_id : EventId;
  precs_event_digest : string;
  precs_candidate_digest : string;
  precs_promotion_decision_ref : string;
  precs_promotion_result_ref : string;
  precs_promotion_receipt_ref : string;
  precs_outcome : ReconciliationResolutionOutcomeV1;
  precs_authority : string;
  precs_resolved_by : string;
  precs_idempotency_key : string;
  precs_resolved_at : string
}.
#[global] Instance PromotionReconciliationReplayState_eq_dec : EqDecision PromotionReconciliationReplayState.
Proof. solve_decision. Defined.

Record PromotionReplayState := {
  ps_decision : PromotionDecisionReplayState;
  ps_execution_claim : option PromotionExecutionClaimReplayState;
  ps_result : option PromotionResultReplayState;
  ps_reconciliation : option PromotionReconciliationReplayState
}.
#[global] Instance PromotionReplayState_eq_dec : EqDecision PromotionReplayState.
Proof. solve_decision. Defined.

Record WorkflowTerminalReplayState := {
  wtrs_event_id : EventId;
  wtrs_terminal_version : u8;
  wtrs_event_digest : string;
  wtrs_unit_id : string;
  wtrs_attempt : u32;
  wtrs_outcome : WorkflowTerminalOutcomeV1;
  wtrs_candidate_digest : option string;
  wtrs_promotion_result_ref : option string;
  wtrs_reconciliation_resolution_ref : option string;
  wtrs_cancellation_request_event_ref : option EventId;
  wtrs_cancellation_request_event_digest : option string;
  wtrs_reason : option string;
  wtrs_idempotency_key : string;
  wtrs_completed_at : string
}.
#[global] Instance WorkflowTerminalReplayState_eq_dec : EqDecision WorkflowTerminalReplayState.
Proof. solve_decision. Defined.

Record WorkflowInstanceV1 := {
  wi_run_id : string;
  wi_workflow_id : string;
  wi_workflow_revision : string;
  wi_unit_id : string;
  wi_attempt : u32;
  wi_phase : WorkflowPhaseV1;
  wi_dispatch : WorkflowDispatchReplayState;
  wi_workflow_graph : option WorkflowGraphV2ReplayState;
  wi_manifest_declarations : option ManifestDispatchWitnessesReplayState;
  wi_v5_admission_receipt : option V5AdmissionReceiptReplayState;
  wi_action_evidence : option ActionEvidenceReplayState;
  wi_retry_context : option AttemptContextReplayState;
  wi_timers : gmap string WorkflowTimerReplayState;
  wi_cancellation : option WorkflowCancellationReplayState;
  wi_candidate : option CandidateArtifactReplayState;
  wi_candidate_completion : option CandidateCompletionReplayState;
  wi_acceptance : option CandidateAcceptanceReplayState;
  wi_reviews : gmap string ReviewVerdictReplayState;
  wi_promotion_approval : option PromotionApprovalRequestReplayState;
  wi_promotion : option PromotionReplayState;
  wi_terminal : option WorkflowTerminalReplayState
}.

Record WorkflowGraphReplayState := {
  wgs_event_id : EventId;
  wgs_run_id : string;
  wgs_workflow_id : string;
  wgs_workflow_revision : string;
  wgs_nodes : list WorkflowGraphNodeV1;
  wgs_max_concurrent : u32;
  wgs_graph_digest : string;
  wgs_idempotency_key : string;
  wgs_declared_at : string
}.
#[global] Instance WorkflowGraphReplayState_eq_dec : EqDecision WorkflowGraphReplayState.
Proof. solve_decision. Defined.

Record FileObservation := {
  fo_last_known_hash : string;
  fo_from_event_id : EventId
}.
#[global] Instance FileObservation_eq_dec : EqDecision FileObservation.
Proof. solve_decision. Defined.

Record CheckpointRef := {
  cr_boundary : string;
  cr_reference : string;
  cr_commit_sha : string;
  cr_unit_id : string;
  cr_from_event_id : EventId
}.
#[global] Instance CheckpointRef_eq_dec : EqDecision CheckpointRef.
Proof. solve_decision. Defined.

Inductive ReplayIssue :=
| ReplayIssue_CheckpointFailed (unit_id step error : string)
| ReplayIssue_UnreadablePostWrite (path reason : string)
| ReplayIssue_ActivityTransitionRejected (event_id : EventId) (activity_id reason : string)
| ReplayIssue_DanglingParent (event_id parent_event_id : EventId)
| ReplayIssue_TargetNotFound (requested : string)
| ReplayIssue_UnverifiedTrustSpineEvent (event_id : EventId) (event_kind : string)
    (verification : VerificationStatus)
| ReplayIssue_UnauthorizedTrustSpineSigner (event_id : EventId) (event_kind : string)
    (required_role : string) (signer_actor_id signer_key_id : option string) (reason : string)
| ReplayIssue_WorkflowTransitionRejected (event_id : EventId) (event_kind : string)
    (phase : option WorkflowPhaseV1) (reason : string).

Record ReplayState := {
  st_run_id : option string;
  st_parent_run_id : option string;
  st_parent_event_id : option string;
  st_current_unit : option string;
  st_parent_chain : list EventId;
  st_plan_cycle_phase : string;
  st_plan_admission : option PlanAdmissionReplayState;
  st_activities : gmap string RecordedActivityState;
  st_plan_receipt : option PlanReceiptReplayState;
  st_plan_acceptance : option PlanAcceptanceReplayState;
  st_workflow_instance : option WorkflowInstanceV1;
  st_workflow_instances : gmap string WorkflowInstanceV1;
  st_workflow_graphs : gmap string WorkflowGraphReplayState;
  st_workflow_graphs_v2 : gmap string WorkflowGraphV2ReplayState;
  st_context_manifest_declarations : gmap string ContextManifestDeclarationReplayState;
  st_worker_manifest_declarations : gmap string WorkerManifestDeclarationReplayState;
  st_sandbox_profile_declarations : gmap string SandboxProfileDeclarationReplayState;
  st_attempt_context_declarations : gmap string AttemptContextDeclarationReplayState;
  st_attempt_contexts : gmap string AttemptContextReplayState;
  st_observed_files : gmap string FileObservation;
  st_checkpoints : list CheckpointRef;
  st_issues : list ReplayIssue
}.

(** [ReplayState::default()]. *)
Definition default_replay_state : ReplayState := {|
  st_run_id := None; st_parent_run_id := None; st_parent_event_id := None;
  st_current_unit := None; st_parent_chain := []; st_plan_cycle_phase := "";
  st_plan_admission := None; st_activities := ∅; st_plan_receipt := None;
  st_plan_acceptance := None; st_workflow_instance := None; st_workflow_instances := ∅;
  st_workflow_graphs := ∅; st_workflow_graphs_v2 := ∅;
  st_context_manifest_declarations := ∅; st_worker_manifest_declarations := ∅;
  st_sandbox_profile_declarations := ∅; st_attempt_context_declarations := ∅;
  st_attempt_contexts := ∅; st_observed_files := ∅; st_checkpoints := []; st_issues := []
|}.

(** [WorkflowPhaseV1::is_terminal]. *)
Definition is_terminal (phase : WorkflowPhaseV1) : bool :=
  match phase with
  | WorkflowPhaseV1_Rejected | WorkflowPhaseV1_Completed
  | WorkflowPhaseV1_Failed | WorkflowPhaseV1_Cancelled => true
  | _ => false
  end.

Definition has_bound_signer (signer : option ActorKeyRef) : bool :=
  is_some_and signer (fun signer =>
    negb (trim_is_empty (akr_actor_id signer)) && negb (trim_is_empty (akr_key_id signer))).

Section RecoveryPredicates.
Context `{Host}.

Definition has_complete_v5_admission_receipt (workflow : WorkflowInstanceV1)
    (through_event_ref : option EventId) : bool :=
  let dispatch := wi_dispatch workflow in
  if wd_dispatch_version dispatch != 5 then false else
  match wi_v5_admission_receipt workflow, through_event_ref with
  | Some receipt, Some through_event_ref =>
  match wd_dispatch_event_digest dispatch with
  | None => false
  | Some dispatch_event_digest =>
  match wd_ledger_authority_realm_digest dispatch with
  | None => false
  | Some ledger_authority_realm_digest =>
    let receipt_timestamp_is_canonical :=
      is_some_and (to_rfc3339_millis <$> parse_from_rfc3339 (v5r_occurred_at receipt))
        (fun timestamp => timestamp == v5r_occurred_at receipt) in
    has_bound_signer (v5r_verified_signer receipt)
    && (v5r_run_id receipt == wi_run_id workflow)
    && (v5r_parent_event_id receipt == Some (v5r_source_dispatch_event_ref receipt))
    && (v5r_source_dispatch_event_ref receipt == wd_event_id dispatch)
    && (v5r_source_dispatch_event_digest receipt == dispatch_event_digest)
    && (v5r_dispatch_envelope_digest receipt == wd_envelope_digest dispatch)
    && (v5r_idempotency_key receipt == wd_idempotency_key dispatch)
    && (v5r_ledger_authority_realm_digest receipt == ledger_authority_realm_digest)
    && (v5r_occurred_at receipt == v5r_admitted_at receipt)
    && receipt_timestamp_is_canonical
    && (wd_event_id dispatch <? v5r_event_id receipt)
    && (v5r_event_id receipt <=? through_event_ref)
    && forallb is_canonical_sha256_digest
         [v5r_event_digest receipt; dispatch_event_digest;
          v5r_source_dispatch_event_digest receipt; v5r_dispatch_envelope_digest receipt;
          v5r_witness_evidence_digest receipt; v5r_semantic_identity_digest receipt;
          v5r_ledger_authority_realm_digest receipt; ledger_authority_realm_digest]
    && negb (trim_is_empty (v5r_idempotency_key receipt))
  end end
  | _, _ => false
  end.

(** The closure [matches_dispatch_identity] of the source. *)
Definition matches_dispatch_identity (workflow : WorkflowInstanceV1)
    (run_id workflow_id workflow_revision unit_id : string) (attempt : u32)
    (provenance_ref : string) : bool :=
  (run_id == wi_run_id workflow)
  && (workflow_id == wi_workflow_id workflow)
  && (workflow_revision == wi_workflow_revision workflow)
  && (unit_id == wi_unit_id workflow)
  && (attempt == wi_attempt workflow)
  && (provenance_ref == wd_provenance_ref (wi_dispatch workflow)).

Definition digest_matches (computed : Result string string) (expected : list string) : bool :=
  is_some_and (result_ok computed)
    (fun digest => forallb (fun e => digest == e) expected).

Definition has_complete_v5_manifest_dispatch_witnesses (workflow : WorkflowInstanceV1) : bool :=
  let dispatch := wi_dispatch workflow in
  if wd_dispatch_version dispatch != 5 then false else
  match wi_manifest_declarations workflow with
  | None => false
  | Some witnesses =>
    let c := mdw_context_manifest witnesses in
    let w := mdw_worker_manifest witnesses in
    let s := mdw_sandbox_profile witnesses in
    if negb (has_bound_signer (mdw_dispatch_verified_signer witnesses))
       || negb (has_bound_signer (cmds_verified_signer c))
       || negb (has_bound_signer (wmds_verified_signer w))
       || negb (has_bound_signer (spds_verified_signer s))
    then false else
    if negb (matches_dispatch_identity workflow (cmds_run_id c) (cmds_workflow_id c)
               (cmds_workflow_revision c) (cmds_unit_id c) (cmds_attempt c)
               (cmds_provenance_ref c))
       || negb (matches_dispatch_identity workflow (wmds_run_id w) (wmds_workflow_id w)
               (wmds_workflow_revision w) (wmds_unit_id w) (wmds_attempt w)
               (wmds_provenance_ref w))
       || negb (matches_dispatch_identity workflow (spds_run_id s) (spds_workflow_id s)
               (spds_workflow_revision s) (spds_unit_id s) (spds_attempt s)
               (spds_provenance_ref s))
    then false else
    let context_digest_matches :=
      digest_matches (context_manifest_content_v1_digest (cmds_context_manifest c))
        [cmds_context_manifest_digest c; wd_context_manifest_digest dispatch] in
    let worker_digest_matches :=
      digest_matches (worker_manifest_content_v1_digest (wmds_worker_manifest w))
        [wmds_worker_manifest_digest w; wd_worker_manifest_digest dispatch] in
    let sandbox_digest_matches :=
      digest_matches (sandbox_profile_content_v1_digest (spds_sandbox_profile s))
        [spds_sandbox_profile_digest s; wd_sandbox_profile_digest dispatch] in
    if negb context_digest_matches || negb worker_digest_matches || negb sandbox_digest_matches
       || (wmc_execution_role (wmds_worker_manifest w) != wd_execution_role dispatch)
       || (wmc_capability_bundle_digest (wmds_worker_manifest w)
             != wd_capability_bundle_digest dispatch)
       || (spc_image_digest (spds_sandbox_profile s) != wmc_image_digest (wmds_worker_manifest w))
    then false else
    match mdw_attempt_context witnesses with
    | None => wi_attempt workflow == 1
    | Some a =>
        if wi_attempt workflow == 1 then false else
        has_bound_signer (acds_verified_signer a)
        && matches_dispatch_identity workflow (acds_run_id a) (acds_workflow_id a)
             (acds_workflow_revision a) (acds_unit_id a) (acds_attempt a)
             (acds_provenance_ref a)
        && (acc_attempt (acds_attempt_context a) == wi_attempt workflow)
        && digest_matches (attempt_context_content_v1_digest (acds_attempt_context a))
             [acds_attempt_context_digest a]
    end
  end.
End RecoveryPredicates.
