(* ===== verification/DemoHost.v ===== *)
(** * A concrete host for evaluated examples

    Instances of the third-party interfaces by small computable functions, so
    that the examples that exercise the theorems run in the kernel.  They are
    not models of the crates: no theorem of the development depends on them,
    only the examples do.  UUIDs and instants print in decimal, the digest is
    a polynomial hash printed as 64 hexadecimal digits, JSON is printed without
    escapes, and the signature of a message is the message hash keyed by a
    number. *)
From S2P Require Import Prelude RustStr Host LedgerPayloads TrustSpine Events.
From Stdlib Require Import Ascii Lia.
From stdpp Require Import base list strings pretty.

#[local] Open Scope string_scope.

Module Demo.
Definition hex_digit (z : Z) : Ascii.ascii :=
  Ascii.ascii_of_N (Z.to_N (if (z <? 10)%Z then 48 + z else 87 + z)).

Fixpoint hex (digits : nat) (z : Z) (acc : string) : string :=
  match digits with
  | O => acc
  | S n => hex n (Z.shiftr z 4) (String (hex_digit (Z.land z 15)) acc)
  end.

Fixpoint poly_hash (s : string) (acc : Z) : Z :=
  match s with
  | EmptyString => acc
  | String c r => poly_hash r (Z.land (acc * 257 + Z.of_N (Ascii.N_of_ascii c) + 1) 2305843009213693951)
  end.

Definition demo_sha256_hex (s : string) : string := hex 64 (poly_hash s 7) "".

Fixpoint show_json (j : Json) : string :=
  let fix items l :=
    match l with [] => "" | x :: r => show_json x +:+ "," +:+ items r end in
  let fix members l :=
    match l with [] => "" | (k, x) :: r => k +:+ ":" +:+ show_json x +:+ "," +:+ members r end in
  match j with
  | JNull => "null"
  | JBool b => if b then "true" else "false"
  | JInt n => pretty n
  | JFloat _ => "float"
  | JString s => "'" +:+ s +:+ "'"
  | JArray l => "[" +:+ items l +:+ "]"
  | JObject l => "{" +:+ members l +:+ "}"
  end.

Fixpoint read_instant (s : string) (acc : Z) : option Z :=
  match s with
  | EmptyString => None
  | String c r =>
      let n := Z.of_N (Ascii.N_of_ascii c) in
      if ((48 <=? n) && (n <=? 57))%Z then read_instant r (10 * acc + (n - 48))
      else if bool_decide (String c r = "Z") then Some acc else None
  end.

#[global] Instance demo_host : Host := {
  uuid_to_string := fun u => pretty u;
  parse_from_rfc3339 := fun s => read_instant s 0;
  checked_add_milliseconds := fun d ms => Some (d + ms)%Z;
  to_rfc3339_millis := fun d => pretty d +:+ "Z";
  to_rfc3339_auto_si := fun d => pretty d +:+ "Z";
  sha256_hex := demo_sha256_hex;
  serde_json_to_vec := show_json
}.

(** Every event is canonical; an event is encoded by its kind and envelope. *)
#[global] Instance demo_canonicalizer : Canonicalizer := {
  canonicalize := fun event => Ok event;
  event_to_vec := fun event =>
    Ok (as_wire (ev_kind event) +:+ " " +:+ pretty (ev_id event) +:+ " " +:+
        pretty (ev_run_id event))
}.

(** Two key pairs; the public key is 32 times one letter. *)
Fixpoint repeat_char (n : nat) (c : Ascii.ascii) : string :=
  match n with O => "" | S n => String c (repeat_char n c) end.
Definition demo_key_bytes (k : bool) : string := repeat_char 32 (if k then "a" else "b")%char.
Definition demo_sign (k : bool) (message : string) : string :=
  hex 64 (poly_hash message (if k then 1 else 2)) "".

#[global] Instance demo_crypto : Crypto := {
  SigningKey := bool;
  VerifyingKey := bool;
  verifying_key := fun k => k;
  verifying_key_as_bytes := demo_key_bytes;
  verifying_key_from_bytes := fun s =>
    if bool_decide (s = demo_key_bytes true) then Some true
    else if bool_decide (s = demo_key_bytes false) then Some false else None;
  ed25519_sign := demo_sign;
  ed25519_verify := fun k message signature => bool_decide (signature = demo_sign k message);
  url_safe_no_pad_encode := fun s => s;
  url_safe_no_pad_decode := fun s => Some s
}.

Lemma hex_length n z acc : String.length (hex n z acc) = (n + String.length acc)%nat.
Proof.
  revert z acc. induction n as [|n IH]; intros z acc; simpl; [done|].
  rewrite IH. simpl. lia.
Qed.
End Demo.
