(* ===== verification/SigningSpec.v ===== *)
(** * What event signatures promise

    Theorems about [sign_event] and [verify_event_signature] of
    [bp-ledger/src/signing.rs] (modelled in [Events]), for every host,
    canonicaliser and signature scheme that satisfies the documented laws of
    Ed25519 and unpadded URL-safe base64 ([CryptoLaws]). *)
From S2P Require Import Prelude RustStr Host LedgerPayloads TrustSpine Events DemoHost.
From stdpp Require Import base list gmap strings.
From Stdlib Require Import Lia.

#[local] Open Scope string_scope.
#[local] Open Scope list_scope.

(** The documented behaviour of [ed25519-dalek] and [base64] the code relies
    on: a signature is 64 bytes and verifies under the signer's key, a
    verifying key is its 32 bytes, and decoding undoes encoding. *)
Class CryptoLaws (C : Crypto) : Prop := {
  sign_verifies : forall k m, ed25519_verify (verifying_key k) m (ed25519_sign k m) = true;
  sign_length : forall k m, String.length (ed25519_sign k m) = 64%nat;
  key_length : forall v, String.length (verifying_key_as_bytes v) = 32%nat;
  key_bytes_round_trip : forall v, verifying_key_from_bytes (verifying_key_as_bytes v) = Some v;
  base64_round_trip : forall s, url_safe_no_pad_decode (url_safe_no_pad_encode s) = Some s
}.

#[global] Instance demo_crypto_laws : CryptoLaws Demo.demo_crypto.
Proof.
  split.
  - intros k m. by apply bool_decide_true.
  - intros k m. apply (Demo.hex_length 64).
  - by intros [].
  - by intros [].
  - by intros s.
Qed.

Section Signing.
Context `{Host, Canonicalizer, Crypto}.

Lemma try_from_len_Some n s r : try_from_len n s = Some r <-> s = r /\ String.length s = n.
Proof.
  unfold try_from_len. destruct (String.length s =? n)%nat eqn:E; bool_simp; naive_solver.
Qed.

Lemma sign_event_Ok event key signer at_ signature :
  sign_event event key signer at_ = Ok signature ->
  exists message, canonical_event_bytes event = Ok message /\
    es_event_id signature = ev_id event /\
    canonical_event_hash event = Ok (es_canonical_event_hash signature) /\
    es_signature signature = url_safe_no_pad_encode (ed25519_sign key message) /\
    es_signer signature = {| akr_actor_id := akr_actor_id signer; akr_key_id := akr_key_id signer;
      akr_public_key_hash := Some (public_key_hash (verifying_key key)) |}.
Proof. unfold sign_event. intros Hs. guards. subst. eauto 10. Qed.

(** What [Verified] means: the detached signature names this event and its
    canonical hash, and a trusted key, whose hash is the one the signer
    declares, verifies the decoded signature over the canonical bytes. *)
Record signature_valid (event : Event) (signature : EventSignatureV1)
    (keys : TrustedPublicKeys) : Prop := {
  sv_event : es_event_id signature = ev_id event;
  sv_hash : canonical_event_hash event = Ok (es_canonical_event_hash signature);
  sv_key : exists key_hash key_bytes key raw message,
    akr_public_key_hash (es_signer signature) = Some key_hash /\
    tpk_by_public_key_hash keys !! key_hash = Some key_bytes /\
    String.length key_bytes = 32%nat /\
    verifying_key_from_bytes key_bytes = Some key /\
    public_key_hash key = key_hash /\
    url_safe_no_pad_decode (es_signature signature) = Some raw /\
    String.length raw = 64%nat /\
    canonical_event_bytes event = Ok message /\
    ed25519_verify key message raw = true
}.

Lemma verified_sound event signature keys :
  verify_event_signature event signature keys = VerificationStatus_Verified ->
  signature_valid event signature keys.
Proof.
  unfold verify_event_signature, public_key_for.
  destruct (_ != _) eqn:Hid; [done|].
  destruct (canonical_event_hash event) as [hash|] eqn:Hhash; [|done].
  destruct (_ != _) eqn:Hh in |- *; [done|].
  destruct (akr_public_key_hash _) as [kh|] eqn:Hkh; simpl; [|done].
  destruct (_ !! kh) as [kb|] eqn:Hkb; [|done].
  destruct (try_from_len 32 kb) as [kb'|] eqn:Hlen; [|done].
  destruct (verifying_key_from_bytes kb') as [key|] eqn:Hkey; [|done].
  destruct (public_key_hash key != kh) eqn:Hmatch; [done|].
  destruct (url_safe_no_pad_decode _) as [raw|] eqn:Hraw; [|done].
  destruct (try_from_len 64 raw) as [raw'|] eqn:Hlen'; [|done].
  destruct (canonical_event_bytes event) as [message|] eqn:Hm; [|done].
  destruct (ed25519_verify key message raw') eqn:Hv; [|done]. intros _.
  bool_simp. apply try_from_len_Some in Hlen as [-> Hlen], Hlen' as [-> Hlen'].
  split; [done|congruence|]. eauto 20.
Qed.

Lemma verified_complete event signature keys :
  signature_valid event signature keys ->
  verify_event_signature event signature keys = VerificationStatus_Verified.
Proof.
  intros [Hid Hh (kh & kb & key & raw & message & Hkh & Hkb & Hlen & Hkey & Hm & Hraw & Hlen' & Hb & Hv)].
  unfold verify_event_signature, public_key_for.
  rewrite Hid, Hh, Hkh. simpl. rewrite Hkb, !bool_decide_true by done. simpl.
  rewrite (proj2 (try_from_len_Some 32 kb kb)) by done.
  rewrite Hkey, Hm, bool_decide_true by done. simpl.
  rewrite Hraw, (proj2 (try_from_len_Some 64 raw raw)) by done. by rewrite Hb, Hv.
Qed.

(** [verify_event_signature] answers [Verified] exactly for a signature
    bound to this event's id and canonical hash, made by a trusted key whose
    hash matches the declared signer, over the canonical bytes. *)
Theorem verify_event_signature_iff event signature keys :
  verify_event_signature event signature keys = VerificationStatus_Verified <->
  signature_valid event signature keys.
Proof. split; [apply verified_sound|apply verified_complete]. Qed.

(** Sign/verify round trip.  A signature produced by [sign_event] under a
    key that the verifier trusts by its hash verifies. *)
Theorem sign_then_verify `{!CryptoLaws _} event key signer signed_at signature keys :
  sign_event event key signer signed_at = Ok signature ->
  verify_event_signature event signature
    (insert_public_key keys (public_key_hash (verifying_key key))
       (verifying_key_as_bytes (verifying_key key))) = VerificationStatus_Verified.
Proof.
  intros (message & Hm & Hid & Hh & Hs & Hsig)%sign_event_Ok.
  apply verified_complete. split; [done..|]. rewrite Hsig, Hs. simpl.
  eexists _, _, _, _, _. rewrite lookup_insert_eq, base64_round_trip.
  split_and!; try done.
  - apply key_length.
  - apply key_bytes_round_trip.
  - apply sign_length.
  - apply sign_verifies.
Qed.

(** A detached signature cannot be moved to another event.  Two events
    for which the same signature verifies have the same id and the same
    canonical bytes, unless a SHA-256 collision is at hand. *)
Theorem signature_binds_event event1 event2 signature keys1 keys2 :
  verify_event_signature event1 signature keys1 = VerificationStatus_Verified ->
  verify_event_signature event2 signature keys2 = VerificationStatus_Verified ->
  ev_id event1 = ev_id event2 /\
  (canonical_event_bytes event1 = canonical_event_bytes event2 \/
   exists x y, x <> y /\ sha256_hex x = sha256_hex y).
Proof.
  intros [Hid1 Hh1 _]%verified_sound [Hid2 Hh2 _]%verified_sound.
  split; [congruence|]. unfold canonical_event_hash in *.
  destruct (canonical_event_bytes event1) as [m1|]; simpl in Hh1; [|done].
  destruct (canonical_event_bytes event2) as [m2|]; simpl in Hh2; [|done].
  destruct (decide (m1 = m2)) as [->|Hne]; [by left|]. right. exists m1, m2. split; [done|].
  rewrite <- Hh1 in Hh2. apply Ok_inj, RustStr.strip_prefix_Some in Hh2.
  rewrite RustStr.strip_prefix_app in Hh2. by simplify_eq.
Qed.
End Signing.

(** ** Evaluated examples *)

Module SampleSignature.
Definition event : Event :=
  {| ev_id := 10; ev_run_id := 1; ev_parent_event_id := None; ev_schema_version := 1;
     ev_kind := EventKind_WorkspaceRead; ev_occurred_at := 0;
     ev_payload := Payload_WorkspaceReadV1
       {| wr_tool_request_id := 9; wr_path := "a"; wr_content_hash := "h"; wr_size_bytes := 1 |} |}.
Definition signer : ActorKeyRef :=
  {| akr_actor_id := "kernel"; akr_key_id := "k1"; akr_public_key_hash := None |}.
Definition key : @SigningKey Demo.demo_crypto := true.
Definition signature : EventSignatureV1 :=
  Eval vm_compute in
    match sign_event event key signer 5 with
    | Ok s => s
    | Err e => {| es_event_id := 0; es_canonical_event_hash := e; es_signer := signer;
                  es_algorithm := SignatureAlgorithm_Ed25519; es_signature := "";
                  es_signed_at := 0 |}
    end.
Definition no_keys : TrustedPublicKeys := {| tpk_by_public_key_hash := ∅ |}.
Definition keys : TrustedPublicKeys :=
  insert_public_key no_keys (public_key_hash (verifying_key key))
    (verifying_key_as_bytes (verifying_key key)).

(** The round trip at a signature by the first demo key. *)
Example sign_then_verify_witness :
  sign_event event key signer 5 = Ok signature /\
  verify_event_signature event signature keys = VerificationStatus_Verified.
Proof.
  split; [vm_compute; reflexivity|].
  apply (sign_then_verify event key signer 5 signature no_keys).
  vm_compute. reflexivity.
Defined.

(** Binding at the same signature. *)
Example signature_binds_event_witness :
  verify_event_signature event signature keys = VerificationStatus_Verified /\
  (ev_id event = ev_id event /\
   (canonical_event_bytes event = canonical_event_bytes event \/
    exists x y, x <> y /\ sha256_hex x = sha256_hex y)).
Proof.
  split; [vm_compute; reflexivity|].
  apply (signature_binds_event event event signature keys keys); vm_compute; reflexivity.
Defined.
End SampleSignature.
