(* ===== verification/Tape.v ===== *)
(** * Tape checkpoints and full-tape integrity

    [tape_root_hash] of [bp-ledger/src/payload/checkpoint.rs] and the
    fail-closed verifier [verify_full_tape_integrity_v1] of
    [bp-replay/src/tape_integrity.rs]: a governed recovery snapshot is usable
    only if a directly anchored chain of kernel-signed checkpoints covers every
    signed ordinary event of the tape.

    The verifier's indexing panics (a slice index out of range) are modelled:
    [None] is a panic, [Some (Err e)] a refused tape, [Some (Ok r)] the report. *)
From S2P Require Import Prelude RustStr Host LedgerPayloads TrustSpine Events.
From stdpp Require Import base list gmap strings.

#[local] Open Scope string_scope.

(** ** Tape roots *)

Definition newline : string := String (Ascii.ascii_of_nat 10) "".

(** [slice.join("\n")]. *)
Fixpoint join_newline (l : list string) : string :=
  match l with
  | [] => ""
  | [s] => s
  | s :: rest => s +:+ newline +:+ join_newline rest
  end.

Record TapeRootHasher := {
  trh_hasher : string;  (** the bytes fed to the incremental SHA-256 state *)
  trh_count : nat
}.

Definition default_root_hasher : TapeRootHasher := {| trh_hasher := ""; trh_count := 0 |}.

Definition root_push (r : TapeRootHasher) (canonical_event_hash : string) : TapeRootHasher :=
  let hasher := if (trh_count r =? 0)%nat then trh_hasher r else trh_hasher r +:+ newline in
  {| trh_hasher := hasher +:+ canonical_event_hash; trh_count := S (trh_count r) |}.

(** ** Errors and the report *)
Inductive TapeIntegrityError :=
| TapeIntegrityError_ForeignRunEvent (expected_run event_id : string)
| TapeIntegrityError_TapeOrder (previous_event_id event_id : string)
| TapeIntegrityError_MissingCheckpoint
| TapeIntegrityError_CheckpointIndexMismatch (event_id : string) (expected actual : u64)
| TapeIntegrityError_CheckpointPredecessorMismatch (event_id : string)
    (expected actual : option string)
| TapeIntegrityError_MalformedCheckpoint (event_id : string)
| TapeIntegrityError_CheckpointNotVerified (event_id : string) (verification : VerificationStatus)
| TapeIntegrityError_CheckpointSignatureMissing (event_id : string)
| TapeIntegrityError_CheckpointSignerUnauthorized (event_id : string)
| TapeIntegrityError_CheckpointRunMismatch (event_id : string)
| TapeIntegrityError_UnsupportedAlgorithm (event_id : string) (algorithm : TapeRootAlgorithm)
| TapeIntegrityError_UnanchoredCheckpoint (event_id through_event_id : string)
| TapeIntegrityError_ThroughEventMissing (event_id through_event_id : string)
| TapeIntegrityError_SignedEventNotVerified (event_id : string) (verification : VerificationStatus)
| TapeIntegrityError_SignedEventSignatureMissing (event_id : string)
| TapeIntegrityError_CoverageCountMismatch (event_id : string) (declared actual : u64)
| TapeIntegrityError_TapeRootMismatch (event_id : string)
| TapeIntegrityError_CheckpointCoverageNotAdvanced (event_id previous_checkpoint_event_id : string)
| TapeIntegrityError_UncheckpointedSignedTail (checkpoint_event_id tail_event_id : string).

Record TapeIntegrityReportV1 := {
  tir_schema_version : u8;
  tir_checkpoint_event_ref : string;
  tir_checkpoint_event_digest : string;
  tir_through_event_ref : string;
  tir_signed_non_checkpoint_event_count : u64;
  tir_tape_root_hash : string;
  tir_algorithm : TapeRootAlgorithm
}.

(** A signed ordinary event with its detached signature. *)
Abbreviation SignedEvent := (VerifiedEvent * EventSignatureV1)%type (only parsing).

Definition event_id (v : VerifiedEvent) : EventId := ev_id (ve_event v).
Definition signed_hash (s : SignedEvent) : string := es_canonical_event_hash s.2.

(** The scan of the tape: signed ordinary events in tape order, the first
    position of each of their ids, and the checkpoint events. *)
Record TapeScan := {
  scan_signed : list SignedEvent;
  scan_positions : gmap EventId nat;
  scan_checkpoints : list VerifiedEvent
}.

Section Integrity.
Context `{Host}.

Definition tape_root_hash (ordered_canonical_event_hashes : list string) : string :=
  "sha256:" +:+ sha256_hex (join_newline ordered_canonical_event_hashes).

Definition root_value (r : TapeRootHasher) : string :=
  "sha256:" +:+ sha256_hex (trh_hasher r).

Abbreviation show := uuid_to_string.

(** The [windows(2)] loop. *)
Fixpoint check_tape_order (events : list VerifiedEvent) : Result unit TapeIntegrityError :=
  match events with
  | a :: ((b :: _) as rest) =>
      if (event_id b <=? event_id a)%Z
      then Err (TapeIntegrityError_TapeOrder (show (event_id a)) (show (event_id b)))
      else check_tape_order rest
  | _ => Ok tt
  end.

Fixpoint check_run (run_id : string) (events : list VerifiedEvent)
    : Result unit TapeIntegrityError :=
  match events with
  | [] => Ok tt
  | v :: rest =>
      if show (ev_run_id (ve_event v)) != run_id
      then Err (TapeIntegrityError_ForeignRunEvent run_id (show (event_id v)))
      else check_run run_id rest
  end.

(** [entry(id).or_insert(position)]: the first occurrence wins. *)
Definition or_insert (m : gmap EventId nat) (id : EventId) (position : nat)
    : gmap EventId nat :=
  match m !! id with Some _ => m | None => <[id := position]> m end.

Fixpoint scan_tape (events : list VerifiedEvent) (acc : TapeScan)
    : Result TapeScan TapeIntegrityError :=
  match events with
  | [] => Ok acc
  | v :: rest =>
      if ev_kind (ve_event v) == EventKind_TapeCheckpoint then
        scan_tape rest {| acc with scan_checkpoints := scan_checkpoints acc ++ [v] |}
      else if ve_verification v == VerificationStatus_Unsigned then scan_tape rest acc
      else
        fail_if ve_verification v != VerificationStatus_Verified
          with TapeIntegrityError_SignedEventNotVerified (show (event_id v)) (ve_verification v) ;;
        some_or signature := ve_signature v
          with TapeIntegrityError_SignedEventSignatureMissing (show (event_id v)) ;;
        scan_tape rest
          {| scan_signed := scan_signed acc ++ [(v, signature)];
             scan_positions :=
               or_insert (scan_positions acc) (event_id v) (length (scan_signed acc));
             scan_checkpoints := scan_checkpoints acc |}
  end.

(** [while rolling_root.count <= through_position { push(..) }]; the fuel is
    the number of pushes the loop can make. *)
Fixpoint advance_root (fuel : nat) (signed : list SignedEvent) (through_position : nat)
    (r : TapeRootHasher) : option TapeRootHasher :=
  match fuel with
  | O => Some r
  | S fuel' =>
      if (trh_count r <=? through_position)%nat then
        match signed !! trh_count r with
        | None => None
        | Some s => advance_root fuel' signed through_position (root_push r (signed_hash s))
        end
      else Some r
  end.

(** The accepted facts of one checkpoint: the event, its payload, its
    signature and the position of the event it covers through. *)
Abbreviation Checkpoint :=
  (VerifiedEvent * TapeCheckpointV1 * EventSignatureV1 * nat)%type (only parsing).

(** The per-checkpoint checks that do not involve the rolling root. *)
Definition check_checkpoint (scan : TapeScan) (run_id : string)
    (pinned_kernel_signer : ActorKeyRef) (previous : option (VerifiedEvent * nat))
    (checkpoint : VerifiedEvent)
    : Result (TapeCheckpointV1 * EventSignatureV1 * nat) TapeIntegrityError :=
  let id := show (event_id checkpoint) in
  match ev_payload (ve_event checkpoint) with
  | Payload_TapeCheckpointV1 payload =>
      fail_if ve_verification checkpoint != VerificationStatus_Verified
        with TapeIntegrityError_CheckpointNotVerified id (ve_verification checkpoint) ;;
      some_or signature := ve_signature checkpoint
        with TapeIntegrityError_CheckpointSignatureMissing id ;;
      fail_if es_signer signature != pinned_kernel_signer
        with TapeIntegrityError_CheckpointSignerUnauthorized id ;;
      fail_if (tc_run_id payload != ev_run_id (ve_event checkpoint))
           || (show (tc_run_id payload) != run_id)
        with TapeIntegrityError_CheckpointRunMismatch id ;;
      fail_if tc_algorithm payload != TapeRootAlgorithm_Sha256Linear
        with TapeIntegrityError_UnsupportedAlgorithm id (tc_algorithm payload) ;;
      fail_if ev_parent_event_id (ve_event checkpoint) != Some (tc_through_event_id payload)
        with TapeIntegrityError_UnanchoredCheckpoint id (show (tc_through_event_id payload)) ;;
      some_or through_position := scan_positions scan !! tc_through_event_id payload
        with TapeIntegrityError_ThroughEventMissing id (show (tc_through_event_id payload)) ;;
      let covered_count := Z.of_nat (through_position + 1) in
      fail_if tc_through_event_count payload != covered_count
        with TapeIntegrityError_CoverageCountMismatch id
               (tc_through_event_count payload) covered_count ;;
      match previous with
      | Some (prev, previous_through_position) =>
          fail_if (through_position <=? previous_through_position)%nat
            with TapeIntegrityError_CheckpointCoverageNotAdvanced id (show (event_id prev)) ;;
          Ok (payload, signature, through_position)
      | None => Ok (payload, signature, through_position)
      end
  | _ => Err (TapeIntegrityError_MalformedCheckpoint id)
  end.

(** The checks that follow the rolling root. *)
Definition check_checkpoint_chain (position : nat) (previous : option (VerifiedEvent * nat))
    (rolling_root : TapeRootHasher) (checkpoint : VerifiedEvent) (payload : TapeCheckpointV1)
    : Result unit TapeIntegrityError :=
  let id := show (event_id checkpoint) in
  fail_if tc_tape_root_hash payload != root_value rolling_root
    with TapeIntegrityError_TapeRootMismatch id ;;
  fail_if tc_checkpoint_index payload != Z.of_nat position
    with TapeIntegrityError_CheckpointIndexMismatch id (Z.of_nat position)
           (tc_checkpoint_index payload) ;;
  let expected_predecessor := (fun p => event_id p.1) <$> previous in
  fail_if tc_previous_checkpoint_event_id payload != expected_predecessor
    with TapeIntegrityError_CheckpointPredecessorMismatch id (show <$> expected_predecessor)
           (show <$> tc_previous_checkpoint_event_id payload) ;;
  Ok tt.

Fixpoint check_checkpoints (scan : TapeScan) (run_id : string)
    (pinned_kernel_signer : ActorKeyRef) (position : nat)
    (previous : option (VerifiedEvent * nat)) (latest : option Checkpoint)
    (rolling_root : TapeRootHasher) (checkpoints : list VerifiedEvent)
    : option (Result (option Checkpoint) TapeIntegrityError) :=
  match checkpoints with
  | [] => Some (Ok latest)
  | checkpoint :: rest =>
      match check_checkpoint scan run_id pinned_kernel_signer previous checkpoint with
      | Err e => Some (Err e)
      | Ok (payload, signature, through_position) =>
          match advance_root (S through_position) (scan_signed scan) through_position
                  rolling_root with
          | None => None
          | Some rolling_root =>
              match check_checkpoint_chain position previous rolling_root checkpoint payload with
              | Err e => Some (Err e)
              | Ok _ =>
                  check_checkpoints scan run_id pinned_kernel_signer (S position)
                    (Some (checkpoint, through_position))
                    (Some (checkpoint, payload, signature, through_position))
                    rolling_root rest
              end
          end
      end
  end.

Definition finish_report (scan : TapeScan) (latest : option Checkpoint)
    : Result TapeIntegrityReportV1 TapeIntegrityError :=
  match latest with
  | None => Err TapeIntegrityError_MissingCheckpoint
  | Some (checkpoint, payload, signature, through_position) =>
      match scan_signed scan !! (through_position + 1)%nat with
      | Some (tail, _) =>
          Err (TapeIntegrityError_UncheckpointedSignedTail (show (event_id checkpoint))
                 (show (event_id tail)))
      | None =>
          Ok {| tir_schema_version := 1;
                tir_checkpoint_event_ref := show (event_id checkpoint);
                tir_checkpoint_event_digest := es_canonical_event_hash signature;
                tir_through_event_ref := show (tc_through_event_id payload);
                tir_signed_non_checkpoint_event_count := Z.of_nat (through_position + 1);
                tir_tape_root_hash := tc_tape_root_hash payload;
                tir_algorithm := tc_algorithm payload |}
      end
  end.

Definition empty_scan : TapeScan :=
  {| scan_signed := []; scan_positions := ∅; scan_checkpoints := [] |}.

Definition verify_full_tape_integrity_v1 (events : list VerifiedEvent) (run_id : string)
    (pinned_kernel_signer : ActorKeyRef)
    : option (Result TapeIntegrityReportV1 TapeIntegrityError) :=
  match (let* _ := check_tape_order events in
         let* _ := check_run run_id events in
         scan_tape events empty_scan) with
  | Err e => Some (Err e)
  | Ok scan =>
      if bool_decide (scan_checkpoints scan = []) then Some (Err TapeIntegrityError_MissingCheckpoint)
      else match check_checkpoints scan run_id pinned_kernel_signer 0 None None
                   default_root_hasher (scan_checkpoints scan) with
           | None => None
           | Some (Err e) => Some (Err e)
           | Some (Ok latest) => Some (finish_report scan latest)
           end
  end.
End Integrity.
