(* ===== verification/TapeSpec.v ===== *)
(** * What full-tape integrity promises

    A declarative reading of an acceptable tape ([tape_covered]) and the proof
    that [Tape.verify_full_tape_integrity_v1] decides it: it never panics, and
    it returns a report exactly for a strictly ordered single-run tape whose
    kernel checkpoints form an anchored chain covering every signed ordinary
    event.  The incremental hasher is shown equal to the wire contract
    [tape_root_hash], and a root commits to the covered hashes. *)
From S2P Require Import Prelude RustStr Host LedgerPayloads TrustSpine Events Tape DemoHost.
From stdpp Require Import base list gmap strings.
From Stdlib Require Import Lia Sorted.

#[local] Open Scope string_scope.
#[local] Open Scope Z_scope.
#[local] Open Scope list_scope.

(** ** The declarative reading *)

Definition is_checkpoint (v : VerifiedEvent) : Prop :=
  ev_kind (ve_event v) = EventKind_TapeCheckpoint.
#[global] Instance is_checkpoint_dec v : Decision (is_checkpoint v).
Proof. unfold is_checkpoint. apply _. Defined.

(** The signed ordinary events of a tape, in tape order. *)
Definition signed_of (v : VerifiedEvent) : option (VerifiedEvent * EventSignatureV1) :=
  if decide (is_checkpoint v) then None else
  if decide (ve_verification v = VerificationStatus_Verified)
  then (fun s => (v, s)) <$> ve_signature v else None.
Definition signed_ordinary (events : list VerifiedEvent) := omap signed_of events.
(** The first-occurrence index built by the scan. *)
Definition index_step (acc : gmap EventId nat * nat) (s : VerifiedEvent * EventSignatureV1) :=
  (or_insert acc.1 (event_id s.1) acc.2, S acc.2).
Definition position_index (signed : list (VerifiedEvent * EventSignatureV1)) : gmap EventId nat :=
  (foldl index_step (∅, 0%nat) signed).1.
Definition checkpoints_of (events : list VerifiedEvent) := filter is_checkpoint events.

(** An ordinary event is unsigned, or verified with its signature at hand. *)
Definition ordinary_ok (v : VerifiedEvent) : Prop :=
  is_checkpoint v \/ ve_verification v = VerificationStatus_Unsigned \/
  (ve_verification v = VerificationStatus_Verified /\ is_Some (ve_signature v)).

Section Spec.
Context `{Host}.
Context (signed : list (VerifiedEvent * EventSignatureV1)) (run_id : string)
  (kernel : ActorKeyRef).

(** Checkpoint number [index], after the checkpoint [previous], certifies the
    signed prefix that ends at position [through]. *)
Record certifies (index : nat) (previous : option EventId) (c : VerifiedEvent)
    (p : TapeCheckpointV1) (s : EventSignatureV1) (through : nat) : Prop := {
  cert_payload : ev_payload (ve_event c) = Payload_TapeCheckpointV1 p;
  cert_verified : ve_verification c = VerificationStatus_Verified;
  cert_signature : ve_signature c = Some s;
  cert_kernel : es_signer s = kernel;
  cert_run : tc_run_id p = ev_run_id (ve_event c) /\ uuid_to_string (tc_run_id p) = run_id;
  cert_algorithm : tc_algorithm p = TapeRootAlgorithm_Sha256Linear;
  cert_parent : ev_parent_event_id (ve_event c) = Some (tc_through_event_id p);
  cert_through : exists t, signed !! through = Some t /\ event_id t.1 = tc_through_event_id p;
  cert_count : tc_through_event_count p = Z.of_nat (S through);
  cert_root : tc_tape_root_hash p = tape_root_hash (take (S through) (signed_hash <$> signed));
  cert_index : tc_checkpoint_index p = Z.of_nat index;
  cert_previous : tc_previous_checkpoint_event_id p = previous
}.

(** A chain of checkpoints, each naming its predecessor and covering
    strictly more; the last index collects the accepted facts. *)
Inductive checkpoint_chain : nat -> option (VerifiedEvent * nat) -> list VerifiedEvent ->
    list (VerifiedEvent * TapeCheckpointV1 * EventSignatureV1 * nat) -> Prop :=
| chain_nil n previous : checkpoint_chain n previous [] []
| chain_cons n previous c p s through rest facts :
    certifies n ((fun q => event_id q.1) <$> previous) c p s through ->
    (forall q, previous = Some q -> (q.2 < through)%nat) ->
    checkpoint_chain (S n) (Some (c, through)) rest facts ->
    checkpoint_chain n previous (c :: rest) ((c, p, s, through) :: facts).
End Spec.

Definition report_of `{Host} (c : VerifiedEvent) (p : TapeCheckpointV1) (s : EventSignatureV1)
    (count : nat) : TapeIntegrityReportV1 :=
  {| tir_schema_version := 1;
     tir_checkpoint_event_ref := uuid_to_string (event_id c);
     tir_checkpoint_event_digest := es_canonical_event_hash s;
     tir_through_event_ref := uuid_to_string (tc_through_event_id p);
     tir_signed_non_checkpoint_event_count := Z.of_nat count;
     tir_tape_root_hash := tc_tape_root_hash p;
     tir_algorithm := tc_algorithm p |}.

(** The tape is acceptable governed-recovery authority, with this report. *)
Definition tape_covered `{Host} (events : list VerifiedEvent) (run_id : string)
    (kernel : ActorKeyRef) (report : TapeIntegrityReportV1) : Prop :=
  StronglySorted Z.lt (event_id <$> events) /\
  Forall (fun v => uuid_to_string (ev_run_id (ve_event v)) = run_id) events /\
  Forall ordinary_ok events /\
  exists facts c p s through,
    checkpoint_chain (signed_ordinary events) run_id kernel 0 None (checkpoints_of events) facts /\
    last facts = Some (c, p, s, through) /\
    length (signed_ordinary events) = S through /\
    report = report_of c p s (S through).

(** ** The incremental root *)

Definition root_at (hashes : list string) (n : nat) : TapeRootHasher :=
  foldl root_push default_root_hasher (take n hashes).

Lemma join_newline_snoc l h :
  join_newline (l ++ [h]) =
  if decide (l = []) then h else (join_newline l +:+ newline +:+ h)%string.
Proof.
  induction l as [|a [|b l] IH]; [done|done|].
  change (join_newline ((a :: b :: l) ++ [h]))
    with (a +:+ newline +:+ join_newline ((b :: l) ++ [h])).
  rewrite IH, decide_False by done. rewrite decide_False by done.
  change (join_newline (a :: b :: l)) with (a +:+ newline +:+ join_newline (b :: l)).
  by rewrite !str_app_assoc.
Qed.

Lemma root_push_fold hashes :
  foldl root_push default_root_hasher hashes =
  {| trh_hasher := join_newline hashes; trh_count := length hashes |}.
Proof.
  induction hashes as [|h l IH] using rev_ind; [done|].
  rewrite foldl_app, IH, join_newline_snoc. unfold root_push; simpl.
  rewrite length_app; simpl.
  destruct l as [|a l].
  - rewrite decide_True by done. simpl. f_equal. 
  - rewrite decide_False by done. simpl. rewrite str_app_assoc. f_equal; lia.
Qed.

(** the incremental [TapeRootHasher] used while scanning implements the
    wire contract: after pushing any sequence of canonical event hashes its
    root is [tape_root_hash] of that sequence. *)
Theorem rolling_root_matches_wire_contract `{Host} (hashes : list string) :
  root_value (foldl root_push default_root_hasher hashes) = tape_root_hash hashes.
Proof. rewrite root_push_fold. done. Qed.

Lemma root_at_value `{Host} hashes n :
  root_value (root_at hashes n) = tape_root_hash (take n hashes).
Proof. unfold root_at. rewrite root_push_fold. done. Qed.

Lemma root_at_count hashes n : (n <= length hashes)%nat -> trh_count (root_at hashes n) = n.
Proof. unfold root_at. rewrite root_push_fold. simpl. rewrite length_take. lia. Qed.

Lemma root_at_S hashes n h :
  hashes !! n = Some h -> root_push (root_at hashes n) h = root_at hashes (S n).
Proof. intros Hn. unfold root_at. by rewrite (take_S_r _ _ _ Hn), foldl_app. Qed.

Lemma advance_root_spec signed through n fuel :
  (n <= S through)%nat -> (S through <= length signed)%nat -> (S through - n <= fuel)%nat ->
  advance_root fuel signed through (root_at (signed_hash <$> signed) n) =
  Some (root_at (signed_hash <$> signed) (S through)).
Proof.
  revert n. induction fuel as [|fuel IH]; intros n Hn Hlen Hfuel; simpl.
  - do 2 f_equal. lia.
  - rewrite root_at_count by (rewrite length_fmap; lia).
    destruct (n <=? through)%nat eqn:Hle; bool_simp.
    + destruct (lookup_lt_is_Some_2 signed n) as [s Hs]; [lia|].
      rewrite Hs, (root_at_S _ n) by (by rewrite list_lookup_fmap, Hs).
      apply IH; lia.
    + do 2 f_equal. lia.
Qed.

(** ** The three passes over the tape *)

Section Passes.
Context `{Host}.

Lemma check_tape_order_iff events :
  check_tape_order events = Ok tt <-> StronglySorted Z.lt (event_id <$> events).
Proof.
  assert (Hsorted : check_tape_order events = Ok tt <-> Sorted Z.lt (event_id <$> events)).
  { induction events as [|a [|b l] IH]; [by split; constructor|by split; repeat constructor|].
    cbn [check_tape_order fmap list_fmap] in *.
    destruct (event_id b <=? event_id a) eqn:Hle; bool_simp.
    - split; [done|]. intros Hs. inversion Hs as [|? ? _ Hhd]; subst. inversion Hhd; lia.
    - rewrite IH. split; intros Hs.
      + constructor; [done|]. by constructor.
      + by inversion Hs. }
  rewrite Hsorted. split.
  - apply Sorted_StronglySorted. intros x y z; lia.
  - apply StronglySorted_Sorted.
Qed.

Lemma check_run_iff run_id events :
  check_run run_id events = Ok tt <->
  Forall (fun v => uuid_to_string (ev_run_id (ve_event v)) = run_id) events.
Proof.
  induction events as [|v l IH]; simpl; [by split|].
  rewrite Forall_cons. case_bool_decide; simpl; naive_solver.
Qed.

Lemma signed_of_eq v :
  signed_of v =
  if decide (is_checkpoint v) then None
  else if decide (ve_verification v = VerificationStatus_Verified)
       then (fun s => (v, s)) <$> ve_signature v else None.
Proof. done. Qed.

Lemma scan_tape_iff events acc scan :
  scan_tape events acc = Ok scan <->
  Forall ordinary_ok events /\
  scan_signed scan = scan_signed acc ++ signed_ordinary events /\
  scan_checkpoints scan = scan_checkpoints acc ++ checkpoints_of events /\
  scan_positions scan =
    (foldl index_step (scan_positions acc, length (scan_signed acc))
       (signed_ordinary events)).1.
Proof.
  revert acc. induction events as [|v l IH]; intros acc.
  { simpl. rewrite !app_nil_r. destruct scan, acc; simpl. naive_solver. }
  unfold signed_ordinary, checkpoints_of in *.
  cbn [scan_tape omap list_omap]. rewrite Forall_cons, filter_cons.
  rewrite (signed_of_eq v). unfold ordinary_ok at 1.
  case_bool_decide as Hc.
  { rewrite !(decide_True (P := is_checkpoint v)) by exact Hc. rewrite IH. simpl.
    rewrite <- app_assoc. simpl. assert (Hc' : is_checkpoint v) by exact Hc. tauto. }
  rewrite !(decide_False (P := is_checkpoint v)) by exact Hc.
  case_bool_decide as Hu.
  { rewrite decide_False, IH by congruence. simpl. tauto. }
  destruct (decide (ve_verification v = VerificationStatus_Verified)) as [Hv|Hv].
  2: { rewrite bool_decide_false by done. simpl. split; [done|tauto]. }
  rewrite bool_decide_true by done. simpl.
  destruct (ve_signature v) as [sg|] eqn:Hs; simpl.
  - rewrite IH. simpl. rewrite <- app_assoc, length_app. simpl. rewrite Nat.add_1_r.
    assert (is_Some (Some sg)) by eauto. tauto.
  - split; [done|]. intros [[[?|[?|[_ [? ?]]]] _] _]; done.
Qed.
End Passes.

(** ** The position index *)

Lemma index_count signed : (foldl index_step (∅, 0%nat) signed).2 = length signed.
Proof.
  induction signed as [|s l IH] using rev_ind; [done|].
  rewrite foldl_app, length_app. simpl. lia.
Qed.

Lemma position_index_snoc l s :
  position_index (l ++ [s]) = or_insert (position_index l) (event_id s.1) (length l).
Proof. unfold position_index. rewrite foldl_app. simpl. by rewrite index_count. Qed.

Lemma position_index_lookup signed id p :
  NoDup ((fun s => event_id s.1) <$> signed) ->
  position_index signed !! id = Some p <->
  exists t, signed !! p = Some t /\ event_id t.1 = id.
Proof.
  revert id p. induction signed as [|s l IH] using rev_ind; intros id p Hnd.
  { unfold position_index. simpl. rewrite lookup_empty. naive_solver. }
  rewrite fmap_app, NoDup_app in Hnd. destruct Hnd as (Hl & Hdisj & _).
  assert (Hfresh : forall t q, l !! q = Some t -> event_id t.1 <> event_id s.1).
  { intros t q Ht Heq. eapply (Hdisj (event_id s.1)); [|by apply list_elem_of_singleton].
    apply list_elem_of_fmap. exists t. split; [done|]. by eapply list_elem_of_lookup_2. }
  assert (Hnone : position_index l !! event_id s.1 = None).
  { apply eq_None_not_Some. intros [q Hq]. apply IH in Hq as (t & Ht & Hid); [|done].
    by eapply Hfresh. }
  rewrite position_index_snoc. unfold or_insert. rewrite Hnone.
  rewrite lookup_insert_Some. rewrite (IH id p Hl). split.
  - intros [[<- <-]|[Hne (t & Ht & Hid)]].
    + exists s. by rewrite lookup_app_r, Nat.sub_diag.
    + exists t. split; [|done]. by apply lookup_app_l_Some.
  - intros (t & [Ht|[Hle Ht]]%lookup_app_Some & Hid).
    + right. split; [|by exists t]. intros <-. by eapply Hfresh.
    + left. apply list_lookup_singleton_Some in Ht as [Hp ->]. split; [done|lia].
Qed.

Lemma elem_signed_ordinary events s :
  s ∈ signed_ordinary events -> s.1 ∈ events.
Proof.
  unfold signed_ordinary. rewrite list_elem_of_omap. intros (v & Hv & Hs).
  unfold signed_of in Hs. repeat case_decide; try done.
  destruct (ve_signature v); simplify_eq/=. done.
Qed.

Lemma signed_ids_nodup events :
  StronglySorted Z.lt (event_id <$> events) ->
  NoDup ((fun s => event_id s.1) <$> signed_ordinary events).
Proof.
  induction events as [|v l IH]; simpl; intros Hs; [constructor|].
  inversion Hs as [|? ? Hs' Hall]; subst. unfold signed_ordinary in *. simpl.
  destruct (signed_of v) as [s|] eqn:Hv; [|by apply IH].
  simpl. constructor; [|by apply IH].
  assert (s.1 = v) as ->.
  { unfold signed_of in Hv. repeat case_decide; try done.
    destruct (ve_signature v); simplify_eq/=. done. }
  rewrite list_elem_of_fmap. intros (t & Heq & Ht%elem_signed_ordinary).
  rewrite Forall_forall in Hall.
  pose proof (Hall (event_id t.1)) as Hlt. rewrite <- Heq in *.
  assert (event_id v < event_id v); [|lia]. apply Hlt. rewrite Heq. apply list_elem_of_fmap; eauto.
Qed.

(** ** Checkpoints *)

Section Chain.
Context `{Host}.
Context (scan : TapeScan) (run_id : string) (kernel : ActorKeyRef).
#[local] Abbreviation signed := (scan_signed scan).
#[local] Abbreviation hashes := (signed_hash <$> scan_signed scan).
Hypothesis Hindex : forall id q, scan_positions scan !! id = Some q <->
  exists t, signed !! q = Some t /\ event_id t.1 = id.

(** The checks of one checkpoint, before and after the rolling root, are
    exactly [certifies] and advancing coverage. *)
Lemma checkpoint_checks_iff n previous c p s through :
  (check_checkpoint scan run_id kernel previous c = Ok (p, s, through) /\
   check_checkpoint_chain n previous (root_at hashes (S through)) c p = Ok tt) <->
  (certifies signed run_id kernel n ((fun q => event_id q.1) <$> previous) c p s through /\
   (forall q, previous = Some q -> (q.2 < through)%nat)).
Proof.
  unfold check_checkpoint, check_checkpoint_chain. rewrite root_at_value. split.
  - intros [H1 H2]. destruct (ev_payload (ve_event c)) as [] eqn:Hp; try discriminate.
    destruct previous as [[prev q]|]; guards; simplify_eq.
    + split; [|intros ? [= <-]; done].
      constructor; try done; [by apply Hindex|by rewrite <- Nat.add_1_r].
    + split; [|done].
      constructor; try done; [by apply Hindex|by rewrite <- Nat.add_1_r].
  - intros [[Hp Hv Hs Hk [Hr1 Hr2] Ha Hpar Ht Hc Hroot Hi Hprev] Hadv].
    rewrite Hp, Hv, Hs, Hk, Hr1, Ha, Hpar. rewrite Hr1 in Hr2. rewrite Hr2.
    rewrite (proj2 (Hindex _ _) Ht), Hc, Nat.add_1_r, Hroot, Hi, Hprev.
    rewrite !bool_decide_true by done. simpl.
    destruct previous as [[prev q]|]; [|done].
    specialize (Hadv _ eq_refl). simpl in Hadv.
    by rewrite (proj2 (Nat.leb_gt through q)).
Qed.

Lemma check_checkpoint_bound previous c p s through :
  check_checkpoint scan run_id kernel previous c = Ok (p, s, through) ->
  (through < length signed)%nat /\ forall q, previous = Some q -> (q.2 < through)%nat.
Proof.
  unfold check_checkpoint. intros H1.
  destruct (ev_payload (ve_event c)) as [] eqn:Hp; try discriminate.
  destruct previous as [[prev q]|]; guards; simplify_eq.
  - split; [|by intros ? [= <-]].
    apply Hindex in Heqo0 as (t & Ht & _). by eapply lookup_lt_Some.
  - split; [|done]. apply Hindex in Heqo0 as (t & Ht & _). by eapply lookup_lt_Some.
Qed.

Definition covered (previous : option (VerifiedEvent * nat)) : nat :=
  match previous with None => 0 | Some q => S q.2 end.

Lemma check_checkpoints_spec cps n previous latest :
  (covered previous <= length signed)%nat ->
  let run := check_checkpoints scan run_id kernel n previous latest
               (root_at hashes (covered previous)) cps in
  run <> None /\
  forall r, run = Some (Ok r) <->
    exists facts, checkpoint_chain signed run_id kernel n previous cps facts /\
      r = match last facts with Some f => Some f | None => latest end.
Proof.
  revert n previous latest.
  induction cps as [|c cps IH]; intros n previous latest Hcov;
    cbn zeta; cbn [check_checkpoints].
  { split; [done|]. intros r. split.
    - intros [= <-]. exists []. split; [constructor|done].
    - intros (facts & Hchain & ->). by inversion Hchain. }
  destruct (check_checkpoint _ _ _ _ c) as [[[p s] through]|e] eqn:Hc.
  2: { split; [done|]. intros r. split; [done|]. intros (facts & Hchain & _).
       inversion Hchain as [|? ? ? p s th ? ? Hcert Hadv]; subst.
       destruct (proj2 (checkpoint_checks_iff _ _ _ _ _ _) (conj Hcert Hadv)). congruence. }
  destruct (check_checkpoint_bound _ _ _ _ _ Hc) as [Hlt Hadv].
  rewrite advance_root_spec.
  2: { destruct previous as [q|]; simpl; [specialize (Hadv q eq_refl); lia|lia]. }
  2, 3: lia.
  destruct (check_checkpoint_chain n previous _ c p) as [[]|e] eqn:Hcc.
  - destruct (IH (S n) (Some (c, through)) (Some (c, p, s, through))) as [IHn IHr].
    { simpl. lia. }
    split; [exact IHn|]. intros r. rewrite IHr. split.
    + intros (facts & Hchain & ->). exists ((c, p, s, through) :: facts). split.
      * destruct (proj1 (checkpoint_checks_iff n previous c p s through) (conj Hc Hcc)).
        by constructor.
      * rewrite last_cons. by destruct (last facts).
    + intros (facts & Hchain & ->). inversion Hchain as [|? ? ? p' s' th' ? fs Hcert Ha Hrest]; subst.
      destruct (proj2 (checkpoint_checks_iff _ _ _ _ _ _) (conj Hcert Ha)) as [Hc' _].
      rewrite Hc in Hc'. simplify_eq. exists fs. split; [done|].
      rewrite last_cons. by destruct (last fs).
  - split; [done|]. intros r. split; [done|]. intros (facts & Hchain & _).
    inversion Hchain as [|? ? ? p' s' th' ? fs Hcert Ha Hrest]; subst.
    destruct (proj2 (checkpoint_checks_iff _ _ _ _ _ _) (conj Hcert Ha)) as [Hc' Hcc'].
    rewrite Hc in Hc'. simplify_eq. congruence.
Qed.
End Chain.

(** ** The verifier decides the declarative reading *)

Section Verifier.
Context `{Host}.

Lemma check_tape_order_ok events u : check_tape_order events = Ok u ->
  StronglySorted Z.lt (event_id <$> events).
Proof. destruct u. apply check_tape_order_iff. Qed.

Lemma check_run_ok run_id events u : check_run run_id events = Ok u ->
  Forall (fun v => uuid_to_string (ev_run_id (ve_event v)) = run_id) events.
Proof. destruct u. apply check_run_iff. Qed.

Lemma passes_ok events run_id scan :
  (let* _ := check_tape_order events in
   let* _ := check_run run_id events in
   scan_tape events empty_scan) = Ok scan <->
  StronglySorted Z.lt (event_id <$> events) /\
  Forall (fun v => uuid_to_string (ev_run_id (ve_event v)) = run_id) events /\
  Forall ordinary_ok events /\
  scan = {| scan_signed := signed_ordinary events;
            scan_positions := position_index (signed_ordinary events);
            scan_checkpoints := checkpoints_of events |}.
Proof.
  split.
  - intros (? & Ho%check_tape_order_ok & (? & Hr%check_run_ok & Hp)%bind_ok)%bind_ok.
    apply scan_tape_iff in Hp as (Hord & Hs & Hc & Hx). destruct scan; simpl in *; subst. done.
  - intros (Hsort & Hrun & Ho & ->).
    rewrite (proj2 (check_tape_order_iff events) Hsort); simpl.
    rewrite (proj2 (check_run_iff run_id events) Hrun); simpl.
    by apply scan_tape_iff.
Qed.

Lemma passes_checkpoints events run_id kernel :
  StronglySorted Z.lt (event_id <$> events) ->
  let scan := {| scan_signed := signed_ordinary events;
                 scan_positions := position_index (signed_ordinary events);
                 scan_checkpoints := checkpoints_of events |} in
  let run := check_checkpoints scan run_id kernel 0 None None default_root_hasher
               (checkpoints_of events) in
  run <> None /\
  forall r, run = Some (Ok r) <->
    exists facts, checkpoint_chain (signed_ordinary events) run_id kernel 0 None
                    (checkpoints_of events) facts /\ r = last facts.
Proof.
  intros Hsort scan run.
  destruct (check_checkpoints_spec scan run_id kernel) with
    (cps := checkpoints_of events) (n := 0%nat) (previous := @None (VerifiedEvent * nat))
    (latest := @None (VerifiedEvent * TapeCheckpointV1 * EventSignatureV1 * nat)) as [Hn Hr].
  - intros id q. apply position_index_lookup. by apply signed_ids_nodup.
  - simpl. lia.
  - split; [exact Hn|]. intros r. etransitivity; [apply Hr|].
    split; intros (facts & Hf & ->); exists facts; (split; [done|]); by destruct (last facts).
Qed.

(** the verifier is total: its indexing of the signed events never goes
    out of range, so on every tape it returns a report or a typed refusal. *)
Theorem verify_full_tape_integrity_never_panics events run_id kernel :
  exists r, verify_full_tape_integrity_v1 events run_id kernel = Some r.
Proof.
  unfold verify_full_tape_integrity_v1.
  destruct (result_bind _ _) as [scan|e] eqn:Hp; [|by eexists].
  apply passes_ok in Hp as (Hsort & _ & _ & ->). simpl.
  case_bool_decide; [by eexists|].
  destruct (passes_checkpoints events run_id kernel Hsort) as [Hn _].
  destruct (check_checkpoints _ _ _ _ _ _ _ _) as [[]|]; [by eexists|by eexists|done].
Qed.

Lemma chain_last_through signed run_id kernel n previous cps facts c p s through :
  checkpoint_chain signed run_id kernel n previous cps facts ->
  last facts = Some (c, p, s, through) -> (through < length signed)%nat.
Proof.
  induction 1 as [|? ? ? ? ? th ? facts Hcert _ _ IH]; [done|].
  rewrite last_cons. destruct (last facts) eqn:Hl.
  - intros. by apply IH.
  - intros [= <- <- <- <-]. destruct (cert_through _ _ _ _ _ _ _ _ _ Hcert) as (t & Ht & _).
    by eapply lookup_lt_Some.
Qed.

Lemma verify_sound events run_id kernel report :
  verify_full_tape_integrity_v1 events run_id kernel = Some (Ok report) ->
  tape_covered events run_id kernel report.
Proof.
  unfold verify_full_tape_integrity_v1, tape_covered.
  destruct (result_bind _ _) as [scan|e] eqn:Hp; [|done].
  apply passes_ok in Hp as (Hsort & Hrun & Hord & ->). simpl.
  case_bool_decide; [done|].
  destruct (passes_checkpoints events run_id kernel Hsort) as [_ Hr].
  destruct (check_checkpoints _ _ _ _ _ _ _ _) as [[r|]|] eqn:Hc; try done.
  destruct (proj1 (Hr r) eq_refl) as (facts & Hchain & ->).
  unfold finish_report. destruct (last facts) as [[[[c p] s] th]|] eqn:Hlast; [|done].
  simpl. destruct (signed_ordinary events !! (th + 1)%nat) as [[]|] eqn:Htail; [done|].
  intros [= <-]. do 3 (split; [done|]). exists facts, c, p, s, th.
  split; [done|]. split; [done|]. split; [|by rewrite Nat.add_1_r].
  apply lookup_ge_None in Htail. pose proof (chain_last_through _ _ _ _ _ _ _ _ _ _ _ Hchain Hlast).
  lia.
Qed.

Lemma verify_complete events run_id kernel report :
  tape_covered events run_id kernel report ->
  verify_full_tape_integrity_v1 events run_id kernel = Some (Ok report).
Proof.
  unfold verify_full_tape_integrity_v1, tape_covered.
  intros (Hsort & Hrun & Hord & facts & c & p & s & th & Hchain & Hlast & Hlen & ->).
  destruct (result_bind _ _) as [scan|e] eqn:Hp.
  2: { rewrite (proj2 (passes_ok _ _ _) (conj Hsort (conj Hrun (conj Hord eq_refl)))) in Hp.
       done. }
  apply passes_ok in Hp as (_ & _ & _ & ->). simpl.
  rewrite bool_decide_false.
  2: { intros Hnil. rewrite Hnil in Hchain. by inversion Hchain; subst. }
  destruct (passes_checkpoints events run_id kernel Hsort) as [_ Hr].
  rewrite (proj2 (Hr (last facts))) by eauto. rewrite Hlast. unfold finish_report. simpl.
  rewrite lookup_ge_None_2 by lia. by rewrite Nat.add_1_r.
Qed.

(** C40: soundness and completeness of the integrity verifier.  It returns a
    report exactly when the tape is strictly ordered, belongs to the run, has
    no unverifiable signed event, and its kernel-signed checkpoints form a
    gap-free chain of directly anchored, strictly advancing certificates
    whose last one covers every signed ordinary event; the report then
    describes that last checkpoint. *)
Theorem verify_full_tape_integrity_iff events run_id kernel report :
  verify_full_tape_integrity_v1 events run_id kernel = Some (Ok report) <->
  tape_covered events run_id kernel report.
Proof. split; [apply verify_sound|apply verify_complete]. Qed.
End Verifier.

(** ** A root commits to the covered hashes *)

Definition no_newline (s : string) : bool := str_all (fun c => c != Ascii.ascii_of_nat 10) s.

Lemma split_at_newline s1 s2 r1 r2 :
  no_newline s1 = true -> no_newline s2 = true ->
  (r1 = "" \/ exists t, r1 = newline +:+ t) -> (r2 = "" \/ exists t, r2 = newline +:+ t) ->
  s1 +:+ r1 = s2 +:+ r2 -> s1 = s2 /\ r1 = r2.
Proof.
  unfold no_newline, newline. revert s2.
  induction s1 as [|c s1 IH]; intros [|d s2] H1 H2 Hr1 Hr2; rewrite ?str_app_nil, ?str_app_cons.
  - done.
  - intros ->. destruct Hr1 as [?|[t Ht]]; [done|]. rewrite str_app_cons in Ht.
    injection Ht as -> _. cbn [str_all] in H2. by rewrite bool_decide_true in H2.
  - intros <-. destruct Hr2 as [?|[t Ht]]; [done|]. rewrite str_app_cons in Ht.
    injection Ht as -> _. cbn [str_all] in H1. by rewrite bool_decide_true in H1.
  - intros [= -> Heq]. cbn [str_all] in H1, H2. bool_simp.
    destruct (IH s2) as [-> ->]; done.
Qed.

Lemma join_newline_cons s l :
  join_newline (s :: l) = s +:+ (if decide (l = []) then "" else newline +:+ join_newline l).
Proof.
  destruct l as [|t l]; [rewrite decide_True by done; by rewrite str_app_nil_r|].
  by rewrite decide_False.
Qed.

Lemma join_newline_inj l1 l2 :
  Forall (fun s => no_newline s = true) l1 -> Forall (fun s => no_newline s = true) l2 ->
  l1 <> [] -> l2 <> [] -> join_newline l1 = join_newline l2 -> l1 = l2.
Proof.
  intros H1. revert l2. induction H1 as [|s l1 Hs _ IH]; intros l2 H2 Hn1 Hn2; [done|].
  destruct H2 as [|t l2 Ht H2]; [done|]. rewrite !join_newline_cons. intros Heq.
  apply split_at_newline in Heq as [-> Heq]; [|done|done| |].
  2: destruct (decide (l1 = [])); [by left|right; by eexists].
  2: destruct (decide (l2 = [])); [by left|right; by eexists].
  destruct (decide (l1 = [])) as [->|Hl1]; destruct (decide (l2 = [])) as [->|Hl2]; try done.
  f_equal. apply IH; try done. unfold newline in Heq. rewrite !str_app_cons, !str_app_nil in Heq.
  congruence.
Qed.

Lemma canonical_digest_no_newline s : is_canonical_sha256_digest s = true -> no_newline s = true.
Proof.
  unfold is_canonical_sha256_digest, starts_with. intros Hs. bool_simp.
  match goal with Hr : RustStr.strip_prefix _ s = Some _ |- _ =>
    apply RustStr.strip_prefix_Some in Hr as -> end. unfold no_newline.
  rewrite str_all_app. apply andb_true_iff. split; [done|].
  rewrite (str_skip_app "sha256:") in *.
  eapply (str_all_impl is_lower_hex); [|done].
  intros c Hc. apply neqb_true. by intros ->.
Qed.

Section Commitment.
Context `{Host}.

Lemma covered_root events run_id kernel report :
  tape_covered events run_id kernel report ->
  signed_ordinary events <> [] /\
  tir_tape_root_hash report = tape_root_hash (signed_hash <$> signed_ordinary events).
Proof.
  intros (_ & _ & _ & facts & c & p & s & th & Hchain & Hlast & Hlen & ->).
  split; [by intros Hnil; rewrite Hnil in Hlen|]. simpl.
  assert (Hroot : tc_tape_root_hash p =
                  tape_root_hash (take (S th) (signed_hash <$> signed_ordinary events))).
  { clear Hlen. induction Hchain as [|? ? ? ? ? ? ? fs Hcert _ _ IH]; [done|].
    rewrite last_cons in Hlast. destruct (last fs); [by apply IH|].
    simplify_eq. apply Hcert. }
  rewrite Hroot, take_ge; [done|]. rewrite length_fmap, Hlen. done.
Qed.

(** Tamper evidence.  Two accepted tapes whose reports carry the same
    root have the same signed ordinary events, in the same order, as far as
    their canonical hashes tell, unless a concrete SHA-256 collision is at
    hand. *)
Theorem tape_root_commits_to_signed_events events1 run1 kernel1 report1
    events2 run2 kernel2 report2 :
  verify_full_tape_integrity_v1 events1 run1 kernel1 = Some (Ok report1) ->
  verify_full_tape_integrity_v1 events2 run2 kernel2 = Some (Ok report2) ->
  Forall (fun s => is_canonical_sha256_digest (signed_hash s) = true) (signed_ordinary events1) ->
  Forall (fun s => is_canonical_sha256_digest (signed_hash s) = true) (signed_ordinary events2) ->
  tir_tape_root_hash report1 = tir_tape_root_hash report2 ->
  signed_hash <$> signed_ordinary events1 = signed_hash <$> signed_ordinary events2 \/
  exists x y, x <> y /\ sha256_hex x = sha256_hex y.
Proof.
  intros [Hn1 Hr1]%verify_sound%covered_root [Hn2 Hr2]%verify_sound%covered_root Hc1 Hc2 Heq.
  rewrite Hr1, Hr2 in Heq. unfold tape_root_hash in Heq.
  apply RustStr.strip_prefix_Some in Heq. rewrite RustStr.strip_prefix_app in Heq.
  injection Heq as Heq.
  destruct (decide (join_newline (signed_hash <$> signed_ordinary events1) =
                    join_newline (signed_hash <$> signed_ordinary events2))) as [Hj|Hj].
  - left. apply join_newline_inj in Hj; try done.
    1, 2: apply Forall_fmap; eapply Forall_impl; [eassumption|];
          intros s; apply canonical_digest_no_newline.
    all: by intros ?%fmap_nil_inv.
  - right. eauto.
Qed.
End Commitment.

(** ** An accepted tape *)

Module SampleTape.
Definition signer (actor : string) : ActorKeyRef :=
  {| akr_actor_id := actor; akr_key_id := "k1"; akr_public_key_hash := None |}.

Definition signed_event (actor : string) (event : Event) : VerifiedEvent :=
  {| ve_event := event;
     ve_verification := VerificationStatus_Verified;
     ve_signature := Some
       {| es_event_id := ev_id event;
          es_canonical_event_hash :=
            match canonical_event_hash event with Ok h => h | Err e => e end;
          es_signer := signer actor;
          es_algorithm := SignatureAlgorithm_Ed25519;
          es_signature := "sig";
          es_signed_at := 0 |} |}.

Definition read_event (id : EventId) : VerifiedEvent :=
  signed_event "worker"
    {| ev_id := id; ev_run_id := 1; ev_parent_event_id := None; ev_schema_version := 1;
       ev_kind := EventKind_WorkspaceRead; ev_occurred_at := 0;
       ev_payload := Payload_WorkspaceReadV1
         {| wr_tool_request_id := 9; wr_path := "a"; wr_content_hash := "h"; wr_size_bytes := 1 |} |}.

Definition checkpoint (id index : Z) (previous : option EventId) (through count : Z)
    (prefix : list VerifiedEvent) : VerifiedEvent :=
  signed_event "kernel"
    {| ev_id := id; ev_run_id := 1; ev_parent_event_id := Some through; ev_schema_version := 1;
       ev_kind := EventKind_TapeCheckpoint; ev_occurred_at := 0;
       ev_payload := Payload_TapeCheckpointV1
         {| tc_run_id := 1; tc_checkpoint_index := index; tc_through_event_id := through;
            tc_through_event_count := count; tc_previous_checkpoint_event_id := previous;
            tc_tape_root_hash := tape_root_hash (signed_hash <$> signed_ordinary prefix);
            tc_algorithm := TapeRootAlgorithm_Sha256Linear |} |}.

Definition tape : list VerifiedEvent :=
  [read_event 10; checkpoint 11 0 None 10 1 [read_event 10]; read_event 12;
   checkpoint 13 1 (Some 11) 12 2 [read_event 10; read_event 12]].
Definition report : TapeIntegrityReportV1 :=
  Eval vm_compute in
    match verify_full_tape_integrity_v1 tape "1" (signer "kernel") with
    | Some (Ok r) => r
    | _ => {| tir_schema_version := 0; tir_checkpoint_event_ref := "";
              tir_checkpoint_event_digest := ""; tir_through_event_ref := "";
              tir_signed_non_checkpoint_event_count := 0; tir_tape_root_hash := "";
              tir_algorithm := TapeRootAlgorithm_Sha256Linear |}
    end.

(** Dropping the last checkpoint leaves a signed tail. *)
Example uncheckpointed_tail_refused :
  verify_full_tape_integrity_v1 (take 3 tape) "1" (signer "kernel") =
  Some (Err (TapeIntegrityError_UncheckpointedSignedTail "11" "12")).
Proof. vm_compute. reflexivity. Qed.

(** Commitment at the sample tape, compared with itself. *)
Example tape_root_commits_witness :
  verify_full_tape_integrity_v1 tape "1" (signer "kernel") = Some (Ok report) /\
  (signed_hash <$> signed_ordinary tape = signed_hash <$> signed_ordinary tape \/
   exists x y, x <> y /\ sha256_hex x = sha256_hex y).
Proof.
  split; [vm_compute; reflexivity|].
  apply (tape_root_commits_to_signed_events tape "1" (signer "kernel") report
           tape "1" (signer "kernel") report); try (vm_compute; reflexivity).
  all: repeat constructor.
Defined.
End SampleTape.
