(* ===== verification/ManifestWitness.v ===== *)
(** * V5 manifest-declaration binding

    The pure validator of [bp-ledger/src/v5_manifest_witness.rs]: whether the
    declarations resolved for a V5 dispatch bind that dispatch exactly. *)
From S2P Require Import Prelude RustStr Host LedgerPayloads TrustSpine.
From stdpp Require Import base strings.

#[local] Open Scope string_scope.
#[local] Open Scope Z_scope.

Record V5ManifestDeclarationIdentity := {
  vmdi_run_id : string;
  vmdi_workflow_id : string;
  vmdi_workflow_revision : string;
  vmdi_unit_id : string;
  vmdi_attempt : u32;
  vmdi_provenance_ref : string
}.
#[global] Instance V5ManifestDeclarationIdentity_eq_dec : EqDecision V5ManifestDeclarationIdentity.
Proof. solve_decision. Defined.

Record V5ContextManifestDeclarationWitness := {
  vcmdw_event_id : EventId;
  vcmdw_identity : V5ManifestDeclarationIdentity;
  vcmdw_digest : string
}.
#[global] Instance V5ContextManifestDeclarationWitness_eq_dec : EqDecision V5ContextManifestDeclarationWitness.
Proof. solve_decision. Defined.

Record V5WorkerManifestDeclarationWitness := {
  vwmdw_event_id : EventId;
  vwmdw_identity : V5ManifestDeclarationIdentity;
  vwmdw_digest : string;
  vwmdw_execution_role : ExecutionRoleV1;
  vwmdw_capability_bundle_digest : string;
  vwmdw_image_digest : string
}.
#[global] Instance V5WorkerManifestDeclarationWitness_eq_dec : EqDecision V5WorkerManifestDeclarationWitness.
Proof. solve_decision. Defined.

Record V5SandboxProfileDeclarationWitness := {
  vspdw_event_id : EventId;
  vspdw_identity : V5ManifestDeclarationIdentity;
  vspdw_digest : string;
  vspdw_image_digest : string
}.
#[global] Instance V5SandboxProfileDeclarationWitness_eq_dec : EqDecision V5SandboxProfileDeclarationWitness.
Proof. solve_decision. Defined.

Record V5AttemptContextDeclarationWitness := {
  vacdw_event_id : EventId;
  vacdw_identity : V5ManifestDeclarationIdentity;
  vacdw_digest : string;
  vacdw_attempt_context_attempt : u32
}.
#[global] Instance V5AttemptContextDeclarationWitness_eq_dec : EqDecision V5AttemptContextDeclarationWitness.
Proof. solve_decision. Defined.

Record V5ManifestDeclarationWitnesses := {
  vmdw_context_manifest : option V5ContextManifestDeclarationWitness;
  vmdw_worker_manifest : option V5WorkerManifestDeclarationWitness;
  vmdw_sandbox_profile : option V5SandboxProfileDeclarationWitness;
  vmdw_attempt_context : option V5AttemptContextDeclarationWitness
}.
#[global] Instance V5ManifestDeclarationWitnesses_eq_dec : EqDecision V5ManifestDeclarationWitnesses.
Proof. solve_decision. Defined.

Record V5ManifestDeclarationBindingWitness := {
  vmbw_event_id : EventId;
  vmbw_digest : string
}.
#[global] Instance V5ManifestDeclarationBindingWitness_eq_dec : EqDecision V5ManifestDeclarationBindingWitness.
Proof. solve_decision. Defined.

Record V5ManifestDeclarationBinding := {
  vmb_context_manifest : V5ManifestDeclarationBindingWitness;
  vmb_worker_manifest : V5ManifestDeclarationBindingWitness;
  vmb_sandbox_profile : V5ManifestDeclarationBindingWitness;
  vmb_attempt_context : option V5ManifestDeclarationBindingWitness
}.
#[global] Instance V5ManifestDeclarationBinding_eq_dec : EqDecision V5ManifestDeclarationBinding.
Proof. solve_decision. Defined.

Inductive V5ManifestDeclarationWitnessError :=
| V5ManifestDeclarationWitnessError_MissingContextManifest
| V5ManifestDeclarationWitnessError_ContextManifestBindingMismatch
| V5ManifestDeclarationWitnessError_MissingWorkerManifest
| V5ManifestDeclarationWitnessError_WorkerManifestBindingMismatch
| V5ManifestDeclarationWitnessError_WorkerManifestAuthorityMismatch
| V5ManifestDeclarationWitnessError_MissingSandboxProfile
| V5ManifestDeclarationWitnessError_SandboxProfileBindingMismatch
| V5ManifestDeclarationWitnessError_SandboxProfileImageMismatch
| V5ManifestDeclarationWitnessError_FirstAttemptHasRetryDeclaration
| V5ManifestDeclarationWitnessError_RetryDeclarationPairRequired
| V5ManifestDeclarationWitnessError_MissingAttemptContext
| V5ManifestDeclarationWitnessError_AttemptContextBindingMismatch.
#[global] Instance V5ManifestDeclarationWitnessError_eq_dec : EqDecision V5ManifestDeclarationWitnessError.
Proof. solve_decision. Defined.

(** [Display]. *)
Definition witness_error_to_string (error : V5ManifestDeclarationWitnessError) : string :=
  match error with
  | V5ManifestDeclarationWitnessError_MissingContextManifest =>
      "manifest-bound V5 dispatch requires a context manifest declaration witness"
  | V5ManifestDeclarationWitnessError_ContextManifestBindingMismatch =>
      "manifest-bound V5 dispatch context manifest declaration does not bind the exact run/workflow/revision/unit/attempt/provenance digest"
  | V5ManifestDeclarationWitnessError_MissingWorkerManifest =>
      "manifest-bound V5 dispatch requires a worker manifest declaration witness"
  | V5ManifestDeclarationWitnessError_WorkerManifestBindingMismatch =>
      "manifest-bound V5 dispatch worker manifest declaration does not bind the exact run/workflow/revision/unit/attempt/provenance digest"
  | V5ManifestDeclarationWitnessError_WorkerManifestAuthorityMismatch =>
      "manifest-bound V5 dispatch worker manifest execution role or capability bundle does not match its V4 authority"
  | V5ManifestDeclarationWitnessError_MissingSandboxProfile =>
      "manifest-bound V5 dispatch requires a sandbox profile declaration witness"
  | V5ManifestDeclarationWitnessError_SandboxProfileBindingMismatch =>
      "manifest-bound V5 dispatch sandbox profile declaration does not bind the exact run/workflow/revision/unit/attempt/provenance digest"
  | V5ManifestDeclarationWitnessError_SandboxProfileImageMismatch =>
      "manifest-bound V5 dispatch sandbox profile image does not match its worker manifest image"
  | V5ManifestDeclarationWitnessError_FirstAttemptHasRetryDeclaration =>
      "manifest-bound V5 first attempt must not bind an attempt context declaration"
  | V5ManifestDeclarationWitnessError_RetryDeclarationPairRequired =>
      "manifest-bound V5 retry dispatch requires paired attempt context declaration reference and digest"
  | V5ManifestDeclarationWitnessError_MissingAttemptContext =>
      "manifest-bound V5 retry dispatch requires an attempt context declaration witness"
  | V5ManifestDeclarationWitnessError_AttemptContextBindingMismatch =>
      "manifest-bound V5 retry declaration does not bind the exact run/workflow/revision/unit/attempt/provenance digest"
  end.

Definition identity_matches (expected actual : V5ManifestDeclarationIdentity) : bool :=
  expected == actual.

Definition binding_witness (event_id : EventId) (digest : string)
    : V5ManifestDeclarationBindingWitness :=
  {| vmbw_event_id := event_id; vmbw_digest := digest |}.

Abbreviation WitnessError := V5ManifestDeclarationWitnessError (only parsing).

(** The retry declaration: forbidden on the first attempt, required and paired
    on a later one. *)
Definition validate_attempt_context (body : DispatchEnvelopeBodyV2)
    (expected_identity : V5ManifestDeclarationIdentity) (event_ref : option EventId)
    (digest : option string) (witness : option V5AttemptContextDeclarationWitness)
    : Result (option V5ManifestDeclarationBindingWitness) WitnessError :=
  if deb2_attempt body =? 1 then
    match event_ref, digest, witness with
    | None, None, None => Ok None
    | _, _, _ => Err V5ManifestDeclarationWitnessError_FirstAttemptHasRetryDeclaration
    end
  else
    match event_ref, digest, witness with
    | Some event_ref, Some digest, Some declaration =>
        fail_if (vacdw_event_id declaration != event_ref)
             || (vacdw_digest declaration != digest)
             || (vacdw_attempt_context_attempt declaration != deb2_attempt body)
             || negb (identity_matches expected_identity (vacdw_identity declaration))
          with V5ManifestDeclarationWitnessError_AttemptContextBindingMismatch ;;
        Ok (Some (binding_witness (vacdw_event_id declaration) (vacdw_digest declaration)))
    | Some _, Some _, None => Err V5ManifestDeclarationWitnessError_MissingAttemptContext
    | _, _, _ => Err V5ManifestDeclarationWitnessError_RetryDeclarationPairRequired
    end.

Definition validate_v5_manifest_declaration_witnesses (dispatch : DispatchEnvelopeV5)
    (dispatch_run_id : string) (witnesses : V5ManifestDeclarationWitnesses)
    : Result V5ManifestDeclarationBinding WitnessError :=
  let body := de3_body (de4_dispatch_v3 (de5_dispatch_v4 dispatch)) in
  let expected_identity :=
    {| vmdi_run_id := dispatch_run_id;
       vmdi_workflow_id := deb2_workflow_id body;
       vmdi_workflow_revision := deb2_workflow_revision body;
       vmdi_unit_id := deb2_unit_id body;
       vmdi_attempt := deb2_attempt body;
       vmdi_provenance_ref := deb2_provenance_ref body |} in
  some_or context_manifest := vmdw_context_manifest witnesses
    with V5ManifestDeclarationWitnessError_MissingContextManifest ;;
  fail_if (vcmdw_event_id context_manifest != de5_context_manifest_declaration_event_ref dispatch)
       || (vcmdw_digest context_manifest != de5_context_manifest_digest dispatch)
       || (de5_context_manifest_digest dispatch != deb2_context_manifest_digest body)
       || negb (identity_matches expected_identity (vcmdw_identity context_manifest))
    with V5ManifestDeclarationWitnessError_ContextManifestBindingMismatch ;;
  some_or worker_manifest := vmdw_worker_manifest witnesses
    with V5ManifestDeclarationWitnessError_MissingWorkerManifest ;;
  fail_if (vwmdw_event_id worker_manifest != de5_worker_manifest_declaration_event_ref dispatch)
       || (vwmdw_digest worker_manifest != de5_worker_manifest_digest dispatch)
       || (de5_worker_manifest_digest dispatch != deb2_worker_manifest_digest body)
       || negb (identity_matches expected_identity (vwmdw_identity worker_manifest))
    with V5ManifestDeclarationWitnessError_WorkerManifestBindingMismatch ;;
  fail_if (vwmdw_execution_role worker_manifest != deb2_execution_role body)
       || (vwmdw_capability_bundle_digest worker_manifest != deb2_capability_bundle_digest body)
    with V5ManifestDeclarationWitnessError_WorkerManifestAuthorityMismatch ;;
  some_or sandbox_profile := vmdw_sandbox_profile witnesses
    with V5ManifestDeclarationWitnessError_MissingSandboxProfile ;;
  fail_if (vspdw_event_id sandbox_profile != de5_sandbox_profile_declaration_event_ref dispatch)
       || (vspdw_digest sandbox_profile != de5_sandbox_profile_digest dispatch)
       || (de5_sandbox_profile_digest dispatch != deb2_sandbox_profile_digest body)
       || negb (identity_matches expected_identity (vspdw_identity sandbox_profile))
    with V5ManifestDeclarationWitnessError_SandboxProfileBindingMismatch ;;
  fail_if vspdw_image_digest sandbox_profile != vwmdw_image_digest worker_manifest
    with V5ManifestDeclarationWitnessError_SandboxProfileImageMismatch ;;
  let* attempt_context := validate_attempt_context body expected_identity
    (de5_attempt_context_declaration_event_ref dispatch) (de5_attempt_context_digest dispatch)
    (vmdw_attempt_context witnesses) in
  Ok {| vmb_context_manifest :=
          binding_witness (vcmdw_event_id context_manifest) (vcmdw_digest context_manifest);
        vmb_worker_manifest :=
          binding_witness (vwmdw_event_id worker_manifest) (vwmdw_digest worker_manifest);
        vmb_sandbox_profile :=
          binding_witness (vspdw_event_id sandbox_profile) (vspdw_digest sandbox_profile);
        vmb_attempt_context := attempt_context |}.

(** ** What the validator accepts *)

(** The identity every declaration of the dispatched attempt must carry. *)
Definition dispatched_identity (dispatch : DispatchEnvelopeV5) (run_id : string)
    : V5ManifestDeclarationIdentity :=
  let body := de3_body (de4_dispatch_v3 (de5_dispatch_v4 dispatch)) in
  {| vmdi_run_id := run_id; vmdi_workflow_id := deb2_workflow_id body;
     vmdi_workflow_revision := deb2_workflow_revision body; vmdi_unit_id := deb2_unit_id body;
     vmdi_attempt := deb2_attempt body; vmdi_provenance_ref := deb2_provenance_ref body |}.

(** The retry declaration that matches the dispatch: none on the first attempt. *)
Definition retry_declaration (dispatch : DispatchEnvelopeV5) (run_id : string)
    (witness : option V5AttemptContextDeclarationWitness)
    (bound : option V5ManifestDeclarationBindingWitness) : Prop :=
  let attempt := deb2_attempt (de3_body (de4_dispatch_v3 (de5_dispatch_v4 dispatch))) in
  match de5_attempt_context_declaration_event_ref dispatch, de5_attempt_context_digest dispatch with
  | None, None => attempt = 1 /\ witness = None /\ bound = None
  | Some event_ref, Some digest =>
      attempt <> 1 /\ bound = Some (binding_witness event_ref digest) /\
      witness = Some {| vacdw_event_id := event_ref;
                        vacdw_identity := dispatched_identity dispatch run_id;
                        vacdw_digest := digest; vacdw_attempt_context_attempt := attempt |}
  | _, _ => False
  end.

(** The one set of declarations that binds the dispatch, for a container image. *)
Definition binds_dispatch (dispatch : DispatchEnvelopeV5) (run_id image : string)
    (witnesses : V5ManifestDeclarationWitnesses) (binding : V5ManifestDeclarationBinding) : Prop :=
  let body := de3_body (de4_dispatch_v3 (de5_dispatch_v4 dispatch)) in
  let identity := dispatched_identity dispatch run_id in
  (de5_context_manifest_digest dispatch, de5_worker_manifest_digest dispatch,
   de5_sandbox_profile_digest dispatch) =
  (deb2_context_manifest_digest body, deb2_worker_manifest_digest body,
   deb2_sandbox_profile_digest body) /\
  retry_declaration dispatch run_id (vmdw_attempt_context witnesses) (vmb_attempt_context binding) /\
  witnesses =
    {| vmdw_context_manifest := Some
         {| vcmdw_event_id := de5_context_manifest_declaration_event_ref dispatch;
            vcmdw_identity := identity; vcmdw_digest := deb2_context_manifest_digest body |};
       vmdw_worker_manifest := Some
         {| vwmdw_event_id := de5_worker_manifest_declaration_event_ref dispatch;
            vwmdw_identity := identity; vwmdw_digest := deb2_worker_manifest_digest body;
            vwmdw_execution_role := deb2_execution_role body;
            vwmdw_capability_bundle_digest := deb2_capability_bundle_digest body;
            vwmdw_image_digest := image |};
       vmdw_sandbox_profile := Some
         {| vspdw_event_id := de5_sandbox_profile_declaration_event_ref dispatch;
            vspdw_identity := identity; vspdw_digest := deb2_sandbox_profile_digest body;
            vspdw_image_digest := image |};
       vmdw_attempt_context := vmdw_attempt_context witnesses |} /\
  binding =
    {| vmb_context_manifest := binding_witness
         (de5_context_manifest_declaration_event_ref dispatch) (deb2_context_manifest_digest body);
       vmb_worker_manifest := binding_witness
         (de5_worker_manifest_declaration_event_ref dispatch) (deb2_worker_manifest_digest body);
       vmb_sandbox_profile := binding_witness
         (de5_sandbox_profile_declaration_event_ref dispatch) (deb2_sandbox_profile_digest body);
       vmb_attempt_context := vmb_attempt_context binding |}.

Lemma validate_attempt_context_iff dispatch run_id witness bound :
  validate_attempt_context (de3_body (de4_dispatch_v3 (de5_dispatch_v4 dispatch)))
    (dispatched_identity dispatch run_id) (de5_attempt_context_declaration_event_ref dispatch)
    (de5_attempt_context_digest dispatch) witness = Ok bound <->
  retry_declaration dispatch run_id witness bound.
Proof.
  unfold validate_attempt_context, retry_declaration, identity_matches.
  destruct (Z.eqb_spec (deb2_attempt (de3_body (de4_dispatch_v3 (de5_dispatch_v4 dispatch)))) 1)
    as [Ha|Ha]; destruct (de5_attempt_context_declaration_event_ref dispatch),
      (de5_attempt_context_digest dispatch), witness as [w|]; split; try naive_solver.
  - intros Hv. guards. destruct w; cbn in *. subst. naive_solver.
  - intros (_ & -> & [= ->]). cbn. by rewrite !bool_decide_eq_true_2.
Qed.

Lemma validate_v5_witnesses_ok dispatch run_id witnesses binding :
  validate_v5_manifest_declaration_witnesses dispatch run_id witnesses = Ok binding ->
  exists image, binds_dispatch dispatch run_id image witnesses binding.
Proof.
  unfold validate_v5_manifest_declaration_witnesses, identity_matches. cbv zeta. intros Hv.
  destruct witnesses as [[c|] [w|] [s|] a]; cbn in Hv; try discriminate; guards; try discriminate.
  rename select (validate_attempt_context _ _ _ _ _ = Ok _) into Hr.
  apply (validate_attempt_context_iff dispatch run_id) in Hr.
  exists (vwmdw_image_digest w). unfold binds_dispatch, dispatched_identity.
  destruct c, w, s; cbn in *; subst; cbn. split_and!; [|done|..]; repeat f_equal; congruence.
Qed.

Lemma validate_v5_witnesses_complete dispatch run_id image witnesses binding :
  binds_dispatch dispatch run_id image witnesses binding ->
  validate_v5_manifest_declaration_witnesses dispatch run_id witnesses = Ok binding.
Proof.
  intros ([= Hc Hw Hs] & Hr & -> & ->). apply validate_attempt_context_iff in Hr.
  unfold validate_v5_manifest_declaration_witnesses, identity_matches, dispatched_identity in *.
  cbn in *. rewrite Hc, Hw, Hs, Hr. cbn. by rewrite !bool_decide_eq_true_2.
Qed.

(** A V5 dispatch is bound by exactly one set of declarations: the validator
    accepts witnesses if and only if every declaration event, identity, digest,
    role, capability bundle and image is the dispatched one, the first attempt has
    no retry declaration and a later attempt has the paired one; the binding it
    returns names exactly those events and digests. *)
Theorem v5_witnesses_bind_the_dispatch_exactly dispatch run_id witnesses binding :
  validate_v5_manifest_declaration_witnesses dispatch run_id witnesses = Ok binding <->
  exists image, binds_dispatch dispatch run_id image witnesses binding.
Proof.
  split; [apply validate_v5_witnesses_ok|].
  intros [image Hb]. by eapply validate_v5_witnesses_complete.
Qed.
