(* ===== verification/WorkflowGraph.v ===== *)
(** * Cycle detection on declared workflow graphs

    [workflow_graph_has_cycle] and [workflow_graph_v2_has_cycle] of
    [bp-ledger/src/canonicalize.rs] run Kahn's work queue over the declared
    nodes.  The two functions have the same body on two node types; the model
    runs on the topology of a node, its unit id and the units it depends on.

    The queue is a loop that mutates the in-degrees, so the model carries fuel
    and the ways the code could crash: the [expect] on an unknown unit and the
    underflow of [*degree -= 1].  [graph_has_cycle_exact] shows that on a
    well-formed graph none of these happens and the answer is exactly whether
    the dependencies contain a cycle. *)
From S2P Require Import Prelude.
From stdpp Require Import base list gmap strings relations sorting.

#[local] Open Scope nat_scope.

(** ** The algorithm *)

Abbreviation Topology := (list (string * list string)).

Definition in_degrees (nodes : Topology) : gmap string nat :=
  foldl (fun m node => <[node.1 := length node.2]> m) ∅ nodes.

(** [dependents.entry(dependency).or_default().push(unit_id)] *)
Definition push_dependent (unit_id : string) (m : gmap string (list string)) (dependency : string)
    : gmap string (list string) :=
  <[dependency := default [] (m !! dependency) ++ [unit_id]]> m.

Definition dependents_of (nodes : Topology) : gmap string (list string) :=
  foldl (fun m node => foldl (push_dependent node.1) m node.2) ∅ nodes.

(** The units of in-degree zero, in key order. *)
Definition initially_ready (in_degree : gmap string nat) : list string :=
  map fst (filter (fun kv : string * nat => kv.2 = 0) (btree_list in_degree)).

(** The body of the [for dependent in waiting_nodes] loop. *)
Fixpoint release (waiting_nodes : list string) (in_degree : gmap string nat)
    (ready : list string) : Result (gmap string nat * list string) Crash :=
  match waiting_nodes with
  | [] => Ok (in_degree, ready)
  | dependent :: rest =>
      match in_degree !! dependent with
      | None => Err Crash_Panic
      | Some 0 => Err Crash_Panic
      | Some (S degree) =>
          release rest (<[dependent := degree]> in_degree)
            (if degree =? 0 then ready ++ [dependent] else ready)
      end
  end.

(** [while let Some(unit_id) = ready.pop_front()] *)
Fixpoint drain (fuel : nat) (dependents : gmap string (list string))
    (in_degree : gmap string nat) (ready : list string) (visited : nat) : Result nat Crash :=
  match ready with
  | [] => Ok visited
  | unit_id :: ready =>
      match fuel with
      | O => Err Crash_OutOfFuel
      | S fuel =>
          let* next :=
            match dependents !! unit_id with
            | Some waiting_nodes => release waiting_nodes in_degree ready
            | None => Ok (in_degree, ready)
            end in
          drain fuel dependents next.1 next.2 (S visited)
      end
  end.

Definition graph_has_cycle (nodes : Topology) : Result bool Crash :=
  let in_degree := in_degrees nodes in
  let* visited :=
    drain (length nodes) (dependents_of nodes) in_degree (initially_ready in_degree) 0 in
  Ok (negb (visited =? length nodes)).

(** ** Specification *)

(** [u] names [d] among the units it depends on. *)
Definition depends (nodes : Topology) (u d : string) : Prop :=
  exists ds, (u, ds) ∈ nodes /\ d ∈ ds.

Definition cyclic (nodes : Topology) : Prop := exists u, tc (depends nodes) u u.

(** Unit ids and the dependencies of each unit are distinct, and every
    dependency is a declared unit. *)
Record well_formed (nodes : Topology) : Prop := {
  wf_units : NoDup nodes.*1;
  wf_dependencies : forall u ds, (u, ds) ∈ nodes -> NoDup ds;
  wf_closed : forall u ds d, (u, ds) ∈ nodes -> d ∈ ds -> d ∈ nodes.*1
}.

(** An order of units in which each comes after its dependencies. *)
Definition topological (nodes : Topology) (order : list string) : Prop :=
  forall i u d, order !! i = Some u -> depends nodes u d -> d ∈ take i order.

(** ** The tables the algorithm builds *)

Lemma filter_all {A} (P : A -> Prop) `{!forall x, Decision (P x)} (l : list A) :
  (forall x, x ∈ l -> P x) -> filter P l = l.
Proof.
  induction l as [|x l IH]; intros Hall; [done|].
  rewrite filter_cons, decide_True by (apply Hall; left). f_equal. apply IH. set_solver.
Qed.

Lemma elem_units (nodes : Topology) u ds : (u, ds) ∈ nodes -> u ∈ nodes.*1.
Proof. intros Hin. apply list_elem_of_fmap. exists ((u, ds) : string * list string). done. Qed.

Lemma unit_deps_eq (nodes : Topology) u ds ds' :
  NoDup nodes.*1 -> (u, ds) ∈ nodes -> (u, ds') ∈ nodes -> ds = ds'.
Proof.
  intros Hnd H1 H2. apply elem_of_list_to_map_1 in H1; [|done].
  apply elem_of_list_to_map_1 in H2; [|done]. congruence.
Qed.

Lemma in_degrees_fold (nodes : Topology) (m : gmap string nat) u :
  NoDup nodes.*1 ->
  foldl (fun m node => <[node.1 := length node.2]> m) m nodes !! u =
  match (list_to_map nodes : gmap string (list string)) !! u with
  | Some ds => Some (length ds)
  | None => m !! u
  end.
Proof.
  revert m. induction nodes as [|[v ds] nodes IH]; intros m; simpl; [by rewrite lookup_empty|].
  rewrite NoDup_cons. intros [Hv Hnd]. rewrite IH by done.
  destruct (decide (u = v)) as [->|Hne].
  - rewrite lookup_insert_eq.
    by rewrite (not_elem_of_list_to_map_1 _ _ Hv), lookup_insert_eq.
  - by rewrite !lookup_insert_ne.
Qed.

Lemma in_degrees_lookup nodes u :
  NoDup nodes.*1 ->
  in_degrees nodes !! u = length <$> (list_to_map nodes : gmap string (list string)) !! u.
Proof.
  intros Hnd. unfold in_degrees. rewrite in_degrees_fold by done.
  destruct (list_to_map nodes !! u); [done|]. by rewrite lookup_empty.
Qed.

Lemma push_dependents_lookup u m ds d :
  NoDup ds ->
  default [] (foldl (push_dependent u) m ds !! d) =
  default [] (m !! d) ++ (if decide (d ∈ ds) then [u] else []).
Proof.
  revert m. induction ds as [|e ds IH]; intros m.
  - intros _. simpl. by rewrite app_nil_r.
  - rewrite NoDup_cons. intros [He Hnd]. cbn [foldl]. rewrite IH by done. unfold push_dependent.
    destruct (decide (e = d)) as [->|Hne].
    + rewrite lookup_insert_eq. simpl.
      rewrite decide_False by done. rewrite decide_True by set_solver. by rewrite app_nil_r.
    + rewrite lookup_insert_ne by done. f_equal.
      destruct (decide (d ∈ ds)), (decide (d ∈ e :: ds)); set_solver.
Qed.

Lemma dependents_fold (nodes : Topology) m d :
  (forall u ds, (u, ds) ∈ nodes -> NoDup ds) ->
  default [] (foldl (fun m node => foldl (push_dependent node.1) m node.2) m nodes !! d) =
  default [] (m !! d) ++
    (filter (fun node : string * list string => d ∈ node.2) nodes).*1.
Proof.
  revert m. induction nodes as [|[u ds] nodes IH]; intros m Hnd; simpl; [by rewrite app_nil_r|].
  rewrite IH by (intros; eapply Hnd; right; done).
  rewrite push_dependents_lookup by (eapply Hnd; left).
  rewrite filter_cons. simpl. destruct (decide (d ∈ ds)); simpl; rewrite <-app_assoc; done.
Qed.

Lemma dependents_lookup nodes d :
  (forall u ds, (u, ds) ∈ nodes -> NoDup ds) ->
  default [] (dependents_of nodes !! d) =
  (filter (fun node : string * list string => d ∈ node.2) nodes).*1.
Proof. intros. unfold dependents_of. by rewrite dependents_fold, lookup_empty. Qed.

Lemma initially_ready_elem in_degree u :
  u ∈ initially_ready in_degree <-> in_degree !! u = Some 0.
Proof.
  unfold initially_ready. rewrite list_elem_of_fmap. split.
  - intros ([v k] & -> & Hv). apply list_elem_of_filter in Hv as [Hk Hv].
    simpl in Hk. subst. by apply elem_of_btree_list in Hv.
  - intros Hu. exists (u, 0). split; [done|]. apply list_elem_of_filter. split; [done|].
    by apply elem_of_btree_list.
Qed.

Lemma initially_ready_nodup in_degree : NoDup (initially_ready in_degree).
Proof.
  unfold initially_ready. apply NoDup_fmap_2_strong; [|apply NoDup_filter, NoDup_btree_list].
  intros [u j] [v k] Hu Hv Heq. simpl in Heq. subst v.
  apply list_elem_of_filter in Hu as [Hj _], Hv as [Hk _]. simpl in *. congruence.
Qed.

(** ** The loops *)

(** Releasing distinct waiting units lowers each in-degree by one and queues
    the units that reach zero. *)
Lemma release_ok waiting in_degree ready :
  NoDup waiting ->
  (forall u, u ∈ waiting -> exists k, in_degree !! u = Some (S k)) ->
  exists in_degree' queued,
    release waiting in_degree ready = Ok (in_degree', ready ++ queued) /\
    NoDup queued /\
    (forall u, u ∈ queued <-> u ∈ waiting /\ in_degree !! u = Some 1) /\
    (forall u, in_degree' !! u =
       if decide (u ∈ waiting) then Nat.pred <$> in_degree !! u else in_degree !! u).
Proof.
  revert in_degree ready.
  induction waiting as [|v waiting IH]; intros in_degree ready Hnd Hpos; cbn [release].
  - exists in_degree, []. rewrite app_nil_r.
    split; [done|]. split; [constructor|]. split; [set_solver|]. intros u. by rewrite decide_False by set_solver.
  - apply NoDup_cons in Hnd as [Hv Hnd].
    destruct (Hpos v ltac:(left)) as [k Hk]. rewrite Hk.
    destruct (IH (<[v := k]> in_degree) (if k =? 0 then ready ++ [v] else ready) Hnd)
      as (in_degree' & queued & Hrun & Hq & Hin & Hdeg).
    { intros u Hu. rewrite lookup_insert_ne by set_solver. apply Hpos. by right. }
    assert (Hqv : forall u, u ∈ queued <-> u ∈ waiting /\ in_degree !! u = Some 1).
    { intros u. rewrite Hin. split; intros [Hu Hd]; (split; [done|]);
        revert Hd; rewrite lookup_insert_ne by set_solver; done. }
    exists in_degree', (if k =? 0 then v :: queued else queued).
    split; [|split; [|split]].
    + rewrite Hrun. destruct (k =? 0); [|done]. by rewrite <-app_assoc.
    + destruct (k =? 0); [|done]. apply NoDup_cons. split; [|done]. rewrite Hqv. set_solver.
    + intros u. destruct (Nat.eqb_spec k 0) as [->|Hk0].
      * rewrite !elem_of_cons, Hqv. split; [intros [->|[? ?]]|intros [[->|?] ?]]; eauto.
      * rewrite elem_of_cons, Hqv. split; [intros [? ?]; eauto|].
        intros [[->|?] Hu]; [|done]. rewrite Hk in Hu. congruence.
    + intros u. rewrite Hdeg. destruct (decide (u = v)) as [->|Hne].
      * rewrite decide_False by done. rewrite decide_True by left.
        by rewrite lookup_insert_eq, Hk.
      * rewrite lookup_insert_ne by done.
        destruct (decide (u ∈ waiting)), (decide (u ∈ v :: waiting)); set_solver.
Qed.

(** The dependencies of a unit that are not visited yet. *)
Lemma filter_notin_nil (ds visited : list string) :
  length (filter (fun d => d ∉ visited) ds) = 0 <-> forall d, d ∈ ds -> d ∈ visited.
Proof.
  rewrite length_zero_iff_nil. split.
  - intros Hnil d Hd. destruct (decide (d ∈ visited)) as [|Hn]; [done|].
    assert (Hf : d ∈ filter (fun d => d ∉ visited) ds) by by apply list_elem_of_filter.
    rewrite Hnil in Hf. set_solver.
  - intros Hall. apply elem_of_nil_inv. intros d Hd.
    apply list_elem_of_filter in Hd as [Hn Hd]. auto.
Qed.

(** Visiting one more unit removes it from the remaining dependencies. *)
Lemma filter_notin_snoc (ds visited : list string) u :
  NoDup ds -> u ∉ visited ->
  length (filter (fun d => d ∉ visited ++ [u]) ds) =
  if decide (u ∈ ds) then Nat.pred (length (filter (fun d => d ∉ visited) ds))
  else length (filter (fun d => d ∉ visited) ds).
Proof.
  intros Hnd Hu. induction Hnd as [|e ds He Hnd IH]; [done|].
  rewrite !filter_cons. destruct (decide (e = u)) as [->|Hne].
  - rewrite (decide_False (P := u ∉ visited ++ [u])) by set_solver.
    rewrite (decide_True (P := u ∉ visited)) by done.
    rewrite (decide_True (P := u ∈ u :: ds)) by left.
    rewrite IH, decide_False by done. done.
  - destruct (decide (e ∉ visited)) as [Hev|Hev].
    + rewrite (decide_True (P := e ∉ visited ++ [u])) by set_solver. cbn [length].
      rewrite IH. destruct (decide (u ∈ ds)) as [Hin|Hin].
      * rewrite decide_True by set_solver. simpl.
        assert (Hpos : length (filter (fun d => d ∉ visited) ds) <> 0).
        { rewrite filter_notin_nil. intros Hall. by apply Hu, Hall. }
        lia.
      * rewrite decide_False by set_solver. done.
    + rewrite (decide_False (P := e ∉ visited ++ [u])) by set_solver. rewrite IH.
      apply decide_ext. set_solver.
Qed.

Section Kahn.
Context (nodes : Topology) (Hwf : well_formed nodes).

(** The loop invariant: [visited] is a topological prefix, the in-degree of a
    unit counts its dependencies outside [visited], and the units with none
    are exactly the visited and queued ones. *)
Record queue_inv (in_degree : gmap string nat) (ready visited : list string) : Prop := {
  qi_nodup : NoDup (visited ++ ready);
  qi_degree : forall u ds, (u, ds) ∈ nodes ->
    in_degree !! u = Some (length (filter (fun d => d ∉ visited) ds));
  qi_started : forall u, u ∈ visited ++ ready <->
    exists ds, (u, ds) ∈ nodes /\ forall d, d ∈ ds -> d ∈ visited;
  qi_order : topological nodes visited
}.

Lemma queue_inv_init :
  queue_inv (in_degrees nodes) (initially_ready (in_degrees nodes)) [].
Proof.
  assert (Hdeg : forall u ds, (u, ds) ∈ nodes -> in_degrees nodes !! u = Some (length ds)).
  { intros u ds Hu. rewrite in_degrees_lookup by apply Hwf.
    by rewrite (elem_of_list_to_map_1 _ _ _ (wf_units _ Hwf) Hu). }
  split; simpl.
  - apply initially_ready_nodup.
  - intros u ds Hu. rewrite (Hdeg _ _ Hu). f_equal. f_equal. symmetry.
    apply filter_all. set_solver.
  - intros u. rewrite initially_ready_elem. split.
    + intros Hu. rewrite in_degrees_lookup in Hu by apply Hwf.
      apply fmap_Some in Hu as (ds & Hds & Hlen). exists ds. split.
      * by apply elem_of_list_to_map_2.
      * symmetry in Hlen. apply length_zero_iff_nil in Hlen. subst. set_solver.
    + intros (ds & Hin & Hall). rewrite (Hdeg _ _ Hin). f_equal.
      destruct ds as [|d ds]; [done|]. exfalso. specialize (Hall d). set_solver.
  - intros i u d Hi. by rewrite lookup_nil in Hi.
Qed.

Lemma topological_snoc visited u :
  topological nodes visited -> (forall d, depends nodes u d -> d ∈ visited) ->
  topological nodes (visited ++ [u]).
Proof.
  intros Hord Hu i v d Hi Hd. destruct (decide (i < length visited)) as [Hlt|Hge].
  - rewrite lookup_app_l in Hi by done. rewrite take_app_le by lia. eauto.
  - rewrite lookup_app_r in Hi by lia. apply list_lookup_singleton_Some in Hi as [Hi <-].
    rewrite take_app_ge by lia. apply elem_of_app. left. auto.
Qed.

(** One iteration: the first queued unit is visited. *)
Lemma queue_inv_step in_degree u ready visited :
  queue_inv in_degree (u :: ready) visited ->
  exists in_degree' queued,
    release (default [] (dependents_of nodes !! u)) in_degree ready =
      Ok (in_degree', ready ++ queued) /\
    queue_inv in_degree' (ready ++ queued) (visited ++ [u]).
Proof.
  intros [Hnd Hdeg Hst Hord].
  assert (Hu : u ∉ visited) by (apply NoDup_app in Hnd; set_solver).
  assert (Hw : forall v, v ∈ default [] (dependents_of nodes !! u) <-> depends nodes v u).
  { intros v. rewrite dependents_lookup by apply Hwf. rewrite list_elem_of_fmap. split.
    - intros ([v' ds] & -> & Hin). apply list_elem_of_filter in Hin as [? ?]. by exists ds.
    - intros (ds & Hin & Hd). exists (v, ds). split; [done|]. by apply list_elem_of_filter. }
  assert (Hfree : forall v ds, (v, ds) ∈ nodes -> v ∈ visited ++ u :: ready <->
            length (filter (fun d => d ∉ visited) ds) = 0).
  { intros v ds Hin. rewrite Hst, filter_notin_nil. split; [|eauto].
    intros (ds' & Hin' & Hall). by rewrite (unit_deps_eq _ _ _ _ (wf_units _ Hwf) Hin Hin'). }
  destruct (release_ok (default [] (dependents_of nodes !! u)) in_degree ready)
    as (in_degree' & queued & Hrun & Hq & Hqin & Hdeg').
  { rewrite dependents_lookup by apply Hwf.
    apply (sublist_NoDup _ nodes.*1); [apply Hwf|]. apply fmap_sublist, sublist_filter. }
  { intros v (ds & Hin & Hd)%Hw. rewrite (Hdeg _ _ Hin).
    destruct (length (filter _ ds)) as [|k] eqn:Hlen; [|by exists k].
    rewrite filter_notin_nil in Hlen. by apply Hlen in Hd. }
  exists in_degree', queued. split; [done|].
  assert (Hsnoc : (visited ++ [u]) ++ ready ++ queued = (visited ++ u :: ready) ++ queued)
    by by rewrite <-!app_assoc.
  split.
  - rewrite Hsnoc. apply NoDup_app. split; [done|]. split; [|done].
    intros v Hv (Hwv & Hone)%Hqin. apply Hw in Hwv as (ds & Hin & _).
    apply (Hfree _ _ Hin) in Hv. rewrite (Hdeg _ _ Hin), Hv in Hone. congruence.
  - intros v ds Hin. rewrite Hdeg', (Hdeg _ _ Hin).
    rewrite filter_notin_snoc by (done || by eapply wf_dependencies).
    destruct (decide (u ∈ ds)) as [Hd|Hd].
    + rewrite decide_True by (apply Hw; by exists ds). done.
    + rewrite decide_False; [done|]. intros (ds' & Hin' & Hd')%Hw.
      by rewrite (unit_deps_eq _ _ _ _ (wf_units _ Hwf) Hin Hin') in Hd.
  - intros v. rewrite Hsnoc, elem_of_app, Hst, Hqin, Hw. split.
    + intros [(ds & Hin & Hall)|[(ds & Hin & Hd) Hone]]; exists ds; (split; [done|]).
      * set_solver.
      * apply filter_notin_nil.
        rewrite filter_notin_snoc by (done || by eapply wf_dependencies).
        rewrite decide_True by done. rewrite (Hdeg _ _ Hin) in Hone. by injection Hone as ->.
    + intros (ds & Hin & Hall). destruct (decide (u ∈ ds)) as [Hd|Hd].
      * right. split; [by exists ds|]. rewrite (Hdeg _ _ Hin). f_equal.
        apply filter_notin_nil in Hall.
        rewrite filter_notin_snoc, decide_True in Hall by (done || by eapply wf_dependencies).
        assert (length (filter (fun d => d ∉ visited) ds) <> 0); [|lia].
        rewrite filter_notin_nil. intros Hall'. by apply Hu, Hall'.
      * left. exists ds. split; [done|]. intros d Hd'. specialize (Hall d Hd').
        apply elem_of_app in Hall as [|Hall]; [done|]. set_solver.
  - apply topological_snoc; [done|]. intros d (ds & Hin & Hd).
    apply (filter_notin_nil ds visited); [|done]. apply (Hfree _ _ Hin). set_solver.
Qed.

Lemma queue_inv_units in_degree ready visited :
  queue_inv in_degree ready visited ->
  length visited + length ready <= length nodes /\
  forall u, u ∈ visited ++ ready -> u ∈ nodes.*1.
Proof.
  intros [Hnd _ Hst _].
  assert (Hsub : forall u, u ∈ visited ++ ready -> u ∈ nodes.*1).
  { intros u (ds & Hin & _)%Hst. by eapply elem_units. }
  split; [|done]. rewrite <-length_app, <-(length_fmap fst nodes).
  by apply submseteq_length, NoDup_submseteq.
Qed.

(** The queue always empties within one iteration per node. *)
Lemma drain_ok fuel in_degree ready visited :
  queue_inv in_degree ready visited -> length nodes <= fuel + length visited ->
  exists in_degree' order,
    drain fuel (dependents_of nodes) in_degree ready (length visited) = Ok (length order) /\
    queue_inv in_degree' [] order.
Proof.
  revert in_degree ready visited.
  induction fuel as [|fuel IH]; intros in_degree [|u ready] visited Hinv Hfuel; cbn [drain];
    [by eauto| |by eauto|].
  - apply queue_inv_units in Hinv as [Hlen _]. simpl in *. lia.
  - destruct (queue_inv_step _ _ _ _ Hinv) as (in_degree' & queued & Hrun & Hinv').
    assert (Hnext : match dependents_of nodes !! u with
                    | Some waiting_nodes => release waiting_nodes in_degree ready
                    | None => Ok (in_degree, ready)
                    end = Ok (in_degree', ready ++ queued)).
    { destruct (dependents_of nodes !! u); done. }
    rewrite Hnext. cbn.
    destruct (IH _ _ _ Hinv') as (in_degree'' & order & Hdrain & Hend).
    { rewrite length_app. simpl. lia. }
    exists in_degree'', order. split; [|done].
    rewrite length_app, Nat.add_1_r in Hdrain. done.
Qed.
End Kahn.

(** ** Cycles of a finite relation *)
Section Cycles.
Context {A : Type} `{EqDecision A} (R : relation A).

Lemma sorted_walk_cycle l :
  StronglySorted (flip (tc R)) l -> NoDup l \/ exists x, tc R x x.
Proof.
  induction 1 as [|x l Hl [IH|IH] Hx]; [left; constructor| |by right].
  destruct (decide (x ∈ l)) as [Hin|Hin].
  - right. exists x. rewrite Forall_forall in Hx. by apply Hx.
  - left. by constructor.
Qed.

(** A nonempty finite set in which every element has a successor has a cycle. *)
Lemma finite_successors_cycle (U : list A) :
  U <> [] -> (forall x, x ∈ U -> exists y, y ∈ U /\ R x y) -> exists x, tc R x x.
Proof.
  intros Hne Hsucc.
  assert (Hwalk : forall n, exists l, length l = S n /\ (forall x, x ∈ l -> x ∈ U) /\
            StronglySorted (flip (tc R)) l).
  { induction n as [|n (l & Hlen & HU & Hs)].
    - destruct U as [|x U]; [done|]. exists [x]. split; [done|]. split; [set_solver|].
      by repeat constructor.
    - destruct l as [|x l]; [done|]. destruct (Hsucc x) as (y & Hy & Hxy); [set_solver|].
      exists (y :: x :: l). split; [simpl in *; lia|]. split; [set_solver|].
      constructor; [done|]. apply StronglySorted_inv in Hs as [_ Hx].
      constructor; [by apply tc_once|]. eapply Forall_impl; [exact Hx|].
      intros z Hz. simpl in *. by eapply tc_r. }
  destruct (Hwalk (length U)) as (l & Hlen & HU & Hs).
  destruct (sorted_walk_cycle l Hs) as [Hnd|]; [|done].
  apply NoDup_submseteq with (k := U) in Hnd; [|done]. apply submseteq_length in Hnd. lia.
Qed.
End Cycles.

Lemma topological_acyclic nodes order :
  NoDup order -> topological nodes order ->
  (forall u, u ∈ nodes.*1 -> u ∈ order) -> ~ cyclic nodes.
Proof.
  intros Hnd Hord Hall (u & Hcyc).
  assert (Hback : forall x y, tc (depends nodes) x y ->
            forall i, order !! i = Some x -> y ∈ take i order).
  { intros x y. induction 1 as [x y Hxy|x z y Hxz _ IH]; intros i Hi; [by eapply Hord|].
    eapply Hord in Hxz; [|done]. apply list_elem_of_lookup in Hxz as [j Hj].
    apply lookup_take_Some in Hj as [Hj Hlt]. specialize (IH j Hj).
    apply list_elem_of_lookup in IH as [k Hk]. apply lookup_take_Some in Hk as [Hk Hlt'].
    apply list_elem_of_lookup. exists k. apply lookup_take_Some. split; [done|lia]. }
  assert (Hu : u ∈ order).
  { assert (exists d, depends nodes u d) as (d & ds & Hin & _) by (inversion Hcyc; eauto).
    apply Hall. by eapply elem_units. }
  apply list_elem_of_lookup in Hu as [i Hi].
  pose proof (Hback u u Hcyc i Hi) as Hin. apply list_elem_of_lookup in Hin as [j Hj].
  apply lookup_take_Some in Hj as [Hj Hlt].
  pose proof (NoDup_lookup _ _ _ _ Hnd Hi Hj). lia.
Qed.

(** On a well-formed graph the algorithm returns, and answers whether the
    dependencies contain a cycle; when they do not, the units can be put in an
    order in which each follows its dependencies. *)
Theorem graph_has_cycle_correct nodes :
  well_formed nodes ->
  (graph_has_cycle nodes = Ok true /\ cyclic nodes) \/
  (graph_has_cycle nodes = Ok false /\ ~ cyclic nodes /\
   exists order, order ≡ₚ nodes.*1 /\ topological nodes order).
Proof.
  intros Hwf.
  destruct (drain_ok nodes Hwf (length nodes) _ _ [] (queue_inv_init nodes Hwf))
    as (in_degree & order & Hrun & Hinv); [simpl; lia|].
  unfold graph_has_cycle. simpl in Hrun. rewrite Hrun. cbn.
  destruct (queue_inv_units _ _ _ _ Hinv) as [Hlen Hsub]. simpl in Hlen.
  rewrite app_nil_r in Hsub. destruct Hinv as [Hnd _ Hst Hord]. rewrite app_nil_r in Hnd, Hst.
  destruct (Nat.eqb_spec (length order) (length nodes)) as [Heq|Hne].
  - right. assert (Hperm : order ≡ₚ nodes.*1).
    { apply submseteq_length_Permutation; [by apply NoDup_submseteq|].
      rewrite length_fmap. lia. }
    split; [done|]. split; [|by eauto].
    apply (topological_acyclic _ order); [done..|]. intros u Hu. by rewrite Hperm.
  - left. split; [done|].
    apply (finite_successors_cycle _ (filter (fun u => u ∉ order) nodes.*1)).
    + intros Hnil. apply Hne. apply Nat.le_antisymm; [lia|].
      rewrite <-(length_fmap fst nodes). apply submseteq_length.
      apply NoDup_submseteq; [apply Hwf|]. intros u Hu.
      destruct (decide (u ∈ order)) as [|Hn]; [done|].
      assert (Hf : u ∈ filter (fun u => u ∉ order) nodes.*1) by by apply list_elem_of_filter.
      rewrite Hnil in Hf. set_solver.
    + intros u (Hn & Hu)%list_elem_of_filter. apply list_elem_of_fmap in Hu as ([v ds] & -> & Hin).
      simpl in *. destruct (filter (fun d => d ∉ order) ds) as [|d rest] eqn:Hf.
      * exfalso. apply Hn, Hst. exists ds. split; [done|].
        apply (filter_notin_nil ds order). by rewrite Hf.
      * assert (Hd : d ∈ filter (fun d => d ∉ order) ds) by (rewrite Hf; left).
        apply list_elem_of_filter in Hd as [Hd1 Hd2]. exists d.
        split; [|by exists ds]. apply list_elem_of_filter. split; [done|]. by eapply wf_closed.
Qed.
