(* ===== verification/Canonicalize.v ===== *)
(** * The payload canonicaliser

    [canonicalize] of [bp-ledger/src/canonicalize.rs]: every event is checked
    against its schema version, its kind, its envelope and the closed shape of
    its payload before it is signed, stored or replayed.  The validators of
    activity records ([payload/activity_claim.rs]) and of release-evaluation
    evidence ([payload/release_evaluation.rs]) that it calls are here too.

    A validator returns [Ok], refuses with a [LedgerError], or crashes; the
    crashes are the [expect]s of the source and, in the cycle check, its
    arithmetic and loop.  [CanonicalizeSpec] shows that none is reachable.  The
    instance [ledger_canonicalizer] makes this the canonicaliser of the
    signature and replay models. *)
From Stdlib Require Import Ascii.
From S2P Require Import Prelude RustStr Host LedgerPayloads TrustSpine Digests Events WorkflowGraph.
From stdpp Require Import base list gmap strings pretty.

#[local] Open Scope string_scope.
#[local] Open Scope list_scope.
#[local] Open Scope Z_scope.

(** ** Errors *)

(** The variants of [LedgerError] that validation can return. *)
Inductive LedgerError :=
| LedgerError_InvalidJson (error : string)
| LedgerError_UnsupportedSchemaVersion (received supported : u32)
| LedgerError_Cas (error : string)
| LedgerError_InvalidPayload (kind reason : string).

(** [impl Display for LedgerError] *)
Definition ledger_error_to_string (e : LedgerError) : string :=
  match e with
  | LedgerError_InvalidJson error => "invalid json event: " +:+ error
  | LedgerError_UnsupportedSchemaVersion received supported =>
      "schema version " +:+ pretty received +:+ " not supported (supported: " +:+
      pretty supported +:+ ")"
  | LedgerError_Cas error => "cas: " +:+ error
  | LedgerError_InvalidPayload kind reason =>
      "invalid payload for kind " +:+ kind +:+ ": " +:+ reason
  end.

Inductive ValidationError :=
| Refused (error : LedgerError)
| Crashed (crash : Crash).

Definition CURRENT_SCHEMA_VERSION : u32 := 1.
Definition MODEL_REQUEST_EVIDENCE_V1_SCHEMA_VERSION : u32 := 1.
Definition TRUST_SCOPE_EVIDENCE_V1_SCHEMA_VERSION : u32 := 1.

(** [u32::checked_add]. *)
Definition checked_add_u32 (a b : u32) : option u32 :=
  if a + b <? 2 ^ 32 then Some (a + b) else None.

(** ** Strict content-addressed references ([storage/cas.rs]) *)

Record CanonicalCasRef := { cref_digest : string }.

Definition CanonicalCasRef_from_digest (digest : string) : Result CanonicalCasRef ValidationError :=
  if negb (is_canonical_sha256_digest digest) then
    Err (Refused (LedgerError_Cas "canonical CAS digest must be sha256:<64 lowercase hex>"))
  else
  Ok {| cref_digest := digest |}.

Definition CanonicalCasRef_parse (value : string) : Result CanonicalCasRef ValidationError :=
  match RustStr.strip_prefix "cas:sha256:" value with
  | None => Err (Refused (LedgerError_Cas "canonical CAS reference must start with cas:sha256:"))
  | Some hex => CanonicalCasRef_from_digest ("sha256:" +:+ hex)
  end.

Definition CanonicalCasRef_to_cas_ref (reference : CanonicalCasRef) : string :=
  "cas:" +:+ cref_digest reference.

Section Canonicalize.
Context `{Host}.

(** ** Fields *)

Definition invalid (kind reason : string) : Result unit ValidationError :=
  Err (Refused (LedgerError_InvalidPayload kind reason)).

Definition validate_non_empty_fields (kind : string) (fields : list (string * string))
    : Result unit ValidationError :=
  for_each (fun '(field, value) =>
    if trim_is_empty value then invalid kind (field +:+ " must be non-empty") else Ok tt) fields.

Definition validate_sha256_fields (kind : string) (fields : list (string * string))
    : Result unit ValidationError :=
  for_each (fun '(field, value) =>
    if negb (is_canonical_sha256_digest value)
    then invalid kind (field +:+ " must be a canonical sha256 digest") else Ok tt) fields.

Definition validate_rfc3339_utc (kind field value : string) : Result unit ValidationError :=
  if (negb (ends_with "Z" value)) || (is_none (parse_from_rfc3339 value)) then
    invalid kind (field +:+ " must be an RFC3339 UTC timestamp")
  else
  Ok tt.

Definition validate_v4_rfc3339_utc_fractional_second_precision (kind field value : string)
    : Result unit ValidationError :=
  let* _ := validate_rfc3339_utc kind field value in
  let fraction :=
    snd <$> (RustStr.strip_suffix "Z" value ≫= fun without_utc_suffix =>
               rsplit_once "."%char without_utc_suffix) in
  if is_some_and fraction (fun fraction => (9 <? String.length fraction)%nat) then
    invalid kind
      (field +:+
         " fractional seconds must contain at most 9 digits for graph-bound V4 dispatch")
  else
  Ok tt.

Definition validate_opaque_reference (kind field value : string) : Result unit ValidationError :=
  if trim_is_empty value || negb (str_all is_ascii value)
     || str_any (fun byte => is_ascii_whitespace byte || is_ascii_control byte) value then
    invalid kind (field +:+ " must be a non-empty canonical opaque reference")
  else
  Ok tt.

Fixpoint check_unique_references (kind field : string) (seen : gset string)
    (references : list string) : Result unit ValidationError :=
  match references with
  | [] => Ok tt
  | reference :: rest =>
      let* _ := validate_opaque_reference kind field reference in
      if bool_decide (reference ∈ seen) then
        invalid kind (field +:+ " must not contain duplicates")
      else
      check_unique_references kind field ({[reference]} ∪ seen) rest
  end.

Definition validate_unique_references (kind field : string) (references : list string)
    : Result unit ValidationError :=
  if list_is_empty references then
    invalid kind (field +:+ " must contain at least one reference")
  else
  check_unique_references kind field ∅ references.

Definition validate_canonical_cas_ref (kind field value : string) : Result unit ValidationError :=
  if negb (starts_with "cas:" value)
     || (String.length value =? String.length "cas:")%nat
     || any_whitespace value
     || str_contains ".." value then
    invalid kind (field +:+ " must be a canonical non-relative CAS reference")
  else
  Ok tt.

Definition validate_versioned_cas_evidence_shape (kind field : string) (schema_version : u32)
    (cas_ref digest : string) (expected_schema_version : u32) : Result unit ValidationError :=
  if schema_version != expected_schema_version then
    invalid kind (field +:+ ".schema_version must equal the closed V" +:+
                  pretty expected_schema_version +:+ " schema")
  else
  let* reference :=
    match CanonicalCasRef_parse cas_ref with
    | Ok reference => Ok reference
    | Err _ =>
        Err (Refused (LedgerError_InvalidPayload kind
          (field +:+
             ".cas_ref must be a strict cas:sha256:<64 lowercase hex> reference")))
    end in
  let* _ := validate_sha256_fields kind [("evidence.digest", digest)] in
  if cref_digest reference != digest then
    invalid kind (field +:+ ".cas_ref must name the exact raw digest in " +:+ field +:+ ".digest")
  else
  Ok tt.

(** ** Actions, models and receipts *)

Definition validate_model_request_evidence_shape (kind : string)
    (evidence : ModelRequestEvidenceV1)
    : Result unit ValidationError :=
  validate_versioned_cas_evidence_shape kind "model_request_evidence" (mre_schema_version
      evidence) (mre_cas_ref evidence) (mre_digest evidence)
          MODEL_REQUEST_EVIDENCE_V1_SCHEMA_VERSION.

Definition validate_trust_scope_evidence_shape (kind : string)
    (evidence : TrustScopeEvidenceV1)
    : Result unit ValidationError :=
  validate_versioned_cas_evidence_shape kind "trust_scope_evidence" (tse_schema_version evidence)
      (tse_cas_ref evidence) (tse_digest evidence) TRUST_SCOPE_EVIDENCE_V1_SCHEMA_VERSION.

Definition validate_candidate_view_v1_shape (kind : string)
    (view : CandidateViewV1)
    : Result unit ValidationError :=
  let* _ := validate_non_empty_fields kind [
    ("candidate_view.candidate_ref", cview_candidate_ref view);
    ("candidate_view.candidate_digest", cview_candidate_digest view) ] in
  if negb (is_canonical_buildplane_candidate_ref (cview_candidate_ref view)) then
    invalid kind "candidate_view.candidate_ref must be a canonical buildplane candidate ref"
  else
  if negb (is_canonical_git_object_id (cview_candidate_commit_sha view)) then
    invalid kind "candidate_view.candidate_commit_sha must be a full canonical Git object ID"
  else
  if (negb (cview_read_only view)) || (negb (cview_network_disabled view)) then
    invalid kind "candidate_view must be read-only with network disabled"
  else
  validate_sha256_fields kind [
    ("candidate_view.candidate_digest", cview_candidate_digest view);
    ("candidate_view.tree_digest", cview_tree_digest view);
    ("candidate_view.reviewer_context_manifest_digest", cview_reviewer_context_manifest_digest
        view);
    ("candidate_view.reviewer_sandbox_profile_digest", cview_reviewer_sandbox_profile_digest view);
    ("candidate_view.mount_path_digest", cview_mount_path_digest view) ].

Definition validate_model_action_candidate_binding_shape (kind : string)
    (binding : ModelActionCandidateBindingV1)
    : Result unit ValidationError :=
  let* _ := validate_non_empty_fields kind ([("candidate_view_ref", macb_candidate_view_ref
      binding)]) in
  let* _ := validate_canonical_cas_ref kind "candidate_view_ref" (macb_candidate_view_ref binding)
      in
  if negb (is_canonical_git_object_id (macb_candidate_commit_sha binding)) then
    invalid kind "candidate_binding.candidate_commit_sha must be a full canonical Git object ID"
  else
  let* _ := validate_sha256_fields kind [
    ("candidate_binding.candidate_digest", macb_candidate_digest binding);
    ("candidate_binding.candidate_view_digest", macb_candidate_view_digest binding) ] in
  let* _ := validate_candidate_view_v1_shape kind (macb_candidate_view binding) in
  if (cview_candidate_digest (macb_candidate_view binding) != macb_candidate_digest binding)
  || (cview_candidate_commit_sha (macb_candidate_view binding) != macb_candidate_commit_sha
      binding) then
    invalid kind
        "candidate binding candidate digest and commit must match its closed candidate view"
  else
  let* expected_candidate_view_digest := map_err (fun error => Refused (LedgerError_InvalidPayload
      kind ("could not canonicalize model candidate view: " +:+ error))) (candidate_view_v1_digest
          (macb_candidate_view binding)) in
  if macb_candidate_view_digest binding != expected_candidate_view_digest then
    invalid kind "candidate_view_digest does not match the canonical closed candidate view"
  else
  Ok tt.

Definition validate_action_request_shape (kind : string)
    (request : ActionRequestedV2)
    : Result unit ValidationError :=
  let* _ := validate_non_empty_fields kind [
    ("run_id", ar2_run_id request);
    ("workflow_id", ar2_workflow_id request);
    ("unit_id", ar2_unit_id request);
    ("provenance_ref", ar2_provenance_ref request);
    ("action_id", ar2_action_id request);
    ("idempotency_key", ar2_idempotency_key request);
    ("canonical_input_ref", ar2_canonical_input_ref request);
    ("authority_actor", ar2_authority_actor request) ] in
  if ar2_attempt request == 0 then
    invalid kind "action request attempt must be greater than zero"
  else
  let* _ := validate_sha256_fields kind [
    ("canonical_input_digest", ar2_canonical_input_digest request);
    ("dispatch_envelope_digest", ar2_dispatch_envelope_digest request);
    ("repository_binding_digest", ar2_repository_binding_digest request);
    ("ledger_authority_realm_digest", ar2_ledger_authority_realm_digest request);
    ("capability_bundle_digest", ar2_capability_bundle_digest request);
    ("policy_digest", ar2_policy_digest request);
    ("context_manifest_digest", ar2_context_manifest_digest request);
    ("worker_manifest_digest", ar2_worker_manifest_digest request);
    ("sandbox_profile_digest", ar2_sandbox_profile_digest request) ] in
  let* _ := match ar2_governed_packet_digest request with
  | Some packet_digest =>
      validate_sha256_fields kind ([("governed_packet_digest", packet_digest)])
  | _ => Ok tt
  end in
  validate_rfc3339_utc kind "requested_at" (ar2_requested_at request).

Definition validate_model_action_authorized_shape (kind : string)
    (authorization : ModelActionAuthorizedV1) : Result unit ValidationError :=
  let* _ := validate_non_empty_fields kind [
    ("run_id", maa1_run_id authorization);
    ("workflow_id", maa1_workflow_id authorization);
    ("unit_id", maa1_unit_id authorization);
    ("provenance_ref", maa1_provenance_ref authorization);
    ("action_id", maa1_action_id authorization);
    ("idempotency_key", maa1_idempotency_key authorization);
    ("dispatch_event_ref", maa1_dispatch_event_ref authorization);
    ("action_request_ref", maa1_action_request_ref authorization);
    ("authorization_actor", maa1_authorization_actor authorization);
    ("authorization_ref", maa1_authorization_ref authorization) ] in
  if maa1_attempt authorization == 0 then
    invalid kind "model action authorization attempt must be greater than zero"
  else
  let* has_candidate_binding :=
    match maa1_candidate_digest authorization, maa1_candidate_view_digest authorization with
    | Some candidate_digest, Some candidate_view_digest =>
        let* _ := validate_sha256_fields kind [
          ("candidate_digest", candidate_digest);
          ("candidate_view_digest", candidate_view_digest) ] in
        Ok true
    | None, None => Ok false
    | _, _ =>
        Err (Refused (LedgerError_InvalidPayload kind
          "model action authorization candidate_digest and candidate_view_digest must be present or absent together"))
    end in
  let* _ :=
    match maa1_execution_role authorization with
    | ExecutionRoleV1_Implementer =>
        if has_candidate_binding then
          invalid kind
            "implementer model action authorization must not carry candidate or candidate view bindings"
        else Ok tt
    | ExecutionRoleV1_Reviewer | ExecutionRoleV1_Adversary | ExecutionRoleV1_Judge =>
        if negb has_candidate_binding then
          invalid kind
            "reviewer, adversary, and judge model action authorizations require candidate and candidate view bindings"
        else Ok tt
    | ExecutionRoleV1_Candidate =>
        invalid kind "candidate execution role cannot receive model action authorization"
    end in
  if negb (is_canonical_authority_actor (maa1_authorization_actor authorization)) then
    invalid kind "authorization_actor must be a canonical non-whitespace actor identifier"
  else
  let* _ := validate_sha256_fields kind [
    ("dispatch_envelope_digest", maa1_dispatch_envelope_digest authorization);
    ("action_request_digest", maa1_action_request_digest authorization);
    ("packet_digest", maa1_packet_digest authorization);
    ("canonical_input_digest", maa1_canonical_input_digest authorization);
    ("model_request_digest", maa1_model_request_digest authorization);
    ("trust_scope_digest", maa1_trust_scope_digest authorization);
    ("context_manifest_digest", maa1_context_manifest_digest authorization);
    ("policy_digest", maa1_policy_digest authorization);
    ("sandbox_profile_digest", maa1_sandbox_profile_digest authorization);
    ("authorization_digest", maa1_authorization_digest authorization) ] in
  validate_rfc3339_utc kind "expires_at" (maa1_expires_at authorization).

Definition validate_model_action_intent_shape (kind : string)
    (intent : ModelActionIntentV1)
    : Result unit ValidationError :=
  let* _ := validate_non_empty_fields kind [
    ("run_id", mai_run_id intent);
    ("workflow_id", mai_workflow_id intent);
    ("unit_id", mai_unit_id intent);
    ("provenance_ref", mai_provenance_ref intent);
    ("action_id", mai_action_id intent);
    ("idempotency_key", mai_idempotency_key intent);
    ("canonical_input_ref", mai_canonical_input_ref intent);
    ("intent_actor", mai_intent_actor intent) ] in
  if mai_attempt intent == 0 then
    invalid kind "model action intent attempt must be greater than zero"
  else
  let* _ := validate_sha256_fields kind [
    ("dispatch_envelope_digest", mai_dispatch_envelope_digest intent);
    ("action_request_digest", mai_action_request_digest intent);
    ("canonical_input_digest", mai_canonical_input_digest intent);
    ("intent_digest", mai_intent_digest intent) ] in
  let* _ := validate_canonical_cas_ref kind "canonical_input_ref" (mai_canonical_input_ref intent)
      in
  let* _ := validate_model_request_evidence_shape kind (mai_model_request_evidence intent) in
  let* _ := validate_trust_scope_evidence_shape kind (mai_trust_scope_evidence intent) in
  let* _ := match mai_candidate_binding intent with
  | Some binding =>
      validate_model_action_candidate_binding_shape kind binding
  | _ => Ok tt
  end in
  if negb (is_canonical_authority_actor (mai_intent_actor intent)) then
    invalid kind "intent_actor must be a canonical non-whitespace actor identifier"
  else
  validate_rfc3339_utc kind "intended_at" (mai_intended_at intent).

Definition validate_model_action_authorized_v2_shape (kind : string)
    (authorization : ModelActionAuthorizedV2)
    : Result unit ValidationError :=
  let* _ := validate_non_empty_fields kind [
    ("authorization_actor", maa2_authorization_actor authorization);
    ("authorization_ref", maa2_authorization_ref authorization) ] in
  let* _ := validate_sha256_fields kind [
    ("intent_digest", maa2_intent_digest authorization);
    ("authorization_digest", maa2_authorization_digest authorization) ] in
  let* _ := validate_model_request_evidence_shape kind (maa2_model_request_evidence authorization)
      in
  let* _ := validate_trust_scope_evidence_shape kind (maa2_trust_scope_evidence authorization) in
  let* _ := match maa2_candidate_binding authorization with
  | Some binding =>
      validate_model_action_candidate_binding_shape kind binding
  | _ => Ok tt
  end in
  if negb (is_canonical_authority_actor (maa2_authorization_actor authorization)) then
    invalid kind "authorization_actor must be a canonical non-whitespace actor identifier"
  else
  validate_rfc3339_utc kind "expires_at" (maa2_expires_at authorization).

Fixpoint check_redactions (kind : string) (redacted_fields : gset string)
    (redactions : list ActionRedactionV1) : Result unit ValidationError :=
  match redactions with
  | [] => Ok tt
  | redaction :: rest =>
      let* _ := validate_non_empty_fields kind [
        ("redactions.field", ared_field redaction);
        ("redactions.reason", ared_reason redaction) ] in
      if bool_decide (ared_field redaction ∈ redacted_fields) then
        invalid kind "action receipt redaction fields must be unique"
      else
      let* _ :=
        match ared_redacted_digest redaction with
        | Some digest => validate_sha256_fields kind [("redactions.redacted_digest", digest)]
        | None => Ok tt
        end in
      check_redactions kind ({[ared_field redaction]} ∪ redacted_fields) rest
  end.

Definition validate_action_receipt_shape (kind : string) (receipt : ActionReceiptRecordedV2)
    : Result unit ValidationError :=
  let* _ := validate_non_empty_fields kind [
    ("run_id", arr2_run_id receipt);
    ("workflow_id", arr2_workflow_id receipt);
    ("unit_id", arr2_unit_id receipt);
    ("provenance_ref", arr2_provenance_ref receipt);
    ("action_id", arr2_action_id receipt);
    ("idempotency_key", arr2_idempotency_key receipt);
    ("authority_actor", arr2_authority_actor receipt);
    ("evidence_ref", arr2_evidence_ref receipt);
    ("action_receipt_ref", arr2_action_receipt_ref receipt) ] in
  if arr2_attempt receipt == 0 then
    invalid kind "action receipt attempt must be greater than zero"
  else
  let* _ :=
    match arr2_authorization_ref receipt with
    | Some authorization_ref =>
        validate_non_empty_fields kind [("authorization_ref", authorization_ref)]
    | None => Ok tt
    end in
  let* _ := validate_sha256_fields kind [
    ("action_request_digest", arr2_action_request_digest receipt);
    ("dispatch_envelope_digest", arr2_dispatch_envelope_digest receipt);
    ("capability_bundle_digest", arr2_capability_bundle_digest receipt);
    ("policy_digest", arr2_policy_digest receipt);
    ("context_manifest_digest", arr2_context_manifest_digest receipt);
    ("worker_manifest_digest", arr2_worker_manifest_digest receipt);
    ("sandbox_profile_digest", arr2_sandbox_profile_digest receipt);
    ("evidence_digest", arr2_evidence_digest receipt) ] in
  let* _ :=
    match arr2_result_digest receipt, arr2_result_ref receipt with
    | Some digest, Some reference =>
        let* _ := validate_sha256_fields kind [("result_digest", digest)] in
        validate_non_empty_fields kind [("result_ref", reference)]
    | None, None => Ok tt
    | _, _ =>
        invalid kind
          "action receipt result_digest and result_ref must be present or absent together"
    end in
  let* _ := check_redactions kind ∅ (arr2_redactions receipt) in
  let* _ :=
    match arr2_outcome receipt with
    | ActionReceiptOutcomeV2_Succeeded =>
        if is_none (arr2_result_digest receipt) || is_some (arr2_failure receipt) then
          invalid kind "succeeded action receipts require a result and must not contain a failure"
        else Ok tt
    | ActionReceiptOutcomeV2_Failed
    | ActionReceiptOutcomeV2_Denied
    | ActionReceiptOutcomeV2_Unknown =>
        match arr2_failure receipt with
        | None =>
            invalid kind
              "failed, denied, and unknown action receipts require structured failure evidence"
        | Some failure =>
            let* _ := validate_non_empty_fields kind [("failure.code", af_code failure)] in
            validate_sha256_fields kind [("failure.message_digest", af_message_digest failure)]
        end
    end in
  validate_rfc3339_utc kind "completed_at" (arr2_completed_at receipt).

Fixpoint check_receipt_entries (kind : string) (prior_action_id : option string)
    (receipt_refs receipt_digests : gset string) (receipts : list ActionReceiptSetEntryV1)
    : Result unit ValidationError :=
  match receipts with
  | [] => Ok tt
  | entry :: rest =>
      let* _ := validate_non_empty_fields kind [
        ("receipts.action_id", arse_action_id entry);
        ("receipts.action_receipt_ref", arse_action_receipt_ref entry) ] in
      let* _ := validate_sha256_fields kind [
        ("receipts.action_receipt_digest", arse_action_receipt_digest entry) ] in
      if is_some_and prior_action_id
           (fun previous => String.leb (arse_action_id entry) previous) then
        invalid kind "action receipt set entries must be strictly sorted by unique action_id"
      else
      if bool_decide (arse_action_receipt_ref entry ∈ receipt_refs)
         || bool_decide (arse_action_receipt_digest entry ∈ receipt_digests) then
        invalid kind "action receipt set receipt refs and digests must be unique"
      else
      check_receipt_entries kind (Some (arse_action_id entry))
        ({[arse_action_receipt_ref entry]} ∪ receipt_refs)
        ({[arse_action_receipt_digest entry]} ∪ receipt_digests) rest
  end.

Definition validate_action_receipt_set_shape (kind : string) (set : ActionReceiptSetRecordedV1)
    : Result unit ValidationError :=
  let* _ := validate_non_empty_fields kind [
    ("run_id", arset_run_id set);
    ("workflow_id", arset_workflow_id set);
    ("unit_id", arset_unit_id set);
    ("provenance_ref", arset_provenance_ref set);
    ("dispatch_envelope_digest", arset_dispatch_envelope_digest set);
    ("action_receipt_set_ref", arset_action_receipt_set_ref set) ] in
  if arset_attempt set == 0 then
    invalid kind "action receipt set attempt must be greater than zero"
  else
  let* _ := validate_sha256_fields kind [
    ("dispatch_envelope_digest", arset_dispatch_envelope_digest set);
    ("action_receipt_set_digest", arset_action_receipt_set_digest set) ] in
  let* _ := check_receipt_entries kind None ∅ ∅ (arset_receipts set) in
  validate_rfc3339_utc kind "sealed_at" (arset_sealed_at set).

Definition validate_attempt_context_recorded_v1_shape (kind : string)
    (context : AttemptContextRecordedV1)
    : Result unit ValidationError :=
  let* _ := validate_non_empty_fields kind [
    ("run_id", acr_run_id context);
    ("workflow_id", acr_workflow_id context);
    ("workflow_revision", acr_workflow_revision context);
    ("unit_id", acr_unit_id context);
    ("prior_terminal_event_ref", acr_prior_terminal_event_ref context);
    ("prior_action_receipt_ref", acr_prior_action_receipt_ref context);
    ("feedback_ref", acr_feedback_ref context);
    ("next_dispatch_idempotency_key", acr_next_dispatch_idempotency_key context);
    ("retry_action_namespace", acr_retry_action_namespace context);
    ("idempotency_key", acr_idempotency_key context) ] in
  if (acr_prior_attempt context == 0) || (acr_next_attempt context == 0) then
    invalid kind "attempt context prior_attempt and next_attempt must be greater than zero"
  else
  if checked_add_u32 (acr_prior_attempt context) 1 != Some (acr_next_attempt context) then
    invalid kind "attempt context next_attempt must be exactly one greater than prior_attempt"
  else
  if (acr_next_dispatch_idempotency_key context == acr_idempotency_key context)
  || (acr_next_dispatch_idempotency_key context == acr_retry_action_namespace context)
  || (acr_idempotency_key context == acr_retry_action_namespace context) then
    invalid kind
        "attempt context dispatch, retry-action, and context idempotency keys must be distinct"
  else
  let* _ := validate_sha256_fields kind [
    ("prior_dispatch_envelope_digest", acr_prior_dispatch_envelope_digest context);
    ("prior_terminal_event_digest", acr_prior_terminal_event_digest context);
    ("prior_action_receipt_digest", acr_prior_action_receipt_digest context);
    ("feedback_digest", acr_feedback_digest context);
    ("next_dispatch_envelope_digest", acr_next_dispatch_envelope_digest context);
    ("attempt_context_digest", acr_attempt_context_digest context) ] in
  validate_rfc3339_utc kind "recorded_at" (acr_recorded_at context).

(** ** Activity records ([payload/activity_claim.rs]) *)

Definition validate_non_empty (kind : string) (fields : list (string * string))
    : Result unit ValidationError :=
  for_each (fun '(field, value) =>
    if trim_is_empty value then invalid kind (field +:+ " must be non-empty") else Ok tt) fields.

Definition validate_digest (kind field value : string) : Result unit ValidationError :=
  let valid := (String.length value =? 71)%nat && starts_with "sha256:" value
               && str_all is_lower_hex (str_skip 7 value) in
  if negb valid then
    invalid kind (field +:+ " must be a canonical sha256 digest")
  else
  Ok tt.

Definition validate_timestamp (kind field value : string) : Result unit ValidationError :=
  if (negb (ends_with "Z" value)) || (is_none (parse_from_rfc3339 value)) then
    invalid kind (field +:+ " must be an RFC3339 UTC timestamp")
  else
  Ok tt.

Definition validate_activity_claimed_v1 (payload : ActivityClaimedV1)
    : Result unit ValidationError :=
  let* _ := validate_non_empty "activity_claimed_v1" [
    ("activity_id", acl_activity_id payload);
    ("idempotency_key", acl_idempotency_key payload);
    ("authority_actor", acl_authority_actor payload);
    ("lease_id", acl_lease_id payload) ] in
  let* _ := validate_digest "activity_claimed_v1" "action_request_digest"
      (acl_action_request_digest payload) in
  let* _ := validate_digest "activity_claimed_v1" "dispatch_envelope_digest"
      (acl_dispatch_envelope_digest payload) in
  let* _ := validate_timestamp "activity_claimed_v1" "lease_expires_at" (acl_lease_expires_at
      payload) in
  validate_timestamp "activity_claimed_v1" "claimed_at" (acl_claimed_at payload).

Definition validate_activity_heartbeat_recorded_v1 (payload : ActivityHeartbeatRecordedV1)
    : Result unit ValidationError :=
  let* _ := validate_non_empty "activity_heartbeat_recorded_v1" [
    ("activity_id", ahb_activity_id payload);
    ("idempotency_key", ahb_idempotency_key payload);
    ("lease_id", ahb_lease_id payload) ] in
  let* _ := match (ahb_heartbeat_id payload, ahb_heartbeat_request_digest payload) with
  | (Some heartbeat_id, Some request_digest) =>
      let* _ := validate_non_empty "activity_heartbeat_recorded_v1" ([("heartbeat_id",
          heartbeat_id)]) in
      validate_digest "activity_heartbeat_recorded_v1" "heartbeat_request_digest"
          request_digest
  | (None, None) => Ok tt
  | _ =>
      invalid "activity_heartbeat_recorded_v1"
          "heartbeat_id and heartbeat_request_digest must be present together"
  end in
  let* _ := validate_digest "activity_heartbeat_recorded_v1" "claim_event_digest"
      (ahb_claim_event_digest payload) in
  let* _ := validate_digest "activity_heartbeat_recorded_v1" "dispatch_envelope_digest"
      (ahb_dispatch_envelope_digest payload) in
  let* _ := validate_timestamp "activity_heartbeat_recorded_v1" "lease_expires_at"
      (ahb_lease_expires_at payload) in
  let* _ := validate_timestamp "activity_heartbeat_recorded_v1" "heartbeat_at" (ahb_heartbeat_at
      payload) in
  some_or lease_expires_at := parse_from_rfc3339 (ahb_lease_expires_at payload) with (Crashed Crash_Panic) ;;
  some_or heartbeat_at := parse_from_rfc3339 (ahb_heartbeat_at payload) with (Crashed Crash_Panic) ;;
  if lease_expires_at <=? heartbeat_at then
    invalid "activity_heartbeat_recorded_v1" "lease_expires_at must be later than heartbeat_at"
  else
  Ok tt.

Definition validate_activity_result_recorded_v1 (payload : ActivityResultRecordedV1)
    : Result unit ValidationError :=
  let* _ := validate_non_empty "activity_result_recorded_v1" [
    ("activity_id", arx_activity_id payload);
    ("idempotency_key", arx_idempotency_key payload);
    ("lease_id", arx_lease_id payload);
    ("evidence_ref", arx_evidence_ref payload) ] in
  let* _ := validate_digest "activity_result_recorded_v1" "claim_event_digest"
      (arx_claim_event_digest payload) in
  let* _ := validate_digest "activity_result_recorded_v1" "evidence_digest" (arx_evidence_digest
      payload) in
  let* _ := match (arx_result_digest payload, arx_result_ref payload, arx_outcome payload) with
  | (Some digest, Some reference, _) =>
      let* _ := validate_digest "activity_result_recorded_v1" "result_digest" digest in
      validate_non_empty "activity_result_recorded_v1" ([("result_ref", reference)])
  | (None, None, ActivityResultOutcomeV1_Succeeded) =>
      invalid "activity_result_recorded_v1"
          "succeeded activity results require result_digest and result_ref"
  | (None, None, _) => Ok tt
  | _ =>
      invalid "activity_result_recorded_v1" "result_digest and result_ref must be present together"
  end in
  if (arx_outcome payload == ActivityResultOutcomeV1_Unknown)
  && ((is_some (arx_result_digest payload)) || (is_some (arx_result_ref payload))) then
    invalid "activity_result_recorded_v1" "unknown activity results must not assert a result"
  else
  let* _ := validate_timestamp "activity_result_recorded_v1" "recorded_at" (arx_recorded_at
      payload) in
  Ok tt.

(** ** Dispatch envelopes, declarations and graphs *)

Definition validate_dispatch_envelope_v2_authority_shape (kind : string)
    (body : DispatchEnvelopeBodyV2)
    : Result unit ValidationError :=
  let* _ := validate_non_empty_fields kind [
    ("workflow_id", deb2_workflow_id body);
    ("workflow_revision", deb2_workflow_revision body);
    ("unit_id", deb2_unit_id body);
    ("provenance_ref", deb2_provenance_ref body);
    ("idempotency_key", deb2_idempotency_key body) ] in
  if deb2_attempt body == 0 then
    invalid kind "attempt must be greater than zero"
  else
  if negb (is_canonical_git_object_id (deb2_base_commit_sha body)) then
    invalid kind "base_commit_sha must be a full canonical Git object ID"
  else
  let* _ := validate_sha256_fields kind [
    ("capability_bundle_digest", deb2_capability_bundle_digest body);
    ("acceptance_contract_digest", deb2_acceptance_contract_digest body);
    ("context_manifest_digest", deb2_context_manifest_digest body);
    ("worker_manifest_digest", deb2_worker_manifest_digest body);
    ("sandbox_profile_digest", deb2_sandbox_profile_digest body) ] in
  if (is_some_and (db_max_tokens (deb2_budget body)) (fun tokens => tokens == 0))
  || (is_some_and (db_max_compute_time_ms (deb2_budget body)) (fun milliseconds =>
      milliseconds == 0)) then
    invalid kind "dispatch budget limits must be greater than zero when present"
  else
  let* _ := validate_v4_rfc3339_utc_fractional_second_precision kind "issued_at" (deb2_issued_at
      body) in
  let* _ := validate_v4_rfc3339_utc_fractional_second_precision kind "expires_at" (deb2_expires_at
      body) in
  let* issued_at := ok_or (parse_from_rfc3339 (deb2_issued_at body)) (Refused
      (LedgerError_InvalidPayload kind "issued_at must be an RFC3339 UTC timestamp")) in
  let* expires_at := ok_or (parse_from_rfc3339 (deb2_expires_at body)) (Refused
      (LedgerError_InvalidPayload kind "expires_at must be an RFC3339 UTC timestamp")) in
  if expires_at <=? issued_at then
    invalid kind "expires_at must be later than issued_at"
  else
  Ok tt.

Definition validate_dispatch_envelope_v3_shape (kind : string)
    (envelope : DispatchEnvelopeV3)
    : Result unit ValidationError :=
  if (is_some_and (db_max_tokens (deb2_budget (de3_body envelope))) (fun tokens => tokens == 0))
  || (is_some_and (db_max_compute_time_ms (deb2_budget (de3_body envelope))) (fun milliseconds =>
      milliseconds == 0)) then
    invalid kind "sealed V3 dispatch budget limits must be greater than zero when present"
  else
  if negb (is_canonical_sha256_digest (de3_repository_binding_digest envelope)) then
    invalid kind "repository_binding_digest must be a canonical sha256 digest"
  else
  if negb (is_canonical_sha256_digest (de3_ledger_authority_realm_digest envelope)) then
    invalid kind "ledger_authority_realm_digest must be a canonical sha256 digest"
  else
  if (de3_action_evidence_version envelope == ActionEvidenceVersionV1_SealedV3)
  && (is_none (de3_governed_packet_digest envelope)) then
    invalid kind "sealed_v3 dispatch requires governed_packet_digest"
  else
  let* _ := match de3_governed_packet_digest envelope with
  | Some packet_digest =>
      if negb (is_canonical_sha256_digest packet_digest) then
        invalid kind "governed_packet_digest must be a canonical sha256 digest"
      else
      Ok tt
  | _ => Ok tt
  end in
  let* expected := map_err (fun error => Refused (LedgerError_InvalidPayload kind
      ("could not canonicalize V3 dispatch body: " +:+ error))) (dispatch_envelope_v3_body_digest
          (de3_body envelope) (de3_action_evidence_version envelope)
              (de3_repository_binding_digest envelope) (de3_ledger_authority_realm_digest
                  envelope) (de3_governed_packet_digest envelope)) in
  if de3_envelope_digest envelope != expected then
    invalid kind "envelope_digest does not match the canonical V3 dispatch body digest"
  else
  Ok tt.

Definition validate_dispatch_envelope_v4_shape (kind : string)
    (envelope : DispatchEnvelopeV4)
    : Result unit ValidationError :=
  let* _ := validate_dispatch_envelope_v2_authority_shape kind (de3_body (de4_dispatch_v3
      envelope)) in
  let* _ := validate_dispatch_envelope_v3_shape kind (de4_dispatch_v3 envelope) in
  let nested := de4_dispatch_v3 envelope in
  if (deb2_trust_tier (de3_body nested) != TrustTierV1_Governed)
  || (deb2_commit_mode (de3_body nested) != CommitModeV1_Atomic)
  || (de3_action_evidence_version nested != ActionEvidenceVersionV1_SealedV3) then
    invalid kind "graph-bound V4 dispatch requires governed atomic sealed_v3 authority"
  else
  if negb (is_canonical_sha256_digest (de4_workflow_graph_digest envelope)) then
    invalid kind "workflow_graph_digest must be a canonical sha256 digest"
  else
  let* expected := map_err (fun error => Refused (LedgerError_InvalidPayload kind
      ("could not canonicalize V4 dispatch body: " +:+ error))) (dispatch_envelope_v4_digest
          (de4_dispatch_v3 envelope) (de4_workflow_graph_digest envelope)
              (de4_workflow_graph_declaration_event_ref envelope)) in
  if de4_envelope_digest envelope != expected then
    invalid kind "envelope_digest does not match the canonical V4 dispatch body digest"
  else
  Ok tt.

Definition validate_dispatch_envelope_v5_shape (kind : string) (envelope : DispatchEnvelopeV5)
    : Result unit ValidationError :=
  let* _ := validate_dispatch_envelope_v4_shape kind (de5_dispatch_v4 envelope) in
  let body := de3_body (de4_dispatch_v3 (de5_dispatch_v4 envelope)) in
  if (de5_context_manifest_digest envelope != deb2_context_manifest_digest body)
     || (de5_worker_manifest_digest envelope != deb2_worker_manifest_digest body)
     || (de5_sandbox_profile_digest envelope != deb2_sandbox_profile_digest body) then
    invalid kind "V5 manifest digests must equal the complete nested V4 dispatch authority"
  else
  let* _ := validate_sha256_fields kind [
    ("context_manifest_digest", de5_context_manifest_digest envelope);
    ("worker_manifest_digest", de5_worker_manifest_digest envelope);
    ("sandbox_profile_digest", de5_sandbox_profile_digest envelope) ] in
  let attempt := deb2_attempt body in
  let* _ :=
    match de5_attempt_context_declaration_event_ref envelope,
          de5_attempt_context_digest envelope with
    | None, None =>
        if attempt == 1 then Ok tt else
        invalid kind "retry V5 dispatch requires attempt context declaration and digest"
    | Some _, Some digest =>
        if 1 <? attempt then
          validate_sha256_fields kind [("attempt_context_digest", digest)]
        else
        invalid kind "attempt context declaration reference and digest must be present together"
    | _, _ =>
        invalid kind "attempt context declaration reference and digest must be present together"
    end in
  let declaration_refs : gset string :=
    list_to_set (map uuid_to_string
      ([de5_context_manifest_declaration_event_ref envelope;
        de5_worker_manifest_declaration_event_ref envelope;
        de5_sandbox_profile_declaration_event_ref envelope]
       ++ option_list (de5_attempt_context_declaration_event_ref envelope))) in
  let expected_ref_count := if 1 <? attempt then 4%nat else 3%nat in
  if negb (size declaration_refs =? expected_ref_count)%nat then
    invalid kind "V5 manifest declaration event references must be pairwise distinct"
  else
  let* expected :=
    map_err (fun error => Refused (LedgerError_InvalidPayload kind
        ("could not canonicalize V5 dispatch body: " +:+ error)))
      (dispatch_envelope_v5_digest envelope) in
  if de5_envelope_digest envelope != expected then
    invalid kind "envelope_digest does not match the canonical V5 dispatch body digest"
  else
  Ok tt.

Definition validate_governed_dispatch_v5_admission_recorded_v1_shape (kind : string)
    (receipt : GovernedDispatchV5AdmissionRecordedV1)
    : Result unit ValidationError :=
  let* _ := validate_non_empty_fields kind [
    ("run_id", gda_run_id receipt);
    ("idempotency_key", gda_idempotency_key receipt) ] in
  let* _ := validate_sha256_fields kind [
    ("source_dispatch_event_digest", gda_source_dispatch_event_digest receipt);
    ("dispatch_envelope_digest", gda_dispatch_envelope_digest receipt);
    ("witness_evidence_digest", gda_witness_evidence_digest receipt);
    ("semantic_identity_digest", gda_semantic_identity_digest receipt);
    ("ledger_authority_realm_digest", gda_ledger_authority_realm_digest receipt) ] in
  validate_rfc3339_utc kind "admitted_at" (gda_admitted_at receipt).

Definition validate_manifest_declaration_header (kind run_id workflow_id workflow_revision unit_id
    : string)
    (attempt : u32)
    (provenance_ref idempotency_key declared_at : string)
    : Result unit ValidationError :=
  let* _ := validate_non_empty_fields kind [
    ("run_id", run_id);
    ("workflow_id", workflow_id);
    ("workflow_revision", workflow_revision);
    ("unit_id", unit_id);
    ("provenance_ref", provenance_ref);
    ("idempotency_key", idempotency_key) ] in
  if attempt == 0 then
    invalid kind "manifest declaration attempt must be greater than zero"
  else
  validate_rfc3339_utc kind "declared_at" declared_at.

Fixpoint check_manifest_entries (kind : string) (references : gset string)
    (prior_reference : option string) (entries : list ContextManifestEntryV1)
    : Result unit ValidationError :=
  match entries with
  | [] => Ok tt
  | entry :: rest =>
      let* _ := validate_non_empty_fields kind [
        ("context_manifest.entries.reference", cme_reference entry);
        ("context_manifest.entries.provenance_ref", cme_provenance_ref entry) ] in
      let* _ := validate_sha256_fields kind [
        ("context_manifest.entries.digest", cme_digest entry) ] in
      if is_some_and prior_reference
           (fun previous => String.leb (cme_reference entry) previous) then
        invalid kind "context manifest entries must be in strict lexical reference order"
      else
      if bool_decide (cme_reference entry ∈ references) then
        invalid kind "context manifest entry references must be unique"
      else
      check_manifest_entries kind ({[cme_reference entry]} ∪ references)
        (Some (cme_reference entry)) rest
  end.

Definition validate_context_manifest_content_v1_shape (kind : string)
    (manifest : ContextManifestContentV1) : Result unit ValidationError :=
  check_manifest_entries kind ∅ None (cmc_entries manifest).

Definition validate_worker_manifest_content_v1_shape (kind : string)
    (manifest : WorkerManifestContentV1)
    : Result unit ValidationError :=
  let* _ := validate_non_empty_fields kind ([("worker_manifest.model", wmc_model manifest)]) in
  let* _ := validate_sha256_fields kind [
    ("worker_manifest.image_digest", wmc_image_digest manifest);
    ("worker_manifest.tool_manifest_digest", wmc_tool_manifest_digest manifest);
    ("worker_manifest.skill_manifest_digest", wmc_skill_manifest_digest manifest);
    ("worker_manifest.capability_bundle_digest", wmc_capability_bundle_digest manifest) ] in
  match (wmc_provider manifest, wmc_harness manifest) with
  | (WorkerProviderV1_Anthropic, WorkerHarnessV1_AnthropicApiSdk) | (WorkerProviderV1_OpenAi,
      WorkerHarnessV1_OpenAiApiSdk) => Ok tt
  | _ => invalid kind "worker manifest provider and harness must use the matching governed API SDK"
  end.

Definition validate_sandbox_profile_content_v1_shape (kind : string)
    (profile : SandboxProfileContentV1)
    : Result unit ValidationError :=
  if (spc_runtime profile != SandboxRuntimeV1_RootlessOci)
  || (negb (spc_rootless profile))
  || (negb (spc_read_only_rootfs profile)) then
    invalid kind "governed sandbox profile requires rootless OCI with a read-only root filesystem"
  else
  validate_sha256_fields kind [
    ("sandbox_profile.image_digest", spc_image_digest profile);
    ("sandbox_profile.writable_overlay_digest", spc_writable_overlay_digest profile);
    ("sandbox_profile.mount_manifest_digest", spc_mount_manifest_digest profile);
    ("sandbox_profile.environment_manifest_digest", spc_environment_manifest_digest profile);
    ("sandbox_profile.network_policy_digest", spc_network_policy_digest profile);
    ("sandbox_profile.resource_policy_digest", spc_resource_policy_digest profile);
    ("sandbox_profile.secret_handle_manifest_digest", spc_secret_handle_manifest_digest profile) ].

Fixpoint check_retry_feedback (kind : string) (feedback_refs : gset string)
    (prior_feedback_ref : option string) (retry_feedback : list AttemptFeedbackV1)
    : Result unit ValidationError :=
  match retry_feedback with
  | [] => Ok tt
  | feedback :: rest =>
      let* _ := validate_non_empty_fields kind [
        ("attempt_context.retry_feedback.feedback_ref", afb_feedback_ref feedback) ] in
      let* _ := validate_sha256_fields kind [
        ("attempt_context.retry_feedback.feedback_digest", afb_feedback_digest feedback) ] in
      if is_some_and prior_feedback_ref
           (fun previous => String.leb (afb_feedback_ref feedback) previous) then
        invalid kind "attempt context retry feedback must be in strict lexical feedback_ref order"
      else
      if bool_decide (afb_feedback_ref feedback ∈ feedback_refs) then
        invalid kind "attempt context retry feedback refs must be unique"
      else
      check_retry_feedback kind ({[afb_feedback_ref feedback]} ∪ feedback_refs)
        (Some (afb_feedback_ref feedback)) rest
  end.

Fixpoint check_prior_candidates (kind : string) (candidate_refs : gset string)
    (prior_candidate_ref : option string) (prior_candidates : list PriorCandidateRefV1)
    : Result unit ValidationError :=
  match prior_candidates with
  | [] => Ok tt
  | candidate :: rest =>
      if negb (is_canonical_buildplane_candidate_ref (pcr_candidate_ref candidate)) then
        invalid kind
          "attempt context prior candidate_ref must be a canonical Buildplane candidate ref"
      else
      let* _ := validate_sha256_fields kind [
        ("attempt_context.prior_candidates.candidate_digest", pcr_candidate_digest candidate) ] in
      if is_some_and prior_candidate_ref
           (fun previous => String.leb (pcr_candidate_ref candidate) previous) then
        invalid kind
          "attempt context prior candidates must be in strict lexical candidate_ref order"
      else
      if bool_decide (pcr_candidate_ref candidate ∈ candidate_refs) then
        invalid kind "attempt context prior candidate refs must be unique"
      else
      check_prior_candidates kind ({[pcr_candidate_ref candidate]} ∪ candidate_refs)
        (Some (pcr_candidate_ref candidate)) rest
  end.

Definition validate_attempt_context_content_v1_shape (kind : string)
    (context : AttemptContextContentV1) : Result unit ValidationError :=
  if acc_attempt context <=? 1 then
    invalid kind "attempt context content is only valid for a retry attempt greater than one"
  else
  if list_is_empty (acc_retry_feedback context) then
    invalid kind "attempt context requires at least one retry feedback artifact"
  else
  let* _ := check_retry_feedback kind ∅ None (acc_retry_feedback context) in
  check_prior_candidates kind ∅ None (acc_prior_candidates context).

Definition validate_context_manifest_declared_v1_shape (kind : string)
    (declaration : ContextManifestDeclaredV1)
    : Result unit ValidationError :=
  let* _ := validate_manifest_declaration_header kind (cmd_run_id declaration) (cmd_workflow_id
      declaration) (cmd_workflow_revision declaration) (cmd_unit_id declaration) (cmd_attempt
          declaration) (cmd_provenance_ref declaration) (cmd_idempotency_key declaration)
              (cmd_declared_at declaration) in
  let* _ := validate_context_manifest_content_v1_shape kind (cmd_context_manifest declaration) in
  let* expected := map_err (fun error => Refused (LedgerError_InvalidPayload kind
      ("could not canonicalize context manifest content: " +:+ error)))
          (context_manifest_content_v1_digest (cmd_context_manifest declaration)) in
  if cmd_context_manifest_digest declaration != expected then
    invalid kind "context_manifest_digest does not match the canonical context manifest content"
  else
  Ok tt.

Definition validate_worker_manifest_declared_v1_shape (kind : string)
    (declaration : WorkerManifestDeclaredV1)
    : Result unit ValidationError :=
  let* _ := validate_manifest_declaration_header kind (wmd_run_id declaration) (wmd_workflow_id
      declaration) (wmd_workflow_revision declaration) (wmd_unit_id declaration) (wmd_attempt
          declaration) (wmd_provenance_ref declaration) (wmd_idempotency_key declaration)
              (wmd_declared_at declaration) in
  let* _ := validate_worker_manifest_content_v1_shape kind (wmd_worker_manifest declaration) in
  let* expected := map_err (fun error => Refused (LedgerError_InvalidPayload kind
      ("could not canonicalize worker manifest content: " +:+ error)))
          (worker_manifest_content_v1_digest (wmd_worker_manifest declaration)) in
  if wmd_worker_manifest_digest declaration != expected then
    invalid kind "worker_manifest_digest does not match the canonical worker manifest content"
  else
  Ok tt.

Definition validate_sandbox_profile_declared_v1_shape (kind : string)
    (declaration : SandboxProfileDeclaredV1)
    : Result unit ValidationError :=
  let* _ := validate_manifest_declaration_header kind (spd_run_id declaration) (spd_workflow_id
      declaration) (spd_workflow_revision declaration) (spd_unit_id declaration) (spd_attempt
          declaration) (spd_provenance_ref declaration) (spd_idempotency_key declaration)
              (spd_declared_at declaration) in
  let* _ := validate_sandbox_profile_content_v1_shape kind (spd_sandbox_profile declaration) in
  let* expected := map_err (fun error => Refused (LedgerError_InvalidPayload kind
      ("could not canonicalize sandbox profile content: " +:+ error)))
          (sandbox_profile_content_v1_digest (spd_sandbox_profile declaration)) in
  if spd_sandbox_profile_digest declaration != expected then
    invalid kind "sandbox_profile_digest does not match the canonical sandbox profile content"
  else
  Ok tt.

Definition validate_attempt_context_declared_v1_shape (kind : string)
    (declaration : AttemptContextDeclaredV1)
    : Result unit ValidationError :=
  let* _ := validate_manifest_declaration_header kind (acd_run_id declaration) (acd_workflow_id
      declaration) (acd_workflow_revision declaration) (acd_unit_id declaration) (acd_attempt
          declaration) (acd_provenance_ref declaration) (acd_idempotency_key declaration)
              (acd_declared_at declaration) in
  let* _ := validate_attempt_context_content_v1_shape kind (acd_attempt_context declaration) in
  if acc_attempt (acd_attempt_context declaration) != acd_attempt declaration then
    invalid kind "attempt context content attempt must equal the enclosing declaration attempt"
  else
  let* expected := map_err (fun error => Refused (LedgerError_InvalidPayload kind
      ("could not canonicalize attempt context content: " +:+ error)))
          (attempt_context_content_v1_digest (acd_attempt_context declaration)) in
  if acd_attempt_context_digest declaration != expected then
    invalid kind "attempt_context_digest does not match the canonical attempt context content"
  else
  Ok tt.

Definition workflow_graph_has_cycle (nodes : list WorkflowGraphNodeV1) : Result bool Crash :=
  graph_has_cycle (map (fun node => (wgn1_unit_id node, wgn1_depends_on node)) nodes).

Definition workflow_graph_v2_has_cycle (nodes : list WorkflowGraphNodeV2) : Result bool Crash :=
  graph_has_cycle (map (fun node => (wgn2_unit_id node, wgn2_depends_on node)) nodes).

Fixpoint check_dependencies_v1 (kind unit_id : string) (dependency_ids : gset string)
    (prior_dependency_id : option string) (depends_on : list string)
    : Result unit ValidationError :=
  match depends_on with
  | [] => Ok tt
  | dependency :: rest =>
      if trim_is_empty dependency then
        invalid kind "workflow graph dependency ids must be non-empty"
      else
      if dependency == unit_id then
        invalid kind "workflow graph nodes cannot depend on themselves"
      else
      if is_some_and prior_dependency_id (fun previous => String.leb dependency previous) then
        invalid kind "workflow graph dependencies must be in strict lexical order"
      else
      if bool_decide (dependency ∈ dependency_ids) then
        invalid kind "workflow graph dependencies must be unique"
      else
      check_dependencies_v1 kind unit_id ({[dependency]} ∪ dependency_ids) (Some dependency) rest
  end.

(** The first loop over the nodes: the set of unit ids it collects. *)
Fixpoint check_nodes_v1 (kind : string) (node_ids : gset string) (prior_unit_id : option string)
    (nodes : list WorkflowGraphNodeV1) : Result (gset string) ValidationError :=
  match nodes with
  | [] => Ok node_ids
  | node :: rest =>
      let* _ :=
        if trim_is_empty (wgn1_unit_id node) then
          invalid kind "workflow graph node unit_id must be non-empty"
        else
        if is_some_and prior_unit_id
             (fun previous => String.leb (wgn1_unit_id node) previous) then
          invalid kind "workflow graph nodes must be in strict lexical unit_id order"
        else
        if bool_decide (wgn1_unit_id node ∈ node_ids) then
          invalid kind "workflow graph node unit_ids must be unique"
        else
        check_dependencies_v1 kind (wgn1_unit_id node) ∅ None (wgn1_depends_on node) in
      check_nodes_v1 kind ({[wgn1_unit_id node]} ∪ node_ids) (Some (wgn1_unit_id node)) rest
  end.

Definition validate_workflow_graph_declared_v1_shape (kind : string)
    (declaration : WorkflowGraphDeclaredV1) : Result unit ValidationError :=
  let* _ := validate_non_empty_fields kind [
    ("run_id", wgd1_run_id declaration);
    ("workflow_id", wgd1_workflow_id declaration);
    ("workflow_revision", wgd1_workflow_revision declaration);
    ("idempotency_key", wgd1_idempotency_key declaration) ] in
  if list_is_empty (wgd1_nodes declaration) then
    invalid kind "workflow graph declaration must contain at least one node"
  else
  if wgd1_max_concurrent declaration == 0 then
    invalid kind "workflow graph declaration max_concurrent must be greater than zero"
  else
  let* _ := validate_rfc3339_utc kind "declared_at" (wgd1_declared_at declaration) in
  let* node_ids := check_nodes_v1 kind ∅ None (wgd1_nodes declaration) in
  let* _ := for_each (fun node =>
    for_each (fun dependency =>
      if negb (bool_decide (dependency ∈ node_ids)) then
        invalid kind "workflow graph dependency references an unknown unit_id"
      else Ok tt) (wgn1_depends_on node)) (wgd1_nodes declaration) in
  let* has_cycle := map_err Crashed (workflow_graph_has_cycle (wgd1_nodes declaration)) in
  if has_cycle then
    invalid kind "workflow graph dependencies must not contain a cycle"
  else
  Ok tt.

Fixpoint check_dependencies_v2 (kind unit_id : string) (dependency_ids : gset string)
    (prior_dependency_id : option string) (depends_on : list string)
    : Result unit ValidationError :=
  match depends_on with
  | [] => Ok tt
  | dependency :: rest =>
      if trim_is_empty dependency then
        invalid kind "workflow graph v2 dependency ids must be non-empty"
      else
      if negb (str_all is_ascii dependency) then
        invalid kind "workflow graph v2 dependency ids must be ASCII"
      else
      if dependency == unit_id then
        invalid kind "workflow graph v2 nodes cannot depend on themselves"
      else
      if is_some_and prior_dependency_id (fun previous => String.leb dependency previous) then
        invalid kind "workflow graph v2 dependencies must be in strict lexical order"
      else
      if bool_decide (dependency ∈ dependency_ids) then
        invalid kind "workflow graph v2 dependencies must be unique"
      else
      check_dependencies_v2 kind unit_id ({[dependency]} ∪ dependency_ids) (Some dependency) rest
  end.

(** The first loop over the nodes: the set of unit ids it collects. *)
Fixpoint check_nodes_v2 (kind : string) (node_ids : gset string) (prior_unit_id : option string)
    (nodes : list WorkflowGraphNodeV2) : Result (gset string) ValidationError :=
  match nodes with
  | [] => Ok node_ids
  | node :: rest =>
      let* _ :=
        if trim_is_empty (wgn2_unit_id node) then
          invalid kind "workflow graph v2 node unit_id must be non-empty"
        else
        if negb (str_all is_ascii (wgn2_unit_id node)) then
          invalid kind "workflow graph v2 node unit_id must be ASCII"
        else
        if is_some_and prior_unit_id
             (fun previous => String.leb (wgn2_unit_id node) previous) then
          invalid kind "workflow graph v2 nodes must be in strict lexical unit_id order"
        else
        if bool_decide (wgn2_unit_id node ∈ node_ids) then
          invalid kind "workflow graph v2 node unit_ids must be unique"
        else
        if negb (is_canonical_sha256_digest (wgn2_governed_packet_digest node)) then
          invalid kind
            "workflow graph v2 node governed_packet_digest must be a canonical sha256 digest"
        else
        check_dependencies_v2 kind (wgn2_unit_id node) ∅ None (wgn2_depends_on node) in
      check_nodes_v2 kind ({[wgn2_unit_id node]} ∪ node_ids) (Some (wgn2_unit_id node)) rest
  end.

Definition validate_workflow_graph_declared_v2_shape (kind : string)
    (declaration : WorkflowGraphDeclaredV2) : Result unit ValidationError :=
  let* _ := validate_non_empty_fields kind [
    ("run_id", wgd2_run_id declaration);
    ("workflow_id", wgd2_workflow_id declaration);
    ("workflow_revision", wgd2_workflow_revision declaration);
    ("idempotency_key", wgd2_idempotency_key declaration) ] in
  if list_is_empty (wgd2_nodes declaration) then
    invalid kind "workflow graph declaration v2 must contain at least one node"
  else
  if wgd2_max_concurrent declaration == 0 then
    invalid kind "workflow graph declaration v2 max_concurrent must be greater than zero"
  else
  let* _ := validate_rfc3339_utc kind "declared_at" (wgd2_declared_at declaration) in
  let* node_ids := check_nodes_v2 kind ∅ None (wgd2_nodes declaration) in
  let* _ := for_each (fun node =>
    for_each (fun dependency =>
      if negb (bool_decide (dependency ∈ node_ids)) then
        invalid kind "workflow graph v2 dependency references an unknown unit_id"
      else Ok tt) (wgn2_depends_on node)) (wgd2_nodes declaration) in
  let* has_cycle := map_err Crashed (workflow_graph_v2_has_cycle (wgd2_nodes declaration)) in
  if has_cycle then
    invalid kind "workflow graph v2 dependencies must not contain a cycle"
  else
  Ok tt.

(** ** Candidates, reviews, promotion and lifecycle *)

Definition validate_candidate_v1_shape (kind : string)
    (candidate : CandidateCreatedV1)
    : Result unit ValidationError :=
  if negb (is_canonical_buildplane_candidate_ref (cc1_candidate_ref candidate)) then
    invalid kind "candidate_ref must be a canonical buildplane candidate ref"
  else
  Ok tt.

Definition validate_candidate_v2_shape (kind : string)
    (candidate : CandidateCreatedV2)
    : Result unit ValidationError :=
  let* _ := validate_non_empty_fields kind [
    ("run_id", cc2_run_id candidate);
    ("candidate_id", cc2_candidate_id candidate);
    ("candidate_ref", cc2_candidate_ref candidate);
    ("workflow_id", cc2_workflow_id candidate);
    ("unit_id", cc2_unit_id candidate);
    ("provenance_ref", cc2_provenance_ref candidate);
    ("action_receipt_set_ref", cc2_action_receipt_set_ref candidate) ] in
  if cc2_attempt candidate == 0 then
    invalid kind "candidate v2 attempt must be greater than zero"
  else
  if negb (is_canonical_buildplane_candidate_ref (cc2_candidate_ref candidate)) then
    invalid kind "candidate_ref must be a canonical buildplane candidate ref"
  else
  if (negb (is_canonical_git_object_id (cc2_base_commit_sha candidate)))
  || (negb (is_canonical_git_object_id (cc2_candidate_commit_sha candidate))) then
    invalid kind
        "candidate v2 base_commit_sha and candidate_commit_sha must be full canonical Git object IDs"
  else
  validate_sha256_fields kind [
    ("candidate_digest", cc2_candidate_digest candidate);
    ("commit_digest", cc2_commit_digest candidate);
    ("tree_digest", cc2_tree_digest candidate);
    ("patch_digest", cc2_patch_digest candidate);
    ("changed_files_digest", cc2_changed_files_digest candidate);
    ("envelope_digest", cc2_envelope_digest candidate);
    ("action_receipt_set_digest", cc2_action_receipt_set_digest candidate) ].

Definition validate_candidate_completion_recorded_v1_shape (kind : string)
    (completion : CandidateCompletionRecordedV1)
    : Result unit ValidationError :=
  let* _ := validate_non_empty_fields kind [
    ("run_id", ccr_run_id completion);
    ("workflow_id", ccr_workflow_id completion);
    ("unit_id", ccr_unit_id completion);
    ("provenance_ref", ccr_provenance_ref completion);
    ("candidate_create_action_id", ccr_candidate_create_action_id completion);
    ("action_receipt_ref", ccr_action_receipt_ref completion) ] in
  if ccr_attempt completion == 0 then
    invalid kind "candidate completion attempt must be greater than zero"
  else
  let* _ := validate_sha256_fields kind [
    ("candidate_digest", ccr_candidate_digest completion);
    ("action_request_digest", ccr_action_request_digest completion);
    ("activity_claim_event_digest", ccr_activity_claim_event_digest completion);
    ("activity_result_event_digest", ccr_activity_result_event_digest completion);
    ("action_receipt_digest", ccr_action_receipt_digest completion);
    ("completion_digest", ccr_completion_digest completion) ] in
  validate_rfc3339_utc kind "completed_at" (ccr_completed_at completion).

Definition validate_review_verdict_v2_shape (kind : string)
    (review : ReviewVerdictRecordedV2)
    : Result unit ValidationError :=
  let* _ := validate_non_empty_fields kind [
    ("run_id", rv2_run_id review);
    ("workflow_id", rv2_workflow_id review);
    ("unit_id", rv2_unit_id review);
    ("provenance_ref", rv2_provenance_ref review);
    ("review_ref", rv2_review_ref review);
    ("review_verdict_action_id", rv2_review_verdict_action_id review);
    ("review_action_receipt_ref", rv2_review_action_receipt_ref review);
    ("review_output_ref", rv2_review_output_ref review);
    ("acceptance_ref", rv2_acceptance_ref review);
    ("reviewer_workflow_id", rv2_reviewer_workflow_id review);
    ("reviewer_unit_id", rv2_reviewer_unit_id review);
    ("review_action_receipt_set_ref", rv2_review_action_receipt_set_ref review);
    ("candidate_view_ref", rv2_candidate_view_ref review);
    ("reviewer_authority", rv2_reviewer_authority review) ] in
  if (rv2_attempt review == 0) || (rv2_reviewer_attempt review == 0) then
    invalid kind "review v2 candidate and reviewer attempts must be greater than zero"
  else
  if negb (is_canonical_git_object_id (rv2_candidate_commit_sha review)) then
    invalid kind "review v2 candidate_commit_sha must be a full canonical Git object ID"
  else
  if (negb (f64_is_finite (rv2_confidence review)))
  || (negb (f64_leb f64_zero (rv2_confidence review) && f64_leb (rv2_confidence review) f64_one))
      then
    invalid kind "review v2 confidence must be a finite value between zero and one"
  else
  if negb (match rv2_reviewer_execution_role review with
  | ExecutionRoleV1_Reviewer => true
  | ExecutionRoleV1_Adversary => true
  | ExecutionRoleV1_Judge => true
  | _ => false
  end) then
    invalid kind "review v2 reviewer_execution_role must be a read-only review role"
  else
  let* _ := validate_sha256_fields kind [
    ("candidate_digest", rv2_candidate_digest review);
    ("review_action_request_digest", rv2_review_action_request_digest review);
    ("review_action_receipt_digest", rv2_review_action_receipt_digest review);
    ("review_output_digest", rv2_review_output_digest review);
    ("acceptance_digest", rv2_acceptance_digest review);
    ("acceptance_contract_digest", rv2_acceptance_contract_digest review);
    ("candidate_envelope_digest", rv2_candidate_envelope_digest review);
    ("reviewer_dispatch_envelope_digest", rv2_reviewer_dispatch_envelope_digest review);
    ("review_action_receipt_set_digest", rv2_review_action_receipt_set_digest review);
    ("candidate_view_digest", rv2_candidate_view_digest review);
    ("reviewer_manifest_digest", rv2_reviewer_manifest_digest review) ] in
  let* _ := match rv2_review_output_semantic_digest review with
  | Some semantic_digest =>
      validate_sha256_fields kind ([("review_output_semantic_digest", semantic_digest)])
         
  | _ => Ok tt
  end in
  let* _ := validate_candidate_view_v1_shape kind (rv2_candidate_view review) in
  let* expected_candidate_view_digest := map_err (fun error => Refused (LedgerError_InvalidPayload
      kind ("could not canonicalize review v2 candidate view: " +:+ error)))
          (candidate_view_v1_digest (rv2_candidate_view review)) in
  if rv2_candidate_view_digest review != expected_candidate_view_digest then
    invalid kind "candidate_view_digest does not match the canonical read-only candidate view"
  else
  let* expected_output_digest := map_err (fun error => Refused (LedgerError_InvalidPayload kind
      ("could not canonicalize review v2 closed output: " +:+ error)))
          (review_verdict_output_v1_digest {| rvo_candidate_digest := rv2_candidate_digest review;
     rvo_candidate_commit_sha := rv2_candidate_commit_sha review;
     rvo_decision := rv2_decision review;
     rvo_findings := rv2_findings review;
     rvo_confidence := rv2_confidence review;
     rvo_candidate_view_digest := rv2_candidate_view_digest review |}) in
  let* _ := match rv2_review_output_semantic_digest review with
  | Some semantic_digest =>
      if semantic_digest != expected_output_digest then
        invalid kind
            "review_output_semantic_digest does not match the canonical closed review output"
      else
      if rv2_review_output_ref review != "cas:" +:+ (rv2_review_output_digest review) then
        invalid kind
            "review_output_ref must be the exact protected CAS reference for raw review_output_digest"
      else
      Ok tt
  | None =>
      if rv2_review_output_digest review != expected_output_digest then
        invalid kind "legacy review_output_digest does not match the canonical closed review output"
      else
      if rv2_review_output_ref review != "cas:" +:+ (rv2_review_output_digest review) then
        invalid kind "legacy review_output_ref must match review_output_digest"
      else
      Ok tt
  end in
  validate_rfc3339_utc kind "reviewed_at" (rv2_reviewed_at review).

Definition validate_promotion_approval_requested_v1_shape (kind : string)
    (request : PromotionApprovalRequestedV1)
    : Result unit ValidationError :=
  let* _ := validate_non_empty_fields kind [
    ("candidate_digest", par_candidate_digest request);
    ("base_commit_sha", par_base_commit_sha request);
    ("target_ref", par_target_ref request);
    ("envelope_digest", par_envelope_digest request);
    ("acceptance_ref", par_acceptance_ref request);
    ("requested_by", par_requested_by request);
    ("idempotency_key", par_idempotency_key request) ] in
  if negb (is_canonical_git_object_id (par_base_commit_sha request)) then
    invalid kind "promotion approval request base_commit_sha must be a full canonical Git object ID"
  else
  if negb (is_canonical_target_ref (par_target_ref request)) then
    invalid kind "promotion approval request target_ref must be a canonical refs/heads branch ref"
  else
  let* _ := validate_sha256_fields kind [
    ("candidate_digest", par_candidate_digest request);
    ("envelope_digest", par_envelope_digest request) ] in
  let* _ := validate_opaque_reference kind "acceptance_ref" (par_acceptance_ref request) in
  let* _ := validate_unique_references kind "review_refs" (par_review_refs request) in
  if negb (is_canonical_authority_actor (par_requested_by request)) then
    invalid kind "promotion approval request requested_by must be a canonical authority actor"
  else
  validate_rfc3339_utc kind "requested_at" (par_requested_at request).

Definition validate_promotion_decision_recorded_v1_shape (kind : string)
    (decision : PromotionDecisionRecordedV1)
    : Result unit ValidationError :=
  let* _ := validate_non_empty_fields kind [
    ("candidate_digest", pdr_candidate_digest decision);
    ("base_commit_sha", pdr_base_commit_sha decision);
    ("envelope_digest", pdr_envelope_digest decision);
    ("acceptance_ref", pdr_acceptance_ref decision);
    ("authority", pdr_authority decision);
    ("decided_by", pdr_decided_by decision);
    ("idempotency_key", pdr_idempotency_key decision) ] in
  if negb (is_canonical_git_object_id (pdr_base_commit_sha decision)) then
    invalid kind "promotion decision base_commit_sha must be a full canonical Git object ID"
  else
  let* _ := validate_sha256_fields kind [
    ("candidate_digest", pdr_candidate_digest decision);
    ("envelope_digest", pdr_envelope_digest decision) ] in
  let* _ := validate_opaque_reference kind "acceptance_ref" (pdr_acceptance_ref decision) in
  let* _ := validate_unique_references kind "review_refs" (pdr_review_refs decision) in
  if (negb (is_canonical_authority_actor (pdr_authority decision)))
  || (negb (is_canonical_authority_actor (pdr_decided_by decision))) then
    invalid kind "promotion decision authority and decided_by must be canonical authority actors"
  else
  let* _ := validate_rfc3339_utc kind "decided_at" (pdr_decided_at decision) in
  let* _ := match (pdr_target_ref decision, pdr_promotion_approval_request_ref decision) with
  | (Some target_ref, Some request_ref) =>
      if negb (is_canonical_target_ref target_ref) then
        invalid kind "promotion decision target_ref must be a canonical refs/heads branch ref"
      else
      if pdr_authority decision != pdr_decided_by decision then
        invalid kind
            "target-bound promotion decision authority and decided_by must name the same actor"
      else
      validate_opaque_reference kind "promotion_approval_request_ref" request_ref
  | (Some target_ref, None) =>
      if negb (is_canonical_target_ref target_ref) then
        invalid kind "promotion decision target_ref must be a canonical refs/heads branch ref"
      else
      Ok tt
  | (None, None) => Ok tt
  | (None, Some _) =>
      invalid kind "promotion decision with an approval request reference must bind a target_ref"
  end in
  Ok tt.

Definition validate_promotion_execution_claimed_v1_shape (kind : string)
    (claim : PromotionExecutionClaimedV1)
    : Result unit ValidationError :=
  let* _ := validate_non_empty_fields kind [
    ("run_id", pec_run_id claim);
    ("candidate_ref", pec_candidate_ref claim);
    ("idempotency_key", pec_idempotency_key claim);
    ("authority_actor", pec_authority_actor claim);
    ("lease_id", pec_lease_id claim);
    ("target_ref", pec_target_ref claim) ] in
  if negb (is_canonical_buildplane_candidate_ref (pec_candidate_ref claim)) then
    invalid kind
        "promotion execution claim candidate_ref must be a canonical Buildplane candidate ref"
  else
  if (negb (is_canonical_git_object_id (pec_candidate_commit_sha claim)))
  || (negb (is_canonical_git_object_id (pec_base_commit_sha claim))) then
    invalid kind
        "promotion execution claim base and candidate commits must be full canonical Git object IDs"
  else
  if negb (is_canonical_target_ref (pec_target_ref claim)) then
    invalid kind "promotion execution claim target_ref must be a canonical refs/heads branch ref"
  else
  if negb (is_canonical_authority_actor (pec_authority_actor claim)) then
    invalid kind "promotion execution claim authority_actor must be a canonical authority actor"
  else
  let* _ := validate_opaque_reference kind "lease_id" (pec_lease_id claim) in
  let* _ := validate_sha256_fields kind [
    ("promotion_decision_event_digest", pec_promotion_decision_event_digest claim);
    ("dispatch_envelope_digest", pec_dispatch_envelope_digest claim);
    ("candidate_digest", pec_candidate_digest claim);
    ("candidate_tree_digest", pec_candidate_tree_digest claim);
    ("promotion_execution_claim_digest", pec_promotion_execution_claim_digest claim) ] in
  let* _ := validate_rfc3339_utc kind "claimed_at" (pec_claimed_at claim) in
  let* _ := validate_rfc3339_utc kind "lease_expires_at" (pec_lease_expires_at claim) in
  some_or claimed_at := parse_from_rfc3339 (pec_claimed_at claim) with (Crashed Crash_Panic) ;;
  some_or lease_expires_at := parse_from_rfc3339 (pec_lease_expires_at claim) with (Crashed Crash_Panic) ;;
  if lease_expires_at <=? claimed_at then
    invalid kind "promotion execution claim lease_expires_at must be later than claimed_at"
  else
  Ok tt.

Definition validate_promotion_execution_lease_binding_v1_shape (kind : string)
    (binding : PromotionExecutionLeaseBindingV1)
    : Result unit ValidationError :=
  let* _ := validate_non_empty_fields kind ([("lease_id", pelb_lease_id binding)]) in
  let* _ := validate_opaque_reference kind "lease_id" (pelb_lease_id binding) in
  validate_sha256_fields kind ([("promotion_execution_claim_event_digest",
      pelb_promotion_execution_claim_event_digest binding)]).

Definition validate_promotion_git_binding_v1_shape (kind : string)
    (binding : PromotionGitBindingV1) (result_merged_head_sha : string)
    (allowed_sync_states : list PromotionWorktreeSyncStateV1)
    (require_complete_target_bound_binding : bool) : Result unit ValidationError :=
  let* _ := validate_non_empty_fields kind [
    ("promotion_git_binding.target_ref", pgb_target_ref binding);
    ("promotion_git_binding.target_head_before_sha", pgb_target_head_before_sha binding);
    ("promotion_git_binding.candidate_commit_sha", pgb_candidate_commit_sha binding);
    ("promotion_git_binding.merged_tree_digest", pgb_merged_tree_digest binding) ] in
  if negb (is_canonical_target_ref (pgb_target_ref binding)) then
    invalid kind "promotion_git_binding.target_ref must be a canonical refs/heads branch ref"
  else
  if negb (is_canonical_git_object_id (pgb_target_head_before_sha binding))
     || negb (is_canonical_git_object_id (pgb_candidate_commit_sha binding)) then
    invalid kind
      "promotion_git_binding base and candidate commits must be full canonical Git object IDs"
  else
  let* _ := validate_sha256_fields kind [
    ("promotion_git_binding.merged_tree_digest", pgb_merged_tree_digest binding) ] in
  match pgb_target_head_after_sha binding, pgb_merged_head_sha binding,
        pgb_merge_parent_shas binding, pgb_merged_tree_sha binding,
        pgb_promotion_receipt_ref binding, pgb_worktree_sync_state binding with
  | None, None, None, None, None, None =>
      if require_complete_target_bound_binding then
        invalid kind
          "reconciliation-required promotion results require complete target-bound Git evidence"
      else Ok tt
  | Some target_head_after_sha, Some binding_merged_head_sha, Some merge_parent_shas,
    Some merged_tree_sha, Some promotion_receipt_ref, worktree_sync_state =>
      if negb (is_canonical_git_object_id target_head_after_sha)
         || negb (is_canonical_git_object_id binding_merged_head_sha)
         || negb (is_canonical_git_object_id merged_tree_sha) then
        invalid kind "promotion_git_binding strict Git object IDs must be canonical"
      else
      if binding_merged_head_sha != result_merged_head_sha then
        invalid kind
          "promotion_git_binding merged_head_sha must equal the enclosing promotion result"
      else
      if match merge_parent_shas with
         | [base; candidate] =>
             (base != pgb_target_head_before_sha binding)
             || (candidate != pgb_candidate_commit_sha binding)
             || negb (forallb is_canonical_git_object_id merge_parent_shas)
         | _ => true
         end then
        invalid kind
          "promotion_git_binding merge_parent_shas must be canonical [base, candidate] evidence"
      else
      if negb (is_canonical_buildplane_promotion_receipt_ref promotion_receipt_ref) then
        invalid kind
          "promotion_git_binding promotion_receipt_ref must be a canonical Buildplane promotion ref"
      else
      let allowed s := existsb (fun x => x == s) allowed_sync_states in
      let incompatible := invalid kind
        "promotion_git_binding worktree_sync_state is incompatible with the promotion result outcome" in
      match worktree_sync_state with
      | None =>
          if negb require_complete_target_bound_binding && list_is_empty allowed_sync_states
             && (target_head_after_sha == binding_merged_head_sha)
          then Ok tt else incompatible
      | Some worktree_sync_state =>
          if match worktree_sync_state with
             | PromotionWorktreeSyncStateV1_PendingReconciliation
             | PromotionWorktreeSyncStateV1_RootCheckoutStale =>
                 allowed worktree_sync_state && (target_head_after_sha != binding_merged_head_sha)
             | _ => false
             end then
            invalid kind
              "promotion_git_binding target_head_after_sha must equal merged_head_sha for an unchanged target"
          else
          if match worktree_sync_state with
             | PromotionWorktreeSyncStateV1_TargetAdvanced =>
                 allowed PromotionWorktreeSyncStateV1_TargetAdvanced
                 && (target_head_after_sha == binding_merged_head_sha)
             | _ => false
             end then
            invalid kind
              "promotion_git_binding target_advanced must observe a target head distinct from merged_head_sha"
          else
          if allowed worktree_sync_state then Ok tt else incompatible
      end
  | _, _, _, _, _, _ =>
      invalid kind
        "target-bound promotion_git_binding must include its complete strict evidence set"
  end.

Definition validate_promotion_result_merge_evidence (kind : string)
    (result : PromotionResultRecordedV1)
    (allowed_sync_states : list PromotionWorktreeSyncStateV1)
    (require_complete_target_bound_binding : bool)
    : Result unit ValidationError :=
  let_some merged_head_sha := prr_merged_head_sha result else (invalid kind
      "promotion result with a merge outcome requires merged_head_sha") ;;
  if negb (is_canonical_git_object_id merged_head_sha) then
    invalid kind "promotion result merged_head_sha must be a full canonical Git object ID"
  else
  let_some binding := prr_promotion_git_binding result else (if
      require_complete_target_bound_binding then
    invalid kind
        "reconciliation-required promotion results require a complete target-bound Git binding"
  else
  Ok tt) ;;
  let* _ := validate_promotion_git_binding_v1_shape kind binding merged_head_sha
      allowed_sync_states require_complete_target_bound_binding in
  Ok tt.

Definition validate_promotion_result_recorded_v1_shape (kind : string)
    (result : PromotionResultRecordedV1)
    : Result unit ValidationError :=
  let* _ := validate_non_empty_fields kind [
    ("candidate_digest", prr_candidate_digest result);
    ("idempotency_key", prr_idempotency_key result);
    ("promotion_decision_ref", prr_promotion_decision_ref result) ] in
  let* _ := validate_sha256_fields kind ([("candidate_digest", prr_candidate_digest result)]) in
  let* _ := validate_opaque_reference kind "promotion_decision_ref" (prr_promotion_decision_ref
      result) in
  let* _ := validate_rfc3339_utc kind "completed_at" (prr_completed_at result) in
  let* _ := match prr_promotion_execution_lease_binding result with
  | Some binding =>
      validate_promotion_execution_lease_binding_v1_shape kind binding
  | _ => Ok tt
  end in
  let* _ := match prr_outcome result with
  | PromotionResultOutcomeV1_Promoted =>
      validate_promotion_result_merge_evidence kind result [] false
  | PromotionResultOutcomeV1_ReconciliationRequired =>
      validate_promotion_result_merge_evidence kind result
          ([PromotionWorktreeSyncStateV1_RootCheckoutStale;
              PromotionWorktreeSyncStateV1_TargetAdvanced]) true
  | PromotionResultOutcomeV1_Rejected =>
      if (is_some (prr_merged_head_sha result))
      || (is_some (prr_promotion_git_binding result)) then
        invalid kind "rejected promotion results must omit merge and Git-binding evidence"
      else
      Ok tt
  end in
  Ok tt.

Definition validate_promotion_reconciliation_resolved_v1_shape (kind : string)
    (resolution : PromotionReconciliationResolvedV1)
    : Result unit ValidationError :=
  let* _ := validate_non_empty_fields kind [
    ("candidate_digest", prec_candidate_digest resolution);
    ("promotion_decision_ref", prec_promotion_decision_ref resolution);
    ("promotion_result_ref", prec_promotion_result_ref resolution);
    ("promotion_receipt_ref", prec_promotion_receipt_ref resolution);
    ("authority", prec_authority resolution);
    ("resolved_by", prec_resolved_by resolution);
    ("idempotency_key", prec_idempotency_key resolution) ] in
  let* _ := validate_sha256_fields kind ([("candidate_digest", prec_candidate_digest resolution)])
      in
  let* _ := validate_opaque_reference kind "promotion_decision_ref" (prec_promotion_decision_ref
      resolution) in
  let* _ := validate_opaque_reference kind "promotion_result_ref" (prec_promotion_result_ref
      resolution) in
  if negb (is_canonical_buildplane_promotion_receipt_ref (prec_promotion_receipt_ref resolution))
      then
    invalid kind "promotion_receipt_ref must be a canonical Buildplane promotion ref"
  else
  if (negb (is_canonical_authority_actor (prec_authority resolution)))
  || (negb (is_canonical_authority_actor (prec_resolved_by resolution)))
  || (prec_authority resolution != prec_resolved_by resolution) then
    invalid kind
        "promotion reconciliation authority and resolved_by must name the same canonical actor"
  else
  validate_rfc3339_utc kind "resolved_at" (prec_resolved_at resolution).

Definition validate_workflow_timer_scheduled_v1_shape (kind : string)
    (timer : WorkflowTimerScheduledV1)
    : Result unit ValidationError :=
  let* _ := validate_non_empty_fields kind [
    ("run_id", wts_run_id timer);
    ("workflow_id", wts_workflow_id timer);
    ("workflow_revision", wts_workflow_revision timer);
    ("unit_id", wts_unit_id timer);
    ("timer_id", wts_timer_id timer);
    ("idempotency_key", wts_idempotency_key timer);
    ("scheduled_by", wts_scheduled_by timer) ] in
  if wts_attempt timer == 0 then
    invalid kind "timer attempt must be greater than zero"
  else
  if negb (is_canonical_authority_actor (wts_scheduled_by timer)) then
    invalid kind "scheduled_by must be a canonical authority actor"
  else
  let* _ := validate_sha256_fields kind ([("dispatch_envelope_digest",
      wts_dispatch_envelope_digest timer)]) in
  let* _ := validate_rfc3339_utc kind "scheduled_at" (wts_scheduled_at timer) in
  let* _ := validate_rfc3339_utc kind "due_at" (wts_due_at timer) in
  some_or scheduled_at := parse_from_rfc3339 (wts_scheduled_at timer) with (Crashed Crash_Panic) ;;
  some_or due_at := parse_from_rfc3339 (wts_due_at timer) with (Crashed Crash_Panic) ;;
  if due_at <=? scheduled_at then
    invalid kind "timer due_at must be later than scheduled_at"
  else
  Ok tt.

Definition validate_workflow_timer_fired_v1_shape (kind : string)
    (timer : WorkflowTimerFiredV1)
    : Result unit ValidationError :=
  let* _ := validate_non_empty_fields kind [
    ("run_id", wtf_run_id timer);
    ("workflow_id", wtf_workflow_id timer);
    ("workflow_revision", wtf_workflow_revision timer);
    ("unit_id", wtf_unit_id timer);
    ("timer_id", wtf_timer_id timer);
    ("idempotency_key", wtf_idempotency_key timer);
    ("fired_by", wtf_fired_by timer) ] in
  if wtf_attempt timer == 0 then
    invalid kind "timer attempt must be greater than zero"
  else
  if negb (is_canonical_authority_actor (wtf_fired_by timer)) then
    invalid kind "fired_by must be a canonical authority actor"
  else
  let* _ := validate_sha256_fields kind [
    ("timer_schedule_event_digest", wtf_timer_schedule_event_digest timer);
    ("dispatch_envelope_digest", wtf_dispatch_envelope_digest timer) ] in
  validate_rfc3339_utc kind "fired_at" (wtf_fired_at timer).

Definition validate_workflow_cancellation_requested_v1_shape (kind : string)
    (cancellation : WorkflowCancellationRequestedV1)
    : Result unit ValidationError :=
  let* _ := validate_non_empty_fields kind [
    ("run_id", wcr_run_id cancellation);
    ("workflow_id", wcr_workflow_id cancellation);
    ("workflow_revision", wcr_workflow_revision cancellation);
    ("unit_id", wcr_unit_id cancellation);
    ("cancellation_id", wcr_cancellation_id cancellation);
    ("requested_by", wcr_requested_by cancellation);
    ("idempotency_key", wcr_idempotency_key cancellation) ] in
  if wcr_attempt cancellation == 0 then
    invalid kind "cancellation attempt must be greater than zero"
  else
  if negb (is_canonical_authority_actor (wcr_requested_by cancellation)) then
    invalid kind "requested_by must be a canonical authority actor"
  else
  let* _ := validate_sha256_fields kind ([("dispatch_envelope_digest",
      wcr_dispatch_envelope_digest cancellation)]) in
  let* _ := validate_rfc3339_utc kind "requested_at" (wcr_requested_at cancellation) in
  match (wcr_cause cancellation, wcr_timer_fired_event_ref cancellation,
      wcr_timer_fired_event_digest cancellation) with
  | (WorkflowCancellationCauseV1_OperatorRequested, None, None) => Ok tt
  | (WorkflowCancellationCauseV1_TimerElapsed, Some _, Some digest) =>
      validate_sha256_fields kind ([("timer_fired_event_digest", digest)])
  | (WorkflowCancellationCauseV1_OperatorRequested, _, _) |
      (WorkflowCancellationCauseV1_TimerElapsed, _, _) => invalid kind
          "operator cancellations must omit timer evidence and timer cancellations must bind both timer evidence fields"
  end.

Definition validate_workflow_terminal_v2_shape (kind : string)
    (terminal : WorkflowTerminalV2)
    : Result unit ValidationError :=
  let* _ := validate_non_empty_fields kind [
    ("workflow_id", wt2_workflow_id terminal);
    ("workflow_revision", wt2_workflow_revision terminal);
    ("unit_id", wt2_unit_id terminal);
    ("idempotency_key", wt2_idempotency_key terminal) ] in
  if wt2_attempt terminal == 0 then
    invalid kind "workflow terminal attempt must be greater than zero"
  else
  let* _ := validate_rfc3339_utc kind "completed_at" (wt2_completed_at terminal) in
  let* _ := match wt2_candidate_digest terminal with
  | Some candidate_digest =>
      validate_sha256_fields kind ([("candidate_digest", candidate_digest)])
  | _ => Ok tt
  end in
  let* _ := match wt2_promotion_result_ref terminal with
  | Some reference =>
      validate_non_empty_fields kind ([("promotion_result_ref", reference)])
  | _ => Ok tt
  end in
  let* _ := match wt2_reconciliation_resolution_ref terminal with
  | Some reference =>
      validate_non_empty_fields kind ([("reconciliation_resolution_ref", reference)])
  | _ => Ok tt
  end in
  let* _ := match wt2_reason terminal with
  | Some reason =>
      validate_non_empty_fields kind ([("reason", reason)])
  | _ => Ok tt
  end in
  match (wt2_outcome terminal, wt2_cancellation_request_event_ref terminal,
      wt2_cancellation_request_event_digest terminal) with
  | (WorkflowTerminalOutcomeV1_Cancelled, Some _, Some digest) =>
      validate_sha256_fields kind ([("cancellation_request_event_digest", digest)])
  | (WorkflowTerminalOutcomeV1_Cancelled, _, _) =>
      invalid kind
          "cancelled workflow_terminal_v2 requires both cancellation request evidence fields"
  | (_, None, None) => Ok tt
  | (_, _, _) =>
      invalid kind "non-cancelled workflow_terminal_v2 must omit cancellation request evidence"
  end.

(** ** Release-evaluation evidence ([payload/release_evaluation.rs]) *)

Definition RELEASE_EVALUATION_EVIDENCE_V1_SCHEMA_VERSION : u32 := 1.
Definition RELEASE_EVALUATION_EVIDENCE_V1_DIGEST_DOMAIN : string :=
  nul_terminated "buildplane.release-evaluation-evidence.v1".
Definition PAYLOAD_KIND : string := "release_evaluation_evidence_v1".

Definition invalid_release (reason : string) : Result unit ValidationError :=
  Err (Refused (LedgerError_InvalidPayload PAYLOAD_KIND reason)).

Definition ReleaseEvaluationClaimKindV1_to_json (x : ReleaseEvaluationClaimKindV1) : Json :=
  JString match x with
  | ReleaseEvaluationClaimKindV1_Trial => "trial"
  | ReleaseEvaluationClaimKindV1_TargetBranchImmutability => "target_branch_immutability"
  | ReleaseEvaluationClaimKindV1_BackwardReplayCompatibility => "backward_replay_compatibility"
  | ReleaseEvaluationClaimKindV1_RequiredCheck => "required_check"
  end.

Definition ReleaseEvaluationGovernanceV1_to_json (x : ReleaseEvaluationGovernanceV1) : Json :=
  JString match x with
  | ReleaseEvaluationGovernanceV1_Governed => "governed"
  | ReleaseEvaluationGovernanceV1_Raw => "raw"
  end.

Definition ReleaseEvaluationSourceEventRefV1_to_json (x : ReleaseEvaluationSourceEventRefV1) : Json :=
  JObject [("source_event_id", JString (uuid_to_string (reser_source_event_id x)));
    ("source_canonical_event_hash", JString (reser_source_canonical_event_hash x))].

Definition ReleaseEvaluationTrialSourcesV1_to_json (x : ReleaseEvaluationTrialSourcesV1) : Json :=
  JObject [("model_request", ReleaseEvaluationSourceEventRefV1_to_json (rets_model_request x));
    ("candidate", ReleaseEvaluationSourceEventRefV1_to_json (rets_candidate x));
    ("acceptance", ReleaseEvaluationSourceEventRefV1_to_json (rets_acceptance x));
    ("review", ReleaseEvaluationSourceEventRefV1_to_json (rets_review x));
    ("recovery", ReleaseEvaluationSourceEventRefV1_to_json (rets_recovery x));
    ("terminal", ReleaseEvaluationSourceEventRefV1_to_json (rets_terminal x))].

Definition ReleaseEvaluationTrialClaimV1_to_json (x : ReleaseEvaluationTrialClaimV1) : Json :=
  JObject [("task_id", JString (retc_task_id x));
    ("provider", JString (retc_provider x));
    ("trust_tier", JString (retc_trust_tier x));
    ("trial", JInt (retc_trial x));
    ("governance", ReleaseEvaluationGovernanceV1_to_json (retc_governance x));
    ("passed", JBool (retc_passed x));
    ("cost_usd_micros", JInt (retc_cost_usd_micros x));
    ("latency_ms", JInt (retc_latency_ms x));
    ("tokens", JInt (retc_tokens x));
    ("tool_calls", JInt (retc_tool_calls x));
    ("candidate_count", JInt (retc_candidate_count x));
    ("reviewer_disagreed", JBool (retc_reviewer_disagreed x));
    ("false_approval", JBool (retc_false_approval x));
    ("unauthorized_effects", JInt (retc_unauthorized_effects x));
    ("duplicate_effects", JInt (retc_duplicate_effects x));
    ("safety_violations", JInt (retc_safety_violations x));
    ("recovery_correct", JBool (retc_recovery_correct x));
    ("illegitimate_success", JBool (retc_illegitimate_success x));
    ("sources", ReleaseEvaluationTrialSourcesV1_to_json (retc_sources x))].

Definition ReleaseEvaluationTargetBranchImmutabilityClaimV1_to_json (x : ReleaseEvaluationTargetBranchImmutabilityClaimV1) : Json :=
  JObject [("immutable", JBool (retbic_immutable x));
    ("source", ReleaseEvaluationSourceEventRefV1_to_json (retbic_source x))].

Definition ReleaseEvaluationBackwardReplayCompatibilityClaimV1_to_json (x : ReleaseEvaluationBackwardReplayCompatibilityClaimV1) : Json :=
  JObject [("compatible", JBool (rebrcc_compatible x));
    ("source", ReleaseEvaluationSourceEventRefV1_to_json (rebrcc_source x))].

Definition ReleaseEvaluationCheckConclusionV1_to_json (x : ReleaseEvaluationCheckConclusionV1) : Json :=
  JString match x with
  | ReleaseEvaluationCheckConclusionV1_Success => "success"
  | ReleaseEvaluationCheckConclusionV1_Failure => "failure"
  | ReleaseEvaluationCheckConclusionV1_Cancelled => "cancelled"
  | ReleaseEvaluationCheckConclusionV1_Skipped => "skipped"
  | ReleaseEvaluationCheckConclusionV1_TimedOut => "timed_out"
  | ReleaseEvaluationCheckConclusionV1_Neutral => "neutral"
  | ReleaseEvaluationCheckConclusionV1_ActionRequired => "action_required"
  end.

Definition ReleaseEvaluationRequiredCheckClaimV1_to_json (x : ReleaseEvaluationRequiredCheckClaimV1) : Json :=
  JObject [("name", JString (rercc_name x));
    ("conclusion", ReleaseEvaluationCheckConclusionV1_to_json (rercc_conclusion x));
    ("source", ReleaseEvaluationSourceEventRefV1_to_json (rercc_source x))].

Definition ReleaseEvaluationClaimV1_to_json (x : ReleaseEvaluationClaimV1) : Json :=
  match x with
  | ReleaseEvaluationClaimV1_Trial claim => ReleaseEvaluationTrialClaimV1_to_json claim
  | ReleaseEvaluationClaimV1_TargetBranchImmutability claim => ReleaseEvaluationTargetBranchImmutabilityClaimV1_to_json claim
  | ReleaseEvaluationClaimV1_BackwardReplayCompatibility claim => ReleaseEvaluationBackwardReplayCompatibilityClaimV1_to_json claim
  | ReleaseEvaluationClaimV1_RequiredCheck claim => ReleaseEvaluationRequiredCheckClaimV1_to_json claim
  end.

Definition release_evaluation_evidence_v1_claim_digest (evidence : ReleaseEvaluationEvidenceV1)
    : Result string string :=
  domain_separated_digest RELEASE_EVALUATION_EVIDENCE_V1_DIGEST_DOMAIN (Ok (JObject
   [("schema_version", JInt (ree_schema_version evidence));
    ("release_commit", JString (ree_release_commit evidence));
    ("release_ref", JString (ree_release_ref evidence));
    ("policy_digest", JString (ree_policy_digest evidence));
    ("claim_kind", ReleaseEvaluationClaimKindV1_to_json (ree_claim_kind evidence));
    ("claim", ReleaseEvaluationClaimV1_to_json (ree_claim evidence))])).

Definition is_canonical_release_ref (value : string) : bool :=
  match RustStr.strip_prefix "refs/heads/" value with
  | None => false
  | Some branch =>
      if (branch == "") || ends_with "/" branch || ends_with "." branch
         || ends_with ".lock" branch || str_contains ".." branch
         || str_contains "//" branch || str_contains "@{" branch
      then false
      else forallb target_component_ok (str_split "/"%char branch)
  end.

Definition validate_sha256 (field value : string) : Result unit ValidationError :=
  if negb (is_canonical_sha256_digest value) then
    invalid_release (field +:+ " must be a canonical sha256 digest")
  else
  Ok tt.

Definition validate_source (label : string)
    (source : ReleaseEvaluationSourceEventRefV1)
    : Result unit ValidationError :=
  validate_sha256 (label +:+ ".source_canonical_event_hash") (reser_source_canonical_event_hash
      source).

Definition validate_identifier (field value : string) : Result unit ValidationError :=
  if (value == "") || (trim value != value) || any_control value then
    invalid_release (field +:+ " must be a non-empty, trimmed identifier")
  else
  Ok tt.

Definition validate_release_dimension (field value : string) : Result unit ValidationError :=
  let* _ := validate_identifier field value in
  if str_contains "/" value then
    invalid_release (field +:+ " must not contain '/'")
  else
  Ok tt.

Fixpoint check_distinct_sources (source_ids : gset Z)
    (sources : list (string * ReleaseEvaluationSourceEventRefV1)) : Result unit ValidationError :=
  match sources with
  | [] => Ok tt
  | (field, source) :: rest =>
      let* _ := validate_source field source in
      if bool_decide (reser_source_event_id source ∈ source_ids) then
        invalid_release "claim.sources must name six distinct source events"
      else
      check_distinct_sources ({[reser_source_event_id source]} ∪ source_ids) rest
  end.

Definition validate_trial (claim : ReleaseEvaluationTrialClaimV1) : Result unit ValidationError :=
  let* _ := validate_identifier "claim.task_id" (retc_task_id claim) in
  let* _ := validate_release_dimension "claim.provider" (retc_provider claim) in
  let* _ := validate_release_dimension "claim.trust_tier" (retc_trust_tier claim) in
  if negb ((1 <=? retc_trial claim) && (retc_trial claim <=? 3)) then
    invalid_release "claim.trial must be 1, 2, or 3"
  else
  let* _ := for_each (fun '(field, value) =>
    if TYPESCRIPT_SAFE_INTEGER_MAX <? value then
      invalid_release (field +:+ " exceeds JavaScript Number.MAX_SAFE_INTEGER (" +:+
                       pretty TYPESCRIPT_SAFE_INTEGER_MAX +:+ ")")
    else Ok tt)
    [("claim.cost_usd_micros", retc_cost_usd_micros claim);
     ("claim.latency_ms", retc_latency_ms claim);
     ("claim.tokens", retc_tokens claim)] in
  check_distinct_sources ∅
    [("claim.sources.model_request", rets_model_request (retc_sources claim));
     ("claim.sources.candidate", rets_candidate (retc_sources claim));
     ("claim.sources.acceptance", rets_acceptance (retc_sources claim));
     ("claim.sources.review", rets_review (retc_sources claim));
     ("claim.sources.recovery", rets_recovery (retc_sources claim));
     ("claim.sources.terminal", rets_terminal (retc_sources claim))].

Definition validate_claim_shape (evidence : ReleaseEvaluationEvidenceV1)
    : Result unit ValidationError :=
  match (ree_claim_kind evidence, ree_claim evidence) with
  | (ReleaseEvaluationClaimKindV1_Trial, ReleaseEvaluationClaimV1_Trial claim) =>
      validate_trial claim
  | (ReleaseEvaluationClaimKindV1_TargetBranchImmutability,
      ReleaseEvaluationClaimV1_TargetBranchImmutability claim) => validate_source "claim.source"
          (retbic_source claim)
  | (ReleaseEvaluationClaimKindV1_BackwardReplayCompatibility,
      ReleaseEvaluationClaimV1_BackwardReplayCompatibility claim) => validate_source
          "claim.source" (rebrcc_source claim)
  | (ReleaseEvaluationClaimKindV1_RequiredCheck, ReleaseEvaluationClaimV1_RequiredCheck claim) =>
      let* _ := validate_identifier "claim.name" (rercc_name claim) in
      validate_source "claim.source" (rercc_source claim)
  | _ => invalid_release "claim_kind does not match the typed claim body"
  end.

Definition validate_release_evaluation_evidence_v1 (evidence : ReleaseEvaluationEvidenceV1)
    : Result unit ValidationError :=
  if ree_schema_version evidence != RELEASE_EVALUATION_EVIDENCE_V1_SCHEMA_VERSION then
    invalid_release ("schema_version must equal " +:+ pretty
        RELEASE_EVALUATION_EVIDENCE_V1_SCHEMA_VERSION)
  else
  if negb (is_canonical_git_object_id (ree_release_commit evidence)) then
    invalid_release "release_commit must be a full lowercase Git object id"
  else
  if negb (is_canonical_release_ref (ree_release_ref evidence)) then
    invalid_release "release_ref must be a canonical refs/heads/<name> reference"
  else
  let* _ := validate_sha256 "policy_digest" (ree_policy_digest evidence) in
  let* _ := validate_claim_shape evidence in
  let* _ := validate_sha256 "claim_digest" (ree_claim_digest evidence) in
  let* expected := map_err (fun error => Refused (LedgerError_InvalidJson error))
      (release_evaluation_evidence_v1_claim_digest evidence) in
  if ree_claim_digest evidence != expected then
    invalid_release "claim_digest does not match the complete typed release-evaluation claim"
  else
  Ok tt.

(** ** Events *)

Definition payload_variant_name (payload : Payload) : string :=
  match payload with
  | Payload_RunStartedV1 _ => "RunStartedV1"
  | Payload_RunCompletedV1 _ => "RunCompletedV1"
  | Payload_RunFailedV1 _ => "RunFailedV1"
  | Payload_ResultReadyV1 _ => "ResultReadyV1"
  | Payload_RunAdmissionRecordedV1 _ => "RunAdmissionRecordedV1"
  | Payload_PlanAdmittedV1 _ => "PlanAdmittedV1"
  | Payload_PlanReceiptRecordedV1 _ => "PlanReceiptRecordedV1"
  | Payload_ActivityStartedV1 _ => "ActivityStartedV1"
  | Payload_ActivityCompletedV1 _ => "ActivityCompletedV1"
  | Payload_UnitStartedV1 _ => "UnitStartedV1"
  | Payload_UnitCompletedV1 _ => "UnitCompletedV1"
  | Payload_UnitFailedV1 _ => "UnitFailedV1"
  | Payload_UnitCancelledV1 _ => "UnitCancelledV1"
  | Payload_GitCheckpointV1 _ => "GitCheckpointV1"
  | Payload_ModelRequestV1 _ => "ModelRequestV1"
  | Payload_ModelResponseV1 _ => "ModelResponseV1"
  | Payload_ToolRequestStoredV1 _ => "ToolRequestStoredV1"
  | Payload_ToolResultV1 _ => "ToolResultV1"
  | Payload_WorkspaceReadV1 _ => "WorkspaceReadV1"
  | Payload_WorkspaceWriteV1 _ => "WorkspaceWriteV1"
  | Payload_TapeCheckpointV1 _ => "TapeCheckpointV1"
  | Payload_CapabilityDeniedV1 _ => "CapabilityDeniedV1"
  | Payload_AcceptanceRecordedV1 _ => "AcceptanceRecordedV1"
  | Payload_OperatorDecisionRecordedV1 _ => "OperatorDecisionRecordedV1"
  | Payload_DispatchEnvelopeV1 _ => "DispatchEnvelopeV1"
  | Payload_DispatchEnvelopeV2 _ => "DispatchEnvelopeV2"
  | Payload_DispatchEnvelopeV3 _ => "DispatchEnvelopeV3"
  | Payload_DispatchEnvelopeV4 _ => "DispatchEnvelopeV4"
  | Payload_DispatchEnvelopeV5 _ => "DispatchEnvelopeV5"
  | Payload_GovernedDispatchV5AdmissionRecordedV1 _ => "GovernedDispatchV5AdmissionRecordedV1"
  | Payload_ContextManifestDeclaredV1 _ => "ContextManifestDeclaredV1"
  | Payload_WorkerManifestDeclaredV1 _ => "WorkerManifestDeclaredV1"
  | Payload_SandboxProfileDeclaredV1 _ => "SandboxProfileDeclaredV1"
  | Payload_AttemptContextDeclaredV1 _ => "AttemptContextDeclaredV1"
  | Payload_WorkflowGraphDeclaredV1 _ => "WorkflowGraphDeclaredV1"
  | Payload_WorkflowGraphDeclaredV2 _ => "WorkflowGraphDeclaredV2"
  | Payload_ActionRequestedV2 _ => "ActionRequestedV2"
  | Payload_ModelActionIntentV1 _ => "ModelActionIntentV1"
  | Payload_ModelActionAuthorizedV1 _ => "ModelActionAuthorizedV1"
  | Payload_ModelActionAuthorizedV2 _ => "ModelActionAuthorizedV2"
  | Payload_ActivityClaimedV1 _ => "ActivityClaimedV1"
  | Payload_ActivityHeartbeatRecordedV1 _ => "ActivityHeartbeatRecordedV1"
  | Payload_ActivityResultRecordedV1 _ => "ActivityResultRecordedV1"
  | Payload_ActionReceiptRecordedV2 _ => "ActionReceiptRecordedV2"
  | Payload_ActionReceiptSetRecordedV1 _ => "ActionReceiptSetRecordedV1"
  | Payload_AttemptContextRecordedV1 _ => "AttemptContextRecordedV1"
  | Payload_CandidateCreatedV1 _ => "CandidateCreatedV1"
  | Payload_CandidateCreatedV2 _ => "CandidateCreatedV2"
  | Payload_CandidateCompletionRecordedV1 _ => "CandidateCompletionRecordedV1"
  | Payload_CandidateAcceptanceRecordedV1 _ => "CandidateAcceptanceRecordedV1"
  | Payload_ReviewVerdictRecordedV1 _ => "ReviewVerdictRecordedV1"
  | Payload_ReviewVerdictRecordedV2 _ => "ReviewVerdictRecordedV2"
  | Payload_PromotionApprovalRequestedV1 _ => "PromotionApprovalRequestedV1"
  | Payload_PromotionDecisionRecordedV1 _ => "PromotionDecisionRecordedV1"
  | Payload_PromotionExecutionClaimedV1 _ => "PromotionExecutionClaimedV1"
  | Payload_PromotionResultRecordedV1 _ => "PromotionResultRecordedV1"
  | Payload_PromotionReconciliationResolvedV1 _ => "PromotionReconciliationResolvedV1"
  | Payload_ReleaseEvaluationEvidenceV1 _ => "ReleaseEvaluationEvidenceV1"
  | Payload_WorkflowTimerScheduledV1 _ => "WorkflowTimerScheduledV1"
  | Payload_WorkflowTimerFiredV1 _ => "WorkflowTimerFiredV1"
  | Payload_WorkflowCancellationRequestedV1 _ => "WorkflowCancellationRequestedV1"
  | Payload_WorkflowTerminalV1 _ => "WorkflowTerminalV1"
  | Payload_WorkflowTerminalV2 _ => "WorkflowTerminalV2"
  end.

Definition kind_variants : list (string * string) := [
  ("run_started", "RunStartedV1");
  ("run_completed", "RunCompletedV1");
  ("run_failed", "RunFailedV1");
  ("result_ready", "ResultReadyV1");
  ("run_admission_recorded", "RunAdmissionRecordedV1");
  ("plan_admitted", "PlanAdmittedV1");
  ("plan_receipt", "PlanReceiptRecordedV1");
  ("activity_started", "ActivityStartedV1");
  ("activity_completed", "ActivityCompletedV1");
  ("unit_started", "UnitStartedV1");
  ("unit_completed", "UnitCompletedV1");
  ("unit_failed", "UnitFailedV1");
  ("unit_cancelled", "UnitCancelledV1");
  ("git_checkpoint", "GitCheckpointV1");
  ("model_request", "ModelRequestV1");
  ("model_response", "ModelResponseV1");
  ("tool_request", "ToolRequestStoredV1");
  ("tool_result", "ToolResultV1");
  ("workspace_read", "WorkspaceReadV1");
  ("workspace_write", "WorkspaceWriteV1");
  ("tape_checkpoint", "TapeCheckpointV1");
  ("capability_denied", "CapabilityDeniedV1");
  ("acceptance_recorded", "AcceptanceRecordedV1");
  ("operator_decision_recorded", "OperatorDecisionRecordedV1");
  ("dispatch_envelope", "DispatchEnvelopeV1");
  ("dispatch_envelope_v2", "DispatchEnvelopeV2");
  ("dispatch_envelope_v3", "DispatchEnvelopeV3");
  ("dispatch_envelope_v4", "DispatchEnvelopeV4");
  ("dispatch_envelope_v5", "DispatchEnvelopeV5");
  ("governed_dispatch_v5_admission_recorded_v1", "GovernedDispatchV5AdmissionRecordedV1");
  ("context_manifest_declared_v1", "ContextManifestDeclaredV1");
  ("worker_manifest_declared_v1", "WorkerManifestDeclaredV1");
  ("sandbox_profile_declared_v1", "SandboxProfileDeclaredV1");
  ("attempt_context_declared_v1", "AttemptContextDeclaredV1");
  ("workflow_graph_declared_v1", "WorkflowGraphDeclaredV1");
  ("workflow_graph_declared_v2", "WorkflowGraphDeclaredV2");
  ("action_requested_v2", "ActionRequestedV2");
  ("model_action_intent_v1", "ModelActionIntentV1");
  ("model_action_authorized_v1", "ModelActionAuthorizedV1");
  ("model_action_authorized_v2", "ModelActionAuthorizedV2");
  ("activity_claimed_v1", "ActivityClaimedV1");
  ("activity_heartbeat_recorded_v1", "ActivityHeartbeatRecordedV1");
  ("activity_result_recorded_v1", "ActivityResultRecordedV1");
  ("action_receipt_recorded_v2", "ActionReceiptRecordedV2");
  ("action_receipt_set_recorded_v1", "ActionReceiptSetRecordedV1");
  ("attempt_context_recorded_v1", "AttemptContextRecordedV1");
  ("candidate_created", "CandidateCreatedV1");
  ("candidate_created_v2", "CandidateCreatedV2");
  ("candidate_completion_recorded_v1", "CandidateCompletionRecordedV1");
  ("candidate_acceptance_recorded", "CandidateAcceptanceRecordedV1");
  ("review_verdict_recorded", "ReviewVerdictRecordedV1");
  ("review_verdict_recorded_v2", "ReviewVerdictRecordedV2");
  ("promotion_approval_requested", "PromotionApprovalRequestedV1");
  ("promotion_decision_recorded", "PromotionDecisionRecordedV1");
  ("promotion_execution_claimed_v1", "PromotionExecutionClaimedV1");
  ("promotion_result_recorded", "PromotionResultRecordedV1");
  ("promotion_reconciliation_resolved", "PromotionReconciliationResolvedV1");
  ("release_evaluation_evidence_v1", "ReleaseEvaluationEvidenceV1");
  ("workflow_timer_scheduled_v1", "WorkflowTimerScheduledV1");
  ("workflow_timer_fired_v1", "WorkflowTimerFiredV1");
  ("workflow_cancellation_requested_v1", "WorkflowCancellationRequestedV1");
  ("workflow_terminal", "WorkflowTerminalV1");
  ("workflow_terminal_v2", "WorkflowTerminalV2") ].

(** [match kind]: the first arm with that name. *)
Definition kind_to_variant (kind : string) : Result string ValidationError :=
  match find (fun arm => arm.1 == kind) kind_variants with
  | Some arm => Ok arm.2
  | None => Err (Refused (LedgerError_InvalidPayload kind "unknown kind"))
  end.

Definition validate_kind_matches_payload (kind : string)
    (payload : Payload)
    : Result unit ValidationError :=
  let* expected_variant := kind_to_variant kind in
  fail_if payload_variant_name payload != expected_variant
    with (Refused (LedgerError_InvalidPayload kind ("payload missing expected variant key '" +:+
        expected_variant +:+ "'"))) ;;
  Ok tt.

Definition validate_event_semantics (event : Event) : Result unit ValidationError :=
  let* _ := match ev_payload event with
  | Payload_WorkflowGraphDeclaredV1 declaration =>
      if wgd1_run_id declaration != uuid_to_string (ev_run_id event) then
        invalid (as_wire (ev_kind event))
            "workflow graph declaration run_id must match the enclosing event run_id"
      else
      Ok tt
  | Payload_WorkflowGraphDeclaredV2 declaration =>
      if wgd2_run_id declaration != uuid_to_string (ev_run_id event) then
        invalid (as_wire (ev_kind event))
            "workflow graph declaration run_id must match the enclosing event run_id"
      else
      Ok tt
  | Payload_ContextManifestDeclaredV1 declaration =>
      if cmd_run_id declaration != uuid_to_string (ev_run_id event) then
        invalid (as_wire (ev_kind event))
            "context manifest declaration run_id must match the enclosing event run_id"
      else
      Ok tt
  | Payload_WorkerManifestDeclaredV1 declaration =>
      if wmd_run_id declaration != uuid_to_string (ev_run_id event) then
        invalid (as_wire (ev_kind event))
            "worker manifest declaration run_id must match the enclosing event run_id"
      else
      Ok tt
  | Payload_SandboxProfileDeclaredV1 declaration =>
      if spd_run_id declaration != uuid_to_string (ev_run_id event) then
        invalid (as_wire (ev_kind event))
            "sandbox profile declaration run_id must match the enclosing event run_id"
      else
      Ok tt
  | Payload_AttemptContextDeclaredV1 declaration =>
      if acd_run_id declaration != uuid_to_string (ev_run_id event) then
        invalid (as_wire (ev_kind event))
            "attempt context declaration run_id must match the enclosing event run_id"
      else
      Ok tt
  | Payload_GovernedDispatchV5AdmissionRecordedV1 receipt =>
      if gda_run_id receipt != uuid_to_string (ev_run_id event) then
        invalid (as_wire (ev_kind event))
            "V5 admission receipt run_id must match the enclosing event run_id"
      else
      if ev_parent_event_id event != Some (gda_source_dispatch_event_ref receipt) then
        invalid (as_wire (ev_kind event))
            "V5 admission receipt parent_event_id must equal its source_dispatch_event_ref"
      else
      Ok tt
  | _ => Ok tt
  end in
  let* _ := match ev_payload event with
  | Payload_WorkflowTimerScheduledV1 timer =>
      if wts_run_id timer != uuid_to_string (ev_run_id event) then invalid (as_wire (ev_kind
          event)) "workflow timer schedule run_id must match the enclosing event run_id" else Ok tt
  | Payload_WorkflowTimerFiredV1 timer =>
      if wtf_run_id timer != uuid_to_string (ev_run_id event) then invalid (as_wire (ev_kind
          event)) "workflow timer fired run_id must match the enclosing event run_id" else Ok tt
  | Payload_WorkflowCancellationRequestedV1 cancellation =>
      if wcr_run_id cancellation != uuid_to_string (ev_run_id event) then invalid (as_wire
          (ev_kind event)) "workflow cancellation run_id must match the enclosing event run_id"
              else Ok tt
  | Payload_PromotionExecutionClaimedV1 claim =>
      if pec_run_id claim != uuid_to_string (ev_run_id event) then invalid (as_wire (ev_kind
          event)) "promotion execution claim run_id must match the enclosing event run_id" else Ok
              tt
  | _ => Ok tt
  end in
  Ok tt.

Definition validate_payload_semantics (kind : string)
    (payload : Payload)
    : Result unit ValidationError :=
  let* _ := match payload with
  | Payload_DispatchEnvelopeV2 envelope =>
      let* expected := map_err (fun error => Refused (LedgerError_InvalidPayload kind
          ("could not canonicalize V2 dispatch body: " +:+ error)))
              (dispatch_envelope_v2_body_digest (de2_body envelope)) in
      fail_if de2_envelope_digest envelope != expected
        with (Refused (LedgerError_InvalidPayload kind
            "envelope_digest does not match the canonical V2 dispatch body digest")) ;;
      Ok tt
  | Payload_DispatchEnvelopeV3 envelope =>
      validate_dispatch_envelope_v3_shape kind envelope
  | Payload_DispatchEnvelopeV4 envelope =>
      validate_dispatch_envelope_v4_shape kind envelope
  | Payload_DispatchEnvelopeV5 envelope =>
      validate_dispatch_envelope_v5_shape kind envelope
  | Payload_GovernedDispatchV5AdmissionRecordedV1 receipt =>
      validate_governed_dispatch_v5_admission_recorded_v1_shape kind receipt
  | Payload_ContextManifestDeclaredV1 declaration =>
      validate_context_manifest_declared_v1_shape kind declaration
  | Payload_WorkerManifestDeclaredV1 declaration =>
      validate_worker_manifest_declared_v1_shape kind declaration
  | Payload_SandboxProfileDeclaredV1 declaration =>
      validate_sandbox_profile_declared_v1_shape kind declaration
  | Payload_AttemptContextDeclaredV1 declaration =>
      validate_attempt_context_declared_v1_shape kind declaration
  | Payload_ActionRequestedV2 request =>
      let* _ := validate_action_request_shape kind request in
      let* _ := map_err (fun error => Refused (LedgerError_InvalidPayload kind
          ("could not canonicalize V2 action request: " +:+ error))) (action_requested_v2_digest
              request) in
      Ok tt
  | Payload_ModelActionIntentV1 intent =>
      let* _ := validate_model_action_intent_shape kind intent in
      let* expected := map_err (fun error => Refused (LedgerError_InvalidPayload kind
          ("could not canonicalize model action intent: " +:+ error)))
              (model_action_intent_v1_digest intent) in
      fail_if mai_intent_digest intent != expected
        with (Refused (LedgerError_InvalidPayload kind
            "intent_digest does not match the canonical model action intent")) ;;
      Ok tt
  | Payload_ModelActionAuthorizedV1 authorization =>
      let* _ := validate_model_action_authorized_shape kind authorization in
      let* expected := map_err (fun error => Refused (LedgerError_InvalidPayload kind
          ("could not canonicalize model action authorization: " +:+ error)))
              (model_action_authorized_v1_digest authorization) in
      fail_if maa1_authorization_digest authorization != expected
        with (Refused (LedgerError_InvalidPayload kind
            "authorization_digest does not match the canonical model action authorization")) ;;
      Ok tt
  | Payload_ModelActionAuthorizedV2 authorization =>
      let* _ := validate_model_action_authorized_v2_shape kind authorization in
      let* expected := map_err (fun error => Refused (LedgerError_InvalidPayload kind
          ("could not canonicalize model action authorization v2: " +:+ error)))
              (model_action_authorized_v2_digest authorization) in
      fail_if maa2_authorization_digest authorization != expected
        with (Refused (LedgerError_InvalidPayload kind
            "authorization_digest does not match the canonical model action authorization v2")) ;;
      Ok tt
  | Payload_ActivityClaimedV1 claim =>
      validate_activity_claimed_v1 claim
  | Payload_ActivityHeartbeatRecordedV1 heartbeat =>
      validate_activity_heartbeat_recorded_v1 heartbeat
  | Payload_ActivityResultRecordedV1 result =>
      validate_activity_result_recorded_v1 result
  | Payload_ActionReceiptRecordedV2 receipt =>
      let* _ := validate_action_receipt_shape kind receipt in
      let* _ := map_err (fun error => Refused (LedgerError_InvalidPayload kind
          ("could not canonicalize V2 action receipt: " +:+ error)))
              (action_receipt_recorded_v2_digest receipt) in
      Ok tt
  | Payload_ActionReceiptSetRecordedV1 set =>
      let* _ := validate_action_receipt_set_shape kind set in
      let* expected := map_err (fun error => Refused (LedgerError_InvalidPayload kind
          ("could not canonicalize action receipt set: " +:+ error)))
              (action_receipt_set_v1_digest set) in
      fail_if arset_action_receipt_set_digest set != expected
        with (Refused (LedgerError_InvalidPayload kind
            "action_receipt_set_digest does not match its canonical sealed set")) ;;
      Ok tt
  | Payload_AttemptContextRecordedV1 context =>
      let* _ := validate_attempt_context_recorded_v1_shape kind context in
      let* expected := map_err (fun error => Refused (LedgerError_InvalidPayload kind
          ("could not canonicalize attempt context: " +:+ error)))
              (attempt_context_recorded_v1_digest context) in
      fail_if acr_attempt_context_digest context != expected
        with (Refused (LedgerError_InvalidPayload kind
            "attempt_context_digest does not match its canonical retry lineage")) ;;
      Ok tt
  | Payload_WorkflowGraphDeclaredV1 declaration =>
      let* _ := validate_workflow_graph_declared_v1_shape kind declaration in
      let* expected := map_err (fun error => Refused (LedgerError_InvalidPayload kind
          ("could not canonicalize workflow graph declaration: " +:+ error)))
              (workflow_graph_v1_digest declaration) in
      fail_if wgd1_graph_digest declaration != expected
        with (Refused (LedgerError_InvalidPayload kind
            "graph_digest does not match the canonical workflow graph")) ;;
      Ok tt
  | Payload_WorkflowGraphDeclaredV2 declaration =>
      let* _ := validate_workflow_graph_declared_v2_shape kind declaration in
      let* expected := map_err (fun error => Refused (LedgerError_InvalidPayload kind
          ("could not canonicalize workflow graph declaration v2: " +:+ error)))
              (workflow_graph_v2_digest declaration) in
      fail_if wgd2_graph_digest declaration != expected
        with (Refused (LedgerError_InvalidPayload kind
            "graph_digest does not match the canonical V2 workflow graph")) ;;
      Ok tt
  | Payload_CandidateCreatedV1 candidate =>
      validate_candidate_v1_shape kind candidate
  | Payload_CandidateCreatedV2 candidate =>
      validate_candidate_v2_shape kind candidate
  | Payload_CandidateCompletionRecordedV1 completion =>
      let* _ := validate_candidate_completion_recorded_v1_shape kind completion in
      let* expected := map_err (fun error => Refused (LedgerError_InvalidPayload kind
          ("could not canonicalize candidate completion: " +:+ error)))
              (candidate_completion_recorded_v1_digest completion) in
      fail_if ccr_completion_digest completion != expected
        with (Refused (LedgerError_InvalidPayload kind
            "completion_digest does not match the canonical candidate completion")) ;;
      Ok tt
  | Payload_ReviewVerdictRecordedV2 review =>
      validate_review_verdict_v2_shape kind review
  | Payload_PromotionApprovalRequestedV1 request =>
      validate_promotion_approval_requested_v1_shape kind request
  | Payload_PromotionDecisionRecordedV1 decision =>
      validate_promotion_decision_recorded_v1_shape kind decision
  | Payload_PromotionExecutionClaimedV1 claim =>
      let* _ := validate_promotion_execution_claimed_v1_shape kind claim in
      let* expected := map_err (fun error => Refused (LedgerError_InvalidPayload kind
          ("could not canonicalize promotion execution claim: " +:+ error)))
              (promotion_execution_claimed_v1_digest claim) in
      fail_if pec_promotion_execution_claim_digest claim != expected
        with (Refused (LedgerError_InvalidPayload kind
            "promotion_execution_claim_digest does not match the canonical promotion execution claim")) ;;
      Ok tt
  | Payload_PromotionResultRecordedV1 result =>
      validate_promotion_result_recorded_v1_shape kind result
  | Payload_PromotionReconciliationResolvedV1 resolution =>
      validate_promotion_reconciliation_resolved_v1_shape kind resolution
  | Payload_ReleaseEvaluationEvidenceV1 evidence =>
      validate_release_evaluation_evidence_v1 evidence
  | Payload_WorkflowTimerScheduledV1 timer =>
      validate_workflow_timer_scheduled_v1_shape kind timer
  | Payload_WorkflowTimerFiredV1 timer =>
      validate_workflow_timer_fired_v1_shape kind timer
  | Payload_WorkflowCancellationRequestedV1 cancellation =>
      validate_workflow_cancellation_requested_v1_shape kind cancellation
  | Payload_WorkflowTerminalV2 terminal =>
      validate_workflow_terminal_v2_shape kind terminal
  | _ => Ok tt
  end in
  Ok tt.

Definition ledger_canonicalize (event : Event) : Result Event ValidationError :=
  fail_if ev_schema_version event != CURRENT_SCHEMA_VERSION
    with (Refused (LedgerError_UnsupportedSchemaVersion (ev_schema_version event)
            CURRENT_SCHEMA_VERSION)) ;;
  let* _ := validate_kind_matches_payload (as_wire (ev_kind event)) (ev_payload event) in
  let* _ := validate_event_semantics event in
  let* _ := validate_payload_semantics (as_wire (ev_kind event)) (ev_payload event) in
  Ok event.

(** [from_value] is [serde_json::from_value::<Payload>]. *)
Definition canonicalize_payload (from_value : Json -> Result Payload string) (kind : string)
    (version : u32) (payload : Json) : Result Payload ValidationError :=
  fail_if version != CURRENT_SCHEMA_VERSION
    with (Refused (LedgerError_UnsupportedSchemaVersion version CURRENT_SCHEMA_VERSION)) ;;
  let* payload :=
    map_err (fun error => Refused (LedgerError_InvalidJson error)) (from_value payload) in
  let* _ := validate_kind_matches_payload kind payload in
  let* _ := validate_payload_semantics kind payload in
  Ok payload.
End Canonicalize.

(** A crash never reaches a caller (see [CanonicalizeSpec]). *)
Definition validation_error_to_string (e : ValidationError) : string :=
  match e with
  | Refused error => ledger_error_to_string error
  | Crashed _ => "panicked"
  end.

(** ** The canonicaliser the signature and replay models use

    [event_to_vec] is the serde-derived encoding of the event. *)
Definition ledger_canonicalizer `{Host} (event_to_vec : Event -> Result string string)
    : Canonicalizer := {|
  canonicalize event := map_err validation_error_to_string (ledger_canonicalize event);
  event_to_vec := event_to_vec
|}.
