(* ===== verification/CanonicalizeSpec.v ===== *)
(** * Properties of the payload canonicaliser

    Validation always returns: it accepts the event unchanged or refuses it with
    a [LedgerError], and none of the [expect]s, subtractions and loops of the
    source can fail or run on ([canonicalize_returns]).  An accepted event is
    well-kinded.  A declared workflow graph is accepted exactly when it is a
    closed, strictly ordered, acyclic graph. *)
From Stdlib Require Import OrdersEx.
From S2P Require Import Prelude RustStr Host LedgerPayloads TrustSpine Digests Events DemoHost WorkflowGraph Canonicalize.
From stdpp Require Import base list gmap strings sorting relations.

#[local] Open Scope string_scope.
#[local] Open Scope list_scope.
#[local] Open Scope Z_scope.

(** ** Strict lexical order *)

Definition str_lt (a b : string) : Prop := String.compare a b = Lt.

#[global] Instance str_lt_trans : Transitive str_lt.
Proof. exact (StrictOrder_Transitive (R := String_as_OT.lt)). Qed.

Lemma str_lt_irrefl a : ~ str_lt a a.
Proof. exact (StrictOrder_Irreflexive (R := String_as_OT.lt) a). Qed.

Lemma leb_false_lt a b : String.leb b a = false <-> str_lt a b.
Proof.
  unfold String.leb, str_lt. rewrite (String.compare_antisym a b).
  destruct (String.compare b a); simpl; split; congruence.
Qed.

Lemma sorted_after (prior : option string) d ds :
  StronglySorted str_lt (option_list prior ++ d :: ds) <->
  (is_some_and prior (fun previous => String.leb d previous) = false /\
   StronglySorted str_lt (d :: ds)).
Proof.
  destruct prior as [p|]; simpl; [|naive_solver]. rewrite leb_false_lt. split.
  - intros Hs. apply StronglySorted_inv in Hs as [Hs Hp]. by inversion Hp.
  - intros [Hpd Hs]. constructor; [done|]. constructor; [done|].
    apply StronglySorted_inv in Hs as [_ Hd]. eapply Forall_impl; [exact Hd|].
    intros e He. by transitivity d.
Qed.

Lemma sorted_nodup l : StronglySorted str_lt l -> NoDup l.
Proof.
  induction 1 as [|x l Hl IH Hx]; constructor; [|done]. intros Hin.
  rewrite Forall_forall in Hx. by apply (str_lt_irrefl x), Hx.
Qed.

(** The next element of a sorted list is not in the set of the previous ones. *)
Lemma sorted_fresh d ds (seen : gset string) :
  StronglySorted str_lt (d :: ds) ->
  (forall e, e ∈ d :: ds -> e ∉ seen) <->
  (d ∉ seen /\ forall e, e ∈ ds -> e ∉ {[d]} ∪ seen).
Proof.
  intros Hs. apply sorted_nodup, NoDup_cons in Hs as [Hd _]. set_solver.
Qed.

(** ** Accepted graphs *)

Lemma bind_ok_iff {A B E} (r : Result A E) (k : A -> Result B E) b :
  result_bind r k = Ok b <-> exists a, r = Ok a /\ k a = Ok b.
Proof. destruct r; simpl; split; naive_solver. Qed.

Lemma bind_unit_iff {B E} (r : Result unit E) (k : Result B E) b :
  result_bind r (fun _ => k) = Ok b <-> r = Ok tt /\ k = Ok b.
Proof. destruct r as [[]|]; simpl; split; naive_solver. Qed.

Lemma map_err_ok_iff {A E F} (f : E -> F) (r : Result A E) a : map_err f r = Ok a <-> r = Ok a.
Proof. destruct r; simpl; split; congruence. Qed.

Lemma refuse_ok {E} (b : bool) (e : E) :
  (if b then Err e else Ok tt) = Ok tt <-> b = false.
Proof. destruct b; simpl; split; congruence. Qed.

Lemma for_each_ok_iff {A E} (f : A -> Result unit E) l :
  for_each f l = Ok tt <-> Forall (fun a => f a = Ok tt) l.
Proof.
  induction l as [|a l IH]; simpl; [by split|]. rewrite Forall_cons, <- IH, bind_ok_iff.
  split; [intros ([] & ? & ?)|intros [? ?]]; eauto.
Qed.

Section Graphs.
Context `{Host}.

Lemma guard_ok (b : bool) kind reason r :
  (if b then invalid kind reason else r) = Ok tt <-> b = false /\ r = Ok tt.
Proof. destruct b; simpl; split; naive_solver. Qed.

(** What validation requires of one dependency, apart from the order. *)
Definition name_ok_v1 (s : string) : Prop := trim_is_empty s = false.
Definition name_ok_v2 (s : string) : Prop := trim_is_empty s = false /\ str_all is_ascii s = true.

Lemma sorted_prior_nil (prior : option string) :
  StronglySorted str_lt (option_list prior ++ []).
Proof. destruct prior; repeat constructor. Qed.

(** [scan_loop IH] proves what a loop over strictly ordered names accepts. *)
Ltac scan_loop IH :=
  rewrite ?bind_unit_iff, ?guard_ok, IH, sorted_after, Forall_cons, ?bool_decide_eq_false;
  split;
  [ intros Hrun; decompose [and ex] Hrun; rewrite sorted_fresh by done
  | intros Hspec; decompose [and] Hspec;
    match goal with
    | Hs : StronglySorted str_lt (_ :: _), Hf : forall e, e ∈ _ -> e ∉ _ |- _ =>
        apply (sorted_fresh _ _ _ Hs) in Hf
    end ].

Lemma check_dependencies_v1_ok kind u ids prior ds :
  check_dependencies_v1 kind u ids prior ds = Ok tt <->
  Forall (fun d => name_ok_v1 d /\ d <> u) ds /\
  StronglySorted str_lt (option_list prior ++ ds) /\ forall d, d ∈ ds -> d ∉ ids.
Proof.
  revert ids prior. induction ds as [|d ds IH]; intros ids prior.
  - split; [|done]. intros _. split; [constructor|]. split; [apply sorted_prior_nil|set_solver].
  - cbn [check_dependencies_v1]. unfold name_ok_v1 in *. scan_loop IH; tauto.
Qed.

Lemma check_dependencies_v2_ok kind u ids prior ds :
  check_dependencies_v2 kind u ids prior ds = Ok tt <->
  Forall (fun d => name_ok_v2 d /\ d <> u) ds /\
  StronglySorted str_lt (option_list prior ++ ds) /\ forall d, d ∈ ds -> d ∉ ids.
Proof.
  revert ids prior. induction ds as [|d ds IH]; intros ids prior.
  - split; [|done]. intros _. split; [constructor|]. split; [apply sorted_prior_nil|set_solver].
  - cbn [check_dependencies_v2]. unfold name_ok_v2 in *. scan_loop IH;
      rewrite ?negb_false_iff in *; tauto.
Qed.

(** The names a unit depends on: distinct, in order, not itself. *)
Definition dependencies_ok (name_ok : string -> Prop) (u : string) (ds : list string) : Prop :=
  Forall (fun d => name_ok d /\ d <> u) ds /\ StronglySorted str_lt ds.

Definition node_ok_v1 (n : WorkflowGraphNodeV1) : Prop :=
  name_ok_v1 (wgn1_unit_id n) /\
  dependencies_ok name_ok_v1 (wgn1_unit_id n) (wgn1_depends_on n).

Definition node_ok_v2 (n : WorkflowGraphNodeV2) : Prop :=
  name_ok_v2 (wgn2_unit_id n) /\
  is_canonical_sha256_digest (wgn2_governed_packet_digest n) = true /\
  dependencies_ok name_ok_v2 (wgn2_unit_id n) (wgn2_depends_on n).

Lemma check_nodes_v1_ok kind ids prior nodes s :
  check_nodes_v1 kind ids prior nodes = Ok s <->
  Forall node_ok_v1 nodes /\
  StronglySorted str_lt (option_list prior ++ map wgn1_unit_id nodes) /\
  (forall u, u ∈ map wgn1_unit_id nodes -> u ∉ ids) /\
  s = list_to_set (map wgn1_unit_id nodes) ∪ ids.
Proof.
  revert ids prior. induction nodes as [|n nodes IH]; intros ids prior.
  - cbn. split; [|intros (_ & _ & _ & ->); f_equal; set_solver].
    intros [= <-]. split; [constructor|]. split; [apply sorted_prior_nil|]. set_solver.
  - cbn [check_nodes_v1 map]. unfold node_ok_v1, name_ok_v1, dependencies_ok.
    rewrite ?bind_unit_iff, ?guard_ok, check_dependencies_v1_ok. scan_loop IH;
      rewrite ?negb_false_iff in *; subst; (repeat split; try done; set_solver).
Qed.

Lemma check_nodes_v2_ok kind ids prior nodes s :
  check_nodes_v2 kind ids prior nodes = Ok s <->
  Forall node_ok_v2 nodes /\
  StronglySorted str_lt (option_list prior ++ map wgn2_unit_id nodes) /\
  (forall u, u ∈ map wgn2_unit_id nodes -> u ∉ ids) /\
  s = list_to_set (map wgn2_unit_id nodes) ∪ ids.
Proof.
  revert ids prior. induction nodes as [|n nodes IH]; intros ids prior.
  - cbn. split; [|intros (_ & _ & _ & ->); f_equal; set_solver].
    intros [= <-]. split; [constructor|]. split; [apply sorted_prior_nil|]. set_solver.
  - cbn [check_nodes_v2 map]. unfold node_ok_v2, name_ok_v2, dependencies_ok.
    rewrite ?bind_unit_iff, ?guard_ok, check_dependencies_v2_ok. scan_loop IH;
      rewrite ?negb_false_iff in *; subst; (repeat split; try done; set_solver).
Qed.

(** Every dependency is one of the collected ids. *)
Lemma known_dependencies_ok {A} (deps : A -> list string) kind reason (ids : gset string) nodes :
  for_each (fun node =>
    for_each (fun dependency =>
      if negb (bool_decide (dependency ∈ ids)) then invalid kind reason else Ok tt)
      (deps node)) nodes = Ok tt <->
  forall n d, n ∈ nodes -> d ∈ deps n -> d ∈ ids.
Proof.
  rewrite for_each_ok_iff, Forall_forall. split.
  - intros Hall n d Hn Hd. specialize (Hall n Hn).
    rewrite for_each_ok_iff, Forall_forall in Hall. specialize (Hall d Hd).
    apply guard_ok in Hall as [Hin _]. by apply neqb_false in Hin.
  - intros Hall n Hn. apply for_each_ok_iff, Forall_forall. intros d Hd.
    apply guard_ok. split; [|done]. apply neqb_false. eauto.
Qed.

(** A [Z]-suffixed RFC 3339 timestamp. *)
Definition utc_timestamp (s : string) : Prop :=
  ends_with "Z" s = true /\ is_Some (parse_from_rfc3339 s).

Lemma utc_ok kind field s : validate_rfc3339_utc kind field s = Ok tt <-> utc_timestamp s.
Proof.
  unfold validate_rfc3339_utc, utc_timestamp. rewrite guard_ok, orb_false_iff, negb_false_iff.
  destruct (parse_from_rfc3339 s); split; try naive_solver.
Qed.

Lemma non_empty_ok kind fields :
  validate_non_empty_fields kind fields = Ok tt <->
  Forall (fun s => trim_is_empty s = false) (map snd fields).
Proof.
  unfold validate_non_empty_fields. rewrite for_each_ok_iff, Forall_fmap.
  apply Forall_iff. intros [f s]. rewrite guard_ok. naive_solver.
Qed.

Definition topology_v1 (nodes : list WorkflowGraphNodeV1) : Topology :=
  map (fun node => (wgn1_unit_id node, wgn1_depends_on node)) nodes.

Lemma topology_v1_units nodes : (topology_v1 nodes).*1 = map wgn1_unit_id nodes.
Proof. unfold topology_v1. by rewrite <-list_fmap_compose. Qed.

Lemma topology_v1_elem nodes u ds :
  (u, ds) ∈ topology_v1 nodes <->
  exists n, n ∈ nodes /\ wgn1_unit_id n = u /\ wgn1_depends_on n = ds.
Proof.
  unfold topology_v1. rewrite list_elem_of_fmap. split.
  - intros (m & [= -> ->] & Hm). eauto.
  - intros (m & Hm & <- & <-). eauto.
Qed.

Lemma nodes_v1_well_formed nodes :
  Forall node_ok_v1 nodes -> StronglySorted str_lt (map wgn1_unit_id nodes) ->
  (forall n d, n ∈ nodes -> d ∈ wgn1_depends_on n -> d ∈ map wgn1_unit_id nodes) ->
  well_formed (topology_v1 nodes).
Proof.
  intros Hok Hs Hc. rewrite Forall_forall in Hok. split.
  - rewrite topology_v1_units. by apply sorted_nodup.
  - intros u ds (m & Hm & _ & <-)%topology_v1_elem. apply sorted_nodup.
    specialize (Hok m Hm). unfold node_ok_v1, dependencies_ok in Hok. tauto.
  - intros u ds d (m & Hm & _ & <-)%topology_v1_elem Hd. rewrite topology_v1_units. eauto.
Qed.

(** A declaration of a closed, strictly ordered, acyclic graph. *)
Record valid_graph_v1 (d : WorkflowGraphDeclaredV1) : Prop := {
  vg1_fields : Forall (fun s => trim_is_empty s = false)
    [wgd1_run_id d; wgd1_workflow_id d; wgd1_workflow_revision d; wgd1_idempotency_key d];
  vg1_nodes : wgd1_nodes d <> [];
  vg1_limit : wgd1_max_concurrent d <> 0;
  vg1_declared_at : utc_timestamp (wgd1_declared_at d);
  vg1_node_ok : Forall node_ok_v1 (wgd1_nodes d);
  vg1_order : StronglySorted str_lt (map wgn1_unit_id (wgd1_nodes d));
  vg1_closed : forall m u, m ∈ wgd1_nodes d -> u ∈ wgn1_depends_on m ->
    u ∈ map wgn1_unit_id (wgd1_nodes d);
  vg1_acyclic : ~ cyclic (topology_v1 (wgd1_nodes d))
}.

Lemma validate_graph_v1_iff kind d :
  validate_workflow_graph_declared_v1_shape kind d = Ok tt <-> valid_graph_v1 d.
Proof.
  unfold validate_workflow_graph_declared_v1_shape.
  rewrite bind_unit_iff, non_empty_ok, !guard_ok, bind_unit_iff, utc_ok, bind_ok_iff.
  rewrite bool_decide_eq_false. split.
  - intros (Hf & Hn & Hl & Ht & ids & Hids & Hrest).
    apply check_nodes_v1_ok in Hids as (Hok & Hs & _ & ->). rewrite union_empty_r_L in Hrest.
    apply bind_unit_iff in Hrest as [Hc Hcyc]. simpl in Hs.
    rewrite known_dependencies_ok in Hc. setoid_rewrite elem_of_list_to_set in Hc.
    pose proof (nodes_v1_well_formed _ Hok Hs Hc) as Hwf.
    split; [done|intros Heq; by rewrite Heq in Hn|done..|].
    unfold workflow_graph_has_cycle in Hcyc. fold (topology_v1 (wgd1_nodes d)) in Hcyc.
    destruct (graph_has_cycle_correct _ Hwf) as [[Hg _]|(Hg & Hno & _)]; [|done].
    by rewrite Hg in Hcyc.
  - intros [Hf Hn Hl Ht Hok Hs Hc Hno].
    split; [done|]. split; [by destruct (wgd1_nodes d)|]. split; [done|]. split; [done|].
    eexists. split; [by apply check_nodes_v1_ok|]. rewrite union_empty_r_L.
    apply bind_unit_iff. rewrite known_dependencies_ok. setoid_rewrite elem_of_list_to_set.
    split; [done|]. unfold workflow_graph_has_cycle. fold (topology_v1 (wgd1_nodes d)).
    destruct (graph_has_cycle_correct _ (nodes_v1_well_formed _ Hok Hs Hc))
      as [[_ Hcyc]|[Hg _]]; [done|]. by rewrite Hg.
Qed.

Definition topology_v2 (nodes : list WorkflowGraphNodeV2) : Topology :=
  map (fun node => (wgn2_unit_id node, wgn2_depends_on node)) nodes.

Lemma topology_v2_units nodes : (topology_v2 nodes).*1 = map wgn2_unit_id nodes.
Proof. unfold topology_v2. by rewrite <-list_fmap_compose. Qed.

Lemma topology_v2_elem nodes u ds :
  (u, ds) ∈ topology_v2 nodes <->
  exists n, n ∈ nodes /\ wgn2_unit_id n = u /\ wgn2_depends_on n = ds.
Proof.
  unfold topology_v2. rewrite list_elem_of_fmap. split.
  - intros (m & [= -> ->] & Hm). eauto.
  - intros (m & Hm & <- & <-). eauto.
Qed.

Lemma nodes_v2_well_formed nodes :
  Forall node_ok_v2 nodes -> StronglySorted str_lt (map wgn2_unit_id nodes) ->
  (forall n d, n ∈ nodes -> d ∈ wgn2_depends_on n -> d ∈ map wgn2_unit_id nodes) ->
  well_formed (topology_v2 nodes).
Proof.
  intros Hok Hs Hc. rewrite Forall_forall in Hok. split.
  - rewrite topology_v2_units. by apply sorted_nodup.
  - intros u ds (m & Hm & _ & <-)%topology_v2_elem. apply sorted_nodup.
    specialize (Hok m Hm). unfold node_ok_v2, dependencies_ok in Hok. tauto.
  - intros u ds d (m & Hm & _ & <-)%topology_v2_elem Hd. rewrite topology_v2_units. eauto.
Qed.

(** A declaration of a closed, strictly ordered, acyclic graph. *)
Record valid_graph_v2 (d : WorkflowGraphDeclaredV2) : Prop := {
  vg2_fields : Forall (fun s => trim_is_empty s = false)
    [wgd2_run_id d; wgd2_workflow_id d; wgd2_workflow_revision d; wgd2_idempotency_key d];
  vg2_nodes : wgd2_nodes d <> [];
  vg2_limit : wgd2_max_concurrent d <> 0;
  vg2_declared_at : utc_timestamp (wgd2_declared_at d);
  vg2_node_ok : Forall node_ok_v2 (wgd2_nodes d);
  vg2_order : StronglySorted str_lt (map wgn2_unit_id (wgd2_nodes d));
  vg2_closed : forall m u, m ∈ wgd2_nodes d -> u ∈ wgn2_depends_on m ->
    u ∈ map wgn2_unit_id (wgd2_nodes d);
  vg2_acyclic : ~ cyclic (topology_v2 (wgd2_nodes d))
}.

Lemma validate_graph_v2_iff kind d :
  validate_workflow_graph_declared_v2_shape kind d = Ok tt <-> valid_graph_v2 d.
Proof.
  unfold validate_workflow_graph_declared_v2_shape.
  rewrite bind_unit_iff, non_empty_ok, !guard_ok, bind_unit_iff, utc_ok, bind_ok_iff.
  rewrite bool_decide_eq_false. split.
  - intros (Hf & Hn & Hl & Ht & ids & Hids & Hrest).
    apply check_nodes_v2_ok in Hids as (Hok & Hs & _ & ->). rewrite union_empty_r_L in Hrest.
    apply bind_unit_iff in Hrest as [Hc Hcyc]. simpl in Hs.
    rewrite known_dependencies_ok in Hc. setoid_rewrite elem_of_list_to_set in Hc.
    pose proof (nodes_v2_well_formed _ Hok Hs Hc) as Hwf.
    split; [done|intros Heq; by rewrite Heq in Hn|done..|].
    unfold workflow_graph_v2_has_cycle in Hcyc. fold (topology_v2 (wgd2_nodes d)) in Hcyc.
    destruct (graph_has_cycle_correct _ Hwf) as [[Hg _]|(Hg & Hno & _)]; [|done].
    by rewrite Hg in Hcyc.
  - intros [Hf Hn Hl Ht Hok Hs Hc Hno].
    split; [done|]. split; [by destruct (wgd2_nodes d)|]. split; [done|]. split; [done|].
    eexists. split; [by apply check_nodes_v2_ok|]. rewrite union_empty_r_L.
    apply bind_unit_iff. rewrite known_dependencies_ok. setoid_rewrite elem_of_list_to_set.
    split; [done|]. unfold workflow_graph_v2_has_cycle. fold (topology_v2 (wgd2_nodes d)).
    destruct (graph_has_cycle_correct _ (nodes_v2_well_formed _ Hok Hs Hc))
      as [[_ Hcyc]|[Hg _]]; [done|]. by rewrite Hg.
Qed.
End Graphs.

(** ** Validation returns *)

Definition no_crash {A} (r : Result A ValidationError) : Prop :=
  match r with Err (Crashed _) => False | _ => True end.

Lemma no_crash_bind {A B} (r : Result A ValidationError) (k : A -> Result B ValidationError) :
  no_crash r -> (forall a, r = Ok a -> no_crash (k a)) -> no_crash (result_bind r k).
Proof. destruct r; simpl; auto. Qed.

Lemma no_crash_for_each {A} (f : A -> Result unit ValidationError) l :
  (forall a, no_crash (f a)) -> no_crash (for_each f l).
Proof.
  intros Hf. induction l as [|a l IH]; [exact I|]. simpl. apply no_crash_bind; [apply Hf|done].
Qed.

Lemma no_crash_refused {A E} (f : E -> LedgerError) (r : Result A E) :
  no_crash (map_err (fun e => Refused (f e)) r).
Proof. by destruct r. Qed.

Lemma no_crash_ok_or {A} (o : option A) e : no_crash (ok_or o (Refused e)).
Proof. by destruct o. Qed.

Create HintDb validators discriminated.
#[export] Hint Resolve no_crash_refused no_crash_ok_or : validators.
#[export] Hint Unfold invalid invalid_release validate_non_empty_fields validate_sha256_fields
  validate_non_empty validate_digest validate_sha256 : validators.

(** [returns] walks through a validator. *)
Ltac returns :=
  cbv zeta;
  lazymatch goal with
  | |- no_crash (result_bind _ _) => apply no_crash_bind; [returns|intros ? ?; returns]
  | |- no_crash (for_each _ _) => apply no_crash_for_each; intros; returns
  | |- no_crash (if ?b then _ else _) => destruct b eqn:?; returns
  | |- no_crash (match ?x with _ => _ end) => destruct x eqn:?; returns
  | |- no_crash (Ok _) => exact I
  | |- no_crash (Err (Refused _)) => exact I
  | |- no_crash (invalid _ _) => exact I
  | |- no_crash (invalid_release _) => exact I
  | |- _ => solve [auto with validators] || idtac
  end.

Section Returns.
Context `{Host}.

Lemma timestamp_parses kind field s u :
  validate_timestamp kind field s = Ok u -> is_Some (parse_from_rfc3339 s).
Proof.
  unfold validate_timestamp. destruct (parse_from_rfc3339 s); [by eexists|].
  destruct (negb _); discriminate.
Qed.

Lemma utc_parses kind field s u :
  validate_rfc3339_utc kind field s = Ok u -> is_Some (parse_from_rfc3339 s).
Proof. destruct u. rewrite utc_ok. by intros [_ ?]. Qed.

Lemma no_crash_fields kind fields : no_crash (validate_non_empty_fields kind fields).
Proof. unfold validate_non_empty_fields. returns. Qed.
Lemma no_crash_digests kind fields : no_crash (validate_sha256_fields kind fields).
Proof. unfold validate_sha256_fields. returns. Qed.
Lemma no_crash_utc kind field s : no_crash (validate_rfc3339_utc kind field s).
Proof. unfold validate_rfc3339_utc. returns. Qed.
Lemma no_crash_reference kind field s : no_crash (validate_opaque_reference kind field s).
Proof. unfold validate_opaque_reference. returns. Qed.
Hint Resolve no_crash_fields no_crash_digests no_crash_utc no_crash_reference : validators.

(** The loops over lists. *)
Lemma no_crash_references kind field seen l : no_crash (check_unique_references kind field seen l).
Proof. revert seen. induction l; intros; simpl; returns. Qed.
Lemma no_crash_redactions kind seen l : no_crash (check_redactions kind seen l).
Proof. revert seen. induction l; intros; simpl; returns. Qed.
Lemma no_crash_entries kind prior refs digests l :
  no_crash (check_receipt_entries kind prior refs digests l).
Proof. revert prior refs digests. induction l; intros; cbn [check_receipt_entries]; returns. Qed.
Lemma no_crash_manifest kind refs prior l : no_crash (check_manifest_entries kind refs prior l).
Proof. revert refs prior. induction l; intros; cbn [check_manifest_entries]; returns. Qed.
Lemma no_crash_feedback kind refs prior l : no_crash (check_retry_feedback kind refs prior l).
Proof. revert refs prior. induction l; intros; cbn [check_retry_feedback]; returns. Qed.
Lemma no_crash_candidates kind refs prior l : no_crash (check_prior_candidates kind refs prior l).
Proof. revert refs prior. induction l; intros; cbn [check_prior_candidates]; returns. Qed.
Lemma no_crash_dependencies_v1 kind u ids prior l :
  no_crash (check_dependencies_v1 kind u ids prior l).
Proof. revert ids prior. induction l; intros; simpl; returns. Qed.
Lemma no_crash_dependencies_v2 kind u ids prior l :
  no_crash (check_dependencies_v2 kind u ids prior l).
Proof. revert ids prior. induction l; intros; simpl; returns. Qed.
Hint Resolve no_crash_references no_crash_redactions no_crash_entries no_crash_manifest
  no_crash_feedback no_crash_candidates no_crash_dependencies_v1 no_crash_dependencies_v2
  : validators.

Lemma no_crash_nodes_v1 kind ids prior l : no_crash (check_nodes_v1 kind ids prior l).
Proof. revert ids prior. induction l; intros; cbn [check_nodes_v1]; returns. Qed.
Lemma no_crash_nodes_v2 kind ids prior l : no_crash (check_nodes_v2 kind ids prior l).
Proof. revert ids prior. induction l; intros; cbn [check_nodes_v2]; returns. Qed.
Lemma no_crash_sources ids l : no_crash (check_distinct_sources ids l).
Proof.
  revert ids. induction l as [|[? ?] ? IH]; intros; cbn [check_distinct_sources];
    unfold validate_source, validate_sha256; returns.
Qed.
Hint Resolve no_crash_nodes_v1 no_crash_nodes_v2 no_crash_sources : validators.

#[local] Hint Unfold
  validate_v4_rfc3339_utc_fractional_second_precision validate_unique_references
  validate_canonical_cas_ref validate_versioned_cas_evidence_shape
  validate_model_request_evidence_shape validate_trust_scope_evidence_shape
  validate_candidate_view_v1_shape validate_model_action_candidate_binding_shape
  validate_action_request_shape validate_model_action_authorized_shape
  validate_model_action_intent_shape validate_model_action_authorized_v2_shape
  validate_action_receipt_shape validate_action_receipt_set_shape
  validate_attempt_context_recorded_v1_shape validate_non_empty validate_digest
  validate_activity_claimed_v1 validate_activity_heartbeat_recorded_v1
  validate_activity_result_recorded_v1 validate_dispatch_envelope_v2_authority_shape
  validate_dispatch_envelope_v3_shape validate_dispatch_envelope_v4_shape
  validate_dispatch_envelope_v5_shape validate_governed_dispatch_v5_admission_recorded_v1_shape
  validate_manifest_declaration_header validate_context_manifest_content_v1_shape
  validate_worker_manifest_content_v1_shape validate_sandbox_profile_content_v1_shape
  validate_attempt_context_content_v1_shape validate_context_manifest_declared_v1_shape
  validate_worker_manifest_declared_v1_shape validate_sandbox_profile_declared_v1_shape
  validate_attempt_context_declared_v1_shape validate_candidate_v1_shape
  validate_candidate_v2_shape validate_candidate_completion_recorded_v1_shape
  validate_review_verdict_v2_shape validate_promotion_approval_requested_v1_shape
  validate_promotion_decision_recorded_v1_shape validate_promotion_execution_claimed_v1_shape
  validate_promotion_execution_lease_binding_v1_shape validate_promotion_git_binding_v1_shape
  validate_promotion_result_merge_evidence validate_promotion_result_recorded_v1_shape
  validate_promotion_reconciliation_resolved_v1_shape validate_workflow_timer_scheduled_v1_shape
  validate_workflow_timer_fired_v1_shape validate_workflow_cancellation_requested_v1_shape
  validate_workflow_terminal_v2_shape validate_sha256 validate_source validate_identifier
  validate_release_dimension validate_trial validate_claim_shape
  validate_release_evaluation_evidence_v1 : shapes.

(** The cycle check runs on well-formed graphs only. *)
Lemma cycle_check_v1_returns kind reason nodes ids u :
  check_nodes_v1 kind ∅ None nodes = Ok ids ->
  for_each (fun node =>
    for_each (fun dependency =>
      if negb (bool_decide (dependency ∈ ids)) then invalid kind reason else Ok tt)
      (wgn1_depends_on node)) nodes = Ok u ->
  exists b, workflow_graph_has_cycle nodes = Ok b.
Proof.
  intros (Hok & Hs & _ & ->)%check_nodes_v1_ok. destruct u.
  rewrite known_dependencies_ok, union_empty_r_L. setoid_rewrite elem_of_list_to_set.
  intros Hc. unfold workflow_graph_has_cycle. fold (topology_v1 nodes).
  destruct (graph_has_cycle_correct _ (nodes_v1_well_formed _ Hok Hs Hc)) as [[-> _]|[-> _]];
    eauto.
Qed.

Lemma no_crash_graph_v1 kind d : no_crash (validate_workflow_graph_declared_v1_shape kind d).
Proof.
  unfold validate_workflow_graph_declared_v1_shape. returns.
  edestruct cycle_check_v1_returns as [b ->]; [eassumption..|exact I].
Qed.

(** The cycle check runs on well-formed graphs only. *)
Lemma cycle_check_v2_returns kind reason nodes ids u :
  check_nodes_v2 kind ∅ None nodes = Ok ids ->
  for_each (fun node =>
    for_each (fun dependency =>
      if negb (bool_decide (dependency ∈ ids)) then invalid kind reason else Ok tt)
      (wgn2_depends_on node)) nodes = Ok u ->
  exists b, workflow_graph_v2_has_cycle nodes = Ok b.
Proof.
  intros (Hok & Hs & _ & ->)%check_nodes_v2_ok. destruct u.
  rewrite known_dependencies_ok, union_empty_r_L. setoid_rewrite elem_of_list_to_set.
  intros Hc. unfold workflow_graph_v2_has_cycle. fold (topology_v2 nodes).
  destruct (graph_has_cycle_correct _ (nodes_v2_well_formed _ Hok Hs Hc)) as [[-> _]|[-> _]];
    eauto.
Qed.

Lemma no_crash_graph_v2 kind d : no_crash (validate_workflow_graph_declared_v2_shape kind d).
Proof.
  unfold validate_workflow_graph_declared_v2_shape. returns.
  edestruct cycle_check_v2_returns as [b ->]; [eassumption..|exact I].
Qed.
Hint Resolve no_crash_graph_v1 no_crash_graph_v2 : validators.

Lemma no_crash_timestamp kind field s : no_crash (validate_timestamp kind field s).
Proof. unfold validate_timestamp. returns. Qed.
Hint Resolve no_crash_timestamp : validators.

(** The parsed timestamps were validated before. *)
Ltac parsed :=
  match goal with
  | Hv : validate_timestamp _ _ ?s = Ok _, Hn : parse_from_rfc3339 ?s = None |- _ =>
      apply timestamp_parses in Hv as [? Hv]; congruence
  | Hv : validate_rfc3339_utc _ _ ?s = Ok _, Hn : parse_from_rfc3339 ?s = None |- _ =>
      apply utc_parses in Hv as [? Hv]; congruence
  end.

Lemma no_crash_payload kind payload : no_crash (validate_payload_semantics kind payload).
Proof.
  unfold validate_payload_semantics.
  destruct payload; autounfold with shapes; returns; exfalso; parsed.
Qed.
End Returns.

(** ** Kinds *)

(** The kind of event that carries a payload. *)
Definition payload_kind (p : Payload) : EventKind :=
  match p with
  | Payload_RunStartedV1 _ => EventKind_RunStarted
  | Payload_RunCompletedV1 _ => EventKind_RunCompleted
  | Payload_RunFailedV1 _ => EventKind_RunFailed
  | Payload_ResultReadyV1 _ => EventKind_ResultReady
  | Payload_RunAdmissionRecordedV1 _ => EventKind_RunAdmissionRecorded
  | Payload_PlanAdmittedV1 _ => EventKind_PlanAdmitted
  | Payload_PlanReceiptRecordedV1 _ => EventKind_PlanReceiptRecorded
  | Payload_ActivityStartedV1 _ => EventKind_ActivityStarted
  | Payload_ActivityCompletedV1 _ => EventKind_ActivityCompleted
  | Payload_UnitStartedV1 _ => EventKind_UnitStarted
  | Payload_UnitCompletedV1 _ => EventKind_UnitCompleted
  | Payload_UnitFailedV1 _ => EventKind_UnitFailed
  | Payload_UnitCancelledV1 _ => EventKind_UnitCancelled
  | Payload_GitCheckpointV1 _ => EventKind_GitCheckpoint
  | Payload_ModelRequestV1 _ => EventKind_ModelRequest
  | Payload_ModelResponseV1 _ => EventKind_ModelResponse
  | Payload_ToolRequestStoredV1 _ => EventKind_ToolRequest
  | Payload_ToolResultV1 _ => EventKind_ToolResult
  | Payload_WorkspaceReadV1 _ => EventKind_WorkspaceRead
  | Payload_WorkspaceWriteV1 _ => EventKind_WorkspaceWrite
  | Payload_TapeCheckpointV1 _ => EventKind_TapeCheckpoint
  | Payload_CapabilityDeniedV1 _ => EventKind_CapabilityDenied
  | Payload_AcceptanceRecordedV1 _ => EventKind_AcceptanceRecorded
  | Payload_OperatorDecisionRecordedV1 _ => EventKind_OperatorDecisionRecorded
  | Payload_DispatchEnvelopeV1 _ => EventKind_DispatchEnvelope
  | Payload_DispatchEnvelopeV2 _ => EventKind_DispatchEnvelopeV2
  | Payload_DispatchEnvelopeV3 _ => EventKind_DispatchEnvelopeV3
  | Payload_DispatchEnvelopeV4 _ => EventKind_DispatchEnvelopeV4
  | Payload_DispatchEnvelopeV5 _ => EventKind_DispatchEnvelopeV5
  | Payload_GovernedDispatchV5AdmissionRecordedV1 _ => EventKind_GovernedDispatchV5AdmissionRecordedV1
  | Payload_ContextManifestDeclaredV1 _ => EventKind_ContextManifestDeclaredV1
  | Payload_WorkerManifestDeclaredV1 _ => EventKind_WorkerManifestDeclaredV1
  | Payload_SandboxProfileDeclaredV1 _ => EventKind_SandboxProfileDeclaredV1
  | Payload_AttemptContextDeclaredV1 _ => EventKind_AttemptContextDeclaredV1
  | Payload_WorkflowGraphDeclaredV1 _ => EventKind_WorkflowGraphDeclaredV1
  | Payload_WorkflowGraphDeclaredV2 _ => EventKind_WorkflowGraphDeclaredV2
  | Payload_ActionRequestedV2 _ => EventKind_ActionRequestedV2
  | Payload_ModelActionIntentV1 _ => EventKind_ModelActionIntentV1
  | Payload_ModelActionAuthorizedV1 _ => EventKind_ModelActionAuthorizedV1
  | Payload_ModelActionAuthorizedV2 _ => EventKind_ModelActionAuthorizedV2
  | Payload_ActivityClaimedV1 _ => EventKind_ActivityClaimedV1
  | Payload_ActivityHeartbeatRecordedV1 _ => EventKind_ActivityHeartbeatRecordedV1
  | Payload_ActivityResultRecordedV1 _ => EventKind_ActivityResultRecordedV1
  | Payload_ActionReceiptRecordedV2 _ => EventKind_ActionReceiptRecordedV2
  | Payload_ActionReceiptSetRecordedV1 _ => EventKind_ActionReceiptSetRecordedV1
  | Payload_AttemptContextRecordedV1 _ => EventKind_AttemptContextRecordedV1
  | Payload_CandidateCreatedV1 _ => EventKind_CandidateCreated
  | Payload_CandidateCreatedV2 _ => EventKind_CandidateCreatedV2
  | Payload_CandidateCompletionRecordedV1 _ => EventKind_CandidateCompletionRecordedV1
  | Payload_CandidateAcceptanceRecordedV1 _ => EventKind_CandidateAcceptanceRecorded
  | Payload_ReviewVerdictRecordedV1 _ => EventKind_ReviewVerdictRecorded
  | Payload_ReviewVerdictRecordedV2 _ => EventKind_ReviewVerdictRecordedV2
  | Payload_PromotionApprovalRequestedV1 _ => EventKind_PromotionApprovalRequested
  | Payload_PromotionDecisionRecordedV1 _ => EventKind_PromotionDecisionRecorded
  | Payload_PromotionExecutionClaimedV1 _ => EventKind_PromotionExecutionClaimedV1
  | Payload_PromotionResultRecordedV1 _ => EventKind_PromotionResultRecorded
  | Payload_PromotionReconciliationResolvedV1 _ => EventKind_PromotionReconciliationResolved
  | Payload_ReleaseEvaluationEvidenceV1 _ => EventKind_ReleaseEvaluationEvidenceV1
  | Payload_WorkflowTimerScheduledV1 _ => EventKind_WorkflowTimerScheduledV1
  | Payload_WorkflowTimerFiredV1 _ => EventKind_WorkflowTimerFiredV1
  | Payload_WorkflowCancellationRequestedV1 _ => EventKind_WorkflowCancellationRequestedV1
  | Payload_WorkflowTerminalV1 _ => EventKind_WorkflowTerminal
  | Payload_WorkflowTerminalV2 _ => EventKind_WorkflowTerminalV2
  end.

Definition kind_variant (k : EventKind) : string :=
  match kind_to_variant (as_wire k) with Ok v => v | Err _ => "" end.

Lemma kind_to_variant_wire k : kind_to_variant (as_wire k) = Ok (kind_variant k).
Proof. by destruct k. Qed.

Lemma payload_variant_kind p : payload_variant_name p = kind_variant (payload_kind p).
Proof. by destruct p. Qed.

Lemma kind_variant_inj k1 k2 : kind_variant k1 = kind_variant k2 -> k1 = k2.
Proof.
  assert (Hk : forall k, find (fun k' => kind_variant k' == kind_variant k) event_kinds = Some k)
    by (intros []; vm_compute; reflexivity).
  intros Heq. pose proof (Hk k1) as H1. rewrite Heq, Hk in H1. by injection H1.
Qed.

Lemma kind_matches_iff k p :
  validate_kind_matches_payload (as_wire k) p = Ok tt <-> payload_kind p = k.
Proof.
  unfold validate_kind_matches_payload. rewrite kind_to_variant_wire. simpl.
  rewrite payload_variant_kind. split.
  - destruct (decide (payload_kind p = k)) as [|Hne]; [done|].
    rewrite bool_decide_eq_false_2 by (intros Heq; by apply Hne, kind_variant_inj). done.
  - intros ->. by rewrite bool_decide_eq_true_2.
Qed.

(** ** What the canonicaliser promises *)
Section Promises.
Context `{Host}.

Lemma canonicalize_iff event event' :
  ledger_canonicalize event = Ok event' <->
  event' = event /\ ev_schema_version event = CURRENT_SCHEMA_VERSION /\
  payload_kind (ev_payload event) = ev_kind event /\
  validate_event_semantics event = Ok tt /\
  validate_payload_semantics (as_wire (ev_kind event)) (ev_payload event) = Ok tt.
Proof.
  unfold ledger_canonicalize.
  destruct (decide (ev_schema_version event = CURRENT_SCHEMA_VERSION)) as [Hv|Hv].
  - rewrite bool_decide_eq_true_2 by done. simpl.
    rewrite !bind_unit_iff, kind_matches_iff. naive_solver.
  - rewrite bool_decide_eq_false_2 by done. naive_solver.
Qed.

(** C31. Canonicalisation always returns: for any event it hands back the event
    unchanged, or refuses it with a ledger error.  No [expect] fails, no
    in-degree underflows and the cycle check never runs on. *)
Theorem canonicalize_returns event :
  ledger_canonicalize event = Ok event \/
  exists error, ledger_canonicalize event = Err (Refused error).
Proof.
  assert (Hn : no_crash (ledger_canonicalize event)).
  { unfold ledger_canonicalize, validate_kind_matches_payload, kind_to_variant,
      validate_event_semantics. pose proof no_crash_payload. returns. }
  destruct (ledger_canonicalize event) as [event'|[error|crash]] eqn:Hc; [|by eauto|done].
  left. apply canonicalize_iff in Hc as [-> _]. done.
Qed.

(** C30. A workflow-graph declaration is accepted exactly when it is at the
    current schema version, of its kind and run, with the digest of its
    canonical content, and declares a graph whose units are named, strictly
    ordered and depend on declared units without a cycle. *)
Theorem graph_declaration_accepted_iff event d :
  ev_payload event = Payload_WorkflowGraphDeclaredV2 d ->
  ledger_canonicalize event = Ok event <->
  ev_schema_version event = CURRENT_SCHEMA_VERSION /\
  ev_kind event = EventKind_WorkflowGraphDeclaredV2 /\
  wgd2_run_id d = uuid_to_string (ev_run_id event) /\
  valid_graph_v2 d /\ workflow_graph_v2_digest d = Ok (wgd2_graph_digest d).
Proof.
  intros Hp. rewrite canonicalize_iff. unfold validate_event_semantics, validate_payload_semantics.
  rewrite Hp. cbn [payload_kind]. rewrite !bind_unit_iff, validate_graph_v2_iff, guard_ok, neqb_false.
  rewrite bind_ok_iff. setoid_rewrite map_err_ok_iff. setoid_rewrite refuse_ok.
  setoid_rewrite neqb_false. naive_solver.
Qed.

(** ** Digests bind what they name *)

(** What the envelope digest of a V5 dispatch hashes, and the UUIDs the hashed JSON
    prints. *)
Definition dispatch_preimage (d : DispatchEnvelopeV5) : string :=
  DISPATCH_ENVELOPE_V5_DIGEST_DOMAIN +:+ serde_json_to_vec (DispatchEnvelopeV5DigestMaterial_to_json d).
Definition dispatch_uuids (d : DispatchEnvelopeV5) : list Uuid :=
  [de4_workflow_graph_declaration_event_ref (de5_dispatch_v4 d);
   de5_context_manifest_declaration_event_ref d;
   de5_worker_manifest_declaration_event_ref d;
   de5_sandbox_profile_declaration_event_ref d] ++ option_list (de5_attempt_context_declaration_event_ref d).

(** The third-party functions tell two given dispatches apart: SHA-256 their two
    preimages, the JSON encoder their two values, and the UUID printer the ids in
    corresponding places. *)
Record told_apart (d1 d2 : DispatchEnvelopeV5) : Prop := {
  apart_sha256 : sha256_hex (dispatch_preimage d1) = sha256_hex (dispatch_preimage d2) ->
    dispatch_preimage d1 = dispatch_preimage d2;
  apart_json : serde_json_to_vec (DispatchEnvelopeV5DigestMaterial_to_json d1) =
      serde_json_to_vec (DispatchEnvelopeV5DigestMaterial_to_json d2) ->
    DispatchEnvelopeV5DigestMaterial_to_json d1 = DispatchEnvelopeV5DigestMaterial_to_json d2;
  apart_uuids : Forall (fun '(u, v) => uuid_to_string u = uuid_to_string v -> u = v)
    (zip (dispatch_uuids d1) (dispatch_uuids d2))
}.

Lemma append_inj_l (a b c : string) : a +:+ b = a +:+ c -> b = c.
Proof.
  intros Heq%RustStr.strip_prefix_Some. rewrite RustStr.strip_prefix_app in Heq. by injection Heq.
Qed.

(** The value of the [n]th member of an object. *)
Definition json_nth (n : nat) (j : Json) : Json :=
  match j with JObject l => nth n (map snd l) JNull | _ => JNull end.

Lemma body_json_inj x y :
  DispatchEnvelopeBodyV2_to_json x = DispatchEnvelopeBodyV2_to_json y -> x = y.
Proof.
  assert (Hrole : forall a b, ExecutionRoleV1_to_json a = ExecutionRoleV1_to_json b -> a = b)
    by (intros [] []; cbn; intros Heq; by simplify_eq).
  assert (Hmode : forall a b, CommitModeV1_to_json a = CommitModeV1_to_json b -> a = b)
    by (intros [] []; cbn; intros Heq; by simplify_eq).
  assert (Htier : forall a b, TrustTierV1_to_json a = TrustTierV1_to_json b -> a = b)
    by (intros [] []; cbn; intros Heq; by simplify_eq).
  assert (Hbudget : forall a b, DispatchBudgetV1_to_json a = DispatchBudgetV1_to_json b -> a = b)
    by (intros [[] []] [[] []]; unfold DispatchBudgetV1_to_json; cbn; intros Hb; by simplify_eq).
  destruct x, y. unfold DispatchEnvelopeBodyV2_to_json.
  cbn -[ExecutionRoleV1_to_json CommitModeV1_to_json TrustTierV1_to_json
    DispatchBudgetV1_to_json].
  intros Heq. injection Heq as ? ? ? ? Hr Hc ? ? ? ? ? ? ? Hb Ht ? ? ?.
  apply (f_equal JString), Hrole in Hr. apply (f_equal JString), Hmode in Hc.
  apply (f_equal JString), Htier in Ht. apply (f_equal JObject), Hbudget in Hb. by subst.
Qed.

Lemma dispatch_v3_json_inj x y :
  DispatchEnvelopeV3_to_json x = DispatchEnvelopeV3_to_json y -> x = y.
Proof.
  intros Heq.
  pose proof (f_equal (json_nth 0) Heq : DispatchEnvelopeBodyV2_to_json (de3_body x) =
    DispatchEnvelopeBodyV2_to_json (de3_body y)) as Hb%body_json_inj.
  destruct x as [b1 v1 r1 l1 g1 e1], y as [b2 v2 r2 l2 g2 e2]. simpl in Hb. subst b2.
  destruct v1, v2, g1, g2; cbn in Heq; by simplify_eq.
Qed.

Lemma dispatch_v4_json_inj x y :
  (uuid_to_string (de4_workflow_graph_declaration_event_ref x) =
     uuid_to_string (de4_workflow_graph_declaration_event_ref y) ->
   de4_workflow_graph_declaration_event_ref x = de4_workflow_graph_declaration_event_ref y) ->
  DispatchEnvelopeV4_to_json x = DispatchEnvelopeV4_to_json y -> x = y.
Proof.
  intros Huuid Heq.
  pose proof (f_equal (json_nth 0) Heq : DispatchEnvelopeV3_to_json (de4_dispatch_v3 x) =
    DispatchEnvelopeV3_to_json (de4_dispatch_v3 y)) as Hd%dispatch_v3_json_inj.
  destruct x as [d1 g1 r1 e1], y as [d2 g2 r2 e2]. simpl in Hd, Huuid. subst d2.
  injection Heq as -> Hu ->. by rewrite (Huuid Hu).
Qed.

(** The hashed JSON covers every field but the digest itself. *)
Lemma digest_material_inj d1 d2 :
  Forall (fun '(u, v) => uuid_to_string u = uuid_to_string v -> u = v)
    (zip (dispatch_uuids d1) (dispatch_uuids d2)) ->
  DispatchEnvelopeV5DigestMaterial_to_json d1 = DispatchEnvelopeV5DigestMaterial_to_json d2 ->
  de5_envelope_digest d1 = de5_envelope_digest d2 -> d1 = d2.
Proof.
  intros Huuids Hj Heq.
  destruct d1 as [v1 c1 cd1 w1 wd1 s1 sd1 a1 ad1 e1], d2 as [v2 c2 cd2 w2 wd2 s2 sd2 a2 ad2 e2].
  unfold dispatch_uuids in Huuids. cbn in Huuids.
  do 4 apply Forall_cons in Huuids as [? Huuids].
  pose proof (f_equal (json_nth 0) Hj : DispatchEnvelopeV4_to_json v1 = DispatchEnvelopeV4_to_json v2)
    as Hv%dispatch_v4_json_inj; [|done]. simpl in Heq. subst v2 e2.
  destruct a1 as [a1|], a2 as [a2|], ad1, ad2; cbn -[DispatchEnvelopeV4_to_json] in Hj, Huuids;
    try apply Forall_cons in Huuids as [? _]; simplify_eq; f_equal; auto; f_equal; auto.
Qed.

(** C32. The envelope digest binds the whole V5 dispatch: two accepted dispatches
    that differ in any field or nested envelope carry different digests, provided
    SHA-256 does not collide on the two strings hashed for them, and the JSON
    encoder and the UUID printer not on the values they are given there. *)
Theorem dispatch_digest_binds_the_dispatch event1 d1 event2 d2 :
  ev_payload event1 = Payload_DispatchEnvelopeV5 d1 ->
  ev_payload event2 = Payload_DispatchEnvelopeV5 d2 ->
  ledger_canonicalize event1 = Ok event1 -> ledger_canonicalize event2 = Ok event2 ->
  told_apart d1 d2 -> d1 <> d2 ->
  de5_envelope_digest d1 <> de5_envelope_digest d2.
Proof.
  intros Hp1 Hp2 H1 H2 [Hsha Hjson Huuids] Hne Heq. apply Hne.
  assert (Hdigest : forall event d, ev_payload event = Payload_DispatchEnvelopeV5 d ->
            ledger_canonicalize event = Ok event ->
            "sha256:" +:+ sha256_hex (dispatch_preimage d) = de5_envelope_digest d).
  { intros event d Hp Hc. apply canonicalize_iff in Hc as (_ & _ & _ & _ & Hv).
    unfold validate_payload_semantics in Hv. rewrite Hp in Hv.
    apply bind_unit_iff in Hv as [Hv _]. unfold validate_dispatch_envelope_v5_shape in Hv.
    assert (dispatch_envelope_v5_digest d = Ok (de5_envelope_digest d)) as Hd by (guards; congruence).
    by apply Ok_inj in Hd. }
  pose proof (Hdigest _ _ Hp1 H1) as Hd1. pose proof (Hdigest _ _ Hp2 H2) as Hd2.
  rewrite <- Heq, <- Hd1 in Hd2. apply append_inj_l, eq_sym, Hsha, append_inj_l, Hjson in Hd2.
  by apply digest_material_inj.
Qed.
End Promises.

(** ** Accepted declarations, evaluated *)
Module SampleCanonical.
Import Demo.
Definition digest_text : string := "sha256:" +:+ hex 64 11 "".
Definition of_result (r : Result string string) : string :=
  match r with Ok s => s | Err _ => "" end.

Definition event (kind : EventKind) (payload : Payload) : Event := {|
  ev_id := 40; ev_run_id := 7; ev_parent_event_id := None; ev_schema_version := 1;
  ev_kind := kind; ev_occurred_at := 10; ev_payload := payload |}.

(** Two units, the second after the first. *)
Definition node (unit_id : string) (depends_on : list string) : WorkflowGraphNodeV2 := {|
  wgn2_unit_id := unit_id; wgn2_depends_on := depends_on;
  wgn2_execution_role := ExecutionRoleV1_Implementer;
  wgn2_governed_packet_digest := digest_text |}.

Definition graph_with (graph_digest : string) : WorkflowGraphDeclaredV2 := {|
  wgd2_run_id := "7"; wgd2_workflow_id := "workflow"; wgd2_workflow_revision := "r1";
  wgd2_nodes := [node "build" []; node "test" ["build"]]; wgd2_max_concurrent := 1;
  wgd2_graph_digest := graph_digest; wgd2_idempotency_key := "declare";
  wgd2_declared_at := "9Z" |}.

Definition graph : WorkflowGraphDeclaredV2 :=
  graph_with (of_result (workflow_graph_v2_digest (graph_with ""))).

Lemma graph_declaration_accepted_iff_witness :
  ledger_canonicalize (event EventKind_WorkflowGraphDeclaredV2
    (Payload_WorkflowGraphDeclaredV2 graph)) =
    Ok (event EventKind_WorkflowGraphDeclaredV2 (Payload_WorkflowGraphDeclaredV2 graph)) /\
  valid_graph_v2 graph.
Proof.
  assert (Hok : ledger_canonicalize (event EventKind_WorkflowGraphDeclaredV2
    (Payload_WorkflowGraphDeclaredV2 graph)) =
    Ok (event EventKind_WorkflowGraphDeclaredV2 (Payload_WorkflowGraphDeclaredV2 graph)))
    by (vm_compute; reflexivity).
  split; [exact Hok|].
  exact (proj1 (proj2 (proj2 (proj2 (proj1 (graph_declaration_accepted_iff
    (event EventKind_WorkflowGraphDeclaredV2 (Payload_WorkflowGraphDeclaredV2 graph)) graph
    eq_refl) Hok))))).
Defined.

(** A governed V5 dispatch of the first attempt. *)
Definition body : DispatchEnvelopeBodyV2 := {|
  deb2_workflow_id := "workflow"; deb2_workflow_revision := "r1"; deb2_unit_id := "build";
  deb2_attempt := 1; deb2_execution_role := ExecutionRoleV1_Implementer;
  deb2_commit_mode := CommitModeV1_Atomic; deb2_provenance_ref := "origin";
  deb2_base_commit_sha := hex 40 5 ""; deb2_capability_bundle_digest := digest_text;
  deb2_acceptance_contract_digest := digest_text; deb2_context_manifest_digest := digest_text;
  deb2_worker_manifest_digest := digest_text; deb2_sandbox_profile_digest := digest_text;
  deb2_budget := {| db_max_tokens := Some 100; db_max_compute_time_ms := Some 100 |};
  deb2_trust_tier := TrustTierV1_Governed; deb2_idempotency_key := "dispatch";
  deb2_issued_at := "10Z"; deb2_expires_at := "20Z" |}.

Definition v3 : DispatchEnvelopeV3 := {|
  de3_body := body; de3_action_evidence_version := ActionEvidenceVersionV1_SealedV3;
  de3_repository_binding_digest := digest_text; de3_ledger_authority_realm_digest := digest_text;
  de3_governed_packet_digest := Some digest_text;
  de3_envelope_digest := of_result (dispatch_envelope_v3_body_digest body
    ActionEvidenceVersionV1_SealedV3 digest_text digest_text (Some digest_text)) |}.

Definition v4 : DispatchEnvelopeV4 := {|
  de4_dispatch_v3 := v3; de4_workflow_graph_digest := digest_text;
  de4_workflow_graph_declaration_event_ref := 40;
  de4_envelope_digest := of_result (dispatch_envelope_v4_digest v3 digest_text 40) |}.

Definition v5_with (envelope_digest : string) : DispatchEnvelopeV5 := {|
  de5_dispatch_v4 := v4; de5_context_manifest_declaration_event_ref := 41;
  de5_context_manifest_digest := digest_text; de5_worker_manifest_declaration_event_ref := 42;
  de5_worker_manifest_digest := digest_text; de5_sandbox_profile_declaration_event_ref := 43;
  de5_sandbox_profile_digest := digest_text; de5_attempt_context_declaration_event_ref := None;
  de5_attempt_context_digest := None; de5_envelope_digest := envelope_digest |}.

Definition v5 : DispatchEnvelopeV5 :=
  v5_with (of_result (dispatch_envelope_v5_digest (v5_with ""))).

(** The same dispatch under another worker manifest declaration. *)
Definition other_with (envelope_digest : string) : DispatchEnvelopeV5 :=
  let d := v5_with envelope_digest in {| d with de5_worker_manifest_declaration_event_ref := 44 |}.
Definition other_v5 : DispatchEnvelopeV5 :=
  other_with (of_result (dispatch_envelope_v5_digest (other_with ""))).

Lemma v5_told_apart : told_apart v5 other_v5.
Proof.
  split.
  - intros Heq. exfalso. revert Heq. vm_compute. discriminate.
  - intros Heq. exfalso. revert Heq. vm_compute. discriminate.
  - change (Forall (fun '(u, v) => uuid_to_string u = uuid_to_string v -> u = v)
      [(40, 40); (41, 41); (42, 44); (43, 43)]).
    repeat apply Forall_cons_2; [done|done| |done|apply Forall_nil_2].
    intros Heq. exfalso. revert Heq. vm_compute. discriminate.
Qed.

(** The two dispatches are accepted, told apart by the demo host, and carry different
    digests. *)
Lemma dispatch_digest_binds_the_dispatch_witness :
  told_apart v5 other_v5 /\ de5_envelope_digest v5 <> de5_envelope_digest other_v5.
Proof.
  split; [exact v5_told_apart|].
  apply (dispatch_digest_binds_the_dispatch
    (event EventKind_DispatchEnvelopeV5 (Payload_DispatchEnvelopeV5 v5)) _
    (event EventKind_DispatchEnvelopeV5 (Payload_DispatchEnvelopeV5 other_v5)) _).
  - reflexivity.
  - reflexivity.
  - vm_compute. reflexivity.
  - vm_compute. reflexivity.
  - exact v5_told_apart.
  - intros Heq. apply (f_equal de5_worker_manifest_declaration_event_ref) in Heq. discriminate Heq.
Defined.
End SampleCanonical.
