(* ===== verification/ReducerCore.v ===== *)
(** * The workflow reducer: shared definitions

    The helpers of [bp-replay/src/transitions.rs] every handler uses: the keys
    of the durable maps, the migration of the singular compatibility view, the
    lookups that bind an incoming event to one workflow, action or claim, the
    predicates that decide whether a record repeats or contradicts an immutable
    one, and the validators of dispatch envelopes.

    A handler of the source mutates [state] and leaves early through
    [reject_workflow_transition(..); return] or a bare [return].  Its model is
    a [Verdict]: the next state, or the [Exit] it left through; [finish] turns
    a verdict into the resulting state. *)
From Stdlib Require Import Ascii.
From S2P Require Import Prelude RustStr Host LedgerPayloads TrustSpine Digests Events ReplayState.
From stdpp Require Import base list gmap strings pretty.

#[local] Open Scope string_scope.
#[local] Open Scope list_scope.
#[local] Open Scope Z_scope.

Record WorkflowTerminalFields := {
  wtfl_workflow_id : string;
  wtfl_workflow_revision : string;
  wtfl_unit_id : string;
  wtfl_attempt : u32;
  wtfl_outcome : WorkflowTerminalOutcomeV1;
  wtfl_candidate_digest : option string;
  wtfl_promotion_result_ref : option string;
  wtfl_reconciliation_resolution_ref : option string;
  wtfl_cancellation_request_event_ref : option EventId;
  wtfl_cancellation_request_event_digest : option string;
  wtfl_reason : option string;
  wtfl_idempotency_key : string;
  wtfl_completed_at : string
}.

Record DispatchEnvelopeAuthorityFields := {
  deaf_workflow_id : string;
  deaf_workflow_revision : string;
  deaf_unit_id : string;
  deaf_attempt : u32;
  deaf_provenance_ref : string;
  deaf_base_commit_sha : string;
  deaf_capability_bundle_digest : string;
  deaf_acceptance_contract_digest : string;
  deaf_context_manifest_digest : string;
  deaf_worker_manifest_digest : string;
  deaf_sandbox_profile_digest : string;
  deaf_budget : DispatchBudgetV1;
  deaf_trust_tier : TrustTierV1;
  deaf_commit_mode : CommitModeV1;
  deaf_idempotency_key : string;
  deaf_issued_at : string;
  deaf_expires_at : string
}.

Definition CANDIDATE_CREATE_ACTION_ID_PREFIX : string := "git-candidate-create:".
Definition RETRY_CANDIDATE_CREATE_ACTION_ID_SEGMENT : string := ":git-candidate-create:".
Definition RETRY_CANDIDATE_CREATE_IDEMPOTENCY_SUFFIX : string := ":idempotency".
Definition RETRY_ACTION_NAMESPACE_DELIMITER : string := ":".

(** ** Verdicts

    How a handler leaves: a rejected workflow or activity transition (an issue
    is appended), an ignored duplicate, or a panic ([expect], [unreachable!]). *)
Inductive Exit :=
| Rejected (reason : string)
| RejectedActivity (activity_id reason : string)
| Ignored
| Panicked.

Abbreviation Verdict := (Result ReplayState Exit).

(** How a lookup that contains an [expect] fails: with a reason, or by a panic. *)
Inductive Fault :=
| Reason (reason : string)
| Panic.

Definition activity_fault (activity_id : string) (fault : Fault) : Exit :=
  match fault with
  | Reason reason => RejectedActivity activity_id reason
  | Panic => Panicked
  end.

Section Reducer.
Context `{Host, Canonicalizer}.

(** The derived [Debug] of a phase: its variant name. *)
Definition workflow_phase_debug (phase : WorkflowPhaseV1) : string :=
  match phase with
  | WorkflowPhaseV1_Dispatched => "Dispatched"
  | WorkflowPhaseV1_CandidateCreated => "CandidateCreated"
  | WorkflowPhaseV1_AcceptancePassed => "AcceptancePassed"
  | WorkflowPhaseV1_ReviewApproved => "ReviewApproved"
  | WorkflowPhaseV1_PromotionApprovalPending => "PromotionApprovalPending"
  | WorkflowPhaseV1_PromotionPending => "PromotionPending"
  | WorkflowPhaseV1_PromotionReconciliationRequired => "PromotionReconciliationRequired"
  | WorkflowPhaseV1_PromotionReconciliationResolved => "PromotionReconciliationResolved"
  | WorkflowPhaseV1_Promoted => "Promoted"
  | WorkflowPhaseV1_CancellationRequested => "CancellationRequested"
  | WorkflowPhaseV1_Rejected => "Rejected"
  | WorkflowPhaseV1_Completed => "Completed"
  | WorkflowPhaseV1_Failed => "Failed"
  | WorkflowPhaseV1_Cancelled => "Cancelled"
  end.

(** The nested scan shared by the lookups below: every [(workflow key, action
    id)] whose action satisfies a predicate, over the workflows that satisfy
    another. *)
Definition find_actions (st : ReplayState) (workflow_ok : WorkflowInstanceV1 -> bool)
    (action_ok : ActionReplayState -> bool) : list (string * string) :=
  '(key, workflow) ← btree_list (st_workflow_instances st);
  if negb (workflow_ok workflow) then [] else
  match wi_action_evidence workflow with
  | None => []
  | Some evidence =>
      '(action_id, action) ← btree_list (aes_actions evidence);
      if action_ok action then [(key, action_id)] else []
  end.

Definition governed_workflow_run_exists (st : ReplayState) (run_id : string) : bool :=
  (map_any (fun workflow =>
    (wi_run_id workflow == run_id)
    && (wd_trust_tier (wi_dispatch workflow) == TrustTierV1_Governed)) (st_workflow_instances st))
  || (is_some_and (st_workflow_instance st) (fun workflow =>
    (wi_run_id workflow == run_id)
    && (wd_trust_tier (wi_dispatch workflow) == TrustTierV1_Governed))).

Definition governed_activity_bracketing_is_required_for_run (st : ReplayState)
    (event : Event)
    (activity_id : string)
    (predeclared_governed_run : bool)
    : bool :=
  predeclared_governed_run
  || (governed_workflow_run_exists st (uuid_to_string (ev_run_id event)))
  || (is_some_and (((st_activities st) !! activity_id) ≫= (fun activity =>
      ras_run_id activity)) (fun run_id => governed_workflow_run_exists st run_id)).

Definition governed_activity_bracketing_is_required (st : ReplayState)
    (event : Event)
    (activity_id : string)
    : bool :=
  governed_activity_bracketing_is_required_for_run st event activity_id false.

Definition validate_dispatch_run_scope (st : ReplayState)
    (event : Event)
    (incoming_trust_tier : TrustTierV1)
    : Result unit string :=
  let run_id := uuid_to_string (ev_run_id event) in
  let existing_run_workflows := List.filter (fun workflow => wi_run_id workflow == run_id)
      (map_values (st_workflow_instances st)) in
  fail_if existsb (fun workflow => wd_trust_tier (wi_dispatch workflow) != incoming_trust_tier)
      existing_run_workflows
    with "raw and governed dispatch envelopes cannot mix within one activity V1 run scope" ;;
  fail_if
      (incoming_trust_tier == TrustTierV1_Governed)
      && (list_is_empty existing_run_workflows)
      && (map_any (fun activity => ras_run_id activity == Some run_id) (st_activities st))
    with "first governed dispatch must precede every activity V1 bracket in its run scope" ;;
  Ok tt.

Definition reject_activity_transition (st : ReplayState) (event : Event)
    (activity_id reason : string) : ReplayState :=
  {| st with st_issues := st_issues st ++
       [ReplayIssue_ActivityTransitionRejected (ev_id event) activity_id reason] |}.

Definition workflow_instance_key (workflow_id unit_id : string) (attempt : u32) : string :=
  pretty (String.length workflow_id) +:+ ":" +:+ workflow_id +:+ pretty (String.length unit_id)
      +:+ ":" +:+ unit_id +:+ ":" +:+ pretty attempt.

Definition ensure_workflow_instances (st : ReplayState) : ReplayState :=
  if map_is_empty (st_workflow_instances st) then
    match st_workflow_instance st with
    | Some workflow =>
        let key := workflow_instance_key (wi_workflow_id workflow) (wi_unit_id workflow)
                     (wi_attempt workflow) in
        {| st with st_workflow_instances := <[key := workflow]> (st_workflow_instances st) |}
    | None => st
    end
  else st.

Definition sync_workflow_compatibility_view (st : ReplayState) (key : string) : ReplayState :=
  {| st with st_workflow_instance := st_workflow_instances st !! key |}.

Definition workflow_graph_key (run_id workflow_id workflow_revision : string) : string :=
  pretty (String.length run_id) +:+ ":" +:+ run_id +:+ pretty (String.length workflow_id) +:+ ":"
      +:+ workflow_id +:+ pretty (String.length workflow_revision) +:+ ":" +:+ workflow_revision.

Definition workflow_graph_matches (existing : WorkflowGraphReplayState)
    (declaration : WorkflowGraphDeclaredV1)
    : bool :=
  (wgs_run_id existing == wgd1_run_id declaration)
  && (wgs_workflow_id existing == wgd1_workflow_id declaration)
  && (wgs_workflow_revision existing == wgd1_workflow_revision declaration)
  && (wgs_nodes existing == wgd1_nodes declaration)
  && (wgs_max_concurrent existing == wgd1_max_concurrent declaration)
  && (wgs_graph_digest existing == wgd1_graph_digest declaration)
  && (wgs_idempotency_key existing == wgd1_idempotency_key declaration)
  && (wgs_declared_at existing == wgd1_declared_at declaration).

Definition workflow_graph_v2_matches (existing : WorkflowGraphV2ReplayState)
    (declaration : WorkflowGraphDeclaredV2)
    : bool :=
  (wg2s_run_id existing == wgd2_run_id declaration)
  && (wg2s_workflow_id existing == wgd2_workflow_id declaration)
  && (wg2s_workflow_revision existing == wgd2_workflow_revision declaration)
  && (wg2s_nodes existing == wgd2_nodes declaration)
  && (wg2s_max_concurrent existing == wgd2_max_concurrent declaration)
  && (wg2s_graph_digest existing == wgd2_graph_digest declaration)
  && (wg2s_idempotency_key existing == wgd2_idempotency_key declaration)
  && (wg2s_declared_at existing == wgd2_declared_at declaration).

Definition workflow_graph_has_dispatched (st : ReplayState)
    (run_id workflow_id workflow_revision : string)
    : bool :=
  (map_any (fun workflow =>
    (wi_run_id workflow == run_id)
    && (wi_workflow_id workflow == workflow_id)
    && (wi_workflow_revision workflow == workflow_revision)) (st_workflow_instances st))
  || (is_some_and (st_workflow_instance st) (fun workflow =>
    (wi_run_id workflow == run_id)
    && (wi_workflow_id workflow == workflow_id)
    && (wi_workflow_revision workflow == workflow_revision))).

Definition workflow_graph_v2_has_dispatched (st : ReplayState)
    (run_id workflow_id workflow_revision : string)
    : bool :=
  (map_any (fun workflow =>
    ((wd_dispatch_version (wi_dispatch workflow) =? 4) || (wd_dispatch_version (wi_dispatch
        workflow) =? 5))
    && (wi_run_id workflow == run_id)
    && (wi_workflow_id workflow == workflow_id)
    && (wi_workflow_revision workflow == workflow_revision)) (st_workflow_instances st))
  || (is_some_and (st_workflow_instance st) (fun workflow =>
    ((wd_dispatch_version (wi_dispatch workflow) =? 4) || (wd_dispatch_version (wi_dispatch
        workflow) =? 5))
    && (wi_run_id workflow == run_id)
    && (wi_workflow_id workflow == workflow_id)
    && (wi_workflow_revision workflow == workflow_revision))).

Definition workflow_graph_v2_has_other_revision (st : ReplayState)
    (run_id workflow_id workflow_revision : string)
    : bool :=
  map_any (fun graph =>
    (wg2s_run_id graph == run_id)
    && (wg2s_workflow_id graph == workflow_id)
    && (wg2s_workflow_revision graph != workflow_revision)) (st_workflow_graphs_v2 st).

Definition event_matches_workflow_run (workflow : WorkflowInstanceV1) (event : Event) : bool :=
  wi_run_id workflow == uuid_to_string (ev_run_id event).

Definition workflow_instance_has_cross_revision_identity (st : ReplayState)
    (event : Event)
    (workflow_id workflow_revision unit_id : string)
    (attempt : u32)
    : bool :=
  map_any (fun workflow =>
    (event_matches_workflow_run workflow event)
    && (wi_workflow_id workflow == workflow_id)
    && (wi_unit_id workflow == unit_id)
    && (wi_attempt workflow == attempt)
    && (wi_workflow_revision workflow != workflow_revision)) (st_workflow_instances st).

(** The NUL character. *)
Definition nul : string := String zero "".

Definition manifest_declaration_key (run_id workflow_id workflow_revision unit_id : string)
    (attempt : u32)
    : string :=
  run_id +:+ nul +:+ workflow_id +:+ nul +:+ workflow_revision +:+ nul +:+ unit_id +:+ nul +:+
      pretty attempt.

Definition manifest_declaration_arrived_after_v5_dispatch (st : ReplayState)
    (run_id workflow_id workflow_revision unit_id : string)
    (attempt : u32)
    : bool :=
  existsb (fun workflow =>
    (wd_dispatch_version (wi_dispatch workflow) == 5)
    && (wi_run_id workflow == run_id)
    && (wi_workflow_id workflow == workflow_id)
    && (wi_workflow_revision workflow == workflow_revision)
    && (wi_unit_id workflow == unit_id)
    && (wi_attempt workflow == attempt)) ((map_values (st_workflow_instances st)) ++ option_list
        (st_workflow_instance st)).

Definition validate_manifest_declaration_identity (st : ReplayState)
    (event : Event)
    (run_id workflow_id workflow_revision unit_id : string)
    (attempt : u32)
    : Result string string :=
  fail_if run_id != uuid_to_string (ev_run_id event)
    with "manifest declaration run_id does not match its event run_id" ;;
  fail_if manifest_declaration_arrived_after_v5_dispatch st run_id workflow_id workflow_revision
      unit_id attempt
    with "manifest declaration arrived after the V5 dispatch it could otherwise authorize" ;;
  Ok (manifest_declaration_key run_id workflow_id workflow_revision unit_id attempt).

Definition find_workflow_key_for_candidate (st : ReplayState)
    (event : Event)
    (candidate_digest : string)
    (candidate_commit_sha : option string)
    : Result string string :=
  let matches := filter_keys (fun '(_, workflow) =>
    (event_matches_workflow_run workflow event)
    && (is_some_and (wi_candidate workflow) (fun candidate =>
      (ca_candidate_digest candidate == candidate_digest)
      && (default true ((fun commit => ca_candidate_commit_sha candidate == commit) <$>
          candidate_commit_sha))))) (st_workflow_instances st) in
  match matches with
  | [key] => Ok key
  | [] => Err "candidate evidence has no matching immutable candidate/workflow"
  | _ => Err "candidate evidence is ambiguous across workflow unit attempts"
  end.

Definition find_workflow_key_for_terminal (st : ReplayState)
    (event : Event)
    (terminal : WorkflowTerminalFields)
    : Result string string :=
  let key := workflow_instance_key (wtfl_workflow_id terminal) (wtfl_unit_id terminal)
      (wtfl_attempt terminal) in
  some_or workflow := (st_workflow_instances st) !! key
    with "terminal workflow record has no matching workflow unit attempt" ;;
  fail_if
      (negb (event_matches_workflow_run workflow event))
      || (wi_workflow_revision workflow != wtfl_workflow_revision terminal)
      || (negb (match wtfl_candidate_digest terminal with
      | Some candidate_digest =>
          is_some_and (wi_candidate workflow) (fun candidate => ca_candidate_digest candidate ==
              candidate_digest)
      | None => is_none (wi_candidate workflow)
      end))
    with "terminal workflow record does not bind the matching workflow unit attempt" ;;
  Ok key.

Definition supports_sealed_action_evidence (workflow : WorkflowInstanceV1) : bool :=
  ((wd_dispatch_version (wi_dispatch workflow) =? 3) || (wd_dispatch_version (wi_dispatch
      workflow) =? 4) || (wd_dispatch_version (wi_dispatch workflow) =? 5))
  && (match wd_action_evidence_version (wi_dispatch workflow) with
  | Some (ActionEvidenceVersionV1_SealedV2 | ActionEvidenceVersionV1_SealedV3) => true
  | _ => false
  end).

Definition workflow_supports_native_activity_claim (workflow : WorkflowInstanceV1) : bool :=
  (supports_sealed_action_evidence workflow)
  && (wd_trust_tier (wi_dispatch workflow) == TrustTierV1_Governed)
  && (wd_commit_mode (wi_dispatch workflow) == CommitModeV1_Atomic)
  && (is_some (wi_action_evidence workflow)).

Definition requires_activity_claim_result (workflow : WorkflowInstanceV1) : bool :=
  wd_action_evidence_version (wi_dispatch workflow) == Some ActionEvidenceVersionV1_SealedV3.

Definition workflow_is_governed_atomic_sealed_v3 (workflow : WorkflowInstanceV1) : bool :=
  (workflow_supports_native_activity_claim workflow)
  && (requires_activity_claim_result workflow).

Definition find_workflow_key_for_lifecycle (st : ReplayState)
    (event : Event)
    (run_id workflow_id workflow_revision unit_id : string)
    (attempt : u32)
    (dispatch_event_ref : EventId)
    (dispatch_envelope_digest : string)
    : Result string string :=
  fail_if run_id != uuid_to_string (ev_run_id event)
    with "workflow lifecycle record run_id does not match its event run_id" ;;
  let key := workflow_instance_key workflow_id unit_id attempt in
  some_or workflow := (st_workflow_instances st) !! key
    with "workflow lifecycle record has no prior dispatch envelope" ;;
  fail_if
      (negb (event_matches_workflow_run workflow event))
      || (wi_workflow_revision workflow != workflow_revision)
      || (wd_event_id (wi_dispatch workflow) != dispatch_event_ref)
      || (wd_envelope_digest (wi_dispatch workflow) != dispatch_envelope_digest)
    with "workflow lifecycle record does not bind the exact dispatched unit attempt" ;;
  fail_if negb (workflow_is_governed_atomic_sealed_v3 workflow)
    with "workflow lifecycle records require a governed atomic sealed_v3 dispatch envelope" ;;
  Ok key.

Definition validate_retry_dispatch_context (st : ReplayState)
    (event : Event)
    (dispatch : DispatchEnvelopeV3)
    : Result AttemptContextReplayState string :=
  let body := de3_body dispatch in
  let_some context := (st_attempt_contexts st) !! (de3_envelope_digest dispatch) else (let
      has_same_retry_identity := map_any (fun existing =>
    let existing := acs_context existing in
    (acr_run_id existing == uuid_to_string (ev_run_id event))
    && (acr_workflow_id existing == deb2_workflow_id body)
    && (acr_workflow_revision existing == deb2_workflow_revision body)
    && (acr_unit_id existing == deb2_unit_id body)
    && (acr_next_attempt existing == deb2_attempt body)) (st_attempt_contexts st) in
  Err (if has_same_retry_identity then
      "recorded prior-attempt context does not bind the exact next dispatch envelope digest"
  else "governed sealed_v3 retry dispatch requires a recorded prior-attempt context")) ;;
  let attempt_context := acs_context context in
  fail_if
      (acr_run_id attempt_context != uuid_to_string (ev_run_id event))
      || (acr_workflow_id attempt_context != deb2_workflow_id body)
      || (acr_workflow_revision attempt_context != deb2_workflow_revision body)
      || (acr_unit_id attempt_context != deb2_unit_id body)
      || (acr_next_attempt attempt_context != deb2_attempt body)
      || (acr_next_dispatch_envelope_digest attempt_context != de3_envelope_digest dispatch)
      || (acr_next_dispatch_idempotency_key attempt_context != deb2_idempotency_key body)
    with "recorded prior-attempt context does not bind the exact next dispatch envelope digest or idempotency key" ;;
  Ok context.

Definition validate_retry_dispatch_context_v4 (st : ReplayState)
    (event : Event)
    (dispatch : DispatchEnvelopeV4)
    : Result AttemptContextReplayState string :=
  let body := de3_body (de4_dispatch_v3 dispatch) in
  let_some context := (st_attempt_contexts st) !! (de4_envelope_digest dispatch) else (let
      has_same_retry_identity := map_any (fun existing =>
    let existing := acs_context existing in
    (acr_run_id existing == uuid_to_string (ev_run_id event))
    && (acr_workflow_id existing == deb2_workflow_id body)
    && (acr_workflow_revision existing == deb2_workflow_revision body)
    && (acr_unit_id existing == deb2_unit_id body)
    && (acr_next_attempt existing == deb2_attempt body)) (st_attempt_contexts st) in
  Err (if has_same_retry_identity then
      "recorded prior-attempt context does not bind the exact next graph-bound V4 dispatch envelope digest"
  else "governed graph-bound V4 retry dispatch requires a recorded prior-attempt context")) ;;
  let attempt_context := acs_context context in
  fail_if
      (acr_run_id attempt_context != uuid_to_string (ev_run_id event))
      || (acr_workflow_id attempt_context != deb2_workflow_id body)
      || (acr_workflow_revision attempt_context != deb2_workflow_revision body)
      || (acr_unit_id attempt_context != deb2_unit_id body)
      || (acr_next_attempt attempt_context != deb2_attempt body)
      || (acr_next_dispatch_envelope_digest attempt_context != de4_envelope_digest dispatch)
      || (acr_next_dispatch_idempotency_key attempt_context != deb2_idempotency_key body)
    with "recorded prior-attempt context does not bind the exact next graph-bound V4 dispatch envelope digest or idempotency key" ;;
  Ok context.

Definition validate_retry_dispatch_context_v5 (st : ReplayState)
    (event : Event)
    (dispatch : DispatchEnvelopeV5)
    (declared_attempt_context : option AttemptContextDeclarationReplayState)
    : Result AttemptContextReplayState string :=
  let body := de3_body (de4_dispatch_v3 (de5_dispatch_v4 dispatch)) in
  some_or declared_attempt_context := declared_attempt_context
    with "manifest-bound V5 retry dispatch is missing its bound attempt context declaration" ;;
  fail_if
      (acds_run_id declared_attempt_context != uuid_to_string (ev_run_id event))
      || (acds_workflow_id declared_attempt_context != deb2_workflow_id body)
      || (acds_workflow_revision declared_attempt_context != deb2_workflow_revision body)
      || (acds_unit_id declared_attempt_context != deb2_unit_id body)
      || (acds_attempt declared_attempt_context != deb2_attempt body)
      || (acds_provenance_ref declared_attempt_context != deb2_provenance_ref body)
      || (acc_attempt (acds_attempt_context declared_attempt_context) != deb2_attempt body)
    with "manifest-bound V5 retry declaration does not bind the exact run/workflow/revision/unit/attempt/provenance" ;;
  let_some context := (st_attempt_contexts st) !! (de5_envelope_digest dispatch) else (let
      has_same_retry_identity := map_any (fun existing =>
    let existing := acs_context existing in
    (acr_run_id existing == uuid_to_string (ev_run_id event))
    && (acr_workflow_id existing == deb2_workflow_id body)
    && (acr_workflow_revision existing == deb2_workflow_revision body)
    && (acr_unit_id existing == deb2_unit_id body)
    && (acr_next_attempt existing == deb2_attempt body)) (st_attempt_contexts st) in
  Err (if has_same_retry_identity then
      "recorded prior-attempt context does not bind the exact manifest-bound V5 dispatch envelope digest"
  else "governed manifest-bound V5 retry dispatch requires a recorded prior-attempt context")) ;;
  let attempt_context := acs_context context in
  fail_if
      (acr_run_id attempt_context != uuid_to_string (ev_run_id event))
      || (acr_workflow_id attempt_context != deb2_workflow_id body)
      || (acr_workflow_revision attempt_context != deb2_workflow_revision body)
      || (acr_unit_id attempt_context != deb2_unit_id body)
      || (acr_next_attempt attempt_context != deb2_attempt body)
      || (acr_next_dispatch_envelope_digest attempt_context != de5_envelope_digest dispatch)
      || (acr_next_dispatch_idempotency_key attempt_context != deb2_idempotency_key body)
    with "recorded prior-attempt context does not bind the exact manifest-bound V5 dispatch envelope digest or idempotency key" ;;
  fail_if
      negb (existsb (fun feedback =>
        (afb_feedback_ref feedback == acr_feedback_ref attempt_context)
        && (afb_feedback_digest feedback == acr_feedback_digest attempt_context))
            (acc_retry_feedback (acds_attempt_context declared_attempt_context)))
    with "recorded prior-attempt context retry feedback does not bind an exact manifest-bound V5 retry feedback artifact" ;;
  Ok context.

Definition validate_v4_graph_binding (st : ReplayState)
    (event : Event)
    (dispatch : DispatchEnvelopeV4)
    : Result WorkflowGraphV2ReplayState string :=
  let body := de3_body (de4_dispatch_v3 dispatch) in
  let run_id := uuid_to_string (ev_run_id event) in
  let key := workflow_graph_key run_id (deb2_workflow_id body) (deb2_workflow_revision body) in
  some_or graph := (st_workflow_graphs_v2 st) !! key
    with "graph-bound V4 dispatch requires a previously declared V2 workflow graph for the same run/workflow/revision" ;;
  fail_if wg2s_event_id graph != de4_workflow_graph_declaration_event_ref dispatch
    with "graph-bound V4 dispatch workflow_graph_declaration_event_ref does not name the immutable V2 graph declaration" ;;
  fail_if wg2s_graph_digest graph != de4_workflow_graph_digest dispatch
    with "graph-bound V4 dispatch workflow_graph_digest does not match the immutable V2 graph declaration" ;;
  fail_if
      (wg2s_run_id graph != run_id)
      || (wg2s_workflow_id graph != deb2_workflow_id body)
      || (wg2s_workflow_revision graph != deb2_workflow_revision body)
    with "graph-bound V4 dispatch graph declaration identity does not match its run/workflow/revision" ;;
  let matching_nodes := List.filter (fun node => wgn2_unit_id node == deb2_unit_id body)
      (wg2s_nodes graph) in
  match matching_nodes with
  | [node] =>
  fail_if wgn2_execution_role node != deb2_execution_role body
    with "graph-bound V4 dispatch execution role does not match its immutable V2 workflow graph node" ;;
  fail_if de3_governed_packet_digest (de4_dispatch_v3 dispatch) != Some
      (wgn2_governed_packet_digest node)
    with "graph-bound V4 dispatch governed packet digest does not match its immutable V2 workflow graph node" ;;
  Ok graph
  | _ =>
      Err (if list_is_empty matching_nodes then
          "graph-bound V4 dispatch unit_id is missing from its immutable V2 workflow graph"
  else "graph-bound V4 dispatch unit_id is ambiguous in its immutable V2 workflow graph")
  end.

(** The latest attempt of a dependency: [max_by_key] returns the last of the
    maximal elements in key order. *)
Fixpoint max_by_attempt (l : list WorkflowInstanceV1) (best : option WorkflowInstanceV1)
    : option WorkflowInstanceV1 :=
  match l with
  | [] => best
  | workflow :: rest =>
      max_by_attempt rest
        (match best with
         | Some b => if wi_attempt workflow <? wi_attempt b then Some b else Some workflow
         | None => Some workflow
         end)
  end.

Definition is_same_graph_workflow (event : Event) (body : DispatchEnvelopeBodyV2)
    (graph : WorkflowGraphV2ReplayState) (workflow : WorkflowInstanceV1) : bool :=
  event_matches_workflow_run workflow event
  && ((wd_dispatch_version (wi_dispatch workflow) =? 4)
      || (wd_dispatch_version (wi_dispatch workflow) =? 5))
  && (wi_workflow_id workflow == deb2_workflow_id body)
  && (wi_workflow_revision workflow == deb2_workflow_revision body)
  && (wd_workflow_graph_digest (wi_dispatch workflow) == Some (wg2s_graph_digest graph))
  && (wd_workflow_graph_declaration_event_ref (wi_dispatch workflow)
      == Some (wg2s_event_id graph)).

Definition validate_v4_graph_schedule (st : ReplayState) (event : Event)
    (dispatch : DispatchEnvelopeV4) : Result unit string :=
  let body := de3_body (de4_dispatch_v3 dispatch) in
  let run_id := uuid_to_string (ev_run_id event) in
  let key := workflow_graph_key run_id (deb2_workflow_id body) (deb2_workflow_revision body) in
  some_or graph := st_workflow_graphs_v2 st !! key
    with "graph-bound V4 dispatch schedule has no immutable V2 workflow graph" ;;
  some_or node := List.find (fun node => wgn2_unit_id node == deb2_unit_id body)
                    (wg2s_nodes graph)
    with "graph-bound V4 dispatch schedule has no matching immutable graph node" ;;
  let workflows := (btree_list (st_workflow_instances st)).*2 in
  let* _ := for_each (fun dependency_unit_id =>
      let dependency := max_by_attempt
        (List.filter (fun workflow => is_same_graph_workflow event body graph workflow
                                 && (wi_unit_id workflow == dependency_unit_id)) workflows) None in
      some_or dependency := dependency
        with ("graph-bound V4 dispatch dependency " +:+ dependency_unit_id +:+
              " has not completed successfully") ;;
      fail_if wi_phase dependency != WorkflowPhaseV1_Completed
        with ("graph-bound V4 dispatch dependency " +:+ dependency_unit_id +:+
              " has not completed successfully") ;;
      Ok tt) (wgn2_depends_on node) in
  let active := length (List.filter (fun workflow =>
    is_same_graph_workflow event body graph workflow && negb (is_terminal (wi_phase workflow)))
    workflows) in
  fail_if wg2s_max_concurrent graph <=? Z.of_nat active
    with ("graph-bound V4 dispatch would exceed immutable graph max_concurrent " +:+
          pretty (wg2s_max_concurrent graph)) ;;
  Ok tt.

(** [u64::checked_add]. *)
Definition checked_add_u64 (a b : u64) : option u64 :=
  if a + b <? 2 ^ 64 then Some (a + b) else None.

Definition model_receipt_token_total (resource_usage : ActionResourceUsageV1) (label : string)
    : Result (option u64) string :=
  match aru_input_tokens resource_usage, aru_output_tokens resource_usage with
  | None, None => Ok None
  | Some input, Some output =>
      some_or total := checked_add_u64 input output
        with (label +:+
              " input_tokens plus output_tokens overflows the durable token total") ;;
      Ok (Some total)
  | _, _ => Err (label +:+ " must provide input_tokens and output_tokens together")
  end.

(** The accounting loop over the prior actions, in key order. *)
Fixpoint prior_model_tokens (current_action_id : string)
    (actions : list (string * ActionReplayState)) (aggregate : u64) : Result u64 string :=
  match actions with
  | [] => Ok aggregate
  | (action_id, action) :: rest =>
      if (action_id == current_action_id)
         || (arqs_action_kind (acts_request action) != ActionKindV1_Model)
      then prior_model_tokens current_action_id rest aggregate else
      match acts_receipt action with
      | None => prior_model_tokens current_action_id rest aggregate
      | Some receipt =>
          let* prior_total :=
            model_receipt_token_total (arcs_resource_usage receipt) "prior model receipt" in
          some_or prior_total := prior_total
            with "a prior model receipt under signed max_tokens lacks a complete input_tokens/output_tokens pair, so a later model success would have an unknowable aggregate" ;;
          some_or aggregate := checked_add_u64 aggregate prior_total
            with "governed model token aggregate overflowed while accounting prior receipts" ;;
          prior_model_tokens current_action_id rest aggregate
      end
  end.

Definition validate_governed_model_token_budget (workflow : WorkflowInstanceV1)
    (evidence : ActionEvidenceReplayState) (current_action_id : string)
    (current : ActionReceiptRecordedV2) : Result unit string :=
  if (wd_trust_tier (wi_dispatch workflow) != TrustTierV1_Governed)
     || negb (requires_activity_claim_result workflow) then Ok tt else
  match db_max_tokens (wd_budget (wi_dispatch workflow)) with
  | None => Ok tt
  | Some max_tokens =>
      let* current_total :=
        model_receipt_token_total (arr2_resource_usage current) "successful model receipt" in
      some_or current_total := current_total
        with "governed sealed_v3 model success under signed max_tokens requires both input_tokens and output_tokens" ;;
      let* aggregate :=
        prior_model_tokens current_action_id (btree_list (aes_actions evidence)) 0 in
      some_or total := checked_add_u64 aggregate current_total
        with "governed model token aggregate overflowed while accounting the current receipt" ;;
      fail_if max_tokens <? total
        with ("governed model token aggregate " +:+ pretty total +:+
              " exceeds the signed max_tokens budget of " +:+ pretty max_tokens) ;;
      Ok tt
  end.

Definition workflow_lifecycle_control_is_allowed (workflow : WorkflowInstanceV1) : bool :=
  (negb (is_terminal (wi_phase workflow)))
  && (is_none (wi_cancellation workflow))
  && (negb (match wi_phase workflow with
  | WorkflowPhaseV1_PromotionApprovalPending => true
  | WorkflowPhaseV1_PromotionPending => true
  | WorkflowPhaseV1_PromotionReconciliationRequired => true
  | WorkflowPhaseV1_PromotionReconciliationResolved => true
  | WorkflowPhaseV1_Promoted => true
  | _ => false
  end)).

Definition cancellation_effects_are_reconciled (workflow : WorkflowInstanceV1) : bool :=
  is_none_or (wi_action_evidence workflow) (fun evidence =>
    map_all (fun action =>
      let_some claim := acts_activity_claim action else true ;;
      let_some result := acls_result claim else false ;;
      (arxs_outcome result != ActivityResultOutcomeV1_Unknown)
      && (is_some (acts_receipt action))) (aes_actions evidence)).

Definition validate_v3_event_payload (event : Event) : Result unit string :=
  map_err (fun error => "V3 action evidence payload is not canonical: " +:+ error) (result_map
      (fun _ => tt) (canonicalize event)).

Definition validate_v4_event_payload (event : Event) : Result unit string :=
  map_err (fun error => "graph-bound V4 dispatch payload is not canonical: " +:+ error)
      (result_map (fun _ => tt) (canonicalize event)).

Definition validate_v5_event_payload (event : Event) : Result unit string :=
  map_err (fun error => "manifest-bound V5 payload is not canonical: " +:+ error) (result_map (fun
      _ => tt) (canonicalize event)).

Definition find_v3_workflow_key_for_model_authorization (st : ReplayState)
    (event : Event)
    (authorization : ModelActionAuthorizedV1)
    : Result string string :=
  fail_if maa1_run_id authorization != uuid_to_string (ev_run_id event)
    with "model action authorization run_id does not match its event run_id" ;;
  let key := workflow_instance_key (maa1_workflow_id authorization) (maa1_unit_id authorization)
      (maa1_attempt authorization) in
  some_or workflow := (st_workflow_instances st) !! key
    with "model action authorization has no prior V3 dispatch envelope" ;;
  fail_if negb (event_matches_workflow_run workflow event)
    with "model action authorization belongs to a different run" ;;
  fail_if
      (negb (supports_sealed_action_evidence workflow))
      || (wd_trust_tier (wi_dispatch workflow) != TrustTierV1_Governed)
    with "model action authorization requires a governed sealed V3 dispatch envelope" ;;
  fail_if
      (wi_workflow_id workflow != maa1_workflow_id authorization)
      || (wi_unit_id workflow != maa1_unit_id authorization)
      || (wi_attempt workflow != maa1_attempt authorization)
      || (wd_provenance_ref (wi_dispatch workflow) != maa1_provenance_ref authorization)
      || (uuid_to_string (wd_event_id (wi_dispatch workflow)) != maa1_dispatch_event_ref
          authorization)
      || (wd_envelope_digest (wi_dispatch workflow) != maa1_dispatch_envelope_digest authorization)
      || (wd_context_manifest_digest (wi_dispatch workflow) != maa1_context_manifest_digest
          authorization)
      || (wd_sandbox_profile_digest (wi_dispatch workflow) != maa1_sandbox_profile_digest
          authorization)
      || (wd_execution_role (wi_dispatch workflow) != maa1_execution_role authorization)
    with "model action authorization lineage does not match the signed V3 dispatch envelope" ;;
  Ok key.

Definition find_v3_workflow_key_for_action (st : ReplayState)
    (event : Event)
    (run_id workflow_id unit_id : string)
    (attempt : u32)
    (provenance_ref dispatch_envelope_digest : string)
    (repository_binding_digest ledger_authority_realm_digest governed_packet_digest : option string)
    (capability_bundle_digest context_manifest_digest worker_manifest_digest
        sandbox_profile_digest : string)
    (execution_role : ExecutionRoleV1)
    : Result string string :=
  fail_if run_id != uuid_to_string (ev_run_id event)
    with "action evidence payload run_id does not match its event run_id" ;;
  let key := workflow_instance_key workflow_id unit_id attempt in
  some_or workflow := (st_workflow_instances st) !! key
    with "action evidence has no prior V3 dispatch envelope" ;;
  fail_if negb (event_matches_workflow_run workflow event)
    with "action evidence belongs to a different run" ;;
  fail_if negb (supports_sealed_action_evidence workflow)
    with "action evidence requires a sealed V3 dispatch envelope" ;;
  fail_if wd_trust_tier (wi_dispatch workflow) != TrustTierV1_Governed
    with "V3 action evidence requires a governed dispatch envelope" ;;
  fail_if
      (wi_workflow_id workflow != workflow_id)
      || (wi_unit_id workflow != unit_id)
      || (wi_attempt workflow != attempt)
      || (wd_provenance_ref (wi_dispatch workflow) != provenance_ref)
      || (wd_envelope_digest (wi_dispatch workflow) != dispatch_envelope_digest)
      || (is_some_and repository_binding_digest (fun digest =>
          wd_repository_binding_digest (wi_dispatch workflow) != Some digest))
      || (is_some_and ledger_authority_realm_digest (fun digest =>
          wd_ledger_authority_realm_digest (wi_dispatch workflow) != Some digest))
      || (is_some_and governed_packet_digest (fun digest =>
          wd_governed_packet_digest (wi_dispatch workflow) != Some digest))
      || (is_some_and governed_packet_digest (fun digest =>
          wd_governed_packet_digest (wi_dispatch workflow) != Some digest))
      || (wd_capability_bundle_digest (wi_dispatch workflow) != capability_bundle_digest)
      || (wd_context_manifest_digest (wi_dispatch workflow) != context_manifest_digest)
      || (wd_worker_manifest_digest (wi_dispatch workflow) != worker_manifest_digest)
      || (wd_sandbox_profile_digest (wi_dispatch workflow) != sandbox_profile_digest)
      || (wd_execution_role (wi_dispatch workflow) != execution_role)
    with "action evidence lineage does not match the signed V3 dispatch envelope" ;;
  Ok key.

Definition find_v3_workflow_key_for_activity_claim (st : ReplayState) (event : Event)
    (claim : ActivityClaimedV1) : Result (string * string) Fault :=
  fail_if acl_run_id claim != ev_run_id event
    with (Reason "activity claim run_id does not match its event run_id") ;;
  let keys := filter_keys (fun '(key, workflow) =>
    event_matches_workflow_run workflow event
    && (wd_event_id (wi_dispatch workflow) == acl_dispatch_event_id claim)
    && (wd_envelope_digest (wi_dispatch workflow) == acl_dispatch_envelope_digest claim))
    (st_workflow_instances st) in
  match keys with
  | [key] =>
      some_or workflow := st_workflow_instances st !! key
        with Panic ;;
      fail_if negb (workflow_supports_native_activity_claim workflow)
        with (Reason "activity claim requires a governed atomic sealed V3 dispatch envelope") ;;
      some_or evidence := wi_action_evidence workflow
        with Panic ;;
      let action_ids := filter_keys (fun '(action_id, action) =>
        arqs_event_id (acts_request action) == acl_action_request_event_id claim)
        (aes_actions evidence) in
      match action_ids with
      | [action_id] => Ok (key, action_id)
      | [] => Err (Reason "activity claim has no prior exact V3 action request event binding")
      | _ => Err (Reason "activity claim action-request event is bound to more than one action")
      end
  | [] => Err (Reason "activity claim has no exact prior V3 dispatch event/digest binding")
  | _ => Err (Reason "activity claim dispatch event/digest binds more than one workflow")
  end.

Definition find_v3_workflow_key_for_activity_result (st : ReplayState) (event : Event)
    (result : ActivityResultRecordedV1) : Result (string * string) string :=
  fail_if arx_run_id result != ev_run_id event
    with "activity result run_id does not match its event run_id" ;;
  match find_actions st
          (fun workflow => wi_run_id workflow == uuid_to_string (arx_run_id result))
          (fun action => is_some_and (acts_activity_claim action) (fun claim =>
             acls_event_id claim == arx_claim_event_id result)) with
  | [matched] => Ok matched
  | [] => Err "activity result has no prior immutable activity claim"
  | _ => Err "activity result claim event is bound to more than one action"
  end.

Definition find_v3_workflow_key_for_activity_heartbeat (st : ReplayState) (event : Event)
    (heartbeat : ActivityHeartbeatRecordedV1) : Result (string * string) Fault :=
  fail_if ahb_run_id heartbeat != ev_run_id event
    with (Reason "activity heartbeat run_id does not match its event run_id") ;;
  match find_actions st
          (fun workflow => wi_run_id workflow == uuid_to_string (ahb_run_id heartbeat))
          (fun action => is_some_and (acts_activity_claim action) (fun claim =>
             acls_event_id claim == ahb_claim_event_id heartbeat)) with
  | [matched] =>
      some_or workflow := st_workflow_instances st !! matched.1
        with Panic ;;
      fail_if negb (workflow_supports_native_activity_claim workflow)
           || negb (requires_activity_claim_result workflow)
        with (Reason "activity heartbeat requires a governed atomic sealed_v3 dispatch envelope") ;;
      Ok matched
  | [] => Err (Reason "activity heartbeat has no prior immutable activity claim")
  | _ => Err (Reason "activity heartbeat claim event is bound to more than one action")
  end.

Definition requires_candidate_completion (workflow : WorkflowInstanceV1) : bool :=
  (requires_activity_claim_result workflow)
  && (wd_trust_tier (wi_dispatch workflow) == TrustTierV1_Governed)
  && (is_some_and (wi_candidate workflow) (fun candidate => is_some (ca_action_receipt_set_ref
      candidate))).

Definition uses_context_bound_retry_candidate_action_identity (workflow : WorkflowInstanceV1)
    : bool :=
  (1 <? wi_attempt workflow)
  && (wd_dispatch_version (wi_dispatch workflow) == 3)
  && (wd_trust_tier (wi_dispatch workflow) == TrustTierV1_Governed)
  && (wd_action_evidence_version (wi_dispatch workflow) == Some ActionEvidenceVersionV1_SealedV3).

Definition candidate_ref_binds_candidate_id_run_and_attempt
    (candidate_ref candidate_id event_run_id : string) (attempt : u32) : bool :=
  if negb (is_canonical_buildplane_candidate_ref candidate_ref) then false else
  let_some suffix := RustStr.strip_prefix BUILDPANE_CANDIDATE_REF_PREFIX candidate_ref else false ;;
  match str_split "/"%char suffix with
  | [candidate_ref_id; candidate_run_id; candidate_attempt] =>
      (candidate_ref_id == candidate_id)
      && (candidate_run_id == event_run_id)
      && (candidate_attempt == pretty attempt)
  | _ => false
  end.

Definition candidate_create_action_identity_matches_candidate (workflow : WorkflowInstanceV1)
    (action_id idempotency_key candidate_ref candidate_id event_run_id : string)
    : bool :=
  if negb (candidate_ref_binds_candidate_id_run_and_attempt candidate_ref candidate_id
      event_run_id (wi_attempt workflow)) then
    false
  else
  let_some candidate_key := RustStr.strip_prefix BUILDPANE_CANDIDATE_REF_PREFIX candidate_ref else
      false ;;
  if negb (uses_context_bound_retry_candidate_action_identity workflow) then
    action_id == CANDIDATE_CREATE_ACTION_ID_PREFIX +:+ candidate_key
  else
  let_some retry_context := wi_retry_context workflow else false ;;
  let expected_action_id := (acr_retry_action_namespace (acs_context retry_context)) +:+
      RETRY_CANDIDATE_CREATE_ACTION_ID_SEGMENT +:+ candidate_key in
  (action_id == expected_action_id)
  && (idempotency_key == expected_action_id +:+ RETRY_CANDIDATE_CREATE_IDEMPOTENCY_SUFFIX).

Definition retry_action_identity_uses_namespace (identity namespace : string) : bool :=
  if namespace == "" then
    false
  else
  let prefix := namespace +:+ RETRY_ACTION_NAMESPACE_DELIMITER in
  is_some_and (RustStr.strip_prefix prefix identity) (fun suffix => negb (suffix == "")).

Definition validate_retry_action_namespace (st : ReplayState)
    (workflow : WorkflowInstanceV1)
    (request : ActionRequestedV2)
    : Result unit string :=
  let is_governed_sealed_v3_retry := (1 <? wi_attempt workflow)
  && ((wd_dispatch_version (wi_dispatch workflow) =? 3) || (wd_dispatch_version (wi_dispatch
      workflow) =? 4) || (wd_dispatch_version (wi_dispatch workflow) =? 5))
  && (wd_trust_tier (wi_dispatch workflow) == TrustTierV1_Governed)
  && (wd_action_evidence_version (wi_dispatch workflow) == Some ActionEvidenceVersionV1_SealedV3) in
  if negb is_governed_sealed_v3_retry then
    Ok tt
  else
  some_or consumed_context := wi_retry_context workflow
    with "governed sealed_v3 retry action requires the dispatch to retain its consumed retry context" ;;
  let namespace := acr_retry_action_namespace (acs_context consumed_context) in
  fail_if
      (negb (retry_action_identity_uses_namespace (ar2_action_id request) namespace))
      || (negb (retry_action_identity_uses_namespace (ar2_idempotency_key request) namespace))
    with "governed sealed_v3 retry action_id and idempotency_key must each use the signed retry action namespace `${retry_action_namespace}:<non-empty suffix>`" ;;
  let context := acs_context consumed_context in
  let prior_key := workflow_instance_key (acr_workflow_id context) (acr_unit_id context)
      (acr_prior_attempt context) in
  let* _ := match (st_workflow_instances st) !! prior_key with
  | Some prior =>
      fail_if
          is_some_and (wi_action_evidence prior) (fun evidence =>
            map_any (fun action =>
              (arqs_action_id (acts_request action) == ar2_action_id request)
              || (arqs_idempotency_key (acts_request action) == ar2_idempotency_key request))
                  (aes_actions evidence))
        with "governed sealed_v3 retry action cannot reuse a prior-attempt action_id or idempotency_key" ;;
      Ok tt
  | _ => Ok tt
  end in
  Ok tt.

Definition find_v3_workflow_key_for_set (st : ReplayState)
    (event : Event)
    (set : ActionReceiptSetRecordedV1)
    : Result string string :=
  fail_if arset_run_id set != uuid_to_string (ev_run_id event)
    with "action receipt set run_id does not match its event run_id" ;;
  let key := workflow_instance_key (arset_workflow_id set) (arset_unit_id set) (arset_attempt set)
      in
  some_or workflow := (st_workflow_instances st) !! key
    with "action receipt set has no prior V3 dispatch envelope" ;;
  fail_if negb (event_matches_workflow_run workflow event)
    with "action receipt set belongs to a different run" ;;
  fail_if
      (negb (supports_sealed_action_evidence workflow))
      || (wd_trust_tier (wi_dispatch workflow) != TrustTierV1_Governed)
    with "action receipt set requires a governed sealed V3 dispatch envelope" ;;
  fail_if
      (wd_provenance_ref (wi_dispatch workflow) != arset_provenance_ref set)
      || (wd_envelope_digest (wi_dispatch workflow) != arset_dispatch_envelope_digest set)
    with "action receipt set lineage does not match the signed V3 dispatch envelope" ;;
  Ok key.

Definition find_v3_reviewer_workflow_for_review (st : ReplayState)
    (event : Event)
    (review : ReviewVerdictRecordedV2)
    : Result string string :=
  fail_if
      negb (match rv2_reviewer_execution_role review with
      | ExecutionRoleV1_Reviewer => true
      | ExecutionRoleV1_Adversary => true
      | ExecutionRoleV1_Judge => true
      | _ => false
      end)
    with "review v2 requires a read-only reviewer, adversary, or judge role" ;;
  let key := workflow_instance_key (rv2_reviewer_workflow_id review) (rv2_reviewer_unit_id review)
      (rv2_reviewer_attempt review) in
  some_or workflow := (st_workflow_instances st) !! key
    with "review v2 has no prior reviewer V3 dispatch envelope" ;;
  fail_if negb (event_matches_workflow_run workflow event)
    with "review v2 reviewer dispatch belongs to a different run" ;;
  fail_if
      (negb (supports_sealed_action_evidence workflow))
      || (wd_trust_tier (wi_dispatch workflow) != TrustTierV1_Governed)
      || (wd_commit_mode (wi_dispatch workflow) != CommitModeV1_Atomic)
    with "review v2 requires a governed atomic sealed V3 reviewer dispatch" ;;
  fail_if
      (wi_workflow_id workflow != rv2_reviewer_workflow_id review)
      || (wi_unit_id workflow != rv2_reviewer_unit_id review)
      || (wi_attempt workflow != rv2_reviewer_attempt review)
      || (wd_envelope_digest (wi_dispatch workflow) != rv2_reviewer_dispatch_envelope_digest review)
      || (wd_execution_role (wi_dispatch workflow) != rv2_reviewer_execution_role review)
      || (wd_worker_manifest_digest (wi_dispatch workflow) != rv2_reviewer_manifest_digest review)
    with "review v2 reviewer dispatch identity does not match the signed V3 envelope" ;;
  Ok key.

Definition review_action_evidence_is_successful (evidence : ActionEvidenceReplayState) : bool :=
  let_some set := aes_sealed_receipt_set evidence else false ;;
  (negb (list_is_empty (arss_receipts set)))
  && ((length (arss_receipts set) =? size (aes_actions evidence))%nat)
  && (list_is_empty (aes_pending_action_ids evidence))
  && (list_is_empty (aes_unknown_action_ids evidence))
  && (list_is_empty (aes_failed_action_ids evidence))
  && (forallb (fun entry =>
    is_some_and ((aes_actions evidence) !! (arse_action_id entry)) (fun action =>
      is_some_and (acts_receipt action) (fun receipt =>
        (arcs_outcome receipt == ActionReceiptOutcomeV2_Succeeded)
        && (arcs_action_receipt_ref receipt == arse_action_receipt_ref entry)
        && (arcs_action_receipt_digest receipt == arse_action_receipt_digest entry))))
            (arss_receipts set)).

(** The three-way classification of one action in the recovery scan. *)
Definition claim_result_is (action : ActionReplayState) (outcome : ActivityResultOutcomeV1) : bool :=
  is_some_and (acts_activity_claim action ≫= acls_result) (fun result =>
    arxs_outcome result == outcome).
Definition action_is_unknown (action : ActionReplayState) : bool :=
  claim_result_is action ActivityResultOutcomeV1_Unknown
  || is_some_and (acts_receipt action) (fun receipt =>
       arcs_outcome receipt == ActionReceiptOutcomeV2_Unknown).
Definition action_is_failed (action : ActionReplayState) : bool :=
  claim_result_is action ActivityResultOutcomeV1_Failed
  || is_some_and (acts_receipt action) (fun receipt =>
       match arcs_outcome receipt with
       | ActionReceiptOutcomeV2_Failed | ActionReceiptOutcomeV2_Denied => true
       | _ => false
       end).

(** One pass over the actions in key order, appending each id to the queue the
    action belongs to. *)
Definition refresh_action_evidence_recovery (evidence : ActionEvidenceReplayState)
    : ActionEvidenceReplayState :=
  let sealed_v3 := aes_action_evidence_version evidence == ActionEvidenceVersionV1_SealedV3 in
  let '(pending, unknown, failed) :=
    foldl (fun '(pending, unknown, failed) '(action_id, action) =>
      if action_is_unknown action then (pending, unknown ++ [action_id], failed)
      else if sealed_v3 && action_is_failed action then (pending, unknown, failed ++ [action_id])
      else if is_none (acts_receipt action) then (pending ++ [action_id], unknown, failed)
      else (pending, unknown, failed))
      ([], [], []) (btree_list (aes_actions evidence)) in
  {| evidence with aes_pending_action_ids := pending; aes_unknown_action_ids := unknown;
     aes_failed_action_ids := failed |}.

Definition activity_claim_matches_action (workflow : WorkflowInstanceV1)
    (request : ActionRequestReplayState)
    (claim : ActivityClaimedV1)
    : bool :=
  (uuid_to_string (acl_run_id claim) == wi_run_id workflow)
  && (acl_activity_id claim == arqs_action_id request)
  && (acl_idempotency_key claim == arqs_idempotency_key request)
  && (acl_action_kind claim == arqs_action_kind request)
  && (acl_action_request_event_id claim == arqs_event_id request)
  && (acl_action_request_digest claim == arqs_action_request_digest request)
  && (acl_dispatch_event_id claim == wd_event_id (wi_dispatch workflow))
  && (acl_dispatch_envelope_digest claim == wd_envelope_digest (wi_dispatch workflow)).

Definition parse_rfc3339_utc (value : string) : option DateTime :=
  if negb (ends_with "Z" value) then None else parse_from_rfc3339 value.

Definition effective_dispatch_effect_deadline (workflow : WorkflowInstanceV1) : option DateTime :=
  let_some issued_at := parse_rfc3339_utc (wd_issued_at (wi_dispatch workflow)) else None ;;
  let_some dispatch_expires_at := parse_rfc3339_utc (wd_expires_at (wi_dispatch workflow))
    else None ;;
  let_some max_compute_time_ms := db_max_compute_time_ms (wd_budget (wi_dispatch workflow))
    else (Some dispatch_expires_at) ;;
  let_some compute_deadline := checked_add_milliseconds issued_at max_compute_time_ms else None ;;
  Some (Z.min compute_deadline dispatch_expires_at).

Definition activity_claim_timestamps_are_valid (workflow : WorkflowInstanceV1)
    (request : ActionRequestReplayState)
    (event : Event)
    (claim : ActivityClaimedV1)
    (require_occurred_at_binding : bool)
    : bool :=
  let_some claimed_at := parse_rfc3339_utc (acl_claimed_at claim) else false ;;
  let_some lease_expires_at := parse_rfc3339_utc (acl_lease_expires_at claim) else false ;;
  let_some requested_at := parse_rfc3339_utc (arqs_requested_at request) else false ;;
  let_some issued_at := parse_rfc3339_utc (wd_issued_at (wi_dispatch workflow)) else false ;;
  let_some effective_deadline := effective_dispatch_effect_deadline workflow else false ;;
  ((negb require_occurred_at_binding) || (claimed_at == ev_occurred_at event))
  && (requested_at <=? claimed_at)
  && (issued_at <=? claimed_at)
  && (claimed_at <? lease_expires_at)
  && (lease_expires_at <=? effective_deadline).

Definition sealed_v3_model_authority_is_live_at (workflow : WorkflowInstanceV1)
    (action : ActionReplayState)
    (activity_at : string)
    : bool :=
  let_some intent := acts_model_intent action else false ;;
  let_some authorization := acts_model_authorization action else false ;;
  let_some intended_at := parse_rfc3339_utc (mais_intended_at intent) else false ;;
  let_some requested_at := parse_rfc3339_utc (arqs_requested_at (acts_request action)) else false ;;
  let_some authorized_at := (maas_authorized_at authorization) ≫= parse_rfc3339_utc else false ;;
  let_some activity_at := parse_rfc3339_utc activity_at else false ;;
  let_some expires_at := parse_rfc3339_utc (maas_expires_at authorization) else false ;;
  let_some deadline := effective_dispatch_effect_deadline workflow else false ;;
  (maas_authorization_version authorization == 2)
  && (maas_intent_event_ref authorization == Some (mais_event_id intent))
  && (maas_intent_digest authorization == Some (mais_intent_digest intent))
  && (mais_dispatch_event_ref intent == wd_event_id (wi_dispatch workflow))
  && (mais_dispatch_envelope_digest intent == wd_envelope_digest (wi_dispatch workflow))
  && (mais_action_request_event_ref intent == arqs_event_id (acts_request action))
  && (mais_action_request_digest intent == arqs_action_request_digest (acts_request action))
  && (mais_canonical_input_ref intent == arqs_canonical_input_ref (acts_request action))
  && (mais_canonical_input_digest intent == arqs_canonical_input_digest (acts_request action))
  && (maas_dispatch_event_ref authorization == uuid_to_string (wd_event_id (wi_dispatch workflow)))
  && (maas_dispatch_envelope_digest authorization == wd_envelope_digest (wi_dispatch workflow))
  && (maas_action_request_ref authorization == uuid_to_string (arqs_event_id (acts_request action)))
  && (maas_action_request_digest authorization == arqs_action_request_digest (acts_request action))
  && (maas_packet_digest authorization == default "" (wd_governed_packet_digest (wi_dispatch
      workflow)))
  && (maas_canonical_input_digest authorization == arqs_canonical_input_digest (acts_request
      action))
  && (maas_context_manifest_digest authorization == wd_context_manifest_digest (wi_dispatch
      workflow))
  && (maas_policy_digest authorization == arqs_policy_digest (acts_request action))
  && (maas_sandbox_profile_digest authorization == wd_sandbox_profile_digest (wi_dispatch workflow))
  && (maas_execution_role authorization == arqs_execution_role (acts_request action))
  && (maas_candidate_binding authorization == mais_candidate_binding intent)
  && (is_canonical_sha256_digest (mais_intent_digest intent))
  && (is_canonical_sha256_digest (maas_model_request_digest authorization))
  && (is_canonical_sha256_digest (maas_trust_scope_digest authorization))
  && (is_canonical_sha256_digest (maas_authorization_digest authorization))
  && (negb (trim_is_empty (mais_intent_actor intent)))
  && (negb (trim_is_empty (maas_authorization_actor authorization)))
  && (negb (trim_is_empty (maas_authorization_ref authorization)))
  && (requested_at <=? intended_at)
  && (intended_at <=? authorized_at)
  && (authorized_at <=? activity_at)
  && (activity_at <? expires_at)
  && (expires_at <=? deadline).

Definition activity_claim_matches_existing (existing : ActivityClaimReplayState)
    (event : Event)
    (claim : ActivityClaimedV1)
    (claim_event_digest : string)
    (signer : option ActorKeyRef)
    : bool :=
  (acls_event_id existing == ev_id event)
  && (acls_claim_event_digest existing == claim_event_digest)
  && (acls_run_id existing == uuid_to_string (acl_run_id claim))
  && (acls_activity_id existing == acl_activity_id claim)
  && (acls_idempotency_key existing == acl_idempotency_key claim)
  && (acls_action_kind existing == acl_action_kind claim)
  && (acls_action_request_event_id existing == acl_action_request_event_id claim)
  && (acls_action_request_digest existing == acl_action_request_digest claim)
  && (acls_dispatch_event_id existing == acl_dispatch_event_id claim)
  && (acls_dispatch_envelope_digest existing == acl_dispatch_envelope_digest claim)
  && (acls_authority_actor existing == acl_authority_actor claim)
  && (acls_purpose existing == acl_purpose claim)
  && (acls_lease_id existing == acl_lease_id claim)
  && (acls_lease_expires_at existing == acl_lease_expires_at claim)
  && (acls_claimed_at existing == acl_claimed_at claim)
  && (acls_signer existing == signer).

Definition activity_heartbeat_matches_claim (claim : ActivityClaimReplayState)
    (heartbeat : ActivityHeartbeatRecordedV1)
    : bool :=
  (acls_run_id claim == uuid_to_string (ahb_run_id heartbeat))
  && (acls_activity_id claim == ahb_activity_id heartbeat)
  && (acls_idempotency_key claim == ahb_idempotency_key heartbeat)
  && (acls_event_id claim == ahb_claim_event_id heartbeat)
  && (acls_claim_event_digest claim == ahb_claim_event_digest heartbeat)
  && (acls_lease_id claim == ahb_lease_id heartbeat)
  && (acls_dispatch_event_id claim == ahb_dispatch_event_id heartbeat)
  && (acls_dispatch_envelope_digest claim == ahb_dispatch_envelope_digest heartbeat).

Definition activity_heartbeat_timestamps_are_valid (workflow : WorkflowInstanceV1)
    (claim : ActivityClaimReplayState)
    (event : Event)
    (heartbeat : ActivityHeartbeatRecordedV1)
    : bool :=
  let_some claimed_at := parse_rfc3339_utc (acls_claimed_at claim) else false ;;
  let_some current_lease_expires_at := parse_rfc3339_utc (acls_lease_expires_at claim) else false ;;
  let_some heartbeat_at := parse_rfc3339_utc (ahb_heartbeat_at heartbeat) else false ;;
  let_some next_lease_expires_at := parse_rfc3339_utc (ahb_lease_expires_at heartbeat) else false ;;
  let_some effective_deadline := effective_dispatch_effect_deadline workflow else false ;;
  let previous_heartbeat_is_earlier := from_option (fun previous => previous <? heartbeat_at) true
      ((last (acls_heartbeats claim)) ≫= (fun previous => parse_rfc3339_utc (ahs_heartbeat_at
          previous))) in
  (heartbeat_at == ev_occurred_at event)
  && (claimed_at <=? heartbeat_at)
  && (heartbeat_at <? current_lease_expires_at)
  && (current_lease_expires_at <? next_lease_expires_at)
  && (next_lease_expires_at <=? effective_deadline)
  && previous_heartbeat_is_earlier.

Definition activity_heartbeat_matches_existing (existing : ActivityHeartbeatReplayState)
    (event : Event)
    (heartbeat : ActivityHeartbeatRecordedV1)
    (heartbeat_event_digest : string)
    : bool :=
  (ahs_event_id existing == ev_id event)
  && (ahs_event_digest existing == heartbeat_event_digest)
  && (ahs_run_id existing == uuid_to_string (ahb_run_id heartbeat))
  && (ahs_activity_id existing == ahb_activity_id heartbeat)
  && (ahs_idempotency_key existing == ahb_idempotency_key heartbeat)
  && (ahs_heartbeat_id existing == ahb_heartbeat_id heartbeat)
  && (ahs_heartbeat_request_digest existing == ahb_heartbeat_request_digest heartbeat)
  && (ahs_claim_event_id existing == ahb_claim_event_id heartbeat)
  && (ahs_claim_event_digest existing == ahb_claim_event_digest heartbeat)
  && (ahs_lease_id existing == ahb_lease_id heartbeat)
  && (ahs_dispatch_event_id existing == ahb_dispatch_event_id heartbeat)
  && (ahs_dispatch_envelope_digest existing == ahb_dispatch_envelope_digest heartbeat)
  && (ahs_lease_expires_at existing == ahb_lease_expires_at heartbeat)
  && (ahs_heartbeat_at existing == ahb_heartbeat_at heartbeat).

Definition activity_result_matches_claim (claim : ActivityClaimReplayState)
    (result : ActivityResultRecordedV1)
    : bool :=
  (acls_run_id claim == uuid_to_string (arx_run_id result))
  && (acls_activity_id claim == arx_activity_id result)
  && (acls_idempotency_key claim == arx_idempotency_key result)
  && (acls_event_id claim == arx_claim_event_id result)
  && (acls_claim_event_digest claim == arx_claim_event_digest result)
  && (acls_lease_id claim == arx_lease_id result).

Definition activity_result_timestamp_is_valid (claim : ActivityClaimReplayState)
    (event : Event)
    (result : ActivityResultRecordedV1)
    (require_occurred_at_binding : bool)
    : bool :=
  let_some claimed_at := parse_rfc3339_utc (acls_claimed_at claim) else false ;;
  let_some lease_expires_at := parse_rfc3339_utc (acls_lease_expires_at claim) else false ;;
  let_some recorded_at := parse_rfc3339_utc (arx_recorded_at result) else false ;;
  ((negb require_occurred_at_binding) || (recorded_at == ev_occurred_at event))
  && (claimed_at <=? recorded_at)
  && ((recorded_at <? lease_expires_at)
  || (arx_outcome result == ActivityResultOutcomeV1_Unknown)).

Definition activity_result_matches_existing (existing : ActivityResultReplayState)
    (event : Event)
    (result : ActivityResultRecordedV1)
    : bool :=
  (arxs_event_id existing == ev_id event)
  && (arxs_run_id existing == uuid_to_string (arx_run_id result))
  && (arxs_activity_id existing == arx_activity_id result)
  && (arxs_idempotency_key existing == arx_idempotency_key result)
  && (arxs_claim_event_id existing == arx_claim_event_id result)
  && (arxs_claim_event_digest existing == arx_claim_event_digest result)
  && (arxs_lease_id existing == arx_lease_id result)
  && (arxs_outcome existing == arx_outcome result)
  && (arxs_result_digest existing == arx_result_digest result)
  && (arxs_result_ref existing == arx_result_ref result)
  && (arxs_evidence_digest existing == arx_evidence_digest result)
  && (arxs_evidence_ref existing == arx_evidence_ref result)
  && (arxs_recorded_at existing == arx_recorded_at result).

Definition activity_claim_result_matches_receipt (claim : ActivityClaimReplayState)
    (receipt : ActionReceiptRecordedV2)
    (require_strict_activity_evidence : bool)
    : bool :=
  let_some result := acls_result claim else false ;;
  if require_strict_activity_evidence
  && ((arr2_evidence_digest receipt != arxs_evidence_digest result)
  || (arr2_evidence_ref receipt != arxs_evidence_ref result)) then
    false
  else
  if require_strict_activity_evidence then
    match arxs_outcome result with
    | ActivityResultOutcomeV1_Succeeded =>
        (arr2_outcome receipt == ActionReceiptOutcomeV2_Succeeded)
        && (arr2_result_digest receipt == arxs_result_digest result)
        && (arr2_result_ref receipt == arxs_result_ref result)
    | ActivityResultOutcomeV1_Failed =>
        (arr2_outcome receipt == ActionReceiptOutcomeV2_Failed)
        && (is_some_and (arr2_failure receipt) (fun failure => negb (af_retryable failure)))
    | ActivityResultOutcomeV1_Unknown => arr2_outcome receipt == ActionReceiptOutcomeV2_Unknown
    end
  else
  match arxs_outcome result with
  | ActivityResultOutcomeV1_Succeeded =>
      (arr2_outcome receipt == ActionReceiptOutcomeV2_Succeeded)
      && (arr2_result_digest receipt == arxs_result_digest result)
      && (arr2_result_ref receipt == arxs_result_ref result)
  | ActivityResultOutcomeV1_Failed => arr2_outcome receipt != ActionReceiptOutcomeV2_Succeeded
  | ActivityResultOutcomeV1_Unknown => arr2_outcome receipt == ActionReceiptOutcomeV2_Unknown
  end.

Definition action_request_matches_existing (existing : ActionRequestReplayState)
    (p : ActionRequestedV2)
    (action_request_digest : string)
    : bool :=
  (arqs_action_id existing == ar2_action_id p)
  && (arqs_idempotency_key existing == ar2_idempotency_key p)
  && (arqs_action_kind existing == ar2_action_kind p)
  && (arqs_canonical_input_digest existing == ar2_canonical_input_digest p)
  && (arqs_canonical_input_ref existing == ar2_canonical_input_ref p)
  && (arqs_repository_binding_digest existing == ar2_repository_binding_digest p)
  && (arqs_ledger_authority_realm_digest existing == ar2_ledger_authority_realm_digest p)
  && (arqs_governed_packet_digest existing == ar2_governed_packet_digest p)
  && (arqs_policy_digest existing == ar2_policy_digest p)
  && (arqs_authority_actor existing == ar2_authority_actor p)
  && (arqs_execution_role existing == ar2_execution_role p)
  && (arqs_requested_at existing == ar2_requested_at p)
  && (arqs_action_request_digest existing == action_request_digest).

Definition model_authorization_matches_request_and_dispatch (workflow : WorkflowInstanceV1)
    (request : ActionRequestReplayState)
    (p : ModelActionAuthorizedV1)
    : bool :=
  (maa1_run_id p == wi_run_id workflow)
  && (maa1_workflow_id p == wi_workflow_id workflow)
  && (maa1_unit_id p == wi_unit_id workflow)
  && (maa1_attempt p == wi_attempt workflow)
  && (maa1_provenance_ref p == wd_provenance_ref (wi_dispatch workflow))
  && (maa1_action_id p == arqs_action_id request)
  && (maa1_idempotency_key p == arqs_idempotency_key request)
  && (maa1_dispatch_event_ref p == uuid_to_string (wd_event_id (wi_dispatch workflow)))
  && (maa1_dispatch_envelope_digest p == wd_envelope_digest (wi_dispatch workflow))
  && (maa1_action_request_ref p == uuid_to_string (arqs_event_id request))
  && (maa1_action_request_digest p == arqs_action_request_digest request)
  && ((wd_action_evidence_version (wi_dispatch workflow) != Some ActionEvidenceVersionV1_SealedV3)
  || (is_some_and (wd_governed_packet_digest (wi_dispatch workflow)) (fun digest =>
      maa1_packet_digest p == digest)))
  && (maa1_canonical_input_digest p == arqs_canonical_input_digest request)
  && (maa1_context_manifest_digest p == wd_context_manifest_digest (wi_dispatch workflow))
  && (maa1_policy_digest p == arqs_policy_digest request)
  && (maa1_sandbox_profile_digest p == wd_sandbox_profile_digest (wi_dispatch workflow))
  && (maa1_execution_role p == arqs_execution_role request)
  && (maa1_execution_role p == wd_execution_role (wi_dispatch workflow)).

Definition model_intent_matches_request_and_dispatch (workflow : WorkflowInstanceV1)
    (request : ActionRequestReplayState)
    (intent : ModelActionIntentV1)
    : bool :=
  (mai_run_id intent == wi_run_id workflow)
  && (mai_workflow_id intent == wi_workflow_id workflow)
  && (mai_unit_id intent == wi_unit_id workflow)
  && (mai_attempt intent == wi_attempt workflow)
  && (mai_provenance_ref intent == wd_provenance_ref (wi_dispatch workflow))
  && (mai_action_id intent == arqs_action_id request)
  && (mai_idempotency_key intent == arqs_idempotency_key request)
  && (mai_dispatch_event_ref intent == wd_event_id (wi_dispatch workflow))
  && (mai_dispatch_envelope_digest intent == wd_envelope_digest (wi_dispatch workflow))
  && (mai_action_request_event_ref intent == arqs_event_id request)
  && (mai_action_request_digest intent == arqs_action_request_digest request)
  && (mai_canonical_input_ref intent == arqs_canonical_input_ref request)
  && (mai_canonical_input_digest intent == arqs_canonical_input_digest request).

Definition candidate_binding_matches_replay (st : ReplayState) (event : Event)
    (reviewer_workflow : WorkflowInstanceV1) (binding : ModelActionCandidateBindingV1)
    : Result unit string :=
  let reviewer_key := workflow_instance_key (wi_workflow_id reviewer_workflow)
    (wi_unit_id reviewer_workflow) (wi_attempt reviewer_workflow) in
  let matches :=
    '(workflow_key, workflow) ← btree_list (st_workflow_instances st);
    match wi_candidate workflow with
    | Some candidate =>
        if ca_event_id candidate == macb_candidate_created_event_ref binding
        then [(workflow_key, workflow, candidate)] else []
    | None => []
    end in
  match matches with
  | [(candidate_workflow_key, candidate_workflow, candidate)] =>
      fail_if candidate_workflow_key == reviewer_key
        with "model action candidate binding must target a candidate from an independent workflow" ;;
      fail_if negb (event_matches_workflow_run candidate_workflow event)
        with "model action candidate binding belongs to a different run" ;;
      fail_if (ca_candidate_digest candidate != macb_candidate_digest binding)
           || (ca_candidate_commit_sha candidate != macb_candidate_commit_sha binding)
           || (ca_candidate_ref candidate != cview_candidate_ref (macb_candidate_view binding))
           || (ca_tree_digest candidate != cview_tree_digest (macb_candidate_view binding))
        with "model action candidate binding does not match its immutable candidate event" ;;
      fail_if (cas_outcome <$> wi_acceptance candidate_workflow)
              != Some CandidateAcceptanceOutcomeV1_Passed
        with "model action candidate binding requires a passed deterministic candidate acceptance" ;;
      fail_if (cview_reviewer_context_manifest_digest (macb_candidate_view binding)
               != wd_context_manifest_digest (wi_dispatch reviewer_workflow))
           || (cview_reviewer_sandbox_profile_digest (macb_candidate_view binding)
               != wd_sandbox_profile_digest (wi_dispatch reviewer_workflow))
           || negb (cview_read_only (macb_candidate_view binding))
           || negb (cview_network_disabled (macb_candidate_view binding))
        with "model action candidate binding does not bind the read-only network-disabled reviewer context" ;;
      Ok tt
  | _ => Err "model action candidate binding must reference exactly one immutable CandidateCreatedV2 event"
  end.

Definition candidate_binding_matches_review_verdict_target (binding : ModelActionCandidateBindingV1)
    (candidate : CandidateArtifactReplayState)
    (verdict : ReviewVerdictRecordedV2)
    : bool :=
  (macb_candidate_created_event_ref binding == ca_event_id candidate)
  && (macb_candidate_digest binding == ca_candidate_digest candidate)
  && (macb_candidate_digest binding == rv2_candidate_digest verdict)
  && (macb_candidate_commit_sha binding == ca_candidate_commit_sha candidate)
  && (macb_candidate_commit_sha binding == rv2_candidate_commit_sha verdict)
  && (macb_candidate_view_ref binding == rv2_candidate_view_ref verdict)
  && (macb_candidate_view_digest binding == rv2_candidate_view_digest verdict)
  && (macb_candidate_view binding == rv2_candidate_view verdict).

Definition sealed_v3_review_action_binds_verdict_target (action : ActionReplayState)
    (candidate : CandidateArtifactReplayState)
    (verdict : ReviewVerdictRecordedV2)
    : bool :=
  let_some intent := acts_model_intent action else false ;;
  let_some intent_binding := mais_candidate_binding intent else false ;;
  let_some authorization := acts_model_authorization action else false ;;
  let_some authorization_binding := maas_candidate_binding authorization else false ;;
  (maas_authorization_version authorization == 2)
  && (maas_intent_event_ref authorization == Some (mais_event_id intent))
  && (maas_intent_digest authorization == Some (mais_intent_digest intent))
  && (candidate_binding_matches_review_verdict_target intent_binding candidate verdict)
  && (candidate_binding_matches_review_verdict_target authorization_binding candidate verdict).

Definition model_authorization_matches_existing (existing : ModelActionAuthorizationReplayState)
    (event : Event)
    (p : ModelActionAuthorizedV1)
    (authorization_digest : string)
    : bool :=
  (maas_event_id existing == ev_id event)
  && (maas_dispatch_event_ref existing == maa1_dispatch_event_ref p)
  && (maas_dispatch_envelope_digest existing == maa1_dispatch_envelope_digest p)
  && (maas_action_request_ref existing == maa1_action_request_ref p)
  && (maas_action_request_digest existing == maa1_action_request_digest p)
  && (maas_packet_digest existing == maa1_packet_digest p)
  && (maas_canonical_input_digest existing == maa1_canonical_input_digest p)
  && (maas_model_request_digest existing == maa1_model_request_digest p)
  && (maas_trust_scope_digest existing == maa1_trust_scope_digest p)
  && (maas_context_manifest_digest existing == maa1_context_manifest_digest p)
  && (maas_policy_digest existing == maa1_policy_digest p)
  && (maas_sandbox_profile_digest existing == maa1_sandbox_profile_digest p)
  && (maas_execution_role existing == maa1_execution_role p)
  && (maas_candidate_digest existing == maa1_candidate_digest p)
  && (maas_candidate_view_digest existing == maa1_candidate_view_digest p)
  && (maas_authorization_actor existing == maa1_authorization_actor p)
  && (maas_expires_at existing == maa1_expires_at p)
  && (maas_authorization_ref existing == maa1_authorization_ref p)
  && (maas_authorization_digest existing == authorization_digest).

Definition model_authorization_v2_matches_existing (existing : ModelActionAuthorizationReplayState)
    (event : Event)
    (p : ModelActionAuthorizedV2)
    (authorization_digest : string)
    : bool :=
  (maas_authorization_version existing == 2)
  && (maas_event_id existing == ev_id event)
  && (maas_intent_event_ref existing == Some (maa2_intent_event_ref p))
  && (maas_intent_digest existing == Some (maa2_intent_digest p))
  && (maas_model_request_digest existing == mre_digest (maa2_model_request_evidence p))
  && (maas_model_request_evidence_ref existing == Some (mre_cas_ref (maa2_model_request_evidence
      p)))
  && (maas_model_request_evidence_schema_version existing == Some (mre_schema_version
      (maa2_model_request_evidence p)))
  && (maas_trust_scope_digest existing == tse_digest (maa2_trust_scope_evidence p))
  && (maas_trust_scope_evidence_ref existing == Some (tse_cas_ref (maa2_trust_scope_evidence p)))
  && (maas_trust_scope_evidence_schema_version existing == Some (tse_schema_version
      (maa2_trust_scope_evidence p)))
  && (maas_candidate_binding existing == maa2_candidate_binding p)
  && (maas_authorization_actor existing == maa2_authorization_actor p)
  && (maas_expires_at existing == maa2_expires_at p)
  && (maas_authorization_ref existing == maa2_authorization_ref p)
  && (maas_authorization_digest existing == authorization_digest).

Definition model_authorization_ref_is_bound_elsewhere (st : ReplayState)
    (current_workflow_key current_action_id authorization_ref : string)
    : bool :=
  map_any_kv (fun '(workflow_key, workflow) =>
    is_some_and (wi_action_evidence workflow) (fun evidence =>
      map_any_kv (fun '(action_id, action) =>
        ((workflow_key != current_workflow_key) || (action_id != current_action_id))
        && (is_some_and (acts_model_authorization action) (fun authorization =>
            maas_authorization_ref authorization == authorization_ref))) (aes_actions evidence)))
                (st_workflow_instances st).

Definition action_receipt_matches_request (request : ActionRequestReplayState)
    (p : ActionReceiptRecordedV2)
    : bool :=
  (arqs_action_id request == arr2_action_id p)
  && (arqs_idempotency_key request == arr2_idempotency_key p)
  && (arqs_action_request_digest request == arr2_action_request_digest p)
  && (arqs_policy_digest request == arr2_policy_digest p)
  && (arqs_authority_actor request == arr2_authority_actor p)
  && (arqs_execution_role request == arr2_execution_role p).

Definition action_receipt_matches_existing (existing : ActionReceiptReplayState)
    (p : ActionReceiptRecordedV2)
    (action_receipt_digest : string)
    : bool :=
  (arcs_action_id existing == arr2_action_id p)
  && (arcs_idempotency_key existing == arr2_idempotency_key p)
  && (arcs_action_request_digest existing == arr2_action_request_digest p)
  && (arcs_outcome existing == arr2_outcome p)
  && (arcs_result_digest existing == arr2_result_digest p)
  && (arcs_result_ref existing == arr2_result_ref p)
  && (arcs_evidence_digest existing == arr2_evidence_digest p)
  && (arcs_evidence_ref existing == arr2_evidence_ref p)
  && (arcs_resource_usage existing == arr2_resource_usage p)
  && (arcs_redactions existing == arr2_redactions p)
  && (arcs_failure existing == arr2_failure p)
  && (arcs_authorization_ref existing == arr2_authorization_ref p)
  && (arcs_action_receipt_ref existing == arr2_action_receipt_ref p)
  && (arcs_action_receipt_digest existing == action_receipt_digest)
  && (arcs_completed_at existing == arr2_completed_at p).

Definition action_receipt_set_matches_existing (existing : ActionReceiptSetReplayState)
    (p : ActionReceiptSetRecordedV1)
    : bool :=
  (arss_action_receipt_set_ref existing == arset_action_receipt_set_ref p)
  && (arss_action_receipt_set_digest existing == arset_action_receipt_set_digest p)
  && (arss_receipts existing == arset_receipts p)
  && (arss_sealed_at existing == arset_sealed_at p).

Definition dispatch_matches (workflow : WorkflowInstanceV1) (p : DispatchEnvelopeV1) : bool :=
  (wd_dispatch_version (wi_dispatch workflow) == 1)
  && (wi_workflow_id workflow == de_workflow_id p)
  && (wi_workflow_revision workflow == de_workflow_revision p)
  && (wi_unit_id workflow == de_unit_id p)
  && (wi_attempt workflow == de_attempt p)
  && (wd_envelope_digest (wi_dispatch workflow) == de_envelope_digest p)
  && (wd_provenance_ref (wi_dispatch workflow) == de_provenance_ref p)
  && (wd_base_commit_sha (wi_dispatch workflow) == de_base_commit_sha p)
  && (wd_capability_bundle_digest (wi_dispatch workflow) == de_capability_bundle_digest p)
  && (wd_acceptance_contract_digest (wi_dispatch workflow) == de_acceptance_contract_digest p)
  && (wd_context_manifest_digest (wi_dispatch workflow) == de_context_manifest_digest p)
  && (wd_worker_manifest_digest (wi_dispatch workflow) == de_worker_manifest_digest p)
  && (wd_sandbox_profile_digest (wi_dispatch workflow) == de_sandbox_profile_digest p)
  && (wd_execution_role (wi_dispatch workflow) == de_execution_role p)
  && (wd_commit_mode (wi_dispatch workflow) == de_commit_mode p)
  && (wd_budget (wi_dispatch workflow) == de_budget p)
  && (wd_trust_tier (wi_dispatch workflow) == de_trust_tier p)
  && (wd_idempotency_key (wi_dispatch workflow) == de_idempotency_key p)
  && (wd_issued_at (wi_dispatch workflow) == de_issued_at p)
  && (wd_expires_at (wi_dispatch workflow) == de_expires_at p)
  && (wd_signature_ref (wi_dispatch workflow) == Some (de_signature_ref p)).

Definition dispatch_v2_matches (workflow : WorkflowInstanceV1) (p : DispatchEnvelopeV2) : bool :=
  let body := de2_body p in
  (wd_dispatch_version (wi_dispatch workflow) == 2)
  && (wi_workflow_id workflow == deb2_workflow_id body)
  && (wi_workflow_revision workflow == deb2_workflow_revision body)
  && (wi_unit_id workflow == deb2_unit_id body)
  && (wi_attempt workflow == deb2_attempt body)
  && (wd_envelope_digest (wi_dispatch workflow) == de2_envelope_digest p)
  && (wd_provenance_ref (wi_dispatch workflow) == deb2_provenance_ref body)
  && (wd_base_commit_sha (wi_dispatch workflow) == deb2_base_commit_sha body)
  && (wd_capability_bundle_digest (wi_dispatch workflow) == deb2_capability_bundle_digest body)
  && (wd_acceptance_contract_digest (wi_dispatch workflow) == deb2_acceptance_contract_digest body)
  && (wd_context_manifest_digest (wi_dispatch workflow) == deb2_context_manifest_digest body)
  && (wd_worker_manifest_digest (wi_dispatch workflow) == deb2_worker_manifest_digest body)
  && (wd_sandbox_profile_digest (wi_dispatch workflow) == deb2_sandbox_profile_digest body)
  && (wd_execution_role (wi_dispatch workflow) == deb2_execution_role body)
  && (wd_commit_mode (wi_dispatch workflow) == deb2_commit_mode body)
  && (wd_budget (wi_dispatch workflow) == deb2_budget body)
  && (wd_trust_tier (wi_dispatch workflow) == deb2_trust_tier body)
  && (wd_idempotency_key (wi_dispatch workflow) == deb2_idempotency_key body)
  && (wd_issued_at (wi_dispatch workflow) == deb2_issued_at body)
  && (wd_expires_at (wi_dispatch workflow) == deb2_expires_at body)
  && (is_none (wd_signature_ref (wi_dispatch workflow))).

Definition dispatch_v3_matches (workflow : WorkflowInstanceV1) (p : DispatchEnvelopeV3) : bool :=
  let body := de3_body p in
  (wd_dispatch_version (wi_dispatch workflow) == 3)
  && (wi_workflow_id workflow == deb2_workflow_id body)
  && (wi_workflow_revision workflow == deb2_workflow_revision body)
  && (wi_unit_id workflow == deb2_unit_id body)
  && (wi_attempt workflow == deb2_attempt body)
  && (wd_envelope_digest (wi_dispatch workflow) == de3_envelope_digest p)
  && (wd_provenance_ref (wi_dispatch workflow) == deb2_provenance_ref body)
  && (wd_base_commit_sha (wi_dispatch workflow) == deb2_base_commit_sha body)
  && (wd_repository_binding_digest (wi_dispatch workflow) == Some (de3_repository_binding_digest p))
  && (wd_ledger_authority_realm_digest (wi_dispatch workflow) == Some
      (de3_ledger_authority_realm_digest p))
  && (wd_capability_bundle_digest (wi_dispatch workflow) == deb2_capability_bundle_digest body)
  && (wd_acceptance_contract_digest (wi_dispatch workflow) == deb2_acceptance_contract_digest body)
  && (wd_context_manifest_digest (wi_dispatch workflow) == deb2_context_manifest_digest body)
  && (wd_worker_manifest_digest (wi_dispatch workflow) == deb2_worker_manifest_digest body)
  && (wd_sandbox_profile_digest (wi_dispatch workflow) == deb2_sandbox_profile_digest body)
  && (wd_execution_role (wi_dispatch workflow) == deb2_execution_role body)
  && (wd_commit_mode (wi_dispatch workflow) == deb2_commit_mode body)
  && (wd_budget (wi_dispatch workflow) == deb2_budget body)
  && (wd_trust_tier (wi_dispatch workflow) == deb2_trust_tier body)
  && (wd_idempotency_key (wi_dispatch workflow) == deb2_idempotency_key body)
  && (wd_issued_at (wi_dispatch workflow) == deb2_issued_at body)
  && (wd_expires_at (wi_dispatch workflow) == deb2_expires_at body)
  && (is_none (wd_signature_ref (wi_dispatch workflow)))
  && (wd_action_evidence_version (wi_dispatch workflow) == Some (de3_action_evidence_version p)).

Definition dispatch_v4_matches (workflow : WorkflowInstanceV1) (p : DispatchEnvelopeV4) : bool :=
  let nested := de4_dispatch_v3 p in
  let body := de3_body nested in
  (wd_dispatch_version (wi_dispatch workflow) == 4)
  && (wi_workflow_id workflow == deb2_workflow_id body)
  && (wi_workflow_revision workflow == deb2_workflow_revision body)
  && (wi_unit_id workflow == deb2_unit_id body)
  && (wi_attempt workflow == deb2_attempt body)
  && (wd_envelope_digest (wi_dispatch workflow) == de4_envelope_digest p)
  && (wd_provenance_ref (wi_dispatch workflow) == deb2_provenance_ref body)
  && (wd_base_commit_sha (wi_dispatch workflow) == deb2_base_commit_sha body)
  && (wd_repository_binding_digest (wi_dispatch workflow) == Some (de3_repository_binding_digest
      nested))
  && (wd_ledger_authority_realm_digest (wi_dispatch workflow) == Some
      (de3_ledger_authority_realm_digest nested))
  && (wd_governed_packet_digest (wi_dispatch workflow) == de3_governed_packet_digest nested)
  && (wd_workflow_graph_digest (wi_dispatch workflow) == Some (de4_workflow_graph_digest p))
  && (wd_workflow_graph_declaration_event_ref (wi_dispatch workflow) == Some
      (de4_workflow_graph_declaration_event_ref p))
  && (wd_capability_bundle_digest (wi_dispatch workflow) == deb2_capability_bundle_digest body)
  && (wd_acceptance_contract_digest (wi_dispatch workflow) == deb2_acceptance_contract_digest body)
  && (wd_context_manifest_digest (wi_dispatch workflow) == deb2_context_manifest_digest body)
  && (wd_worker_manifest_digest (wi_dispatch workflow) == deb2_worker_manifest_digest body)
  && (wd_sandbox_profile_digest (wi_dispatch workflow) == deb2_sandbox_profile_digest body)
  && (wd_execution_role (wi_dispatch workflow) == deb2_execution_role body)
  && (wd_commit_mode (wi_dispatch workflow) == deb2_commit_mode body)
  && (wd_budget (wi_dispatch workflow) == deb2_budget body)
  && (wd_trust_tier (wi_dispatch workflow) == deb2_trust_tier body)
  && (wd_idempotency_key (wi_dispatch workflow) == deb2_idempotency_key body)
  && (wd_issued_at (wi_dispatch workflow) == deb2_issued_at body)
  && (wd_expires_at (wi_dispatch workflow) == deb2_expires_at body)
  && (is_none (wd_signature_ref (wi_dispatch workflow)))
  && (wd_action_evidence_version (wi_dispatch workflow) == Some (de3_action_evidence_version
      nested)).

Definition dispatch_v5_matches (workflow : WorkflowInstanceV1) (p : DispatchEnvelopeV5) : bool :=
  let nested := de4_dispatch_v3 (de5_dispatch_v4 p) in
  let body := de3_body nested in
  let_some witnesses := wi_manifest_declarations workflow else false ;;
  (wd_dispatch_version (wi_dispatch workflow) == 5)
  && (wi_workflow_id workflow == deb2_workflow_id body)
  && (wi_workflow_revision workflow == deb2_workflow_revision body)
  && (wi_unit_id workflow == deb2_unit_id body)
  && (wi_attempt workflow == deb2_attempt body)
  && (wd_envelope_digest (wi_dispatch workflow) == de5_envelope_digest p)
  && (wd_provenance_ref (wi_dispatch workflow) == deb2_provenance_ref body)
  && (wd_base_commit_sha (wi_dispatch workflow) == deb2_base_commit_sha body)
  && (wd_repository_binding_digest (wi_dispatch workflow) == Some (de3_repository_binding_digest
      nested))
  && (wd_ledger_authority_realm_digest (wi_dispatch workflow) == Some
      (de3_ledger_authority_realm_digest nested))
  && (wd_governed_packet_digest (wi_dispatch workflow) == de3_governed_packet_digest nested)
  && (wd_workflow_graph_digest (wi_dispatch workflow) == Some (de4_workflow_graph_digest
      (de5_dispatch_v4 p)))
  && (wd_workflow_graph_declaration_event_ref (wi_dispatch workflow) == Some
      (de4_workflow_graph_declaration_event_ref (de5_dispatch_v4 p)))
  && (wd_capability_bundle_digest (wi_dispatch workflow) == deb2_capability_bundle_digest body)
  && (wd_acceptance_contract_digest (wi_dispatch workflow) == deb2_acceptance_contract_digest body)
  && (wd_context_manifest_digest (wi_dispatch workflow) == deb2_context_manifest_digest body)
  && (wd_worker_manifest_digest (wi_dispatch workflow) == deb2_worker_manifest_digest body)
  && (wd_sandbox_profile_digest (wi_dispatch workflow) == deb2_sandbox_profile_digest body)
  && (wd_execution_role (wi_dispatch workflow) == deb2_execution_role body)
  && (wd_commit_mode (wi_dispatch workflow) == deb2_commit_mode body)
  && (wd_budget (wi_dispatch workflow) == deb2_budget body)
  && (wd_trust_tier (wi_dispatch workflow) == deb2_trust_tier body)
  && (wd_idempotency_key (wi_dispatch workflow) == deb2_idempotency_key body)
  && (wd_issued_at (wi_dispatch workflow) == deb2_issued_at body)
  && (wd_expires_at (wi_dispatch workflow) == deb2_expires_at body)
  && (is_none (wd_signature_ref (wi_dispatch workflow)))
  && (wd_action_evidence_version (wi_dispatch workflow) == Some (de3_action_evidence_version
      nested))
  && (cmds_event_id (mdw_context_manifest witnesses) == de5_context_manifest_declaration_event_ref
      p)
  && (cmds_context_manifest_digest (mdw_context_manifest witnesses) == de5_context_manifest_digest
      p)
  && (wmds_event_id (mdw_worker_manifest witnesses) == de5_worker_manifest_declaration_event_ref p)
  && (wmds_worker_manifest_digest (mdw_worker_manifest witnesses) == de5_worker_manifest_digest p)
  && (spds_event_id (mdw_sandbox_profile witnesses) == de5_sandbox_profile_declaration_event_ref p)
  && (spds_sandbox_profile_digest (mdw_sandbox_profile witnesses) == de5_sandbox_profile_digest p)
  && (match (mdw_attempt_context witnesses, de5_attempt_context_declaration_event_ref p,
      de5_attempt_context_digest p) with
  | (None, None, None) => true
  | (Some witness, Some event_ref, Some digest) =>
      (acds_event_id witness == event_ref)
      && (acds_attempt_context_digest witness == digest)
  | _ => false
  end).

Definition candidate_matches_dispatch (workflow : WorkflowInstanceV1)
    (p : CandidateCreatedV1)
    : bool :=
  (wi_workflow_id workflow == cc1_workflow_id p)
  && (wi_unit_id workflow == cc1_unit_id p)
  && (wi_attempt workflow == cc1_attempt p)
  && (wd_provenance_ref (wi_dispatch workflow) == cc1_provenance_ref p)
  && (wd_base_commit_sha (wi_dispatch workflow) == cc1_base_commit_sha p)
  && (wd_envelope_digest (wi_dispatch workflow) == cc1_envelope_digest p).

Definition candidate_matches_existing (existing : CandidateArtifactReplayState)
    (event_id : EventId)
    (p : CandidateCreatedV1)
    : bool :=
  (ca_event_id existing == event_id)
  && (ca_candidate_id existing == cc1_candidate_id p)
  && (ca_candidate_ref existing == cc1_candidate_ref p)
  && (ca_candidate_digest existing == cc1_candidate_digest p)
  && (ca_base_commit_sha existing == cc1_base_commit_sha p)
  && (ca_candidate_commit_sha existing == cc1_candidate_commit_sha p)
  && (ca_commit_digest existing == cc1_commit_digest p)
  && (ca_tree_digest existing == cc1_tree_digest p)
  && (ca_patch_digest existing == cc1_patch_digest p)
  && (ca_changed_files_digest existing == cc1_changed_files_digest p)
  && (ca_envelope_digest existing == cc1_envelope_digest p)
  && (ca_action_receipt_digest existing == Some (cc1_action_receipt_digest p))
  && (is_none (ca_action_receipt_set_ref existing))
  && (is_none (ca_action_receipt_set_digest existing)).

Definition candidate_v2_matches_dispatch (workflow : WorkflowInstanceV1)
    (event : Event)
    (p : CandidateCreatedV2)
    : bool :=
  (wi_workflow_id workflow == cc2_workflow_id p)
  && (wi_unit_id workflow == cc2_unit_id p)
  && (wi_attempt workflow == cc2_attempt p)
  && (candidate_ref_binds_candidate_id_run_and_attempt (cc2_candidate_ref p) (cc2_candidate_id p)
      (uuid_to_string (ev_run_id event)) (wi_attempt workflow))
  && (wd_provenance_ref (wi_dispatch workflow) == cc2_provenance_ref p)
  && (wd_base_commit_sha (wi_dispatch workflow) == cc2_base_commit_sha p)
  && (wd_envelope_digest (wi_dispatch workflow) == cc2_envelope_digest p).

Definition candidate_v2_matches_existing (existing : CandidateArtifactReplayState)
    (event_id : EventId)
    (p : CandidateCreatedV2)
    : bool :=
  (ca_event_id existing == event_id)
  && (ca_candidate_id existing == cc2_candidate_id p)
  && (ca_candidate_ref existing == cc2_candidate_ref p)
  && (ca_candidate_digest existing == cc2_candidate_digest p)
  && (ca_base_commit_sha existing == cc2_base_commit_sha p)
  && (ca_candidate_commit_sha existing == cc2_candidate_commit_sha p)
  && (ca_commit_digest existing == cc2_commit_digest p)
  && (ca_tree_digest existing == cc2_tree_digest p)
  && (ca_patch_digest existing == cc2_patch_digest p)
  && (ca_changed_files_digest existing == cc2_changed_files_digest p)
  && (ca_envelope_digest existing == cc2_envelope_digest p)
  && (is_none (ca_action_receipt_digest existing))
  && (ca_action_receipt_set_ref existing == Some (cc2_action_receipt_set_ref p))
  && (ca_action_receipt_set_digest existing == Some (cc2_action_receipt_set_digest p)).

Definition candidate_completion_matches_existing (existing : CandidateCompletionReplayState)
    (event : Event)
    (p : CandidateCompletionRecordedV1)
    : bool :=
  (ccs_event_id existing == ev_id event) && (ccs_completion existing == p).

Definition candidate_acceptance_matches_existing (existing : CandidateAcceptanceReplayState)
    (event_id : EventId)
    (p : CandidateAcceptanceRecordedV1)
    : bool :=
  (cas_event_id existing == event_id)
  && (cas_candidate_digest existing == car_candidate_digest p)
  && (cas_candidate_commit_sha existing == car_candidate_commit_sha p)
  && (cas_acceptance_ref existing == car_acceptance_ref p)
  && (cas_acceptance_contract_digest existing == car_acceptance_contract_digest p)
  && (cas_acceptance_digest existing == car_acceptance_digest p)
  && (cas_outcome existing == car_outcome p)
  && (cas_evaluated_at existing == car_evaluated_at p).

Definition review_matches_existing (existing : ReviewVerdictReplayState)
    (event_id : EventId)
    (p : ReviewVerdictRecordedV1)
    : bool :=
  (rvs_event_id existing == event_id)
  && (rvs_review_version existing == 1)
  && (rvs_candidate_digest existing == rv1_candidate_digest p)
  && (rvs_candidate_commit_sha existing == rv1_candidate_commit_sha p)
  && (rvs_review_ref existing == rv1_review_ref p)
  && (rvs_decision existing == rv1_decision p)
  && (rvs_findings existing == rv1_findings p)
  && (rvs_confidence existing == rv1_confidence p)
  && (rvs_reviewer_manifest_digest existing == rv1_reviewer_manifest_digest p)
  && (is_none (rvs_review_verdict_action_id existing))
  && (is_none (rvs_review_action_request_digest existing))
  && (is_none (rvs_review_action_receipt_ref existing))
  && (is_none (rvs_review_action_receipt_digest existing))
  && (is_none (rvs_review_output_ref existing))
  && (is_none (rvs_review_output_digest existing))
  && (is_none (rvs_review_output_semantic_digest existing))
  && (is_none (rvs_acceptance_ref existing))
  && (is_none (rvs_acceptance_digest existing))
  && (is_none (rvs_acceptance_contract_digest existing))
  && (is_none (rvs_candidate_envelope_digest existing))
  && (is_none (rvs_reviewer_workflow_id existing))
  && (is_none (rvs_reviewer_dispatch_envelope_digest existing))
  && (is_none (rvs_reviewer_unit_id existing))
  && (is_none (rvs_reviewer_attempt existing))
  && (is_none (rvs_reviewer_execution_role existing))
  && (is_none (rvs_review_action_receipt_set_ref existing))
  && (is_none (rvs_review_action_receipt_set_digest existing))
  && (is_none (rvs_candidate_view existing))
  && (is_none (rvs_candidate_view_ref existing))
  && (is_none (rvs_candidate_view_digest existing))
  && (is_none (rvs_reviewer_authority existing))
  && (rvs_reviewed_at existing == rv1_reviewed_at p).

Definition review_v2_matches_existing (existing : ReviewVerdictReplayState)
    (event_id : EventId)
    (p : ReviewVerdictRecordedV2)
    : bool :=
  (rvs_event_id existing == event_id)
  && (rvs_review_version existing == 2)
  && (rvs_candidate_digest existing == rv2_candidate_digest p)
  && (rvs_candidate_commit_sha existing == rv2_candidate_commit_sha p)
  && (rvs_review_ref existing == rv2_review_ref p)
  && (rvs_decision existing == rv2_decision p)
  && (rvs_findings existing == rv2_findings p)
  && (rvs_confidence existing == rv2_confidence p)
  && (rvs_reviewer_manifest_digest existing == rv2_reviewer_manifest_digest p)
  && (rvs_review_verdict_action_id existing == Some (rv2_review_verdict_action_id p))
  && (rvs_review_action_request_digest existing == Some (rv2_review_action_request_digest p))
  && (rvs_review_action_receipt_ref existing == Some (rv2_review_action_receipt_ref p))
  && (rvs_review_action_receipt_digest existing == Some (rv2_review_action_receipt_digest p))
  && (rvs_review_output_ref existing == Some (rv2_review_output_ref p))
  && (rvs_review_output_digest existing == Some (rv2_review_output_digest p))
  && (rvs_review_output_semantic_digest existing == rv2_review_output_semantic_digest p)
  && (rvs_acceptance_ref existing == Some (rv2_acceptance_ref p))
  && (rvs_acceptance_digest existing == Some (rv2_acceptance_digest p))
  && (rvs_acceptance_contract_digest existing == Some (rv2_acceptance_contract_digest p))
  && (rvs_candidate_envelope_digest existing == Some (rv2_candidate_envelope_digest p))
  && (rvs_reviewer_workflow_id existing == Some (rv2_reviewer_workflow_id p))
  && (rvs_reviewer_dispatch_envelope_digest existing == Some
      (rv2_reviewer_dispatch_envelope_digest p))
  && (rvs_reviewer_unit_id existing == Some (rv2_reviewer_unit_id p))
  && (rvs_reviewer_attempt existing == Some (rv2_reviewer_attempt p))
  && (rvs_reviewer_execution_role existing == Some (rv2_reviewer_execution_role p))
  && (rvs_review_action_receipt_set_ref existing == Some (rv2_review_action_receipt_set_ref p))
  && (rvs_review_action_receipt_set_digest existing == Some (rv2_review_action_receipt_set_digest
      p))
  && (rvs_candidate_view existing == Some (rv2_candidate_view p))
  && (rvs_candidate_view_ref existing == Some (rv2_candidate_view_ref p))
  && (rvs_candidate_view_digest existing == Some (rv2_candidate_view_digest p))
  && (rvs_reviewer_authority existing == Some (rv2_reviewer_authority p))
  && (rvs_reviewed_at existing == rv2_reviewed_at p).

Definition promotion_decision_matches_existing (existing : PromotionDecisionReplayState)
    (event_id : EventId)
    (p : PromotionDecisionRecordedV1)
    (event_digest : string)
    : bool :=
  (pds_event_id existing == event_id)
  && (pds_event_digest existing == event_digest)
  && (pds_candidate_digest existing == pdr_candidate_digest p)
  && (pds_base_commit_sha existing == pdr_base_commit_sha p)
  && (pds_target_ref existing == pdr_target_ref p)
  && (pds_envelope_digest existing == pdr_envelope_digest p)
  && (pds_acceptance_ref existing == pdr_acceptance_ref p)
  && (pds_review_refs existing == pdr_review_refs p)
  && (pds_promotion_approval_request_ref existing == pdr_promotion_approval_request_ref p)
  && (pds_decision existing == pdr_decision p)
  && (pds_authority existing == pdr_authority p)
  && (pds_decided_by existing == pdr_decided_by p)
  && (pds_decided_at existing == pdr_decided_at p)
  && (pds_idempotency_key existing == pdr_idempotency_key p).

Definition promotion_execution_claim_matches_existing (existing :
    PromotionExecutionClaimReplayState)
    (event_id : EventId)
    (p : PromotionExecutionClaimedV1)
    (event_digest : string)
    : bool :=
  (pecs_event_id existing == event_id)
  && (pecs_event_digest existing == event_digest)
  && (pecs_claim existing == p).

Definition promotion_approval_request_matches_existing (existing :
    PromotionApprovalRequestReplayState)
    (event_id : EventId)
    (p : PromotionApprovalRequestedV1)
    (event_digest : string)
    : bool :=
  (pars_event_id existing == event_id)
  && (pars_event_digest existing == event_digest)
  && (pars_candidate_digest existing == par_candidate_digest p)
  && (pars_base_commit_sha existing == par_base_commit_sha p)
  && (pars_target_ref existing == par_target_ref p)
  && (pars_envelope_digest existing == par_envelope_digest p)
  && (pars_acceptance_ref existing == par_acceptance_ref p)
  && (pars_review_refs existing == par_review_refs p)
  && (pars_requested_by existing == par_requested_by p)
  && (pars_requested_at existing == par_requested_at p)
  && (pars_idempotency_key existing == par_idempotency_key p).

Definition promotion_decision_binds_approval_request (decision : PromotionDecisionRecordedV1)
    (request : PromotionApprovalRequestReplayState)
    : bool :=
  let request_ref := uuid_to_string (pars_event_id request) in
  (pdr_promotion_approval_request_ref decision == Some request_ref)
  && (pdr_candidate_digest decision == pars_candidate_digest request)
  && (pdr_base_commit_sha decision == pars_base_commit_sha request)
  && (pdr_target_ref decision == Some (pars_target_ref request))
  && (pdr_envelope_digest decision == pars_envelope_digest request)
  && (pdr_acceptance_ref decision == pars_acceptance_ref request)
  && (pdr_review_refs decision == pars_review_refs request)
  && (pdr_idempotency_key decision == pars_idempotency_key request).

Definition promotion_result_matches_existing (existing : PromotionResultReplayState)
    (event_id : EventId)
    (p : PromotionResultRecordedV1)
    (event_digest : string)
    : bool :=
  (prs_event_id existing == event_id)
  && (prs_event_digest existing == event_digest)
  && (prs_candidate_digest existing == prr_candidate_digest p)
  && (prs_idempotency_key existing == prr_idempotency_key p)
  && (prs_promotion_decision_ref existing == prr_promotion_decision_ref p)
  && (prs_outcome existing == prr_outcome p)
  && (prs_merged_head_sha existing == prr_merged_head_sha p)
  && (prs_promotion_git_binding existing == prr_promotion_git_binding p)
  && (prs_promotion_execution_lease_binding existing == prr_promotion_execution_lease_binding p)
  && (prs_completed_at existing == prr_completed_at p).

Definition promotion_reconciliation_matches_existing (existing : PromotionReconciliationReplayState)
    (event_id : EventId)
    (p : PromotionReconciliationResolvedV1)
    (event_digest : string)
    : bool :=
  (precs_event_id existing == event_id)
  && (precs_event_digest existing == event_digest)
  && (precs_candidate_digest existing == prec_candidate_digest p)
  && (precs_promotion_decision_ref existing == prec_promotion_decision_ref p)
  && (precs_promotion_result_ref existing == prec_promotion_result_ref p)
  && (precs_promotion_receipt_ref existing == prec_promotion_receipt_ref p)
  && (precs_outcome existing == prec_outcome p)
  && (precs_authority existing == prec_authority p)
  && (precs_resolved_by existing == prec_resolved_by p)
  && (precs_idempotency_key existing == prec_idempotency_key p)
  && (precs_resolved_at existing == prec_resolved_at p).

Definition workflow_timer_schedule_matches_existing (existing : WorkflowTimerReplayState)
    (event : Event)
    (p : WorkflowTimerScheduledV1)
    (event_digest : string)
    : bool :=
  (wtm_event_id existing == ev_id event)
  && (wtm_event_digest existing == event_digest)
  && (wtm_run_id existing == wts_run_id p)
  && (wtm_workflow_id existing == wts_workflow_id p)
  && (wtm_workflow_revision existing == wts_workflow_revision p)
  && (wtm_unit_id existing == wts_unit_id p)
  && (wtm_attempt existing == wts_attempt p)
  && (wtm_dispatch_event_ref existing == wts_dispatch_event_ref p)
  && (wtm_dispatch_envelope_digest existing == wts_dispatch_envelope_digest p)
  && (wtm_timer_id existing == wts_timer_id p)
  && (wtm_timer_kind existing == wts_timer_kind p)
  && (wtm_due_at existing == wts_due_at p)
  && (wtm_idempotency_key existing == wts_idempotency_key p)
  && (wtm_scheduled_by existing == wts_scheduled_by p)
  && (wtm_scheduled_at existing == wts_scheduled_at p).

Definition workflow_timer_fired_matches_existing (existing : WorkflowTimerFiredReplayState)
    (event : Event)
    (p : WorkflowTimerFiredV1)
    (event_digest : string)
    : bool :=
  (wtfs_event_id existing == ev_id event)
  && (wtfs_event_digest existing == event_digest)
  && (wtfs_timer_schedule_event_ref existing == wtf_timer_schedule_event_ref p)
  && (wtfs_timer_schedule_event_digest existing == wtf_timer_schedule_event_digest p)
  && (wtfs_fired_by existing == wtf_fired_by p)
  && (wtfs_fired_at existing == wtf_fired_at p).

Definition workflow_cancellation_matches_existing (existing : WorkflowCancellationReplayState)
    (event : Event)
    (p : WorkflowCancellationRequestedV1)
    (event_digest : string)
    : bool :=
  (wcs_event_id existing == ev_id event)
  && (wcs_event_digest existing == event_digest)
  && (wcs_cancellation_id existing == wcr_cancellation_id p)
  && (wcs_cause existing == wcr_cause p)
  && (wcs_timer_fired_event_ref existing == wcr_timer_fired_event_ref p)
  && (wcs_timer_fired_event_digest existing == wcr_timer_fired_event_digest p)
  && (wcs_requested_by existing == wcr_requested_by p)
  && (wcs_idempotency_key existing == wcr_idempotency_key p)
  && (wcs_requested_at existing == wcr_requested_at p).

Definition workflow_terminal_matches_existing (existing : WorkflowTerminalReplayState)
    (terminal : WorkflowTerminalFields)
    (terminal_version : u8)
    : bool :=
  (wtrs_terminal_version existing == terminal_version)
  && (wtrs_outcome existing == wtfl_outcome terminal)
  && (wtrs_unit_id existing == wtfl_unit_id terminal)
  && (wtrs_attempt existing == wtfl_attempt terminal)
  && (wtrs_candidate_digest existing == wtfl_candidate_digest terminal)
  && (wtrs_promotion_result_ref existing == wtfl_promotion_result_ref terminal)
  && (wtrs_reconciliation_resolution_ref existing == wtfl_reconciliation_resolution_ref terminal)
  && (wtrs_cancellation_request_event_ref existing == wtfl_cancellation_request_event_ref terminal)
  && (wtrs_cancellation_request_event_digest existing == wtfl_cancellation_request_event_digest
      terminal)
  && (wtrs_reason existing == wtfl_reason terminal)
  && (wtrs_idempotency_key existing == wtfl_idempotency_key terminal)
  && (wtrs_completed_at existing == wtfl_completed_at terminal).

(** [let mut seen = BTreeSet::new(); refs.iter().all(|r| seen.insert(r) && ..)]:
    every reference is new and its recorded verdict passes. *)
Fixpoint review_refs_all (reviews : gmap string ReviewVerdictReplayState)
    (verdict_ok : ReviewVerdictReplayState -> bool) (seen : gset string)
    (review_refs : list string) : bool :=
  match review_refs with
  | [] => true
  | review_ref :: rest =>
      negb (bool_decide (review_ref ∈ seen))
      && is_some_and (reviews !! review_ref) verdict_ok
      && review_refs_all reviews verdict_ok ({[review_ref]} ∪ seen) rest
  end.

Definition review_refs_are_approved (workflow : WorkflowInstanceV1) (review_refs : list string)
    : bool :=
  let requires_v2_review_evidence := 3 <=? wd_dispatch_version (wi_dispatch workflow) in
  review_refs_all (wi_reviews workflow) (fun verdict =>
    (rvs_decision verdict == ReviewDecisionV1_Approve)
    && (negb requires_v2_review_evidence || (rvs_review_version verdict == 2))) ∅ review_refs.

Definition review_refs_exist (workflow : WorkflowInstanceV1) (review_refs : list string) : bool :=
  let requires_v2_review_evidence := 3 <=? wd_dispatch_version (wi_dispatch workflow) in
  review_refs_all (wi_reviews workflow) (fun verdict =>
    negb requires_v2_review_evidence || (rvs_review_version verdict == 2)) ∅ review_refs.

Definition promotion_git_binding_matches_candidate (workflow : WorkflowInstanceV1)
    (target_ref decision_base_commit_sha merged_head_sha : string)
    (allowed_sync_states : list PromotionWorktreeSyncStateV1) (allow_headless_target : bool)
    (binding : PromotionGitBindingV1) : bool :=
  is_some_and (wi_candidate workflow) (fun candidate =>
    let_some target_head_after_sha := pgb_target_head_after_sha binding else false ;;
    let_some binding_merged_head_sha := pgb_merged_head_sha binding else false ;;
    let_some merge_parent_shas := pgb_merge_parent_shas binding else false ;;
    let_some merged_tree_sha := pgb_merged_tree_sha binding else false ;;
    let_some promotion_receipt_ref := pgb_promotion_receipt_ref binding else false ;;
    is_canonical_target_ref (pgb_target_ref binding)
    && (pgb_target_ref binding == target_ref)
    && (pgb_target_head_before_sha binding == decision_base_commit_sha)
    && (pgb_target_head_before_sha binding == ca_base_commit_sha candidate)
    && is_canonical_git_object_id (pgb_target_head_before_sha binding)
    && is_canonical_git_object_id target_head_after_sha
    && (binding_merged_head_sha == merged_head_sha)
    && is_canonical_git_object_id binding_merged_head_sha
    && (pgb_candidate_commit_sha binding == ca_candidate_commit_sha candidate)
    && is_canonical_git_object_id (pgb_candidate_commit_sha binding)
    && (length merge_parent_shas =? 2)%nat
    && (merge_parent_shas !! 0%nat == Some (pgb_target_head_before_sha binding))
    && (merge_parent_shas !! 1%nat == Some (pgb_candidate_commit_sha binding))
    && forallb is_canonical_git_object_id merge_parent_shas
    && is_canonical_git_object_id merged_tree_sha
    && (pgb_merged_tree_digest binding == ca_tree_digest candidate)
    && is_canonical_sha256_digest (pgb_merged_tree_digest binding)
    && promotion_receipt_ref_matches_candidate promotion_receipt_ref (ca_candidate_ref candidate)
    && match pgb_worktree_sync_state binding with
       | None => allow_headless_target && (target_head_after_sha == merged_head_sha)
       | Some PromotionWorktreeSyncStateV1_TargetAdvanced =>
           existsb (fun state => state == PromotionWorktreeSyncStateV1_TargetAdvanced)
             allowed_sync_states
           && (target_head_after_sha != merged_head_sha)
       | Some state =>
           existsb (fun allowed => allowed == state) allowed_sync_states
           && (target_head_after_sha == merged_head_sha)
       end).

Definition promotion_result_has_bound_merge_evidence (workflow : WorkflowInstanceV1)
    (promotion : PromotionReplayState)
    (p : PromotionResultRecordedV1)
    (allowed_sync_states : list PromotionWorktreeSyncStateV1)
    (allow_headless_target : bool)
    : bool :=
  let_some merged_head_sha := prr_merged_head_sha p else false ;;
  if negb (is_canonical_git_object_id merged_head_sha) then
    false
  else
  if (requires_candidate_completion workflow)
  && (is_none (pds_target_ref (ps_decision promotion))) then
    false
  else
  match pds_target_ref (ps_decision promotion) with
  | None => is_none (prr_promotion_git_binding p)
  | Some target_ref =>
      is_some_and (prr_promotion_git_binding p) (fun binding =>
          promotion_git_binding_matches_candidate workflow target_ref (pds_base_commit_sha
              (ps_decision promotion)) merged_head_sha allowed_sync_states allow_headless_target
                  binding)
  end.

Definition promotion_result_is_semantically_valid (workflow : WorkflowInstanceV1)
    (promotion : PromotionReplayState)
    (p : PromotionResultRecordedV1)
    : bool :=
  match (pds_decision (ps_decision promotion), prr_outcome p) with
  | (PromotionDecisionKindV1_Promote, PromotionResultOutcomeV1_Promoted) =>
      promotion_result_has_bound_merge_evidence workflow promotion p [] true
  | (PromotionDecisionKindV1_Promote, PromotionResultOutcomeV1_ReconciliationRequired) =>
      promotion_result_has_bound_merge_evidence workflow promotion p
          ([PromotionWorktreeSyncStateV1_RootCheckoutStale;
              PromotionWorktreeSyncStateV1_TargetAdvanced]) false
  | (PromotionDecisionKindV1_Promote, PromotionResultOutcomeV1_Rejected) |
      (PromotionDecisionKindV1_Reject, PromotionResultOutcomeV1_Rejected) => (is_none
          (prr_merged_head_sha p)) && (is_none (prr_promotion_git_binding p))
  | (PromotionDecisionKindV1_Reject, (PromotionResultOutcomeV1_Promoted |
      PromotionResultOutcomeV1_ReconciliationRequired)) => false
  end.

Definition promotion_reconciliation_is_semantically_valid (p : PromotionReconciliationResolvedV1)
    : bool :=
  (negb (trim_is_empty (prec_candidate_digest p)))
  && (negb (trim_is_empty (prec_promotion_decision_ref p)))
  && (negb (trim_is_empty (prec_promotion_result_ref p)))
  && (negb (trim_is_empty (prec_promotion_receipt_ref p)))
  && (negb (trim_is_empty (prec_authority p)))
  && (prec_authority p == prec_resolved_by p)
  && (negb (trim_is_empty (prec_idempotency_key p)))
  && (is_some (parse_rfc3339_utc (prec_resolved_at p))).

Definition workflow_terminal_is_semantically_valid (workflow : WorkflowInstanceV1)
    (terminal : WorkflowTerminalFields)
    (terminal_version : u8)
    (event : Event)
    : bool :=
  if (terminal_version == 2)
  && (wtfl_outcome terminal == WorkflowTerminalOutcomeV1_Cancelled) then
    (wi_phase workflow == WorkflowPhaseV1_CancellationRequested)
    && (is_some_and (wi_cancellation workflow) (fun cancellation =>
      (wtfl_cancellation_request_event_ref terminal == Some (wcs_event_id cancellation))
      && (wtfl_cancellation_request_event_digest terminal == Some (wcs_event_digest cancellation))
      && (ev_parent_event_id event == Some (wcs_event_id cancellation))))
    && (is_none (wtfl_promotion_result_ref terminal))
    && (is_none (wtfl_reconciliation_resolution_ref terminal))
    && (cancellation_effects_are_reconciled workflow)
  else
  if is_some (wi_cancellation workflow) then
    false
  else
  match (wi_promotion workflow) ≫= (fun promotion => ps_reconciliation promotion) with
  | Some resolution =>
      let_some result := (wi_promotion workflow) ≫= (fun promotion => ps_result promotion) else
          false ;;
      let result_ref := uuid_to_string (prs_event_id result) in
      let resolution_ref := uuid_to_string (precs_event_id resolution) in
      (wi_phase workflow == WorkflowPhaseV1_PromotionReconciliationResolved)
      && (prs_outcome result == PromotionResultOutcomeV1_ReconciliationRequired)
      && (is_some (wtfl_candidate_digest terminal))
      && (wtfl_promotion_result_ref terminal == Some result_ref)
      && (wtfl_reconciliation_resolution_ref terminal == Some resolution_ref)
      && (match (precs_outcome resolution, wtfl_outcome terminal) with
      | (ReconciliationResolutionOutcomeV1_Abandon, WorkflowTerminalOutcomeV1_Failed) => true
      | (ReconciliationResolutionOutcomeV1_Reject, WorkflowTerminalOutcomeV1_Cancelled) => true
      | _ => false
      end)
  | _ =>
  if is_some_and ((wi_promotion workflow) ≫= (fun promotion => ps_result promotion)) (fun result
      => prs_outcome result == PromotionResultOutcomeV1_ReconciliationRequired) then
    false
  else
  if is_some (wtfl_reconciliation_resolution_ref terminal) then
    false
  else
  match wtfl_outcome terminal with
  | WorkflowTerminalOutcomeV1_Completed =>
      (wi_phase workflow == WorkflowPhaseV1_Promoted)
      && (is_some_and (wi_promotion workflow) (fun promotion => is_some_and (ps_result promotion)
          (fun result => prs_outcome result == PromotionResultOutcomeV1_Promoted)))
      && (is_some (wtfl_candidate_digest terminal))
      && (is_some (wtfl_promotion_result_ref terminal))
  | WorkflowTerminalOutcomeV1_Failed | WorkflowTerminalOutcomeV1_Cancelled =>
      (wi_phase workflow != WorkflowPhaseV1_Promoted)
      && (negb (is_some_and (wi_promotion workflow) (fun promotion =>
        (pds_decision (ps_decision promotion) == PromotionDecisionKindV1_Promote)
        && (is_none (ps_result promotion)))))
  end
  end.

(** [value.strip_suffix('Z').and_then(|v| v.rsplit_once('.')).map(|(_, f)| f)]:
    the text after the last dot, when there is one. *)
Definition rfc3339_fraction (value : string) : option string :=
  if negb (ends_with "Z" value) then None else
  match str_split "."%char (String.substring 0 (String.length value - 1) value) with
  | [] | [_] => None
  | pieces => last pieces
  end.

Definition validate_v4_rfc3339_utc_fractional_second_precision (field value : string)
    : Result unit string :=
  fail_if is_some_and (rfc3339_fraction value) (fun fraction =>
            (9 <? String.length fraction)%nat)
    with ("dispatch envelope " +:+ field +:+
          " fractional seconds must contain at most 9 digits for graph-bound V4 dispatch") ;;
  Ok tt.

Definition dispatch_envelope_authority_fields_v1 (p : DispatchEnvelopeV1)
    : DispatchEnvelopeAuthorityFields :=
  {| deaf_workflow_id := de_workflow_id p;
     deaf_workflow_revision := de_workflow_revision p;
     deaf_unit_id := de_unit_id p;
     deaf_attempt := de_attempt p;
     deaf_provenance_ref := de_provenance_ref p;
     deaf_base_commit_sha := de_base_commit_sha p;
     deaf_capability_bundle_digest := de_capability_bundle_digest p;
     deaf_acceptance_contract_digest := de_acceptance_contract_digest p;
     deaf_context_manifest_digest := de_context_manifest_digest p;
     deaf_worker_manifest_digest := de_worker_manifest_digest p;
     deaf_sandbox_profile_digest := de_sandbox_profile_digest p;
     deaf_budget := de_budget p;
     deaf_trust_tier := de_trust_tier p;
     deaf_commit_mode := de_commit_mode p;
     deaf_idempotency_key := de_idempotency_key p;
     deaf_issued_at := de_issued_at p;
     deaf_expires_at := de_expires_at p |}.

Definition dispatch_envelope_authority_fields_v2 (body : DispatchEnvelopeBodyV2)
    : DispatchEnvelopeAuthorityFields :=
  {| deaf_workflow_id := deb2_workflow_id body;
     deaf_workflow_revision := deb2_workflow_revision body;
     deaf_unit_id := deb2_unit_id body;
     deaf_attempt := deb2_attempt body;
     deaf_provenance_ref := deb2_provenance_ref body;
     deaf_base_commit_sha := deb2_base_commit_sha body;
     deaf_capability_bundle_digest := deb2_capability_bundle_digest body;
     deaf_acceptance_contract_digest := deb2_acceptance_contract_digest body;
     deaf_context_manifest_digest := deb2_context_manifest_digest body;
     deaf_worker_manifest_digest := deb2_worker_manifest_digest body;
     deaf_sandbox_profile_digest := deb2_sandbox_profile_digest body;
     deaf_budget := deb2_budget body;
     deaf_trust_tier := deb2_trust_tier body;
     deaf_commit_mode := deb2_commit_mode body;
     deaf_idempotency_key := deb2_idempotency_key body;
     deaf_issued_at := deb2_issued_at body;
     deaf_expires_at := deb2_expires_at body |}.

Definition validate_dispatch_envelope_authority_fields (p : DispatchEnvelopeAuthorityFields)
    : Result unit string :=
  let* _ := for_each (fun '(field, value) =>
      fail_if trim_is_empty value
        with ("dispatch envelope " +:+ field +:+ " must be non-empty") ;;
      Ok tt) ([("workflow_id", deaf_workflow_id p); ("workflow_revision", deaf_workflow_revision
          p); ("unit_id", deaf_unit_id p); ("provenance_ref", deaf_provenance_ref p);
              ("idempotency_key", deaf_idempotency_key p)]) in
  fail_if deaf_attempt p == 0
    with "dispatch envelope attempt must be greater than zero" ;;
  fail_if negb (is_canonical_git_object_id (deaf_base_commit_sha p))
    with "dispatch envelope base_commit_sha must be a full canonical Git object ID" ;;
  let* _ := for_each (fun '(field, value) =>
      fail_if negb (is_canonical_sha256_digest value)
        with ("dispatch envelope " +:+ field +:+ " must be a canonical sha256 digest") ;;
      Ok tt) ([("capability_bundle_digest", deaf_capability_bundle_digest p);
          ("acceptance_contract_digest", deaf_acceptance_contract_digest p);
              ("context_manifest_digest", deaf_context_manifest_digest p);
                  ("worker_manifest_digest", deaf_worker_manifest_digest p);
                      ("sandbox_profile_digest", deaf_sandbox_profile_digest p)]) in
  fail_if
      (is_some_and (db_max_tokens (deaf_budget p)) (fun tokens => tokens == 0))
      || (is_some_and (db_max_compute_time_ms (deaf_budget p)) (fun milliseconds =>
          milliseconds == 0))
    with "dispatch envelope budget limits must be greater than zero when present" ;;
  let* issued_at := ok_or (parse_rfc3339_utc (deaf_issued_at p))
      "dispatch envelope issued_at must be an RFC3339 UTC timestamp" in
  let* expires_at := ok_or (parse_rfc3339_utc (deaf_expires_at p))
      "dispatch envelope expires_at must be an RFC3339 UTC timestamp" in
  fail_if expires_at <=? issued_at
    with "dispatch envelope expires_at must be later than issued_at" ;;
  fail_if
      (deaf_trust_tier p == TrustTierV1_Governed)
      && (deaf_commit_mode p != CommitModeV1_Atomic)
    with "governed dispatch supports only atomic commit mode" ;;
  Ok tt.

Definition validate_dispatch_envelope (p : DispatchEnvelopeV1) : Result unit string :=
  let* _ := validate_dispatch_envelope_authority_fields (dispatch_envelope_authority_fields_v1 p) in
  fail_if negb (is_canonical_sha256_digest (de_envelope_digest p))
    with "dispatch envelope envelope_digest must be a canonical sha256 digest" ;;
  let* _ := for_each (fun '(field, value) =>
      fail_if trim_is_empty value
        with ("dispatch envelope " +:+ field +:+ " must be non-empty") ;;
      Ok tt) ([("signature_ref.key_id", sr_key_id (de_signature_ref p));
          ("signature_ref.signature", sr_signature (de_signature_ref p))]) in
  fail_if sr_algorithm (de_signature_ref p) != "ed25519"
    with "dispatch envelope signature_ref.algorithm must be ed25519" ;;
  Ok tt.

Definition validate_dispatch_envelope_v2 (p : DispatchEnvelopeV2) : Result unit string :=
  let* expected_digest := map_err (fun error =>
      "dispatch envelope v2 body could not be serialized: " +:+ error)
          (dispatch_envelope_v2_body_digest (de2_body p)) in
  fail_if de2_envelope_digest p != expected_digest
    with "dispatch envelope v2 envelope_digest does not match the canonical body digest" ;;
  validate_dispatch_envelope_authority_fields (dispatch_envelope_authority_fields_v2 (de2_body p)).

Definition validate_dispatch_envelope_v3 (p : DispatchEnvelopeV3) : Result unit string :=
  let* expected_digest := map_err (fun error =>
      "dispatch envelope v3 body could not be serialized: " +:+ error)
          (dispatch_envelope_v3_body_digest (de3_body p) (de3_action_evidence_version p)
              (de3_repository_binding_digest p) (de3_ledger_authority_realm_digest p)
                  (de3_governed_packet_digest p)) in
  fail_if de3_envelope_digest p != expected_digest
    with "dispatch envelope v3 envelope_digest does not match the canonical body digest" ;;
  fail_if
      negb (match de3_action_evidence_version p with
      | ActionEvidenceVersionV1_SealedV2 => true
      | ActionEvidenceVersionV1_SealedV3 => true
      end)
    with "dispatch envelope v3 has an unsupported action evidence version" ;;
  fail_if negb (is_canonical_sha256_digest (de3_repository_binding_digest p))
    with "dispatch envelope v3 repository_binding_digest must be a canonical sha256 digest" ;;
  fail_if negb (is_canonical_sha256_digest (de3_ledger_authority_realm_digest p))
    with "dispatch envelope v3 ledger_authority_realm_digest must be a canonical sha256 digest" ;;
  fail_if
      (de3_action_evidence_version p == ActionEvidenceVersionV1_SealedV3)
      && (negb (is_some_and (de3_governed_packet_digest p) is_canonical_sha256_digest))
    with "sealed_v3 dispatch envelope requires a canonical governed_packet_digest" ;;
  validate_dispatch_envelope_authority_fields (dispatch_envelope_authority_fields_v2 (de3_body p)).

Definition validate_dispatch_envelope_v4 (p : DispatchEnvelopeV4) : Result unit string :=
  let* _ := validate_v4_rfc3339_utc_fractional_second_precision "issued_at" (deb2_issued_at
      (de3_body (de4_dispatch_v3 p))) in
  let* _ := validate_v4_rfc3339_utc_fractional_second_precision "expires_at" (deb2_expires_at
      (de3_body (de4_dispatch_v3 p))) in
  let* _ := validate_dispatch_envelope_v3 (de4_dispatch_v3 p) in
  let nested := de4_dispatch_v3 p in
  fail_if
      (deb2_trust_tier (de3_body nested) != TrustTierV1_Governed)
      || (deb2_commit_mode (de3_body nested) != CommitModeV1_Atomic)
      || (de3_action_evidence_version nested != ActionEvidenceVersionV1_SealedV3)
      || (negb (is_some_and (de3_governed_packet_digest nested) is_canonical_sha256_digest))
    with "graph-bound V4 dispatch requires governed atomic sealed_v3 authority with a canonical governed_packet_digest" ;;
  fail_if negb (is_canonical_sha256_digest (de4_workflow_graph_digest p))
    with "graph-bound V4 dispatch workflow_graph_digest must be a canonical sha256 digest" ;;
  let* expected_digest := map_err (fun error =>
      "dispatch envelope v4 body could not be serialized: " +:+ error)
          (dispatch_envelope_v4_digest (de4_dispatch_v3 p) (de4_workflow_graph_digest p)
              (de4_workflow_graph_declaration_event_ref p)) in
  fail_if de4_envelope_digest p != expected_digest
    with "dispatch envelope v4 envelope_digest does not match the canonical body digest" ;;
  Ok tt.

Definition validate_dispatch_envelope_v5 (p : DispatchEnvelopeV5) : Result unit string :=
  let* _ := validate_dispatch_envelope_v4 (de5_dispatch_v4 p) in
  let body := de3_body (de4_dispatch_v3 (de5_dispatch_v4 p)) in
  fail_if
      (de5_context_manifest_digest p != deb2_context_manifest_digest body)
      || (de5_worker_manifest_digest p != deb2_worker_manifest_digest body)
      || (de5_sandbox_profile_digest p != deb2_sandbox_profile_digest body)
    with "manifest-bound V5 dispatch declaration digests must equal the nested V4 dispatch authority" ;;
  let* _ := match (deb2_attempt body, de5_attempt_context_declaration_event_ref p,
      de5_attempt_context_digest p) with
  | (1, None, None) => Ok tt
  | (1, _, _) =>
      Err "manifest-bound V5 first attempt must not include an attempt context declaration"
  | (_, Some _, Some digest) =>
      if is_canonical_sha256_digest digest then Ok tt else Err
          "manifest-bound V5 retry attempt context digest must be a canonical sha256 digest"
  | _ =>
      Err "manifest-bound V5 retry dispatch requires paired attempt context declaration reference and digest"
  end in
  let* expected_digest := map_err (fun error =>
      "dispatch envelope v5 body could not be serialized: " +:+ error)
          (dispatch_envelope_v5_digest p) in
  fail_if de5_envelope_digest p != expected_digest
    with "dispatch envelope v5 envelope_digest does not match the canonical body digest" ;;
  Ok tt.

Definition reject_workflow_transition (st : ReplayState) (event : Event) (reason : string)
    : ReplayState :=
  {| st with st_issues := st_issues st ++
       [ReplayIssue_WorkflowTransitionRejected (ev_id event) (as_wire (ev_kind event))
          (wi_phase <$> st_workflow_instance st) reason] |}.

(** A panic leaves no state behind; it is represented by the unchanged state. *)
Definition finish (st : ReplayState) (event : Event) (verdict : Verdict) : ReplayState :=
  match verdict with
  | Ok st' => st'
  | Err (Rejected reason) => reject_workflow_transition st event reason
  | Err (RejectedActivity activity_id reason) =>
      reject_activity_transition st event activity_id reason
  | Err Ignored => st
  | Err Panicked => st
  end.

Definition activity_type_wire (activity_type : ActivityType) : string :=
  match activity_type with
  | ActivityType_Model => "model"
  | ActivityType_Tool => "tool"
  | ActivityType_Command => "command"
  end.

Definition plan_receipt_outcome_wire (outcome : PlanReceiptOutcome) : string :=
  match outcome with
  | PlanReceiptOutcome_Completed => "completed"
  | PlanReceiptOutcome_Failed => "failed"
  | PlanReceiptOutcome_Aborted => "aborted"
  end.

End Reducer.
