(* ===== verification/ReducerDispatch.v ===== *)
(** * The workflow reducer: declarations, dispatch and admission

    Workflow graphs, V5 manifest declarations, attempt contexts, dispatch
    envelopes V1 to V5 and the V5 admission receipt
    ([bp-replay/src/transitions.rs]). *)
From Stdlib Require Import Ascii.
From S2P Require Import Prelude RustStr Host LedgerPayloads TrustSpine Digests Events ReplayState ReducerCore ManifestWitness.
From stdpp Require Import base list gmap strings pretty.

#[local] Open Scope string_scope.
#[local] Open Scope list_scope.
#[local] Open Scope Z_scope.

Section Reducer.
Context `{Host, Canonicalizer}.

Definition workflow_graph_declared_v1_verdict (st : ReplayState)
    (event : Event)
    (declaration : WorkflowGraphDeclaredV1)
    : Verdict :=
  let* _ := map_err (fun error => (Rejected
      ("workflow graph declaration failed canonical validation: " +:+ error))) (canonicalize
          event) in
  fail_if wgd1_run_id declaration != uuid_to_string (ev_run_id event)
    with (Rejected "workflow graph declaration run_id does not match its event run_id") ;;
  fail_if workflow_graph_has_dispatched st (wgd1_run_id declaration) (wgd1_workflow_id
      declaration) (wgd1_workflow_revision declaration)
    with (Rejected "workflow graph declaration arrived after dispatch for that workflow revision")
        ;;
  let key := workflow_graph_key (wgd1_run_id declaration) (wgd1_workflow_id declaration)
      (wgd1_workflow_revision declaration) in
  match (st_workflow_graphs st) !! key with
  | Some existing =>
      fail_if
          (wgs_event_id existing == ev_id event)
          && (workflow_graph_matches existing declaration)
        with Ignored ;;
      let reason := if wgs_event_id existing == ev_id event then
          "workflow graph declaration event id conflicts with its existing projection"
      else "workflow graph declaration conflicts with an existing immutable declaration" in
      Err (Rejected reason)
  | None =>
  let st :=
    {| st with st_workflow_graphs := <[key := {| wgs_event_id := ev_id event;
           wgs_run_id := wgd1_run_id declaration;
           wgs_workflow_id := wgd1_workflow_id declaration;
           wgs_workflow_revision := wgd1_workflow_revision declaration;
           wgs_nodes := wgd1_nodes declaration;
           wgs_max_concurrent := wgd1_max_concurrent declaration;
           wgs_graph_digest := wgd1_graph_digest declaration;
           wgs_idempotency_key := wgd1_idempotency_key declaration;
           wgs_declared_at := wgd1_declared_at declaration |}]> (st_workflow_graphs st) |} in
  Ok st
  end.

Definition apply_workflow_graph_declared_v1 (st : ReplayState)
    (event : Event)
    (declaration : WorkflowGraphDeclaredV1)
    : ReplayState :=
  finish st event (workflow_graph_declared_v1_verdict st event declaration).

Definition workflow_graph_declared_v2_verdict (st : ReplayState)
    (event : Event)
    (declaration : WorkflowGraphDeclaredV2)
    : Verdict :=
  let* _ := map_err (fun error => (Rejected
      ("workflow graph declaration v2 failed canonical validation: " +:+ error))) (canonicalize
          event) in
  fail_if wgd2_run_id declaration != uuid_to_string (ev_run_id event)
    with (Rejected "workflow graph declaration v2 run_id does not match its event run_id") ;;
  fail_if workflow_graph_v2_has_other_revision st (wgd2_run_id declaration) (wgd2_workflow_id
      declaration) (wgd2_workflow_revision declaration)
    with (Rejected
        "workflow graph declaration v2 cannot reuse a run/workflow identity across revisions until workflow evidence keys include the revision") ;;
  fail_if workflow_graph_v2_has_dispatched st (wgd2_run_id declaration) (wgd2_workflow_id
      declaration) (wgd2_workflow_revision declaration)
    with (Rejected
        "workflow graph declaration v2 arrived after V4 dispatch for that workflow revision") ;;
  let key := workflow_graph_key (wgd2_run_id declaration) (wgd2_workflow_id declaration)
      (wgd2_workflow_revision declaration) in
  match (st_workflow_graphs_v2 st) !! key with
  | Some existing =>
      fail_if
          (wg2s_event_id existing == ev_id event)
          && (workflow_graph_v2_matches existing declaration)
        with Ignored ;;
      let reason := if wg2s_event_id existing == ev_id event then
          "workflow graph declaration v2 event id conflicts with its existing projection"
      else "workflow graph declaration v2 conflicts with an existing immutable declaration" in
      Err (Rejected reason)
  | None =>
  let st :=
    {| st with st_workflow_graphs_v2 := <[key := {| wg2s_event_id := ev_id event;
           wg2s_run_id := wgd2_run_id declaration;
           wg2s_workflow_id := wgd2_workflow_id declaration;
           wg2s_workflow_revision := wgd2_workflow_revision declaration;
           wg2s_nodes := wgd2_nodes declaration;
           wg2s_max_concurrent := wgd2_max_concurrent declaration;
           wg2s_graph_digest := wgd2_graph_digest declaration;
           wg2s_idempotency_key := wgd2_idempotency_key declaration;
           wg2s_declared_at := wgd2_declared_at declaration |}]> (st_workflow_graphs_v2 st) |} in
  Ok st
  end.

Definition apply_workflow_graph_declared_v2 (st : ReplayState)
    (event : Event)
    (declaration : WorkflowGraphDeclaredV2)
    : ReplayState :=
  finish st event (workflow_graph_declared_v2_verdict st event declaration).

Definition context_manifest_declared_v1_verdict (st : ReplayState)
    (event : Event)
    (declaration : ContextManifestDeclaredV1)
    (signer : option ActorKeyRef)
    : Verdict :=
  let* _ := map_err Rejected (validate_v5_event_payload event) in
  let* key := map_err Rejected (validate_manifest_declaration_identity st event (cmd_run_id
      declaration) (cmd_workflow_id declaration) (cmd_workflow_revision declaration) (cmd_unit_id
          declaration) (cmd_attempt declaration)) in
  let projected := {| cmds_event_id := ev_id event;
     cmds_run_id := cmd_run_id declaration;
     cmds_workflow_id := cmd_workflow_id declaration;
     cmds_workflow_revision := cmd_workflow_revision declaration;
     cmds_unit_id := cmd_unit_id declaration;
     cmds_attempt := cmd_attempt declaration;
     cmds_provenance_ref := cmd_provenance_ref declaration;
     cmds_context_manifest := cmd_context_manifest declaration;
     cmds_context_manifest_digest := cmd_context_manifest_digest declaration;
     cmds_idempotency_key := cmd_idempotency_key declaration;
     cmds_declared_at := cmd_declared_at declaration;
     cmds_verified_signer := signer |} in
  match (st_context_manifest_declarations st) !! key with
  | Some existing =>
      fail_if existing == projected
        with Ignored ;;
      Err (Rejected "context manifest declaration conflicts with an existing immutable declaration")
  | None =>
  let st :=
    {| st with st_context_manifest_declarations := <[key := projected]>
        (st_context_manifest_declarations st) |} in
  Ok st
  end.

Definition apply_context_manifest_declared_v1 (st : ReplayState)
    (event : Event)
    (declaration : ContextManifestDeclaredV1)
    (signer : option ActorKeyRef)
    : ReplayState :=
  finish st event (context_manifest_declared_v1_verdict st event declaration signer).

Definition worker_manifest_declared_v1_verdict (st : ReplayState)
    (event : Event)
    (declaration : WorkerManifestDeclaredV1)
    (signer : option ActorKeyRef)
    : Verdict :=
  let* _ := map_err Rejected (validate_v5_event_payload event) in
  let* key := map_err Rejected (validate_manifest_declaration_identity st event (wmd_run_id
      declaration) (wmd_workflow_id declaration) (wmd_workflow_revision declaration) (wmd_unit_id
          declaration) (wmd_attempt declaration)) in
  let projected := {| wmds_event_id := ev_id event;
     wmds_run_id := wmd_run_id declaration;
     wmds_workflow_id := wmd_workflow_id declaration;
     wmds_workflow_revision := wmd_workflow_revision declaration;
     wmds_unit_id := wmd_unit_id declaration;
     wmds_attempt := wmd_attempt declaration;
     wmds_provenance_ref := wmd_provenance_ref declaration;
     wmds_worker_manifest := wmd_worker_manifest declaration;
     wmds_worker_manifest_digest := wmd_worker_manifest_digest declaration;
     wmds_idempotency_key := wmd_idempotency_key declaration;
     wmds_declared_at := wmd_declared_at declaration;
     wmds_verified_signer := signer |} in
  match (st_worker_manifest_declarations st) !! key with
  | Some existing =>
      fail_if existing == projected
        with Ignored ;;
      Err (Rejected "worker manifest declaration conflicts with an existing immutable declaration")
  | None =>
  let st :=
    {| st with st_worker_manifest_declarations := <[key := projected]>
        (st_worker_manifest_declarations st) |} in
  Ok st
  end.

Definition apply_worker_manifest_declared_v1 (st : ReplayState)
    (event : Event)
    (declaration : WorkerManifestDeclaredV1)
    (signer : option ActorKeyRef)
    : ReplayState :=
  finish st event (worker_manifest_declared_v1_verdict st event declaration signer).

Definition sandbox_profile_declared_v1_verdict (st : ReplayState)
    (event : Event)
    (declaration : SandboxProfileDeclaredV1)
    (signer : option ActorKeyRef)
    : Verdict :=
  let* _ := map_err Rejected (validate_v5_event_payload event) in
  let* key := map_err Rejected (validate_manifest_declaration_identity st event (spd_run_id
      declaration) (spd_workflow_id declaration) (spd_workflow_revision declaration) (spd_unit_id
          declaration) (spd_attempt declaration)) in
  let projected := {| spds_event_id := ev_id event;
     spds_run_id := spd_run_id declaration;
     spds_workflow_id := spd_workflow_id declaration;
     spds_workflow_revision := spd_workflow_revision declaration;
     spds_unit_id := spd_unit_id declaration;
     spds_attempt := spd_attempt declaration;
     spds_provenance_ref := spd_provenance_ref declaration;
     spds_sandbox_profile := spd_sandbox_profile declaration;
     spds_sandbox_profile_digest := spd_sandbox_profile_digest declaration;
     spds_idempotency_key := spd_idempotency_key declaration;
     spds_declared_at := spd_declared_at declaration;
     spds_verified_signer := signer |} in
  match (st_sandbox_profile_declarations st) !! key with
  | Some existing =>
      fail_if existing == projected
        with Ignored ;;
      Err (Rejected "sandbox profile declaration conflicts with an existing immutable declaration")
  | None =>
  let st :=
    {| st with st_sandbox_profile_declarations := <[key := projected]>
        (st_sandbox_profile_declarations st) |} in
  Ok st
  end.

Definition apply_sandbox_profile_declared_v1 (st : ReplayState)
    (event : Event)
    (declaration : SandboxProfileDeclaredV1)
    (signer : option ActorKeyRef)
    : ReplayState :=
  finish st event (sandbox_profile_declared_v1_verdict st event declaration signer).

Definition attempt_context_declared_v1_verdict (st : ReplayState)
    (event : Event)
    (declaration : AttemptContextDeclaredV1)
    (signer : option ActorKeyRef)
    : Verdict :=
  let* _ := map_err Rejected (validate_v5_event_payload event) in
  let* key := map_err Rejected (validate_manifest_declaration_identity st event (acd_run_id
      declaration) (acd_workflow_id declaration) (acd_workflow_revision declaration) (acd_unit_id
          declaration) (acd_attempt declaration)) in
  let projected := {| acds_event_id := ev_id event;
     acds_run_id := acd_run_id declaration;
     acds_workflow_id := acd_workflow_id declaration;
     acds_workflow_revision := acd_workflow_revision declaration;
     acds_unit_id := acd_unit_id declaration;
     acds_attempt := acd_attempt declaration;
     acds_provenance_ref := acd_provenance_ref declaration;
     acds_attempt_context := acd_attempt_context declaration;
     acds_attempt_context_digest := acd_attempt_context_digest declaration;
     acds_idempotency_key := acd_idempotency_key declaration;
     acds_declared_at := acd_declared_at declaration;
     acds_verified_signer := signer |} in
  match (st_attempt_context_declarations st) !! key with
  | Some existing =>
      fail_if existing == projected
        with Ignored ;;
      Err (Rejected "attempt context declaration conflicts with an existing immutable declaration")
  | None =>
  let st :=
    {| st with st_attempt_context_declarations := <[key := projected]>
        (st_attempt_context_declarations st) |} in
  Ok st
  end.

Definition apply_attempt_context_declared_v1 (st : ReplayState)
    (event : Event)
    (declaration : AttemptContextDeclaredV1)
    (signer : option ActorKeyRef)
    : ReplayState :=
  finish st event (attempt_context_declared_v1_verdict st event declaration signer).

Definition dispatch_envelope_precheck (event : Event) (p : DispatchEnvelopeV1) : Result unit Exit :=
  let* _ := map_err Rejected (validate_dispatch_envelope p) in
  Ok tt.

Definition dispatch_envelope_verdict (st : ReplayState)
    (event : Event)
    (p : DispatchEnvelopeV1)
    : Verdict :=
  let key := workflow_instance_key (de_workflow_id p) (de_unit_id p) (de_attempt p) in
  match (st_workflow_instances st) !! key with
  | Some existing =>
      fail_if negb (event_matches_workflow_run existing event)
        with (Rejected
            "dispatch envelope reuses a workflow/unit/attempt key from a different run") ;;
      if dispatch_matches existing p then
        Ok (sync_workflow_compatibility_view st key)
      else
      let reason := "dispatch envelope does not match existing workflow/unit/attempt " +:+
          (wi_workflow_id existing) +:+ "/" +:+ (wi_workflow_revision existing) +:+ " unit " +:+
              (wi_unit_id existing) +:+ " attempt " +:+ pretty (wi_attempt existing) in
      Err (Rejected reason)
  | None =>
  let* _ := map_err Rejected (validate_dispatch_run_scope st event (de_trust_tier p)) in
  let st :=
    {| st with st_workflow_instances := <[key := {| wi_run_id := uuid_to_string (ev_run_id event);
           wi_workflow_id := de_workflow_id p;
           wi_workflow_revision := de_workflow_revision p;
           wi_unit_id := de_unit_id p;
           wi_attempt := de_attempt p;
           wi_phase := WorkflowPhaseV1_Dispatched;
           wi_dispatch := {| wd_dispatch_version := 1;
           wd_event_id := ev_id event;
           wd_dispatch_event_digest := None;
           wd_envelope_digest := de_envelope_digest p;
           wd_provenance_ref := de_provenance_ref p;
           wd_base_commit_sha := de_base_commit_sha p;
           wd_repository_binding_digest := None;
           wd_ledger_authority_realm_digest := None;
           wd_governed_packet_digest := None;
           wd_workflow_graph_digest := None;
           wd_workflow_graph_declaration_event_ref := None;
           wd_capability_bundle_digest := de_capability_bundle_digest p;
           wd_acceptance_contract_digest := de_acceptance_contract_digest p;
           wd_context_manifest_digest := de_context_manifest_digest p;
           wd_worker_manifest_digest := de_worker_manifest_digest p;
           wd_sandbox_profile_digest := de_sandbox_profile_digest p;
           wd_execution_role := de_execution_role p;
           wd_commit_mode := de_commit_mode p;
           wd_budget := de_budget p;
           wd_trust_tier := de_trust_tier p;
           wd_idempotency_key := de_idempotency_key p;
           wd_issued_at := de_issued_at p;
           wd_expires_at := de_expires_at p;
           wd_signature_ref := Some (de_signature_ref p);
           wd_action_evidence_version := None |};
           wi_workflow_graph := None;
           wi_manifest_declarations := None;
           wi_v5_admission_receipt := None;
           wi_action_evidence := None;
           wi_retry_context := None;
           wi_timers := ∅;
           wi_cancellation := None;
           wi_candidate := None;
           wi_candidate_completion := None;
           wi_acceptance := None;
           wi_reviews := ∅;
           wi_promotion_approval := None;
           wi_promotion := None;
           wi_terminal := None |}]> (st_workflow_instances st) |} in
  Ok (sync_workflow_compatibility_view st key)
  end.

Definition apply_dispatch_envelope (st : ReplayState)
    (event : Event)
    (p : DispatchEnvelopeV1)
    : ReplayState :=
  match dispatch_envelope_precheck event p with
  | Err e => finish st event (Err e)
  | Ok _ =>
      let st := ensure_workflow_instances st in
      finish st event (dispatch_envelope_verdict st event p)
  end.

Definition dispatch_envelope_v2_precheck (event : Event)
    (p : DispatchEnvelopeV2)
    : Result unit Exit :=
  let* _ := map_err Rejected (validate_dispatch_envelope_v2 p) in
  Ok tt.

Definition dispatch_envelope_v2_verdict (st : ReplayState)
    (event : Event)
    (p : DispatchEnvelopeV2)
    : Verdict :=
  let body := de2_body p in
  let key := workflow_instance_key (deb2_workflow_id body) (deb2_unit_id body) (deb2_attempt body)
      in
  match (st_workflow_instances st) !! key with
  | Some existing =>
      fail_if negb (event_matches_workflow_run existing event)
        with (Rejected
            "dispatch envelope v2 reuses a workflow/unit/attempt key from a different run") ;;
      if dispatch_v2_matches existing p then
        Ok (sync_workflow_compatibility_view st key)
      else
      let reason := "dispatch envelope v2 does not match existing workflow/unit/attempt " +:+
          (wi_workflow_id existing) +:+ "/" +:+ (wi_workflow_revision existing) +:+ " unit " +:+
              (wi_unit_id existing) +:+ " attempt " +:+ pretty (wi_attempt existing) in
      Err (Rejected reason)
  | None =>
  let* _ := map_err Rejected (validate_dispatch_run_scope st event (deb2_trust_tier body)) in
  let st :=
    {| st with st_workflow_instances := <[key := {| wi_run_id := uuid_to_string (ev_run_id event);
           wi_workflow_id := deb2_workflow_id body;
           wi_workflow_revision := deb2_workflow_revision body;
           wi_unit_id := deb2_unit_id body;
           wi_attempt := deb2_attempt body;
           wi_phase := WorkflowPhaseV1_Dispatched;
           wi_dispatch := {| wd_dispatch_version := 2;
           wd_event_id := ev_id event;
           wd_dispatch_event_digest := None;
           wd_envelope_digest := de2_envelope_digest p;
           wd_provenance_ref := deb2_provenance_ref body;
           wd_base_commit_sha := deb2_base_commit_sha body;
           wd_repository_binding_digest := None;
           wd_ledger_authority_realm_digest := None;
           wd_governed_packet_digest := None;
           wd_workflow_graph_digest := None;
           wd_workflow_graph_declaration_event_ref := None;
           wd_capability_bundle_digest := deb2_capability_bundle_digest body;
           wd_acceptance_contract_digest := deb2_acceptance_contract_digest body;
           wd_context_manifest_digest := deb2_context_manifest_digest body;
           wd_worker_manifest_digest := deb2_worker_manifest_digest body;
           wd_sandbox_profile_digest := deb2_sandbox_profile_digest body;
           wd_execution_role := deb2_execution_role body;
           wd_commit_mode := deb2_commit_mode body;
           wd_budget := deb2_budget body;
           wd_trust_tier := deb2_trust_tier body;
           wd_idempotency_key := deb2_idempotency_key body;
           wd_issued_at := deb2_issued_at body;
           wd_expires_at := deb2_expires_at body;
           wd_signature_ref := None;
           wd_action_evidence_version := None |};
           wi_workflow_graph := None;
           wi_manifest_declarations := None;
           wi_v5_admission_receipt := None;
           wi_action_evidence := None;
           wi_retry_context := None;
           wi_timers := ∅;
           wi_cancellation := None;
           wi_candidate := None;
           wi_candidate_completion := None;
           wi_acceptance := None;
           wi_reviews := ∅;
           wi_promotion_approval := None;
           wi_promotion := None;
           wi_terminal := None |}]> (st_workflow_instances st) |} in
  Ok (sync_workflow_compatibility_view st key)
  end.

Definition apply_dispatch_envelope_v2 (st : ReplayState)
    (event : Event)
    (p : DispatchEnvelopeV2)
    : ReplayState :=
  match dispatch_envelope_v2_precheck event p with
  | Err e => finish st event (Err e)
  | Ok _ =>
      let st := ensure_workflow_instances st in
      finish st event (dispatch_envelope_v2_verdict st event p)
  end.

Definition attempt_context_recorded_v1_precheck (event : Event)
    (p : AttemptContextRecordedV1)
    : Result unit Exit :=
  let* _ := map_err Rejected (validate_v3_event_payload event) in
  fail_if acr_run_id p != uuid_to_string (ev_run_id event)
    with (Rejected "attempt context run_id does not match its event run_id") ;;
  Ok tt.

Definition attempt_context_recorded_v1_verdict (st : ReplayState)
    (event : Event)
    (p : AttemptContextRecordedV1)
    : Verdict :=
  match (st_attempt_contexts st) !! (acr_next_dispatch_envelope_digest p) with
  | Some existing =>
      fail_if (acs_event_id existing == ev_id event) && (acs_context existing == p)
        with Ignored ;;
      let reason := if acs_event_id existing == ev_id event then
          "attempt context event id conflicts with an already projected context"
      else "physical duplicate attempt context cannot create new retry authority" in
      Err (Rejected reason)
  | None =>
  fail_if
      map_any (fun existing =>
        let existing := acs_context existing in
        (acr_run_id existing == acr_run_id p)
        && ((acr_idempotency_key existing == acr_idempotency_key p)
        || (acr_next_dispatch_idempotency_key existing == acr_next_dispatch_idempotency_key p)
        || (acr_retry_action_namespace existing == acr_retry_action_namespace p)))
            (st_attempt_contexts st)
    with (Rejected "attempt context reuses an existing retry idempotency or action namespace") ;;
  fail_if
      map_any (fun existing =>
        let existing := acs_context existing in
        (acr_run_id existing == acr_run_id p)
        && (acr_workflow_id existing == acr_workflow_id p)
        && (acr_unit_id existing == acr_unit_id p)
        && (acr_prior_attempt existing == acr_prior_attempt p)) (st_attempt_contexts st)
    with (Rejected "attempt context prior attempt is already bound to a retry decision") ;;
  let prior_key := workflow_instance_key (acr_workflow_id p) (acr_unit_id p) (acr_prior_attempt p)
      in
  some_or prior := (st_workflow_instances st) !! prior_key
    with (Rejected "attempt context has no projected prior workflow attempt") ;;
  fail_if
      (negb (event_matches_workflow_run prior event))
      || (wi_workflow_id prior != acr_workflow_id p)
      || (wi_workflow_revision prior != acr_workflow_revision p)
      || (wi_unit_id prior != acr_unit_id p)
      || (wi_attempt prior != acr_prior_attempt p)
    with (Rejected "attempt context does not bind the same run/workflow/unit prior attempt") ;;
  fail_if
      (negb ((wd_dispatch_version (wi_dispatch prior) =? 3) || (wd_dispatch_version (wi_dispatch
          prior) =? 4) || (wd_dispatch_version (wi_dispatch prior) =? 5)))
      || (wd_action_evidence_version (wi_dispatch prior) != Some ActionEvidenceVersionV1_SealedV3)
      || (wd_trust_tier (wi_dispatch prior) != TrustTierV1_Governed)
    with (Rejected "attempt context requires a governed sealed_v3 prior dispatch") ;;
  fail_if wd_envelope_digest (wi_dispatch prior) != acr_prior_dispatch_envelope_digest p
    with (Rejected
        "attempt context prior dispatch envelope digest does not match the projected prior attempt") ;;
  some_or terminal := wi_terminal prior
    with (Rejected "attempt context requires terminal failed prior-attempt evidence") ;;
  fail_if
      (wi_phase prior != WorkflowPhaseV1_Failed)
      || (wtrs_outcome terminal != WorkflowTerminalOutcomeV1_Failed)
      || (uuid_to_string (wtrs_event_id terminal) != acr_prior_terminal_event_ref p)
      || (wtrs_event_digest terminal == "")
      || (wtrs_event_digest terminal != acr_prior_terminal_event_digest p)
    with (Rejected
        "attempt context terminal prior evidence is stale or does not match the failed attempt") ;;
  match (parse_rfc3339_utc (wtrs_completed_at terminal), parse_rfc3339_utc (acr_recorded_at p)) with
  | (Some terminal_at, Some context_at) =>
  fail_if context_at <? terminal_at
    with (Rejected "attempt context cannot predate the terminal prior-attempt evidence") ;;
  some_or evidence := wi_action_evidence prior
    with (Rejected "attempt context prior attempt is missing sealed action evidence") ;;
  let matching_actions := List.filter (fun action =>
    is_some_and (acts_receipt action) (fun receipt =>
      (arcs_action_receipt_ref receipt == acr_prior_action_receipt_ref p)
      && (arcs_action_receipt_digest receipt == acr_prior_action_receipt_digest p))) (map_values
          (aes_actions evidence)) in
  match matching_actions with
  | [action] =>
  some_or receipt := acts_receipt action with Panicked ;;
  let activity_failed := is_some_and ((acts_activity_claim action) ≫= (fun claim => acls_result
      claim)) (fun result => arxs_outcome result == ActivityResultOutcomeV1_Failed) in
  fail_if (arcs_outcome receipt != ActionReceiptOutcomeV2_Failed) || (negb activity_failed)
    with (Rejected
        "attempt context prior action receipt must bind a terminal failed activity result") ;;
  let reuses_prior_namespace := (acr_next_dispatch_idempotency_key p == wd_idempotency_key
      (wi_dispatch prior))
  || (acr_retry_action_namespace p == wd_idempotency_key (wi_dispatch prior))
  || (map_any (fun action =>
    (acr_next_dispatch_idempotency_key p == arqs_idempotency_key (acts_request action))
    || (acr_retry_action_namespace p == arqs_idempotency_key (acts_request action))) (aes_actions
        evidence)) in
  fail_if reuses_prior_namespace
    with (Rejected
        "attempt context cannot reuse the prior dispatch or action idempotency namespace") ;;
  fail_if
      map_any (fun workflow =>
        (wi_run_id workflow == acr_run_id p)
        && ((wd_idempotency_key (wi_dispatch workflow) == acr_next_dispatch_idempotency_key p)
        || (wd_idempotency_key (wi_dispatch workflow) == acr_retry_action_namespace p)))
            (st_workflow_instances st)
    with (Rejected
        "attempt context next dispatch idempotency or retry namespace is already projected") ;;
  let st :=
    {| st with st_attempt_contexts := <[acr_next_dispatch_envelope_digest p := {| acs_event_id :=
        ev_id event;
           acs_context := p |}]> (st_attempt_contexts st) |} in
  Ok st
  | _ => Err (Rejected "attempt context prior action receipt evidence is missing or ambiguous")
  end
  | _ => Err (Rejected "attempt context terminal or recorded timestamp is not RFC3339 UTC")
  end
  end.

Definition apply_attempt_context_recorded_v1 (st : ReplayState)
    (event : Event)
    (p : AttemptContextRecordedV1)
    : ReplayState :=
  match attempt_context_recorded_v1_precheck event p with
  | Err e => finish st event (Err e)
  | Ok _ =>
      let st := ensure_workflow_instances st in
      finish st event (attempt_context_recorded_v1_verdict st event p)
  end.

Definition dispatch_envelope_v3_precheck (event : Event)
    (p : DispatchEnvelopeV3)
    : Result unit Exit :=
  let* _ := map_err Rejected (validate_v3_event_payload event) in
  let* _ := map_err Rejected (validate_dispatch_envelope_v3 p) in
  Ok tt.

Definition dispatch_envelope_v3_verdict (st : ReplayState)
    (event : Event)
    (p : DispatchEnvelopeV3)
    : Verdict :=
  let body := de3_body p in
  let key := workflow_instance_key (deb2_workflow_id body) (deb2_unit_id body) (deb2_attempt body)
      in
  match (st_workflow_instances st) !! key with
  | Some existing =>
      fail_if negb (event_matches_workflow_run existing event)
        with (Rejected
            "dispatch envelope v3 reuses a workflow/unit/attempt key from a different run") ;;
      if dispatch_v3_matches existing p then
        Ok (sync_workflow_compatibility_view st key)
      else
      let reason := "dispatch envelope v3 does not match existing workflow/unit/attempt " +:+
          (wi_workflow_id existing) +:+ "/" +:+ (wi_workflow_revision existing) +:+ " unit " +:+
              (wi_unit_id existing) +:+ " attempt " +:+ pretty (wi_attempt existing) in
      Err (Rejected reason)
  | None =>
  let* _ := map_err Rejected (validate_dispatch_run_scope st event (deb2_trust_tier body)) in
  let* retry_context := if (1 <? deb2_attempt body)
  && (deb2_trust_tier body == TrustTierV1_Governed)
  && (de3_action_evidence_version p == ActionEvidenceVersionV1_SealedV3) then
    match validate_retry_dispatch_context st event p with
    | Ok context => Ok (Some context)
    | Err reason => Err (Rejected reason)
    end
  else Ok None in
  let st :=
    {| st with st_workflow_instances := <[key := {| wi_run_id := uuid_to_string (ev_run_id event);
           wi_workflow_id := deb2_workflow_id body;
           wi_workflow_revision := deb2_workflow_revision body;
           wi_unit_id := deb2_unit_id body;
           wi_attempt := deb2_attempt body;
           wi_phase := WorkflowPhaseV1_Dispatched;
           wi_dispatch := {| wd_dispatch_version := 3;
           wd_event_id := ev_id event;
           wd_dispatch_event_digest := None;
           wd_envelope_digest := de3_envelope_digest p;
           wd_provenance_ref := deb2_provenance_ref body;
           wd_base_commit_sha := deb2_base_commit_sha body;
           wd_repository_binding_digest := Some (de3_repository_binding_digest p);
           wd_ledger_authority_realm_digest := Some (de3_ledger_authority_realm_digest p);
           wd_governed_packet_digest := de3_governed_packet_digest p;
           wd_workflow_graph_digest := None;
           wd_workflow_graph_declaration_event_ref := None;
           wd_capability_bundle_digest := deb2_capability_bundle_digest body;
           wd_acceptance_contract_digest := deb2_acceptance_contract_digest body;
           wd_context_manifest_digest := deb2_context_manifest_digest body;
           wd_worker_manifest_digest := deb2_worker_manifest_digest body;
           wd_sandbox_profile_digest := deb2_sandbox_profile_digest body;
           wd_execution_role := deb2_execution_role body;
           wd_commit_mode := deb2_commit_mode body;
           wd_budget := deb2_budget body;
           wd_trust_tier := deb2_trust_tier body;
           wd_idempotency_key := deb2_idempotency_key body;
           wd_issued_at := deb2_issued_at body;
           wd_expires_at := deb2_expires_at body;
           wd_signature_ref := None;
           wd_action_evidence_version := Some (de3_action_evidence_version p) |};
           wi_workflow_graph := None;
           wi_manifest_declarations := None;
           wi_v5_admission_receipt := None;
           wi_action_evidence := Some {| aes_action_evidence_version :=
               de3_action_evidence_version p;
           aes_actions := ∅;
           aes_sealed_receipt_set := None;
           aes_pending_action_ids := [];
           aes_unknown_action_ids := [];
           aes_failed_action_ids := [] |};
           wi_retry_context := retry_context;
           wi_timers := ∅;
           wi_cancellation := None;
           wi_candidate := None;
           wi_candidate_completion := None;
           wi_acceptance := None;
           wi_reviews := ∅;
           wi_promotion_approval := None;
           wi_promotion := None;
           wi_terminal := None |}]> (st_workflow_instances st) |} in
  Ok (sync_workflow_compatibility_view st key)
  end.

Definition apply_dispatch_envelope_v3 (st : ReplayState)
    (event : Event)
    (p : DispatchEnvelopeV3)
    : ReplayState :=
  match dispatch_envelope_v3_precheck event p with
  | Err e => finish st event (Err e)
  | Ok _ =>
      let st := ensure_workflow_instances st in
      finish st event (dispatch_envelope_v3_verdict st event p)
  end.

Definition dispatch_envelope_v4_precheck (st : ReplayState)
    (event : Event)
    (p : DispatchEnvelopeV4)
    : Result WorkflowGraphV2ReplayState Exit :=
  let* _ := map_err Rejected (validate_v4_event_payload event) in
  let* _ := map_err Rejected (validate_dispatch_envelope_v4 p) in
  let* workflow_graph := map_err Rejected (validate_v4_graph_binding st event p) in
  Ok workflow_graph.

Definition dispatch_envelope_v4_verdict (st : ReplayState)
    (event : Event)
    (p : DispatchEnvelopeV4)
    (workflow_graph : WorkflowGraphV2ReplayState)
    : Verdict :=
  let nested := de4_dispatch_v3 p in
  let body := de3_body nested in
  fail_if workflow_instance_has_cross_revision_identity st event (deb2_workflow_id body)
      (deb2_workflow_revision body) (deb2_unit_id body) (deb2_attempt body)
    with (Rejected
        "graph-bound V4 dispatch cannot reuse a workflow/unit/attempt identity across revisions until workflow evidence keys include the revision") ;;
  let key := workflow_instance_key (deb2_workflow_id body) (deb2_unit_id body) (deb2_attempt body)
      in
  match (st_workflow_instances st) !! key with
  | Some existing =>
      fail_if negb (event_matches_workflow_run existing event)
        with (Rejected
            "dispatch envelope v4 reuses a workflow/unit/attempt key from a different run") ;;
      if dispatch_v4_matches existing p then
        Ok (sync_workflow_compatibility_view st key)
      else
      let reason := "dispatch envelope v4 does not match existing workflow/unit/attempt " +:+
          (wi_workflow_id existing) +:+ "/" +:+ (wi_workflow_revision existing) +:+ " unit " +:+
              (wi_unit_id existing) +:+ " attempt " +:+ pretty (wi_attempt existing) in
      Err (Rejected reason)
  | None =>
  let* _ := map_err Rejected (validate_dispatch_run_scope st event (deb2_trust_tier body)) in
  let* _ := map_err Rejected (validate_v4_graph_schedule st event p) in
  let* retry_context := if 1 <? deb2_attempt body then
    match validate_retry_dispatch_context_v4 st event p with
    | Ok context => Ok (Some context)
    | Err reason => Err (Rejected reason)
    end
  else Ok None in
  let st :=
    {| st with st_workflow_instances := <[key := {| wi_run_id := uuid_to_string (ev_run_id event);
           wi_workflow_id := deb2_workflow_id body;
           wi_workflow_revision := deb2_workflow_revision body;
           wi_unit_id := deb2_unit_id body;
           wi_attempt := deb2_attempt body;
           wi_phase := WorkflowPhaseV1_Dispatched;
           wi_dispatch := {| wd_dispatch_version := 4;
           wd_event_id := ev_id event;
           wd_dispatch_event_digest := None;
           wd_envelope_digest := de4_envelope_digest p;
           wd_provenance_ref := deb2_provenance_ref body;
           wd_base_commit_sha := deb2_base_commit_sha body;
           wd_repository_binding_digest := Some (de3_repository_binding_digest nested);
           wd_ledger_authority_realm_digest := Some (de3_ledger_authority_realm_digest nested);
           wd_governed_packet_digest := de3_governed_packet_digest nested;
           wd_workflow_graph_digest := Some (de4_workflow_graph_digest p);
           wd_workflow_graph_declaration_event_ref := Some
               (de4_workflow_graph_declaration_event_ref p);
           wd_capability_bundle_digest := deb2_capability_bundle_digest body;
           wd_acceptance_contract_digest := deb2_acceptance_contract_digest body;
           wd_context_manifest_digest := deb2_context_manifest_digest body;
           wd_worker_manifest_digest := deb2_worker_manifest_digest body;
           wd_sandbox_profile_digest := deb2_sandbox_profile_digest body;
           wd_execution_role := deb2_execution_role body;
           wd_commit_mode := deb2_commit_mode body;
           wd_budget := deb2_budget body;
           wd_trust_tier := deb2_trust_tier body;
           wd_idempotency_key := deb2_idempotency_key body;
           wd_issued_at := deb2_issued_at body;
           wd_expires_at := deb2_expires_at body;
           wd_signature_ref := None;
           wd_action_evidence_version := Some (de3_action_evidence_version nested) |};
           wi_workflow_graph := Some workflow_graph;
           wi_manifest_declarations := None;
           wi_v5_admission_receipt := None;
           wi_action_evidence := Some {| aes_action_evidence_version :=
               de3_action_evidence_version nested;
           aes_actions := ∅;
           aes_sealed_receipt_set := None;
           aes_pending_action_ids := [];
           aes_unknown_action_ids := [];
           aes_failed_action_ids := [] |};
           wi_retry_context := retry_context;
           wi_timers := ∅;
           wi_cancellation := None;
           wi_candidate := None;
           wi_candidate_completion := None;
           wi_acceptance := None;
           wi_reviews := ∅;
           wi_promotion_approval := None;
           wi_promotion := None;
           wi_terminal := None |}]> (st_workflow_instances st) |} in
  Ok (sync_workflow_compatibility_view st key)
  end.

Definition apply_dispatch_envelope_v4 (st : ReplayState)
    (event : Event)
    (p : DispatchEnvelopeV4)
    : ReplayState :=
  match dispatch_envelope_v4_precheck st event p with
  | Err e => finish st event (Err e)
  | Ok workflow_graph =>
      let st := ensure_workflow_instances st in
      finish st event (dispatch_envelope_v4_verdict st event p workflow_graph)
  end.

Definition replay_v5_manifest_binding_error (error : V5ManifestDeclarationWitnessError) : string :=
  match error with
  | V5ManifestDeclarationWitnessError_MissingContextManifest =>
      "manifest-bound V5 dispatch requires a preceding context manifest declaration for the same run/workflow/revision/unit/attempt"
  | V5ManifestDeclarationWitnessError_MissingWorkerManifest =>
      "manifest-bound V5 dispatch requires a preceding worker manifest declaration for the same run/workflow/revision/unit/attempt"
  | V5ManifestDeclarationWitnessError_MissingSandboxProfile =>
      "manifest-bound V5 dispatch requires a preceding sandbox profile declaration for the same run/workflow/revision/unit/attempt"
  | V5ManifestDeclarationWitnessError_MissingAttemptContext =>
      "manifest-bound V5 retry dispatch requires a preceding attempt context declaration for the same run/workflow/revision/unit/attempt"
  | error => witness_error_to_string error
  end.

Definition v5_witnesses_of (context_manifest : option ContextManifestDeclarationReplayState)
    (worker_manifest : option WorkerManifestDeclarationReplayState)
    (sandbox_profile : option SandboxProfileDeclarationReplayState)
    (attempt_context : option AttemptContextDeclarationReplayState)
    : V5ManifestDeclarationWitnesses :=
  {| vmdw_context_manifest := (fun declaration =>
       {| vcmdw_event_id := cmds_event_id declaration;
         vcmdw_identity :=
           {| vmdi_run_id := cmds_run_id declaration;
           vmdi_workflow_id := cmds_workflow_id declaration;
           vmdi_workflow_revision := cmds_workflow_revision declaration;
           vmdi_unit_id := cmds_unit_id declaration;
           vmdi_attempt := cmds_attempt declaration;
           vmdi_provenance_ref := cmds_provenance_ref declaration |};
         vcmdw_digest := cmds_context_manifest_digest declaration |}) <$> context_manifest;
     vmdw_worker_manifest := (fun declaration =>
       {| vwmdw_event_id := wmds_event_id declaration;
         vwmdw_identity :=
           {| vmdi_run_id := wmds_run_id declaration;
           vmdi_workflow_id := wmds_workflow_id declaration;
           vmdi_workflow_revision := wmds_workflow_revision declaration;
           vmdi_unit_id := wmds_unit_id declaration;
           vmdi_attempt := wmds_attempt declaration;
           vmdi_provenance_ref := wmds_provenance_ref declaration |};
         vwmdw_digest := wmds_worker_manifest_digest declaration;
         vwmdw_execution_role := wmc_execution_role (wmds_worker_manifest declaration);
         vwmdw_capability_bundle_digest :=
           wmc_capability_bundle_digest (wmds_worker_manifest declaration);
         vwmdw_image_digest := wmc_image_digest (wmds_worker_manifest declaration) |})
       <$> worker_manifest;
     vmdw_sandbox_profile := (fun declaration =>
       {| vspdw_event_id := spds_event_id declaration;
         vspdw_identity :=
           {| vmdi_run_id := spds_run_id declaration;
           vmdi_workflow_id := spds_workflow_id declaration;
           vmdi_workflow_revision := spds_workflow_revision declaration;
           vmdi_unit_id := spds_unit_id declaration;
           vmdi_attempt := spds_attempt declaration;
           vmdi_provenance_ref := spds_provenance_ref declaration |};
         vspdw_digest := spds_sandbox_profile_digest declaration;
         vspdw_image_digest := spc_image_digest (spds_sandbox_profile declaration) |})
       <$> sandbox_profile;
     vmdw_attempt_context := (fun declaration =>
       {| vacdw_event_id := acds_event_id declaration;
         vacdw_identity :=
           {| vmdi_run_id := acds_run_id declaration;
           vmdi_workflow_id := acds_workflow_id declaration;
           vmdi_workflow_revision := acds_workflow_revision declaration;
           vmdi_unit_id := acds_unit_id declaration;
           vmdi_attempt := acds_attempt declaration;
           vmdi_provenance_ref := acds_provenance_ref declaration |};
         vacdw_digest := acds_attempt_context_digest declaration;
         vacdw_attempt_context_attempt := acc_attempt (acds_attempt_context declaration) |})
       <$> attempt_context |}.

Definition validate_v5_manifest_binding (st : ReplayState) (event : Event)
    (dispatch : DispatchEnvelopeV5) (signer : option ActorKeyRef)
    : Result ManifestDispatchWitnessesReplayState string :=
  let body := de3_body (de4_dispatch_v3 (de5_dispatch_v4 dispatch)) in
  let run_id := uuid_to_string (ev_run_id event) in
  let key := manifest_declaration_key run_id (deb2_workflow_id body)
    (deb2_workflow_revision body) (deb2_unit_id body) (deb2_attempt body) in
  let context_manifest := st_context_manifest_declarations st !! key in
  let worker_manifest := st_worker_manifest_declarations st !! key in
  let sandbox_profile := st_sandbox_profile_declarations st !! key in
  let attempt_context := st_attempt_context_declarations st !! key in
  let* _ := map_err replay_v5_manifest_binding_error
    (validate_v5_manifest_declaration_witnesses dispatch run_id
       (v5_witnesses_of context_manifest worker_manifest sandbox_profile attempt_context)) in
  some_or context_manifest := context_manifest
    with (replay_v5_manifest_binding_error
            V5ManifestDeclarationWitnessError_MissingContextManifest) ;;
  some_or worker_manifest := worker_manifest
    with (replay_v5_manifest_binding_error
            V5ManifestDeclarationWitnessError_MissingWorkerManifest) ;;
  some_or sandbox_profile := sandbox_profile
    with (replay_v5_manifest_binding_error
            V5ManifestDeclarationWitnessError_MissingSandboxProfile) ;;
  Ok {| mdw_dispatch_verified_signer := signer;
        mdw_context_manifest := context_manifest;
        mdw_worker_manifest := worker_manifest;
        mdw_sandbox_profile := sandbox_profile;
        mdw_attempt_context := attempt_context |}.

Definition dispatch_envelope_v5_precheck (st : ReplayState)
    (event : Event)
    (p : DispatchEnvelopeV5)
    (signer : option ActorKeyRef)
    : Result (string * WorkflowGraphV2ReplayState * ManifestDispatchWitnessesReplayState) Exit :=
  let* _ := map_err Rejected (validate_v5_event_payload event) in
  let* _ := map_err Rejected (validate_dispatch_envelope_v5 p) in
  let* dispatch_event_digest := map_err (fun error => Rejected
      ("manifest-bound V5 dispatch event hash is not canonical: " +:+ error))
          (canonical_event_hash event) in
  let* workflow_graph := map_err Rejected (validate_v4_graph_binding st event (de5_dispatch_v4 p))
      in
  let* manifest_declarations := map_err Rejected (validate_v5_manifest_binding st event p signer) in
  Ok (dispatch_event_digest, workflow_graph, manifest_declarations).

Definition dispatch_envelope_v5_verdict (st : ReplayState)
    (event : Event)
    (p : DispatchEnvelopeV5)
    (signer : option ActorKeyRef)
    (dispatch_event_digest : string)
    (workflow_graph : WorkflowGraphV2ReplayState)
    (manifest_declarations : ManifestDispatchWitnessesReplayState)
    : Verdict :=
  let nested := de4_dispatch_v3 (de5_dispatch_v4 p) in
  let body := de3_body nested in
  fail_if workflow_instance_has_cross_revision_identity st event (deb2_workflow_id body)
      (deb2_workflow_revision body) (deb2_unit_id body) (deb2_attempt body)
    with (Rejected
        "manifest-bound V5 dispatch cannot reuse a workflow/unit/attempt identity across revisions until workflow evidence keys include the revision") ;;
  let key := workflow_instance_key (deb2_workflow_id body) (deb2_unit_id body) (deb2_attempt body)
      in
  match (st_workflow_instances st) !! key with
  | Some existing =>
      fail_if negb (event_matches_workflow_run existing event)
        with (Rejected
            "dispatch envelope v5 reuses a workflow/unit/attempt key from a different run") ;;
      if dispatch_v5_matches existing p then
        Ok (sync_workflow_compatibility_view st key)
      else
      let reason := "dispatch envelope v5 does not match existing workflow/unit/attempt " +:+
          (wi_workflow_id existing) +:+ "/" +:+ (wi_workflow_revision existing) +:+ " unit " +:+
              (wi_unit_id existing) +:+ " attempt " +:+ pretty (wi_attempt existing) in
      Err (Rejected reason)
  | None =>
  let* _ := map_err Rejected (validate_dispatch_run_scope st event (deb2_trust_tier body)) in
  let* _ := map_err Rejected (validate_v4_graph_schedule st event (de5_dispatch_v4 p)) in
  let* retry_context := if 1 <? deb2_attempt body then
    match validate_retry_dispatch_context_v5 st event p (mdw_attempt_context
        manifest_declarations) with
    | Ok context => Ok (Some context)
    | Err reason => Err (Rejected reason)
    end
  else Ok None in
  let st :=
    {| st with st_workflow_instances := <[key := {| wi_run_id := uuid_to_string (ev_run_id event);
           wi_workflow_id := deb2_workflow_id body;
           wi_workflow_revision := deb2_workflow_revision body;
           wi_unit_id := deb2_unit_id body;
           wi_attempt := deb2_attempt body;
           wi_phase := WorkflowPhaseV1_Dispatched;
           wi_dispatch := {| wd_dispatch_version := 5;
           wd_event_id := ev_id event;
           wd_dispatch_event_digest := Some dispatch_event_digest;
           wd_envelope_digest := de5_envelope_digest p;
           wd_provenance_ref := deb2_provenance_ref body;
           wd_base_commit_sha := deb2_base_commit_sha body;
           wd_repository_binding_digest := Some (de3_repository_binding_digest nested);
           wd_ledger_authority_realm_digest := Some (de3_ledger_authority_realm_digest nested);
           wd_governed_packet_digest := de3_governed_packet_digest nested;
           wd_workflow_graph_digest := Some (de4_workflow_graph_digest (de5_dispatch_v4 p));
           wd_workflow_graph_declaration_event_ref := Some
               (de4_workflow_graph_declaration_event_ref (de5_dispatch_v4 p));
           wd_capability_bundle_digest := deb2_capability_bundle_digest body;
           wd_acceptance_contract_digest := deb2_acceptance_contract_digest body;
           wd_context_manifest_digest := deb2_context_manifest_digest body;
           wd_worker_manifest_digest := deb2_worker_manifest_digest body;
           wd_sandbox_profile_digest := deb2_sandbox_profile_digest body;
           wd_execution_role := deb2_execution_role body;
           wd_commit_mode := deb2_commit_mode body;
           wd_budget := deb2_budget body;
           wd_trust_tier := deb2_trust_tier body;
           wd_idempotency_key := deb2_idempotency_key body;
           wd_issued_at := deb2_issued_at body;
           wd_expires_at := deb2_expires_at body;
           wd_signature_ref := None;
           wd_action_evidence_version := Some (de3_action_evidence_version nested) |};
           wi_workflow_graph := Some workflow_graph;
           wi_manifest_declarations := Some manifest_declarations;
           wi_v5_admission_receipt := None;
           wi_action_evidence := Some {| aes_action_evidence_version :=
               de3_action_evidence_version nested;
           aes_actions := ∅;
           aes_sealed_receipt_set := None;
           aes_pending_action_ids := [];
           aes_unknown_action_ids := [];
           aes_failed_action_ids := [] |};
           wi_retry_context := retry_context;
           wi_timers := ∅;
           wi_cancellation := None;
           wi_candidate := None;
           wi_candidate_completion := None;
           wi_acceptance := None;
           wi_reviews := ∅;
           wi_promotion_approval := None;
           wi_promotion := None;
           wi_terminal := None |}]> (st_workflow_instances st) |} in
  Ok (sync_workflow_compatibility_view st key)
  end.

Definition apply_dispatch_envelope_v5 (st : ReplayState)
    (event : Event)
    (p : DispatchEnvelopeV5)
    (signer : option ActorKeyRef)
    : ReplayState :=
  match dispatch_envelope_v5_precheck st event p signer with
  | Err e => finish st event (Err e)
  | Ok (dispatch_event_digest, workflow_graph, manifest_declarations) =>
      let st := ensure_workflow_instances st in
      finish st event (dispatch_envelope_v5_verdict st event p signer dispatch_event_digest
          workflow_graph manifest_declarations)
  end.

Definition governed_dispatch_v5_admission_recorded_v1_verdict (st : ReplayState)
    (event : Event)
    (receipt : GovernedDispatchV5AdmissionRecordedV1)
    (signer : option ActorKeyRef)
    : Verdict :=
  some_or signer := signer
    with Ignored ;;
  fail_if (trim_is_empty (akr_actor_id signer)) || (trim_is_empty (akr_key_id signer))
    with (Rejected "V5 admission receipt requires a non-empty verified admission signer identity")
        ;;
  let* _ := map_err Rejected (validate_v5_event_payload event) in
  let event_run_id := uuid_to_string (ev_run_id event) in
  fail_if gda_run_id receipt != event_run_id
    with (Rejected "V5 admission receipt run_id does not match its enclosing event") ;;
  fail_if ev_parent_event_id event != Some (gda_source_dispatch_event_ref receipt)
    with (Rejected "V5 admission receipt parent_event_id does not bind its source dispatch") ;;
  fail_if ev_id event <=? gda_source_dispatch_event_ref receipt
    with (Rejected "V5 admission receipt must occur after its source dispatch event") ;;
  let expected_admitted_at := to_rfc3339_millis (ev_occurred_at event) in
  fail_if gda_admitted_at receipt != expected_admitted_at
    with (Rejected
        "V5 admission receipt admitted_at must equal the canonical enclosing event timestamp") ;;
  fail_if
      (negb (forallb is_canonical_sha256_digest ([gda_source_dispatch_event_digest receipt;
          gda_dispatch_envelope_digest receipt; gda_witness_evidence_digest receipt;
              gda_semantic_identity_digest receipt; gda_ledger_authority_realm_digest receipt])))
      || (trim_is_empty (gda_idempotency_key receipt))
    with (Rejected "V5 admission receipt has malformed digest or idempotency evidence") ;;
  let* receipt_event_digest := map_err (fun error => Rejected
      ("could not canonicalize V5 admission receipt event: " +:+ error)) (canonical_event_hash
          event) in
  let matching_workflows := filter_keys (fun '(key, workflow) => wd_event_id (wi_dispatch
      workflow) == gda_source_dispatch_event_ref receipt) (st_workflow_instances st) in
  match matching_workflows with
  | [workflow_key] =>
  some_or workflow := (st_workflow_instances st) !! workflow_key with Panicked ;;
  fail_if wd_dispatch_version (wi_dispatch workflow) != 5
    with (Rejected "V5 admission receipt source is not a manifest-bound V5 dispatch") ;;
  fail_if
      (negb (event_matches_workflow_run workflow event))
      || (gda_run_id receipt != wi_run_id workflow)
    with (Rejected "V5 admission receipt belongs to a different workflow run") ;;
  some_or source_dispatch_event_digest := wd_dispatch_event_digest (wi_dispatch workflow)
    with (Rejected "manifest-bound V5 dispatch is missing its canonical source event digest") ;;
  some_or ledger_authority_realm_digest := wd_ledger_authority_realm_digest (wi_dispatch workflow)
    with (Rejected "manifest-bound V5 dispatch is missing its ledger authority realm digest") ;;
  fail_if
      (negb (is_canonical_sha256_digest source_dispatch_event_digest))
      || (negb (is_canonical_sha256_digest ledger_authority_realm_digest))
      || (gda_source_dispatch_event_digest receipt != source_dispatch_event_digest)
      || (gda_dispatch_envelope_digest receipt != wd_envelope_digest (wi_dispatch workflow))
      || (gda_idempotency_key receipt != wd_idempotency_key (wi_dispatch workflow))
      || (gda_ledger_authority_realm_digest receipt != ledger_authority_realm_digest)
    with (Rejected "V5 admission receipt does not bind the exact source dispatch authority") ;;
  let projected := {| v5r_event_id := ev_id event;
     v5r_event_digest := receipt_event_digest;
     v5r_run_id := gda_run_id receipt;
     v5r_parent_event_id := ev_parent_event_id event;
     v5r_source_dispatch_event_ref := gda_source_dispatch_event_ref receipt;
     v5r_source_dispatch_event_digest := gda_source_dispatch_event_digest receipt;
     v5r_dispatch_envelope_digest := gda_dispatch_envelope_digest receipt;
     v5r_witness_evidence_digest := gda_witness_evidence_digest receipt;
     v5r_semantic_identity_digest := gda_semantic_identity_digest receipt;
     v5r_idempotency_key := gda_idempotency_key receipt;
     v5r_ledger_authority_realm_digest := gda_ledger_authority_realm_digest receipt;
     v5r_occurred_at := expected_admitted_at;
     v5r_admitted_at := gda_admitted_at receipt;
     v5r_verified_signer := Some signer |} in
  match ((st_workflow_instances st) !! workflow_key) ≫= (fun workflow => wi_v5_admission_receipt
      workflow) with
  | Some existing =>
      if existing == projected then
        Ok (sync_workflow_compatibility_view st workflow_key)
      else
      Err (Rejected "V5 admission receipt conflicts with the existing immutable receipt evidence")
  | None =>
  some_or workflow := (st_workflow_instances st) !! workflow_key with Panicked ;;
  let workflow :=
    {| workflow with wi_v5_admission_receipt := Some projected |} in
  let st := {| st with st_workflow_instances := <[workflow_key := workflow]>
      (st_workflow_instances st) |} in
  Ok (sync_workflow_compatibility_view st workflow_key)
  end
  | _ =>
      Err (Rejected (if list_is_empty matching_workflows then
          "V5 admission receipt has no prior source dispatch workflow"
  else "V5 admission receipt source dispatch is ambiguous across workflow projections"))
  end.

Definition apply_governed_dispatch_v5_admission_recorded_v1 (st : ReplayState)
    (event : Event)
    (receipt : GovernedDispatchV5AdmissionRecordedV1)
    (signer : option ActorKeyRef)
    : ReplayState :=
  finish st event (governed_dispatch_v5_admission_recorded_v1_verdict st event receipt signer).

End Reducer.
