(* ===== verification/ReducerActions.v ===== *)
(** * The workflow reducer: actions, claims, authorizations and receipts

    The write-ahead action plane of [bp-replay/src/transitions.rs]: requests,
    native activity claims with their heartbeats and results, model intents and
    authorizations, terminal receipts and the sealed receipt set. *)
From Stdlib Require Import Ascii.
From S2P Require Import Prelude RustStr Host LedgerPayloads TrustSpine Digests Events ReplayState ReducerCore.
From stdpp Require Import base list gmap strings pretty.

#[local] Open Scope string_scope.
#[local] Open Scope list_scope.
#[local] Open Scope Z_scope.

Section Reducer.
Context `{Host, Canonicalizer}.

Definition action_requested_v2_verdict (st : ReplayState)
    (event : Event)
    (p : ActionRequestedV2)
    : Verdict :=
  let* _ := map_err Rejected (validate_v3_event_payload event) in
  let request_workflow_key := workflow_instance_key (ar2_workflow_id p) (ar2_unit_id p)
      (ar2_attempt p) in
  fail_if
      is_some_and ((st_workflow_instances st) !! request_workflow_key) (fun workflow =>
        (wd_action_evidence_version (wi_dispatch workflow) == Some ActionEvidenceVersionV1_SealedV3)
        && (is_none (ar2_governed_packet_digest p)))
    with (Rejected "action evidence lineage does not match the signed V3 dispatch envelope") ;;
  let* key := map_err Rejected (find_v3_workflow_key_for_action st event (ar2_run_id p)
      (ar2_workflow_id p) (ar2_unit_id p) (ar2_attempt p) (ar2_provenance_ref p)
          (ar2_dispatch_envelope_digest p) (Some (ar2_repository_binding_digest p)) (Some
              (ar2_ledger_authority_realm_digest p)) (ar2_governed_packet_digest p)
                  (ar2_capability_bundle_digest p) (ar2_context_manifest_digest p)
                      (ar2_worker_manifest_digest p) (ar2_sandbox_profile_digest p)
                          (ar2_execution_role p)) in
  let* action_request_digest := map_err (fun error => Rejected
      ("could not canonicalize V2 action request: " +:+ error)) (action_requested_v2_digest p) in
  some_or workflow := (st_workflow_instances st) !! key
    with Panicked ;;
  let* _ := if wd_action_evidence_version (wi_dispatch workflow) == Some
      ActionEvidenceVersionV1_SealedV3 then
    some_or requested_at := parse_rfc3339_utc (ar2_requested_at p)
      with (Rejected "sealed_v3 action request requested_at must be an RFC3339 UTC timestamp") ;;
    fail_if requested_at != ev_occurred_at event
      with (Rejected
          "sealed_v3 action request requested_at must equal its signed event occurred_at") ;;
    Ok tt
  else Ok tt in
  let* _ := if wd_action_evidence_version (wi_dispatch workflow) == Some
      ActionEvidenceVersionV1_SealedV3 then
    let* expected_policy_digest := map_err (fun _ => Rejected
        "sealed_v3 dispatch has an invalid acceptance-contract policy binding")
            (governed_dispatch_policy_digest_v1 (wd_acceptance_contract_digest (wi_dispatch
                workflow))) in
    fail_if ar2_policy_digest p != expected_policy_digest
      with (Rejected
          "sealed_v3 action request policy_digest does not match the policy binding derived from the signed acceptance contract") ;;
    Ok tt
  else Ok tt in
  let* _ := map_err Rejected (validate_retry_action_namespace st workflow p) in
  some_or evidence := wi_action_evidence workflow
    with (Rejected "V3 dispatch is missing its action evidence projection") ;;
  fail_if is_some (aes_sealed_receipt_set evidence)
    with (Rejected "no action request may be recorded after the action receipt set is sealed") ;;
  fail_if wi_phase workflow != WorkflowPhaseV1_Dispatched
    with (Rejected ("action request is not allowed from phase " +:+ workflow_phase_debug (wi_phase
        workflow))) ;;
  match (aes_actions evidence) !! (ar2_action_id p) with
  | Some existing =>
      fail_if action_request_matches_existing (acts_request existing) p action_request_digest
        with Ignored ;;
      Err (Rejected "action request does not match the existing immutable action intent")
  | None =>
  fail_if map_any (fun existing => arqs_idempotency_key (acts_request existing) ==
      ar2_idempotency_key p) (aes_actions evidence)
    with (Rejected "action request idempotency_key is already bound to a different action_id") ;;
  some_or workflow := (st_workflow_instances st) !! key with Panicked ;;
  some_or evidence := wi_action_evidence workflow with Panicked ;;
  let evidence :=
    {| evidence with aes_actions := <[ar2_action_id p := {| acts_request := {| arqs_event_id :=
        ev_id event;
           arqs_action_id := ar2_action_id p;
           arqs_idempotency_key := ar2_idempotency_key p;
           arqs_action_kind := ar2_action_kind p;
           arqs_canonical_input_digest := ar2_canonical_input_digest p;
           arqs_canonical_input_ref := ar2_canonical_input_ref p;
           arqs_repository_binding_digest := ar2_repository_binding_digest p;
           arqs_ledger_authority_realm_digest := ar2_ledger_authority_realm_digest p;
           arqs_governed_packet_digest := ar2_governed_packet_digest p;
           arqs_policy_digest := ar2_policy_digest p;
           arqs_authority_actor := ar2_authority_actor p;
           arqs_execution_role := ar2_execution_role p;
           arqs_requested_at := ar2_requested_at p;
           arqs_action_request_digest := action_request_digest |};
           acts_model_intent := None;
           acts_model_authorization := None;
           acts_activity_claim := None;
           acts_receipt := None |}]> (aes_actions evidence) |} in
  let workflow := {| workflow with wi_action_evidence := Some evidence |} in
  let evidence := refresh_action_evidence_recovery evidence in
  let workflow := {| workflow with wi_action_evidence := Some evidence |} in
  let st := {| st with st_workflow_instances := <[key := workflow]> (st_workflow_instances st) |} in
  Ok (sync_workflow_compatibility_view st key)
  end.

Definition apply_action_requested_v2 (st : ReplayState)
    (event : Event)
    (p : ActionRequestedV2)
    : ReplayState :=
  finish st event (action_requested_v2_verdict st event p).

Definition activity_claimed_v1_verdict (st : ReplayState)
    (event : Event)
    (p : ActivityClaimedV1)
    (signer : option ActorKeyRef)
    : Verdict :=
  let* _ := map_err (fun reason => (RejectedActivity (acl_activity_id p) reason))
      (validate_v3_event_payload event) in
  fail_if acl_run_id p != ev_run_id event
    with (RejectedActivity (acl_activity_id p)
        "activity claim payload run_id does not match its event run_id") ;;
  fail_if ev_parent_event_id event != Some (acl_action_request_event_id p)
    with (RejectedActivity (acl_activity_id p)
        "activity claim parent_event_id must bind the exact action request") ;;
  let* claim_event_digest := map_err (fun error => RejectedActivity (acl_activity_id p)
      ("could not canonicalize activity claim event: " +:+ error)) (canonical_event_hash event) in
  let* (key, action_id) := map_err (activity_fault (acl_activity_id p))
      (find_v3_workflow_key_for_activity_claim st event p) in
  let* _ := (
    some_or workflow := (st_workflow_instances st) !! key with Panicked ;;
    fail_if wi_phase workflow != WorkflowPhaseV1_Dispatched
      with (RejectedActivity (acl_activity_id p)
          ("activity claim is not allowed from workflow phase " +:+ workflow_phase_debug (wi_phase
              workflow))) ;;
    some_or evidence := wi_action_evidence workflow with Panicked ;;
    fail_if is_some (aes_sealed_receipt_set evidence)
      with (RejectedActivity (acl_activity_id p)
          "activity claim cannot be recorded after the action receipt set is sealed") ;;
    some_or action := (aes_actions evidence) !! action_id with Panicked ;;
    fail_if negb (activity_claim_matches_action workflow (acts_request action) p)
      with (RejectedActivity (acl_activity_id p)
          "activity claim does not bind the exact V3 dispatch and write-ahead action request") ;;
    fail_if negb (activity_claim_timestamps_are_valid workflow (acts_request action) event p
        (requires_activity_claim_result workflow))
      with (RejectedActivity (acl_activity_id p)
          "activity claim lease must begin after its request and end within the signed compute deadline; sealed_v3 claims must bind claimed_at to event occurred_at") ;;
    fail_if
        (requires_activity_claim_result workflow)
        && (arqs_action_kind (acts_request action) == ActionKindV1_Model)
        && (negb (sealed_v3_model_authority_is_live_at workflow action (acl_claimed_at p)))
      with (RejectedActivity (acl_activity_id p)
          "sealed_v3 model activity claims require a prior ModelActionIntentV1 and ModelActionAuthorizedV2 that is live for the claim") ;;
    fail_if is_some (acts_receipt action)
      with (RejectedActivity (acl_activity_id p)
          "activity claim must be recorded before its terminal action receipt") ;;
    match acts_activity_claim action with
    | Some existing =>
        fail_if activity_claim_matches_existing existing event p claim_event_digest signer
          with Ignored ;;
        Err (RejectedActivity (acl_activity_id p)
            "activity claim attempts to replace an immutable execution lease")
    | None =>
    Ok tt
    end) in
  fail_if
      map_any_kv (fun '(other_key, workflow) =>
        is_some_and (wi_action_evidence workflow) (fun evidence =>
          map_any_kv (fun '(other_action_id, action) =>
            ((other_key != key) || (other_action_id != action_id))
            && (is_some_and (acts_activity_claim action) (fun claim =>
              (acls_run_id claim == uuid_to_string (acl_run_id p))
              && ((acls_activity_id claim == acl_activity_id p)
              || (acls_idempotency_key claim == acl_idempotency_key p))))) (aes_actions
                  evidence))) (st_workflow_instances st)
    with (RejectedActivity (acl_activity_id p)
        "activity claim activity_id or idempotency_key is already bound to a different action") ;;
  some_or workflow := (st_workflow_instances st) !! key with Panicked ;;
  some_or evidence := wi_action_evidence workflow with Panicked ;;
  some_or action := (aes_actions evidence) !! action_id with Panicked ;;
  let action :=
    {| action with acts_activity_claim := Some {| acls_event_id := ev_id event;
           acls_claim_event_digest := claim_event_digest;
           acls_run_id := uuid_to_string (acl_run_id p);
           acls_activity_id := acl_activity_id p;
           acls_idempotency_key := acl_idempotency_key p;
           acls_action_kind := acl_action_kind p;
           acls_action_request_event_id := acl_action_request_event_id p;
           acls_action_request_digest := acl_action_request_digest p;
           acls_dispatch_event_id := acl_dispatch_event_id p;
           acls_dispatch_envelope_digest := acl_dispatch_envelope_digest p;
           acls_authority_actor := acl_authority_actor p;
           acls_purpose := acl_purpose p;
           acls_lease_id := acl_lease_id p;
           acls_lease_expires_at := acl_lease_expires_at p;
           acls_claimed_at := acl_claimed_at p;
           acls_signer := signer;
           acls_heartbeats := [];
           acls_result := None |} |} in
  let evidence := {| evidence with aes_actions := <[action_id := action]> (aes_actions evidence)
      |} in
  let workflow := {| workflow with wi_action_evidence := Some evidence |} in
  let evidence := refresh_action_evidence_recovery evidence in
  let workflow := {| workflow with wi_action_evidence := Some evidence |} in
  let st := {| st with st_workflow_instances := <[key := workflow]> (st_workflow_instances st) |} in
  Ok (sync_workflow_compatibility_view st key).

Definition apply_activity_claimed_v1 (st : ReplayState)
    (event : Event)
    (p : ActivityClaimedV1)
    (signer : option ActorKeyRef)
    : ReplayState :=
  finish st event (activity_claimed_v1_verdict st event p signer).

Definition activity_heartbeat_recorded_v1_verdict (st : ReplayState)
    (event : Event)
    (p : ActivityHeartbeatRecordedV1)
    (signer : option ActorKeyRef)
    : Verdict :=
  let* _ := map_err (fun reason => (RejectedActivity (ahb_activity_id p) reason))
      (validate_v3_event_payload event) in
  fail_if ahb_run_id p != ev_run_id event
    with (RejectedActivity (ahb_activity_id p)
        "activity heartbeat payload run_id does not match its event run_id") ;;
  fail_if ev_parent_event_id event != Some (ahb_claim_event_id p)
    with (RejectedActivity (ahb_activity_id p)
        "activity heartbeat parent_event_id must bind the exact activity claim") ;;
  let* heartbeat_event_digest := map_err (fun error => RejectedActivity (ahb_activity_id p)
      ("could not canonicalize activity heartbeat event: " +:+ error)) (canonical_event_hash
          event) in
  let* (key, action_id) := map_err (activity_fault (ahb_activity_id p))
      (find_v3_workflow_key_for_activity_heartbeat st event p) in
  let* prior_lease_expires_at := some_or workflow := (st_workflow_instances st) !! key with
      Panicked ;;
  fail_if wi_phase workflow != WorkflowPhaseV1_Dispatched
    with (RejectedActivity (ahb_activity_id p)
        ("activity heartbeat is not allowed from workflow phase " +:+ workflow_phase_debug
            (wi_phase workflow))) ;;
  fail_if negb (requires_activity_claim_result workflow)
    with (RejectedActivity (ahb_activity_id p)
        "activity heartbeat requires a governed atomic sealed_v3 dispatch envelope") ;;
  some_or evidence := wi_action_evidence workflow with Panicked ;;
  fail_if is_some (aes_sealed_receipt_set evidence)
    with (RejectedActivity (ahb_activity_id p)
        "activity heartbeat cannot be recorded after the action receipt set is sealed") ;;
  some_or action := (aes_actions evidence) !! action_id with Panicked ;;
  some_or claim := acts_activity_claim action with Panicked ;;
  fail_if negb (activity_heartbeat_matches_claim claim p)
    with (RejectedActivity (ahb_activity_id p)
        "activity heartbeat does not bind the exact immutable execution lease") ;;
  let* _ := match acls_signer claim with
  | Some claim_signer =>
      fail_if signer != Some claim_signer
        with (RejectedActivity (ahb_activity_id p)
            "activity heartbeat signer does not match the signer that reserved the lease") ;;
      Ok tt
  | _ => Ok tt
  end in
  match List.find (fun existing => ahs_event_id existing == ev_id event) (acls_heartbeats claim)
      with
  | Some existing =>
      fail_if activity_heartbeat_matches_existing existing event p heartbeat_event_digest
        with Ignored ;;
      Err (RejectedActivity (ahb_activity_id p)
          "activity heartbeat attempts to replace an immutable lease extension")
  | None =>
  fail_if is_some (acls_result claim)
    with (RejectedActivity (ahb_activity_id p)
        "activity heartbeat cannot be recorded after its terminal activity result") ;;
  fail_if is_some (acts_receipt action)
    with (RejectedActivity (ahb_activity_id p)
        "activity heartbeat cannot be recorded after its terminal action receipt") ;;
  fail_if negb (activity_heartbeat_timestamps_are_valid workflow claim event p)
    with (RejectedActivity (ahb_activity_id p)
        "activity heartbeat must bind heartbeat_at to event occurred_at, extend before the current lease expires, move expiry forward, and remain within the signed compute deadline") ;;
  Ok (acls_lease_expires_at claim)
  end in
  some_or workflow := (st_workflow_instances st) !! key with Panicked ;;
  some_or evidence := wi_action_evidence workflow with Panicked ;;
  some_or action := (aes_actions evidence) !! action_id with Panicked ;;
  some_or claim := acts_activity_claim action with Panicked ;;
  let claim :=
    {| claim with acls_heartbeats := acls_heartbeats claim ++ [{| ahs_event_id := ev_id event;
           ahs_event_digest := heartbeat_event_digest;
           ahs_run_id := uuid_to_string (ahb_run_id p);
           ahs_activity_id := ahb_activity_id p;
           ahs_idempotency_key := ahb_idempotency_key p;
           ahs_heartbeat_id := ahb_heartbeat_id p;
           ahs_heartbeat_request_digest := ahb_heartbeat_request_digest p;
           ahs_claim_event_id := ahb_claim_event_id p;
           ahs_claim_event_digest := ahb_claim_event_digest p;
           ahs_lease_id := ahb_lease_id p;
           ahs_dispatch_event_id := ahb_dispatch_event_id p;
           ahs_dispatch_envelope_digest := ahb_dispatch_envelope_digest p;
           ahs_prior_lease_expires_at := prior_lease_expires_at;
           ahs_lease_expires_at := ahb_lease_expires_at p;
           ahs_heartbeat_at := ahb_heartbeat_at p |}] |} in
  let action := {| action with acts_activity_claim := Some claim |} in
  let evidence := {| evidence with aes_actions := <[action_id := action]> (aes_actions evidence)
      |} in
  let workflow := {| workflow with wi_action_evidence := Some evidence |} in
  let claim :=
    {| claim with acls_lease_expires_at := ahb_lease_expires_at p |} in
  let action := {| action with acts_activity_claim := Some claim |} in
  let evidence := {| evidence with aes_actions := <[action_id := action]> (aes_actions evidence)
      |} in
  let workflow := {| workflow with wi_action_evidence := Some evidence |} in
  let evidence := refresh_action_evidence_recovery evidence in
  let workflow := {| workflow with wi_action_evidence := Some evidence |} in
  let st := {| st with st_workflow_instances := <[key := workflow]> (st_workflow_instances st) |} in
  Ok (sync_workflow_compatibility_view st key).

Definition apply_activity_heartbeat_recorded_v1 (st : ReplayState)
    (event : Event)
    (p : ActivityHeartbeatRecordedV1)
    (signer : option ActorKeyRef)
    : ReplayState :=
  finish st event (activity_heartbeat_recorded_v1_verdict st event p signer).

Definition activity_result_recorded_v1_verdict (st : ReplayState)
    (event : Event)
    (p : ActivityResultRecordedV1)
    (signer : option ActorKeyRef)
    : Verdict :=
  let* _ := map_err (fun reason => (RejectedActivity (arx_activity_id p) reason))
      (validate_v3_event_payload event) in
  fail_if arx_run_id p != ev_run_id event
    with (RejectedActivity (arx_activity_id p)
        "activity result payload run_id does not match its event run_id") ;;
  fail_if ev_parent_event_id event != Some (arx_claim_event_id p)
    with (RejectedActivity (arx_activity_id p)
        "activity result parent_event_id must bind the exact activity claim") ;;
  let* result_event_digest := map_err (fun error => RejectedActivity (arx_activity_id p)
      ("could not canonicalize activity result event: " +:+ error)) (canonical_event_hash event) in
  let* (key, action_id) := map_err (fun reason => RejectedActivity (arx_activity_id p) reason)
      (find_v3_workflow_key_for_activity_result st event p) in
  let* _ := (
    some_or workflow := (st_workflow_instances st) !! key with Panicked ;;
    some_or evidence := wi_action_evidence workflow with Panicked ;;
    some_or action := (aes_actions evidence) !! action_id with Panicked ;;
    some_or claim := acts_activity_claim action with Panicked ;;
    fail_if negb (activity_result_matches_claim claim p)
      with (RejectedActivity (arx_activity_id p)
          "activity result does not bind the exact immutable execution lease") ;;
    let* _ := match acls_signer claim with
    | Some claim_signer =>
        fail_if signer != Some claim_signer
          with (RejectedActivity (arx_activity_id p)
              "activity result signer does not match the signer that reserved the lease") ;;
        Ok tt
    | _ => Ok tt
    end in
    fail_if negb (activity_result_timestamp_is_valid claim event p (requires_activity_claim_result
        workflow))
      with (RejectedActivity (arx_activity_id p)
          "activity result timestamp is outside the claimed lease; only an on-or-after-expiry unknown result is allowed, and sealed_v3 results must bind recorded_at to event occurred_at") ;;
    fail_if
        (requires_activity_claim_result workflow)
        && (arqs_action_kind (acts_request action) == ActionKindV1_Model)
        && (negb (sealed_v3_model_authority_is_live_at workflow action (arx_recorded_at p)))
      with (RejectedActivity (arx_activity_id p)
          "sealed_v3 model activity results require a still-live ModelActionAuthorizedV2 that predates the result") ;;
    match acls_result claim with
    | Some existing =>
        fail_if activity_result_matches_existing existing event p
          with Ignored ;;
        Err (RejectedActivity (arx_activity_id p)
            "activity result attempts to replace an immutable terminal result")
    | None =>
    fail_if is_some (acts_receipt action)
      with (RejectedActivity (arx_activity_id p)
          "activity result must be recorded before its terminal action receipt") ;;
    Ok tt
    end) in
  some_or workflow := (st_workflow_instances st) !! key with Panicked ;;
  some_or evidence := wi_action_evidence workflow with Panicked ;;
  some_or action := (aes_actions evidence) !! action_id with Panicked ;;
  some_or claim := acts_activity_claim action with Panicked ;;
  let claim :=
    {| claim with acls_result := Some {| arxs_event_id := ev_id event;
           arxs_event_digest := result_event_digest;
           arxs_run_id := uuid_to_string (arx_run_id p);
           arxs_activity_id := arx_activity_id p;
           arxs_idempotency_key := arx_idempotency_key p;
           arxs_claim_event_id := arx_claim_event_id p;
           arxs_claim_event_digest := arx_claim_event_digest p;
           arxs_lease_id := arx_lease_id p;
           arxs_outcome := arx_outcome p;
           arxs_result_digest := arx_result_digest p;
           arxs_result_ref := arx_result_ref p;
           arxs_evidence_digest := arx_evidence_digest p;
           arxs_evidence_ref := arx_evidence_ref p;
           arxs_recorded_at := arx_recorded_at p |} |} in
  let action := {| action with acts_activity_claim := Some claim |} in
  let evidence := {| evidence with aes_actions := <[action_id := action]> (aes_actions evidence)
      |} in
  let workflow := {| workflow with wi_action_evidence := Some evidence |} in
  let evidence := refresh_action_evidence_recovery evidence in
  let workflow := {| workflow with wi_action_evidence := Some evidence |} in
  let st := {| st with st_workflow_instances := <[key := workflow]> (st_workflow_instances st) |} in
  Ok (sync_workflow_compatibility_view st key).

Definition apply_activity_result_recorded_v1 (st : ReplayState)
    (event : Event)
    (p : ActivityResultRecordedV1)
    (signer : option ActorKeyRef)
    : ReplayState :=
  finish st event (activity_result_recorded_v1_verdict st event p signer).

Definition model_action_intent_v1_verdict (st : ReplayState)
    (event : Event)
    (p : ModelActionIntentV1)
    : Verdict :=
  let* _ := map_err Rejected (validate_v3_event_payload event) in
  let* intent_digest := map_err (fun error => Rejected
      ("could not canonicalize model action intent: " +:+ error)) (model_action_intent_v1_digest
          p) in
  let key := workflow_instance_key (mai_workflow_id p) (mai_unit_id p) (mai_attempt p) in
  some_or workflow := (st_workflow_instances st) !! key
    with (Rejected "model action intent has no prior V3 dispatch envelope") ;;
  fail_if
      (mai_run_id p != uuid_to_string (ev_run_id event))
      || (negb (event_matches_workflow_run workflow event))
    with (Rejected "model action intent belongs to a different run") ;;
  fail_if
      (negb (requires_activity_claim_result workflow))
      || (wd_trust_tier (wi_dispatch workflow) != TrustTierV1_Governed)
    with (Rejected "ModelActionIntentV1 requires a governed sealed_v3 dispatch envelope") ;;
  some_or evidence := wi_action_evidence workflow
    with (Rejected "sealed_v3 dispatch is missing its action evidence projection") ;;
  some_or action := (aes_actions evidence) !! (mai_action_id p)
    with (Rejected "model action intent has no prior V3 write-ahead request") ;;
  fail_if arqs_action_kind (acts_request action) != ActionKindV1_Model
    with (Rejected "model action intent may bind only a V3 model action request") ;;
  fail_if
      (ev_parent_event_id event != Some (arqs_event_id (acts_request action)))
      || (mai_action_request_event_ref p != arqs_event_id (acts_request action))
    with (Rejected
        "model action intent must parent to and reference its exact ActionRequestedV2 event") ;;
  fail_if negb (model_intent_matches_request_and_dispatch workflow (acts_request action) p)
    with (Rejected
        "model action intent does not bind the exact signed V3 dispatch and write-ahead action request") ;;
  some_or intended_at := parse_rfc3339_utc (mai_intended_at p)
    with (Rejected "model action intent intended_at must be an RFC3339 UTC timestamp") ;;
  fail_if intended_at != ev_occurred_at event
    with (Rejected "model action intent intended_at must equal its signed event occurred_at") ;;
  some_or requested_at := parse_rfc3339_utc (arqs_requested_at (acts_request action))
    with (Rejected "stored V3 model action requested_at must be an RFC3339 UTC timestamp") ;;
  fail_if intended_at <? requested_at
    with (Rejected "model action intent must not predate its V3 write-ahead request") ;;
  let* _ := match arqs_execution_role (acts_request action) with
  | ExecutionRoleV1_Implementer =>
      if is_some (mai_candidate_binding p) then Err (Rejected
          "implementer model action intents must not carry candidate bindings") else Ok tt
  | ExecutionRoleV1_Reviewer | ExecutionRoleV1_Adversary | ExecutionRoleV1_Judge =>
      if is_none (mai_candidate_binding p) then Err (Rejected
          "review-like model action intents require a complete candidate binding") else Ok tt
  | ExecutionRoleV1_Candidate =>
      Err (Rejected "candidate execution role cannot receive model action authority")
  end in
  let* _ := match mai_candidate_binding p with
  | Some binding =>
      let* _ := map_err Rejected (candidate_binding_matches_replay st event workflow binding) in
      Ok tt
  | _ => Ok tt
  end in
  fail_if
      (is_some (aes_sealed_receipt_set evidence))
      || (is_some (acts_receipt action))
      || (is_some ((acts_activity_claim action) ≫= (fun claim => acls_result claim)))
    with (Rejected
        "model action intent must be recorded before the action receipt set, terminal receipt, or terminal activity result") ;;
  match acts_model_intent action with
  | Some existing =>
      fail_if
          (mais_event_id existing == ev_id event)
          && (mais_intent_digest existing == intent_digest)
        with Ignored ;;
      Err (Rejected "model action intent attempts to replace immutable native intent evidence")
  | None =>
  some_or workflow := (st_workflow_instances st) !! key with Panicked ;;
  some_or evidence := wi_action_evidence workflow with Panicked ;;
  some_or action := (aes_actions evidence) !! (mai_action_id p) with Panicked ;;
  let action :=
    {| action with acts_model_intent := Some {| mais_event_id := ev_id event;
           mais_dispatch_event_ref := mai_dispatch_event_ref p;
           mais_dispatch_envelope_digest := mai_dispatch_envelope_digest p;
           mais_action_request_event_ref := mai_action_request_event_ref p;
           mais_action_request_digest := mai_action_request_digest p;
           mais_canonical_input_ref := mai_canonical_input_ref p;
           mais_canonical_input_digest := mai_canonical_input_digest p;
           mais_model_request_evidence := mai_model_request_evidence p;
           mais_trust_scope_evidence := mai_trust_scope_evidence p;
           mais_candidate_binding := mai_candidate_binding p;
           mais_intent_actor := mai_intent_actor p;
           mais_intended_at := mai_intended_at p;
           mais_intent_digest := intent_digest |} |} in
  let evidence := {| evidence with aes_actions := <[(mai_action_id p) := action]> (aes_actions
      evidence) |} in
  let workflow := {| workflow with wi_action_evidence := Some evidence |} in
  let st := {| st with st_workflow_instances := <[key := workflow]> (st_workflow_instances st) |} in
  Ok (sync_workflow_compatibility_view st key)
  end.

Definition apply_model_action_intent_v1 (st : ReplayState)
    (event : Event)
    (p : ModelActionIntentV1)
    : ReplayState :=
  finish st event (model_action_intent_v1_verdict st event p).

Definition model_action_authorized_v1_verdict (st : ReplayState)
    (event : Event)
    (p : ModelActionAuthorizedV1)
    : Verdict :=
  let* _ := map_err Rejected (validate_v3_event_payload event) in
  let* key := map_err Rejected (find_v3_workflow_key_for_model_authorization st event p) in
  let* authorization_digest := map_err (fun error => Rejected
      ("could not canonicalize model action authorization: " +:+ error))
          (model_action_authorized_v1_digest p) in
  some_or workflow := (st_workflow_instances st) !! key
    with Panicked ;;
  fail_if requires_activity_claim_result workflow
    with (Rejected
        "sealed_v3 model actions require ModelActionIntentV1 followed by ModelActionAuthorizedV2; ModelActionAuthorizedV1 remains readable only for legacy tapes") ;;
  some_or evidence := wi_action_evidence workflow
    with (Rejected "V3 dispatch is missing its action evidence projection") ;;
  fail_if is_some (aes_sealed_receipt_set evidence)
    with (Rejected
        "no model authorization may be recorded after the action receipt set is sealed") ;;
  fail_if wi_phase workflow != WorkflowPhaseV1_Dispatched
    with (Rejected ("model action authorization is not allowed from phase " +:+
        workflow_phase_debug (wi_phase workflow))) ;;
  some_or action := (aes_actions evidence) !! (maa1_action_id p)
    with (Rejected "model action authorization has no prior V3 write-ahead request") ;;
  fail_if arqs_action_kind (acts_request action) != ActionKindV1_Model
    with (Rejected "model action authorization may bind only a V3 model action request") ;;
  fail_if is_some (acts_receipt action)
    with (Rejected
        "model action authorization must be recorded before the terminal action receipt") ;;
  fail_if negb (model_authorization_matches_request_and_dispatch workflow (acts_request action) p)
    with (Rejected
        "model action authorization does not bind the exact signed V3 dispatch and write-ahead action request") ;;
  some_or expires_at := parse_rfc3339_utc (maa1_expires_at p)
    with (Rejected "model action authorization expires_at must be an RFC3339 UTC timestamp") ;;
  some_or effective_deadline := effective_dispatch_effect_deadline workflow
    with (Rejected "signed V3 dispatch has no valid effective compute deadline") ;;
  some_or requested_at := parse_rfc3339_utc (arqs_requested_at (acts_request action))
    with (Rejected "stored V3 model action requested_at must be an RFC3339 UTC timestamp") ;;
  fail_if expires_at <=? requested_at
    with (Rejected "model action authorization must outlive its V3 write-ahead request") ;;
  fail_if effective_deadline <? expires_at
    with (Rejected "model action authorization must not outlive its signed compute deadline") ;;
  match acts_model_authorization action with
  | Some existing =>
      fail_if model_authorization_matches_existing existing event p authorization_digest
        with Ignored ;;
      Err (Rejected "model action authorization attempts to replace immutable native authority")
  | None =>
  fail_if model_authorization_ref_is_bound_elsewhere st key (maa1_action_id p)
      (maa1_authorization_ref p)
    with (Rejected "model authorization_ref is already bound to a different V3 action") ;;
  some_or workflow := (st_workflow_instances st) !! key with Panicked ;;
  some_or evidence := wi_action_evidence workflow with Panicked ;;
  some_or action := (aes_actions evidence) !! (maa1_action_id p) with Panicked ;;
  let action :=
    {| action with acts_model_authorization := Some {| maas_event_id := ev_id event;
           maas_authorized_at := Some (to_rfc3339_auto_si (ev_occurred_at event));
           maas_authorization_version := 1;
           maas_intent_event_ref := None;
           maas_intent_digest := None;
           maas_dispatch_event_ref := maa1_dispatch_event_ref p;
           maas_dispatch_envelope_digest := maa1_dispatch_envelope_digest p;
           maas_action_request_ref := maa1_action_request_ref p;
           maas_action_request_digest := maa1_action_request_digest p;
           maas_packet_digest := maa1_packet_digest p;
           maas_canonical_input_digest := maa1_canonical_input_digest p;
           maas_model_request_digest := maa1_model_request_digest p;
           maas_model_request_evidence_ref := None;
           maas_model_request_evidence_schema_version := None;
           maas_trust_scope_digest := maa1_trust_scope_digest p;
           maas_trust_scope_evidence_ref := None;
           maas_trust_scope_evidence_schema_version := None;
           maas_context_manifest_digest := maa1_context_manifest_digest p;
           maas_policy_digest := maa1_policy_digest p;
           maas_sandbox_profile_digest := maa1_sandbox_profile_digest p;
           maas_execution_role := maa1_execution_role p;
           maas_candidate_digest := maa1_candidate_digest p;
           maas_candidate_view_digest := maa1_candidate_view_digest p;
           maas_candidate_binding := None;
           maas_authorization_actor := maa1_authorization_actor p;
           maas_expires_at := maa1_expires_at p;
           maas_authorization_ref := maa1_authorization_ref p;
           maas_authorization_digest := authorization_digest |} |} in
  let evidence := {| evidence with aes_actions := <[(maa1_action_id p) := action]> (aes_actions
      evidence) |} in
  let workflow := {| workflow with wi_action_evidence := Some evidence |} in
  let st := {| st with st_workflow_instances := <[key := workflow]> (st_workflow_instances st) |} in
  Ok (sync_workflow_compatibility_view st key)
  end.

Definition apply_model_action_authorized_v1 (st : ReplayState)
    (event : Event)
    (p : ModelActionAuthorizedV1)
    : ReplayState :=
  finish st event (model_action_authorized_v1_verdict st event p).

Definition model_action_authorized_v2_verdict (st : ReplayState)
    (event : Event)
    (p : ModelActionAuthorizedV2)
    : Verdict :=
  let* _ := map_err Rejected (validate_v3_event_payload event) in
  let* authorization_digest := map_err (fun error => Rejected
      ("could not canonicalize V2 model action authorization: " +:+ error))
          (model_action_authorized_v2_digest p) in
  let intent_matches := find_actions st (fun _ => true) (fun action =>
    is_some_and (acts_model_intent action) (fun intent =>
      mais_event_id intent == maa2_intent_event_ref p)) in
  fail_if negb (length intent_matches =? 1)%nat
    with (Rejected "ModelActionAuthorizedV2 must reference exactly one prior ModelActionIntentV1")
        ;;
  some_or matched := last intent_matches with Panicked ;;
  let '(key, action_id) := matched in
  some_or workflow := (st_workflow_instances st) !! key
    with Panicked ;;
  fail_if negb (event_matches_workflow_run workflow event)
    with (Rejected "ModelActionAuthorizedV2 belongs to a different run than its intent") ;;
  fail_if
      (negb (requires_activity_claim_result workflow))
      || (wd_trust_tier (wi_dispatch workflow) != TrustTierV1_Governed)
    with (Rejected "ModelActionAuthorizedV2 requires a governed sealed_v3 dispatch envelope") ;;
  fail_if wi_phase workflow != WorkflowPhaseV1_Dispatched
    with (Rejected ("model action authorization is not allowed from phase " +:+
        workflow_phase_debug (wi_phase workflow))) ;;
  some_or evidence := wi_action_evidence workflow
    with (Rejected "sealed_v3 dispatch is missing its action evidence projection") ;;
  fail_if is_some (aes_sealed_receipt_set evidence)
    with (Rejected
        "no model authorization may be recorded after the action receipt set is sealed") ;;
  some_or action := (aes_actions evidence) !! action_id
    with Panicked ;;
  fail_if arqs_action_kind (acts_request action) != ActionKindV1_Model
    with (Rejected "ModelActionAuthorizedV2 may bind only a V3 model action request") ;;
  some_or intent := acts_model_intent action
    with Panicked ;;
  fail_if
      (ev_parent_event_id event != Some (mais_event_id intent))
      || (maa2_intent_event_ref p != mais_event_id intent)
      || (maa2_intent_digest p != mais_intent_digest intent)
    with (Rejected
        "ModelActionAuthorizedV2 must parent to and bind its exact ModelActionIntentV1") ;;
  fail_if
      (maa2_model_request_evidence p != mais_model_request_evidence intent)
      || (maa2_trust_scope_evidence p != mais_trust_scope_evidence intent)
      || (maa2_candidate_binding p != mais_candidate_binding intent)
    with (Rejected
        "ModelActionAuthorizedV2 dynamic evidence must exactly equal its parent intent") ;;
  fail_if
      (is_some (acts_receipt action))
      || (is_some ((acts_activity_claim action) ≫= (fun claim => acls_result claim)))
    with (Rejected
        "ModelActionAuthorizedV2 must be recorded before the terminal action receipt or terminal activity result") ;;
  some_or intended_at := parse_rfc3339_utc (mais_intended_at intent)
    with (Rejected "stored model action intent intended_at must be an RFC3339 UTC timestamp") ;;
  some_or requested_at := parse_rfc3339_utc (arqs_requested_at (acts_request action))
    with (Rejected "stored V3 model action requested_at must be an RFC3339 UTC timestamp") ;;
  some_or expires_at := parse_rfc3339_utc (maa2_expires_at p)
    with (Rejected "ModelActionAuthorizedV2 expires_at must be an RFC3339 UTC timestamp") ;;
  some_or effective_deadline := effective_dispatch_effect_deadline workflow
    with (Rejected "signed sealed_v3 dispatch has no valid effective compute deadline") ;;
  fail_if intended_at <? requested_at
    with (Rejected "ModelActionAuthorizedV2 parent intent predates its V3 write-ahead request") ;;
  fail_if expires_at <=? intended_at
    with (Rejected "ModelActionAuthorizedV2 must outlive its parent model action intent") ;;
  fail_if effective_deadline <? expires_at
    with (Rejected "ModelActionAuthorizedV2 must not outlive its signed compute deadline") ;;
  fail_if (ev_occurred_at event <? intended_at) || (expires_at <=? ev_occurred_at event)
    with (Rejected
        "ModelActionAuthorizedV2 event time must fall after its intent and before expiry") ;;
  some_or packet_digest := wd_governed_packet_digest (wi_dispatch workflow)
    with (Rejected "sealed_v3 model action intent is missing the governed packet binding") ;;
  match acts_model_authorization action with
  | Some existing =>
      fail_if model_authorization_v2_matches_existing existing event p authorization_digest
        with Ignored ;;
      Err (Rejected "ModelActionAuthorizedV2 attempts to replace immutable native authority")
  | None =>
  fail_if model_authorization_ref_is_bound_elsewhere st key action_id (maa2_authorization_ref p)
    with (Rejected "model authorization_ref is already bound to a different V3 action") ;;
  let authorization := {| maas_event_id := ev_id event;
     maas_authorized_at := Some (to_rfc3339_auto_si (ev_occurred_at event));
     maas_authorization_version := 2;
     maas_intent_event_ref := Some (mais_event_id intent);
     maas_intent_digest := Some (mais_intent_digest intent);
     maas_dispatch_event_ref := uuid_to_string (mais_dispatch_event_ref intent);
     maas_dispatch_envelope_digest := mais_dispatch_envelope_digest intent;
     maas_action_request_ref := uuid_to_string (mais_action_request_event_ref intent);
     maas_action_request_digest := mais_action_request_digest intent;
     maas_packet_digest := packet_digest;
     maas_canonical_input_digest := mais_canonical_input_digest intent;
     maas_model_request_digest := mre_digest (mais_model_request_evidence intent);
     maas_model_request_evidence_ref := Some (mre_cas_ref (mais_model_request_evidence intent));
     maas_model_request_evidence_schema_version := Some (mre_schema_version
         (mais_model_request_evidence intent));
     maas_trust_scope_digest := tse_digest (mais_trust_scope_evidence intent);
     maas_trust_scope_evidence_ref := Some (tse_cas_ref (mais_trust_scope_evidence intent));
     maas_trust_scope_evidence_schema_version := Some (tse_schema_version
         (mais_trust_scope_evidence intent));
     maas_context_manifest_digest := wd_context_manifest_digest (wi_dispatch workflow);
     maas_policy_digest := arqs_policy_digest (acts_request action);
     maas_sandbox_profile_digest := wd_sandbox_profile_digest (wi_dispatch workflow);
     maas_execution_role := arqs_execution_role (acts_request action);
     maas_candidate_digest := (fun binding => macb_candidate_digest binding) <$>
         (mais_candidate_binding intent);
     maas_candidate_view_digest := (fun binding => macb_candidate_view_digest binding) <$>
         (mais_candidate_binding intent);
     maas_candidate_binding := mais_candidate_binding intent;
     maas_authorization_actor := maa2_authorization_actor p;
     maas_expires_at := maa2_expires_at p;
     maas_authorization_ref := maa2_authorization_ref p;
     maas_authorization_digest := authorization_digest |} in
  some_or workflow := (st_workflow_instances st) !! key with Panicked ;;
  some_or evidence := wi_action_evidence workflow with Panicked ;;
  some_or action := (aes_actions evidence) !! action_id with Panicked ;;
  let action :=
    {| action with acts_model_authorization := Some authorization |} in
  let evidence := {| evidence with aes_actions := <[action_id := action]> (aes_actions evidence)
      |} in
  let workflow := {| workflow with wi_action_evidence := Some evidence |} in
  let st := {| st with st_workflow_instances := <[key := workflow]> (st_workflow_instances st) |} in
  Ok (sync_workflow_compatibility_view st key)
  end.

Definition apply_model_action_authorized_v2 (st : ReplayState)
    (event : Event)
    (p : ModelActionAuthorizedV2)
    : ReplayState :=
  finish st event (model_action_authorized_v2_verdict st event p).

Definition action_receipt_recorded_v2_verdict (st : ReplayState)
    (event : Event)
    (p : ActionReceiptRecordedV2)
    : Verdict :=
  let* _ := map_err Rejected (validate_v3_event_payload event) in
  let* key := map_err Rejected (find_v3_workflow_key_for_action st event (arr2_run_id p)
      (arr2_workflow_id p) (arr2_unit_id p) (arr2_attempt p) (arr2_provenance_ref p)
          (arr2_dispatch_envelope_digest p) None None None (arr2_capability_bundle_digest p)
              (arr2_context_manifest_digest p) (arr2_worker_manifest_digest p)
                  (arr2_sandbox_profile_digest p) (arr2_execution_role p)) in
  let* action_receipt_digest := map_err (fun error => Rejected
      ("could not canonicalize V2 action receipt: " +:+ error)) (action_receipt_recorded_v2_digest
          p) in
  some_or workflow := (st_workflow_instances st) !! key
    with Panicked ;;
  some_or evidence := wi_action_evidence workflow
    with (Rejected "V3 dispatch is missing its action evidence projection") ;;
  fail_if is_some (aes_sealed_receipt_set evidence)
    with (Rejected "no action receipt may be recorded after the action receipt set is sealed") ;;
  let cancellation_reconciliation := wi_phase workflow == WorkflowPhaseV1_CancellationRequested in
  fail_if
      (wi_phase workflow != WorkflowPhaseV1_Dispatched)
      && (negb cancellation_reconciliation)
    with (Rejected ("action receipt is not allowed from phase " +:+ workflow_phase_debug (wi_phase
        workflow))) ;;
  some_or action := (aes_actions evidence) !! (arr2_action_id p)
    with (Rejected "action receipt has no prior V3 write-ahead request") ;;
  fail_if
      cancellation_reconciliation
      && (is_none ((acts_activity_claim action) ≫= (fun claim => acls_result claim)))
    with (Rejected
        "cancellation reconciliation may record receipts only for effects with an already-recorded terminal activity result") ;;
  fail_if negb (action_receipt_matches_request (acts_request action) p)
    with (Rejected "action receipt does not bind the exact V3 write-ahead request") ;;
  let* _ := if (arqs_action_kind (acts_request action) == ActionKindV1_Model)
  && (arr2_outcome p == ActionReceiptOutcomeV2_Succeeded) then
    let* _ := map_err Rejected (validate_governed_model_token_budget workflow evidence
        (arr2_action_id p) p) in
    Ok tt
  else Ok tt in
  let* _ := if (arqs_action_kind (acts_request action) == ActionKindV1_Model)
  && (arr2_outcome p == ActionReceiptOutcomeV2_Succeeded) then
    let_some authorization := acts_model_authorization action else (Err (Rejected (if
        requires_activity_claim_result workflow then
            "sealed_v3 model action receipts require a prior ModelActionIntentV1 followed by matching ModelActionAuthorizedV2 record"
    else "governed V3 model action receipts require a prior matching ModelActionAuthorizedV1 record"))) ;;
    fail_if
        (requires_activity_claim_result workflow)
        && ((maas_authorization_version authorization != 2)
        || (is_none (acts_model_intent action)))
      with (Rejected
          "sealed_v3 model action receipts require a prior ModelActionIntentV1 followed by matching ModelActionAuthorizedV2 record") ;;
    fail_if arr2_authorization_ref p != Some (maas_authorization_ref authorization)
      with (Rejected
          "governed V3 model action receipt authorization_ref does not match its native authorization record") ;;
    some_or completed_at := parse_rfc3339_utc (arr2_completed_at p)
      with (Rejected "model action receipt completed_at must be an RFC3339 UTC timestamp") ;;
    some_or expires_at := parse_rfc3339_utc (maas_expires_at authorization)
      with (Rejected
          "stored model action authorization expires_at must be an RFC3339 UTC timestamp") ;;
    let* _ := if requires_activity_claim_result workflow then
      some_or authorized_at := (maas_authorized_at authorization) ≫= parse_rfc3339_utc
        with (Rejected
            "sealed_v3 model action receipt requires an exact native authorization timestamp") ;;
      fail_if completed_at <? authorized_at
        with (Rejected "sealed_v3 model action receipt completed before its native authorization")
            ;;
      some_or claimed_at := (acts_activity_claim action) ≫= (fun claim => parse_rfc3339_utc
          (acls_claimed_at claim))
        with (Rejected
            "sealed_v3 model action receipt requires a prior activity claim with an RFC3339 timestamp") ;;
      fail_if completed_at <? claimed_at
        with (Rejected
            "sealed_v3 model action receipt completed before its native activity claim") ;;
      let* _ := match ((acts_activity_claim action) ≫= (fun claim => acls_result claim)) ≫= (fun
          result => parse_rfc3339_utc (arxs_recorded_at result)) with
      | Some result_recorded_at =>
          fail_if result_recorded_at <? completed_at
            with (Rejected
                "sealed_v3 model action receipt completed after its recorded terminal activity result") ;;
          Ok tt
      | _ => Ok tt
      end in
      Ok tt
    else Ok tt in
    fail_if expires_at <=? completed_at
      with (Rejected
          "governed V3 model action receipt completed at or after native authorization expiry") ;;
    Ok tt
  else Ok tt in
  let requires_activity_result := requires_activity_claim_result workflow in
  let activity_claim := acts_activity_claim action in
  fail_if
      requires_activity_result
      && (is_none (activity_claim ≫= (fun claim => acls_result claim)))
    with (Rejected "sealed_v3 action receipts require a prior terminal activity claim result") ;;
  let* _ := match activity_claim with
  | Some claim =>
      fail_if negb (activity_claim_result_matches_receipt claim p requires_activity_result)
        with (Rejected
            "action receipt does not agree with the immutable activity-claim terminal result") ;;
      Ok tt
  | _ => Ok tt
  end in
  match acts_receipt action with
  | Some existing =>
      fail_if action_receipt_matches_existing existing p action_receipt_digest
        with Ignored ;;
      Err (Rejected "action receipt attempts to replace an immutable action result")
  | None =>
  fail_if
      map_any_kv (fun '(action_id, existing) =>
        (action_id != arr2_action_id p)
        && (is_some_and (acts_receipt existing) (fun receipt => arcs_action_receipt_ref receipt ==
            arr2_action_receipt_ref p))) (aes_actions evidence)
    with (Rejected "action receipt ref is already bound to a different action") ;;
  some_or workflow := (st_workflow_instances st) !! key with Panicked ;;
  some_or evidence := wi_action_evidence workflow with Panicked ;;
  some_or action := (aes_actions evidence) !! (arr2_action_id p) with Panicked ;;
  let action :=
    {| action with acts_receipt := Some {| arcs_event_id := ev_id event;
           arcs_action_id := arr2_action_id p;
           arcs_idempotency_key := arr2_idempotency_key p;
           arcs_action_request_digest := arr2_action_request_digest p;
           arcs_outcome := arr2_outcome p;
           arcs_result_digest := arr2_result_digest p;
           arcs_result_ref := arr2_result_ref p;
           arcs_evidence_digest := arr2_evidence_digest p;
           arcs_evidence_ref := arr2_evidence_ref p;
           arcs_resource_usage := arr2_resource_usage p;
           arcs_redactions := arr2_redactions p;
           arcs_failure := arr2_failure p;
           arcs_authorization_ref := arr2_authorization_ref p;
           arcs_action_receipt_ref := arr2_action_receipt_ref p;
           arcs_action_receipt_digest := action_receipt_digest;
           arcs_completed_at := arr2_completed_at p |} |} in
  let evidence := {| evidence with aes_actions := <[(arr2_action_id p) := action]> (aes_actions
      evidence) |} in
  let workflow := {| workflow with wi_action_evidence := Some evidence |} in
  let evidence := refresh_action_evidence_recovery evidence in
  let workflow := {| workflow with wi_action_evidence := Some evidence |} in
  let st := {| st with st_workflow_instances := <[key := workflow]> (st_workflow_instances st) |} in
  Ok (sync_workflow_compatibility_view st key)
  end.

Definition apply_action_receipt_recorded_v2 (st : ReplayState)
    (event : Event)
    (p : ActionReceiptRecordedV2)
    : ReplayState :=
  finish st event (action_receipt_recorded_v2_verdict st event p).

Definition action_receipt_set_recorded_v1_verdict (st : ReplayState)
    (event : Event)
    (p : ActionReceiptSetRecordedV1)
    : Verdict :=
  let* _ := map_err Rejected (validate_v3_event_payload event) in
  let* key := map_err Rejected (find_v3_workflow_key_for_set st event p) in
  some_or workflow := (st_workflow_instances st) !! key
    with Panicked ;;
  some_or evidence := wi_action_evidence workflow
    with (Rejected "V3 dispatch is missing its action evidence projection") ;;
  match aes_sealed_receipt_set evidence with
  | Some existing =>
      fail_if action_receipt_set_matches_existing existing p
        with Ignored ;;
      Err (Rejected "action receipt set attempts to replace an immutable sealed set")
  | None =>
  fail_if wi_phase workflow != WorkflowPhaseV1_Dispatched
    with (Rejected ("action receipt set is not allowed from phase " +:+ workflow_phase_debug
        (wi_phase workflow))) ;;
  fail_if negb (list_is_empty (aes_pending_action_ids evidence))
    with (Rejected "action receipt set cannot seal while action effects remain pending") ;;
  fail_if negb (list_is_empty (aes_unknown_action_ids evidence))
    with (Rejected "action receipt set cannot seal while action effects are unknown") ;;
  let* _ := if requires_activity_claim_result workflow then
    fail_if negb (map_all (fun action => is_some ((acts_activity_claim action) ≫= (fun claim =>
        acls_result claim))) (aes_actions evidence))
      with (Rejected
          "sealed_v3 action receipt set requires a terminal activity result for every action") ;;
    fail_if negb (list_is_empty (aes_failed_action_ids evidence))
      with (Rejected
          "sealed_v3 action receipt set cannot seal while terminal action failures remain") ;;
    Ok tt
  else Ok tt in
  fail_if negb (length (arset_receipts p) =? size (aes_actions evidence))%nat
    with (Rejected
        "action receipt set must represent every terminal action for the candidate overlay") ;;
  let* _ := for_each (fun '(entry, (action_id, action)) =>
      some_or receipt := acts_receipt action
        with (Rejected "action receipt set contains a pending action") ;;
      fail_if
          (arse_action_id entry != action_id)
          || (arse_action_receipt_ref entry != arcs_action_receipt_ref receipt)
          || (arse_action_receipt_digest entry != arcs_action_receipt_digest receipt)
        with (Rejected "action receipt set does not exactly bind its recorded terminal receipts") ;;
      Ok tt) (zip (arset_receipts p) (btree_list (aes_actions evidence))) in
  let* expected_digest := map_err (fun error => Rejected
      ("could not canonicalize action receipt set: " +:+ error)) (action_receipt_set_v1_digest p) in
  fail_if expected_digest != arset_action_receipt_set_digest p
    with (Rejected "action receipt set digest does not match its canonical contents") ;;
  some_or workflow := (st_workflow_instances st) !! key with Panicked ;;
  some_or evidence := wi_action_evidence workflow with Panicked ;;
  let evidence :=
    {| evidence with aes_sealed_receipt_set := Some {| arss_event_id := ev_id event;
           arss_action_receipt_set_ref := arset_action_receipt_set_ref p;
           arss_action_receipt_set_digest := arset_action_receipt_set_digest p;
           arss_receipts := arset_receipts p;
           arss_sealed_at := arset_sealed_at p |} |} in
  let workflow := {| workflow with wi_action_evidence := Some evidence |} in
  let st := {| st with st_workflow_instances := <[key := workflow]> (st_workflow_instances st) |} in
  Ok (sync_workflow_compatibility_view st key)
  end.

Definition apply_action_receipt_set_recorded_v1 (st : ReplayState)
    (event : Event)
    (p : ActionReceiptSetRecordedV1)
    : ReplayState :=
  finish st event (action_receipt_set_recorded_v1_verdict st event p).

End Reducer.
