(* ===== verification/ReducerCandidates.v ===== *)
(** * The workflow reducer: candidates, acceptance and review

    Immutable candidates, their completion evidence, the deterministic
    acceptance record and review verdicts ([bp-replay/src/transitions.rs]). *)
From Stdlib Require Import Ascii.
From S2P Require Import Prelude RustStr Host LedgerPayloads TrustSpine Digests Events ReplayState ReducerCore.
From stdpp Require Import base list gmap strings pretty.

#[local] Open Scope string_scope.
#[local] Open Scope list_scope.
#[local] Open Scope Z_scope.

Section Reducer.
Context `{Host, Canonicalizer}.

Definition candidate_created_precheck (event : Event) (p : CandidateCreatedV1) : Result unit Exit :=
  fail_if
      (trim_is_empty (cc1_candidate_id p))
      || (negb (is_canonical_buildplane_candidate_ref (cc1_candidate_ref p)))
    with (Rejected "candidate must have a non-empty id and a canonical buildplane candidate ref") ;;
  Ok tt.

Definition candidate_created_verdict (st : ReplayState)
    (event : Event)
    (p : CandidateCreatedV1)
    : Verdict :=
  let key := workflow_instance_key (cc1_workflow_id p) (cc1_unit_id p) (cc1_attempt p) in
  some_or workflow := (st_workflow_instances st) !! key
    with (Rejected "candidate has no prior dispatch envelope") ;;
  fail_if negb (event_matches_workflow_run workflow event)
    with (Rejected "candidate belongs to a different run") ;;
  fail_if is_terminal (wi_phase workflow)
    with (Rejected "candidate received after terminal workflow phase") ;;
  fail_if wd_trust_tier (wi_dispatch workflow) != TrustTierV1_Governed
    with (Rejected "immutable candidates require a governed dispatch envelope") ;;
  fail_if wd_commit_mode (wi_dispatch workflow) != CommitModeV1_Atomic
    with (Rejected "governed replay supports only atomic candidate promotion") ;;
  fail_if 3 <=? wd_dispatch_version (wi_dispatch workflow)
    with (Rejected "legacy candidate v1 is not allowed for sealed V3 action evidence") ;;
  fail_if
      negb (match wd_execution_role (wi_dispatch workflow) with
      | ExecutionRoleV1_Implementer => true
      | ExecutionRoleV1_Candidate => true
      | _ => false
      end)
    with (Rejected "only implementer or candidate roles can create an immutable candidate") ;;
  fail_if negb (candidate_matches_dispatch workflow p)
    with (Rejected "candidate lineage does not match the signed dispatch envelope") ;;
  match wi_candidate workflow with
  | Some existing =>
      fail_if candidate_matches_existing existing (ev_id event) p
        with Ignored ;;
      Err (Rejected "workflow already has a different immutable candidate")
  | None =>
  if wi_phase workflow != WorkflowPhaseV1_Dispatched then
    let reason := "candidate is not allowed from phase " +:+ workflow_phase_debug (wi_phase
        workflow) in
    Err (Rejected reason)
  else
  fail_if
      map_any_kv (fun '(other_key, other) =>
        (other_key != key)
        && (is_some_and (wi_candidate other) (fun candidate =>
          (ca_candidate_digest candidate == cc1_candidate_digest p)
          || (ca_candidate_id candidate == cc1_candidate_id p)
          || (ca_candidate_ref candidate == cc1_candidate_ref p)))) (st_workflow_instances st)
    with (Rejected
        "candidate digest, id, or ref is already bound to a different workflow unit attempt") ;;
  some_or workflow := (st_workflow_instances st) !! key with Panicked ;;
  let workflow :=
    {| workflow with wi_candidate := Some {| ca_event_id := ev_id event;
           ca_candidate_id := cc1_candidate_id p;
           ca_candidate_ref := cc1_candidate_ref p;
           ca_candidate_digest := cc1_candidate_digest p;
           ca_base_commit_sha := cc1_base_commit_sha p;
           ca_candidate_commit_sha := cc1_candidate_commit_sha p;
           ca_commit_digest := cc1_commit_digest p;
           ca_tree_digest := cc1_tree_digest p;
           ca_patch_digest := cc1_patch_digest p;
           ca_changed_files_digest := cc1_changed_files_digest p;
           ca_envelope_digest := cc1_envelope_digest p;
           ca_action_receipt_digest := Some (cc1_action_receipt_digest p);
           ca_action_receipt_set_ref := None;
           ca_action_receipt_set_digest := None |} |} in
  let workflow :=
    {| workflow with wi_phase := WorkflowPhaseV1_CandidateCreated |} in
  let st := {| st with st_workflow_instances := <[key := workflow]> (st_workflow_instances st) |} in
  Ok (sync_workflow_compatibility_view st key)
  end.

Definition apply_candidate_created (st : ReplayState)
    (event : Event)
    (p : CandidateCreatedV1)
    : ReplayState :=
  match candidate_created_precheck event p with
  | Err e => finish st event (Err e)
  | Ok _ =>
      let st := ensure_workflow_instances st in
      finish st event (candidate_created_verdict st event p)
  end.

Definition candidate_created_v2_precheck (event : Event)
    (p : CandidateCreatedV2)
    : Result unit Exit :=
  let* _ := map_err Rejected (validate_v3_event_payload event) in
  fail_if
      (trim_is_empty (cc2_candidate_id p))
      || (negb (is_canonical_buildplane_candidate_ref (cc2_candidate_ref p)))
    with (Rejected
        "candidate v2 must have a non-empty id and a canonical buildplane candidate ref") ;;
  fail_if cc2_run_id p != uuid_to_string (ev_run_id event)
    with (Rejected "candidate v2 belongs to a different run") ;;
  Ok tt.

Definition candidate_created_v2_verdict (st : ReplayState)
    (event : Event)
    (p : CandidateCreatedV2)
    : Verdict :=
  let key := workflow_instance_key (cc2_workflow_id p) (cc2_unit_id p) (cc2_attempt p) in
  some_or workflow := (st_workflow_instances st) !! key
    with (Rejected "candidate v2 has no prior V3 dispatch envelope") ;;
  fail_if negb (event_matches_workflow_run workflow event)
    with (Rejected "candidate v2 belongs to a different run") ;;
  fail_if negb (supports_sealed_action_evidence workflow)
    with (Rejected "candidate v2 requires a sealed V3 dispatch envelope") ;;
  fail_if is_terminal (wi_phase workflow)
    with (Rejected "candidate v2 received after terminal workflow phase") ;;
  fail_if wd_trust_tier (wi_dispatch workflow) != TrustTierV1_Governed
    with (Rejected "candidate v2 requires a governed V3 dispatch envelope") ;;
  fail_if wd_commit_mode (wi_dispatch workflow) != CommitModeV1_Atomic
    with (Rejected "governed replay supports only atomic candidate promotion") ;;
  fail_if
      negb (match wd_execution_role (wi_dispatch workflow) with
      | ExecutionRoleV1_Implementer => true
      | ExecutionRoleV1_Candidate => true
      | _ => false
      end)
    with (Rejected "only implementer or candidate roles can create an immutable candidate") ;;
  fail_if negb (candidate_ref_binds_candidate_id_run_and_attempt (cc2_candidate_ref p)
      (cc2_candidate_id p) (uuid_to_string (ev_run_id event)) (wi_attempt workflow))
    with (Rejected
        "candidate v2 candidate ref must bind the signed candidate id, event run, and dispatch attempt") ;;
  fail_if negb (candidate_v2_matches_dispatch workflow event p)
    with (Rejected "candidate v2 lineage does not match the signed V3 dispatch envelope") ;;
  some_or evidence := wi_action_evidence workflow
    with (Rejected "candidate v2 dispatch is missing its action evidence projection") ;;
  fail_if
      (negb (list_is_empty (aes_pending_action_ids evidence)))
      || (negb (list_is_empty (aes_unknown_action_ids evidence)))
    with (Rejected "candidate v2 cannot be created while action effects are pending or unknown") ;;
  fail_if
      (requires_activity_claim_result workflow)
      && (negb (list_is_empty (aes_failed_action_ids evidence)))
    with (Rejected "sealed_v3 candidate v2 cannot be created after a terminal action failure") ;;
  some_or sealed_set := aes_sealed_receipt_set evidence
    with (Rejected "candidate v2 requires an exact sealed action receipt set") ;;
  fail_if
      (cc2_action_receipt_set_ref p != arss_action_receipt_set_ref sealed_set)
      || (cc2_action_receipt_set_digest p != arss_action_receipt_set_digest sealed_set)
    with (Rejected "candidate v2 does not bind the exact sealed action receipt set") ;;
  match wi_candidate workflow with
  | Some existing =>
      fail_if candidate_v2_matches_existing existing (ev_id event) p
        with Ignored ;;
      Err (Rejected "workflow already has a different immutable candidate")
  | None =>
  if wi_phase workflow != WorkflowPhaseV1_Dispatched then
    let reason := "candidate v2 is not allowed from phase " +:+ workflow_phase_debug (wi_phase
        workflow) in
    Err (Rejected reason)
  else
  fail_if
      map_any_kv (fun '(other_key, other) =>
        (other_key != key)
        && (is_some_and (wi_candidate other) (fun candidate =>
          (ca_candidate_digest candidate == cc2_candidate_digest p)
          || (ca_candidate_id candidate == cc2_candidate_id p)
          || (ca_candidate_ref candidate == cc2_candidate_ref p)))) (st_workflow_instances st)
    with (Rejected
        "candidate digest, id, or ref is already bound to a different workflow unit attempt") ;;
  some_or workflow := (st_workflow_instances st) !! key with Panicked ;;
  let workflow :=
    {| workflow with wi_candidate := Some {| ca_event_id := ev_id event;
           ca_candidate_id := cc2_candidate_id p;
           ca_candidate_ref := cc2_candidate_ref p;
           ca_candidate_digest := cc2_candidate_digest p;
           ca_base_commit_sha := cc2_base_commit_sha p;
           ca_candidate_commit_sha := cc2_candidate_commit_sha p;
           ca_commit_digest := cc2_commit_digest p;
           ca_tree_digest := cc2_tree_digest p;
           ca_patch_digest := cc2_patch_digest p;
           ca_changed_files_digest := cc2_changed_files_digest p;
           ca_envelope_digest := cc2_envelope_digest p;
           ca_action_receipt_digest := None;
           ca_action_receipt_set_ref := Some (cc2_action_receipt_set_ref p);
           ca_action_receipt_set_digest := Some (cc2_action_receipt_set_digest p) |} |} in
  let workflow :=
    {| workflow with wi_phase := WorkflowPhaseV1_CandidateCreated |} in
  let st := {| st with st_workflow_instances := <[key := workflow]> (st_workflow_instances st) |} in
  Ok (sync_workflow_compatibility_view st key)
  end.

Definition apply_candidate_created_v2 (st : ReplayState)
    (event : Event)
    (p : CandidateCreatedV2)
    : ReplayState :=
  match candidate_created_v2_precheck event p with
  | Err e => finish st event (Err e)
  | Ok _ =>
      let st := ensure_workflow_instances st in
      finish st event (candidate_created_v2_verdict st event p)
  end.

Definition candidate_completion_recorded_v1_precheck (event : Event)
    (p : CandidateCompletionRecordedV1)
    : Result unit Exit :=
  let* _ := map_err Rejected (validate_v3_event_payload event) in
  fail_if ccr_run_id p != uuid_to_string (ev_run_id event)
    with (Rejected "candidate completion payload run_id does not match its event run_id") ;;
  let* expected_completion_digest := map_err (fun error => Rejected
      ("could not canonicalize candidate completion: " +:+ error))
          (candidate_completion_recorded_v1_digest p) in
  fail_if ccr_completion_digest p != expected_completion_digest
    with (Rejected "candidate completion digest does not bind its closed lineage") ;;
  some_or completed_at := parse_rfc3339_utc (ccr_completed_at p)
    with (Rejected "candidate completion completed_at must be an RFC3339 UTC timestamp") ;;
  fail_if completed_at != ev_occurred_at event
    with (Rejected "candidate completion completed_at must equal its signed event occurred_at") ;;
  Ok tt.

Definition candidate_completion_recorded_v1_verdict (st : ReplayState)
    (event : Event)
    (p : CandidateCompletionRecordedV1)
    : Verdict :=
  let key := workflow_instance_key (ccr_workflow_id p) (ccr_unit_id p) (ccr_attempt p) in
  some_or workflow := (st_workflow_instances st) !! key
    with (Rejected "candidate completion has no prior V3 dispatch envelope") ;;
  fail_if negb (event_matches_workflow_run workflow event)
    with (Rejected "candidate completion belongs to a different run") ;;
  fail_if negb (requires_candidate_completion workflow)
    with (Rejected "candidate completion requires a governed sealed_v3 candidate workflow") ;;
  fail_if wd_provenance_ref (wi_dispatch workflow) != ccr_provenance_ref p
    with (Rejected
        "candidate completion workflow identity does not match its signed dispatch envelope") ;;
  some_or candidate := wi_candidate workflow
    with (Rejected "candidate completion has no immutable candidate") ;;
  fail_if negb (candidate_ref_binds_candidate_id_run_and_attempt (ca_candidate_ref candidate)
      (ca_candidate_id candidate) (uuid_to_string (ev_run_id event)) (wi_attempt workflow))
    with (Rejected
        "candidate completion candidate ref must bind the signed candidate id, event run, and dispatch attempt") ;;
  fail_if
      (ccr_candidate_created_event_ref p != ca_event_id candidate)
      || (ccr_candidate_digest p != ca_candidate_digest candidate)
      || (ev_parent_event_id event != Some (ca_event_id candidate))
    with (Rejected
        "candidate completion must parent to and bind the exact CandidateCreatedV2 event") ;;
  match wi_candidate_completion workflow with
  | Some existing =>
      fail_if candidate_completion_matches_existing existing event p
        with Ignored ;;
      Err (Rejected "workflow already has a different immutable candidate completion proof")
  | None =>
  fail_if wi_phase workflow != WorkflowPhaseV1_CandidateCreated
    with (Rejected ("candidate completion is not allowed from phase " +:+ workflow_phase_debug
        (wi_phase workflow))) ;;
  some_or evidence := wi_action_evidence workflow
    with (Rejected "candidate completion dispatch is missing its action evidence projection") ;;
  some_or sealed_set := aes_sealed_receipt_set evidence
    with (Rejected
        "candidate completion requires the candidate's exact sealed action receipt set") ;;
  fail_if
      (ca_action_receipt_set_ref candidate != Some (arss_action_receipt_set_ref sealed_set))
      || (ca_action_receipt_set_digest candidate != Some (arss_action_receipt_set_digest
          sealed_set))
    with (Rejected
        "candidate completion candidate does not bind the current sealed action receipt set") ;;
  some_or action := (aes_actions evidence) !! (ccr_candidate_create_action_id p)
    with (Rejected "candidate completion has no candidate-create action request") ;;
  fail_if
      (arqs_action_kind (acts_request action) != ActionKindV1_Git)
      || (negb (candidate_create_action_identity_matches_candidate workflow
          (ccr_candidate_create_action_id p) (arqs_idempotency_key (acts_request action))
              (ca_candidate_ref candidate) (ca_candidate_id candidate) (uuid_to_string (ev_run_id
                  event))))
    with (Rejected
        "candidate completion requires the exact Git candidate-create action and idempotency key for its immutable candidate ref") ;;
  fail_if
      (arqs_event_id (acts_request action) != ccr_action_request_ref p)
      || (arqs_action_request_digest (acts_request action) != ccr_action_request_digest p)
    with (Rejected
        "candidate completion does not bind the exact candidate-create ActionRequestedV2") ;;
  some_or claim := acts_activity_claim action
    with (Rejected "candidate completion requires an immutable activity claim for its action") ;;
  fail_if
      (acls_event_id claim != ccr_activity_claim_event_ref p)
      || (acls_claim_event_digest claim != ccr_activity_claim_event_digest p)
      || (acls_action_request_event_id claim != arqs_event_id (acts_request action))
      || (acls_action_request_digest claim != arqs_action_request_digest (acts_request action))
    with (Rejected "candidate completion does not bind the exact candidate-create activity claim")
        ;;
  some_or result := acls_result claim
    with (Rejected "candidate completion requires a terminal activity result for its action") ;;
  fail_if
      (arxs_event_id result != ccr_activity_result_event_ref p)
      || (arxs_event_digest result != ccr_activity_result_event_digest p)
      || (arxs_claim_event_id result != acls_event_id claim)
      || (arxs_claim_event_digest result != acls_claim_event_digest claim)
      || (arxs_outcome result != ActivityResultOutcomeV1_Succeeded)
    with (Rejected
        "candidate completion does not bind the exact succeeded candidate-create activity result")
            ;;
  some_or receipt := acts_receipt action
    with (Rejected "candidate completion requires a terminal receipt for its action") ;;
  fail_if
      (arcs_action_receipt_ref receipt != ccr_action_receipt_ref p)
      || (arcs_action_receipt_digest receipt != ccr_action_receipt_digest p)
      || (arcs_action_request_digest receipt != arqs_action_request_digest (acts_request action))
      || (arcs_outcome receipt != ActionReceiptOutcomeV2_Succeeded)
    with (Rejected
        "candidate completion does not bind the exact succeeded candidate-create receipt") ;;
  fail_if
      negb (existsb (fun entry =>
        (arse_action_id entry == ccr_candidate_create_action_id p)
        && (arse_action_receipt_ref entry == ccr_action_receipt_ref p)
        && (arse_action_receipt_digest entry == ccr_action_receipt_digest p)) (arss_receipts
            sealed_set))
    with (Rejected
        "candidate completion receipt is absent from the candidate's sealed action receipt set") ;;
  some_or workflow := (st_workflow_instances st) !! key with Panicked ;;
  let workflow :=
    {| workflow with wi_candidate_completion := Some {| ccs_event_id := ev_id event;
           ccs_completion := p |} |} in
  let st := {| st with st_workflow_instances := <[key := workflow]> (st_workflow_instances st) |} in
  Ok (sync_workflow_compatibility_view st key)
  end.

Definition apply_candidate_completion_recorded_v1 (st : ReplayState)
    (event : Event)
    (p : CandidateCompletionRecordedV1)
    : ReplayState :=
  match candidate_completion_recorded_v1_precheck event p with
  | Err e => finish st event (Err e)
  | Ok _ =>
      let st := ensure_workflow_instances st in
      finish st event (candidate_completion_recorded_v1_verdict st event p)
  end.

Definition candidate_acceptance_verdict (st : ReplayState)
    (event : Event)
    (p : CandidateAcceptanceRecordedV1)
    : Verdict :=
  let* key := map_err Rejected (find_workflow_key_for_candidate st event (car_candidate_digest p)
      (Some (car_candidate_commit_sha p))) in
  some_or workflow := (st_workflow_instances st) !! key
    with (Rejected "acceptance has no prior dispatch envelope") ;;
  fail_if negb (event_matches_workflow_run workflow event)
    with (Rejected "acceptance belongs to a different run") ;;
  fail_if is_terminal (wi_phase workflow)
    with (Rejected "acceptance received after terminal workflow phase") ;;
  some_or candidate := wi_candidate workflow
    with (Rejected "acceptance has no immutable candidate") ;;
  fail_if
      (car_candidate_digest p != ca_candidate_digest candidate)
      || (car_candidate_commit_sha p != ca_candidate_commit_sha candidate)
    with (Rejected "acceptance candidate digest or commit does not match the immutable candidate")
        ;;
  fail_if
      (requires_candidate_completion workflow)
      && (is_none (wi_candidate_completion workflow))
    with (Rejected
        "governed sealed_v3 candidate acceptance requires closed candidate completion evidence") ;;
  fail_if car_acceptance_contract_digest p != wd_acceptance_contract_digest (wi_dispatch workflow)
    with (Rejected "acceptance contract digest does not match the signed dispatch envelope") ;;
  match wi_acceptance workflow with
  | Some existing =>
      fail_if candidate_acceptance_matches_existing existing (ev_id event) p
        with Ignored ;;
      Err (Rejected "candidate already has a different deterministic acceptance record")
  | None =>
  if wi_phase workflow != WorkflowPhaseV1_CandidateCreated then
    let reason := "acceptance is not allowed from phase " +:+ workflow_phase_debug (wi_phase
        workflow) in
    Err (Rejected reason)
  else
  some_or workflow := (st_workflow_instances st) !! key with Panicked ;;
  let workflow :=
    {| workflow with wi_acceptance := Some {| cas_event_id := ev_id event;
           cas_candidate_digest := car_candidate_digest p;
           cas_candidate_commit_sha := car_candidate_commit_sha p;
           cas_acceptance_ref := car_acceptance_ref p;
           cas_acceptance_contract_digest := car_acceptance_contract_digest p;
           cas_acceptance_digest := car_acceptance_digest p;
           cas_outcome := car_outcome p;
           cas_evaluated_at := car_evaluated_at p |} |} in
  let workflow :=
    {| workflow with wi_phase := match car_outcome p with
        | CandidateAcceptanceOutcomeV1_Passed => WorkflowPhaseV1_AcceptancePassed
        | CandidateAcceptanceOutcomeV1_Rejected => WorkflowPhaseV1_Rejected
        end |} in
  let st := {| st with st_workflow_instances := <[key := workflow]> (st_workflow_instances st) |} in
  Ok (sync_workflow_compatibility_view st key)
  end.

Definition apply_candidate_acceptance (st : ReplayState)
    (event : Event)
    (p : CandidateAcceptanceRecordedV1)
    : ReplayState :=
  let st := ensure_workflow_instances st in
  finish st event (candidate_acceptance_verdict st event p).

Definition review_verdict_precheck (event : Event)
    (p : ReviewVerdictRecordedV1)
    : Result unit Exit :=
  fail_if
      (negb (f64_is_finite (rv1_confidence p)))
      || (negb (f64_leb f64_zero (rv1_confidence p) && f64_leb (rv1_confidence p) f64_one))
    with (Rejected "review confidence must be a finite value between zero and one") ;;
  Ok tt.

Definition review_verdict_verdict (st : ReplayState)
    (event : Event)
    (p : ReviewVerdictRecordedV1)
    : Verdict :=
  let* key := map_err Rejected (find_workflow_key_for_candidate st event (rv1_candidate_digest p)
      (Some (rv1_candidate_commit_sha p))) in
  some_or workflow := (st_workflow_instances st) !! key
    with (Rejected "review has no prior dispatch envelope") ;;
  fail_if negb (event_matches_workflow_run workflow event)
    with (Rejected "review belongs to a different run") ;;
  fail_if is_terminal (wi_phase workflow)
    with (Rejected "review received after terminal workflow phase") ;;
  some_or candidate := wi_candidate workflow
    with (Rejected "review has no immutable candidate") ;;
  fail_if
      (rv1_candidate_digest p != ca_candidate_digest candidate)
      || (rv1_candidate_commit_sha p != ca_candidate_commit_sha candidate)
    with (Rejected "review candidate digest or commit does not match the immutable candidate") ;;
  fail_if 3 <=? wd_dispatch_version (wi_dispatch workflow)
    with (Rejected "V3 candidate review requires review_verdict_recorded_v2 evidence") ;;
  fail_if
      negb (match (fun acceptance => cas_outcome acceptance) <$> (wi_acceptance workflow) with
      | Some CandidateAcceptanceOutcomeV1_Passed => true
      | _ => false
      end)
    with (Rejected "review requires a passed deterministic acceptance record") ;;
  if negb (match wi_phase workflow with
  | WorkflowPhaseV1_AcceptancePassed => true
  | WorkflowPhaseV1_ReviewApproved => true
  | _ => false
  end) then
    let reason := "review is not allowed from phase " +:+ workflow_phase_debug (wi_phase workflow)
        in
    Err (Rejected reason)
  else
  match (wi_reviews workflow) !! (rv1_review_ref p) with
  | Some existing =>
      fail_if review_matches_existing existing (ev_id event) p
        with Ignored ;;
      Err (Rejected "review_ref is already bound to a different verdict")
  | None =>
  some_or workflow := (st_workflow_instances st) !! key with Panicked ;;
  let workflow :=
    {| workflow with wi_reviews := <[rv1_review_ref p := {| rvs_review_version := 1;
           rvs_event_id := ev_id event;
           rvs_candidate_digest := rv1_candidate_digest p;
           rvs_candidate_commit_sha := rv1_candidate_commit_sha p;
           rvs_review_ref := rv1_review_ref p;
           rvs_decision := rv1_decision p;
           rvs_findings := rv1_findings p;
           rvs_confidence := rv1_confidence p;
           rvs_reviewer_manifest_digest := rv1_reviewer_manifest_digest p;
           rvs_review_verdict_action_id := None;
           rvs_review_action_request_digest := None;
           rvs_review_action_receipt_ref := None;
           rvs_review_action_receipt_digest := None;
           rvs_review_output_ref := None;
           rvs_review_output_digest := None;
           rvs_review_output_semantic_digest := None;
           rvs_acceptance_ref := None;
           rvs_acceptance_digest := None;
           rvs_acceptance_contract_digest := None;
           rvs_candidate_envelope_digest := None;
           rvs_reviewer_workflow_id := None;
           rvs_reviewer_dispatch_envelope_digest := None;
           rvs_reviewer_unit_id := None;
           rvs_reviewer_attempt := None;
           rvs_reviewer_execution_role := None;
           rvs_review_action_receipt_set_ref := None;
           rvs_review_action_receipt_set_digest := None;
           rvs_candidate_view := None;
           rvs_candidate_view_ref := None;
           rvs_candidate_view_digest := None;
           rvs_reviewer_authority := None;
           rvs_reviewed_at := rv1_reviewed_at p |}]> (wi_reviews workflow) |} in
  let workflow :=
    {| workflow with wi_phase := match rv1_decision p with
        | ReviewDecisionV1_Approve => WorkflowPhaseV1_ReviewApproved
        | ReviewDecisionV1_RequestChanges | ReviewDecisionV1_Reject | ReviewDecisionV1_Abstain =>
            WorkflowPhaseV1_Rejected
        end |} in
  let st := {| st with st_workflow_instances := <[key := workflow]> (st_workflow_instances st) |} in
  Ok (sync_workflow_compatibility_view st key)
  end.

Definition apply_review_verdict (st : ReplayState)
    (event : Event)
    (p : ReviewVerdictRecordedV1)
    : ReplayState :=
  match review_verdict_precheck event p with
  | Err e => finish st event (Err e)
  | Ok _ =>
      let st := ensure_workflow_instances st in
      finish st event (review_verdict_verdict st event p)
  end.

Definition review_verdict_v2_precheck (event : Event)
    (p : ReviewVerdictRecordedV2)
    : Result unit Exit :=
  let* _ := map_err Rejected (validate_v3_event_payload event) in
  fail_if
      (negb (f64_is_finite (rv2_confidence p)))
      || (negb (f64_leb f64_zero (rv2_confidence p) && f64_leb (rv2_confidence p) f64_one))
    with (Rejected "review v2 confidence must be a finite value between zero and one") ;;
  fail_if rv2_run_id p != uuid_to_string (ev_run_id event)
    with (Rejected "review v2 payload run_id does not match its event run_id") ;;
  Ok tt.

Definition review_verdict_v2_verdict (st : ReplayState)
    (event : Event)
    (p : ReviewVerdictRecordedV2)
    : Verdict :=
  let* key := map_err Rejected (find_workflow_key_for_candidate st event (rv2_candidate_digest p)
      (Some (rv2_candidate_commit_sha p))) in
  some_or workflow := (st_workflow_instances st) !! key
    with (Rejected "review v2 has no prior dispatch envelope") ;;
  fail_if negb (event_matches_workflow_run workflow event)
    with (Rejected "review v2 belongs to a different run") ;;
  fail_if is_terminal (wi_phase workflow)
    with (Rejected "review v2 received after terminal workflow phase") ;;
  fail_if
      (negb (supports_sealed_action_evidence workflow))
      || (wd_trust_tier (wi_dispatch workflow) != TrustTierV1_Governed)
    with (Rejected "review v2 requires a governed sealed V3 candidate dispatch") ;;
  fail_if
      (wi_workflow_id workflow != rv2_workflow_id p)
      || (wi_unit_id workflow != rv2_unit_id p)
      || (wi_attempt workflow != rv2_attempt p)
      || (wd_provenance_ref (wi_dispatch workflow) != rv2_provenance_ref p)
    with (Rejected "review v2 candidate workflow identity does not match the immutable candidate")
        ;;
  some_or candidate := wi_candidate workflow
    with (Rejected "review v2 has no immutable candidate") ;;
  fail_if
      (rv2_candidate_digest p != ca_candidate_digest candidate)
      || (rv2_candidate_commit_sha p != ca_candidate_commit_sha candidate)
      || (rv2_candidate_envelope_digest p != ca_envelope_digest candidate)
    with (Rejected
        "review v2 candidate digest, commit, or dispatch does not match immutable candidate lineage") ;;
  fail_if
      (requires_candidate_completion workflow)
      && (is_none (wi_candidate_completion workflow))
    with (Rejected
        "governed sealed_v3 candidate review requires closed candidate completion evidence") ;;
  some_or candidate_evidence := wi_action_evidence workflow
    with (Rejected "review v2 candidate is missing its V3 action evidence projection") ;;
  some_or candidate_set := aes_sealed_receipt_set candidate_evidence
    with (Rejected "review v2 candidate is missing its exact sealed action receipt set") ;;
  fail_if
      (ca_action_receipt_set_ref candidate != Some (arss_action_receipt_set_ref candidate_set))
      || (ca_action_receipt_set_digest candidate != Some (arss_action_receipt_set_digest
          candidate_set))
    with (Rejected "review v2 candidate does not bind its sealed action receipt set") ;;
  some_or acceptance := wi_acceptance workflow
    with (Rejected "review v2 requires a passed deterministic acceptance record") ;;
  fail_if
      (cas_outcome acceptance != CandidateAcceptanceOutcomeV1_Passed)
      || (rv2_acceptance_ref p != cas_acceptance_ref acceptance)
      || (rv2_acceptance_digest p != cas_acceptance_digest acceptance)
      || (rv2_acceptance_contract_digest p != cas_acceptance_contract_digest acceptance)
    with (Rejected "review v2 acceptance evidence does not prove the exact candidate passed") ;;
  if negb (match wi_phase workflow with
  | WorkflowPhaseV1_AcceptancePassed => true
  | WorkflowPhaseV1_ReviewApproved => true
  | _ => false
  end) then
    let reason := "review v2 is not allowed from phase " +:+ workflow_phase_debug (wi_phase
        workflow) in
    Err (Rejected reason)
  else
  let* reviewer_key := map_err Rejected (find_v3_reviewer_workflow_for_review st event p) in
  fail_if reviewer_key == key
    with (Rejected "review v2 reviewer dispatch must be independent from the candidate unit") ;;
  some_or reviewer_workflow := (st_workflow_instances st) !! reviewer_key
    with Panicked ;;
  fail_if wi_phase reviewer_workflow != WorkflowPhaseV1_Dispatched
    with (Rejected "review v2 reviewer dispatch must remain an unpromotable review activity") ;;
  let* expected_candidate_view_digest := map_err (fun error => Rejected
      ("review v2 candidate view cannot be canonicalized: " +:+ error)) (candidate_view_v1_digest
          (rv2_candidate_view p)) in
  fail_if
      (rv2_candidate_view_digest p != expected_candidate_view_digest)
      || (cview_candidate_ref (rv2_candidate_view p) != ca_candidate_ref candidate)
      || (cview_candidate_digest (rv2_candidate_view p) != ca_candidate_digest candidate)
      || (cview_candidate_commit_sha (rv2_candidate_view p) != ca_candidate_commit_sha candidate)
      || (cview_tree_digest (rv2_candidate_view p) != ca_tree_digest candidate)
      || (cview_reviewer_context_manifest_digest (rv2_candidate_view p) !=
          wd_context_manifest_digest (wi_dispatch reviewer_workflow))
      || (cview_reviewer_sandbox_profile_digest (rv2_candidate_view p) !=
          wd_sandbox_profile_digest (wi_dispatch reviewer_workflow))
      || (negb (cview_read_only (rv2_candidate_view p)))
      || (negb (cview_network_disabled (rv2_candidate_view p)))
    with (Rejected
        "review v2 candidate view does not bind the immutable candidate and read-only reviewer sandbox") ;;
  some_or reviewer_evidence := wi_action_evidence reviewer_workflow
    with (Rejected "review v2 reviewer dispatch is missing its action evidence projection") ;;
  some_or reviewer_set := aes_sealed_receipt_set reviewer_evidence
    with (Rejected "review v2 requires a sealed reviewer action receipt set") ;;
  fail_if
      (rv2_review_action_receipt_set_ref p != arss_action_receipt_set_ref reviewer_set)
      || (rv2_review_action_receipt_set_digest p != arss_action_receipt_set_digest reviewer_set)
    with (Rejected "review v2 does not bind the exact sealed reviewer action receipt set") ;;
  fail_if negb (review_action_evidence_is_successful reviewer_evidence)
    with (Rejected "review v2 requires at least one succeeded reviewer action in the sealed set") ;;
  some_or review_action := (aes_actions reviewer_evidence) !! (rv2_review_verdict_action_id p)
    with (Rejected "review v2 verdict action is not part of the reviewer action evidence") ;;
  some_or review_receipt := acts_receipt review_action
    with (Rejected "review v2 verdict action has no terminal receipt") ;;
  some_or sealed_review_receipt := List.find (fun entry => arse_action_id entry ==
      rv2_review_verdict_action_id p) (arss_receipts reviewer_set)
    with (Rejected "review v2 verdict action is missing from the sealed reviewer receipt set") ;;
  fail_if
      (arqs_action_request_digest (acts_request review_action) != rv2_review_action_request_digest
          p)
      || (arcs_action_request_digest review_receipt != rv2_review_action_request_digest p)
      || (arcs_action_receipt_ref review_receipt != rv2_review_action_receipt_ref p)
      || (arcs_action_receipt_digest review_receipt != rv2_review_action_receipt_digest p)
      || (arse_action_receipt_ref sealed_review_receipt != rv2_review_action_receipt_ref p)
      || (arse_action_receipt_digest sealed_review_receipt != rv2_review_action_receipt_digest p)
      || (arcs_outcome review_receipt != ActionReceiptOutcomeV2_Succeeded)
      || (arqs_action_kind (acts_request review_action) != ActionKindV1_Model)
      || (is_none_or (arcs_authorization_ref review_receipt) (fun authorization_ref =>
          trim_is_empty authorization_ref))
      || (arcs_result_ref review_receipt != Some (rv2_review_output_ref p))
      || (arcs_result_digest review_receipt != Some (rv2_review_output_digest p))
    with (Rejected "review v2 verdict action receipt does not bind the closed review output") ;;
  fail_if
      (requires_activity_claim_result reviewer_workflow)
      && (negb (sealed_v3_review_action_binds_verdict_target review_action candidate p))
    with (Rejected
        "sealed_v3 review verdict action intent and authorization must bind the exact target candidate and candidate view") ;;
  let* expected_output_digest := map_err (fun error => Rejected
      ("review v2 closed output cannot be canonicalized: " +:+ error))
          (review_verdict_output_v1_digest {| rvo_candidate_digest := rv2_candidate_digest p;
     rvo_candidate_commit_sha := rv2_candidate_commit_sha p;
     rvo_decision := rv2_decision p;
     rvo_findings := rv2_findings p;
     rvo_confidence := rv2_confidence p;
     rvo_candidate_view_digest := rv2_candidate_view_digest p |}) in
  let* _ := match rv2_review_output_semantic_digest p with
  | Some semantic_digest =>
      if semantic_digest == expected_output_digest then Ok tt else Err (Rejected
          "review v2 semantic digest does not match its closed verdict fields")
  | None =>
      if rv2_review_output_digest p == expected_output_digest then Ok tt else Err (Rejected
          "review v2 semantic digest does not match its closed verdict fields")
  end in
  match (wi_reviews workflow) !! (rv2_review_ref p) with
  | Some existing =>
      fail_if review_v2_matches_existing existing (ev_id event) p
        with Ignored ;;
      Err (Rejected "review_ref is already bound to a different verdict")
  | None =>
  some_or workflow := (st_workflow_instances st) !! key with Panicked ;;
  let workflow :=
    {| workflow with wi_reviews := <[rv2_review_ref p := {| rvs_review_version := 2;
           rvs_event_id := ev_id event;
           rvs_candidate_digest := rv2_candidate_digest p;
           rvs_candidate_commit_sha := rv2_candidate_commit_sha p;
           rvs_review_ref := rv2_review_ref p;
           rvs_decision := rv2_decision p;
           rvs_findings := rv2_findings p;
           rvs_confidence := rv2_confidence p;
           rvs_reviewer_manifest_digest := rv2_reviewer_manifest_digest p;
           rvs_review_verdict_action_id := Some (rv2_review_verdict_action_id p);
           rvs_review_action_request_digest := Some (rv2_review_action_request_digest p);
           rvs_review_action_receipt_ref := Some (rv2_review_action_receipt_ref p);
           rvs_review_action_receipt_digest := Some (rv2_review_action_receipt_digest p);
           rvs_review_output_ref := Some (rv2_review_output_ref p);
           rvs_review_output_digest := Some (rv2_review_output_digest p);
           rvs_review_output_semantic_digest := rv2_review_output_semantic_digest p;
           rvs_acceptance_ref := Some (rv2_acceptance_ref p);
           rvs_acceptance_digest := Some (rv2_acceptance_digest p);
           rvs_acceptance_contract_digest := Some (rv2_acceptance_contract_digest p);
           rvs_candidate_envelope_digest := Some (rv2_candidate_envelope_digest p);
           rvs_reviewer_workflow_id := Some (rv2_reviewer_workflow_id p);
           rvs_reviewer_dispatch_envelope_digest := Some (rv2_reviewer_dispatch_envelope_digest p);
           rvs_reviewer_unit_id := Some (rv2_reviewer_unit_id p);
           rvs_reviewer_attempt := Some (rv2_reviewer_attempt p);
           rvs_reviewer_execution_role := Some (rv2_reviewer_execution_role p);
           rvs_review_action_receipt_set_ref := Some (rv2_review_action_receipt_set_ref p);
           rvs_review_action_receipt_set_digest := Some (rv2_review_action_receipt_set_digest p);
           rvs_candidate_view := Some (rv2_candidate_view p);
           rvs_candidate_view_ref := Some (rv2_candidate_view_ref p);
           rvs_candidate_view_digest := Some (rv2_candidate_view_digest p);
           rvs_reviewer_authority := Some (rv2_reviewer_authority p);
           rvs_reviewed_at := rv2_reviewed_at p |}]> (wi_reviews workflow) |} in
  let workflow :=
    {| workflow with wi_phase := match rv2_decision p with
        | ReviewDecisionV1_Approve => WorkflowPhaseV1_ReviewApproved
        | ReviewDecisionV1_RequestChanges | ReviewDecisionV1_Reject | ReviewDecisionV1_Abstain =>
            WorkflowPhaseV1_Rejected
        end |} in
  let st := {| st with st_workflow_instances := <[key := workflow]> (st_workflow_instances st) |} in
  Ok (sync_workflow_compatibility_view st key)
  end.

Definition apply_review_verdict_v2 (st : ReplayState)
    (event : Event)
    (p : ReviewVerdictRecordedV2)
    : ReplayState :=
  match review_verdict_v2_precheck event p with
  | Err e => finish st event (Err e)
  | Ok _ =>
      let st := ensure_workflow_instances st in
      finish st event (review_verdict_v2_verdict st event p)
  end.

End Reducer.
