(* ===== verification/ReducerPromotion.v ===== *)
(** * The workflow reducer: promotion

    Approval requests, decisions, execution claims, results and reconciliation
    of a promotion ([bp-replay/src/transitions.rs]). *)
From Stdlib Require Import Ascii.
From S2P Require Import Prelude RustStr Host LedgerPayloads TrustSpine Digests Events ReplayState ReducerCore.
From stdpp Require Import base list gmap strings pretty.

#[local] Open Scope string_scope.
#[local] Open Scope list_scope.
#[local] Open Scope Z_scope.

Section Reducer.
Context `{Host, Canonicalizer}.

Definition promotion_approval_requested_verdict (st : ReplayState)
    (event : Event)
    (p : PromotionApprovalRequestedV1)
    : Verdict :=
  let* approval_event_digest := map_err (fun error => Rejected
      ("promotion approval request canonical hash failed: " +:+ error)) (canonical_event_hash
          event) in
  let* key := map_err Rejected (find_workflow_key_for_candidate st event (par_candidate_digest p)
      None) in
  some_or workflow := (st_workflow_instances st) !! key
    with (Rejected "promotion approval request has no prior dispatch envelope") ;;
  fail_if negb (event_matches_workflow_run workflow event)
    with (Rejected "promotion approval request belongs to a different run") ;;
  fail_if is_terminal (wi_phase workflow)
    with (Rejected "promotion approval request received after terminal workflow phase") ;;
  some_or candidate := wi_candidate workflow
    with (Rejected "promotion approval request has no immutable candidate") ;;
  fail_if
      (par_candidate_digest p != ca_candidate_digest candidate)
      || (par_base_commit_sha p != ca_base_commit_sha candidate)
      || (par_envelope_digest p != ca_envelope_digest candidate)
    with (Rejected "promotion approval request does not bind the immutable candidate lineage") ;;
  fail_if
      (requires_candidate_completion workflow)
      && (is_none (wi_candidate_completion workflow))
    with (Rejected
        "governed sealed_v3 promotion approval requires closed candidate completion evidence") ;;
  fail_if negb (is_canonical_target_ref (par_target_ref p))
    with (Rejected
        "promotion approval request target_ref must be a canonical refs/heads branch ref") ;;
  fail_if
      (trim_is_empty (par_requested_by p))
      || (trim_is_empty (par_idempotency_key p))
      || (is_none (parse_rfc3339_utc (par_requested_at p)))
    with (Rejected
        "promotion approval request has an invalid requester, timestamp, or idempotency key") ;;
  match wi_promotion_approval workflow with
  | Some existing =>
      fail_if promotion_approval_request_matches_existing existing (ev_id event) p
          approval_event_digest
        with Ignored ;;
      Err (Rejected "candidate already has a different promotion approval request")
  | None =>
  some_or acceptance := wi_acceptance workflow
    with (Rejected "promotion approval request requires a passed deterministic acceptance record")
        ;;
  fail_if
      (cas_outcome acceptance != CandidateAcceptanceOutcomeV1_Passed)
      || (par_acceptance_ref p != cas_acceptance_ref acceptance)
    with (Rejected
        "promotion approval request acceptance reference does not prove a passed candidate check")
            ;;
  fail_if
      (wi_phase workflow != WorkflowPhaseV1_ReviewApproved)
      || (list_is_empty (par_review_refs p))
      || (negb (review_refs_are_approved workflow (par_review_refs p)))
    with (Rejected "promotion approval request requires explicit approving review references") ;;
  some_or workflow := (st_workflow_instances st) !! key with Panicked ;;
  let workflow :=
    {| workflow with wi_promotion_approval := Some {| pars_event_id := ev_id event;
           pars_event_digest := approval_event_digest;
           pars_candidate_digest := par_candidate_digest p;
           pars_base_commit_sha := par_base_commit_sha p;
           pars_target_ref := par_target_ref p;
           pars_envelope_digest := par_envelope_digest p;
           pars_acceptance_ref := par_acceptance_ref p;
           pars_review_refs := par_review_refs p;
           pars_requested_by := par_requested_by p;
           pars_requested_at := par_requested_at p;
           pars_idempotency_key := par_idempotency_key p |} |} in
  let workflow :=
    {| workflow with wi_phase := WorkflowPhaseV1_PromotionApprovalPending |} in
  let st := {| st with st_workflow_instances := <[key := workflow]> (st_workflow_instances st) |} in
  Ok (sync_workflow_compatibility_view st key)
  end.

Definition apply_promotion_approval_requested (st : ReplayState)
    (event : Event)
    (p : PromotionApprovalRequestedV1)
    : ReplayState :=
  let st := ensure_workflow_instances st in
  finish st event (promotion_approval_requested_verdict st event p).

Definition promotion_decision_verdict (st : ReplayState)
    (event : Event)
    (p : PromotionDecisionRecordedV1)
    : Verdict :=
  let* decision_event_digest := map_err (fun error => Rejected
      ("promotion decision canonical hash failed: " +:+ error)) (canonical_event_hash event) in
  let* key := map_err Rejected (find_workflow_key_for_candidate st event (pdr_candidate_digest p)
      None) in
  some_or workflow := (st_workflow_instances st) !! key
    with (Rejected "promotion decision has no prior dispatch envelope") ;;
  fail_if negb (event_matches_workflow_run workflow event)
    with (Rejected "promotion decision belongs to a different run") ;;
  fail_if is_terminal (wi_phase workflow)
    with (Rejected "promotion decision received after terminal workflow phase") ;;
  fail_if
      (is_some (wi_cancellation workflow))
      || (wi_phase workflow == WorkflowPhaseV1_CancellationRequested)
    with (Rejected "promotion decision cannot be recorded after workflow cancellation") ;;
  some_or candidate := wi_candidate workflow
    with (Rejected "promotion decision has no immutable candidate") ;;
  fail_if
      (pdr_candidate_digest p != ca_candidate_digest candidate)
      || (pdr_base_commit_sha p != ca_base_commit_sha candidate)
      || (pdr_envelope_digest p != ca_envelope_digest candidate)
    with (Rejected "promotion decision does not bind the immutable candidate lineage") ;;
  fail_if
      (requires_candidate_completion workflow)
      && (is_none (wi_candidate_completion workflow))
    with (Rejected
        "governed sealed_v3 promotion decision requires closed candidate completion evidence") ;;
  fail_if
      (requires_candidate_completion workflow)
      && (negb (is_some_and (pdr_target_ref p) is_canonical_target_ref))
    with (Rejected "sealed_v3 promotion decision requires a canonical target_ref") ;;
  fail_if is_some_and (pdr_target_ref p) (fun target_ref => negb (is_canonical_target_ref
      target_ref))
    with (Rejected "promotion decision target_ref must be a canonical refs/heads branch ref") ;;
  match wi_promotion workflow with
  | Some existing =>
      fail_if promotion_decision_matches_existing (ps_decision existing) (ev_id event) p
          decision_event_digest
        with Ignored ;;
      Err (Rejected "candidate already has a different promotion decision or idempotency key")
  | None =>
  let has_promotion_approval := is_some (wi_promotion_approval workflow) in
  let* _ := match wi_promotion_approval workflow with
  | Some request =>
      fail_if
          (wi_phase workflow != WorkflowPhaseV1_PromotionApprovalPending)
          || (negb (promotion_decision_binds_approval_request p request))
        with (Rejected
            "promotion decision does not bind the exact durable promotion approval request") ;;
      Ok tt
  | _ => fail_if is_some (pdr_promotion_approval_request_ref p)
    with (Rejected
        "promotion decision references a promotion approval request that is not recorded") ;;
  Ok tt
  end in
  let* _ := match pdr_decision p with
  | PromotionDecisionKindV1_Promote =>
      some_or acceptance := wi_acceptance workflow
        with (Rejected "promotion requires a passed deterministic acceptance record") ;;
      fail_if
          (cas_outcome acceptance != CandidateAcceptanceOutcomeV1_Passed)
          || (pdr_acceptance_ref p != cas_acceptance_ref acceptance)
        with (Rejected "promotion acceptance reference does not prove a passed candidate check") ;;
      fail_if
          ((negb has_promotion_approval)
          && (wi_phase workflow != WorkflowPhaseV1_ReviewApproved))
          || (list_is_empty (pdr_review_refs p))
          || (negb (review_refs_are_approved workflow (pdr_review_refs p)))
        with (Rejected "promotion requires explicit approving review references") ;;
      Ok tt
  | PromotionDecisionKindV1_Reject =>
      some_or acceptance := wi_acceptance workflow
        with (Rejected "rejection decision requires candidate acceptance evidence") ;;
      fail_if pdr_acceptance_ref p != cas_acceptance_ref acceptance
        with (Rejected
            "rejection decision acceptance reference does not match candidate evidence") ;;
      fail_if
          (list_is_empty (pdr_review_refs p))
          || (negb (review_refs_exist workflow (pdr_review_refs p)))
        with (Rejected "rejection decision requires non-empty known review references") ;;
      Ok tt
  end in
  some_or workflow := (st_workflow_instances st) !! key with Panicked ;;
  let workflow :=
    {| workflow with wi_promotion := Some ({| ps_decision := {| pds_event_id := ev_id event;
           pds_event_digest := decision_event_digest;
           pds_candidate_digest := pdr_candidate_digest p;
           pds_base_commit_sha := pdr_base_commit_sha p;
           pds_target_ref := pdr_target_ref p;
           pds_envelope_digest := pdr_envelope_digest p;
           pds_acceptance_ref := pdr_acceptance_ref p;
           pds_review_refs := pdr_review_refs p;
           pds_promotion_approval_request_ref := pdr_promotion_approval_request_ref p;
           pds_decision := pdr_decision p;
           pds_authority := pdr_authority p;
           pds_decided_by := pdr_decided_by p;
           pds_decided_at := pdr_decided_at p;
           pds_idempotency_key := pdr_idempotency_key p |};
           ps_execution_claim := None;
           ps_result := None;
           ps_reconciliation := None |}) |} in
  let workflow :=
    {| workflow with wi_phase := match pdr_decision p with
        | PromotionDecisionKindV1_Promote => WorkflowPhaseV1_PromotionPending
        | PromotionDecisionKindV1_Reject => WorkflowPhaseV1_Rejected
        end |} in
  let st := {| st with st_workflow_instances := <[key := workflow]> (st_workflow_instances st) |} in
  Ok (sync_workflow_compatibility_view st key)
  end.

Definition apply_promotion_decision (st : ReplayState)
    (event : Event)
    (p : PromotionDecisionRecordedV1)
    : ReplayState :=
  let st := ensure_workflow_instances st in
  finish st event (promotion_decision_verdict st event p).

Definition promotion_execution_claimed_v1_verdict (st : ReplayState)
    (event : Event)
    (p : PromotionExecutionClaimedV1)
    (signer : option ActorKeyRef)
    : Verdict :=
  fail_if pec_run_id p != uuid_to_string (ev_run_id event)
    with (Rejected "promotion execution claim payload run_id does not match its event run_id") ;;
  fail_if ev_parent_event_id event != Some (pec_promotion_decision_event_ref p)
    with (Rejected
        "promotion execution claim parent_event_id must bind the exact promotion decision") ;;
  let* event_digest := map_err (fun error => Rejected
      ("promotion execution claim canonical hash failed: " +:+ error)) (canonical_event_hash
          event) in
  let* expected_claim_digest := map_err (fun error => Rejected
      ("promotion execution claim payload canonicalization failed: " +:+ error))
          (promotion_execution_claimed_v1_digest p) in
  fail_if pec_promotion_execution_claim_digest p != expected_claim_digest
    with (Rejected "promotion execution claim digest does not bind its immutable payload") ;;
  some_or claimed_at := parse_rfc3339_utc (pec_claimed_at p)
    with (Rejected "promotion execution claim claimed_at must be an RFC3339 UTC timestamp") ;;
  some_or lease_expires_at := parse_rfc3339_utc (pec_lease_expires_at p)
    with (Rejected "promotion execution claim lease_expires_at must be an RFC3339 UTC timestamp") ;;
  fail_if (claimed_at != ev_occurred_at event) || (lease_expires_at <=? claimed_at)
    with (Rejected "promotion execution claim event time and lease interval are invalid") ;;
  let* key := map_err Rejected (find_workflow_key_for_candidate st event (pec_candidate_digest p)
      (Some (pec_candidate_commit_sha p))) in
  let* _ := (
    some_or workflow := (st_workflow_instances st) !! key with Panicked ;;
    fail_if negb (event_matches_workflow_run workflow event)
      with (Rejected "promotion execution claim belongs to a different run") ;;
    fail_if
        (negb (workflow_is_governed_atomic_sealed_v3 workflow))
        || (negb (requires_candidate_completion workflow))
      with (Rejected
          "promotion execution claim requires a governed atomic sealed_v3 candidate transaction") ;;
    fail_if
        (wi_phase workflow != WorkflowPhaseV1_PromotionPending)
        || (is_some (wi_cancellation workflow))
        || (is_some (wi_terminal workflow))
      with (Rejected
          "promotion execution claim is allowed only for a pending uncancelled promotion") ;;
    some_or candidate := wi_candidate workflow
      with (Rejected "promotion execution claim has no immutable candidate") ;;
    some_or promotion := wi_promotion workflow
      with (Rejected "promotion execution claim has no recorded promotion decision") ;;
    let decision := ps_decision promotion in
    some_or target_ref := pds_target_ref decision
      with (Rejected "promotion execution claim requires a target-bound promotion decision") ;;
    fail_if
        (pds_decision decision != PromotionDecisionKindV1_Promote)
        || (pec_promotion_decision_event_ref p != pds_event_id decision)
        || (pec_promotion_decision_event_digest p != pds_event_digest decision)
        || (pec_dispatch_event_ref p != wd_event_id (wi_dispatch workflow))
        || (pec_dispatch_envelope_digest p != wd_envelope_digest (wi_dispatch workflow))
        || (pec_candidate_digest p != ca_candidate_digest candidate)
        || (pec_candidate_ref p != ca_candidate_ref candidate)
        || (pec_candidate_commit_sha p != ca_candidate_commit_sha candidate)
        || (pec_candidate_tree_digest p != ca_tree_digest candidate)
        || (pec_base_commit_sha p != ca_base_commit_sha candidate)
        || (pec_base_commit_sha p != pds_base_commit_sha decision)
        || (pec_base_commit_sha p != wd_base_commit_sha (wi_dispatch workflow))
        || (pec_target_ref p != target_ref)
        || (pec_idempotency_key p != pds_idempotency_key decision)
        || (negb (is_canonical_target_ref (pec_target_ref p)))
      with (Rejected
          "promotion execution claim does not bind the exact sealed decision, dispatch, candidate, and target facts") ;;
    some_or dispatch_expires_at := parse_rfc3339_utc (wd_expires_at (wi_dispatch workflow))
      with (Rejected "promotion execution claim dispatch expiry is not an RFC3339 UTC timestamp") ;;
    fail_if (dispatch_expires_at <=? claimed_at) || (dispatch_expires_at <? lease_expires_at)
      with (Rejected
          "promotion execution claim must remain within the signed dispatch authority window") ;;
    let* _ := match signer with
    | Some signer =>
        fail_if pec_authority_actor p != akr_actor_id signer
          with (Rejected
              "promotion execution claim authority_actor does not match its kernel signer") ;;
        Ok tt
    | _ => Ok tt
    end in
    match ps_execution_claim promotion with
    | Some existing =>
        fail_if promotion_execution_claim_matches_existing existing (ev_id event) p event_digest
          with Ignored ;;
        Err (Rejected "promotion decision already has a different immutable execution claim")
    | None =>
    Ok tt
    end) in
  some_or workflow := (st_workflow_instances st) !! key with Panicked ;;
  some_or promotion := wi_promotion workflow with Panicked ;;
  let promotion :=
    {| promotion with ps_execution_claim := Some {| pecs_event_id := ev_id event;
           pecs_event_digest := event_digest;
           pecs_claim := p |} |} in
  let workflow := {| workflow with wi_promotion := Some promotion |} in
  let st := {| st with st_workflow_instances := <[key := workflow]> (st_workflow_instances st) |} in
  Ok (sync_workflow_compatibility_view st key).

Definition apply_promotion_execution_claimed_v1 (st : ReplayState)
    (event : Event)
    (p : PromotionExecutionClaimedV1)
    (signer : option ActorKeyRef)
    : ReplayState :=
  let st := ensure_workflow_instances st in
  finish st event (promotion_execution_claimed_v1_verdict st event p signer).

Definition promotion_result_verdict (st : ReplayState)
    (event : Event)
    (p : PromotionResultRecordedV1)
    : Verdict :=
  let* result_event_digest := map_err (fun error => Rejected
      ("promotion result canonical hash failed: " +:+ error)) (canonical_event_hash event) in
  let* key := map_err Rejected (find_workflow_key_for_candidate st event (prr_candidate_digest p)
      None) in
  some_or workflow := (st_workflow_instances st) !! key
    with (Rejected "promotion result has no prior dispatch envelope") ;;
  fail_if negb (event_matches_workflow_run workflow event)
    with (Rejected "promotion result belongs to a different run") ;;
  some_or promotion := wi_promotion workflow
    with (Rejected "promotion result has no recorded promotion decision") ;;
  fail_if prr_promotion_decision_ref p != uuid_to_string (pds_event_id (ps_decision promotion))
    with (Rejected
        "promotion result does not reference the exact recorded promotion decision event") ;;
  match ps_result promotion with
  | Some existing =>
      fail_if promotion_result_matches_existing existing (ev_id event) p result_event_digest
        with Ignored ;;
      Err (Rejected "promotion decision already has a different recorded result")
  | None =>
  fail_if is_some (wi_terminal workflow)
    with (Rejected "promotion result received after terminal workflow record") ;;
  fail_if
      (prr_candidate_digest p != pds_candidate_digest (ps_decision promotion))
      || (prr_idempotency_key p != pds_idempotency_key (ps_decision promotion))
    with (Rejected
        "promotion result candidate digest or idempotency key does not match its decision") ;;
  let* _ := match ps_execution_claim promotion with
  | Some claim =>
      some_or binding := prr_promotion_execution_lease_binding p
        with (Rejected
            "promotion result after an execution claim must bind the exact immutable execution claim") ;;
      fail_if
          (pelb_promotion_execution_claim_event_ref binding != pecs_event_id claim)
          || (pelb_promotion_execution_claim_event_digest binding != pecs_event_digest claim)
          || (pelb_lease_id binding != pec_lease_id (pecs_claim claim))
        with (Rejected "promotion result does not bind the exact immutable execution claim") ;;
      Ok tt
  | None =>
      if is_some (prr_promotion_execution_lease_binding p) then Err (Rejected
          "promotion result references an execution claim that replay did not project") else Ok tt
  end in
  fail_if negb (promotion_result_is_semantically_valid workflow promotion p)
    with (Rejected "promotion result outcome is incompatible with its decision") ;;
  let resulting_phase := match prr_outcome p with
  | PromotionResultOutcomeV1_Promoted => WorkflowPhaseV1_Promoted
  | PromotionResultOutcomeV1_ReconciliationRequired =>
      WorkflowPhaseV1_PromotionReconciliationRequired
  | PromotionResultOutcomeV1_Rejected => WorkflowPhaseV1_Rejected
  end in
  some_or workflow := (st_workflow_instances st) !! key with Panicked ;;
  some_or promotion := wi_promotion workflow with Panicked ;;
  let promotion :=
    {| promotion with ps_result := Some {| prs_event_id := ev_id event;
           prs_event_digest := result_event_digest;
           prs_candidate_digest := prr_candidate_digest p;
           prs_idempotency_key := prr_idempotency_key p;
           prs_promotion_decision_ref := prr_promotion_decision_ref p;
           prs_outcome := prr_outcome p;
           prs_merged_head_sha := prr_merged_head_sha p;
           prs_promotion_git_binding := prr_promotion_git_binding p;
           prs_promotion_execution_lease_binding := prr_promotion_execution_lease_binding p;
           prs_completed_at := prr_completed_at p |} |} in
  let workflow := {| workflow with wi_promotion := Some promotion |} in
  let workflow :=
    {| workflow with wi_phase := resulting_phase |} in
  let st := {| st with st_workflow_instances := <[key := workflow]> (st_workflow_instances st) |} in
  Ok (sync_workflow_compatibility_view st key)
  end.

Definition apply_promotion_result (st : ReplayState)
    (event : Event)
    (p : PromotionResultRecordedV1)
    : ReplayState :=
  let st := ensure_workflow_instances st in
  finish st event (promotion_result_verdict st event p).

Definition promotion_reconciliation_resolved_verdict (st : ReplayState)
    (event : Event)
    (p : PromotionReconciliationResolvedV1)
    : Verdict :=
  let* reconciliation_event_digest := map_err (fun error => Rejected
      ("promotion reconciliation canonical hash failed: " +:+ error)) (canonical_event_hash event)
          in
  let* key := map_err Rejected (find_workflow_key_for_candidate st event (prec_candidate_digest p)
      None) in
  some_or workflow := (st_workflow_instances st) !! key
    with (Rejected "promotion reconciliation resolution has no prior dispatch envelope") ;;
  fail_if negb (event_matches_workflow_run workflow event)
    with (Rejected "promotion reconciliation resolution belongs to a different run") ;;
  some_or promotion := wi_promotion workflow
    with (Rejected "promotion reconciliation resolution has no recorded promotion decision") ;;
  match ps_reconciliation promotion with
  | Some existing =>
      fail_if promotion_reconciliation_matches_existing existing (ev_id event) p
          reconciliation_event_digest
        with Ignored ;;
      Err (Rejected "promotion result already has a different recorded reconciliation resolution")
  | None =>
  fail_if is_some (wi_terminal workflow)
    with (Rejected "promotion reconciliation resolution received after terminal workflow record") ;;
  some_or result := ps_result promotion
    with (Rejected "promotion reconciliation resolution has no recorded promotion result") ;;
  fail_if
      (wi_phase workflow != WorkflowPhaseV1_PromotionReconciliationRequired)
      || (prs_outcome result != PromotionResultOutcomeV1_ReconciliationRequired)
    with (Rejected
        "promotion reconciliation resolution requires a target-advanced promotion result") ;;
  fail_if
      (prec_candidate_digest p != pds_candidate_digest (ps_decision promotion))
      || (prec_candidate_digest p != prs_candidate_digest result)
      || (prec_promotion_decision_ref p != uuid_to_string (pds_event_id (ps_decision promotion)))
      || (prec_promotion_result_ref p != uuid_to_string (prs_event_id result))
    with (Rejected
        "promotion reconciliation resolution does not bind the exact recorded decision and result") ;;
  let expected_receipt_ref := (prs_promotion_git_binding result) ≫= (fun binding =>
      pgb_promotion_receipt_ref binding) in
  fail_if expected_receipt_ref != Some (prec_promotion_receipt_ref p)
    with (Rejected
        "promotion reconciliation resolution does not bind the exact recorded promotion receipt") ;;
  fail_if negb (promotion_reconciliation_is_semantically_valid p)
    with (Rejected "promotion reconciliation resolution lacks a valid operator authority binding")
        ;;
  some_or workflow := (st_workflow_instances st) !! key with Panicked ;;
  some_or promotion := wi_promotion workflow with Panicked ;;
  let promotion :=
    {| promotion with ps_reconciliation := Some {| precs_event_id := ev_id event;
           precs_event_digest := reconciliation_event_digest;
           precs_candidate_digest := prec_candidate_digest p;
           precs_promotion_decision_ref := prec_promotion_decision_ref p;
           precs_promotion_result_ref := prec_promotion_result_ref p;
           precs_promotion_receipt_ref := prec_promotion_receipt_ref p;
           precs_outcome := prec_outcome p;
           precs_authority := prec_authority p;
           precs_resolved_by := prec_resolved_by p;
           precs_idempotency_key := prec_idempotency_key p;
           precs_resolved_at := prec_resolved_at p |} |} in
  let workflow := {| workflow with wi_promotion := Some promotion |} in
  let workflow :=
    {| workflow with wi_phase := WorkflowPhaseV1_PromotionReconciliationResolved |} in
  let st := {| st with st_workflow_instances := <[key := workflow]> (st_workflow_instances st) |} in
  Ok (sync_workflow_compatibility_view st key)
  end.

Definition apply_promotion_reconciliation_resolved (st : ReplayState)
    (event : Event)
    (p : PromotionReconciliationResolvedV1)
    : ReplayState :=
  let st := ensure_workflow_instances st in
  finish st event (promotion_reconciliation_resolved_verdict st event p).

End Reducer.
