(* ===== verification/ReducerLifecycle.v ===== *)
(** * The workflow reducer: timers, cancellation and terminal records

    Durable timers, cancellation requests and terminal workflow records
    ([bp-replay/src/transitions.rs]). *)
From Stdlib Require Import Ascii.
From S2P Require Import Prelude RustStr Host LedgerPayloads TrustSpine Digests Events ReplayState ReducerCore.
From stdpp Require Import base list gmap strings pretty.

#[local] Open Scope string_scope.
#[local] Open Scope list_scope.
#[local] Open Scope Z_scope.

Section Reducer.
Context `{Host, Canonicalizer}.

Definition workflow_timer_scheduled_v1_verdict (st : ReplayState)
    (event : Event)
    (p : WorkflowTimerScheduledV1)
    : Verdict :=
  let* _ := map_err Rejected (validate_v3_event_payload event) in
  let* key := map_err Rejected (find_workflow_key_for_lifecycle st event (wts_run_id p)
      (wts_workflow_id p) (wts_workflow_revision p) (wts_unit_id p) (wts_attempt p)
          (wts_dispatch_event_ref p) (wts_dispatch_envelope_digest p)) in
  some_or workflow := (st_workflow_instances st) !! key
    with Panicked ;;
  fail_if negb (workflow_lifecycle_control_is_allowed workflow)
    with (Rejected
        "workflow timer cannot be scheduled after cancellation, terminalization, or promotion control begins") ;;
  some_or scheduled_at := parse_rfc3339_utc (wts_scheduled_at p)
    with (Rejected "workflow timer scheduled_at must be an RFC3339 UTC timestamp") ;;
  some_or due_at := parse_rfc3339_utc (wts_due_at p)
    with (Rejected "workflow timer due_at must be an RFC3339 UTC timestamp") ;;
  some_or dispatch_issued_at := parse_rfc3339_utc (wd_issued_at (wi_dispatch workflow))
    with (Rejected "workflow dispatch issued_at is invalid") ;;
  some_or dispatch_expires_at := parse_rfc3339_utc (wd_expires_at (wi_dispatch workflow))
    with (Rejected "workflow dispatch expires_at is invalid") ;;
  fail_if
      (ev_parent_event_id event != Some (wd_event_id (wi_dispatch workflow)))
      || (scheduled_at != ev_occurred_at event)
      || (scheduled_at <? dispatch_issued_at)
      || (due_at <=? scheduled_at)
      || (dispatch_expires_at <? due_at)
    with (Rejected
        "workflow timer must parent to its dispatch, bind scheduled_at to the event, and remain inside dispatch authority") ;;
  let* timer_event_digest := map_err (fun error => Rejected
      ("could not canonicalize workflow timer schedule: " +:+ error)) (canonical_event_hash event)
          in
  match (wi_timers workflow) !! (wts_timer_id p) with
  | Some existing =>
      fail_if workflow_timer_schedule_matches_existing existing event p timer_event_digest
        with Ignored ;;
      Err (Rejected "workflow timer id cannot replace an immutable schedule")
  | None =>
  some_or workflow := (st_workflow_instances st) !! key with Panicked ;;
  let workflow :=
    {| workflow with wi_timers := <[wts_timer_id p := {| wtm_event_id := ev_id event;
           wtm_event_digest := timer_event_digest;
           wtm_run_id := wts_run_id p;
           wtm_workflow_id := wts_workflow_id p;
           wtm_workflow_revision := wts_workflow_revision p;
           wtm_unit_id := wts_unit_id p;
           wtm_attempt := wts_attempt p;
           wtm_dispatch_event_ref := wts_dispatch_event_ref p;
           wtm_dispatch_envelope_digest := wts_dispatch_envelope_digest p;
           wtm_timer_id := wts_timer_id p;
           wtm_timer_kind := wts_timer_kind p;
           wtm_due_at := wts_due_at p;
           wtm_idempotency_key := wts_idempotency_key p;
           wtm_scheduled_by := wts_scheduled_by p;
           wtm_scheduled_at := wts_scheduled_at p;
           wtm_fired := None |}]> (wi_timers workflow) |} in
  let st := {| st with st_workflow_instances := <[key := workflow]> (st_workflow_instances st) |} in
  Ok (sync_workflow_compatibility_view st key)
  end.

Definition apply_workflow_timer_scheduled_v1 (st : ReplayState)
    (event : Event)
    (p : WorkflowTimerScheduledV1)
    : ReplayState :=
  finish st event (workflow_timer_scheduled_v1_verdict st event p).

Definition workflow_timer_fired_v1_verdict (st : ReplayState)
    (event : Event)
    (p : WorkflowTimerFiredV1)
    : Verdict :=
  let* _ := map_err Rejected (validate_v3_event_payload event) in
  let* key := map_err Rejected (find_workflow_key_for_lifecycle st event (wtf_run_id p)
      (wtf_workflow_id p) (wtf_workflow_revision p) (wtf_unit_id p) (wtf_attempt p)
          (wtf_dispatch_event_ref p) (wtf_dispatch_envelope_digest p)) in
  some_or workflow := (st_workflow_instances st) !! key
    with Panicked ;;
  fail_if negb (workflow_lifecycle_control_is_allowed workflow)
    with (Rejected
        "workflow timer cannot fire after cancellation, terminalization, or promotion control begins") ;;
  some_or timer := (wi_timers workflow) !! (wtf_timer_id p)
    with (Rejected "workflow timer fired without a prior schedule") ;;
  some_or fired_at := parse_rfc3339_utc (wtf_fired_at p)
    with (Rejected "workflow timer fired_at must be an RFC3339 UTC timestamp") ;;
  some_or due_at := parse_rfc3339_utc (wtm_due_at timer)
    with (Rejected "projected workflow timer due_at is invalid") ;;
  fail_if
      (ev_parent_event_id event != Some (wtm_event_id timer))
      || (wtf_timer_schedule_event_ref p != wtm_event_id timer)
      || (wtf_timer_schedule_event_digest p != wtm_event_digest timer)
      || (wtf_run_id p != wtm_run_id timer)
      || (wtf_workflow_id p != wtm_workflow_id timer)
      || (wtf_workflow_revision p != wtm_workflow_revision timer)
      || (wtf_unit_id p != wtm_unit_id timer)
      || (wtf_attempt p != wtm_attempt timer)
      || (wtf_timer_id p != wtm_timer_id timer)
      || (wtf_dispatch_event_ref p != wtm_dispatch_event_ref timer)
      || (wtf_dispatch_envelope_digest p != wtm_dispatch_envelope_digest timer)
      || (wtf_idempotency_key p != wtm_idempotency_key timer)
      || (fired_at != ev_occurred_at event)
      || (fired_at <? due_at)
    with (Rejected
        "workflow timer firing must bind the exact schedule, occur no earlier than due_at, and parent to that schedule") ;;
  let* fired_event_digest := map_err (fun error => Rejected
      ("could not canonicalize workflow timer firing: " +:+ error)) (canonical_event_hash event) in
  match wtm_fired timer with
  | Some existing =>
      fail_if workflow_timer_fired_matches_existing existing event p fired_event_digest
        with Ignored ;;
      Err (Rejected "workflow timer cannot replace an immutable firing record")
  | None =>
  some_or workflow := (st_workflow_instances st) !! key with Panicked ;;
  some_or timer := (wi_timers workflow) !! (wtf_timer_id p) with Panicked ;;
  let timer :=
    {| timer with wtm_fired := Some {| wtfs_event_id := ev_id event;
           wtfs_event_digest := fired_event_digest;
           wtfs_timer_schedule_event_ref := wtf_timer_schedule_event_ref p;
           wtfs_timer_schedule_event_digest := wtf_timer_schedule_event_digest p;
           wtfs_fired_by := wtf_fired_by p;
           wtfs_fired_at := wtf_fired_at p |} |} in
  let workflow := {| workflow with wi_timers := <[(wtf_timer_id p) := timer]> (wi_timers workflow)
      |} in
  let st := {| st with st_workflow_instances := <[key := workflow]> (st_workflow_instances st) |} in
  Ok (sync_workflow_compatibility_view st key)
  end.

Definition apply_workflow_timer_fired_v1 (st : ReplayState)
    (event : Event)
    (p : WorkflowTimerFiredV1)
    : ReplayState :=
  finish st event (workflow_timer_fired_v1_verdict st event p).

Definition workflow_cancellation_requested_v1_verdict (st : ReplayState)
    (event : Event)
    (p : WorkflowCancellationRequestedV1)
    : Verdict :=
  let* _ := map_err Rejected (validate_v3_event_payload event) in
  let* key := map_err Rejected (find_workflow_key_for_lifecycle st event (wcr_run_id p)
      (wcr_workflow_id p) (wcr_workflow_revision p) (wcr_unit_id p) (wcr_attempt p)
          (wcr_dispatch_event_ref p) (wcr_dispatch_envelope_digest p)) in
  some_or workflow := (st_workflow_instances st) !! key
    with Panicked ;;
  fail_if negb (workflow_lifecycle_control_is_allowed workflow)
    with (Rejected
        "workflow cancellation cannot bypass terminal, promotion-pending, or reconciliation state") ;;
  some_or requested_at := parse_rfc3339_utc (wcr_requested_at p)
    with (Rejected "workflow cancellation requested_at must be an RFC3339 UTC timestamp") ;;
  fail_if requested_at != ev_occurred_at event
    with (Rejected "workflow cancellation requested_at must equal its signed event occurred_at") ;;
  let timer_evidence_is_valid := match wcr_cause p with
  | WorkflowCancellationCauseV1_OperatorRequested =>
      ev_parent_event_id event == Some (wd_event_id (wi_dispatch workflow))
  | WorkflowCancellationCauseV1_TimerElapsed =>
      match (wcr_timer_fired_event_ref p, wcr_timer_fired_event_digest p) with
      | (Some timer_event_ref, Some timer_event_digest) =>
          map_any (fun timer =>
            is_some_and (wtm_fired timer) (fun fired =>
              (ev_parent_event_id event == Some (wtfs_event_id fired))
              && (wtfs_event_id fired == timer_event_ref)
              && (wtfs_event_digest fired == timer_event_digest)
              && (is_some_and (parse_rfc3339_utc (wtfs_fired_at fired)) (fun fired_at => fired_at
                  <=? requested_at)))) (wi_timers workflow)
      | _ => false
      end
  end in
  fail_if negb timer_evidence_is_valid
    with (Rejected
        "workflow cancellation must parent to its dispatch or exact elapsed timer evidence") ;;
  let* cancellation_event_digest := map_err (fun error => Rejected
      ("could not canonicalize workflow cancellation: " +:+ error)) (canonical_event_hash event) in
  match wi_cancellation workflow with
  | Some existing =>
      fail_if workflow_cancellation_matches_existing existing event p cancellation_event_digest
        with Ignored ;;
      Err (Rejected "workflow already has an immutable cancellation request")
  | None =>
  some_or workflow := (st_workflow_instances st) !! key with Panicked ;;
  let workflow :=
    {| workflow with wi_cancellation := Some {| wcs_event_id := ev_id event;
           wcs_event_digest := cancellation_event_digest;
           wcs_cancellation_id := wcr_cancellation_id p;
           wcs_cause := wcr_cause p;
           wcs_timer_fired_event_ref := wcr_timer_fired_event_ref p;
           wcs_timer_fired_event_digest := wcr_timer_fired_event_digest p;
           wcs_requested_by := wcr_requested_by p;
           wcs_idempotency_key := wcr_idempotency_key p;
           wcs_requested_at := wcr_requested_at p |} |} in
  let workflow :=
    {| workflow with wi_phase := WorkflowPhaseV1_CancellationRequested |} in
  let st := {| st with st_workflow_instances := <[key := workflow]> (st_workflow_instances st) |} in
  Ok (sync_workflow_compatibility_view st key)
  end.

Definition apply_workflow_cancellation_requested_v1 (st : ReplayState)
    (event : Event)
    (p : WorkflowCancellationRequestedV1)
    : ReplayState :=
  finish st event (workflow_cancellation_requested_v1_verdict st event p).

Definition terminal_fields_v1 (value : WorkflowTerminalV1) : WorkflowTerminalFields :=
  {| wtfl_workflow_id := wt1_workflow_id value;
     wtfl_workflow_revision := wt1_workflow_revision value;
     wtfl_unit_id := wt1_unit_id value;
     wtfl_attempt := wt1_attempt value;
     wtfl_outcome := wt1_outcome value;
     wtfl_candidate_digest := wt1_candidate_digest value;
     wtfl_promotion_result_ref := wt1_promotion_result_ref value;
     wtfl_reconciliation_resolution_ref := wt1_reconciliation_resolution_ref value;
     wtfl_cancellation_request_event_ref := None;
     wtfl_cancellation_request_event_digest := None;
     wtfl_reason := wt1_reason value;
     wtfl_idempotency_key := wt1_idempotency_key value;
     wtfl_completed_at := wt1_completed_at value |}.

Definition terminal_fields_v2 (value : WorkflowTerminalV2) : WorkflowTerminalFields :=
  {| wtfl_workflow_id := wt2_workflow_id value;
     wtfl_workflow_revision := wt2_workflow_revision value;
     wtfl_unit_id := wt2_unit_id value;
     wtfl_attempt := wt2_attempt value;
     wtfl_outcome := wt2_outcome value;
     wtfl_candidate_digest := wt2_candidate_digest value;
     wtfl_promotion_result_ref := wt2_promotion_result_ref value;
     wtfl_reconciliation_resolution_ref := wt2_reconciliation_resolution_ref value;
     wtfl_cancellation_request_event_ref := wt2_cancellation_request_event_ref value;
     wtfl_cancellation_request_event_digest := wt2_cancellation_request_event_digest value;
     wtfl_reason := wt2_reason value;
     wtfl_idempotency_key := wt2_idempotency_key value;
     wtfl_completed_at := wt2_completed_at value |}.

Definition workflow_terminal_record_verdict (st : ReplayState)
    (event : Event)
    (terminal : WorkflowTerminalFields)
    (terminal_version : u8)
    : Verdict :=
  let* key := map_err Rejected (find_workflow_key_for_terminal st event terminal) in
  some_or workflow := (st_workflow_instances st) !! key
    with (Rejected "workflow terminal has no prior dispatch envelope") ;;
  fail_if negb (event_matches_workflow_run workflow event)
    with (Rejected "workflow terminal belongs to a different run") ;;
  fail_if (terminal_version == 2) && (negb (workflow_is_governed_atomic_sealed_v3 workflow))
    with (Rejected "workflow_terminal_v2 requires a governed atomic sealed_v3 dispatch envelope") ;;
  match wi_terminal workflow with
  | Some existing =>
      fail_if workflow_terminal_matches_existing existing terminal terminal_version
        with Ignored ;;
      Err (Rejected "workflow already has a terminal record")
  | None =>
  fail_if is_terminal (wi_phase workflow)
    with (Rejected "workflow terminal received after a terminal workflow phase") ;;
  fail_if (terminal_version == 1) && (is_some (wi_cancellation workflow))
    with (Rejected
        "workflow_terminal_v1 cannot close a newly requested cancellation; use workflow_terminal_v2") ;;
  fail_if
      (terminal_version == 2)
      && (parse_rfc3339_utc (wtfl_completed_at terminal) != Some (ev_occurred_at event))
    with (Rejected "workflow_terminal_v2 completed_at must equal its signed event occurred_at") ;;
  fail_if
      (wtfl_workflow_id terminal != wi_workflow_id workflow)
      || (wtfl_workflow_revision terminal != wi_workflow_revision workflow)
      || (wtfl_unit_id terminal != wi_unit_id workflow)
      || (wtfl_attempt terminal != wi_attempt workflow)
    with (Rejected "terminal workflow identity does not match dispatch") ;;
  let* _ := match wi_candidate workflow with
  | Some candidate =>
      fail_if wtfl_candidate_digest terminal != Some (ca_candidate_digest candidate)
        with (Rejected "terminal candidate digest does not match the immutable candidate") ;;
      Ok tt
  | _ => fail_if is_some (wtfl_candidate_digest terminal)
    with (Rejected "terminal candidate digest exists without an immutable candidate") ;;
  Ok tt
  end in
  let* _ := match (wi_promotion workflow) ≫= (fun promotion => ps_result promotion) with
  | Some result =>
      let expected_result_ref := uuid_to_string (prs_event_id result) in
      fail_if wtfl_promotion_result_ref terminal != Some expected_result_ref
        with (Rejected
            "terminal workflow record does not reference the exact recorded promotion result event") ;;
      Ok tt
  | _ => fail_if is_some (wtfl_promotion_result_ref terminal)
    with (Rejected "terminal workflow record references a promotion result that is not projected")
        ;;
  Ok tt
  end in
  let* _ := match (wi_promotion workflow) ≫= (fun promotion => ps_reconciliation promotion) with
  | Some resolution =>
      let expected_resolution_ref := uuid_to_string (precs_event_id resolution) in
      fail_if wtfl_reconciliation_resolution_ref terminal != Some expected_resolution_ref
        with (Rejected
            "terminal workflow record does not reference the exact recorded reconciliation resolution event") ;;
      Ok tt
  | _ => fail_if is_some (wtfl_reconciliation_resolution_ref terminal)
    with (Rejected
        "terminal workflow record references a reconciliation resolution that is not projected") ;;
  Ok tt
  end in
  fail_if negb (workflow_terminal_is_semantically_valid workflow terminal terminal_version event)
    with (Rejected "terminal outcome does not match the recorded promotion or cancellation state")
        ;;
  let* terminal_event_digest := map_err (fun error => Rejected
      ("could not canonicalize terminal workflow event: " +:+ error)) (canonical_event_hash event)
          in
  let phase := match wtfl_outcome terminal with
  | WorkflowTerminalOutcomeV1_Completed => WorkflowPhaseV1_Completed
  | WorkflowTerminalOutcomeV1_Failed => WorkflowPhaseV1_Failed
  | WorkflowTerminalOutcomeV1_Cancelled => WorkflowPhaseV1_Cancelled
  end in
  some_or workflow := (st_workflow_instances st) !! key with Panicked ;;
  let workflow :=
    {| workflow with wi_terminal := Some {| wtrs_event_id := ev_id event;
           wtrs_terminal_version := terminal_version;
           wtrs_event_digest := terminal_event_digest;
           wtrs_unit_id := wtfl_unit_id terminal;
           wtrs_attempt := wtfl_attempt terminal;
           wtrs_outcome := wtfl_outcome terminal;
           wtrs_candidate_digest := wtfl_candidate_digest terminal;
           wtrs_promotion_result_ref := wtfl_promotion_result_ref terminal;
           wtrs_reconciliation_resolution_ref := wtfl_reconciliation_resolution_ref terminal;
           wtrs_cancellation_request_event_ref := wtfl_cancellation_request_event_ref terminal;
           wtrs_cancellation_request_event_digest := wtfl_cancellation_request_event_digest
               terminal;
           wtrs_reason := wtfl_reason terminal;
           wtrs_idempotency_key := wtfl_idempotency_key terminal;
           wtrs_completed_at := wtfl_completed_at terminal |} |} in
  let workflow :=
    {| workflow with wi_phase := phase |} in
  let st := {| st with st_workflow_instances := <[key := workflow]> (st_workflow_instances st) |} in
  Ok (sync_workflow_compatibility_view st key)
  end.

Definition apply_workflow_terminal_record (st : ReplayState)
    (event : Event)
    (terminal : WorkflowTerminalFields)
    (terminal_version : u8)
    : ReplayState :=
  let st := ensure_workflow_instances st in
  finish st event (workflow_terminal_record_verdict st event terminal terminal_version).

Definition apply_workflow_terminal (st : ReplayState) (event : Event) (p : WorkflowTerminalV1)
    : ReplayState :=
  apply_workflow_terminal_record st event (terminal_fields_v1 p) 1.

Definition apply_workflow_terminal_v2 (st : ReplayState) (event : Event) (p : WorkflowTerminalV2)
    : ReplayState :=
  match validate_v3_event_payload event with
  | Err reason => reject_workflow_transition st event reason
  | Ok _ => apply_workflow_terminal_record st event (terminal_fields_v2 p) 2
  end.

End Reducer.
