(* ===== verification/Reducer.v ===== *)
(** * The workflow reducer: run projection and dispatch on the payload

    The handlers of run, plan, unit, activity, tool, Git and workspace records,
    and [apply_with_verified_signer], which routes every payload of the tape to
    its handler ([bp-replay/src/transitions.rs]). *)
From Stdlib Require Import Ascii.
From S2P Require Import Prelude RustStr Host LedgerPayloads TrustSpine Digests Events ReplayState ReducerCore ReducerDispatch ReducerActions ReducerCandidates ReducerPromotion ReducerLifecycle.
From stdpp Require Import base list gmap strings pretty.

#[local] Open Scope string_scope.
#[local] Open Scope list_scope.
#[local] Open Scope Z_scope.

Section Reducer.
Context `{Host, Canonicalizer}.

(** [RecordedActivityState { activity_id, ..Default::default() }]. *)
Definition default_recorded_activity (activity_id : string) : RecordedActivityState :=
  {| ras_activity_id := activity_id; ras_run_id := None; ras_activity_type := None;
     ras_input_digest := None; ras_result_digest := None; ras_result := None;
     ras_started_event_id := None; ras_completed_event_id := None |}.

Definition apply_run_started (st : ReplayState) (event : Event) (p : RunStartedV1) : ReplayState :=
  let st :=
    {| st with st_run_id := Some (uuid_to_string (ev_run_id event)) |} in
  let st :=
    {| st with st_parent_run_id := (fun id => uuid_to_string id) <$> (rs_parent_run_id p) |} in
  let st :=
    {| st with st_parent_event_id := (fun id => uuid_to_string id) <$> (rs_parent_event_id p) |} in
  let st :=
    {| st with st_parent_chain := st_parent_chain st ++ [ev_id event] |} in
  st.

Definition apply_run_completed (st : ReplayState)
    (event : Event)
    (p : RunCompletedV1)
    : ReplayState :=
  let st :=
    {| st with st_parent_chain := [] |} in
  st.

Definition apply_run_failed (st : ReplayState) (event : Event) (p : RunFailedV1) : ReplayState :=
  let st :=
    {| st with st_parent_chain := [] |} in
  st.

Definition apply_unit_started (st : ReplayState)
    (event : Event)
    (p : UnitStartedV1)
    : ReplayState :=
  let st :=
    {| st with st_current_unit := Some (us_unit_id p) |} in
  let st :=
    {| st with st_parent_chain := st_parent_chain st ++ [ev_id event] |} in
  st.

Definition apply_unit_completed (st : ReplayState)
    (event : Event)
    (p : UnitCompletedV1)
    : ReplayState :=
  let st :=
    {| st with st_current_unit := None |} in
  let st :=
    {| st with st_parent_chain := removelast (st_parent_chain st) |} in
  st.

Definition apply_unit_failed (st : ReplayState) (event : Event) (p : UnitFailedV1) : ReplayState :=
  let st :=
    {| st with st_current_unit := None |} in
  let st :=
    {| st with st_parent_chain := removelast (st_parent_chain st) |} in
  st.

Definition apply_unit_cancelled (st : ReplayState)
    (event : Event)
    (p : UnitCancelledV1)
    : ReplayState :=
  let st :=
    {| st with st_current_unit := None |} in
  let st :=
    {| st with st_parent_chain := removelast (st_parent_chain st) |} in
  st.

Definition apply_git_checkpoint (st : ReplayState) (event : Event) (p : GitCheckpointV1)
    : ReplayState :=
  match gc_git_status p with
  | GitStatus_Ok =>
      {| st with st_checkpoints := st_checkpoints st ++
           [{| cr_boundary := match gc_boundary p with
                              | CheckpointBoundary_PreUnit => "pre-unit"
                              | CheckpointBoundary_PostUnit => "post-unit"
                              end;
               cr_reference := gc_reference p;
               cr_commit_sha := gc_commit_sha p;
               cr_unit_id := gc_unit_id p;
               cr_from_event_id := ev_id event |}] |}
  | GitStatus_Failed error =>
      {| st with st_issues := st_issues st ++
           [ReplayIssue_CheckpointFailed (gc_unit_id p) "unknown" error] |}
  end.

Definition apply_plan_admitted (st : ReplayState)
    (event : Event)
    (p : PlanAdmittedV1)
    : ReplayState :=
  let st :=
    {| st with st_plan_cycle_phase := "plan_admitted" |} in
  let st :=
    {| st with st_plan_admission := Some {| pas_event_id := ev_id event;
           pas_plan_id := pa_plan_id p;
           pas_plan_digest := pa_plan_digest p;
           pas_input_digest := pa_input_digest p;
           pas_trusted_base := pa_trusted_base p;
           pas_decided_by := pa_decided_by p;
           pas_decided_at := pa_decided_at p;
           pas_idempotency_key := pa_idempotency_key p;
           pas_authorized_next_step := pa_authorized_next_step p |} |} in
  st.

Definition apply_acceptance_recorded (st : ReplayState)
    (event : Event)
    (p : AcceptanceRecordedV1)
    : ReplayState :=
  let st :=
    {| st with st_plan_cycle_phase := "acceptance_recorded" |} in
  let st :=
    {| st with st_plan_acceptance := Some {| pacs_event_id := ev_id event;
           pacs_plan_id := acrec_plan_id p;
           pacs_admission_event_id := acrec_admission_event_id p;
           pacs_contract_digest := acrec_contract_digest p;
           pacs_outcome := acrec_outcome p;
           pacs_diff_scope_status := acrec_diff_scope_status p;
           pacs_out_of_scope_files := acrec_out_of_scope_files p;
           pacs_evaluated_at := acrec_evaluated_at p |} |} in
  st.

Definition apply_plan_receipt (st : ReplayState)
    (event : Event)
    (p : PlanReceiptRecordedV1)
    : ReplayState :=
  let st :=
    {| st with st_plan_cycle_phase := "plan_receipt" |} in
  let st :=
    {| st with st_plan_receipt := Some {| prcs_event_id := ev_id event;
           prcs_plan_id := plr_plan_id p;
           prcs_admission_event_id := plr_admission_event_id p;
           prcs_outcome := plan_receipt_outcome_wire (plr_outcome p);
           prcs_side_effects := plr_side_effects p;
           prcs_result_digest := plr_result_digest p;
           prcs_decided_at := plr_decided_at p |} |} in
  st.

Definition activity_started_verdict (st : ReplayState) (event : Event) (p : ActivityStartedV1)
    : Verdict :=
  let* _ :=
    if governed_activity_bracketing_is_required st event (ast_activity_id p) then
      fail_if ast_run_id p != ev_run_id event
        with RejectedActivity (ast_activity_id p)
               "activity_started payload run_id does not match its event run_id" ;;
      let activity_type := activity_type_wire (ast_activity_type p) in
      let activity_run_id := uuid_to_string (ast_run_id p) in
      match st_activities st !! ast_activity_id p with
      | Some existing =>
          fail_if is_some (ras_completed_event_id existing)
            with RejectedActivity (ast_activity_id p)
                   "activity_started received after an immutable completed result" ;;
          fail_if is_some (ras_started_event_id existing)
               && (ras_run_id existing == Some activity_run_id)
               && (ras_activity_type existing == Some activity_type)
               && (ras_input_digest existing == Some (ast_input_digest p))
            with Ignored ;;
          Err (RejectedActivity (ast_activity_id p)
                 "activity_started does not match the existing governed write-ahead intent")
      | None => Ok tt
      end
    else Ok tt in
  let entry := default (default_recorded_activity (ast_activity_id p))
                 (st_activities st !! ast_activity_id p) in
  let entry :=
    {| entry with ras_run_id := Some (uuid_to_string (ast_run_id p));
       ras_activity_type := Some (activity_type_wire (ast_activity_type p));
       ras_input_digest := Some (ast_input_digest p);
       ras_started_event_id := Some (ev_id event) |} in
  Ok {| st with st_plan_cycle_phase := "activity_started";
        st_activities := <[ast_activity_id p := entry]> (st_activities st) |}.

Definition apply_activity_started (st : ReplayState) (event : Event) (p : ActivityStartedV1)
    : ReplayState :=
  finish st event (activity_started_verdict st event p).

Definition activity_completed_verdict (st : ReplayState) (event : Event) (p : ActivityCompletedV1)
    : Verdict :=
  if governed_activity_bracketing_is_required st event (acp_activity_id p) then
    fail_if acp_run_id p != ev_run_id event
      with RejectedActivity (acp_activity_id p)
             "activity_completed payload run_id does not match its event run_id" ;;
    some_or existing := st_activities st !! acp_activity_id p
      with RejectedActivity (acp_activity_id p)
             "activity_completed has no prior governed write-ahead intent" ;;
    let activity_run_id := uuid_to_string (acp_run_id p) in
    fail_if (ras_run_id existing != Some activity_run_id)
         || is_none (ras_started_event_id existing)
      with RejectedActivity (acp_activity_id p)
             "activity_completed does not bind the recorded governed write-ahead intent" ;;
    if is_some (ras_completed_event_id existing) then
      fail_if (ras_result_digest existing == Some (acp_result_digest p))
           && (ras_result existing == Some (acp_result p))
        with Ignored ;;
      Err (RejectedActivity (acp_activity_id p)
             "activity_completed attempts to replace an immutable governed result")
    else
    let entry :=
      {| existing with ras_completed_event_id := Some (ev_id event);
         ras_result_digest := Some (acp_result_digest p);
         ras_result := Some (acp_result p) |} in
    Ok {| st with st_plan_cycle_phase := "activity_completed";
          st_activities := <[acp_activity_id p := entry]> (st_activities st) |}
  else
  let entry := default (default_recorded_activity (acp_activity_id p))
                 (st_activities st !! acp_activity_id p) in
  let entry :=
    {| entry with ras_run_id := Some (uuid_to_string (acp_run_id p));
       ras_completed_event_id := Some (ev_id event);
       ras_result_digest := Some (acp_result_digest p);
       ras_result := Some (acp_result p) |} in
  Ok {| st with st_plan_cycle_phase := "activity_completed";
        st_activities := <[acp_activity_id p := entry]> (st_activities st) |}.

Definition apply_activity_completed (st : ReplayState) (event : Event) (p : ActivityCompletedV1)
    : ReplayState :=
  finish st event (activity_completed_verdict st event p).

Definition apply_tool_request (st : ReplayState)
    (event : Event)
    (p : ToolRequestStoredV1)
    : ReplayState :=
  let st :=
    {| st with st_parent_chain := st_parent_chain st ++ [ev_id event] |} in
  st.

Definition apply_tool_result (st : ReplayState) (event : Event) (p : ToolResultV1) : ReplayState :=
  let st :=
    {| st with st_parent_chain := removelast (st_parent_chain st) |} in
  st.

Definition apply_workspace_write (st : ReplayState) (event : Event) (p : WorkspaceWriteV1)
    : ReplayState :=
  match ww_after p with
  | PostWriteState_Captured hash _ =>
      {| st with st_observed_files :=
           <[ww_path p := {| fo_last_known_hash := hash; fo_from_event_id := ev_id event |}]>
             (st_observed_files st) |}
  | PostWriteState_Unreadable reason =>
      {| st with st_issues := st_issues st ++
           [ReplayIssue_UnreadablePostWrite (ww_path p) reason] |}
  end.

(** The reducer: one case per payload; records without replayable state leave
    it unchanged. *)
Definition apply_with_verified_signer (st : ReplayState) (event : Event)
    (signer : option ActorKeyRef) : ReplayState :=
  match ev_payload event with
  | Payload_RunStartedV1 p => apply_run_started st event p
  | Payload_RunCompletedV1 p => apply_run_completed st event p
  | Payload_RunFailedV1 p => apply_run_failed st event p
  | Payload_UnitStartedV1 p => apply_unit_started st event p
  | Payload_UnitCompletedV1 p => apply_unit_completed st event p
  | Payload_UnitFailedV1 p => apply_unit_failed st event p
  | Payload_UnitCancelledV1 p => apply_unit_cancelled st event p
  | Payload_GitCheckpointV1 p => apply_git_checkpoint st event p
  | Payload_RunAdmissionRecordedV1 _ => st
  | Payload_ReleaseEvaluationEvidenceV1 _ => st
  | Payload_PlanAdmittedV1 p => apply_plan_admitted st event p
  | Payload_PlanReceiptRecordedV1 p => apply_plan_receipt st event p
  | Payload_ActivityStartedV1 p => apply_activity_started st event p
  | Payload_ActivityCompletedV1 p => apply_activity_completed st event p
  | Payload_ModelRequestV1 _ => st
  | Payload_ModelResponseV1 _ => st
  | Payload_TapeCheckpointV1 _ => st
  | Payload_ToolRequestStoredV1 p => apply_tool_request st event p
  | Payload_ToolResultV1 p => apply_tool_result st event p
  | Payload_WorkspaceReadV1 _ => st
  | Payload_WorkspaceWriteV1 p => apply_workspace_write st event p
  | Payload_CapabilityDeniedV1 _ => st
  | Payload_AcceptanceRecordedV1 p => apply_acceptance_recorded st event p
  | Payload_DispatchEnvelopeV1 p => apply_dispatch_envelope st event p
  | Payload_DispatchEnvelopeV2 p => apply_dispatch_envelope_v2 st event p
  | Payload_DispatchEnvelopeV3 p => apply_dispatch_envelope_v3 st event p
  | Payload_DispatchEnvelopeV4 p => apply_dispatch_envelope_v4 st event p
  | Payload_DispatchEnvelopeV5 p => apply_dispatch_envelope_v5 st event p signer
  | Payload_GovernedDispatchV5AdmissionRecordedV1 p => apply_governed_dispatch_v5_admission_recorded_v1 st event p signer
  | Payload_ContextManifestDeclaredV1 p => apply_context_manifest_declared_v1 st event p signer
  | Payload_WorkerManifestDeclaredV1 p => apply_worker_manifest_declared_v1 st event p signer
  | Payload_SandboxProfileDeclaredV1 p => apply_sandbox_profile_declared_v1 st event p signer
  | Payload_AttemptContextDeclaredV1 p => apply_attempt_context_declared_v1 st event p signer
  | Payload_WorkflowGraphDeclaredV1 p => apply_workflow_graph_declared_v1 st event p
  | Payload_WorkflowGraphDeclaredV2 p => apply_workflow_graph_declared_v2 st event p
  | Payload_ActionRequestedV2 p => apply_action_requested_v2 st event p
  | Payload_ModelActionIntentV1 p => apply_model_action_intent_v1 st event p
  | Payload_ActivityClaimedV1 p => apply_activity_claimed_v1 st event p signer
  | Payload_ActivityHeartbeatRecordedV1 p => apply_activity_heartbeat_recorded_v1 st event p signer
  | Payload_ActivityResultRecordedV1 p => apply_activity_result_recorded_v1 st event p signer
  | Payload_ModelActionAuthorizedV1 p => apply_model_action_authorized_v1 st event p
  | Payload_ModelActionAuthorizedV2 p => apply_model_action_authorized_v2 st event p
  | Payload_ActionReceiptRecordedV2 p => apply_action_receipt_recorded_v2 st event p
  | Payload_ActionReceiptSetRecordedV1 p => apply_action_receipt_set_recorded_v1 st event p
  | Payload_AttemptContextRecordedV1 p => apply_attempt_context_recorded_v1 st event p
  | Payload_CandidateCreatedV1 p => apply_candidate_created st event p
  | Payload_CandidateCreatedV2 p => apply_candidate_created_v2 st event p
  | Payload_CandidateCompletionRecordedV1 p => apply_candidate_completion_recorded_v1 st event p
  | Payload_CandidateAcceptanceRecordedV1 p => apply_candidate_acceptance st event p
  | Payload_ReviewVerdictRecordedV1 p => apply_review_verdict st event p
  | Payload_ReviewVerdictRecordedV2 p => apply_review_verdict_v2 st event p
  | Payload_PromotionApprovalRequestedV1 p => apply_promotion_approval_requested st event p
  | Payload_PromotionDecisionRecordedV1 p => apply_promotion_decision st event p
  | Payload_PromotionExecutionClaimedV1 p => apply_promotion_execution_claimed_v1 st event p signer
  | Payload_PromotionResultRecordedV1 p => apply_promotion_result st event p
  | Payload_PromotionReconciliationResolvedV1 p => apply_promotion_reconciliation_resolved st event p
  | Payload_WorkflowTimerScheduledV1 p => apply_workflow_timer_scheduled_v1 st event p
  | Payload_WorkflowTimerFiredV1 p => apply_workflow_timer_fired_v1 st event p
  | Payload_WorkflowCancellationRequestedV1 p => apply_workflow_cancellation_requested_v1 st event p
  | Payload_WorkflowTerminalV1 p => apply_workflow_terminal st event p
  | Payload_WorkflowTerminalV2 p => apply_workflow_terminal_v2 st event p
  | Payload_OperatorDecisionRecordedV1 _ => st
  | Payload_ResultReadyV1 _ => st
  end.

Definition apply_legacy_projection_unchecked (st : ReplayState) (event : Event) : ReplayState :=
  apply_with_verified_signer st event None.

End Reducer.
