(* ===== verification/Engine.v ===== *)
(** * The replay engine

    [bp-replay/src/reader.rs] and [bp-replay/src/engine.rs]: verifying the
    detached signatures of the stored rows, and the loop that lets an event reach
    the reducer only with the signature and the signer role its kind requires.
    The SQL query itself is not modelled: its answer, the rows of one run in id
    order, is an argument. *)
From S2P Require Import Prelude RustStr Host LedgerPayloads TrustSpine Digests Events WorkflowGraph Canonicalize ReplayState ReducerCore Reducer.
From stdpp Require Import base list gmap strings.

#[local] Open Scope string_scope.
#[local] Open Scope list_scope.
#[local] Open Scope Z_scope.

(** ** The event reader *)

Inductive ReaderError :=
| ReaderError_Json
| ReaderError_Uuid
| ReaderError_Chrono
| ReaderError_Ledger (error : string)
| ReaderError_EventLimitExceeded (max_events : Z)
| ReaderError_InvalidEventLimit.

Record StoredRow := {
  row_id : string;
  row_run_id : string;
  row_parent_event_id : option string;
  row_schema_version : u32;
  row_kind : string;
  row_occurred_at : string;
  row_payload : string
}.

Record StoredSignatureRow := {
  srow_event_id : string;
  srow_canonical_event_hash : string;
  srow_actor_id : string;
  srow_key_id : string;
  srow_public_key_hash : option string;
  srow_algorithm : string;
  srow_signature : string;
  srow_signed_at : string
}.

Record StoredVerifiedRow := {
  svr_event : StoredRow;
  svr_signature : option StoredSignatureRow
}.

(** What the reader decodes with [uuid] and [serde_json]: [Uuid::parse_str],
    [serde_json::from_str] and the derived decoder of [Payload]. *)
Class RowDecoder := {
  uuid_parse_str : string -> option Uuid;
  json_from_str : string -> option Json;
  payload_from_value : Json -> Result Payload string
}.

(** [serde_json::from_value::<EventKind>]: the serde names are the wire names. *)
Definition event_kind_from_value (wire : string) : option EventKind :=
  find (fun kind => as_wire kind == wire) event_kinds.

Section Reader.
Context `{Host, Canonicalizer, Crypto, RowDecoder}.

Definition row_to_event (row : StoredRow) : Result Event ReaderError :=
  some_or id := uuid_parse_str (row_id row) with ReaderError_Uuid ;;
  some_or run_id := uuid_parse_str (row_run_id row) with ReaderError_Uuid ;;
  let* parent_event_id :=
    match row_parent_event_id row with
    | Some s => some_or parent := uuid_parse_str s with ReaderError_Uuid ;; Ok (Some parent)
    | None => Ok None
    end in
  some_or occurred_at := parse_from_rfc3339 (row_occurred_at row) with ReaderError_Chrono ;;
  some_or kind := event_kind_from_value (row_kind row) with ReaderError_Json ;;
  some_or payload_value := json_from_str (row_payload row) with ReaderError_Json ;;
  let* payload := map_err (fun e => ReaderError_Ledger (validation_error_to_string e))
    (canonicalize_payload payload_from_value (row_kind row) (row_schema_version row)
       payload_value) in
  Ok {| ev_id := id; ev_run_id := run_id; ev_parent_event_id := parent_event_id;
        ev_schema_version := row_schema_version row; ev_kind := kind;
        ev_occurred_at := occurred_at; ev_payload := payload |}.

Definition row_to_event_signature (row : StoredSignatureRow)
    : Result EventSignatureV1 ReaderError :=
  some_or event_id := uuid_parse_str (srow_event_id row) with ReaderError_Uuid ;;
  some_or signed_at := parse_from_rfc3339 (srow_signed_at row) with ReaderError_Chrono ;;
  Ok {| es_event_id := event_id;
        es_canonical_event_hash := srow_canonical_event_hash row;
        es_signer := {| akr_actor_id := srow_actor_id row; akr_key_id := srow_key_id row;
                        akr_public_key_hash := srow_public_key_hash row |};
        es_algorithm := SignatureAlgorithm_Ed25519;
        es_signature := srow_signature row;
        es_signed_at := signed_at |}.

Definition verify_stored_signature (event : Event) (signature_row : option StoredSignatureRow)
    (trusted_keys : TrustedPublicKeys)
    : Result (VerificationStatus * option EventSignatureV1) ReaderError :=
  match signature_row with
  | None => Ok (VerificationStatus_Unsigned, None)
  | Some signature_row =>
      if srow_algorithm signature_row != "ed25519"
      then Ok (VerificationStatus_UnsupportedAlgorithm, None) else
      let* signature := row_to_event_signature signature_row in
      let verification := verify_event_signature event signature trusted_keys in
      Ok (verification, Some signature)
  end.

(** [usize::checked_add(1)] followed by [i64::try_from], on a 64-bit host. *)
Definition row_limit (max_events : option Z) : Result Z ReaderError :=
  match max_events with
  | Some max_events =>
      if max_events + 1 <? 2 ^ 63 then Ok (max_events + 1)
      else Err ReaderError_InvalidEventLimit
  | None => Ok (2 ^ 63 - 1)
  end.

(** [table] holds the rows of the run in id order; the query stops at the limit. *)
Definition stored_rows_with_signatures (table : list StoredVerifiedRow) (max_events : option Z)
    : Result (list StoredVerifiedRow) ReaderError :=
  let* limit := row_limit max_events in
  Ok (take (Z.to_nat limit) table).

Definition verify_row (trusted_keys : TrustedPublicKeys) (row : StoredVerifiedRow)
    : Result VerifiedEvent ReaderError :=
  let* event := row_to_event (svr_event row) in
  let* (verification, signature) := verify_stored_signature event (svr_signature row) trusted_keys in
  Ok {| ve_event := event; ve_verification := verification; ve_signature := signature |}.

Fixpoint collect_results {A B E} (f : A -> Result B E) (l : list A) : Result (list B) E :=
  match l with
  | [] => Ok []
  | a :: l =>
      let* b := f a in
      let* bs := collect_results f l in
      Ok (b :: bs)
  end.

Definition all_with_verification_limit (table : list StoredVerifiedRow)
    (trusted_keys : TrustedPublicKeys) (max_events : option Z)
    : Result (list VerifiedEvent) ReaderError :=
  let* rows := stored_rows_with_signatures table max_events in
  let* _ := match max_events with
    | Some max_events =>
        fail_if max_events <? Z.of_nat (length rows)
          with (ReaderError_EventLimitExceeded max_events) ;;
        Ok tt
    | None => Ok tt
    end in
  collect_results (verify_row trusted_keys) rows.
End Reader.

(** ** Signer roles *)

Inductive TrustSpineSignerRole :=
| TrustSpineSignerRole_Kernel
| TrustSpineSignerRole_Admission
| TrustSpineSignerRole_Reviewer
| TrustSpineSignerRole_Operator.
#[global] Instance TrustSpineSignerRole_eq_dec : EqDecision TrustSpineSignerRole.
Proof. solve_decision. Defined.
#[global] Instance TrustSpineSignerRole_countable : Countable TrustSpineSignerRole.
Proof.
  refine (inj_countable'
    (fun r => match r with TrustSpineSignerRole_Kernel => 0 | TrustSpineSignerRole_Admission => 1
              | TrustSpineSignerRole_Reviewer => 2 | TrustSpineSignerRole_Operator => 3 end)
    (fun n => match n with 0 => TrustSpineSignerRole_Kernel | 1 => TrustSpineSignerRole_Admission
              | 2 => TrustSpineSignerRole_Reviewer | _ => TrustSpineSignerRole_Operator end) _).
  by intros [].
Defined.

Record SignerIdentity := {
  si_actor_id : string;
  si_key_id : string;
  si_public_key_hash : option string
}.
#[global] Instance SignerIdentity_eq_dec : EqDecision SignerIdentity.
Proof. solve_decision. Defined.
#[global] Instance SignerIdentity_countable : Countable SignerIdentity.
Proof.
  refine (inj_countable'
    (fun i => (si_actor_id i, si_key_id i, si_public_key_hash i))
    (fun '(a, k, h) => {| si_actor_id := a; si_key_id := k; si_public_key_hash := h |}) _).
  by intros [].
Defined.

(** [SignerIdentity::from(&ActorKeyRef)]. *)
Definition signer_identity (signer : ActorKeyRef) : SignerIdentity :=
  {| si_actor_id := akr_actor_id signer; si_key_id := akr_key_id signer;
     si_public_key_hash := akr_public_key_hash signer |}.

Record TrustedReplayAuthorities := {
  tra_trusted_keys : TrustedPublicKeys;
  tra_allowed : gmap TrustSpineSignerRole (gset SignerIdentity)
}.

Definition new_authorities (trusted_keys : TrustedPublicKeys) : TrustedReplayAuthorities :=
  {| tra_trusted_keys := trusted_keys; tra_allowed := ∅ |}.

Definition allow_signer (authorities : TrustedReplayAuthorities) (role : TrustSpineSignerRole)
    (signer : ActorKeyRef) : TrustedReplayAuthorities :=
  {| authorities with tra_allowed :=
       <[role := {[ signer_identity signer ]} ∪ default ∅ (tra_allowed authorities !! role)]>
         (tra_allowed authorities) |}.

Definition permits (authorities : TrustedReplayAuthorities) (role : TrustSpineSignerRole)
    (signer : ActorKeyRef) : bool :=
  is_some_and (tra_allowed authorities !! role)
    (fun allowed => bool_decide (signer_identity signer ∈ allowed)).

Definition signer_role_wire (role : TrustSpineSignerRole) : string :=
  match role with
  | TrustSpineSignerRole_Kernel => "kernel"
  | TrustSpineSignerRole_Admission => "admission"
  | TrustSpineSignerRole_Reviewer => "reviewer"
  | TrustSpineSignerRole_Operator => "operator"
  end.

(** ** Authorization of trust-spine events *)

Definition is_governed_dispatch (payload : Payload) : bool :=
  match payload with
  | Payload_DispatchEnvelopeV1 dispatch => de_trust_tier dispatch == TrustTierV1_Governed
  | Payload_DispatchEnvelopeV2 dispatch =>
      deb2_trust_tier (de2_body dispatch) == TrustTierV1_Governed
  | Payload_DispatchEnvelopeV3 dispatch =>
      deb2_trust_tier (de3_body dispatch) == TrustTierV1_Governed
  | Payload_DispatchEnvelopeV4 dispatch =>
      deb2_trust_tier (de3_body (de4_dispatch_v3 dispatch)) == TrustTierV1_Governed
  | Payload_DispatchEnvelopeV5 dispatch =>
      deb2_trust_tier (de3_body (de4_dispatch_v3 (de5_dispatch_v4 dispatch))) == TrustTierV1_Governed
  | _ => false
  end.

Definition trust_spine_authorization (payload : Payload) (signature : option EventSignatureV1)
    (authorities : TrustedReplayAuthorities) (required_role : TrustSpineSignerRole)
    : Result unit string :=
  some_or signature := signature
    with "verified trust-spine event is missing its detached signer record" ;;
  let actor := akr_actor_id (es_signer signature) in
  fail_if negb (permits authorities required_role (es_signer signature))
    with "detached signer is not authorized for this trust-spine event role" ;;
  match payload with
  | Payload_DispatchEnvelopeV1 dispatch =>
      fail_if (sr_algorithm (de_signature_ref dispatch) != "ed25519")
           || (sr_key_id (de_signature_ref dispatch) != akr_key_id (es_signer signature))
        with "dispatch signature_ref algorithm/key_id does not bind the verified detached signer" ;;
      Ok tt
  | Payload_PromotionDecisionRecordedV1 decision =>
      fail_if (pdr_authority decision != actor) || (pdr_decided_by decision != actor)
        with "promotion authority and decided_by must equal the verified detached signer actor" ;;
      Ok tt
  | Payload_PromotionExecutionClaimedV1 claim =>
      fail_if pec_authority_actor claim != actor
        with "promotion execution claim authority_actor must equal the verified detached kernel signer actor" ;;
      Ok tt
  | Payload_PromotionApprovalRequestedV1 request =>
      fail_if par_requested_by request != actor
        with "promotion approval requested_by must equal the verified detached kernel signer actor" ;;
      Ok tt
  | Payload_PromotionReconciliationResolvedV1 resolution =>
      fail_if (prec_authority resolution != actor) || (prec_resolved_by resolution != actor)
        with "reconciliation authority and resolved_by must equal the verified detached signer actor" ;;
      Ok tt
  | Payload_WorkflowTimerScheduledV1 timer =>
      fail_if wts_scheduled_by timer != actor
        with "workflow timer scheduled_by must equal the verified detached kernel signer actor" ;;
      Ok tt
  | Payload_WorkflowTimerFiredV1 timer =>
      fail_if wtf_fired_by timer != actor
        with "workflow timer fired_by must equal the verified detached kernel signer actor" ;;
      Ok tt
  | Payload_WorkflowCancellationRequestedV1 cancellation =>
      fail_if wcr_requested_by cancellation != actor
        with "workflow cancellation requested_by must equal the verified detached authorized signer actor" ;;
      Ok tt
  | Payload_ActionRequestedV2 request =>
      fail_if ar2_authority_actor request != actor
        with "action request authority_actor must equal the verified detached signer actor" ;;
      Ok tt
  | Payload_ActivityClaimedV1 claim =>
      fail_if acl_authority_actor claim != actor
        with "activity claim authority_actor must equal the verified detached claim signer actor" ;;
      Ok tt
  | Payload_ModelActionAuthorizedV1 authorization =>
      fail_if maa1_authorization_actor authorization != actor
        with "model authorization authorization_actor must equal the verified detached kernel signer actor" ;;
      Ok tt
  | Payload_ModelActionIntentV1 intent =>
      fail_if mai_intent_actor intent != actor
        with "model action intent intent_actor must equal the verified detached kernel signer actor" ;;
      Ok tt
  | Payload_ModelActionAuthorizedV2 authorization =>
      fail_if maa2_authorization_actor authorization != actor
        with "V2 model authorization authorization_actor must equal the verified detached kernel signer actor" ;;
      Ok tt
  | Payload_ActionReceiptRecordedV2 receipt =>
      fail_if arr2_authority_actor receipt != actor
        with "action receipt authority_actor must equal the verified detached signer actor" ;;
      Ok tt
  | Payload_ReviewVerdictRecordedV2 review =>
      fail_if rv2_reviewer_authority review != actor
        with "reviewer_authority must equal the verified detached reviewer signer actor" ;;
      Ok tt
  | _ => Ok tt
  end.

Section Engine.
Context `{Host, Canonicalizer}.

(** The signed event kinds and who may sign them. *)
Definition required_signer_role (st : ReplayState) (event : Event)
    (predeclared_governed_run : bool) : option TrustSpineSignerRole :=
  match ev_payload event with
  | Payload_ActivityStartedV1 activity =>
      if governed_activity_bracketing_is_required_for_run st event (ast_activity_id activity)
           predeclared_governed_run
      then Some TrustSpineSignerRole_Kernel else None
  | Payload_ActivityCompletedV1 activity =>
      if governed_activity_bracketing_is_required_for_run st event (acp_activity_id activity)
           predeclared_governed_run
      then Some TrustSpineSignerRole_Kernel else None
  | Payload_DispatchEnvelopeV1 _ | Payload_DispatchEnvelopeV2 _ | Payload_DispatchEnvelopeV3 _
  | Payload_DispatchEnvelopeV4 _ | Payload_DispatchEnvelopeV5 _
  | Payload_ContextManifestDeclaredV1 _ | Payload_WorkerManifestDeclaredV1 _
  | Payload_SandboxProfileDeclaredV1 _ | Payload_AttemptContextDeclaredV1 _
  | Payload_WorkflowGraphDeclaredV1 _ | Payload_WorkflowGraphDeclaredV2 _
  | Payload_ActionRequestedV2 _ | Payload_ActivityClaimedV1 _
  | Payload_ActivityHeartbeatRecordedV1 _ | Payload_ActivityResultRecordedV1 _
  | Payload_ModelActionIntentV1 _ | Payload_ModelActionAuthorizedV1 _
  | Payload_ModelActionAuthorizedV2 _ | Payload_ActionReceiptRecordedV2 _
  | Payload_ActionReceiptSetRecordedV1 _ | Payload_AttemptContextRecordedV1 _
  | Payload_CandidateCreatedV1 _ | Payload_CandidateCreatedV2 _
  | Payload_CandidateCompletionRecordedV1 _ | Payload_CandidateAcceptanceRecordedV1 _
  | Payload_PromotionApprovalRequestedV1 _ | Payload_PromotionExecutionClaimedV1 _
  | Payload_PromotionResultRecordedV1 _ | Payload_WorkflowTimerScheduledV1 _
  | Payload_WorkflowTimerFiredV1 _ | Payload_WorkflowTerminalV1 _
  | Payload_WorkflowTerminalV2 _ => Some TrustSpineSignerRole_Kernel
  | Payload_WorkflowCancellationRequestedV1 cancellation =>
      Some match wcr_cause cancellation with
           | WorkflowCancellationCauseV1_OperatorRequested => TrustSpineSignerRole_Operator
           | WorkflowCancellationCauseV1_TimerElapsed => TrustSpineSignerRole_Kernel
           end
  | Payload_ReviewVerdictRecordedV1 _ | Payload_ReviewVerdictRecordedV2 _ =>
      Some TrustSpineSignerRole_Reviewer
  | Payload_GovernedDispatchV5AdmissionRecordedV1 _ => Some TrustSpineSignerRole_Admission
  | Payload_PromotionDecisionRecordedV1 _ | Payload_PromotionReconciliationResolvedV1 _ =>
      Some TrustSpineSignerRole_Operator
  | _ => None
  end.

Definition authorized_governed_runs (events : list VerifiedEvent)
    (authorities : TrustedReplayAuthorities) : gset string :=
  list_to_set ((fun verified_event => uuid_to_string (ev_run_id (ve_event verified_event))) <$>
    List.filter (fun verified_event =>
      (ve_verification verified_event == VerificationStatus_Verified)
      && is_governed_dispatch (ev_payload (ve_event verified_event))
      && is_ok (trust_spine_authorization (ev_payload (ve_event verified_event))
                  (ve_signature verified_event) authorities TrustSpineSignerRole_Kernel))
      events).

(** ** The engine *)

Record ReplayEngine := {
  en_events : list VerifiedEvent;
  en_cursor : nat;
  en_state : ReplayState;
  en_authorities : TrustedReplayAuthorities;
  en_predeclared_governed_runs : gset string
}.

(** The engine [open_with_trusted_authorities_limit] builds from the reader's answer. *)
Definition open_engine (events : list VerifiedEvent) (authorities : TrustedReplayAuthorities)
    : ReplayEngine :=
  {| en_events := events; en_cursor := 0; en_state := default_replay_state;
     en_authorities := authorities;
     en_predeclared_governed_runs := authorized_governed_runs events authorities |}.

Definition push_issue (st : ReplayState) (issue : ReplayIssue) : ReplayState :=
  {| st with st_issues := st_issues st ++ [issue] |}.

(** The body of [advance_one] for the event at the cursor. *)
Definition admit_event (authorities : TrustedReplayAuthorities) (predeclared : gset string)
    (st : ReplayState) (verified_event : VerifiedEvent) : ReplayState :=
  let event := ve_event verified_event in
  let signer := es_signer <$> ve_signature verified_event in
  let predeclared_governed_run := bool_decide (uuid_to_string (ev_run_id event) ∈ predeclared) in
  match required_signer_role st event predeclared_governed_run with
  | Some required_role =>
      if ve_verification verified_event != VerificationStatus_Verified then
        push_issue st (ReplayIssue_UnverifiedTrustSpineEvent (ev_id event)
          (as_wire (ev_kind event)) (ve_verification verified_event))
      else
      match trust_spine_authorization (ev_payload event) (ve_signature verified_event) authorities
              required_role with
      | Err reason =>
          push_issue st (ReplayIssue_UnauthorizedTrustSpineSigner (ev_id event)
            (as_wire (ev_kind event)) (signer_role_wire required_role)
            (akr_actor_id <$> signer) (akr_key_id <$> signer) reason)
      | Ok _ => apply_with_verified_signer st event signer
      end
  | None => apply_with_verified_signer st event signer
  end.

Definition advance_one (engine : ReplayEngine) : option nat * ReplayEngine :=
  let index := en_cursor engine in
  match en_events engine !! index with
  | None => (None, engine)
  | Some verified_event =>
      (Some index,
       {| engine with
            en_cursor := S (en_cursor engine);
            en_state := admit_event (en_authorities engine) (en_predeclared_governed_runs engine)
                          (en_state engine) verified_event |})
  end.

Record ReplayStep := {
  rst_event : Event;
  rst_state_after : ReplayState
}.

(** [Iterator::next]; the index [advance_one] returns is in range. *)
Definition next (engine : ReplayEngine) : option ReplayStep * ReplayEngine :=
  let '(index, engine) := advance_one engine in
  (index ← index; verified_event ← en_events engine !! index;
   Some {| rst_event := ve_event verified_event; rst_state_after := en_state engine |}, engine).

(** [while self.advance_one().is_some() {}], with fuel. *)
Fixpoint replay_to_end (fuel : nat) (engine : ReplayEngine) : option ReplayEngine :=
  match fuel with
  | O => None
  | S fuel =>
      let '(index, engine) := advance_one engine in
      match index with
      | Some _ => replay_to_end fuel engine
      | None => Some engine
      end
  end.

(** The loop of [fast_forward_to], with fuel: [None] when the fuel runs out. *)
Fixpoint fast_forward_to (fuel : nat) (target : EventId) (engine : ReplayEngine)
    : option (option ReplayStep * ReplayEngine) :=
  match fuel with
  | O => None
  | S fuel =>
      let '(step, engine) := next engine in
      match step with
      | Some step =>
          if ev_id (rst_event step) == target then Some (Some step, engine)
          else fast_forward_to fuel target engine
      | None =>
          Some (None, {| engine with en_state := push_issue (en_state engine)
                           (ReplayIssue_TargetNotFound (uuid_to_string target)) |})
      end
  end.
End Engine.
