(* ===== verification/ActivityDecision.v ===== *)
(** * Decisions about recorded actions

    [bp-replay/src/activity_decision.rs]: after a crash, recovery asks what is
    known about an action that was already claimed.  The classifier reads the
    replayed workflow and answers with a recorded result to reuse, a live lease
    to wait for, a failure, a need to reconcile, or a refusal; no answer allows a
    new effect.

    The local copies of [is_canonical_digest] and [parse_rfc3339_utc] are those
    of the reducer.  The [expect]s of the classifier are [Crash_Panic]. *)
From S2P Require Import Prelude RustStr Host LedgerPayloads TrustSpine Digests Events WorkflowGraph ReplayState ReducerCore.
From stdpp Require Import base list gmap strings.

#[local] Open Scope string_scope.
#[local] Open Scope list_scope.
#[local] Open Scope Z_scope.

Record RecordedActionIdentityV1 := {
  rai_run_id : string;
  rai_workflow_id : string;
  rai_workflow_revision : string;
  rai_unit_id : string;
  rai_attempt : u32;
  rai_dispatch_event_ref : string;
  rai_dispatch_envelope_digest : string;
  rai_action_id : string;
  rai_idempotency_key : string;
  rai_action_request_event_ref : string;
  rai_action_request_digest : string;
  rai_activity_claim_event_ref : string;
  rai_activity_claim_event_digest : string;
  rai_lease_id : string
}.
#[global] Instance RecordedActionIdentityV1_eq_dec : EqDecision RecordedActionIdentityV1.
Proof. solve_decision. Defined.

Record RecordedActionDecisionQueryV1 := {
  radq_schema_version : u16;
  radq_identity : RecordedActionIdentityV1;
  radq_observed_at : string
}.
#[global] Instance RecordedActionDecisionQueryV1_eq_dec : EqDecision RecordedActionDecisionQueryV1.
Proof. solve_decision. Defined.

Inductive ActionDecisionDispositionV1 :=
| ActionDecisionDispositionV1_ReuseRecordedResult
| ActionDecisionDispositionV1_WaitForActiveLease
| ActionDecisionDispositionV1_ReconciliationRequired
| ActionDecisionDispositionV1_TerminalFailure
| ActionDecisionDispositionV1_Blocked.
#[global] Instance ActionDecisionDispositionV1_eq_dec : EqDecision ActionDecisionDispositionV1.
Proof. solve_decision. Defined.

Inductive ActionDecisionBlockReasonV1 :=
| ActionDecisionBlockReasonV1_UnsupportedSchemaVersion
| ActionDecisionBlockReasonV1_MalformedQuery
| ActionDecisionBlockReasonV1_SnapshotRunMismatch
| ActionDecisionBlockReasonV1_WorkflowNotFound
| ActionDecisionBlockReasonV1_WorkflowIdentityMismatch
| ActionDecisionBlockReasonV1_UnsupportedDispatch
| ActionDecisionBlockReasonV1_MissingActionEvidence
| ActionDecisionBlockReasonV1_ActionNotFound
| ActionDecisionBlockReasonV1_ActionIdentityMismatch
| ActionDecisionBlockReasonV1_ClaimMissing
| ActionDecisionBlockReasonV1_ClaimIdentityMismatch
| ActionDecisionBlockReasonV1_MalformedEvidence
| ActionDecisionBlockReasonV1_LeaseExpired
| ActionDecisionBlockReasonV1_UnknownTerminalState
| ActionDecisionBlockReasonV1_TerminalFailure
| ActionDecisionBlockReasonV1_WorkflowNotActive.
#[global] Instance ActionDecisionBlockReasonV1_eq_dec : EqDecision ActionDecisionBlockReasonV1.
Proof. solve_decision. Defined.

Record RecordedActivityResultV1 := {
  rarv_result_event_ref : string;
  rarv_result_event_digest : string;
  rarv_result_digest : string;
  rarv_result_ref : string;
  rarv_evidence_digest : string;
  rarv_evidence_ref : string;
  rarv_recorded_at : string
}.
#[global] Instance RecordedActivityResultV1_eq_dec : EqDecision RecordedActivityResultV1.
Proof. solve_decision. Defined.

Record RecordedActionDecisionV1 := {
  rad_schema_version : u16;
  rad_identity : RecordedActionIdentityV1;
  rad_disposition : ActionDecisionDispositionV1;
  rad_result : option RecordedActivityResultV1;
  rad_effective_lease_expires_at : option string;
  rad_reason : option ActionDecisionBlockReasonV1
}.
#[global] Instance RecordedActionDecisionV1_eq_dec : EqDecision RecordedActionDecisionV1.
Proof. solve_decision. Defined.

Inductive PendingActivityRecoveryStateV1 :=
| PendingActivityRecoveryStateV1_WaitForActiveLease
| PendingActivityRecoveryStateV1_ReconciliationRequired.
#[global] Instance PendingActivityRecoveryStateV1_eq_dec : EqDecision PendingActivityRecoveryStateV1.
Proof. solve_decision. Defined.

Record PendingActivityRecoveryWorkV1 := {
  parw_schema_version : u16;
  parw_identity : RecordedActionIdentityV1;
  parw_action_kind : ActionKindV1;
  parw_claim_purpose : ActivityClaimPurposeV1;
  parw_state : PendingActivityRecoveryStateV1;
  parw_effective_lease_expires_at : option string;
  parw_reason : option ActionDecisionBlockReasonV1
}.
#[global] Instance PendingActivityRecoveryWorkV1_eq_dec : EqDecision PendingActivityRecoveryWorkV1.
Proof. solve_decision. Defined.

Inductive PendingActivityRecoveryErrorV1 :=
| PendingActivityRecoveryErrorV1_InvalidObservedAt
| PendingActivityRecoveryErrorV1_IncompleteClaimBlocked (identity : RecordedActionIdentityV1)
    (reason : ActionDecisionBlockReasonV1).
#[global] Instance PendingActivityRecoveryErrorV1_eq_dec : EqDecision PendingActivityRecoveryErrorV1.
Proof. solve_decision. Defined.

Definition RECORDED_ACTION_DECISION_SCHEMA_VERSION_V1 : u16 := 1.
Definition PENDING_ACTIVITY_RECOVERY_WORK_SCHEMA_VERSION_V1 : u16 := 1.

Section Decision.
Context `{Host}.

Definition strings_are_non_empty (values : list string) : bool :=
  forallb (fun value => negb (trim_is_empty value)) values.

(** Unlike the reducer's deadline, a compute budget that overflows the calendar
    leaves the expiry of the dispatch. *)
Definition effective_dispatch_deadline (workflow : WorkflowInstanceV1) : option DateTime :=
  let_some issued_at := parse_rfc3339_utc (wd_issued_at (wi_dispatch workflow)) else None ;;
  let_some dispatch_expires_at := parse_rfc3339_utc (wd_expires_at (wi_dispatch workflow))
    else None ;;
  let compute_deadline :=
    db_max_compute_time_ms (wd_budget (wi_dispatch workflow))
      ≫= (fun milliseconds => checked_add_milliseconds issued_at milliseconds) in
  Some (from_option (fun deadline => Z.min deadline dispatch_expires_at) dispatch_expires_at
          compute_deadline).

Definition query_is_well_formed (query : RecordedActionDecisionQueryV1) : bool :=
  let identity := radq_identity query in
  (radq_schema_version query == RECORDED_ACTION_DECISION_SCHEMA_VERSION_V1)
  && (strings_are_non_empty [rai_run_id identity; rai_workflow_id identity; rai_workflow_revision
      identity; rai_unit_id identity; rai_dispatch_event_ref identity; rai_action_id identity;
          rai_idempotency_key identity; rai_action_request_event_ref identity;
              rai_activity_claim_event_ref identity; rai_lease_id identity])
  && (is_canonical_sha256_digest (rai_dispatch_envelope_digest identity))
  && (is_canonical_sha256_digest (rai_action_request_digest identity))
  && (is_canonical_sha256_digest (rai_activity_claim_event_digest identity))
  && (is_some (parse_rfc3339_utc (radq_observed_at query))).

Definition blocked (query : RecordedActionDecisionQueryV1)
    (reason : ActionDecisionBlockReasonV1)
    : RecordedActionDecisionV1 :=
  {| rad_schema_version := RECORDED_ACTION_DECISION_SCHEMA_VERSION_V1;
     rad_identity := radq_identity query;
     rad_disposition := ActionDecisionDispositionV1_Blocked;
     rad_result := None;
     rad_effective_lease_expires_at := None;
     rad_reason := Some reason |}.

Definition reuse (query : RecordedActionDecisionQueryV1) (result : ActivityResultReplayState)
    : Result RecordedActionDecisionV1 Crash :=
  some_or result_digest := arxs_result_digest result with Crash_Panic ;;
  some_or result_ref := arxs_result_ref result with Crash_Panic ;;
  Ok {| rad_schema_version := RECORDED_ACTION_DECISION_SCHEMA_VERSION_V1;
        rad_identity := radq_identity query;
        rad_disposition := ActionDecisionDispositionV1_ReuseRecordedResult;
        rad_result := Some {| rarv_result_event_ref := uuid_to_string (arxs_event_id result);
          rarv_result_event_digest := arxs_event_digest result;
          rarv_result_digest := result_digest;
          rarv_result_ref := result_ref;
          rarv_evidence_digest := arxs_evidence_digest result;
          rarv_evidence_ref := arxs_evidence_ref result;
          rarv_recorded_at := arxs_recorded_at result |};
        rad_effective_lease_expires_at := None;
        rad_reason := None |}.

Definition reconciliation (query : RecordedActionDecisionQueryV1)
    (reason : ActionDecisionBlockReasonV1)
    : RecordedActionDecisionV1 :=
  {| rad_schema_version := RECORDED_ACTION_DECISION_SCHEMA_VERSION_V1;
     rad_identity := radq_identity query;
     rad_disposition := ActionDecisionDispositionV1_ReconciliationRequired;
     rad_result := None;
     rad_effective_lease_expires_at := None;
     rad_reason := Some reason |}.

Definition terminal_failure (query : RecordedActionDecisionQueryV1) : RecordedActionDecisionV1 :=
  {| rad_schema_version := RECORDED_ACTION_DECISION_SCHEMA_VERSION_V1;
     rad_identity := radq_identity query;
     rad_disposition := ActionDecisionDispositionV1_TerminalFailure;
     rad_result := None;
     rad_effective_lease_expires_at := None;
     rad_reason := Some ActionDecisionBlockReasonV1_TerminalFailure |}.

Definition workflow_identity_matches_query (workflow : WorkflowInstanceV1)
    (query : RecordedActionDecisionQueryV1)
    : bool :=
  let identity := radq_identity query in
  (wi_run_id workflow == rai_run_id identity)
  && (wi_workflow_id workflow == rai_workflow_id identity)
  && (wi_workflow_revision workflow == rai_workflow_revision identity)
  && (wi_unit_id workflow == rai_unit_id identity)
  && (wi_attempt workflow == rai_attempt identity)
  && (uuid_to_string (wd_event_id (wi_dispatch workflow)) == rai_dispatch_event_ref identity)
  && (wd_envelope_digest (wi_dispatch workflow) == rai_dispatch_envelope_digest identity).

Definition is_supported_governed_sealed_dispatch (workflow : WorkflowInstanceV1) : bool :=
  let dispatch := wi_dispatch workflow in
  let required_digests := [wd_envelope_digest dispatch; wd_capability_bundle_digest dispatch;
    wd_acceptance_contract_digest dispatch; wd_context_manifest_digest dispatch;
    wd_worker_manifest_digest dispatch; wd_sandbox_profile_digest dispatch] in
  let dispatch_times :=
    match parse_rfc3339_utc (wd_issued_at dispatch), parse_rfc3339_utc (wd_expires_at dispatch) with
    | Some issued_at, Some expires_at => issued_at <? expires_at
    | _, _ => false
    end in
  let version := wd_dispatch_version dispatch in
  let graph_binding_is_valid :=
    if version =? 3 then true
    else if (version =? 4) || (version =? 5) then
      is_some_and (wd_workflow_graph_digest dispatch) is_canonical_sha256_digest
      && is_some_and (wd_workflow_graph_declaration_event_ref dispatch)
           (fun reference => negb (trim_is_empty (uuid_to_string reference)))
    else false in
  let manifest_binding_is_valid :=
    if (version =? 3) || (version =? 4) then true
    else if version =? 5 then has_complete_v5_manifest_dispatch_witnesses workflow
    else false in
  ((version =? 3) || (version =? 4) || (version =? 5))
  && (wd_trust_tier dispatch == TrustTierV1_Governed)
  && (wd_commit_mode dispatch == CommitModeV1_Atomic)
  && (wd_action_evidence_version dispatch == Some ActionEvidenceVersionV1_SealedV3)
  && forallb is_canonical_sha256_digest required_digests
  && is_some_and (wd_repository_binding_digest dispatch) is_canonical_sha256_digest
  && is_some_and (wd_ledger_authority_realm_digest dispatch) is_canonical_sha256_digest
  && is_some_and (wd_governed_packet_digest dispatch) is_canonical_sha256_digest
  && strings_are_non_empty [wi_run_id workflow; wi_workflow_id workflow;
       wi_workflow_revision workflow; wi_unit_id workflow; wd_provenance_ref dispatch;
       wd_base_commit_sha dispatch; wd_idempotency_key dispatch]
  && dispatch_times
  && graph_binding_is_valid
  && manifest_binding_is_valid.

Definition action_identity_matches_query (workflow : WorkflowInstanceV1)
    (action : ActionReplayState)
    (query : RecordedActionDecisionQueryV1)
    : bool :=
  let request := acts_request action in
  (arqs_action_id request == rai_action_id (radq_identity query))
  && (arqs_idempotency_key request == rai_idempotency_key (radq_identity query))
  && (uuid_to_string (arqs_event_id request) == rai_action_request_event_ref (radq_identity query))
  && (arqs_action_request_digest request == rai_action_request_digest (radq_identity query))
  && (arqs_repository_binding_digest request == default "" (wd_repository_binding_digest
      (wi_dispatch workflow)))
  && (arqs_ledger_authority_realm_digest request == default "" (wd_ledger_authority_realm_digest
      (wi_dispatch workflow))).

Definition action_request_is_well_formed (workflow : WorkflowInstanceV1)
    (request : ActionRequestReplayState)
    : bool :=
  (arqs_governed_packet_digest request == wd_governed_packet_digest (wi_dispatch workflow))
  && (arqs_execution_role request == wd_execution_role (wi_dispatch workflow))
  && (is_canonical_sha256_digest (arqs_canonical_input_digest request))
  && (is_canonical_sha256_digest (arqs_repository_binding_digest request))
  && (is_canonical_sha256_digest (arqs_ledger_authority_realm_digest request))
  && (is_canonical_sha256_digest (arqs_policy_digest request))
  && (is_canonical_sha256_digest (arqs_action_request_digest request))
  && (strings_are_non_empty [arqs_action_id request; arqs_idempotency_key request;
      arqs_canonical_input_ref request; arqs_authority_actor request])
  && (is_some (parse_rfc3339_utc (arqs_requested_at request))).

Definition model_action_evidence_is_well_formed (workflow : WorkflowInstanceV1)
    (action : ActionReplayState)
    (claim : ActivityClaimReplayState)
    : bool :=
  if arqs_action_kind (acts_request action) != ActionKindV1_Model then
    true
  else
  let_some intent := acts_model_intent action else false ;;
  let_some authorization := acts_model_authorization action else false ;;
  let_some authorization_expires_at := parse_rfc3339_utc (maas_expires_at authorization) else
      false ;;
  let_some authorization_at := (maas_authorized_at authorization) ≫= parse_rfc3339_utc else false ;;
  let_some intent_at := parse_rfc3339_utc (mais_intended_at intent) else false ;;
  let_some claimed_at := parse_rfc3339_utc (acls_claimed_at claim) else false ;;
  let_some requested_at := parse_rfc3339_utc (arqs_requested_at (acts_request action)) else false ;;
  let_some deadline := effective_dispatch_deadline workflow else false ;;
  let receipt_authorization_is_bound := from_option (fun receipt =>
    (arcs_outcome receipt != ActionReceiptOutcomeV2_Succeeded)
    || (arcs_authorization_ref receipt == Some (maas_authorization_ref authorization))) true
        (acts_receipt action) in
  (acls_purpose claim == ActivityClaimPurposeV1_GovernedModelActionV1)
  && (mais_dispatch_event_ref intent == wd_event_id (wi_dispatch workflow))
  && (mais_dispatch_envelope_digest intent == wd_envelope_digest (wi_dispatch workflow))
  && (mais_action_request_event_ref intent == arqs_event_id (acts_request action))
  && (mais_action_request_digest intent == arqs_action_request_digest (acts_request action))
  && (mais_canonical_input_ref intent == arqs_canonical_input_ref (acts_request action))
  && (mais_canonical_input_digest intent == arqs_canonical_input_digest (acts_request action))
  && (is_canonical_sha256_digest (mais_intent_digest intent))
  && (negb (trim_is_empty (mais_intent_actor intent)))
  && (maas_authorization_version authorization == 2)
  && (maas_intent_event_ref authorization == Some (mais_event_id intent))
  && (maas_intent_digest authorization == Some (mais_intent_digest intent))
  && (maas_dispatch_event_ref authorization == uuid_to_string (wd_event_id (wi_dispatch workflow)))
  && (maas_dispatch_envelope_digest authorization == wd_envelope_digest (wi_dispatch workflow))
  && (maas_action_request_ref authorization == uuid_to_string (arqs_event_id (acts_request action)))
  && (maas_action_request_digest authorization == arqs_action_request_digest (acts_request action))
  && (maas_packet_digest authorization == default "" (wd_governed_packet_digest (wi_dispatch
      workflow)))
  && (maas_canonical_input_digest authorization == arqs_canonical_input_digest (acts_request
      action))
  && (maas_context_manifest_digest authorization == wd_context_manifest_digest (wi_dispatch
      workflow))
  && (maas_policy_digest authorization == arqs_policy_digest (acts_request action))
  && (maas_sandbox_profile_digest authorization == wd_sandbox_profile_digest (wi_dispatch workflow))
  && (maas_execution_role authorization == arqs_execution_role (acts_request action))
  && (maas_candidate_binding authorization == mais_candidate_binding intent)
  && (is_canonical_sha256_digest (maas_model_request_digest authorization))
  && (is_canonical_sha256_digest (maas_trust_scope_digest authorization))
  && (is_canonical_sha256_digest (maas_authorization_digest authorization))
  && (negb (trim_is_empty (maas_authorization_actor authorization)))
  && (negb (trim_is_empty (maas_authorization_ref authorization)))
  && (requested_at <=? intent_at)
  && (requested_at <? authorization_expires_at)
  && (authorization_at <? authorization_expires_at)
  && (authorization_expires_at <=? deadline)
  && (intent_at <=? authorization_at)
  && (authorization_at <=? claimed_at)
  && (claimed_at <? authorization_expires_at)
  && receipt_authorization_is_bound.

Definition claim_identity_matches_query (claim : ActivityClaimReplayState)
    (query : RecordedActionDecisionQueryV1)
    : bool :=
  (uuid_to_string (acls_event_id claim) == rai_activity_claim_event_ref (radq_identity query))
  && (acls_claim_event_digest claim == rai_activity_claim_event_digest (radq_identity query))
  && (acls_lease_id claim == rai_lease_id (radq_identity query)).

Definition claim_is_well_formed (workflow : WorkflowInstanceV1)
    (action : ActionReplayState)
    (claim : ActivityClaimReplayState)
    : bool :=
  let request := acts_request action in
  let_some claimed_at := parse_rfc3339_utc (acls_claimed_at claim) else false ;;
  let_some lease_expires_at := parse_rfc3339_utc (acls_lease_expires_at claim) else false ;;
  let_some requested_at := parse_rfc3339_utc (arqs_requested_at request) else false ;;
  let_some issued_at := parse_rfc3339_utc (wd_issued_at (wi_dispatch workflow)) else false ;;
  let_some deadline := effective_dispatch_deadline workflow else false ;;
  (acls_run_id claim == wi_run_id workflow)
  && (acls_activity_id claim == arqs_action_id request)
  && (acls_idempotency_key claim == arqs_idempotency_key request)
  && (acls_action_kind claim == arqs_action_kind request)
  && (acls_action_request_event_id claim == arqs_event_id request)
  && (acls_action_request_digest claim == arqs_action_request_digest request)
  && (acls_dispatch_event_id claim == wd_event_id (wi_dispatch workflow))
  && (acls_dispatch_envelope_digest claim == wd_envelope_digest (wi_dispatch workflow))
  && (is_canonical_sha256_digest (acls_claim_event_digest claim))
  && (strings_are_non_empty [acls_activity_id claim; acls_idempotency_key claim;
      acls_authority_actor claim; acls_lease_id claim])
  && (is_some_and (acls_signer claim) (fun signer =>
    (negb (trim_is_empty (akr_actor_id signer)))
    && (negb (trim_is_empty (akr_key_id signer)))))
  && (requested_at <=? claimed_at)
  && (issued_at <=? claimed_at)
  && (claimed_at <? lease_expires_at)
  && (lease_expires_at <=? deadline).

(** The loop over the heartbeats; returns the last renewed expiry. *)
Fixpoint check_heartbeats (claim : ActivityClaimReplayState) (claimed_at deadline : DateTime)
    (previous_expiry previous_heartbeat_at : option DateTime)
    (heartbeats : list ActivityHeartbeatReplayState) : option (option DateTime) :=
  match heartbeats with
  | [] => Some previous_expiry
  | heartbeat :: rest =>
      let_some prior_expiry := parse_rfc3339_utc (ahs_prior_lease_expires_at heartbeat)
        else None ;;
      let_some next_expiry := parse_rfc3339_utc (ahs_lease_expires_at heartbeat) else None ;;
      let_some heartbeat_at := parse_rfc3339_utc (ahs_heartbeat_at heartbeat) else None ;;
      if (ahs_run_id heartbeat != acls_run_id claim)
         || (ahs_activity_id heartbeat != acls_activity_id claim)
         || (ahs_idempotency_key heartbeat != acls_idempotency_key claim)
         || (ahs_claim_event_id heartbeat != acls_event_id claim)
         || (ahs_claim_event_digest heartbeat != acls_claim_event_digest claim)
         || (ahs_lease_id heartbeat != acls_lease_id claim)
         || (ahs_dispatch_event_id heartbeat != acls_dispatch_event_id claim)
         || (ahs_dispatch_envelope_digest heartbeat != acls_dispatch_envelope_digest claim)
         || negb (is_canonical_sha256_digest (ahs_event_digest heartbeat))
         || (prior_expiry <=? claimed_at)
         || (heartbeat_at <? claimed_at)
         || (prior_expiry <=? heartbeat_at)
         || (next_expiry <=? prior_expiry)
         || (deadline <? next_expiry)
         || is_some_and previous_expiry (fun previous => prior_expiry != previous)
         || is_some_and previous_heartbeat_at (fun previous => heartbeat_at <=? previous)
      then None
      else check_heartbeats claim claimed_at deadline (Some next_expiry) (Some heartbeat_at) rest
  end.

Definition heartbeats_are_well_formed (workflow : WorkflowInstanceV1)
    (claim : ActivityClaimReplayState) : bool :=
  if list_is_empty (acls_heartbeats claim) then true
  else
  let_some claimed_at := parse_rfc3339_utc (acls_claimed_at claim) else false ;;
  let_some deadline := effective_dispatch_deadline workflow else false ;;
  let_some previous_expiry :=
    check_heartbeats claim claimed_at deadline None None (acls_heartbeats claim) else false ;;
  let_some current_expiry := parse_rfc3339_utc (acls_lease_expires_at claim) else false ;;
  is_some_and previous_expiry (fun expiry => expiry == current_expiry).

Definition result_is_well_formed (claim : ActivityClaimReplayState)
    (result : ActivityResultReplayState)
    : bool :=
  let_some claimed_at := parse_rfc3339_utc (acls_claimed_at claim) else false ;;
  let_some lease_expires_at := parse_rfc3339_utc (acls_lease_expires_at claim) else false ;;
  let_some recorded_at := parse_rfc3339_utc (arxs_recorded_at result) else false ;;
  let result_value_is_valid := match arxs_outcome result with
  | ActivityResultOutcomeV1_Succeeded =>
      (is_some_and (arxs_result_digest result) is_canonical_sha256_digest)
      && (is_some_and (arxs_result_ref result) (fun reference => negb (trim_is_empty reference)))
  | ActivityResultOutcomeV1_Unknown =>
      (is_none (arxs_result_digest result)) && (is_none (arxs_result_ref result))
  | ActivityResultOutcomeV1_Failed =>
      match (arxs_result_digest result, arxs_result_ref result) with
      | (Some digest, Some reference) =>
          (is_canonical_sha256_digest digest) && (negb (trim_is_empty reference))
      | (None, None) => true
      | _ => false
      end
  end in
  (arxs_run_id result == acls_run_id claim)
  && (arxs_activity_id result == acls_activity_id claim)
  && (arxs_idempotency_key result == acls_idempotency_key claim)
  && (arxs_claim_event_id result == acls_event_id claim)
  && (arxs_claim_event_digest result == acls_claim_event_digest claim)
  && (arxs_lease_id result == acls_lease_id claim)
  && (is_canonical_sha256_digest (arxs_event_digest result))
  && (is_canonical_sha256_digest (arxs_evidence_digest result))
  && (negb (trim_is_empty (arxs_evidence_ref result)))
  && result_value_is_valid
  && (claimed_at <=? recorded_at)
  && ((recorded_at <? lease_expires_at)
  || (arxs_outcome result == ActivityResultOutcomeV1_Unknown)).

Definition optional_digest_and_reference_are_well_formed (digest reference : option string)
    : bool :=
  match (digest, reference) with
  | (Some digest, Some reference) =>
      (is_canonical_sha256_digest digest) && (negb (trim_is_empty reference))
  | (None, None) => true
  | _ => false
  end.

Definition receipt_is_well_formed (action : ActionReplayState)
    (claim : ActivityClaimReplayState)
    (receipt : ActionReceiptReplayState)
    : bool :=
  (arcs_action_id receipt == arqs_action_id (acts_request action))
  && (arcs_idempotency_key receipt == arqs_idempotency_key (acts_request action))
  && (arcs_action_request_digest receipt == arqs_action_request_digest (acts_request action))
  && (is_canonical_sha256_digest (arcs_action_receipt_digest receipt))
  && (is_canonical_sha256_digest (arcs_evidence_digest receipt))
  && (strings_are_non_empty [arcs_action_receipt_ref receipt; arcs_evidence_ref receipt])
  && (is_some (parse_rfc3339_utc (arcs_completed_at receipt)))
  && (optional_digest_and_reference_are_well_formed (arcs_result_digest receipt) (arcs_result_ref
      receipt)).

Definition result_and_receipt_agree (result : ActivityResultReplayState)
    (receipt : option ActionReceiptReplayState)
    : bool :=
  let_some receipt := receipt else true ;;
  match arxs_outcome result with
  | ActivityResultOutcomeV1_Succeeded =>
      (arcs_outcome receipt == ActionReceiptOutcomeV2_Succeeded)
      && (arcs_result_digest receipt == arxs_result_digest result)
      && (arcs_result_ref receipt == arxs_result_ref result)
      && (arcs_evidence_digest receipt == arxs_evidence_digest result)
      && (arcs_evidence_ref receipt == arxs_evidence_ref result)
  | ActivityResultOutcomeV1_Failed => arcs_outcome receipt == ActionReceiptOutcomeV2_Failed
  | ActivityResultOutcomeV1_Unknown => arcs_outcome receipt == ActionReceiptOutcomeV2_Unknown
  end.

Definition successful_model_result_has_bound_receipt (action : ActionReplayState)
    (result : ActivityResultReplayState)
    : bool :=
  let_some authorization := acts_model_authorization action else false ;;
  let_some receipt := acts_receipt action else false ;;
  let_some intent := acts_model_intent action else false ;;
  let_some requested_at := parse_rfc3339_utc (arqs_requested_at (acts_request action)) else false ;;
  let_some intended_at := parse_rfc3339_utc (mais_intended_at intent) else false ;;
  let_some claimed_at := (acts_activity_claim action) ≫= (fun claim => parse_rfc3339_utc
      (acls_claimed_at claim)) else false ;;
  let_some authorized_at := (maas_authorized_at authorization) ≫= parse_rfc3339_utc else false ;;
  let_some recorded_at := parse_rfc3339_utc (arxs_recorded_at result) else false ;;
  let_some completed_at := parse_rfc3339_utc (arcs_completed_at receipt) else false ;;
  let_some expires_at := parse_rfc3339_utc (maas_expires_at authorization) else false ;;
  (arxs_outcome result == ActivityResultOutcomeV1_Succeeded)
  && (maas_authorization_version authorization == 2)
  && (arcs_outcome receipt == ActionReceiptOutcomeV2_Succeeded)
  && (arcs_authorization_ref receipt == Some (maas_authorization_ref authorization))
  && (result_and_receipt_agree result (Some receipt))
  && (requested_at <=? intended_at)
  && (intended_at <=? authorized_at)
  && (authorized_at <=? recorded_at)
  && (claimed_at <=? completed_at)
  && (authorized_at <=? completed_at)
  && (completed_at <=? recorded_at)
  && (recorded_at <? expires_at)
  && (completed_at <? expires_at).

Definition classify_replayed_governed_action_v1 (workflow : WorkflowInstanceV1)
    (query : RecordedActionDecisionQueryV1) : Result RecordedActionDecisionV1 Crash :=
  if radq_schema_version query != RECORDED_ACTION_DECISION_SCHEMA_VERSION_V1 then
    Ok (blocked query ActionDecisionBlockReasonV1_UnsupportedSchemaVersion)
  else
  if negb (query_is_well_formed query) then
    Ok (blocked query ActionDecisionBlockReasonV1_MalformedQuery)
  else
  if negb (workflow_identity_matches_query workflow query) then
    Ok (blocked query ActionDecisionBlockReasonV1_WorkflowIdentityMismatch)
  else
  if negb (is_supported_governed_sealed_dispatch workflow) then
    Ok (blocked query ActionDecisionBlockReasonV1_UnsupportedDispatch)
  else
  let_some evidence := wi_action_evidence workflow
    else (Ok (blocked query ActionDecisionBlockReasonV1_MissingActionEvidence)) ;;
  if aes_action_evidence_version evidence != ActionEvidenceVersionV1_SealedV3 then
    Ok (blocked query ActionDecisionBlockReasonV1_MissingActionEvidence)
  else
  let_some action := aes_actions evidence !! rai_action_id (radq_identity query)
    else (Ok (blocked query ActionDecisionBlockReasonV1_ActionNotFound)) ;;
  if negb (action_identity_matches_query workflow action query) then
    Ok (blocked query ActionDecisionBlockReasonV1_ActionIdentityMismatch)
  else
  if negb (action_request_is_well_formed workflow (acts_request action)) then
    Ok (blocked query ActionDecisionBlockReasonV1_MalformedEvidence)
  else
  let_some claim := acts_activity_claim action
    else (Ok (blocked query ActionDecisionBlockReasonV1_ClaimMissing)) ;;
  if negb (claim_identity_matches_query claim query) then
    Ok (blocked query ActionDecisionBlockReasonV1_ClaimIdentityMismatch)
  else
  if negb (claim_is_well_formed workflow action claim) then
    Ok (blocked query ActionDecisionBlockReasonV1_MalformedEvidence)
  else
  if negb (model_action_evidence_is_well_formed workflow action claim) then
    Ok (blocked query ActionDecisionBlockReasonV1_MalformedEvidence)
  else
  if negb (heartbeats_are_well_formed workflow claim) then
    Ok (blocked query ActionDecisionBlockReasonV1_MalformedEvidence)
  else
  if is_some_and (acts_receipt action)
       (fun receipt => negb (receipt_is_well_formed action claim receipt)) then
    Ok (blocked query ActionDecisionBlockReasonV1_MalformedEvidence)
  else
  let receipt_outcome := arcs_outcome <$> acts_receipt action in
  match acls_result claim with
  | Some result =>
      if negb (result_is_well_formed claim result) then
        Ok (blocked query ActionDecisionBlockReasonV1_MalformedEvidence)
      else
      if negb (result_and_receipt_agree result (acts_receipt action)) then
        Ok (blocked query ActionDecisionBlockReasonV1_MalformedEvidence)
      else
      if (arxs_outcome result == ActivityResultOutcomeV1_Succeeded)
         && (arqs_action_kind (acts_request action) == ActionKindV1_Model)
         && negb (successful_model_result_has_bound_receipt action result) then
        Ok (blocked query ActionDecisionBlockReasonV1_MalformedEvidence)
      else
      match arxs_outcome result with
      | ActivityResultOutcomeV1_Succeeded => reuse query result
      | ActivityResultOutcomeV1_Failed => Ok (terminal_failure query)
      | ActivityResultOutcomeV1_Unknown =>
          Ok (reconciliation query ActionDecisionBlockReasonV1_UnknownTerminalState)
      end
  | None =>
  match receipt_outcome with
  | Some ActionReceiptOutcomeV2_Unknown =>
      Ok (reconciliation query ActionDecisionBlockReasonV1_UnknownTerminalState)
  | Some ActionReceiptOutcomeV2_Failed | Some ActionReceiptOutcomeV2_Denied =>
      Ok (terminal_failure query)
  | Some ActionReceiptOutcomeV2_Succeeded =>
      Ok (blocked query ActionDecisionBlockReasonV1_MalformedEvidence)
  | None =>
  if wi_phase workflow != WorkflowPhaseV1_Dispatched then
    Ok (blocked query ActionDecisionBlockReasonV1_WorkflowNotActive)
  else
  some_or observed_at := parse_rfc3339_utc (radq_observed_at query) with Crash_Panic ;;
  some_or lease_expires_at := parse_rfc3339_utc (acls_lease_expires_at claim) with Crash_Panic ;;
  if lease_expires_at <=? observed_at then
    Ok (reconciliation query ActionDecisionBlockReasonV1_LeaseExpired)
  else
    Ok {| rad_schema_version := RECORDED_ACTION_DECISION_SCHEMA_VERSION_V1;
          rad_identity := radq_identity query;
          rad_disposition := ActionDecisionDispositionV1_WaitForActiveLease;
          rad_result := None;
          rad_effective_lease_expires_at := Some (acls_lease_expires_at claim);
          rad_reason := None |}
  end
  end.
End Decision.
