(* ===== verification/TrustedRecovery.v ===== *)
(** * Trusted recovery snapshots

    [bp-replay/src/trusted_recovery.rs]: recovery opens a run's tape, replays all
    of it, refuses any governed diagnosis, verifies the complete checkpoint chain
    under the pinned kernel signer, and only then exposes the workflows, indexed
    by dispatch, candidate, promotion decision and approval request.  The
    questions a recovering host may ask are functions of that snapshot.

    The database is the rows of the run, as in [Engine].  The panics of the
    source are [Stopped Crash_Panic].  The snapshot cache, which only writes
    rows that nothing reads back, and the OpenTelemetry projection are not
    modelled. *)
From S2P Require Import Prelude RustStr Host LedgerPayloads TrustSpine Digests Events WorkflowGraph ReplayState Tape ReducerCore Engine ActivityDecision.
From stdpp Require Import base list gmap strings sorting.

#[local] Open Scope string_scope.
#[local] Open Scope list_scope.
#[local] Open Scope Z_scope.

(** ** Errors *)
Inductive TrustedGovernedRecoveryError :=
| TrustedGovernedRecoveryError_Replay (e : ReaderError)
| TrustedGovernedRecoveryError_PinnedKernelSignerUnauthorized (signer : ActorKeyRef)
| TrustedGovernedRecoveryError_ReplayIssue (issue : ReplayIssue)
| TrustedGovernedRecoveryError_TapeIntegrity (e : TapeIntegrityError)
| TrustedGovernedRecoveryError_NoSealedV3GovernedWorkflow
| TrustedGovernedRecoveryError_CandidateIdentityConflict
    (candidate_digest first_dispatch_event_ref conflicting_dispatch_event_ref : string)
| TrustedGovernedRecoveryError_PromotionIdentityConflict
    (candidate_digest idempotency_key first_dispatch_event_ref
     conflicting_dispatch_event_ref : string)
| TrustedGovernedRecoveryError_PromotionApprovalIdentityConflict
    (promotion_approval_request_event_ref first_dispatch_event_ref
     conflicting_dispatch_event_ref : string)
| TrustedGovernedRecoveryError_PromotionCandidateConflict (candidate_digest : string).

Record PromotionIdentity := {
  pid_candidate_digest : string;
  pid_idempotency_key : string
}.
#[global] Instance PromotionIdentity_eq_dec : EqDecision PromotionIdentity.
Proof. solve_decision. Defined.

#[global] Instance PromotionIdentity_countable : Countable PromotionIdentity.
Proof.
  refine (inj_countable' (fun i => (pid_candidate_digest i, pid_idempotency_key i))
    (fun p => {| pid_candidate_digest := p.1; pid_idempotency_key := p.2 |}) _).
  by intros [].
Defined.

Record RecordedPromotionRecoveryIdentityV1 := {
  rpri_run_id : string;
  rpri_workflow_id : string;
  rpri_workflow_revision : string;
  rpri_unit_id : string;
  rpri_attempt : u32;
  rpri_dispatch_event_ref : string;
  rpri_dispatch_envelope_digest : string;
  rpri_candidate_digest : string;
  rpri_promotion_decision_event_ref : string;
  rpri_promotion_decision_event_digest : string;
  rpri_idempotency_key : string
}.
#[global] Instance RecordedPromotionRecoveryIdentityV1_eq_dec : EqDecision RecordedPromotionRecoveryIdentityV1.
Proof. solve_decision. Defined.

Record RecordedPromotionRecoveryQueryV1 := {
  rprq_schema_version : u16;
  rprq_identity : RecordedPromotionRecoveryIdentityV1
}.
#[global] Instance RecordedPromotionRecoveryQueryV1_eq_dec : EqDecision RecordedPromotionRecoveryQueryV1.
Proof. solve_decision. Defined.

Inductive PromotionRecoveryDispositionV1 :=
| PromotionRecoveryDispositionV1_ReuseRecordedPromotion
| PromotionRecoveryDispositionV1_RecordedRejection
| PromotionRecoveryDispositionV1_ReconciliationRequired
| PromotionRecoveryDispositionV1_Blocked.
#[global] Instance PromotionRecoveryDispositionV1_eq_dec : EqDecision PromotionRecoveryDispositionV1.
Proof. solve_decision. Defined.

Inductive PromotionRecoveryBlockReasonV1 :=
| PromotionRecoveryBlockReasonV1_UnsupportedSchemaVersion
| PromotionRecoveryBlockReasonV1_MalformedQuery
| PromotionRecoveryBlockReasonV1_SnapshotRunMismatch
| PromotionRecoveryBlockReasonV1_WorkflowNotFound
| PromotionRecoveryBlockReasonV1_WorkflowIdentityMismatch
| PromotionRecoveryBlockReasonV1_UnsupportedDispatch
| PromotionRecoveryBlockReasonV1_CandidateMissing
| PromotionRecoveryBlockReasonV1_CandidateIdentityMismatch
| PromotionRecoveryBlockReasonV1_PromotionNotFound
| PromotionRecoveryBlockReasonV1_PromotionIdentityMismatch
| PromotionRecoveryBlockReasonV1_MissingDecisionDigest
| PromotionRecoveryBlockReasonV1_ResultIdentityMismatch
| PromotionRecoveryBlockReasonV1_MissingResultDigest
| PromotionRecoveryBlockReasonV1_ReconciliationIdentityMismatch
| PromotionRecoveryBlockReasonV1_MissingReconciliationDigest
| PromotionRecoveryBlockReasonV1_PromotionResultMissing
| PromotionRecoveryBlockReasonV1_RecordedPromotionReconciliationRequired
| PromotionRecoveryBlockReasonV1_ContradictoryPromotionEvidence.
#[global] Instance PromotionRecoveryBlockReasonV1_eq_dec : EqDecision PromotionRecoveryBlockReasonV1.
Proof. solve_decision. Defined.

Record RecordedPromotionResultV1 := {
  rprv_promotion_result_event_ref : string;
  rprv_promotion_result_event_digest : string;
  rprv_outcome : PromotionResultOutcomeV1;
  rprv_merged_head_sha : option string;
  rprv_promotion_receipt_ref : option string;
  rprv_completed_at : string
}.
#[global] Instance RecordedPromotionResultV1_eq_dec : EqDecision RecordedPromotionResultV1.
Proof. solve_decision. Defined.

Record RecordedPromotionReconciliationV1 := {
  rprc_promotion_reconciliation_event_ref : string;
  rprc_promotion_reconciliation_event_digest : string;
  rprc_outcome : ReconciliationResolutionOutcomeV1;
  rprc_promotion_receipt_ref : string;
  rprc_resolved_at : string
}.
#[global] Instance RecordedPromotionReconciliationV1_eq_dec : EqDecision RecordedPromotionReconciliationV1.
Proof. solve_decision. Defined.

Record RecordedPromotionRecoveryDecisionV1 := {
  rprd_schema_version : u16;
  rprd_identity : RecordedPromotionRecoveryIdentityV1;
  rprd_disposition : PromotionRecoveryDispositionV1;
  rprd_result : option RecordedPromotionResultV1;
  rprd_reconciliation : option RecordedPromotionReconciliationV1;
  rprd_reason : option PromotionRecoveryBlockReasonV1
}.
#[global] Instance RecordedPromotionRecoveryDecisionV1_eq_dec : EqDecision RecordedPromotionRecoveryDecisionV1.
Proof. solve_decision. Defined.

Record PendingPromotionApprovalRecoveryWorkV1 := {
  ppaw_schema_version : u16;
  ppaw_run_id : string;
  ppaw_workflow_id : string;
  ppaw_workflow_revision : string;
  ppaw_unit_id : string;
  ppaw_attempt : u32;
  ppaw_dispatch_event_ref : string;
  ppaw_dispatch_envelope_digest : string;
  ppaw_candidate_digest : string;
  ppaw_base_commit_sha : string;
  ppaw_target_ref : string;
  ppaw_promotion_approval_request_event_ref : string;
  ppaw_promotion_approval_request_event_digest : string;
  ppaw_acceptance_ref : string;
  ppaw_review_refs : list string;
  ppaw_requested_by : string;
  ppaw_requested_at : string;
  ppaw_idempotency_key : string
}.
#[global] Instance PendingPromotionApprovalRecoveryWorkV1_eq_dec : EqDecision PendingPromotionApprovalRecoveryWorkV1.
Proof. solve_decision. Defined.

Inductive PendingPromotionApprovalRecoveryBlockReasonV1 :=
| PendingPromotionApprovalRecoveryBlockReasonV1_MalformedApprovalEvidence
| PendingPromotionApprovalRecoveryBlockReasonV1_CandidateMissing
| PendingPromotionApprovalRecoveryBlockReasonV1_CandidateIdentityMismatch
| PendingPromotionApprovalRecoveryBlockReasonV1_CandidateCompletionMissing
| PendingPromotionApprovalRecoveryBlockReasonV1_CandidateCompletionIdentityMismatch
| PendingPromotionApprovalRecoveryBlockReasonV1_AcceptanceMissing
| PendingPromotionApprovalRecoveryBlockReasonV1_AcceptanceNotPassed
| PendingPromotionApprovalRecoveryBlockReasonV1_AcceptanceIdentityMismatch
| PendingPromotionApprovalRecoveryBlockReasonV1_ReviewEvidenceMissing
| PendingPromotionApprovalRecoveryBlockReasonV1_ReviewNotApproved.
#[global] Instance PendingPromotionApprovalRecoveryBlockReasonV1_eq_dec : EqDecision PendingPromotionApprovalRecoveryBlockReasonV1.
Proof. solve_decision. Defined.

Inductive PendingPromotionApprovalRecoveryErrorV1 :=
| PendingPromotionApprovalRecoveryErrorV1_PendingWorkflowMissingApproval
    (workflow_dispatch_event_ref : string)
| PendingPromotionApprovalRecoveryErrorV1_IncompleteApprovalBlocked
    (promotion_approval_request_event_ref : string)
    (reason : PendingPromotionApprovalRecoveryBlockReasonV1).

Definition RECORDED_PROMOTION_RECOVERY_SCHEMA_VERSION_V1 : u16 := 1.
Definition PENDING_PROMOTION_APPROVAL_RECOVERY_WORK_SCHEMA_VERSION_V1 : u16 := 1.
Definition TRUSTED_GOVERNED_RECOVERY_MAX_EVENTS_V1 : Z := 100000.

Record TrustedReplaySourceAnchorV1 := {
  trs_run_id : RunId;
  trs_source_event_count : u64;
  trs_source_last_event_id : EventId;
  trs_checkpoint_event_ref : EventId;
  trs_through_event_ref : EventId
}.
#[global] Instance TrustedReplaySourceAnchorV1_eq_dec : EqDecision TrustedReplaySourceAnchorV1.
Proof. solve_decision. Defined.

Record TrustedGovernedRecoverySnapshot := {
  tgs_run_id : string;
  tgs_pinned_kernel_signer : ActorKeyRef;
  tgs_tape_integrity : TapeIntegrityReportV1;
  tgs_snapshot_cache_source_anchor : option TrustedReplaySourceAnchorV1;
  tgs_workflows_by_dispatch_event_ref : gmap string WorkflowInstanceV1;
  tgs_candidate_dispatch_index : gmap string string;
  tgs_promotion_dispatch_index : gmap PromotionIdentity string;
  tgs_promotion_decision_dispatch_index : gmap string string;
  tgs_promotion_approval_dispatch_index : gmap string string
}.

Section Recovery.
Context `{Host, Canonicalizer, Crypto, RowDecoder}.

Definition is_rfc3339_utc (value : string) : bool :=
  ends_with "Z" value && is_some (parse_from_rfc3339 value).

(** ** Which workflows a snapshot exposes *)

Definition from_verified_events (events : list VerifiedEvent)
    (tape_integrity : TapeIntegrityReportV1) : Result TrustedReplaySourceAnchorV1 Crash :=
  some_or first_event := head events with Crash_Panic ;;
  some_or last_event := last events with Crash_Panic ;;
  let event_id_for_ref event_ref :=
    ok_or (ev_id ∘ ve_event <$>
             List.find (fun verified => uuid_to_string (ev_id (ve_event verified)) == event_ref) events)
      Crash_Panic in
  let* checkpoint_event_ref := event_id_for_ref (tir_checkpoint_event_ref tape_integrity) in
  let* through_event_ref := event_id_for_ref (tir_through_event_ref tape_integrity) in
  Ok {| trs_run_id := ev_run_id (ve_event first_event);
        trs_source_event_count := Z.of_nat (length events);
        trs_source_last_event_id := ev_id (ve_event last_event);
        trs_checkpoint_event_ref := checkpoint_event_ref;
        trs_through_event_ref := through_event_ref |}.

Definition is_trusted_governed_recovery_workflow (workflow : WorkflowInstanceV1)
    (source_anchor : option TrustedReplaySourceAnchorV1)
    : bool :=
  let dispatch := wi_dispatch workflow in
  let required_digests := [wd_envelope_digest dispatch; wd_capability_bundle_digest dispatch;
      wd_acceptance_contract_digest dispatch; wd_context_manifest_digest dispatch;
          wd_worker_manifest_digest dispatch; wd_sandbox_profile_digest dispatch] in
  let timestamps_are_well_formed := match (parse_from_rfc3339 (wd_issued_at dispatch),
      parse_from_rfc3339 (wd_expires_at dispatch)) with
  | (Some issued_at, Some expires_at) =>
      (ends_with "Z" (wd_issued_at dispatch))
      && (ends_with "Z" (wd_expires_at dispatch))
      && (issued_at <? expires_at)
  | _ => false
  end in
  let sealed_governed_authority := (wd_trust_tier dispatch == TrustTierV1_Governed)
  && (wd_commit_mode dispatch == CommitModeV1_Atomic)
  && (wd_action_evidence_version dispatch == Some ActionEvidenceVersionV1_SealedV3)
  && (forallb (fun digest => is_canonical_sha256_digest digest) required_digests)
  && (is_some_and (wd_repository_binding_digest dispatch) is_canonical_sha256_digest)
  && (is_some_and (wd_ledger_authority_realm_digest dispatch) is_canonical_sha256_digest)
  && (is_some_and (wd_governed_packet_digest dispatch) is_canonical_sha256_digest)
  && (strings_are_non_empty [wi_run_id workflow; wi_workflow_id workflow; wi_workflow_revision
      workflow; wi_unit_id workflow; wd_provenance_ref dispatch; wd_idempotency_key dispatch])
  && (0 <? wi_attempt workflow)
  && (is_canonical_git_object_id (wd_base_commit_sha dispatch))
  && timestamps_are_well_formed in
  if negb sealed_governed_authority then
    false
  else
  if (wd_dispatch_version dispatch =? 3) then true
  else if (wd_dispatch_version dispatch =? 4) then (is_some (wd_workflow_graph_digest dispatch))
  && (is_some_and (wd_workflow_graph_digest dispatch) is_canonical_sha256_digest)
  && (is_some_and (wd_workflow_graph_declaration_event_ref dispatch) (fun event_ref => negb
      (trim_is_empty (uuid_to_string event_ref))))
  else if (wd_dispatch_version dispatch =? 5) then (is_some (wd_workflow_graph_digest dispatch))
  && (is_some_and (wd_workflow_graph_digest dispatch) is_canonical_sha256_digest)
  && (is_some_and (wd_workflow_graph_declaration_event_ref dispatch) (fun event_ref => negb
      (trim_is_empty (uuid_to_string event_ref))))
  && (has_complete_v5_manifest_dispatch_witnesses workflow)
  && (has_complete_v5_admission_receipt workflow ((fun anchor => trs_through_event_ref anchor) <$>
      source_anchor))
  else false.

Definition is_governed_issue (issue : ReplayIssue) : bool :=
  match issue with
  | ReplayIssue_ActivityTransitionRejected _ _ _
  | ReplayIssue_UnverifiedTrustSpineEvent _ _ _
  | ReplayIssue_UnauthorizedTrustSpineSigner _ _ _ _ _ _
  | ReplayIssue_WorkflowTransitionRejected _ _ _ _ => true
  | _ => false
  end.

Definition reject_governed_replay_issues (issues : list ReplayIssue)
    : Result unit TrustedGovernedRecoveryError :=
  match List.find is_governed_issue issues with
  | None => Ok tt
  | Some issue => Err (TrustedGovernedRecoveryError_ReplayIssue issue)
  end.

(** [BTreeMap::insert] as the code uses it: an occupied key is a conflict. *)
Definition insert_new {K} `{Countable K} (m : gmap K string) (key : K) (dispatch_event_ref : string)
    (conflict : string -> TrustedGovernedRecoveryError)
    : Result (gmap K string) TrustedGovernedRecoveryError :=
  match m !! key with
  | Some first_dispatch_event_ref => Err (conflict first_dispatch_event_ref)
  | None => Ok (<[key := dispatch_event_ref]> m)
  end.

(** The promotion indexes after one iteration: the decision of the workflow joins
    both. *)
Definition index_promotion (s : TrustedGovernedRecoverySnapshot) (workflow : WorkflowInstanceV1)
    (dispatch_event_ref : string)
    : Result (gmap PromotionIdentity string * gmap string string) TrustedGovernedRecoveryError :=
  match wi_promotion workflow with
  | Some promotion =>
      let decision := ps_decision promotion in
      some_or candidate := wi_candidate workflow
        with (TrustedGovernedRecoveryError_PromotionCandidateConflict
                (pds_candidate_digest decision)) ;;
      fail_if pds_candidate_digest decision != ca_candidate_digest candidate
        with (TrustedGovernedRecoveryError_PromotionCandidateConflict
                (pds_candidate_digest decision)) ;;
      let conflict first := TrustedGovernedRecoveryError_PromotionIdentityConflict
        (pds_candidate_digest decision) (pds_idempotency_key decision) first
        dispatch_event_ref in
      let* promotions := insert_new (tgs_promotion_dispatch_index s)
        {| pid_candidate_digest := pds_candidate_digest decision;
           pid_idempotency_key := pds_idempotency_key decision |}
        dispatch_event_ref conflict in
      let* decisions := insert_new (tgs_promotion_decision_dispatch_index s)
        (uuid_to_string (pds_event_id decision)) dispatch_event_ref conflict in
      Ok (promotions, decisions)
  | None => Ok (tgs_promotion_dispatch_index s, tgs_promotion_decision_dispatch_index s)
  end.

(** One iteration of the indexing loop. *)
Definition index_workflow (s : TrustedGovernedRecoverySnapshot) (workflow : WorkflowInstanceV1)
    : Result TrustedGovernedRecoverySnapshot TrustedGovernedRecoveryError :=
  let dispatch_event_ref := uuid_to_string (wd_event_id (wi_dispatch workflow)) in
  let* candidates :=
    match wi_candidate workflow with
    | Some candidate =>
        insert_new (tgs_candidate_dispatch_index s) (ca_candidate_digest candidate)
          dispatch_event_ref
          (fun first => TrustedGovernedRecoveryError_CandidateIdentityConflict
             (ca_candidate_digest candidate) first dispatch_event_ref)
    | None => Ok (tgs_candidate_dispatch_index s)
    end in
  let* (promotions, decisions) := index_promotion s workflow dispatch_event_ref in
  let* approvals :=
    match wi_promotion_approval workflow with
    | Some approval =>
        let approval_event_ref := uuid_to_string (pars_event_id approval) in
        insert_new (tgs_promotion_approval_dispatch_index s) approval_event_ref
          dispatch_event_ref
          (fun first => TrustedGovernedRecoveryError_PromotionApprovalIdentityConflict
             approval_event_ref first dispatch_event_ref)
    | None => Ok (tgs_promotion_approval_dispatch_index s)
    end in
  Ok {| s with tgs_workflows_by_dispatch_event_ref :=
          <[dispatch_event_ref := workflow]> (tgs_workflows_by_dispatch_event_ref s);
        tgs_candidate_dispatch_index := candidates;
        tgs_promotion_dispatch_index := promotions;
        tgs_promotion_decision_dispatch_index := decisions;
        tgs_promotion_approval_dispatch_index := approvals |}.

Fixpoint index_workflows (s : TrustedGovernedRecoverySnapshot) (workflows : list WorkflowInstanceV1)
    : Result TrustedGovernedRecoverySnapshot TrustedGovernedRecoveryError :=
  match workflows with
  | [] => Ok s
  | workflow :: rest =>
      let* s := index_workflow s workflow in
      index_workflows s rest
  end.

Definition from_verified_replay_with_source_anchor (run_id : string)
    (pinned_kernel_signer : ActorKeyRef) (tape_integrity : TapeIntegrityReportV1)
    (snapshot_cache_source_anchor : option TrustedReplaySourceAnchorV1)
    (workflows : list WorkflowInstanceV1)
    : Result TrustedGovernedRecoverySnapshot TrustedGovernedRecoveryError :=
  let* s := index_workflows
    {| tgs_run_id := run_id;
       tgs_pinned_kernel_signer := pinned_kernel_signer;
       tgs_tape_integrity := tape_integrity;
       tgs_snapshot_cache_source_anchor := snapshot_cache_source_anchor;
       tgs_workflows_by_dispatch_event_ref := ∅;
       tgs_candidate_dispatch_index := ∅;
       tgs_promotion_dispatch_index := ∅;
       tgs_promotion_decision_dispatch_index := ∅;
       tgs_promotion_approval_dispatch_index := ∅ |}
    (List.filter (fun workflow =>
       is_trusted_governed_recovery_workflow workflow snapshot_cache_source_anchor) workflows) in
  fail_if map_is_empty (tgs_workflows_by_dispatch_event_ref s)
    with TrustedGovernedRecoveryError_NoSealedV3GovernedWorkflow ;;
  Ok s.

(** [rows] are the rows of the run [run_id] in id order. *)
Definition open_with_event_limit (run_id : string) (rows : list StoredVerifiedRow)
    (authorities : TrustedReplayAuthorities) (pinned_kernel_signer : ActorKeyRef) (max_events : Z)
    : Result TrustedGovernedRecoverySnapshot (Failure TrustedGovernedRecoveryError) :=
  fail_if negb (permits authorities TrustSpineSignerRole_Kernel pinned_kernel_signer)
    with (Errored (TrustedGovernedRecoveryError_PinnedKernelSignerUnauthorized
                    pinned_kernel_signer)) ;;
  let* events := map_err (fun e => Errored (TrustedGovernedRecoveryError_Replay e))
    (all_with_verification_limit rows (Engine.tra_trusted_keys authorities) (Some max_events)) in
  some_or replay := replay_to_end (S (length events)) (open_engine events authorities)
    with (Stopped Crash_OutOfFuel) ;;
  let* _ := map_err Errored (reject_governed_replay_issues (st_issues (en_state replay))) in
  some_or integrity := verify_full_tape_integrity_v1 (en_events replay) run_id pinned_kernel_signer
    with (Stopped Crash_Panic) ;;
  let* tape_integrity :=
    map_err (fun e => Errored (TrustedGovernedRecoveryError_TapeIntegrity e)) integrity in
  let* snapshot_cache_source_anchor :=
    map_err Stopped (from_verified_events (en_events replay) tape_integrity) in
  map_err Errored (from_verified_replay_with_source_anchor run_id pinned_kernel_signer
    tape_integrity (Some snapshot_cache_source_anchor)
    (btree_list (st_workflow_instances (en_state replay))).*2).

Definition open_bounded_v1 (run_id : string) (rows : list StoredVerifiedRow)
    (authorities : TrustedReplayAuthorities) (pinned_kernel_signer : ActorKeyRef)
    : Result TrustedGovernedRecoverySnapshot (Failure TrustedGovernedRecoveryError) :=
  open_with_event_limit run_id rows authorities pinned_kernel_signer
    TRUSTED_GOVERNED_RECOVERY_MAX_EVENTS_V1.

(** ** Lookups *)

Definition workflow_for_dispatch_event_ref (s : TrustedGovernedRecoverySnapshot)
    (dispatch_event_ref : string) : option WorkflowInstanceV1 :=
  tgs_workflows_by_dispatch_event_ref s !! dispatch_event_ref.

Definition workflow_for_candidate_digest (s : TrustedGovernedRecoverySnapshot)
    (candidate_digest : string) : option WorkflowInstanceV1 :=
  tgs_candidate_dispatch_index s !! candidate_digest
    ≫= (fun dispatch_event_ref => tgs_workflows_by_dispatch_event_ref s !! dispatch_event_ref).

Definition workflow_for_promotion_identity (s : TrustedGovernedRecoverySnapshot)
    (candidate_digest idempotency_key : string) : option WorkflowInstanceV1 :=
  tgs_promotion_dispatch_index s !!
    {| pid_candidate_digest := candidate_digest; pid_idempotency_key := idempotency_key |}
    ≫= (fun dispatch_event_ref => tgs_workflows_by_dispatch_event_ref s !! dispatch_event_ref).

Definition workflow_for_promotion_decision_event_ref (s : TrustedGovernedRecoverySnapshot)
    (promotion_decision_event_ref : string) : option WorkflowInstanceV1 :=
  tgs_promotion_decision_dispatch_index s !! promotion_decision_event_ref
    ≫= (fun dispatch_event_ref => tgs_workflows_by_dispatch_event_ref s !! dispatch_event_ref).

Definition workflow_for_promotion_approval_request_event_ref
    (s : TrustedGovernedRecoverySnapshot) (promotion_approval_request_event_ref : string)
    : option WorkflowInstanceV1 :=
  tgs_promotion_approval_dispatch_index s !! promotion_approval_request_event_ref
    ≫= (fun dispatch_event_ref => tgs_workflows_by_dispatch_event_ref s !! dispatch_event_ref).

(** The workflows and actions of a snapshot in the order of their maps. *)
Definition snapshot_workflows (s : TrustedGovernedRecoverySnapshot) : list WorkflowInstanceV1 :=
  (btree_list (tgs_workflows_by_dispatch_event_ref s)).*2.

Definition reviewer_action_candidates_for_candidate_digest (s : TrustedGovernedRecoverySnapshot)
    (candidate_digest : string) : list (WorkflowInstanceV1 * EventId) :=
  flat_map (fun workflow =>
    if negb (match wd_execution_role (wi_dispatch workflow) with
             | ExecutionRoleV1_Reviewer | ExecutionRoleV1_Adversary | ExecutionRoleV1_Judge => true
             | _ => false
             end) then [] else
    let_some action_evidence := wi_action_evidence workflow else [] ;;
    map (fun action => (workflow, arqs_event_id (acts_request action)))
      (List.filter (fun action =>
         is_some_and (acts_model_intent action ≫= mais_candidate_binding)
           (fun binding => macb_candidate_digest binding == candidate_digest))
         (btree_list (aes_actions action_evidence)).*2))
    (snapshot_workflows s).

(** ** Recorded actions *)

Definition classify_recorded_governed_action_v1 (s : TrustedGovernedRecoverySnapshot)
    (query : RecordedActionDecisionQueryV1) : Result RecordedActionDecisionV1 Crash :=
  if radq_schema_version query != RECORDED_ACTION_DECISION_SCHEMA_VERSION_V1 then
    Ok (blocked query ActionDecisionBlockReasonV1_UnsupportedSchemaVersion)
  else
  if negb (query_is_well_formed query) then
    Ok (blocked query ActionDecisionBlockReasonV1_MalformedQuery)
  else
  if rai_run_id (radq_identity query) != tgs_run_id s then
    Ok (blocked query ActionDecisionBlockReasonV1_SnapshotRunMismatch)
  else
  let_some workflow :=
    tgs_workflows_by_dispatch_event_ref s !! rai_dispatch_event_ref (radq_identity query)
    else (Ok (blocked query ActionDecisionBlockReasonV1_WorkflowNotFound)) ;;
  classify_replayed_governed_action_v1 workflow query.

(** A [for] loop whose body pushes items and may return an error. *)
Fixpoint collect_items {A B E} (f : A -> Result (list B) E) (l : list A) : Result (list B) E :=
  match l with
  | [] => Ok []
  | a :: l =>
      let* items := f a in
      let* rest := collect_items f l in
      Ok (items ++ rest)
  end.

(** The identity of a claimed action. *)
Definition claimed_action_identity (workflow : WorkflowInstanceV1) (action : ActionReplayState)
    (claim : ActivityClaimReplayState) : RecordedActionIdentityV1 :=
  {| rai_run_id := wi_run_id workflow;
     rai_workflow_id := wi_workflow_id workflow;
     rai_workflow_revision := wi_workflow_revision workflow;
     rai_unit_id := wi_unit_id workflow;
     rai_attempt := wi_attempt workflow;
     rai_dispatch_event_ref := uuid_to_string (wd_event_id (wi_dispatch workflow));
     rai_dispatch_envelope_digest := wd_envelope_digest (wi_dispatch workflow);
     rai_action_id := arqs_action_id (acts_request action);
     rai_idempotency_key := arqs_idempotency_key (acts_request action);
     rai_action_request_event_ref := uuid_to_string (arqs_event_id (acts_request action));
     rai_action_request_digest := arqs_action_request_digest (acts_request action);
     rai_activity_claim_event_ref := uuid_to_string (acls_event_id claim);
     rai_activity_claim_event_digest := acls_claim_event_digest claim;
     rai_lease_id := acls_lease_id claim |}.

(** The body of the loop for a claim without a terminal result. *)
Definition pending_claim_work (s : TrustedGovernedRecoverySnapshot) (observed_at : string)
    (workflow : WorkflowInstanceV1) (action : ActionReplayState) (claim : ActivityClaimReplayState)
    : Result (list PendingActivityRecoveryWorkV1) (Failure PendingActivityRecoveryErrorV1) :=
  let identity := claimed_action_identity workflow action claim in
  let incomplete reason :=
    Errored (PendingActivityRecoveryErrorV1_IncompleteClaimBlocked identity reason) in
  let* decision := map_err Stopped (classify_recorded_governed_action_v1 s
    {| radq_schema_version := RECORDED_ACTION_DECISION_SCHEMA_VERSION_V1;
       radq_identity := identity; radq_observed_at := observed_at |}) in
  match rad_disposition decision with
  | ActionDecisionDispositionV1_WaitForActiveLease =>
      some_or effective_lease_expires_at := rad_effective_lease_expires_at decision
        with (incomplete ActionDecisionBlockReasonV1_MalformedEvidence) ;;
      Ok [{| parw_schema_version := PENDING_ACTIVITY_RECOVERY_WORK_SCHEMA_VERSION_V1;
             parw_identity := identity;
             parw_action_kind := acls_action_kind claim;
             parw_claim_purpose := acls_purpose claim;
             parw_state := PendingActivityRecoveryStateV1_WaitForActiveLease;
             parw_effective_lease_expires_at := Some effective_lease_expires_at;
             parw_reason := None |}]
  | ActionDecisionDispositionV1_ReconciliationRequired =>
      some_or reason := rad_reason decision
        with (incomplete ActionDecisionBlockReasonV1_MalformedEvidence) ;;
      Ok [{| parw_schema_version := PENDING_ACTIVITY_RECOVERY_WORK_SCHEMA_VERSION_V1;
             parw_identity := identity;
             parw_action_kind := acls_action_kind claim;
             parw_claim_purpose := acls_purpose claim;
             parw_state := PendingActivityRecoveryStateV1_ReconciliationRequired;
             parw_effective_lease_expires_at := None;
             parw_reason := Some reason |}]
  | ActionDecisionDispositionV1_ReuseRecordedResult
  | ActionDecisionDispositionV1_TerminalFailure => Ok []
  | ActionDecisionDispositionV1_Blocked =>
      Err (incomplete (default ActionDecisionBlockReasonV1_MalformedEvidence (rad_reason decision)))
  end.

Definition pending_activity_recovery_work_v1 (s : TrustedGovernedRecoverySnapshot)
    (observed_at : string)
    : Result (list PendingActivityRecoveryWorkV1) (Failure PendingActivityRecoveryErrorV1) :=
  fail_if negb (is_rfc3339_utc observed_at)
    with (Errored PendingActivityRecoveryErrorV1_InvalidObservedAt) ;;
  collect_items (fun workflow =>
    let_some evidence := wi_action_evidence workflow else (Ok []) ;;
    collect_items (fun action =>
      let_some claim := acts_activity_claim action else (Ok []) ;;
      if is_some (acls_result claim) then Ok []
      else pending_claim_work s observed_at workflow action claim)
      (btree_list (aes_actions evidence)).*2)
    (snapshot_workflows s).

(** ** Recorded promotions *)

Definition promotion_reconciliation_required (query : RecordedPromotionRecoveryQueryV1)
    (result : option RecordedPromotionResultV1)
    (reason : PromotionRecoveryBlockReasonV1)
    : RecordedPromotionRecoveryDecisionV1 :=
  {| rprd_schema_version := RECORDED_PROMOTION_RECOVERY_SCHEMA_VERSION_V1;
     rprd_identity := rprq_identity query;
     rprd_disposition := PromotionRecoveryDispositionV1_ReconciliationRequired;
     rprd_result := result;
     rprd_reconciliation := None;
     rprd_reason := Some reason |}.

Definition recorded_promotion_rejection (query : RecordedPromotionRecoveryQueryV1)
    (result : option RecordedPromotionResultV1)
    (reconciliation : option RecordedPromotionReconciliationV1)
    : RecordedPromotionRecoveryDecisionV1 :=
  {| rprd_schema_version := RECORDED_PROMOTION_RECOVERY_SCHEMA_VERSION_V1;
     rprd_identity := rprq_identity query;
     rprd_disposition := PromotionRecoveryDispositionV1_RecordedRejection;
     rprd_result := result;
     rprd_reconciliation := reconciliation;
     rprd_reason := None |}.

Definition promotion_blocked (query : RecordedPromotionRecoveryQueryV1)
    (reason : PromotionRecoveryBlockReasonV1)
    : RecordedPromotionRecoveryDecisionV1 :=
  {| rprd_schema_version := RECORDED_PROMOTION_RECOVERY_SCHEMA_VERSION_V1;
     rprd_identity := rprq_identity query;
     rprd_disposition := PromotionRecoveryDispositionV1_Blocked;
     rprd_result := None;
     rprd_reconciliation := None;
     rprd_reason := Some reason |}.

Definition promoted_result_declares_unreconciled_checkout (result : PromotionResultReplayState)
    : bool :=
  (prs_outcome result == PromotionResultOutcomeV1_Promoted)
  && (is_some ((prs_promotion_git_binding result) ≫= (fun binding => pgb_worktree_sync_state
      binding))).

Definition promotion_recovery_query_is_well_formed (query : RecordedPromotionRecoveryQueryV1)
    : bool :=
  let identity := rprq_identity query in
  (rprq_schema_version query == RECORDED_PROMOTION_RECOVERY_SCHEMA_VERSION_V1)
  && (0 <? rpri_attempt identity)
  && (strings_are_non_empty [rpri_run_id identity; rpri_workflow_id identity;
      rpri_workflow_revision identity; rpri_unit_id identity; rpri_dispatch_event_ref identity;
          rpri_promotion_decision_event_ref identity; rpri_idempotency_key identity])
  && (is_canonical_sha256_digest (rpri_dispatch_envelope_digest identity))
  && (is_canonical_sha256_digest (rpri_candidate_digest identity))
  && (is_canonical_sha256_digest (rpri_promotion_decision_event_digest identity)).

Definition promotion_workflow_identity_matches_query (workflow : WorkflowInstanceV1)
    (query : RecordedPromotionRecoveryQueryV1)
    : bool :=
  let identity := rprq_identity query in
  (wi_run_id workflow == rpri_run_id identity)
  && (wi_workflow_id workflow == rpri_workflow_id identity)
  && (wi_workflow_revision workflow == rpri_workflow_revision identity)
  && (wi_unit_id workflow == rpri_unit_id identity)
  && (wi_attempt workflow == rpri_attempt identity)
  && (uuid_to_string (wd_event_id (wi_dispatch workflow)) == rpri_dispatch_event_ref identity)
  && (wd_envelope_digest (wi_dispatch workflow) == rpri_dispatch_envelope_digest identity).

Definition promotion_decision_identity_matches_query (decision : PromotionDecisionReplayState)
    (query : RecordedPromotionRecoveryQueryV1)
    : bool :=
  (uuid_to_string (pds_event_id decision) == rpri_promotion_decision_event_ref (rprq_identity
      query))
  && (pds_event_digest decision == rpri_promotion_decision_event_digest (rprq_identity query))
  && (pds_candidate_digest decision == rpri_candidate_digest (rprq_identity query))
  && (pds_idempotency_key decision == rpri_idempotency_key (rprq_identity query)).

Definition promotion_result_identity_matches_decision (result : PromotionResultReplayState)
    (decision : PromotionDecisionReplayState)
    : bool :=
  (prs_candidate_digest result == pds_candidate_digest decision)
  && (prs_idempotency_key result == pds_idempotency_key decision)
  && (prs_promotion_decision_ref result == uuid_to_string (pds_event_id decision)).

Definition promotion_reconciliation_identity_matches (reconciliation :
    PromotionReconciliationReplayState)
    (decision : PromotionDecisionReplayState)
    (result : PromotionResultReplayState)
    (promotion_receipt_ref : string)
    : bool :=
  (precs_candidate_digest reconciliation == pds_candidate_digest decision)
  && (precs_promotion_decision_ref reconciliation == uuid_to_string (pds_event_id decision))
  && (precs_promotion_result_ref reconciliation == uuid_to_string (prs_event_id result))
  && (precs_promotion_receipt_ref reconciliation == promotion_receipt_ref)
  && (negb (trim_is_empty (precs_authority reconciliation)))
  && (precs_authority reconciliation == precs_resolved_by reconciliation)
  && (negb (trim_is_empty (precs_idempotency_key reconciliation)))
  && (is_rfc3339_utc (precs_resolved_at reconciliation)).

Definition recorded_promotion_result (result : PromotionResultReplayState)
    : RecordedPromotionResultV1 :=
  {| rprv_promotion_result_event_ref := uuid_to_string (prs_event_id result);
     rprv_promotion_result_event_digest := prs_event_digest result;
     rprv_outcome := prs_outcome result;
     rprv_merged_head_sha := prs_merged_head_sha result;
     rprv_promotion_receipt_ref := (prs_promotion_git_binding result) ≫= (fun binding =>
         pgb_promotion_receipt_ref binding);
     rprv_completed_at := prs_completed_at result |}.

Definition promotion_result_evidence_is_well_formed (candidate : CandidateArtifactReplayState)
    (decision : PromotionDecisionReplayState) (result : PromotionResultReplayState) : bool :=
  if negb (is_rfc3339_utc (prs_completed_at result)) then false else
  match prs_outcome result with
  | PromotionResultOutcomeV1_Promoted | PromotionResultOutcomeV1_ReconciliationRequired =>
      let_some merged_head_sha := prs_merged_head_sha result else false ;;
      let_some binding := prs_promotion_git_binding result else false ;;
      let_some target_ref := pds_target_ref decision else false ;;
      let_some target_head_after_sha := pgb_target_head_after_sha binding else false ;;
      let_some binding_merged_head_sha := pgb_merged_head_sha binding else false ;;
      let_some merge_parent_shas := pgb_merge_parent_shas binding else false ;;
      let_some merged_tree_sha := pgb_merged_tree_sha binding else false ;;
      let_some promotion_receipt_ref := pgb_promotion_receipt_ref binding else false ;;
      let valid_sync_state :=
        match prs_outcome result, pgb_worktree_sync_state binding with
        | PromotionResultOutcomeV1_Promoted, None => target_head_after_sha == merged_head_sha
        | PromotionResultOutcomeV1_ReconciliationRequired,
            Some PromotionWorktreeSyncStateV1_RootCheckoutStale =>
            target_head_after_sha == merged_head_sha
        | PromotionResultOutcomeV1_ReconciliationRequired,
            Some PromotionWorktreeSyncStateV1_TargetAdvanced =>
            target_head_after_sha != merged_head_sha
        | _, _ => false
        end in
      is_canonical_target_ref target_ref
      && (pgb_target_ref binding == target_ref)
      && (pgb_target_head_before_sha binding == pds_base_commit_sha decision)
      && (pgb_target_head_before_sha binding == ca_base_commit_sha candidate)
      && is_canonical_git_object_id (pgb_target_head_before_sha binding)
      && is_canonical_git_object_id target_head_after_sha
      && (binding_merged_head_sha == merged_head_sha)
      && is_canonical_git_object_id binding_merged_head_sha
      && (pgb_candidate_commit_sha binding == ca_candidate_commit_sha candidate)
      && is_canonical_git_object_id (pgb_candidate_commit_sha binding)
      && match merge_parent_shas with
         | [first; second] => (first == pgb_target_head_before_sha binding)
                              && (second == pgb_candidate_commit_sha binding)
         | _ => false
         end
      && forallb is_canonical_git_object_id merge_parent_shas
      && is_canonical_git_object_id merged_tree_sha
      && (pgb_merged_tree_digest binding == ca_tree_digest candidate)
      && is_canonical_sha256_digest (pgb_merged_tree_digest binding)
      && promotion_receipt_ref_matches_candidate promotion_receipt_ref (ca_candidate_ref candidate)
      && valid_sync_state
  | PromotionResultOutcomeV1_Rejected =>
      is_none (prs_merged_head_sha result) && is_none (prs_promotion_git_binding result)
  end.

Definition classify_recorded_promotion_reconciliation (query : RecordedPromotionRecoveryQueryV1)
    (promotion : PromotionReplayState) (recorded_result : RecordedPromotionResultV1)
    : Result RecordedPromotionRecoveryDecisionV1 Crash :=
  some_or result := ps_result promotion with Crash_Panic ;;
  let_some reconciliation := ps_reconciliation promotion
    else (Ok (promotion_reconciliation_required query (Some recorded_result)
                PromotionRecoveryBlockReasonV1_RecordedPromotionReconciliationRequired)) ;;
  if negb (is_canonical_sha256_digest (precs_event_digest reconciliation)) then
    Ok (promotion_blocked query PromotionRecoveryBlockReasonV1_MissingReconciliationDigest)
  else
  let_some promotion_receipt_ref := rprv_promotion_receipt_ref recorded_result
    else (Ok (promotion_blocked query
                PromotionRecoveryBlockReasonV1_ContradictoryPromotionEvidence)) ;;
  if negb (promotion_reconciliation_identity_matches reconciliation (ps_decision promotion) result
             promotion_receipt_ref) then
    Ok (promotion_blocked query PromotionRecoveryBlockReasonV1_ReconciliationIdentityMismatch)
  else
  Ok {| rprd_schema_version := RECORDED_PROMOTION_RECOVERY_SCHEMA_VERSION_V1;
        rprd_identity := rprq_identity query;
        rprd_disposition := PromotionRecoveryDispositionV1_RecordedRejection;
        rprd_result := Some recorded_result;
        rprd_reconciliation := Some
          {| rprc_promotion_reconciliation_event_ref :=
               uuid_to_string (precs_event_id reconciliation);
             rprc_promotion_reconciliation_event_digest := precs_event_digest reconciliation;
             rprc_outcome := precs_outcome reconciliation;
             rprc_promotion_receipt_ref := precs_promotion_receipt_ref reconciliation;
             rprc_resolved_at := precs_resolved_at reconciliation |};
        rprd_reason := None |}.

Definition classify_replayed_governed_promotion_recovery_v1 (workflow : WorkflowInstanceV1)
    (query : RecordedPromotionRecoveryQueryV1)
    : Result RecordedPromotionRecoveryDecisionV1 Crash :=
  if rprq_schema_version query != RECORDED_PROMOTION_RECOVERY_SCHEMA_VERSION_V1 then
    Ok (promotion_blocked query PromotionRecoveryBlockReasonV1_UnsupportedSchemaVersion)
  else
  if negb (promotion_recovery_query_is_well_formed query) then
    Ok (promotion_blocked query PromotionRecoveryBlockReasonV1_MalformedQuery)
  else
  if negb (promotion_workflow_identity_matches_query workflow query) then
    Ok (promotion_blocked query PromotionRecoveryBlockReasonV1_WorkflowIdentityMismatch)
  else
  if negb (is_trusted_governed_recovery_workflow workflow None) then
    Ok (promotion_blocked query PromotionRecoveryBlockReasonV1_UnsupportedDispatch)
  else
  let_some candidate := wi_candidate workflow
    else (Ok (promotion_blocked query PromotionRecoveryBlockReasonV1_CandidateMissing)) ;;
  if (ca_candidate_digest candidate != rpri_candidate_digest (rprq_identity query))
     || (ca_envelope_digest candidate != wd_envelope_digest (wi_dispatch workflow)) then
    Ok (promotion_blocked query PromotionRecoveryBlockReasonV1_CandidateIdentityMismatch)
  else
  let_some promotion := wi_promotion workflow
    else (Ok (promotion_blocked query PromotionRecoveryBlockReasonV1_PromotionNotFound)) ;;
  let decision := ps_decision promotion in
  if negb (is_canonical_sha256_digest (pds_event_digest decision)) then
    Ok (promotion_blocked query PromotionRecoveryBlockReasonV1_MissingDecisionDigest)
  else
  if negb (promotion_decision_identity_matches_query decision query)
     || (pds_base_commit_sha decision != ca_base_commit_sha candidate)
     || (pds_envelope_digest decision != ca_envelope_digest candidate) then
    Ok (promotion_blocked query PromotionRecoveryBlockReasonV1_PromotionIdentityMismatch)
  else
  let_some result := ps_result promotion
    else (Ok (match pds_decision decision with
              | PromotionDecisionKindV1_Promote =>
                  promotion_reconciliation_required query None
                    PromotionRecoveryBlockReasonV1_PromotionResultMissing
              | PromotionDecisionKindV1_Reject => recorded_promotion_rejection query None None
              end)) ;;
  if negb (is_canonical_sha256_digest (prs_event_digest result)) then
    Ok (promotion_blocked query PromotionRecoveryBlockReasonV1_MissingResultDigest)
  else
  if negb (promotion_result_identity_matches_decision result decision) then
    Ok (promotion_blocked query PromotionRecoveryBlockReasonV1_ResultIdentityMismatch)
  else
  let recorded_result := recorded_promotion_result result in
  if promoted_result_declares_unreconciled_checkout result then
    Ok (promotion_reconciliation_required query (Some recorded_result)
          PromotionRecoveryBlockReasonV1_RecordedPromotionReconciliationRequired)
  else
  if negb (promotion_result_evidence_is_well_formed candidate decision result) then
    Ok (promotion_blocked query PromotionRecoveryBlockReasonV1_ContradictoryPromotionEvidence)
  else
  match pds_decision decision, prs_outcome result with
  | PromotionDecisionKindV1_Promote, PromotionResultOutcomeV1_Promoted =>
      if is_some (ps_reconciliation promotion) then
        Ok (promotion_blocked query PromotionRecoveryBlockReasonV1_ContradictoryPromotionEvidence)
      else
      Ok {| rprd_schema_version := RECORDED_PROMOTION_RECOVERY_SCHEMA_VERSION_V1;
            rprd_identity := rprq_identity query;
            rprd_disposition := PromotionRecoveryDispositionV1_ReuseRecordedPromotion;
            rprd_result := Some recorded_result;
            rprd_reconciliation := None;
            rprd_reason := None |}
  | PromotionDecisionKindV1_Promote, PromotionResultOutcomeV1_ReconciliationRequired =>
      classify_recorded_promotion_reconciliation query promotion recorded_result
  | (PromotionDecisionKindV1_Promote | PromotionDecisionKindV1_Reject),
      PromotionResultOutcomeV1_Rejected =>
      if is_some (ps_reconciliation promotion) then
        Ok (promotion_blocked query PromotionRecoveryBlockReasonV1_ContradictoryPromotionEvidence)
      else
      Ok (recorded_promotion_rejection query (Some recorded_result) None)
  | PromotionDecisionKindV1_Reject,
      (PromotionResultOutcomeV1_Promoted | PromotionResultOutcomeV1_ReconciliationRequired) =>
      Ok (promotion_blocked query PromotionRecoveryBlockReasonV1_ContradictoryPromotionEvidence)
  end.

Definition classify_recorded_governed_promotion_recovery_v1 (s : TrustedGovernedRecoverySnapshot)
    (query : RecordedPromotionRecoveryQueryV1) : Result RecordedPromotionRecoveryDecisionV1 Crash :=
  if rprq_schema_version query != RECORDED_PROMOTION_RECOVERY_SCHEMA_VERSION_V1 then
    Ok (promotion_blocked query PromotionRecoveryBlockReasonV1_UnsupportedSchemaVersion)
  else
  if negb (promotion_recovery_query_is_well_formed query) then
    Ok (promotion_blocked query PromotionRecoveryBlockReasonV1_MalformedQuery)
  else
  if rpri_run_id (rprq_identity query) != tgs_run_id s then
    Ok (promotion_blocked query PromotionRecoveryBlockReasonV1_SnapshotRunMismatch)
  else
  let_some workflow :=
    tgs_workflows_by_dispatch_event_ref s !! rpri_dispatch_event_ref (rprq_identity query)
    else (Ok (promotion_blocked query PromotionRecoveryBlockReasonV1_WorkflowNotFound)) ;;
  classify_replayed_governed_promotion_recovery_v1 workflow query.

(** ** Pending approvals *)

Definition check_approval_review (candidate : CandidateArtifactReplayState)
    (acceptance : CandidateAcceptanceReplayState)
    (review_ref : string)
    (review : ReviewVerdictReplayState)
    : Result unit PendingPromotionApprovalRecoveryBlockReasonV1 :=
  fail_if
      (rvs_review_version review != 2)
      || (rvs_decision review != ReviewDecisionV1_Approve)
    with PendingPromotionApprovalRecoveryBlockReasonV1_ReviewNotApproved ;;
  let* candidate_view := ok_or (rvs_candidate_view review)
      PendingPromotionApprovalRecoveryBlockReasonV1_ReviewEvidenceMissing in
  let* expected_candidate_view_digest := map_err (fun _ =>
      PendingPromotionApprovalRecoveryBlockReasonV1_ReviewEvidenceMissing)
          (candidate_view_v1_digest candidate_view) in
  let* expected_review_output_digest := map_err (fun _ =>
      PendingPromotionApprovalRecoveryBlockReasonV1_ReviewEvidenceMissing)
          (review_verdict_output_v1_digest {| rvo_candidate_digest := rvs_candidate_digest review;
     rvo_candidate_commit_sha := rvs_candidate_commit_sha review;
     rvo_decision := rvs_decision review;
     rvo_findings := rvs_findings review;
     rvo_confidence := rvs_confidence review;
     rvo_candidate_view_digest := expected_candidate_view_digest |}) in
  fail_if
      (rvs_review_ref review != review_ref)
      || (rvs_candidate_digest review != ca_candidate_digest candidate)
      || (rvs_candidate_commit_sha review != ca_candidate_commit_sha candidate)
      || (rvs_acceptance_ref review != Some (cas_acceptance_ref acceptance))
      || (rvs_acceptance_digest review != Some (cas_acceptance_digest acceptance))
      || (rvs_acceptance_contract_digest review != Some (cas_acceptance_contract_digest acceptance))
      || (rvs_candidate_envelope_digest review != Some (ca_envelope_digest candidate))
      || (negb (match rvs_reviewer_execution_role review with
      | Some (ExecutionRoleV1_Reviewer | ExecutionRoleV1_Adversary | ExecutionRoleV1_Judge) => true
      | _ => false
      end))
      || (negb (f64_is_finite (rvs_confidence review)))
      || (negb (f64_leb f64_zero (rvs_confidence review) && f64_leb (rvs_confidence review)
          f64_one))
      || (negb (is_canonical_sha256_digest (rvs_reviewer_manifest_digest review)))
      || (negb (forallb (fun digest =>
          is_some_and digest is_canonical_sha256_digest) [rvs_review_action_request_digest review;
              rvs_review_action_receipt_digest review; rvs_review_output_digest review;
                  rvs_reviewer_dispatch_envelope_digest review;
                      rvs_review_action_receipt_set_digest review; rvs_candidate_view_digest
                          review]))
      || (negb (forallb (fun value =>
          is_some_and value (fun value => negb (trim_is_empty value)))
              [rvs_review_verdict_action_id review; rvs_review_action_receipt_ref review;
                  rvs_review_output_ref review; rvs_reviewer_workflow_id review;
                      rvs_reviewer_unit_id review; rvs_review_action_receipt_set_ref review;
                          rvs_candidate_view_ref review; rvs_reviewer_authority review]))
      || (is_none_or (rvs_reviewer_attempt review) (fun attempt => attempt == 0))
      || (cview_candidate_ref candidate_view != ca_candidate_ref candidate)
      || (cview_candidate_digest candidate_view != ca_candidate_digest candidate)
      || (cview_candidate_commit_sha candidate_view != ca_candidate_commit_sha candidate)
      || (cview_tree_digest candidate_view != ca_tree_digest candidate)
      || (rvs_candidate_view_digest review != Some expected_candidate_view_digest)
      || (match rvs_review_output_semantic_digest review with
      | Some semantic_digest =>
          (semantic_digest != expected_review_output_digest)
          || (negb (is_canonical_sha256_digest semantic_digest))
      | None => rvs_review_output_digest review != Some expected_review_output_digest
      end)
      || (negb (cview_read_only candidate_view))
      || (negb (cview_network_disabled candidate_view))
      || (negb (forallb (fun digest =>
          is_canonical_sha256_digest digest) [cview_reviewer_context_manifest_digest
              candidate_view; cview_reviewer_sandbox_profile_digest candidate_view;
                  cview_mount_path_digest candidate_view]))
      || (negb (is_rfc3339_utc (rvs_reviewed_at review)))
    with PendingPromotionApprovalRecoveryBlockReasonV1_ReviewEvidenceMissing ;;
  Ok tt.

(** The loop over the review references; [review_refs] are those already seen. *)
Fixpoint check_approval_reviews (workflow : WorkflowInstanceV1)
    (candidate : CandidateArtifactReplayState) (acceptance : CandidateAcceptanceReplayState)
    (review_refs : gset string) (pending : list string)
    : Result unit PendingPromotionApprovalRecoveryBlockReasonV1 :=
  match pending with
  | [] => Ok tt
  | review_ref :: rest =>
      fail_if trim_is_empty review_ref || bool_decide (review_ref ∈ review_refs)
        with PendingPromotionApprovalRecoveryBlockReasonV1_ReviewEvidenceMissing ;;
      let* review := ok_or (wi_reviews workflow !! review_ref)
        PendingPromotionApprovalRecoveryBlockReasonV1_ReviewEvidenceMissing in
      let* _ := check_approval_review candidate acceptance review_ref review in
      check_approval_reviews workflow candidate acceptance ({[review_ref]} ∪ review_refs) rest
  end.

Definition validate_pending_promotion_approval_recovery_workflow (workflow : WorkflowInstanceV1)
    (approval : PromotionApprovalRequestReplayState)
    : Result unit PendingPromotionApprovalRecoveryBlockReasonV1 :=
  fail_if
      (negb (is_canonical_sha256_digest (pars_event_digest approval)))
      || (negb (is_canonical_sha256_digest (pars_candidate_digest approval)))
      || (negb (is_canonical_git_object_id (pars_base_commit_sha approval)))
      || (negb (is_canonical_target_ref (pars_target_ref approval)))
      || (negb (is_canonical_sha256_digest (pars_envelope_digest approval)))
      || (negb (strings_are_non_empty [pars_acceptance_ref approval; pars_requested_by approval;
          pars_idempotency_key approval]))
      || (negb (is_rfc3339_utc (pars_requested_at approval)))
    with PendingPromotionApprovalRecoveryBlockReasonV1_MalformedApprovalEvidence ;;
  let* candidate := ok_or (wi_candidate workflow)
      PendingPromotionApprovalRecoveryBlockReasonV1_CandidateMissing in
  fail_if
      (pars_candidate_digest approval != ca_candidate_digest candidate)
      || (pars_base_commit_sha approval != ca_base_commit_sha candidate)
      || (pars_envelope_digest approval != ca_envelope_digest candidate)
      || (negb (is_canonical_buildplane_candidate_ref (ca_candidate_ref candidate)))
      || (negb (is_canonical_sha256_digest (ca_candidate_digest candidate)))
      || (negb (is_canonical_git_object_id (ca_base_commit_sha candidate)))
      || (negb (is_canonical_git_object_id (ca_candidate_commit_sha candidate)))
      || (negb (forallb (fun digest =>
          is_canonical_sha256_digest digest) [ca_commit_digest candidate; ca_tree_digest
              candidate; ca_patch_digest candidate; ca_changed_files_digest candidate;
                  ca_envelope_digest candidate]))
    with PendingPromotionApprovalRecoveryBlockReasonV1_CandidateIdentityMismatch ;;
  let* completion := ok_or (wi_candidate_completion workflow)
      PendingPromotionApprovalRecoveryBlockReasonV1_CandidateCompletionMissing in
  let completion := ccs_completion completion in
  fail_if
      (ccr_run_id completion != wi_run_id workflow)
      || (ccr_workflow_id completion != wi_workflow_id workflow)
      || (ccr_unit_id completion != wi_unit_id workflow)
      || (ccr_attempt completion != wi_attempt workflow)
      || (ccr_provenance_ref completion != wd_provenance_ref (wi_dispatch workflow))
      || (ccr_candidate_created_event_ref completion != ca_event_id candidate)
      || (ccr_candidate_digest completion != ca_candidate_digest candidate)
      || (negb (strings_are_non_empty [ccr_candidate_create_action_id completion;
          ccr_action_receipt_ref completion]))
      || (negb (forallb (fun digest =>
          is_canonical_sha256_digest digest) [ccr_action_request_digest completion;
              ccr_activity_claim_event_digest completion; ccr_activity_result_event_digest
                  completion; ccr_action_receipt_digest completion; ccr_completion_digest
                      completion]))
      || (negb (is_rfc3339_utc (ccr_completed_at completion)))
    with PendingPromotionApprovalRecoveryBlockReasonV1_CandidateCompletionIdentityMismatch ;;
  let* expected_completion_digest := map_err (fun _ =>
      PendingPromotionApprovalRecoveryBlockReasonV1_CandidateCompletionIdentityMismatch)
          (candidate_completion_recorded_v1_digest completion) in
  fail_if ccr_completion_digest completion != expected_completion_digest
    with PendingPromotionApprovalRecoveryBlockReasonV1_CandidateCompletionIdentityMismatch ;;
  let* acceptance := ok_or (wi_acceptance workflow)
      PendingPromotionApprovalRecoveryBlockReasonV1_AcceptanceMissing in
  fail_if cas_outcome acceptance != CandidateAcceptanceOutcomeV1_Passed
    with PendingPromotionApprovalRecoveryBlockReasonV1_AcceptanceNotPassed ;;
  fail_if
      (cas_candidate_digest acceptance != ca_candidate_digest candidate)
      || (cas_candidate_commit_sha acceptance != ca_candidate_commit_sha candidate)
      || (cas_acceptance_ref acceptance != pars_acceptance_ref approval)
      || (cas_acceptance_contract_digest acceptance != wd_acceptance_contract_digest (wi_dispatch
          workflow))
      || (negb (is_canonical_sha256_digest (cas_acceptance_digest acceptance)))
      || (negb (is_rfc3339_utc (cas_evaluated_at acceptance)))
    with PendingPromotionApprovalRecoveryBlockReasonV1_AcceptanceIdentityMismatch ;;
  fail_if list_is_empty (pars_review_refs approval)
    with PendingPromotionApprovalRecoveryBlockReasonV1_ReviewEvidenceMissing ;;
  check_approval_reviews workflow candidate acceptance ∅ (pars_review_refs approval).

(** The order of the re-emitted work. *)
Definition approval_work_le (x y : PendingPromotionApprovalRecoveryWorkV1) : Prop :=
  match String.compare (ppaw_dispatch_event_ref x) (ppaw_dispatch_event_ref y) with
  | Lt => True
  | Eq => String.leb (ppaw_promotion_approval_request_event_ref x)
            (ppaw_promotion_approval_request_event_ref y) = true
  | Gt => False
  end.
#[local] Instance approval_work_le_dec x y : Decision (approval_work_le x y).
Proof. unfold approval_work_le. destruct (String.compare _ _); apply _. Defined.

(** The work re-emitted for a complete approval request. *)
Definition pending_approval_item (workflow : WorkflowInstanceV1)
    (approval : PromotionApprovalRequestReplayState) : PendingPromotionApprovalRecoveryWorkV1 :=
  {| ppaw_schema_version := PENDING_PROMOTION_APPROVAL_RECOVERY_WORK_SCHEMA_VERSION_V1;
     ppaw_run_id := wi_run_id workflow;
     ppaw_workflow_id := wi_workflow_id workflow;
     ppaw_workflow_revision := wi_workflow_revision workflow;
     ppaw_unit_id := wi_unit_id workflow;
     ppaw_attempt := wi_attempt workflow;
     ppaw_dispatch_event_ref := uuid_to_string (wd_event_id (wi_dispatch workflow));
     ppaw_dispatch_envelope_digest := wd_envelope_digest (wi_dispatch workflow);
     ppaw_candidate_digest := pars_candidate_digest approval;
     ppaw_base_commit_sha := pars_base_commit_sha approval;
     ppaw_target_ref := pars_target_ref approval;
     ppaw_promotion_approval_request_event_ref := uuid_to_string (pars_event_id approval);
     ppaw_promotion_approval_request_event_digest := pars_event_digest approval;
     ppaw_acceptance_ref := pars_acceptance_ref approval;
     ppaw_review_refs := pars_review_refs approval;
     ppaw_requested_by := pars_requested_by approval;
     ppaw_requested_at := pars_requested_at approval;
     ppaw_idempotency_key := pars_idempotency_key approval |}.

Definition pending_approval_work (workflow : WorkflowInstanceV1)
    : Result (list PendingPromotionApprovalRecoveryWorkV1) PendingPromotionApprovalRecoveryErrorV1 :=
  if wi_phase workflow != WorkflowPhaseV1_PromotionApprovalPending then Ok [] else
  some_or approval := wi_promotion_approval workflow
    with (PendingPromotionApprovalRecoveryErrorV1_PendingWorkflowMissingApproval
            (uuid_to_string (wd_event_id (wi_dispatch workflow)))) ;;
  if pars_event_digest approval == "" then Ok [] else
  let incomplete := PendingPromotionApprovalRecoveryErrorV1_IncompleteApprovalBlocked
    (uuid_to_string (pars_event_id approval)) in
  fail_if is_some (wi_promotion workflow) || is_some (wi_cancellation workflow)
          || is_some (wi_terminal workflow)
    with (incomplete PendingPromotionApprovalRecoveryBlockReasonV1_MalformedApprovalEvidence) ;;
  let* _ := map_err incomplete
    (validate_pending_promotion_approval_recovery_workflow workflow approval) in
  Ok [pending_approval_item workflow approval].

Definition pending_promotion_approval_recovery_work_v1 (s : TrustedGovernedRecoverySnapshot)
    : Result (list PendingPromotionApprovalRecoveryWorkV1) PendingPromotionApprovalRecoveryErrorV1 :=
  let* work := collect_items pending_approval_work (snapshot_workflows s) in
  Ok (merge_sort approval_work_le work).
End Recovery.
