(* ===== verification/WorkflowSpec.v ===== *)
(** * The governed workflow as an abstract machine

    What the reducer promises about one workflow instance, independently of how
    events are decoded and matched: the transitions of the trust spine, from
    dispatch to a terminal record, each with the evidence it requires.
    [WorkflowRefine] shows that every event the reducer applies is one of these
    steps (or leaves the workflow alone). *)
From S2P Require Import Prelude RustStr Host LedgerPayloads TrustSpine Digests Events ReplayState ReducerCore.
From stdpp Require Import base list gmap strings.

#[local] Open Scope string_scope.
#[local] Open Scope list_scope.
#[local] Open Scope Z_scope.

(** ** Identity *)

Definition key_of (w : WorkflowInstanceV1) : string :=
  workflow_instance_key (wi_workflow_id w) (wi_unit_id w) (wi_attempt w).

(** A workflow just admitted by a dispatch: no evidence yet. *)
Record freshly_dispatched (w : WorkflowInstanceV1) : Prop := {
  fd_phase : wi_phase w = WorkflowPhaseV1_Dispatched;
  fd_timers : wi_timers w = ∅;
  fd_cancellation : wi_cancellation w = None;
  fd_candidate : wi_candidate w = None;
  fd_completion : wi_candidate_completion w = None;
  fd_acceptance : wi_acceptance w = None;
  fd_reviews : wi_reviews w = ∅;
  fd_approval : wi_promotion_approval w = None;
  fd_promotion : wi_promotion w = None;
  fd_terminal : wi_terminal w = None;
  fd_receipt : wi_v5_admission_receipt w = None;
  fd_evidence : forall e, wi_action_evidence w = Some e ->
    aes_actions e = ∅ /\ aes_sealed_receipt_set e = None /\ aes_pending_action_ids e = [] /\
    aes_unknown_action_ids e = [] /\ aes_failed_action_ids e = [];
  fd_version : aes_action_evidence_version <$> wi_action_evidence w =
    wd_action_evidence_version (wi_dispatch w)
}.

(** ** Evidence required by the steps *)

Definition accepted (w : WorkflowInstanceV1) (acceptance_ref : string) : Prop :=
  exists a, wi_acceptance w = Some a /\ cas_outcome a = CandidateAcceptanceOutcomeV1_Passed /\
            cas_acceptance_ref a = acceptance_ref.

(** Every named review is on record, approving, and named once. *)
Definition reviewed (w : WorkflowInstanceV1) (refs : list string) : Prop :=
  refs <> [] /\ NoDup refs /\
  Forall (fun r => exists v, wi_reviews w !! r = Some v /\
                     rvs_decision v = ReviewDecisionV1_Approve) refs.

(** The decision names the candidate's digest, base and envelope. *)
Definition binds_candidate (w : WorkflowInstanceV1) (d : PromotionDecisionReplayState) : Prop :=
  exists c, wi_candidate w = Some c /\
    pds_candidate_digest d = ca_candidate_digest c /\
    pds_base_commit_sha d = ca_base_commit_sha c /\
    pds_envelope_digest d = ca_envelope_digest c.

Definition phase_of_review (d : ReviewDecisionV1) : WorkflowPhaseV1 :=
  match d with
  | ReviewDecisionV1_Approve => WorkflowPhaseV1_ReviewApproved
  | _ => WorkflowPhaseV1_Rejected
  end.

Definition phase_of_result (o : PromotionResultOutcomeV1) : WorkflowPhaseV1 :=
  match o with
  | PromotionResultOutcomeV1_Promoted => WorkflowPhaseV1_Promoted
  | PromotionResultOutcomeV1_ReconciliationRequired =>
      WorkflowPhaseV1_PromotionReconciliationRequired
  | PromotionResultOutcomeV1_Rejected => WorkflowPhaseV1_Rejected
  end.

Definition phase_of_terminal (o : WorkflowTerminalOutcomeV1) : WorkflowPhaseV1 :=
  match o with
  | WorkflowTerminalOutcomeV1_Completed => WorkflowPhaseV1_Completed
  | WorkflowTerminalOutcomeV1_Failed => WorkflowPhaseV1_Failed
  | WorkflowTerminalOutcomeV1_Cancelled => WorkflowPhaseV1_Cancelled
  end.

(** What a promotion result must prove about the merge it reports, when the
    decision named a target: the merge joins the base the candidate was cut from
    and the candidate's own commit, and its tree is the candidate's tree.  After a
    clean promotion the target points at that merge. *)
Definition merge_binds_candidate (w : WorkflowInstanceV1) (d : PromotionDecisionReplayState)
    (r : PromotionResultReplayState) : Prop :=
  exists head, prs_merged_head_sha r = Some head /\
  forall target, pds_target_ref d = Some target ->
  exists b c, prs_promotion_git_binding r = Some b /\ wi_candidate w = Some c /\
    pgb_target_ref b = target /\
    pgb_merged_head_sha b = Some head /\
    pgb_target_head_before_sha b = pds_base_commit_sha d /\
    pgb_merge_parent_shas b = Some [ca_base_commit_sha c; ca_candidate_commit_sha c] /\
    pgb_merged_tree_digest b = ca_tree_digest c /\
    (prs_outcome r = PromotionResultOutcomeV1_Promoted ->
     pgb_target_head_after_sha b = Some head).

(** ** Lookups across the projection *)

Definition claim_at (w : WorkflowInstanceV1) (id : string) : option ActivityClaimReplayState :=
  e ← wi_action_evidence w; a ← aes_actions e !! id; acts_activity_claim a.

Definition action_result (a : ActionReplayState) : option ActivityResultReplayState :=
  acts_activity_claim a ≫= acls_result.

(** No other action of the projection holds the run's lease on the same activity
    or idempotency key. *)
Definition fresh_claim (m : gmap string WorkflowInstanceV1) (k id : string)
    (c : ActivityClaimReplayState) : Prop :=
  forall k' w' id' c', m !! k' = Some w' -> claim_at w' id' = Some c' -> (k', id') <> (k, id) ->
    acls_run_id c' = acls_run_id c ->
    acls_activity_id c' <> acls_activity_id c /\ acls_idempotency_key c' <> acls_idempotency_key c.

(** Raw and governed workflows never share a run. *)
Definition same_trust (m : gmap string WorkflowInstanceV1) (w : WorkflowInstanceV1) : Prop :=
  forall k' w', m !! k' = Some w' -> wi_run_id w' = wi_run_id w ->
    wd_trust_tier (wi_dispatch w') = wd_trust_tier (wi_dispatch w).

(** No other workflow owns the candidate's digest, id or ref. *)
Definition fresh_candidate (m : gmap string WorkflowInstanceV1) (k : string)
    (c : CandidateArtifactReplayState) : Prop :=
  forall k' w' c', m !! k' = Some w' -> wi_candidate w' = Some c' -> k' <> k ->
    ca_candidate_digest c' <> ca_candidate_digest c /\
    ca_candidate_id c' <> ca_candidate_id c /\ ca_candidate_ref c' <> ca_candidate_ref c.

(** ** Steps of one action

    A write-ahead request, then at most one intent, authorization, execution
    lease, terminal result and receipt, in an order that never records work after
    its outcome. *)
Definition unstarted (a : ActionReplayState) : Prop :=
  acts_model_intent a = None /\ acts_model_authorization a = None /\
  acts_activity_claim a = None /\ acts_receipt a = None.

(** *** Leases *)

Definition receipt_agrees (r : ActionReceiptReplayState) (x : ActivityResultReplayState) : Prop :=
  match arxs_outcome x with
  | ActivityResultOutcomeV1_Succeeded =>
      arcs_outcome r = ActionReceiptOutcomeV2_Succeeded /\
      arcs_result_digest r = arxs_result_digest x /\ arcs_result_ref r = arxs_result_ref x
  | ActivityResultOutcomeV1_Failed => arcs_outcome r <> ActionReceiptOutcomeV2_Succeeded
  | ActivityResultOutcomeV1_Unknown => arcs_outcome r = ActionReceiptOutcomeV2_Unknown
  end.

(** *** Token accounting *)

(** Tokens a receipt reports, when it reports both counts. *)
Definition usage_tokens (u : ActionResourceUsageV1) : option Z :=
  match aru_input_tokens u, aru_output_tokens u with
  | Some input, Some output => Some (input + output)
  | _, _ => None
  end.

(** Tokens an action has consumed: those of its receipt, for a model action. *)
Definition action_tokens (a : ActionReplayState) : Z :=
  if arqs_action_kind (acts_request a) == ActionKindV1_Model
  then default 0 (acts_receipt a ≫= (fun r => usage_tokens (arcs_resource_usage r)))
  else 0.

Definition total_tokens (m : gmap string ActionReplayState) : Z :=
  foldr (fun kv total => action_tokens kv.2 + total) 0 (map_to_list m).

(** ** Labels

    The signed event a step applies, as a class so that the steps of a run read
    without it. *)
Class Label := {
  lbl_event : Event;
  lbl_signer : option ActorKeyRef
}.

(** The operator's decision that the event carries. *)
Definition decided_by_event `{Label} (d : PromotionDecisionReplayState) : Prop :=
  exists p, ev_payload lbl_event = Payload_PromotionDecisionRecordedV1 p /\
    pds_event_id d = ev_id lbl_event /\ pds_decision d = pdr_decision p /\
    pds_candidate_digest d = pdr_candidate_digest p /\
    pds_authority d = pdr_authority p /\ pds_decided_by d = pdr_decided_by p.

(** The review verdict that the event carries. *)
Definition reviewed_by_event `{Label} (v : ReviewVerdictReplayState) : Prop :=
  rvs_event_id v = ev_id lbl_event /\
  ((exists p, ev_payload lbl_event = Payload_ReviewVerdictRecordedV1 p /\
      rvs_decision v = rv1_decision p) \/
   (exists p, ev_payload lbl_event = Payload_ReviewVerdictRecordedV2 p /\
      rvs_decision v = rv2_decision p)).

(** The resolution of a promotion that the event carries. *)
Definition resolved_by_event `{Label} (x : PromotionReconciliationReplayState) : Prop :=
  exists p, ev_payload lbl_event = Payload_PromotionReconciliationResolvedV1 p /\
    precs_event_id x = ev_id lbl_event /\ precs_outcome x = prec_outcome p /\
    precs_authority x = prec_authority p /\ precs_resolved_by x = prec_resolved_by p.

(** The cancellation that the event carries. *)
Definition cancelled_by_event `{Label} (c : WorkflowCancellationReplayState) : Prop :=
  exists p, ev_payload lbl_event = Payload_WorkflowCancellationRequestedV1 p /\
    wcs_event_id c = ev_id lbl_event /\ wcs_cause c = wcr_cause p /\
    wcs_requested_by c = wcr_requested_by p.

(** The signer of the event reserved the lease, when that signer is on record. *)
Definition signed_by_holder `{Label} (c : ActivityClaimReplayState) : Prop :=
  forall s, acls_signer c = Some s -> lbl_signer = Some s.

(** The dispatch, or the request for approval, that the event carries. *)
Definition dispatched_by_event `{Label} (w : WorkflowInstanceV1) : Prop :=
  wd_event_id (wi_dispatch w) = ev_id lbl_event.
Definition requested_by_event `{Label} (a : PromotionApprovalRequestReplayState) : Prop :=
  pars_event_id a = ev_id lbl_event.

(** The graph that the event, in canonical form, declares under its key. *)
Definition declared_by_event `{Host, Canonicalizer} `{Label} (k : string)
    (g : WorkflowGraphV2ReplayState) : Prop :=
  exists p, ev_payload lbl_event = Payload_WorkflowGraphDeclaredV2 p /\
    is_ok (canonicalize lbl_event) = true /\
    k = workflow_graph_key (wg2s_run_id g) (wg2s_workflow_id g) (wg2s_workflow_revision g) /\
    wg2s_event_id g = ev_id lbl_event /\ wg2s_run_id g = wgd2_run_id p /\
    wg2s_workflow_id g = wgd2_workflow_id p /\
    wg2s_workflow_revision g = wgd2_workflow_revision p /\
    wg2s_nodes g = wgd2_nodes p /\ wg2s_max_concurrent g = wgd2_max_concurrent p.

Section Steps.
Context `{Host, Canonicalizer} {label : Label}.

(** A lease starts before it ends and ends inside the signed compute deadline. *)
Definition lease_within (w : WorkflowInstanceV1) (claimed_at expires_at : string) : Prop :=
  exists claimed expiry deadline,
    parse_rfc3339_utc claimed_at = Some claimed /\ parse_rfc3339_utc expires_at = Some expiry /\
    effective_dispatch_effect_deadline w = Some deadline /\ claimed < expiry <= deadline.

(** A heartbeat extends a lease that is still live. *)
Definition lease_extends (prior heartbeat_at next : string) : Prop :=
  exists t h t', parse_rfc3339_utc prior = Some t /\ parse_rfc3339_utc heartbeat_at = Some h /\
    parse_rfc3339_utc next = Some t' /\ h < t < t'.

(** An outcome is known only when it was recorded inside the lease. *)
Definition settles_in_time (c : ActivityClaimReplayState) (r : ActivityResultReplayState) : Prop :=
  exists claimed expiry recorded,
    parse_rfc3339_utc (acls_claimed_at c) = Some claimed /\
    parse_rfc3339_utc (acls_lease_expires_at c) = Some expiry /\
    parse_rfc3339_utc (arxs_recorded_at r) = Some recorded /\ claimed <= recorded /\
    (recorded < expiry \/ arxs_outcome r = ActivityResultOutcomeV1_Unknown).

(** A successful model receipt keeps the workflow inside its signed budget. *)
Definition within_budget (w : WorkflowInstanceV1) (actions : gmap string ActionReplayState)
    (id : string) (r : ActionReceiptReplayState) : Prop :=
  wd_trust_tier (wi_dispatch w) = TrustTierV1_Governed ->
  requires_activity_claim_result w = true ->
  forall max, db_max_tokens (wd_budget (wi_dispatch w)) = Some max ->
  exists used, usage_tokens (arcs_resource_usage r) = Some used /\
    total_tokens (delete id actions) + used <= max /\
    total_tokens (delete id actions) + used < 2 ^ 64.

(** Steps that record authority: they leave the recovery queues alone. *)
Inductive authority_step (w : WorkflowInstanceV1) : ActionReplayState -> ActionReplayState -> Prop :=
| action_intend a i :
    acts_model_intent a = None -> acts_receipt a = None -> action_result a = None ->
    arqs_action_kind (acts_request a) = ActionKindV1_Model ->
    authority_step w a {| a with acts_model_intent := Some i |}
| action_authorize a x :
    wi_phase w = WorkflowPhaseV1_Dispatched ->
    acts_model_authorization a = None -> acts_receipt a = None ->
    arqs_action_kind (acts_request a) = ActionKindV1_Model ->
    authority_step w a {| a with acts_model_authorization := Some x |}.

(** Steps that record effects, for the action [id] of workflow [k]. *)
Inductive effect_step (m : gmap string WorkflowInstanceV1) (k id : string)
    (w : WorkflowInstanceV1) : ActionReplayState -> ActionReplayState -> Prop :=
| action_claim a c :
    wi_phase w = WorkflowPhaseV1_Dispatched ->
    acts_activity_claim a = None -> acts_receipt a = None ->
    acls_heartbeats c = [] -> acls_result c = None ->
    acls_activity_id c = arqs_action_id (acts_request a) ->
    acls_idempotency_key c = arqs_idempotency_key (acts_request a) ->
    acls_action_request_event_id c = arqs_event_id (acts_request a) ->
    acls_action_request_digest c = arqs_action_request_digest (acts_request a) ->
    lease_within w (acls_claimed_at c) (acls_lease_expires_at c) ->
    fresh_claim m k id c -> acls_signer c = lbl_signer ->
    effect_step m k id w a {| a with acts_activity_claim := Some c |}
| action_extend a c h expiry :
    wi_phase w = WorkflowPhaseV1_Dispatched ->
    acts_activity_claim a = Some c -> acls_result c = None -> acts_receipt a = None ->
    ahs_claim_event_id h = acls_event_id c -> ahs_lease_id h = acls_lease_id c ->
    ahs_prior_lease_expires_at h = acls_lease_expires_at c ->
    expiry = ahs_lease_expires_at h ->
    lease_extends (acls_lease_expires_at c) (ahs_heartbeat_at h) expiry ->
    lease_within w (acls_claimed_at c) expiry -> signed_by_holder c ->
    effect_step m k id w a
      {| a with acts_activity_claim :=
           Some {| c with acls_heartbeats := acls_heartbeats c ++ [h];
                     acls_lease_expires_at := expiry |} |}
| action_settle a c r :
    acts_activity_claim a = Some c -> acls_result c = None -> acts_receipt a = None ->
    arxs_claim_event_id r = acls_event_id c -> arxs_lease_id r = acls_lease_id c ->
    arxs_idempotency_key r = acls_idempotency_key c -> settles_in_time c r ->
    signed_by_holder c ->
    effect_step m k id w a
      {| a with acts_activity_claim := Some {| c with acls_result := Some r |} |}
| action_receipt a r :
    wi_phase w = WorkflowPhaseV1_Dispatched \/
      (wi_phase w = WorkflowPhaseV1_CancellationRequested /\ action_result a <> None) ->
    acts_receipt a = None ->
    arcs_action_request_digest r = arqs_action_request_digest (acts_request a) ->
    arcs_idempotency_key r = arqs_idempotency_key (acts_request a) ->
    (requires_activity_claim_result w = true -> acts_activity_claim a <> None) ->
    (forall c, acts_activity_claim a = Some c ->
       exists x, acls_result c = Some x /\ receipt_agrees r x) ->
    (arqs_action_kind (acts_request a) = ActionKindV1_Model ->
     arcs_outcome r = ActionReceiptOutcomeV2_Succeeded ->
     exists x, acts_model_authorization a = Some x /\
       arcs_authorization_ref r = Some (maas_authorization_ref x)) ->
    effect_step m k id w a {| a with acts_receipt := Some r |}.

(** ** Steps of a workflow's action evidence *)

(** A receipt set lists exactly the recorded receipts, in key order. *)
Definition seals (e : ActionEvidenceReplayState) (s : ActionReceiptSetReplayState) : Prop :=
  Forall2 (fun entry '(id, a) => exists r, acts_receipt a = Some r /\ arse_action_id entry = id /\
             arse_action_receipt_ref entry = arcs_action_receipt_ref r /\
             arse_action_receipt_digest entry = arcs_action_receipt_digest r)
    (arss_receipts s) (btree_list (aes_actions e)).

Inductive evidence_step (m : gmap string WorkflowInstanceV1) (k : string)
    (w : WorkflowInstanceV1)
    : ActionEvidenceReplayState -> ActionEvidenceReplayState -> Prop :=
| evidence_request e id a :
    wi_phase w = WorkflowPhaseV1_Dispatched -> aes_sealed_receipt_set e = None ->
    aes_actions e !! id = None -> unstarted a -> arqs_action_id (acts_request a) = id ->
    (forall id' a', aes_actions e !! id' = Some a' ->
       arqs_idempotency_key (acts_request a') <> arqs_idempotency_key (acts_request a)) ->
    evidence_step m k w e
      (refresh_action_evidence_recovery {| e with aes_actions := <[id := a]> (aes_actions e) |})
| evidence_authority e id a a' :
    aes_sealed_receipt_set e = None ->
    aes_actions e !! id = Some a -> authority_step w a a' ->
    evidence_step m k w e {| e with aes_actions := <[id := a']> (aes_actions e) |}
| evidence_effect e id a a' :
    aes_sealed_receipt_set e = None \/ acts_receipt a' = None ->
    aes_actions e !! id = Some a -> effect_step m k id w a a' ->
    (forall r, acts_receipt a = None -> acts_receipt a' = Some r ->
       arqs_action_kind (acts_request a) = ActionKindV1_Model ->
       arcs_outcome r = ActionReceiptOutcomeV2_Succeeded ->
       within_budget w (aes_actions e) id r) ->
    evidence_step m k w e
      (refresh_action_evidence_recovery {| e with aes_actions := <[id := a']> (aes_actions e) |})
| evidence_seal e s :
    wi_phase w = WorkflowPhaseV1_Dispatched -> aes_sealed_receipt_set e = None ->
    aes_pending_action_ids e = [] -> aes_unknown_action_ids e = [] ->
    (requires_activity_claim_result w = true ->
     aes_failed_action_ids e = [] /\
     forall id a, aes_actions e !! id = Some a -> action_result a <> None) ->
    seals e s ->
    evidence_step m k w e {| e with aes_sealed_receipt_set := Some s |}.

(** When a terminal record may close a workflow. *)
Definition may_close (w : WorkflowInstanceV1) (o : WorkflowTerminalOutcomeV1) : Prop :=
  match o with
  | WorkflowTerminalOutcomeV1_Completed =>
      wi_phase w = WorkflowPhaseV1_Promoted /\ wi_cancellation w = None /\
      exists p r, wi_promotion w = Some p /\ ps_result p = Some r /\
        prs_outcome r = PromotionResultOutcomeV1_Promoted
  | WorkflowTerminalOutcomeV1_Failed | WorkflowTerminalOutcomeV1_Cancelled =>
      wi_phase w <> WorkflowPhaseV1_Promoted /\
      (wi_cancellation w <> None ->
       o = WorkflowTerminalOutcomeV1_Cancelled /\
       wi_phase w = WorkflowPhaseV1_CancellationRequested /\
       cancellation_effects_are_reconciled w = true) /\
      (forall p, wi_cancellation w = None -> wi_promotion w = Some p ->
       match ps_reconciliation p with
       | Some x => (precs_outcome x, o) =
                     (ReconciliationResolutionOutcomeV1_Abandon, WorkflowTerminalOutcomeV1_Failed) \/
                   (precs_outcome x, o) =
                     (ReconciliationResolutionOutcomeV1_Reject, WorkflowTerminalOutcomeV1_Cancelled)
       | None => match ps_result p with
                 | Some r => prs_outcome r <> PromotionResultOutcomeV1_ReconciliationRequired
                 | None => pds_decision (ps_decision p) <> PromotionDecisionKindV1_Promote
                 end
       end)
  end.

(** ** Steps of one workflow *)
Inductive wf_step (m : gmap string WorkflowInstanceV1) (k : string)
    : WorkflowInstanceV1 -> WorkflowInstanceV1 -> Prop :=
| step_actions w e e' :
    wi_action_evidence w = Some e -> evidence_step m k w e e' ->
    wf_step m k w {| w with wi_action_evidence := Some e' |}
| step_admission_receipt w r :
    wi_v5_admission_receipt w = None ->
    wf_step m k w {| w with wi_v5_admission_receipt := Some r |}
| step_timer w id t :
    wi_timers w !! id = None -> wtm_fired t = None ->
    workflow_lifecycle_control_is_allowed w = true ->
    wf_step m k w {| w with wi_timers := <[id := t]> (wi_timers w) |}
| step_timer_fired w id t f :
    wi_timers w !! id = Some t -> wtm_fired t = None ->
    workflow_lifecycle_control_is_allowed w = true ->
    wf_step m k w {| w with wi_timers := <[id := {| t with wtm_fired := Some f |}]> (wi_timers w) |}
| step_candidate w c :
    wi_candidate w = None -> wi_phase w = WorkflowPhaseV1_Dispatched ->
    wd_trust_tier (wi_dispatch w) = TrustTierV1_Governed ->
    wd_commit_mode (wi_dispatch w) = CommitModeV1_Atomic ->
    ca_base_commit_sha c = wd_base_commit_sha (wi_dispatch w) ->
    ca_envelope_digest c = wd_envelope_digest (wi_dispatch w) ->
    (3 <= wd_dispatch_version (wi_dispatch w) ->
     exists e s, wi_action_evidence w = Some e /\ aes_sealed_receipt_set e = Some s /\
       ca_action_receipt_set_ref c = Some (arss_action_receipt_set_ref s) /\
       ca_action_receipt_set_digest c = Some (arss_action_receipt_set_digest s)) ->
    fresh_candidate m k c ->
    wf_step m k w {| w with wi_candidate := Some c; wi_phase := WorkflowPhaseV1_CandidateCreated |}
| step_completion w c :
    wi_candidate_completion w = None -> wi_phase w = WorkflowPhaseV1_CandidateCreated ->
    requires_candidate_completion w = true ->
    wf_step m k w {| w with wi_candidate_completion := Some c |}
| step_acceptance w a phase :
    phase = match cas_outcome a with
            | CandidateAcceptanceOutcomeV1_Passed => WorkflowPhaseV1_AcceptancePassed
            | CandidateAcceptanceOutcomeV1_Rejected => WorkflowPhaseV1_Rejected
            end ->
    wi_acceptance w = None -> wi_phase w = WorkflowPhaseV1_CandidateCreated ->
    (exists c, wi_candidate w = Some c /\ cas_candidate_digest a = ca_candidate_digest c /\
       cas_candidate_commit_sha a = ca_candidate_commit_sha c) ->
    (requires_candidate_completion w = true -> wi_candidate_completion w <> None) ->
    cas_acceptance_contract_digest a = wd_acceptance_contract_digest (wi_dispatch w) ->
    wf_step m k w {| w with wi_acceptance := Some a;
                   wi_phase := phase |}
| step_review w r v phase :
    phase = phase_of_review (rvs_decision v) ->
    wi_reviews w !! r = None ->
    (exists a, wi_acceptance w = Some a /\ cas_outcome a = CandidateAcceptanceOutcomeV1_Passed) ->
    wi_phase w = WorkflowPhaseV1_AcceptancePassed \/
    wi_phase w = WorkflowPhaseV1_ReviewApproved ->
    (exists c, wi_candidate w = Some c /\ rvs_candidate_digest v = ca_candidate_digest c /\
       rvs_candidate_commit_sha v = ca_candidate_commit_sha c) ->
    (3 <= wd_dispatch_version (wi_dispatch w) -> rvs_review_version v = 2) ->
    reviewed_by_event v ->
    wf_step m k w {| w with wi_reviews := <[r := v]> (wi_reviews w);
                   wi_phase := phase |}
| step_approval w a :
    wi_promotion_approval w = None -> wi_phase w = WorkflowPhaseV1_ReviewApproved ->
    accepted w (pars_acceptance_ref a) -> reviewed w (pars_review_refs a) ->
    requested_by_event a ->
    wf_step m k w {| w with wi_promotion_approval := Some a;
                   wi_phase := WorkflowPhaseV1_PromotionApprovalPending |}
| step_promote w d :
    wi_promotion w = None -> wi_cancellation w = None ->
    match wi_promotion_approval w with
    | None => wi_phase w = WorkflowPhaseV1_ReviewApproved
    | Some a => wi_phase w = WorkflowPhaseV1_PromotionApprovalPending /\
        pds_promotion_approval_request_ref d = Some (uuid_to_string (pars_event_id a)) /\
        pds_target_ref d = Some (pars_target_ref a) /\
        pds_idempotency_key d = pars_idempotency_key a
    end ->
    pds_decision d = PromotionDecisionKindV1_Promote ->
    binds_candidate w d -> accepted w (pds_acceptance_ref d) -> reviewed w (pds_review_refs d) ->
    decided_by_event d ->
    wf_step m k w {| w with wi_promotion := Some {| ps_decision := d; ps_execution_claim := None;
                                                ps_result := None; ps_reconciliation := None |};
                   wi_phase := WorkflowPhaseV1_PromotionPending |}
| step_reject w d :
    wi_promotion w = None -> wi_cancellation w = None -> is_terminal (wi_phase w) = false ->
    pds_decision d = PromotionDecisionKindV1_Reject -> binds_candidate w d ->
    decided_by_event d ->
    wf_step m k w {| w with wi_promotion := Some {| ps_decision := d; ps_execution_claim := None;
                                                ps_result := None; ps_reconciliation := None |};
                   wi_phase := WorkflowPhaseV1_Rejected |}
| step_claim w p c :
    wi_promotion w = Some p -> ps_execution_claim p = None ->
    wi_phase w = WorkflowPhaseV1_PromotionPending -> wi_cancellation w = None ->
    pds_decision (ps_decision p) = PromotionDecisionKindV1_Promote ->
    pec_promotion_decision_event_ref (pecs_claim c) = pds_event_id (ps_decision p) ->
    pec_promotion_decision_event_digest (pecs_claim c) = pds_event_digest (ps_decision p) ->
    pec_idempotency_key (pecs_claim c) = pds_idempotency_key (ps_decision p) ->
    wf_step m k w {| w with wi_promotion := Some {| p with ps_execution_claim := Some c |} |}
| step_result w p r phase :
    phase = phase_of_result (prs_outcome r) ->
    wi_promotion w = Some p -> ps_result p = None -> wi_terminal w = None ->
    prs_candidate_digest r = pds_candidate_digest (ps_decision p) ->
    prs_idempotency_key r = pds_idempotency_key (ps_decision p) ->
    prs_promotion_decision_ref r = uuid_to_string (pds_event_id (ps_decision p)) ->
    (prs_outcome r <> PromotionResultOutcomeV1_Rejected ->
     pds_decision (ps_decision p) = PromotionDecisionKindV1_Promote /\
     merge_binds_candidate w (ps_decision p) r) ->
    (forall c, ps_execution_claim p = Some c ->
       exists b, prs_promotion_execution_lease_binding r = Some b /\
         pelb_promotion_execution_claim_event_ref b = pecs_event_id c /\
         pelb_promotion_execution_claim_event_digest b = pecs_event_digest c /\
         pelb_lease_id b = pec_lease_id (pecs_claim c)) ->
    wf_step m k w {| w with wi_promotion := Some {| p with ps_result := Some r |};
                   wi_phase := phase |}
| step_reconciliation w p r x :
    wi_promotion w = Some p -> ps_result p = Some r -> ps_reconciliation p = None ->
    wi_terminal w = None -> wi_phase w = WorkflowPhaseV1_PromotionReconciliationRequired ->
    prs_outcome r = PromotionResultOutcomeV1_ReconciliationRequired ->
    precs_authority x = precs_resolved_by x -> resolved_by_event x ->
    wf_step m k w {| w with wi_promotion := Some {| p with ps_reconciliation := Some x |};
                   wi_phase := WorkflowPhaseV1_PromotionReconciliationResolved |}
| step_cancel w c :
    wi_cancellation w = None -> workflow_lifecycle_control_is_allowed w = true ->
    cancelled_by_event c ->
    wf_step m k w {| w with wi_cancellation := Some c;
                   wi_phase := WorkflowPhaseV1_CancellationRequested |}
| step_terminal w t phase :
    phase = phase_of_terminal (wtrs_outcome t) ->
    wi_terminal w = None -> is_terminal (wi_phase w) = false ->
    may_close w (wtrs_outcome t) ->
    wtrs_candidate_digest t = ca_candidate_digest <$> wi_candidate w ->
    wtrs_promotion_result_ref t =
      (fun r => uuid_to_string (prs_event_id r)) <$> (wi_promotion w ≫= ps_result) ->
    wf_step m k w {| w with wi_terminal := Some t; wi_phase := phase |}.

(** ** Scheduling

    Workflows dispatched under one declaration of one graph. *)
Definition graph_bound (w : WorkflowInstanceV1) : bool :=
  (wd_dispatch_version (wi_dispatch w) =? 4) || (wd_dispatch_version (wi_dispatch w) =? 5).

Definition graph_peer (w w' : WorkflowInstanceV1) : bool :=
  (wi_run_id w' == wi_run_id w) && graph_bound w' &&
  (wi_workflow_id w' == wi_workflow_id w) &&
  (wi_workflow_revision w' == wi_workflow_revision w) &&
  (wd_workflow_graph_digest (wi_dispatch w') == wd_workflow_graph_digest (wi_dispatch w)) &&
  (wd_workflow_graph_declaration_event_ref (wi_dispatch w') ==
   wd_workflow_graph_declaration_event_ref (wi_dispatch w)).

Definition active_peer (w w' : WorkflowInstanceV1) : bool :=
  graph_peer w w' && negb (is_terminal (wi_phase w')).

(** The latest attempt at [unit_id] under the graph of [w]. *)
Definition latest_attempt (m : gmap string WorkflowInstanceV1) (w : WorkflowInstanceV1)
    (unit_id : string) (k' : string) (w' : WorkflowInstanceV1) : Prop :=
  m !! k' = Some w' /\ graph_peer w w' = true /\ wi_unit_id w' = unit_id /\
  forall k2 w2, m !! k2 = Some w2 -> graph_peer w w2 = true -> wi_unit_id w2 = unit_id ->
    wi_attempt w2 <= wi_attempt w'.

(** The graph lets [w] start: it has one node for the unit, with the dispatched
    role and packet, the latest attempt at every dependency is complete, and the
    concurrency limit is not reached. *)
Definition scheduled (m : gmap string WorkflowInstanceV1) (w : WorkflowInstanceV1)
    (g : WorkflowGraphV2ReplayState) : Prop :=
  exists node,
    List.filter (fun n => wgn2_unit_id n == wi_unit_id w) (wg2s_nodes g) = [node] /\
    wgn2_execution_role node = wd_execution_role (wi_dispatch w) /\
    wd_governed_packet_digest (wi_dispatch w) = Some (wgn2_governed_packet_digest node) /\
    Forall (fun unit_id => exists k' w', latest_attempt m w unit_id k' w' /\
              wi_phase w' = WorkflowPhaseV1_Completed) (wgn2_depends_on node) /\
    Z.of_nat (map_count (active_peer w) m) < wg2s_max_concurrent g.

(** A graph-bound workflow carries the declared graph it names and starts only
    when that graph lets it. *)
Definition admissible (gs : gmap string WorkflowGraphV2ReplayState)
    (m : gmap string WorkflowInstanceV1) (w : WorkflowInstanceV1) : Prop :=
  if graph_bound w then
    exists g, wi_workflow_graph w = Some g /\
      gs !! workflow_graph_key (wi_run_id w) (wi_workflow_id w) (wi_workflow_revision w) = Some g /\
      wd_workflow_graph_digest (wi_dispatch w) = Some (wg2s_graph_digest g) /\
      wd_workflow_graph_declaration_event_ref (wi_dispatch w) = Some (wg2s_event_id g) /\
      scheduled m w g
  else wi_workflow_graph w = None.

(** ** Steps of the projection *)
Inductive projection_step (gs : gmap string WorkflowGraphV2ReplayState)
    (m : gmap string WorkflowInstanceV1) : gmap string WorkflowInstanceV1 -> Prop :=
| projection_stutter : projection_step gs m m
| projection_admit w :
    m !! key_of w = None -> freshly_dispatched w -> same_trust m w -> admissible gs m w ->
    dispatched_by_event w ->
    projection_step gs m (<[key_of w := w]> m)
| projection_update k w w' :
    m !! k = Some w -> wf_step m k w w' -> projection_step gs m (<[k := w']> m).

(** The spine: the declared graphs, each declared once by a canonical event, and
    the workflows. *)
Definition Spine : Type :=
  gmap string WorkflowGraphV2ReplayState * gmap string WorkflowInstanceV1.

Inductive spine_step : relation Spine :=
| spine_declare gs m k g :
    gs !! k = None -> declared_by_event k g -> spine_step (gs, m) (<[k := g]> gs, m)
| spine_workflows gs m m' :
    projection_step gs m m' -> spine_step (gs, m) (gs, m').
End Steps.

(** Some event makes this step. *)
Definition any_step `{Host, Canonicalizer} (s s' : Spine) : Prop :=
  exists l : Label, spine_step (label := l) s s'.

Definition spine_of (st : ReplayState) : Spine :=
  (st_workflow_graphs_v2 st, st_workflow_instances st).
