(* ===== verification/WorkflowRefine.v ===== *)
(** * The reducer refines the abstract workflow machine

    Every event the reducer applies is one [spine_step] of [WorkflowSpec]:
    it admits a fresh workflow, performs one step of one workflow, or leaves the
    workflows alone.  One lemma per handler, then the dispatcher. *)
From S2P Require Import Prelude RustStr Host LedgerPayloads TrustSpine Digests Events ReplayState ReducerCore ReducerDispatch ReducerActions ReducerCandidates ReducerPromotion ReducerLifecycle Reducer WorkflowSpec.
From stdpp Require Import base list gmap strings.

#[local] Open Scope string_scope.
#[local] Open Scope list_scope.
#[local] Open Scope Z_scope.

(** [open_verdict H] inverts a verdict that ended in [Ok]. *)
Ltac open_verdict H :=
  cbv zeta in H; guards; subst.

(** [refold] undoes, in the updated record, the case analysis on its fields. *)
Ltac refold :=
  repeat match goal with
  | E : ?f ?w = Some ?c |- context [Some ?c] => is_var w; is_var c; rewrite <- E
  end.

(** What one applied event may do to the state: one step of the projection, after
    which the single-workflow compatibility view shows an entry of the projection
    (or, if no workflow was touched, what it showed before). *)
Definition refines `{Host, Canonicalizer} (event : Event) (signer : option ActorKeyRef)
    (st st' : ReplayState) : Prop :=
  spine_step (label := {| lbl_event := event; lbl_signer := signer |}) (spine_of st) (spine_of st') /\
  ((st_workflow_instances st' = st_workflow_instances st /\
    st_workflow_instance st' = st_workflow_instance st) \/
   exists k, st_workflow_instance st' = st_workflow_instances st' !! k /\
     is_Some (st_workflow_instances st' !! k)).

(** The view follows the workflow the handler synchronised. *)
Ltac synced :=
  right; eexists; split; [reflexivity|cbn];
  first [by rewrite lookup_insert_eq; eexists | by eexists].

(** [update_workflow] exhibits the step of the one workflow the handler updates. *)
Ltac update_workflow :=
  split; [|synced]; apply spine_workflows; eapply projection_update; [eassumption|]; cbn; refold.

Section Refine.
Context `{Host, Canonicalizer}.

Lemma timer_scheduled_refines st event p signer st' :
  workflow_timer_scheduled_v1_verdict st event p = Ok st' ->
  refines event signer st st'.
Proof.
  unfold workflow_timer_scheduled_v1_verdict. intros Hv. open_verdict Hv.
  update_workflow. by eapply step_timer.
Qed.

Lemma timer_fired_refines st event p signer st' :
  workflow_timer_fired_v1_verdict st event p = Ok st' ->
  refines event signer st st'.
Proof.
  unfold workflow_timer_fired_v1_verdict. intros Hv. open_verdict Hv.
  update_workflow. by eapply step_timer_fired.
Qed.

Lemma cancellation_refines st event p signer st' :
  ev_payload event = Payload_WorkflowCancellationRequestedV1 p ->
  workflow_cancellation_requested_v1_verdict st event p = Ok st' ->
  refines event signer st st'.
Proof.
  unfold workflow_cancellation_requested_v1_verdict. intros Hp Hv. open_verdict Hv.
  update_workflow. eapply step_cancel; try done. by exists p.
Qed.

(** The code's terminal check implies the closing condition of the machine. *)
Lemma terminal_valid_may_close w t v event :
  workflow_terminal_is_semantically_valid w t v event = true -> may_close w (wtfl_outcome t).
Proof.
  unfold workflow_terminal_is_semantically_valid.
  destruct (_ && _) eqn:Hcancel; intros Hv.
  { bool_simp.
    match goal with Ho : wtfl_outcome t = _ |- _ => rewrite Ho end. cbn.
    match goal with Hc : is_some_and (wi_cancellation w) _ = true |- _ =>
      apply is_some_and_true in Hc as (c & ? & _) end.
    split_and!; [congruence|auto|intros p Hn; congruence]. }
  destruct (is_some (wi_cancellation w)) eqn:Hc; [done|]. bool_simp.
  destruct (wi_promotion w) as [p|] eqn:Hp; cbn in Hv;
    [destruct (ps_reconciliation p) as [x|] eqn:Hx; destruct (ps_result p) as [r|] eqn:Hr|].
  - bool_simp. destruct (precs_outcome x) eqn:Hpx, (wtfl_outcome t) eqn:Ht; try done; cbn;
      (split_and!; [congruence|done|]); intros ? _ [= <-]%(eq_trans (eq_sym Hp));
      rewrite Hx, Hpx; auto.
  - done.
  - cbn in Hv. destruct (prs_outcome r == PromotionResultOutcomeV1_ReconciliationRequired) eqn:Ho;
      [done|].
    destruct (is_some (wtfl_reconciliation_resolution_ref t)); [done|].
    destruct (wtfl_outcome t); cbn in *; bool_simp; (split_and!; try done);
      [eauto|..]; intros ? _ [= <-]%(eq_trans (eq_sym Hp)); by rewrite Hx, Hr.
  - destruct (is_some (wtfl_reconciliation_resolution_ref t)); [done|].
    destruct (wtfl_outcome t); cbn in *; rewrite ?andb_false_r, ?andb_true_r in Hv; cbn in Hv;
      try done; bool_simp; (split_and!; try done);
      intros ? _ [= <-]%(eq_trans (eq_sym Hp)); by rewrite Hx, Hr.
  - destruct (is_some (wtfl_reconciliation_resolution_ref t)); [done|].
    destruct (wtfl_outcome t); cbn in *; rewrite ?andb_false_r, ?andb_true_r in Hv; cbn in Hv;
      try done; bool_simp; (split_and!; try done); congruence.
Qed.

Lemma terminal_refines st event t v signer st' :
  workflow_terminal_record_verdict st event t v = Ok st' ->
  refines event signer st st'.
Proof.
  unfold workflow_terminal_record_verdict. intros Hv. open_verdict Hv.
  all: match goal with Hw : _ !! _ = Some ?w, Ht : workflow_terminal_is_semantically_valid ?w _ _ _ = _ |- _ =>
    apply terminal_valid_may_close in Ht; split; [|synced];
    apply spine_workflows; eapply projection_update; [exact Hw|]; destruct w; cbn in *; subst end.
  all: eapply step_terminal; cbn; eauto.
  all: destruct wi_promotion as [pr|]; cbn in *; try congruence.
  all: by match goal with Ho : ps_result _ = _ |- _ => rewrite Ho end.
Qed.

(** ** Promotion *)

(** The duplicate-rejecting loop over review references checks exactly that
    they are distinct and on record. *)
Lemma review_refs_all_true reviews ok seen refs :
  review_refs_all reviews ok seen refs = true <->
  (forall r, r ∈ refs -> r ∉ seen) /\ NoDup refs /\
  Forall (fun r => exists v, reviews !! r = Some v /\ ok v = true) refs.
Proof.
  revert seen. induction refs as [|r refs IH]; intros seen; cbn.
  { split; [intros _|done]. split_and!; [by intros ? ?%elem_of_nil|constructor|constructor]. }
  rewrite !andb_true_iff, neqb_true, is_some_and_true, IH, NoDup_cons, Forall_cons. set_solver.
Qed.

Lemma review_refs_are_approved_reviewed w refs :
  list_is_empty refs = false -> review_refs_are_approved w refs = true -> reviewed w refs.
Proof.
  intros Hne (_ & Hnd & Hall)%review_refs_all_true. split_and!; [by destruct refs|done|].
  eapply Forall_impl; [exact Hall|]. intros r (v & Hv & Hok). bool_simp. eauto.
Qed.

Lemma approval_refines st event p signer st' :
  promotion_approval_requested_verdict st event p = Ok st' ->
  refines event signer st st'.
Proof.
  unfold promotion_approval_requested_verdict. intros Hv. open_verdict Hv.
  update_workflow.
  eapply step_approval; cbn; eauto using review_refs_are_approved_reviewed; by eexists.
Qed.

Lemma decision_refines st event p signer st' :
  ev_payload event = Payload_PromotionDecisionRecordedV1 p ->
  promotion_decision_verdict st event p = Ok st' ->
  refines event signer st st'.
Proof.
  unfold promotion_decision_verdict, promotion_decision_binds_approval_request.
  intros Hp Hv. destruct (pdr_decision p) eqn:Hd; open_verdict Hv; update_workflow.
  1, 2: eapply step_promote; cbn;
    [done|done| |done|by eexists|by eexists|by apply review_refs_are_approved_reviewed|by eexists].
  all: try (eapply step_reject; cbn; eauto 10; by eexists).
  all: match goal with E : wi_promotion_approval _ = _ |- _ => rewrite E in * end;
    cbn in *; bool_simp; auto.
Qed.

Lemma execution_claim_refines st event p signer st' :
  promotion_execution_claimed_v1_verdict st event p signer = Ok st' ->
  refines event signer st st'.
Proof.
  unfold promotion_execution_claimed_v1_verdict. intros Hv. open_verdict Hv.
  all: update_workflow; by eapply step_claim.
Qed.

(** The Git evidence of a merging result binds the candidate. *)
Lemma bound_merge_evidence_binds w p r pr states headless :
  promotion_result_has_bound_merge_evidence w pr p states headless = true ->
  prs_merged_head_sha r = prr_merged_head_sha p ->
  prs_promotion_git_binding r = prr_promotion_git_binding p ->
  (prs_outcome r = PromotionResultOutcomeV1_Promoted -> states = []) ->
  merge_binds_candidate w (ps_decision pr) r.
Proof.
  unfold promotion_result_has_bound_merge_evidence, merge_binds_candidate.
  intros Hv -> -> Hstates. destruct (prr_merged_head_sha p) as [head|] eqn:Hhead; [|done].
  destruct (negb _); [done|]. destruct (_ && _); [done|].
  exists head. split; [done|]. intros target Ht. rewrite Ht in Hv.
  apply is_some_and_true in Hv as (b & Hb & Hv). exists b. rewrite Hb.
  apply is_some_and_true in Hv as (c & Hc & Hv). exists c.
  destruct (pgb_target_head_after_sha b) as [after|]; [|done].
  destruct (pgb_merged_head_sha b) as [merged|]; [|done].
  destruct (pgb_merge_parent_shas b) as [parents|]; [|done].
  destruct (pgb_merged_tree_sha b); [|done]. destruct (pgb_promotion_receipt_ref b); [|done].
  bool_simp. split_and!; try congruence.
  - destruct parents as [|p1 [|p2 [|]]]; cbn in *; try done. congruence.
  - intros Hp. rewrite (Hstates Hp) in *.
    destruct (pgb_worktree_sync_state b) as [[]|]; cbn in *; bool_simp; congruence.
Qed.

Lemma result_valid_merge w p r pr :
  promotion_result_is_semantically_valid w pr p = true ->
  prs_merged_head_sha r = prr_merged_head_sha p ->
  prs_promotion_git_binding r = prr_promotion_git_binding p ->
  prs_outcome r = prr_outcome p ->
  prs_outcome r <> PromotionResultOutcomeV1_Rejected ->
  pds_decision (ps_decision pr) = PromotionDecisionKindV1_Promote /\
  merge_binds_candidate w (ps_decision pr) r.
Proof.
  unfold promotion_result_is_semantically_valid. intros Hv Hh Hb Ho Hne.
  destruct (pds_decision (ps_decision pr)), (prr_outcome p) eqn:Hp; try done;
    (split; [done|]); eapply bound_merge_evidence_binds; eauto; congruence.
Qed.

Lemma result_refines st event p signer st' :
  promotion_result_verdict st event p = Ok st' ->
  refines event signer st st'.
Proof.
  unfold promotion_result_verdict. intros Hv. open_verdict Hv.
  all: update_workflow; eapply step_result; cbn; eauto.
  all: try (intros; by eapply result_valid_merge).
  all: intros c Hc; simplify_eq; eauto.
Qed.

Lemma reconciliation_refines st event p signer st' :
  ev_payload event = Payload_PromotionReconciliationResolvedV1 p ->
  promotion_reconciliation_resolved_verdict st event p = Ok st' ->
  refines event signer st st'.
Proof.
  unfold promotion_reconciliation_resolved_verdict,
    promotion_reconciliation_is_semantically_valid. intros Hp Hv. open_verdict Hv.
  all: update_workflow; eapply step_reconciliation; try done; by exists p.
Qed.

(** ** Candidates, acceptance and review *)

Lemma candidate_scan_fresh m k c :
  map_any_kv (fun '(other_key, other) =>
    (other_key != k) && is_some_and (wi_candidate other) (fun candidate =>
      (ca_candidate_digest candidate == ca_candidate_digest c)
      || (ca_candidate_id candidate == ca_candidate_id c)
      || (ca_candidate_ref candidate == ca_candidate_ref c))) m = false ->
  fresh_candidate m k c.
Proof.
  rewrite map_any_kv_false. intros Hscan k' w' c' Hk Hc Hne.
  specialize (Hscan k' w' Hk). cbn in Hscan. rewrite Hc in Hscan. cbn in Hscan.
  destruct (bool_decide_reflect (k' = k)); [done|]. cbn in Hscan. bool_simp. auto.
Qed.

Lemma candidate_created_refines st event p signer st' :
  candidate_created_verdict st event p = Ok st' ->
  refines event signer st st'.
Proof.
  unfold candidate_created_verdict, candidate_matches_dispatch. intros Hv. open_verdict Hv.
  update_workflow. eapply step_candidate; cbn; eauto; [lia|]. by apply candidate_scan_fresh.
Qed.

Lemma candidate_created_v2_refines st event p signer st' :
  candidate_created_v2_verdict st event p = Ok st' ->
  refines event signer st st'.
Proof.
  unfold candidate_created_v2_verdict, candidate_v2_matches_dispatch.
  intros Hv. open_verdict Hv.
  update_workflow. eapply step_candidate; cbn; eauto; [|by apply candidate_scan_fresh].
  intros _. do 2 eexists. split_and!; eauto; congruence.
Qed.

Lemma completion_refines st event p signer st' :
  candidate_completion_recorded_v1_verdict st event p = Ok st' ->
  refines event signer st st'.
Proof.
  unfold candidate_completion_recorded_v1_verdict. intros Hv. open_verdict Hv.
  update_workflow. by eapply step_completion.
Qed.

(** [a && is_none o = false] is the code's "if [a] then [o] must be there". *)
Lemma required_evidence {A} (b : bool) (o : option A) :
  b && is_none o = false -> b = true -> o <> None.
Proof. by destruct o, b. Qed.

Lemma acceptance_refines st event p signer st' :
  candidate_acceptance_verdict st event p = Ok st' ->
  refines event signer st st'.
Proof.
  unfold candidate_acceptance_verdict. intros Hv. open_verdict Hv.
  update_workflow. eapply step_acceptance; cbn; eauto using required_evidence.
Qed.

Lemma review_refines st event p signer st' :
  ev_payload event = Payload_ReviewVerdictRecordedV1 p ->
  review_verdict_verdict st event p = Ok st' ->
  refines event signer st st'.
Proof.
  unfold review_verdict_verdict. intros Hp Hv. open_verdict Hv.
  update_workflow. eapply step_review; cbn; eauto; try lia.
  - destruct (wi_acceptance w) as [a|]; [|done]. exists a. cbn in *.
    by destruct (cas_outcome a).
  - destruct (wi_phase w); try done; auto.
  - split; [done|]. left. by exists p.
Qed.

Lemma review_v2_refines st event p signer st' :
  ev_payload event = Payload_ReviewVerdictRecordedV2 p ->
  review_verdict_v2_verdict st event p = Ok st' ->
  refines event signer st st'.
Proof.
  unfold review_verdict_v2_verdict. intros Hp Hv. open_verdict Hv.
  all: update_workflow; eapply step_review; cbn; eauto.
  all: try (split; [done|]; right; by exists p).
  all: match goal with |- context [wi_phase ?w] => destruct (wi_phase w); try done; auto end.
Qed.
End Refine.
