(* ===== verification/WorkflowRefineActions.v ===== *)
(** * The reducer refines the abstract machine: dispatch and action evidence

    The handlers of [ReducerDispatch] admit a fresh workflow or leave the
    workflows alone; the handlers of [ReducerActions] perform one
    [evidence_step] of one workflow. *)
From S2P Require Import Prelude RustStr Host LedgerPayloads TrustSpine Digests Events ReplayState ReducerCore ReducerDispatch ReducerActions WorkflowSpec WorkflowRefine.
From stdpp Require Import base list gmap strings.

#[local] Open Scope string_scope.
#[local] Open Scope list_scope.
#[local] Open Scope Z_scope.

Lemma dispatch_scope_same_trust `{Host, Canonicalizer} st event tier w u :
  validate_dispatch_run_scope st event tier = Ok u ->
  wi_run_id w = uuid_to_string (ev_run_id event) -> wd_trust_tier (wi_dispatch w) = tier ->
  same_trust (st_workflow_instances st) w.
Proof.
  unfold validate_dispatch_run_scope. intros Hv Hrun <- k' w' Hk' Hw'. cbv zeta in Hv. guards.
  match goal with Hx : existsb _ _ = false |- _ => rewrite <- not_true_iff_false, existsb_exists in Hx;
    apply dec_stable; intros Hne; apply Hx end.
  exists w'. split; [|by apply neqb_true].
  apply filter_In. split; [|apply bool_decide_eq_true; congruence].
  apply list_elem_of_In, list_elem_of_fmap. exists (k', w'). split; [done|].
  by apply elem_of_map_to_list.
Qed.

(** ** Graph schedules *)

Lemma max_by_attempt_latest l best w :
  max_by_attempt l best = Some w ->
  (w ∈ l \/ best = Some w) /\
  forall x, x ∈ l \/ best = Some x -> wi_attempt x <= wi_attempt w.
Proof.
  revert best. induction l as [|y l IH]; intros best Hm; cbn in Hm.
  { split; [by right|]. intros x [Hx|Hx]; [by apply elem_of_nil in Hx|]. simplify_eq. lia. }
  destruct (IH _ Hm) as [Hin Hmax]. clear IH Hm.
  destruct best as [b|]; [destruct (Z.ltb_spec (wi_attempt y) (wi_attempt b))|].
  all: split; [destruct Hin as [?|[= <-]]; set_solver|].
  all: intros x [[->|Hx]%elem_of_cons|Hx]; simplify_eq; auto.
  - specialize (Hmax b (or_intror eq_refl)). lia.
  - specialize (Hmax y (or_intror eq_refl)). lia.
Qed.

Lemma find_filter_singleton {A} (f : A -> bool) l a b :
  List.find f l = Some a -> List.filter f l = [b] -> a = b.
Proof.
  induction l as [|x l IH]; cbn; [done|]. destruct (f x); [|auto]. congruence.
Qed.

(** The fields of a graph-bound dispatch that the schedule reads. *)
Definition dispatched_under `{Host, Canonicalizer} (event : Event) (p : DispatchEnvelopeV4)
    (g : WorkflowGraphV2ReplayState) (w : WorkflowInstanceV1) : Prop :=
  let body := de3_body (de4_dispatch_v3 p) in
  graph_bound w = true /\ wi_workflow_graph w = Some g /\
  wi_run_id w = uuid_to_string (ev_run_id event) /\
  wi_workflow_id w = deb2_workflow_id body /\
  wi_workflow_revision w = deb2_workflow_revision body /\ wi_unit_id w = deb2_unit_id body /\
  wd_execution_role (wi_dispatch w) = deb2_execution_role body /\
  wd_governed_packet_digest (wi_dispatch w) = de3_governed_packet_digest (de4_dispatch_v3 p) /\
  wd_workflow_graph_digest (wi_dispatch w) = Some (de4_workflow_graph_digest p) /\
  wd_workflow_graph_declaration_event_ref (wi_dispatch w) =
    Some (de4_workflow_graph_declaration_event_ref p).

Section Schedule.
Context `{Host, Canonicalizer}.

Lemma same_graph_peer event p g w w' :
  dispatched_under event p g w ->
  wg2s_event_id g = de4_workflow_graph_declaration_event_ref p ->
  wg2s_graph_digest g = de4_workflow_graph_digest p ->
  is_same_graph_workflow event (de3_body (de4_dispatch_v3 p)) g w' = graph_peer w w'.
Proof.
  intros (_ & _ & Hrun & Hwf & Hrev & _ & _ & _ & Hdig & Hdecl) He Hg.
  unfold is_same_graph_workflow, event_matches_workflow_run, graph_peer, graph_bound.
  by rewrite Hrun, Hwf, Hrev, Hdig, Hdecl, He, Hg.
Qed.

Lemma elem_of_workflows (m : gmap string WorkflowInstanceV1) w :
  w ∈ (btree_list m).*2 <-> exists k, m !! k = Some w.
Proof.
  rewrite list_elem_of_fmap. split.
  - intros ([k a] & -> & Hk). exists k. by apply elem_of_btree_list.
  - intros [k Hk]. exists (k, w). split; [done|by apply elem_of_btree_list].
Qed.

(** The code picks the latest attempt at a dependency. *)
Lemma max_by_attempt_dependency (m : gmap string WorkflowInstanceV1) w f unit_id w' :
  (forall x, f x = graph_peer w x) ->
  max_by_attempt (List.filter (fun x => f x && (wi_unit_id x == unit_id)) (btree_list m).*2) None =
    Some w' ->
  exists k', latest_attempt m w unit_id k' w'.
Proof.
  intros Hf ([Hin|] & Hmax)%max_by_attempt_latest; [|done].
  assert (forall x, x ∈ List.filter (fun x => f x && (wi_unit_id x == unit_id)) (btree_list m).*2 <->
            (exists k, m !! k = Some x) /\ graph_peer w x = true /\ wi_unit_id x = unit_id) as Hx.
  { intros x. rewrite list_elem_of_In, filter_In, <- list_elem_of_In, elem_of_workflows.
    by rewrite andb_true_iff, bool_decide_eq_true, Hf. }
  apply Hx in Hin as ([k' Hk'] & Hp & Hu). exists k'. split_and!; [done..|].
  intros k2 w2 Hk2 Hp2 Hu2. apply Hmax. left. apply Hx. eauto.
Qed.

Lemma graph_schedule_admissible st event p g w u :
  validate_v4_graph_binding st event p = Ok g -> validate_v4_graph_schedule st event p = Ok u ->
  dispatched_under event p g w ->
  admissible (st_workflow_graphs_v2 st) (st_workflow_instances st) w.
Proof.
  unfold validate_v4_graph_binding, validate_v4_graph_schedule. intros Hb Hs Hd.
  pose proof Hd as (Hbound & Hg & Hrun & Hwf & Hrev & Hunit & Hrole & Hpkt & Hdig & Hdecl).
  cbv zeta in Hb, Hs. guards. case_match; [done|]. case_match; [|done]. guards. subst.
  pose proof (fun w' => same_graph_peer event p g w w' Hd ltac:(done) ltac:(done)) as Hpeer.
  rename select (List.find _ _ = Some _) into Hfind.
  rename select (List.filter _ _ = [_]) into Hnode.
  pose proof (find_filter_singleton _ _ _ _ Hfind Hnode) as ->.
  unfold admissible. rewrite Hbound. exists g. rewrite Hrun, Hwf, Hrev.
  split_and!; [done|done|congruence|congruence|].
  eexists. rewrite Hunit. split_and!; [done|congruence|congruence| |].
  - rename select (for_each _ _ = Ok _) into Hdeps. apply for_each_ok in Hdeps.
    eapply Forall_impl; [exact Hdeps|]. intros dep Hdep. cbn in Hdep. guards.
    match goal with Hm : max_by_attempt _ _ = Some ?w' |- _ =>
      destruct (max_by_attempt_dependency _ w _ _ _ Hpeer Hm) as [k' Hk']; eauto end.
  - rewrite <- map_count_btree. erewrite List.filter_ext; [eassumption|].
    intros w'. cbn. unfold active_peer. by rewrite Hpeer.
Qed.
End Schedule.

(** [admit_workflow] closes the two ways a dispatch is applied: a repeated
    dispatch changes no workflow, a new one admits a fresh workflow. *)
Ltac admit_workflow :=
  split; [apply spine_workflows; cbn in *|synced];
  first [ apply projection_stutter
        | match goal with |- projection_step _ _ (<[_ := ?w]> _) =>
            eapply (projection_admit _ _ w);
              [assumption
              |constructor; cbn; try reflexivity; intros e [= <-]; by cbn
              |by eapply dispatch_scope_same_trust
              |first [reflexivity|by eapply graph_schedule_admissible; cbn]
              |reflexivity]
          end ].

(** Records of a handler that touches other tables only. *)
Ltac other_table := split; [cbn; apply spine_workflows, projection_stutter|by left].

Section RefineDispatch.
Context `{Host, Canonicalizer}.

Lemma dispatch_v1_refines st event p signer st' :
  dispatch_envelope_verdict st event p = Ok st' ->
  refines event signer st st'.
Proof.
  unfold dispatch_envelope_verdict. intros Hv. open_verdict Hv; admit_workflow.
Qed.

Lemma dispatch_v2_refines st event p signer st' :
  dispatch_envelope_v2_verdict st event p = Ok st' ->
  refines event signer st st'.
Proof.
  unfold dispatch_envelope_v2_verdict. intros Hv. open_verdict Hv; admit_workflow.
Qed.

Lemma dispatch_v3_refines st event p signer st' :
  dispatch_envelope_v3_verdict st event p = Ok st' ->
  refines event signer st st'.
Proof.
  unfold dispatch_envelope_v3_verdict. intros Hv. open_verdict Hv; admit_workflow.
Qed.

Lemma dispatch_v4_refines st event p graph signer st' :
  dispatch_envelope_v4_precheck st event p = Ok graph ->
  dispatch_envelope_v4_verdict st event p graph = Ok st' ->
  refines event signer st st'.
Proof.
  unfold dispatch_envelope_v4_precheck, dispatch_envelope_v4_verdict.
  intros Hg Hv. cbv zeta in Hv. guards; subst; admit_workflow.
Qed.

Lemma dispatch_v5_refines st event p signer digest graph manifests st' :
  dispatch_envelope_v5_precheck st event p signer = Ok (digest, graph, manifests) ->
  dispatch_envelope_v5_verdict st event p signer digest graph manifests = Ok st' ->
  refines event signer st st'.
Proof.
  unfold dispatch_envelope_v5_precheck, dispatch_envelope_v5_verdict.
  intros Hg Hv. cbv zeta in Hv. guards; simplify_eq; admit_workflow.
Qed.

Lemma admission_receipt_refines st event p signer st' :
  governed_dispatch_v5_admission_recorded_v1_verdict st event p signer = Ok st' ->
  refines event signer st st'.
Proof.
  unfold governed_dispatch_v5_admission_recorded_v1_verdict. intros Hv. cbv zeta in Hv.
  destruct (filter_keys _ _) as [|k [|]] in Hv; guards; try discriminate; subst.
  all: try (split; [apply spine_workflows, projection_stutter|synced]).
  update_workflow. eapply step_admission_receipt. cbn in *. by simplify_option_eq.
Qed.

(** Declarations and attempt contexts live in tables of their own. *)
Lemma graph_v1_refines st event p signer st' :
  workflow_graph_declared_v1_verdict st event p = Ok st' ->
  refines event signer st st'.
Proof. unfold workflow_graph_declared_v1_verdict. intros Hv. open_verdict Hv; other_table. Qed.

Lemma graph_v2_refines st event p signer st' :
  ev_payload event = Payload_WorkflowGraphDeclaredV2 p ->
  workflow_graph_declared_v2_verdict st event p = Ok st' ->
  refines event signer st st'.
Proof.
  unfold workflow_graph_declared_v2_verdict. intros Hp Hv. open_verdict Hv.
  split; [|by left]. apply spine_declare; [done|]. exists p. cbn.
  match goal with Hc : canonicalize _ = Ok _ |- _ => rewrite Hc end. by rewrite Hp.
Qed.

Lemma context_manifest_refines st event p signer st' :
  context_manifest_declared_v1_verdict st event p signer = Ok st' ->
  refines event signer st st'.
Proof. unfold context_manifest_declared_v1_verdict. intros Hv. open_verdict Hv; other_table. Qed.

Lemma worker_manifest_refines st event p signer st' :
  worker_manifest_declared_v1_verdict st event p signer = Ok st' ->
  refines event signer st st'.
Proof. unfold worker_manifest_declared_v1_verdict. intros Hv. open_verdict Hv; other_table. Qed.

Lemma sandbox_profile_refines st event p signer st' :
  sandbox_profile_declared_v1_verdict st event p signer = Ok st' ->
  refines event signer st st'.
Proof. unfold sandbox_profile_declared_v1_verdict. intros Hv. open_verdict Hv; other_table. Qed.

Lemma attempt_context_declared_refines st event p signer st' :
  attempt_context_declared_v1_verdict st event p signer = Ok st' ->
  refines event signer st st'.
Proof. unfold attempt_context_declared_v1_verdict. intros Hv. open_verdict Hv; other_table. Qed.

Lemma attempt_context_recorded_refines st event p signer st' :
  attempt_context_recorded_v1_verdict st event p = Ok st' ->
  refines event signer st st'.
Proof.
  unfold attempt_context_recorded_v1_verdict. intros Hv. open_verdict Hv.
  destruct (List.filter _ _) as [|action [|]] in Hv; guards; try discriminate; subst.
  all: other_table.
Qed.
End RefineDispatch.

(** [guards_on H] inverts the early returns of [H] only, leaving the checks bound
    by [let*] as hypotheses. *)
Ltac guards_on H :=
  repeat match type of H with
  | Ok _ = Ok _ => apply Ok_inj in H
  | result_bind _ _ = Ok _ =>
      apply bind_ok in H; destruct H as (? & ? & H); cbn beta iota in H
  | (if ?b then _ else _) = Ok _ => destruct b eqn:? in H; try discriminate H
  | match ?o with Some _ => _ | None => _ end = Ok _ =>
      first [ match goal with E : o = _ |- _ => rewrite E in H; cbn beta iota in H end
            | destruct o eqn:? in H ]; try discriminate H
  end.

(** [evidence_update] exhibits the step of the one workflow's action evidence. *)
Ltac evidence_update :=
  update_workflow; eapply step_actions; [eassumption|].

Section RefineActions.
Context `{Host, Canonicalizer}.

Lemma request_refines st event p signer st' :
  action_requested_v2_verdict st event p = Ok st' ->
  refines event signer st st'.
Proof.
  unfold action_requested_v2_verdict. intros Hv. open_verdict Hv.
  all: evidence_update; eapply evidence_request; cbn; eauto; try by split_and!.
  all: intros id' a' Ha'; rewrite map_any_false in *; cbn in *.
  all: match goal with Hall : forall _ _, _ -> _ = false |- _ =>
         specialize (Hall _ _ Ha'); by bool_simp end.
Qed.

Lemma intent_refines st event p signer st' :
  model_action_intent_v1_verdict st event p = Ok st' ->
  refines event signer st st'.
Proof.
  unfold model_action_intent_v1_verdict. intros Hv. open_verdict Hv.
  all: evidence_update; eapply evidence_authority; [done|eassumption|].
  all: by apply action_intend.
Qed.

Lemma authorized_v1_refines st event p signer st' :
  model_action_authorized_v1_verdict st event p = Ok st' ->
  refines event signer st st'.
Proof.
  unfold model_action_authorized_v1_verdict. intros Hv. open_verdict Hv.
  all: evidence_update; eapply evidence_authority; [done|eassumption|].
  all: by apply action_authorize.
Qed.

Lemma authorized_v2_refines st event p signer st' :
  model_action_authorized_v2_verdict st event p = Ok st' ->
  refines event signer st st'.
Proof.
  unfold model_action_authorized_v2_verdict. intros Hv. open_verdict Hv.
  all: evidence_update; eapply evidence_authority; [done|eassumption|].
  all: by apply action_authorize.
Qed.

(** The scan of all leases of the projection. *)
Lemma claim_scan_fresh m k id c :
  map_any_kv (fun '(other_key, workflow) =>
    is_some_and (wi_action_evidence workflow) (fun evidence =>
      map_any_kv (fun '(other_action_id, action) =>
        ((other_key != k) || (other_action_id != id))
        && (is_some_and (acts_activity_claim action) (fun claim =>
          (acls_run_id claim == acls_run_id c)
          && ((acls_activity_id claim == acls_activity_id c)
          || (acls_idempotency_key claim == acls_idempotency_key c)))))
        (aes_actions evidence))) m = false ->
  fresh_claim m k id c.
Proof.
  rewrite map_any_kv_false. intros Hscan k' w' id' c' Hk Hc Hne Hrun.
  specialize (Hscan k' w' Hk). unfold claim_at in Hc. cbn in Hscan.
  destruct (wi_action_evidence w') as [e|]; [|done]. cbn in *.
  destruct (aes_actions e !! id') as [a|] eqn:Ha; [|done]. cbn in Hc.
  rewrite map_any_kv_false in Hscan. specialize (Hscan id' a Ha). cbn in Hscan.
  rewrite Hc in Hscan. cbn in Hscan. rewrite (bool_decide_eq_true_2 _ Hrun) in Hscan.
  destruct (bool_decide_reflect (k' = k)), (bool_decide_reflect (id' = id)); subst;
    try done; cbn in Hscan; bool_simp; auto.
Qed.

Lemma claim_timestamps_lease w request event p b :
  activity_claim_timestamps_are_valid w request event p b = true ->
  lease_within w (acl_claimed_at p) (acl_lease_expires_at p).
Proof.
  unfold activity_claim_timestamps_are_valid, lease_within. intros Hv.
  repeat match type of Hv with match ?o with Some _ => _ | None => _ end = true =>
    destruct o eqn:?; [|done] end.
  bool_simp. eauto 10.
Qed.

Lemma claimed_refines st event p signer st' :
  activity_claimed_v1_verdict st event p signer = Ok st' ->
  refines event signer st st'.
Proof.
  unfold activity_claimed_v1_verdict, activity_claim_matches_action.
  intros Hv. open_verdict Hv.
  all: evidence_update; eapply evidence_effect; [by left|eassumption| |cbn; congruence].
  all: apply action_claim; cbn; eauto using claim_timestamps_lease; by apply claim_scan_fresh.
Qed.

Lemma heartbeat_timestamps_lease w c event p :
  activity_heartbeat_timestamps_are_valid w c event p = true ->
  lease_extends (acls_lease_expires_at c) (ahb_heartbeat_at p) (ahb_lease_expires_at p) /\
  lease_within w (acls_claimed_at c) (ahb_lease_expires_at p).
Proof.
  unfold activity_heartbeat_timestamps_are_valid, lease_extends, lease_within. intros Hv.
  repeat match type of Hv with match ?o with Some _ => _ | None => _ end = true =>
    destruct o eqn:?; [|done] end.
  cbv zeta in Hv. bool_simp. split; [eauto 10|].
  do 3 eexists. split_and!; eauto. lia.
Qed.

Lemma heartbeat_refines st event p signer st' :
  activity_heartbeat_recorded_v1_verdict st event p signer = Ok st' ->
  refines event signer st st'.
Proof.
  unfold activity_heartbeat_recorded_v1_verdict, activity_heartbeat_matches_claim.
  intros Hv. open_verdict Hv.
  all: match goal with Ht : activity_heartbeat_timestamps_are_valid _ _ _ _ = true |- _ =>
         apply heartbeat_timestamps_lease in Ht as [? ?] end.
  all: evidence_update; cbn; rewrite ?insert_insert_eq.
  all: eapply evidence_effect; [by left|eassumption| |cbn; congruence].
  all: eapply action_extend; cbn; eauto; intros ? ?; cbn in *; congruence.
Qed.

Lemma result_timestamp_settles c event p b r :
  activity_result_timestamp_is_valid c event p b = true ->
  arxs_recorded_at r = arx_recorded_at p -> arxs_outcome r = arx_outcome p ->
  settles_in_time c r.
Proof.
  unfold activity_result_timestamp_is_valid, settles_in_time. intros Hv -> ->.
  repeat match type of Hv with match ?o with Some _ => _ | None => _ end = true =>
    destruct o eqn:?; [|done] end.
  bool_simp. do 3 eexists. split_and!; eauto.
  match goal with Hor : _ || _ = true |- _ => apply orb_true_iff in Hor as [?|?] end;
    bool_simp; auto.
Qed.

Lemma activity_result_refines st event p signer st' :
  activity_result_recorded_v1_verdict st event p signer = Ok st' ->
  refines event signer st st'.
Proof.
  unfold activity_result_recorded_v1_verdict, activity_result_matches_claim.
  intros Hv. open_verdict Hv.
  all: evidence_update; eapply evidence_effect; [by right|eassumption| |cbn; congruence].
  all: eapply action_settle; cbn; eauto using result_timestamp_settles.
  all: intros ? ?; cbn in *; congruence.
Qed.

(** *** Receipts *)

Lemma claim_receipt_agrees c p b r :
  activity_claim_result_matches_receipt c p b = true ->
  arcs_outcome r = arr2_outcome p -> arcs_result_digest r = arr2_result_digest p ->
  arcs_result_ref r = arr2_result_ref p ->
  exists x, acls_result c = Some x /\ receipt_agrees r x.
Proof.
  unfold activity_claim_result_matches_receipt, receipt_agrees. intros Hv -> -> ->.
  destruct (acls_result c) as [x|]; [|done]. exists x. split; [done|].
  destruct (b && _); [done|]. destruct b, (arxs_outcome x); bool_simp; auto; congruence.
Qed.

Lemma tokens_permutation (l l' : list (string * ActionReplayState)) :
  l ≡ₚ l' ->
  foldr (fun kv total => action_tokens kv.2 + total) 0 l =
  foldr (fun kv total => action_tokens kv.2 + total) 0 l'.
Proof. induction 1; cbn; lia. Qed.

Lemma model_receipt_token_total_ok u label t :
  model_receipt_token_total u label = Ok (Some t) -> usage_tokens u = Some t.
Proof.
  unfold model_receipt_token_total, usage_tokens, checked_add_u64.
  destruct (aru_input_tokens u), (aru_output_tokens u); try done.
  destruct (_ <? _); congruence.
Qed.

Lemma checked_add_u64_ok a b c : checked_add_u64 a b = Some c -> c = a + b /\ c < 2 ^ 64.
Proof. unfold checked_add_u64. destruct (_ <? _) eqn:?; [|done]. bool_simp. intros [= <-]. lia. Qed.

(** The accounting loop adds up the tokens of every other model action. *)
Lemma prior_model_tokens_ok id l start total :
  prior_model_tokens id l start = Ok total ->
  total = start + foldr (fun kv acc => action_tokens kv.2 + acc) 0
                    (List.filter (fun kv => kv.1 != id) l).
Proof.
  revert start. induction l as [|[i a] l IH]; intros start; cbn; [intros [= <-]; lia|].
  destruct (bool_decide_reflect (i = id)) as [->|Hi]; cbn; [apply IH|].
  unfold action_tokens at 1. cbn.
  destruct (bool_decide_reflect (arqs_action_kind (acts_request a) = ActionKindV1_Model)); cbn;
    [|intros ->%IH; lia].
  destruct (acts_receipt a) as [r|]; cbn; [|intros ->%IH; lia].
  intros Hv. guards. subst. apply IH in Hv. subst.
  match goal with Ht : model_receipt_token_total _ _ = _ |- _ =>
    rewrite (model_receipt_token_total_ok _ _ _ Ht) end.
  match goal with Ha : checked_add_u64 _ _ = _ |- _ => apply checked_add_u64_ok in Ha end.
  cbn. lia.
Qed.

Lemma other_actions_tokens id (m : gmap string ActionReplayState) :
  foldr (fun kv acc => action_tokens kv.2 + acc) 0
    (List.filter (fun kv => kv.1 != id) (btree_list m)) = total_tokens (delete id m).
Proof.
  apply tokens_permutation, NoDup_Permutation.
  - apply NoDup_ListNoDup, List.NoDup_filter, NoDup_ListNoDup, NoDup_btree_list.
  - apply NoDup_map_to_list.
  - intros [i a]. rewrite elem_of_map_to_list, lookup_delete_Some, list_elem_of_In, filter_In,
      <- list_elem_of_In, elem_of_btree_list. cbn. rewrite neqb_true. naive_solver.
Qed.

Lemma token_budget_within w e id p r x :
  validate_governed_model_token_budget w e id p = Ok x ->
  arcs_resource_usage r = arr2_resource_usage p ->
  within_budget w (aes_actions e) id r.
Proof.
  unfold validate_governed_model_token_budget, within_budget. intros Hv -> Hg Hs max Hmax.
  rewrite Hg, Hs, Hmax, (bool_decide_eq_true_2 _ eq_refl) in Hv. cbn in Hv. guards. subst.
  match goal with Ht : model_receipt_token_total _ _ = _ |- _ =>
    apply model_receipt_token_total_ok in Ht end.
  match goal with Ht : prior_model_tokens _ _ _ = _ |- _ =>
    apply prior_model_tokens_ok in Ht; rewrite other_actions_tokens in Ht end.
  match goal with Ht : checked_add_u64 _ _ = _ |- _ => apply checked_add_u64_ok in Ht end.
  eexists. split_and!; [eassumption|lia..].
Qed.

(** The phase and cancellation checks on a receipt. *)
Lemma receipt_phase_ok (w : WorkflowInstanceV1) a :
  (wi_phase w != WorkflowPhaseV1_Dispatched)
    && negb (wi_phase w == WorkflowPhaseV1_CancellationRequested) = false ->
  (wi_phase w == WorkflowPhaseV1_CancellationRequested)
    && is_none (acts_activity_claim a ≫= (fun claim => acls_result claim)) = false ->
  wi_phase w = WorkflowPhaseV1_Dispatched \/
  (wi_phase w = WorkflowPhaseV1_CancellationRequested /\ action_result a <> None).
Proof.
  unfold action_result. intros Hp Hr.
  destruct (bool_decide_reflect (wi_phase w = WorkflowPhaseV1_Dispatched)) as [|]; [auto|].
  destruct (bool_decide_reflect (wi_phase w = WorkflowPhaseV1_CancellationRequested)); [|done].
  cbn in Hr. bool_simp. right. split; [done|].
  destruct (acts_activity_claim a); cbn in *; congruence.
Qed.

Lemma receipt_result_required (w : WorkflowInstanceV1) a :
  requires_activity_claim_result w
    && is_none (acts_activity_claim a ≫= (fun claim => acls_result claim)) = false ->
  requires_activity_claim_result w = true -> acts_activity_claim a <> None.
Proof. intros Hr Hw Hc. by rewrite Hw, Hc in Hr. Qed.

Lemma receipt_refines st event p signer st' :
  action_receipt_recorded_v2_verdict st event p = Ok st' ->
  refines event signer st st'.
Proof.
  unfold action_receipt_recorded_v2_verdict, action_receipt_matches_request.
  intros Hv. cbv zeta in Hv. guards_on Hv. bool_simp. subst.
  evidence_update; eapply evidence_effect; [by left|eassumption| |].
  - eapply action_receipt; cbn; eauto using receipt_phase_ok, receipt_result_required.
    + intros c Hc.
      match goal with Hm : context [activity_claim_result_matches_receipt] |- _ =>
        rewrite Hc in Hm; guards_on Hm end.
      bool_simp. by eapply claim_receipt_agrees.
    + intros Hk Ho.
      match goal with Hauth : context [acts_model_authorization] |- _ =>
        rewrite Hk, Ho, !(bool_decide_eq_true_2 _ eq_refl) in Hauth; cbn [andb] in Hauth; guards_on Hauth end; bool_simp; eauto.
  - cbn. intros r _ [= <-] Hk Ho. cbn in Ho.
    match goal with Hb : context [validate_governed_model_token_budget] |- _ =>
      rewrite Hk, Ho, !(bool_decide_eq_true_2 _ eq_refl) in Hb; cbn [andb] in Hb; guards_on Hb end.
    eapply token_budget_within; [|done]. by eapply map_err_ok.
Qed.

Lemma seal_refines st event p signer st' :
  action_receipt_set_recorded_v1_verdict st event p = Ok st' ->
  refines event signer st st'.
Proof.
  unfold action_receipt_set_recorded_v1_verdict. intros Hv. cbv zeta in Hv. guards_on Hv.
  bool_simp. subst. evidence_update; eapply evidence_seal; cbn; eauto.
  - intros Hw.
    match goal with Hs : (if requires_activity_claim_result _ then _ else _) = _ |- _ =>
      rewrite Hw in Hs; guards_on Hs end.
    bool_simp. split; [done|]. intros id act Ha. rewrite map_all_true in *.
    match goal with Hall : forall _ _, _ -> is_some _ = true |- _ => specialize (Hall _ _ Ha) end.
    bool_simp. unfold action_result. destruct (acts_activity_claim act); cbn in *; congruence.
  - apply Forall_zip_Forall2; [by rewrite length_btree_list|].
    match goal with Hf : for_each _ _ = _ |- _ => apply for_each_ok in Hf;
      eapply Forall_impl; [exact Hf|] end.
    intros [entry [id act]] Hok. cbn in Hok. guards_on Hok. bool_simp. eauto.
Qed.
End RefineActions.
