(* ===== verification/WorkflowReplay.v ===== *)
(** * Replaying a tape refines the abstract machine

    The dispatcher of the reducer, event by event and over whole tapes. *)
From S2P Require Import Prelude RustStr Host LedgerPayloads TrustSpine Digests Events ReplayState ReducerCore ReducerDispatch ReducerActions ReducerCandidates ReducerPromotion ReducerLifecycle Reducer WorkflowSpec WorkflowRefine WorkflowRefineActions.
From stdpp Require Import base list gmap strings relations.

#[local] Open Scope string_scope.
#[local] Open Scope list_scope.
#[local] Open Scope Z_scope.

(** The compatibility view shows an entry of the projection, or nothing while the
    projection is empty.  A state restored from before the projection existed
    violates it until [ensure_workflow_instances] has migrated it. *)
Definition view_coherent (st : ReplayState) : Prop :=
  match st_workflow_instance st with
  | Some w => exists k, st_workflow_instances st !! k = Some w
  | None => st_workflow_instances st = ∅
  end.

(** Applying signed events in order. *)
Definition replay `{Host, Canonicalizer} (st : ReplayState)
    (tape : list (Event * option ActorKeyRef)) : ReplayState :=
  foldl (fun st '(event, signer) => apply_with_verified_signer st event signer) st tape.

#[export] Hint Resolve timer_scheduled_refines timer_fired_refines cancellation_refines
  terminal_refines approval_refines decision_refines execution_claim_refines result_refines
  reconciliation_refines candidate_created_refines candidate_created_v2_refines
  completion_refines acceptance_refines review_refines review_v2_refines dispatch_v1_refines
  dispatch_v2_refines dispatch_v3_refines dispatch_v4_refines dispatch_v5_refines
  admission_receipt_refines graph_v1_refines graph_v2_refines context_manifest_refines
  worker_manifest_refines sandbox_profile_refines attempt_context_declared_refines
  attempt_context_recorded_refines request_refines intent_refines authorized_v1_refines
  authorized_v2_refines claimed_refines heartbeat_refines activity_result_refines
  receipt_refines seal_refines : guarded.

Create HintDb handlers discriminated.
#[export] Hint Unfold apply_acceptance_recorded apply_action_receipt_recorded_v2
  apply_action_receipt_set_recorded_v1 apply_action_requested_v2 apply_activity_claimed_v1
  apply_activity_completed apply_activity_heartbeat_recorded_v1 apply_activity_result_recorded_v1
  apply_activity_started apply_attempt_context_declared_v1 apply_attempt_context_recorded_v1
  apply_candidate_acceptance apply_candidate_completion_recorded_v1 apply_candidate_created
  apply_candidate_created_v2 apply_context_manifest_declared_v1 apply_dispatch_envelope
  apply_dispatch_envelope_v2 apply_dispatch_envelope_v3 apply_dispatch_envelope_v4
  apply_dispatch_envelope_v5 apply_git_checkpoint apply_governed_dispatch_v5_admission_recorded_v1
  apply_model_action_authorized_v1 apply_model_action_authorized_v2 apply_model_action_intent_v1
  apply_plan_admitted apply_plan_receipt apply_promotion_approval_requested
  apply_promotion_decision apply_promotion_execution_claimed_v1
  apply_promotion_reconciliation_resolved apply_promotion_result apply_review_verdict
  apply_review_verdict_v2 apply_run_completed apply_run_failed apply_run_started
  apply_sandbox_profile_declared_v1 apply_tool_request apply_tool_result apply_unit_cancelled
  apply_unit_completed apply_unit_failed apply_unit_started apply_worker_manifest_declared_v1
  apply_workflow_cancellation_requested_v1 apply_workflow_graph_declared_v1
  apply_workflow_graph_declared_v2 apply_workflow_terminal apply_workflow_terminal_v2
  apply_workflow_timer_fired_v1 apply_workflow_timer_scheduled_v1 apply_workspace_write
  apply_workflow_terminal_record : handlers.

Section Replay.
Context `{Host, Canonicalizer}.

Lemma refines_same event signer st st' :
  st_workflow_instances st' = st_workflow_instances st ->
  st_workflow_instance st' = st_workflow_instance st ->
  st_workflow_graphs_v2 st' = st_workflow_graphs_v2 st -> refines event signer st st'.
Proof.
  intros Hi Hv Hg. split; [|by left]. unfold spine_of. rewrite Hi, Hg. do 2 constructor.
Qed.

Lemma finish_refines st event signer v :
  (forall st', v = Ok st' -> refines event signer st st') -> refines event signer st (finish st event v).
Proof.
  intros Hok. destruct v as [st'|[]]; cbn; [by apply Hok|..]; by apply refines_same.
Qed.

Lemma ensure_coherent st : view_coherent st -> ensure_workflow_instances st = st.
Proof.
  unfold view_coherent, ensure_workflow_instances, map_is_empty.
  destruct (map_to_list _) eqn:Hm; [|done]. apply map_to_list_empty_iff in Hm.
  destruct (st_workflow_instance st) as [w|]; [|done]. intros [k Hk]. rewrite Hm in Hk. done.
Qed.

Lemma refines_coherent event signer st st' : refines event signer st st' -> view_coherent st -> view_coherent st'.
Proof.
  unfold view_coherent. intros [_ [[-> ->]|(k & -> & w & Hk)]]; [done|].
  rewrite Hk. by exists k.
Qed.

Lemma activity_started_refines st event p signer st' :
  activity_started_verdict st event p = Ok st' -> refines event signer st st'.
Proof.
  unfold activity_started_verdict. intros Hv. open_verdict Hv; by apply refines_same.
Qed.

Lemma activity_completed_refines st event p signer st' :
  activity_completed_verdict st event p = Ok st' -> refines event signer st st'.
Proof.
  unfold activity_completed_verdict. intros Hv. open_verdict Hv; by apply refines_same.
Qed.

Hint Resolve activity_started_refines activity_completed_refines : guarded.

(** The dispatcher, on a coherent state. *)
Lemma apply_refines st event signer :
  view_coherent st -> refines event signer st (apply_with_verified_signer st event signer).
Proof.
  intros Hst. unfold apply_with_verified_signer.
  destruct (ev_payload event) eqn:Hpayload; try by apply refines_same.
  all: repeat first
    [ by apply refines_same
    | apply finish_refines; by eauto with guarded
    | progress (autounfold with handlers; cbv beta zeta)
    | rewrite (ensure_coherent _ Hst)
    | match goal with |- refines _ _ _ (match ?v with _ => _ end) => destruct v eqn:? end ].
Qed.

Lemma apply_coherent st event signer :
  view_coherent st -> view_coherent (apply_with_verified_signer st event signer).
Proof. intros Hst. eapply refines_coherent; [by apply apply_refines|done]. Qed.

Lemma default_coherent : view_coherent default_replay_state.
Proof. done. Qed.

Lemma replay_coherent st tape : view_coherent st -> view_coherent (replay st tape).
Proof.
  revert st. induction tape as [|[event signer] tape IH]; intros st Hst; [done|].
  by apply IH, apply_coherent.
Qed.

(** Every state a tape reaches is reached by steps of the abstract machine. *)
Lemma replay_steps st tape :
  view_coherent st ->
  rtc any_step (spine_of st) (spine_of (replay st tape)).
Proof.
  revert st. induction tape as [|[event signer] tape IH]; intros st Hst; [constructor|].
  eapply rtc_l; [eexists; by apply apply_refines|]. by apply IH, apply_coherent.
Qed.
End Replay.
