(* ===== verification/WorkflowEvolution.v ===== *)
(** * Recorded evidence never changes

    [evolves w w'] says that a workflow only gained evidence: every record of [w]
    is in [w'] unchanged.  It is a preorder that every step of the machine
    respects. *)
From S2P Require Import Prelude RustStr Host LedgerPayloads TrustSpine Digests Events ReplayState ReducerCore WorkflowSpec.
From stdpp Require Import base list gmap strings relations.

#[local] Open Scope string_scope.
#[local] Open Scope list_scope.
#[local] Open Scope Z_scope.

(** ** Set-once fields *)

Definition kept {A} (o o' : option A) : Prop := forall a, o = Some a -> o' = Some a.

#[export] Instance kept_preorder {A} : PreOrder (@kept A).
Proof. split; [by intros o a|]. intros o1 o2 o3 H1 H2 a Ha. auto. Qed.

Lemma kept_none {A} (o o' : option A) : o = None -> kept o o'.
Proof. intros -> a Ha. discriminate. Qed.

(** A field whose record may itself gain evidence, ordered by [R]. *)
Definition kept_by {A} (R : relation A) (o o' : option A) : Prop :=
  forall a, o = Some a -> exists a', o' = Some a' /\ R a a'.

#[export] Instance kept_by_preorder {A} (R : relation A) `{!PreOrder R} : PreOrder (kept_by R).
Proof.
  split; [intros o a Ha; by exists a|]. intros o1 o2 o3 H1 H2 a Ha.
  destruct (H1 a Ha) as (b & Hb & Hab). destruct (H2 b Hb) as (c & Hc & Hbc).
  exists c. split; [done|]. by etransitivity.
Qed.

(** A map whose entries only gain evidence. *)
Definition map_kept_by {A} (R : relation A) (m m' : gmap string A) : Prop :=
  forall k, kept_by R (m !! k) (m' !! k).

#[export] Instance map_kept_by_preorder {A} (R : relation A) `{!PreOrder R} :
  PreOrder (map_kept_by R).
Proof.
  split; [intros m k; reflexivity|]. intros m1 m2 m3 H1 H2 k. by transitivity (m2 !! k).
Qed.

Lemma map_kept_by_insert {A} (R : relation A) `{!PreOrder R} (m : gmap string A) k a :
  kept_by R (m !! k) (Some a) -> map_kept_by R m (<[k := a]> m).
Proof.
  intros Hk k'. destruct (decide (k = k')) as [<-|Hne].
  - by rewrite lookup_insert_eq.
  - rewrite lookup_insert_ne by done. reflexivity.
Qed.

(** ** The evidence of one workflow *)

Record timer_evolves (t t' : WorkflowTimerReplayState) : Prop := {
  te_schedule : {| t' with wtm_fired := None |} = {| t with wtm_fired := None |};
  te_fired : kept (wtm_fired t) (wtm_fired t')
}.

(** A record for which [settled] holds never changes again. *)
Definition final {A} (settled : A -> bool) (a a' : A) : Prop := settled a = true -> a' = a.

#[export] Instance final_preorder {A} (settled : A -> bool) : PreOrder (final settled).
Proof.
  split; [by intros a|]. intros a b c Hab Hbc Ha. rewrite <- (Hab Ha). apply Hbc. by rewrite (Hab Ha).
Qed.

(** A lease keeps its identity; its expiry moves with its heartbeats until its
    result is on record. *)
Record claim_evolves (c c' : ActivityClaimReplayState) : Prop := {
  ce_identity :
    {| c' with acls_heartbeats := []; acls_lease_expires_at := ""; acls_result := None |} =
    {| c with acls_heartbeats := []; acls_lease_expires_at := ""; acls_result := None |};
  ce_heartbeats : acls_heartbeats c `prefix_of` acls_heartbeats c';
  ce_result : kept (acls_result c) (acls_result c');
  ce_final : final (fun c => is_some (acls_result c)) c c'
}.

Record action_evolves (a a' : ActionReplayState) : Prop := {
  ae_request : acts_request a' = acts_request a;
  ae_intent : kept (acts_model_intent a) (acts_model_intent a');
  ae_authorization : kept (acts_model_authorization a) (acts_model_authorization a');
  ae_claim : kept_by claim_evolves (acts_activity_claim a) (acts_activity_claim a');
  ae_receipt : kept (acts_receipt a) (acts_receipt a');
  ae_final : final (fun a => is_some (acts_receipt a)) a a'
}.

Record evidence_evolves (e e' : ActionEvidenceReplayState) : Prop := {
  ee_version : aes_action_evidence_version e' = aes_action_evidence_version e;
  ee_sealed : kept (aes_sealed_receipt_set e) (aes_sealed_receipt_set e');
  ee_actions : map_kept_by action_evolves (aes_actions e) (aes_actions e')
}.

Record promotion_evolves (p p' : PromotionReplayState) : Prop := {
  pe_decision : ps_decision p' = ps_decision p;
  pe_claim : kept (ps_execution_claim p) (ps_execution_claim p');
  pe_result : kept (ps_result p) (ps_result p');
  pe_reconciliation : kept (ps_reconciliation p) (ps_reconciliation p')
}.

Record evolves (w w' : WorkflowInstanceV1) : Prop := {
  ev_identity :
    (wi_run_id w', wi_workflow_id w', wi_workflow_revision w', wi_unit_id w', wi_attempt w') =
    (wi_run_id w, wi_workflow_id w, wi_workflow_revision w, wi_unit_id w, wi_attempt w);
  ev_dispatch : wi_dispatch w' = wi_dispatch w;
  ev_authority : (wi_workflow_graph w', wi_manifest_declarations w', wi_retry_context w') =
    (wi_workflow_graph w, wi_manifest_declarations w, wi_retry_context w);
  ev_receipt : kept (wi_v5_admission_receipt w) (wi_v5_admission_receipt w');
  ev_actions : kept_by evidence_evolves (wi_action_evidence w) (wi_action_evidence w');
  ev_timers : map_kept_by timer_evolves (wi_timers w) (wi_timers w');
  ev_cancellation : kept (wi_cancellation w) (wi_cancellation w');
  ev_candidate : kept (wi_candidate w) (wi_candidate w');
  ev_completion : kept (wi_candidate_completion w) (wi_candidate_completion w');
  ev_acceptance : kept (wi_acceptance w) (wi_acceptance w');
  ev_reviews : wi_reviews w ⊆ wi_reviews w';
  ev_approval : kept (wi_promotion_approval w) (wi_promotion_approval w');
  ev_promotion : kept_by promotion_evolves (wi_promotion w) (wi_promotion w');
  ev_terminal : kept (wi_terminal w) (wi_terminal w')
}.

(** [evidence_order] proves that such a record of orders is a preorder. *)
Ltac evidence_order :=
  split; [intros x; constructor; reflexivity
         |intros x y z [] []; constructor; etransitivity; eassumption].

#[export] Instance timer_evolves_preorder : PreOrder timer_evolves.
Proof. evidence_order. Qed.
#[export] Instance claim_evolves_preorder : PreOrder claim_evolves.
Proof. evidence_order. Qed.
#[export] Instance action_evolves_preorder : PreOrder action_evolves.
Proof. evidence_order. Qed.
#[export] Instance evidence_evolves_preorder : PreOrder evidence_evolves.
Proof. evidence_order. Qed.
#[export] Instance promotion_evolves_preorder : PreOrder promotion_evolves.
Proof. evidence_order. Qed.
#[export] Instance evolves_preorder : PreOrder evolves.
Proof. evidence_order. Qed.

(** ** Every step only adds evidence *)
Section Steps.
Context `{Host, Canonicalizer} {label : Label}.

(** [add_evidence] closes the fields a step leaves alone. *)
Ltac add_evidence :=
  constructor; cbn; try reflexivity; try (by apply kept_none);
  try match goal with E : ?f ?a = None |- final _ ?a _ => unfold final; by rewrite E end.

Lemma authority_step_evolves w a a' : authority_step w a a' -> action_evolves a a'.
Proof. destruct 1; add_evidence. Qed.

Lemma claim_absent (o : option ActivityClaimReplayState) o' :
  o = None -> kept_by claim_evolves o o'.
Proof. intros -> a Ha. discriminate. Qed.

Lemma effect_step_evolves m k id w a a' : effect_step m k id w a a' -> action_evolves a a'.
Proof.
  destruct 1; add_evidence.
  - by apply claim_absent.
  - intros c' Hc. simplify_eq. eexists; split; [done|]. add_evidence. by apply prefix_app_r.
  - intros c' Hc. simplify_eq. eexists; split; [done|]. add_evidence.
Qed.

Lemma refresh_keeps e :
  let e' := refresh_action_evidence_recovery e in
  aes_actions e' = aes_actions e /\ aes_sealed_receipt_set e' = aes_sealed_receipt_set e /\
  aes_action_evidence_version e' = aes_action_evidence_version e.
Proof.
  unfold refresh_action_evidence_recovery. cbn. by destruct (foldl _ _ _) as [[??]?].
Qed.

Lemma refresh_evolves e e' :
  evidence_evolves e e' -> evidence_evolves e (refresh_action_evidence_recovery e').
Proof.
  destruct (refresh_keeps e') as (Ha & Hs & Hv). intros [].
  constructor; by rewrite ?Ha, ?Hs, ?Hv.
Qed.

Lemma action_update_evolves (actions : gmap string ActionReplayState) id a a' :
  actions !! id = Some a -> action_evolves a a' ->
  map_kept_by action_evolves actions (<[id := a']> actions).
Proof.
  intros Hid Ha. apply map_kept_by_insert; [apply _|]. intros b Hb. simplify_eq. eauto.
Qed.

Lemma evidence_step_evolves m k w e e' : evidence_step m k w e e' -> evidence_evolves e e'.
Proof.
  destruct 1; try apply refresh_evolves; add_evidence.
  - apply map_kept_by_insert; [apply _|]. intros b Hb. congruence.
  - eapply action_update_evolves; eauto using authority_step_evolves.
  - eapply action_update_evolves; eauto using effect_step_evolves.
Qed.

Lemma wf_step_evolves m k w w' : wf_step m k w w' -> evolves w w'.
Proof.
  destruct 1; add_evidence.
  - intros e0 He. simplify_eq. eauto using evidence_step_evolves.
  - apply map_kept_by_insert; [apply _|]. intros b Hb. congruence.
  - apply map_kept_by_insert; [apply _|]. intros b Hb. simplify_eq.
    eexists; split; [done|]. add_evidence.
  - by apply insert_subseteq.
  - intros p0 Hp. congruence.
  - intros p0 Hp. congruence.
  - intros p0 Hp. simplify_eq. eexists; split; [done|]. add_evidence.
  - intros p0 Hp. simplify_eq. eexists; split; [done|]. add_evidence.
  - intros p0 Hp. simplify_eq. eexists; split; [done|]. add_evidence.
Qed.

Lemma projection_step_evolves gs m m' :
  projection_step gs m m' -> map_kept_by evolves m m'.
Proof.
  destruct 1; [reflexivity|..]; (apply map_kept_by_insert; [apply _|]); intros b Hb; simplify_eq.
  eauto using wf_step_evolves.
Qed.

(** Declaring a graph leaves the workflows alone. *)
Lemma spine_step_projection s s' :
  spine_step s s' -> projection_step s.1 s.2 s'.2 /\ s.1 ⊆ s'.1.
Proof.
  destruct 1; cbn; [|done]. split; [constructor|by apply insert_subseteq].
Qed.

End Steps.

(** ** Runs of the machine *)
Section Runs.
Context `{Host, Canonicalizer}.

Lemma spine_steps_evolve s s' : rtc any_step s s' -> map_kept_by evolves s.2 s'.2.
Proof.
  induction 1 as [|s1 s2 s3 [l Hs] _ IH]; [reflexivity|].
  etransitivity; [by eapply projection_step_evolves, spine_step_projection|done].
Qed.

(** What every step of the workflows preserves holds along the spine. *)
Lemma spine_invariant (P : gmap string WorkflowInstanceV1 -> Prop) s s' :
  (forall (l : Label) gs m m', projection_step gs m m' -> P m -> P m') ->
  rtc any_step s s' -> P s.2 -> P s'.2.
Proof.
  intros HP. induction 1 as [|s1 s2 s3 [l Hs] _ IH]; [done|]. intros Hs1.
  eapply IH, HP; [by apply spine_step_projection|done].
Qed.
End Runs.
