(* ===== verification/WorkflowInvariants.v ===== *)
(** * Invariants of the governed workflow

    Proved by induction on the steps of the abstract machine: which evidence each
    phase guarantees, that recorded evidence never changes, and that a terminal
    phase is final. *)
From S2P Require Import Prelude RustStr Host LedgerPayloads TrustSpine Digests Events ReplayState ReducerCore WorkflowSpec WorkflowEvolution.
From stdpp Require Import base list gmap strings relations.

#[local] Open Scope string_scope.
#[local] Open Scope list_scope.
#[local] Open Scope Z_scope.

Definition passed (w : WorkflowInstanceV1) : Prop :=
  exists a, wi_acceptance w = Some a /\ cas_outcome a = CandidateAcceptanceOutcomeV1_Passed.

(** No promotion, cancellation or terminal record yet. *)
Definition undecided (w : WorkflowInstanceV1) : Prop :=
  wi_promotion w = None /\ wi_cancellation w = None /\ wi_terminal w = None.

(** The promotion is at its decision, or past its result. *)
Definition deciding (w : WorkflowInstanceV1) (result : option PromotionResultOutcomeV1)
    (reconciled : bool) : Prop :=
  wi_cancellation w = None /\
  exists p, wi_promotion w = Some p /\ prs_outcome <$> ps_result p = result /\
    is_some (ps_reconciliation p) = reconciled /\
    (result = None -> pds_decision (ps_decision p) = PromotionDecisionKindV1_Promote).

(** ** What each phase guarantees *)
Definition phase_evidence (w : WorkflowInstanceV1) : Prop :=
  match wi_phase w with
  | WorkflowPhaseV1_Dispatched =>
      undecided w /\ wi_candidate w = None /\ wi_candidate_completion w = None /\
      wi_acceptance w = None /\ wi_reviews w = ∅ /\ wi_promotion_approval w = None
  | WorkflowPhaseV1_CandidateCreated =>
      undecided w /\ is_Some (wi_candidate w) /\ wi_acceptance w = None /\ wi_reviews w = ∅ /\
      wi_promotion_approval w = None
  | WorkflowPhaseV1_AcceptancePassed =>
      undecided w /\ passed w /\ wi_reviews w = ∅ /\ wi_promotion_approval w = None
  | WorkflowPhaseV1_ReviewApproved =>
      undecided w /\ passed w /\ wi_reviews w <> ∅ /\ wi_promotion_approval w = None
  | WorkflowPhaseV1_PromotionApprovalPending =>
      undecided w /\ passed w /\ is_Some (wi_promotion_approval w)
  | WorkflowPhaseV1_PromotionPending => deciding w None false /\ wi_terminal w = None
  | WorkflowPhaseV1_PromotionReconciliationRequired =>
      deciding w (Some PromotionResultOutcomeV1_ReconciliationRequired) false /\
      wi_terminal w = None
  | WorkflowPhaseV1_PromotionReconciliationResolved =>
      deciding w (Some PromotionResultOutcomeV1_ReconciliationRequired) true /\
      wi_terminal w = None
  | WorkflowPhaseV1_Promoted =>
      deciding w (Some PromotionResultOutcomeV1_Promoted) false /\ wi_terminal w = None
  | WorkflowPhaseV1_CancellationRequested =>
      is_Some (wi_cancellation w) /\ wi_promotion w = None /\ wi_terminal w = None
  | WorkflowPhaseV1_Rejected =>
      wi_terminal w = None /\ wi_cancellation w = None /\
      forall p, wi_promotion w = Some p ->
        ps_reconciliation p = None /\
        match ps_result p with
        | Some r => prs_outcome r = PromotionResultOutcomeV1_Rejected
        | None => pds_decision (ps_decision p) = PromotionDecisionKindV1_Reject
        end
  | WorkflowPhaseV1_Completed =>
      deciding w (Some PromotionResultOutcomeV1_Promoted) false /\
      wtrs_outcome <$> wi_terminal w = Some WorkflowTerminalOutcomeV1_Completed
  | WorkflowPhaseV1_Failed => wtrs_outcome <$> wi_terminal w = Some WorkflowTerminalOutcomeV1_Failed
  | WorkflowPhaseV1_Cancelled =>
      wtrs_outcome <$> wi_terminal w = Some WorkflowTerminalOutcomeV1_Cancelled
  end.

Section Invariants.
Context `{Host, Canonicalizer} {label : Label}.

(** A decision to promote rests on a passed acceptance and on distinct approving
    reviews of the candidate it names. *)
Definition decision_justified (w : WorkflowInstanceV1) (d : PromotionDecisionReplayState)
    : Prop :=
  binds_candidate w d /\
  (pds_decision d = PromotionDecisionKindV1_Promote ->
   accepted w (pds_acceptance_ref d) /\ reviewed w (pds_review_refs d)).

(** A result names its decision; a merging result proves the merge. *)
Definition result_justified (w : WorkflowInstanceV1) (d : PromotionDecisionReplayState)
    (r : PromotionResultReplayState) : Prop :=
  prs_promotion_decision_ref r = uuid_to_string (pds_event_id d) /\
  prs_candidate_digest r = pds_candidate_digest d /\
  prs_idempotency_key r = pds_idempotency_key d /\
  (prs_outcome r <> PromotionResultOutcomeV1_Rejected ->
   pds_decision d = PromotionDecisionKindV1_Promote /\ merge_binds_candidate w d r).

(** Evidence about a candidate is about this workflow's candidate. *)
Definition about_candidate (w : WorkflowInstanceV1) (digest commit : string) : Prop :=
  exists c, wi_candidate w = Some c /\ digest = ca_candidate_digest c /\
    commit = ca_candidate_commit_sha c.

Record wf_ok (w : WorkflowInstanceV1) : Prop := {
  ok_phase : phase_evidence w;
  ok_candidate : forall c, wi_candidate w = Some c ->
    ca_base_commit_sha c = wd_base_commit_sha (wi_dispatch w) /\
    ca_envelope_digest c = wd_envelope_digest (wi_dispatch w);
  ok_acceptance : forall a, wi_acceptance w = Some a ->
    about_candidate w (cas_candidate_digest a) (cas_candidate_commit_sha a) /\
    cas_acceptance_contract_digest a = wd_acceptance_contract_digest (wi_dispatch w) /\
    (requires_candidate_completion w = true -> wi_candidate_completion w <> None);
  ok_reviews : forall r v, wi_reviews w !! r = Some v ->
    about_candidate w (rvs_candidate_digest v) (rvs_candidate_commit_sha v);
  ok_decision : forall p, wi_promotion w = Some p -> decision_justified w (ps_decision p);
  ok_result : forall p r, wi_promotion w = Some p -> ps_result p = Some r ->
    result_justified w (ps_decision p) r;
  ok_cancel : wi_cancellation w <> None -> wi_promotion w = None
}.

Lemma fresh_ok w : freshly_dispatched w -> wf_ok w.
Proof.
  intros []. constructor; try congruence.
  - unfold phase_evidence, undecided. rewrite fd_phase. by split_and!.
  - rewrite fd_reviews. intros r v. by rewrite lookup_empty.
Qed.

(** ** Every step preserves the phase evidence *)

Lemma undecided_phase w :
  phase_evidence w -> wi_promotion w = None -> wi_cancellation w = None ->
  is_terminal (wi_phase w) = false -> undecided w.
Proof.
  unfold phase_evidence, deciding, undecided. destruct (wi_phase w); naive_solver.
Qed.

Lemma control_phase w :
  phase_evidence w -> workflow_lifecycle_control_is_allowed w = true -> undecided w.
Proof.
  unfold workflow_lifecycle_control_is_allowed, phase_evidence, undecided.
  intros Hp Hc. bool_simp. destruct (wi_phase w); naive_solver.
Qed.

(** A result is recorded while the promotion is pending, or after a rejection. *)
Lemma pending_phase w p :
  phase_evidence w -> wi_promotion w = Some p -> ps_result p = None -> wi_terminal w = None ->
  wi_cancellation w = None /\ ps_reconciliation p = None /\
  (wi_phase w = WorkflowPhaseV1_PromotionPending /\
   pds_decision (ps_decision p) = PromotionDecisionKindV1_Promote \/
   wi_phase w = WorkflowPhaseV1_Rejected /\
   pds_decision (ps_decision p) = PromotionDecisionKindV1_Reject).
Proof.
  unfold phase_evidence, deciding, undecided. intros Hp Hw Hr Ht.
  destruct (wi_phase w) eqn:Hph; rewrite ?Ht in Hp; try (by naive_solver).
  all: try (destruct Hp as [(Hc & p' & Hp' & Ho & Hx & Hd) ?]; simplify_eq;
            rewrite Hr in Ho; done).
  - destruct Hp as [(Hc & p' & Hp' & Ho & Hx & Hd) _]. simplify_eq. bool_simp. auto 6.
  - destruct Hp as (_ & Hc & Hall). specialize (Hall p Hw). rewrite Hr in Hall. naive_solver.
Qed.

(** [at_phase] unfolds the evidence of the phase the step starts from. *)
Ltac at_phase :=
  unfold phase_evidence in *; cbn;
  repeat match goal with Hph : wi_phase ?w = _ |- _ => rewrite Hph in * end;
  unfold deciding, undecided in *; cbn in *.

Lemma step_phase m k w w' : wf_step m k w w' -> phase_evidence w -> phase_evidence w'.
Proof.
  intros Hstep Hp. destruct Hstep; try exact Hp; subst.
  - (* candidate *) at_phase. naive_solver.
  - (* completion *) at_phase. naive_solver.
  - (* acceptance *) at_phase. destruct (cas_outcome a) eqn:Ho; unfold passed; naive_solver.
  - (* review *)
    assert (<[r:=v]> (wi_reviews w) <> ∅) by apply insert_non_empty.
    match goal with Hor : _ \/ _ |- _ => destruct Hor as [Hph|Hph] end;
      at_phase; unfold passed in *; cbn; destruct (rvs_decision v); naive_solver.
  - (* approval *) at_phase. naive_solver.
  - (* promote *)
    assert (undecided w) as (_ & _ & Ht).
    { apply undecided_phase; try done. destruct (wi_promotion_approval w);
        [match goal with Hm : _ /\ _ |- _ => destruct Hm as [Hph _] end|];
        by match goal with Hph : wi_phase w = _ |- _ => rewrite Hph end. }
    clear Hp. at_phase. naive_solver.
  - (* reject *)
    assert (undecided w) as (_ & _ & Ht) by by apply undecided_phase.
    clear Hp. at_phase. naive_solver.
  - (* claim *) at_phase. naive_solver.
  - (* result *)
    destruct (pending_phase w p) as (Hc & Hx & Hd); try done. clear Hp. at_phase.
    unfold phase_of_result. destruct (prs_outcome r) eqn:Ho; cbn.
    1, 2: split; [|done]; split; [done|]; eexists; split_and!; [done|cbn; by rewrite Ho| |done];
      cbn; by rewrite Hx.
    split_and!; [done|done|]. intros p' [= <-]. cbn. by rewrite Hx, Ho.
  - (* reconciliation *) at_phase. naive_solver.
  - (* cancel *) apply control_phase in Hp as (Hpr & _ & Ht); [|done]. at_phase. naive_solver.
  - (* terminal *)
    unfold phase_of_terminal, may_close in *. destruct (wtrs_outcome t) eqn:Ho;
      unfold phase_evidence; cbn; rewrite Ho; try done.
    match goal with Hm : _ /\ _ |- _ => destruct Hm as (Hph & _) end.
    unfold phase_evidence in Hp. rewrite Hph in Hp. by destruct Hp as [Hd _].
Qed.

(** ** Evidence stays justified as the workflow evolves *)

Lemma about_candidate_mono w w' digest commit :
  evolves w w' -> about_candidate w digest commit -> about_candidate w' digest commit.
Proof. intros Hev (c & Hc & Hd). exists c. split; [by apply (ev_candidate _ _ Hev)|done]. Qed.

Lemma accepted_mono w w' ref : evolves w w' -> accepted w ref -> accepted w' ref.
Proof. intros Hev (a & Ha & Hd). exists a. split; [by apply (ev_acceptance _ _ Hev)|done]. Qed.

Lemma reviewed_mono w w' refs : evolves w w' -> reviewed w refs -> reviewed w' refs.
Proof.
  intros Hev (Hne & Hnd & Hall). split_and!; [done..|].
  eapply Forall_impl; [exact Hall|]. intros r (v & Hv & Hd).
  exists v. split; [|done]. eapply lookup_weaken; [done|apply (ev_reviews _ _ Hev)].
Qed.

Lemma decision_justified_mono w w' d :
  evolves w w' -> decision_justified w d -> decision_justified w' d.
Proof.
  intros Hev [(c & Hc & Hb) Hp]. split.
  - exists c. split; [by apply (ev_candidate _ _ Hev)|done].
  - intros Hd. destruct (Hp Hd). eauto using accepted_mono, reviewed_mono.
Qed.

Lemma result_justified_mono w w' d r :
  evolves w w' -> result_justified w d r -> result_justified w' d r.
Proof.
  intros Hev (H1 & H2 & H3 & Hm). split_and!; [done..|]. intros Ho.
  destruct (Hm Ho) as [Hd (head & Hh & Ht)]. split; [done|]. exists head. split; [done|].
  intros target Htarget. destruct (Ht target Htarget) as (b & c & Hb & Hc & Hrest).
  exists b, c. split_and!; try apply Hrest; [done|by apply (ev_candidate _ _ Hev)].
Qed.

Lemma step_candidate_ok m k w w' :
  wf_step m k w w' -> wf_ok w -> forall c, wi_candidate w' = Some c ->
  ca_base_commit_sha c = wd_base_commit_sha (wi_dispatch w') /\
  ca_envelope_digest c = wd_envelope_digest (wi_dispatch w').
Proof. intros Hstep Hok c. destruct Hstep; cbn; try apply Hok. by intros [= <-]. Qed.

Lemma step_acceptance_ok m k w w' :
  wf_step m k w w' -> wf_ok w -> forall a, wi_acceptance w' = Some a ->
  about_candidate w' (cas_candidate_digest a) (cas_candidate_commit_sha a) /\
  cas_acceptance_contract_digest a = wd_acceptance_contract_digest (wi_dispatch w') /\
  (requires_candidate_completion w' = true -> wi_candidate_completion w' <> None).
Proof.
  intros Hstep Hok a Ha. destruct Hstep; cbn in Ha; try by eapply ok_acceptance in Ha.
  - pose proof (ok_phase _ Hok) as Hp. at_phase. naive_solver.
  - apply ok_acceptance in Ha; [|done]. naive_solver.
  - simplify_eq. by split_and!.
Qed.

Lemma step_reviews_ok m k w w' :
  wf_step m k w w' -> wf_ok w -> forall r v, wi_reviews w' !! r = Some v ->
  about_candidate w' (rvs_candidate_digest v) (rvs_candidate_commit_sha v).
Proof.
  intros Hstep Hok r v Hv.
  assert (wi_reviews w !! r = Some v -> about_candidate w' (rvs_candidate_digest v) (rvs_candidate_commit_sha v))
    as Hold.
  { intros Hr. eapply about_candidate_mono; [by eapply wf_step_evolves|by eapply ok_reviews]. }
  destruct Hstep; cbn in Hv; auto.
  apply lookup_insert_Some in Hv as [[<- <-]|[_ Hv]]; auto.
Qed.

(** A step that sets or extends the promotion keeps a justified decision. *)
Lemma step_decision_ok m k w w' :
  wf_step m k w w' -> wf_ok w -> forall p, wi_promotion w' = Some p ->
  decision_justified w' (ps_decision p).
Proof.
  intros Hstep Hok p Hp. pose proof (wf_step_evolves _ _ _ _ Hstep) as Hev.
  assert (forall q, wi_promotion w = Some q -> decision_justified w' (ps_decision q)) as Hold.
  { intros q Hq. eapply decision_justified_mono; [done|by apply ok_decision]. }
  destruct Hstep; cbn in Hp; simplify_eq; cbn; auto.
  - split; [done|]. auto.
  - split; [done|]. congruence.
Qed.

Lemma step_result_ok m k w w' :
  wf_step m k w w' -> wf_ok w -> forall p r, wi_promotion w' = Some p -> ps_result p = Some r ->
  result_justified w' (ps_decision p) r.
Proof.
  intros Hstep Hok p r Hp Hr. pose proof (wf_step_evolves _ _ _ _ Hstep) as Hev.
  assert (forall q r', wi_promotion w = Some q -> ps_result q = Some r' ->
            result_justified w' (ps_decision q) r') as Hold.
  { intros q r' Hq Hr'. eapply result_justified_mono; [done|by eapply ok_result]. }
  destruct Hstep; cbn in Hp; simplify_eq; cbn in *; simplify_eq; auto.
  by split_and!.
Qed.

Lemma step_cancel_ok m k w w' :
  wf_step m k w w' -> wf_ok w -> wi_cancellation w' <> None -> wi_promotion w' = None.
Proof.
  intros Hstep Hok. pose proof (ok_cancel _ Hok) as Hc.
  destruct Hstep; cbn; try done; try (intros Hn; apply Hc in Hn; congruence).
  intros _. eapply control_phase; [apply Hok|done].
Qed.

Lemma step_ok m k w w' : wf_step m k w w' -> wf_ok w -> wf_ok w'.
Proof.
  intros Hstep Hok. constructor.
  - eapply step_phase; [done|apply Hok].
  - by eapply step_candidate_ok.
  - by eapply step_acceptance_ok.
  - by eapply step_reviews_ok.
  - by eapply step_decision_ok.
  - by eapply step_result_ok.
  - by eapply step_cancel_ok.
Qed.

(** ** The projection *)

(** Every workflow is filed under its own key and is justified. *)
Definition projection_ok (m : gmap string WorkflowInstanceV1) : Prop :=
  forall k w, m !! k = Some w -> k = key_of w /\ wf_ok w.

Lemma evolves_key w w' : evolves w w' -> key_of w' = key_of w.
Proof. intros [Hid]. unfold key_of. by injection Hid as _ -> _ -> ->. Qed.

Lemma projection_step_ok gs m m' : projection_step gs m m' -> projection_ok m -> projection_ok m'.
Proof.
  intros Hstep Hok k w Hk. destruct Hstep as [|w0|k0 w0 w1 Hk0 Hw]; [by apply Hok|..];
    apply lookup_insert_Some in Hk as [[<- <-]|[_ Hk]]; auto.
  - split; [done|by apply fresh_ok].
  - destruct (Hok _ _ Hk0) as [-> Hok0]. split; [|by eapply step_ok].
    symmetry. eapply evolves_key, wf_step_evolves. done.
Qed.

Lemma projection_ok_empty : projection_ok ∅.
Proof. intros k w. by rewrite lookup_empty. Qed.

(** ** Terminal phases are final *)
Lemma step_terminal_final m k w w' :
  wf_step m k w w' -> phase_evidence w -> is_terminal (wi_phase w) = true ->
  wi_phase w' = wi_phase w.
Proof.
  intros Hstep Hp Ht. destruct Hstep; cbn; try done.
  all: try match goal with Hph : wi_phase _ = _ |- _ => by rewrite Hph in Ht end.
  - match goal with Hor : _ \/ _ |- _ => destruct Hor as [Hph|Hph] end; by rewrite Hph in Ht.
  - destruct (wi_promotion_approval w);
      [match goal with Hm : _ /\ _ |- _ => destruct Hm as [Hph _] end|];
      by match goal with Hph : wi_phase w = _ |- _ => rewrite Hph in Ht end.
  - congruence.
  - destruct (pending_phase w p) as (Hc & Hx & [[Hph Hd]|[Hph Hd]]); try done.
    + by rewrite Hph in Ht.
    + rewrite Hph. subst.
      destruct (decide (prs_outcome r = PromotionResultOutcomeV1_Rejected)) as [->|Hn]; [done|].
      match goal with Hm : prs_outcome r <> _ -> _ |- _ => destruct (Hm Hn) end. congruence.
  - unfold workflow_lifecycle_control_is_allowed in *. rewrite Ht in *. done.
  - congruence.
Qed.

(** ** Runs do not mix trust tiers *)
Definition trust_scoped (m : gmap string WorkflowInstanceV1) : Prop :=
  forall k w, m !! k = Some w -> same_trust m w.

Lemma step_trust_scoped gs m m' : projection_step gs m m' -> trust_scoped m -> trust_scoped m'.
Proof.
  intros Hstep Hok k w Hk k' w' Hk' Hrun.
  destruct Hstep as [|w0 _ _ Ht _|k0 w0 w1 Hk0 Hw]; [by eapply Hok|..].
  - apply lookup_insert_Some in Hk as [[<- <-]|[_ Hk]];
      apply lookup_insert_Some in Hk' as [[<- <-]|[_ Hk']]; try done.
    + by eapply Ht.
    + symmetry. by eapply Ht.
    + by eapply Hok.
  - apply wf_step_evolves in Hw. pose proof (ev_dispatch _ _ Hw) as Hd.
    pose proof (ev_identity _ _ Hw) as Hid. injection Hid as Hr _ _ _ _.
    apply lookup_insert_Some in Hk as [[<- <-]|[_ Hk]];
      apply lookup_insert_Some in Hk' as [[<- <-]|[_ Hk']]; rewrite ?Hd; try done.
    all: eapply Hok; eauto; congruence.
Qed.
End Invariants.
