(* ===== verification/WorkflowEvidence.v ===== *)
(** * Invariants of the action evidence and across workflows

    At most one lease per activity and idempotency key of a run, one owner per
    candidate, recovery queues that list exactly the unfinished actions, and
    sealed receipt sets that nothing changes. *)
From S2P Require Import Prelude RustStr Host LedgerPayloads TrustSpine Digests Events ReplayState ReducerCore WorkflowSpec WorkflowEvolution.
From stdpp Require Import base list gmap strings relations.

#[local] Open Scope string_scope.
#[local] Open Scope list_scope.
#[local] Open Scope Z_scope.

(** ** Uniqueness across the projection *)

(** The identity of a lease: its run, activity and idempotency key. *)
Definition same_lease (c c' : ActivityClaimReplayState) : Prop :=
  acls_run_id c = acls_run_id c' /\
  (acls_activity_id c = acls_activity_id c' \/ acls_idempotency_key c = acls_idempotency_key c').

Definition unique_leases (m : gmap string WorkflowInstanceV1) : Prop :=
  forall k w id c k' w' id' c',
    m !! k = Some w -> claim_at w id = Some c ->
    m !! k' = Some w' -> claim_at w' id' = Some c' -> same_lease c c' -> (k, id) = (k', id').

Definition same_candidate (c c' : CandidateArtifactReplayState) : Prop :=
  ca_candidate_digest c = ca_candidate_digest c' \/ ca_candidate_id c = ca_candidate_id c' \/
  ca_candidate_ref c = ca_candidate_ref c'.

Definition unique_candidates (m : gmap string WorkflowInstanceV1) : Prop :=
  forall k w c k' w' c',
    m !! k = Some w -> wi_candidate w = Some c ->
    m !! k' = Some w' -> wi_candidate w' = Some c' -> same_candidate c c' -> k = k'.

Section Uniqueness.
Context `{Host, Canonicalizer} {label : Label}.

(** A lease that was there before, under the same identity. *)
Definition same_identity (c0 c : ActivityClaimReplayState) : Prop :=
  acls_run_id c0 = acls_run_id c /\ acls_activity_id c0 = acls_activity_id c /\
  acls_idempotency_key c0 = acls_idempotency_key c.

Lemma effect_step_lease m k id w a a' c :
  effect_step m k id w a a' -> acts_activity_claim a' = Some c ->
  fresh_claim m k id c \/
  exists c0, acts_activity_claim a = Some c0 /\ same_identity c0 c.
Proof.
  unfold same_identity. destruct 1; cbn; intros Hc; simplify_eq; cbn; eauto 10.
Qed.

(** A step touches the lease of at most one action, and only to reserve a fresh
    one or to extend or settle the one that is there. *)
Definition lease_change (m : gmap string WorkflowInstanceV1) (k : string)
    (w w' : WorkflowInstanceV1) (id : string) : Prop :=
  (forall i, i <> id -> claim_at w' i = claim_at w i) /\
  (forall c, claim_at w' id = Some c ->
     fresh_claim m k id c \/ exists c0, claim_at w id = Some c0 /\ same_identity c0 c).

Lemma lease_change_same m k w w' :
  (forall i, claim_at w' i = claim_at w i) -> lease_change m k w w' "".
Proof.
  intros Hsame. split; [auto|]. intros c. rewrite Hsame. unfold same_identity. eauto 10.
Qed.

Lemma lease_change_insert m k w e e' id a' :
  wi_action_evidence w = Some e -> aes_actions e' = <[id := a']> (aes_actions e) ->
  (forall c, acts_activity_claim a' = Some c ->
     fresh_claim m k id c \/ exists c0, claim_at w id = Some c0 /\ same_identity c0 c) ->
  lease_change m k w {| w with wi_action_evidence := Some e' |} id.
Proof.
  intros He He' Hc. unfold lease_change, claim_at in *. cbn. rewrite He, He'. split.
  - intros i Hi. cbn. by rewrite lookup_insert_ne.
  - intros c. cbn. rewrite lookup_insert_eq. cbn. rewrite He in Hc. apply Hc.
Qed.

Lemma wf_step_lease m k w w' : wf_step m k w w' -> exists id, lease_change m k w w' id.
Proof.
  destruct 1 as [w e e' He Hstep| | | | | | | | | | | | | | |];
    try by (exists ""; apply lease_change_same).
  destruct Hstep as [e id a|e id a a' _ Hid Ha|e id a a' _ Hid Ha|];
    [exists id; eapply lease_change_insert; [done|first [done|exact (proj1 (refresh_keeps _))]|]..|].
  - intros c Hc. match goal with Hu : unstarted a |- _ => destruct Hu as (_ & _ & Hu & _) end.
    congruence.
  - intros c Hc. right. exists c. unfold claim_at, same_identity. rewrite He. cbn. rewrite Hid.
    by destruct Ha.
  - intros c Hc. unfold claim_at. rewrite He. cbn. rewrite Hid. by eapply effect_step_lease.
  - exists "". apply lease_change_same. intros i. unfold claim_at. by rewrite He.
Qed.

Lemma fresh_not_same m k id c k' w' id' c' :
  fresh_claim m k id c -> m !! k' = Some w' -> claim_at w' id' = Some c' ->
  (k', id') <> (k, id) -> same_lease c c' -> False.
Proof.
  intros Hf Hk Hc Hne [Hrun Hor].
  destruct (Hf k' w' id' c' Hk Hc Hne (eq_sym Hrun)). destruct Hor; congruence.
Qed.

(** The updated workflow against any lease of the old projection. *)
Lemma updated_lease_unique m k0 w0 w1 id0 id c k' w' id' c' :
  unique_leases m -> m !! k0 = Some w0 -> lease_change m k0 w0 w1 id0 ->
  claim_at w1 id = Some c -> m !! k' = Some w' -> claim_at w' id' = Some c' ->
  (k', id') <> (k0, id) -> same_lease c c' -> False.
Proof.
  intros Hu Hk0 [Hother Hchange] Hc Hk' Hc' Hne Hsame.
  destruct (decide (id = id0)) as [->|Hid].
  - destruct (Hchange c Hc) as [Hf|(c0 & Hc0 & Hr & Ha & Hi)]; [by eapply fresh_not_same|].
    apply Hne. symmetry. eapply (Hu k0 w0 id0 c0 k' w' id' c'); try done.
    destruct Hsame as [? [?|?]]; split; [congruence|left|congruence|right]; congruence.
  - rewrite Hother in Hc by done. apply Hne. symmetry.
    by eapply (Hu k0 w0 id c k' w' id' c').
Qed.

Lemma same_lease_sym c c' : same_lease c c' -> same_lease c' c.
Proof. intros [? [?|?]]; split; auto. Qed.

Lemma fresh_no_leases w id : freshly_dispatched w -> claim_at w id = None.
Proof.
  intros Hf. unfold claim_at. destruct (wi_action_evidence w) as [e|] eqn:He; [|done]. cbn.
  destruct (fd_evidence _ Hf e He) as [-> _]. by rewrite lookup_empty.
Qed.

Lemma step_unique_leases gs m m' : projection_step gs m m' -> unique_leases m -> unique_leases m'.
Proof.
  intros Hstep Hu. destruct Hstep as [|w0 Hk0 Hf|k0 w0 w1 Hk0 Hw]; [done|..];
    intros k w id c k' w' id' c' Hk Hc Hk' Hc' Hsame.
  - apply lookup_insert_Some in Hk as [[<- <-]|[_ Hk]]; [by rewrite fresh_no_leases in Hc|].
    apply lookup_insert_Some in Hk' as [[<- <-]|[_ Hk']]; [by rewrite fresh_no_leases in Hc'|].
    by eapply Hu.
  - apply wf_step_lease in Hw as [id0 Hch].
    apply lookup_insert_Some in Hk as [[<- <-]|[Hne Hk]];
      apply lookup_insert_Some in Hk' as [[<- <-]|[Hne' Hk']].
    + destruct (decide (id = id')) as [->|Hid]; [done|exfalso].
      destruct (decide (id' = id0)) as [->|Hid'].
      * rewrite (proj1 Hch) in Hc by done. apply same_lease_sym in Hsame.
        eapply (updated_lease_unique m k0 w0 w1 id0 id0 c' k0 w0 id c); try done. congruence.
      * rewrite (proj1 Hch) in Hc' by done.
        eapply (updated_lease_unique m k0 w0 w1 id0 id c k0 w0 id' c'); try done. congruence.
    + exfalso. eapply (updated_lease_unique m k0 w0 w1 id0 id c k' w' id' c'); try done.
      congruence.
    + exfalso. apply same_lease_sym in Hsame.
      eapply (updated_lease_unique m k0 w0 w1 id0 id' c' k w id c); try done. congruence.
    + by eapply Hu.
Qed.

Lemma step_unique_candidates gs m m' :
  projection_step gs m m' -> unique_candidates m -> unique_candidates m'.
Proof.
  intros Hstep Hu. destruct Hstep as [|w0 Hk0 Hf|k0 w0 w1 Hk0 Hw]; [done|..];
    intros k w c k' w' c' Hk Hc Hk' Hc' Hsame.
  - pose proof (fd_candidate _ Hf).
    apply lookup_insert_Some in Hk as [[<- <-]|[_ Hk]]; [congruence|].
    apply lookup_insert_Some in Hk' as [[<- <-]|[_ Hk']]; [congruence|]. by eapply Hu.
  - assert (forall d, wi_candidate w1 = Some d ->
              wi_candidate w0 = Some d \/ fresh_candidate m k0 d) as Hold.
    { destruct Hw; cbn; auto. intros d [= <-]. auto. }
    unfold fresh_candidate, same_candidate in *.
    apply lookup_insert_Some in Hk as [[<- <-]|[Hne Hk]];
      apply lookup_insert_Some in Hk' as [[<- <-]|[Hne' Hk']]; [done|..|by eapply Hu].
    + destruct (Hold _ Hc) as [Ho|Hfr]; [by eapply Hu|].
      destruct (Hfr k' w' c' Hk' Hc') as (? & ? & ?); [done|]. naive_solver.
    + destruct (Hold _ Hc') as [Ho|Hfr]; [by eapply Hu|].
      destruct (Hfr k w c Hk Hc) as (? & ? & ?); [done|]. naive_solver.
Qed.
End Uniqueness.

(** ** Recovery queues and sealed sets *)

(** Where the recovery scan files an action. *)
Inductive Queue := Pending | Unknown | Failed.
#[export] Instance Queue_eq_dec : EqDecision Queue.
Proof. solve_decision. Defined.

Definition queue_of (sealed_v3 : bool) (a : ActionReplayState) : option Queue :=
  if action_is_unknown a then Some Unknown
  else if sealed_v3 && action_is_failed a then Some Failed
  else if is_none (acts_receipt a) then Some Pending
  else None.

Definition is_sealed_v3 (e : ActionEvidenceReplayState) : bool :=
  aes_action_evidence_version e == ActionEvidenceVersionV1_SealedV3.

Definition queue (e : ActionEvidenceReplayState) (q : Queue) : list string :=
  match q with
  | Pending => aes_pending_action_ids e
  | Unknown => aes_unknown_action_ids e
  | Failed => aes_failed_action_ids e
  end.

(** Each queue lists exactly the actions filed there. *)
Definition queues_exact (e : ActionEvidenceReplayState) : Prop :=
  forall q id, id ∈ queue e q <->
    exists a, aes_actions e !! id = Some a /\ queue_of (is_sealed_v3 e) a = Some q.

Record evidence_shape (e : ActionEvidenceReplayState) : Prop := {
  (** actions are filed under their own id *)
  es_ids : forall id a, aes_actions e !! id = Some a -> arqs_action_id (acts_request a) = id;
  (** no two actions share an idempotency key *)
  es_keys : forall id a id' a', aes_actions e !! id = Some a -> aes_actions e !! id' = Some a' ->
    arqs_idempotency_key (acts_request a) = arqs_idempotency_key (acts_request a') -> id = id';
  (** a sealed set lists the receipts of all actions *)
  es_sealed : forall s, aes_sealed_receipt_set e = Some s -> seals e s;
  (** receipts bind their request *)
  es_receipts : forall id a r, aes_actions e !! id = Some a -> acts_receipt a = Some r ->
    arcs_action_request_digest r = arqs_action_request_digest (acts_request a)
}.

Definition evidence_ok (e : ActionEvidenceReplayState) : Prop :=
  evidence_shape e /\ queues_exact e.

Section Evidence.
Context `{Host, Canonicalizer} {label : Label}.

(** One step of the recovery scan. *)
Definition scan_step (sealed : bool) : list string * list string * list string ->
    string * ActionReplayState -> list string * list string * list string :=
  fun '(pending, unknown, failed) '(action_id, action) =>
    if action_is_unknown action then (pending, unknown ++ [action_id], failed)
    else if sealed && action_is_failed action then (pending, unknown, failed ++ [action_id])
    else if is_none (acts_receipt action) then (pending ++ [action_id], unknown, failed)
    else (pending, unknown, failed).

(** The scan as three filters. *)
Lemma recovery_scan sealed (l : list (string * ActionReplayState)) pending unknown failed :
  foldl (scan_step sealed) (pending, unknown, failed) l =
  let ids q := (List.filter (fun '(_, a) => bool_decide (queue_of sealed a = Some q)) l).*1 in
  (pending ++ ids Pending, unknown ++ ids Unknown, failed ++ ids Failed).
Proof.
  revert pending unknown failed. induction l as [|[id a] l IH]; intros pending unknown failed; cbn.
  { by rewrite !app_nil_r. }
  transitivity (foldl (scan_step sealed) match queue_of sealed a with
    | Some Pending => (pending ++ [id], unknown, failed)
    | Some Unknown => (pending, unknown ++ [id], failed)
    | Some Failed => (pending, unknown, failed ++ [id])
    | None => (pending, unknown, failed)
    end l).
  { f_equal. unfold queue_of. destruct (action_is_unknown a), (sealed && action_is_failed a),
      (is_none (acts_receipt a)); done. }
  destruct (queue_of sealed a) as [[]|]; rewrite IH; cbn; by rewrite <- ?app_assoc.
Qed.

Lemma refresh_queues e q id :
  id ∈ queue (refresh_action_evidence_recovery e) q <->
  exists a, aes_actions e !! id = Some a /\ queue_of (is_sealed_v3 e) a = Some q.
Proof.
  transitivity (id ∈ (List.filter (fun '(_, a) =>
    bool_decide (queue_of (is_sealed_v3 e) a = Some q)) (btree_list (aes_actions e))).*1).
  - replace (refresh_action_evidence_recovery e) with
      (let '(pending, unknown, failed) :=
         foldl (scan_step (is_sealed_v3 e)) ([], [], []) (btree_list (aes_actions e)) in
       {| e with aes_pending_action_ids := pending; aes_unknown_action_ids := unknown;
          aes_failed_action_ids := failed |}) by reflexivity.
    rewrite recovery_scan. by destruct q.
  - rewrite list_elem_of_fmap. split.
    + intros ([i a] & -> & Hin). exists a.
      rewrite list_elem_of_In, filter_In, <- list_elem_of_In, elem_of_btree_list in Hin.
      by rewrite bool_decide_eq_true in Hin.
    + intros (a & Ha & Hq). exists (id, a). split; [done|].
      rewrite list_elem_of_In, filter_In, <- list_elem_of_In, elem_of_btree_list.
      by rewrite bool_decide_eq_true.
Qed.

Lemma refresh_sealed_v3 e : is_sealed_v3 (refresh_action_evidence_recovery e) = is_sealed_v3 e.
Proof. unfold is_sealed_v3. by destruct (refresh_keeps e) as (_ & _ & ->). Qed.

(** Once sealed, every action has its receipt. *)
Lemma seals_receipts e s id a :
  seals e s -> aes_actions e !! id = Some a -> is_Some (acts_receipt a).
Proof.
  intros Hs Ha. apply elem_of_btree_list, list_elem_of_lookup_1 in Ha as [i Hi].
  eapply Forall2_lookup_r in Hs as (entry & _ & Hs); [|done].
  destruct Hs as (r & Hr & _). by rewrite Hr.
Qed.

(** Sealed evidence admits no further step. *)
Lemma sealed_final m k w e e' s :
  evidence_shape e -> aes_sealed_receipt_set e = Some s -> ~ evidence_step m k w e e'.
Proof.
  intros Hok Hs Hstep. destruct Hstep as [| |e id a a' Hor Hid Ha _|]; try congruence.
  destruct Hor as [?|Hn]; [congruence|].
  destruct (seals_receipts e s id a (es_sealed _ Hok s Hs) Hid) as [r Hr].
  destruct Ha; congruence.
Qed.

(** ** Every evidence step keeps the evidence in order *)

Lemma step_request (a a' : ActionReplayState) : action_evolves a a' ->
  acts_request a' = acts_request a.
Proof. by intros []. Qed.

Lemma authority_queue sealed w a a' :
  authority_step w a a' -> queue_of sealed a' = queue_of sealed a.
Proof. by destruct 1. Qed.

Lemma effect_receipt m k id w a a' r :
  effect_step m k id w a a' -> acts_receipt a' = Some r ->
  acts_receipt a = Some r \/
  arcs_action_request_digest r = arqs_action_request_digest (acts_request a).
Proof. destruct 1; cbn; try by auto. intros [= <-]. auto. Qed.

(** Replacing an action by one with the same request keeps ids and keys in order. *)
Lemma insert_ids (actions : gmap string ActionReplayState) id a' :
  (forall i a, actions !! i = Some a -> arqs_action_id (acts_request a) = i) ->
  arqs_action_id (acts_request a') = id ->
  forall i a, <[id := a']> actions !! i = Some a -> arqs_action_id (acts_request a) = i.
Proof. intros Hids Ha i a [[<- <-]|[_ Hi]]%lookup_insert_Some; auto. Qed.

Lemma insert_keys (actions : gmap string ActionReplayState) id a' :
  (forall i a j b, actions !! i = Some a -> actions !! j = Some b ->
     arqs_idempotency_key (acts_request a) = arqs_idempotency_key (acts_request b) -> i = j) ->
  (forall i a, i <> id -> actions !! i = Some a ->
     arqs_idempotency_key (acts_request a) <> arqs_idempotency_key (acts_request a')) ->
  forall i a j b, <[id := a']> actions !! i = Some a -> <[id := a']> actions !! j = Some b ->
     arqs_idempotency_key (acts_request a) = arqs_idempotency_key (acts_request b) -> i = j.
Proof.
  intros Hkeys Hfresh i a j b Hi Hj Heq.
  apply lookup_insert_Some in Hi as [[<- <-]|[Hi Hia]];
    apply lookup_insert_Some in Hj as [[<- <-]|[Hj Hjb]]; try done.
  - by destruct (Hfresh j b (not_eq_sym Hj) Hjb).
  - by destruct (Hfresh i a (not_eq_sym Hi) Hia).
  - by eapply Hkeys.
Qed.

Lemma insert_receipts (actions : gmap string ActionReplayState) id a' :
  (forall i a r, actions !! i = Some a -> acts_receipt a = Some r ->
     arcs_action_request_digest r = arqs_action_request_digest (acts_request a)) ->
  (forall r, acts_receipt a' = Some r ->
     arcs_action_request_digest r = arqs_action_request_digest (acts_request a')) ->
  forall i a r, <[id := a']> actions !! i = Some a -> acts_receipt a = Some r ->
     arcs_action_request_digest r = arqs_action_request_digest (acts_request a).
Proof. intros Hrs Ha i a r [[<- <-]|[_ Hi]]%lookup_insert_Some; eauto. Qed.

(** An action replaced by its successor. *)
Lemma shape_update e id a a' :
  evidence_shape e -> aes_actions e !! id = Some a -> action_evolves a a' ->
  (forall r, acts_receipt a' = Some r -> acts_receipt a = Some r \/
     arcs_action_request_digest r = arqs_action_request_digest (acts_request a)) ->
  aes_sealed_receipt_set e = None ->
  evidence_shape {| e with aes_actions := <[id := a']> (aes_actions e) |}.
Proof.
  intros [Hids Hkeys Hs Hr] Hid Hev Hrec Hsealed.
  pose proof (step_request _ _ Hev) as Hreq. constructor; cbn.
  - apply insert_ids; [done|]. rewrite Hreq. auto.
  - apply insert_keys; [done|]. intros i b Hne Hb Heq. apply Hne. rewrite Hreq in Heq. eauto.
  - congruence.
  - apply insert_receipts; [done|]. intros r Har. rewrite Hreq.
    destruct (Hrec r Har) as [Ho|]; eauto.
Qed.

Lemma shape_request e id a :
  evidence_shape e -> aes_sealed_receipt_set e = None -> unstarted a ->
  arqs_action_id (acts_request a) = id ->
  (forall id' a', aes_actions e !! id' = Some a' ->
     arqs_idempotency_key (acts_request a') <> arqs_idempotency_key (acts_request a)) ->
  evidence_shape {| e with aes_actions := <[id := a]> (aes_actions e) |}.
Proof.
  intros [Hids Hkeys Hs Hr] Hsealed (_ & _ & _ & Hn) Hid Hfresh. constructor; cbn.
  - by apply insert_ids.
  - apply insert_keys; eauto.
  - congruence.
  - apply insert_receipts; [done|congruence].
Qed.

Lemma shape_refresh e : evidence_shape e -> evidence_shape (refresh_action_evidence_recovery e).
Proof.
  unfold refresh_action_evidence_recovery. cbv zeta. destruct (foldl _ _ _) as [[??]?].
  by intros [].
Qed.

Lemma refresh_exact e : queues_exact (refresh_action_evidence_recovery e).
Proof.
  intros q id. rewrite refresh_queues, refresh_sealed_v3.
  by destruct (refresh_keeps e) as (-> & _ & _).
Qed.

Lemma authority_exact e id w a a' :
  queues_exact e -> aes_actions e !! id = Some a -> authority_step w a a' ->
  queues_exact {| e with aes_actions := <[id := a']> (aes_actions e) |}.
Proof.
  intros Hq Hid Ha q i. transitivity (i ∈ queue e q); [by destruct q|]. rewrite (Hq q i). cbn.
  destruct (decide (i = id)) as [->|Hne].
  - rewrite lookup_insert_eq, Hid. apply (authority_queue (is_sealed_v3 e)) in Ha.
    change (is_sealed_v3 _) with (is_sealed_v3 e) at 2.
    split; intros (b & [= <-] & Hb); eexists; (split; [done|congruence]).
  - by rewrite lookup_insert_ne.
Qed.

Lemma evidence_step_ok m k w e e' : evidence_step m k w e e' -> evidence_ok e -> evidence_ok e'.
Proof.
  intros Hstep [Hshape Hq]. pose proof Hstep as Hcopy.
  destruct Hstep as [e id a|e id a a' Hs Hid Ha|e id a a' Hs Hid Ha _|e s].
  - split; [by apply shape_refresh, shape_request|apply refresh_exact].
  - split; [|by eapply authority_exact].
    eapply shape_update; eauto using authority_step_evolves. destruct Ha; auto.
  - assert (aes_sealed_receipt_set e = None) as Hnone.
    { destruct (aes_sealed_receipt_set e) as [s|] eqn:Hse; [|done].
      by destruct (sealed_final _ _ _ _ _ s Hshape Hse Hcopy). }
    split; [|apply refresh_exact].
    eapply shape_refresh, shape_update; eauto using effect_step_evolves, effect_receipt.
  - split; [|exact Hq]. destruct Hshape. constructor; try done. cbn. by intros s' [= <-].
Qed.

Lemma fresh_evidence_ok w e :
  freshly_dispatched w -> wi_action_evidence w = Some e -> evidence_ok e.
Proof.
  intros Hf He. destruct (fd_evidence _ Hf e He) as (Ha & Hs & Hp & Hu & Hfl).
  split; [constructor; intros; rewrite ?Ha in *; simplify_map_eq|].
  intros q id. rewrite Ha. split; [|by intros (a & ? & _)].
  destruct q; cbn; rewrite ?Hp, ?Hu, ?Hfl; by intros ?%elem_of_nil.
Qed.

(** The evidence of every workflow of a projection is in order. *)
Definition evidences_ok (m : gmap string WorkflowInstanceV1) : Prop :=
  forall k w e, m !! k = Some w -> wi_action_evidence w = Some e -> evidence_ok e.

Lemma step_evidences_ok gs m m' : projection_step gs m m' -> evidences_ok m -> evidences_ok m'.
Proof.
  intros Hstep Hok k w e Hk He. destruct Hstep as [|w0 _ Hf|k0 w0 w1 Hk0 Hw]; [by eapply Hok|..];
    apply lookup_insert_Some in Hk as [[<- <-]|[_ Hk]]; try by eapply Hok.
  - by eapply fresh_evidence_ok.
  - destruct Hw; try by eapply Hok. cbn in He. simplify_eq. eauto using evidence_step_ok.
Qed.
End Evidence.

(** ** Leases and receipts of one action *)
Section Actions.
Context `{Host, Canonicalizer} {label : Label}.

Record action_ok (w : WorkflowInstanceV1) (a : ActionReplayState) : Prop := {
  (** the lease ends inside the signed compute deadline *)
  ao_lease : forall c, acts_activity_claim a = Some c ->
    lease_within w (acls_claimed_at c) (acls_lease_expires_at c);
  (** a known outcome was recorded while the lease was live *)
  ao_result : forall c x, acts_activity_claim a = Some c -> acls_result c = Some x ->
    settles_in_time c x;
  (** a receipt reports the recorded outcome, and sealed_v3 receipts need one *)
  ao_receipt : forall r, acts_receipt a = Some r ->
    (requires_activity_claim_result w = true -> acts_activity_claim a <> None) /\
    (forall c, acts_activity_claim a = Some c ->
       exists x, acls_result c = Some x /\ receipt_agrees r x);
  (** a successful model receipt names the recorded authorization *)
  ao_authority : forall r, acts_receipt a = Some r ->
    arqs_action_kind (acts_request a) = ActionKindV1_Model ->
    arcs_outcome r = ActionReceiptOutcomeV2_Succeeded ->
    exists x, acts_model_authorization a = Some x /\
      arcs_authorization_ref r = Some (maas_authorization_ref x)
}.

Lemma unstarted_ok w a : unstarted a -> action_ok w a.
Proof. intros (_ & _ & Hc & Hr). constructor; intros; congruence. Qed.

Lemma authority_step_ok w a a' : authority_step w a a' -> action_ok w a -> action_ok w a'.
Proof. intros Hstep []. destruct Hstep; constructor; cbn; try done; intros; congruence. Qed.

Lemma effect_step_ok m k id w a a' :
  effect_step m k id w a a' -> action_ok w a -> action_ok w a'.
Proof.
  intros Hstep []. destruct Hstep; constructor; cbn; try done; try (intros; simplify_eq; done).
  - (* a renewed claim has no result yet *) intros c' x [= <-] Hx. cbn in Hx. congruence.
  - (* settling keeps the lease *) intros c' [= <-]. by apply (ao_lease0 c).
  - (* and was in time *) intros c' x [= <-] [= <-]. done.
  - (* a receipt keeps the authorization it names *) intros r' [= <-]. done.
Qed.

Definition actions_ok (w : WorkflowInstanceV1) : Prop :=
  forall e id a, wi_action_evidence w = Some e -> aes_actions e !! id = Some a -> action_ok w a.

Lemma evidence_step_actions m k w e e' id a :
  evidence_step m k w e e' -> (forall i b, aes_actions e !! i = Some b -> action_ok w b) ->
  aes_actions e' !! id = Some a -> action_ok w a.
Proof.
  intros Hstep Hok Ha.
  destruct Hstep as [e i b|e i b b' _ Hi Hb|e i b b' _ Hi Hb _|]; [| | |by eapply Hok];
    rewrite ?(proj1 (refresh_keeps _)) in Ha; cbn in Ha;
    apply lookup_insert_Some in Ha as [[<- <-]|[_ Ha]]; try by eapply Hok.
  - by apply unstarted_ok.
  - eauto using authority_step_ok.
  - eauto using effect_step_ok.
Qed.

(** The deadline and the receipt rules depend on the dispatch only. *)
Lemma action_ok_dispatch w w' a :
  wi_dispatch w' = wi_dispatch w -> action_ok w a -> action_ok w' a.
Proof.
  intros Hd []. unfold lease_within, requires_activity_claim_result,
    effective_dispatch_effect_deadline in *.
  constructor; unfold lease_within, requires_activity_claim_result,
    effective_dispatch_effect_deadline; rewrite ?Hd; auto.
Qed.

Lemma wf_step_actions_ok m k w w' : wf_step m k w w' -> actions_ok w -> actions_ok w'.
Proof.
  intros Hstep Hok e id a He Ha.
  apply (action_ok_dispatch w); [by eapply ev_dispatch, wf_step_evolves|].
  destruct Hstep; cbn in He; try by eapply Hok. simplify_eq.
  eapply evidence_step_actions; eauto.
Qed.

Definition all_actions_ok (m : gmap string WorkflowInstanceV1) : Prop :=
  forall k w, m !! k = Some w -> actions_ok w.

Lemma step_all_actions_ok gs m m' : projection_step gs m m' -> all_actions_ok m -> all_actions_ok m'.
Proof.
  intros Hstep Hok k w Hk. destruct Hstep as [|w0 _ Hf _|k0 w0 w1 Hk0 Hw]; [by eapply Hok|..];
    apply lookup_insert_Some in Hk as [[<- <-]|[_ Hk]]; try by eapply Hok.
  - intros e id a He. destruct (fd_evidence _ Hf e He) as [-> _]. by rewrite lookup_empty.
  - eapply wf_step_actions_ok; eauto.
Qed.
End Actions.
