(* ===== verification/WorkflowBudget.v ===== *)
(** * The token budget of a governed sealed_v3 workflow

    A successful model receipt is accepted only when the tokens of all model
    receipts stay inside the signed budget, and a receipt set is sealed only when
    every action succeeded: a sealed workflow spent at most its budget. *)
From S2P Require Import Prelude RustStr Host LedgerPayloads TrustSpine Digests Events ReplayState ReducerCore WorkflowSpec WorkflowEvolution WorkflowInvariants WorkflowEvidence.
From stdpp Require Import base list gmap strings relations.

#[local] Open Scope string_scope.
#[local] Open Scope list_scope.
#[local] Open Scope Z_scope.

(** ** Counting tokens *)

Lemma total_tokens_permutation (l l' : list (string * ActionReplayState)) :
  l ≡ₚ l' ->
  foldr (fun kv total => action_tokens kv.2 + total) 0 l =
  foldr (fun kv total => action_tokens kv.2 + total) 0 l'.
Proof. induction 1; cbn; lia. Qed.

Lemma total_tokens_insert (m : gmap string ActionReplayState) id a :
  total_tokens (<[id := a]> m) = action_tokens a + total_tokens (delete id m).
Proof.
  unfold total_tokens. rewrite <- insert_delete_eq.
  rewrite (total_tokens_permutation _ _ (map_to_list_insert (delete id m) id a
    (lookup_delete_eq m id))). done.
Qed.

Lemma total_tokens_update (m : gmap string ActionReplayState) id a a' :
  m !! id = Some a -> action_tokens a' = action_tokens a ->
  total_tokens (<[id := a']> m) = total_tokens m.
Proof.
  intros Hid Ha. rewrite <- (insert_id m id a) at 2 by done. rewrite !total_tokens_insert. lia.
Qed.

Lemma total_tokens_new (m : gmap string ActionReplayState) id a :
  m !! id = None -> acts_receipt a = None -> total_tokens (<[id := a]> m) = total_tokens m.
Proof.
  intros Hid Ha. rewrite total_tokens_insert, delete_id by done.
  unfold action_tokens. rewrite Ha. cbn. by case_bool_decide.
Qed.

(** ** The invariant *)

(** Every model receipt on record reports a success. *)
Definition models_succeeded (m : gmap string ActionReplayState) : Prop :=
  forall id a r, m !! id = Some a -> acts_receipt a = Some r ->
    arqs_action_kind (acts_request a) = ActionKindV1_Model ->
    arcs_outcome r = ActionReceiptOutcomeV2_Succeeded.

(** Every action has a receipt that reports a success. *)
Definition all_succeeded (m : gmap string ActionReplayState) : Prop :=
  forall id a, m !! id = Some a ->
    exists r, acts_receipt a = Some r /\ arcs_outcome r = ActionReceiptOutcomeV2_Succeeded.

Section Budget.
Context `{Host, Canonicalizer} {label : Label}.

Definition budget_kept (w : WorkflowInstanceV1) (e : ActionEvidenceReplayState) : Prop :=
  wd_trust_tier (wi_dispatch w) = TrustTierV1_Governed ->
  requires_activity_claim_result w = true ->
  forall max, db_max_tokens (wd_budget (wi_dispatch w)) = Some max -> 0 <= max ->
  models_succeeded (aes_actions e) -> total_tokens (aes_actions e) <= max.

Lemma models_succeeded_old (m : gmap string ActionReplayState) id a a' :
  m !! id = Some a -> acts_receipt a = None -> models_succeeded (<[id := a']> m) ->
  models_succeeded m.
Proof.
  intros Hid Hr Hall i b r Hb Hrb. destruct (decide (i = id)) as [->|Hne]; [congruence|].
  apply (Hall i b r); [|done]. by rewrite lookup_insert_ne by done.
Qed.

(** An effect other than a receipt leaves the receipts alone. *)
Lemma effect_step_receipt m k id w a a' :
  effect_step m k id w a a' ->
  acts_receipt a = None /\ acts_request a' = acts_request a /\
  (acts_receipt a' = None \/ exists r, acts_receipt a' = Some r).
Proof. destruct 1; cbn; eauto. Qed.

Lemma action_tokens_none a : acts_receipt a = None -> action_tokens a = 0.
Proof. unfold action_tokens. intros ->. cbn. by case_bool_decide. Qed.

Lemma authority_step_tokens w a a' :
  authority_step w a a' -> acts_receipt a = None /\ acts_receipt a' = None.
Proof. by destruct 1. Qed.

Lemma receipt_budget w e id a a' r max :
  aes_actions e !! id = Some a -> acts_receipt a = None ->
  acts_request a' = acts_request a -> acts_receipt a' = Some r ->
  arqs_action_kind (acts_request a) = ActionKindV1_Model ->
  wd_trust_tier (wi_dispatch w) = TrustTierV1_Governed ->
  requires_activity_claim_result w = true ->
  db_max_tokens (wd_budget (wi_dispatch w)) = Some max ->
  within_budget w (aes_actions e) id r ->
  total_tokens (<[id := a']> (aes_actions e)) <= max /\
  total_tokens (<[id := a']> (aes_actions e)) < 2 ^ 64.
Proof.
  intros Hid Hn Hreq Hr Hk Hg Hq Hmax Hb. destruct (Hb Hg Hq max Hmax) as (u & Hu & Hle & Hlt).
  rewrite total_tokens_insert.
  assert (action_tokens a' = u) as ->; [|lia].
  unfold action_tokens. rewrite Hreq, Hk, Hr. cbn. by rewrite Hu.
Qed.

Lemma evidence_step_budget m k w e e' :
  evidence_step m k w e e' -> budget_kept w e -> budget_kept w e'.
Proof.
  intros Hstep Hok Hg Hq max Hmax Hnn Hall. specialize (Hok Hg Hq max Hmax Hnn).
  destruct Hstep as [e id a _ _ Hid Hu _|e id a a' _ Hid Ha|e id a a' _ Hid Ha Hb|]; cbn in *;
    rewrite ?(proj1 (refresh_keeps _)) in *; cbn in *.
  - rewrite total_tokens_new by (done || apply Hu). apply Hok. intros i b r Hi.
    apply (Hall i b r). rewrite lookup_insert_ne; congruence.
  - destruct (authority_step_tokens _ _ _ Ha) as [Hr Hr'].
    rewrite (total_tokens_update _ id a) by (rewrite ?action_tokens_none; done).
    eauto using models_succeeded_old.
  - destruct (effect_step_receipt _ _ _ _ _ _ Ha) as (Hr & Hreq & Hr').
    assert (action_tokens a' = 0 -> total_tokens (<[id := a']> (aes_actions e)) <= max) as Hsame.
    { intros Ht. rewrite (total_tokens_update _ id a) by (rewrite ?(action_tokens_none a); done).
      eauto using models_succeeded_old. }
    destruct Hr' as [Hr'|[r Hr']]; [auto using action_tokens_none|].
    destruct (decide (arqs_action_kind (acts_request a) = ActionKindV1_Model)) as [Hk|Hk].
    + eapply receipt_budget; eauto. eapply Hb; eauto.
      eapply Hall; [by apply lookup_insert_eq|done|by rewrite Hreq].
    + apply Hsame. unfold action_tokens. rewrite Hreq. by rewrite bool_decide_eq_false_2.
  - auto.
Qed.

(** ** Sealed sets *)

(** The evidence a workflow keeps has the version its dispatch signed. *)
Definition versioned (w : WorkflowInstanceV1) : Prop :=
  aes_action_evidence_version <$> wi_action_evidence w = wd_action_evidence_version (wi_dispatch w).

(** A sealed set of a sealed_v3 workflow covers successes only. *)
Definition sealed_success (w : WorkflowInstanceV1) (e : ActionEvidenceReplayState) : Prop :=
  requires_activity_claim_result w = true -> is_Some (aes_sealed_receipt_set e) ->
  all_succeeded (aes_actions e).

Lemma empty_queues_succeeded e :
  queues_exact e -> is_sealed_v3 e = true ->
  aes_pending_action_ids e = [] -> aes_unknown_action_ids e = [] ->
  aes_failed_action_ids e = [] -> all_succeeded (aes_actions e).
Proof.
  intros Hq Hv Hp Hu Hf id a Ha.
  assert (queue_of true a = None) as Hn.
  { destruct (queue_of true a) as [q|] eqn:Hqa; [|done].
    assert (id ∈ queue e q) as Hin by (apply Hq; rewrite Hv; eauto).
    destruct q; cbn in Hin; rewrite ?Hp, ?Hu, ?Hf in Hin; by apply elem_of_nil in Hin. }
  unfold queue_of, action_is_unknown, action_is_failed in Hn.
  destruct (acts_receipt a) as [r|]; cbn in Hn.
  - exists r. split; [done|].
    destruct (claim_result_is _ _), (claim_result_is _ _), (arcs_outcome r); done.
  - by destruct (claim_result_is _ _), (claim_result_is _ _).
Qed.

Lemma evidence_step_sealed m k w e e' :
  evidence_step m k w e e' -> evidence_ok e -> is_sealed_v3 e = requires_activity_claim_result w ->
  sealed_success w e'.
Proof.
  intros Hstep Hok Hv Hreq [s Hs].
  destruct (aes_sealed_receipt_set e) as [s0|] eqn:Hse.
  { by destruct (sealed_final _ _ _ _ _ s0 (proj1 Hok) Hse Hstep). }
  destruct Hstep; cbn in Hs; rewrite ?(proj1 (proj2 (refresh_keeps _))) in Hs; cbn in Hs;
    try congruence.
  match goal with Hf : requires_activity_claim_result w = true -> _ |- _ =>
    destruct (Hf Hreq) as [Hfail _] end.
  apply (empty_queues_succeeded e); try done; [apply Hok|congruence].
Qed.

(** ** The projection *)
Record spend_ok (w : WorkflowInstanceV1) : Prop := {
  so_version : versioned w;
  so_evidence : forall e, wi_action_evidence w = Some e ->
    evidence_ok e /\ budget_kept w e /\ sealed_success w e
}.

Lemma fresh_spend_ok w : freshly_dispatched w -> spend_ok w.
Proof.
  intros Hf. constructor; [apply Hf|]. intros e He.
  split; [by eapply fresh_evidence_ok|].
  destruct (fd_evidence _ Hf e He) as (Ha & Hs & _). split.
  - intros _ _ max _ Hnn _. by rewrite Ha.
  - intros _. rewrite Hs. by intros [? ?].
Qed.

Lemma versioned_sealed w e :
  versioned w -> wi_action_evidence w = Some e ->
  is_sealed_v3 e = requires_activity_claim_result w.
Proof.
  unfold versioned, is_sealed_v3, requires_activity_claim_result. intros Hv He.
  rewrite He in Hv. cbn in Hv. rewrite <- Hv. apply bool_decide_ext. split; [by intros ->|by intros [= ->]].
Qed.

Lemma step_spend_ok m k w w' : wf_step m k w w' -> spend_ok w -> spend_ok w'.
Proof.
  intros Hstep [Hv Hok]. pose proof (wf_step_evolves _ _ _ _ Hstep) as Hev.
  destruct Hstep; try (constructor; [done|exact Hok]).
  rename select (wi_action_evidence w = Some e) into He.
  rename select (evidence_step m k w e e') into Hs.
  destruct (Hok e He) as (Hoe & Hb & _). constructor.
  - unfold versioned in *. rewrite He in Hv. cbn in *.
    by rewrite (ee_version _ _ (evidence_step_evolves _ _ _ _ _ Hs)).
  - cbn. intros e0 [= <-]. split_and!; [by eapply evidence_step_ok| |].
    + exact (evidence_step_budget _ _ _ _ _ Hs Hb).
    + exact (evidence_step_sealed _ _ _ _ _ Hs Hoe (versioned_sealed _ _ Hv He)).
Qed.

Definition all_spend_ok (m : gmap string WorkflowInstanceV1) : Prop :=
  forall k w, m !! k = Some w -> spend_ok w.

Lemma step_all_spend_ok gs m m' : projection_step gs m m' -> all_spend_ok m -> all_spend_ok m'.
Proof.
  intros Hstep Hok k w Hk. destruct Hstep as [|w0 _ Hf|k0 w0 w1 Hk0 Hw]; [by eapply Hok|..];
    apply lookup_insert_Some in Hk as [[<- <-]|[_ Hk]]; eauto using fresh_spend_ok, step_spend_ok.
Qed.
End Budget.
