(* ===== verification/WorkflowSchedule.v ===== *)
(** * Graph schedules

    Workflows dispatched under a declared graph never outnumber its concurrency
    limit, and each started after its dependencies had completed. *)
From S2P Require Import Prelude RustStr Host LedgerPayloads TrustSpine Digests Events ReplayState ReducerCore WorkflowSpec WorkflowEvolution WorkflowInvariants.
From stdpp Require Import base list gmap strings relations.

#[local] Open Scope string_scope.
#[local] Open Scope list_scope.
#[local] Open Scope Z_scope.

(** ** Peers *)

Lemma graph_peer_true w w' :
  graph_peer w w' = true <->
  graph_bound w' = true /\
  (wi_run_id w', wi_workflow_id w', wi_workflow_revision w',
   wd_workflow_graph_digest (wi_dispatch w'),
   wd_workflow_graph_declaration_event_ref (wi_dispatch w')) =
  (wi_run_id w, wi_workflow_id w, wi_workflow_revision w,
   wd_workflow_graph_digest (wi_dispatch w),
   wd_workflow_graph_declaration_event_ref (wi_dispatch w)).
Proof.
  unfold graph_peer. rewrite !andb_true_iff, !bool_decide_eq_true. split; [|naive_solver].
  intros (((((-> & ?) & ->) & ->) & ->) & ->). done.
Qed.

Lemma graph_peer_refl w : graph_bound w = true -> graph_peer w w = true.
Proof. intros Hw. by apply graph_peer_true. Qed.

(** Peers see the same workflows. *)
Lemma graph_peer_trans w w' x : graph_peer w w' = true -> graph_peer w' x = graph_peer w x.
Proof.
  intros [_ Heq]%graph_peer_true. injection Heq as Hr Hw Hv Hd He.
  unfold graph_peer. by rewrite Hr, Hw, Hv, Hd, He.
Qed.

Lemma evolves_graph_peer_r w x x' : evolves x x' -> graph_peer w x' = graph_peer w x.
Proof.
  intros [Hid Hd _]. injection Hid as Hr Hw Hv _ _.
  unfold graph_peer, graph_bound. by rewrite Hr, Hw, Hv, Hd.
Qed.

Lemma evolves_graph_peer_l w w' x : evolves w w' -> graph_peer w' x = graph_peer w x.
Proof.
  intros [Hid Hd _]. injection Hid as Hr Hw Hv _ _.
  unfold graph_peer, graph_bound. by rewrite Hr, Hw, Hv, Hd.
Qed.

Lemma evolves_graph_bound w w' : evolves w w' -> graph_bound w' = graph_bound w.
Proof. intros [_ Hd _]. unfold graph_bound. by rewrite Hd. Qed.

(** ** The invariant *)

(** The workflow carries the graph it was dispatched under. *)
Definition graph_of (gs : gmap string WorkflowGraphV2ReplayState) (w : WorkflowInstanceV1) : Prop :=
  if graph_bound w then
    exists g, wi_workflow_graph w = Some g /\
      gs !! workflow_graph_key (wi_run_id w) (wi_workflow_id w) (wi_workflow_revision w) = Some g
  else wi_workflow_graph w = None.

(** Every unit the graph names as a dependency of [w]'s unit has completed. *)
Definition dependencies_completed (m : gmap string WorkflowInstanceV1) (w : WorkflowInstanceV1)
    (g : WorkflowGraphV2ReplayState) : Prop :=
  exists node,
    List.filter (fun n => wgn2_unit_id n == wi_unit_id w) (wg2s_nodes g) = [node] /\
    Forall (fun unit_id => exists k' w', m !! k' = Some w' /\ graph_peer w w' = true /\
              wi_unit_id w' = unit_id /\ wi_phase w' = WorkflowPhaseV1_Completed)
      (wgn2_depends_on node).

Record schedule_ok (gs : gmap string WorkflowGraphV2ReplayState)
    (m : gmap string WorkflowInstanceV1) : Prop := {
  sc_graph : forall k w, m !! k = Some w -> graph_of gs w;
  sc_dependencies : forall k w g, m !! k = Some w -> wi_workflow_graph w = Some g ->
    dependencies_completed m w g;
  sc_active : forall k w g, m !! k = Some w -> wi_workflow_graph w = Some g ->
    Z.of_nat (map_count (active_peer w) m) <= wg2s_max_concurrent g
}.

Section Schedule.
Context `{Host, Canonicalizer} {label : Label}.

Lemma schedule_ok_empty gs : schedule_ok gs ∅.
Proof. constructor; intros k w; by rewrite lookup_empty. Qed.

Lemma schedule_ok_declare gs gs' m : gs ⊆ gs' -> schedule_ok gs m -> schedule_ok gs' m.
Proof.
  intros Hsub [Hg Hd Ha]. constructor; try done. intros k w Hk. specialize (Hg k w Hk).
  unfold graph_of in *. destruct (graph_bound w); [|done]. destruct Hg as (g & Hw & Hl).
  exists g. split; [done|]. by eapply lookup_weaken.
Qed.

Lemma graph_of_admissible gs m w : admissible gs m w -> graph_of gs w.
Proof.
  unfold admissible, graph_of. destruct (graph_bound w); [|done].
  intros (g & Hw & Hg & _). eauto.
Qed.

(** Two peers carry the same graph. *)
Lemma peers_same_graph gs w w' g g' :
  graph_of gs w -> graph_of gs w' -> graph_peer w w' = true ->
  wi_workflow_graph w = Some g -> wi_workflow_graph w' = Some g' -> g = g'.
Proof.
  intros Hw Hw' [_ Heq]%graph_peer_true Hg Hg'. injection Heq as Hr Hi Hv _ _.
  unfold graph_of in *. rewrite Hr, Hi, Hv in Hw'.
  destruct (graph_bound w), (graph_bound w'); naive_solver.
Qed.

Lemma dependencies_kept m m' w w' g :
  dependencies_completed m w g -> evolves w w' ->
  (forall k x, m !! k = Some x -> exists x', m' !! k = Some x' /\ evolves x x' /\
     (is_terminal (wi_phase x) = true -> wi_phase x' = wi_phase x)) ->
  dependencies_completed m' w' g.
Proof.
  intros (node & Hn & Hdeps) Hev Hm. pose proof (ev_identity _ _ Hev) as Hid.
  injection Hid as _ _ _ Hu _. exists node. split; [by rewrite Hu|].
  eapply Forall_impl; [exact Hdeps|]. intros u (k & x & Hk & Hp & Hux & Hph).
  destruct (Hm k x Hk) as (x' & Hk' & Hevx & Hf). exists k, x'.
  pose proof (ev_identity _ _ Hevx) as Hidx. injection Hidx as _ _ _ Hu' _.
  split_and!; [done| |congruence|].
  - by rewrite (evolves_graph_peer_r _ _ _ Hevx), (evolves_graph_peer_l _ _ _ Hev).
  - rewrite Hf by by rewrite Hph. done.
Qed.

Lemma dependencies_admit gs m w g :
  admissible gs m w -> wi_workflow_graph w = Some g -> dependencies_completed m w g.
Proof.
  unfold admissible. destruct (graph_bound w); [|congruence].
  intros (g' & Hg & _ & _ & _ & node & Hn & _ & _ & Hdeps & _) Hg'. simplify_eq.
  exists node. split; [done|]. eapply Forall_impl; [exact Hdeps|].
  intros u (k' & w' & (Hk & Hp & Hu & _) & Hph). eauto 8.
Qed.

Lemma active_admit gs m w0 w g :
  schedule_ok gs m -> m !! key_of w0 = None -> admissible gs m w0 -> graph_of gs w ->
  wi_workflow_graph w = Some g ->
  (w = w0 \/ Z.of_nat (map_count (active_peer w) m) <= wg2s_max_concurrent g) ->
  Z.of_nat (map_count (active_peer w) (<[key_of w0 := w0]> m)) <= wg2s_max_concurrent g.
Proof.
  intros Hok Hnew Hadm Hgw Hg Hor. rewrite map_count_new by done.
  destruct (active_peer w w0) eqn:Hact; cbn [Nat.add].
  - apply andb_true_iff in Hact as [Hpeer _].
    pose proof (graph_of_admissible _ _ _ Hadm) as Hg0.
    pose proof (proj1 (proj1 (graph_peer_true _ _) Hpeer)) as Hb0.
    unfold admissible in Hadm. rewrite Hb0 in Hadm.
    destruct Hadm as (g0 & Hw0 & _ & _ & _ & node & _ & _ & _ & _ & Hlt).
    pose proof (peers_same_graph _ _ _ _ _ Hgw Hg0 Hpeer Hg Hw0) as ->.
    rewrite (map_count_ext (active_peer w) (active_peer w0)); [lia|].
    intros x. unfold active_peer. by rewrite (graph_peer_trans w w0).
  - destruct Hor as [->|Hle]; [|lia].
    unfold admissible in Hadm. destruct (graph_bound w0); [|congruence].
    destruct Hadm as (g0 & Hw0 & _ & _ & _ & node & _ & _ & _ & _ & Hlt).
    simplify_eq. lia.
Qed.

Lemma evolves_graph w w' : evolves w w' -> wi_workflow_graph w' = wi_workflow_graph w.
Proof. intros [_ _ Ha]. congruence. Qed.

Lemma schedule_admit gs m w0 :
  schedule_ok gs m -> m !! key_of w0 = None -> admissible gs m w0 ->
  schedule_ok gs (<[key_of w0 := w0]> m).
Proof.
  intros Hok Hnew Hadm. pose proof (graph_of_admissible _ _ _ Hadm) as Hg0. constructor.
  - intros k w [[<- <-]|[_ Hk]]%lookup_insert_Some; [done|]. by eapply sc_graph.
  - intros k w g Hk Hg. eapply dependencies_kept; [|reflexivity|].
    + apply lookup_insert_Some in Hk as [[<- <-]|[_ Hk]];
        [by eapply dependencies_admit|by eapply sc_dependencies].
    + intros k' x Hk'. exists x. rewrite lookup_insert_ne by congruence. done.
  - intros k w g [[<- <-]|[_ Hk]]%lookup_insert_Some Hg; eapply active_admit; eauto.
    + by eapply sc_graph.
    + right. by eapply sc_active.
Qed.

Lemma schedule_update gs m k0 w0 w1 :
  schedule_ok gs m -> m !! k0 = Some w0 -> evolves w0 w1 ->
  (is_terminal (wi_phase w0) = true -> wi_phase w1 = wi_phase w0) ->
  schedule_ok gs (<[k0 := w1]> m).
Proof.
  intros Hok Hk0 Hev Hfin.
  assert (forall k x, m !! k = Some x -> exists x', <[k0 := w1]> m !! k = Some x' /\
    evolves x x' /\ (is_terminal (wi_phase x) = true -> wi_phase x' = wi_phase x)) as Hkeep.
  { intros k x Hk. destruct (decide (k = k0)) as [->|Hne].
    - simplify_eq. exists w1. by rewrite lookup_insert_eq.
    - exists x. by rewrite lookup_insert_ne by done. }
  assert (forall k w, <[k0 := w1]> m !! k = Some w -> exists w', m !! k = Some w' /\ evolves w' w)
    as Hback.
  { intros k w [[<- <-]|[_ Hk]]%lookup_insert_Some; [eauto|]. by exists w. }
  constructor.
  - intros k w (w' & Hk & Hw)%Hback. pose proof (sc_graph _ _ Hok _ _ Hk) as Hg.
    unfold graph_of in *. rewrite (evolves_graph_bound _ _ Hw), (evolves_graph _ _ Hw).
    pose proof (ev_identity _ _ Hw) as Hid. by injection Hid as -> -> -> _ _.
  - intros k w g (w' & Hk & Hw)%Hback Hg. rewrite (evolves_graph _ _ Hw) in Hg.
    eapply dependencies_kept; [by eapply sc_dependencies|done|done].
  - intros k w g (w' & Hk & Hw)%Hback Hg. rewrite (evolves_graph _ _ Hw) in Hg.
    rewrite (map_count_ext (active_peer w) (active_peer w')).
    2: { intros x. unfold active_peer. by rewrite (evolves_graph_peer_l _ _ _ Hw). }
    pose proof (sc_active _ _ Hok _ _ _ Hk Hg) as Hle.
    assert (active_peer w' w1 = true -> active_peer w' w0 = true) as Hact.
    { unfold active_peer. rewrite (evolves_graph_peer_r _ _ _ Hev), !andb_true_iff, !negb_true_iff.
      intros [Hp Ht]. split; [done|]. destruct (is_terminal (wi_phase w0)) eqn:Hw0; [|done].
      rewrite Hfin in Ht by done. congruence. }
    pose proof (map_count_update _ _ _ _ _ Hk0 Hact). lia.
Qed.

Lemma projection_step_schedule gs m m' :
  projection_step gs m m' -> projection_ok m -> schedule_ok gs m -> schedule_ok gs m'.
Proof.
  destruct 1 as [|w Hnew _ _ Hadm|k w w' Hk Hw]; intros Hp Hok; [done|..].
  - by apply schedule_admit.
  - eapply schedule_update; eauto using wf_step_evolves.
    eapply step_terminal_final; [done|]. apply (Hp k w Hk).
Qed.
End Schedule.

Section Runs.
Context `{Host, Canonicalizer}.

Lemma spine_schedule s s' :
  rtc any_step s s' -> projection_ok s.2 -> schedule_ok s.1 s.2 -> schedule_ok s'.1 s'.2.
Proof.
  induction 1 as [|s1 s2 s3 [l Hs] _ IH]; [done|]. intros Hp Hok.
  apply spine_step_projection in Hs as [Hs Hsub].
  apply IH; [by eapply projection_step_ok|].
  eapply schedule_ok_declare; [done|]. by eapply projection_step_schedule.
Qed.
End Runs.
