(* ===== verification/WorkflowKeys.v ===== *)
(** * Keys of the projection tables

    Workflows and graphs are filed under length-prefixed keys, which are
    injective; manifest declarations under a NUL-joined key, which is injective
    on identifiers without NUL characters. *)
From Stdlib Require Import Ascii.
From S2P Require Import Prelude RustStr Host LedgerPayloads TrustSpine Digests Events ReplayState ReducerCore.
From stdpp Require Import base list gmap strings pretty.

#[local] Open Scope string_scope.
#[local] Open Scope Z_scope.

(** ** Splitting strings *)

(** [c] does not occur in [s]. *)
Definition free_of (c : ascii) (s : string) : Prop := str_all (fun x => x != c) s = true.

Lemma split_at_char (c : ascii) a b a' b' :
  free_of c a -> free_of c a' -> a +:+ String c b = a' +:+ String c b' -> a = a' /\ b = b'.
Proof.
  unfold free_of. revert a'. induction a as [|x a IH]; intros [|x' a'] Ha Ha' Heq; cbn in *.
  - by simplify_eq.
  - simplify_eq. by rewrite bool_decide_eq_true_2 in Ha'.
  - simplify_eq. by rewrite bool_decide_eq_true_2 in Ha.
  - simplify_eq. bool_simp. destruct (IH a') as [-> ->]; try done.
Qed.

Lemma split_at_length a b a' b' :
  String.length a = String.length a' -> a +:+ b = a' +:+ b' -> a = a' /\ b = b'.
Proof.
  revert a'. induction a as [|x a IH]; intros [|x' a'] Hlen Heq; cbn in *; simplify_eq; [done|].
  by destruct (IH a') as [-> ->].
Qed.

(** ** Decimal numerals *)

(** A character no numeral contains. *)
Definition not_digit (c : ascii) : Prop := forall x, pretty_N_char x <> c.

Lemma not_digit_colon : not_digit ":".
Proof. intros x. unfold pretty_N_char. by repeat case_match. Qed.

Lemma not_digit_nul : not_digit zero.
Proof. intros x. unfold pretty_N_char. by repeat case_match. Qed.

Lemma pretty_N_go_free c x s : not_digit c -> free_of c s -> free_of c (pretty_N_go x s).
Proof.
  intros Hc. revert s. induction (N.lt_wf_0 x) as [x _ IH]; intros s Hs.
  destruct (decide (x = 0)%N) as [->|Hx]; [done|].
  rewrite pretty_N_go_step by lia. apply IH; [apply N.div_lt; lia|].
  unfold free_of in *. cbn. rewrite Hs, andb_true_r, neqb_true. apply Hc.
Qed.

Lemma pretty_nat_free c (n : nat) : not_digit c -> free_of c (pretty n).
Proof.
  intros Hc. unfold pretty, pretty_nat, pretty, pretty_N. case_decide.
  - unfold free_of. cbn. rewrite andb_true_r, neqb_true. apply (Hc 0%N).
  - by apply pretty_N_go_free.
Qed.

(** A length-prefixed field is read back unambiguously. *)
Lemma length_prefixed a rest a' rest' :
  pretty (String.length a) +:+ ":" +:+ a +:+ rest =
  pretty (String.length a') +:+ ":" +:+ a' +:+ rest' -> a = a' /\ rest = rest'.
Proof.
  intros Heq. apply split_at_char in Heq as [Hlen Heq];
    [|apply pretty_nat_free, not_digit_colon..].
  apply (inj pretty) in Hlen. by apply split_at_length.
Qed.

(** ** The keys *)

Lemma workflow_instance_key_inj w u a w' u' a' :
  workflow_instance_key w u a = workflow_instance_key w' u' a' -> w = w' /\ u = u' /\ a = a'.
Proof.
  unfold workflow_instance_key. intros (-> & (-> & Ha)%length_prefixed)%length_prefixed.
  split_and!; [done..|]. apply (inj (String.append ":")) in Ha. by apply (inj pretty).
Qed.

Lemma workflow_graph_key_inj r w v r' w' v' :
  workflow_graph_key r w v = workflow_graph_key r' w' v' -> r = r' /\ w = w' /\ v = v'.
Proof.
  unfold workflow_graph_key. intros (-> & (-> & Hv)%length_prefixed)%length_prefixed.
  apply split_at_char in Hv as [_ ->]; [done|apply pretty_nat_free, not_digit_colon..].
Qed.

Lemma manifest_declaration_key_inj r w v u a r' w' v' u' a' :
  Forall (free_of zero) [r; w; v; u; r'; w'; v'; u'] ->
  manifest_declaration_key r w v u a = manifest_declaration_key r' w' v' u' a' ->
  r = r' /\ w = w' /\ v = v' /\ u = u' /\ a = a'.
Proof.
  unfold manifest_declaration_key. rewrite !Forall_cons. intros (?&?&?&?&?&?&?&?&_) Heq.
  do 4 (apply split_at_char in Heq as [-> Heq]; [|done..]).
  by apply (inj pretty) in Heq.
Qed.
