(* ===== verification/ReducerSafety.v ===== *)
(** * The reducer never panics

    The handlers index maps with [expect] after a lookup helper returned the key.
    Each such lookup succeeds: the helpers return keys of the map, and nothing
    changes the map in between. *)
From S2P Require Import Prelude RustStr Host LedgerPayloads TrustSpine Digests Events ReplayState ReducerCore ReducerDispatch ReducerActions ReducerCandidates ReducerPromotion ReducerLifecycle Reducer WorkflowReplay.
From stdpp Require Import base list gmap strings.

#[local] Open Scope string_scope.
#[local] Open Scope list_scope.
#[local] Open Scope Z_scope.

(** ** Keys returned by the lookup helpers are present *)

Lemma elem_of_filter_keys {A} (f : string * A -> bool) (m : gmap string A) k :
  k ∈ filter_keys f m -> exists a, m !! k = Some a /\ f (k, a) = true.
Proof.
  unfold filter_keys. intros ([k' a] & -> & Hin)%list_elem_of_fmap.
  rewrite list_elem_of_In, filter_In, <- list_elem_of_In, elem_of_map_to_list in Hin. eauto.
Qed.

Lemma filter_keys_singleton {A} (f : string * A -> bool) (m : gmap string A) k :
  filter_keys f m = [k] -> exists a, m !! k = Some a /\ f (k, a) = true.
Proof. intros Hk. apply elem_of_filter_keys. rewrite Hk. by left. Qed.

Lemma elem_of_find_actions st wok aok k id :
  (k, id) ∈ find_actions st wok aok ->
  exists w e a, st_workflow_instances st !! k = Some w /\ wi_action_evidence w = Some e /\
    aes_actions e !! id = Some a /\ aok a = true.
Proof.
  unfold find_actions. intros ([k' w] & Hin & Hk)%list_elem_of_bind. cbn in Hin.
  apply elem_of_btree_list in Hk.
  destruct (negb (wok w)); [by apply elem_of_nil in Hin|].
  destruct (wi_action_evidence w) as [e|] eqn:He; [|by apply elem_of_nil in Hin].
  apply list_elem_of_bind in Hin as ([id' a] & Hin & Hid). cbn in Hin.
  apply elem_of_btree_list in Hid.
  destruct (aok a) eqn:Ha; [|by apply elem_of_nil in Hin].
  apply list_elem_of_singleton in Hin as [= -> ->]. eauto 10.
Qed.

Lemma filter_head {A} (f : A -> bool) l a l' : List.filter f l = a :: l' -> f a = true.
Proof.
  intros Hf. eapply filter_In with (l := l). rewrite Hf. by left.
Qed.

Lemma for_each_err {A E} (f : A -> Result unit E) l e :
  for_each f l = Err e -> exists a, f a = Err e.
Proof.
  induction l as [|a l IH]; cbn; [done|]. destruct (f a) as [|] eqn:Hf; cbn; [auto|].
  intros [= ->]. eauto.
Qed.

Lemma fault_panic {A} id (r : Result A Fault) :
  map_err (activity_fault id) r = Err Panicked -> r = Err Panic.
Proof. destruct r as [|[]]; cbn; congruence. Qed.

(** A fault is a panic only if the code's [expect] fired. *)
Definition no_panic (v : Verdict) : Prop := v <> Err Panicked.

Lemma bind_panic {A B} (r : Result A Exit) (k : A -> Result B Exit) :
  result_bind r k = Err Panicked ->
  r = Err Panicked \/ exists a, r = Ok a /\ k a = Err Panicked.
Proof. destruct r; cbn; [eauto|]. intros [= ->]. auto. Qed.

Lemma map_err_panic {A} (f : string -> Exit) (r : Result A string) :
  (forall reason, f reason <> Panicked) -> map_err f r = Err Panicked -> False.
Proof. intros Hf. destruct r; cbn; [done|]. intros [= Hr]. by eapply Hf. Qed.

Section Safety.
Context `{Host, Canonicalizer}.

Lemma lifecycle_key st event r wid rev u a d g k :
  find_workflow_key_for_lifecycle st event r wid rev u a d g = Ok k ->
  is_Some (st_workflow_instances st !! k).
Proof. unfold find_workflow_key_for_lifecycle. intros Hf. cbv zeta in Hf. guards. by subst. Qed.

Lemma authorization_key st event p k :
  find_v3_workflow_key_for_model_authorization st event p = Ok k ->
  is_Some (st_workflow_instances st !! k).
Proof.
  unfold find_v3_workflow_key_for_model_authorization. intros Hf. cbv zeta in Hf. guards.
  by subst.
Qed.

Lemma action_key st event a1 a2 a3 a4 a5 a6 a7 a8 a9 b1 b2 b3 b4 b5 k :
  find_v3_workflow_key_for_action st event a1 a2 a3 a4 a5 a6 a7 a8 a9 b1 b2 b3 b4 b5 = Ok k ->
  is_Some (st_workflow_instances st !! k).
Proof. unfold find_v3_workflow_key_for_action. intros Hf. cbv zeta in Hf. guards. by subst. Qed.

Lemma set_key st event p k :
  find_v3_workflow_key_for_set st event p = Ok k -> is_Some (st_workflow_instances st !! k).
Proof. unfold find_v3_workflow_key_for_set. intros Hf. cbv zeta in Hf. guards. by subst. Qed.

Lemma reviewer_key st event p k :
  find_v3_reviewer_workflow_for_review st event p = Ok k ->
  is_Some (st_workflow_instances st !! k).
Proof.
  unfold find_v3_reviewer_workflow_for_review. intros Hf. cbv zeta in Hf. guards. by subst.
Qed.

Lemma candidate_key st event d c k :
  find_workflow_key_for_candidate st event d c = Ok k ->
  is_Some (st_workflow_instances st !! k).
Proof.
  unfold find_workflow_key_for_candidate. cbv zeta.
  destruct (filter_keys _ _) as [|k' [|]] eqn:Hk; try done. intros [= ->].
  apply filter_keys_singleton in Hk as (w & Hw & _). by rewrite Hw.
Qed.

(** The action a lookup helper returned, with the evidence that holds it. *)
Definition action_present (st : ReplayState) (k id : string)
    (aok : ActionReplayState -> Prop) : Prop :=
  exists w e a, st_workflow_instances st !! k = Some w /\ wi_action_evidence w = Some e /\
    aes_actions e !! id = Some a /\ aok a.

Lemma claim_key st event p r :
  find_v3_workflow_key_for_activity_claim st event p = r ->
  match r with
  | Ok (k, id) => action_present st k id (fun _ => True)
  | Err Panic => False
  | Err (Reason _) => True
  end.
Proof.
  unfold find_v3_workflow_key_for_activity_claim. cbv zeta. intros <-.
  destruct (_ != _); [done|].
  destruct (filter_keys _ (st_workflow_instances st)) as [|k [|]] eqn:Hk; try done.
  apply filter_keys_singleton in Hk as (w & Hw & _). rewrite Hw.
  destruct (negb (workflow_supports_native_activity_claim w)) eqn:Hs; [done|].
  unfold workflow_supports_native_activity_claim in Hs. bool_simp.
  destruct (wi_action_evidence w) as [e|] eqn:He; [|done].
  destruct (filter_keys _ (aes_actions e)) as [|id [|]] eqn:Hid; try done.
  apply filter_keys_singleton in Hid as (a & Ha & _). by exists w, e, a.
Qed.

Lemma find_actions_singleton st wok aok k id :
  find_actions st wok aok = [(k, id)] -> action_present st k id (fun a => aok a = true).
Proof. intros Hf. eapply elem_of_find_actions. rewrite Hf. by left. Qed.

Lemma claimed_action_present st k id eid wok :
  find_actions st wok (fun action => is_some_and (acts_activity_claim action) (fun claim =>
    acls_event_id claim == eid)) = [(k, id)] ->
  action_present st k id (fun a => is_Some (acts_activity_claim a)).
Proof.
  intros (w & e & a & Hw & He & Ha & Hok)%find_actions_singleton. exists w, e, a.
  by apply is_some_and_true in Hok as (c & -> & _).
Qed.

Lemma result_key st event p k id :
  find_v3_workflow_key_for_activity_result st event p = Ok (k, id) ->
  action_present st k id (fun a => is_Some (acts_activity_claim a)).
Proof.
  unfold find_v3_workflow_key_for_activity_result. destruct (_ != _); [done|].
  destruct (find_actions _ _ _) as [|found [|]] eqn:Hf; try done. intros [= ->].
  by eapply claimed_action_present.
Qed.

Lemma heartbeat_key st event p r :
  find_v3_workflow_key_for_activity_heartbeat st event p = r ->
  match r with
  | Ok (k, id) => action_present st k id (fun a => is_Some (acts_activity_claim a))
  | Err Panic => False
  | Err (Reason _) => True
  end.
Proof.
  unfold find_v3_workflow_key_for_activity_heartbeat. intros <-. destruct (_ != _); [done|].
  destruct (find_actions _ _ _) as [|[k id] [|]] eqn:Hf; try done.
  apply claimed_action_present in Hf. destruct Hf as (w & e & a & Hw & He & Ha & Hc). cbn.
  rewrite Hw. destruct (_ || _); [done|]. by exists w, e, a.
Qed.
End Safety.

(** [known_keys] turns the successful lookups in the context into entries of the
    projection. *)
Ltac known_keys :=
  repeat match goal with
  | E : map_err _ _ = Ok _ |- _ => apply map_err_ok in E
  | E : find_workflow_key_for_lifecycle _ _ _ _ _ _ _ _ _ = Ok _ |- _ =>
      apply lifecycle_key in E as [? E]
  | E : find_v3_workflow_key_for_model_authorization _ _ _ = Ok _ |- _ =>
      apply authorization_key in E as [? E]
  | E : find_v3_workflow_key_for_action _ _ _ _ _ _ _ _ _ _ _ _ _ _ _ _ = Ok _ |- _ =>
      apply action_key in E as [? E]
  | E : find_v3_workflow_key_for_set _ _ _ = Ok _ |- _ => apply set_key in E as [? E]
  | E : find_v3_reviewer_workflow_for_review _ _ _ = Ok _ |- _ => apply reviewer_key in E as [? E]
  | E : find_workflow_key_for_candidate _ _ _ _ = Ok _ |- _ => apply candidate_key in E as [? E]
  | E : find_v3_workflow_key_for_activity_claim _ _ _ = Ok (_, _) |- _ =>
      apply claim_key in E; destruct E as (? & ? & ? & ? & ? & ? & _)
  | E : find_v3_workflow_key_for_activity_result _ _ _ = Ok (_, _) |- _ =>
      apply result_key in E; destruct E as (? & ? & ? & ? & ? & ? & ? & ?)
  | E : find_v3_workflow_key_for_activity_heartbeat _ _ _ = Ok (_, _) |- _ =>
      apply heartbeat_key in E; destruct E as (? & ? & ? & ? & ? & ? & ? & ?)
  end.

(** [follow H] follows a verdict to the panic it is assumed to end in. *)
Ltac follow H :=
  repeat match type of H with
  | Ok _ = Err _ => discriminate H
  | Err (Rejected _) = _ => discriminate H
  | Err (RejectedActivity _ _) = _ => discriminate H
  | Err Ignored = _ => discriminate H
  | map_err (activity_fault _) _ = Err Panicked =>
      apply fault_panic in H; first [apply claim_key in H | apply heartbeat_key in H]; destruct H
  | for_each _ _ = Err Panicked =>
      apply for_each_err in H as [[? [? ?]] H]; cbn beta iota in H
  | map_err _ _ = Err Panicked => exfalso; revert H; apply map_err_panic; discriminate
  | result_bind _ _ = Err Panicked =>
      apply bind_panic in H; destruct H as [H|(? & ? & H)]; cbn beta iota in H
  | (if ?b then _ else _) = Err _ => destruct b eqn:? in H
  | match ?o with Some _ => _ | None => _ end = Err _ =>
      known_keys;
      first [ match goal with E : o = _ |- _ => rewrite E in H; cbn beta iota in H end
            | destruct o eqn:? in H ]
  | (let '(_, _) := ?x in _) = Err _ => destruct x
  | match ?x with _ => _ end = Err _ => destruct x eqn:? in H
  end.

(** [safe] proves that a handler does not panic. *)
Ltac safe v :=
  unfold v, no_panic; intros Hv; cbv zeta in Hv; follow Hv; clear Hv; guards; try done.

Section Handlers.
Context `{Host, Canonicalizer}.

Lemma timer_scheduled_safe st event p :
  no_panic (workflow_timer_scheduled_v1_verdict st event p).
Proof. safe @workflow_timer_scheduled_v1_verdict. Qed.

Lemma timer_fired_safe st event p :
  no_panic (workflow_timer_fired_v1_verdict st event p).
Proof. safe @workflow_timer_fired_v1_verdict. Qed.

Lemma cancellation_safe st event p :
  no_panic (workflow_cancellation_requested_v1_verdict st event p).
Proof. safe @workflow_cancellation_requested_v1_verdict. Qed.

Lemma terminal_safe st event p v :
  no_panic (workflow_terminal_record_verdict st event p v).
Proof. safe @workflow_terminal_record_verdict. Qed.

Lemma approval_safe st event p :
  no_panic (promotion_approval_requested_verdict st event p).
Proof. safe @promotion_approval_requested_verdict. Qed.

Lemma decision_safe st event p :
  no_panic (promotion_decision_verdict st event p).
Proof. safe @promotion_decision_verdict. Qed.

Lemma execution_claim_safe st event p signer :
  no_panic (promotion_execution_claimed_v1_verdict st event p signer).
Proof. safe @promotion_execution_claimed_v1_verdict. Qed.

Lemma result_safe st event p :
  no_panic (promotion_result_verdict st event p).
Proof. safe @promotion_result_verdict. Qed.

Lemma reconciliation_safe st event p :
  no_panic (promotion_reconciliation_resolved_verdict st event p).
Proof. safe @promotion_reconciliation_resolved_verdict. Qed.

Lemma candidate_created_safe st event p :
  no_panic (candidate_created_verdict st event p).
Proof. safe @candidate_created_verdict. Qed.

Lemma candidate_created_v2_safe st event p :
  no_panic (candidate_created_v2_verdict st event p).
Proof. safe @candidate_created_v2_verdict. Qed.

Lemma completion_safe st event p :
  no_panic (candidate_completion_recorded_v1_verdict st event p).
Proof. safe @candidate_completion_recorded_v1_verdict. Qed.

Lemma acceptance_safe st event p :
  no_panic (candidate_acceptance_verdict st event p).
Proof. safe @candidate_acceptance_verdict. Qed.

Lemma review_safe st event p :
  no_panic (review_verdict_verdict st event p).
Proof. safe @review_verdict_verdict. Qed.

Lemma review_v2_safe st event p :
  no_panic (review_verdict_v2_verdict st event p).
Proof. safe @review_verdict_v2_verdict. Qed.

Lemma dispatch_v1_safe st event p :
  no_panic (dispatch_envelope_verdict st event p).
Proof. safe @dispatch_envelope_verdict. Qed.

Lemma dispatch_v2_safe st event p :
  no_panic (dispatch_envelope_v2_verdict st event p).
Proof. safe @dispatch_envelope_v2_verdict. Qed.

Lemma dispatch_v3_safe st event p :
  no_panic (dispatch_envelope_v3_verdict st event p).
Proof. safe @dispatch_envelope_v3_verdict. Qed.

Lemma dispatch_v4_safe st event p graph :
  no_panic (dispatch_envelope_v4_verdict st event p graph).
Proof. safe @dispatch_envelope_v4_verdict. Qed.

Lemma dispatch_v5_safe st event p signer digest graph manifests :
  no_panic (dispatch_envelope_v5_verdict st event p signer digest graph manifests).
Proof. safe @dispatch_envelope_v5_verdict. Qed.

Lemma graph_v1_safe st event p :
  no_panic (workflow_graph_declared_v1_verdict st event p).
Proof. safe @workflow_graph_declared_v1_verdict. Qed.

Lemma graph_v2_safe st event p :
  no_panic (workflow_graph_declared_v2_verdict st event p).
Proof. safe @workflow_graph_declared_v2_verdict. Qed.

Lemma context_manifest_safe st event p signer :
  no_panic (context_manifest_declared_v1_verdict st event p signer).
Proof. safe @context_manifest_declared_v1_verdict. Qed.

Lemma worker_manifest_safe st event p signer :
  no_panic (worker_manifest_declared_v1_verdict st event p signer).
Proof. safe @worker_manifest_declared_v1_verdict. Qed.

Lemma sandbox_profile_safe st event p signer :
  no_panic (sandbox_profile_declared_v1_verdict st event p signer).
Proof. safe @sandbox_profile_declared_v1_verdict. Qed.

Lemma attempt_context_declared_safe st event p signer :
  no_panic (attempt_context_declared_v1_verdict st event p signer).
Proof. safe @attempt_context_declared_v1_verdict. Qed.

Lemma request_safe st event p :
  no_panic (action_requested_v2_verdict st event p).
Proof. safe @action_requested_v2_verdict. Qed.

Lemma intent_safe st event p :
  no_panic (model_action_intent_v1_verdict st event p).
Proof. safe @model_action_intent_v1_verdict. Qed.

Lemma authorized_v1_safe st event p :
  no_panic (model_action_authorized_v1_verdict st event p).
Proof. safe @model_action_authorized_v1_verdict. Qed.

Lemma receipt_safe st event p :
  no_panic (action_receipt_recorded_v2_verdict st event p).
Proof. safe @action_receipt_recorded_v2_verdict. Qed.

Lemma seal_safe st event p :
  no_panic (action_receipt_set_recorded_v1_verdict st event p).
Proof. safe @action_receipt_set_recorded_v1_verdict. Qed.

Lemma heartbeat_safe st event p signer :
  no_panic (activity_heartbeat_recorded_v1_verdict st event p signer).
Proof. safe @activity_heartbeat_recorded_v1_verdict. Qed.

Lemma claimed_safe st event p signer :
  no_panic (activity_claimed_v1_verdict st event p signer).
Proof. safe @activity_claimed_v1_verdict. Qed.

Lemma activity_result_safe st event p signer :
  no_panic (activity_result_recorded_v1_verdict st event p signer).
Proof. safe @activity_result_recorded_v1_verdict. Qed.

Lemma authorized_v2_safe st event p :
  no_panic (model_action_authorized_v2_verdict st event p).
Proof.
  unfold model_action_authorized_v2_verdict, no_panic. intros Hv. cbv zeta in Hv.
  destruct (find_actions _ _ _) as [|[k id] [|]] eqn:Hf in Hv; [by follow Hv| |by follow Hv].
  apply find_actions_singleton in Hf. destruct Hf as (w & e & a & Hw & He & Ha & Hi).
  apply is_some_and_true in Hi as (i & Hi & _). cbn in Hv. follow Hv.
Qed.

Lemma admission_receipt_safe st event p signer :
  no_panic (governed_dispatch_v5_admission_recorded_v1_verdict st event p signer).
Proof.
  unfold governed_dispatch_v5_admission_recorded_v1_verdict, no_panic. intros Hv. cbv zeta in Hv.
  destruct (filter_keys _ _) as [|k [|]] eqn:Hf in Hv; [by follow Hv| |by follow Hv].
  apply filter_keys_singleton in Hf as (w & Hw & _). follow Hv.
Qed.

Lemma attempt_context_recorded_safe st event p :
  no_panic (attempt_context_recorded_v1_verdict st event p).
Proof.
  unfold attempt_context_recorded_v1_verdict, no_panic. intros Hv. cbv zeta in Hv.
  follow Hv. clear Hv.
  match goal with Hf : List.filter _ _ = _ :: _ |- _ => apply filter_head in Hf end.
  match goal with Hn : acts_receipt _ = None |- _ => rewrite Hn in * end. done.
Qed.

Lemma activity_started_safe st event p :
  no_panic (activity_started_verdict st event p).
Proof. safe @activity_started_verdict. Qed.

Lemma activity_completed_safe st event p :
  no_panic (activity_completed_verdict st event p).
Proof. safe @activity_completed_verdict. Qed.
End Handlers.
