(* ===== verification/ReducerVerdict.v ===== *)
(** * The verdict on an event

    How the dispatcher leaves, payload by payload.  On a coherent state the
    reducer is the verdict followed by [finish], and the verdict is never a panic. *)
From S2P Require Import Prelude RustStr Host LedgerPayloads TrustSpine Digests Events ReplayState ReducerCore ReducerDispatch ReducerActions ReducerCandidates ReducerPromotion ReducerLifecycle Reducer WorkflowReplay ReducerSafety.
From stdpp Require Import base list gmap strings.

#[local] Open Scope string_scope.
#[local] Open Scope list_scope.
#[local] Open Scope Z_scope.

Create HintDb safe discriminated.
#[export] Hint Resolve timer_scheduled_safe timer_fired_safe cancellation_safe terminal_safe
  approval_safe decision_safe execution_claim_safe result_safe reconciliation_safe
  candidate_created_safe candidate_created_v2_safe completion_safe acceptance_safe review_safe
  review_v2_safe dispatch_v1_safe dispatch_v2_safe dispatch_v3_safe dispatch_v4_safe
  dispatch_v5_safe graph_v1_safe graph_v2_safe context_manifest_safe worker_manifest_safe
  sandbox_profile_safe attempt_context_declared_safe request_safe intent_safe authorized_v1_safe
  receipt_safe seal_safe heartbeat_safe claimed_safe activity_result_safe authorized_v2_safe
  admission_receipt_safe attempt_context_recorded_safe activity_started_safe
  activity_completed_safe : safe.

Create HintDb prechecks discriminated.
#[export] Hint Unfold dispatch_envelope_precheck dispatch_envelope_v2_precheck
  dispatch_envelope_v3_precheck dispatch_envelope_v4_precheck dispatch_envelope_v5_precheck
  attempt_context_recorded_v1_precheck candidate_created_precheck candidate_created_v2_precheck
  candidate_completion_recorded_v1_precheck review_verdict_precheck review_verdict_v2_precheck :
  prechecks.

Section Verdict.
Context `{Host, Canonicalizer}.

Definition event_verdict (st : ReplayState) (event : Event) (signer : option ActorKeyRef)
    : Verdict :=
  match ev_payload event with
  | Payload_RunStartedV1 p => Ok (apply_run_started st event p)
  | Payload_RunCompletedV1 p => Ok (apply_run_completed st event p)
  | Payload_RunFailedV1 p => Ok (apply_run_failed st event p)
  | Payload_UnitStartedV1 p => Ok (apply_unit_started st event p)
  | Payload_UnitCompletedV1 p => Ok (apply_unit_completed st event p)
  | Payload_UnitFailedV1 p => Ok (apply_unit_failed st event p)
  | Payload_UnitCancelledV1 p => Ok (apply_unit_cancelled st event p)
  | Payload_GitCheckpointV1 p => Ok (apply_git_checkpoint st event p)
  | Payload_RunAdmissionRecordedV1 _ => Ok st
  | Payload_ReleaseEvaluationEvidenceV1 _ => Ok st
  | Payload_PlanAdmittedV1 p => Ok (apply_plan_admitted st event p)
  | Payload_PlanReceiptRecordedV1 p => Ok (apply_plan_receipt st event p)
  | Payload_ActivityStartedV1 p => activity_started_verdict st event p
  | Payload_ActivityCompletedV1 p => activity_completed_verdict st event p
  | Payload_ModelRequestV1 _ => Ok st
  | Payload_ModelResponseV1 _ => Ok st
  | Payload_TapeCheckpointV1 _ => Ok st
  | Payload_ToolRequestStoredV1 p => Ok (apply_tool_request st event p)
  | Payload_ToolResultV1 p => Ok (apply_tool_result st event p)
  | Payload_WorkspaceReadV1 _ => Ok st
  | Payload_WorkspaceWriteV1 p => Ok (apply_workspace_write st event p)
  | Payload_CapabilityDeniedV1 _ => Ok st
  | Payload_AcceptanceRecordedV1 p => Ok (apply_acceptance_recorded st event p)
  | Payload_DispatchEnvelopeV1 p =>
      let* _ := dispatch_envelope_precheck event p in
      dispatch_envelope_verdict st event p
  | Payload_DispatchEnvelopeV2 p =>
      let* _ := dispatch_envelope_v2_precheck event p in
      dispatch_envelope_v2_verdict st event p
  | Payload_DispatchEnvelopeV3 p =>
      let* _ := dispatch_envelope_v3_precheck event p in
      dispatch_envelope_v3_verdict st event p
  | Payload_DispatchEnvelopeV4 p =>
      let* workflow_graph := dispatch_envelope_v4_precheck st event p in
      dispatch_envelope_v4_verdict st event p workflow_graph
  | Payload_DispatchEnvelopeV5 p =>
      let* (digest, graph, manifests) := dispatch_envelope_v5_precheck st event p signer in
      dispatch_envelope_v5_verdict st event p signer digest graph manifests
  | Payload_GovernedDispatchV5AdmissionRecordedV1 p =>
      governed_dispatch_v5_admission_recorded_v1_verdict st event p signer
  | Payload_ContextManifestDeclaredV1 p =>
      context_manifest_declared_v1_verdict st event p signer
  | Payload_WorkerManifestDeclaredV1 p => worker_manifest_declared_v1_verdict st event p signer
  | Payload_SandboxProfileDeclaredV1 p => sandbox_profile_declared_v1_verdict st event p signer
  | Payload_AttemptContextDeclaredV1 p => attempt_context_declared_v1_verdict st event p signer
  | Payload_WorkflowGraphDeclaredV1 p => workflow_graph_declared_v1_verdict st event p
  | Payload_WorkflowGraphDeclaredV2 p => workflow_graph_declared_v2_verdict st event p
  | Payload_ActionRequestedV2 p => action_requested_v2_verdict st event p
  | Payload_ModelActionIntentV1 p => model_action_intent_v1_verdict st event p
  | Payload_ActivityClaimedV1 p => activity_claimed_v1_verdict st event p signer
  | Payload_ActivityHeartbeatRecordedV1 p =>
      activity_heartbeat_recorded_v1_verdict st event p signer
  | Payload_ActivityResultRecordedV1 p => activity_result_recorded_v1_verdict st event p signer
  | Payload_ModelActionAuthorizedV1 p => model_action_authorized_v1_verdict st event p
  | Payload_ModelActionAuthorizedV2 p => model_action_authorized_v2_verdict st event p
  | Payload_ActionReceiptRecordedV2 p => action_receipt_recorded_v2_verdict st event p
  | Payload_ActionReceiptSetRecordedV1 p => action_receipt_set_recorded_v1_verdict st event p
  | Payload_AttemptContextRecordedV1 p =>
      let* _ := attempt_context_recorded_v1_precheck event p in
      attempt_context_recorded_v1_verdict st event p
  | Payload_CandidateCreatedV1 p =>
      let* _ := candidate_created_precheck event p in
      candidate_created_verdict st event p
  | Payload_CandidateCreatedV2 p =>
      let* _ := candidate_created_v2_precheck event p in
      candidate_created_v2_verdict st event p
  | Payload_CandidateCompletionRecordedV1 p =>
      let* _ := candidate_completion_recorded_v1_precheck event p in
      candidate_completion_recorded_v1_verdict st event p
  | Payload_CandidateAcceptanceRecordedV1 p => candidate_acceptance_verdict st event p
  | Payload_ReviewVerdictRecordedV1 p =>
      let* _ := review_verdict_precheck event p in
      review_verdict_verdict st event p
  | Payload_ReviewVerdictRecordedV2 p =>
      let* _ := review_verdict_v2_precheck event p in
      review_verdict_v2_verdict st event p
  | Payload_PromotionApprovalRequestedV1 p => promotion_approval_requested_verdict st event p
  | Payload_PromotionDecisionRecordedV1 p => promotion_decision_verdict st event p
  | Payload_PromotionExecutionClaimedV1 p =>
      promotion_execution_claimed_v1_verdict st event p signer
  | Payload_PromotionResultRecordedV1 p => promotion_result_verdict st event p
  | Payload_PromotionReconciliationResolvedV1 p =>
      promotion_reconciliation_resolved_verdict st event p
  | Payload_WorkflowTimerScheduledV1 p => workflow_timer_scheduled_v1_verdict st event p
  | Payload_WorkflowTimerFiredV1 p => workflow_timer_fired_v1_verdict st event p
  | Payload_WorkflowCancellationRequestedV1 p =>
      workflow_cancellation_requested_v1_verdict st event p
  | Payload_WorkflowTerminalV1 p =>
      workflow_terminal_record_verdict st event (terminal_fields_v1 p) 1
  | Payload_WorkflowTerminalV2 p =>
      let* _ := map_err Rejected (validate_v3_event_payload event) in
      workflow_terminal_record_verdict st event (terminal_fields_v2 p) 2
  | Payload_OperatorDecisionRecordedV1 _ => Ok st
  | Payload_ResultReadyV1 _ => Ok st
  end.

Lemma apply_is_finish st event signer :
  view_coherent st ->
  apply_with_verified_signer st event signer = finish st event (event_verdict st event signer).
Proof.
  intros Hst. unfold apply_with_verified_signer, event_verdict.
  destruct (ev_payload event); try done; autounfold with handlers; cbv beta zeta;
    rewrite ?(ensure_coherent _ Hst); try done.
  all: match goal with
       | |- context [validate_v3_event_payload ?e] => by destruct (validate_v3_event_payload e)
       | |- _ = finish _ _ (result_bind ?r _) => destruct r as [x|]; [|done]
       end.
  all: try done. by destruct x as [[] ?].
Qed.

(** A precheck that cannot panic, followed by a handler that does not. *)
Lemma bind_safe {A} (r : Result A Exit) (k : A -> Verdict) :
  r <> Err Panicked -> (forall a, no_panic (k a)) -> no_panic (result_bind r k).
Proof. intros Hr Hk. destruct r; [apply Hk|]. cbn. congruence. Qed.

Lemma event_verdict_safe st event signer : no_panic (event_verdict st event signer).
Proof.
  unfold event_verdict. destruct (ev_payload event); try done; try by eauto with safe.
  all: apply bind_safe; [intros Hv|intros x; try destruct x as [[??] ?]; by eauto with safe].
  all: autounfold with prechecks in *; follow Hv.
Qed.
End Verdict.
