(* ===== verification/SampleRun.v ===== *)
(** * Sample tapes

    Two concrete tapes, replayed in the kernel with the host of [DemoHost]: a
    governed unit from dispatch to a completed promotion, and a sealed_v3 unit
    whose model action is requested, authorized, leased, extended, settled,
    receipted and sealed. *)
From S2P Require Import Prelude RustStr Host LedgerPayloads TrustSpine Digests Events ReplayState DemoHost ReducerCore Reducer WorkflowReplay.
From stdpp Require Import base list gmap strings pretty.
Import Demo.

#[local] Open Scope string_scope.
#[local] Open Scope list_scope.
#[local] Open Scope Z_scope.

Module SampleRun.
(** Digests and Git object ids that differ in one tag. *)
Definition sha (tag : string) : string := "sha256:" +:+ demo_sha256_hex tag.
Definition git (tag : string) : string := hex 40 (poly_hash tag 3) "".

Definition event (id : EventId) (parent : option EventId) (at_ : DateTime) (kind : EventKind)
    (payload : Payload) : Event :=
  {| ev_id := id; ev_run_id := 1; ev_parent_event_id := parent; ev_schema_version := 1;
     ev_kind := kind; ev_occurred_at := at_; ev_payload := payload |}.

Definition kernel : ActorKeyRef :=
  {| akr_actor_id := "kernel"; akr_key_id := "k1"; akr_public_key_hash := None |}.

(** ** From dispatch to completion *)

Definition dispatch : DispatchEnvelopeV1 :=
  {| de_workflow_id := "wf"; de_workflow_revision := "r1"; de_unit_id := "unit"; de_attempt := 1;
     de_execution_role := ExecutionRoleV1_Implementer; de_commit_mode := CommitModeV1_Atomic;
     de_provenance_ref := "prov"; de_base_commit_sha := git "base";
     de_capability_bundle_digest := sha "cap"; de_acceptance_contract_digest := sha "contract";
     de_context_manifest_digest := sha "ctx"; de_worker_manifest_digest := sha "worker";
     de_sandbox_profile_digest := sha "sandbox";
     de_budget := {| db_max_tokens := None; db_max_compute_time_ms := None |};
     de_trust_tier := TrustTierV1_Governed; de_idempotency_key := "d1"; de_issued_at := "10Z";
     de_expires_at := "90Z"; de_envelope_digest := sha "envelope";
     de_signature_ref := {| sr_algorithm := "ed25519"; sr_key_id := "k"; sr_signature := "s" |} |}.

Definition candidate : CandidateCreatedV1 :=
  {| cc1_candidate_id := "cand"; cc1_candidate_ref := "refs/buildplane/candidates/run/cand";
     cc1_workflow_id := "wf"; cc1_unit_id := "unit"; cc1_attempt := 1; cc1_provenance_ref := "prov";
     cc1_candidate_digest := sha "cand"; cc1_base_commit_sha := git "base";
     cc1_candidate_commit_sha := git "cand"; cc1_commit_digest := sha "commit";
     cc1_tree_digest := sha "tree"; cc1_patch_digest := sha "patch";
     cc1_changed_files_digest := sha "files"; cc1_envelope_digest := sha "envelope";
     cc1_action_receipt_digest := sha "receipt" |}.

Definition acceptance : CandidateAcceptanceRecordedV1 :=
  {| car_candidate_digest := sha "cand"; car_candidate_commit_sha := git "cand";
     car_acceptance_ref := "acc"; car_acceptance_contract_digest := sha "contract";
     car_acceptance_digest := sha "acc"; car_outcome := CandidateAcceptanceOutcomeV1_Passed;
     car_evaluated_at := "20Z" |}.

Definition review : ReviewVerdictRecordedV1 :=
  {| rv1_candidate_digest := sha "cand"; rv1_candidate_commit_sha := git "cand";
     rv1_review_ref := "rev"; rv1_review_verdict_action_id := None;
     rv1_review_action_request_digest := None; rv1_review_action_receipt_ref := None;
     rv1_review_action_receipt_digest := None; rv1_review_output_ref := None;
     rv1_review_output_digest := None; rv1_decision := ReviewDecisionV1_Approve;
     rv1_findings := []; rv1_confidence := f64_one; rv1_reviewer_manifest_digest := sha "reviewer";
     rv1_reviewed_at := "30Z" |}.

Definition decision (kind : PromotionDecisionKindV1) : PromotionDecisionRecordedV1 :=
  {| pdr_candidate_digest := sha "cand"; pdr_base_commit_sha := git "base";
     pdr_target_ref := Some "refs/heads/main"; pdr_envelope_digest := sha "envelope";
     pdr_acceptance_ref := "acc"; pdr_review_refs := ["rev"];
     pdr_promotion_approval_request_ref := None; pdr_decision := kind;
     pdr_authority := "operator"; pdr_decided_by := "operator"; pdr_decided_at := "40Z";
     pdr_idempotency_key := "promo" |}.

Definition merge : PromotionGitBindingV1 :=
  {| pgb_target_ref := "refs/heads/main"; pgb_target_head_before_sha := git "base";
     pgb_target_head_after_sha := Some (git "merge"); pgb_merged_head_sha := Some (git "merge");
     pgb_candidate_commit_sha := git "cand";
     pgb_merge_parent_shas := Some [git "base"; git "cand"];
     pgb_merged_tree_sha := Some (git "tree"); pgb_merged_tree_digest := sha "tree";
     pgb_promotion_receipt_ref := Some "refs/buildplane/promotions/run/cand";
     pgb_worktree_sync_state := None |}.

Definition result : PromotionResultRecordedV1 :=
  {| prr_candidate_digest := sha "cand"; prr_idempotency_key := "promo";
     prr_promotion_decision_ref := "15"; prr_outcome := PromotionResultOutcomeV1_Promoted;
     prr_merged_head_sha := Some (git "merge"); prr_promotion_git_binding := Some merge;
     prr_promotion_execution_lease_binding := None; prr_completed_at := "50Z" |}.

Definition terminal : WorkflowTerminalV1 :=
  {| wt1_workflow_id := "wf"; wt1_workflow_revision := "r1"; wt1_unit_id := "unit";
     wt1_attempt := 1; wt1_outcome := WorkflowTerminalOutcomeV1_Completed;
     wt1_candidate_digest := Some (sha "cand"); wt1_promotion_result_ref := Some "16";
     wt1_reconciliation_resolution_ref := None; wt1_reason := None;
     wt1_idempotency_key := "t1"; wt1_completed_at := "60Z" |}.

Definition tape : list (Event * option ActorKeyRef) :=
  [(event 11 None 10 EventKind_DispatchEnvelope (Payload_DispatchEnvelopeV1 dispatch), None);
   (event 12 None 15 EventKind_CandidateCreated (Payload_CandidateCreatedV1 candidate), None);
   (event 13 None 20 EventKind_CandidateAcceptanceRecorded
      (Payload_CandidateAcceptanceRecordedV1 acceptance), None);
   (event 14 None 30 EventKind_ReviewVerdictRecorded (Payload_ReviewVerdictRecordedV1 review), None);
   (event 15 None 40 EventKind_PromotionDecisionRecorded
      (Payload_PromotionDecisionRecordedV1 (decision PromotionDecisionKindV1_Promote)), None);
   (event 16 None 50 EventKind_PromotionResultRecorded (Payload_PromotionResultRecordedV1 result), None);
   (event 17 None 60 EventKind_WorkflowTerminal (Payload_WorkflowTerminalV1 terminal), None)].

Definition key : string := workflow_instance_key "wf" "unit" 1.

(** The state after the first [n] events. *)
Definition after (n : nat) : ReplayState := replay default_replay_state (take n tape).

Definition workflow (n : nat) : option WorkflowInstanceV1 := st_workflow_instances (after n) !! key.

Example phases_of_the_run :
  (fun n => wi_phase <$> workflow n) <$> [0; 1; 2; 3; 4; 5; 6; 7]%nat =
  [None; Some WorkflowPhaseV1_Dispatched; Some WorkflowPhaseV1_CandidateCreated;
   Some WorkflowPhaseV1_AcceptancePassed; Some WorkflowPhaseV1_ReviewApproved;
   Some WorkflowPhaseV1_PromotionPending; Some WorkflowPhaseV1_Promoted;
   Some WorkflowPhaseV1_Completed].
Proof. vm_compute. reflexivity. Qed.

(** A decision before any review is refused. *)
Example unreviewed_promotion_refused :
  wi_phase <$> (st_workflow_instances (replay (after 3) (drop 4 (take 5 tape))) !! key) =
  Some WorkflowPhaseV1_AcceptancePassed.
Proof. vm_compute. reflexivity. Qed.
End SampleRun.

(** ** A sealed_v3 model action *)
Module SampleAction.
Import SampleRun.

Definition ok (r : Result string string) : string := match r with Ok s | Err s => s end.

Definition body : DispatchEnvelopeBodyV2 :=
  {| deb2_workflow_id := "wf"; deb2_workflow_revision := "r1"; deb2_unit_id := "unit";
     deb2_attempt := 1; deb2_execution_role := ExecutionRoleV1_Implementer;
     deb2_commit_mode := CommitModeV1_Atomic; deb2_provenance_ref := "prov";
     deb2_base_commit_sha := git "base"; deb2_capability_bundle_digest := sha "cap";
     deb2_acceptance_contract_digest := sha "contract"; deb2_context_manifest_digest := sha "ctx";
     deb2_worker_manifest_digest := sha "worker"; deb2_sandbox_profile_digest := sha "sandbox";
     deb2_budget := {| db_max_tokens := Some 100; db_max_compute_time_ms := None |};
     deb2_trust_tier := TrustTierV1_Governed; deb2_idempotency_key := "d1";
     deb2_issued_at := "10Z"; deb2_expires_at := "90Z" |}.

Definition envelope : string :=
  Eval vm_compute in ok (dispatch_envelope_v3_body_digest body ActionEvidenceVersionV1_SealedV3
    (sha "repo") (sha "realm") (Some (sha "packet"))).

Definition dispatch_v3 : DispatchEnvelopeV3 :=
  {| de3_body := body; de3_action_evidence_version := ActionEvidenceVersionV1_SealedV3;
     de3_repository_binding_digest := sha "repo"; de3_ledger_authority_realm_digest := sha "realm";
     de3_governed_packet_digest := Some (sha "packet"); de3_envelope_digest := envelope |}.

Definition policy : string :=
  Eval vm_compute in ok (governed_dispatch_policy_digest_v1 (sha "contract")).

Definition request : ActionRequestedV2 :=
  {| ar2_run_id := "1"; ar2_workflow_id := "wf"; ar2_unit_id := "unit"; ar2_attempt := 1;
     ar2_provenance_ref := "prov"; ar2_action_id := "act"; ar2_idempotency_key := "act-1";
     ar2_action_kind := ActionKindV1_Model; ar2_canonical_input_digest := sha "input";
     ar2_canonical_input_ref := "cas:input"; ar2_dispatch_envelope_digest := envelope;
     ar2_repository_binding_digest := sha "repo"; ar2_ledger_authority_realm_digest := sha "realm";
     ar2_governed_packet_digest := Some (sha "packet"); ar2_capability_bundle_digest := sha "cap";
     ar2_policy_digest := policy; ar2_context_manifest_digest := sha "ctx";
     ar2_worker_manifest_digest := sha "worker"; ar2_sandbox_profile_digest := sha "sandbox";
     ar2_authority_actor := "kernel"; ar2_execution_role := ExecutionRoleV1_Implementer;
     ar2_requested_at := "12Z" |}.

Definition request_digest : string := Eval vm_compute in ok (action_requested_v2_digest request).

Definition model_request : ModelRequestEvidenceV1 :=
  {| mre_schema_version := 1; mre_cas_ref := "cas:" +:+ sha "req"; mre_digest := sha "req" |}.
Definition trust_scope : TrustScopeEvidenceV1 :=
  {| tse_schema_version := 1; tse_cas_ref := "cas:" +:+ sha "scope"; tse_digest := sha "scope" |}.

Definition unsigned_intent : ModelActionIntentV1 :=
  {| mai_run_id := "1"; mai_workflow_id := "wf"; mai_unit_id := "unit"; mai_attempt := 1;
     mai_provenance_ref := "prov"; mai_action_id := "act"; mai_idempotency_key := "act-1";
     mai_dispatch_event_ref := 21; mai_dispatch_envelope_digest := envelope;
     mai_action_request_event_ref := 22; mai_action_request_digest := request_digest;
     mai_canonical_input_ref := "cas:input"; mai_canonical_input_digest := sha "input";
     mai_model_request_evidence := model_request; mai_trust_scope_evidence := trust_scope;
     mai_candidate_binding := None; mai_intent_actor := "kernel"; mai_intended_at := "13Z";
     mai_intent_digest := "" |}.

Definition intent_digest : string :=
  Eval vm_compute in ok (model_action_intent_v1_digest unsigned_intent).
Definition intent : ModelActionIntentV1 :=
  {| unsigned_intent with mai_intent_digest := intent_digest |}.

Definition unsigned_authorization : ModelActionAuthorizedV2 :=
  {| maa2_intent_event_ref := 23;
     maa2_intent_digest := intent_digest;
     maa2_model_request_evidence := model_request; maa2_trust_scope_evidence := trust_scope;
     maa2_candidate_binding := None; maa2_authorization_actor := "kernel";
     maa2_expires_at := "80Z"; maa2_authorization_ref := "auth"; maa2_authorization_digest := "" |}.
Definition authorization_digest : string :=
  Eval vm_compute in ok (model_action_authorized_v2_digest unsigned_authorization).
Definition authorization : ModelActionAuthorizedV2 :=
  {| unsigned_authorization with maa2_authorization_digest := authorization_digest |}.

Definition claim : ActivityClaimedV1 :=
  {| acl_run_id := 1; acl_activity_id := "act"; acl_idempotency_key := "act-1";
     acl_action_kind := ActionKindV1_Model; acl_action_request_event_id := 22;
     acl_action_request_digest := request_digest; acl_dispatch_event_id := 21;
     acl_dispatch_envelope_digest := envelope; acl_authority_actor := "kernel";
     acl_purpose := ActivityClaimPurposeV1_GovernedModelActionV1; acl_lease_id := "lease";
     acl_lease_expires_at := "30Z"; acl_claimed_at := "20Z" |}.

Definition claim_event : Event :=
  event 25 (Some 22) 20 EventKind_ActivityClaimedV1 (Payload_ActivityClaimedV1 claim).

Definition claim_digest : string := Eval vm_compute in ok (canonical_event_hash claim_event).

Definition heartbeat : ActivityHeartbeatRecordedV1 :=
  {| ahb_run_id := 1; ahb_activity_id := "act"; ahb_idempotency_key := "act-1";
     ahb_heartbeat_id := None; ahb_heartbeat_request_digest := None; ahb_claim_event_id := 25;
     ahb_claim_event_digest := claim_digest;
     ahb_lease_id := "lease"; ahb_dispatch_event_id := 21;
     ahb_dispatch_envelope_digest := envelope; ahb_lease_expires_at := "45Z";
     ahb_heartbeat_at := "25Z" |}.

Definition outcome : ActivityResultRecordedV1 :=
  {| arx_run_id := 1; arx_activity_id := "act"; arx_idempotency_key := "act-1";
     arx_claim_event_id := 25;
     arx_claim_event_digest := claim_digest;
     arx_lease_id := "lease"; arx_outcome := ActivityResultOutcomeV1_Succeeded;
     arx_result_digest := Some (sha "result"); arx_result_ref := Some "cas:result";
     arx_evidence_digest := sha "evidence"; arx_evidence_ref := "cas:evidence";
     arx_recorded_at := "40Z" |}.

Definition receipt : ActionReceiptRecordedV2 :=
  {| arr2_run_id := "1"; arr2_workflow_id := "wf"; arr2_unit_id := "unit"; arr2_attempt := 1;
     arr2_provenance_ref := "prov"; arr2_action_id := "act"; arr2_idempotency_key := "act-1";
     arr2_action_request_digest := request_digest; arr2_dispatch_envelope_digest := envelope;
     arr2_capability_bundle_digest := sha "cap"; arr2_policy_digest := policy;
     arr2_context_manifest_digest := sha "ctx"; arr2_worker_manifest_digest := sha "worker";
     arr2_sandbox_profile_digest := sha "sandbox"; arr2_authority_actor := "kernel";
     arr2_execution_role := ExecutionRoleV1_Implementer;
     arr2_outcome := ActionReceiptOutcomeV2_Succeeded; arr2_result_digest := Some (sha "result");
     arr2_result_ref := Some "cas:result"; arr2_evidence_digest := sha "evidence";
     arr2_evidence_ref := "cas:evidence";
     arr2_resource_usage :=
       {| aru_wall_time_ms := 1; aru_cpu_time_ms := None; aru_peak_memory_bytes := None;
          aru_input_bytes := None; aru_output_bytes := None; aru_input_tokens := Some 60;
          aru_output_tokens := Some 40 |};
     arr2_redactions := []; arr2_failure := None; arr2_authorization_ref := Some "auth";
     arr2_action_receipt_ref := "receipt"; arr2_completed_at := "39Z" |}.

Definition receipt_digest : string := Eval vm_compute in ok (action_receipt_recorded_v2_digest receipt).

Definition unsealed_set : ActionReceiptSetRecordedV1 :=
  {| arset_run_id := "1"; arset_workflow_id := "wf"; arset_unit_id := "unit"; arset_attempt := 1;
     arset_provenance_ref := "prov"; arset_dispatch_envelope_digest := envelope;
     arset_action_receipt_set_ref := "set"; arset_action_receipt_set_digest := "";
     arset_receipts :=
       [{| arse_action_id := "act"; arse_action_receipt_ref := "receipt";
           arse_action_receipt_digest :=
             receipt_digest |}];
     arset_sealed_at := "50Z" |}.
Definition set_digest : string := Eval vm_compute in ok (action_receipt_set_v1_digest unsealed_set).

Definition sealed_set : ActionReceiptSetRecordedV1 :=
  {| unsealed_set with arset_action_receipt_set_digest :=
       set_digest |}.

Definition tape_v3 : list (Event * option ActorKeyRef) :=
  [(event 21 None 10 EventKind_DispatchEnvelopeV3 (Payload_DispatchEnvelopeV3 dispatch_v3), Some kernel);
   (event 22 None 12 EventKind_ActionRequestedV2 (Payload_ActionRequestedV2 request), Some kernel);
   (event 23 (Some 22) 13 EventKind_ModelActionIntentV1 (Payload_ModelActionIntentV1 intent), Some kernel);
   (event 24 (Some 23) 14 EventKind_ModelActionAuthorizedV2
      (Payload_ModelActionAuthorizedV2 authorization), Some kernel);
   (claim_event, Some kernel);
   (event 26 (Some 25) 25 EventKind_ActivityHeartbeatRecordedV1
      (Payload_ActivityHeartbeatRecordedV1 heartbeat), Some kernel);
   (event 27 (Some 25) 40 EventKind_ActivityResultRecordedV1
      (Payload_ActivityResultRecordedV1 outcome), Some kernel);
   (event 28 None 41 EventKind_ActionReceiptRecordedV2 (Payload_ActionReceiptRecordedV2 receipt), Some kernel);
   (event 29 None 50 EventKind_ActionReceiptSetRecordedV1
      (Payload_ActionReceiptSetRecordedV1 sealed_set), Some kernel)].

Definition after_v3 (n : nat) : ReplayState := replay default_replay_state (take n tape_v3).
Definition workflow_v3 (n : nat) : option WorkflowInstanceV1 :=
  st_workflow_instances (after_v3 n) !! key.

(** Every event of the tape is applied. *)
Example action_run_applied : st_issues (after_v3 9) = [].
Proof. vm_compute. reflexivity. Qed.

(** The operator cancels the unit right after its dispatch. *)
Definition cancellation : WorkflowCancellationRequestedV1 :=
  {| wcr_run_id := "1"; wcr_workflow_id := "wf"; wcr_workflow_revision := "r1";
     wcr_unit_id := "unit"; wcr_attempt := 1; wcr_dispatch_event_ref := 21;
     wcr_dispatch_envelope_digest := envelope; wcr_cancellation_id := "cancel";
     wcr_cause := WorkflowCancellationCauseV1_OperatorRequested;
     wcr_timer_fired_event_ref := None; wcr_timer_fired_event_digest := None;
     wcr_requested_by := "operator"; wcr_idempotency_key := "c1"; wcr_requested_at := "15Z" |}.

Definition cancelled_tape : list (Event * option ActorKeyRef) :=
  take 1 tape_v3 ++
  [(event 31 (Some 21) 15 EventKind_WorkflowCancellationRequestedV1
      (Payload_WorkflowCancellationRequestedV1 cancellation), Some kernel)].
End SampleAction.

(** ** A declared graph *)
Module SampleGraph.
Import SampleRun SampleAction.

Definition node (unit_id : string) (depends_on : list string) (packet : string) : WorkflowGraphNodeV2 :=
  {| wgn2_unit_id := unit_id; wgn2_depends_on := depends_on;
     wgn2_execution_role := ExecutionRoleV1_Implementer; wgn2_governed_packet_digest := sha packet |}.

(** Two units in sequence and one on its own, one at a time. *)
Definition unsigned_graph : WorkflowGraphDeclaredV2 :=
  {| wgd2_run_id := "1"; wgd2_workflow_id := "wf"; wgd2_workflow_revision := "r1";
     wgd2_nodes := [node "unit" [] "packet"; node "next" ["unit"] "packet";
                    node "other" [] "packet"];
     wgd2_max_concurrent := 1; wgd2_graph_digest := ""; wgd2_idempotency_key := "g1";
     wgd2_declared_at := "5Z" |}.
Definition graph_digest : string := Eval vm_compute in ok (workflow_graph_v2_digest unsigned_graph).
Definition graph : WorkflowGraphDeclaredV2 :=
  {| unsigned_graph with wgd2_graph_digest := graph_digest |}.

Definition dispatch_v4 (unit_id : string) : DispatchEnvelopeV4 :=
  let unit_body := {| body with deb2_unit_id := unit_id |} in
  let v3 := {| dispatch_v3 with de3_body := unit_body;
    de3_envelope_digest := ok (dispatch_envelope_v3_body_digest unit_body
      ActionEvidenceVersionV1_SealedV3 (sha "repo") (sha "realm") (Some (sha "packet"))) |} in
  {| de4_dispatch_v3 := v3; de4_workflow_graph_digest := graph_digest;
     de4_workflow_graph_declaration_event_ref := 40;
     de4_envelope_digest := ok (dispatch_envelope_v4_digest v3 graph_digest 40) |}.

Definition graph_tape : list (Event * option ActorKeyRef) :=
  [(event 40 None 5 EventKind_WorkflowGraphDeclaredV2 (Payload_WorkflowGraphDeclaredV2 graph), Some kernel);
   (event 41 None 10 EventKind_DispatchEnvelopeV4 (Payload_DispatchEnvelopeV4 (dispatch_v4 "unit")), Some kernel);
   (event 42 None 11 EventKind_DispatchEnvelopeV4 (Payload_DispatchEnvelopeV4 (dispatch_v4 "next")), Some kernel);
   (event 43 None 12 EventKind_DispatchEnvelopeV4 (Payload_DispatchEnvelopeV4 (dispatch_v4 "other")), Some kernel)].

(** The dependent unit and the unit over the limit are refused. *)
Example graph_run_refusals :
  st_issues (replay default_replay_state graph_tape) =
  [ReplayIssue_WorkflowTransitionRejected 42 "dispatch_envelope_v4"
     (Some WorkflowPhaseV1_Dispatched)
     "graph-bound V4 dispatch dependency unit has not completed successfully";
   ReplayIssue_WorkflowTransitionRejected 43 "dispatch_envelope_v4"
     (Some WorkflowPhaseV1_Dispatched)
     "graph-bound V4 dispatch would exceed immutable graph max_concurrent 1"].
Proof. vm_compute. reflexivity. Qed.
End SampleGraph.
