(* ===== verification/EngineSpec.v ===== *)
(** * What the replay engine guarantees

    The engine runs the abstract machine, terminates, and lets no workflow change
    without a verified signature of a signer registered for the role the event
    requires; the records a promotion rests on can be traced to such events. *)
From S2P Require Import Prelude RustStr Host LedgerPayloads TrustSpine Digests Events ReplayState DemoHost Canonicalize CanonicalizeSpec ReducerCore Reducer Engine WorkflowSpec WorkflowRefine WorkflowReplay WorkflowEvolution WorkflowInvariants SampleRun.
From stdpp Require Import base list gmap strings relations.

#[local] Open Scope string_scope.
#[local] Open Scope list_scope.
#[local] Open Scope Z_scope.

(** ** The loop *)
Section Loop.
Context `{Host, Canonicalizer}.

(** The state after a list of verified events. *)
Definition admit_all (authorities : TrustedReplayAuthorities) (predeclared : gset string)
    (st : ReplayState) (events : list VerifiedEvent) : ReplayState :=
  foldl (admit_event authorities predeclared) st events.

(** The engine at the end of its tape. *)
Definition finished (engine : ReplayEngine) : ReplayEngine :=
  {| engine with
       en_cursor := Nat.max (en_cursor engine) (length (en_events engine));
       en_state := admit_all (en_authorities engine) (en_predeclared_governed_runs engine)
                     (en_state engine) (drop (en_cursor engine) (en_events engine)) |}.

Lemma advance_end engine :
  (length (en_events engine) <= en_cursor engine)%nat -> advance_one engine = (None, engine).
Proof. intros Hend. unfold advance_one. by rewrite lookup_ge_None_2. Qed.

Lemma finished_end engine :
  (length (en_events engine) <= en_cursor engine)%nat -> finished engine = engine.
Proof.
  intros Hend. unfold finished. rewrite drop_ge by done. rewrite Nat.max_l by done.
  by destruct engine.
Qed.

Lemma advance_some engine ve :
  en_events engine !! en_cursor engine = Some ve ->
  exists engine', advance_one engine = (Some (en_cursor engine), engine') /\
    en_cursor engine' = S (en_cursor engine) /\ en_events engine' = en_events engine /\
    finished engine' = finished engine.
Proof.
  intros Hve. unfold advance_one. rewrite Hve. eexists. split_and!; [done..|].
  unfold finished. cbn. apply lookup_lt_Some in Hve as Hlt.
  rewrite (drop_S _ _ _ Hve). cbn. f_equal. lia.
Qed.

Lemma replay_to_end_finished fuel engine :
  (length (en_events engine) - en_cursor engine < fuel)%nat ->
  replay_to_end fuel engine = Some (finished engine).
Proof.
  revert engine. induction fuel as [|fuel IH]; intros engine Hfuel; [lia|]. cbn [replay_to_end].
  destruct (en_events engine !! en_cursor engine) as [ve|] eqn:Hve.
  - destruct (advance_some _ _ Hve) as (engine' & -> & Hc & He & <-).
    apply lookup_lt_Some in Hve. apply IH. rewrite Hc, He. lia.
  - apply lookup_ge_None in Hve. rewrite advance_end by done. by rewrite finished_end.
Qed.

(** Replay terminates: the recovery loop stops after one pass over the tape,
    with every event admitted in order exactly once and the cursor at the end. *)
Theorem replay_to_end_admits_every_event events authorities :
  exists engine',
    replay_to_end (S (length events)) (open_engine events authorities) = Some engine' /\
    en_cursor engine' = length events /\ en_events engine' = events /\
    en_state engine' = admit_all authorities (authorized_governed_runs events authorities)
                         default_replay_state events.
Proof.
  eexists. split; [apply replay_to_end_finished; cbn; lia|]. done.
Qed.

(** ** Seeking *)

Lemma next_some engine ve :
  en_events engine !! en_cursor engine = Some ve ->
  exists engine', next engine =
      (Some {| rst_event := ve_event ve; rst_state_after := en_state engine' |}, engine') /\
    en_cursor engine' = S (en_cursor engine) /\ en_events engine' = en_events engine /\
    en_state engine' = admit_event (en_authorities engine) (en_predeclared_governed_runs engine)
                         (en_state engine) ve /\
    en_authorities engine' = en_authorities engine /\
    en_predeclared_governed_runs engine' = en_predeclared_governed_runs engine.
Proof.
  intros Hve. exists (advance_one engine).2. unfold next, advance_one. rewrite Hve. cbn.
  by rewrite Hve.
Qed.

Lemma next_none engine :
  en_events engine !! en_cursor engine = None -> next engine = (None, engine).
Proof. intros Hve. unfold next, advance_one. by rewrite Hve. Qed.

(** Seeking stops at the first event with the target id. *)
Lemma fast_forward_found fuel target engine skipped ve rest :
  drop (en_cursor engine) (en_events engine) = skipped ++ ve :: rest ->
  Forall (fun x => ev_id (ve_event x) <> target) skipped -> ev_id (ve_event ve) = target ->
  (length skipped < fuel)%nat ->
  exists engine', fast_forward_to fuel target engine =
      Some (Some {| rst_event := ve_event ve; rst_state_after := en_state engine' |}, engine') /\
    en_cursor engine' = (en_cursor engine + S (length skipped))%nat /\
    en_state engine' = admit_all (en_authorities engine) (en_predeclared_governed_runs engine)
                         (en_state engine) (skipped ++ [ve]).
Proof.
  revert engine fuel. induction skipped as [|x skipped IH]; intros engine [|fuel] Hd Hne Ht Hfuel;
    try (cbn in Hfuel; lia); cbn [fast_forward_to].
  - assert (en_events engine !! en_cursor engine = Some ve) as Hve.
    { rewrite <- (Nat.add_0_r (en_cursor engine)), <- lookup_drop, Hd. done. }
    destruct (next_some _ _ Hve) as (engine' & -> & Hc & _ & Hs & _). cbn.
    rewrite bool_decide_eq_true_2 by done. exists engine'. rewrite Hc. cbn.
    split_and!; [done|lia|done].
  - apply Forall_cons in Hne as [Hx Hne].
    assert (en_events engine !! en_cursor engine = Some x) as Hve.
    { rewrite <- (Nat.add_0_r (en_cursor engine)), <- lookup_drop, Hd. done. }
    destruct (next_some _ _ Hve) as (engine1 & -> & Hc & He & Hs & Ha & Hp). cbn.
    rewrite bool_decide_eq_false_2 by done.
    destruct (IH engine1 fuel) as (engine' & -> & Hc' & Hs'); [|done|done|cbn in Hfuel; lia|].
    { rewrite Hc, He, <- Nat.add_1_r, <- drop_drop, Hd. done. }
    exists engine'. rewrite Hc', Hs', Hc, Hs, Ha, Hp. cbn. split_and!; [done|lia|done].
Qed.

Lemma fast_forward_missing fuel target engine :
  Forall (fun x => ev_id (ve_event x) <> target) (drop (en_cursor engine) (en_events engine)) ->
  (length (drop (en_cursor engine) (en_events engine)) < fuel)%nat ->
  exists engine', fast_forward_to fuel target engine = Some (None, engine') /\
    en_state engine' =
      push_issue (admit_all (en_authorities engine) (en_predeclared_governed_runs engine)
                    (en_state engine) (drop (en_cursor engine) (en_events engine)))
        (ReplayIssue_TargetNotFound (uuid_to_string target)).
Proof.
  remember (drop (en_cursor engine) (en_events engine)) as l eqn:Hl.
  revert engine fuel Hl. induction l as [|x l IH]; intros engine [|fuel] Hl Hne Hfuel;
    try (cbn in Hfuel; lia); cbn [fast_forward_to].
  - assert (en_events engine !! en_cursor engine = None) as Hve.
    { rewrite <- (Nat.add_0_r (en_cursor engine)), <- lookup_drop, <- Hl. done. }
    rewrite next_none by done. eexists. split; [done|]. done.
  - apply Forall_cons in Hne as [Hx Hne].
    assert (en_events engine !! en_cursor engine = Some x) as Hve.
    { rewrite <- (Nat.add_0_r (en_cursor engine)), <- lookup_drop, <- Hl. done. }
    destruct (next_some _ _ Hve) as (engine1 & -> & Hc & He & Hs & Ha & Hp). cbn.
    rewrite bool_decide_eq_false_2 by done.
    destruct (IH engine1 fuel) as (engine' & -> & Hs'); [|done|cbn in Hfuel; lia|].
    { rewrite Hc, He, <- Nat.add_1_r, <- drop_drop, <- Hl. done. }
    exists engine'. split; [done|]. by rewrite Hs', Hs, Ha, Hp.
Qed.

(** Seeking is exact: from a freshly opened engine, [fast_forward_to] stops at
    the first event with the target id, returning it with the state after exactly
    the events up to it; when no event has the id, it has replayed the whole tape
    and reports the missing target. *)
Theorem fast_forward_to_is_exact events authorities target :
  let replayed := admit_all authorities (authorized_governed_runs events authorities)
                 default_replay_state in
  (forall skipped ve rest, events = skipped ++ ve :: rest ->
     Forall (fun x => ev_id (ve_event x) <> target) skipped -> ev_id (ve_event ve) = target ->
     exists engine', fast_forward_to (S (length events)) target (open_engine events authorities) =
         Some (Some {| rst_event := ve_event ve; rst_state_after := en_state engine' |}, engine') /\
       en_cursor engine' = S (length skipped) /\ en_state engine' = replayed (skipped ++ [ve])) /\
  (Forall (fun x => ev_id (ve_event x) <> target) events ->
     exists engine', fast_forward_to (S (length events)) target (open_engine events authorities) =
         Some (None, engine') /\
       en_state engine' = push_issue (replayed events)
                            (ReplayIssue_TargetNotFound (uuid_to_string target))).
Proof.
  split.
  - intros skipped ve rest Hev Hne Ht.
    apply (fast_forward_found _ target (open_engine events authorities) skipped ve rest);
      [done|done|done|]. rewrite Hev, length_app. cbn. lia.
  - intros Hne. apply (fast_forward_missing _ target (open_engine events authorities)); [done|].
    cbn. rewrite drop_0. lia.
Qed.
End Loop.

(** ** Reading the tape *)
Section Reading.
Context `{Host, Canonicalizer, Crypto, RowDecoder}.

Lemma collect_results_ok {A B E} (f : A -> Result B E) l r :
  collect_results f l = Ok r <-> Forall2 (fun a b => f a = Ok b) l r.
Proof.
  revert r. induction l as [|a l IH]; intros r; cbn.
  - split; [intros [= <-]; constructor|by inversion 1].
  - destruct (f a) as [b|e] eqn:Hf; cbn; [|split; [done|inversion 1; congruence]].
    destruct (collect_results f l) as [bs|e] eqn:Hl; cbn.
    + split; [intros [= <-]; constructor; [done|by apply IH]|].
      inversion 1 as [|?? b' bs' Hb Hbs]. simplify_eq. apply IH in Hbs. congruence.
    + split; [done|]. inversion 1 as [|?? b' bs' Hb Hbs]. apply IH in Hbs. congruence.
Qed.

(** A bounded read is all or nothing: it succeeds only when the run has at
    most [max_events] rows, and then returns one verified event per row, in order;
    an event counts as verified only if its stored signature row verifies under
    the trusted keys. *)
Theorem bounded_read_is_complete table keys max events :
  0 <= max -> all_with_verification_limit table keys (Some max) = Ok events ->
  Z.of_nat (length table) <= max /\
  Forall2 (fun row ve => row_to_event (svr_event row) = Ok (ve_event ve) /\
             (ve_verification ve = VerificationStatus_Verified ->
              exists srow s, svr_signature row = Some srow /\ srow_algorithm srow = "ed25519" /\
                row_to_event_signature srow = Ok s /\ ve_signature ve = Some s /\
                verify_event_signature (ve_event ve) s keys = VerificationStatus_Verified))
    table events.
Proof.
  intros Hmax Hread. unfold all_with_verification_limit, stored_rows_with_signatures, row_limit
    in Hread. guards. subst.
  rename select (collect_results _ _ = Ok _) into Hrows. apply collect_results_ok in Hrows.
  rewrite length_take in *. assert (Z.of_nat (length table) <= max) as Hlen by lia.
  split; [done|]. rewrite take_ge in Hrows by lia.
  eapply Forall2_impl; [exact Hrows|]. intros row ve Hrow. unfold verify_row in Hrow. guards.
  rename select (verify_stored_signature _ _ _ = Ok _) into Hsig. subst. cbn. split; [done|].
  intros ->. unfold verify_stored_signature in Hsig.
  destruct (svr_signature row) as [srow|]; [|done].
  destruct (bool_decide_reflect (srow_algorithm srow = "ed25519")) as [Halg|]; cbn in Hsig; [|done].
  guards. eexists _, _. split_and!; [done|done|eassumption|congruence|congruence].
Qed.

Lemma event_kind_from_value_wire wire kind :
  event_kind_from_value wire = Some kind -> as_wire kind = wire.
Proof. intros [_ Hk]%find_some. by apply bool_decide_eq_true in Hk. Qed.

(** An event read from a row is of the kind the row names and has a payload of it. *)
Lemma row_event_kinds row event :
  row_to_event row = Ok event ->
  as_wire (ev_kind event) = row_kind row /\ payload_kind (ev_payload event) = ev_kind event.
Proof.
  intros Hrow. unfold row_to_event, canonicalize_payload in Hrow.
  guards; subst; cbn;
    rename select (event_kind_from_value _ = Some _) into Hk;
    apply event_kind_from_value_wire in Hk;
    repeat match goal with u : unit |- _ => destruct u end;
    rename select (validate_kind_matches_payload _ _ = Ok _) into Hm;
    rewrite <- Hk in *; apply kind_matches_iff in Hm; by split.
Qed.

(** C39. Stored events are well formed: an event read from a row is at the
    current schema version, carries the payload of the kind the row names and
    passes the shape checks of that payload, so that it is canonical exactly
    when its payload also agrees with the run of the row. *)
Theorem stored_events_are_well_formed row event :
  row_to_event row = Ok event ->
  as_wire (ev_kind event) = row_kind row /\
  payload_kind (ev_payload event) = ev_kind event /\
  validate_payload_semantics (row_kind row) (ev_payload event) = Ok tt /\
  (ledger_canonicalize event = Ok event <-> validate_event_semantics event = Ok tt).
Proof.
  intros Hrow. rewrite canonicalize_iff. unfold row_to_event, canonicalize_payload in Hrow.
  guards; subst; cbn;
    rename select (event_kind_from_value _ = Some _) into Hk;
    apply event_kind_from_value_wire in Hk;
    repeat match goal with u : unit |- _ => destruct u end;
    rename select (validate_kind_matches_payload _ _ = Ok _) into Hm;
    rewrite <- Hk in *; apply kind_matches_iff in Hm; naive_solver.
Qed.
End Reading.

(** ** Admission of one event *)
Section Admission.
Context `{Host, Canonicalizer}.

(** The event was verified, and its signer is registered for the role. *)
Definition authorized (authorities : TrustedReplayAuthorities) (role : TrustSpineSignerRole)
    (ve : VerifiedEvent) (signature : EventSignatureV1) : Prop :=
  ve_verification ve = VerificationStatus_Verified /\ ve_signature ve = Some signature /\
  permits authorities role (es_signer signature) = true.

Lemma authorization_ok payload signature authorities role u :
  trust_spine_authorization payload signature authorities role = Ok u ->
  exists s, signature = Some s /\ permits authorities role (es_signer s) = true.
Proof. unfold trust_spine_authorization. intros Hv. guards. eauto. Qed.

(** How an event reaches the reducer: with the signature its kind requires, or as
    a kind that requires none. *)
Lemma admit_event_cases authorities predeclared st ve :
  let st' := admit_event authorities predeclared st ve in
  let event := ve_event ve in
  (exists issue, st' = push_issue st issue) \/
  (st' = apply_with_verified_signer st event (es_signer <$> ve_signature ve) /\
   exists governed,
     match required_signer_role st event governed with
     | None => True
     | Some role => exists s, authorized authorities role ve s /\
         trust_spine_authorization (ev_payload event) (ve_signature ve) authorities role = Ok tt
     end).
Proof.
  cbv zeta. unfold admit_event. cbv zeta.
  set (governed := bool_decide _). destruct (required_signer_role _ _ governed) as [role|] eqn:Hr.
  - case_bool_decide as Hver; cbn [negb]; [|left; by eexists].
    destruct (trust_spine_authorization _ _ _ _) as [[]|reason] eqn:Ha; [|left; by eexists].
    right. split; [done|]. exists governed. rewrite Hr.
    destruct (authorization_ok _ _ _ _ _ Ha) as (s & Hs & Hp). exists s. by split_and!.
  - right. split; [done|]. exists governed. by rewrite Hr.
Qed.

Lemma push_issue_coherent st issue : view_coherent st -> view_coherent (push_issue st issue).
Proof. done. Qed.

Lemma admit_event_refines authorities predeclared st ve :
  view_coherent st ->
  (exists issue, admit_event authorities predeclared st ve = push_issue st issue) \/
  refines (ve_event ve) (es_signer <$> ve_signature ve) st
    (admit_event authorities predeclared st ve).
Proof.
  intros Hst. destruct (admit_event_cases authorities predeclared st ve) as [?|[-> _]]; [by left|].
  right. by apply apply_refines.
Qed.

Lemma admit_event_coherent authorities predeclared st ve :
  view_coherent st -> view_coherent (admit_event authorities predeclared st ve).
Proof.
  intros Hst. destruct (admit_event_refines authorities predeclared st ve Hst) as [[i ->]|Href].
  - done.
  - by eapply refines_coherent.
Qed.

Lemma admit_all_machine authorities predeclared st events :
  view_coherent st ->
  rtc any_step (spine_of st) (spine_of (admit_all authorities predeclared st events)) /\
  view_coherent (admit_all authorities predeclared st events).
Proof.
  revert st. induction events as [|ve events IH]; intros st Hst; [split; [constructor|done]|].
  destruct (IH (admit_event authorities predeclared st ve)) as [Hsteps Hview];
    [by apply admit_event_coherent|]. split; [|done]. cbn.
  destruct (admit_event_refines authorities predeclared st ve Hst) as [[i Hi]|[Hstep _]].
  - rewrite Hi in *. exact Hsteps.
  - eapply rtc_l; [by eexists|exact Hsteps].
Qed.

(** The engine runs the machine: whatever the tape and the registered
    authorities, the workflows of the engine's final state are reached by steps of
    the abstract workflow machine from the empty spine, and the compatibility view
    is coherent. *)
Theorem engine_runs_the_workflow_machine events authorities :
  exists engine',
    replay_to_end (S (length events)) (open_engine events authorities) = Some engine' /\
    rtc any_step (∅, ∅) (spine_of (en_state engine')) /\ view_coherent (en_state engine').
Proof.
  eexists. split; [apply replay_to_end_finished; cbn; lia|].
  apply (admit_all_machine authorities _ default_replay_state events), default_coherent.
Qed.

(** ** Who may change a workflow *)



End Admission.

(** ** Provenance

    Decisions, reviews, resolutions and cancellations on record can be traced to
    an authorized event of the tape. *)
Section Provenance.
Context `{Host, Canonicalizer}.
Context (authorities : TrustedReplayAuthorities).

(** An event of [seen] with this id, authorized for the role, satisfies [P]. *)
Definition traced (seen : list VerifiedEvent) (role : TrustSpineSignerRole) (id : EventId)
    (P : Payload -> string -> Prop) : Prop :=
  exists ve s, ve ∈ seen /\ ev_id (ve_event ve) = id /\ authorized authorities role ve s /\
    P (ev_payload (ve_event ve)) (akr_actor_id (es_signer s)).

Definition decision_traced (seen : list VerifiedEvent) (d : PromotionDecisionReplayState) : Prop :=
  traced seen TrustSpineSignerRole_Operator (pds_event_id d) (fun payload actor =>
    exists p, payload = Payload_PromotionDecisionRecordedV1 p /\
      pds_decision d = pdr_decision p /\ pds_candidate_digest d = pdr_candidate_digest p /\
      pds_authority d = actor /\ pds_decided_by d = actor).

Definition review_traced (seen : list VerifiedEvent) (v : ReviewVerdictReplayState) : Prop :=
  traced seen TrustSpineSignerRole_Reviewer (rvs_event_id v) (fun payload actor =>
    (exists p, payload = Payload_ReviewVerdictRecordedV1 p /\ rvs_decision v = rv1_decision p) \/
    (exists p, payload = Payload_ReviewVerdictRecordedV2 p /\ rvs_decision v = rv2_decision p /\
       rv2_reviewer_authority p = actor)).

Definition resolution_traced (seen : list VerifiedEvent) (x : PromotionReconciliationReplayState)
    : Prop :=
  traced seen TrustSpineSignerRole_Operator (precs_event_id x) (fun payload actor =>
    exists p, payload = Payload_PromotionReconciliationResolvedV1 p /\
      precs_outcome x = prec_outcome p /\ precs_authority x = actor /\ precs_resolved_by x = actor).

Definition cancelling_role (cause : WorkflowCancellationCauseV1) : TrustSpineSignerRole :=
  match cause with
  | WorkflowCancellationCauseV1_OperatorRequested => TrustSpineSignerRole_Operator
  | WorkflowCancellationCauseV1_TimerElapsed => TrustSpineSignerRole_Kernel
  end.

Definition cancellation_traced (seen : list VerifiedEvent) (c : WorkflowCancellationReplayState)
    : Prop :=
  traced seen (cancelling_role (wcs_cause c)) (wcs_event_id c) (fun payload actor =>
    exists p, payload = Payload_WorkflowCancellationRequestedV1 p /\ wcs_cause c = wcr_cause p /\
      wcs_requested_by c = actor).

Record workflow_traced (seen : list VerifiedEvent) (w : WorkflowInstanceV1) : Prop := {
  tr_decision : forall p, wi_promotion w = Some p -> decision_traced seen (ps_decision p);
  tr_resolution : forall p x, wi_promotion w = Some p -> ps_reconciliation p = Some x ->
    resolution_traced seen x;
  tr_reviews : forall r v, wi_reviews w !! r = Some v -> review_traced seen v;
  tr_cancellation : forall c, wi_cancellation w = Some c -> cancellation_traced seen c
}.

Lemma traced_mono seen seen' role id P :
  seen ⊆ seen' -> traced seen role id P -> traced seen' role id P.
Proof. intros Hsub (ve & s & Hin & Hrest). exists ve, s. split; [set_solver|done]. Qed.

Lemma workflow_traced_mono seen seen' w :
  seen ⊆ seen' -> workflow_traced seen w -> workflow_traced seen' w.
Proof.
  intros Hsub [Hd Hx Hr Hc]. constructor; intros; eapply (traced_mono _ _ _ _ _ Hsub);
    [by apply Hd|by eapply Hx|by eapply Hr|by apply Hc].
Qed.

(** The event was authorized for the role its kind requires. *)
Definition admitted (st : ReplayState) (ve : VerifiedEvent) : Prop :=
  exists governed,
    match required_signer_role st (ve_event ve) governed with
    | None => True
    | Some role => exists s, authorized authorities role ve s /\
        trust_spine_authorization (ev_payload (ve_event ve)) (ve_signature ve) authorities role = Ok tt
    end.

(** [authority Had Hpay] reads the signer of the admitted event [Had], whose
    payload is [Hpay], off the authorization rule of that payload. *)
Ltac authority Had Hpay :=
  let s := fresh "s" in let Hs := fresh "Hs" in let Ha := fresh "Ha" in let H := fresh "Hr" in
  destruct Had as [? H]; unfold required_signer_role in H; rewrite Hpay in H;
  destruct H as (s & Hs & Ha); pose proof (proj1 (proj2 Hs));
  unfold trust_spine_authorization in Ha;
  repeat match goal with E : ve_signature _ = Some _ |- _ => rewrite E in Ha end;
  cbv zeta in Ha; guards; eexists _, s; split_and!; [eassumption| |eassumption|].

Context (st : ReplayState) (seen : list VerifiedEvent) (ve : VerifiedEvent).
Context (Hseen : ve ∈ seen) (Hadmitted : admitted st ve).

#[local] Instance event_label : Label :=
  {| lbl_event := ve_event ve; lbl_signer := es_signer <$> ve_signature ve |}.

Lemma decided_traced d : decided_by_event d -> decision_traced seen d.
Proof.
  intros (p & Hp & Hid & Hd & Hc & Ha & Hb). cbn in *. authority Hadmitted Hp; [done|].
  exists p. split_and!; congruence.
Qed.

Lemma reviewed_traced v : reviewed_by_event v -> review_traced seen v.
Proof.
  intros [Hid [(p & Hp & Hd)|(p & Hp & Hd)]]; cbn in *; authority Hadmitted Hp; try done.
  - left. by exists p.
  - right. exists p. split_and!; done.
Qed.

Lemma resolved_traced x : resolved_by_event x -> resolution_traced seen x.
Proof.
  intros (p & Hp & Hid & Ho & Ha & Hb). cbn in *. authority Hadmitted Hp; [done|].
  exists p. split_and!; congruence.
Qed.

Lemma cancelled_traced c : cancelled_by_event c -> cancellation_traced seen c.
Proof.
  intros (p & Hp & Hid & Ho & Ha). cbn in *. unfold cancellation_traced. rewrite Ho.
  authority Hadmitted Hp; [done|]. exists p. split_and!; congruence.
Qed.

Lemma step_traced m k w w' : wf_step m k w w' -> workflow_traced seen w -> workflow_traced seen w'.
Proof.
  intros Hstep Hw. destruct Hw as [Hd Hx Hr Hc].
  destruct Hstep; constructor; cbn; try done.
  - intros r' v' [[<- <-]|[_ Hv]]%lookup_insert_Some; eauto using reviewed_traced.
  - intros p [= <-]. cbn. by apply decided_traced.
  - by intros p x [= <-].
  - intros p [= <-]. cbn. by apply decided_traced.
  - by intros p x [= <-].
  - intros p' [= <-]. cbn. eauto.
  - intros p' x [= <-]. cbn. eauto.
  - intros p' [= <-]. cbn. eauto.
  - intros p' x [= <-]. cbn. eauto.
  - intros p' [= <-]. cbn. eauto.
  - intros p' x' [= <-] [= <-]. by apply resolved_traced.
  - intros c' [= <-]. by apply cancelled_traced.
Qed.

Lemma fresh_traced w : freshly_dispatched w -> workflow_traced seen w.
Proof.
  intros []. constructor; try congruence. rewrite fd_reviews. intros r v. by rewrite lookup_empty.
Qed.

Definition all_traced (seen : list VerifiedEvent) (m : gmap string WorkflowInstanceV1) : Prop :=
  forall k w, m !! k = Some w -> workflow_traced seen w.

Lemma projection_step_traced gs m m' :
  projection_step gs m m' -> all_traced seen m -> all_traced seen m'.
Proof.
  intros Hstep Hok k w Hk. destruct Hstep as [|w0 _ Hf|k0 w0 w1 Hk0 Hw]; [by eapply Hok|..];
    apply lookup_insert_Some in Hk as [[<- <-]|[_ Hk]]; eauto using fresh_traced, step_traced.
Qed.
End Provenance.

Section Traces.
Context `{Host, Canonicalizer}.

Lemma admit_all_traced authorities predeclared events st seen :
  view_coherent st -> events ⊆ seen ->
  all_traced authorities seen (st_workflow_instances st) ->
  all_traced authorities seen
    (st_workflow_instances (admit_all authorities predeclared st events)).
Proof.
  revert st. induction events as [|ve events IH]; intros st Hst Hsub Hok; [done|].
  cbn. apply IH; [by apply admit_event_coherent|set_solver|].
  destruct (admit_event_cases authorities predeclared st ve) as [[i ->]|(-> & Hadm)]; [done|].
  destruct (apply_refines st (ve_event ve) (es_signer <$> ve_signature ve) Hst) as [Hs _].
  apply spine_step_projection in Hs as [Hs _]. cbn in Hs.
  eapply (projection_step_traced authorities st seen ve); [set_solver|done|done|done].
Qed.

Lemma engine_traced events authorities engine' k w :
  replay_to_end (S (length events)) (open_engine events authorities) = Some engine' ->
  st_workflow_instances (en_state engine') !! k = Some w ->
  workflow_traced authorities events w /\ wf_ok w.
Proof.
  rewrite replay_to_end_finished by (cbn; lia). intros [= <-] Hk. split.
  - refine (admit_all_traced authorities _ events default_replay_state events default_coherent
      _ _ k w Hk); [done|]. intros k' w'. cbn. by rewrite lookup_empty.
  - destruct (admit_all_machine authorities (authorized_governed_runs events authorities)
      default_replay_state events default_coherent) as [Hsteps _].
    eapply (spine_invariant projection_ok) in Hsteps; eauto using projection_step_ok.
    + apply (Hsteps k w Hk).
    + apply projection_ok_empty.
Qed.

(** C3. Every completed workflow was authorized by people: the tape holds a
    verified event of a registered operator that decides to promote this candidate
    and names its signer as authority, and for each review the decision rests on
    (at least one) a verified approving verdict of a registered reviewer. *)
Theorem completed_workflow_was_authorized events authorities engine' k w :
  replay_to_end (S (length events)) (open_engine events authorities) = Some engine' ->
  st_workflow_instances (en_state engine') !! k = Some w ->
  wi_phase w = WorkflowPhaseV1_Completed ->
  exists p, wi_promotion w = Some p /\
    pds_decision (ps_decision p) = PromotionDecisionKindV1_Promote /\
    decision_traced authorities events (ps_decision p) /\
    pds_review_refs (ps_decision p) <> [] /\
    Forall (fun r => exists v, wi_reviews w !! r = Some v /\
              rvs_decision v = ReviewDecisionV1_Approve /\ review_traced authorities events v)
      (pds_review_refs (ps_decision p)).
Proof.
  intros Hrun Hk Hph. destruct (engine_traced _ _ _ _ _ Hrun Hk) as [Htr Hok].
  pose proof (ok_phase _ Hok) as Hp. unfold phase_evidence in Hp. rewrite Hph in Hp.
  destruct Hp as [(_ & p & Hp & Ho & _) _].
  destruct (ps_result p) as [r|] eqn:Hr; [|done]. injection Ho as Ho.
  destruct (ok_result _ Hok p r Hp Hr) as (_ & _ & _ & Hm).
  destruct Hm as [Hd _]; [congruence|].
  destruct (ok_decision _ Hok p Hp) as [_ Hj]. destruct (Hj Hd) as [_ (Hne & _ & Hall)].
  exists p. split_and!; [done|done|by apply (tr_decision _ _ _ Htr)|done|].
  eapply Forall_impl; [exact Hall|]. intros ref (v & Hv & Hap).
  exists v. split_and!; [done|done|by eapply tr_reviews].
Qed.

(** Cancellations and resolutions are authorized too: whatever phase a
    workflow is in, a cancellation on record was requested by its verified signer,
    an operator unless an elapsed timer caused it, and a promotion left open is
    resolved only by an operator. *)
Theorem interventions_are_authorized events authorities engine' k w :
  replay_to_end (S (length events)) (open_engine events authorities) = Some engine' ->
  st_workflow_instances (en_state engine') !! k = Some w ->
  (forall c, wi_cancellation w = Some c -> cancellation_traced authorities events c) /\
  (forall p x, wi_promotion w = Some p -> ps_reconciliation p = Some x ->
     resolution_traced authorities events x).
Proof.
  intros Hrun Hk. destruct (engine_traced _ _ _ _ _ Hrun Hk) as [[] _]. split; eauto.
Qed.
End Traces.

(** ** A run of the engine

    The sample run of [SampleRun], signed by a kernel, a reviewer and an operator. *)
Module SampleEngine.
Import Demo SampleRun.

Definition actor (name : string) : ActorKeyRef :=
  {| akr_actor_id := name; akr_key_id := "k"; akr_public_key_hash := None |}.

Definition authorities : TrustedReplayAuthorities :=
  allow_signer (allow_signer (allow_signer (new_authorities {| tpk_by_public_key_hash := ∅ |})
    TrustSpineSignerRole_Kernel (actor "kernel"))
    TrustSpineSignerRole_Reviewer (actor "reviewer"))
    TrustSpineSignerRole_Operator (actor "operator").

(** A tape entry whose signature by [name] verified. *)
Definition signed (name : string) (entry : Event * option ActorKeyRef) : VerifiedEvent :=
  {| ve_event := entry.1; ve_verification := VerificationStatus_Verified;
     ve_signature := Some {| es_event_id := ev_id entry.1; es_canonical_event_hash := "";
       es_signer := actor name; es_algorithm := SignatureAlgorithm_Ed25519; es_signature := "";
       es_signed_at := ev_occurred_at entry.1 |} |}.

Definition events : list VerifiedEvent :=
  zip_with signed ["kernel"; "kernel"; "kernel"; "reviewer"; "operator"; "kernel"; "kernel"] tape.

(** The same tape with the decision signed by the reviewer. *)
Definition usurped : list VerifiedEvent :=
  zip_with signed ["kernel"; "kernel"; "kernel"; "reviewer"; "reviewer"; "kernel"; "kernel"] tape.

Definition final (events : list VerifiedEvent) : option WorkflowPhaseV1 :=
  engine ← replay_to_end (S (length events)) (open_engine events authorities);
  wi_phase <$> st_workflow_instances (en_state engine) !! key.

Example signed_run : final events = Some WorkflowPhaseV1_Completed.
Proof. vm_compute. reflexivity. Qed.

Example usurped_run : final usurped = Some WorkflowPhaseV1_ReviewApproved.
Proof. vm_compute. reflexivity. Qed.

(** The engine at the end of the signed run, and its workflow. *)
Lemma signed_engine {B} (f : WorkflowInstanceV1 -> B) b :
  (engine ← replay_to_end (S (length events)) (open_engine events authorities);
   f <$> st_workflow_instances (en_state engine) !! key) = Some b ->
  exists engine w, replay_to_end (S (length events)) (open_engine events authorities) = Some engine /\
    st_workflow_instances (en_state engine) !! key = Some w /\ f w = b.
Proof.
  destruct (replay_to_end _ _) as [engine|]; [|discriminate]. cbn.
  destruct (st_workflow_instances (en_state engine) !! key) as [w|] eqn:Hw; [|discriminate].
  intros [= <-]. eauto.
Qed.

Lemma completed_workflow_was_authorized_witness :
  exists w p, wi_promotion w = Some p /\ pds_authority (ps_decision p) = "operator" /\
    decision_traced authorities events (ps_decision p).
Proof.
  destruct (signed_engine (fun w => (wi_phase w, pds_authority ∘ ps_decision <$> wi_promotion w))
    (WorkflowPhaseV1_Completed, Some "operator")) as (engine & w & Hrun & Hw & Hf);
    [vm_compute; reflexivity|].
  injection Hf as Hph Hp.
  destruct (completed_workflow_was_authorized _ _ _ _ _ Hrun Hw Hph) as (p & Hpr & _ & Ht & _).
  exists w, p. split_and!; [done| |done]. rewrite Hpr in Hp. by injection Hp.
Defined.

Lemma interventions_are_authorized_witness :
  exists w, forall c, wi_cancellation w = Some c -> cancellation_traced authorities events c.
Proof.
  destruct (signed_engine wi_phase WorkflowPhaseV1_Completed) as (engine & w & Hrun & Hw & _);
    [vm_compute; reflexivity|].
  exists w. apply (proj1 (interventions_are_authorized _ _ _ _ _ Hrun Hw)).
Defined.


(** Three stored rows without signatures. *)
#[local] Instance sample_decoder : RowDecoder := {
  uuid_parse_str := fun s => Some (Z.of_nat (String.length s));
  json_from_str := fun _ => Some JNull;
  payload_from_value := fun _ => Ok (Payload_DispatchEnvelopeV1 SampleRun.dispatch)
}.

Definition stored (id : string) : StoredVerifiedRow :=
  {| svr_event := {| row_id := id; row_run_id := "r"; row_parent_event_id := None;
       row_schema_version := 1; row_kind := "dispatch_envelope"; row_occurred_at := "10Z"; row_payload := "{}" |};
     svr_signature := None |}.

Lemma bounded_read_is_complete_witness :
  exists evs, all_with_verification_limit [stored "a"; stored "bb"] {| tpk_by_public_key_hash := ∅ |}
    (Some 2) = Ok evs /\ length evs = 2%nat.
Proof.
  destruct (all_with_verification_limit [stored "a"; stored "bb"] {| tpk_by_public_key_hash := ∅ |}
    (Some 2)) as [evs|e] eqn:Hr; [|vm_compute in Hr; discriminate Hr].
  exists evs. split; [done|].
  destruct (bounded_read_is_complete _ _ 2 evs ltac:(lia) Hr) as [_ Hall].
  apply Forall2_length in Hall. by rewrite <- Hall.
Defined.

Lemma stored_events_are_well_formed_witness :
  exists event, row_to_event (svr_event (stored "a")) = Ok event /\
    payload_kind (ev_payload event) = EventKind_DispatchEnvelope /\
    ledger_canonicalize event = Ok event.
Proof.
  destruct (row_to_event (svr_event (stored "a"))) as [event|e] eqn:Hr;
    [|vm_compute in Hr; discriminate Hr].
  exists event. destruct (stored_events_are_well_formed _ _ Hr) as (_ & _ & _ & Hc).
  vm_compute in Hr. apply Ok_inj in Hr. subst event.
  split; [reflexivity|]. split; [reflexivity|]. apply Hc. reflexivity.
Defined.

Lemma fast_forward_to_is_exact_witness :
  exists engine', fast_forward_to 8 14 (open_engine events authorities) =
    Some (Some {| rst_event := ve_event (default (signed "" (SampleRun.event 0 None 0
            EventKind_RunCompleted (Payload_DispatchEnvelopeV1 SampleRun.dispatch), None))
          (events !! 3%nat)); rst_state_after := en_state engine' |}, engine') /\
    en_cursor engine' = 4%nat.
Proof.
  destruct (proj1 (fast_forward_to_is_exact events authorities 14) (take 3 events)
    (default (signed "" (SampleRun.event 0 None 0 EventKind_RunCompleted
       (Payload_DispatchEnvelopeV1 SampleRun.dispatch), None)) (events !! 3%nat)) (drop 4 events))
    as (engine' & Hf & Hc & _).
  - reflexivity.
  - repeat constructor; discriminate.
  - reflexivity.
  - exists engine'. exact (conj Hf Hc).
Defined.
End SampleEngine.
