(* ===== verification/WorkflowTheorems.v ===== *)
(** * What replay guarantees about governed workflows

    The theorems about the reducer of [bp-replay/src/transitions.rs]: each holds of
    every state that replaying a tape of signed events can reach.  They follow
    from the refinement of [WorkflowReplay] and the invariants of the abstract
    machine. *)
From S2P Require Import Prelude RustStr Host LedgerPayloads TrustSpine Digests Events ReplayState DemoHost ReducerCore ReducerDispatch ReducerActions ReducerCandidates ReducerPromotion ReducerLifecycle Reducer WorkflowSpec WorkflowRefine WorkflowReplay WorkflowEvolution WorkflowInvariants WorkflowEvidence WorkflowBudget WorkflowSchedule WorkflowKeys ReducerSafety ReducerVerdict SampleRun.
From stdpp Require Import base list gmap strings relations.

#[local] Open Scope string_scope.
#[local] Open Scope list_scope.
#[local] Open Scope Z_scope.

Section Reached.
Context `{Host, Canonicalizer}.

(** The workflows of the state a tape reaches from the empty state. *)
Definition reached (tape : list (Event * option ActorKeyRef)) : gmap string WorkflowInstanceV1 :=
  st_workflow_instances (replay default_replay_state tape).

Lemma reached_steps tape :
  rtc any_step (spine_of default_replay_state) (spine_of (replay default_replay_state tape)).
Proof. apply replay_steps, default_coherent. Qed.

(** Induction over a tape: what every step of the machine preserves is reached. *)
Lemma reached_invariant (P : gmap string WorkflowInstanceV1 -> Prop) tape :
  (forall (l : Label) gs m m', projection_step gs m m' -> P m -> P m') -> P ∅ -> P (reached tape).
Proof. intros HP H0'. exact (spine_invariant P _ _ HP (reached_steps tape) H0'). Qed.

Lemma replay_app st tape tape' : replay st (tape ++ tape') = replay (replay st tape) tape'.
Proof. apply foldl_app. Qed.

(** Replaying more events is more steps of the machine. *)
Lemma reached_more tape tape' :
  rtc any_step (spine_of (replay default_replay_state tape))
    (spine_of (replay default_replay_state (tape ++ tape'))).
Proof. rewrite replay_app. apply replay_steps, replay_coherent, default_coherent. Qed.

Lemma reached_projection tape : projection_ok (reached tape).
Proof. apply reached_invariant; [intros l; apply projection_step_ok|apply projection_ok_empty]. Qed.

Lemma reached_wf_ok tape k w : reached tape !! k = Some w -> wf_ok w.
Proof. intros Hk. apply (reached_projection tape k w Hk). Qed.

Lemma reached_evolves tape tape' k w :
  reached tape !! k = Some w -> exists w', reached (tape ++ tape') !! k = Some w' /\ evolves w w'.
Proof. apply (spine_steps_evolve _ _ (reached_more tape tape') k w). Qed.

Lemma reached_evidence tape k w e :
  reached tape !! k = Some w -> wi_action_evidence w = Some e -> evidence_ok e.
Proof.
  intros Hk He. eapply (reached_invariant evidences_ok tape); eauto using step_evidences_ok.
  intros k' w' e'. by rewrite lookup_empty.
Qed.

Lemma reached_spend tape k w : reached tape !! k = Some w -> spend_ok w.
Proof.
  intros Hk. eapply (reached_invariant all_spend_ok tape); eauto using step_all_spend_ok.
  intros k' w'. by rewrite lookup_empty.
Qed.

Lemma reached_action tape k w e id a :
  reached tape !! k = Some w -> wi_action_evidence w = Some e -> aes_actions e !! id = Some a ->
  action_ok w a.
Proof.
  intros Hk. eapply (reached_invariant all_actions_ok tape); eauto using step_all_actions_ok.
  intros k' w'. by rewrite lookup_empty.
Qed.

Lemma reached_schedule tape :
  schedule_ok (st_workflow_graphs_v2 (replay default_replay_state tape)) (reached tape).
Proof.
  apply (spine_schedule _ _ (reached_steps tape));
    [apply projection_ok_empty|apply schedule_ok_empty].
Qed.

(** Terminal phases survive any number of steps. *)
Lemma steps_terminal_final s s' k w :
  rtc any_step s s' -> projection_ok s.2 -> s.2 !! k = Some w ->
  is_terminal (wi_phase w) = true -> exists w', s'.2 !! k = Some w' /\ wi_phase w' = wi_phase w.
Proof.
  intros Hsteps. revert w. induction Hsteps as [|s1 s2 s3 [l Hs] _ IH]; intros w Hp Hk Ht; [eauto|].
  apply spine_step_projection in Hs as [Hs _].
  assert (exists w', s2.2 !! k = Some w' /\ wi_phase w' = wi_phase w) as (w' & Hk' & Hph).
  { destruct Hs as [|w0 Hnew|k0 w0 w1 Hk0 Hw]; [eauto|..].
    - exists w. rewrite lookup_insert_ne by congruence. done.
    - destruct (decide (k = k0)) as [->|Hne].
      + exists w1. rewrite lookup_insert_eq. assert (w0 = w) as -> by congruence. split; [done|].
        eapply step_terminal_final; [done|apply (Hp k0 w Hk)|done].
      + exists w. by rewrite lookup_insert_ne by done. }
  destruct (IH w') as (w'' & Hk'' & Hph''); [by eapply projection_step_ok|done|by rewrite Hph|].
  exists w''. split; [done|congruence].
Qed.
End Reached.

(** ** Refinement *)
Section Refinement.
Context `{Host, Canonicalizer}.

(** C1. Refinement: applying any event, with or without a verified signer, to a
    coherent state is one step of the abstract workflow machine (declare a new
    graph, admit one fresh workflow, one guarded step of one workflow, or
    nothing), and the single-workflow compatibility view still shows an entry of
    the projection. *)
Theorem reducer_refines_workflow_machine st event signer :
  view_coherent st ->
  let st' := apply_with_verified_signer st event signer in
  spine_step (label := {| lbl_event := event; lbl_signer := signer |})
    (spine_of st) (spine_of st') /\ view_coherent st'.
Proof. intros Hst. split; [by apply apply_refines|by apply apply_coherent]. Qed.
End Refinement.

Lemma reducer_refines_workflow_machine_witness :
  any_step (spine_of default_replay_state) (spine_of (SampleRun.after 1)) /\
  view_coherent (SampleRun.after 1).
Proof.
  destruct (reducer_refines_workflow_machine default_replay_state
    (SampleRun.event 11 None 10 EventKind_DispatchEnvelope
       (Payload_DispatchEnvelopeV1 SampleRun.dispatch)) None default_coherent) as [Hstep Hview].
  exact (conj (ex_intro _ _ Hstep) Hview).
Defined.

(** ** Justified promotion *)
Section Justification.
Context `{Host, Canonicalizer}.

(** C2. No workflow is completed without its whole justification on the tape: a
    candidate cut from the dispatched base under the dispatched envelope, an
    acceptance of that very commit that passed under the dispatched contract,
    a promotion decision naming that candidate, that acceptance and at least one
    approving review without duplicates, a promoted result bound to the decision
    whose merge joins base and candidate, and no cancellation. *)
Theorem completed_workflow_is_justified tape k w :
  reached tape !! k = Some w -> wi_phase w = WorkflowPhaseV1_Completed ->
  exists c a p r,
    wi_candidate w = Some c /\ wi_acceptance w = Some a /\ wi_promotion w = Some p /\
    ps_result p = Some r /\ wi_cancellation w = None /\
    ca_base_commit_sha c = wd_base_commit_sha (wi_dispatch w) /\
    ca_envelope_digest c = wd_envelope_digest (wi_dispatch w) /\
    cas_outcome a = CandidateAcceptanceOutcomeV1_Passed /\
    cas_acceptance_contract_digest a = wd_acceptance_contract_digest (wi_dispatch w) /\
    cas_candidate_commit_sha a = ca_candidate_commit_sha c /\
    pds_decision (ps_decision p) = PromotionDecisionKindV1_Promote /\
    pds_candidate_digest (ps_decision p) = ca_candidate_digest c /\
    pds_acceptance_ref (ps_decision p) = cas_acceptance_ref a /\
    reviewed w (pds_review_refs (ps_decision p)) /\
    prs_outcome r = PromotionResultOutcomeV1_Promoted /\
    prs_promotion_decision_ref r = uuid_to_string (pds_event_id (ps_decision p)) /\
    merge_binds_candidate w (ps_decision p) r.
Proof.
  intros Hk Hph. pose proof (reached_wf_ok _ _ _ Hk) as Hok.
  pose proof (ok_phase _ Hok) as Hp. unfold phase_evidence in Hp. rewrite Hph in Hp.
  destruct Hp as [(Hc & p & Hp & Ho & _) _].
  destruct (ps_result p) as [r|] eqn:Hr; [|done]. injection Ho as Ho.
  destruct (ok_result _ Hok p r Hp Hr) as (Href & _ & _ & Hm).
  destruct Hm as [Hd Hmerge]; [congruence|].
  destruct (ok_decision _ Hok p Hp) as [(c & Hcand & Hdig & _) Hj].
  destruct (Hj Hd) as [(a & Ha & Hpass & Haref) Hrev].
  destruct (ok_candidate _ Hok c Hcand) as [Hbase Henv].
  destruct (ok_acceptance _ Hok a Ha) as ((c' & Hc' & _ & Hcommit) & Hcontract & _).
  simplify_eq. exists c, a, p, r. split_and!; done.
Qed.

(** Phase evidence: the phase of every reached workflow guarantees exactly
    the evidence recorded so far; in particular nothing is decided before the
    candidate passed acceptance and review, a pending promotion has no result,
    and a cancelled workflow has no promotion. *)
Theorem phases_carry_their_evidence tape k w :
  reached tape !! k = Some w -> phase_evidence w.
Proof. intros Hk. eapply ok_phase, reached_wf_ok, Hk. Qed.

(** Every promotion result on record answers its own decision: it names the
    decision event, the candidate digest and the idempotency key, and unless it
    rejects, the decision was to promote a candidate whose acceptance passed and
    whose reviews approve. *)
Theorem promotion_results_answer_their_decision tape k w p r :
  reached tape !! k = Some w -> wi_promotion w = Some p -> ps_result p = Some r ->
  result_justified w (ps_decision p) r /\
  (prs_outcome r <> PromotionResultOutcomeV1_Rejected ->
   accepted w (pds_acceptance_ref (ps_decision p)) /\
   reviewed w (pds_review_refs (ps_decision p))).
Proof.
  intros Hk Hp Hr. pose proof (reached_wf_ok _ _ _ Hk) as Hok.
  pose proof (ok_result _ Hok p r Hp Hr) as Hj. split; [done|]. intros Ho.
  destruct Hj as (_ & _ & _ & Hm). destruct (Hm Ho) as [Hd _].
  by apply (ok_decision _ Hok p Hp).
Qed.
End Justification.

(** The workflow of a sample tape, from a computed fact about it. *)
Lemma lookup_with {A B} (f : A -> B) (o : option A) b :
  f <$> o = Some b -> exists a, o = Some a /\ f a = b.
Proof. destruct o as [a|]; cbn; [|done]. intros [= <-]. eauto. Qed.

Lemma completed_workflow_is_justified_witness :
  exists w c r, reached SampleRun.tape !! SampleRun.key = Some w /\
    wi_phase w = WorkflowPhaseV1_Completed /\ wi_candidate w = Some c /\
    ca_base_commit_sha c = wd_base_commit_sha (wi_dispatch w) /\
    prs_outcome r = PromotionResultOutcomeV1_Promoted.
Proof.
  destruct (lookup_with wi_phase (reached SampleRun.tape !! SampleRun.key)
    WorkflowPhaseV1_Completed) as (w & Hw & Hph); [vm_compute; reflexivity|].
  destruct (completed_workflow_is_justified _ _ _ Hw Hph)
    as (c & a & p & r & Hc & _ & _ & _ & _ & Hb & _ & _ & _ & _ & _ & _ & _ & _ & Ho & _).
  exists w, c, r. split_and!; done.
Defined.

Lemma phases_carry_their_evidence_witness :
  exists w, reached (take 5 SampleRun.tape) !! SampleRun.key = Some w /\
    wi_phase w = WorkflowPhaseV1_PromotionPending /\ deciding w None false.
Proof.
  destruct (lookup_with wi_phase (reached (take 5 SampleRun.tape) !! SampleRun.key)
    WorkflowPhaseV1_PromotionPending) as (w & Hw & Hph); [vm_compute; reflexivity|].
  exists w. split_and!; [done..|]. pose proof (phases_carry_their_evidence _ _ _ Hw) as Hp.
  unfold phase_evidence in Hp. rewrite Hph in Hp. apply Hp.
Defined.

Lemma promotion_results_answer_their_decision_witness :
  exists w p, reached SampleRun.tape !! SampleRun.key = Some w /\ wi_promotion w = Some p /\
    reviewed w (pds_review_refs (ps_decision p)).
Proof.
  destruct (lookup_with (fun w => prs_outcome <$> (wi_promotion w ≫= ps_result))
    (reached SampleRun.tape !! SampleRun.key) (Some PromotionResultOutcomeV1_Promoted))
    as (w & Hw & Hx); [vm_compute; reflexivity|].
  destruct (wi_promotion w) as [p|] eqn:Hp; [|done]. cbn in Hx.
  destruct (lookup_with _ _ _ Hx) as (r & Hr & Ho).
  exists w, p. split_and!; [done..|].
  apply (promotion_results_answer_their_decision _ _ _ p r Hw Hp Hr). congruence.
Defined.

(** ** Permanence *)
Section Permanence.
Context `{Host, Canonicalizer}.

(** C25. Recorded evidence is permanent: whatever events follow, a workflow keeps
    its identity, dispatch and authority, and every record it has (candidate,
    acceptance, reviews, decision, results, cancellation, terminal, timers,
    requests, claims, receipts, sealed sets) stays as it is; only absent records
    are added and leases renewed. *)
Theorem recorded_evidence_is_permanent tape tape' k w :
  reached tape !! k = Some w ->
  exists w', reached (tape ++ tape') !! k = Some w' /\ evolves w w'.
Proof. apply reached_evolves. Qed.

(** Terminal phases are final: a rejected, completed, failed or cancelled
    workflow stays in that phase however the tape continues. *)
Theorem terminal_phases_are_final tape tape' k w :
  reached tape !! k = Some w -> is_terminal (wi_phase w) = true ->
  exists w', reached (tape ++ tape') !! k = Some w' /\ wi_phase w' = wi_phase w.
Proof.
  intros Hk Ht.
  exact (steps_terminal_final _ _ k w (reached_more tape tape') (reached_projection tape) Hk Ht).
Qed.

(** Cancellation wins: once a cancellation is on record no promotion is ever
    recorded, and the workflow can only end cancelled. *)
Theorem cancelled_workflows_never_promote tape tape' k w :
  reached tape !! k = Some w -> wi_cancellation w <> None ->
  exists w', reached (tape ++ tape') !! k = Some w' /\ wi_promotion w' = None /\
    (wi_phase w' <> WorkflowPhaseV1_Promoted /\ wi_phase w' <> WorkflowPhaseV1_Completed).
Proof.
  intros Hk Hc. destruct (wi_cancellation w) as [c|] eqn:Hcw; [|done].
  destruct (reached_evolves tape tape' k w Hk) as (w' & Hk' & Hev). exists w'.
  pose proof (ev_cancellation _ _ Hev c Hcw) as Hc'.
  pose proof (reached_wf_ok _ _ _ Hk') as Hok. split; [done|].
  assert (wi_promotion w' = None) as Hn by (apply (ok_cancel _ Hok); congruence).
  split; [done|]. pose proof (ok_phase _ Hok) as Hp. unfold phase_evidence in Hp.
  split; intros Hph; rewrite Hph in Hp; destruct Hp as [[_ (p & Hp & _)] _]; congruence.
Qed.
End Permanence.

Lemma recorded_evidence_is_permanent_witness :
  exists w w', reached (take 2 SampleRun.tape) !! SampleRun.key = Some w /\
    reached SampleRun.tape !! SampleRun.key = Some w' /\ evolves w w'.
Proof.
  destruct (lookup_with wi_phase (reached (take 2 SampleRun.tape) !! SampleRun.key)
    WorkflowPhaseV1_CandidateCreated) as (w & Hw & _); [vm_compute; reflexivity|].
  destruct (recorded_evidence_is_permanent (take 2 SampleRun.tape) (drop 2 SampleRun.tape) _ w Hw)
    as (w' & Hw' & Hev).
  rewrite take_drop in Hw'. exists w, w'. exact (conj Hw (conj Hw' Hev)).
Defined.

Lemma terminal_phases_are_final_witness :
  exists w, reached (SampleRun.tape ++ SampleRun.tape) !! SampleRun.key = Some w /\
    wi_phase w = WorkflowPhaseV1_Completed.
Proof.
  destruct (lookup_with wi_phase (reached SampleRun.tape !! SampleRun.key)
    WorkflowPhaseV1_Completed) as (w & Hw & Hph); [vm_compute; reflexivity|].
  destruct (terminal_phases_are_final SampleRun.tape SampleRun.tape _ w Hw) as (w' & Hw' & Hph');
    [by rewrite Hph|].
  exists w'. split; [done|congruence].
Defined.

Lemma cancelled_workflows_never_promote_witness :
  exists w, reached (SampleAction.cancelled_tape ++ SampleRun.tape) !! SampleRun.key = Some w /\
    wi_promotion w = None.
Proof.
  destruct (lookup_with (fun w => is_some (wi_cancellation w))
    (reached SampleAction.cancelled_tape !! SampleRun.key) true) as (w & Hw & Hc);
    [vm_compute; reflexivity|].
  destruct (cancelled_workflows_never_promote SampleAction.cancelled_tape SampleRun.tape _ w Hw)
    as (w' & Hw' & Hn & _); [intros Hnone; by rewrite Hnone in Hc|].
  exists w'. exact (conj Hw' Hn).
Defined.

(** ** Uniqueness *)
Section Uniqueness.
Context `{Host, Canonicalizer}.

(** At most one execution lease: two claims of one run for the same activity
    or under the same idempotency key are the same claim of the same action. *)
Theorem execution_leases_are_unique tape k w id c k' w' id' c' :
  reached tape !! k = Some w -> claim_at w id = Some c ->
  reached tape !! k' = Some w' -> claim_at w' id' = Some c' ->
  acls_run_id c = acls_run_id c' ->
  acls_activity_id c = acls_activity_id c' \/ acls_idempotency_key c = acls_idempotency_key c' ->
  k = k' /\ id = id' /\ c = c'.
Proof.
  intros Hk Hc Hk' Hc' Hr Ha.
  assert (unique_leases (reached tape)) as Hu.
  { apply reached_invariant; [intros l; apply step_unique_leases|]. intros ?????????. set_solver. }
  assert ((k, id) = (k', id')) as [= -> ->] by (eapply Hu; [exact Hk|done|exact Hk'|done|by split]).
  split_and!; congruence.
Qed.

(** A candidate belongs to one workflow: no two workflows share a candidate
    digest, id or Git ref. *)
Theorem candidates_are_unique tape k w c k' w' c' :
  reached tape !! k = Some w -> wi_candidate w = Some c ->
  reached tape !! k' = Some w' -> wi_candidate w' = Some c' ->
  ca_candidate_digest c = ca_candidate_digest c' \/ ca_candidate_id c = ca_candidate_id c' \/
  ca_candidate_ref c = ca_candidate_ref c' ->
  k = k'.
Proof.
  intros Hk Hc Hk' Hc' Hs.
  assert (unique_candidates (reached tape)) as Hu.
  { apply reached_invariant; [intros l; apply step_unique_candidates|]. intros ???????. set_solver. }
  by eapply Hu.
Qed.

(** One attempt, one workflow: the projection files a workflow under its own
    length-prefixed key, so two entries with the same workflow, unit and attempt
    are the same entry. *)
Theorem attempts_are_unique tape k w k' w' :
  reached tape !! k = Some w -> reached tape !! k' = Some w' ->
  (wi_workflow_id w, wi_unit_id w, wi_attempt w) =
    (wi_workflow_id w', wi_unit_id w', wi_attempt w') <-> k = k'.
Proof.
  intros Hk Hk'. destruct (reached_projection tape k w Hk) as [-> _].
  destruct (reached_projection tape k' w' Hk') as [-> _]. split.
  - intros [= Hw Hu Ha]. unfold key_of. by rewrite Hw, Hu, Ha.
  - intros (-> & -> & ->)%workflow_instance_key_inj. done.
Qed.

(** Runs do not mix trust: all workflows of a run have the same trust tier. *)
Theorem runs_do_not_mix_trust_tiers tape k w k' w' :
  reached tape !! k = Some w -> reached tape !! k' = Some w' -> wi_run_id w = wi_run_id w' ->
  wd_trust_tier (wi_dispatch w) = wd_trust_tier (wi_dispatch w').
Proof.
  intros Hk Hk' Hr. symmetry.
  eapply (reached_invariant trust_scoped tape); eauto using step_trust_scoped.
  intros ?? Hn. by rewrite lookup_empty in Hn.
Qed.
End Uniqueness.

Lemma execution_leases_are_unique_witness :
  exists w c, reached (take 5 SampleAction.tape_v3) !! SampleRun.key = Some w /\
    claim_at w "act" = Some c /\ acls_lease_id c = "lease" /\
    forall k' w' id' c', reached (take 5 SampleAction.tape_v3) !! k' = Some w' ->
      claim_at w' id' = Some c' -> acls_run_id c = acls_run_id c' ->
      acls_activity_id c = acls_activity_id c' -> c = c'.
Proof.
  destruct (lookup_with (fun w => acls_lease_id <$> claim_at w "act")
    (reached (take 5 SampleAction.tape_v3) !! SampleRun.key) (Some "lease")) as (w & Hw & Hl);
    [vm_compute; reflexivity|].
  destruct (lookup_with _ _ _ Hl) as (c & Hc & Hid). exists w, c. split_and!; [done..|].
  intros k' w' id' c' Hw' Hc' Hr Ha.
  apply (execution_leases_are_unique _ _ _ _ _ _ _ _ _ Hw Hc Hw' Hc' Hr). by left.
Defined.

Lemma candidates_are_unique_witness :
  exists w c, reached SampleRun.tape !! SampleRun.key = Some w /\ wi_candidate w = Some c /\
    forall k' w' c', reached SampleRun.tape !! k' = Some w' -> wi_candidate w' = Some c' ->
      ca_candidate_digest c = ca_candidate_digest c' -> SampleRun.key = k'.
Proof.
  destruct (lookup_with (fun w => ca_candidate_id <$> wi_candidate w)
    (reached SampleRun.tape !! SampleRun.key) (Some "cand")) as (w & Hw & Hc);
    [vm_compute; reflexivity|].
  destruct (lookup_with _ _ _ Hc) as (c & Hcw & _). exists w, c. split_and!; [done..|].
  intros k' w' c' Hw' Hc' Hd.
  apply (candidates_are_unique _ _ _ _ _ _ _ Hw Hcw Hw' Hc'). by left.
Defined.

Lemma attempts_are_unique_witness :
  exists w, reached SampleRun.tape !! SampleRun.key = Some w /\
    forall k' w', reached SampleRun.tape !! k' = Some w' ->
      (wi_workflow_id w, wi_unit_id w, wi_attempt w) =
        (wi_workflow_id w', wi_unit_id w', wi_attempt w') -> SampleRun.key = k'.
Proof.
  destruct (lookup_with wi_unit_id (reached SampleRun.tape !! SampleRun.key) "unit")
    as (w & Hw & _); [vm_compute; reflexivity|].
  exists w. split; [done|]. intros k' w' Hw'. apply (attempts_are_unique _ _ _ _ _ Hw Hw').
Defined.

Lemma runs_do_not_mix_trust_tiers_witness :
  exists w, reached SampleRun.tape !! SampleRun.key = Some w /\
    forall k' w', reached SampleRun.tape !! k' = Some w' -> wi_run_id w = wi_run_id w' ->
      wd_trust_tier (wi_dispatch w) = wd_trust_tier (wi_dispatch w').
Proof.
  destruct (lookup_with wi_unit_id (reached SampleRun.tape !! SampleRun.key) "unit")
    as (w & Hw & _); [vm_compute; reflexivity|].
  exists w. split; [done|]. intros k' w' Hw'. apply (runs_do_not_mix_trust_tiers _ _ _ _ _ Hw Hw').
Defined.

(** ** Action evidence *)
Section ActionEvidence.
Context `{Host, Canonicalizer}.

(** The recovery queues are exact: an action is listed as pending, unknown or
    failed exactly when its recorded evidence says so, so a restarted kernel
    neither loses nor repeats an effect. *)
Theorem recovery_queues_are_exact tape k w e q id :
  reached tape !! k = Some w -> wi_action_evidence w = Some e ->
  id ∈ queue e q <->
  exists a, aes_actions e !! id = Some a /\ queue_of (is_sealed_v3 e) a = Some q.
Proof. intros Hk He. apply (reached_evidence _ _ _ _ Hk He). Qed.

(** Sealed evidence is complete and final: the sealed set lists, in key
    order, the receipt of every action, each bound to its request, and no later
    event changes the evidence of that workflow. *)
Theorem sealed_evidence_is_complete_and_final tape tape' k w e s :
  reached tape !! k = Some w -> wi_action_evidence w = Some e ->
  aes_sealed_receipt_set e = Some s ->
  seals e s /\
  exists w', reached (tape ++ tape') !! k = Some w' /\ wi_action_evidence w' = Some e.
Proof.
  intros Hk He Hs. destruct (reached_evidence _ _ _ _ Hk He) as [Hshape _].
  split; [by apply (es_sealed _ Hshape)|].
  assert (forall s1 s2, rtc any_step s1 s2 -> forall w1, s1.2 !! k = Some w1 ->
    wi_action_evidence w1 = Some e ->
    exists w2, s2.2 !! k = Some w2 /\ wi_action_evidence w2 = Some e) as Hkeep.
  { induction 1 as [|s1 s2 s3 [l H1] _ IH]; [eauto|]. intros w1 Hk1 He1.
    apply spine_step_projection in H1 as [H1 _]. destruct H1 as [|w0 Hnew|k0 w0 w0' Hk0 Hw];
      [eauto|eapply IH; [by rewrite lookup_insert_ne by congruence|done]|].
    destruct (decide (k0 = k)) as [->|Hne];
      [|eapply IH; [by rewrite lookup_insert_ne by done|done]].
    eapply IH; [by apply lookup_insert_eq|]. assert (w0 = w1) as -> by congruence.
    destruct Hw; try done. simplify_eq.
    by destruct (sealed_final _ _ _ _ _ s Hshape Hs ltac:(eassumption)). }
  exact (Hkeep _ _ (reached_more tape tape') w Hk He).
Qed.

(** C26. The signed token budget holds: in a governed sealed_v3 workflow whose
    receipts are sealed, every action succeeded and the tokens of all model
    receipts together stay within [max_tokens] (a [u64]). *)
Theorem sealed_workflow_within_token_budget tape k w e s max :
  reached tape !! k = Some w -> wi_action_evidence w = Some e ->
  aes_sealed_receipt_set e = Some s ->
  wd_trust_tier (wi_dispatch w) = TrustTierV1_Governed ->
  wd_action_evidence_version (wi_dispatch w) = Some ActionEvidenceVersionV1_SealedV3 ->
  db_max_tokens (wd_budget (wi_dispatch w)) = Some max -> 0 <= max ->
  all_succeeded (aes_actions e) /\ total_tokens (aes_actions e) <= max.
Proof.
  intros Hk He Hs Hg Hv Hmax Hnn. destruct (so_evidence _ (reached_spend _ _ _ Hk) e He)
    as (_ & Hb & Hsucc).
  assert (requires_activity_claim_result w = true) as Hreq.
  { unfold requires_activity_claim_result. by rewrite Hv. }
  assert (all_succeeded (aes_actions e)) as Hall by (apply Hsucc; by rewrite ?Hs).
  split; [done|]. apply Hb; try done.
  intros id a r Ha Hr _. destruct (Hall id a Ha) as (r' & Hr' & Ho). congruence.
Qed.

(** Leases stay inside the signed deadline: an execution lease starts before
    it ends and, however often it was renewed, ends by the dispatch's compute
    deadline; a known outcome was recorded while the lease was live. *)
Theorem leases_stay_within_the_deadline tape k w e id a c :
  reached tape !! k = Some w -> wi_action_evidence w = Some e ->
  aes_actions e !! id = Some a -> acts_activity_claim a = Some c ->
  lease_within w (acls_claimed_at c) (acls_lease_expires_at c) /\
  forall x, acls_result c = Some x -> settles_in_time c x.
Proof.
  intros Hk He Ha Hc. destruct (reached_action _ _ _ _ _ _ Hk He Ha). auto.
Qed.

(** Receipts tell what happened: a receipt agrees with the terminal result of
    the action's lease (a sealed_v3 receipt always has one), and a successful
    model receipt names the recorded authorization. *)
Theorem receipts_agree_with_results tape k w e id a r :
  reached tape !! k = Some w -> wi_action_evidence w = Some e ->
  aes_actions e !! id = Some a -> acts_receipt a = Some r ->
  arcs_action_request_digest r = arqs_action_request_digest (acts_request a) /\
  (requires_activity_claim_result w = true -> acts_activity_claim a <> None) /\
  (forall c, acts_activity_claim a = Some c ->
     exists x, acls_result c = Some x /\ receipt_agrees r x) /\
  (arqs_action_kind (acts_request a) = ActionKindV1_Model ->
   arcs_outcome r = ActionReceiptOutcomeV2_Succeeded ->
   exists x, acts_model_authorization a = Some x /\
     arcs_authorization_ref r = Some (maas_authorization_ref x)).
Proof.
  intros Hk He Ha Hr. destruct (reached_action _ _ _ _ _ _ Hk He Ha).
  destruct (reached_evidence _ _ _ _ Hk He) as [Hshape _].
  split_and!; [by eapply es_receipts|by eapply ao_receipt|by eapply ao_receipt|by eapply ao_authority].
Qed.
End ActionEvidence.

(** The evidence of the sealed_v3 sample after [n] events. *)
Lemma sample_evidence {B} n (f : WorkflowInstanceV1 -> ActionEvidenceReplayState -> B) b :
  (w ← reached (take n SampleAction.tape_v3) !! SampleRun.key; f w <$> wi_action_evidence w) =
    Some b ->
  exists w e, reached (take n SampleAction.tape_v3) !! SampleRun.key = Some w /\
    wi_action_evidence w = Some e /\ f w e = b.
Proof.
  destruct (reached _ !! _) as [w|]; [|done]. intros Hf.
  destruct (lookup_with _ _ _ Hf) as (e & He & Hb). eauto.
Qed.

Lemma recovery_queues_are_exact_witness :
  exists w e, reached (take 4 SampleAction.tape_v3) !! SampleRun.key = Some w /\
    wi_action_evidence w = Some e /\
    exists a, aes_actions e !! "act" = Some a /\ queue_of (is_sealed_v3 e) a = Some Pending.
Proof.
  destruct (sample_evidence 4 (fun _ => aes_pending_action_ids) ["act"]) as (w & e & Hw & He & Hq);
    [vm_compute; reflexivity|].
  exists w, e. split_and!; [done..|].
  apply (recovery_queues_are_exact _ _ w e Pending "act" Hw He). cbn. rewrite Hq. by left.
Defined.

Lemma sealed_evidence_is_complete_and_final_witness :
  exists w e s w', reached (take 9 SampleAction.tape_v3) !! SampleRun.key = Some w /\
    wi_action_evidence w = Some e /\ seals e s /\
    reached (take 9 SampleAction.tape_v3 ++ SampleAction.tape_v3) !! SampleRun.key = Some w' /\
    wi_action_evidence w' = Some e.
Proof.
  destruct (sample_evidence 9 (fun _ e => arss_action_receipt_set_ref <$> aes_sealed_receipt_set e)
    (Some "set")) as (w & e & Hw & He & Hs); [vm_compute; reflexivity|].
  destruct (lookup_with _ _ _ Hs) as (s & Hset & _).
  destruct (sealed_evidence_is_complete_and_final _ SampleAction.tape_v3 _ _ _ _ Hw He Hset)
    as (Hseals & w' & Hw' & He').
  exists w, e, s, w'. exact (conj Hw (conj He (conj Hseals (conj Hw' He')))).
Defined.

Lemma sealed_workflow_within_token_budget_witness :
  exists w e, reached (take 9 SampleAction.tape_v3) !! SampleRun.key = Some w /\
    wi_action_evidence w = Some e /\ total_tokens (aes_actions e) = 100 /\
    total_tokens (aes_actions e) <= 100.
Proof.
  destruct (sample_evidence 9 (fun w e =>
      (arss_action_receipt_set_ref <$> aes_sealed_receipt_set e, wd_trust_tier (wi_dispatch w),
       wd_action_evidence_version (wi_dispatch w), db_max_tokens (wd_budget (wi_dispatch w)),
       total_tokens (aes_actions e)))
    (Some "set", TrustTierV1_Governed, Some ActionEvidenceVersionV1_SealedV3, Some 100, 100))
    as (w & e & Hw & He & Hf); [vm_compute; reflexivity|].
  injection Hf as Hs Ht Hv Hm Htot. destruct (lookup_with _ _ _ Hs) as (s & Hset & _).
  exists w, e. split_and!; [done..|].
  apply (sealed_workflow_within_token_budget _ _ w e s 100 Hw He Hset Ht Hv Hm). lia.
Defined.

Lemma leases_stay_within_the_deadline_witness :
  exists w e a c, reached (take 7 SampleAction.tape_v3) !! SampleRun.key = Some w /\
    wi_action_evidence w = Some e /\ aes_actions e !! "act" = Some a /\
    acts_activity_claim a = Some c /\
    lease_within w (acls_claimed_at c) (acls_lease_expires_at c).
Proof.
  destruct (sample_evidence 7 (fun _ e => acls_lease_expires_at <$>
      (aes_actions e !! "act" ≫= acts_activity_claim)) (Some "45Z")) as (w & e & Hw & He & Hc);
    [vm_compute; reflexivity|].
  destruct (aes_actions e !! "act") as [a|] eqn:Ha; [|done].
  destruct (lookup_with _ _ _ Hc) as (c & Hca & _). exists w, e, a, c. split_and!; [done..|].
  apply (leases_stay_within_the_deadline _ _ w e "act" a c Hw He Ha Hca).
Defined.

Lemma receipts_agree_with_results_witness :
  exists w e a r x, reached (take 8 SampleAction.tape_v3) !! SampleRun.key = Some w /\
    wi_action_evidence w = Some e /\ aes_actions e !! "act" = Some a /\
    acts_receipt a = Some r /\ receipt_agrees r x.
Proof.
  destruct (sample_evidence 8 (fun w e => (requires_activity_claim_result w,
      arcs_outcome <$> (aes_actions e !! "act" ≫= acts_receipt)))
      (true, Some ActionReceiptOutcomeV2_Succeeded)) as (w & e & Hw & He & Hf);
    [vm_compute; reflexivity|].
  injection Hf as Hreq Hr. destruct (aes_actions e !! "act") as [a|] eqn:Ha; [|done].
  destruct (lookup_with _ _ _ Hr) as (r & Hra & _).
  destruct (receipts_agree_with_results _ _ w e "act" a r Hw He Ha Hra) as (_ & Hcl & Hx & _).
  destruct (acts_activity_claim a) as [c|]; [|by destruct (Hcl Hreq)].
  destruct (Hx c eq_refl) as (x & _ & Hag). exists w, e, a, r, x. split_and!; done.
Defined.

(** ** Graph schedules *)
Section Schedules.
Context `{Host, Canonicalizer}.

(** C27. The concurrency limit of a declared graph is never exceeded: at any time
    at most [max_concurrent] workflows dispatched under one graph declaration are
    in a phase that is not terminal. *)
Theorem graph_concurrency_is_bounded tape k w g :
  reached tape !! k = Some w -> wi_workflow_graph w = Some g ->
  Z.of_nat (map_count (active_peer w) (reached tape)) <= wg2s_max_concurrent g.
Proof. apply (sc_active _ _ (reached_schedule tape)). Qed.

(** C28. Dependencies run first: a graph-bound workflow carries the declared graph
    of its run, workflow and revision, its unit is one node of that graph, and
    every unit that node depends on has a completed workflow under the same
    declaration. *)
Theorem graph_dependencies_complete_first tape k w g :
  reached tape !! k = Some w -> wi_workflow_graph w = Some g ->
  st_workflow_graphs_v2 (replay default_replay_state tape) !!
    workflow_graph_key (wi_run_id w) (wi_workflow_id w) (wi_workflow_revision w) = Some g /\
  dependencies_completed (reached tape) w g.
Proof.
  intros Hk Hg. pose proof (reached_schedule tape) as Hok. split.
  - pose proof (sc_graph _ _ Hok _ _ Hk) as Hgraph. unfold graph_of in Hgraph.
    destruct (graph_bound w); [|congruence]. destruct Hgraph as (g' & Hg' & Hl). congruence.
  - by eapply sc_dependencies.
Qed.
End Schedules.

Lemma graph_concurrency_is_bounded_witness :
  exists w g, reached SampleGraph.graph_tape !! SampleRun.key = Some w /\
    wi_workflow_graph w = Some g /\
    map_count (active_peer w) (reached SampleGraph.graph_tape) = 1%nat /\
    Z.of_nat (map_count (active_peer w) (reached SampleGraph.graph_tape)) <= wg2s_max_concurrent g.
Proof.
  destruct (lookup_with (fun w => (is_some (wi_workflow_graph w),
      map_count (active_peer w) (reached SampleGraph.graph_tape)))
    (reached SampleGraph.graph_tape !! SampleRun.key) (true, 1%nat)) as (w & Hw & Hf);
    [vm_compute; reflexivity|].
  apply pair_equal_spec in Hf as [Hg Hc]. destruct (wi_workflow_graph w) as [g|] eqn:Hgw; [|discriminate Hg].
  exists w, g. pose proof (graph_concurrency_is_bounded _ _ _ _ Hw Hgw) as Hle.
  exact (conj Hw (conj Hgw (conj Hc Hle))).
Defined.

Lemma graph_dependencies_complete_first_witness :
  exists w g, reached SampleGraph.graph_tape !! SampleRun.key = Some w /\
    wi_workflow_graph w = Some g /\ dependencies_completed (reached SampleGraph.graph_tape) w g.
Proof.
  destruct (lookup_with (fun w => is_some (wi_workflow_graph w))
    (reached SampleGraph.graph_tape !! SampleRun.key) true) as (w & Hw & Hf);
    [vm_compute; reflexivity|].
  destruct (wi_workflow_graph w) as [g|] eqn:Hgw; [|discriminate Hf].
  exists w, g. pose proof (proj2 (graph_dependencies_complete_first _ _ _ _ Hw Hgw)) as Hd.
  exact (conj Hw (conj Hgw Hd)).
Defined.

(** ** Errors *)
Section Errors.
Context `{Host, Canonicalizer}.

(** The reducer never panics: every [expect] of the handlers is reached only
    with the entry it expects present, for any state, event and signer. *)
Theorem reducer_never_panics st event signer : event_verdict st event signer <> Err Panicked.
Proof. apply event_verdict_safe. Qed.

(** Refused events leave no trace but the diagnosis: on a coherent state an
    event the reducer refuses changes nothing except for appending exactly one
    issue that names the event, and a duplicate it ignores changes nothing. *)
Theorem refused_events_only_add_a_diagnosis st event signer x :
  view_coherent st -> event_verdict st event signer = Err x ->
  apply_with_verified_signer st event signer =
    match x with
    | Rejected reason =>
        {| st with st_issues := st_issues st ++
             [ReplayIssue_WorkflowTransitionRejected (ev_id event) (as_wire (ev_kind event))
                (wi_phase <$> st_workflow_instance st) reason] |}
    | RejectedActivity activity_id reason => reject_activity_transition st event activity_id reason
    | _ => st
    end.
Proof.
  intros Hst Hx. rewrite apply_is_finish by done. rewrite Hx. by destruct x.
Qed.

(** Events are local: one event changes at most one workflow of the
    projection. *)
Theorem events_touch_one_workflow st event signer :
  view_coherent st ->
  exists k0, forall k, k <> k0 ->
    st_workflow_instances (apply_with_verified_signer st event signer) !! k =
    st_workflow_instances st !! k.
Proof.
  intros Hst. destruct (apply_refines st event signer Hst) as [Hs _].
  apply spine_step_projection in Hs as [Hs _]. cbn in Hs.
  inversion Hs as [|w|k0 w w']; [by exists ""|exists (key_of w)|exists k0];
    intros k Hk; by rewrite lookup_insert_ne.
Qed.
End Errors.

(** A rejection after the run completed is refused. *)
Lemma refused_events_only_add_a_diagnosis_witness :
  exists reason, st_issues (apply_with_verified_signer (SampleRun.after 7)
      (SampleRun.event 18 None 70 EventKind_PromotionDecisionRecorded
         (Payload_PromotionDecisionRecordedV1
            (SampleRun.decision PromotionDecisionKindV1_Reject))) None) =
    [ReplayIssue_WorkflowTransitionRejected 18 "promotion_decision_recorded"
       (Some WorkflowPhaseV1_Completed) reason].
Proof.
  assert (exists reason, event_verdict (SampleRun.after 7)
      (SampleRun.event 18 None 70 EventKind_PromotionDecisionRecorded
         (Payload_PromotionDecisionRecordedV1 (SampleRun.decision PromotionDecisionKindV1_Reject)))
      None = Err (Rejected reason)) as [reason Hr] by (eexists; vm_compute; reflexivity).
  exists reason.
  rewrite (refused_events_only_add_a_diagnosis (SampleRun.after 7) _ _ _
    (replay_coherent _ _ default_coherent) Hr).
  vm_compute. reflexivity.
Defined.

Lemma events_touch_one_workflow_witness :
  exists k0, forall k, k <> k0 ->
    st_workflow_instances (apply_with_verified_signer (SampleRun.after 1)
      (SampleRun.event 12 None 15 EventKind_CandidateCreated
         (Payload_CandidateCreatedV1 SampleRun.candidate)) None) !! k =
    st_workflow_instances (SampleRun.after 1) !! k.
Proof.
  apply (events_touch_one_workflow (SampleRun.after 1)). apply replay_coherent, default_coherent.
Defined.

(** ** Table keys *)
Section TableKeys.
Context `{Host, Canonicalizer}.

(** Manifest declarations are filed by their exact run, workflow, revision,
    unit and attempt, as long as none of the identifiers contains a NUL
    character. *)
Theorem manifest_declaration_key_is_exact r w v u a r' w' v' u' a' :
  Forall (free_of Ascii.zero) [r; w; v; u; r'; w'; v'; u'] ->
  manifest_declaration_key r w v u a = manifest_declaration_key r' w' v' u' a' <->
  (r, w, v, u, a) = (r', w', v', u', a').
Proof.
  intros Hfree. split; [|by intros [= -> -> -> -> ->]].
  intros (-> & -> & -> & -> & ->)%manifest_declaration_key_inj; done.
Qed.
End TableKeys.

Lemma manifest_declaration_key_is_exact_witness :
  manifest_declaration_key "1" "wf" "r1" "unit" 1 <> manifest_declaration_key "1" "wf" "r2" "unit" 1.
Proof.
  intros Heq. apply manifest_declaration_key_is_exact in Heq; [discriminate Heq|].
  repeat constructor.
Defined.

(** With a NUL character in an identifier the key is not exact: declarations of
    two different workflow revisions are filed under one key. *)
Theorem manifest_declaration_key_collides :
  exists w v w' v', v <> v' /\
    manifest_declaration_key "1" w v "unit" 1 = manifest_declaration_key "1" w' v' "unit" 1.
Proof. exists "wf", ("a" +:+ nul +:+ "b"), ("wf" +:+ nul +:+ "a"), "b". by split. Qed.
