(* ===== verification/GraphProgress.v ===== *)
(** * Declared graphs cannot deadlock

    The canonicaliser and the reducer together: a graph is recorded only when
    its declaration is canonical, so its dependencies have no cycle, and then in
    every state that replay reaches either every unit of the graph is done or
    some unit is held back by nothing but the concurrency limit. *)
From S2P Require Import Prelude RustStr Host LedgerPayloads TrustSpine Digests Events DemoHost WorkflowGraph Canonicalize CanonicalizeSpec ReplayState ReducerCore WorkflowSpec WorkflowReplay WorkflowTheorems SampleRun.
From stdpp Require Import base list gmap strings relations sorting.

#[local] Open Scope string_scope.
#[local] Open Scope list_scope.
#[local] Open Scope Z_scope.

(** A workflow dispatched under the declaration [g]. *)
Definition under (g : WorkflowGraphV2ReplayState) (w : WorkflowInstanceV1) : bool :=
  (wi_run_id w == wg2s_run_id g) && graph_bound w &&
  (wi_workflow_id w == wg2s_workflow_id g) &&
  (wi_workflow_revision w == wg2s_workflow_revision g) &&
  (wd_workflow_graph_digest (wi_dispatch w) == Some (wg2s_graph_digest g)) &&
  (wd_workflow_graph_declaration_event_ref (wi_dispatch w) == Some (wg2s_event_id g)).

(** The latest attempt at a unit under [g], if any, has completed. *)
Definition unit_done (st : ReplayState) (g : WorkflowGraphV2ReplayState) (unit_id : string) : bool :=
  is_some_and
    (max_by_attempt (List.filter (fun w => under g w && (wi_unit_id w == unit_id))
       (btree_list (st_workflow_instances st)).*2) None)
    (fun w => wi_phase w == WorkflowPhaseV1_Completed).

(** The workflows under [g] that are still active. *)
Definition active (st : ReplayState) (g : WorkflowGraphV2ReplayState) : nat :=
  map_count (fun w => under g w && negb (is_terminal (wi_phase w))) (st_workflow_instances st).

(** The event and envelope dispatch [unit_id] of the graph [g]. *)
Definition dispatches_unit `{Host} (g : WorkflowGraphV2ReplayState) (unit_id : string)
    (event : Event) (dispatch : DispatchEnvelopeV4) : Prop :=
  let body := de3_body (de4_dispatch_v3 dispatch) in
  uuid_to_string (ev_run_id event) = wg2s_run_id g /\
  deb2_workflow_id body = wg2s_workflow_id g /\
  deb2_workflow_revision body = wg2s_workflow_revision g /\ deb2_unit_id body = unit_id.

Section Schedule.
Context `{Host, Canonicalizer}.

Lemma for_each_all {A E} (f : A -> Result unit E) l :
  (forall a, a ∈ l -> f a = Ok tt) -> for_each f l = Ok tt.
Proof.
  induction l as [|a l IH]; intros Hall; [done|]. cbn [for_each]. rewrite Hall by left.
  apply IH. intros. apply Hall. by right.
Qed.

Lemma find_unit nodes n :
  NoDup (map wgn2_unit_id nodes) -> n ∈ nodes ->
  List.find (fun node => wgn2_unit_id node == wgn2_unit_id n) nodes = Some n.
Proof.
  induction nodes as [|x nodes IH]; intros Hnd Hn; [set_solver|]. cbn [map List.find] in *.
  apply NoDup_cons in Hnd as [Hx Hnd]. case_bool_decide as Heq.
  - apply elem_of_cons in Hn as [->|Hn]; [done|]. exfalso. apply Hx. rewrite Heq.
    by apply (list_elem_of_fmap_2 wgn2_unit_id).
  - apply IH; [done|]. set_solver.
Qed.

Lemma same_graph_under event dispatch g unit_id w :
  dispatches_unit g unit_id event dispatch ->
  is_same_graph_workflow event (de3_body (de4_dispatch_v3 dispatch)) g w = under g w.
Proof.
  intros (Hr & Hw & Hv & _). unfold is_same_graph_workflow, event_matches_workflow_run, under.
  by rewrite Hr, Hw, Hv.
Qed.

(** A unit whose dependencies are done waits only for a free slot. *)
Lemma ready_unit_waits_for_a_slot st g n event dispatch :
  st_workflow_graphs_v2 st !!
    workflow_graph_key (wg2s_run_id g) (wg2s_workflow_id g) (wg2s_workflow_revision g) = Some g ->
  NoDup (map wgn2_unit_id (wg2s_nodes g)) -> n ∈ wg2s_nodes g ->
  (forall u, u ∈ wgn2_depends_on n -> unit_done st g u = true) ->
  dispatches_unit g (wgn2_unit_id n) event dispatch ->
  validate_v4_graph_schedule st event dispatch = Ok tt <->
  Z.of_nat (active st g) < wg2s_max_concurrent g.
Proof.
  intros Hg Hnd Hn Hdeps Hd. pose proof Hd as (Hr & Hw & Hv & Hu).
  unfold validate_v4_graph_schedule. cbv zeta. rewrite Hr, Hw, Hv, Hg, Hu, find_unit by done.
  rewrite for_each_all.
  - cbn [result_bind]. unfold active. rewrite <-map_count_btree.
    erewrite (List.filter_ext (fun w => is_same_graph_workflow _ _ _ w && _)).
    2: { intros w. by rewrite (same_graph_under _ _ _ _ _ Hd). }
    destruct (Z.leb_spec (wg2s_max_concurrent g)
      (Z.of_nat (length (List.filter (fun w => under g w && negb (is_terminal (wi_phase w)))
         (btree_list (st_workflow_instances st)).*2)))); split; (done || lia).
  - intros u Hin. specialize (Hdeps u Hin). unfold unit_done in Hdeps.
    erewrite (List.filter_ext (fun w => is_same_graph_workflow _ _ _ w && _)).
    2: { intros w. by rewrite (same_graph_under _ _ _ _ _ Hd). }
    destruct (max_by_attempt _ None) as [w|]; [|done]. cbn in Hdeps. by rewrite Hdeps.
Qed.

(** Of the units in topological order, the first that is not done is ready. *)
Lemma first_undone_is_ready (nodes : Topology) order (p : string -> bool) :
  topological nodes order ->
  (forall u, u ∈ order -> p u = true) \/
  exists u, u ∈ order /\ p u = false /\ forall d, depends nodes u d -> p d = true.
Proof.
  intros Hord.
  destruct (list_find (fun u => p u = false) order) as [[i u]|] eqn:Hf.
  - right. apply list_find_Some in Hf as (Hi & Hu & Hbefore). exists u.
    split; [by eapply list_elem_of_lookup_2|]. split; [done|]. intros d Hd.
    eapply Hord in Hd; [|done]. apply list_elem_of_lookup in Hd as [j Hj].
    apply lookup_take_Some in Hj as [Hj Hlt]. specialize (Hbefore j d Hj Hlt).
    by apply not_false_iff_true.
  - left. intros u Hu. apply list_find_None in Hf. rewrite Forall_forall in Hf.
    by apply not_false_iff_true, Hf.
Qed.
End Schedule.

Section Ledger.
Context `{Host} (encode : Event -> Result string string).
#[local] Instance ledger : Canonicalizer := ledger_canonicalizer encode.

(** Every recorded graph is filed under its identity and was declared by a
    canonical event. *)
Definition graphs_valid (gs : gmap string WorkflowGraphV2ReplayState) : Prop :=
  forall k g, gs !! k = Some g ->
    k = workflow_graph_key (wg2s_run_id g) (wg2s_workflow_id g) (wg2s_workflow_revision g) /\
    exists d, valid_graph_v2 d /\ wg2s_nodes g = wgd2_nodes d.

Lemma graphs_valid_step s s' : any_step s s' -> graphs_valid s.1 -> graphs_valid s'.1.
Proof.
  intros [l Hs] Hv. destruct Hs as [gs m k g Hk Hdecl|gs m m' _]; [|done].
  cbn in *. intros k' g' Hk'. apply lookup_insert_Some in Hk' as [[<- <-]|[_ Hk']]; [|by apply Hv].
  destruct Hdecl as (p & Hp & Hc & Hkey & _ & _ & _ & _ & Hn & _). split; [done|].
  exists p. split; [|done]. cbn in Hc. unfold is_ok, map_err in Hc.
  destruct (ledger_canonicalize lbl_event) as [e|] eqn:He; [|done].
  apply canonicalize_iff in He as (_ & _ & _ & _ & Hok). unfold validate_payload_semantics in Hok.
  rewrite Hp in Hok. apply bind_unit_iff in Hok as [Hok _].
  apply bind_unit_iff in Hok as [Hv' _].
  by apply validate_graph_v2_iff in Hv'.
Qed.

Lemma reached_graphs_valid tape :
  graphs_valid (st_workflow_graphs_v2 (replay default_replay_state tape)).
Proof.
  pose proof (replay_steps default_replay_state tape default_coherent) as Hs.
  change (graphs_valid (spine_of (replay default_replay_state tape)).1).
  assert (H0 : graphs_valid (spine_of default_replay_state).1) by (intros k g Hk; done).
  revert H0. induction Hs as [|s s' s'' Hstep _ IH]; [done|]. intros H0.
  apply IH. by eapply graphs_valid_step.
Qed.

(** C29. A declared graph never deadlocks: in every state a tape reaches through
    the ledger's canonicaliser, either the latest attempt at every unit of a
    recorded graph has completed, or there is a unit that is not done and whose
    dispatch passes the graph schedule exactly when a slot is free. *)
Theorem declared_graphs_never_deadlock tape k g :
  let st := replay default_replay_state tape in
  st_workflow_graphs_v2 st !! k = Some g ->
  (forall n, n ∈ wg2s_nodes g -> unit_done st g (wgn2_unit_id n) = true) \/
  exists n, n ∈ wg2s_nodes g /\ unit_done st g (wgn2_unit_id n) = false /\
    forall event dispatch, dispatches_unit g (wgn2_unit_id n) event dispatch ->
      validate_v4_graph_schedule st event dispatch = Ok tt <->
      Z.of_nat (active st g) < wg2s_max_concurrent g.
Proof.
  intros st Hk. destruct (reached_graphs_valid tape k g Hk) as (-> & d & Hd & Hn).
  destruct Hd as [_ _ _ _ Hok Hs Hc Hno].
  pose proof (nodes_v2_well_formed _ Hok Hs Hc) as Hwf.
  destruct (graph_has_cycle_correct _ Hwf) as [[_ Hcyc]|(_ & _ & order & Hperm & Hord)]; [done|].
  rewrite topology_v2_units in Hperm. rewrite Hn.
  destruct (first_undone_is_ready _ _ (unit_done st g) Hord) as [Hall|(u & Hu & Hundone & Hdeps)].
  - left. intros n Hin. apply Hall. rewrite Hperm. by apply (list_elem_of_fmap_2 wgn2_unit_id).
  - right. rewrite Hperm in Hu. apply list_elem_of_fmap in Hu as (n & -> & Hin).
    exists n. split; [done|]. split; [done|]. intros event dispatch.
    apply ready_unit_waits_for_a_slot; [done| |by rewrite Hn|].
    + rewrite Hn. by apply sorted_nodup.
    + intros v Hv. apply Hdeps. exists (wgn2_depends_on n). split; [|done].
      apply topology_v2_elem. eauto.
Qed.
End Ledger.

(** The sample graph right after its declaration. *)
Module SampleProgress.
Import Demo SampleCanonical.
Definition encode (event : Event) : Result string string := Ok (as_wire (ev_kind event)).
#[local] Hint Extern 0 Canonicalizer => exact (ledger encode) : typeclass_instances.
Definition tape : list (Event * option ActorKeyRef) :=
  [(event EventKind_WorkflowGraphDeclaredV2 (Payload_WorkflowGraphDeclaredV2 graph), None)].

Lemma declared_graphs_never_deadlock_witness :
  exists g, st_workflow_graphs_v2 (replay default_replay_state tape) !!
      workflow_graph_key "7" "workflow" "r1" = Some g /\
    exists n, n ∈ wg2s_nodes g /\
      unit_done (replay default_replay_state tape) g (wgn2_unit_id n) = false.
Proof.
  destruct (lookup_with (fun g => (wg2s_nodes g, unit_done (replay default_replay_state tape) g "build"))
    (st_workflow_graphs_v2 (replay default_replay_state tape) !!
      workflow_graph_key "7" "workflow" "r1") (wgd2_nodes graph, false)) as (g & Hg & Hf);
    [vm_compute; reflexivity|].
  apply pair_equal_spec in Hf as [Hn Hu]. exists g. split; [exact Hg|].
  destruct (declared_graphs_never_deadlock encode tape _ g Hg) as [Hall|(n & Hin & Hundone & _)];
    [exfalso|exact (ex_intro _ n (conj Hin Hundone))].
  assert (Htrue : unit_done (replay default_replay_state tape) g "build" = true)
    by (apply (Hall (node "build" [])); rewrite Hn; left).
  rewrite Hu in Htrue. discriminate Htrue.
Defined.
End SampleProgress.
