(* ===== verification/RecoverySpec.v ===== *)
(** * What recovery may conclude

    Decisions about recorded actions and promotions are total and follow from
    the record; a snapshot is opened only from a completely verified tape, and
    its lookups are exact. *)
From S2P Require Import Prelude RustStr Host LedgerPayloads TrustSpine Digests Events DemoHost WorkflowGraph ReplayState Tape TapeSpec ReducerCore Reducer Engine ActivityDecision TrustedRecovery WorkflowSpec WorkflowRefine WorkflowReplay WorkflowEvolution WorkflowInvariants WorkflowEvidence EngineSpec WorkflowTheorems SampleRun.
From stdpp Require Import base list gmap strings relations sorting.

#[local] Open Scope string_scope.
#[local] Open Scope list_scope.
#[local] Open Scope Z_scope.

(** ** Decisions about one action *)
Section Decisions.
Context `{Host}.

(** The workflow records the claimed action that the identity names. *)
Record claimed (w : WorkflowInstanceV1) (i : RecordedActionIdentityV1) (a : ActionReplayState)
    (c : ActivityClaimReplayState) : Prop := {
  cl_evidence : exists e, wi_action_evidence w = Some e /\
    aes_action_evidence_version e = ActionEvidenceVersionV1_SealedV3 /\
    aes_actions e !! rai_action_id i = Some a;
  cl_claim : acts_activity_claim a = Some c;
  cl_identity : claimed_action_identity w a c = i
}.

(** A decision and the record it rests on.  A refusal needs no record. *)
Inductive justified (w : WorkflowInstanceV1) (q : RecordedActionDecisionQueryV1)
    : RecordedActionDecisionV1 -> Prop :=
| justified_reuse a c r digest ref :
    claimed w (radq_identity q) a c ->
    acls_result c = Some r -> arxs_outcome r = ActivityResultOutcomeV1_Succeeded ->
    arxs_result_digest r = Some digest -> arxs_result_ref r = Some ref ->
    (forall x, acts_receipt a = Some x ->
       arcs_outcome x = ActionReceiptOutcomeV2_Succeeded /\
       arcs_result_digest x = Some digest /\ arcs_result_ref x = Some ref) ->
    (arqs_action_kind (acts_request a) = ActionKindV1_Model ->
     exists x auth, acts_receipt a = Some x /\ acts_model_authorization a = Some auth /\
       arcs_authorization_ref x = Some (maas_authorization_ref auth)) ->
    justified w q
      {| rad_schema_version := 1; rad_identity := radq_identity q;
         rad_disposition := ActionDecisionDispositionV1_ReuseRecordedResult;
         rad_result := Some {| rarv_result_event_ref := uuid_to_string (arxs_event_id r);
           rarv_result_event_digest := arxs_event_digest r;
           rarv_result_digest := digest; rarv_result_ref := ref;
           rarv_evidence_digest := arxs_evidence_digest r;
           rarv_evidence_ref := arxs_evidence_ref r; rarv_recorded_at := arxs_recorded_at r |};
         rad_effective_lease_expires_at := None; rad_reason := None |}
| justified_wait a c observed expiry :
    claimed w (radq_identity q) a c ->
    wi_phase w = WorkflowPhaseV1_Dispatched -> acls_result c = None -> acts_receipt a = None ->
    parse_rfc3339_utc (radq_observed_at q) = Some observed ->
    parse_rfc3339_utc (acls_lease_expires_at c) = Some expiry -> observed < expiry ->
    justified w q
      {| rad_schema_version := 1; rad_identity := radq_identity q;
         rad_disposition := ActionDecisionDispositionV1_WaitForActiveLease; rad_result := None;
         rad_effective_lease_expires_at := Some (acls_lease_expires_at c); rad_reason := None |}
| justified_failure a c :
    claimed w (radq_identity q) a c ->
    arxs_outcome <$> acls_result c = Some ActivityResultOutcomeV1_Failed \/
    (acls_result c = None /\ exists x, acts_receipt a = Some x /\
       (arcs_outcome x = ActionReceiptOutcomeV2_Failed \/
        arcs_outcome x = ActionReceiptOutcomeV2_Denied)) ->
    justified w q (terminal_failure q)
| justified_unknown a c :
    claimed w (radq_identity q) a c ->
    arxs_outcome <$> acls_result c = Some ActivityResultOutcomeV1_Unknown \/
    (acls_result c = None /\
     arcs_outcome <$> acts_receipt a = Some ActionReceiptOutcomeV2_Unknown) ->
    justified w q (reconciliation q ActionDecisionBlockReasonV1_UnknownTerminalState)
| justified_expired a c observed expiry :
    claimed w (radq_identity q) a c ->
    wi_phase w = WorkflowPhaseV1_Dispatched -> acls_result c = None -> acts_receipt a = None ->
    parse_rfc3339_utc (radq_observed_at q) = Some observed ->
    parse_rfc3339_utc (acls_lease_expires_at c) = Some expiry -> expiry <= observed ->
    justified w q (reconciliation q ActionDecisionBlockReasonV1_LeaseExpired)
| justified_blocked reason : justified w q (blocked q reason).

Lemma well_formed_success c r :
  result_is_well_formed c r = true -> arxs_outcome r = ActivityResultOutcomeV1_Succeeded ->
  exists digest ref, arxs_result_digest r = Some digest /\ arxs_result_ref r = Some ref.
Proof.
  unfold result_is_well_formed. intros Hwf Ho. rewrite Ho in Hwf.
  repeat case_match; try done. bool_simp. rewrite is_some_and_true in *.
  repeat match goal with E : exists _, _ |- _ => destruct E as (? & ? & ?) end. eauto.
Qed.

Lemma query_observed q :
  query_is_well_formed q = true -> exists t, parse_rfc3339_utc (radq_observed_at q) = Some t.
Proof. unfold query_is_well_formed. intros Hq. bool_simp. eauto. Qed.

Lemma claim_expiry w a c :
  claim_is_well_formed w a c = true ->
  exists t, parse_rfc3339_utc (acls_lease_expires_at c) = Some t.
Proof. unfold claim_is_well_formed. intros Hc. repeat case_match; try done. eauto. Qed.

(** The identity checks of the classifier together. *)
Lemma claimed_intro w q e a c :
  workflow_identity_matches_query w q = true ->
  wi_action_evidence w = Some e ->
  aes_action_evidence_version e = ActionEvidenceVersionV1_SealedV3 ->
  aes_actions e !! rai_action_id (radq_identity q) = Some a ->
  action_identity_matches_query w a q = true ->
  acts_activity_claim a = Some c -> claim_identity_matches_query c q = true ->
  claimed w (radq_identity q) a c.
Proof.
  unfold workflow_identity_matches_query, action_identity_matches_query,
    claim_identity_matches_query. intros Hw He Hv Ha Hai Hc Hci. bool_simp.
  split; [by exists e|done|]. unfold claimed_action_identity. destruct (radq_identity q).
  cbn in *. by subst.
Qed.

Lemma successful_receipt_agrees r x :
  arxs_outcome r = ActivityResultOutcomeV1_Succeeded ->
  result_and_receipt_agree r (Some x) = true ->
  arcs_outcome x = ActionReceiptOutcomeV2_Succeeded /\
  arcs_result_digest x = arxs_result_digest r /\ arcs_result_ref x = arxs_result_ref r.
Proof. intros Ho. unfold result_and_receipt_agree. rewrite Ho. intros Hg. bool_simp. done. Qed.

Lemma bound_receipt a r :
  successful_model_result_has_bound_receipt a r = true ->
  exists x auth, acts_receipt a = Some x /\ acts_model_authorization a = Some auth /\
    arcs_authorization_ref x = Some (maas_authorization_ref auth).
Proof.
  unfold successful_model_result_has_bound_receipt. intros Hb. repeat case_match; try done.
  bool_simp. eauto.
Qed.

Lemma reuse_justified w q a c r :
  claimed w (radq_identity q) a c -> acls_result c = Some r ->
  arxs_outcome r = ActivityResultOutcomeV1_Succeeded ->
  result_is_well_formed c r = true -> result_and_receipt_agree r (acts_receipt a) = true ->
  (arqs_action_kind (acts_request a) = ActionKindV1_Model ->
   successful_model_result_has_bound_receipt a r = true) ->
  exists d, reuse q r = Ok d /\ justified w q d.
Proof.
  intros Hcl Hr Ho Hwf Hag Hm. destruct (well_formed_success c r Hwf Ho) as (digest & ref & Hd & Hf).
  eexists. unfold reuse. rewrite Hd, Hf. split; [reflexivity|].
  eapply justified_reuse; eauto using bound_receipt.
  intros x Hx. rewrite Hx in Hag. rewrite <- Hd, <- Hf. by apply successful_receipt_agrees.
Qed.

(** [refuse_unless] disposes of the refusals of the classifier. *)
Ltac refuse_unless :=
  repeat match goal with
  | |- exists d, (if ?b then Ok (blocked _ _) else _) = Ok d /\ _ =>
      destruct b eqn:?; [eexists; split; [reflexivity|apply justified_blocked]|]
  | |- exists d, match ?o with Some _ => _ | None => Ok (blocked _ _) end = Ok d /\ _ =>
      destruct o eqn:?; [|eexists; split; [reflexivity|apply justified_blocked]]
  end.

Lemma replayed_decision_justified w q :
  exists d, classify_replayed_governed_action_v1 w q = Ok d /\ justified w q d.
Proof.
  unfold classify_replayed_governed_action_v1. refuse_unless. bool_simp.
  rename a0 into action, a1 into claim. assert (Hcl : claimed w (radq_identity q) action claim) by by eapply claimed_intro.
  destruct (acls_result claim) as [r|] eqn:Hr.
  - refuse_unless. bool_simp. destruct (arxs_outcome r) eqn:Ho.
    + eapply reuse_justified; eauto. intros Hm. rewrite Hm in *.
      by destruct (successful_model_result_has_bound_receipt action r).
    + eexists. split; [reflexivity|]. eapply justified_failure; [done|]. left. by rewrite Hr, <- Ho.
    + eexists. split; [reflexivity|]. eapply justified_unknown; [done|]. left. by rewrite Hr, <- Ho.
  - destruct (acts_receipt action) as [x|] eqn:Hx; cbn [fmap option_fmap option_map].
    + destruct (arcs_outcome x) eqn:Ho; eexists; (split; [reflexivity|]).
      * apply justified_blocked.
      * eapply justified_failure; [done|]. right. eauto.
      * eapply justified_failure; [done|]. right. eauto.
      * eapply justified_unknown; [done|]. right. by rewrite Hx, <- Ho.
    + refuse_unless. bool_simp.
      destruct (query_observed q ltac:(done)) as [observed Hobs].
      destruct (claim_expiry w action claim ltac:(done)) as [expiry Hexp]. rewrite Hobs, Hexp.
      destruct (Z.leb_spec expiry observed); eexists; (split; [reflexivity|]).
      * by eapply justified_expired.
      * by eapply justified_wait.
Qed.

(** *** Decisions about settled actions *)

(** The part of a workflow that binds its actions to its dispatch. *)
Definition binding (w : WorkflowInstanceV1) :=
  (wi_run_id w, wi_workflow_id w, wi_workflow_revision w, wi_unit_id w, wi_attempt w,
   wi_dispatch w, wi_manifest_declarations w).

(** [by_binding E] rewrites with the fields that [E : binding _ = binding _] equates. *)
Ltac by_binding E :=
  let E' := fresh in pose proof E as E'; unfold binding in E';
  injection E' as ? ? ? ? ? ? ?;
  repeat match goal with H : ?f _ = ?f _ |- _ => rewrite H; clear H end; reflexivity.

Lemma binding_deadline w w' :
  binding w' = binding w -> effective_dispatch_deadline w' = effective_dispatch_deadline w.
Proof. intros E. unfold effective_dispatch_deadline. by_binding E. Qed.

Lemma binding_identity w w' q :
  binding w' = binding w -> workflow_identity_matches_query w' q = workflow_identity_matches_query w q.
Proof. intros E. unfold workflow_identity_matches_query. by_binding E. Qed.

Lemma binding_supported w w' :
  binding w' = binding w ->
  is_supported_governed_sealed_dispatch w' = is_supported_governed_sealed_dispatch w.
Proof.
  intros E. unfold is_supported_governed_sealed_dispatch, has_complete_v5_manifest_dispatch_witnesses,
    matches_dispatch_identity. by_binding E.
Qed.

Lemma binding_action w w' a q :
  binding w' = binding w -> action_identity_matches_query w' a q = action_identity_matches_query w a q.
Proof. intros E. unfold action_identity_matches_query. by_binding E. Qed.

Lemma binding_request w w' r :
  binding w' = binding w -> action_request_is_well_formed w' r = action_request_is_well_formed w r.
Proof. intros E. unfold action_request_is_well_formed. by_binding E. Qed.

Lemma binding_claim w w' a c :
  binding w' = binding w -> claim_is_well_formed w' a c = claim_is_well_formed w a c.
Proof. intros E. unfold claim_is_well_formed. rewrite (binding_deadline _ _ E). by_binding E. Qed.

Lemma binding_model w w' a c :
  binding w' = binding w ->
  model_action_evidence_is_well_formed w' a c = model_action_evidence_is_well_formed w a c.
Proof.
  intros E. unfold model_action_evidence_is_well_formed. rewrite (binding_deadline _ _ E). by_binding E.
Qed.

Lemma binding_heartbeats w w' c :
  binding w' = binding w -> heartbeats_are_well_formed w' c = heartbeats_are_well_formed w c.
Proof.
  intros E. unfold heartbeats_are_well_formed. by rewrite (binding_deadline _ _ E).
Qed.

(** With a receipt on record the decision reads only the binding and the action. *)
Lemma settled_decision w w' e e' a x i t t' :
  binding w' = binding w ->
  wi_action_evidence w = Some e -> wi_action_evidence w' = Some e' ->
  aes_action_evidence_version e' = aes_action_evidence_version e ->
  aes_actions e !! rai_action_id i = Some a -> aes_actions e' !! rai_action_id i = Some a ->
  acts_receipt a = Some x ->
  is_some (parse_rfc3339_utc t) = is_some (parse_rfc3339_utc t') -> forall v,
  classify_replayed_governed_action_v1 w'
    {| radq_schema_version := v; radq_identity := i; radq_observed_at := t' |} =
  classify_replayed_governed_action_v1 w
    {| radq_schema_version := v; radq_identity := i; radq_observed_at := t |}.
Proof.
  intros E He He' Hv Ha Ha' Hx Ht v. unfold classify_replayed_governed_action_v1, query_is_well_formed.
  cbn [radq_schema_version radq_identity radq_observed_at]. rewrite <- Ht, He, He', Hv, Ha, Ha'.
  rewrite (binding_identity _ _ _ E), (binding_supported _ _ E), (binding_action _ _ _ _ E),
    (binding_request _ _ _ E).
  destruct (acts_activity_claim a) as [c|]; [|reflexivity].
  rewrite (binding_claim _ _ _ _ E), (binding_model _ _ _ _ E), (binding_heartbeats _ _ _ E), Hx.
  reflexivity.
Qed.

Lemma evolves_binding w w' : evolves w w' -> binding w' = binding w.
Proof.
  intros Hev. unfold binding. pose proof (ev_identity _ _ Hev) as [= -> -> -> -> ->].
  pose proof (ev_authority _ _ Hev) as [= _ -> _]. by rewrite (ev_dispatch _ _ Hev).
Qed.
End Decisions.

(** ** Opening a snapshot *)
Lemma guard_false {A E} (b : bool) (e : E) (k : Result A E) a :
  (if b then Err e else k) = Ok a -> b = false /\ k = Ok a.
Proof. by destruct b. Qed.

Section Opening.
Context `{Host, Canonicalizer, Crypto, RowDecoder}.

(** The projection recovery builds from the verified events. *)
Definition replayed (authorities : TrustedReplayAuthorities) (events : list VerifiedEvent)
    : ReplayState :=
  admit_all authorities (authorized_governed_runs events authorities) default_replay_state events.

Lemma replay_to_end_replayed events authorities :
  exists engine', replay_to_end (S (length events)) (open_engine events authorities) = Some engine' /\
    en_events engine' = events /\ en_state engine' = replayed authorities events.
Proof. eexists. split; [apply replay_to_end_finished; cbn; lia|]. done. Qed.

Lemma reject_issues_ok issues :
  reject_governed_replay_issues issues = Ok tt <->
  Forall (fun issue => is_governed_issue issue = false) issues.
Proof.
  unfold reject_governed_replay_issues. rewrite Forall_forall.
  destruct (List.find _ _) as [issue|] eqn:Hf; split; try done.
  - intros Hall. apply find_some in Hf as [Hin Hg]. rewrite Hall in Hg; [done|by apply list_elem_of_In].
  - intros _ issue Hin. by eapply find_none, list_elem_of_In.
Qed.

(** The references of the integrity report resolve in the tape. *)
Lemma covered_references events run_id kernel report :
  tape_covered events run_id kernel report ->
  exists c t, c ∈ events /\ t ∈ events /\
    uuid_to_string (ev_id (ve_event c)) = tir_checkpoint_event_ref report /\
    uuid_to_string (ev_id (ve_event t)) = tir_through_event_ref report.
Proof.
  intros (_ & _ & _ & facts & c & p & s & through & Hchain & Hlast & _ & ->).
  assert (Hcert : c ∈ checkpoints_of events /\
            exists t, t ∈ (signed_ordinary events) /\ event_id t.1 = tc_through_event_id p).
  { clear -Hchain Hlast. induction Hchain as [|n previous c' p' s' through' rest facts Hc _ Hrest IH];
      [done|]. destruct facts as [|f facts].
    - injection Hlast as -> -> -> ->. split; [left|].
      destruct (cert_through _ _ _ _ _ _ _ _ _ Hc) as (t & Ht & Hid).
      exists t. split; [by eapply list_elem_of_lookup_2|done].
    - destruct (IH Hlast) as [Hin Ht]. split; [by right|done]. }
  destruct Hcert as [Hc (t & Ht & Hid)]. apply list_elem_of_filter in Hc as [_ Hc].
  apply elem_signed_ordinary in Ht. exists c, t.1.
  split_and!; [done|done|done|]. cbn. by rewrite <- Hid.
Qed.

Lemma anchor_resolves events run_id kernel report :
  tape_covered events run_id kernel report ->
  exists anchor, from_verified_events events report = Ok anchor.
Proof.
  intros Hcov. destruct (covered_references _ _ _ _ Hcov) as (c & t & Hc & Ht & Hcr & Htr).
  assert (Hfind : forall v r, v ∈ events -> uuid_to_string (ev_id (ve_event v)) = r ->
            exists x, List.find (fun verified =>
              uuid_to_string (ev_id (ve_event verified)) == r) events = Some x).
  { intros v r Hv Hr. destruct (List.find _ _) as [x|] eqn:Hf; [by eexists|].
    apply list_elem_of_In in Hv. eapply find_none in Hf; [|exact Hv].
    by apply bool_decide_eq_false in Hf. }
  destruct (Hfind _ _ Hc Hcr) as [x Hx], (Hfind _ _ Ht Htr) as [y Hy].
  unfold from_verified_events. rewrite Hx, Hy.
  destruct events as [|v events]; [by apply not_elem_of_nil in Hc|].
  destruct (last (v :: events)) as [z|] eqn:Hl; [by eexists|]. by apply last_None in Hl.
Qed.

(** What a successful open has established. *)
Record opened (run_id : string) (rows : list StoredVerifiedRow)
    (authorities : TrustedReplayAuthorities) (pinned : ActorKeyRef) (max_events : Z)
    (events : list VerifiedEvent) (s : TrustedGovernedRecoverySnapshot) : Prop := {
  op_kernel : permits authorities TrustSpineSignerRole_Kernel pinned = true;
  op_read : all_with_verification_limit rows (Engine.tra_trusted_keys authorities)
              (Some max_events) = Ok events;
  op_clean : Forall (fun issue => is_governed_issue issue = false)
               (st_issues (replayed authorities events));
  op_covered : tape_covered events run_id pinned (tgs_tape_integrity s);
  op_workflows : exists anchor,
    from_verified_events events (tgs_tape_integrity s) = Ok anchor /\
    from_verified_replay_with_source_anchor run_id pinned (tgs_tape_integrity s) (Some anchor)
      (btree_list (st_workflow_instances (replayed authorities events))).*2 = Ok s
}.

Lemma index_workflow_frame s w s' :
  index_workflow s w = Ok s' ->
  tgs_tape_integrity s' = tgs_tape_integrity s /\ tgs_run_id s' = tgs_run_id s.
Proof. unfold index_workflow. intros Hi. guards; subst; done. Qed.

Lemma index_workflows_frame s ws s' :
  index_workflows s ws = Ok s' ->
  tgs_tape_integrity s' = tgs_tape_integrity s /\ tgs_run_id s' = tgs_run_id s.
Proof.
  revert s. induction ws as [|w ws IH]; intros s Hi; [by apply Ok_inj in Hi as ->|].
  apply bind_ok in Hi as (s1 & Hw & Hi). apply index_workflow_frame in Hw as [<- <-]. by apply IH.
Qed.

Lemma from_replay_integrity run_id pinned report anchor ws s :
  from_verified_replay_with_source_anchor run_id pinned report anchor ws = Ok s ->
  tgs_tape_integrity s = report.
Proof.
  unfold from_verified_replay_with_source_anchor. intros (s1 & Hi & Hf)%bind_ok.
  apply guard_false in Hf as [_ Hf]. apply Ok_inj in Hf as ->.
  apply index_workflows_frame in Hi as [Hi _]. exact Hi.
Qed.

Lemma open_opened run_id rows authorities pinned max_events s :
  open_with_event_limit run_id rows authorities pinned max_events = Ok s ->
  exists events, opened run_id rows authorities pinned max_events events s.
Proof.
  unfold open_with_event_limit. intros Ho.
  apply guard_false in Ho as [Hk Ho]. apply bind_ok in Ho as (events & Hread & Ho).
  apply map_err_ok in Hread. exists events.
  destruct (replay_to_end_replayed events authorities) as (engine' & Hr & Hev & Hst).
  rewrite Hr, Hev, Hst in Ho. apply bind_ok in Ho as ([] & Hissues & Ho).
  apply map_err_ok, reject_issues_ok in Hissues.
  destruct (verify_full_tape_integrity_v1 _ _ _) as [integrity|] eqn:Hv; [|done].
  apply bind_ok in Ho as (report & Hi & Ho). apply map_err_ok in Hi. subst integrity.
  apply bind_ok in Ho as (anchor & Ha & Ho). apply map_err_ok in Ha, Ho.
  pose proof (from_replay_integrity _ _ _ _ _ _ Ho) as <-.
  apply negb_false_iff in Hk. apply verify_sound in Hv. by split; eauto.
Qed.
End Opening.
