(* ===== verification/RecoveryIndex.v ===== *)
(** * Identities in a recovery snapshot

    On a strictly ordered tape no two workflows share the event that dispatched
    them, decided their promotion or requested its approval.  So the indexes of a
    snapshot never conflict, and each lookup answers exactly the workflow that
    records the identity. *)
From S2P Require Import Prelude RustStr Host LedgerPayloads TrustSpine Digests Events WorkflowGraph ReplayState Tape TapeSpec ReducerCore Reducer Engine ActivityDecision TrustedRecovery WorkflowSpec WorkflowRefine WorkflowReplay WorkflowEvolution WorkflowInvariants WorkflowEvidence EngineSpec RecoverySpec.
From stdpp Require Import base list gmap strings relations sorting.

#[local] Open Scope string_scope.
#[local] Open Scope list_scope.
#[local] Open Scope Z_scope.

(** ** Event ids on record *)

Definition dispatch_id (w : WorkflowInstanceV1) : option EventId := Some (wd_event_id (wi_dispatch w)).
Definition decision_id (w : WorkflowInstanceV1) : option EventId :=
  (fun p => pds_event_id (ps_decision p)) <$> wi_promotion w.
Definition approval_id (w : WorkflowInstanceV1) : option EventId :=
  pars_event_id <$> wi_promotion_approval w.

(** The ids that [id_of] selects are at most [bound] and belong to one workflow
    each. *)
Record ids_ok (id_of : WorkflowInstanceV1 -> option EventId) (bound : EventId)
    (m : gmap string WorkflowInstanceV1) : Prop := {
  ids_below : forall k w i, m !! k = Some w -> id_of w = Some i -> i <= bound;
  ids_unique : forall k k' w w' i, m !! k = Some w -> m !! k' = Some w' ->
    id_of w = Some i -> id_of w' = Some i -> k = k'
}.

Lemma ids_ok_mono id_of bound bound' m : ids_ok id_of bound m -> bound <= bound' -> ids_ok id_of bound' m.
Proof. intros [Hb Hu] Hle. split; [|exact Hu]. intros k w i Hk Hi. specialize (Hb k w i Hk Hi). lia. Qed.

Lemma ids_ok_empty id_of bound : ids_ok id_of bound ∅.
Proof. by split. Qed.

(** An entry may take the id of the next event. *)
Lemma ids_ok_insert id_of bound i m k w' :
  ids_ok id_of bound m -> bound < i ->
  id_of w' = None \/ id_of w' = Some i \/ (exists w, m !! k = Some w /\ id_of w' = id_of w) ->
  ids_ok id_of i (<[k := w']> m).
Proof.
  intros [Hb Hu] Hlt Hw.
  assert (Hold : forall j, id_of w' = Some j -> j = i \/ exists w, m !! k = Some w /\ id_of w = Some j).
  { intros j Hj. destruct Hw as [Hw|[Hw|(w & Hk & Hw)]]; [congruence|left; congruence|].
    right. exists w. by rewrite <- Hw. }
  split.
  - intros k1 w1 j Hk1 Hj. apply lookup_insert_Some in Hk1 as [[<- <-]|[_ Hk1]].
    + destruct (Hold j Hj) as [->|(w & Hk & Hwj)]; [lia|]. specialize (Hb _ _ _ Hk Hwj). lia.
    + specialize (Hb _ _ _ Hk1 Hj). lia.
  - intros k1 k2 w1 w2 j Hk1 Hk2 H1 H2.
    apply lookup_insert_Some in Hk1 as [[<- <-]|[Hne1 Hk1]];
      apply lookup_insert_Some in Hk2 as [[<- <-]|[Hne2 Hk2]]; [done|..|by eapply Hu].
    + destruct (Hold j H1) as [->|(w & Hk & Hwj)]; [|by eapply Hu].
      specialize (Hb _ _ _ Hk2 H2). lia.
    + destruct (Hold j H2) as [->|(w & Hk & Hwj)]; [|by eapply Hu].
      specialize (Hb _ _ _ Hk1 H1). lia.
Qed.

Definition recorded_ids_ok (bound : EventId) (m : gmap string WorkflowInstanceV1) : Prop :=
  ids_ok dispatch_id bound m /\ ids_ok decision_id bound m /\ ids_ok approval_id bound m.

Section Ids.
Context `{Host, Canonicalizer}.

Lemma wf_step_decision_id (l : Label) m k w w' :
  wf_step m k w w' -> decision_id w' = decision_id w \/ decision_id w' = Some (ev_id lbl_event).
Proof.
  destruct 1; try (by left); unfold decision_id; cbn;
    try match goal with E : wi_promotion _ = Some _ |- _ => rewrite E; by left end.
  all: right; match goal with E : decided_by_event _ |- _ =>
    destruct E as (? & ? & ? & _) end; congruence.
Qed.

Lemma wf_step_approval_id (l : Label) m k w w' :
  wf_step m k w w' -> approval_id w' = approval_id w \/ approval_id w' = Some (ev_id lbl_event).
Proof.
  destruct 1; try (by left). right. unfold approval_id. cbn. f_equal. assumption.
Qed.

Lemma projection_step_ids (l : Label) gs m m' bound :
  projection_step gs m m' -> recorded_ids_ok bound m -> bound < ev_id lbl_event ->
  recorded_ids_ok (ev_id lbl_event) m'.
Proof.
  intros Hs (Hd & Hp & Ha) Hlt. destruct Hs as [|w Hk Hf _ _ Hid|k w w' Hk Hw].
  - split_and!; (eapply ids_ok_mono; [eassumption|lia]).
  - split_and!; (eapply ids_ok_insert; [eassumption|done|]).
    + right. left. unfold dispatch_id. f_equal. exact Hid.
    + left. unfold decision_id. by rewrite (fd_promotion w Hf).
    + left. unfold approval_id. by rewrite (fd_approval w Hf).
  - split_and!; (eapply ids_ok_insert; [eassumption|done|]).
    + right. right. exists w. split; [done|]. unfold dispatch_id.
      by rewrite (ev_dispatch _ _ (wf_step_evolves _ _ _ _ Hw)).
    + destruct (wf_step_decision_id _ _ _ _ _ Hw) as [Heq|Heq]; [|by right; left].
      right. right. by exists w.
    + destruct (wf_step_approval_id _ _ _ _ _ Hw) as [Heq|Heq]; [|by right; left].
      right. right. by exists w.
Qed.

Lemma admit_all_ids authorities predeclared st events bound :
  view_coherent st -> StronglySorted Z.lt (event_id <$> events) ->
  Forall (fun v => bound < event_id v) events ->
  recorded_ids_ok bound (st_workflow_instances st) ->
  exists bound', recorded_ids_ok bound'
    (st_workflow_instances (admit_all authorities predeclared st events)).
Proof.
  revert st bound. induction events as [|v events IH]; intros st bound Hst Hs Hb Hok; [by exists bound|].
  apply Forall_cons in Hb as [Hv Hb]. cbn [fmap list_fmap] in Hs.
  apply StronglySorted_inv in Hs as [Hs Hlt].
  apply (IH (admit_event authorities predeclared st v) (event_id v)).
  - by apply admit_event_coherent.
  - done.
  - rewrite Forall_fmap in Hlt. exact Hlt.
  - destruct (admit_event_refines authorities predeclared st v Hst) as [[i ->]|[Hstep _]].
    + destruct Hok as (? & ? & ?). split_and!; (eapply ids_ok_mono; [eassumption|lia]).
    + apply spine_step_projection in Hstep as [Hstep _]. cbn in Hstep.
      eapply (projection_step_ids {| lbl_event := ve_event v |}) in Hstep; [|done|done]. exact Hstep.
Qed.

Lemma replayed_ids authorities events :
  StronglySorted Z.lt (event_id <$> events) ->
  exists bound, recorded_ids_ok bound (st_workflow_instances (replayed authorities events)).
Proof.
  intros Hs. destruct events as [|v events].
  - exists 0. split_and!; apply ids_ok_empty.
  - apply (admit_all_ids _ _ default_replay_state _ (event_id v - 1)); [apply default_coherent|done| |].
    + constructor; [lia|]. cbn in Hs. apply StronglySorted_inv in Hs as [_ Hlt].
      rewrite Forall_fmap in Hlt. eapply Forall_impl; [exact Hlt|]. cbn. lia.
    + split_and!; apply ids_ok_empty.
Qed.
End Ids.

(** ** Keys of the indexes *)
Section Keys.
Context `{Host}.

Definition ref_of (w : WorkflowInstanceV1) : string := uuid_to_string (wd_event_id (wi_dispatch w)).
Definition ref_key (w : WorkflowInstanceV1) : option string := uuid_to_string <$> dispatch_id w.
Definition candidate_key (w : WorkflowInstanceV1) : option string :=
  ca_candidate_digest <$> wi_candidate w.
Definition promotion_key (w : WorkflowInstanceV1) : option PromotionIdentity :=
  (fun p => {| pid_candidate_digest := pds_candidate_digest (ps_decision p);
               pid_idempotency_key := pds_idempotency_key (ps_decision p) |}) <$> wi_promotion w.
Definition decision_key (w : WorkflowInstanceV1) : option string := uuid_to_string <$> decision_id w.
Definition approval_key (w : WorkflowInstanceV1) : option string := uuid_to_string <$> approval_id w.

(** The index [m] finds the workflow of [ws] that has the key. *)
Definition indexes {K} `{Countable K} (key : WorkflowInstanceV1 -> option K)
    (ws : list WorkflowInstanceV1) (m : gmap K string) : Prop :=
  forall k r, m !! k = Some r <-> exists w, w ∈ ws /\ key w = Some k /\ ref_of w = r.

Record indexed (ws : list WorkflowInstanceV1) (s : TrustedGovernedRecoverySnapshot) : Prop := {
  ix_workflows : forall r w,
    tgs_workflows_by_dispatch_event_ref s !! r = Some w <-> w ∈ ws /\ ref_of w = r;
  ix_candidates : indexes candidate_key ws (tgs_candidate_dispatch_index s);
  ix_promotions : indexes promotion_key ws (tgs_promotion_dispatch_index s);
  ix_decisions : indexes decision_key ws (tgs_promotion_decision_dispatch_index s);
  ix_approvals : indexes approval_key ws (tgs_promotion_approval_dispatch_index s)
}.

(** A promotion names the candidate of its workflow. *)
Definition promotion_bound (w : WorkflowInstanceV1) : Prop :=
  forall p, wi_promotion w = Some p ->
    candidate_key w = Some (pds_candidate_digest (ps_decision p)).

Record indexable (ws : list WorkflowInstanceV1) : Prop := {
  ia_refs : NoDup (omap ref_key ws);
  ia_candidates : NoDup (omap candidate_key ws);
  ia_decisions : NoDup (omap decision_key ws);
  ia_approvals : NoDup (omap approval_key ws);
  ia_bound : Forall promotion_bound ws
}.

Lemma omap_snoc {A B} (f : A -> option B) l a b :
  NoDup (omap f (l ++ [a])) -> f a = Some b -> forall a', a' ∈ l -> f a' <> Some b.
Proof.
  rewrite omap_app. cbn. intros Hnd Ha a' Hin Ha'. rewrite Ha in Hnd.
  apply NoDup_app in Hnd as (_ & Hdisj & _). apply (Hdisj b); [|by left].
  apply list_elem_of_omap. eauto.
Qed.

Lemma omap_prefix {A B} (f : A -> option B) l l' : NoDup (omap f (l ++ l')) -> NoDup (omap f l).
Proof. rewrite omap_app. by intros (? & _)%NoDup_app. Qed.

Lemma indexes_skip {K} `{Countable K} (key : WorkflowInstanceV1 -> option K) ws m w :
  indexes key ws m -> key w = None -> indexes key (ws ++ [w]) m.
Proof.
  intros Hix Hw k r. rewrite (Hix k r). split; intros (x & Hx & Hk & Hr).
  - exists x. rewrite elem_of_app. auto.
  - apply elem_of_app in Hx as [Hx|Hx%list_elem_of_singleton]; [by exists x|]. subst. congruence.
Qed.

(** A key no earlier workflow has is added. *)
Lemma indexes_insert {K} `{Countable K} (key : WorkflowInstanceV1 -> option K) ws m w k conflict :
  indexes key ws m -> key w = Some k -> (forall x, x ∈ ws -> key x <> Some k) ->
  exists m', insert_new m k (ref_of w) conflict = Ok m' /\ indexes key (ws ++ [w]) m'.
Proof.
  intros Hix Hk Hnew. unfold insert_new. destruct (m !! k) as [r|] eqn:Hm.
  { apply Hix in Hm as (x & Hx & Hxk & _). by destruct (Hnew x Hx). }
  eexists. split; [reflexivity|]. intros k' r'. rewrite lookup_insert_Some, (Hix k' r'). split.
  - intros [[<- <-]|(Hne & x & Hx & Hxk & Hr)].
    + exists w. rewrite elem_of_app, list_elem_of_singleton. auto.
    + exists x. rewrite elem_of_app. auto.
  - intros (x & Hx & Hxk & Hr). apply elem_of_app in Hx as [Hx|Hx%list_elem_of_singleton].
    + right. split; [|by eauto]. intros <-. by apply (Hnew x Hx).
    + subst. left. split; congruence.
Qed.

(** The key of a workflow, or none, joins the index. *)
Lemma indexes_add {K A} `{Countable K} (key : WorkflowInstanceV1 -> option K) ws m w
    (o : option A) (f : A -> K) conflict :
  indexes key ws m -> key w = f <$> o -> NoDup (omap key (ws ++ [w])) ->
  exists m', match o with Some a => insert_new m (f a) (ref_of w) (conflict a) | None => Ok m end
               = Ok m' /\ indexes key (ws ++ [w]) m'.
Proof.
  intros Hix Hk Hnd. destruct o as [a|]; cbn in Hk.
  - apply indexes_insert; [done..|]. intros x Hx. by apply (omap_snoc key ws w).
  - exists m. split; [done|]. by apply indexes_skip.
Qed.

Lemma promotion_key_candidate w k :
  promotion_bound w -> promotion_key w = Some k -> candidate_key w = Some (pid_candidate_digest k).
Proof.
  unfold promotion_key. intros Hb Hk. destruct (wi_promotion w) as [p|] eqn:Hp; [|done].
  injection Hk as <-. by apply Hb.
Qed.

(** Promotions of different candidates have different identities. *)
Lemma promotion_keys_nodup ws : indexable ws -> NoDup (omap promotion_key ws).
Proof.
  intros [_ Hc _ _ Hb]. induction ws as [|w ws IH]; [constructor|].
  apply Forall_cons in Hb as [Hw Hb]. cbn in Hc |- *.
  destruct (promotion_key w) as [k|] eqn:Hk.
  - rewrite (promotion_key_candidate w k Hw Hk) in Hc. apply NoDup_cons in Hc as [Hn Hc].
    constructor; [|by apply IH]. intros (x & Hx & Hxk)%list_elem_of_omap. apply Hn, list_elem_of_omap.
    exists x. split; [done|]. apply promotion_key_candidate; [|done]. by eapply Forall_forall in Hb.
  - apply IH; [|done]. destruct (candidate_key w); [by apply NoDup_cons in Hc as [_ Hc]|done].
Qed.

Lemma index_promotion_indexed ws s w :
  indexes promotion_key ws (tgs_promotion_dispatch_index s) ->
  indexes decision_key ws (tgs_promotion_decision_dispatch_index s) -> indexable (ws ++ [w]) ->
  exists mp md, index_promotion s w (ref_of w) = Ok (mp, md) /\
    indexes promotion_key (ws ++ [w]) mp /\ indexes decision_key (ws ++ [w]) md.
Proof.
  intros Hp Hd Hia. pose proof (promotion_keys_nodup _ Hia) as Hpn.
  destruct Hia as [_ _ Hdn _ Hb]. apply Forall_app in Hb as [_ Hb]. apply Forall_inv in Hb.
  unfold index_promotion. destruct (wi_promotion w) as [p|] eqn:Hpw.
  - pose proof (Hb p Hpw) as Hck. unfold candidate_key in Hck.
    destruct (wi_candidate w) as [c|]; [|done]. injection Hck as Hck. cbn zeta.
    rewrite Hck, bool_decide_true by done. cbn [negb].
    assert (promotion_key w = Some {| pid_candidate_digest := pds_candidate_digest (ps_decision p);
      pid_idempotency_key := pds_idempotency_key (ps_decision p) |}) as Hpk
      by (unfold promotion_key; by rewrite Hpw).
    assert (decision_key w = Some (uuid_to_string (pds_event_id (ps_decision p)))) as Hdk
      by (unfold decision_key, decision_id; by rewrite Hpw).
    destruct (indexes_insert promotion_key ws _ w _
      (fun first => TrustedGovernedRecoveryError_PromotionIdentityConflict
        (pds_candidate_digest (ps_decision p)) (pds_idempotency_key (ps_decision p)) first
        (ref_of w)) Hp Hpk) as (mp & -> & Hp').
    { by apply (omap_snoc _ _ _ _ Hpn). }
    cbn [result_bind].
    destruct (indexes_insert decision_key ws _ w _
      (fun first => TrustedGovernedRecoveryError_PromotionIdentityConflict
        (pds_candidate_digest (ps_decision p)) (pds_idempotency_key (ps_decision p)) first
        (ref_of w)) Hd Hdk) as (md & -> & Hd').
    { by apply (omap_snoc _ _ _ _ Hdn). }
    by exists mp, md.
  - eexists _, _. split; [done|]. split; apply indexes_skip; try done;
      unfold promotion_key, decision_key, decision_id; by rewrite Hpw.
Qed.

Lemma index_workflow_indexed ws s w :
  indexed ws s -> indexable (ws ++ [w]) ->
  exists s', index_workflow s w = Ok s' /\ indexed (ws ++ [w]) s'.
Proof.
  intros [Hw Hc Hp Hd Ha] Hia.
  destruct (index_promotion_indexed ws s w Hp Hd Hia) as (mp & md & Hmp & Hp' & Hd').
  destruct Hia as [Hrn Hcn _ Han _].
  destruct (indexes_add candidate_key ws _ w (wi_candidate w) ca_candidate_digest
    (fun c first => TrustedGovernedRecoveryError_CandidateIdentityConflict
       (ca_candidate_digest c) first (ref_of w)) Hc eq_refl Hcn) as (mc & Hmc & Hc').
  destruct (indexes_add approval_key ws _ w (wi_promotion_approval w)
    (fun a => uuid_to_string (pars_event_id a))
    (fun a first => TrustedGovernedRecoveryError_PromotionApprovalIdentityConflict
       (uuid_to_string (pars_event_id a)) first (ref_of w)) Ha) as (ma & Hma & Ha'); [|done|].
  { unfold approval_key, approval_id. by destruct (wi_promotion_approval w). }
  eexists. split.
  - unfold index_workflow. fold (ref_of w). rewrite Hmc. cbn [result_bind]. rewrite Hmp.
    cbn [result_bind]. rewrite Hma. reflexivity.
  - split; cbn; [|done..]. intros r x. rewrite lookup_insert_Some, (Hw r x), elem_of_app,
      list_elem_of_singleton. split.
    + intros [[<- <-]|(_ & Hx & Hr)]; auto.
    + intros [[Hx| ->] Hr]; [right|left; auto]. split; [|done]. intros <-.
      eapply (omap_snoc ref_key ws w (ref_of w) Hrn); [done|exact Hx|]. unfold ref_key. cbn.
      unfold ref_of in *. congruence.
Qed.

Lemma indexable_prefix ws ws' : indexable (ws ++ ws') -> indexable ws.
Proof.
  intros [Hr Hc Hd Ha Hb]. apply Forall_app in Hb as [Hb _]. split; [..|done]; by eapply omap_prefix.
Qed.

Lemma index_workflows_indexed ws s ws' :
  indexed ws s -> indexable (ws ++ ws') ->
  exists s', index_workflows s ws' = Ok s' /\ indexed (ws ++ ws') s'.
Proof.
  revert ws s. induction ws' as [|w ws' IH]; intros ws s Hs Hia.
  - exists s. by rewrite app_nil_r.
  - rewrite (assoc_L (++) ws [w] ws' : ws ++ w :: ws' = (ws ++ [w]) ++ ws') in *.
    destruct (index_workflow_indexed ws s w Hs) as (s1 & Hw & Hs1); [by eapply indexable_prefix|].
    destruct (IH _ _ Hs1 Hia) as (s' & Hi & Hs'). exists s'. split; [|done].
    cbn. by rewrite Hw.
Qed.

Lemma indexed_empty run_id pinned report anchor :
  indexed [] {| tgs_run_id := run_id; tgs_pinned_kernel_signer := pinned;
    tgs_tape_integrity := report; tgs_snapshot_cache_source_anchor := anchor;
    tgs_workflows_by_dispatch_event_ref := ∅; tgs_candidate_dispatch_index := ∅;
    tgs_promotion_dispatch_index := ∅; tgs_promotion_decision_dispatch_index := ∅;
    tgs_promotion_approval_dispatch_index := ∅ |}.
Proof. split; intros ??; cbn; set_solver. Qed.

(** ** The workflows of a map *)

Lemma omap_filter {A B} (f : A -> option B) (p : A -> bool) l :
  omap f (List.filter p l) = omap (fun a => if p a then f a else None) l.
Proof. induction l as [|a l IH]; [done|]. cbn. destruct (p a); cbn; by rewrite IH. Qed.

(** A key that at most one entry has is listed once. *)
Lemma NoDup_omap_entries {K V A} (f : V -> option A) (l : list (K * V)) :
  NoDup l.*1 ->
  (forall k k' v v' a, (k, v) ∈ l -> (k', v') ∈ l -> f v = Some a -> f v' = Some a -> k = k') ->
  NoDup (omap f l.*2).
Proof.
  induction l as [|[k v] l IH]; intros Hnd Hu; [constructor|].
  cbn in Hnd |- *. apply NoDup_cons in Hnd as [Hk Hnd].
  assert (NoDup (omap f l.*2)) as Hl.
  { apply IH; [done|]. intros k1 k2 v1 v2 a H1 H2. apply Hu; by right. }
  destruct (f v) as [a|] eqn:Ha; [|done]. constructor; [|done].
  intros (v' & Hv' & Ha')%list_elem_of_omap. apply list_elem_of_fmap in Hv' as ([k' v1] & -> & Hin).
  apply Hk, list_elem_of_fmap. exists (k', v1). split; [|done]. cbn.
  eapply (Hu k k'); [by left|by right|done|done].
Qed.

Lemma NoDup_omap_btree {V A} (f : V -> option A) (p : V -> bool) (m : gmap string V) :
  (forall k k' v v' a, m !! k = Some v -> m !! k' = Some v' ->
     f v = Some a -> f v' = Some a -> k = k') ->
  NoDup (omap f (List.filter p (btree_list m).*2)).
Proof.
  intros Hu. rewrite omap_filter. apply NoDup_omap_entries.
  - rewrite btree_list_permutation. apply NoDup_fst_map_to_list.
  - intros k k' v v' a Hk%elem_of_btree_list Hk'%elem_of_btree_list.
    destruct (p v), (p v'); try done. by apply Hu.
Qed.

Lemma elem_of_trusted (p : WorkflowInstanceV1 -> bool) (m : gmap string WorkflowInstanceV1) w :
  w ∈ List.filter p (btree_list m).*2 <-> p w = true /\ exists k, m !! k = Some w.
Proof.
  rewrite list_elem_of_In, filter_In, <- list_elem_of_In, list_elem_of_fmap. split.
  - intros [([k v] & -> & Hin%elem_of_btree_list) Hp]. eauto.
  - intros [Hp [k Hk]]. split; [|done]. exists (k, w). split; [done|]. by apply elem_of_btree_list.
Qed.
End Keys.

(** ** The indexes of a replayed tape *)
Section Replayed.
Context `{Host, Canonicalizer, !Inj (=) (=) uuid_to_string}.

Lemma printed_unique (id_of : WorkflowInstanceV1 -> option EventId) bound m k k' w w' s :
  ids_ok id_of bound m -> m !! k = Some w -> m !! k' = Some w' ->
  uuid_to_string <$> id_of w = Some s -> uuid_to_string <$> id_of w' = Some s -> k = k'.
Proof.
  intros [_ Hu] Hk Hk' (i & Hi & ->)%fmap_Some (j & Hj & Hij)%fmap_Some.
  apply (inj uuid_to_string) in Hij as ->. by eapply Hu.
Qed.

Lemma replayed_machine authorities events :
  rtc any_step (∅, ∅) (spine_of (replayed authorities events)).
Proof.
  apply (admit_all_machine authorities _ default_replay_state events), default_coherent.
Qed.

Lemma replayed_invariant (P : gmap string WorkflowInstanceV1 -> Prop) authorities events :
  (forall (l : Label) gs m m', projection_step gs m m' -> P m -> P m') -> P ∅ ->
  P (st_workflow_instances (replayed authorities events)).
Proof.
  intros Hstep Hempty. exact (spine_invariant P _ _ Hstep (replayed_machine authorities events) Hempty).
Qed.

Lemma replayed_wf_ok authorities events k w :
  st_workflow_instances (replayed authorities events) !! k = Some w -> wf_ok w.
Proof.
  intros Hk. assert (projection_ok (st_workflow_instances (replayed authorities events))) as Hok.
  { apply replayed_invariant; [intros l gs m m'; apply projection_step_ok|apply projection_ok_empty]. }
  by destruct (Hok k w Hk).
Qed.

Lemma replayed_indexable authorities events p :
  StronglySorted Z.lt (event_id <$> events) ->
  indexable (List.filter p (btree_list (st_workflow_instances (replayed authorities events))).*2).
Proof.
  intros Hs. destruct (replayed_ids authorities events Hs) as (bound & Hr & Hd & Ha).
  assert (unique_candidates (st_workflow_instances (replayed authorities events))) as Hc.
  { apply replayed_invariant; [intros l gs m m'; apply step_unique_candidates|]. intros ???????. set_solver. }
  split.
  - apply NoDup_omap_btree. intros k k' v v' a. by eapply printed_unique.
  - apply NoDup_omap_btree. intros k k' v v' a Hk Hk' (c & Hv & ->)%fmap_Some (c' & Hv' & Heq)%fmap_Some.
    eapply Hc; [exact Hk|done|exact Hk'|done|]. by left.
  - apply NoDup_omap_btree. intros k k' v v' a. by eapply printed_unique.
  - apply NoDup_omap_btree. intros k k' v v' a. by eapply printed_unique.
  - apply Forall_forall. intros w (_ & k & Hk)%elem_of_trusted x Hx.
    destruct (ok_decision w (replayed_wf_ok _ _ _ _ Hk) x Hx) as [(c & Hc' & Hb) _].
    unfold candidate_key. rewrite Hc'. cbn. f_equal. symmetry. apply Hb.
Qed.
End Replayed.
