(* ===== verification/RecoveryTheorems.v ===== *)
(** * Recovery theorems

    Opening a snapshot succeeds exactly on a completely verified tape with a
    governed workflow to recover; its lookups are exact; what it serves is
    certified; and the work it re-emits is exactly the unfinished work. *)
From S2P Require Import Prelude RustStr Host LedgerPayloads TrustSpine Digests Events DemoHost WorkflowGraph ReplayState Tape TapeSpec ReducerCore Reducer Engine WorkflowSpec WorkflowRefine WorkflowReplay WorkflowEvolution WorkflowInvariants WorkflowEvidence EngineSpec WorkflowTheorems ActivityDecision TrustedRecovery RecoverySpec RecoveryIndex SampleRun.
From stdpp Require Import base list gmap strings relations sorting.

#[local] Open Scope string_scope.
#[local] Open Scope list_scope.
#[local] Open Scope Z_scope.

(** ** Opening *)
Section Opening.
Context `{Host, Canonicalizer, Crypto, RowDecoder}.

(** The tape is clean and covered by the checkpoint chain of the pinned kernel. *)
Record verified (run_id : string) (authorities : TrustedReplayAuthorities) (pinned : ActorKeyRef)
    (events : list VerifiedEvent) (report : TapeIntegrityReportV1)
    (anchor : TrustedReplaySourceAnchorV1) : Prop := {
  vf_clean : Forall (fun issue => is_governed_issue issue = false)
               (st_issues (replayed authorities events));
  vf_covered : tape_covered events run_id pinned report;
  vf_anchor : from_verified_events events report = Ok anchor
}.

(** The workflows a snapshot of the tape serves. *)
Definition exposed (authorities : TrustedReplayAuthorities) (events : list VerifiedEvent)
    (anchor : TrustedReplaySourceAnchorV1) (w : WorkflowInstanceV1) : Prop :=
  is_trusted_governed_recovery_workflow w (Some anchor) = true /\
  exists k, st_workflow_instances (replayed authorities events) !! k = Some w.

Definition is_conflict (e : TrustedGovernedRecoveryError) : bool :=
  match e with
  | TrustedGovernedRecoveryError_CandidateIdentityConflict _ _ _
  | TrustedGovernedRecoveryError_PromotionIdentityConflict _ _ _ _
  | TrustedGovernedRecoveryError_PromotionApprovalIdentityConflict _ _ _
  | TrustedGovernedRecoveryError_PromotionCandidateConflict _ => true
  | _ => false
  end.

Lemma map_is_empty_true {A} (m : gmap string A) : map_is_empty m = true <-> m = ∅.
Proof.
  unfold map_is_empty. destruct (map_to_list m) eqn:Hm.
  - apply map_to_list_empty_iff in Hm. done.
  - split; [done|]. intros ->. by rewrite map_to_list_empty in Hm.
Qed.

(** Building the snapshot of a strictly ordered tape never conflicts. *)
Lemma snapshot_built `{!Inj (=) (=) uuid_to_string} run_id pinned report anchor authorities events :
  StronglySorted Z.lt (event_id <$> events) ->
  match from_verified_replay_with_source_anchor run_id pinned report (Some anchor)
          (btree_list (st_workflow_instances (replayed authorities events))).*2 with
  | Ok s => indexed (List.filter (fun w => is_trusted_governed_recovery_workflow w (Some anchor))
              (btree_list (st_workflow_instances (replayed authorities events))).*2) s /\
            (exists w, exposed authorities events anchor w) /\
            tgs_run_id s = run_id /\ tgs_tape_integrity s = report
  | Err e => e = TrustedGovernedRecoveryError_NoSealedV3GovernedWorkflow /\
             forall w, ~ exposed authorities events anchor w
  end.
Proof.
  intros Hs. unfold from_verified_replay_with_source_anchor.
  destruct (index_workflows_indexed [] _ _ (indexed_empty run_id pinned report (Some anchor))
    (replayed_indexable authorities events
       (fun w => is_trusted_governed_recovery_workflow w (Some anchor)) Hs)) as (s & Hi & Hix).
  rewrite Hi. cbn [result_bind app] in *.
  destruct (map_is_empty _) eqn:He.
  - apply map_is_empty_true in He. split; [done|]. intros w Hw.
    pose proof (proj2 (ix_workflows _ _ Hix (ref_of w) w)
      (conj (proj2 (elem_of_trusted _ _ w) Hw) eq_refl)) as Hl.
    by rewrite He, lookup_empty in Hl.
  - split; [done|]. split; [|by apply index_workflows_frame in Hi as [Hi1 Hi2]].
    destruct (map_choose (tgs_workflows_by_dispatch_event_ref s)) as (r & w & Hw).
    { intros Hm. apply map_is_empty_true in Hm. congruence. }
    apply (ix_workflows _ _ Hix) in Hw as [Hw _]. exists w. exact (proj1 (elem_of_trusted _ _ w) Hw).
Qed.

(** The anchor is a function of the tape: the report has one. *)
Lemma verified_intro run_id authorities pinned events report :
  Forall (fun issue => is_governed_issue issue = false) (st_issues (replayed authorities events)) ->
  tape_covered events run_id pinned report ->
  exists anchor, verified run_id authorities pinned events report anchor.
Proof.
  intros Hc Hv. destruct (anchor_resolves _ _ _ _ Hv) as [anchor Ha]. exists anchor. by split.
Qed.

Lemma reject_issues_cases issues :
  match reject_governed_replay_issues issues with
  | Ok _ => Forall (fun issue => is_governed_issue issue = false) issues
  | Err e => is_conflict e = false /\
      ~ Forall (fun issue => is_governed_issue issue = false) issues
  end.
Proof.
  destruct (reject_governed_replay_issues issues) as [[]|e] eqn:Hr.
  - by apply reject_issues_ok.
  - split; [|by intros Hok%reject_issues_ok; rewrite Hok in Hr].
    unfold reject_governed_replay_issues in Hr. destruct (List.find _ _); [|done].
    by injection Hr as <-.
Qed.

Lemma covered_unique events run_id pinned report report' :
  tape_covered events run_id pinned report -> tape_covered events run_id pinned report' ->
  report = report'.
Proof. intros Hr%verify_complete Hr'%verify_complete. congruence. Qed.

(** C20. Opening a snapshot is exact and total.  It succeeds precisely when the
    pinned signer is a registered kernel, the rows of the run are within the bound
    and decode, replay raised no governed diagnosis, the checkpoint chain of the
    pinned kernel covers the tape, and the tape has a workflow recovery may serve.
    Otherwise it returns an error, never one of the index conflicts, and it never
    panics. *)
Theorem opening_is_exact `{!Inj (=) (=) uuid_to_string} run_id rows authorities pinned :
  let recoverable := permits authorities TrustSpineSignerRole_Kernel pinned = true /\
    exists events report anchor w,
      all_with_verification_limit rows (tra_trusted_keys authorities)
        (Some TRUSTED_GOVERNED_RECOVERY_MAX_EVENTS_V1) = Ok events /\
      verified run_id authorities pinned events report anchor /\
      exposed authorities events anchor w in
  match open_bounded_v1 run_id rows authorities pinned with
  | Ok _ => recoverable
  | Err (Errored e) => is_conflict e = false /\ ~ recoverable
  | Err (Stopped _) => False
  end.
Proof.
  intros recoverable. unfold open_bounded_v1, open_with_event_limit.
  destruct (permits _ _ _) eqn:Hk; cbn [negb];
    [|split; [done|]; intros [Hp _]; congruence].
  destruct (all_with_verification_limit _ _ _) as [events|e] eqn:Hread; cbn [map_err result_bind];
    [|split; [done|]; intros (_ & ? & ? & ? & ? & Hr & _); congruence].
  destruct (replay_to_end_replayed events authorities) as (engine' & -> & -> & ->).
  pose proof (reject_issues_cases (st_issues (replayed authorities events))) as Hissues.
  destruct (reject_governed_replay_issues _) as [[]|e]; cbn [map_err result_bind].
  2: { destruct Hissues as [He Hn]. split; [done|]. intros (_ & ? & ? & ? & ? & Hr & [Hc _ _] & _).
       congruence. }
  destruct (verify_full_tape_integrity_never_panics events run_id pinned) as [integrity Hv].
  rewrite Hv. destruct integrity as [report|e]; cbn [map_err result_bind].
  2: { split; [done|]. intros (_ & ? & ? & ? & ? & Hr & [_ Hc%verify_complete _] & _).
       simplify_eq. }
  apply verify_sound in Hv. destruct (anchor_resolves _ _ _ _ Hv) as [anchor Ha].
  rewrite Ha. cbn [map_err result_bind].
  pose proof (snapshot_built run_id pinned report anchor authorities events (proj1 Hv)) as Hb.
  destruct (from_verified_replay_with_source_anchor _ _ _ _ _) as [s|e]; cbn [map_err].
  - destruct Hb as (_ & [w Hw] & _). split; [done|]. exists events, report, anchor, w. by split_and!.
  - destruct Hb as [-> Hn]. split; [done|].
    intros (_ & events' & report' & anchor' & w & Hr & [_ Hc' Ha'] & Hw). simplify_eq.
    rewrite (covered_unique _ _ _ _ _ Hc' Hv) in Ha'. assert (anchor' = anchor) as -> by congruence. by apply (Hn w).
Qed.

Lemma open_indexed `{!Inj (=) (=) uuid_to_string} run_id rows authorities pinned max s :
  open_with_event_limit run_id rows authorities pinned max = Ok s ->
  exists events anchor,
    all_with_verification_limit rows (tra_trusted_keys authorities) (Some max) = Ok events /\
    verified run_id authorities pinned events (tgs_tape_integrity s) anchor /\
    tgs_run_id s = run_id /\
    indexed (List.filter (fun w => is_trusted_governed_recovery_workflow w (Some anchor))
      (btree_list (st_workflow_instances (replayed authorities events))).*2) s.
Proof.
  intros (events & [Hk Hread Hc Hv (anchor & Ha & Hf)])%open_opened.
  exists events, anchor.
  pose proof (snapshot_built run_id pinned (tgs_tape_integrity s) anchor authorities events
    (proj1 Hv)) as Hb. rewrite Hf in Hb. destruct Hb as (Hix & _ & Hrun & _).
  split_and!; [done|by split|done|done].
Qed.

(** A lookup through an index finds the workflow with the key. *)
Lemma indexed_lookup {K} `{Countable K} (key : WorkflowInstanceV1 -> option K) ws s m k w :
  indexed ws s -> indexes key ws m ->
  m !! k ≫= (fun r => tgs_workflows_by_dispatch_event_ref s !! r) = Some w <->
  w ∈ ws /\ key w = Some k.
Proof.
  intros Hs Hm. rewrite bind_Some. split.
  - intros (r & (x & Hx & Hk & Hr)%Hm & Hw).
    rewrite (proj2 (ix_workflows _ _ Hs r x) (conj Hx Hr)) in Hw. by injection Hw as <-.
  - intros [Hw Hk]. exists (ref_of w). split; [by apply Hm; exists w|]. by apply (ix_workflows _ _ Hs).
Qed.

(** Lookups are exact: in a snapshot that opened, the lookup by dispatch event,
    candidate digest, promotion identity, decision event and approval request finds
    a workflow exactly when it is a recoverable workflow of the replayed tape that
    records this identity. *)
Theorem snapshot_lookups_are_exact `{!Inj (=) (=) uuid_to_string} run_id rows authorities pinned s :
  open_bounded_v1 run_id rows authorities pinned = Ok s ->
  exists events anchor,
    verified run_id authorities pinned events (tgs_tape_integrity s) anchor /\
    forall w,
      (forall r, workflow_for_dispatch_event_ref s r = Some w <->
         exposed authorities events anchor w /\ ref_of w = r) /\
      (forall d, workflow_for_candidate_digest s d = Some w <->
         exposed authorities events anchor w /\ candidate_key w = Some d) /\
      (forall d i, workflow_for_promotion_identity s d i = Some w <->
         exposed authorities events anchor w /\
         promotion_key w = Some {| pid_candidate_digest := d; pid_idempotency_key := i |}) /\
      (forall r, workflow_for_promotion_decision_event_ref s r = Some w <->
         exposed authorities events anchor w /\ decision_key w = Some r) /\
      (forall r, workflow_for_promotion_approval_request_event_ref s r = Some w <->
         exposed authorities events anchor w /\ approval_key w = Some r).
Proof.
  intros (events & anchor & _ & Hv & _ & Hs)%open_indexed. exists events, anchor. split; [done|].
  intros w. pose proof (elem_of_trusted (fun w => is_trusted_governed_recovery_workflow w (Some anchor))
    (st_workflow_instances (replayed authorities events)) w) as Hw. fold (exposed authorities events anchor w) in Hw.
  split_and!; intros *; rewrite <- Hw; [apply (ix_workflows _ _ Hs)|..];
    (eapply indexed_lookup; [exact Hs|apply Hs]).
Qed.

(** ** Certified evidence *)

Lemma chain_payloads signed run_id kernel n previous cps facts c :
  checkpoint_chain signed run_id kernel n previous cps facts -> c ∈ cps ->
  exists p, ev_payload (ve_event c) = Payload_TapeCheckpointV1 p.
Proof.
  induction 1 as [|n previous c' p s through rest facts Hc _ _ IH]; [by intros ?%not_elem_of_nil|].
  intros [->|Hin]%elem_of_cons; [|by apply IH]. exists p. apply Hc.
Qed.

(** An authorized event of a covered tape is under the root of its chain. *)
Lemma covered_signed events run_id kernel report authorities role ve s :
  tape_covered events run_id kernel report -> ve ∈ events -> authorized authorities role ve s ->
  (forall p, ev_payload (ve_event ve) <> Payload_TapeCheckpointV1 p) ->
  (ve, s) ∈ signed_ordinary events.
Proof.
  intros (_ & _ & _ & facts & c & p & sg & through & Hchain & _) Hve (Hver & Hsig & _) Hp.
  apply list_elem_of_omap. exists ve. split; [done|]. unfold signed_of.
  destruct (decide (is_checkpoint ve)) as [Hck|].
  - destruct (chain_payloads _ _ _ _ _ _ _ ve Hchain) as [q Hq]; [|by destruct (Hp q)].
    by apply list_elem_of_filter.
  - by rewrite decide_True, Hsig by done.
Qed.

Lemma traced_certified events run_id kernel report authorities role id P :
  tape_covered events run_id kernel report ->
  (forall p actor, ~ P (Payload_TapeCheckpointV1 p) actor) ->
  traced authorities events role id P -> traced authorities (signed_ordinary events).*1 role id P.
Proof.
  intros Hv HP (ve & s & Hin & Hid & Ha & Hp). exists ve, s. split; [|done].
  apply list_elem_of_fmap. exists (ve, s). split; [done|]. eapply covered_signed; [done..|].
  intros q Hq. rewrite Hq in Hp. by destruct (HP q _ Hp).
Qed.

Lemma workflow_certified events run_id kernel report authorities w :
  tape_covered events run_id kernel report -> workflow_traced authorities events w ->
  workflow_traced authorities (signed_ordinary events).*1 w.
Proof.
  intros Hv [Hd Hx Hr Hc]. constructor; intros; (eapply traced_certified; [done| |]);
    [|by apply Hd| |by eapply Hx| |by eapply Hr| |by apply Hc]; naive_solver.
Qed.

Lemma replayed_traced authorities events k w :
  st_workflow_instances (replayed authorities events) !! k = Some w ->
  workflow_traced authorities events w.
Proof.
  intros Hk. destruct (replay_to_end_replayed events authorities) as (engine' & Hr & _ & Hst).
  rewrite <- Hst in Hk. by destruct (engine_traced _ _ _ _ _ Hr Hk).
Qed.

(** C21. What recovery serves is certified: for every workflow a snapshot finds, the
    promotion decision and its reconciliation, each review and any cancellation
    were recorded by events that were signed by a signer registered for that role,
    and the signatures of those events are among the hashes of the tape root that
    the snapshot's integrity report carries. *)
Theorem served_evidence_is_certified `{!Inj (=) (=) uuid_to_string} run_id rows authorities pinned s r w :
  open_bounded_v1 run_id rows authorities pinned = Ok s ->
  workflow_for_dispatch_event_ref s r = Some w ->
  wf_ok w /\
  exists events,
    all_with_verification_limit rows (tra_trusted_keys authorities)
      (Some TRUSTED_GOVERNED_RECOVERY_MAX_EVENTS_V1) = Ok events /\
    tir_tape_root_hash (tgs_tape_integrity s) =
      tape_root_hash (signed_hash <$> signed_ordinary events) /\
    workflow_traced authorities (signed_ordinary events).*1 w.
Proof.
  intros (events & anchor & Hread & [_ Hv _] & _ & Hs)%open_indexed Hw.
  apply (ix_workflows _ _ Hs) in Hw as [Hw _]. apply elem_of_trusted in Hw as (_ & k & Hk).
  split; [by eapply replayed_wf_ok|]. exists events. split; [done|].
  split; [by apply (covered_root _ _ _ _ Hv)|].
  eapply workflow_certified; [done|]. by eapply replayed_traced.
Qed.
End Opening.

(** ** Decisions about recorded actions *)
Section Decisions.
Context `{Host}.

Lemma recorded_decision_justified s q :
  exists d, classify_recorded_governed_action_v1 s q = Ok d /\
    rad_identity d = radq_identity q /\
    ((exists reason, d = blocked q reason) \/
     exists w, workflow_for_dispatch_event_ref s (rai_dispatch_event_ref (radq_identity q)) = Some w /\
       rai_run_id (radq_identity q) = tgs_run_id s /\ justified w q d).
Proof.
  unfold classify_recorded_governed_action_v1.
  destruct (bool_decide_reflect (radq_schema_version q = RECORDED_ACTION_DECISION_SCHEMA_VERSION_V1))
    as [Hv|Hv]; cbn [negb]; [|by eexists; split_and!; [reflexivity|reflexivity|left; eexists]].
  destruct (query_is_well_formed q); cbn [negb];
    [|by eexists; split_and!; [reflexivity|reflexivity|left; eexists]].
  destruct (bool_decide_reflect (rai_run_id (radq_identity q) = tgs_run_id s)) as [Hr|Hr];
    cbn [negb]; [|by eexists; split_and!; [reflexivity|reflexivity|left; eexists]].
  destruct (tgs_workflows_by_dispatch_event_ref s !! _) as [w|] eqn:Hw;
    [|by eexists; split_and!; [reflexivity|reflexivity|left; eexists]].
  destruct (replayed_decision_justified w q) as (d & Hd & Hj).
  exists d. split; [done|]. split; [by destruct Hj|]. right. by exists w.
Qed.

(** Every question about a recorded action is answered, and the answer follows
    from the record: a result is reused only if the claimed action's recorded
    result succeeded, its receipt agrees and a model action's receipt names the
    recorded authorization; waiting needs a live lease in a dispatched workflow
    without result or receipt; everything else is a failure, a reconciliation or a
    refusal, and no answer starts an effect.  The classifier never panics. *)
Theorem decisions_are_justified s q :
  exists d, classify_recorded_governed_action_v1 s q = Ok d /\
    rad_identity d = radq_identity q /\
    ((exists reason, d = blocked q reason) \/
     exists w, workflow_for_dispatch_event_ref s (rai_dispatch_event_ref (radq_identity q)) = Some w /\
       rai_run_id (radq_identity q) = tgs_run_id s /\ justified w q d).
Proof. apply recorded_decision_justified. Qed.

(** An action of a workflow. *)
Definition action_of (w : WorkflowInstanceV1) (id : string) : option ActionReplayState :=
  e ← wi_action_evidence w; aes_actions e !! id.

(** C22. Settled actions are decided once: as soon as the receipt of an action is on
    record, the decision about it is the same whatever events follow and whenever
    the question is asked. *)
Theorem settled_actions_decide_once `{!Canonicalizer} tape tape' k w i a x v t t' :
  reached tape !! k = Some w -> action_of w (rai_action_id i) = Some a -> acts_receipt a = Some x ->
  parse_rfc3339_utc t <> None -> parse_rfc3339_utc t' <> None ->
  exists w', reached (tape ++ tape') !! k = Some w' /\
    classify_replayed_governed_action_v1 w'
      {| radq_schema_version := v; radq_identity := i; radq_observed_at := t' |} =
    classify_replayed_governed_action_v1 w
      {| radq_schema_version := v; radq_identity := i; radq_observed_at := t |}.
Proof.
  intros Hk (e & He & Ha)%bind_Some Hx Ht Ht'.
  destruct (reached_evolves tape tape' k w Hk) as (w' & Hk' & Hev). exists w'. split; [done|].
  destruct (ev_actions _ _ Hev e He) as (e' & He' & Hee).
  destruct (ee_actions _ _ Hee _ a Ha) as (a' & Ha' & Haa).
  rewrite (ae_final _ _ Haa) in Ha' by (cbn; by rewrite Hx).
  eapply settled_decision; eauto using evolves_binding, ee_version.
  by destruct (parse_rfc3339_utc t), (parse_rfc3339_utc t').
Qed.
End Decisions.

(** ** Unfinished work *)

Lemma collect_items_ok {A B E} (f : A -> Result (list B) E) l r :
  collect_items f l = Ok r -> exists rs, Forall2 (fun a x => f a = Ok x) l rs /\ r = concat rs.
Proof.
  revert r. induction l as [|a l IH]; intros r Hr; cbn in Hr.
  - apply Ok_inj in Hr as <-. by exists [].
  - guards. subst. destruct (IH _ ltac:(eassumption)) as (rs & Hrs & ->). eexists (_ :: rs).
    split; [by constructor|done].
Qed.

Lemma elem_of_concat {A} (ls : list (list A)) x : x ∈ concat ls <-> exists l, x ∈ l /\ l ∈ ls.
Proof.
  rewrite list_elem_of_In, in_concat. split; intros (l & H1 & H2); exists l;
    rewrite !list_elem_of_In in *; done.
Qed.

Lemma collect_items_err {A B E} (f : A -> Result (list B) E) l e :
  collect_items f l = Err e -> exists a, a ∈ l /\ f a = Err e.
Proof.
  induction l as [|a l IH]; cbn; [done|]. destruct (f a) as [x|] eqn:Hf; cbn.
  - destruct (collect_items f l); cbn; [done|]. intros [= ->].
    destruct (IH eq_refl) as (b & Hb & Hfb). exists b. split; [by right|done].
  - intros [= ->]. exists a. split; [by left|done].
Qed.

Section Pending.
Context `{Host, Canonicalizer, Crypto, RowDecoder}.

(** The claims of a workflow that have no terminal result, in action order. *)
Definition unfinished_claim (a : ActionReplayState)
    : option (ActionReplayState * ActivityClaimReplayState) :=
  c ← acts_activity_claim a; if is_some (acls_result c) then None else Some (a, c).

Definition unfinished_claims (w : WorkflowInstanceV1)
    : list (ActionReplayState * ActivityClaimReplayState) :=
  match wi_action_evidence w with
  | Some e => omap unfinished_claim (btree_list (aes_actions e)).*2
  | None => []
  end.

(** The work item of an unfinished claim: wait while the lease is live, reconcile
    once it has expired. *)
Definition pending_item (observed : DateTime) (w : WorkflowInstanceV1)
    (claim : ActionReplayState * ActivityClaimReplayState) : PendingActivityRecoveryWorkV1 :=
  let '(a, c) := claim in
  let live := is_some_and (parse_rfc3339_utc (acls_lease_expires_at c))
    (fun expiry => observed <? expiry) in
  {| parw_schema_version := PENDING_ACTIVITY_RECOVERY_WORK_SCHEMA_VERSION_V1;
     parw_identity := claimed_action_identity w a c;
     parw_action_kind := acls_action_kind c; parw_claim_purpose := acls_purpose c;
     parw_state := if live then PendingActivityRecoveryStateV1_WaitForActiveLease
                   else PendingActivityRecoveryStateV1_ReconciliationRequired;
     parw_effective_lease_expires_at := if live then Some (acls_lease_expires_at c) else None;
     parw_reason := if live then None else Some ActionDecisionBlockReasonV1_LeaseExpired |}.

(** A workflow of a snapshot, with the invariants of replay. *)
Record served (s : TrustedGovernedRecoverySnapshot) (w : WorkflowInstanceV1) : Prop := {
  sv_lookup : tgs_workflows_by_dispatch_event_ref s !! ref_of w = Some w;
  sv_evidence : forall e, wi_action_evidence w = Some e -> evidence_ok e;
  sv_actions : actions_ok w;
  sv_ok : wf_ok w
}.

Lemma open_served `{!Inj (=) (=) uuid_to_string} run_id rows authorities pinned max s w :
  open_with_event_limit run_id rows authorities pinned max = Ok s ->
  w ∈ snapshot_workflows s -> served s w.
Proof.
  intros (events & anchor & _ & _ & _ & Hs)%open_indexed Hw.
  apply list_elem_of_fmap in Hw as ([r w'] & -> & Hin%elem_of_btree_list). cbn.
  pose proof (proj1 (ix_workflows _ _ Hs r w') Hin) as [Hw <-].
  apply elem_of_trusted in Hw as (_ & k & Hk). split; [done|..].
  - intros e He. refine (replayed_invariant evidences_ok authorities events _ _ k w' e Hk He).
    + intros l gs m m'. apply step_evidences_ok.
    + intros k' x e'. by rewrite lookup_empty.
  - refine (replayed_invariant all_actions_ok authorities events _ _ k w' Hk).
    + intros l gs m m'. apply step_all_actions_ok.
    + intros k' x. by rewrite lookup_empty.
  - by eapply replayed_wf_ok.
Qed.

Lemma elem_of_unfinished w a c :
  (a, c) ∈ unfinished_claims w ->
  exists e id, wi_action_evidence w = Some e /\ aes_actions e !! id = Some a /\
    acts_activity_claim a = Some c /\ acls_result c = None.
Proof.
  unfold unfinished_claims. destruct (wi_action_evidence w) as [e|]; [|by intros ?%not_elem_of_nil].
  intros (b & ([id b'] & -> & Hin%elem_of_btree_list)%list_elem_of_fmap & Hc)%list_elem_of_omap.
  apply bind_Some in Hc as (c' & Hb & Hc). destruct (acls_result c') eqn:Hr; cbn in Hc; [done|].
  injection Hc as <- <-. exists e, id. by split_and!.
Qed.

(** In a replayed workflow the claimed action of an identity is the action itself,
    and an unfinished claim has no receipt. *)
Lemma unfinished_is_claimed s w a c a' c' :
  served s w -> (a, c) ∈ unfinished_claims w -> claimed w (claimed_action_identity w a c) a' c' ->
  a' = a /\ c' = c /\ acls_result c = None /\ acts_receipt a = None.
Proof.
  intros [_ Hev Hok _] (e & id & He & Ha & Hc & Hr)%elem_of_unfinished [(e' & He' & _ & Ha') Hc' _].
  cbn in Ha'. rewrite (es_ids _ (proj1 (Hev e He)) id a Ha) in Ha'. simplify_eq.
  split_and!; [done..|]. destruct (acts_receipt a) as [x|] eqn:Hx; [|done].
  destruct (ao_receipt w a (Hok _ id a ltac:(eassumption) Ha) x Hx) as [_ Hres].
  destruct (Hres c Hc) as (y & Hy & _). congruence.
Qed.

(** What one unfinished claim contributes. *)
Lemma pending_claim_cases s w a c t observed :
  served s w -> (a, c) ∈ unfinished_claims w -> parse_rfc3339_utc t = Some observed ->
  (pending_claim_work s t w a c = Ok [pending_item observed w (a, c)] /\
   wi_phase w = WorkflowPhaseV1_Dispatched) \/
  (exists reason,
     classify_recorded_governed_action_v1 s
       {| radq_schema_version := RECORDED_ACTION_DECISION_SCHEMA_VERSION_V1;
          radq_identity := claimed_action_identity w a c; radq_observed_at := t |} =
     Ok (blocked {| radq_schema_version := RECORDED_ACTION_DECISION_SCHEMA_VERSION_V1;
          radq_identity := claimed_action_identity w a c; radq_observed_at := t |} reason) /\
     pending_claim_work s t w a c = Err (Errored
       (PendingActivityRecoveryErrorV1_IncompleteClaimBlocked (claimed_action_identity w a c) reason))).
Proof.
  intros Hs Hin Ht. unfold pending_claim_work.
  set (q := {| radq_schema_version := _; radq_identity := _; radq_observed_at := _ |}).
  destruct (recorded_decision_justified s q) as (d & Hd & _ & Hj). rewrite Hd. cbn [map_err result_bind].
  assert ((exists reason, d = blocked q reason) \/ justified w q d) as [[reason ->]|Hw].
  { destruct Hj as [Hj|(w' & Hw' & _ & Hj)]; [by left|right].
    unfold workflow_for_dispatch_event_ref in Hw'. cbn in Hw'. fold (ref_of w) in Hw'.
    rewrite (sv_lookup _ _ Hs) in Hw'. by simplify_eq. }
  { right. eauto. }
  destruct Hw as [a' c' r digest ref Hcl Hr _ _ _ _ _|a' c' observed' expiry Hcl Hph _ _ Ht' He Hlt
    |a' c' Hcl Hf|a' c' Hcl Hf|a' c' observed' expiry Hcl Hph _ _ Ht' He Hle|reason];
    try (destruct (unfinished_is_claimed s w a c a' c' Hs Hin Hcl) as (-> & -> & Hn & Hx));
    try (exfalso; rewrite Hn, ?Hx in *; naive_solver).
  - left. cbn in Ht'. simplify_eq. split; [|done]. unfold pending_item. cbn.
    rewrite He. cbn. by rewrite (proj2 (Z.ltb_lt _ _) Hlt).
  - left. cbn in Ht'. simplify_eq. split; [|done]. unfold pending_item. cbn.
    rewrite He. cbn. by rewrite (proj2 (Z.ltb_ge _ _) Hle).
  - right. eauto.
Qed.

Lemma is_rfc3339_utc_parse t :
  if is_rfc3339_utc t then exists observed, parse_rfc3339_utc t = Some observed
  else parse_rfc3339_utc t = None.
Proof.
  unfold is_rfc3339_utc, parse_rfc3339_utc. destruct (ends_with "Z" t); cbn; [|done].
  destruct (parse_from_rfc3339 t); cbn; eauto.
Qed.

(** The loop over the actions of one workflow. *)
Definition pending_workflow_work (s : TrustedGovernedRecoverySnapshot) (t : string)
    (w : WorkflowInstanceV1) :=
  let_some evidence := wi_action_evidence w else (Ok []) ;;
  collect_items (fun action =>
    let_some claim := acts_activity_claim action else (Ok []) ;;
    if is_some (acls_result claim) then Ok []
    else pending_claim_work s t w action claim)
    (btree_list (aes_actions evidence)).*2.

(** The loop visits the unfinished claims. *)
Lemma pending_workflow_loop s t w :
  pending_workflow_work s t w =
  collect_items (fun '(a, c) => pending_claim_work s t w a c) (unfinished_claims w).
Proof.
  unfold pending_workflow_work, unfinished_claims.
  destruct (wi_action_evidence w) as [e|]; [|done].
  induction (btree_list (aes_actions e)).*2 as [|a l IH]; [done|]. cbn. unfold unfinished_claim at 1.
  destruct (acts_activity_claim a) as [c|]; cbn; [|by destruct (collect_items _ l)].
  destruct (acls_result c); cbn; [by destruct (collect_items _ l)|].
  destruct (pending_claim_work s t w a c); cbn; [|done]. by rewrite IH.
Qed.

Lemma Forall2_concat_singletons {A B} (f : A -> B) l rs :
  Forall2 (fun a r => r = [f a]) l rs -> concat rs = f <$> l.
Proof. induction 1 as [|a r l rs -> _ IH]; [done|]. cbn. by rewrite IH. Qed.

Lemma pending_workflow_ok s t w observed items :
  served s w -> parse_rfc3339_utc t = Some observed -> pending_workflow_work s t w = Ok items ->
  items = pending_item observed w <$> unfinished_claims w /\
  (unfinished_claims w <> [] -> wi_phase w = WorkflowPhaseV1_Dispatched).
Proof.
  intros Hs Ht Hw. rewrite pending_workflow_loop in Hw.
  apply collect_items_ok in Hw as (rs & Hrs & ->).
  assert (Forall2 (fun ac r => r = [pending_item observed w ac] /\
    wi_phase w = WorkflowPhaseV1_Dispatched) (unfinished_claims w) rs) as Hall.
  { apply Forall2_same_length_lookup_2; [by eapply Forall2_length|].
    intros i [a c] r Hi Hr. eapply Forall2_lookup_lr in Hrs as Hf; [|done..]. cbn in Hf.
    destruct (pending_claim_cases s w a c t observed Hs) as [[Hp Hph]|(reason & _ & Hp)];
      [by eapply list_elem_of_lookup_2|done|..]; rewrite Hp in Hf; [|done].
    by apply Ok_inj in Hf as <-. }
  split.
  - apply Forall2_concat_singletons. eapply Forall2_impl; [exact Hall|]. by intros ?? [].
  - intros Hne. by destruct Hall as [|?? ?? [_ Hph]].
Qed.

(** The work recovery re-emits is exact.  In a snapshot that opened, a
    well-formed question succeeds with exactly one item per claim without a
    terminal result, in workflow and action order: to wait while the lease is live
    at the observed time, to reconcile afterwards.  It fails as a whole only for
    an unfinished claim the classifier blocks, and names that claim; it never
    panics. *)
Theorem pending_work_is_exact `{!Inj (=) (=) uuid_to_string} run_id rows authorities pinned s t :
  open_bounded_v1 run_id rows authorities pinned = Ok s ->
  match pending_activity_recovery_work_v1 s t with
  | Ok work => exists observed, parse_rfc3339_utc t = Some observed /\
      work = (w ← snapshot_workflows s; pending_item observed w <$> unfinished_claims w) /\
      Forall (fun w => unfinished_claims w <> [] -> wi_phase w = WorkflowPhaseV1_Dispatched)
        (snapshot_workflows s)
  | Err (Errored PendingActivityRecoveryErrorV1_InvalidObservedAt) => parse_rfc3339_utc t = None
  | Err (Errored (PendingActivityRecoveryErrorV1_IncompleteClaimBlocked i reason)) =>
      exists w a c, w ∈ snapshot_workflows s /\ (a, c) ∈ unfinished_claims w /\
        claimed_action_identity w a c = i /\
        exists d, classify_recorded_governed_action_v1 s
          {| radq_schema_version := RECORDED_ACTION_DECISION_SCHEMA_VERSION_V1;
             radq_identity := i; radq_observed_at := t |} = Ok d /\
        rad_disposition d = ActionDecisionDispositionV1_Blocked /\ rad_reason d = Some reason
  | Err (Stopped _) => False
  end.
Proof.
  intros Hopen. unfold pending_activity_recovery_work_v1.
  pose proof (is_rfc3339_utc_parse t) as Ht. destruct (is_rfc3339_utc t); cbn [negb]; [|done].
  destruct Ht as [observed Ht].
  assert (forall w, w ∈ snapshot_workflows s -> served s w) as Hserved
    by (intros w; by eapply open_served).
  change (collect_items _ (snapshot_workflows s))
    with (collect_items (pending_workflow_work s t) (snapshot_workflows s)).
  destruct (collect_items _ _) as [work|e] eqn:Hc.
  - apply collect_items_ok in Hc as (rs & Hrs & ->). exists observed. split; [done|].
    assert (Forall2 (fun w r => r = pending_item observed w <$> unfinished_claims w /\
      (unfinished_claims w <> [] -> wi_phase w = WorkflowPhaseV1_Dispatched)) (snapshot_workflows s) rs)
      as Hall.
    { apply Forall2_same_length_lookup_2; [by eapply Forall2_length|]. intros i w r Hi Hr.
      eapply Forall2_lookup_lr in Hrs as Hf; [|done..]. cbn in Hf.
      by eapply pending_workflow_ok; [eapply Hserved, list_elem_of_lookup_2|..]. }
    split.
    + clear -Hall. induction Hall as [|w r ws rs [-> _] _ IH]; [done|]. cbn. by rewrite IH.
    + apply Forall_forall. intros w [i Hi]%list_elem_of_lookup_1.
      destruct (Forall2_lookup_l _ _ _ _ _ Hall Hi) as (r & _ & _ & Hph). done.
  - apply collect_items_err in Hc as (w & Hw & Hc). rewrite pending_workflow_loop in Hc.
    apply collect_items_err in Hc as ([a c] & Hac & Hc).
    destruct (pending_claim_cases s w a c t observed (Hserved w Hw) Hac Ht)
      as [[Hp _]|(reason & Hd & Hp)]; rewrite Hp in Hc; [done|]. injection Hc as <-.
    exists w, a, c. split_and!; [done..|]. eexists. by split_and!.
Qed.
End Pending.

(** ** Recorded promotions *)
Section Promotions.
Context `{Host}.

(** The workflow records the promotion decision that the identity names. *)
Record decided (w : WorkflowInstanceV1) (i : RecordedPromotionRecoveryIdentityV1)
    (c : CandidateArtifactReplayState) (p : PromotionReplayState) : Prop := {
  dc_candidate : wi_candidate w = Some c;
  dc_promotion : wi_promotion w = Some p;
  dc_identity : i =
    {| rpri_run_id := wi_run_id w; rpri_workflow_id := wi_workflow_id w;
       rpri_workflow_revision := wi_workflow_revision w; rpri_unit_id := wi_unit_id w;
       rpri_attempt := wi_attempt w; rpri_dispatch_event_ref := ref_of w;
       rpri_dispatch_envelope_digest := wd_envelope_digest (wi_dispatch w);
       rpri_candidate_digest := ca_candidate_digest c;
       rpri_promotion_decision_event_ref := uuid_to_string (pds_event_id (ps_decision p));
       rpri_promotion_decision_event_digest := pds_event_digest (ps_decision p);
       rpri_idempotency_key := pds_idempotency_key (ps_decision p) |};
  dc_bound : pds_candidate_digest (ps_decision p) = ca_candidate_digest c /\
    pds_base_commit_sha (ps_decision p) = ca_base_commit_sha c /\
    pds_envelope_digest (ps_decision p) = ca_envelope_digest c
}.

(** The merge that a result proves: the candidate was merged onto the decided base. *)
Definition merge_proved (c : CandidateArtifactReplayState) (d : PromotionDecisionReplayState)
    (r : PromotionResultReplayState) : Prop :=
  exists b head, prs_promotion_git_binding r = Some b /\ prs_merged_head_sha r = Some head /\
    pgb_merged_head_sha b = Some head /\ pds_target_ref d = Some (pgb_target_ref b) /\
    pgb_target_head_before_sha b = pds_base_commit_sha d /\
    pgb_candidate_commit_sha b = ca_candidate_commit_sha c /\
    pgb_merge_parent_shas b = Some [pgb_target_head_before_sha b; pgb_candidate_commit_sha b] /\
    pgb_merged_tree_digest b = ca_tree_digest c.

Definition reuse_promotion (q : RecordedPromotionRecoveryQueryV1) (r : PromotionResultReplayState) :=
  {| rprd_schema_version := RECORDED_PROMOTION_RECOVERY_SCHEMA_VERSION_V1;
     rprd_identity := rprq_identity q;
     rprd_disposition := PromotionRecoveryDispositionV1_ReuseRecordedPromotion;
     rprd_result := Some (recorded_promotion_result r);
     rprd_reconciliation := None; rprd_reason := None |}.

Inductive promotion_justified (w : WorkflowInstanceV1) (q : RecordedPromotionRecoveryQueryV1)
    : RecordedPromotionRecoveryDecisionV1 -> Prop :=
| pj_reuse c p r :
    decided w (rprq_identity q) c p -> pds_decision (ps_decision p) = PromotionDecisionKindV1_Promote ->
    ps_result p = Some r -> prs_outcome r = PromotionResultOutcomeV1_Promoted ->
    prs_promotion_decision_ref r = uuid_to_string (pds_event_id (ps_decision p)) ->
    ps_reconciliation p = None -> merge_proved c (ps_decision p) r ->
    promotion_justified w q (reuse_promotion q r)
| pj_no_result c p :
    decided w (rprq_identity q) c p -> ps_result p = None ->
    pds_decision (ps_decision p) = PromotionDecisionKindV1_Promote ->
    promotion_justified w q (promotion_reconciliation_required q None
      PromotionRecoveryBlockReasonV1_PromotionResultMissing)
| pj_unreconciled c p r :
    decided w (rprq_identity q) c p -> ps_result p = Some r ->
    promoted_result_declares_unreconciled_checkout r = true \/
    (prs_outcome r = PromotionResultOutcomeV1_ReconciliationRequired /\ ps_reconciliation p = None) ->
    promotion_justified w q (promotion_reconciliation_required q (Some (recorded_promotion_result r))
      PromotionRecoveryBlockReasonV1_RecordedPromotionReconciliationRequired)
| pj_rejected c p r :
    decided w (rprq_identity q) c p -> ps_result p = r ->
    match r with
    | Some r => prs_outcome r = PromotionResultOutcomeV1_Rejected /\ ps_reconciliation p = None
    | None => pds_decision (ps_decision p) = PromotionDecisionKindV1_Reject
    end ->
    promotion_justified w q (recorded_promotion_rejection q (recorded_promotion_result <$> r) None)
| pj_reconciled c p r x :
    decided w (rprq_identity q) c p -> ps_result p = Some r ->
    prs_outcome r = PromotionResultOutcomeV1_ReconciliationRequired ->
    merge_proved c (ps_decision p) r -> ps_reconciliation p = Some x ->
    precs_promotion_result_ref x = uuid_to_string (prs_event_id r) ->
    precs_authority x = precs_resolved_by x ->
    promotion_justified w q (recorded_promotion_rejection q (Some (recorded_promotion_result r))
      (Some {| rprc_promotion_reconciliation_event_ref := uuid_to_string (precs_event_id x);
               rprc_promotion_reconciliation_event_digest := precs_event_digest x;
               rprc_outcome := precs_outcome x;
               rprc_promotion_receipt_ref := precs_promotion_receipt_ref x;
               rprc_resolved_at := precs_resolved_at x |}))
| pj_blocked reason : promotion_justified w q (promotion_blocked q reason).

(** [promotion_refusals] disposes of the refusals of the classifier. *)
Ltac promotion_refusals :=
  repeat match goal with
  | |- exists d, (if ?b then Ok (promotion_blocked _ _) else _) = Ok d /\ _ =>
      destruct b eqn:?; [eexists; split; [reflexivity|apply pj_blocked]|]
  | |- exists d, match ?o with Some _ => _ | None => Ok (promotion_blocked _ _) end = Ok d /\ _ =>
      destruct o eqn:?; [|eexists; split; [reflexivity|apply pj_blocked]]
  end.

Lemma evidence_proves_merge c d r :
  promotion_result_evidence_is_well_formed c d r = true ->
  prs_outcome r <> PromotionResultOutcomeV1_Rejected -> merge_proved c d r.
Proof.
  unfold promotion_result_evidence_is_well_formed. intros He Ho.
  destruct (negb _); [done|]. destruct (prs_outcome r) eqn:Hr; try done.
  all: repeat case_match; try done; bool_simp; try done; subst; unfold merge_proved.
  all: eexists _, _; split_and!; first [eassumption|congruence].
Qed.

Lemma decided_intro w q c p :
  promotion_workflow_identity_matches_query w q = true -> wi_candidate w = Some c ->
  ca_candidate_digest c = rpri_candidate_digest (rprq_identity q) -> wi_promotion w = Some p ->
  promotion_decision_identity_matches_query (ps_decision p) q = true ->
  pds_base_commit_sha (ps_decision p) = ca_base_commit_sha c ->
  pds_envelope_digest (ps_decision p) = ca_envelope_digest c ->
  decided w (rprq_identity q) c p.
Proof.
  unfold promotion_workflow_identity_matches_query, promotion_decision_identity_matches_query.
  intros Hw Hc Hd Hp Hm Hb He. bool_simp. destruct (rprq_identity q). cbn in *. unfold ref_of.
  split; [done|done|by subst; f_equal; congruence|]. split_and!; congruence.
Qed.

Lemma reconciliation_justified w q c p r :
  decided w (rprq_identity q) c p -> ps_result p = Some r ->
  prs_outcome r = PromotionResultOutcomeV1_ReconciliationRequired ->
  merge_proved c (ps_decision p) r ->
  exists d, classify_recorded_promotion_reconciliation q p (recorded_promotion_result r) = Ok d /\
    promotion_justified w q d.
Proof.
  intros Hdec Hr Ho Hm. unfold classify_recorded_promotion_reconciliation. rewrite Hr.
  destruct (ps_reconciliation p) as [x|] eqn:Hx.
  - promotion_refusals. bool_simp.
    rename select (promotion_reconciliation_identity_matches _ _ _ _ = true) into Hi.
    unfold promotion_reconciliation_identity_matches in Hi. bool_simp.
    eexists. split; [reflexivity|]. by eapply pj_reconciled.
  - eexists. split; [reflexivity|]. eapply pj_unreconciled; eauto.
Qed.

Lemma replayed_promotion_justified w q :
  exists d, classify_replayed_governed_promotion_recovery_v1 w q = Ok d /\ promotion_justified w q d.
Proof.
  unfold classify_replayed_governed_promotion_recovery_v1. promotion_refusals. bool_simp.
  rename select CandidateArtifactReplayState into cand. rename select PromotionReplayState into promo.
  assert (Hdec : decided w (rprq_identity q) cand promo) by (by eapply decided_intro).
  destruct (ps_result promo) as [r|] eqn:Hr.
  2: { eexists. split; [reflexivity|]. destruct (pds_decision (ps_decision promo)) eqn:Hd.
       - by eapply pj_no_result.
       - by eapply (pj_rejected _ _ _ _ None). }
  promotion_refusals. bool_simp.
  destruct (promoted_result_declares_unreconciled_checkout r) eqn:Hu.
  { eexists. split; [reflexivity|]. eapply pj_unreconciled; eauto. }
  promotion_refusals. bool_simp.
  rename select (promotion_result_evidence_is_well_formed _ _ _ = true) into Hev.
  rename select (promotion_result_identity_matches_decision _ _ = true) into Hid.
  unfold promotion_result_identity_matches_decision in Hid. bool_simp.
  pose proof (evidence_proves_merge _ _ _ Hev) as Hm.
  destruct (pds_decision (ps_decision promo)) eqn:Hd, (prs_outcome r) eqn:Ho; promotion_refusals;
    bool_simp; rewrite ?is_some_false in *;
    try (eexists; split; [reflexivity|]; eauto using promotion_justified; fail).
  - eapply reconciliation_justified; eauto.
  - eexists. split; [reflexivity|]. eapply (pj_rejected _ _ _ _ (Some r)); eauto.
  - eexists. split; [reflexivity|]. eapply (pj_rejected _ _ _ _ (Some r)); eauto.
Qed.

(** Every question about a recorded promotion is answered from the record: a
    promotion is reused only if the decision the query names decided to promote and
    its recorded result proves the merge of the workflow's candidate onto the
    decided base; a missing or unresolved result asks for reconciliation; a
    rejection is reported only for a recorded rejection or a recorded resolution;
    and the classifier never panics. *)
Theorem promotions_are_recovered_from_the_record s q :
  exists d, classify_recorded_governed_promotion_recovery_v1 s q = Ok d /\
    rprd_identity d = rprq_identity q /\
    ((exists reason, d = promotion_blocked q reason) \/
     exists w, workflow_for_dispatch_event_ref s (rpri_dispatch_event_ref (rprq_identity q)) = Some w /\
       rpri_run_id (rprq_identity q) = tgs_run_id s /\ promotion_justified w q d).
Proof.
  unfold classify_recorded_governed_promotion_recovery_v1.
  destruct (bool_decide_reflect (rprq_schema_version q = RECORDED_PROMOTION_RECOVERY_SCHEMA_VERSION_V1))
    as [Hv|Hv]; cbn [negb]; [|by eexists; split_and!; [reflexivity|reflexivity|left; eexists]].
  destruct (promotion_recovery_query_is_well_formed q); cbn [negb];
    [|by eexists; split_and!; [reflexivity|reflexivity|left; eexists]].
  destruct (bool_decide_reflect (rpri_run_id (rprq_identity q) = tgs_run_id s)) as [Hr|Hr];
    cbn [negb]; [|by eexists; split_and!; [reflexivity|reflexivity|left; eexists]].
  destruct (tgs_workflows_by_dispatch_event_ref s !! _) as [w|] eqn:Hw;
    [|by eexists; split_and!; [reflexivity|reflexivity|left; eexists]].
  destruct (replayed_promotion_justified w q) as (d & Hd & Hj).
  exists d. split; [done|]. split; [by destruct Hj|]. right. by exists w.
Qed.

Lemma v5_untrusted_without_anchor w :
  wd_dispatch_version (wi_dispatch w) = 5 -> is_trusted_governed_recovery_workflow w None = false.
Proof.
  intros Hv. unfold is_trusted_governed_recovery_workflow, has_complete_v5_admission_receipt. cbn zeta.
  rewrite Hv. change (5 =? 3) with false. change (5 =? 4) with false. change (5 =? 5) with true.
  cbv iota. destruct (negb _); [done|]. cbn [fmap option_fmap option_map].
  destruct (wi_v5_admission_receipt w); rewrite ?andb_false_r; done.
Qed.

(** C23. The promotion of a V5 workflow is never recovered: the classifier checks the
    workflow again without the anchor of the snapshot, so a V5 workflow that the
    snapshot itself serves as trusted is refused as an unsupported dispatch,
    whatever its recorded result. *)
Theorem v5_promotions_are_never_recovered w q :
  wd_dispatch_version (wi_dispatch w) = 5 ->
  exists reason,
    classify_replayed_governed_promotion_recovery_v1 w q = Ok (promotion_blocked q reason) /\
    (rprq_schema_version q = RECORDED_PROMOTION_RECOVERY_SCHEMA_VERSION_V1 ->
     promotion_recovery_query_is_well_formed q = true ->
     promotion_workflow_identity_matches_query w q = true ->
     reason = PromotionRecoveryBlockReasonV1_UnsupportedDispatch).
Proof.
  intros Hv. unfold classify_replayed_governed_promotion_recovery_v1.
  rewrite (v5_untrusted_without_anchor w Hv). cbn [negb].
  destruct (bool_decide_reflect (rprq_schema_version q = RECORDED_PROMOTION_RECOVERY_SCHEMA_VERSION_V1));
    cbn [negb]; [|by eexists].
  destruct (promotion_recovery_query_is_well_formed q); cbn [negb]; [|by eexists].
  destruct (promotion_workflow_identity_matches_query w q); cbn [negb]; by eexists.
Qed.
End Promotions.

(** ** Pending approvals *)
Section Approvals.
Context `{Host, Canonicalizer, Crypto, RowDecoder}.

#[local] Instance approval_work_le_total : Total approval_work_le.
Proof.
  intros x y. unfold approval_work_le.
  rewrite (String.compare_antisym (ppaw_dispatch_event_ref y)).
  destruct (String.compare (ppaw_dispatch_event_ref x) _); cbn; [|by left|by right].
  apply String.leb_total.
Qed.

(** A review a decision may rest on. *)
Definition approves (w : WorkflowInstanceV1) (c : CandidateArtifactReplayState) (ref : string) : Prop :=
  exists v, wi_reviews w !! ref = Some v /\ rvs_decision v = ReviewDecisionV1_Approve /\
    rvs_candidate_digest v = ca_candidate_digest c /\
    rvs_candidate_commit_sha v = ca_candidate_commit_sha c /\
    (exists view, rvs_candidate_view v = Some view /\ cview_read_only view = true /\
       cview_network_disabled view = true).

Lemma approval_review_ok c acc ref v u :
  check_approval_review c acc ref v = Ok u ->
  rvs_decision v = ReviewDecisionV1_Approve /\ rvs_candidate_digest v = ca_candidate_digest c /\
  rvs_candidate_commit_sha v = ca_candidate_commit_sha c /\
  exists view, rvs_candidate_view v = Some view /\ cview_read_only view = true /\
    cview_network_disabled view = true.
Proof.
  unfold check_approval_review. intros Hv. guards. bool_simp.
  destruct (rvs_candidate_view v) as [view|]; [|done].
  split_and!; try done. exists view.
  repeat match goal with E : ok_or _ _ = Ok _ |- _ => apply Ok_inj in E; subst end. done.
Qed.

Lemma approval_reviews_ok w c acc seen refs :
  check_approval_reviews w c acc seen refs = Ok tt ->
  NoDup refs /\ (forall r, r ∈ refs -> r ∉ seen) /\ Forall (approves w c) refs.
Proof.
  revert seen. induction refs as [|r refs IH]; intros seen Hr; [by split_and!; [constructor|set_solver|]|].
  cbn [check_approval_reviews] in Hr. guards. bool_simp.
  destruct (wi_reviews w !! r) as [v|] eqn:Hv; [|done].
  match goal with E : ok_or _ _ = Ok _ |- _ => apply Ok_inj in E; subst end.
  destruct (IH _ Hr) as (Hnd & Hseen & Hall).
  match goal with E : check_approval_review _ _ _ _ = Ok _ |- _ => apply approval_review_ok in E end.
  split_and!; [constructor; [set_solver|done]|set_solver|constructor; [by eexists|done]].
Qed.

(** A pending approval request with everything the decision needs. *)
Record complete_request (w : WorkflowInstanceV1) (ap : PromotionApprovalRequestReplayState) : Prop := {
  cr_undecided : undecided w;
  cr_candidate : exists c, wi_candidate w = Some c /\
    pars_candidate_digest ap = ca_candidate_digest c /\
    pars_base_commit_sha ap = ca_base_commit_sha c /\
    (exists a, wi_acceptance w = Some a /\ cas_outcome a = CandidateAcceptanceOutcomeV1_Passed /\
       cas_acceptance_ref a = pars_acceptance_ref ap /\
       cas_candidate_digest a = ca_candidate_digest c) /\
    pars_review_refs ap <> [] /\ NoDup (pars_review_refs ap) /\
    Forall (approves w c) (pars_review_refs ap)
}.

Lemma validated_request w ap :
  undecided w -> validate_pending_promotion_approval_recovery_workflow w ap = Ok tt ->
  complete_request w ap.
Proof.
  intros Hu Hv. split; [done|]. unfold validate_pending_promotion_approval_recovery_workflow in Hv.
  guards. bool_simp.
  repeat match goal with E : ok_or ?o _ = Ok _ |- _ =>
    destruct o eqn:?; [apply Ok_inj in E; subst|discriminate E] end.
  apply approval_reviews_ok in Hv as (Hnd & _ & Hall).
  eexists. split_and!; try done; [by eexists|]. intros Hnil. by rewrite Hnil in *.
Qed.

(** What one workflow contributes. *)
Definition awaits_approval (w : WorkflowInstanceV1) (ap : PromotionApprovalRequestReplayState) : Prop :=
  wi_phase w = WorkflowPhaseV1_PromotionApprovalPending /\ wi_promotion_approval w = Some ap /\
  pars_event_digest ap <> "".

Lemma pending_phase_evidence w :
  wf_ok w -> wi_phase w = WorkflowPhaseV1_PromotionApprovalPending ->
  undecided w /\ exists ap, wi_promotion_approval w = Some ap.
Proof.
  intros [Hp _ _ _ _ _ _] Hph. unfold phase_evidence in Hp. rewrite Hph in Hp.
  destruct Hp as (Hu & _ & ap & Hap). eauto.
Qed.

Lemma pending_approval_cases w :
  wf_ok w ->
  match pending_approval_work w with
  | Ok items => forall item, item ∈ items <->
      exists ap, awaits_approval w ap /\ complete_request w ap /\ item = pending_approval_item w ap
  | Err (PendingPromotionApprovalRecoveryErrorV1_PendingWorkflowMissingApproval _) => False
  | Err (PendingPromotionApprovalRecoveryErrorV1_IncompleteApprovalBlocked ref reason) =>
      exists ap, awaits_approval w ap /\ ref = uuid_to_string (pars_event_id ap) /\
        validate_pending_promotion_approval_recovery_workflow w ap = Err reason
  end.
Proof.
  intros Hok. unfold pending_approval_work.
  destruct (bool_decide_reflect (wi_phase w = WorkflowPhaseV1_PromotionApprovalPending)) as [Hph|Hph];
    cbn [negb].
  2: { intros item. split; [by intros ?%not_elem_of_nil|]. intros (ap & (Ha & _) & _). congruence. }
  destruct (pending_phase_evidence w Hok Hph) as [Hu (ap & Hap)]. rewrite Hap.
  destruct (bool_decide_reflect (pars_event_digest ap = "")) as [Hd|Hd].
  { intros item. split; [by intros ?%not_elem_of_nil|].
    intros (ap' & (_ & Ha & Hn) & _). congruence. }
  destruct Hu as (Hp & Hc & Ht). rewrite Hp, Hc, Ht. cbn [is_some orb].
  destruct (validate_pending_promotion_approval_recovery_workflow w ap) as [[]|reason] eqn:Hv;
    cbn [map_err result_bind].
  - intros item. rewrite list_elem_of_singleton. split.
    + intros ->. exists ap. split; [done|]. split; [by apply validated_request|done].
    + intros (ap' & (_ & Ha & _) & _ & ->). congruence.
  - exists ap. by split_and!.
Qed.

(** Pending approvals are re-emitted exactly: in a snapshot that opened, the
    work lists, in the order of dispatch and request event, every workflow that
    awaits an operator's decision under a bound request, each with its candidate,
    passed acceptance and distinct approving reviews, and nothing else.  It fails
    only for a request whose evidence is incomplete, which it names. *)
Theorem pending_approvals_are_exact `{!Inj (=) (=) uuid_to_string} run_id rows authorities pinned s :
  open_bounded_v1 run_id rows authorities pinned = Ok s ->
  match pending_promotion_approval_recovery_work_v1 s with
  | Ok work => Sorted approval_work_le work /\
      forall item, item ∈ work <-> exists w ap, w ∈ snapshot_workflows s /\
        awaits_approval w ap /\ complete_request w ap /\ item = pending_approval_item w ap
  | Err (PendingPromotionApprovalRecoveryErrorV1_PendingWorkflowMissingApproval _) => False
  | Err (PendingPromotionApprovalRecoveryErrorV1_IncompleteApprovalBlocked ref reason) =>
      exists w ap, w ∈ snapshot_workflows s /\ awaits_approval w ap /\
        ref = uuid_to_string (pars_event_id ap) /\
        validate_pending_promotion_approval_recovery_workflow w ap = Err reason
  end.
Proof.
  intros Hopen. unfold pending_promotion_approval_recovery_work_v1.
  assert (forall w, w ∈ snapshot_workflows s -> wf_ok w) as Hok
    by (intros w Hw; by eapply sv_ok, open_served).
  destruct (collect_items _ _) as [work|e] eqn:Hc; cbn [result_bind].
  - split; [apply Sorted_merge_sort, _|]. intros item. rewrite merge_sort_Permutation.
    apply collect_items_ok in Hc as (rs & Hrs & ->). split.
    + intros (items & Hin & Hitems)%elem_of_concat.
      apply list_elem_of_lookup_1 in Hitems as [i Hi].
      destruct (Forall2_lookup_r _ _ _ _ _ Hrs Hi) as (w & Hw & Hf).
      apply list_elem_of_lookup_2 in Hw. pose proof (pending_approval_cases w (Hok w Hw)) as Hcase.
      rewrite Hf in Hcase. apply Hcase in Hin as (ap & ?). by exists w, ap.
    + intros (w & ap & Hw & Hap). apply elem_of_concat.
      destruct (list_elem_of_lookup_1 _ _ Hw) as [i Hi].
      destruct (Forall2_lookup_l _ _ _ _ _ Hrs Hi) as (items & Hit & Hf). exists items.
      split; [|by eapply list_elem_of_lookup_2].
      pose proof (pending_approval_cases w (Hok w Hw)) as Hcase. rewrite Hf in Hcase.
      apply Hcase. by exists ap.
  - apply collect_items_err in Hc as (w & Hw & Hc).
    pose proof (pending_approval_cases w (Hok w Hw)) as Hcase. rewrite Hc in Hcase.
    destruct e; [done|]. destruct Hcase as (ap & ?). by exists w, ap.
Qed.
End Approvals.
