(* ===== verification/SampleRecovery.v ===== *)
(** * A recovered run

    The action run of [SampleRun], stored as signed rows with a kernel checkpoint
    and opened for recovery, while its action is in flight and after it settled. *)
From S2P Require Import Prelude RustStr Host LedgerPayloads TrustSpine Digests Events DemoHost WorkflowGraph ReplayState Tape TapeSpec ReducerCore Reducer Engine WorkflowSpec WorkflowInvariants EngineSpec WorkflowTheorems ActivityDecision TrustedRecovery RecoverySpec RecoveryIndex RecoveryTheorems SampleRun.
From stdpp Require Import base list gmap strings pretty.

#[local] Open Scope string_scope.
#[local] Open Scope list_scope.
#[local] Open Scope Z_scope.

Module SampleRecovery.
Import Demo SampleRun SampleAction.

(** The kernel signs with the key pair [true]. *)
Definition kernel_key : ActorKeyRef :=
  {| akr_actor_id := "kernel"; akr_key_id := "k";
     akr_public_key_hash := Some (public_key_hash true) |}.

Definition authorities : TrustedReplayAuthorities :=
  allow_signer (new_authorities {| tpk_by_public_key_hash :=
    {[ public_key_hash true := demo_key_bytes true ]} |}) TrustSpineSignerRole_Kernel kernel_key.

Definition signature_of (event : Event) : EventSignatureV1 :=
  match sign_event event true kernel_key (ev_occurred_at event) with
  | Ok signature => signature
  | Err e => {| es_event_id := 0; es_canonical_event_hash := e; es_signer := kernel_key;
                es_algorithm := SignatureAlgorithm_Ed25519; es_signature := ""; es_signed_at := 0 |}
  end.

(** The first [n] events of the run and a checkpoint that covers them. *)
Definition run (n : nat) : list Event := (take n tape_v3).*1.

Definition checkpoint (n : nat) : Event :=
  let through := 20 + Z.of_nat n in
  event 50 (Some through) 60 EventKind_TapeCheckpoint (Payload_TapeCheckpointV1
    {| tc_run_id := 1; tc_checkpoint_index := 0; tc_through_event_id := through;
       tc_through_event_count := Z.of_nat n; tc_previous_checkpoint_event_id := None;
       tc_tape_root_hash := tape_root_hash (es_canonical_event_hash ∘ signature_of <$> run n);
       tc_algorithm := TapeRootAlgorithm_Sha256Linear |}).

Definition stored (e : Event) : StoredVerifiedRow :=
  let signature := signature_of e in
  {| svr_event := {| row_id := pretty (ev_id e); row_run_id := pretty (ev_run_id e);
       row_parent_event_id := pretty <$> ev_parent_event_id e; row_schema_version := 1;
       row_kind := as_wire (ev_kind e); row_occurred_at := pretty (ev_occurred_at e) +:+ "Z";
       row_payload := pretty (ev_id e) |};
     svr_signature := Some {| srow_event_id := pretty (es_event_id signature);
       srow_canonical_event_hash := es_canonical_event_hash signature;
       srow_actor_id := "kernel"; srow_key_id := "k";
       srow_public_key_hash := akr_public_key_hash (es_signer signature);
       srow_algorithm := "ed25519"; srow_signature := es_signature signature;
       srow_signed_at := pretty (es_signed_at signature) +:+ "Z" |} |}.

Definition rows (n : nat) : list StoredVerifiedRow := stored <$> run n ++ [checkpoint n].

(** Decimal ids; a payload column names the event it belongs to. *)
Definition decode_payload (n : nat) (value : Json) : Result Payload string :=
  match value with
  | JString id =>
      match List.find (fun e => pretty (ev_id e) == id) (run n ++ [checkpoint n]) with
      | Some e => Ok (ev_payload e)
      | None => Err "unknown payload"
      end
  | _ => Err "not a string"
  end.

Definition decoder (n : nat) : RowDecoder := {|
  uuid_parse_str := fun s => read_instant (s +:+ "Z") 0;
  json_from_str := fun s => Some (JString s);
  payload_from_value := decode_payload n
|}.

(** Decimal printing is injective, as the printing of UUIDs is. *)
#[local] Instance printed_ids_differ : Inj (=) (=) (@uuid_to_string demo_host).
Proof. exact pretty_Z_inj. Qed.

#[local] Hint Extern 0 RowDecoder => exact (decoder 6) : typeclass_instances.

(** What the snapshot of the run in flight computes. *)
Lemma recovered {B} (f : TrustedGovernedRecoverySnapshot -> option B) b :
  match open_bounded_v1 "1" (rows 6) authorities kernel_key with Ok s => f s | Err _ => None end = Some b ->
  exists s, open_bounded_v1 "1" (rows 6) authorities kernel_key = Ok s /\ f s = Some b.
Proof. destruct (open_bounded_v1 _ _ _ _) as [s|e]; [|discriminate]. intros Hf. exact (ex_intro _ s (conj eq_refl Hf)). Qed.

Lemma opening_is_exact_witness :
  permits authorities TrustSpineSignerRole_Kernel kernel_key = true /\
  exists events, all_with_verification_limit (rows 6) (tra_trusted_keys authorities)
    (Some TRUSTED_GOVERNED_RECOVERY_MAX_EVENTS_V1) = Ok events.
Proof.
  destruct (recovered (fun _ => Some tt) tt) as (s & Hs & _); [vm_compute; reflexivity|].
  pose proof (opening_is_exact "1" (rows 6) authorities kernel_key) as Ho.
  cbv zeta in Ho. rewrite Hs in Ho. destruct Ho as (Hp & events & report & anchor & w & Hr & _).
  exact (conj Hp (ex_intro _ events Hr)).
Defined.

Lemma snapshot_lookups_are_exact_witness :
  exists s w events anchor,
    workflow_for_dispatch_event_ref s "21" = Some w /\
    exposed authorities events anchor w /\ ref_of w = "21".
Proof.
  destruct (recovered (fun s => workflow_for_dispatch_event_ref s "21" ≫= fun w => Some (wi_unit_id w))
    "unit") as (s & Hs & Hw); [vm_compute; reflexivity|].
  destruct (workflow_for_dispatch_event_ref s "21") as [w|] eqn:Hl; [|discriminate].
  destruct (snapshot_lookups_are_exact _ _ _ _ _ Hs) as (events & anchor & _ & Hx).
  destruct (Hx w) as [Hd _]. exists s, w, events, anchor. split; [exact Hl|].
  apply (proj1 (Hd "21")). exact Hl.
Defined.

Lemma served_evidence_is_certified_witness :
  exists s w, workflow_for_dispatch_event_ref s "21" = Some w /\ wf_ok w.
Proof.
  destruct (recovered (fun s => workflow_for_dispatch_event_ref s "21" ≫= fun w => Some (wi_unit_id w))
    "unit") as (s & Hs & Hw); [vm_compute; reflexivity|].
  destruct (workflow_for_dispatch_event_ref s "21") as [w|] eqn:Hl; [|discriminate].
  exists s, w. split; [exact Hl|].
  exact (proj1 (served_evidence_is_certified _ _ _ _ _ _ _ Hs Hl)).
Defined.

(** One claim is in flight at time 44: the item says to wait. *)
Lemma pending_work_is_exact_witness :
  exists s work observed, pending_activity_recovery_work_v1 s "44Z" = Ok work /\ length work = 1%nat /\
    parse_rfc3339_utc "44Z" = Some observed /\
    work = (w ← snapshot_workflows s; pending_item observed w <$> unfinished_claims w).
Proof.
  destruct (recovered (fun s => match pending_activity_recovery_work_v1 s "44Z" with
    | Ok work => Some (length work) | Err _ => None end) 1%nat) as (s & Hs & Hw);
    [vm_compute; reflexivity|].
  pose proof (pending_work_is_exact _ _ _ _ _ "44Z" Hs) as Hp.
  destruct (pending_activity_recovery_work_v1 s "44Z") as [work|] eqn:Hpw; [|discriminate].
  destruct Hp as (observed & Ho & Hwork & _). exists s, work, observed.
  split; [exact Hpw|]. injection Hw as Hw. split; [exact Hw|]. split; [exact Ho|exact Hwork].
Defined.

(** No approval is pending yet. *)
Lemma pending_approvals_are_exact_witness :
  exists s, pending_promotion_approval_recovery_work_v1 s = Ok [] /\
    forall w ap, w ∈ snapshot_workflows s -> ~ (awaits_approval w ap /\ complete_request w ap).
Proof.
  destruct (recovered (fun s => match pending_promotion_approval_recovery_work_v1 s with
    | Ok work => Some (length work) | Err _ => None end) 0%nat) as (s & Hs & Hw);
    [vm_compute; reflexivity|].
  pose proof (pending_approvals_are_exact _ _ _ _ _ Hs) as Hp.
  destruct (pending_promotion_approval_recovery_work_v1 s) as [work|] eqn:Hpw; [|discriminate].
  injection Hw as Hw. apply nil_length_inv in Hw. subst work. exists s. split; [exact Hpw|].
  intros w ap Hin [Ha Hc]. destruct Hp as [_ Hp].
  apply (not_elem_of_nil (pending_approval_item w ap)), Hp.
  exact (ex_intro _ w (ex_intro _ ap (conj Hin (conj Ha (conj Hc eq_refl))))).
Defined.

(** The identity of the action, and the decision about it: it stays when the
    evidence is sealed. *)
Definition action_identity : RecordedActionIdentityV1 :=
  {| rai_run_id := "1"; rai_workflow_id := "wf"; rai_workflow_revision := "r1";
     rai_unit_id := "unit"; rai_attempt := 1; rai_dispatch_event_ref := "21";
     rai_dispatch_envelope_digest := envelope; rai_action_id := "act";
     rai_idempotency_key := "act-1"; rai_action_request_event_ref := "22";
     rai_action_request_digest := request_digest; rai_activity_claim_event_ref := "25";
     rai_activity_claim_event_digest := claim_digest; rai_lease_id := "lease" |}.

Definition asked_at (t : string) : RecordedActionDecisionQueryV1 :=
  {| radq_schema_version := 1; radq_identity := action_identity; radq_observed_at := t |}.

Example settled_action_is_reused :
  (fun w => match classify_replayed_governed_action_v1 w (asked_at "44Z") with
            | Ok d => Some (rad_disposition d) | Err _ => None end) <$>
    (reached (take 8 tape_v3) !! key) =
  Some (Some ActionDecisionDispositionV1_ReuseRecordedResult).
Proof. vm_compute. reflexivity. Qed.

Lemma settled_actions_decide_once_witness :
  exists w w', classify_replayed_governed_action_v1 w' (asked_at "99Z") =
    classify_replayed_governed_action_v1 w (asked_at "44Z").
Proof.
  destruct (lookup_with (fun w => a ← action_of w "act"; arcs_outcome <$> acts_receipt a)
    (reached (take 8 tape_v3) !! key) (Some ActionReceiptOutcomeV2_Succeeded)) as (w & Hw & Ha);
    [vm_compute; reflexivity|].
  apply bind_Some in Ha as (a & Ha & Hx). apply fmap_Some in Hx as (x & Hx & _).
  destruct (settled_actions_decide_once (take 8 tape_v3) (drop 8 tape_v3) key w action_identity
    a x 1 "44Z" "99Z" Hw Ha Hx) as (w' & _ & Heq); [discriminate|discriminate|].
  exact (ex_intro _ w (ex_intro _ w' Heq)).
Defined.

(** The V5 refusal at the recovered workflow with a V5 dispatch version. *)
Lemma v5_promotions_are_never_recovered_witness :
  exists w q reason, wd_dispatch_version (wi_dispatch w) = 5 /\
    classify_replayed_governed_promotion_recovery_v1 w q = Ok (promotion_blocked q reason).
Proof.
  destruct (lookup_with wi_unit_id (reached (take 1 tape_v3) !! key) "unit") as (w & _ & _);
    [vm_compute; reflexivity|].
  pose (w5 := (let d := wi_dispatch w in {| w with wi_dispatch := {| d with wd_dispatch_version := 5 |} |})).
  pose (q := {| rprq_schema_version := 1; rprq_identity :=
    {| rpri_run_id := "1"; rpri_workflow_id := "wf"; rpri_workflow_revision := "r1";
       rpri_unit_id := "unit"; rpri_attempt := 1; rpri_dispatch_event_ref := "21";
       rpri_dispatch_envelope_digest := envelope; rpri_candidate_digest := sha "candidate";
       rpri_promotion_decision_event_ref := "30"; rpri_promotion_decision_event_digest := sha "d";
       rpri_idempotency_key := "p1" |} |}).
  destruct (v5_promotions_are_never_recovered w5 q eq_refl) as (reason & Hr & _).
  exists w5, q, reason. exact (conj eq_refl Hr).
Defined.
End SampleRecovery.
