(* ===== verification/Store.v ===== *)
(** * The ledger store: the event tape and its checkpoints

    The tape part of [bp-ledger/src/storage/sqlite.rs]: the tables [events] and
    [event_signatures], the public append paths with their guards and the cached
    high-water mark, and the checkpoint writers (cadence, governed seal).

    A table is a finite map from the text of its primary key to its row, so
    [ORDER BY id] is the byte order of the keys ([btree_list]), as in SQLite.  The
    triggers that refuse [UPDATE] and [DELETE] are the absence of any operation
    that removes or replaces a row; the scan index that a trigger derives from
    [event_signatures] is not modelled.  A transaction is a function from the
    database to its successor: an error drops it, which is the rollback.  What the
    code takes from its environment ([EventId::new], [Utc::now]) is an argument. *)
From S2P Require Import Prelude RustStr Host LedgerPayloads TrustSpine Digests Events Tape WorkflowGraph Canonicalize Engine.
From stdpp Require Import base list gmap strings.

#[local] Open Scope string_scope.
#[local] Open Scope list_scope.
#[local] Open Scope Z_scope.

(** [serde_json::to_string] of a payload and [DateTime::to_rfc3339]. *)
Class RowEncoder := {
  payload_to_string : Payload -> Result string string;
  to_rfc3339 : DateTime -> string
}.

(** ** Data *)

(** The errors of [LedgerError] these operations return.  [Ledger] is a displayed
    error of [canonicalize] or [sign_event]; the reason of an unreadable column
    quotes the parser and is left out. *)
Inductive StoreError :=
| StoreError_InvalidJson
| StoreError_Sqlite
| StoreError_Ledger (message : string)
| StoreError_InvalidPayload (kind : string)
| StoreError_CallerSuppliedCheckpoint
| StoreError_CallerSuppliedTrustSpineEvent (kind : string)
| StoreError_NonMonotonicEventId (run_id : string)
| StoreError_ActivityClaimAuthorityRejected (reason : string).

Abbreviation StoreFailure := (Failure StoreError).

Record Database := {
  db_events : gmap string StoredRow;
  db_event_signatures : gmap string StoredSignatureRow
}.

Record SqliteStore := {
  ss_conn : Database;
  ss_ordinary_id_high_water : gmap RunId EventId
}.

Inductive CheckpointPolicy :=
| CheckpointPolicy_Disabled
| CheckpointPolicy_Enabled (cadence : u64).

Definition DEFAULT_CHECKPOINT_CADENCE : u64 := 256.
Definition default_checkpoint_policy : CheckpointPolicy :=
  CheckpointPolicy_Enabled DEFAULT_CHECKPOINT_CADENCE.
Definition checkpoint_policy_every (cadence : u64) : CheckpointPolicy :=
  CheckpointPolicy_Enabled (Z.max cadence 1).

Inductive GovernedCheckpointSealOutcome :=
| GovernedCheckpointSealOutcome_EmptyPrefix
| GovernedCheckpointSealOutcome_AlreadySealed (checkpoint_event_id : EventId)
| GovernedCheckpointSealOutcome_Emitted (checkpoint_event_id : EventId).

Record StoredCheckpoint := {
  scp_event_id : EventId;
  scp_checkpoint_index : u64;
  scp_through_event_id : EventId;
  scp_through_event_count : u64;
  scp_tape_root_hash : string;
  scp_algorithm : TapeRootAlgorithm
}.

Record SignedOrdinaryEvent := {
  soe_event_id : EventId;
  soe_canonical_event_hash : string
}.

(** What a checkpoint writer draws from its environment: [EventId::new] and the
    two readings of the clock. *)
Record Mint := {
  mint_id : EventId;
  mint_occurred_at : DateTime;
  mint_signed_at : DateTime
}.

(** ** Store operations as state transformers

    The public operations take [&self]: they change the connection and the cached
    marks, and the marks survive a failed call. *)
Definition StoreM (A : Type) : Type := SqliteStore -> Result A StoreFailure * SqliteStore.

Definition store_bind {A B} (m : StoreM A) (k : A -> StoreM B) : StoreM B :=
  fun s => match m s with
           | (Ok a, s') => k a s'
           | (Err e, s') => (Err e, s')
           end.
Notation "'let!' x := m 'in' k" := (store_bind m (fun x => k))
  (at level 10, x pattern, m at level 100, k at level 200) : rust_scope.

Definition store_ret {A} (a : A) : StoreM A := fun s => (Ok a, s).
Definition store_err {A} (e : StoreError) : StoreM A := fun s => (Err (Errored e), s).
Definition store_lift {A} (r : Result A StoreError) : StoreM A :=
  fun s => (map_err Errored r, s).
(** A transaction commits the database it computes, or nothing. *)
Definition transaction {A} (body : Database -> Result (A * Database) StoreFailure) : StoreM A :=
  fun s => match body (ss_conn s) with
           | Ok (a, db) => (Ok a, {| s with ss_conn := db |})
           | Err e => (Err e, s)
           end.

Section Store.
Context `{Host, Canonicalizer, Crypto, RowDecoder, RowEncoder}.

(** ** Rows *)

Definition CHECKPOINT_KIND : string := as_wire EventKind_TapeCheckpoint.

Definition parse_event_id (id kind : string) : Result EventId StoreError :=
  ok_or (uuid_parse_str id) (StoreError_InvalidPayload kind).
Definition parse_run_id (id kind : string) : Result RunId StoreError :=
  ok_or (uuid_parse_str id) (StoreError_InvalidPayload kind).

(** [StoredEventRow::to_event]. *)
Definition to_event (row : StoredRow) : Result Event StoreError :=
  let* event_id := parse_event_id (row_id row) (row_kind row) in
  let* run_id := parse_run_id (row_run_id row) (row_kind row) in
  let* parent_event_id :=
    match row_parent_event_id row with
    | Some id => result_map Some (parse_event_id id (row_kind row))
    | None => Ok None
    end in
  some_or kind := event_kind_from_value (row_kind row) with StoreError_InvalidJson ;;
  some_or occurred_at := parse_from_rfc3339 (row_occurred_at row)
    with StoreError_InvalidPayload (row_kind row) ;;
  some_or payload_json := json_from_str (row_payload row) with StoreError_InvalidJson ;;
  let* payload := map_err (fun e => StoreError_Ledger (validation_error_to_string e))
    (canonicalize_payload payload_from_value (row_kind row) (row_schema_version row)
       payload_json) in
  Ok {| ev_id := event_id; ev_run_id := run_id; ev_parent_event_id := parent_event_id;
        ev_schema_version := row_schema_version row; ev_kind := kind;
        ev_occurred_at := occurred_at; ev_payload := payload |}.

(** [StoredEventSignatureRow::to_event_signature]. *)
Definition to_event_signature (row : StoredSignatureRow) : Result EventSignatureV1 StoreError :=
  let* event_id := parse_event_id (srow_event_id row) "event_signatures" in
  fail_if srow_algorithm row != "ed25519"
    with StoreError_InvalidPayload "event_signatures" ;;
  some_or signed_at := parse_from_rfc3339 (srow_signed_at row)
    with StoreError_InvalidPayload "event_signatures" ;;
  Ok {| es_event_id := event_id;
        es_canonical_event_hash := srow_canonical_event_hash row;
        es_signer := {| akr_actor_id := srow_actor_id row; akr_key_id := srow_key_id row;
                        akr_public_key_hash := srow_public_key_hash row |};
        es_algorithm := SignatureAlgorithm_Ed25519;
        es_signature := srow_signature row;
        es_signed_at := signed_at |}.

Definition signature_algorithm_wire (algorithm : SignatureAlgorithm) : string :=
  match algorithm with
  | SignatureAlgorithm_Ed25519 => "ed25519"
  end.

Definition event_row (event : Event) (payload_json : string) : StoredRow :=
  {| row_id := uuid_to_string (ev_id event);
     row_run_id := uuid_to_string (ev_run_id event);
     row_parent_event_id := uuid_to_string <$> ev_parent_event_id event;
     row_schema_version := ev_schema_version event;
     row_kind := as_wire (ev_kind event);
     row_occurred_at := to_rfc3339 (ev_occurred_at event);
     row_payload := payload_json |}.

(** The primary key of [events] refuses a second row with the same id. *)
Definition insert_event (db : Database) (event : Event) : Result Database StoreError :=
  let* payload_json := map_err (fun _ => StoreError_InvalidJson)
    (payload_to_string (ev_payload event)) in
  let id := uuid_to_string (ev_id event) in
  fail_if is_some (db_events db !! id) with StoreError_Sqlite ;;
  Ok {| db with db_events := <[id := event_row event payload_json]> (db_events db) |}.

Definition signature_row (signature : EventSignatureV1) : StoredSignatureRow :=
  {| srow_event_id := uuid_to_string (es_event_id signature);
     srow_canonical_event_hash := es_canonical_event_hash signature;
     srow_actor_id := akr_actor_id (es_signer signature);
     srow_key_id := akr_key_id (es_signer signature);
     srow_public_key_hash := akr_public_key_hash (es_signer signature);
     srow_algorithm := signature_algorithm_wire (es_algorithm signature);
     srow_signature := es_signature signature;
     srow_signed_at := to_rfc3339 (es_signed_at signature) |}.

(** The primary key refuses a second signature, the foreign key a signature of an
    event that is not stored. *)
Definition insert_event_signature (db : Database) (signature : EventSignatureV1)
    : Result Database StoreError :=
  let id := uuid_to_string (es_event_id signature) in
  fail_if is_some (db_event_signatures db !! id) || is_none (db_events db !! id)
    with StoreError_Sqlite ;;
  Ok {| db with db_event_signatures :=
          <[id := signature_row signature]> (db_event_signatures db) |}.

(** ** Queries *)

(** [SELECT .. FROM events WHERE run_id = ?1 ORDER BY id ASC]. *)
Definition events_for_run (db : Database) (run_id : string) : list StoredRow :=
  List.filter (fun row => row_run_id row == run_id) (btree_list (db_events db)).*2.

Definition signature_for_event (db : Database) (event_id : string) : option StoredSignatureRow :=
  db_event_signatures db !! event_id.

Definition is_checkpoint_row (row : StoredRow) : bool := row_kind row == CHECKPOINT_KIND.

(** [.. AND kind != 'tape_checkpoint' ORDER BY id DESC LIMIT 1]. *)
Definition latest_ordinary_event_id_for_run (db : Database) (run_id : RunId)
    : Result (option EventId) StoreError :=
  match last (List.filter (fun row => negb (is_checkpoint_row row))
                (events_for_run db (uuid_to_string run_id))) with
  | Some row => result_map Some (parse_event_id (row_id row) "events")
  | None => Ok None
  end.

Definition latest_checkpoint_for_connection (db : Database) (run_id : RunId)
    : Result (option StoredCheckpoint) StoreError :=
  match last (List.filter
                (fun row => is_checkpoint_row row && is_some (signature_for_event db (row_id row)))
                (events_for_run db (uuid_to_string run_id))) with
  | None => Ok None
  | Some row =>
      let* event_id := parse_event_id (row_id row) "tape_checkpoint" in
      some_or value := json_from_str (row_payload row) with StoreError_InvalidJson ;;
      let* payload := map_err (fun _ => StoreError_InvalidJson) (payload_from_value value) in
      match payload with
      | Payload_TapeCheckpointV1 checkpoint =>
          Ok (Some {| scp_event_id := event_id;
                      scp_checkpoint_index := tc_checkpoint_index checkpoint;
                      scp_through_event_id := tc_through_event_id checkpoint;
                      scp_through_event_count := tc_through_event_count checkpoint;
                      scp_tape_root_hash := tc_tape_root_hash checkpoint;
                      scp_algorithm := tc_algorithm checkpoint |})
      | _ => Err (StoreError_InvalidPayload "tape_checkpoint")
      end
  end.

(** The rows of the join of ordinary events with their [ed25519] signatures. *)
Definition signed_ordinary_rows (db : Database) (run_id : string)
    : list (StoredRow * StoredSignatureRow) :=
  omap (fun row =>
          if is_checkpoint_row row then None else
          signature ← signature_for_event db (row_id row);
          if srow_algorithm signature == "ed25519" then Some (row, signature) else None)
    (events_for_run db run_id).

Definition signed_ordinary_events_for_connection (db : Database) (run_id : RunId)
    : Result (list SignedOrdinaryEvent) StoreError :=
  collect_results (fun '(row, signature) =>
    let* event_id := parse_event_id (row_id row) "signed ordinary event" in
    Ok {| soe_event_id := event_id;
          soe_canonical_event_hash := srow_canonical_event_hash signature |})
    (signed_ordinary_rows db (uuid_to_string run_id)).

(** An event with its signature, if it has one. *)
Definition read_signed_row (db : Database) (row : StoredRow)
    : Result (Event * option EventSignatureV1) StoreError :=
  let* event := to_event row in
  let* signature :=
    match signature_for_event db (row_id row) with
    | Some signature_row => result_map Some (to_event_signature signature_row)
    | None => Ok None
    end in
  Ok (event, signature).

Definition signed_events_for_run (db : Database) (run_id : string)
    : Result (list (Event * option EventSignatureV1)) StoreError :=
  collect_results (read_signed_row db) (events_for_run db run_id).

Definition checkpoint_events_for_run_for_connection (db : Database) (run_id : RunId)
    : Result (list (Event * option EventSignatureV1)) StoreError :=
  collect_results (read_signed_row db)
    (List.filter is_checkpoint_row (events_for_run db (uuid_to_string run_id))).

Record VerifiedEventRow := {
  ver_event : StoredRow;
  ver_signature : option EventSignatureV1;
  ver_verification : VerificationStatus
}.

Definition verified_event_row (db : Database) (trusted_keys : TrustedPublicKeys)
    (event_row : StoredRow) : Result VerifiedEventRow StoreError :=
  let* event := to_event event_row in
  match signature_for_event db (row_id event_row) with
  | None =>
      Ok {| ver_event := event_row; ver_signature := None;
            ver_verification := VerificationStatus_Unsigned |}
  | Some signature_row =>
      if srow_algorithm signature_row != "ed25519" then
        Ok {| ver_event := event_row; ver_signature := None;
              ver_verification := VerificationStatus_UnsupportedAlgorithm |}
      else
        let* signature := to_event_signature signature_row in
        Ok {| ver_event := event_row; ver_signature := Some signature;
              ver_verification := verify_event_signature event signature trusted_keys |}
  end.

Definition verified_events_for_run (db : Database) (run_id : string)
    (trusted_keys : TrustedPublicKeys) : Result (list VerifiedEventRow) StoreError :=
  collect_results (verified_event_row db trusted_keys) (events_for_run db run_id).

(** The rows the replay reader selects: [events LEFT JOIN event_signatures]. *)
Definition rows_with_signatures (db : Database) (run_id : string) : list StoredVerifiedRow :=
  (fun row => {| svr_event := row; svr_signature := signature_for_event db (row_id row) |})
    <$> events_for_run db run_id.

(** ** Appending *)

Definition ALWAYS_BLOCKED_TRUST_SPINE_KINDS : list EventKind := [
  EventKind_GovernedDispatchV5AdmissionRecordedV1;
  EventKind_PromotionReconciliationResolved;
  EventKind_PlanAdmitted
].

Definition always_blocked_trust_spine_kind (event : Event) : option EventKind :=
  if existsb (fun kind => ev_kind event == kind) ALWAYS_BLOCKED_TRUST_SPINE_KINDS
  then Some (ev_kind event) else
  match ev_payload event with
  | Payload_GovernedDispatchV5AdmissionRecordedV1 _ =>
      Some EventKind_GovernedDispatchV5AdmissionRecordedV1
  | Payload_PromotionReconciliationResolvedV1 _ => Some EventKind_PromotionReconciliationResolved
  | Payload_PlanAdmittedV1 _ => Some EventKind_PlanAdmitted
  | _ => None
  end.

Definition is_checkpoint_payload (payload : Payload) : bool :=
  match payload with Payload_TapeCheckpointV1 _ => true | _ => false end.

(** The kinds whose events are canonicalised before they are appended. *)
Definition canonicalized_on_append (kind : EventKind) : bool :=
  match kind with
  | EventKind_WorkflowGraphDeclaredV1
  | EventKind_WorkflowGraphDeclaredV2
  | EventKind_DispatchEnvelopeV4
  | EventKind_DispatchEnvelopeV5
  | EventKind_ContextManifestDeclaredV1
  | EventKind_WorkerManifestDeclaredV1
  | EventKind_SandboxProfileDeclaredV1
  | EventKind_AttemptContextDeclaredV1 => true
  | _ => false
  end.

(** The mark of a run, seeded from the database when the run is first touched. *)
Definition latest_ordinary_id (run_id : RunId) : StoreM (option EventId) := fun s =>
  match ss_ordinary_id_high_water s !! run_id with
  | Some id => (Ok (Some id), s)
  | None =>
      match latest_ordinary_event_id_for_run (ss_conn s) run_id with
      | Err e => (Err (Errored e), s)
      | Ok seeded =>
          (Ok seeded,
           match seeded with
           | Some id => {| s with ss_ordinary_id_high_water :=
                             <[run_id := id]> (ss_ordinary_id_high_water s) |}
           | None => s
           end)
      end
  end.

Definition record_ordinary_append (event : Event) : StoreM unit := fun s =>
  (Ok tt, {| s with ss_ordinary_id_high_water :=
               <[ev_run_id event := ev_id event]> (ss_ordinary_id_high_water s) |}).

Definition validate_external_append (event : Event) : StoreM unit :=
  if (ev_kind event == EventKind_TapeCheckpoint) || is_checkpoint_payload (ev_payload event)
  then store_err StoreError_CallerSuppliedCheckpoint else
  match always_blocked_trust_spine_kind event with
  | Some blocked => store_err (StoreError_CallerSuppliedTrustSpineEvent (as_wire blocked))
  | None =>
      let! latest := latest_ordinary_id (ev_run_id event) in
      let! _ := match latest with
        | Some latest =>
            if ev_id event <=? latest
            then store_err (StoreError_NonMonotonicEventId (uuid_to_string (ev_run_id event)))
            else store_ret tt
        | None => store_ret tt
        end in
      if canonicalized_on_append (ev_kind event) then
        let! _ := store_lift (map_err StoreError_Ledger (canonicalize event)) in
        store_ret tt
      else store_ret tt
  end.

Definition append (event : Event) : StoreM unit :=
  let! _ := validate_external_append event in
  let! _ := transaction (fun db =>
    let* db := map_err Errored (insert_event db event) in
    Ok (tt, db)) in
  record_ordinary_append event.

Definition append_event_signature (signature : EventSignatureV1) : StoreM unit :=
  transaction (fun db =>
    let* db := map_err Errored (insert_event_signature db signature) in
    Ok (tt, db)).

(** ** Checkpoints *)

(** The checkpoint over [covered], which ends at [through].  The successor of the
    prior index is computed at 64 bits. *)
Definition checkpoint_event (run_id : RunId) (covered : list SignedOrdinaryEvent)
    (through : SignedOrdinaryEvent) (prior : option StoredCheckpoint) (mint : Mint) : Event :=
  let hashes := soe_canonical_event_hash <$> covered in
  let root := tape_root_hash hashes in
  let checkpoint_index :=
    match prior with Some p => (scp_checkpoint_index p + 1) mod 2 ^ 64 | None => 0 end in
  let payload :=
    {| tc_run_id := run_id;
       tc_checkpoint_index := checkpoint_index;
       tc_through_event_id := soe_event_id through;
       tc_through_event_count := Z.of_nat (length covered);
       tc_previous_checkpoint_event_id := scp_event_id <$> prior;
       tc_tape_root_hash := root;
       tc_algorithm := TapeRootAlgorithm_Sha256Linear |} in
  {| ev_id := mint_id mint;
     ev_run_id := run_id;
     ev_parent_event_id := Some (soe_event_id through);
     ev_schema_version := CURRENT_SCHEMA_VERSION;
     ev_kind := EventKind_TapeCheckpoint;
     ev_occurred_at := mint_occurred_at mint;
     ev_payload := Payload_TapeCheckpointV1 payload |}.

Definition emit_checkpoint_in_transaction (db : Database) (run_id : RunId)
    (covered : list SignedOrdinaryEvent) (prior : option StoredCheckpoint)
    (signing_key : SigningKey) (signer : ActorKeyRef) (mint : Mint)
    : Result (EventId * Database) StoreFailure :=
  some_or through := last covered with Stopped Crash_Panic ;;
  let event := checkpoint_event run_id covered through prior mint in
  let* signature := map_err (fun e => Errored (StoreError_Ledger e))
    (sign_event event signing_key signer (mint_signed_at mint)) in
  let* db := map_err Errored (insert_event db event) in
  let* db := map_err Errored (insert_event_signature db signature) in
  Ok (ev_id event, db).

(** The checkpoint decision of the cadence policy: [saturating_sub] keeps the
    difference at zero. *)
Definition checkpoint_due (cadence : u64) (is_final : bool) (covered : list SignedOrdinaryEvent)
    (prior : option StoredCheckpoint) : bool :=
  let already_checkpointed := default 0 (scp_through_event_count <$> prior) in
  let total := Z.of_nat (length covered) in
  let uncheckpointed := Z.max (total - already_checkpointed) 0 in
  (cadence <=? uncheckpointed) || (is_final && (1 <=? uncheckpointed)).

Definition emit_checkpoint_if_due_for_current_signed_prefix (run_id : RunId) (cadence : u64)
    (is_final : bool) (signing_key : SigningKey) (signer : ActorKeyRef) (mint : Mint)
    : StoreM (option EventId) :=
  transaction (fun db =>
    let* prior := map_err Errored (latest_checkpoint_for_connection db run_id) in
    let* covered := map_err Errored (signed_ordinary_events_for_connection db run_id) in
    if negb (checkpoint_due cadence is_final covered prior) then Ok (None, db) else
    let* (checkpoint_event_id, db) :=
      emit_checkpoint_in_transaction db run_id covered prior signing_key signer mint in
    Ok (Some checkpoint_event_id, db)).

Definition emit_checkpoint_for_current_signed_prefix (run_id : RunId)
    (signing_key : SigningKey) (signer : ActorKeyRef) (mint : Mint) : StoreM (option EventId) :=
  transaction (fun db =>
    let* covered := map_err Errored (signed_ordinary_events_for_connection db run_id) in
    if list_is_empty covered then Ok (None, db) else
    let* prior := map_err Errored (latest_checkpoint_for_connection db run_id) in
    let* (checkpoint_event_id, db) :=
      emit_checkpoint_in_transaction db run_id covered prior signing_key signer mint in
    Ok (Some checkpoint_event_id, db)).

Definition append_signed_with_checkpoint (event : Event) (signing_key : SigningKey)
    (signer : ActorKeyRef) (policy : CheckpointPolicy) (now : DateTime) (mint : Mint)
    : StoreM (list EventId) :=
  let! _ := validate_external_append event in
  let! signature := store_lift (map_err StoreError_Ledger
    (sign_event event signing_key signer now)) in
  let! _ := transaction (fun db =>
    let* db := map_err Errored (insert_event db event) in
    let* db := map_err Errored (insert_event_signature db signature) in
    Ok (tt, db)) in
  let! _ := record_ordinary_append event in
  match policy with
  | CheckpointPolicy_Disabled => store_ret []
  | CheckpointPolicy_Enabled cadence =>
      let! checkpoint := emit_checkpoint_if_due_for_current_signed_prefix (ev_run_id event)
        cadence (ev_kind event == EventKind_RunCompleted) signing_key signer mint in
      store_ret (option_list checkpoint)
  end.

(** [Disabled] draws no checkpoint, so the mint is not used. *)
Definition append_signed (event : Event) (signing_key : SigningKey) (signer : ActorKeyRef)
    (now : DateTime) (mint : Mint) : StoreM unit :=
  let! _ := append_signed_with_checkpoint event signing_key signer CheckpointPolicy_Disabled
    now mint in
  store_ret tt.

(** ** The governed seal *)

(** The rolling hasher of [tape_prefix_roots] as the bytes fed to it. *)
Fixpoint prefix_roots_from (hasher : string) (index : nat) (covered : list SignedOrdinaryEvent)
    : list string :=
  match covered with
  | [] => []
  | event :: rest =>
      let hasher := if (0 <? index)%nat then hasher +:+ newline else hasher in
      let hasher := hasher +:+ soe_canonical_event_hash event in
      ("sha256:" +:+ sha256_hex hasher) :: prefix_roots_from hasher (S index) rest
  end.
Definition tape_prefix_roots (covered : list SignedOrdinaryEvent) : list string :=
  prefix_roots_from "" 0 covered.

Definition actor_matches (expected actual : ActorKeyRef) : bool :=
  (akr_actor_id expected == akr_actor_id actual) &&
  (akr_key_id expected == akr_key_id actual) &&
  is_some (akr_public_key_hash expected) &&
  (akr_public_key_hash expected == akr_public_key_hash actual).

Definition seal_rejected (reason : string) : StoreFailure :=
  Errored (StoreError_ActivityClaimAuthorityRejected
    ("governed checkpoint seal rejected: " +:+ reason)).

(** One iteration of the loop over the checkpoints of the run.  [usize] has the
    width of [u64], so the count converts. *)
Definition verify_sealed_checkpoint (run_id : RunId) (covered : list SignedOrdinaryEvent)
    (prefix_roots : list string) (expected_signer : ActorKeyRef)
    (trusted_keys : TrustedPublicKeys) (expected_index : u64)
    (previous_checkpoint : option (EventId * nat)) (item : Event * option EventSignatureV1)
    : Result (u64 * option (EventId * nat)) StoreFailure :=
  let '(event, signature) := item in
  some_or signature := signature
    with seal_rejected "checkpoint lacks a detached signature" ;;
  fail_if (ev_run_id event != run_id) || negb (actor_matches expected_signer (es_signer signature))
       || (verify_event_signature event signature trusted_keys != VerificationStatus_Verified)
    with seal_rejected "checkpoint signature is not verified for the configured governed signer" ;;
  match ev_payload event with
  | Payload_TapeCheckpointV1 payload =>
      fail_if (tc_run_id payload != run_id)
           || (tc_algorithm payload != TapeRootAlgorithm_Sha256Linear)
           || (ev_parent_event_id event != Some (tc_through_event_id payload))
        with seal_rejected "checkpoint payload is not a valid governed tape prefix" ;;
      let prefix_len := Z.to_nat (tc_through_event_count payload) in
      fail_if (prefix_len =? 0)%nat || (length covered <? prefix_len)%nat
        with seal_rejected "checkpoint count is outside the current signed prefix" ;;
      let through_position := (prefix_len - 1)%nat in
      some_or through := covered !! through_position with Stopped Crash_Panic ;;
      fail_if soe_event_id through != tc_through_event_id payload
        with seal_rejected "checkpoint through-event does not match the signed prefix" ;;
      some_or root := prefix_roots !! through_position with Stopped Crash_Panic ;;
      fail_if tc_tape_root_hash payload != root
        with seal_rejected "checkpoint root does not match the signed ordinary-event prefix" ;;
      fail_if tc_checkpoint_index payload != expected_index
        with seal_rejected "checkpoint index is not contiguous" ;;
      fail_if tc_previous_checkpoint_event_id payload != (fst <$> previous_checkpoint)
        with seal_rejected "checkpoint predecessor does not match the chain" ;;
      fail_if is_some_and previous_checkpoint (fun p => (through_position <=? p.2)%nat)
        with seal_rejected ("checkpoint does not advance beyond predecessor " +:+
               default "" (uuid_to_string ∘ fst <$> previous_checkpoint)) ;;
      fail_if 2 ^ 64 <=? expected_index + 1
        with seal_rejected "checkpoint index overflow" ;;
      Ok (expected_index + 1, Some (ev_id event, through_position))
  | _ => Err (seal_rejected "checkpoint does not carry TapeCheckpointV1")
  end.

Fixpoint verify_sealed_checkpoints (run_id : RunId) (covered : list SignedOrdinaryEvent)
    (prefix_roots : list string) (expected_signer : ActorKeyRef)
    (trusted_keys : TrustedPublicKeys) (expected_index : u64)
    (previous_checkpoint : option (EventId * nat))
    (items : list (Event * option EventSignatureV1)) : Result unit StoreFailure :=
  match items with
  | [] => Ok tt
  | item :: rest =>
      let* (expected_index, previous_checkpoint) :=
        verify_sealed_checkpoint run_id covered prefix_roots expected_signer trusted_keys
          expected_index previous_checkpoint item in
      verify_sealed_checkpoints run_id covered prefix_roots expected_signer trusted_keys
        expected_index previous_checkpoint rest
  end.

Definition verify_governed_checkpoint_chain_for_seal (db : Database) (run_id : RunId)
    (covered : list SignedOrdinaryEvent) (prefix_roots : list string)
    (signing_key : SigningKey) (signer : ActorKeyRef) : Result unit StoreFailure :=
  let expected_public_key_hash := public_key_hash (verifying_key signing_key) in
  let expected_signer := {| signer with akr_public_key_hash := Some expected_public_key_hash |} in
  let trusted_keys := insert_public_key {| tpk_by_public_key_hash := ∅ |}
    expected_public_key_hash (verifying_key_as_bytes (verifying_key signing_key)) in
  fail_if negb (length prefix_roots =? length covered)%nat
    with seal_rejected "checkpoint root index does not cover the signed ordinary-event prefix" ;;
  let* items := map_err Errored (checkpoint_events_for_run_for_connection db run_id) in
  verify_sealed_checkpoints run_id covered prefix_roots expected_signer trusted_keys 0 None items.

Definition seal_governed_signed_prefix_in_transaction (db : Database) (run_id : RunId)
    (signing_key : SigningKey) (signer : ActorKeyRef) (mint : Mint)
    : Result (GovernedCheckpointSealOutcome * Database) StoreFailure :=
  let* covered := map_err Errored (signed_ordinary_events_for_connection db run_id) in
  match last covered with
  | None => Ok (GovernedCheckpointSealOutcome_EmptyPrefix, db)
  | Some through =>
      let prefix_roots := tape_prefix_roots covered in
      some_or expected_root := last prefix_roots with Stopped Crash_Panic ;;
      let* _ := verify_governed_checkpoint_chain_for_seal db run_id covered prefix_roots
        signing_key signer in
      let* prior := map_err Errored (latest_checkpoint_for_connection db run_id) in
      match prior with
      | Some checkpoint =>
          if (scp_algorithm checkpoint == TapeRootAlgorithm_Sha256Linear) &&
             (scp_through_event_count checkpoint == Z.of_nat (length covered)) &&
             (scp_through_event_id checkpoint == soe_event_id through) &&
             (scp_tape_root_hash checkpoint == expected_root)
          then Ok (GovernedCheckpointSealOutcome_AlreadySealed (scp_event_id checkpoint), db)
          else
            let* (checkpoint_event_id, db) :=
              emit_checkpoint_in_transaction db run_id covered prior signing_key signer mint in
            Ok (GovernedCheckpointSealOutcome_Emitted checkpoint_event_id, db)
      | None =>
          let* (checkpoint_event_id, db) :=
            emit_checkpoint_in_transaction db run_id covered prior signing_key signer mint in
          Ok (GovernedCheckpointSealOutcome_Emitted checkpoint_event_id, db)
      end
  end.

Definition seal_governed_signed_prefix (run_id : RunId) (signing_key : SigningKey)
    (signer : ActorKeyRef) (mint : Mint) : StoreM GovernedCheckpointSealOutcome :=
  transaction (fun db =>
    seal_governed_signed_prefix_in_transaction db run_id signing_key signer mint).

(** [SqliteStore::open]: the marks start empty. *)
Definition open_store (db : Database) : SqliteStore :=
  {| ss_conn := db; ss_ordinary_id_high_water := ∅ |}.
End Store.
