(* ===== verification/StoreRows.v ===== *)
(** * Rows of the store and how they read back

    Facts about the tables of [Store]: the key order of a query, what an insertion
    adds to it, the laws of the text columns, and that a stored event reads back
    with its signature. *)
From S2P Require Import Prelude RustStr Host LedgerPayloads TrustSpine Digests Events SigningSpec Tape TapeSpec WorkflowGraph Canonicalize CanonicalizeSpec Engine EngineSpec Store.
From Stdlib Require Import Lia.
From stdpp Require Import base list gmap strings sorting.

#[local] Open Scope string_scope.
#[local] Open Scope list_scope.
#[local] Open Scope Z_scope.

(** ** Tables in key order *)
Section Tables.
Context {A : Type}.
Implicit Types (m : gmap string A) (p : A -> bool).

#[local] Instance key_le_trans : Transitive (@key_le A).
Proof.
  intros [k1 ?] [k2 ?] [k3 ?]. unfold key_le. cbn. rewrite <- !Is_true_true.
  apply (transitivity (R := String.le)).
Qed.
#[local] Instance key_le_total : Total (@key_le A).
Proof. intros [k1 ?] [k2 ?]. apply String.leb_total. Qed.

Lemma btree_sorted m : StronglySorted key_le (btree_list m).
Proof. apply StronglySorted_merge_sort; apply _. Qed.

Lemma btree_keys_nodup m : NoDup (btree_list m).*1.
Proof. rewrite btree_list_permutation. apply NoDup_fst_map_to_list. Qed.

(** The entries in key order are determined by the map. *)
Lemma btree_unique m l :
  StronglySorted key_le l -> l ≡ₚ map_to_list m -> l = btree_list m.
Proof.
  intros Hl Hp. eapply (StronglySorted_unique_strong key_le); [|done|apply btree_sorted|].
  - intros [k1 a1] [k2 a2] H1 H2 Hle Hge.
    assert (k1 = k2) as -> by (by apply String.leb_antisym).
    rewrite Hp in H1. apply elem_of_map_to_list in H1. apply elem_of_btree_list in H2. congruence.
  - by rewrite btree_list_permutation.
Qed.

Lemma sorted_sublist_filter p (l : list (string * A)) :
  StronglySorted key_le l -> StronglySorted key_le (List.filter (p ∘ snd) l).
Proof.
  induction 1 as [|x l Hs IH Hall]; cbn; [constructor|].
  destruct (p x.2); [|done]. constructor; [done|].
  apply Forall_forall. intros y Hy%list_elem_of_In%filter_In.
  rewrite Forall_forall in Hall. apply Hall. apply list_elem_of_In. by destruct Hy.
Qed.

(** The entries of a map that satisfy a predicate. *)
Definition satisfying p m : gmap string A := filter (fun kv => p kv.2 = true) m.

Lemma btree_filter p m :
  List.filter p (btree_list m).*2 = (btree_list (satisfying p m)).*2.
Proof.
  assert (List.filter p (btree_list m).*2 = (List.filter (p ∘ snd) (btree_list m)).*2) as ->.
  { induction (btree_list m) as [|x l IH]; cbn; [done|]. destruct (p x.2); cbn; by rewrite IH. }
  f_equal. apply btree_unique; [apply sorted_sublist_filter, btree_sorted|].
  apply NoDup_Permutation.
  - apply (NoDup_fmap_1 fst). eapply sublist_NoDup; [apply (btree_keys_nodup m)|].
    apply fmap_sublist. induction (btree_list m) as [|x l IH]; cbn; [done|].
    destruct (p x.2); by constructor.
  - apply NoDup_map_to_list.
  - intros [k a]. rewrite list_elem_of_In, filter_In, <- list_elem_of_In, elem_of_btree_list,
      elem_of_map_to_list. unfold satisfying. by rewrite map_lookup_filter_Some.
Qed.

(** An entry beyond all others comes last. *)
Lemma btree_insert_last m k a :
  (forall k', is_Some (m !! k') -> String.leb k' k = true) -> m !! k = None ->
  btree_list (<[k := a]> m) = btree_list m ++ [(k, a)].
Proof.
  intros Hlast Hk. symmetry. apply btree_unique.
  - assert (Forall (fun x => key_le x (k, a)) (btree_list m)) as Hall.
    { apply Forall_forall. intros [k' a'] Hin%elem_of_btree_list. apply Hlast. eauto. }
    pose proof (btree_sorted m) as Hs. induction Hs as [|x l Hs IH Hx]; cbn.
    + repeat constructor.
    + apply Forall_cons in Hall as [??]. constructor; [by apply IH|].
      apply Forall_app. split; [done|]. by repeat constructor.
  - rewrite (map_to_list_insert m k a Hk), btree_list_permutation. by rewrite Permutation_app_comm.
Qed.

Lemma select_insert_other p m k a :
  m !! k = None -> p a = false ->
  List.filter p (btree_list (<[k := a]> m)).*2 = List.filter p (btree_list m).*2.
Proof.
  intros Hk Hp. rewrite !btree_filter. unfold satisfying.
  rewrite map_filter_insert_False by (cbn; congruence). by rewrite delete_id.
Qed.

Lemma select_insert_last p m k a :
  m !! k = None -> p a = true ->
  (forall k' a', m !! k' = Some a' -> p a' = true -> String.leb k' k = true) ->
  List.filter p (btree_list (<[k := a]> m)).*2 = List.filter p (btree_list m).*2 ++ [a].
Proof.
  intros Hk Hp Hlast. rewrite !btree_filter. unfold satisfying.
  rewrite map_filter_insert_True by done. rewrite btree_insert_last, fmap_app; [done|..].
  - intros k' [a' [Ha' Hpa]%map_lookup_filter_Some]. by eapply Hlast.
  - apply map_lookup_filter_None. by left.
Qed.

Lemma elem_of_select p m a :
  a ∈ List.filter p (btree_list m).*2 <-> exists k, m !! k = Some a /\ p a = true.
Proof.
  rewrite list_elem_of_In, filter_In, <- list_elem_of_In, list_elem_of_fmap. split.
  - intros [([k ?] & -> & Hin%elem_of_btree_list) Hp]. eauto.
  - intros (k & Hk & Hp). split; [|done]. exists (k, a). split; [done|]. by apply elem_of_btree_list.
Qed.
End Tables.

(** ** The laws of the text columns *)

Definition uuid_ok (u : Uuid) : Prop := 0 <= u < 2 ^ 128.

(** A payload whose stored text parses back to it. *)
Definition payload_reads_back `{RowDecoder, RowEncoder} (payload : Payload) : Prop :=
  forall text, payload_to_string payload = Ok text ->
  exists value, json_from_str text = Some value /\ payload_from_value value = Ok payload.

(** The documented behaviour of [uuid], [chrono] and [serde_json] the store relies
    on: the hyphenated text of a UUID parses back, and its byte order is the order
    of the 128-bit values; an RFC 3339 instant parses back; so does a checkpoint. *)
Class RowLaws `{Host, RowDecoder, RowEncoder} : Prop := {
  uuid_round_trip : forall u, uuid_ok u -> uuid_parse_str (uuid_to_string u) = Some u;
  uuid_text_order : forall a b, uuid_ok a -> uuid_ok b -> a <= b ->
    String.leb (uuid_to_string a) (uuid_to_string b) = true;
  rfc3339_round_trip : forall t, parse_from_rfc3339 (to_rfc3339 t) = Some t;
  checkpoint_round_trip : forall c, payload_reads_back (Payload_TapeCheckpointV1 c)
}.

Section Rows.
Context `{Host, Canonicalizer, Crypto, RowDecoder, RowEncoder, !RowLaws}.
Implicit Types (db : Database) (row : StoredRow) (event : Event) (run_id : RunId).

Lemma show_inj a b : uuid_ok a -> uuid_ok b -> uuid_to_string a = uuid_to_string b -> a = b.
Proof. intros Ha Hb Hs. pose proof (uuid_round_trip a Ha) as Hr. rewrite Hs, uuid_round_trip in Hr by done. congruence. Qed.

Lemma show_lt a b : uuid_ok a -> uuid_ok b ->
  String.leb (uuid_to_string a) (uuid_to_string b) = true -> a <> b -> a < b.
Proof.
  intros Ha Hb Hle Hne. destruct (Z.lt_total a b) as [|[|Hgt]]; [done|done|].
  exfalso. apply Hne, show_inj; [done..|]. apply String.leb_antisym; [done|].
  apply uuid_text_order; [done..|lia].
Qed.

(** [row] is keyed by the text of the UUID [u]. *)
Definition row_uuid row (u : EventId) : Prop := uuid_ok u /\ row_id row = uuid_to_string u.

Lemma row_uuid_unique row u u' : row_uuid row u -> row_uuid row u' -> u = u'.
Proof. intros [Hu Hr] [Hu' Hr']. apply show_inj; [done..|congruence]. Qed.

Lemma row_uuid_parse row u : row_uuid row u -> uuid_parse_str (row_id row) = Some u.
Proof. intros [Hu ->]. by apply uuid_round_trip. Qed.

Lemma row_uuid_event_id row u kind : row_uuid row u -> parse_event_id (row_id row) kind = Ok u.
Proof. intros Hu%row_uuid_parse. unfold parse_event_id. by rewrite Hu. Qed.

(** Primary and foreign keys. *)
Record db_wf db : Prop := {
  wf_event : forall k row, db_events db !! k = Some row ->
    row_id row = k /\ exists u, row_uuid row u;
  wf_signature : forall k srow, db_event_signatures db !! k = Some srow ->
    is_Some (db_events db !! k)
}.

Definition row_lt row1 row2 : Prop :=
  forall u1 u2, row_uuid row1 u1 -> row_uuid row2 u2 -> u1 < u2.

Lemma select_sorted db p :
  db_wf db -> StronglySorted row_lt (List.filter p (btree_list (db_events db)).*2).
Proof.
  intros Hwf. rewrite btree_filter. set (m := satisfying p (db_events db)).
  assert (forall k row, (k, row) ∈ btree_list m -> row_id row = k) as Hkey.
  { intros k row Hin%elem_of_btree_list. apply map_lookup_filter_Some in Hin as [Hin _].
    by apply (wf_event _ Hwf) in Hin as [? _]. }
  pose proof (btree_keys_nodup m) as Hnd. pose proof (btree_sorted m) as Hs. clearbody m.
  induction Hs as [|[k row] l Hs IH Hall]; cbn; [constructor|].
  cbn in Hnd. apply NoDup_cons in Hnd as [Hnotin Hnd].
  constructor; [apply IH; [set_solver|done]|].
  apply Forall_forall. intros row' ([k' r] & -> & Hin)%list_elem_of_fmap u1 u2 Hu1 Hu2.
  rewrite Forall_forall in Hall. specialize (Hall _ Hin). cbn in *.
  pose proof (Hkey k row ltac:(set_solver)) as Hk. pose proof (Hkey k' r ltac:(set_solver)) as Hk'.
  destruct Hu1 as [Ho1 He1], Hu2 as [Ho2 He2]. apply show_lt; [done..| |].
  - unfold key_le in Hall. cbn in Hall. congruence.
  - intros ->. apply Hnotin. apply list_elem_of_fmap. exists (k', r). split; [cbn; congruence|done].
Qed.

(** ** Reading rows *)

Lemma to_event_iff row event : to_event row = Ok event <-> row_to_event row = Ok event.
Proof.
  unfold to_event, row_to_event, parse_event_id, parse_run_id, ok_or, result_map.
  destruct (uuid_parse_str (row_id row)); cbn [result_bind map_err]; [|done].
  destruct (uuid_parse_str (row_run_id row)); cbn [result_bind map_err]; [|done].
  destruct (row_parent_event_id row) as [parent|]; cbn [result_bind map_err];
    [destruct (uuid_parse_str parent); cbn [result_bind map_err]; [|done]|];
    (destruct (event_kind_from_value (row_kind row)); [|by destruct (parse_from_rfc3339 (row_occurred_at row))]);
    (destruct (parse_from_rfc3339 (row_occurred_at row)); [|done]);
    (destruct (json_from_str (row_payload row)) as [value|]; [|done]);
    destruct (canonicalize_payload payload_from_value (row_kind row) (row_schema_version row) value);
    cbn [result_bind map_err]; split; congruence.
Qed.

Lemma to_event_signature_iff srow signature :
  to_event_signature srow = Ok signature <->
  srow_algorithm srow = "ed25519" /\ row_to_event_signature srow = Ok signature.
Proof.
  unfold to_event_signature, row_to_event_signature, parse_event_id, ok_or.
  destruct (uuid_parse_str (srow_event_id srow)); cbn; [|naive_solver].
  destruct (bool_decide_reflect (srow_algorithm srow = "ed25519")); cbn; [|naive_solver].
  destruct (parse_from_rfc3339 (srow_signed_at srow)); naive_solver.
Qed.

(** The verified event of a row, as the reader computes it. *)
Definition reads db (keys : TrustedPublicKeys) row (v : VerifiedEvent) : Prop :=
  verify_row keys {| svr_event := row; svr_signature := signature_for_event db (row_id row) |} = Ok v.

Lemma reads_event db keys row v : reads db keys row v -> row_to_event row = Ok (ve_event v).
Proof. unfold reads, verify_row. cbn. intros Hr. guards. by subst. Qed.

Lemma row_to_event_id row event u : row_to_event row = Ok event -> row_uuid row u -> ev_id event = u.
Proof. intros Hr Hu%row_uuid_parse. unfold row_to_event in Hr. guards; subst; cbn; congruence. Qed.

Lemma row_to_event_run row event run_id :
  row_to_event row = Ok event -> uuid_ok run_id -> row_run_id row = uuid_to_string run_id ->
  ev_run_id event = run_id.
Proof.
  intros Hr Hu Hrun. unfold row_to_event in Hr. rewrite Hrun, uuid_round_trip in Hr by done.
  guards; by subst.
Qed.

Lemma row_to_event_kind row event : row_to_event row = Ok event -> as_wire (ev_kind event) = row_kind row.
Proof.
  unfold row_to_event. intros Hr. guards; subst; cbn; by apply event_kind_from_value_wire.
Qed.

Lemma as_wire_inj k1 k2 : as_wire k1 = as_wire k2 -> k1 = k2.
Proof.
  intros Hw. apply kind_variant_inj. pose proof (kind_to_variant_wire k1) as Hk.
  rewrite Hw, kind_to_variant_wire in Hk. congruence.
Qed.

Lemma checkpoint_row_iff row event :
  row_to_event row = Ok event ->
  is_checkpoint_row row = true <-> ev_kind event = EventKind_TapeCheckpoint.
Proof.
  intros Hk%row_to_event_kind. unfold is_checkpoint_row, CHECKPOINT_KIND.
  rewrite bool_decide_eq_true, <- Hk. split; [apply as_wire_inj|congruence].
Qed.

(** A signed row reads as verified once its signature verifies. *)
Lemma read_signed_row_verified db keys row event signature :
  read_signed_row db row = Ok (event, Some signature) ->
  verify_event_signature event signature keys = VerificationStatus_Verified ->
  reads db keys row {| ve_event := event; ve_verification := VerificationStatus_Verified;
                       ve_signature := Some signature |}.
Proof.
  unfold read_signed_row, reads, verify_row, verify_stored_signature. cbn. intros Hr Hv.
  destruct (to_event row) as [e|] eqn:He; [|done]. apply to_event_iff in He. rewrite He. cbn in Hr |- *.
  destruct (signature_for_event db (row_id row)) as [srow|]; [|done].
  destruct (to_event_signature srow) as [sig|] eqn:Hs; [|done]. cbn in Hr. simplify_eq.
  apply to_event_signature_iff in Hs as [Halg Hs].
  rewrite bool_decide_true by done. cbn. rewrite Hs. cbn. by rewrite Hv.
Qed.

(** Keys that agree on the signer's key give the same verdict. *)
Lemma verified_under_more_keys event signature keys keys' :
  (forall h b, tpk_by_public_key_hash keys !! h = Some b ->
               tpk_by_public_key_hash keys' !! h = Some b) ->
  verify_event_signature event signature keys = VerificationStatus_Verified ->
  verify_event_signature event signature keys' = VerificationStatus_Verified.
Proof.
  intros Hsub [Hid Hh (kh & kb & rest)]%verified_sound. apply verified_complete.
  split; [done..|]. exists kh, kb. destruct rest as (key & raw & message & Hkh & Hkb & Hrest).
  exists key, raw, message. split; [done|]. split; [by apply Hsub|done].
Qed.

(** ** Writing rows *)

Lemma insert_event_ok db event db' :
  insert_event db event = Ok db' <->
  exists text, payload_to_string (ev_payload event) = Ok text /\
    db_events db !! uuid_to_string (ev_id event) = None /\
    db' = {| db with db_events :=
               <[uuid_to_string (ev_id event) := event_row event text]> (db_events db) |}.
Proof.
  unfold insert_event. destruct (payload_to_string (ev_payload event)) as [text|]; cbn; [|naive_solver].
  destruct (db_events db !! _) eqn:Hk; cbn; naive_solver.
Qed.

Lemma insert_signature_ok db signature db' :
  insert_event_signature db signature = Ok db' <->
  db_event_signatures db !! uuid_to_string (es_event_id signature) = None /\
  is_Some (db_events db !! uuid_to_string (es_event_id signature)) /\
  db' = {| db with db_event_signatures :=
             <[uuid_to_string (es_event_id signature) := signature_row signature]>
               (db_event_signatures db) |}.
Proof.
  unfold insert_event_signature. destruct (db_event_signatures db !! _); cbn; [naive_solver|].
  destruct (db_events db !! _); cbn; [|by unfold is_Some; naive_solver].
  split; [intros [= <-]; eauto|naive_solver].
Qed.

Lemma insert_event_wf db event db' :
  db_wf db -> uuid_ok (ev_id event) -> insert_event db event = Ok db' -> db_wf db'.
Proof.
  intros [He Hs] Hid (text & _ & _ & ->)%insert_event_ok. split; cbn.
  - intros k row [[<- <-]|[_ Hk]]%lookup_insert_Some; [|by eauto]. split; [done|]. by exists (ev_id event).
  - intros k srow Hk%Hs. destruct (decide (k = uuid_to_string (ev_id event))) as [->|].
    + rewrite lookup_insert_eq. eauto.
    + by rewrite lookup_insert_ne.
Qed.

Lemma insert_signature_wf db signature db' :
  db_wf db -> insert_event_signature db signature = Ok db' -> db_wf db'.
Proof.
  intros [He Hs] (_ & Hk & ->)%insert_signature_ok. split; cbn; [done|].
  intros k srow [[<- _]|[_ Hks]]%lookup_insert_Some; [done|by eauto].
Qed.

Lemma event_kind_from_wire kind : event_kind_from_value (as_wire kind) = Some kind.
Proof. by destruct kind. Qed.

(** A canonical event reads back from its row. *)
Lemma event_row_reads_back event text :
  uuid_ok (ev_id event) -> uuid_ok (ev_run_id event) ->
  (forall parent, ev_parent_event_id event = Some parent -> uuid_ok parent) ->
  ev_schema_version event = CURRENT_SCHEMA_VERSION ->
  payload_kind (ev_payload event) = ev_kind event ->
  validate_payload_semantics (as_wire (ev_kind event)) (ev_payload event) = Ok tt ->
  payload_reads_back (ev_payload event) -> payload_to_string (ev_payload event) = Ok text ->
  row_to_event (event_row event text) = Ok event.
Proof.
  intros Hid Hrun Hparent Hv Hkind Hsem Hback (value & Hj & Hp)%Hback.
  unfold row_to_event, event_row, canonicalize_payload.
  cbn [row_id row_run_id row_parent_event_id row_schema_version row_kind row_occurred_at row_payload].
  rewrite !uuid_round_trip, rfc3339_round_trip, event_kind_from_wire, Hj, Hv by done.
  rewrite bool_decide_true by done. cbn [negb]. rewrite Hp. cbn [map_err result_bind].
  rewrite (proj2 (kind_matches_iff _ _)) by done. cbn [result_bind]. rewrite Hsem. cbn [result_bind map_err].
  destruct event as [id run parent version kind at_ payload]; cbn in *.
  destruct parent as [parent|]; cbn; [rewrite uuid_round_trip by auto; cbn|]; by subst.
Qed.

Lemma signature_row_reads_back signature :
  uuid_ok (es_event_id signature) -> row_to_event_signature (signature_row signature) = Ok signature.
Proof.
  intros Hid. unfold row_to_event_signature, signature_row. cbn.
  rewrite uuid_round_trip, rfc3339_round_trip by done.
  by destruct signature as [? ? [] [] ? ?].
Qed.

(** A row that carries the signature of its event reads as verified. *)
Lemma signed_row_reads db keys row event signature :
  row_to_event row = Ok event -> uuid_ok (es_event_id signature) ->
  signature_for_event db (row_id row) = Some (signature_row signature) ->
  verify_event_signature event signature keys = VerificationStatus_Verified ->
  reads db keys row {| ve_event := event; ve_verification := VerificationStatus_Verified;
                       ve_signature := Some signature |}.
Proof.
  intros He Hid Hs Hv. apply read_signed_row_verified; [|done].
  unfold read_signed_row. rewrite (proj2 (to_event_iff _ _) He), Hs. cbn [result_bind].
  rewrite (proj2 (to_event_signature_iff (signature_row signature) signature)); [done|].
  split; [by destruct signature as [? ? ? [] ? ?]|]. by apply signature_row_reads_back.
Qed.

(** A signature made by a key verifies under keys that hold it. *)
Lemma signed_verifies `{!CryptoLaws _} event key signer at_ signature keys :
  sign_event event key signer at_ = Ok signature ->
  tpk_by_public_key_hash keys !! public_key_hash (verifying_key key) =
    Some (verifying_key_as_bytes (verifying_key key)) ->
  verify_event_signature event signature keys = VerificationStatus_Verified.
Proof.
  intros (message & Hm & Hid & Hh & Hs & Hsig)%sign_event_Ok Hkey. apply verified_complete.
  split; [done..|]. rewrite Hsig, Hs. cbn. eexists _, _, _, _, _. rewrite base64_round_trip.
  split_and!; try done; [apply key_length|apply key_bytes_round_trip|apply sign_length|
    apply sign_verifies].
Qed.
End Rows.
