(* ===== verification/StoreSeal.v ===== *)
(** * What a seal checks, and what the replay verifier checks

    The chain check of the governed seal is characterised step by step, and a
    database whose checkpoints pass it reads as a tape that
    [verify_full_tape_integrity_v1] accepts up to its last checkpoint. *)
From S2P Require Import Prelude RustStr Host LedgerPayloads TrustSpine Digests Events SigningSpec Tape TapeSpec WorkflowGraph Canonicalize CanonicalizeSpec Engine EngineSpec Store StoreRows.
From Stdlib Require Import Lia.
From stdpp Require Import base list gmap strings sorting.

#[local] Open Scope string_scope.
#[local] Open Scope list_scope.
#[local] Open Scope Z_scope.

(** ** Prefix roots *)
Section Roots.
Context `{Host}.

Definition hashes_of (covered : list SignedOrdinaryEvent) : list string :=
  soe_canonical_event_hash <$> covered.

Lemma prefix_roots_from_lookup pre covered i :
  (i < length covered)%nat ->
  prefix_roots_from (join_newline pre) (length pre) covered !! i =
  Some (tape_root_hash (pre ++ take (S i) (hashes_of covered))).
Proof.
  revert pre i. induction covered as [|e l IH]; intros pre i Hi; cbn in Hi; [lia|].
  cbn [prefix_roots_from]. cbn zeta.
  assert ((if (0 <? length pre)%nat then join_newline pre +:+ newline else join_newline pre)
            +:+ soe_canonical_event_hash e = join_newline (pre ++ [soe_canonical_event_hash e])) as ->.
  { rewrite join_newline_snoc. destruct pre as [|a pre]; [done|].
    rewrite decide_False by done. cbn [length Nat.ltb Nat.leb]. by rewrite str_app_assoc. }
  destruct i as [|i]; cbn [lookup list_lookup].
  - done.
  - replace (S (length pre)) with (length (pre ++ [soe_canonical_event_hash e]))
      by (rewrite length_app; cbn; lia).
    rewrite IH by lia. do 2 f_equal. cbn. by rewrite <- app_assoc.
Qed.

Lemma prefix_roots_lookup covered i :
  (i < length covered)%nat ->
  tape_prefix_roots covered !! i = Some (tape_root_hash (take (S i) (hashes_of covered))).
Proof. apply (prefix_roots_from_lookup []). Qed.

Lemma prefix_roots_length covered : length (tape_prefix_roots covered) = length covered.
Proof.
  unfold tape_prefix_roots. generalize EmptyString 0%nat.
  induction covered as [|e l IH]; intros h n; cbn; [done|]. by rewrite IH.
Qed.

Lemma prefix_roots_last covered :
  covered <> [] -> last (tape_prefix_roots covered) = Some (tape_root_hash (hashes_of covered)).
Proof.
  intros Hne. rewrite last_lookup, prefix_roots_length.
  destruct covered as [|e l]; [done|]. rewrite prefix_roots_lookup by (cbn; lia).
  do 2 f_equal. apply take_ge. unfold hashes_of. by rewrite length_fmap.
Qed.
End Roots.

(** ** The chain check *)
Section Chain.
Context `{Host, Canonicalizer, Crypto, RowDecoder, RowEncoder}.
Context (run_id : RunId) (covered : list SignedOrdinaryEvent) (kernel : ActorKeyRef)
  (keys : TrustedPublicKeys).
Context (Hkernel : is_Some (akr_public_key_hash kernel)).

(** What one checkpoint of the run must satisfy, [n] checkpoints into the chain. *)
Record seals (n : Z) (previous : option (EventId * nat)) (event : Event)
    (payload : TapeCheckpointV1) (signature : EventSignatureV1) (through : nat) : Prop := {
  seal_payload : ev_payload event = Payload_TapeCheckpointV1 payload;
  seal_run : ev_run_id event = run_id /\ tc_run_id payload = run_id;
  seal_signer : es_signer signature = kernel;
  seal_verified : verify_event_signature event signature keys = VerificationStatus_Verified;
  seal_algorithm : tc_algorithm payload = TapeRootAlgorithm_Sha256Linear;
  seal_parent : ev_parent_event_id event = Some (tc_through_event_id payload);
  seal_count : tc_through_event_count payload = Z.of_nat (S through);
  seal_through : exists e, covered !! through = Some e /\ soe_event_id e = tc_through_event_id payload;
  seal_root : tc_tape_root_hash payload = tape_root_hash (take (S through) (hashes_of covered));
  seal_index : tc_checkpoint_index payload = n;
  seal_previous : tc_previous_checkpoint_event_id payload = fst <$> previous;
  seal_advances : forall q, previous = Some q -> (q.2 < through)%nat;
  seal_bound : n + 1 < 2 ^ 64
}.

Lemma actor_matches_iff actual : actor_matches kernel actual = true <-> actual = kernel.
Proof.
  unfold actor_matches. destruct Hkernel as [h Hh]. rewrite Hh. cbn.
  rewrite !andb_true_iff, !bool_decide_eq_true. destruct kernel, actual; cbn in *. naive_solver.
Qed.

Abbreviation verify_step := (verify_sealed_checkpoint run_id covered (tape_prefix_roots covered)
  kernel keys).

Lemma verify_step_ok n previous item n' previous' :
  verify_step n previous item = Ok (n', previous') <->
  exists event signature payload through, item = (event, Some signature) /\
    seals n previous event payload signature through /\
    n' = n + 1 /\ previous' = Some (ev_id event, through).
Proof.
  destruct item as [event osig]. unfold verify_sealed_checkpoint. split.
  - destruct osig as [signature|]; [|done]. intros Hv.
    destruct (_ || _) eqn:Hg in Hv; [done|].
    destruct (ev_payload event) as [] eqn:Hp; try done. rename p into payload.
    guards. rename select (actor_matches _ _ = true) into Hm. apply actor_matches_iff in Hm.
    assert (exists through, Z.to_nat (tc_through_event_count payload) = S through) as [through Ht].
    { destruct (Z.to_nat (tc_through_event_count payload)); [done|eauto]. }
    rename select (covered !! _ = Some _) into Hc. rename select (tape_prefix_roots covered !! _ = Some _) into Hr.
    rewrite Ht in *. cbn in Hc, Hr. rewrite Nat.sub_0_r in *.
    rewrite prefix_roots_lookup in Hr by (by eapply lookup_lt_Some).
    exists event, signature, payload, through. split; [done|]. simplify_eq.
    split; [|split; [done|by cbn; rewrite ?Nat.sub_0_r]].
    split; try done; [lia|by eauto|].
    intros q ->. rename select (is_some_and _ _ = false) into Hadv. cbn in Hadv.
    rewrite ?Nat.sub_0_r in Hadv. bool_simp. lia.
  - intros (event' & signature & payload & through & Hi & Hs & -> & ->). simplify_eq.
    destruct Hs as [Hp [Hr Hr'] Hsig Hv Ha Hpar Hc (e & He & Het) Hroot Hi Hprev Hadv Hb].
    pose proof (lookup_lt_Some _ _ _ He) as Hlt.
    rewrite Hr, Hv, Hp, Hr', Ha, Hpar, Hc, !bool_decide_true, (proj2 (actor_matches_iff _)) by done.
    cbn [negb orb]. rewrite Nat2Z.id. cbn [Nat.eqb orb].
    rewrite (proj2 (Nat.ltb_ge _ _)) by lia. replace (S through - 1)%nat with through by lia.
    rewrite He. cbn. rewrite Het, bool_decide_true by done. cbn.
    rewrite prefix_roots_lookup, Hroot, !bool_decide_true by done. cbn.
    destruct previous as [q|]; cbn.
    + rewrite (proj2 (Nat.leb_gt _ _)) by (by apply Hadv). rewrite (proj2 (Z.leb_gt _ _)) by lia. done.
    + rewrite (proj2 (Z.leb_gt _ _)) by lia. done.
Qed.

(** The loop with its final state. *)
Fixpoint seal_fold (n : Z) (previous : option (EventId * nat))
    (items : list (Event * option EventSignatureV1))
    : Result (Z * option (EventId * nat)) StoreFailure :=
  match items with
  | [] => Ok (n, previous)
  | item :: rest => let* (n, previous) := verify_step n previous item in seal_fold n previous rest
  end.

Lemma seal_fold_unit n previous items :
  verify_sealed_checkpoints run_id covered (tape_prefix_roots covered) kernel keys n previous items =
  result_map (fun _ => tt) (seal_fold n previous items).
Proof.
  revert n previous. induction items as [|item items IH]; intros n previous; cbn; [done|].
  destruct (verify_step n previous item) as [[n' previous']|]; cbn; [apply IH|done].
Qed.

Lemma seal_fold_snoc n previous items item :
  seal_fold n previous (items ++ [item]) =
  let* (n, previous) := seal_fold n previous items in verify_step n previous item.
Proof.
  revert n previous. induction items as [|i items IH]; intros n previous; cbn.
  - by destruct (verify_step n previous item) as [[]|].
  - destruct (verify_step n previous i) as [[n' previous']|]; cbn; [apply IH|done].
Qed.

(** The state after the chain: the count and the last checkpoint. *)
Lemma seal_fold_last items n previous :
  seal_fold 0 None items = Ok (n, previous) ->
  n = Z.of_nat (length items) /\
  match last items with
  | None => previous = None
  | Some item => exists event signature payload through before,
      item = (event, Some signature) /\ seals (n - 1) before event payload signature through /\
      previous = Some (ev_id event, through)
  end.
Proof.
  destruct items as [|item items _] using rev_ind; cbn.
  - intros [= <- <-]. done.
  - revert n previous. rewrite seal_fold_snoc, length_app. intros n previous Hf.
    apply bind_ok in Hf as ([n0 p0] & Hf & Hv). apply verify_step_ok in Hv.
    destruct Hv as (event & signature & payload & through & -> & Hs & -> & ->).
    assert (n0 = Z.of_nat (length items)) as ->.
    { clear Hs. revert n0 p0 Hf. induction items as [|i items IH] using rev_ind; intros n0 p0.
      - by intros [= <- <-].
      - rewrite seal_fold_snoc, length_app. intros ([n1 p1] & Hf & Hv)%bind_ok.
        apply verify_step_ok in Hv as (? & ? & ? & ? & _ & _ & -> & _). apply IH in Hf. cbn. lia. }
    split; [cbn; lia|]. rewrite last_snoc. eexists event, signature, payload, through, p0.
    split; [done|]. by replace (Z.of_nat (length items) + 1 - 1) with (Z.of_nat (length items)) by lia.
Qed.
End Chain.

(** ** From the store to the replay verifier *)
Section Reading.
Context `{Host, Canonicalizer, Crypto, RowDecoder, RowEncoder, !RowLaws}.
Implicit Types (db : Database) (row : StoredRow) (keys : TrustedPublicKeys) (run_id : RunId).

Definition run_rows db run_id : list StoredRow := events_for_run db (uuid_to_string run_id).
Definition ordinary_rows db run_id : list StoredRow :=
  List.filter (fun row => negb (is_checkpoint_row row)) (run_rows db run_id).
Definition checkpoint_rows db run_id : list StoredRow :=
  List.filter is_checkpoint_row (run_rows db run_id).

Lemma elem_of_run_rows db run_id row :
  row ∈ run_rows db run_id <->
  exists k, db_events db !! k = Some row /\ row_run_id row = uuid_to_string run_id.
Proof.
  unfold run_rows, events_for_run. rewrite elem_of_select.
  by setoid_rewrite bool_decide_eq_true.
Qed.

Lemma run_row_uuid db run_id row :
  db_wf db -> row ∈ run_rows db run_id -> db_events db !! row_id row = Some row /\ exists u, row_uuid row u.
Proof.
  intros Hwf (k & Hk & _)%elem_of_run_rows. destruct (wf_event _ Hwf _ _ Hk) as [Hid Hu].
  by rewrite Hid.
Qed.

Lemma reads_unique db keys row v v' : reads db keys row v -> reads db keys row v' -> v = v'.
Proof. unfold reads. congruence. Qed.

Lemma reads_all_unique db keys rows vs vs' :
  Forall2 (reads db keys) rows vs -> Forall2 (reads db keys) rows vs' -> vs = vs'.
Proof.
  intros Hv. revert vs'. induction Hv as [|row v rows vs Hr _ IH]; intros vs'; inversion 1; subst; [done|].
  f_equal; [by eapply reads_unique|by apply IH].
Qed.

Lemma reads_exist db keys rows :
  Forall (fun row => exists v, reads db keys row v) rows -> exists vs, Forall2 (reads db keys) rows vs.
Proof.
  induction 1 as [|row rows [v Hv] _ [vs IH]]; [by exists []|]. exists (v :: vs). by constructor.
Qed.

Lemma Forall2_select {A B} (R : A -> B -> Prop) (p : A -> bool) (P : B -> Prop)
    `{!forall b, Decision (P b)} l k :
  Forall2 R l k -> (forall a b, R a b -> p a = true <-> P b) ->
  Forall2 R (List.filter p l) (filter P k).
Proof.
  intros Hl Hp. induction Hl as [|a b l k Hab _ IH]; cbn [List.filter]; [constructor|].
  rewrite filter_cons. specialize (Hp a b Hab).
  destruct (p a), (decide (P b)); naive_solver.
Qed.

Lemma reads_checkpoint db keys row v :
  reads db keys row v -> is_checkpoint_row row = true <-> is_checkpoint v.
Proof. intros Hr%reads_event. by apply checkpoint_row_iff. Qed.

Definition soe_of (s : VerifiedEvent * EventSignatureV1) : SignedOrdinaryEvent :=
  {| soe_event_id := event_id s.1; soe_canonical_event_hash := signed_hash s |}.

Lemma verify_not_unsigned event signature keys :
  verify_event_signature event signature keys <> VerificationStatus_Unsigned.
Proof. unfold verify_event_signature. repeat case_match; done. Qed.

(** The join of ordinary events with signatures sees the signed ordinary events of
    the tape. *)
Lemma signed_join_reads db keys rows vs :
  Forall (fun row => exists u, row_uuid row u) rows ->
  Forall2 (reads db keys) rows vs -> Forall ordinary_ok vs ->
  collect_results (fun '(row, signature) =>
    let* event_id := parse_event_id (row_id row) "signed ordinary event" in
    Ok {| soe_event_id := event_id;
          soe_canonical_event_hash := srow_canonical_event_hash signature |})
    (omap (fun row =>
          if is_checkpoint_row row then None else
          signature ← signature_for_event db (row_id row);
          if srow_algorithm signature == "ed25519" then Some (row, signature) else None) rows) =
  Ok (soe_of <$> signed_ordinary vs).
Proof.
  intros Hu Hr. revert Hu. induction Hr as [|row v rows vs Hv _ IH]; intros Hu Hok; [done|].
  apply Forall_cons in Hu as [[u Hu] Hus], Hok as [Hok Hoks].
  specialize (IH Hus Hoks). unfold signed_ordinary in *. cbn [omap list_omap].
  pose proof (reads_checkpoint _ _ _ _ Hv) as Hc. unfold signed_of at 1.
  destruct (is_checkpoint_row row).
  { rewrite decide_True by (by apply Hc). done. }
  rewrite decide_False by (intros Hx; by apply Hc in Hx).
  assert (~ is_checkpoint v) as Hnc by (intros Hx; by apply Hc in Hx).
  pose proof (reads_event _ _ _ _ Hv) as He. pose proof (row_to_event_id _ _ _ He Hu) as Hid.
  unfold reads, verify_row in Hv. cbn [svr_event svr_signature] in Hv.
  apply bind_ok in Hv as (event & He' & Hv). rewrite He in He'. apply Ok_inj in He'.
  unfold verify_stored_signature in Hv.
  destruct (signature_for_event db (row_id row)) as [srow|]; cbn [mbind option_bind] in *.
  2: { cbn in Hv. apply Ok_inj in Hv. rewrite <- Hv. done. }
  destruct (bool_decide_reflect (srow_algorithm srow = "ed25519")) as [Ha|]; cbn [negb] in Hv.
  2: { exfalso. cbn in Hv. apply Ok_inj in Hv. rewrite <- Hv in Hok, Hnc. destruct Hok as [?|[?|[??]]]; done. }
  apply bind_ok in Hv as ([ver sig] & Hs & Hv). apply bind_ok in Hs as (s & Hs & Hvs).
  apply Ok_inj in Hvs, Hv. simplify_eq. cbn [ve_verification ve_signature ve_event] in *.
  destruct Hok as [?|[Hun|[Hver _]]]; [done|by apply verify_not_unsigned in Hun|]. cbn in Hver.
  cbn [collect_results]. rewrite (row_uuid_event_id _ _ _ Hu). cbn [result_bind].
  rewrite IH. cbn [result_bind]. rewrite decide_True by done. cbn [fmap option_fmap option_map list_fmap].
  do 2 f_equal. unfold soe_of, event_id, signed_hash. cbn. f_equal.
  unfold row_to_event_signature in Hs. guards. by subst.
Qed.

Lemma covered_reads db keys run_id vs :
  db_wf db -> Forall2 (reads db keys) (run_rows db run_id) vs -> Forall ordinary_ok vs ->
  signed_ordinary_events_for_connection db run_id = Ok (soe_of <$> signed_ordinary vs).
Proof.
  intros Hwf Hr Hok. apply (signed_join_reads db keys); [|done..].
  apply Forall_forall. intros row Hin. by apply (run_row_uuid db run_id row) in Hin as [_ ?].
Qed.

(** A sealed checkpoint, as the replay verifier sees it. *)
Definition sealed_event (event : Event) (signature : EventSignatureV1) : VerifiedEvent :=
  {| ve_event := event; ve_verification := VerificationStatus_Verified;
     ve_signature := Some signature |}.

Lemma seals_certifies run_id signed kernel keys n previous event payload signature through :
  seals run_id (soe_of <$> signed) kernel keys (Z.of_nat n) previous event payload signature through ->
  certifies signed (uuid_to_string run_id) kernel n (fst <$> previous) (sealed_event event signature)
    payload signature through.
Proof.
  intros [Hp [Hr Hr'] Hsig _ Ha Hpar Hc (e & He & Het) Hroot Hi Hprev _ _].
  apply list_lookup_fmap_Some in He as (t & -> & Ht). split; try done; cbn.
  - split; congruence.
  - by exists t.
  - rewrite Hroot. unfold hashes_of. by rewrite <- list_fmap_compose.
Qed.

(** How the verifier's memory of the previous checkpoint reads in the store. *)
Definition position_of (q : VerifiedEvent * nat) : EventId * nat := (event_id q.1, q.2).

Lemma seal_fold_chain db run_id signed kernel keys0 keys crows items :
  is_Some (akr_public_key_hash kernel) ->
  (forall h b, tpk_by_public_key_hash keys0 !! h = Some b ->
               tpk_by_public_key_hash keys !! h = Some b) ->
  Forall2 (fun row item => read_signed_row db row = Ok item) crows items ->
  forall n previous st,
  seal_fold run_id (soe_of <$> signed) kernel keys0 (Z.of_nat n) (position_of <$> previous) items = Ok st ->
  exists cs facts, Forall2 (reads db keys) crows cs /\
    checkpoint_chain signed (uuid_to_string run_id) kernel n previous cs facts /\
    Forall (fun c => is_Some (ve_signature c)) cs /\
    (fun c => c.1.1.1) <$> facts = cs /\
    match last facts with
    | Some (c, p, s, through) => st.2 = Some (event_id c, through)
    | None => cs = []
    end.
Proof.
  intros Hk Hkeys. induction 1 as [|row item crows items Hrow Hrest IH]; intros n previous st Hf.
  { exists [], []. by repeat constructor. }
  cbn in Hf. apply bind_ok in Hf as ([n' p'] & Hv & Hf). apply verify_step_ok in Hv; [|done].
  destruct Hv as (event & signature & payload & through & -> & Hs & -> & ->).
  set (c := sealed_event event signature).
  replace (Z.of_nat n + 1) with (Z.of_nat (S n)) in Hf by lia.
  change (Some (ev_id event, through)) with (position_of <$> Some (c, through)) in Hf.
  destruct (IH _ _ _ Hf) as (cs & facts & Hcs & Hchain & Hsig & Hfacts & Hlast).
  exists (c :: cs), ((c, payload, signature, through) :: facts).
  split_and!.
  - constructor; [|done]. apply (read_signed_row_verified db keys row event signature Hrow).
    eapply verified_under_more_keys; [done|]. by destruct Hs.
  - constructor; [|..|done].
    + apply seals_certifies in Hs. by destruct previous.
    + intros q ->. by apply (seal_advances _ _ _ _ _ _ _ _ _ _ Hs (position_of q)).
  - by constructor; [eexists|].
  - cbn. by rewrite Hfacts.
  - rewrite last_cons. destruct (last facts) as [[[[c' p0] s0] t0]|] eqn:Hl; [done|].
    rewrite Hlast in Hcs. inversion Hcs; subst. inversion Hrest; subst. cbn in Hf. by simplify_eq.
Qed.

Lemma reads_sorted db keys rows vs :
  StronglySorted row_lt rows -> Forall (fun row => exists u, row_uuid row u) rows ->
  Forall2 (reads db keys) rows vs -> StronglySorted Z.lt (event_id <$> vs).
Proof.
  intros Hs Hu Hr. revert Hs Hu. induction Hr as [|row v rows vs Hv Hr IH]; intros Hs Hu; [constructor|].
  apply StronglySorted_inv in Hs as [Hs Hlt]. apply Forall_cons in Hu as [[u Hu] Hus].
  cbn. constructor; [by apply IH|]. apply Forall_fmap. clear IH Hs. revert Hlt Hus.
  induction Hr as [|row' v' rows vs Hv' _ IH]; intros Hlt Hus; [constructor|].
  apply Forall_cons in Hlt as [Hl Hlt], Hus as [[u' Hu'] Hus]. constructor; [|by apply IH].
  cbn. unfold event_id. apply reads_event in Hv, Hv'.
  rewrite (row_to_event_id _ _ _ Hv Hu), (row_to_event_id _ _ _ Hv' Hu'). by apply Hl.
Qed.

Lemma signed_ordinary_filter vs :
  signed_ordinary (filter (fun v => ~ is_checkpoint v) vs) = signed_ordinary vs.
Proof.
  induction vs as [|v vs IH]; [done|]. rewrite filter_cons. unfold signed_ordinary in *.
  destruct (decide (~ is_checkpoint v)) as [Hc|Hc]; cbn; rewrite IH; [done|].
  unfold signed_of at 2. by rewrite decide_True by (by destruct (decide (is_checkpoint v))).
Qed.

Lemma run_rows_uuid db run_id :
  db_wf db -> Forall (fun row => exists u, row_uuid row u) (run_rows db run_id).
Proof. intros Hwf. apply Forall_forall. intros row Hin. by apply (run_row_uuid db run_id row) in Hin as [_ ?]. Qed.

Lemma Forall2_elem_l {A B} (R : A -> B -> Prop) l k a :
  Forall2 R l k -> a ∈ l -> exists b, b ∈ k /\ R a b.
Proof. intros Hl. induction Hl as [|x y l k Hxy _ IH]; rewrite ?elem_of_nil, ?elem_of_cons; set_solver. Qed.

Lemma Forall2_elem_r {A B} (R : A -> B -> Prop) l k b :
  Forall2 R l k -> b ∈ k -> exists a, a ∈ l /\ R a b.
Proof. intros Hl. induction Hl as [|x y l k Hxy _ IH]; rewrite ?elem_of_nil, ?elem_of_cons; set_solver. Qed.

Lemma elem_of_filter_bool {A} (p : A -> bool) l a : a ∈ List.filter p l <-> a ∈ l /\ p a = true.
Proof. by rewrite !list_elem_of_In, filter_In. Qed.

(** The tape of a run whose ordinary rows verify and whose checkpoints form a
    chain over all of them. *)
Lemma parts_covered db keys run_id os cs kernel facts c p s through :
  db_wf db -> uuid_ok run_id ->
  Forall2 (reads db keys) (ordinary_rows db run_id) os -> Forall ordinary_ok os ->
  Forall2 (reads db keys) (checkpoint_rows db run_id) cs ->
  checkpoint_chain (signed_ordinary os) (uuid_to_string run_id) kernel 0 None cs facts ->
  last facts = Some (c, p, s, through) -> length (signed_ordinary os) = S through ->
  exists vs, Forall2 (reads db keys) (run_rows db run_id) vs /\
    tape_covered vs (uuid_to_string run_id) kernel (report_of c p s (S through)).
Proof.
  intros Hwf Hrun Hos Hok Hcs Hchain Hlast Hlen.
  destruct (reads_exist db keys (run_rows db run_id)) as [vs Hvs].
  { apply Forall_forall. intros row Hin. destruct (is_checkpoint_row row) eqn:Hc.
    - destruct (Forall2_elem_l _ _ _ row Hcs) as (v & _ & Hv); [|by exists v].
      by apply elem_of_filter_bool.
    - destruct (Forall2_elem_l _ _ _ row Hos) as (v & _ & Hv); [|by exists v].
      apply elem_of_filter_bool. by rewrite Hc. }
  assert (filter (fun v => ~ is_checkpoint v) vs = os) as Eos.
  { eapply reads_all_unique; [|exact Hos]. apply Forall2_select; [done|].
    intros row v Hv%reads_checkpoint. rewrite negb_true_iff, <- not_true_iff_false. tauto. }
  assert (checkpoints_of vs = cs) as Ecs.
  { eapply reads_all_unique; [|exact Hcs]. apply Forall2_select; [done|].
    intros row v. apply reads_checkpoint. }
  exists vs. split; [done|]. unfold tape_covered. rewrite <- (signed_ordinary_filter vs), Eos, Ecs.
  split_and!.
  - eapply reads_sorted; [|by apply run_rows_uuid|exact Hvs]. by apply select_sorted.
  - apply Forall_forall. intros v Hin.
    destruct (Forall2_elem_r _ _ _ v Hvs Hin) as (row & Hrow & Hv%reads_event).
    apply elem_of_run_rows in Hrow as (k & _ & Hrun').
    by rewrite (row_to_event_run _ _ _ Hv Hrun Hrun').
  - apply Forall_forall. intros v Hin. destruct (decide (is_checkpoint v)) as [Hc|Hc]; [by left|].
    rewrite Forall_forall in Hok. apply Hok. rewrite <- Eos. by apply list_elem_of_filter.
  - by exists facts, c, p, s, through.
Qed.

(** The latest checkpoint the store chains from. *)
Definition stored_checkpoint_of (id : EventId) (p : TapeCheckpointV1) : StoredCheckpoint :=
  {| scp_event_id := id;
     scp_checkpoint_index := tc_checkpoint_index p;
     scp_through_event_id := tc_through_event_id p;
     scp_through_event_count := tc_through_event_count p;
     scp_tape_root_hash := tc_tape_root_hash p;
     scp_algorithm := tc_algorithm p |}.

Lemma row_to_event_payload row event :
  row_to_event row = Ok event -> exists value, json_from_str (row_payload row) = Some value /\
    payload_from_value value = Ok (ev_payload event).
Proof.
  unfold row_to_event, canonicalize_payload. intros Hr. guards; subst; cbn; eauto.
Qed.

Lemma filter_ext_elem {A} (p q : A -> bool) l :
  (forall a, a ∈ l -> p a = q a) -> List.filter p l = List.filter q l.
Proof.
  intros Hpq. apply List.filter_ext_in. intros a Ha. apply Hpq. by apply list_elem_of_In.
Qed.

Lemma filter_filter_bool {A} (p q : A -> bool) l :
  List.filter p (List.filter q l) = List.filter (fun a => q a && p a) l.
Proof.
  induction l as [|a l IH]; [done|]. cbn. destruct (q a) eqn:Hq; cbn; [|done].
  destruct (p a); by rewrite IH.
Qed.

Lemma latest_checkpoint_last db run_id :
  (forall row, row ∈ checkpoint_rows db run_id -> is_Some (signature_for_event db (row_id row))) ->
  latest_checkpoint_for_connection db run_id =
  match last (checkpoint_rows db run_id) with
  | None => Ok None
  | Some row =>
      let* event_id := parse_event_id (row_id row) "tape_checkpoint" in
      some_or value := json_from_str (row_payload row) with StoreError_InvalidJson ;;
      let* payload := map_err (fun _ => StoreError_InvalidJson) (payload_from_value value) in
      match payload with
      | Payload_TapeCheckpointV1 p => Ok (Some (stored_checkpoint_of event_id p))
      | _ => Err (StoreError_InvalidPayload "tape_checkpoint")
      end
  end.
Proof.
  intros Hsig. unfold latest_checkpoint_for_connection.
  rewrite (filter_ext_elem _ is_checkpoint_row); [done|].
  intros row Hin. destruct (is_checkpoint_row row) eqn:Hc; [|done]. cbn. apply is_some_true.
  destruct (Hsig row) as [srow Hs]; [by apply elem_of_filter_bool|]. by exists srow.
Qed.

Lemma latest_checkpoint_reads db run_id row event u p :
  (forall row, row ∈ checkpoint_rows db run_id -> is_Some (signature_for_event db (row_id row))) ->
  last (checkpoint_rows db run_id) = Some row -> row_to_event row = Ok event -> row_uuid row u ->
  ev_payload event = Payload_TapeCheckpointV1 p ->
  latest_checkpoint_for_connection db run_id = Ok (Some (stored_checkpoint_of u p)).
Proof.
  intros Hsig Hlast (value & Hj & Hp)%row_to_event_payload Hu Hpay.
  rewrite latest_checkpoint_last, Hlast, (row_uuid_event_id _ _ _ Hu) by done. cbn [result_bind].
  by rewrite Hj, Hp, Hpay.
Qed.
End Reading.
