(* ===== verification/StoreSpec.v ===== *)
(** * What the ledger store promises

    Sealed prefixes are recoverable, sealing is idempotent, the tables only grow,
    a failed call changes no row, the cached high-water mark is exact, and the
    cadence policy bounds the unsealed tail. *)
From S2P Require Import Prelude RustStr Host LedgerPayloads TrustSpine Digests Events SigningSpec Tape TapeSpec WorkflowGraph Canonicalize CanonicalizeSpec Engine EngineSpec Store StoreRows StoreSeal.
From Stdlib Require Import Lia.
From stdpp Require Import base list gmap strings sorting.

#[local] Open Scope string_scope.
#[local] Open Scope list_scope.
#[local] Open Scope Z_scope.

Section Emission.
Context `{Host, Canonicalizer, Crypto, RowDecoder, RowEncoder, !RowLaws, !CryptoLaws _}.
Implicit Types (db : Database) (keys : TrustedPublicKeys) (run_id : RunId).

(** The identity under which [key] signs for [signer]. *)
Definition identity_of (key : SigningKey) (signer : ActorKeyRef) : ActorKeyRef :=
  {| signer with akr_public_key_hash := Some (public_key_hash (verifying_key key)) |}.

Lemma identity_has_key key signer : is_Some (akr_public_key_hash (identity_of key signer)).
Proof. by eexists. Qed.

(** The keys contain the key of [key]. *)
Definition trusts keys (key : SigningKey) : Prop :=
  tpk_by_public_key_hash keys !! public_key_hash (verifying_key key) =
  Some (verifying_key_as_bytes (verifying_key key)).

(** The store's checks trust the configured key only. *)
Definition only_key (key : SigningKey) : TrustedPublicKeys :=
  insert_public_key {| tpk_by_public_key_hash := ∅ |} (public_key_hash (verifying_key key))
    (verifying_key_as_bytes (verifying_key key)).

Lemma only_key_trusted keys key :
  trusts keys key -> forall h b, tpk_by_public_key_hash (only_key key) !! h = Some b ->
  tpk_by_public_key_hash keys !! h = Some b.
Proof.
  intros Hk h b Hb. unfold only_key, insert_public_key in Hb. cbn in Hb.
  apply lookup_insert_Some in Hb as [[<- <-]|[_ ?%lookup_empty_Some]]; done.
Qed.

Lemma only_key_trusts key : trusts (only_key key) key.
Proof. unfold trusts, only_key, insert_public_key. cbn. apply lookup_insert_eq. Qed.

(** The mint's id follows every checkpoint of the run. *)
Definition mint_follows db run_id (mint : Mint) : Prop :=
  uuid_ok (mint_id mint) /\
  forall row u, row ∈ checkpoint_rows db run_id -> row_uuid row u -> u < mint_id mint.

Lemma reads_other db db' keys row v :
  signature_for_event db' (row_id row) = signature_for_event db (row_id row) ->
  reads db keys row v -> reads db' keys row v.
Proof. unfold reads. by intros ->. Qed.

(** The database after a checkpoint over [covered] was emitted. *)
Record emitted db run_id (covered : list SignedOrdinaryEvent) (prior : option StoredCheckpoint)
    (key : SigningKey) (signer : ActorKeyRef) (mint : Mint) db' (row : StoredRow)
    (event : Event) (signature : EventSignatureV1) : Prop := {
  em_event : exists through, last covered = Some through /\
    event = checkpoint_event run_id covered through prior mint;
  em_signed : sign_event event key signer (mint_signed_at mint) = Ok signature;
  em_row : row_to_event row = Ok event /\ row_uuid row (mint_id mint);
  em_signature : signature_for_event db' (row_id row) = Some (signature_row signature);
  em_others : forall k, k <> row_id row -> signature_for_event db' k = signature_for_event db k;
  em_fresh : db_events db !! row_id row = None;
  em_db : db_events db' = <[row_id row := row]> (db_events db);
  em_checkpoints : checkpoint_rows db' run_id = checkpoint_rows db run_id ++ [row];
  em_ordinary : ordinary_rows db' run_id = ordinary_rows db run_id;
  em_wf : db_wf db'
}.

Lemma checkpoint_event_reads run_id covered through prior mint text :
  uuid_ok (mint_id mint) -> uuid_ok run_id -> uuid_ok (soe_event_id through) ->
  payload_to_string (ev_payload (checkpoint_event run_id covered through prior mint)) = Ok text ->
  row_to_event (event_row (checkpoint_event run_id covered through prior mint) text) =
    Ok (checkpoint_event run_id covered through prior mint).
Proof.
  intros Hid Hrun Hth Htext. apply event_row_reads_back; try done.
  - intros parent [= <-]. done.
  - apply checkpoint_round_trip.
Qed.

Lemma emit_emitted db run_id covered prior key signer mint id db' :
  db_wf db -> uuid_ok run_id -> mint_follows db run_id mint ->
  Forall (fun e => uuid_ok (soe_event_id e)) covered ->
  emit_checkpoint_in_transaction db run_id covered prior key signer mint = Ok (id, db') ->
  id = mint_id mint /\ exists row event signature,
    emitted db run_id covered prior key signer mint db' row event signature.
Proof.
  intros Hwf Hrun [Hmint Habove] Hcov He. unfold emit_checkpoint_in_transaction in He.
  destruct (last covered) as [through|] eqn:Hlast; [|done].
  set (event := checkpoint_event run_id covered through prior mint) in *.
  apply bind_ok in He as (signature & Hs%map_err_ok & He).
  apply bind_ok in He as (db1 & Hi%map_err_ok & He).
  apply bind_ok in He as (db2 & Hi2%map_err_ok & [= <- <-]%Ok_inj).
  split; [done|]. pose proof (insert_event_wf db event db1 Hwf Hmint Hi) as Hwf1.
  pose proof (insert_signature_wf db1 signature db2 Hwf1 Hi2) as Hwf2.
  apply insert_event_ok in Hi as (text & Htext & Hfresh & ->).
  pose proof (sign_event_Ok _ _ _ _ _ Hs) as (_ & _ & Hsid & _).
  apply insert_signature_ok in Hi2 as (Hfresh2 & _ & ->). rewrite Hsid in *. cbn [db_events] in *.
  assert (uuid_ok (soe_event_id through)) as Hth.
  { rewrite Forall_forall in Hcov. apply Hcov. by apply last_Some_elem_of. }
  exists (event_row event text), event, signature. split; cbn.
  - by exists through.
  - done.
  - split; [by apply checkpoint_event_reads|done].
  - unfold signature_for_event. cbn. apply lookup_insert_eq.
  - intros k Hk. unfold signature_for_event. cbn. by apply lookup_insert_ne.
  - done.
  - done.
  - unfold checkpoint_rows, run_rows, events_for_run. cbn. rewrite !filter_filter_bool.
    apply select_insert_last; [done|cbn; by rewrite bool_decide_true|].
    intros k row Hk [Hr Hc]%andb_true_iff. apply bool_decide_eq_true in Hr.
    destruct (wf_event _ Hwf _ _ Hk) as [<- [u Hu]].
    destruct Hu as [Hu Hid]. rewrite Hid. apply uuid_text_order; [done|done|].
    apply Z.lt_le_incl, (Habove row u); [|done]. apply elem_of_filter_bool. split; [|done].
    apply elem_of_run_rows. eauto.
  - unfold ordinary_rows, run_rows, events_for_run. cbn. rewrite !filter_filter_bool.
    apply select_insert_other; [done|]. cbn. apply andb_false_r.
  - done.
Qed.

Lemma run_row_fresh db run_id row k :
  db_wf db -> db_events db !! k = None -> row ∈ run_rows db run_id -> row_id row <> k.
Proof. intros Hwf Hk [Hr _]%run_row_uuid <-; [|done]. congruence. Qed.

Lemma emitted_reads db run_id covered prior key signer mint db' row event signature keys rows vs :
  db_wf db -> emitted db run_id covered prior key signer mint db' row event signature ->
  (forall r, r ∈ rows -> r ∈ run_rows db run_id) ->
  Forall2 (reads db keys) rows vs -> Forall2 (reads db' keys) rows vs.
Proof.
  intros Hwf He Hin Hr. induction Hr as [|r v rows vs Hv _ IH]; constructor.
  - eapply reads_other; [|done]. apply (em_others _ _ _ _ _ _ _ _ _ _ _ He).
    eapply run_row_fresh; [done|apply He|apply Hin; set_solver].
  - apply IH. set_solver.
Qed.

(** ** The chain and its extension *)

Lemma chain_last_certifies signed run kernel n previous cs facts c p s through :
  checkpoint_chain signed run kernel n previous cs facts -> last facts = Some (c, p, s, through) ->
  exists previous', certifies signed run kernel (n + length facts - 1) previous' c p s through.
Proof.
  induction 1 as [|n previous c' p' s' th' cs facts Hc Hadv Hch IH]; [done|].
  rewrite last_cons. destruct (last facts) as [x|] eqn:Hl.
  - intros [= ->]. destruct IH as [previous' Hp]; [done|]. exists previous'.
    cbn [length]. by replace (n + S (length facts) - 1)%nat with (S n + length facts - 1)%nat by lia.
  - intros [= <- <- <- <-]. apply last_None in Hl as ->. cbn. replace (n + 1 - 1)%nat with n by lia. eauto.
Qed.

(** The checkpoint the next one follows. *)
Definition chain_end (previous : option (VerifiedEvent * nat))
    (facts : list (VerifiedEvent * TapeCheckpointV1 * EventSignatureV1 * nat))
    : option (VerifiedEvent * nat) :=
  match last facts with Some (c, _, _, through) => Some (c, through) | None => previous end.

Lemma chain_end_cons previous c p s through facts :
  chain_end previous ((c, p, s, through) :: facts) = chain_end (Some (c, through)) facts.
Proof. unfold chain_end. rewrite last_cons. by destruct (last facts). Qed.

Lemma chain_snoc signed run kernel n previous cs facts c p s through :
  checkpoint_chain signed run kernel n previous cs facts ->
  certifies signed run kernel (n + length facts)
    ((fun q => event_id q.1) <$> chain_end previous facts) c p s through ->
  (forall q, chain_end previous facts = Some q -> (q.2 < through)%nat) ->
  checkpoint_chain signed run kernel n previous (cs ++ [c]) (facts ++ [(c, p, s, through)]).
Proof.
  induction 1 as [n previous|n previous c' p' s' th' cs facts Hc Hadv Hch IH]; cbn [app length].
  - rewrite Nat.add_0_r. intros Hc Hadv. apply chain_cons; [exact Hc|exact Hadv|apply chain_nil].
  - rewrite chain_end_cons. intros Hcert Hadv'. constructor; [done..|].
    apply IH; [|done]. by replace (S n + length facts)%nat with (n + S (length facts))%nat by lia.
Qed.
End Emission.

(** ** Sealing *)
Section Sealing.
Context `{Host, Canonicalizer, Crypto, RowDecoder, RowEncoder, !RowLaws, !CryptoLaws _}.
Implicit Types (db : Database) (keys : TrustedPublicKeys) (run_id : RunId).

(** Every ordinary event of the run reads back, unsigned or verified. *)
Definition ordinary_verified keys db run_id : Prop :=
  Forall (fun row => exists v, reads db keys row v /\ ordinary_ok v) (ordinary_rows db run_id).

Lemma ordinary_verified_reads keys db run_id :
  ordinary_verified keys db run_id ->
  exists os, Forall2 (reads db keys) (ordinary_rows db run_id) os /\ Forall ordinary_ok os.
Proof.
  unfold ordinary_verified. induction 1 as [|row rows (v & Hv & Hok) _ (os & Hos & Hoks)].
  - exists []. by split; constructor.
  - exists (v :: os). by split; constructor.
Qed.

Lemma covered_ordinary db keys run_id os :
  db_wf db -> Forall2 (reads db keys) (ordinary_rows db run_id) os -> Forall ordinary_ok os ->
  signed_ordinary_events_for_connection db run_id = Ok (soe_of <$> signed_ordinary os).
Proof.
  intros Hwf Hos Hok. assert (Forall (fun row => exists u, row_uuid row u) (ordinary_rows db run_id)) as Hu.
  { apply Forall_forall. intros row [Hin _]%elem_of_filter_bool.
    by apply (run_row_uuid db run_id row) in Hin as [_ ?]. }
  rewrite <- (signed_join_reads db keys _ _ Hu Hos Hok).
  unfold signed_ordinary_events_for_connection, signed_ordinary_rows, ordinary_rows. f_equal.
  fold (run_rows db run_id). induction (run_rows db run_id) as [|row rows IH]; [done|].
  cbn [List.filter omap list_omap]. destruct (is_checkpoint_row row) eqn:Hc; cbn [negb]; [done|].
  cbn [omap list_omap]. rewrite Hc. by rewrite IH.
Qed.

Lemma Forall2_last_r {A B} (R : A -> B -> Prop) l k b :
  Forall2 R l k -> last k = Some b -> exists a, last l = Some a /\ R a b.
Proof.
  intros Hl. induction Hl as [|a b' l k Hab Hl IH]; [done|]. rewrite !last_cons.
  destruct (last k) as [y|] eqn:Hk.
  - intros [= ->]. destruct IH as (a' & -> & ?); eauto.
  - intros [= <-]. apply last_None in Hk as ->. apply Forall2_nil_inv_r in Hl as ->. eauto.
Qed.

(** What the accepted facts say of the stored checkpoint. *)
Definition checkpoint_of_fact (f : VerifiedEvent * TapeCheckpointV1 * EventSignatureV1 * nat)
    : StoredCheckpoint := stored_checkpoint_of (event_id f.1.1.1) f.1.1.2.

(** The chain check of a seal accepts only what the replay verifier accepts. *)
Lemma sealed_chain db run_id os key signer keys :
  db_wf db -> trusts keys key ->
  let covered := soe_of <$> signed_ordinary os in
  verify_governed_checkpoint_chain_for_seal db run_id covered (tape_prefix_roots covered) key signer = Ok tt ->
  exists cs facts, Forall2 (reads db keys) (checkpoint_rows db run_id) cs /\
    checkpoint_chain (signed_ordinary os) (uuid_to_string run_id) (identity_of key signer) 0 None cs facts /\
    latest_checkpoint_for_connection db run_id = Ok (checkpoint_of_fact <$> last facts) /\
    Z.of_nat (length facts) < 2 ^ 64.
Proof.
  intros Hwf Hk covered Hv. unfold verify_governed_checkpoint_chain_for_seal in Hv.
  fold (identity_of key signer) (only_key key) in Hv. rewrite prefix_roots_length, Nat.eqb_refl in Hv. cbn [negb] in Hv.
  apply bind_ok in Hv as (items & Hitems%map_err_ok & Hv). apply collect_results_ok in Hitems.
  rewrite seal_fold_unit in Hv.
  destruct (seal_fold _ _ _ _ _ _ _) as [[n previous]|] eqn:Hf in Hv; [|done].
  pose proof (seal_fold_last _ _ _ _ (identity_has_key key signer) _ _ _ Hf) as [Hn Hlast].
  destruct (seal_fold_chain db run_id (signed_ordinary os) (identity_of key signer) (only_key key) keys
    _ _ (identity_has_key key signer) (only_key_trusted keys key Hk) Hitems 0 None _ Hf)
    as (cs & facts & Hcs & Hchain & Hsig & Hfacts & _).
  exists cs, facts. split; [done|]. split; [done|].
  pose proof (Forall2_length _ _ _ Hitems) as Hlen1. pose proof (Forall2_length _ _ _ Hcs) as Hlen2.
  split.
  - assert (forall row, row ∈ checkpoint_rows db run_id -> is_Some (signature_for_event db (row_id row))) as Hs.
    { intros row Hin. destruct (Forall2_elem_l _ _ _ row Hcs Hin) as (c & Hc & Hr).
      rewrite Forall_forall in Hsig. destruct (Hsig c Hc) as [sg Hsg]. unfold reads, verify_row in Hr. cbn in Hr.
      destruct (signature_for_event db (row_id row)); [eauto|]. exfalso. cbn in Hr. guards. by subst c. }
    destruct (last facts) as [[[[c p] sg] th]|] eqn:Hl.
    + destruct (chain_last_certifies _ _ _ _ _ _ _ _ _ _ _ Hchain Hl) as [previous' Hc].
      assert (last cs = Some c) as Hlc by (rewrite <- Hfacts, fmap_last, Hl; done).
      destruct (Forall2_last_r _ _ _ c Hcs Hlc) as (row & Hrow & Hr%reads_event).
      destruct (run_row_uuid db run_id row) as [_ [u Hu]]; [done| |].
      { apply last_Some_elem_of in Hrow. by apply elem_of_filter_bool in Hrow as [? _]. }
      rewrite (latest_checkpoint_reads db run_id row (ve_event c) u p); [|done..|by destruct Hc].
      cbn. unfold checkpoint_of_fact, event_id. cbn. by rewrite (row_to_event_id _ _ _ Hr Hu).
    + apply last_None in Hl as ->. cbn in Hfacts. subst cs.
      assert (checkpoint_rows db run_id = []) as Hnil by (by apply Forall2_nil_inv_r in Hcs).
      by rewrite latest_checkpoint_last, Hnil.
  - assert (length facts = length items) as -> by (rewrite <- Hlen1, Hlen2, <- Hfacts, length_fmap; done).
    destruct items as [|item items]; [cbn; lia|]. destruct (last (item :: items)) as [x|] eqn:Hx.
    + destruct Hlast as (? & ? & ? & ? & ? & _ & Hs & _). apply seal_bound in Hs. lia.
    + by apply last_None in Hx.
Qed.

Lemma covered_ids_ok db keys run_id os :
  db_wf db -> Forall2 (reads db keys) (ordinary_rows db run_id) os ->
  Forall (fun e => uuid_ok (soe_event_id e)) (soe_of <$> signed_ordinary os).
Proof.
  intros Hwf Hos. apply Forall_fmap, Forall_forall. intros [v sg] Hin. cbn.
  apply elem_signed_ordinary in Hin. cbn in Hin.
  destruct (Forall2_elem_r _ _ _ v Hos Hin) as (row & Hrow & Hv%reads_event).
  apply elem_of_filter_bool in Hrow as [Hrow _].
  destruct (run_row_uuid db run_id row Hwf Hrow) as [_ [u Hu]].
  unfold event_id. rewrite (row_to_event_id _ _ _ Hv Hu). apply Hu.
Qed.

(** A checkpoint emitted over the whole signed prefix extends the chain. *)
Lemma emitted_certifies db run_id signed facts key signer mint db' row event signature cs :
  emitted db run_id (soe_of <$> signed) (checkpoint_of_fact <$> last facts) key signer mint db'
    row event signature ->
  checkpoint_chain signed (uuid_to_string run_id) (identity_of key signer) 0 None cs facts ->
  Z.of_nat (length facts) < 2 ^ 64 ->
  exists p, certifies signed (uuid_to_string run_id) (identity_of key signer) (length facts)
    ((fun q => event_id q.1) <$> chain_end None facts) (sealed_event event signature) p signature
    (length signed - 1).
Proof.
  intros He Hchain Hbound. destruct (em_event _ _ _ _ _ _ _ _ _ _ _ He) as (through & Hlast & ->).
  pose proof (em_signed _ _ _ _ _ _ _ _ _ _ _ He) as Hs.
  apply sign_event_Ok in Hs as (_ & _ & _ & _ & _ & Hsigner).
  rewrite fmap_last in Hlast. destruct (last signed) as [t|] eqn:Ht; [|done]. cbn in Hlast. simplify_eq.
  rewrite last_lookup in Ht. pose proof (lookup_lt_Some _ _ _ Ht) as Hlt.
  replace (Init.Nat.pred (length signed)) with (length signed - 1)%nat in Ht by lia.
  eexists. split; cbn -[Z.of_nat Z.pow]; try done.
  - by exists t.
  - rewrite length_fmap. cbn -[Z.of_nat]. lia.
  - cbn. rewrite <- list_fmap_compose. rewrite take_ge by (rewrite length_fmap; lia). done.
  - destruct (last facts) as [[[[c p] sg] th]|] eqn:Hl; cbn.
    + destruct (chain_last_certifies _ _ _ _ _ _ _ _ _ _ _ Hchain Hl) as [? Hc].
      rewrite (cert_index _ _ _ _ _ _ _ _ _ Hc).
      assert (0 < length facts)%nat by (destruct facts; [done|cbn; lia]).
      rewrite Z.mod_small; lia.
    + by apply last_None in Hl as ->.
  - unfold chain_end. by destruct (last facts) as [[[[] ] ]|].
Qed.

(** The signed prefix [os] of the run is covered by a chain that ends at the
    checkpoint [id]. *)
Definition sealed_at db run_id (kernel : ActorKeyRef) keys os (id : EventId) : Prop :=
  db_wf db /\ Forall2 (reads db keys) (ordinary_rows db run_id) os /\
  exists cs facts c p s through, Forall2 (reads db keys) (checkpoint_rows db run_id) cs /\
    checkpoint_chain (signed_ordinary os) (uuid_to_string run_id) kernel 0 None cs facts /\
    last facts = Some (c, p, s, through) /\ length (signed_ordinary os) = S through /\ event_id c = id.

Lemma emission_seals db run_id key signer mint keys db' id os cs facts :
  db_wf db -> uuid_ok run_id -> mint_follows db run_id mint -> trusts keys key ->
  Forall2 (reads db keys) (ordinary_rows db run_id) os ->
  Forall2 (reads db keys) (checkpoint_rows db run_id) cs ->
  checkpoint_chain (signed_ordinary os) (uuid_to_string run_id) (identity_of key signer) 0 None cs facts ->
  Z.of_nat (length facts) < 2 ^ 64 ->
  (forall c p s th, last facts = Some (c, p, s, th) -> S th <> length (signed_ordinary os)) ->
  emit_checkpoint_in_transaction db run_id (soe_of <$> signed_ordinary os)
    (checkpoint_of_fact <$> last facts) key signer mint = Ok (id, db') ->
  sealed_at db' run_id (identity_of key signer) keys os id.
Proof.
  intros Hwf Hrun Hmint Hk Hos Hcs Hchain Hb Hadv Hemit.
  apply emit_emitted in Hemit as (-> & row & event & signature & He); [|done..|by eapply covered_ids_ok].
  destruct (emitted_certifies _ _ _ _ _ _ _ _ _ _ _ _ He Hchain Hb) as [p Hc].
  destruct (em_event _ _ _ _ _ _ _ _ _ _ _ He) as (t & Ht & Hev).
  assert (0 < length (signed_ordinary os))%nat as Hpos by (destruct (signed_ordinary os); [done|cbn; lia]).
  split; [apply He|]. split.
  { rewrite (em_ordinary _ _ _ _ _ _ _ _ _ _ _ He). eapply emitted_reads; [done|exact He| |exact Hos].
    by intros r [? _]%elem_of_filter_bool. }
  exists (cs ++ [sealed_event event signature]),
    (facts ++ [(sealed_event event signature, p, signature, (length (signed_ordinary os) - 1)%nat)]).
  do 4 eexists. rewrite last_snoc. split_and!; [|apply chain_snoc; [done|done|]|done|lia|by subst event].
  - rewrite (em_checkpoints _ _ _ _ _ _ _ _ _ _ _ He). apply Forall2_app.
    + eapply emitted_reads; [done|exact He| |exact Hcs]. by intros r [? _]%elem_of_filter_bool.
    + constructor; [|constructor]. pose proof (em_signed _ _ _ _ _ _ _ _ _ _ _ He) as Hs.
      apply signed_row_reads; [apply He| |apply He|by eapply signed_verifies].
      apply sign_event_Ok in Hs as (_ & _ & -> & _). subst event. apply Hmint.
  - unfold chain_end. intros q Hq. destruct (last facts) as [[[[c' p'] s'] th']|] eqn:Hl; [|done].
    simplify_eq/=. specialize (Hadv _ _ _ _ eq_refl).
    pose proof (chain_last_through _ _ _ _ _ _ _ _ _ _ _ Hchain Hl). lia.
Qed.

(** The covering chain of the database a successful seal leaves. *)
Lemma seal_covers db run_id key signer mint keys outcome db' id os :
  db_wf db -> uuid_ok run_id -> mint_follows db run_id mint -> trusts keys key ->
  Forall2 (reads db keys) (ordinary_rows db run_id) os -> Forall ordinary_ok os ->
  seal_governed_signed_prefix_in_transaction db run_id key signer mint = Ok (outcome, db') ->
  outcome = GovernedCheckpointSealOutcome_Emitted id \/
  outcome = GovernedCheckpointSealOutcome_AlreadySealed id ->
  sealed_at db' run_id (identity_of key signer) keys os id.
Proof.
  intros Hwf Hrun Hmint Hk Hos Hok Hseal Hout. unfold seal_governed_signed_prefix_in_transaction in Hseal.
  rewrite (covered_ordinary db keys run_id os) in Hseal by done. cbn [map_err result_bind] in Hseal.
  destruct (last (soe_of <$> signed_ordinary os)) as [through|] eqn:Hlast; [|by destruct Hout; simplify_eq].
  assert (signed_ordinary os <> []) as Hne by (intros Hnil; by rewrite Hnil in Hlast).
  rewrite prefix_roots_last in Hseal by (by destruct (signed_ordinary os)).
  apply bind_ok in Hseal as ([] & Hv & Hseal).
  destruct (sealed_chain db run_id os key signer keys Hwf Hk Hv) as (cs & facts & Hcs & Hchain & Hprior & Hb).
  rewrite Hprior in Hseal. cbn [map_err result_bind] in Hseal.
  destruct (last facts) as [[[[c p] sg] th]|] eqn:Hl; cbn [fmap option_fmap option_map] in Hseal.
  - destruct (chain_last_certifies _ _ _ _ _ _ _ _ _ _ _ Hchain Hl) as [? Hc].
    destruct (_ && _) eqn:Hg in Hseal.
    + simplify_eq. destruct Hout as [|Hout]; simplify_eq. bool_simp.
      split; [done|]. split; [done|]. exists cs, facts, c, p, sg, th.
      split_and!; [done..| |done]. rename select (scp_through_event_count _ = _) into Hcount.
      cbn in Hcount. rewrite (cert_count _ _ _ _ _ _ _ _ _ Hc), length_fmap in Hcount. lia.
    + apply bind_ok in Hseal as ([id' db''] & Hemit & Hseal). simplify_eq.
      destruct Hout as [Hout|]; simplify_eq.
      eapply emission_seals; [done..|exact Hcs|exact Hchain|done| |by rewrite Hl].
      rewrite Hl. intros c' p' s' th' Hx Hth. simplify_eq. apply not_true_iff_false in Hg. apply Hg.
      cbn. rewrite (cert_algorithm _ _ _ _ _ _ _ _ _ Hc), (cert_count _ _ _ _ _ _ _ _ _ Hc),
        (cert_root _ _ _ _ _ _ _ _ _ Hc), length_fmap, Hth.
      destruct (cert_through _ _ _ _ _ _ _ _ _ Hc) as (t & Ht & Htid). rewrite <- Htid.
      rewrite fmap_last, last_lookup, <- Hth in Hlast. cbn in Hlast. rewrite Ht in Hlast. cbn in Hlast. simplify_eq.
      rewrite !bool_decide_true; [done| |done..]. unfold hashes_of.
      rewrite <- list_fmap_compose. by rewrite take_ge by (rewrite length_fmap; lia).
  - apply bind_ok in Hseal as ([id' db''] & Hemit & Hseal). simplify_eq.
    destruct Hout as [Hout|]; simplify_eq.
    eapply emission_seals; [done..|exact Hcs|exact Hchain|done| |by rewrite Hl]. by rewrite Hl.
Qed.

(** ** Sealing twice *)

Lemma signed_rows_ordinary db run_id :
  signed_ordinary_rows db (uuid_to_string run_id) =
  omap (fun row =>
          signature ← signature_for_event db (row_id row);
          if srow_algorithm signature == "ed25519" then Some (row, signature) else None)
    (ordinary_rows db run_id).
Proof.
  unfold signed_ordinary_rows, ordinary_rows. fold (run_rows db run_id).
  induction (run_rows db run_id) as [|row rows IH]; [done|].
  cbn [List.filter omap list_omap]. destruct (is_checkpoint_row row); cbn [negb]; [done|].
  cbn [omap list_omap]. by rewrite IH.
Qed.

Lemma covered_same db db' run_id :
  ordinary_rows db' run_id = ordinary_rows db run_id ->
  (forall row, row ∈ ordinary_rows db run_id ->
     signature_for_event db' (row_id row) = signature_for_event db (row_id row)) ->
  signed_ordinary_events_for_connection db' run_id = signed_ordinary_events_for_connection db run_id.
Proof.
  intros Ho Hs. unfold signed_ordinary_events_for_connection. f_equal.
  rewrite !signed_rows_ordinary, Ho. clear Ho. revert Hs. induction (ordinary_rows db run_id) as [|row rows IH]; intros Hs; [done|].
  cbn [omap list_omap]. rewrite Hs by (by left). rewrite IH; [done|]. intros r Hr. apply Hs. by right.
Qed.

Lemma covered_ids_parse db run_id covered :
  db_wf db -> signed_ordinary_events_for_connection db run_id = Ok covered ->
  Forall (fun e => uuid_ok (soe_event_id e)) covered.
Proof.
  intros Hwf Hc%collect_results_ok. apply Forall_forall. intros e He.
  destruct (Forall2_elem_r _ _ _ e Hc He) as ([row srow] & Hin & Hr).
  rewrite signed_rows_ordinary in Hin. apply list_elem_of_omap in Hin as (row' & Hin & Hx).
  destruct (signature_for_event db (row_id row')) as [sg|]; cbn in Hx; [|done]. case_bool_decide; [|done]. simplify_eq.
  apply elem_of_filter_bool in Hin as [Hin _].
  destruct (run_row_uuid db run_id row Hwf Hin) as [_ [u Hu]].
  rewrite (row_uuid_event_id _ _ _ Hu) in Hr. cbn in Hr. simplify_eq. apply Hu.
Qed.

(** The checkpoint the seal chains from is the last of the verified chain. *)
Lemma seal_prior db run_id covered kernel keys items n previous :
  db_wf db -> is_Some (akr_public_key_hash kernel) ->
  Forall2 (fun row item => read_signed_row db row = Ok item) (checkpoint_rows db run_id) items ->
  seal_fold run_id covered kernel keys 0 None items = Ok (n, previous) ->
  match previous with
  | None => n = 0 /\ latest_checkpoint_for_connection db run_id = Ok None
  | Some (id, through) => exists event signature p before,
      seals run_id covered kernel keys (n - 1) before event p signature through /\ id = ev_id event /\
      latest_checkpoint_for_connection db run_id = Ok (Some (stored_checkpoint_of id p))
  end.
Proof.
  intros Hwf Hk Hitems Hf. pose proof (seal_fold_last _ _ _ _ Hk _ _ _ Hf) as [Hn Hlast].
  assert (forall row, row ∈ checkpoint_rows db run_id -> is_Some (signature_for_event db (row_id row))) as Hs.
  { assert (Forall (fun item => is_Some item.2) items) as Hsome.
    { clear Hn Hlast Hitems. revert Hf. generalize 0 (@None (EventId * nat)).
      induction items as [|item items IH]; intros z o; [constructor|]. cbn. intros ([z' o'] & Hv & Hf)%bind_ok.
      apply verify_step_ok in Hv as (? & ? & ? & ? & -> & _); [|done]. constructor; [by eexists|by eapply IH]. }
    intros row Hin. destruct (Forall2_elem_l _ _ _ row Hitems Hin) as (item & Hi & Hr).
    rewrite Forall_forall in Hsome. destruct (Hsome item Hi) as [sg Hsg]. unfold read_signed_row in Hr.
    destruct (signature_for_event db (row_id row)); [eauto|]. guards. by simplify_eq/=. }
  destruct (last items) as [item|] eqn:Hl.
  - destruct Hlast as (event & signature & p & through & before & -> & Hseal & ->).
    destruct (Forall2_last_r _ _ _ _ Hitems Hl) as (row & Hrow & Hr).
    exists event, signature, p, before. split; [done|]. split; [done|].
    destruct (run_row_uuid db run_id row) as [_ [u Hu]]; [done| |].
    { apply last_Some_elem_of in Hrow. by apply elem_of_filter_bool in Hrow as [? _]. }
    unfold read_signed_row in Hr. apply bind_ok in Hr as (event' & He & Hr).
    apply bind_ok in Hr as (sg & _ & Hr). simplify_eq. apply to_event_iff in He.
    rewrite (row_to_event_id _ _ _ He Hu).
    eapply latest_checkpoint_reads; [done|exact Hrow|exact He|exact Hu|by destruct Hseal].
  - subst previous. apply last_None in Hl as ->. split; [done|].
    assert (checkpoint_rows db run_id = []) as Hnil by (by apply Forall2_nil_inv_r in Hitems).
    by rewrite latest_checkpoint_last, Hnil.
Qed.

(** The prior checkpoint is the one the loop ended at. *)
Definition prior_matches (prior : option StoredCheckpoint) (n : Z) (previous : option (EventId * nat))
    (count : nat) : Prop :=
  match previous with
  | None => n = 0 /\ prior = None
  | Some (id, through) => exists p, prior = Some (stored_checkpoint_of id p) /\
      tc_checkpoint_index p = n - 1 /\ (S through < count)%nat
  end.

Lemma emitted_seals db run_id covered prior key signer mint db' row event signature n previous :
  emitted db run_id covered prior key signer mint db' row event signature ->
  prior_matches prior n previous (length covered) -> 0 <= n -> n + 1 < 2 ^ 64 ->
  exists p, seals run_id covered (identity_of key signer) (only_key key) n previous event p signature
              (length covered - 1).
Proof.
  intros He Hprior Hn Hb. destruct (em_event _ _ _ _ _ _ _ _ _ _ _ He) as (t & Ht & ->).
  pose proof (em_signed _ _ _ _ _ _ _ _ _ _ _ He) as Hs.
  pose proof (sign_event_Ok _ _ _ _ _ Hs) as (_ & _ & _ & _ & _ & Hsigner).
  rewrite last_lookup in Ht. pose proof (lookup_lt_Some _ _ _ Ht) as Hlt.
  replace (Init.Nat.pred (length covered)) with (length covered - 1)%nat in Ht by lia.
  eexists. split; try done.
  - eapply signed_verifies; [exact Hs|apply only_key_trusts].
  - cbn -[Z.of_nat]. lia.
  - by exists t.
  - cbn. rewrite take_ge; [done|]. unfold hashes_of. rewrite length_fmap. lia.
  - cbn -[Z.pow]. destruct previous as [[id through]|]; cbn -[Z.pow] in Hprior.
    + destruct Hprior as (p & -> & Hi & _). cbn -[Z.pow]. rewrite Hi, Z.mod_small; lia.
    + destruct Hprior as [-> ->]. done.
  - destruct previous as [[id through]|]; cbn in Hprior.
    + by destruct Hprior as (p & -> & _).
    + by destruct Hprior as [_ ->].
  - intros [id through] ->. destruct Hprior as (p & _ & _ & Hlt'). cbn. lia.
Qed.

Lemma sealed_again db' run_id covered kernel keys key signer mint' event signature items n previous p :
  db_wf db' -> kernel = identity_of key signer -> keys = only_key key ->
  signed_ordinary_events_for_connection db' run_id = Ok covered -> covered <> [] ->
  Forall2 (fun row item => read_signed_row db' row = Ok item) (checkpoint_rows db' run_id)
    (items ++ [(event, Some signature)]) ->
  seal_fold run_id covered kernel keys 0 None items = Ok (n, previous) ->
  seals run_id covered kernel keys n previous event p signature (length covered - 1) ->
  seal_governed_signed_prefix_in_transaction db' run_id key signer mint' =
    Ok (GovernedCheckpointSealOutcome_AlreadySealed (ev_id event), db').
Proof.
  intros Hwf -> -> Hcov Hne Hitems Hf Hs.
  assert (seal_fold run_id covered (identity_of key signer) (only_key key) 0 None
            (items ++ [(event, Some signature)]) = Ok (n + 1, Some (ev_id event, (length covered - 1)%nat))) as Hf'.
  { rewrite seal_fold_snoc, Hf. cbn [result_bind]. apply verify_step_ok; [apply identity_has_key|].
    by exists event, signature, p, (length covered - 1)%nat. }
  destruct (seal_prior db' run_id covered _ _ _ _ _ Hwf (identity_has_key key signer) Hitems Hf')
    as (event' & signature' & p' & before & Hs' & Hid & Hlatest).
  unfold seal_governed_signed_prefix_in_transaction. rewrite Hcov. cbn [map_err result_bind].
  destruct (last covered) as [t|] eqn:Ht; [|by apply last_None in Ht].
  rewrite prefix_roots_last by done.
  assert (verify_governed_checkpoint_chain_for_seal db' run_id covered (tape_prefix_roots covered) key signer
            = Ok tt) as ->.
  { unfold verify_governed_checkpoint_chain_for_seal. fold (identity_of key signer) (only_key key).
    rewrite prefix_roots_length, Nat.eqb_refl. cbn [negb].
    rewrite (proj2 (collect_results_ok _ _ _) Hitems : checkpoint_events_for_run_for_connection db' run_id = _).
    cbn [map_err result_bind]. rewrite seal_fold_unit, Hf'. done. }
  cbn [result_bind]. rewrite Hlatest. cbn [map_err result_bind].
  destruct (seal_through _ _ _ _ _ _ _ _ _ _ Hs') as (e & He & Het).
  rewrite last_lookup in Ht. replace (Init.Nat.pred (length covered)) with (length covered - 1)%nat in Ht by lia.
  rewrite Ht in He. simplify_eq. pose proof (lookup_lt_Some _ _ _ Ht) as Hlt.
  cbn [stored_checkpoint_of scp_algorithm scp_through_event_count scp_through_event_id scp_tape_root_hash scp_event_id].
  rewrite (seal_algorithm _ _ _ _ _ _ _ _ _ _ Hs'), (seal_count _ _ _ _ _ _ _ _ _ _ Hs'),
    (seal_root _ _ _ _ _ _ _ _ _ _ Hs'), Het.
  rewrite take_ge by (unfold hashes_of; rewrite length_fmap; lia).
  replace (S (length covered - 1)) with (length covered) by lia.
  by rewrite !bool_decide_true.
Qed.

Lemma emitted_items db run_id covered prior key signer mint db' row event signature items :
  db_wf db -> uuid_ok (mint_id mint) ->
  emitted db run_id covered prior key signer mint db' row event signature ->
  Forall2 (fun row item => read_signed_row db row = Ok item) (checkpoint_rows db run_id) items ->
  Forall2 (fun row item => read_signed_row db' row = Ok item) (checkpoint_rows db' run_id)
    (items ++ [(event, Some signature)]).
Proof.
  intros Hwf Hmint He Hitems. rewrite (em_checkpoints _ _ _ _ _ _ _ _ _ _ _ He). apply Forall2_app.
  - assert (forall r, r ∈ checkpoint_rows db run_id ->
              signature_for_event db' (row_id r) = signature_for_event db (row_id r)) as Hsame.
    { intros r [Hin _]%elem_of_filter_bool. apply He. eapply run_row_fresh; [done|apply He|done]. }
    clear He. induction Hitems as [|r item rows items Hr _ IH]; constructor.
    + unfold read_signed_row in *. rewrite Hsame by (by left). done.
    + apply IH. intros. apply Hsame. by right.
  - constructor; [|constructor]. unfold read_signed_row.
    rewrite (proj2 (to_event_iff _ _) (proj1 (em_row _ _ _ _ _ _ _ _ _ _ _ He))).
    rewrite (em_signature _ _ _ _ _ _ _ _ _ _ _ He). cbn [result_bind].
    pose proof (em_signed _ _ _ _ _ _ _ _ _ _ _ He) as (_ & _ & Hid & _)%sign_event_Ok.
    destruct (em_event _ _ _ _ _ _ _ _ _ _ _ He) as (t & _ & Hev).
    rewrite (proj2 (to_event_signature_iff (signature_row signature) signature)); [done|].
    split; [by destruct signature as [? ? ? [] ? ?]|]. apply signature_row_reads_back.
    rewrite Hid, Hev. done.
Qed.

(** The test for a prefix that is already sealed. *)
Definition exactly_covers (covered : list SignedOrdinaryEvent) (through : SignedOrdinaryEvent)
    (checkpoint : StoredCheckpoint) : bool :=
  (scp_algorithm checkpoint == TapeRootAlgorithm_Sha256Linear) &&
  (scp_through_event_count checkpoint == Z.of_nat (length covered)) &&
  (scp_through_event_id checkpoint == soe_event_id through) &&
  (scp_tape_root_hash checkpoint == tape_root_hash (hashes_of covered)).

(** A seal that emits: it verified the chain of the run and extends it. *)
Record seal_emits db run_id key signer mint (id : EventId) db'
    (covered : list SignedOrdinaryEvent) through items n previous prior : Prop := {
  se_covered : signed_ordinary_events_for_connection db run_id = Ok covered;
  se_through : last covered = Some through;
  se_items : Forall2 (fun row item => read_signed_row db row = Ok item) (checkpoint_rows db run_id) items;
  se_fold : seal_fold run_id covered (identity_of key signer) (only_key key) 0 None items = Ok (n, previous);
  se_prior : latest_checkpoint_for_connection db run_id = Ok prior;
  se_behind : is_some_and prior (exactly_covers covered through) = false;
  se_emit : emit_checkpoint_in_transaction db run_id covered prior key signer mint = Ok (id, db')
}.

Lemma seal_chain_fold db run_id covered key signer :
  verify_governed_checkpoint_chain_for_seal db run_id covered (tape_prefix_roots covered) key signer = Ok tt ->
  exists items n previous,
    Forall2 (fun row item => read_signed_row db row = Ok item) (checkpoint_rows db run_id) items /\
    seal_fold run_id covered (identity_of key signer) (only_key key) 0 None items = Ok (n, previous).
Proof.
  unfold verify_governed_checkpoint_chain_for_seal. fold (identity_of key signer) (only_key key).
  rewrite prefix_roots_length, Nat.eqb_refl. cbn [negb].
  intros (items & Hitems%map_err_ok & Hv)%bind_ok. apply collect_results_ok in Hitems.
  rewrite seal_fold_unit in Hv. destruct (seal_fold _ _ _ _ _ _ _) as [[n previous]|] eqn:Hf in Hv; [|done].
  by exists items, n, previous.
Qed.

(** A seal finds nothing to do, whatever id it was given, or emits. *)
Lemma seal_cases db run_id key signer mint outcome db' :
  seal_governed_signed_prefix_in_transaction db run_id key signer mint = Ok (outcome, db') ->
  (db' = db /\ (forall id, outcome <> GovernedCheckpointSealOutcome_Emitted id) /\
   forall mint', seal_governed_signed_prefix_in_transaction db run_id key signer mint' = Ok (outcome, db)) \/
  exists id covered through items n previous prior,
    outcome = GovernedCheckpointSealOutcome_Emitted id /\
    seal_emits db run_id key signer mint id db' covered through items n previous prior.
Proof.
  unfold seal_governed_signed_prefix_in_transaction. intros Hseal.
  destruct (signed_ordinary_events_for_connection db run_id) as [covered|] eqn:Hcov; [|done].
  cbn [map_err result_bind] in *. destruct (last covered) as [t|] eqn:Ht; [|left; by simplify_eq].
  assert (covered <> []) as Hne by (by intros ->). rewrite prefix_roots_last in * by done.
  destruct (verify_governed_checkpoint_chain_for_seal _ _ _ _ _ _) as [[]|] eqn:Hv; [|done].
  apply seal_chain_fold in Hv as (items & n & previous & Hitems & Hf).
  cbn [result_bind] in *. destruct (latest_checkpoint_for_connection db run_id) as [prior|] eqn:Hp; [|done].
  cbn [map_err result_bind] in *.
  assert (forall id, emit_checkpoint_in_transaction db run_id covered prior key signer mint = Ok (id, db') ->
            is_some_and prior (exactly_covers covered t) = false ->
            seal_emits db run_id key signer mint id db' covered t items n previous prior) as Hemit.
  { intros id He Hb. by split. }
  destruct prior as [cp|].
  - fold (exactly_covers covered t cp) in *. destruct (exactly_covers covered t cp) eqn:Hx.
    + left. by simplify_eq.
    + right. apply bind_ok in Hseal as ([id db''] & He & Hseal). simplify_eq.
      exists id, covered, t, items, n, previous, (Some cp). split; [done|by apply Hemit].
  - right. apply bind_ok in Hseal as ([id db''] & He & Hseal). simplify_eq.
    exists id, covered, t, items, n, previous, None. split; [done|by apply Hemit].
Qed.

Lemma seal_emits_prior db run_id key signer mint id db' covered through items n previous prior :
  db_wf db -> seal_emits db run_id key signer mint id db' covered through items n previous prior ->
  prior_matches prior n previous (length covered) /\ n = Z.of_nat (length (checkpoint_rows db run_id)).
Proof.
  intros Hwf [Hcov Ht Hitems Hf Hp Hb _]. split.
  - pose proof (seal_prior _ _ _ _ _ _ _ _ Hwf (identity_has_key key signer) Hitems Hf) as Hprior.
    unfold prior_matches. destruct previous as [[cid th]|]; [|destruct Hprior as [-> Hl]; rewrite Hp in Hl; by simplify_eq].
    destruct Hprior as (event & sg & p & before & Hs & -> & Hl). rewrite Hp in Hl. simplify_eq.
    exists p. split; [done|]. split; [apply Hs|].
    destruct (seal_through _ _ _ _ _ _ _ _ _ _ Hs) as (e & He & Hid).
    pose proof (lookup_lt_Some _ _ _ He) as Hlt.
    destruct (decide (S th = length covered)) as [Heq|]; [|lia]. exfalso.
    apply not_true_iff_false in Hb. apply Hb. unfold exactly_covers. cbn.
    rewrite (seal_algorithm _ _ _ _ _ _ _ _ _ _ Hs), (seal_count _ _ _ _ _ _ _ _ _ _ Hs),
      (seal_root _ _ _ _ _ _ _ _ _ _ Hs), <- Hid, Heq.
    rewrite last_lookup, <- Heq in Ht. cbn in Ht. rewrite Ht in He. simplify_eq.
    rewrite take_ge by (unfold hashes_of; rewrite length_fmap; lia). by rewrite !bool_decide_true.
  - destruct (seal_fold_last _ _ _ _ (identity_has_key key signer) _ _ _ Hf) as [-> _].
    by rewrite (Forall2_length _ _ _ Hitems).
Qed.

(** Sealing is idempotent: once a seal succeeded, sealing the same prefix again
    finds it sealed by the same checkpoint and changes nothing, whatever fresh id
    the second call would have used. *)
Theorem sealing_is_idempotent s run_id key signer mint mint' outcome s' :
  db_wf (ss_conn s) -> uuid_ok run_id -> mint_follows (ss_conn s) run_id mint ->
  Z.of_nat (length (checkpoint_rows (ss_conn s) run_id)) + 1 < 2 ^ 64 ->
  seal_governed_signed_prefix run_id key signer mint s = (Ok outcome, s') ->
  seal_governed_signed_prefix run_id key signer mint' s' =
    (Ok (match outcome with
         | GovernedCheckpointSealOutcome_Emitted id => GovernedCheckpointSealOutcome_AlreadySealed id
         | other => other
         end), s').
Proof.
  intros Hwf Hrun Hmint Hcount Hseal. unfold seal_governed_signed_prefix, transaction in *.
  destruct (seal_governed_signed_prefix_in_transaction _ _ _ _ _) as [[o db']|] eqn:Hb in Hseal; simplify_eq.
  cbn [ss_conn].
  apply seal_cases in Hb as [(-> & Hno & Hagain)|(id & covered & t & items & n & previous & prior & -> & Hs)].
  { rewrite Hagain. destruct outcome as [| |id]; [done..|]. by destruct (Hno id). }
  pose proof (seal_emits_prior _ _ _ _ _ _ _ _ _ _ _ _ _ Hwf Hs) as [Hprior Hn].
  destruct Hs as [Hcov Ht Hitems Hf Hp _ He].
  pose proof (covered_ids_parse _ _ _ Hwf Hcov) as Hids.
  apply emit_emitted in He as (-> & row & event & signature & He); [|done..].
  destruct (emitted_seals _ _ _ _ _ _ _ _ _ _ _ _ _ He Hprior) as [p Hsl]; [lia..|].
  assert (ev_id event = mint_id mint) as <- by (destruct (em_event _ _ _ _ _ _ _ _ _ _ _ He) as (? & _ & ->); done).
  erewrite (sealed_again db'); [done|apply He|done|done| | |by eapply emitted_items; [done|apply Hmint|done..]|exact Hf|exact Hsl].
  - rewrite <- Hcov. apply covered_same; [apply He|].
    intros r [Hin _]%elem_of_filter_bool. apply He. eapply run_row_fresh; [done|apply He|done].
  - by intros ->.
Qed.

(** ** What recovery reads *)

Lemma bounded_read_returns db keys run_id vs max :
  Forall2 (reads db keys) (run_rows db run_id) vs ->
  Z.of_nat (length (run_rows db run_id)) <= max < 2 ^ 63 - 1 ->
  all_with_verification_limit (rows_with_signatures db (uuid_to_string run_id)) keys (Some max) = Ok vs.
Proof.
  intros Hvs Hmax. unfold all_with_verification_limit, stored_rows_with_signatures, row_limit.
  rewrite (proj2 (Z.ltb_lt _ _)) by lia. cbn [result_bind].
  assert (length (rows_with_signatures db (uuid_to_string run_id)) = length (run_rows db run_id)) as Hlen
    by apply length_fmap.
  rewrite take_ge by lia. rewrite (proj2 (Z.ltb_ge _ _)) by lia. cbn [result_bind].
  apply collect_results_ok. unfold rows_with_signatures. by apply Forall2_fmap_l.
Qed.

(** When a seal answers with a checkpoint, the replay reader reads the whole run
    back from the store and the tape verifier accepts it under the sealing signer,
    with this checkpoint as the certificate of every signed ordinary event. *)
Lemma sealed_prefix_is_recoverable s run_id key signer mint keys outcome id s' max :
  db_wf (ss_conn s) -> uuid_ok run_id -> mint_follows (ss_conn s) run_id mint -> trusts keys key ->
  ordinary_verified keys (ss_conn s) run_id ->
  seal_governed_signed_prefix run_id key signer mint s = (Ok outcome, s') ->
  outcome = GovernedCheckpointSealOutcome_Emitted id \/
  outcome = GovernedCheckpointSealOutcome_AlreadySealed id ->
  Z.of_nat (length (run_rows (ss_conn s') run_id)) <= max < 2 ^ 63 - 1 ->
  exists events report covered,
    all_with_verification_limit (rows_with_signatures (ss_conn s') (uuid_to_string run_id)) keys
      (Some max) = Ok events /\
    verify_full_tape_integrity_v1 events (uuid_to_string run_id) (identity_of key signer) =
      Some (Ok report) /\
    tir_checkpoint_event_ref report = uuid_to_string id /\
    signed_ordinary_events_for_connection (ss_conn s') run_id = Ok covered /\
    tir_signed_non_checkpoint_event_count report = Z.of_nat (length covered) /\
    tir_tape_root_hash report = tape_root_hash (soe_canonical_event_hash <$> covered).
Proof.
  intros Hwf Hrun Hmint Hk Hord Hseal Hout Hmax. unfold seal_governed_signed_prefix, transaction in Hseal.
  destruct (seal_governed_signed_prefix_in_transaction _ _ _ _ _) as [[o db']|] eqn:Hb in Hseal; simplify_eq.
  destruct (ordinary_verified_reads _ _ _ Hord) as (os & Hos & Hok).
  destruct (seal_covers _ _ _ _ _ _ _ _ _ _ Hwf Hrun Hmint Hk Hos Hok Hb Hout)
    as (Hwf' & Hos' & cs & facts & c & p & sg & th & Hcs & Hchain & Hlast & Hlen & <-).
  destruct (parts_covered _ _ _ _ _ _ _ _ _ _ _ Hwf' Hrun Hos' Hok Hcs Hchain Hlast Hlen) as (vs & Hvs & Hcov).
  destruct (chain_last_certifies _ _ _ _ _ _ _ _ _ _ _ Hchain Hlast) as [? Hc].
  exists vs, (report_of c p sg (S th)), (soe_of <$> signed_ordinary os).
  split; [by apply bounded_read_returns|]. split; [by apply verify_complete|]. split; [done|].
  split; [by eapply covered_ordinary|]. rewrite length_fmap, Hlen. split; [done|]. cbn [report_of tir_tape_root_hash].
  rewrite (cert_root _ _ _ _ _ _ _ _ _ Hc), <- list_fmap_compose.
  by rewrite take_ge by (rewrite length_fmap; lia).
Qed.

(** ** Checkpoints emitted without a seal *)

Lemma latest_checkpoint_emitted db run_id covered prior key signer mint db' row event signature :
  emitted db run_id covered prior key signer mint db' row event signature ->
  exists p, ev_payload event = Payload_TapeCheckpointV1 p /\
    tc_through_event_count p = Z.of_nat (length covered) /\
    latest_checkpoint_for_connection db' run_id = Ok (Some (stored_checkpoint_of (mint_id mint) p)).
Proof.
  intros He. destruct (em_event _ _ _ _ _ _ _ _ _ _ _ He) as (t & _ & Hev).
  destruct (em_row _ _ _ _ _ _ _ _ _ _ _ He) as [Hrow Hu].
  assert (exists p, ev_payload event = Payload_TapeCheckpointV1 p /\
            tc_through_event_count p = Z.of_nat (length covered)) as (p & Hp & Hc) by (subst event; by eexists).
  exists p. split; [done|]. split; [done|]. unfold latest_checkpoint_for_connection.
  rewrite <- filter_filter_bool. fold (run_rows db' run_id) (checkpoint_rows db' run_id).
  rewrite (em_checkpoints _ _ _ _ _ _ _ _ _ _ _ He), List.filter_app. cbn [List.filter].
  rewrite (em_signature _ _ _ _ _ _ _ _ _ _ _ He). cbn [is_some]. rewrite last_snoc.
  destruct (row_to_event_payload _ _ Hrow) as (value & Hj & Hv).
  rewrite (row_uuid_event_id _ _ _ Hu). cbn [result_bind]. by rewrite Hj, Hv, Hp.
Qed.

(** Two neighbours of a chain cover different prefixes. *)
Lemma chain_pair signed run kernel n previous cs c1 c2 facts :
  checkpoint_chain signed run kernel n previous (cs ++ [c1; c2]) facts ->
  exists p1 p2, ev_payload (ve_event c1) = Payload_TapeCheckpointV1 p1 /\
    ev_payload (ve_event c2) = Payload_TapeCheckpointV1 p2 /\
    tc_through_event_count p1 < tc_through_event_count p2.
Proof.
  revert n previous facts. induction cs as [|c cs IH]; intros n previous facts; cbn [app].
  - inversion 1 as [|? ? ? p1 ? th1 ? ? Hc1 _ Hrest]; subst.
    inversion Hrest as [|? ? ? p2 ? th2 ? ? Hc2 Hadv _]; subst.
    exists p1, p2. split; [apply Hc1|]. split; [apply Hc2|].
    rewrite (cert_count _ _ _ _ _ _ _ _ _ Hc1), (cert_count _ _ _ _ _ _ _ _ _ Hc2).
    specialize (Hadv _ eq_refl). cbn in Hadv. lia.
  - inversion 1; subst. by eapply IH.
Qed.

Lemma emit_current_emits run_id key signer mint s id s' :
  db_wf (ss_conn s) -> uuid_ok run_id -> mint_follows (ss_conn s) run_id mint ->
  emit_checkpoint_for_current_signed_prefix run_id key signer mint s = (Ok (Some id), s') ->
  exists covered prior row event signature,
    signed_ordinary_events_for_connection (ss_conn s) run_id = Ok covered /\
    emitted (ss_conn s) run_id covered prior key signer mint (ss_conn s') row event signature.
Proof.
  intros Hwf Hrun Hmint He. unfold emit_checkpoint_for_current_signed_prefix, transaction in He.
  destruct (signed_ordinary_events_for_connection (ss_conn s) run_id) as [covered|] eqn:Hcov; [|done].
  cbn [map_err result_bind] in He. destruct (list_is_empty covered); [by simplify_eq|].
  destruct (latest_checkpoint_for_connection (ss_conn s) run_id) as [prior|]; [|done]. cbn [map_err result_bind] in He.
  destruct (emit_checkpoint_in_transaction _ _ _ _ _ _ _) as [[id' db']|] eqn:Hem; [|done].
  cbn in He. simplify_eq. apply emit_emitted in Hem as (_ & row & event & sg & Hem); [|done..|by eapply covered_ids_parse].
  by exists covered, prior, row, event, sg.
Qed.

(** C24. Emitting a checkpoint twice over the same prefix makes the tape
    unrecoverable: whatever keys it is read with, no signer is accepted as its kernel. *)
Theorem repeated_emission_is_refused s run_id key signer key2 signer2 mint1 mint2 id1 id2 s1 s2 keys max events kernel :
  db_wf (ss_conn s) -> uuid_ok run_id -> mint_follows (ss_conn s) run_id mint1 ->
  mint_follows (ss_conn s1) run_id mint2 ->
  emit_checkpoint_for_current_signed_prefix run_id key signer mint1 s = (Ok (Some id1), s1) ->
  emit_checkpoint_for_current_signed_prefix run_id key2 signer2 mint2 s1 = (Ok (Some id2), s2) ->
  0 <= max ->
  all_with_verification_limit (rows_with_signatures (ss_conn s2) (uuid_to_string run_id)) keys
    (Some max) = Ok events ->
  forall report, verify_full_tape_integrity_v1 events (uuid_to_string run_id) kernel <> Some (Ok report).
Proof.
  intros Hwf Hrun Hm1 Hm2 He1 He2 Hmax Hread report Hv%verify_sound.
  apply emit_current_emits in He1 as (cov1 & pr1 & row1 & ev1 & sg1 & Hc1 & He1); [|done..].
  apply emit_current_emits in He2 as (cov2 & pr2 & row2 & ev2 & sg2 & Hc2 & He2); [|apply He1|done..].
  assert (cov2 = cov1) as ->.
  { rewrite (covered_same (ss_conn s)) in Hc2; [congruence|apply He1|].
    intros r [Hin _]%elem_of_filter_bool. apply He1. eapply run_row_fresh; [exact Hwf|apply He1|done]. }
  destruct (latest_checkpoint_emitted _ _ _ _ _ _ _ _ _ _ _ He1) as (p1 & Hp1 & Hn1 & _).
  destruct (latest_checkpoint_emitted _ _ _ _ _ _ _ _ _ _ _ He2) as (p2 & Hp2 & Hn2 & _).
  assert (Forall2 (reads (ss_conn s2) keys) (run_rows (ss_conn s2) run_id) events) as Hvs.
  { unfold all_with_verification_limit, stored_rows_with_signatures, row_limit in Hread. guards.
    rename select (collect_results _ _ = Ok _) into Hrows. apply collect_results_ok in Hrows. subst.
    rewrite length_take in *. rewrite take_ge in Hrows by lia.
    unfold rows_with_signatures in Hrows. by apply Forall2_fmap_l in Hrows. }
  assert (Forall2 (reads (ss_conn s2) keys) (checkpoint_rows (ss_conn s2) run_id) (checkpoints_of events)) as Hcs.
  { apply Forall2_select; [done|]. intros row v. apply reads_checkpoint. }
  rewrite (em_checkpoints _ _ _ _ _ _ _ _ _ _ _ He2), (em_checkpoints _ _ _ _ _ _ _ _ _ _ _ He1), <- app_assoc in Hcs.
  apply Forall2_app_inv_l in Hcs as (cs & tail & _ & Htail & Heq).
  inversion Htail as [|? c1 ? ? Hr1 Htail']; subst. inversion Htail' as [|? c2 ? ? Hr2 Hnil]; subst.
  inversion Hnil; subst. destruct Hv as (_ & _ & _ & facts & ? & ? & ? & ? & Hchain & _).
  rewrite Heq in Hchain. apply chain_pair in Hchain as (q1 & q2 & Hq1 & Hq2 & Hlt).
  apply reads_event in Hr1, Hr2. destruct (em_row _ _ _ _ _ _ _ _ _ _ _ He1) as [Hw1 _].
  destruct (em_row _ _ _ _ _ _ _ _ _ _ _ He2) as [Hw2 _]. rewrite Hw1 in Hr1. rewrite Hw2 in Hr2.
  apply Ok_inj in Hr1, Hr2. subst. rewrite Hp1 in Hq1. rewrite Hp2 in Hq2. simplify_eq. lia.
Qed.
End Sealing.
