(* ===== verification/StoreSession.v ===== *)
(** * Sessions of the ledger store

    Sequences of the store's public operations, started from an empty database:
    the tables stay well formed, every stored event reads back, the cached marks
    are exact, and so every successful seal leaves a run that recovery accepts. *)
From S2P Require Import Prelude RustStr Host LedgerPayloads TrustSpine Digests Events SigningSpec Tape TapeSpec WorkflowGraph Canonicalize CanonicalizeSpec Engine EngineSpec Store StoreRows StoreSeal StoreSpec.
From Stdlib Require Import Lia.
From stdpp Require Import base list gmap strings sorting relations.

#[local] Open Scope string_scope.
#[local] Open Scope list_scope.
#[local] Open Scope Z_scope.

(** ** Rows only appear *)
Section Growth.
Context `{Host, Canonicalizer, Crypto, RowDecoder, RowEncoder}.

(** Every row of [db] is a row of [db']. *)
Definition extends (db db' : Database) : Prop :=
  db_events db ⊆ db_events db' /\ db_event_signatures db ⊆ db_event_signatures db'.

#[export] Instance extends_preorder : PreOrder extends.
Proof.
  split; [by intros db|]. intros db1 db2 db3 [H12 S12] [H23 S23]. split; by etrans.
Qed.

Lemma insert_event_extends db event db' : insert_event db event = Ok db' -> extends db db'.
Proof.
  unfold insert_event. intros Hi. guards. subst. split; cbn; [|done]. by apply insert_subseteq.
Qed.

Lemma insert_signature_extends db signature db' :
  insert_event_signature db signature = Ok db' -> extends db db'.
Proof.
  unfold insert_event_signature. intros Hi. guards. subst. split; cbn; [done|]. by apply insert_subseteq.
Qed.

Lemma emit_extends db run_id covered prior key signer mint id db' :
  emit_checkpoint_in_transaction db run_id covered prior key signer mint = Ok (id, db') -> extends db db'.
Proof.
  unfold emit_checkpoint_in_transaction. intros He. guards. simplify_eq.
  etrans; [by eapply insert_event_extends|by eapply insert_signature_extends].
Qed.
End Growth.

(** ** The operations of a session *)

Inductive StoreOp `{Crypto} :=
| Op_append (event : Event)
| Op_append_event_signature (signature : EventSignatureV1)
| Op_append_signed (event : Event) (key : SigningKey) (signer : ActorKeyRef)
    (policy : CheckpointPolicy) (now : DateTime) (mint : Mint)
| Op_emit_checkpoint (run_id : RunId) (key : SigningKey) (signer : ActorKeyRef) (mint : Mint)
| Op_seal (run_id : RunId) (key : SigningKey) (signer : ActorKeyRef) (mint : Mint).

Section Operations.
Context `{Host, Canonicalizer, Crypto, RowDecoder, RowEncoder}.

Definition discard {A} (m : StoreM A) : StoreM unit := let! _ := m in store_ret tt.

Definition run_op (op : StoreOp) : StoreM unit :=
  match op with
  | Op_append event => append event
  | Op_append_event_signature signature => append_event_signature signature
  | Op_append_signed event key signer policy now mint =>
      discard (append_signed_with_checkpoint event key signer policy now mint)
  | Op_emit_checkpoint run_id key signer mint =>
      discard (emit_checkpoint_for_current_signed_prefix run_id key signer mint)
  | Op_seal run_id key signer mint => discard (seal_governed_signed_prefix run_id key signer mint)
  end.

(** A store after a sequence of operations, whether they succeeded or not. *)
Definition after (s : SqliteStore) (ops : list StoreOp) : SqliteStore :=
  foldl (fun s op => (run_op op s).2) s ops.

Lemma validate_external_append_conn event s r s' :
  validate_external_append event s = (r, s') ->
  ss_conn s' = ss_conn s /\ (forall c, r <> Err (Stopped c)).
Proof.
  unfold validate_external_append, store_bind, store_err, store_ret, store_lift, latest_ordinary_id.
  intros Hv. destruct (_ || _); [by simplify_eq|].
  destruct (always_blocked_trust_spine_kind event); [by simplify_eq|].
  destruct (ss_ordinary_id_high_water s !! ev_run_id event) as [id|].
  - destruct (ev_id event <=? id); [by simplify_eq|].
    destruct (canonicalized_on_append _); [|by simplify_eq].
    destruct (canonicalize event); by simplify_eq/=.
  - destruct (latest_ordinary_event_id_for_run _ _) as [[id|]|]; [| |by simplify_eq];
      [destruct (ev_id event <=? id); [by simplify_eq|]|];
      (destruct (canonicalized_on_append _); [|by simplify_eq]);
      destruct (canonicalize event); by simplify_eq/=.
Qed.

Lemma transaction_cases {A} (body : Database -> Result (A * Database) StoreFailure) s r s' :
  transaction body s = (r, s') ->
  (exists a db, body (ss_conn s) = Ok (a, db) /\ r = Ok a /\ s' = {| s with ss_conn := db |}) \/
  (exists e, body (ss_conn s) = Err e /\ r = Err e /\ s' = s).
Proof.
  unfold transaction. destruct (body (ss_conn s)) as [[a db]|e]; intros; simplify_eq;
    [left; by exists a, db|right; by exists e].
Qed.

(** Storing one event with its signature. *)
Definition store_signed (event : Event) (signature : EventSignatureV1) (db : Database)
    : Result (unit * Database) StoreFailure :=
  let* db := map_err Errored (insert_event db event) in
  let* db := map_err Errored (insert_event_signature db signature) in
  Ok (tt, db).

Lemma store_signed_extends event signature db u db' :
  store_signed event signature db = Ok (u, db') -> extends db db'.
Proof.
  unfold store_signed. intros Hs. guards. simplify_eq.
  etrans; [by eapply insert_event_extends|by eapply insert_signature_extends].
Qed.

Lemma map_err_crash {A E} (r : Result A E) c : map_err Errored r <> Err (Stopped c).
Proof. by destruct r. Qed.

Lemma store_signed_crash event signature db c : store_signed event signature db <> Err (Stopped c).
Proof.
  unfold store_signed. destruct (insert_event db event); cbn; [|done].
  by destruct (insert_event_signature _ _).
Qed.

(** The signed append as its two transactions: the event with its signature, then
    the checkpoint if one is due. *)
Lemma append_signed_cases event key signer policy now mint s r s' :
  append_signed_with_checkpoint event key signer policy now mint s = (r, s') ->
  (exists v e, validate_external_append event s = (v, s') /\ r = Err (Errored e)) \/
  exists s0 signature db1,
    validate_external_append event s = (Ok tt, s0) /\ sign_event event key signer now = Ok signature /\
    store_signed event signature (ss_conn s) = Ok (tt, db1) /\
    let s1 := {| ss_conn := db1; ss_ordinary_id_high_water :=
                 <[ev_run_id event := ev_id event]> (ss_ordinary_id_high_water s0) |} in
    match policy with
    | CheckpointPolicy_Disabled => r = Ok [] /\ s' = s1
    | CheckpointPolicy_Enabled cadence =>
        exists rc, emit_checkpoint_if_due_for_current_signed_prefix (ev_run_id event) cadence
          (ev_kind event == EventKind_RunCompleted) key signer mint s1 = (rc, s') /\
        r = result_map option_list rc
    end.
Proof.
  unfold append_signed_with_checkpoint, store_bind at 1. intros Ha.
  destruct (validate_external_append event s) as [[[]|e] s0] eqn:Hv;
    destruct (validate_external_append_conn _ _ _ _ Hv) as [Hconn Hcrash].
  2: { left. simplify_eq. destruct e as [e|c]; [eauto|by destruct (Hcrash c)]. }
  unfold store_bind at 1, store_lift in Ha.
  destruct (sign_event event key signer now) as [signature|e] eqn:Hs; cbn [map_err] in Ha.
  2: { left. simplify_eq. eauto. }
  unfold store_bind at 1 in Ha. fold (store_signed event signature) in Ha.
  destruct (transaction (store_signed event signature) s0) as [[[]|e] s1] eqn:Ht;
    apply transaction_cases in Ht as [(a & db & Hb & Hr & Hs1)|(e' & Hb & Hr & Hs1)]; simplify_eq.
  2: { left. destruct e' as [e|c]; [eauto|by apply store_signed_crash in Hb]. }
  right. exists s0, signature, db. rewrite <- Hconn. split_and!; [done..|].
  unfold store_bind at 1, record_ordinary_append in Ha. cbn in Ha. cbv zeta.
  destruct policy as [|cadence]; [by unfold store_ret in Ha; simplify_eq|].
  unfold store_bind in Ha. destruct (emit_checkpoint_if_due_for_current_signed_prefix _ _ _ _ _ _ _) as [rc s2].
  exists rc. destruct rc; unfold store_ret in Ha; by simplify_eq.
Qed.

(** ** No operation panics *)

Lemma emit_crash db run_id covered prior key signer mint c :
  covered <> [] ->
  emit_checkpoint_in_transaction db run_id covered prior key signer mint <> Err (Stopped c).
Proof.
  intros Hne. unfold emit_checkpoint_in_transaction.
  destruct (last covered) as [t|] eqn:Ht; [|by apply last_None in Ht].
  destruct (sign_event _ _ _ _); cbn; [|done]. destruct (insert_event _ _); cbn; [|done].
  by destruct (insert_event_signature _ _).
Qed.

Lemma verify_sealed_crash run_id covered kernel keys n previous items c :
  verify_sealed_checkpoints run_id covered (tape_prefix_roots covered) kernel keys n previous items
    <> Err (Stopped c).
Proof.
  revert n previous. induction items as [|[event osig] items IH]; intros n previous; [done|].
  cbn [verify_sealed_checkpoints].
  destruct (verify_sealed_checkpoint _ _ _ _ _ _ _ _) as [[n' previous']|e] eqn:Hv; [apply IH|].
  cbn. intros [= ->]. revert Hv. unfold verify_sealed_checkpoint.
  destruct osig as [signature|]; [|done]. destruct (_ || _); [done|].
  destruct (ev_payload event); try done. destruct (_ || _); [done|].
  destruct (_ || _) eqn:Hlen; [done|]. bool_simp.
  destruct (covered !! _) as [e|] eqn:He; [|apply lookup_ge_None in He;
    rename select ((_ <? _)%nat = false) into Hlt; apply Nat.ltb_ge in Hlt; lia].
  destruct (_ != _); [done|]. rewrite prefix_roots_lookup by (by eapply lookup_lt_Some).
  repeat (destruct (negb _); [done|]). destruct (is_some_and _ _); [done|]. by destruct (_ <=? _).
Qed.

Lemma seal_crash db run_id key signer mint c :
  seal_governed_signed_prefix_in_transaction db run_id key signer mint <> Err (Stopped c).
Proof.
  unfold seal_governed_signed_prefix_in_transaction, verify_governed_checkpoint_chain_for_seal.
  destruct (signed_ordinary_events_for_connection db run_id) as [covered|]; cbn [map_err result_bind]; [|done].
  destruct (last covered) as [t|] eqn:Ht; [|done]. assert (covered <> []) as Hne by (by intros ->).
  rewrite prefix_roots_last, prefix_roots_length, Nat.eqb_refl by done. cbn [negb].
  destruct (checkpoint_events_for_run_for_connection db run_id) as [items|]; cbn [map_err result_bind]; [|done].
  destruct (verify_sealed_checkpoints _ _ _ _ _ _ _ _) as [[]|e] eqn:Hv; cbn [result_bind].
  2: { intros [= ->]. by apply verify_sealed_crash in Hv. }
  destruct (latest_checkpoint_for_connection db run_id) as [prior|]; cbn [map_err result_bind]; [|done].
  assert (forall p, (let* (id, db) := emit_checkpoint_in_transaction db run_id covered p key signer mint in
                     Ok (GovernedCheckpointSealOutcome_Emitted id, db)) <> Err (Stopped c)) as Hemit.
  { intros p. destruct (emit_checkpoint_in_transaction _ _ _ _ _ _ _) as [[]|e] eqn:He; [done|].
    cbn. intros [= ->]. by eapply emit_crash. }
  destruct prior as [cp|]; [|apply Hemit]. destruct (_ && _); [done|apply Hemit].
Qed.

(** The event a signed append just stored is part of the signed prefix. *)
Lemma store_signed_covers event signature db db' covered :
  ev_kind event <> EventKind_TapeCheckpoint -> es_event_id signature = ev_id event ->
  store_signed event signature db = Ok (tt, db') ->
  signed_ordinary_events_for_connection db' (ev_run_id event) = Ok covered -> covered <> [].
Proof.
  intros Hkind Hid Hs Hcov ->. apply collect_results_ok in Hcov. apply Forall2_nil_inv_r in Hcov.
  unfold store_signed, insert_event, insert_event_signature in Hs. guards. simplify_eq.
  rename select (payload_to_string _ = Ok _) into Htext.
  match type of Htext with _ = Ok ?t => set (row := event_row event t) in * end.
  assert ((row, signature_row signature) ∈ (@nil (StoredRow * StoredSignatureRow))) as Hin; [|set_solver].
  rewrite <- Hcov. unfold signed_ordinary_rows. apply list_elem_of_omap. exists row. split.
  - unfold events_for_run. apply elem_of_select. cbn [db_events].
    exists (uuid_to_string (ev_id event)). rewrite lookup_insert_eq. split; [done|]. by apply bool_decide_eq_true.
  - assert (is_checkpoint_row row = false) as ->.
    { apply bool_decide_eq_false. unfold CHECKPOINT_KIND. intros Hk. by apply as_wire_inj in Hk. }
    unfold signature_for_event. cbn. rewrite <- Hid, lookup_insert_eq. cbn.
    by destruct signature as [? ? ? [] ? ?].
Qed.

Lemma validated_ordinary event s u s' :
  validate_external_append event s = (Ok u, s') -> ev_kind event <> EventKind_TapeCheckpoint.
Proof.
  unfold validate_external_append, store_err. intros Hv Hk.
  rewrite bool_decide_true in Hv by done. cbn [orb] in Hv. by simplify_eq.
Qed.

Lemma append_cases event s r s' :
  append event s = (r, s') ->
  (exists v e, validate_external_append event s = (v, s') /\ r = Err (Errored e)) \/
  exists s0 db1, validate_external_append event s = (Ok tt, s0) /\
    insert_event (ss_conn s) event = Ok db1 /\ r = Ok tt /\
    s' = {| ss_conn := db1; ss_ordinary_id_high_water :=
              <[ev_run_id event := ev_id event]> (ss_ordinary_id_high_water s0) |}.
Proof.
  unfold append, store_bind at 1. intros Ha.
  destruct (validate_external_append event s) as [[[]|e] s0] eqn:Hv;
    destruct (validate_external_append_conn _ _ _ _ Hv) as [Hconn Hcrash].
  2: { left. simplify_eq. destruct e as [e|c]; [eauto|by destruct (Hcrash c)]. }
  unfold store_bind, transaction, record_ordinary_append in Ha. rewrite Hconn in Ha.
  destruct (insert_event (ss_conn s) event) as [db|e]; cbn in Ha; simplify_eq; [|eauto].
  right. by exists s0, db.
Qed.

(** A checkpoint transaction grows the tables or leaves them. *)
Lemma emit_if_due_cases run_id cadence is_final key signer mint s r s' :
  emit_checkpoint_if_due_for_current_signed_prefix run_id cadence is_final key signer mint s = (r, s') ->
  extends (ss_conn s) (ss_conn s') /\ (forall e, r = Err e -> s' = s) /\
  ((forall covered, signed_ordinary_events_for_connection (ss_conn s) run_id = Ok covered -> covered <> []) ->
   forall c, r <> Err (Stopped c)).
Proof.
  unfold emit_checkpoint_if_due_for_current_signed_prefix.
  intros [(a & db & Hb & -> & ->)|(e & Hb & -> & ->)]%transaction_cases.
  - split; [|done]. cbn. guards; simplify_eq; [done|]. by eapply emit_extends.
  - split; [done|]. split; [done|]. intros Hne c [= ->].
    destruct (latest_checkpoint_for_connection _ _) as [prior|]; [|done]. cbn [map_err result_bind] in Hb.
    destruct (signed_ordinary_events_for_connection _ _) as [covered|] eqn:Hcov; [|done]. cbn [map_err result_bind] in Hb.
    destruct (negb _); [done|]. destruct (emit_checkpoint_in_transaction _ _ _ _ _ _ _) as [[]|e'] eqn:He; [done|].
    cbn in Hb. simplify_eq. eapply emit_crash; [|exact He]. by apply Hne.
Qed.

Lemma emit_current_cases run_id key signer mint s r s' :
  emit_checkpoint_for_current_signed_prefix run_id key signer mint s = (r, s') ->
  extends (ss_conn s) (ss_conn s') /\ (forall e, r = Err e -> s' = s) /\ forall c, r <> Err (Stopped c).
Proof.
  unfold emit_checkpoint_for_current_signed_prefix.
  intros [(a & db & Hb & -> & ->)|(e & Hb & -> & ->)]%transaction_cases.
  - split; [|done]. cbn. guards; simplify_eq; [done|]. by eapply emit_extends.
  - split; [done|]. split; [done|]. intros c [= ->].
    destruct (signed_ordinary_events_for_connection _ _) as [covered|] eqn:Hcov; [|done]. cbn [map_err result_bind] in Hb.
    destruct (list_is_empty covered) eqn:Hempty; [done|].
    destruct (latest_checkpoint_for_connection _ _) as [prior|]; [|done]. cbn [map_err result_bind] in Hb.
    destruct (emit_checkpoint_in_transaction _ _ _ _ _ _ _) as [[]|e'] eqn:He; [done|].
    cbn in Hb. simplify_eq. eapply emit_crash; [|exact He]. by intros ->.
Qed.

Lemma seal_transaction_cases run_id key signer mint s r s' :
  seal_governed_signed_prefix run_id key signer mint s = (r, s') ->
  extends (ss_conn s) (ss_conn s') /\ (forall e, r = Err e -> s' = s) /\ forall c, r <> Err (Stopped c).
Proof.
  unfold seal_governed_signed_prefix.
  intros [(a & db & Hb & -> & ->)|(e & Hb & -> & ->)]%transaction_cases.
  - split; [|done]. cbn. apply seal_cases in Hb as [(-> & _)|(id & covered & t & items & n & p & prior & _ & Hs)];
      [done|]. eapply emit_extends. apply Hs.
  - split; [done|]. split; [done|]. intros c [= ->]. by apply seal_crash in Hb.
Qed.

Lemma discard_cases {A} (m : StoreM A) s r s' :
  discard m s = (r, s') -> exists ra, m s = (ra, s') /\ r = result_map (fun _ => tt) ra.
Proof.
  unfold discard, store_bind, store_ret. destruct (m s) as [[a|e] s1]; intros; simplify_eq; by eexists.
Qed.

Lemma result_map_err {A B E} (f : A -> B) (r : Result A E) e : result_map f r = Err e -> r = Err e.
Proof. destruct r; cbn; congruence. Qed.

(** C6. The store only grows and fails closed: no operation removes or replaces a
    row and none panics; a failed operation changes no row, except that a signed
    append whose checkpoint could not be written keeps the event and signature
    that the plain signed append stores. *)
Theorem store_only_grows op s r s' :
  run_op op s = (r, s') ->
  extends (ss_conn s) (ss_conn s') /\ (forall c, r <> Err (Stopped c)) /\
  forall e, r = Err e -> ss_conn s' = ss_conn s \/
    exists event key signer cadence now mint s1,
      op = Op_append_signed event key signer (CheckpointPolicy_Enabled cadence) now mint /\
      append_signed event key signer now mint s = (Ok tt, s1) /\ ss_conn s' = ss_conn s1.
Proof.
  destruct op as [event|signature|event key signer policy now mint|run_id key signer mint|run_id key signer mint]; cbn [run_op].
  - intros [(v & e & [-> _]%validate_external_append_conn & ->)|(s0 & db1 & _ & Hi & -> & ->)]%append_cases; cbn.
    + split; [done|]. split; [done|]. by left.
    + split; [by eapply insert_event_extends|done].
  - unfold append_event_signature. intros [(a & db & Hb & -> & ->)|(e & Hb & -> & ->)]%transaction_cases.
    + split; [|done]. cbn. guards. simplify_eq. by eapply insert_signature_extends.
    + split; [done|]. split; [|by left]. intros c [= ->]. by destruct (insert_event_signature _ _).
  - intros (ra & Ha & ->)%discard_cases. pose proof Ha as Ha'.
    apply append_signed_cases in Ha as [(v & e & [Hc _]%validate_external_append_conn & ->)|(s0 & sg & db1 & Hv & Hs & Hst & Hrest)].
    + rewrite Hc. split; [done|]. split; [done|]. by left.
    + pose proof (store_signed_extends _ _ _ _ _ Hst) as Hext. cbv zeta in Hrest.
      destruct policy as [|cadence]; [destruct Hrest as [-> ->]; done|].
      destruct Hrest as (rc & Hrc & ->). pose proof (emit_if_due_cases _ _ _ _ _ _ _ _ _ Hrc) as (Hext2 & Herr & Hcrash).
      split; [by etrans|]. split.
      * intros c Hx%result_map_err%result_map_err. revert Hx. apply Hcrash. intros covered. cbn.
        eapply store_signed_covers; [by eapply validated_ordinary| |exact Hst].
        by apply sign_event_Ok in Hs as (_ & _ & -> & _).
      * intros e Hx%result_map_err%result_map_err. right. apply Herr in Hx as ->.
        do 7 eexists. split; [done|]. split; [|done].
        unfold append_signed, store_bind at 1, append_signed_with_checkpoint, store_bind at 1.
        rewrite Hv. unfold store_bind at 1, store_lift. rewrite Hs. cbn [map_err].
        unfold store_bind at 1. fold (store_signed event sg). unfold transaction.
        destruct (validate_external_append_conn _ _ _ _ Hv) as [-> _]. by rewrite Hst.
  - intros (ra & Ha & ->)%discard_cases. apply emit_current_cases in Ha as (Hext & Herr & Hcrash).
    split; [done|]. split; [by intros c Hx%result_map_err; eapply Hcrash|].
    intros e Hx%result_map_err. left. by rewrite (Herr e Hx).
  - intros (ra & Ha & ->)%discard_cases. apply seal_transaction_cases in Ha as (Hext & Herr & Hcrash).
    split; [done|]. split; [by intros c Hx%result_map_err; eapply Hcrash|].
    intros e Hx%result_map_err. left. by rewrite (Herr e Hx).
Qed.
End Operations.

(** ** The cached mark *)
Section Marks.
Context `{Host, Canonicalizer, Crypto, RowDecoder, RowEncoder, !RowLaws}.
Implicit Types (db : Database) (s : SqliteStore) (run_id : RunId) (event : Event).

(** The identifiers an operation brings are 128-bit values. *)
Definition op_ok (op : StoreOp) : Prop :=
  match op with
  | Op_append event => uuid_ok (ev_id event) /\ uuid_ok (ev_run_id event)
  | Op_append_event_signature _ => True
  | Op_append_signed event _ _ _ _ mint =>
      uuid_ok (ev_id event) /\ uuid_ok (ev_run_id event) /\ uuid_ok (mint_id mint)
  | Op_emit_checkpoint _ _ _ mint | Op_seal _ _ _ mint => uuid_ok (mint_id mint)
  end.

(** A cached mark is the latest ordinary id the database holds for the run. *)
Record store_wf s : Prop := {
  sw_db : db_wf (ss_conn s);
  sw_mark : forall run_id id, ss_ordinary_id_high_water s !! run_id = Some id ->
    uuid_ok run_id /\ latest_ordinary_event_id_for_run (ss_conn s) run_id = Ok (Some id)
}.

(** Every ordinary id of the run is below [id]. *)
Definition ordinary_below db run_id (id : EventId) : Prop :=
  forall row u, row ∈ ordinary_rows db run_id -> row_uuid row u -> u < id.

Lemma ordinary_sorted db run_id : db_wf db -> StronglySorted row_lt (ordinary_rows db run_id).
Proof.
  intros Hwf. unfold ordinary_rows, run_rows, events_for_run. rewrite filter_filter_bool.
  by apply select_sorted.
Qed.

Lemma sorted_last (l : list StoredRow) row row' :
  StronglySorted row_lt l -> last l = Some row -> row' ∈ l -> row' = row \/ row_lt row' row.
Proof.
  induction 1 as [|a l Hs IH Hall]; [done|]. rewrite last_cons, elem_of_cons.
  destruct (last l) as [b|] eqn:Hl.
  - intros [= ->] [->|Hin]; [right|by apply IH].
    rewrite Forall_forall in Hall. apply Hall. by apply last_Some_elem_of.
  - intros [= ->] [->|Hin]; [by left|]. apply last_None in Hl as ->. set_solver.
Qed.

Lemma latest_ordinary_cases db run_id :
  db_wf db ->
  (latest_ordinary_event_id_for_run db run_id = Ok None /\ ordinary_rows db run_id = []) \/
  exists row id, latest_ordinary_event_id_for_run db run_id = Ok (Some id) /\
    row ∈ ordinary_rows db run_id /\ row_uuid row id /\
    forall row' u, row' ∈ ordinary_rows db run_id -> row_uuid row' u -> u <= id.
Proof.
  intros Hwf. unfold latest_ordinary_event_id_for_run. fold (run_rows db run_id) (ordinary_rows db run_id).
  destruct (last (ordinary_rows db run_id)) as [row|] eqn:Hl.
  - right. assert (row ∈ ordinary_rows db run_id) as Hin by (by apply last_Some_elem_of).
    pose proof Hin as [Hrun _]%elem_of_filter_bool.
    destruct (run_row_uuid db run_id row Hwf Hrun) as [_ [id Hu]]. exists row, id.
    rewrite (row_uuid_event_id _ _ _ Hu). split; [done|]. split; [done|]. split; [done|].
    intros row' u Hin' Hu'.
    destruct (sorted_last _ _ _ (ordinary_sorted db run_id Hwf) Hl Hin') as [->|Hlt].
    + by rewrite (row_uuid_unique _ _ _ Hu Hu').
    + apply Z.lt_le_incl. by apply Hlt.
  - left. by apply last_None in Hl.
Qed.

Lemma latest_ordinary_last db run_id row id :
  last (ordinary_rows db run_id) = Some row -> row_uuid row id ->
  latest_ordinary_event_id_for_run db run_id = Ok (Some id).
Proof.
  intros Hl Hu. unfold latest_ordinary_event_id_for_run. fold (run_rows db run_id) (ordinary_rows db run_id).
  by rewrite Hl, (row_uuid_event_id _ _ _ Hu).
Qed.

Lemma latest_ordinary_same db db' run_id :
  ordinary_rows db' run_id = ordinary_rows db run_id ->
  latest_ordinary_event_id_for_run db' run_id = latest_ordinary_event_id_for_run db run_id.
Proof.
  intros Ho. unfold latest_ordinary_event_id_for_run. fold (run_rows db run_id) (run_rows db' run_id).
  fold (ordinary_rows db run_id) (ordinary_rows db' run_id). by rewrite Ho.
Qed.

(** What an insertion does to the ordinary rows of each run. *)
Lemma insert_other_rows db event db' run_id :
  insert_event db event = Ok db' ->
  ev_kind event = EventKind_TapeCheckpoint \/ uuid_to_string (ev_run_id event) <> uuid_to_string run_id ->
  ordinary_rows db' run_id = ordinary_rows db run_id.
Proof.
  intros (text & _ & Hfresh & ->)%insert_event_ok Hother. unfold ordinary_rows, run_rows, events_for_run.
  cbn. rewrite !filter_filter_bool. apply select_insert_other; [done|]. cbn.
  destruct Hother as [Hk|Hne]; [|by rewrite bool_decide_false].
  assert (is_checkpoint_row (event_row event text) = true) as ->; [|apply andb_false_r].
  unfold is_checkpoint_row, event_row. cbn [row_kind]. by rewrite Hk.
Qed.

Lemma insert_own_rows db event db' :
  db_wf db -> uuid_ok (ev_id event) -> ev_kind event <> EventKind_TapeCheckpoint ->
  ordinary_below db (ev_run_id event) (ev_id event) -> insert_event db event = Ok db' ->
  exists row, row_uuid row (ev_id event) /\
    ordinary_rows db' (ev_run_id event) = ordinary_rows db (ev_run_id event) ++ [row].
Proof.
  intros Hwf Hid Hkind Hbelow (text & _ & Hfresh & ->)%insert_event_ok.
  exists (event_row event text). split; [done|]. unfold ordinary_rows, run_rows, events_for_run.
  cbn. rewrite !filter_filter_bool. apply select_insert_last; [done|..].
  - cbn. rewrite bool_decide_true by done. cbn. apply negb_true_iff, bool_decide_eq_false.
    unfold CHECKPOINT_KIND. cbn. intros Hk. by apply (as_wire_inj _ EventKind_TapeCheckpoint) in Hk.
  - intros k row Hk Hp. destruct (wf_event _ Hwf _ _ Hk) as [<- [u Hu]].
    destruct Hu as [Huo Hrid]. rewrite Hrid. apply uuid_text_order; [done|done|].
    apply Z.lt_le_incl, (Hbelow row u); [|done]. unfold ordinary_rows, run_rows, events_for_run.
    rewrite filter_filter_bool. apply elem_of_select. eauto.
Qed.

Lemma marks_kept s db' :
  store_wf s -> db_wf db' ->
  (forall run_id, uuid_ok run_id -> ordinary_rows db' run_id = ordinary_rows (ss_conn s) run_id) ->
  store_wf {| s with ss_conn := db' |}.
Proof.
  intros [Hwf Hm] Hwf' Hrows. split; [done|]. cbn. intros run_id id [Hr Hl]%Hm. split; [done|].
  rewrite <- Hl. by apply latest_ordinary_same, Hrows.
Qed.

(** The mark moves with the event that was just stored. *)
Lemma mark_moves s event db' db'' :
  store_wf s -> uuid_ok (ev_id event) -> uuid_ok (ev_run_id event) ->
  ev_kind event <> EventKind_TapeCheckpoint ->
  ordinary_below (ss_conn s) (ev_run_id event) (ev_id event) ->
  insert_event (ss_conn s) event = Ok db' -> db_wf db'' -> db_events db'' = db_events db' ->
  store_wf {| ss_conn := db''; ss_ordinary_id_high_water :=
                <[ev_run_id event := ev_id event]> (ss_ordinary_id_high_water s) |}.
Proof.
  intros [Hwf Hm] Hid Hrun Hkind Hbelow Hi Hwf'' Hev.
  assert (forall r, ordinary_rows db'' r = ordinary_rows db' r) as Hsame.
  { intros r. unfold ordinary_rows, run_rows, events_for_run. by rewrite Hev. }
  split; [done|]. cbn. intros run_id id [[<- <-]|[Hne Hr]]%lookup_insert_Some.
  - split; [done|]. destruct (insert_own_rows _ _ _ Hwf Hid Hkind Hbelow Hi) as (row & Hu & Hrows).
    eapply latest_ordinary_last; [|done]. by rewrite Hsame, Hrows, last_snoc.
  - apply Hm in Hr as [Hok Hl]. split; [done|]. rewrite <- Hl. apply latest_ordinary_same.
    rewrite Hsame. eapply insert_other_rows; [done|]. right. intros Heq. apply Hne. by apply show_inj.
Qed.

Lemma latest_ordinary_id_exact s run_id :
  store_wf s -> uuid_ok run_id ->
  exists latest s0, latest_ordinary_id run_id s = (Ok latest, s0) /\
    latest_ordinary_event_id_for_run (ss_conn s) run_id = Ok latest /\
    store_wf s0 /\ ss_conn s0 = ss_conn s.
Proof.
  intros Hwf Hrun. unfold latest_ordinary_id.
  destruct (ss_ordinary_id_high_water s !! run_id) as [id|] eqn:Hm.
  { exists (Some id), s. split; [done|]. split; [by apply (sw_mark _ Hwf)|done]. }
  destruct (latest_ordinary_cases (ss_conn s) run_id (sw_db _ Hwf)) as [[Hl _]|(row & id & Hl & _)];
    rewrite Hl; eexists _, _; split; [reflexivity|done|reflexivity|].
  split; [done|]. split; [|done]. split; [apply Hwf|]. cbn.
  intros r i [[<- <-]|[_ Hr]]%lookup_insert_Some; [done|by apply (sw_mark _ Hwf)].
Qed.

(** The guard accepts an id exactly when it is above every ordinary id. *)
Lemma validate_exact event s r s0 :
  store_wf s -> uuid_ok (ev_run_id event) -> validate_external_append event s = (r, s0) ->
  store_wf s0 /\ ss_conn s0 = ss_conn s /\
  (r = Ok tt -> ordinary_below (ss_conn s) (ev_run_id event) (ev_id event)) /\
  (ev_kind event <> EventKind_TapeCheckpoint -> is_checkpoint_payload (ev_payload event) = false ->
   always_blocked_trust_spine_kind event = None ->
   r = Err (Errored (StoreError_NonMonotonicEventId (uuid_to_string (ev_run_id event)))) <->
   ~ ordinary_below (ss_conn s) (ev_run_id event) (ev_id event)).
Proof.
  intros Hwf Hrun Hv. unfold validate_external_append in Hv.
  destruct ((ev_kind event == EventKind_TapeCheckpoint) || _) eqn:Hc.
  { unfold store_err in Hv. simplify_eq. split_and!; try done. intros Hk Hp. apply orb_true_iff in Hc as [Hc|Hc];
      [|congruence]. by apply bool_decide_eq_true in Hc. }
  destruct (always_blocked_trust_spine_kind event) eqn:Hb.
  { unfold store_err in Hv. by simplify_eq. }
  destruct (latest_ordinary_id_exact s _ Hwf Hrun) as (latest & s1 & Hl & Hdb & Hwf1 & Hconn).
  unfold store_bind at 1 in Hv. rewrite Hl in Hv.
  assert (match latest with Some l => ev_id event <=? l | None => false end = false <->
          ordinary_below (ss_conn s) (ev_run_id event) (ev_id event)) as Hiff.
  { destruct (latest_ordinary_cases _ (ev_run_id event) (sw_db _ Hwf)) as [[Hn Hnil]|(row & id & Hs & Hin & Hu & Hmax)].
    - rewrite Hn in Hdb. simplify_eq. split; [|done]. intros _ row u. rewrite Hnil. set_solver.
    - rewrite Hs in Hdb. simplify_eq. rewrite Z.leb_gt. split.
      + intros Hlt row' u Hin' Hu'. specialize (Hmax row' u Hin' Hu'). lia.
      + intros Hbelow. by apply (Hbelow row). }
  destruct (match latest with Some l => ev_id event <=? l | None => false end) eqn:Hle.
  - destruct latest as [l|]; [|done]. rewrite Hle in Hv. unfold store_bind, store_err in Hv. simplify_eq.
    split_and!; try done. intros _ _ _. split; [|done]. intros _ Hbelow. by apply Hiff in Hbelow.
  - assert (ordinary_below (ss_conn s) (ev_run_id event) (ev_id event)) as Hbelow by by apply Hiff.
    assert (match latest with Some l => if ev_id event <=? l
              then store_err (StoreError_NonMonotonicEventId (uuid_to_string (ev_run_id event)))
              else store_ret tt | None => store_ret tt end = store_ret tt) as Hret
      by (destruct latest as [l|]; [by rewrite Hle|done]).
    rewrite Hret in Hv. unfold store_bind, store_ret, store_lift in Hv.
    destruct (canonicalized_on_append _); [destruct (canonicalize event)|]; cbn in Hv; simplify_eq;
      split_and!; try done; intros; (split; [done|]); intros Hno; by destruct Hno.
Qed.

Lemma emit_keeps db run_id covered prior key signer mint id db' :
  db_wf db -> uuid_ok (mint_id mint) ->
  emit_checkpoint_in_transaction db run_id covered prior key signer mint = Ok (id, db') ->
  db_wf db' /\ forall r, ordinary_rows db' r = ordinary_rows db r.
Proof.
  intros Hwf Hm He. unfold emit_checkpoint_in_transaction in He.
  destruct (last covered) as [t|]; [|done]. apply bind_ok in He as (sg & _ & He).
  apply bind_ok in He as (db1 & Hi%map_err_ok & He). apply bind_ok in He as (db2 & Hs%map_err_ok & He). simplify_eq.
  pose proof (insert_event_wf _ _ _ Hwf (Hm : uuid_ok (ev_id (checkpoint_event run_id covered t prior mint))) Hi) as Hwf1.
  split; [by eapply insert_signature_wf|]. intros r.
  apply insert_signature_ok in Hs as (_ & _ & ->).
  transitivity (ordinary_rows db1 r); [done|]. eapply insert_other_rows; [exact Hi|]. by left.
Qed.

Lemma store_signed_insert event signature db u db' :
  store_signed event signature db = Ok (u, db') ->
  exists db1, insert_event db event = Ok db1 /\ insert_event_signature db1 signature = Ok db' /\
    db_events db' = db_events db1.
Proof.
  unfold store_signed. intros Hs. apply bind_ok in Hs as (db1 & Hi%map_err_ok & Hs).
  apply bind_ok in Hs as (db2 & Hs2%map_err_ok & Hs). simplify_eq. exists db1. split; [done|]. split; [done|].
  by apply insert_signature_ok in Hs2 as (_ & _ & ->).
Qed.

Lemma emit_if_due_keeps run_id cadence is_final key signer mint s r s' :
  db_wf (ss_conn s) -> uuid_ok (mint_id mint) ->
  emit_checkpoint_if_due_for_current_signed_prefix run_id cadence is_final key signer mint s = (r, s') ->
  s' = {| s with ss_conn := ss_conn s' |} /\ db_wf (ss_conn s') /\
  forall r, ordinary_rows (ss_conn s') r = ordinary_rows (ss_conn s) r.
Proof.
  intros Hwf Hm. unfold emit_checkpoint_if_due_for_current_signed_prefix.
  intros [(a & db & Hb & -> & ->)|(e & Hb & -> & ->)]%transaction_cases; [|by destruct s].
  split; [done|]. cbn. guards; simplify_eq; [done|]. by eapply emit_keeps.
Qed.

(** Operations keep the marks exact. *)
Lemma run_op_wf op s : store_wf s -> op_ok op -> store_wf (run_op op s).2.
Proof.
  intros Hwf Hop. destruct (run_op op s) as [r s'] eqn:Hrun. cbn. revert Hrun.
  destruct op as [event|signature|event key signer policy now mint|run_id key signer mint|run_id key signer mint];
    cbn [run_op op_ok] in *.
  - destruct Hop as [Hid Hr].
    intros [(v & e & Hv & _)|(s0 & db1 & Hv & Hi & -> & ->)]%append_cases;
      destruct (validate_exact _ _ _ _ Hwf Hr Hv) as (Hwf0 & Hc & Hb & _); [done|].
    rewrite <- Hc in Hi, Hb. eapply mark_moves; eauto using validated_ordinary, insert_event_wf, sw_db.
  - unfold append_event_signature. intros [(a & db & Hb & _ & ->)|(e & _ & _ & ->)]%transaction_cases; [|done].
    guards. simplify_eq. rename select (insert_event_signature _ _ = Ok _) into Hi.
    pose proof (insert_signature_wf _ _ _ (sw_db _ Hwf) Hi) as Hwf'.
    apply insert_signature_ok in Hi as (_ & _ & ->). by apply marks_kept.
  - destruct Hop as (Hid & Hr & Hm). intros (ra & Ha & ->)%discard_cases.
    apply append_signed_cases in Ha as [(v & e & Hv & _)|(s0 & sg & db1 & Hv & Hs & Hst & Hrest)];
      destruct (validate_exact _ _ _ _ Hwf Hr Hv) as (Hwf0 & Hc & Hb & _); [done|].
    rewrite <- Hc in Hst, Hb. apply store_signed_insert in Hst as (db0 & Hi & Hsig & Hev).
    pose proof (insert_event_wf _ _ _ (sw_db _ Hwf0) Hid Hi) as Hwfi.
    pose proof (insert_signature_wf _ _ _ Hwfi Hsig) as Hwf1.
    assert (store_wf {| ss_conn := db1; ss_ordinary_id_high_water :=
              <[ev_run_id event := ev_id event]> (ss_ordinary_id_high_water s0) |}) as Hs1.
    { eapply mark_moves; eauto using validated_ordinary. }
    cbv zeta in Hrest. destruct policy as [|cadence]; [by destruct Hrest as [_ ->]|].
    destruct Hrest as (rc & Hrc & _). apply emit_if_due_keeps in Hrc as (-> & Hwf' & Hrows); [|done..].
    by apply (marks_kept _ (ss_conn s')) in Hs1.
  - intros (ra & Ha & ->)%discard_cases. unfold emit_checkpoint_for_current_signed_prefix in Ha.
    apply transaction_cases in Ha as [(a & db & Hb & _ & ->)|(e & _ & _ & ->)]; [|done].
    guards; simplify_eq; [by destruct s|]. rename select (emit_checkpoint_in_transaction _ _ _ _ _ _ _ = _) into He.
    destruct (emit_keeps _ _ _ _ _ _ _ _ _ (sw_db _ Hwf) Hop He) as [Hwf' Hrows]. by apply marks_kept.
  - intros (ra & Ha & ->)%discard_cases. unfold seal_governed_signed_prefix in Ha.
    apply transaction_cases in Ha as [(a & db & Hb & _ & ->)|(e & _ & _ & ->)]; [|done].
    apply seal_cases in Hb as [(-> & _)|(id & covered & t & items & n & p & prior & _ & Hs)]; [by destruct s|].
    destruct (emit_keeps _ _ _ _ _ _ _ _ _ (sw_db _ Hwf) Hop (se_emit _ _ _ _ _ _ _ _ _ _ _ _ _ Hs)) as [Hwf' Hrows].
    by apply marks_kept.
Qed.

Lemma after_wf s ops : store_wf s -> Forall op_ok ops -> store_wf (after s ops).
Proof.
  intros Hs Hops. revert s Hs. induction Hops as [|op ops Hop _ IH]; intros s Hs; [done|].
  apply (IH (run_op op s).2). by apply run_op_wf.
Qed.

Lemma open_store_wf db : db_wf db -> store_wf (open_store db).
Proof. intros Hwf. split; [done|]. cbn. intros r id Hr. by apply lookup_empty_Some in Hr. Qed.

(** C7. The cached mark is exact: after any operations on an opened database, the
    mark of a run is what the query over its rows answers, and an ordinary event
    is refused as non-monotonic exactly when the run already holds an ordinary
    event with an equal or greater id.  Checkpoints never move the mark. *)
Theorem high_water_mark_is_exact db ops event s :
  db_wf db -> Forall op_ok ops -> s = after (open_store db) ops -> uuid_ok (ev_run_id event) ->
  ev_kind event <> EventKind_TapeCheckpoint -> is_checkpoint_payload (ev_payload event) = false ->
  always_blocked_trust_spine_kind event = None ->
  (latest_ordinary_id (ev_run_id event) s).1 =
    map_err Errored (latest_ordinary_event_id_for_run (ss_conn s) (ev_run_id event)) /\
  ((validate_external_append event s).1 =
     Err (Errored (StoreError_NonMonotonicEventId (uuid_to_string (ev_run_id event)))) <->
   exists row u, row ∈ ordinary_rows (ss_conn s) (ev_run_id event) /\ row_uuid row u /\ ev_id event <= u).
Proof.
  intros Hdb Hops -> Hrun Hk Hp Hb.
  pose proof (after_wf _ _ (open_store_wf _ Hdb) Hops) as Hwf. set (s := after (open_store db) ops) in *.
  split.
  - destruct (latest_ordinary_id_exact s _ Hwf Hrun) as (latest & s0 & Hl & Hd & _). by rewrite Hl, Hd.
  - destruct (validate_external_append event s) as [r s0] eqn:Hv.
    destruct (validate_exact _ _ _ _ Hwf Hrun Hv) as (_ & _ & _ & Hiff). cbn. rewrite Hiff by done.
    unfold ordinary_below. split.
    + intros Hno. destruct (latest_ordinary_cases _ (ev_run_id event) (sw_db _ Hwf))
        as [[_ Hnil]|(row & id & _ & Hin & Hu & Hmax)].
      * exfalso. apply Hno. intros row u. rewrite Hnil. set_solver.
      * exists row, id. split; [done|]. split; [done|]. destruct (decide (ev_id event <= id)) as [|Hgt]; [done|].
        exfalso. apply Hno. intros row' u Hin' Hu'. specialize (Hmax row' u Hin' Hu'). lia.
    + intros (row & u & Hin & Hu & Hle) Hall. specialize (Hall row u Hin Hu). lia.
Qed.
End Marks.

(** ** Governed sessions *)
Section Governed.
Context `{Host, Crypto, RowDecoder, RowEncoder, !RowLaws, !CryptoLaws _}.
Context (event_to_vec : Event -> Result string string).
#[local] Instance ledger : Canonicalizer := ledger_canonicalizer event_to_vec.
Context (keys : TrustedPublicKeys).

(** The parent is a 128-bit value and the payload survives its text column. *)
Definition storable (event : Event) : Prop :=
  (forall parent, ev_parent_event_id event = Some parent -> uuid_ok parent) /\
  payload_reads_back (ev_payload event).

(** A governed session appends signed events under trusted keys and canonical
    unsigned events, and seals. *)
Definition governed_op (op : StoreOp) : Prop :=
  op_ok op /\
  match op with
  | Op_append event => storable event /\ ledger_canonicalize event = Ok event
  | Op_append_event_signature _ => False
  | Op_append_signed event key _ _ _ _ => storable event /\ trusts keys key
  | Op_emit_checkpoint _ _ _ _ | Op_seal _ _ _ _ => True
  end.

Definition all_verified (db : Database) : Prop := forall run_id, ordinary_verified keys db run_id.

Lemma canonical_row event text :
  uuid_ok (ev_id event) -> uuid_ok (ev_run_id event) -> storable event ->
  ledger_canonicalize event = Ok event -> payload_to_string (ev_payload event) = Ok text ->
  row_to_event (event_row event text) = Ok event.
Proof.
  intros Hid Hrun [Hparent Hback] (_ & Hv & Hk & _ & Hs)%canonicalize_iff Htext.
  by apply event_row_reads_back.
Qed.

Lemma signed_is_canonical event key signer at_ signature :
  sign_event event key signer at_ = Ok signature -> ledger_canonicalize event = Ok event.
Proof.
  intros (message & Hm & _)%sign_event_Ok. unfold canonical_event_bytes in Hm.
  apply bind_ok in Hm as (e & He & _). cbn in He. apply map_err_ok in He.
  pose proof He as [-> _]%canonicalize_iff. done.
Qed.

(** A new row that is a checkpoint or reads back keeps every ordinary row verified. *)
Lemma verified_insert db db' row :
  db_wf db -> all_verified db -> db_events db !! row_id row = None ->
  db_events db' = <[row_id row := row]> (db_events db) ->
  (forall k, k <> row_id row -> signature_for_event db' k = signature_for_event db k) ->
  (is_checkpoint_row row = false -> exists v, reads db' keys row v /\ ordinary_ok v) ->
  all_verified db'.
Proof.
  intros Hwf Hall Hfresh Hev Hsig Hnew run_id. apply Forall_forall.
  intros r [Hin Hord]%elem_of_filter_bool. apply elem_of_run_rows in Hin as (k & Hk & Hr).
  rewrite Hev in Hk. apply lookup_insert_Some in Hk as [[<- <-]|[Hne Hk]].
  { apply Hnew. by apply negb_true_iff. }
  destruct (wf_event _ Hwf _ _ Hk) as [Hid _]. specialize (Hall run_id).
  unfold ordinary_verified in Hall. rewrite Forall_forall in Hall.
  destruct (Hall r) as (v & Hv & Hok).
  { apply elem_of_filter_bool. split; [|done]. apply elem_of_run_rows. eauto. }
  exists v. split; [|done]. eapply reads_other; [|exact Hv]. apply Hsig. congruence.
Qed.

Lemma unsigned_reads db row event :
  row_to_event row = Ok event -> signature_for_event db (row_id row) = None ->
  exists v, reads db keys row v /\ ordinary_ok v.
Proof.
  intros He Hs. eexists. unfold reads, verify_row, verify_stored_signature. cbn [svr_event svr_signature].
  rewrite He, Hs. cbn. split; [reflexivity|]. right. by left.
Qed.

Lemma no_signature db k : db_wf db -> db_events db !! k = None -> signature_for_event db k = None.
Proof.
  intros Hwf Hk. unfold signature_for_event. destruct (db_event_signatures db !! k) eqn:Hs; [|done].
  apply (wf_signature _ Hwf) in Hs as [? ?]. congruence.
Qed.

Lemma append_verified db event db' :
  db_wf db -> all_verified db -> uuid_ok (ev_id event) -> uuid_ok (ev_run_id event) -> storable event ->
  ledger_canonicalize event = Ok event -> insert_event db event = Ok db' -> all_verified db'.
Proof.
  intros Hwf Hall Hid Hrun Hst Hcan (text & Htext & Hfresh & ->)%insert_event_ok.
  eapply (verified_insert db _ (event_row event text)); [done..|].
  intros _. eapply unsigned_reads; [by apply canonical_row|]. by apply (no_signature db).
Qed.

Lemma store_signed_verified db event signature key signer now db' :
  db_wf db -> all_verified db -> uuid_ok (ev_id event) -> uuid_ok (ev_run_id event) -> storable event ->
  trusts keys key -> sign_event event key signer now = Ok signature ->
  store_signed event signature db = Ok (tt, db') -> all_verified db'.
Proof.
  intros Hwf Hall Hid Hrun Hst Hk Hs Hstore.
  apply store_signed_insert in Hstore as (db1 & Hi & Hsi & _).
  apply insert_event_ok in Hi as (text & Htext & Hfresh & ->).
  apply insert_signature_ok in Hsi as (_ & _ & ->).
  pose proof (sign_event_Ok _ _ _ _ _ Hs) as (_ & _ & Hsid & _). rewrite Hsid.
  eapply (verified_insert db _ (event_row event text)); [done..| |].
  - intros k Hne. unfold signature_for_event. cbn. by apply lookup_insert_ne.
  - intros _. eexists. split.
    + eapply signed_row_reads; [|by rewrite Hsid|unfold signature_for_event; cbn; apply lookup_insert_eq|
        by eapply signed_verifies].
      apply canonical_row; [done..| |done]. by eapply signed_is_canonical.
    + right. right. by split; [|eexists].
Qed.

Lemma emit_verified db run_id covered prior key signer mint id db' :
  db_wf db -> all_verified db ->
  emit_checkpoint_in_transaction db run_id covered prior key signer mint = Ok (id, db') -> all_verified db'.
Proof.
  intros Hwf Hall He. unfold emit_checkpoint_in_transaction in He.
  destruct (last covered) as [t|]; [|done]. apply bind_ok in He as (sg & Hs%map_err_ok & He).
  apply bind_ok in He as (db1 & Hi%map_err_ok & He). apply bind_ok in He as (db2 & Hs2%map_err_ok & He). simplify_eq.
  apply insert_event_ok in Hi as (text & Htext & Hfresh & ->).
  apply insert_signature_ok in Hs2 as (_ & _ & ->).
  pose proof (sign_event_Ok _ _ _ _ _ Hs) as (_ & _ & Hsid & _). rewrite Hsid.
  eapply (verified_insert db _ (event_row (checkpoint_event run_id covered t prior mint) text)); [done..| |done].
  intros k Hne. unfold signature_for_event. cbn. by apply lookup_insert_ne.
Qed.

Lemma run_op_verified op s :
  store_wf s -> all_verified (ss_conn s) -> governed_op op -> all_verified (ss_conn (run_op op s).2).
Proof.
  intros Hwf Hall [Hop Hgov]. destruct (run_op op s) as [r s'] eqn:Hrun. cbn. revert Hrun.
  destruct op as [event|signature|event key signer policy now mint|run_id key signer mint|run_id key signer mint];
    cbn [run_op op_ok] in *.
  - destruct Hop as [Hid Hr], Hgov as [Hst Hcan].
    intros [(v & e & [-> _]%validate_external_append_conn & _)|(s0 & db1 & _ & Hi & _ & ->)]%append_cases; [done|].
    cbn. eapply append_verified; eauto using sw_db.
  - done.
  - destruct Hop as (Hid & Hr & Hm), Hgov as [Hst Hk]. intros (ra & Ha & ->)%discard_cases.
    apply append_signed_cases in Ha as [(v & e & [-> _]%validate_external_append_conn & _)|(s0 & sg & db1 & _ & Hs & Hstore & Hrest)];
      [done|].
    pose proof (store_signed_verified _ _ _ _ _ _ _ (sw_db _ Hwf) Hall Hid Hr Hst Hk Hs Hstore) as Hall1.
    cbv zeta in Hrest. destruct policy as [|cadence]; [by destruct Hrest as [_ ->]|].
    apply store_signed_insert in Hstore as (db0 & Hi & Hsig & _).
    pose proof (insert_signature_wf _ _ _ (insert_event_wf _ _ _ (sw_db _ Hwf) Hid Hi) Hsig) as Hwf1.
    destruct Hrest as (rc & Hrc & _). unfold emit_checkpoint_if_due_for_current_signed_prefix in Hrc.
    apply transaction_cases in Hrc as [(a & db & Hb & _ & ->)|(e & _ & _ & ->)]; [|done].
    cbn in Hb |- *. guards; simplify_eq; [done|]. by eapply emit_verified.
  - intros (ra & Ha & ->)%discard_cases. unfold emit_checkpoint_for_current_signed_prefix in Ha.
    apply transaction_cases in Ha as [(a & db & Hb & _ & ->)|(e & _ & _ & ->)]; [|done].
    cbn. guards; simplify_eq; [done|]. by eapply emit_verified; [apply Hwf|..].
  - intros (ra & Ha & ->)%discard_cases. unfold seal_governed_signed_prefix in Ha.
    apply transaction_cases in Ha as [(a & db & Hb & _ & ->)|(e & _ & _ & ->)]; [|done].
    apply seal_cases in Hb as [(-> & _)|(id & covered & t & items & n & p & prior & _ & Hs)]; [done|].
    cbn. eapply emit_verified; [apply Hwf|done|apply Hs].
Qed.

Lemma after_verified s ops :
  store_wf s -> all_verified (ss_conn s) -> Forall governed_op ops ->
  store_wf (after s ops) /\ all_verified (ss_conn (after s ops)).
Proof.
  intros Hs Hall Hops. revert s Hs Hall. induction Hops as [|op ops Hop _ IH]; intros s Hs Hall; [done|].
  apply (IH (run_op op s).2); [by apply run_op_wf; [|apply Hop]|by apply run_op_verified].
Qed.

Definition empty_database : Database := {| db_events := ∅; db_event_signatures := ∅ |}.

Lemma empty_wf : db_wf empty_database.
Proof. split; cbn; intros k x Hk; by apply lookup_empty_Some in Hk. Qed.

Lemma empty_verified : all_verified empty_database.
Proof. intros run_id. constructor. Qed.

(** C5. Sealed sessions are recoverable, end to end.  Whatever governed operations a
    fresh database has seen, failed ones included, when a seal answers with a
    checkpoint the replay reader reads the whole run back from the store, and the
    tape verifier accepts it under the sealing signer, with this checkpoint as the
    certificate of exactly the signed ordinary events the store holds.  The fresh
    id must follow the earlier checkpoints of the run, as version-7 UUIDs do. *)
Theorem sealed_sessions_are_recoverable ops run_id key signer mint outcome id s' max :
  let s := after (open_store empty_database) ops in
  Forall governed_op ops -> uuid_ok run_id -> trusts keys key ->
  mint_follows (ss_conn s) run_id mint ->
  seal_governed_signed_prefix run_id key signer mint s = (Ok outcome, s') ->
  outcome = GovernedCheckpointSealOutcome_Emitted id \/
  outcome = GovernedCheckpointSealOutcome_AlreadySealed id ->
  Z.of_nat (length (run_rows (ss_conn s') run_id)) <= max < 2 ^ 63 - 1 ->
  exists events report covered,
    all_with_verification_limit (rows_with_signatures (ss_conn s') (uuid_to_string run_id)) keys
      (Some max) = Ok events /\
    verify_full_tape_integrity_v1 events (uuid_to_string run_id) (identity_of key signer) =
      Some (Ok report) /\
    tir_checkpoint_event_ref report = uuid_to_string id /\
    signed_ordinary_events_for_connection (ss_conn s') run_id = Ok covered /\
    tir_signed_non_checkpoint_event_count report = Z.of_nat (length covered) /\
    tir_tape_root_hash report = tape_root_hash (soe_canonical_event_hash <$> covered).
Proof.
  intros s Hops Hrun Hk Hmint.
  destruct (after_verified (open_store empty_database) ops) as [Hwf Hall];
    [apply open_store_wf, empty_wf|apply empty_verified|done|].
  by apply sealed_prefix_is_recoverable; [apply Hwf|..|apply Hall].
Qed.
End Governed.

(** ** The cadence *)
Section Cadence.
Context `{Host, Canonicalizer, Crypto, RowDecoder, RowEncoder, !RowLaws, !CryptoLaws _}.

Lemma insert_keeps_checkpoints db event db' run_id :
  ev_kind event <> EventKind_TapeCheckpoint -> insert_event db event = Ok db' ->
  checkpoint_rows db' run_id = checkpoint_rows db run_id.
Proof.
  intros Hk (text & _ & Hfresh & ->)%insert_event_ok. unfold checkpoint_rows, run_rows, events_for_run.
  cbn. rewrite !filter_filter_bool. apply select_insert_other; [done|]. cbn.
  assert (is_checkpoint_row (event_row event text) = false) as ->; [|apply andb_false_r].
  apply bool_decide_eq_false. unfold CHECKPOINT_KIND. cbn [event_row row_kind].
  intros Hw. by apply as_wire_inj in Hw.
Qed.

(** The signed events of a run its latest checkpoint does not cover. *)
Definition unsealed_tail (db : Database) (run_id : RunId) : option Z :=
  match signed_ordinary_events_for_connection db run_id, latest_checkpoint_for_connection db run_id with
  | Ok covered, Ok prior =>
      Some (Z.max (Z.of_nat (length covered) - default 0 (scp_through_event_count <$> prior)) 0)
  | _, _ => None
  end.

(** C8. The cadence bounds the unsealed tail: after a signed append under the policy
    [CheckpointPolicy::every(cadence)] succeeded, fewer than [cadence] signed events
    of the run (none for a cadence of 0 or 1) are without a covering checkpoint,
    and none when the event completed the run. *)
Theorem cadence_bounds_the_unsealed_tail event key signer cadence now mint s ids s' :
  db_wf (ss_conn s) -> uuid_ok (ev_id event) -> uuid_ok (ev_run_id event) ->
  mint_follows (ss_conn s) (ev_run_id event) mint ->
  append_signed_with_checkpoint event key signer (checkpoint_policy_every cadence) now mint s =
    (Ok ids, s') ->
  exists tail, unsealed_tail (ss_conn s') (ev_run_id event) = Some tail /\
    0 <= tail < Z.max cadence 1 /\ (ev_kind event = EventKind_RunCompleted -> tail = 0).
Proof.
  intros Hwf Hid Hrun [Hm Hfollow] Ha.
  apply append_signed_cases in Ha as [(v & e & _ & ?)|(s0 & sg & db1 & Hv & Hs & Hst & Hrest)]; [done|].
  apply validated_ordinary in Hv. apply store_signed_insert in Hst as (db0 & Hi & Hsig & Hev).
  pose proof (insert_signature_wf _ _ _ (insert_event_wf _ _ _ Hwf Hid Hi) Hsig) as Hwf1.
  assert (mint_follows db1 (ev_run_id event) mint) as Hfollow1.
  { split; [done|]. intros row u Hin. apply Hfollow.
    rewrite <- (insert_keeps_checkpoints (ss_conn s) event db0) by done.
    unfold checkpoint_rows, run_rows, events_for_run in *. by rewrite <- Hev. }
  destruct Hrest as (rc & Hrc & Hids). destruct rc as [oc|]; [clear ids Hids|done].
  unfold emit_checkpoint_if_due_for_current_signed_prefix in Hrc.
  apply transaction_cases in Hrc as [(a & db & Hb & _ & ->)|(e & _ & ? & _)]; [|done]. cbn [ss_conn] in *.
  destruct (latest_checkpoint_for_connection db1 (ev_run_id event)) as [prior|] eqn:Hp; [|done].
  cbn [map_err result_bind] in Hb.
  destruct (signed_ordinary_events_for_connection db1 (ev_run_id event)) as [covered|] eqn:Hcov; [|done].
  cbn [map_err result_bind] in Hb. unfold unsealed_tail. destruct (checkpoint_due _ _ _ _) eqn:Hdue; cbn [negb] in Hb.
  - apply bind_ok in Hb as ([id db'] & He & Hb). simplify_eq.
    apply emit_emitted in He as (_ & row & ev & sg' & He); [|done..|by eapply covered_ids_parse].
    destruct (latest_checkpoint_emitted _ _ _ _ _ _ _ _ _ _ _ He) as (p & _ & Hn & Hl). rewrite Hl.
    rewrite (covered_same db1), Hcov; [|apply He|].
    + cbn. rewrite Hn. eexists. split; [done|]. lia.
    + intros r [Hin _]%elem_of_filter_bool. apply He. eapply run_row_fresh; [exact Hwf1|apply He|done].
  - simplify_eq. rewrite Hcov, Hp. eexists. split; [done|]. unfold checkpoint_due in Hdue. cbn zeta in Hdue.
    apply orb_false_iff in Hdue as [Hc Hf]. apply Z.leb_gt in Hc. split; [lia|].
    intros Hk. rewrite bool_decide_true in Hf by done. cbn [andb] in Hf. apply Z.leb_gt in Hf. lia.
Qed.
End Cadence.
