(* ===== verification/SampleStore.v ===== *)
(** * A store session on a concrete host

    A host whose text columns satisfy [RowLaws]: a UUID prints as its 128 bits, an
    instant as a signed binary number, a checkpoint payload as the code of its
    fields.  On it the theorems about the store are evaluated. *)
From S2P Require Import Prelude RustStr Host LedgerPayloads TrustSpine Digests Events DemoHost SigningSpec Tape TapeSpec WorkflowGraph Canonicalize CanonicalizeSpec Engine EngineSpec Store StoreRows StoreSeal StoreSpec StoreSession.
From Stdlib Require Import Ascii Lia.
From stdpp Require Import base list gmap strings sorting countable.

#[local] Open Scope string_scope.
#[local] Open Scope list_scope.
#[local] Open Scope Z_scope.

Module SampleStore.

(** ** Text columns *)

(** The [n] low bits of [u], the most significant first, before [acc]. *)
Fixpoint low_bits (n : nat) (u : Z) (acc : string) : string :=
  match n with
  | O => acc
  | S n => low_bits n (Z.div2 u) (String (if Z.odd u then "1"%char else "0"%char) acc)
  end.
Definition bin (n : nat) (u : Z) : string := low_bits n u "".

Fixpoint unbin (s : string) (acc : Z) : option Z :=
  match s with
  | EmptyString => Some acc
  | String c r =>
      if ascii_dec c "1"%char then unbin r (2 * acc + 1)
      else if ascii_dec c "0"%char then unbin r (2 * acc) else None
  end.

Lemma halves u : u = 2 * Z.div2 u + (if Z.odd u then 1 else 0).
Proof. rewrite (Z.div2_odd u) at 1. by destruct (Z.odd u). Qed.

Lemma unbin_low_bits n u s acc :
  0 <= u < 2 ^ Z.of_nat n -> unbin (low_bits n u s) acc = unbin s (acc * 2 ^ Z.of_nat n + u).
Proof.
  revert u s. induction n as [|n IH]; intros u s Hu.
  - cbn in *. f_equal. lia.
  - rewrite Nat2Z.inj_succ, Z.pow_succ_r in * by lia. cbn [low_bits]. pose proof (halves u) as Hh.
    destruct (Z.odd u); rewrite IH by lia; cbn [unbin].
    + destruct (ascii_dec _ _); [|done]. f_equal. lia.
    + destruct (ascii_dec _ _); [done|]. destruct (ascii_dec _ _); [|done]. f_equal. lia.
Qed.
Lemma unbin_bin n u acc : 0 <= u < 2 ^ Z.of_nat n -> unbin (bin n u) acc = Some (acc * 2 ^ Z.of_nat n + u).
Proof. apply unbin_low_bits. Qed.

Lemma leb_cons c s1 s2 : String.leb (String c s1) (String c s2) = String.leb s1 s2.
Proof. unfold String.leb. cbn. unfold Ascii.compare. by rewrite N.compare_refl. Qed.

Lemma low_bits_order n a b s1 s2 :
  a < b \/ (a = b /\ String.leb s1 s2 = true) -> 0 <= a < 2 ^ Z.of_nat n -> 0 <= b < 2 ^ Z.of_nat n ->
  String.leb (low_bits n a s1) (low_bits n b s2) = true.
Proof.
  revert a b s1 s2. induction n as [|n IH]; intros a b s1 s2 Hle Ha Hb.
  - cbn in *. destruct Hle as [|[_ Hle]]; [lia|done].
  - rewrite Nat2Z.inj_succ, Z.pow_succ_r in * by lia. cbn [low_bits]. pose proof (halves a) as Hha. pose proof (halves b) as Hhb.
    destruct (Z.odd a), (Z.odd b); apply IH; try lia; destruct Hle as [Hle|[Heq Hle]]; try lia;
      destruct (decide (Z.div2 a = Z.div2 b)) as [He|]; try lia; right; rewrite ?leb_cons; split; try done; lia.
Qed.
Lemma bin_order n a b :
  0 <= a < 2 ^ Z.of_nat n -> 0 <= b < 2 ^ Z.of_nat n -> a <= b -> String.leb (bin n a) (bin n b) = true.
Proof. intros Ha Hb Hle. apply low_bits_order; [|done|done]. destruct (Z.eq_dec a b); [by right|left; lia]. Qed.

(** Signed binary numbers. *)
Fixpoint bits (p : positive) : string :=
  match p with
  | xH => ""
  | xO p => String "0"%char (bits p)
  | xI p => String "1"%char (bits p)
  end.

Fixpoint unbits (s : string) : option positive :=
  match s with
  | EmptyString => Some xH
  | String c r =>
      if ascii_dec c "1"%char then xI <$> unbits r
      else if ascii_dec c "0"%char then xO <$> unbits r else None
  end.

Lemma unbits_bits p : unbits (bits p) = Some p.
Proof. induction p as [p IH|p IH|]; cbn; by rewrite ?IH. Qed.

Definition show_instant (t : Z) : string :=
  match t with
  | Z0 => "Z"
  | Zpos p => String "+"%char (bits p)
  | Zneg p => String "-"%char (bits p)
  end.

Definition read_instant (s : string) : option Z :=
  match s with
  | String c r =>
      if ascii_dec c "+"%char then Zpos <$> unbits r
      else if ascii_dec c "-"%char then Zneg <$> unbits r
      else if bool_decide (s = "Z") then Some 0 else None
  | EmptyString => None
  end.

Lemma read_show_instant t : read_instant (show_instant t) = Some t.
Proof. destruct t as [|p|p]; cbn; by rewrite ?unbits_bits. Qed.

(** Checkpoints by the code of their fields. *)
#[local] Instance checkpoint_countable : Countable TapeCheckpointV1.
Proof.
  refine (inj_countable'
    (fun c => (tc_run_id c, tc_checkpoint_index c, tc_through_event_id c, tc_through_event_count c,
               tc_previous_checkpoint_event_id c, tc_tape_root_hash c))
    (fun '(r, i, t, n, p, h) =>
       {| tc_run_id := r; tc_checkpoint_index := i; tc_through_event_id := t;
          tc_through_event_count := n; tc_previous_checkpoint_event_id := p;
          tc_tape_root_hash := h; tc_algorithm := TapeRootAlgorithm_Sha256Linear |}) _).
  by intros [? ? ? ? ? ? []].
Defined.

(** The payload of the sample's ordinary events. *)
Definition completed : RunCompletedV1 :=
  {| rc_outcome := RunOutcome_Passed; rc_duration_ms := "1"; rc_event_count := "1"; rc_unit_count := "1" |}.

#[local] Instance host : Host := {
  uuid_to_string := bin 128;
  parse_from_rfc3339 := read_instant;
  checked_add_milliseconds := fun d ms => Some (d + ms);
  to_rfc3339_millis := show_instant;
  to_rfc3339_auto_si := show_instant;
  sha256_hex := Demo.demo_sha256_hex;
  serde_json_to_vec := Demo.show_json
}.

#[local] Instance decoder : RowDecoder := {
  uuid_parse_str := fun s => unbin s 0;
  json_from_str := fun s => Some (JString s);
  payload_from_value := fun value =>
    match value with
    | JString "completed" => Ok (Payload_RunCompletedV1 completed)
    | JString s =>
        match unbits s ≫= decode with
        | Some c => Ok (Payload_TapeCheckpointV1 c)
        | None => Err "unknown payload"
        end
    | _ => Err "unknown payload"
    end
}.

#[local] Instance encoder : RowEncoder := {
  payload_to_string := fun payload =>
    match payload with
    | Payload_TapeCheckpointV1 c => Ok (bits (encode c))
    | Payload_RunCompletedV1 _ => Ok "completed"
    | _ => Err "unknown payload"
    end;
  to_rfc3339 := show_instant
}.

Lemma bits_not_completed p : bits p <> "completed".
Proof. by destruct p. Qed.

#[local] Instance laws : RowLaws.
Proof.
  split.
  - intros u Hu. apply (unbin_bin 128). exact Hu.
  - intros a b Ha Hb. apply (bin_order 128); assumption.
  - apply read_show_instant.
  - intros c text [= <-]. exists (JString (bits (encode c))). split; [done|]. cbn.
    rewrite unbits_bits. cbn. rewrite decode_encode.
    pose proof (bits_not_completed (encode c)) as Hne. destruct (bits (encode c)) eqn:Hb; [done|].
    repeat case_match; try done; subst; done.
Qed.

(** ** A session of one run *)

Definition encode_event (event : Event) : Result string string :=
  Ok (as_wire (ev_kind event) +:+ bin 128 (ev_id event)).
#[local] Instance canonicalizer : Canonicalizer := ledger_canonicalizer encode_event.

Definition event (id : EventId) : Event :=
  {| ev_id := id; ev_run_id := 1; ev_parent_event_id := None; ev_schema_version := 1;
     ev_kind := EventKind_RunCompleted; ev_occurred_at := id;
     ev_payload := Payload_RunCompletedV1 completed |}.

Definition kernel : ActorKeyRef :=
  {| akr_actor_id := "kernel"; akr_key_id := "k"; akr_public_key_hash := None |}.
Definition keys : TrustedPublicKeys := only_key (true : @SigningKey Demo.demo_crypto).

Definition mint (id : EventId) : Mint :=
  {| mint_id := id; mint_occurred_at := id; mint_signed_at := id |}.

Definition append_op (id : EventId) (policy : CheckpointPolicy) : StoreOp :=
  Op_append_signed (event id) (true : @SigningKey Demo.demo_crypto) kernel policy id (mint 40).

(** Two signed events, the second with its cadence checkpoint, then a third. *)
Definition session : list StoreOp :=
  [append_op 10 CheckpointPolicy_Disabled; append_op 11 (CheckpointPolicy_Enabled 2);
   append_op 12 CheckpointPolicy_Disabled].

Definition opened : SqliteStore := open_store empty_database.
Definition store : SqliteStore := after opened session.

(** The seal of that session. *)
Definition sealed := seal_governed_signed_prefix 1 (true : @SigningKey Demo.demo_crypto) kernel (mint 50) store.

Lemma sealed_value : sealed.1 = Ok (GovernedCheckpointSealOutcome_Emitted 50).
Proof. vm_compute. reflexivity. Qed.

Lemma sealed_pair : sealed = (Ok (GovernedCheckpointSealOutcome_Emitted 50), sealed.2).
Proof. rewrite <- sealed_value. apply surjective_pairing. Qed.

Lemma small_ok u : 0 <= u < 1000 -> uuid_ok u.
Proof. unfold uuid_ok. lia. Qed.

Lemma event_storable id : storable (event id).
Proof. split; [done|]. intros text [= <-]. by exists (JString "completed"). Qed.

Lemma append_governed id policy : 0 <= id < 1000 -> governed_op keys (append_op id policy).
Proof.
  intros Hid. split; cbn [append_op op_ok].
  - split; [by apply small_ok|]. split; apply small_ok; cbn; lia.
  - split; [apply event_storable|apply only_key_trusts].
Qed.

Lemma session_governed : Forall (governed_op keys) session.
Proof. repeat (apply Forall_cons_2; [apply append_governed; lia|]). apply Forall_nil_2. Qed.

(** Fresh ids, from the ids of the run's checkpoints. *)
Lemma follows_ids db m ids :
  0 <= m < 1000 -> row_id <$> checkpoint_rows db 1 = uuid_to_string <$> ids ->
  Forall (fun i => 0 <= i < m) ids -> mint_follows db 1 (mint m).
Proof.
  intros Hm Hids Hall. split; [by apply small_ok|]. intros row u Hin Hu.
  apply (list_elem_of_fmap_2 row_id) in Hin. rewrite Hids in Hin.
  apply list_elem_of_fmap in Hin as (i & Hid & Hi). rewrite Forall_forall in Hall.
  specialize (Hall i (proj1 (list_elem_of_In _ _) Hi)).
  assert (u = i) as ->; [|cbn; lia]. apply (row_uuid_unique row); [exact Hu|].
  exact (conj (small_ok i ltac:(lia)) Hid).
Qed.

Lemma mint_follows_session : mint_follows (ss_conn store) 1 (mint 50).
Proof.
  apply (follows_ids _ 50 [40]); [lia|vm_compute; reflexivity|].
  apply Forall_cons_2; [lia|apply Forall_nil_2].
Qed.

(** The session's seal, read back under the kernel's key. *)
Lemma sealed_sessions_are_recoverable_witness :
  exists events report covered,
    all_with_verification_limit (rows_with_signatures (ss_conn sealed.2) (uuid_to_string 1)) keys
      (Some 100) = Ok events /\
    verify_full_tape_integrity_v1 events (uuid_to_string 1) (identity_of (true : @SigningKey Demo.demo_crypto) kernel) =
      Some (Ok report) /\
    tir_checkpoint_event_ref report = uuid_to_string 50 /\
    signed_ordinary_events_for_connection (ss_conn sealed.2) 1 = Ok covered /\
    tir_signed_non_checkpoint_event_count report = Z.of_nat (length covered) /\
    tir_tape_root_hash report = tape_root_hash (soe_canonical_event_hash <$> covered).
Proof.
  apply (sealed_sessions_are_recoverable encode_event keys session 1 (true : @SigningKey Demo.demo_crypto) kernel (mint 50)
    (GovernedCheckpointSealOutcome_Emitted 50) 50 sealed.2 100).
  - apply session_governed.
  - by apply small_ok.
  - apply only_key_trusts.
  - apply mint_follows_session.
  - apply sealed_pair.
  - by left.
  - vm_compute. split; [discriminate|reflexivity].
Defined.

(** Sealing the session again. *)
Lemma sealing_is_idempotent_witness :
  seal_governed_signed_prefix 1 (true : @SigningKey Demo.demo_crypto) kernel (mint 60) sealed.2 =
    (Ok (GovernedCheckpointSealOutcome_AlreadySealed 50), sealed.2).
Proof.
  apply (sealing_is_idempotent store 1 (true : @SigningKey Demo.demo_crypto) kernel (mint 50) (mint 60)
    (GovernedCheckpointSealOutcome_Emitted 50) sealed.2).
  - apply (after_verified encode_event keys opened session); [apply open_store_wf, empty_wf|apply empty_verified|
      apply session_governed].
  - by apply small_ok.
  - apply mint_follows_session.
  - vm_compute. reflexivity.
  - apply sealed_pair.
Defined.

(** A failed operation: the session's first event again. *)
Lemma store_only_grows_witness :
  extends (ss_conn store) (ss_conn (run_op (append_op 10 CheckpointPolicy_Disabled) store).2).
Proof.
  apply (store_only_grows (append_op 10 CheckpointPolicy_Disabled) store
    (run_op (append_op 10 CheckpointPolicy_Disabled) store).1). apply surjective_pairing.
Defined.

(** The mark of the session refuses the id of its last event. *)
Lemma high_water_mark_is_exact_witness :
  (latest_ordinary_id 1 store).1 =
    map_err Errored (latest_ordinary_event_id_for_run (ss_conn store) 1) /\
  ((validate_external_append (event 12) store).1 =
     Err (Errored (StoreError_NonMonotonicEventId (uuid_to_string 1))) <->
   exists row u, row ∈ ordinary_rows (ss_conn store) 1 /\ row_uuid row u /\ 12 <= u).
Proof.
  apply (high_water_mark_is_exact empty_database session (event 12) store).
  - apply empty_wf.
  - apply Forall_forall. intros op Hin. exact (proj1 (proj1 (Forall_forall _ _) session_governed op Hin)).
  - reflexivity.
  - by apply small_ok.
  - discriminate.
  - reflexivity.
  - reflexivity.
Defined.

(** The second append of the session, under a cadence of two. *)
Lemma cadence_bounds_the_unsealed_tail_witness :
  exists tail, unsealed_tail (ss_conn (after opened (take 2 session))) 1 = Some tail /\
    0 <= tail < Z.max 2 1 /\
    (EventKind_RunCompleted = EventKind_RunCompleted -> tail = 0).
Proof.
  set (s := after opened (take 1 session)).
  set (call := append_signed_with_checkpoint (event 11) (true : @SigningKey Demo.demo_crypto) kernel
         (checkpoint_policy_every 2) 11 (mint 40)).
  replace (after opened (take 2 session)) with (call s).2 by (vm_compute; reflexivity).
  apply (cadence_bounds_the_unsealed_tail (event 11) (true : @SigningKey Demo.demo_crypto) kernel 2 11 (mint 40) s [40]).
  - apply (after_verified encode_event keys opened (take 1 session)); [apply open_store_wf, empty_wf|apply empty_verified|].
    apply Forall_cons_2; [apply append_governed; lia|apply Forall_nil_2].
  - by apply small_ok.
  - by apply small_ok.
  - split; [by apply small_ok|]. intros row u Hin. exfalso.
    assert (checkpoint_rows (ss_conn s) 1 = []) as Hnil by (vm_compute; reflexivity).
    change (ev_run_id (event 11)) with 1 in Hin. rewrite Hnil in Hin. by apply elem_of_nil in Hin.
  - assert ((call s).1 = Ok [40]) as Hv by (vm_compute; reflexivity). rewrite <- Hv. apply surjective_pairing.
Defined.

(** Two emissions over the sealed session's prefix. *)
Definition emit (m : EventId) : StoreM (option EventId) :=
  emit_checkpoint_for_current_signed_prefix 1 (true : @SigningKey Demo.demo_crypto) kernel (mint m).
Definition emitted_twice : SqliteStore := (emit 60 (emit 50 store).2).2.
Definition read_twice : Result (list VerifiedEvent) ReaderError :=
  all_with_verification_limit (rows_with_signatures (ss_conn emitted_twice) (uuid_to_string 1)) keys (Some 100).
Definition events_twice : list VerifiedEvent := match read_twice with Ok l => l | Err _ => [] end.

Lemma repeated_emission_is_refused_witness :
  length events_twice = 6%nat /\
  forall report, verify_full_tape_integrity_v1 events_twice (uuid_to_string 1)
    (identity_of (true : @SigningKey Demo.demo_crypto) kernel) <> Some (Ok report).
Proof.
  split; [vm_compute; reflexivity|].
  apply (repeated_emission_is_refused store 1 (true : @SigningKey Demo.demo_crypto) kernel
    (true : @SigningKey Demo.demo_crypto) kernel (mint 50) (mint 60) 50 60 (emit 50 store).2 emitted_twice keys 100).
  - apply (after_verified encode_event keys opened session); [apply open_store_wf, empty_wf|apply empty_verified|
      apply session_governed].
  - by apply small_ok.
  - apply mint_follows_session.
  - apply (follows_ids _ 60 [40; 50]); [lia|vm_compute; reflexivity|].
    repeat (apply Forall_cons_2; [lia|]). apply Forall_nil_2.
  - assert ((emit 50 store).1 = Ok (Some 50)) as Hv by (vm_compute; reflexivity).
    rewrite <- Hv. apply surjective_pairing.
  - assert ((emit 60 (emit 50 store).2).1 = Ok (Some 60)) as Hv by (vm_compute; reflexivity).
    rewrite <- Hv. apply surjective_pairing.
  - lia.
  - assert (is_ok read_twice = true) as Hok by (vm_compute; reflexivity).
    fold read_twice. unfold events_twice. destruct read_twice; [reflexivity|discriminate Hok].
Defined.
End SampleStore.
