(* ===== verification/ActivityEvidence.v ===== *)
(** * The evidence behind an execution lease

    Part of [bp-ledger/src/storage/sqlite.rs]: what the store re-derives from
    the signed tape before it reserves an execution lease.  The authority is a
    set of pinned signers; the dispatch and the action request are loaded by
    id, their signatures verified for those signers, the dispatch window
    evaluated at the given instant and the request compared with the dispatch
    field by field.  A retry that creates a candidate must in addition rebuild
    the signed chain of the failed attempt before it
    ([verify_governed_sealed_v3_retry_context]).

    A message that quotes another error ([format!("..: {error}")]) keeps the
    quoted error as a value.  The text of a timestamp parser is left out. *)
From S2P Require Import Prelude RustStr Host LedgerPayloads TrustSpine Digests Events Tape WorkflowGraph Canonicalize Engine Store.
From Stdlib Require Import Ascii.
From stdpp Require Import base list gmap strings pretty.

#[local] Open Scope string_scope.
#[local] Open Scope list_scope.
#[local] Open Scope Z_scope.

(** ** Errors *)
Inductive ActivityError :=
| ActivityError_Store (error : StoreError)
| ActivityError_InvalidPayload (kind reason : string)
| ActivityError_ClaimAuthorityRejected (reason : string)
| ActivityError_ClaimAuthorityRejectedFor (reason : string) (error : ActivityError)
| ActivityError_CompletionAuthorityRejected (reason : string)
| ActivityError_CompletionAuthorityRejectedFor (reason : string) (error : ActivityError)
| ActivityError_PromotionAuthorityRejected (reason : string)
| ActivityError_ClaimNotFound (run_id idempotency_key : string)
| ActivityError_ClaimLeaseMismatch (run_id idempotency_key : string)
| ActivityError_ClaimIdempotencyConflict (run_id idempotency_key : string)
| ActivityError_HeartbeatIdempotencyConflict (run_id heartbeat_id : string).

Abbreviation ActivityFailure := (Failure ActivityError).

Definition rejected (reason : string) : ActivityFailure :=
  Errored (ActivityError_ClaimAuthorityRejected reason).
Definition completion_rejected (reason : string) : ActivityFailure :=
  Errored (ActivityError_CompletionAuthorityRejected reason).
Definition promotion_rejected (reason : string) : ActivityFailure :=
  Errored (ActivityError_PromotionAuthorityRejected reason).
Definition of_store {A} (r : Result A StoreError) : Result A ActivityFailure :=
  map_err (fun e => Errored (ActivityError_Store e)) r.

(** [map_err] of an error value; a panic is not an error. *)
Definition map_failure {A E F} (f : E -> F) (r : Result A (Failure E)) : Result A (Failure F) :=
  map_err (fun failure => match failure with
                          | Errored e => Errored (f e)
                          | Stopped crash => Stopped crash
                          end) r.

(** ** Authorities *)
Record GovernedReviewerLineageAuthorityV1 := {
  grl_candidate_artifact_signer : ActorKeyRef;
  grl_candidate_acceptance_signer : ActorKeyRef;
  grl_review_verdict_signer : ActorKeyRef;
  grl_checkpoint_signer : ActorKeyRef
}.

Record ActivityClaimAuthorityV1 := {
  aca_trusted_keys : TrustedPublicKeys;
  aca_dispatch_signer : ActorKeyRef;
  aca_action_request_signer : ActorKeyRef;
  aca_claim_signer : ActorKeyRef;
  aca_governed_reviewer_lineage : option GovernedReviewerLineageAuthorityV1;
  aca_ledger_authority_realm_digest : option string
}.

Record GovernedPromotionAuthorityV1 := {
  gpa_trusted_keys : TrustedPublicKeys;
  gpa_kernel_signer : ActorKeyRef;
  gpa_reviewer_signers : list ActorKeyRef;
  gpa_operator_signer : ActorKeyRef;
  gpa_ledger_authority_realm_digest : string
}.

(** ** Requests and evidence *)
Record ActivityClaimRequestV1 := {
  acq_run_id : RunId;
  acq_activity_id : string;
  acq_idempotency_key : string;
  acq_dispatch_event_id : EventId;
  acq_action_request_event_id : EventId;
  acq_lease_duration_ms : u64
}.

Record VerifiedClaimEvidence := {
  vce_action_kind : ActionKindV1;
  vce_action_request_digest : string;
  vce_dispatch_envelope_digest : string;
  vce_effective_deadline : DateTime
}.

Record DispatchAuthorityMaterialV1 := {
  dam_dispatch : DispatchEnvelopeV3;
  dam_lineage_envelope_digest : string;
  dam_is_graph_bound_v4 : bool
}.

Record GovernedDispatchWindow := {
  gdw_issued_at : DateTime;
  gdw_effective_deadline : DateTime
}.

Record VerifiedGovernedCandidateRetryContextV1 := {
  vrc_retry_action_namespace : string;
  vrc_prior_action_ids : gset string;
  vrc_prior_action_idempotency_keys : gset string
}.

Definition RETRY_ACTION_NAMESPACE_DELIMITER : string := ":".
Definition RETRY_CANDIDATE_ACTION_KIND : string := "git-candidate-create".

Section Evidence.
Context `{Host, Canonicalizer, Crypto, RowDecoder, RowEncoder}.

(** ** Timestamps *)
Definition parse_claim_timestamp (value : string) : Result DateTime ActivityFailure :=
  fail_if negb (ends_with "Z" value) with rejected "activity timestamp is not RFC3339 UTC" ;;
  ok_or (parse_from_rfc3339 value) (rejected "invalid activity timestamp").

Definition timestamp (value : DateTime) : string := to_rfc3339_millis value.

Definition canonical_ledger_timestamp (value : DateTime) : Result DateTime ActivityFailure :=
  parse_claim_timestamp (timestamp value).

(** ** Constructing the authority *)
Definition validate_trusted_actor (label : string) (actor : ActorKeyRef)
    : Result unit ActivityFailure :=
  fail_if trim_is_empty (akr_actor_id actor) || trim_is_empty (akr_key_id actor)
    with rejected (label +:+ " must include non-empty actor_id and key_id") ;;
  some_or public_key_hash := akr_public_key_hash actor
    with rejected (label +:+ " must include an explicit public_key_hash") ;;
  fail_if negb (is_canonical_sha256_digest public_key_hash)
    with rejected (label +:+ " public_key_hash must be a canonical sha256 digest") ;;
  Ok tt.

(** [ActivityClaimAuthorityV1::new]. *)
Definition activity_claim_authority_new (trusted_keys : TrustedPublicKeys)
    (dispatch_signer action_request_signer claim_signer : ActorKeyRef)
    : Result ActivityClaimAuthorityV1 ActivityFailure :=
  let* _ := for_each (fun '(label, signer) =>
      let* _ := validate_trusted_actor label signer in
      fail_if is_none (public_key_for trusted_keys signer)
        with rejected (label +:+ " does not have a configured trusted public key") ;;
      Ok tt)
    [("dispatch_signer", dispatch_signer); ("action_request_signer", action_request_signer);
     ("claim_signer", claim_signer)] in
  Ok {| aca_trusted_keys := trusted_keys;
        aca_dispatch_signer := dispatch_signer;
        aca_action_request_signer := action_request_signer;
        aca_claim_signer := claim_signer;
        aca_governed_reviewer_lineage := None;
        aca_ledger_authority_realm_digest := None |}.

Definition activity_claim_authority_new_governed_realm (trusted_keys : TrustedPublicKeys)
    (dispatch_signer action_request_signer claim_signer : ActorKeyRef)
    (ledger_authority_realm_digest : string) : Result ActivityClaimAuthorityV1 ActivityFailure :=
  fail_if negb (is_canonical_sha256_digest ledger_authority_realm_digest)
    with rejected "governed activity authority realm digest must be canonical sha256" ;;
  let* authority := activity_claim_authority_new trusted_keys dispatch_signer
    action_request_signer claim_signer in
  Ok {| authority with
        aca_ledger_authority_realm_digest := Some ledger_authority_realm_digest |}.

(** The append signer must be the configured claim authority. *)
Definition validate_claim_signer (authority : ActivityClaimAuthorityV1) (signing_key : SigningKey)
    (signer : ActorKeyRef) : Result unit ActivityFailure :=
  let expected := aca_claim_signer authority in
  let actual_public_key_hash := public_key_hash (verifying_key signing_key) in
  fail_if (akr_actor_id signer != akr_actor_id expected)
       || (akr_key_id signer != akr_key_id expected)
       || (akr_public_key_hash expected != Some actual_public_key_hash)
    with rejected "append signer does not match the explicitly configured claim authority" ;;
  Ok tt.

Definition require_protected_governed_realm (authority : ActivityClaimAuthorityV1)
    : Result unit ActivityFailure :=
  fail_if is_none (aca_ledger_authority_realm_digest authority)
    with rejected "governed verifier requires a protected host-realm activity authority" ;;
  Ok tt.

(** ** Events of the tape by id *)

(** [event_and_signature_by_id]: the row of an id joined with its signature. *)
Definition event_and_signature_by_id (db : Database) (event_id : EventId)
    : Result (option (Event * option EventSignatureV1)) StoreError :=
  match db_events db !! uuid_to_string event_id with
  | None => Ok None
  | Some row => result_map Some (read_signed_row db row)
  end.

Definition load_verified_authority_event (db : Database) (event_id : EventId)
    (trusted_keys : TrustedPublicKeys) (expected_signer : ActorKeyRef) (label : string)
    : Result Event ActivityFailure :=
  let* found := of_store (event_and_signature_by_id db event_id) in
  match found with
  | None => Err (rejected (label +:+ " event is missing from the tape"))
  | Some (_, None) => Err (rejected (label +:+ " event is unsigned"))
  | Some (event, Some signature) =>
      fail_if negb (actor_matches expected_signer (es_signer signature))
           || (verify_event_signature event signature trusted_keys != VerificationStatus_Verified)
        with rejected (label +:+ " event signature is not verified for the configured authority") ;;
      Ok event
  end.

Definition load_verified_promotion_event (db : Database) (event_id : EventId)
    (trusted_keys : TrustedPublicKeys) (expected_signer : ActorKeyRef) (label : string)
    : Result Event ActivityFailure :=
  let* found := of_store (event_and_signature_by_id db event_id) in
  match found with
  | None => Err (promotion_rejected (label +:+ " event is missing from the tape"))
  | Some (_, None) => Err (promotion_rejected (label +:+ " event is unsigned"))
  | Some (event, Some signature) =>
      fail_if negb (actor_matches expected_signer (es_signer signature))
           || (verify_event_signature event signature trusted_keys != VerificationStatus_Verified)
        with promotion_rejected (label +:+
               " event signature is not verified for the configured promotion authority") ;;
      Ok event
  end.

Definition verified_kernel_events_for_run_kind (db : Database) (run_id : RunId) (kind : EventKind)
    (authority : GovernedPromotionAuthorityV1) (label : string)
    : Result (list Event) ActivityFailure :=
  collect_results (fun row =>
      let* event_id := of_store (parse_event_id (row_id row) label) in
      load_verified_promotion_event db event_id (gpa_trusted_keys authority)
        (gpa_kernel_signer authority) label)
    (List.filter (fun row => row_kind row == as_wire kind)
       (events_for_run db (uuid_to_string run_id))).

Definition unique_verified_kernel_event_matching (db : Database) (run_id : RunId)
    (kind : EventKind) (authority : GovernedPromotionAuthorityV1) (label : string)
    (matches : Event -> bool) : Result Event ActivityFailure :=
  let* events := verified_kernel_events_for_run_kind db run_id kind authority label in
  match List.filter matches events with
  | [event] => Ok event
  | [] => Err (completion_rejected
            ("candidate completion requires exactly one matching " +:+ label +:+ " event"))
  | _ => Err (completion_rejected
            ("candidate completion found more than one matching " +:+ label +:+ " event"))
  end.

Definition tape_event_precedes (before after : Event) : bool := ev_id before <? ev_id after.

(** ** The dispatch window *)

(** A V5 dispatch is never read as the V3 envelope it wraps. *)
Definition dispatch_authority_material (payload : Payload) : option DispatchAuthorityMaterialV1 :=
  match payload with
  | Payload_DispatchEnvelopeV3 dispatch =>
      Some {| dam_dispatch := dispatch;
              dam_lineage_envelope_digest := de3_envelope_digest dispatch;
              dam_is_graph_bound_v4 := false |}
  | Payload_DispatchEnvelopeV4 dispatch =>
      Some {| dam_dispatch := de4_dispatch_v3 dispatch;
              dam_lineage_envelope_digest := de4_envelope_digest dispatch;
              dam_is_graph_bound_v4 := true |}
  | _ => None
  end.

Definition is_canonical_git_commit_sha (value : string) : bool :=
  ((String.length value =? 40)%nat || (String.length value =? 64)%nat)
  && str_all is_lower_hex value.

(** The instant at which the authority of a dispatch ends, and whether the
    compute budget ends it before its expiry. *)
Definition dispatch_deadline (budget : DispatchBudgetV1) (issued_at expires_at : DateTime)
    : Result (DateTime * bool) ActivityFailure :=
  match db_max_compute_time_ms budget with
  | Some max_compute_time_ms =>
      some_or compute_deadline := checked_add_milliseconds issued_at max_compute_time_ms
        with rejected "governed dispatch compute deadline cannot be represented" ;;
      Ok (Z.min compute_deadline expires_at, compute_deadline <? expires_at)
  | None => Ok (expires_at, false)
  end.

Definition validate_governed_dispatch (dispatch : DispatchEnvelopeV3) (now : DateTime)
    : Result GovernedDispatchWindow ActivityFailure :=
  let body := de3_body dispatch in
  fail_if (deb2_trust_tier body != TrustTierV1_Governed)
       || (deb2_commit_mode body != CommitModeV1_Atomic)
       || (de3_action_evidence_version dispatch != ActionEvidenceVersionV1_SealedV3)
    with rejected "dispatch does not authorize governed atomic sealed action evidence" ;;
  fail_if trim_is_empty (deb2_workflow_id body)
       || trim_is_empty (deb2_workflow_revision body)
       || trim_is_empty (deb2_unit_id body)
       || trim_is_empty (deb2_provenance_ref body)
       || trim_is_empty (deb2_idempotency_key body)
       || negb (is_canonical_git_commit_sha (deb2_base_commit_sha body))
       || negb (is_canonical_sha256_digest (deb2_capability_bundle_digest body))
       || negb (is_canonical_sha256_digest (deb2_acceptance_contract_digest body))
       || negb (is_canonical_sha256_digest (deb2_context_manifest_digest body))
       || negb (is_canonical_sha256_digest (deb2_worker_manifest_digest body))
       || negb (is_canonical_sha256_digest (deb2_sandbox_profile_digest body))
       || negb (is_some_and (de3_governed_packet_digest dispatch) is_canonical_sha256_digest)
    with rejected "governed dispatch is missing required provenance, base, or manifest authority fields" ;;
  fail_if deb2_attempt body == 0
    with rejected "governed dispatch attempt must be greater than zero" ;;
  fail_if is_some_and (db_max_compute_time_ms (deb2_budget body)) (fun milliseconds => milliseconds == 0)
    with rejected "governed dispatch max_compute_time_ms must be greater than zero when present" ;;
  fail_if is_some_and (db_max_tokens (deb2_budget body)) (fun tokens => tokens == 0)
    with rejected "governed dispatch max_tokens must be greater than zero when present" ;;
  let* issued_at := parse_claim_timestamp (deb2_issued_at body) in
  let* expires_at := parse_claim_timestamp (deb2_expires_at body) in
  fail_if expires_at <=? issued_at
    with rejected "governed dispatch expiry must be after issuance" ;;
  fail_if now <? issued_at with rejected "dispatch authority is not yet active" ;;
  let* (effective_deadline, compute_budget_is_limiting) :=
    dispatch_deadline (deb2_budget body) issued_at expires_at in
  fail_if effective_deadline <=? now
    with rejected (if (compute_budget_is_limiting : bool)
                   then "governed dispatch compute deadline has elapsed"
                   else "dispatch authority has expired") ;;
  Ok {| gdw_issued_at := issued_at; gdw_effective_deadline := effective_deadline |}.

(** ** The action request against its dispatch *)
Definition validate_action_request_matches_dispatch (claim : ActivityClaimRequestV1)
    (request : ActionRequestedV2) (dispatch : DispatchEnvelopeV3)
    (dispatch_envelope_digest : string) (authority : ActivityClaimAuthorityV1)
    (dispatch_issued_at claimed_at : DateTime) : Result unit ActivityFailure :=
  let body := de3_body dispatch in
  fail_if (ar2_run_id request != uuid_to_string (acq_run_id claim))
       || (ar2_action_id request != acq_activity_id claim)
       || (ar2_idempotency_key request != acq_idempotency_key claim)
       || (ar2_workflow_id request != deb2_workflow_id body)
       || (ar2_unit_id request != deb2_unit_id body)
       || (ar2_attempt request != deb2_attempt body)
       || (ar2_provenance_ref request != deb2_provenance_ref body)
       || (ar2_dispatch_envelope_digest request != dispatch_envelope_digest)
       || (ar2_repository_binding_digest request != de3_repository_binding_digest dispatch)
       || (ar2_ledger_authority_realm_digest request != de3_ledger_authority_realm_digest dispatch)
       || (ar2_governed_packet_digest request != de3_governed_packet_digest dispatch)
       || (ar2_capability_bundle_digest request != deb2_capability_bundle_digest body)
       || (ar2_context_manifest_digest request != deb2_context_manifest_digest body)
       || (ar2_worker_manifest_digest request != deb2_worker_manifest_digest body)
       || (ar2_sandbox_profile_digest request != deb2_sandbox_profile_digest body)
       || (ar2_execution_role request != deb2_execution_role body)
       || (ar2_authority_actor request != akr_actor_id (aca_action_request_signer authority))
    with rejected "action request does not exactly bind the trusted governed dispatch" ;;
  let* expected_policy_digest := map_err
    (fun _ => rejected "governed dispatch acceptance-contract policy binding is invalid")
    (governed_dispatch_policy_digest_v1 (deb2_acceptance_contract_digest body)) in
  fail_if ar2_policy_digest request != expected_policy_digest
    with rejected "action request policy_digest does not match the policy binding derived from the signed acceptance contract" ;;
  fail_if is_some_and (aca_ledger_authority_realm_digest authority) (fun expected_realm_digest =>
            (de3_ledger_authority_realm_digest dispatch != expected_realm_digest)
            || (ar2_ledger_authority_realm_digest request != expected_realm_digest))
    with rejected "action request does not bind this protected governed ledger authority realm" ;;
  let* requested_at := parse_claim_timestamp (ar2_requested_at request) in
  fail_if requested_at <? dispatch_issued_at
    with rejected "action request predates its governed dispatch authority" ;;
  fail_if claimed_at <? requested_at
    with rejected "action request timestamp is after the activity claim time" ;;
  Ok tt.
End Evidence.
