(* ===== verification/RetryContext.v ===== *)
(** * The signed chain of a failed attempt

    [verify_governed_sealed_v3_retry_context] of
    [bp-ledger/src/storage/sqlite.rs], one definition per stage: the recorded
    contexts of the run and their exclusive keys, the one context that names the
    retry dispatch, and the prior dispatch, terminal record, receipt, action
    request, claim and result it must bind, each earlier on the tape than the
    next.  The event id order is the tape order.

    The [unreachable!] arms are panics of the model. *)
From S2P Require Import Prelude RustStr Host LedgerPayloads TrustSpine Digests Events Tape WorkflowGraph Canonicalize Engine Store ActivityEvidence.
From Stdlib Require Import Ascii.
From stdpp Require Import base list gmap strings pretty.

#[local] Open Scope string_scope.
#[local] Open Scope list_scope.
#[local] Open Scope Z_scope.

(** The keys the contexts of a run own, each at most once. *)
Record RetryOwners := {
  ro_context_idempotency_keys : gset string;
  ro_next_dispatch_idempotency_keys : gset string;
  ro_retry_action_namespaces : gset string;
  ro_prior_attempts : gset (string * string * Z)
}.

(** The chain of the prior attempt, as it is rebuilt. *)
Record PriorDispatch := {
  pd_event : Event;
  pd_dispatch : DispatchEnvelopeV3;
  pd_issued_at : DateTime;
  pd_effective_deadline : DateTime
}.
Record PriorRequest := {
  pq_event : Event;
  pq_request : ActionRequestedV2;
  pq_digest : string;
  pq_requested_at : DateTime;
  pq_expected_policy_digest : string
}.
Record PriorClaim := {
  pc_event : Event;
  pc_claim : ActivityClaimedV1;
  pc_digest : string;
  pc_claimed_at : DateTime;
  pc_lease_expires_at : DateTime
}.

Section Retry.
Context `{Host, Canonicalizer, Crypto, RowDecoder, RowEncoder}.

Definition validate_static_governed_candidate_completion_dispatch (dispatch : DispatchEnvelopeV3)
    (authority : GovernedPromotionAuthorityV1) : Result unit ActivityFailure :=
  let body := de3_body dispatch in
  fail_if (deb2_trust_tier body != TrustTierV1_Governed)
       || negb ((deb2_execution_role body == ExecutionRoleV1_Implementer)
                || (deb2_execution_role body == ExecutionRoleV1_Candidate))
       || (deb2_commit_mode body != CommitModeV1_Atomic)
       || (de3_action_evidence_version dispatch != ActionEvidenceVersionV1_SealedV3)
       || (de3_ledger_authority_realm_digest dispatch != gpa_ledger_authority_realm_digest authority)
       || is_none_or (de3_governed_packet_digest dispatch) trim_is_empty
    with completion_rejected "candidate completion requires a sealed-V3 governed atomic implementer or candidate dispatch in this protected realm" ;;
  Ok tt.

Definition canonical_governed_candidate_retry_event (event : Event) (label : string)
    : Result Event ActivityFailure :=
  let* _ := map_err (fun error => completion_rejected
      ("candidate completion retry " +:+ label +:+ " event is not canonical: " +:+ error))
    (canonicalize event) in
  Ok event.

Definition load_verified_governed_candidate_retry_event (db : Database) (event_id : EventId)
    (authority : GovernedPromotionAuthorityV1) (label : string) : Result Event ActivityFailure :=
  map_failure (ActivityError_CompletionAuthorityRejectedFor
      ("candidate completion retry " +:+ label +:+ " proof is not verified"))
    (load_verified_promotion_event db event_id (gpa_trusted_keys authority)
       (gpa_kernel_signer authority) label).

(** A timestamp whose failure is reported with [reason]. *)
Definition retry_timestamp (value reason : string) : Result DateTime ActivityFailure :=
  map_failure (fun _ => ActivityError_CompletionAuthorityRejected reason)
    (parse_claim_timestamp value).

(** ** The recorded contexts of the run *)
Definition retry_contexts (db : Database) (run_id : RunId)
    (authority : GovernedPromotionAuthorityV1)
    : Result (list (Event * AttemptContextRecordedV1)) ActivityFailure :=
  let* events := verified_kernel_events_for_run_kind db run_id EventKind_AttemptContextRecordedV1
    authority "retry attempt context" in
  collect_results (fun context_event =>
      let* context_event := canonical_governed_candidate_retry_event context_event "context" in
      match ev_payload context_event with
      | Payload_AttemptContextRecordedV1 context => Ok (context_event, context)
      | _ => Err (Stopped Crash_Panic)
      end) events.

Definition own_retry_keys (run_id : RunId) (owners : RetryOwners)
    (item : Event * AttemptContextRecordedV1) : Result RetryOwners ActivityFailure :=
  let '(context_event, context) := item in
  fail_if (ev_run_id context_event != run_id) || (acr_run_id context != uuid_to_string run_id)
    with completion_rejected "candidate completion retry context belongs to a different run" ;;
  let prior_attempt :=
    (acr_workflow_id context, acr_unit_id context, acr_prior_attempt context) in
  fail_if bool_decide (acr_idempotency_key context ∈ ro_context_idempotency_keys owners)
       || bool_decide (acr_next_dispatch_idempotency_key context
                         ∈ ro_next_dispatch_idempotency_keys owners)
       || bool_decide (acr_retry_action_namespace context ∈ ro_retry_action_namespaces owners)
       || bool_decide (prior_attempt ∈ ro_prior_attempts owners)
    with completion_rejected "candidate completion retry contexts reuse a run-global retry idempotency, action namespace, or prior-attempt ownership" ;;
  Ok {| ro_context_idempotency_keys :=
          {[ acr_idempotency_key context ]} ∪ ro_context_idempotency_keys owners;
        ro_next_dispatch_idempotency_keys :=
          {[ acr_next_dispatch_idempotency_key context ]} ∪ ro_next_dispatch_idempotency_keys owners;
        ro_retry_action_namespaces :=
          {[ acr_retry_action_namespace context ]} ∪ ro_retry_action_namespaces owners;
        ro_prior_attempts := {[ prior_attempt ]} ∪ ro_prior_attempts owners |}.

Fixpoint own_all_retry_keys (run_id : RunId) (owners : RetryOwners)
    (contexts : list (Event * AttemptContextRecordedV1)) : Result RetryOwners ActivityFailure :=
  match contexts with
  | [] => Ok owners
  | item :: rest =>
      let* owners := own_retry_keys run_id owners item in
      own_all_retry_keys run_id owners rest
  end.

Definition no_retry_owners : RetryOwners :=
  {| ro_context_idempotency_keys := ∅; ro_next_dispatch_idempotency_keys := ∅;
     ro_retry_action_namespaces := ∅; ro_prior_attempts := ∅ |}.

Definition same_retry_identity (run_id : RunId) (dispatch : DispatchEnvelopeV3)
    (context : AttemptContextRecordedV1) : bool :=
  (acr_run_id context == uuid_to_string run_id)
  && (acr_workflow_id context == deb2_workflow_id (de3_body dispatch))
  && (acr_workflow_revision context == deb2_workflow_revision (de3_body dispatch))
  && (acr_unit_id context == deb2_unit_id (de3_body dispatch))
  && (acr_next_attempt context == deb2_attempt (de3_body dispatch)).

Fixpoint select_exact_context (run_id : RunId) (dispatch : DispatchEnvelopeV3)
    (exact_context : option (Event * AttemptContextRecordedV1)) (saw_same_retry_identity : bool)
    (contexts : list (Event * AttemptContextRecordedV1))
    : Result (option (Event * AttemptContextRecordedV1) * bool) ActivityFailure :=
  match contexts with
  | [] => Ok (exact_context, saw_same_retry_identity)
  | (context_event, context) :: rest =>
      if negb (same_retry_identity run_id dispatch context)
      then select_exact_context run_id dispatch exact_context saw_same_retry_identity rest
      else
      fail_if (acr_next_dispatch_envelope_digest context != de3_envelope_digest dispatch)
           || (acr_next_dispatch_idempotency_key context
                 != deb2_idempotency_key (de3_body dispatch))
        with completion_rejected "candidate completion retry context does not bind the exact next sealed-V3 dispatch envelope digest and idempotency key" ;;
      fail_if is_some exact_context
        with completion_rejected "candidate completion retry dispatch has duplicate signed attempt contexts" ;;
      select_exact_context run_id dispatch (Some (context_event, context)) true rest
  end.

Definition exact_retry_context (run_id : RunId) (dispatch : DispatchEnvelopeV3)
    (contexts : list (Event * AttemptContextRecordedV1))
    : Result (Event * AttemptContextRecordedV1) ActivityFailure :=
  let* (exact_context, saw_same_retry_identity) :=
    select_exact_context run_id dispatch None false contexts in
  match exact_context with
  | Some item => Ok item
  | None => Err (completion_rejected
      (if (saw_same_retry_identity : bool)
       then "candidate completion retry context did not bind the exact next dispatch"
       else "candidate completion sealed-V3 retry requires one signed recorded prior-attempt context"))
  end.

(** The context is the earlier signed decision it says it is; its instant. *)
Definition check_retry_context (run_id : RunId) (dispatch_event context_event : Event)
    (context : AttemptContextRecordedV1) : Result DateTime ActivityFailure :=
  let* digest := map_err (fun error => completion_rejected
      ("candidate completion could not canonicalize retry context digest: " +:+ error))
    (attempt_context_recorded_v1_digest context) in
  fail_if (acr_attempt_context_digest context != digest)
       || negb ((acr_prior_attempt context + 1 <? 2 ^ 32)
                && (acr_prior_attempt context + 1 == acr_next_attempt context))
       || (ev_run_id context_event != run_id)
       || negb (tape_event_precedes context_event dispatch_event)
    with completion_rejected "candidate completion retry context is not an exact, earlier signed retry decision" ;;
  let* context_recorded_at := retry_timestamp (acr_recorded_at context)
    "candidate completion retry context recorded_at is not canonical RFC3339 UTC" in
  fail_if context_recorded_at != ev_occurred_at context_event
    with completion_rejected "candidate completion retry context recorded_at does not match its signed tape event time" ;;
  Ok context_recorded_at.

(** ** The prior dispatch and its terminal record *)
Definition verify_prior_dispatch (db : Database) (run_id : RunId)
    (authority : GovernedPromotionAuthorityV1) (context_event : Event)
    (context : AttemptContextRecordedV1) : Result PriorDispatch ActivityFailure :=
  let* prior_dispatch_event := unique_verified_kernel_event_matching db run_id
    EventKind_DispatchEnvelopeV3 authority "retry prior dispatch" (fun event =>
      match ev_payload event with
      | Payload_DispatchEnvelopeV3 prior =>
          (de3_envelope_digest prior == acr_prior_dispatch_envelope_digest context)
          && (deb2_workflow_id (de3_body prior) == acr_workflow_id context)
          && (deb2_workflow_revision (de3_body prior) == acr_workflow_revision context)
          && (deb2_unit_id (de3_body prior) == acr_unit_id context)
          && (deb2_attempt (de3_body prior) == acr_prior_attempt context)
      | _ => false
      end) in
  let* prior_dispatch_event :=
    canonical_governed_candidate_retry_event prior_dispatch_event "prior dispatch" in
  match ev_payload prior_dispatch_event with
  | Payload_DispatchEnvelopeV3 prior_dispatch =>
      let* _ := validate_static_governed_candidate_completion_dispatch prior_dispatch authority in
      let* prior_dispatch_issued_at := retry_timestamp (deb2_issued_at (de3_body prior_dispatch))
        "candidate completion retry prior dispatch issued_at is not canonical RFC3339 UTC" in
      let* window := map_failure (ActivityError_CompletionAuthorityRejectedFor
          "candidate completion could not derive the retry prior dispatch authority deadline")
        (validate_governed_dispatch prior_dispatch prior_dispatch_issued_at) in
      fail_if (ev_run_id prior_dispatch_event != run_id)
           || negb (tape_event_precedes prior_dispatch_event context_event)
        with completion_rejected "candidate completion retry context prior dispatch is not an earlier signed event in the exact run" ;;
      Ok {| pd_event := prior_dispatch_event; pd_dispatch := prior_dispatch;
            pd_issued_at := prior_dispatch_issued_at;
            pd_effective_deadline := gdw_effective_deadline window |}
  | _ => Err (Stopped Crash_Panic)
  end.

(** The fields a terminal record of either version shares. *)
Definition terminal_fields (payload : Payload)
    : option (string * string * string * Z * WorkflowTerminalOutcomeV1 * string) :=
  match payload with
  | Payload_WorkflowTerminalV1 terminal =>
      Some (wt1_workflow_id terminal, wt1_workflow_revision terminal, wt1_unit_id terminal,
            wt1_attempt terminal, wt1_outcome terminal, wt1_completed_at terminal)
  | Payload_WorkflowTerminalV2 terminal =>
      Some (wt2_workflow_id terminal, wt2_workflow_revision terminal, wt2_unit_id terminal,
            wt2_attempt terminal, wt2_outcome terminal, wt2_completed_at terminal)
  | _ => None
  end.

Definition verify_prior_terminal (db : Database) (run_id : RunId)
    (authority : GovernedPromotionAuthorityV1) (context_event : Event)
    (context : AttemptContextRecordedV1) (context_recorded_at : DateTime) (prior : PriorDispatch)
    : Result Event ActivityFailure :=
  let* prior_terminal_event_id := map_err (fun error =>
      Errored (ActivityError_CompletionAuthorityRejectedFor
        "candidate completion retry context has an invalid prior terminal ref"
        (ActivityError_Store error)))
    (parse_event_id (acr_prior_terminal_event_ref context)
       "candidate completion retry prior terminal") in
  let* prior_terminal_event := load_verified_governed_candidate_retry_event db
    prior_terminal_event_id authority "prior terminal" in
  let* prior_terminal_event :=
    canonical_governed_candidate_retry_event prior_terminal_event "prior terminal" in
  let* prior_terminal_digest := map_err (fun error => completion_rejected
      ("candidate completion could not canonicalize retry prior terminal: " +:+ error))
    (canonical_event_hash prior_terminal_event) in
  match terminal_fields (ev_payload prior_terminal_event) with
  | None => Err (completion_rejected "candidate completion retry context prior terminal is not a workflow terminal record")
  | Some (workflow_id, workflow_revision, unit_id, attempt, outcome, completed_at) =>
      let* terminal_completed_at := retry_timestamp completed_at
        "candidate completion retry prior terminal completed_at is not canonical RFC3339 UTC" in
      let body := de3_body (pd_dispatch prior) in
      fail_if (ev_run_id prior_terminal_event != run_id)
           || (prior_terminal_digest != acr_prior_terminal_event_digest context)
           || (workflow_id != deb2_workflow_id body)
           || (workflow_revision != deb2_workflow_revision body)
           || (unit_id != deb2_unit_id body)
           || (attempt != deb2_attempt body)
           || (outcome != WorkflowTerminalOutcomeV1_Failed)
           || (terminal_completed_at != ev_occurred_at prior_terminal_event)
           || negb (tape_event_precedes (pd_event prior) prior_terminal_event)
           || negb (tape_event_precedes prior_terminal_event context_event)
           || (context_recorded_at <? terminal_completed_at)
        with completion_rejected "candidate completion retry context does not bind the exact failed prior terminal evidence" ;;
      Ok prior_terminal_event
  end.

(** ** The failed action: receipt, request, claim and result *)
Definition digest_is (digest : Result string string) (expected : string) : bool :=
  match digest with Ok digest => digest == expected | Err _ => false end.

Definition verify_prior_receipt (db : Database) (run_id : RunId)
    (authority : GovernedPromotionAuthorityV1) (context : AttemptContextRecordedV1)
    (prior : PriorDispatch) (prior_terminal_event : Event)
    : Result (Event * ActionReceiptRecordedV2) ActivityFailure :=
  let* prior_receipt_event := unique_verified_kernel_event_matching db run_id
    EventKind_ActionReceiptRecordedV2 authority "retry prior failed action receipt" (fun event =>
      match ev_payload event with
      | Payload_ActionReceiptRecordedV2 receipt =>
          (arr2_action_receipt_ref receipt == acr_prior_action_receipt_ref context)
          && digest_is (action_receipt_recorded_v2_digest receipt)
               (acr_prior_action_receipt_digest context)
      | _ => false
      end) in
  let* prior_receipt_event :=
    canonical_governed_candidate_retry_event prior_receipt_event "prior failed receipt" in
  match ev_payload prior_receipt_event with
  | Payload_ActionReceiptRecordedV2 prior_receipt =>
      let* prior_receipt_digest := map_err (fun error => completion_rejected
          ("candidate completion could not canonicalize retry prior receipt: " +:+ error))
        (action_receipt_recorded_v2_digest prior_receipt) in
      let body := de3_body (pd_dispatch prior) in
      fail_if (prior_receipt_digest != acr_prior_action_receipt_digest context)
           || (arr2_run_id prior_receipt != uuid_to_string run_id)
           || (arr2_workflow_id prior_receipt != deb2_workflow_id body)
           || (arr2_unit_id prior_receipt != deb2_unit_id body)
           || (arr2_attempt prior_receipt != deb2_attempt body)
           || (arr2_provenance_ref prior_receipt != deb2_provenance_ref body)
           || (arr2_dispatch_envelope_digest prior_receipt
                 != de3_envelope_digest (pd_dispatch prior))
           || (arr2_authority_actor prior_receipt != akr_actor_id (gpa_kernel_signer authority))
           || (arr2_execution_role prior_receipt != deb2_execution_role body)
           || (arr2_outcome prior_receipt != ActionReceiptOutcomeV2_Failed)
           || negb (tape_event_precedes (pd_event prior) prior_receipt_event)
           || negb (tape_event_precedes prior_receipt_event prior_terminal_event)
        with completion_rejected "candidate completion retry context prior receipt does not bind the failed prior dispatch" ;;
      Ok (prior_receipt_event, prior_receipt)
  | _ => Err (Stopped Crash_Panic)
  end.

(** An action request carries the authority of the prior dispatch. *)
Definition binds_prior_dispatch (prior : PriorDispatch) (authority : GovernedPromotionAuthorityV1)
    (expected_policy_digest : string) (action_event : Event) (action : ActionRequestedV2) : bool :=
  let body := de3_body (pd_dispatch prior) in
  (ar2_provenance_ref action == deb2_provenance_ref body)
  && (ar2_dispatch_envelope_digest action == de3_envelope_digest (pd_dispatch prior))
  && (ar2_repository_binding_digest action == de3_repository_binding_digest (pd_dispatch prior))
  && (ar2_ledger_authority_realm_digest action
        == de3_ledger_authority_realm_digest (pd_dispatch prior))
  && (ar2_governed_packet_digest action == de3_governed_packet_digest (pd_dispatch prior))
  && (ar2_capability_bundle_digest action == deb2_capability_bundle_digest body)
  && (ar2_policy_digest action == expected_policy_digest)
  && (ar2_context_manifest_digest action == deb2_context_manifest_digest body)
  && (ar2_worker_manifest_digest action == deb2_worker_manifest_digest body)
  && (ar2_sandbox_profile_digest action == deb2_sandbox_profile_digest body)
  && (ar2_authority_actor action == akr_actor_id (gpa_kernel_signer authority))
  && (ar2_execution_role action == deb2_execution_role body)
  && (ev_parent_event_id action_event == Some (ev_id (pd_event prior))).

Definition same_prior_attempt (run_id : RunId) (prior : PriorDispatch)
    (action : ActionRequestedV2) : bool :=
  let body := de3_body (pd_dispatch prior) in
  (ar2_run_id action == uuid_to_string run_id)
  && (ar2_workflow_id action == deb2_workflow_id body)
  && (ar2_unit_id action == deb2_unit_id body)
  && (ar2_attempt action == deb2_attempt body).

Definition verify_prior_request (db : Database) (run_id : RunId)
    (authority : GovernedPromotionAuthorityV1) (prior : PriorDispatch)
    (prior_receipt_event : Event) (prior_receipt : ActionReceiptRecordedV2)
    : Result PriorRequest ActivityFailure :=
  let* prior_request_event := unique_verified_kernel_event_matching db run_id
    EventKind_ActionRequestedV2 authority "retry prior action request" (fun event =>
      match ev_payload event with
      | Payload_ActionRequestedV2 action =>
          (ar2_action_id action == arr2_action_id prior_receipt)
          && (ar2_idempotency_key action == arr2_idempotency_key prior_receipt)
          && digest_is (action_requested_v2_digest action)
               (arr2_action_request_digest prior_receipt)
      | _ => false
      end) in
  let* prior_request_event :=
    canonical_governed_candidate_retry_event prior_request_event "prior action request" in
  match ev_payload prior_request_event with
  | Payload_ActionRequestedV2 prior_request =>
      let* prior_request_digest := map_err (fun error => completion_rejected
          ("candidate completion could not canonicalize retry prior request: " +:+ error))
        (action_requested_v2_digest prior_request) in
      let* prior_requested_at := retry_timestamp (ar2_requested_at prior_request)
        "candidate completion retry prior request requested_at is not canonical RFC3339 UTC" in
      let* expected_prior_policy_digest := map_err (fun error => completion_rejected
          ("candidate completion could not derive the retry prior dispatch policy binding: " +:+ error))
        (governed_dispatch_policy_digest_v1
           (deb2_acceptance_contract_digest (de3_body (pd_dispatch prior)))) in
      fail_if (prior_request_digest != arr2_action_request_digest prior_receipt)
           || negb (same_prior_attempt run_id prior prior_request)
           || negb (binds_prior_dispatch prior authority expected_prior_policy_digest
                      prior_request_event prior_request)
           || (prior_requested_at != ev_occurred_at prior_request_event)
           || (prior_requested_at <? pd_issued_at prior)
           || negb (tape_event_precedes (pd_event prior) prior_request_event)
           || negb (tape_event_precedes prior_request_event prior_receipt_event)
        with completion_rejected "candidate completion retry context prior action request does not bind the failed prior dispatch" ;;
      Ok {| pq_event := prior_request_event; pq_request := prior_request;
            pq_digest := prior_request_digest; pq_requested_at := prior_requested_at;
            pq_expected_policy_digest := expected_prior_policy_digest |}
  | _ => Err (Stopped Crash_Panic)
  end.

Definition verify_prior_claim (db : Database) (run_id : RunId)
    (authority : GovernedPromotionAuthorityV1) (prior : PriorDispatch) (request : PriorRequest)
    : Result PriorClaim ActivityFailure :=
  let* prior_claim_event := unique_verified_kernel_event_matching db run_id
    EventKind_ActivityClaimedV1 authority "retry prior action claim" (fun event =>
      ev_parent_event_id event == Some (ev_id (pq_event request))) in
  let* prior_claim_event :=
    canonical_governed_candidate_retry_event prior_claim_event "prior action claim" in
  match ev_payload prior_claim_event with
  | Payload_ActivityClaimedV1 prior_claim =>
      let* prior_claim_digest := map_err (fun error => completion_rejected
          ("candidate completion could not canonicalize retry prior claim: " +:+ error))
        (canonical_event_hash prior_claim_event) in
      let* prior_claimed_at := retry_timestamp (acl_claimed_at prior_claim)
        "candidate completion retry prior claim claimed_at is not canonical RFC3339 UTC" in
      let* prior_lease_expires_at := retry_timestamp (acl_lease_expires_at prior_claim)
        "candidate completion retry prior claim lease expiry is not canonical RFC3339 UTC" in
      fail_if (acl_run_id prior_claim != run_id)
           || (acl_activity_id prior_claim != ar2_action_id (pq_request request))
           || (acl_idempotency_key prior_claim != ar2_idempotency_key (pq_request request))
           || (acl_action_kind prior_claim != ar2_action_kind (pq_request request))
           || (acl_action_request_event_id prior_claim != ev_id (pq_event request))
           || (acl_action_request_digest prior_claim != pq_digest request)
           || (acl_dispatch_event_id prior_claim != ev_id (pd_event prior))
           || (acl_dispatch_envelope_digest prior_claim != de3_envelope_digest (pd_dispatch prior))
           || (acl_authority_actor prior_claim != akr_actor_id (gpa_kernel_signer authority))
           || (acl_purpose prior_claim != ActivityClaimPurposeV1_Generic)
           || (prior_claimed_at != ev_occurred_at prior_claim_event)
           || (prior_claimed_at <? pq_requested_at request)
           || (prior_lease_expires_at <=? prior_claimed_at)
           || (pd_effective_deadline prior <? prior_lease_expires_at)
           || (ev_parent_event_id prior_claim_event != Some (ev_id (pq_event request)))
           || negb (tape_event_precedes (pq_event request) prior_claim_event)
        with completion_rejected "candidate completion retry context prior claim does not bind the failed action request" ;;
      Ok {| pc_event := prior_claim_event; pc_claim := prior_claim;
            pc_digest := prior_claim_digest; pc_claimed_at := prior_claimed_at;
            pc_lease_expires_at := prior_lease_expires_at |}
  | _ => Err (Stopped Crash_Panic)
  end.

Definition verify_prior_result (db : Database) (run_id : RunId)
    (authority : GovernedPromotionAuthorityV1) (request : PriorRequest) (claim : PriorClaim)
    (prior_receipt_event : Event) (prior_receipt : ActionReceiptRecordedV2)
    : Result unit ActivityFailure :=
  let* prior_result_event := unique_verified_kernel_event_matching db run_id
    EventKind_ActivityResultRecordedV1 authority "retry prior failed action result" (fun event =>
      ev_parent_event_id event == Some (ev_id (pc_event claim))) in
  let* prior_result_event :=
    canonical_governed_candidate_retry_event prior_result_event "prior failed action result" in
  match ev_payload prior_result_event with
  | Payload_ActivityResultRecordedV1 prior_result =>
      let* prior_result_recorded_at := retry_timestamp (arx_recorded_at prior_result)
        "candidate completion retry prior result recorded_at is not canonical RFC3339 UTC" in
      let* prior_receipt_completed_at := retry_timestamp (arr2_completed_at prior_receipt)
        "candidate completion retry prior receipt completed_at is not canonical RFC3339 UTC" in
      fail_if (arx_run_id prior_result != run_id)
           || (arx_activity_id prior_result != ar2_action_id (pq_request request))
           || (arx_idempotency_key prior_result != ar2_idempotency_key (pq_request request))
           || (arx_claim_event_id prior_result != ev_id (pc_event claim))
           || (arx_claim_event_digest prior_result != pc_digest claim)
           || (arx_lease_id prior_result != acl_lease_id (pc_claim claim))
           || (arx_outcome prior_result != ActivityResultOutcomeV1_Failed)
           || (prior_result_recorded_at != ev_occurred_at prior_result_event)
           || (prior_result_recorded_at <? pc_claimed_at claim)
           || (pc_lease_expires_at claim <=? prior_result_recorded_at)
           || (ev_parent_event_id prior_receipt_event != Some (ev_id prior_result_event))
           || (arr2_result_digest prior_receipt != arx_result_digest prior_result)
           || (arr2_result_ref prior_receipt != arx_result_ref prior_result)
           || (arr2_evidence_digest prior_receipt != arx_evidence_digest prior_result)
           || (arr2_evidence_ref prior_receipt != arx_evidence_ref prior_result)
           || (prior_receipt_completed_at <? pc_claimed_at claim)
           || (prior_result_recorded_at <? prior_receipt_completed_at)
           || negb (tape_event_precedes (pc_event claim) prior_result_event)
           || negb (tape_event_precedes prior_result_event prior_receipt_event)
        with completion_rejected "candidate completion retry context prior receipt does not bind a failed terminal action result" ;;
      Ok tt
  | _ => Err (Stopped Crash_Panic)
  end.

(** ** The identities the prior attempt used *)
Fixpoint collect_prior_actions (run_id : RunId) (authority : GovernedPromotionAuthorityV1)
    (prior : PriorDispatch) (expected_policy_digest : string)
    (prior_action_ids prior_action_idempotency_keys : gset string) (events : list Event)
    : Result (gset string * gset string) ActivityFailure :=
  match events with
  | [] => Ok (prior_action_ids, prior_action_idempotency_keys)
  | action_event :: rest =>
      let* action_event :=
        canonical_governed_candidate_retry_event action_event "prior action identity" in
      match ev_payload action_event with
      | Payload_ActionRequestedV2 action =>
          if negb (same_prior_attempt run_id prior action)
          then collect_prior_actions run_id authority prior expected_policy_digest
                 prior_action_ids prior_action_idempotency_keys rest
          else
          fail_if negb (binds_prior_dispatch prior authority expected_policy_digest
                          action_event action)
            with completion_rejected "candidate completion retry predecessor contains a substituted prior action identity" ;;
          fail_if bool_decide (ar2_action_id action ∈ prior_action_ids)
               || bool_decide (ar2_idempotency_key action ∈ prior_action_idempotency_keys)
            with completion_rejected "candidate completion retry predecessor contains duplicate prior action identity or idempotency evidence" ;;
          collect_prior_actions run_id authority prior expected_policy_digest
            ({[ ar2_action_id action ]} ∪ prior_action_ids)
            ({[ ar2_idempotency_key action ]} ∪ prior_action_idempotency_keys) rest
      | _ => Err (Stopped Crash_Panic)
      end
  end.

(** The retry names nothing the prior attempt already used. *)
Definition check_fresh_namespace (context : AttemptContextRecordedV1) (prior : PriorDispatch)
    (request : PriorRequest) (prior_action_ids prior_action_idempotency_keys : gset string)
    : Result VerifiedGovernedCandidateRetryContextV1 ActivityFailure :=
  fail_if negb (bool_decide (ar2_action_id (pq_request request) ∈ prior_action_ids))
       || negb (bool_decide (ar2_idempotency_key (pq_request request)
                               ∈ prior_action_idempotency_keys))
    with completion_rejected "candidate completion retry context prior action identity is absent from the signed predecessor dispatch" ;;
  let prior_key := deb2_idempotency_key (de3_body (pd_dispatch prior)) in
  fail_if (acr_next_dispatch_idempotency_key context == prior_key)
       || (acr_retry_action_namespace context == prior_key)
       || bool_decide (acr_next_dispatch_idempotency_key context ∈ prior_action_idempotency_keys)
       || bool_decide (acr_retry_action_namespace context ∈ prior_action_idempotency_keys)
    with completion_rejected "candidate completion retry context reuses a prior dispatch or action idempotency namespace" ;;
  Ok {| vrc_retry_action_namespace := acr_retry_action_namespace context;
        vrc_prior_action_ids := prior_action_ids;
        vrc_prior_action_idempotency_keys := prior_action_idempotency_keys |}.

Definition is_dispatch_v3 (payload : Payload) : bool :=
  match payload with Payload_DispatchEnvelopeV3 _ => true | _ => false end.

Definition verify_governed_sealed_v3_retry_context (db : Database) (run_id : RunId)
    (authority : GovernedPromotionAuthorityV1) (dispatch_event : Event)
    (dispatch : DispatchEnvelopeV3)
    : Result VerifiedGovernedCandidateRetryContextV1 ActivityFailure :=
  fail_if (deb2_attempt (de3_body dispatch) <=? 1)
       || negb (is_dispatch_v3 (ev_payload dispatch_event))
    with completion_rejected "candidate completion retries require an outer sealed-V3 dispatch envelope" ;;
  let* _ := canonical_governed_candidate_retry_event dispatch_event "dispatch" in
  let* contexts := retry_contexts db run_id authority in
  let* _ := own_all_retry_keys run_id no_retry_owners contexts in
  let* (context_event, context) := exact_retry_context run_id dispatch contexts in
  let* context_recorded_at := check_retry_context run_id dispatch_event context_event context in
  let* prior := verify_prior_dispatch db run_id authority context_event context in
  let* prior_terminal_event := verify_prior_terminal db run_id authority context_event context
    context_recorded_at prior in
  let* (prior_receipt_event, prior_receipt) :=
    verify_prior_receipt db run_id authority context prior prior_terminal_event in
  let* request := verify_prior_request db run_id authority prior prior_receipt_event
    prior_receipt in
  let* claim := verify_prior_claim db run_id authority prior request in
  let* _ := verify_prior_result db run_id authority request claim prior_receipt_event
    prior_receipt in
  let* action_events := verified_kernel_events_for_run_kind db run_id EventKind_ActionRequestedV2
    authority "retry prior action identity" in
  let* (prior_action_ids, prior_action_idempotency_keys) :=
    collect_prior_actions run_id authority prior (pq_expected_policy_digest request) ∅ ∅
      action_events in
  check_fresh_namespace context prior request prior_action_ids prior_action_idempotency_keys.

(** ** Candidate refs *)
Definition canonical_buildplane_candidate_ref_suffix (candidate_ref : string) : option string :=
  if is_canonical_buildplane_candidate_ref candidate_ref
  then RustStr.strip_prefix BUILDPANE_CANDIDATE_REF_PREFIX candidate_ref else None.

Definition candidate_ref_suffix_segments (suffix : string) : option (string * string * string) :=
  match str_split "/"%char suffix with
  | [candidate_id; candidate_run_id; candidate_attempt] =>
      if candidate_id == "" then None else Some (candidate_id, candidate_run_id, candidate_attempt)
  | _ => None
  end.

Definition candidate_ref_suffix_binds_run_and_attempt (suffix : string) (run_id : RunId)
    (attempt : u32) : bool :=
  match candidate_ref_suffix_segments suffix with
  | Some (_, candidate_run_id, candidate_attempt) =>
      (candidate_run_id == uuid_to_string run_id) && (candidate_attempt == pretty attempt)
  | None => false
  end.

(** ** The retry that creates a candidate *)
Definition looks_like_candidate_create (action_request : ActionRequestedV2) : bool :=
  (ar2_action_kind action_request == ActionKindV1_Git)
  && (starts_with "git-candidate-create:" (ar2_action_id action_request)
      || str_contains ":git-candidate-create:" (ar2_action_id action_request)).

Definition retry_authority_of (authority : ActivityClaimAuthorityV1) (configured_realm : string)
    : GovernedPromotionAuthorityV1 :=
  {| gpa_trusted_keys := aca_trusted_keys authority;
     gpa_kernel_signer := aca_dispatch_signer authority;
     gpa_reviewer_signers := [];
     gpa_operator_signer := aca_claim_signer authority;
     gpa_ledger_authority_realm_digest := configured_realm |}.

Definition verify_governed_v3_retry_candidate_claim_identity (db : Database)
    (request : ActivityClaimRequestV1) (authority : ActivityClaimAuthorityV1)
    (dispatch_event : Event) (dispatch : DispatchEnvelopeV3) (action_request : ActionRequestedV2)
    : Result unit ActivityFailure :=
  let attempt := deb2_attempt (de3_body dispatch) in
  if negb (looks_like_candidate_create action_request) || (attempt <=? 1) then Ok tt else
  let* _ := match ev_payload dispatch_event with
    | Payload_DispatchEnvelopeV3 _ => Ok tt
    | Payload_DispatchEnvelopeV4 _ => Err (rejected "governed retry candidate-create claims support only outer sealed-V3 dispatch envelopes; graph-bound V4 retries remain rejected")
    | Payload_DispatchEnvelopeV5 _ => Err (rejected "governed retry candidate-create claims support only outer sealed-V3 dispatch envelopes; manifest-bound V5 retries remain rejected")
    | _ => Err (rejected "governed retry candidate-create claim does not reference a dispatch envelope")
    end in
  some_or configured_realm := aca_ledger_authority_realm_digest authority
    with rejected "governed retry candidate-create claim requires a configured protected activity authority realm" ;;
  let retry_authority := retry_authority_of authority configured_realm in
  let* _ := map_failure (ActivityError_ClaimAuthorityRejectedFor
      "governed retry candidate-create claim dispatch is outside the configured sealed-V3 realm")
    (validate_static_governed_candidate_completion_dispatch dispatch retry_authority) in
  let* retry_context := map_failure (ActivityError_ClaimAuthorityRejectedFor
      "governed retry candidate-create claim cannot resolve its signed retry context")
    (verify_governed_sealed_v3_retry_context db (acq_run_id request) retry_authority
       dispatch_event dispatch) in
  let expected_prefix := vrc_retry_action_namespace retry_context +:+ ":" +:+
    RETRY_CANDIDATE_ACTION_KIND +:+ ":" in
  some_or candidate_key := RustStr.strip_prefix expected_prefix (ar2_action_id action_request)
    with rejected "governed retry candidate-create action_id must derive from the exact signed retry action namespace" ;;
  fail_if candidate_key == ""
    with rejected "governed retry candidate-create action_id requires a non-empty candidate key" ;;
  fail_if ar2_idempotency_key action_request != ar2_action_id action_request +:+ ":idempotency"
    with rejected "governed retry candidate-create idempotency_key must exactly derive from its action_id" ;;
  let candidate_ref := BUILDPANE_CANDIDATE_REF_PREFIX +:+ candidate_key in
  some_or candidate_suffix := canonical_buildplane_candidate_ref_suffix candidate_ref
    with rejected "governed retry candidate-create candidate key must form a canonical Buildplane candidate ref" ;;
  fail_if negb (candidate_ref_suffix_binds_run_and_attempt candidate_suffix (acq_run_id request)
                  attempt)
    with rejected "governed retry candidate-create candidate key must bind the signed run and attempt" ;;
  Ok tt.

(** ** The evidence of a claim *)
Definition verify_claim_evidence_from_dispatch_material (db : Database)
    (request : ActivityClaimRequestV1) (authority : ActivityClaimAuthorityV1) (now : DateTime)
    (dispatch_event : Event) (dispatch_material : DispatchAuthorityMaterialV1)
    : Result VerifiedClaimEvidence ActivityFailure :=
  fail_if (ev_run_id dispatch_event != acq_run_id request)
       || (ev_id dispatch_event != acq_dispatch_event_id request)
    with rejected "verified dispatch event does not match the activity claim" ;;
  let dispatch := dam_dispatch dispatch_material in
  let dispatch_envelope_digest := dam_lineage_envelope_digest dispatch_material in
  let* dispatch_window := validate_governed_dispatch dispatch now in
  let* action_request_event := load_verified_authority_event db
    (acq_action_request_event_id request) (aca_trusted_keys authority)
    (aca_action_request_signer authority) "action request" in
  fail_if ev_run_id action_request_event != acq_run_id request
    with rejected "action request event run_id does not match activity claim" ;;
  fail_if ev_parent_event_id action_request_event != Some (acq_dispatch_event_id request)
    with rejected "action request event does not name the claimed dispatch as its parent" ;;
  match ev_payload action_request_event with
  | Payload_ActionRequestedV2 action_request =>
      let* _ := validate_action_request_matches_dispatch request action_request dispatch
        dispatch_envelope_digest authority (gdw_issued_at dispatch_window) now in
      let* _ := verify_governed_v3_retry_candidate_claim_identity db request authority
        dispatch_event dispatch action_request in
      fail_if ar2_action_kind action_request == ActionKindV1_Model
        with rejected "model activity claims require the dedicated native model authority transaction; generic activity claims cannot start provider effects" ;;
      let* action_request_digest := map_err (fun error => rejected
          ("could not canonicalize action request: " +:+ error))
        (action_requested_v2_digest action_request) in
      Ok {| vce_action_kind := ar2_action_kind action_request;
            vce_action_request_digest := action_request_digest;
            vce_dispatch_envelope_digest := dispatch_envelope_digest;
            vce_effective_deadline := gdw_effective_deadline dispatch_window |}
  | _ => Err (rejected "claim requires a signed action_requested_v2 event")
  end.

Definition verify_claim_evidence (db : Database) (request : ActivityClaimRequestV1)
    (authority : ActivityClaimAuthorityV1) (now : DateTime)
    : Result VerifiedClaimEvidence ActivityFailure :=
  let* dispatch_event := load_verified_authority_event db (acq_dispatch_event_id request)
    (aca_trusted_keys authority) (aca_dispatch_signer authority) "dispatch" in
  fail_if ev_run_id dispatch_event != acq_run_id request
    with rejected "dispatch event run_id does not match activity claim" ;;
  some_or dispatch_material := dispatch_authority_material (ev_payload dispatch_event)
    with rejected "claim requires a signed dispatch_envelope_v3 or graph-bound dispatch_envelope_v4 event" ;;
  verify_claim_evidence_from_dispatch_material db request authority now dispatch_event
    dispatch_material.
End Retry.
