(* ===== verification/ActivityLane.v ===== *)
(** * The execution-lease lane of the store

    Part of [bp-ledger/src/storage/sqlite.rs]: [claim_activity_v1],
    [heartbeat_activity_v1] and [record_activity_result_v1], and the verifier
    forms of the first and the last.  A claim reserves one lease per idempotency
    key and per activity; a heartbeat extends it; a result ends it.  Each writes
    a signed event and a row of a projection table in one transaction, and each
    reads a row only after checking it against the signed event it indexes.

    The tables [activity_claims] and [activity_claim_heartbeats] hold text
    columns under their primary keys.  A query by a column with a unique index
    has at most one row; a lease id is a fresh UUID.  The lane that claims under
    a sealed V5 dispatch is not modelled: [claim_activity_v1_at] is the [V3OrV4]
    lane.  What the code draws from its environment ([EventId::new],
    [Uuid::now_v7], [Utc::now]) is an argument. *)
From S2P Require Import Prelude RustStr Host LedgerPayloads TrustSpine Digests Events Tape WorkflowGraph Canonicalize Engine Store ActivityEvidence RetryContext.
From stdpp Require Import base list gmap strings sorting.

#[local] Open Scope string_scope.
#[local] Open Scope list_scope.
#[local] Open Scope Z_scope.

Definition MIN_ACTIVITY_LEASE_MS : u64 := 1000.
Definition MAX_ACTIVITY_LEASE_MS : u64 := 15 * 60 * 1000.

(** ** Rows *)
Record ClaimRow := {
  clr_run_id : string;
  clr_idempotency_key : string;
  clr_activity_id : string;
  clr_action_kind : string;
  clr_action_request_event_id : string;
  clr_action_request_digest : string;
  clr_dispatch_event_id : string;
  clr_dispatch_envelope_digest : string;
  clr_authority_actor : string;
  clr_claim_event_id : string;
  clr_claim_event_digest : string;
  clr_lease_id : string;
  clr_lease_expires_at : string;
  clr_lease_duration_ms : Z;
  clr_state : string;
  clr_result_event_id : option string;
  clr_result_event_digest : option string;
  clr_result_outcome : option string;
  clr_result_digest : option string;
  clr_result_ref : option string;
  clr_evidence_digest : option string;
  clr_evidence_ref : option string;
  clr_created_at : string;
  clr_recorded_at : option string
}.

Record HeartbeatRow := {
  hbr_run_id : string;
  hbr_heartbeat_id : string;
  hbr_request_digest : string;
  hbr_claim_event_id : string;
  hbr_claim_event_digest : string;
  hbr_activity_id : string;
  hbr_idempotency_key : string;
  hbr_lease_id : string;
  hbr_dispatch_event_id : string;
  hbr_dispatch_envelope_digest : string;
  hbr_heartbeat_event_id : string;
  hbr_heartbeat_event_digest : string;
  hbr_prior_lease_expires_at : string;
  hbr_lease_expires_at : string;
  hbr_heartbeat_at : string
}.

Inductive StoredActivityClaimState :=
| StoredActivityClaimState_Granted
| StoredActivityClaimState_Recorded.
#[global] Instance StoredActivityClaimState_eq_dec : EqDecision StoredActivityClaimState.
Proof. solve_decision. Defined.

Record StoredActivityClaim := {
  sac_run_id : RunId;
  sac_idempotency_key : string;
  sac_activity_id : string;
  sac_action_kind : ActionKindV1;
  sac_action_request_event_id : EventId;
  sac_action_request_digest : string;
  sac_dispatch_event_id : EventId;
  sac_dispatch_envelope_digest : string;
  sac_authority_actor : string;
  sac_claim_event_id : EventId;
  sac_claim_event_digest : string;
  sac_lease_id : string;
  sac_lease_expires_at : string;
  sac_lease_duration_ms : u64;
  sac_state : StoredActivityClaimState;
  sac_result_event_id : option EventId;
  sac_result_event_digest : option string;
  sac_result_outcome : option ActivityResultOutcomeV1;
  sac_result_digest : option string;
  sac_result_ref : option string;
  sac_evidence_digest : option string;
  sac_evidence_ref : option string;
  sac_recorded_at : option string
}.

Record StoredActivityHeartbeat := {
  sah_run_id : RunId;
  sah_heartbeat_id : string;
  sah_request_digest : string;
  sah_claim_event_id : EventId;
  sah_claim_event_digest : string;
  sah_activity_id : string;
  sah_idempotency_key : string;
  sah_lease_id : string;
  sah_dispatch_event_id : EventId;
  sah_dispatch_envelope_digest : string;
  sah_heartbeat_event_id : EventId;
  sah_heartbeat_event_digest : string;
  sah_prior_lease_expires_at : string;
  sah_lease_expires_at : string;
  sah_heartbeat_at : string
}.

(** ** Requests and dispositions *)
Record ActivityResultRequestV1 := {
  arq_run_id : RunId;
  arq_activity_id : string;
  arq_idempotency_key : string;
  arq_lease_id : string;
  arq_outcome : ActivityResultOutcomeV1;
  arq_result_digest : option string;
  arq_result_ref : option string;
  arq_evidence_digest : string;
  arq_evidence_ref : string
}.

Record ActivityHeartbeatRequestV1 := {
  ahq_run_id : RunId;
  ahq_activity_id : string;
  ahq_idempotency_key : string;
  ahq_lease_id : string;
  ahq_heartbeat_id : string
}.

Record GovernedVerifierClaimRequestV1 := {
  gvc_run_id : RunId;
  gvc_dispatch_event_id : EventId;
  gvc_action_request_event_id : EventId;
  gvc_lease_duration_ms : u64
}.

Record GovernedVerifierResultRequestV1 := {
  gvr_run_id : RunId;
  gvr_lease_id : string;
  gvr_outcome : ActivityResultOutcomeV1;
  gvr_result_digest : option string;
  gvr_result_ref : option string;
  gvr_evidence_digest : string;
  gvr_evidence_ref : string
}.

Inductive ActivityClaimDispositionV1 :=
| ActivityClaimDispositionV1_Granted (claim_event_id : EventId) (claim_event_digest lease_id lease_expires_at : string)
| ActivityClaimDispositionV1_Pending (claim_event_id : EventId) (lease_expires_at : string)
| ActivityClaimDispositionV1_Recorded (claim_event_id result_event_id : EventId)
    (result_event_digest : string) (outcome : ActivityResultOutcomeV1)
| ActivityClaimDispositionV1_LeaseExpired (claim_event_id : EventId) (lease_expires_at : string).

Inductive ActivityResultDispositionV1 :=
| ActivityResultDispositionV1_Recorded (result_event_id : EventId) (result_event_digest : string)
    (outcome : ActivityResultOutcomeV1)
| ActivityResultDispositionV1_LeaseExpired (claim_event_id : EventId) (lease_expires_at : string).

Inductive ActivityHeartbeatDispositionV1 :=
| ActivityHeartbeatDispositionV1_Recorded (heartbeat_event_id : EventId)
    (heartbeat_event_digest lease_expires_at : string)
| ActivityHeartbeatDispositionV1_Existing (heartbeat_event_id : EventId)
    (heartbeat_event_digest lease_expires_at : string)
| ActivityHeartbeatDispositionV1_LeaseExpired (claim_event_id : EventId) (lease_expires_at : string).

(** ** The database and the store *)
Record LaneDatabase := {
  ld_tape : Database;
  ld_activity_claims : gmap (string * string) ClaimRow;
  ld_activity_claim_heartbeats : gmap (string * string) HeartbeatRow
}.

Record LaneStore := {
  ls_conn : LaneDatabase;
  ls_ordinary_id_high_water : gmap RunId EventId
}.

(** The store of [Store.v] inside it: the tape and the marks. *)
Definition tape_store (s : LaneStore) : SqliteStore :=
  {| ss_conn := ld_tape (ls_conn s);
     ss_ordinary_id_high_water := ls_ordinary_id_high_water s |}.

Definition LaneM (A : Type) : Type := LaneStore -> Result A ActivityFailure * LaneStore.

Definition lane_bind {A B} (m : LaneM A) (k : A -> LaneM B) : LaneM B :=
  fun s => match m s with
           | (Ok a, s') => k a s'
           | (Err e, s') => (Err e, s')
           end.
Notation "'lane!' x := m 'in' k" := (lane_bind m (fun x => k))
  (at level 10, x pattern, m at level 100, k at level 200) : rust_scope.

Definition lane_ret {A} (a : A) : LaneM A := fun s => (Ok a, s).
Definition lane_lift {A} (r : Result A ActivityFailure) : LaneM A := fun s => (r, s).
(** A read outside a transaction. *)
Definition lane_read {A} (f : LaneDatabase -> Result A ActivityFailure) : LaneM A :=
  fun s => (f (ls_conn s), s).
Definition lane_transaction {A} (body : LaneDatabase -> Result (A * LaneDatabase) ActivityFailure)
    : LaneM A :=
  fun s => match body (ls_conn s) with
           | Ok (a, db) => (Ok a, {| s with ls_conn := db |})
           | Err e => (Err e, s)
           end.
Definition lane_record_append (event : Event) : LaneM unit := fun s =>
  (Ok tt, {| s with ls_ordinary_id_high_water :=
               <[ev_run_id event := ev_id event]> (ls_ordinary_id_high_water s) |}).

(** An operation of [Store.v] on the tape. *)
Definition on_tape {A} (m : StoreM A) : LaneM A := fun s =>
  let '(r, s') := m (tape_store s) in
  let db := ls_conn s in
  (map_failure ActivityError_Store r,
   {| ls_conn := {| db with ld_tape := ss_conn s' |};
      ls_ordinary_id_high_water := ss_ordinary_id_high_water s' |}).

(** ** Wire names *)
Definition action_kind_wire (kind : ActionKindV1) : string :=
  match kind with
  | ActionKindV1_Filesystem => "filesystem"
  | ActionKindV1_Process => "process"
  | ActionKindV1_Git => "git"
  | ActionKindV1_Model => "model"
  | ActionKindV1_Network => "network"
  | ActionKindV1_Secret => "secret"
  | ActionKindV1_Mcp => "mcp"
  | ActionKindV1_A2a => "a2a"
  | ActionKindV1_ExternalService => "external_service"
  end.
Definition activity_result_outcome_wire (outcome : ActivityResultOutcomeV1) : string :=
  match outcome with
  | ActivityResultOutcomeV1_Succeeded => "succeeded"
  | ActivityResultOutcomeV1_Failed => "failed"
  | ActivityResultOutcomeV1_Unknown => "unknown"
  end.

(** [serde_json::from_value] of the two enumerations: the serde names are the
    wire names. *)
Definition action_kind_from_value (wire : string) : option ActionKindV1 :=
  find (fun kind => action_kind_wire kind == wire)
    [ActionKindV1_Filesystem; ActionKindV1_Process; ActionKindV1_Git; ActionKindV1_Model;
     ActionKindV1_Network; ActionKindV1_Secret; ActionKindV1_Mcp; ActionKindV1_A2a;
     ActionKindV1_ExternalService].
Definition result_outcome_from_value (wire : string) : option ActivityResultOutcomeV1 :=
  find (fun outcome => activity_result_outcome_wire outcome == wire)
    [ActivityResultOutcomeV1_Succeeded; ActivityResultOutcomeV1_Failed;
     ActivityResultOutcomeV1_Unknown].

Section Lane.
Context `{Host, Canonicalizer, Crypto, RowDecoder, RowEncoder}.

(** ** Reading the tables *)

(** [stored_activity_claim_from_row]: an unreadable column is an SQLite error. *)
Definition stored_activity_claim_from_row (row : ClaimRow)
    : Result StoredActivityClaim StoreError :=
  some_or run_id := uuid_parse_str (clr_run_id row) with StoreError_Sqlite ;;
  some_or action_kind := action_kind_from_value (clr_action_kind row) with StoreError_Sqlite ;;
  let* state :=
    if clr_state row == "granted" then Ok StoredActivityClaimState_Granted
    else if clr_state row == "recorded" then Ok StoredActivityClaimState_Recorded
    else Err StoreError_Sqlite in
  let* result_outcome :=
    match clr_result_outcome row with
    | Some outcome => result_map Some (ok_or (result_outcome_from_value outcome) StoreError_Sqlite)
    | None => Ok None
    end in
  fail_if clr_lease_duration_ms row <? 0 with StoreError_Sqlite ;;
  some_or action_request_event_id := uuid_parse_str (clr_action_request_event_id row)
    with StoreError_Sqlite ;;
  some_or dispatch_event_id := uuid_parse_str (clr_dispatch_event_id row)
    with StoreError_Sqlite ;;
  some_or claim_event_id := uuid_parse_str (clr_claim_event_id row) with StoreError_Sqlite ;;
  let* result_event_id :=
    match clr_result_event_id row with
    | Some id => result_map Some (ok_or (uuid_parse_str id) StoreError_Sqlite)
    | None => Ok None
    end in
  Ok {| sac_run_id := run_id;
        sac_idempotency_key := clr_idempotency_key row;
        sac_activity_id := clr_activity_id row;
        sac_action_kind := action_kind;
        sac_action_request_event_id := action_request_event_id;
        sac_action_request_digest := clr_action_request_digest row;
        sac_dispatch_event_id := dispatch_event_id;
        sac_dispatch_envelope_digest := clr_dispatch_envelope_digest row;
        sac_authority_actor := clr_authority_actor row;
        sac_claim_event_id := claim_event_id;
        sac_claim_event_digest := clr_claim_event_digest row;
        sac_lease_id := clr_lease_id row;
        sac_lease_expires_at := clr_lease_expires_at row;
        sac_lease_duration_ms := clr_lease_duration_ms row;
        sac_state := state;
        sac_result_event_id := result_event_id;
        sac_result_event_digest := clr_result_event_digest row;
        sac_result_outcome := result_outcome;
        sac_result_digest := clr_result_digest row;
        sac_result_ref := clr_result_ref row;
        sac_evidence_digest := clr_evidence_digest row;
        sac_evidence_ref := clr_evidence_ref row;
        sac_recorded_at := clr_recorded_at row |}.

Definition stored_activity_heartbeat_from_row (row : HeartbeatRow)
    : Result StoredActivityHeartbeat StoreError :=
  some_or run_id := uuid_parse_str (hbr_run_id row) with StoreError_Sqlite ;;
  some_or claim_event_id := uuid_parse_str (hbr_claim_event_id row) with StoreError_Sqlite ;;
  some_or dispatch_event_id := uuid_parse_str (hbr_dispatch_event_id row)
    with StoreError_Sqlite ;;
  some_or heartbeat_event_id := uuid_parse_str (hbr_heartbeat_event_id row)
    with StoreError_Sqlite ;;
  Ok {| sah_run_id := run_id;
        sah_heartbeat_id := hbr_heartbeat_id row;
        sah_request_digest := hbr_request_digest row;
        sah_claim_event_id := claim_event_id;
        sah_claim_event_digest := hbr_claim_event_digest row;
        sah_activity_id := hbr_activity_id row;
        sah_idempotency_key := hbr_idempotency_key row;
        sah_lease_id := hbr_lease_id row;
        sah_dispatch_event_id := dispatch_event_id;
        sah_dispatch_envelope_digest := hbr_dispatch_envelope_digest row;
        sah_heartbeat_event_id := heartbeat_event_id;
        sah_heartbeat_event_digest := hbr_heartbeat_event_digest row;
        sah_prior_lease_expires_at := hbr_prior_lease_expires_at row;
        sah_lease_expires_at := hbr_lease_expires_at row;
        sah_heartbeat_at := hbr_heartbeat_at row |}.

(** [query_row(..).optional()]. *)
Definition read_claim (row : option ClaimRow)
    : Result (option StoredActivityClaim) ActivityFailure :=
  match row with
  | Some row => result_map Some (of_store (stored_activity_claim_from_row row))
  | None => Ok None
  end.

(** The first row of a run with a property. *)
Definition claim_where (db : LaneDatabase) (run_id : RunId) (p : ClaimRow -> bool)
    : option ClaimRow :=
  find (fun row => (clr_run_id row == uuid_to_string run_id) && p row)
    (map_to_list (ld_activity_claims db)).*2.

Definition activity_claim_by_idempotency (db : LaneDatabase) (run_id : RunId)
    (idempotency_key : string) : Result (option StoredActivityClaim) ActivityFailure :=
  read_claim (ld_activity_claims db !! (uuid_to_string run_id, idempotency_key)).

Definition activity_claim_by_activity_id (db : LaneDatabase) (run_id : RunId)
    (activity_id : string) : Result (option StoredActivityClaim) ActivityFailure :=
  read_claim (claim_where db run_id (fun row => clr_activity_id row == activity_id)).

Definition activity_claim_by_lease (db : LaneDatabase) (run_id : RunId) (lease_id : string)
    : Result (option StoredActivityClaim) ActivityFailure :=
  read_claim (claim_where db run_id (fun row => clr_lease_id row == lease_id)).

Definition activity_heartbeat_by_id (db : LaneDatabase) (run_id : RunId) (heartbeat_id : string)
    : Result (option StoredActivityHeartbeat) ActivityFailure :=
  match ld_activity_claim_heartbeats db !! (uuid_to_string run_id, heartbeat_id) with
  | Some row => result_map Some (of_store (stored_activity_heartbeat_from_row row))
  | None => Ok None
  end.

(** [ORDER BY heartbeat_at ASC, heartbeat_event_id ASC]: the order of the two
    texts, the first deciding. *)
Definition heartbeat_le (x y : HeartbeatRow) : Prop :=
  if hbr_heartbeat_at x == hbr_heartbeat_at y
  then String.leb (hbr_heartbeat_event_id x) (hbr_heartbeat_event_id y) = true
  else String.leb (hbr_heartbeat_at x) (hbr_heartbeat_at y) = true.
#[global] Instance heartbeat_le_dec x y : Decision (heartbeat_le x y).
Proof. unfold heartbeat_le. case_match; apply _. Defined.

Definition heartbeat_rows_for_claim (db : LaneDatabase) (run_id : RunId) (claim_event_id : EventId)
    : list HeartbeatRow :=
  merge_sort heartbeat_le
    (List.filter (fun row => (hbr_run_id row == uuid_to_string run_id)
                             && (hbr_claim_event_id row == uuid_to_string claim_event_id))
       (map_to_list (ld_activity_claim_heartbeats db)).*2).

Definition activity_heartbeats_for_claim (db : LaneDatabase) (run_id : RunId)
    (claim_event_id : EventId) : Result (list StoredActivityHeartbeat) ActivityFailure :=
  collect_results (fun row => of_store (stored_activity_heartbeat_from_row row))
    (heartbeat_rows_for_claim db run_id claim_event_id).

(** ** Checking a row against the tape *)
Definition required_claim_field {A} (value : option A) (field : string)
    : Result A ActivityFailure :=
  ok_or value (rejected ("recorded activity claim is missing " +:+ field)).

Definition event_digest (event : Event) : Result string ActivityFailure :=
  of_store (map_err StoreError_Ledger (canonical_event_hash event)).

Definition verify_signed_claim_projection (db : LaneDatabase) (stored : StoredActivityClaim)
    (authority : ActivityClaimAuthorityV1) : Result ActivityClaimedV1 ActivityFailure :=
  let* event := load_verified_authority_event (ld_tape db) (sac_claim_event_id stored)
    (aca_trusted_keys authority) (aca_claim_signer authority) "activity claim" in
  fail_if (ev_run_id event != sac_run_id stored)
       || (ev_parent_event_id event != Some (sac_action_request_event_id stored))
    with rejected "activity claim tape event does not bind the projected run and action request" ;;
  let* digest := event_digest event in
  fail_if digest != sac_claim_event_digest stored
    with rejected "activity claim projection digest does not match its signed tape event" ;;
  match ev_payload event with
  | Payload_ActivityClaimedV1 claim =>
      fail_if (acl_run_id claim != sac_run_id stored)
           || (acl_activity_id claim != sac_activity_id stored)
           || (acl_idempotency_key claim != sac_idempotency_key stored)
           || (acl_action_kind claim != sac_action_kind stored)
           || (acl_action_request_event_id claim != sac_action_request_event_id stored)
           || (acl_action_request_digest claim != sac_action_request_digest stored)
           || (acl_dispatch_event_id claim != sac_dispatch_event_id stored)
           || (acl_dispatch_envelope_digest claim != sac_dispatch_envelope_digest stored)
           || (acl_authority_actor claim != sac_authority_actor stored)
           || (acl_lease_id claim != sac_lease_id stored)
           || (acl_lease_expires_at claim != sac_lease_expires_at stored)
        with rejected "activity claim projection does not exactly match its signed tape event" ;;
      Ok claim
  | _ => Err (rejected "activity claim projection does not reference an activity_claimed_v1 event")
  end.

Definition verify_signed_activity_result_projection (db : LaneDatabase)
    (stored : StoredActivityClaim) (authority : ActivityClaimAuthorityV1)
    : Result unit ActivityFailure :=
  fail_if sac_state stored != StoredActivityClaimState_Recorded
    with rejected "attempted to verify a non-terminal activity result projection" ;;
  let* result_event_id := required_claim_field (sac_result_event_id stored) "result_event_id" in
  let* result_event_digest :=
    required_claim_field (sac_result_event_digest stored) "result_event_digest" in
  let* result_outcome := required_claim_field (sac_result_outcome stored) "result_outcome" in
  let* evidence_digest := required_claim_field (sac_evidence_digest stored) "evidence_digest" in
  let* evidence_ref := required_claim_field (sac_evidence_ref stored) "evidence_ref" in
  let* recorded_at := required_claim_field (sac_recorded_at stored) "recorded_at" in
  let* event := load_verified_authority_event (ld_tape db) result_event_id
    (aca_trusted_keys authority) (aca_claim_signer authority) "activity result" in
  fail_if (ev_run_id event != sac_run_id stored)
       || (ev_parent_event_id event != Some (sac_claim_event_id stored))
    with rejected "activity result tape event does not bind the projected run and claim" ;;
  let* digest := event_digest event in
  fail_if digest != result_event_digest
    with rejected "activity result projection digest does not match its signed tape event" ;;
  match ev_payload event with
  | Payload_ActivityResultRecordedV1 result =>
      fail_if (arx_run_id result != sac_run_id stored)
           || (arx_activity_id result != sac_activity_id stored)
           || (arx_idempotency_key result != sac_idempotency_key stored)
           || (arx_claim_event_id result != sac_claim_event_id stored)
           || (arx_claim_event_digest result != sac_claim_event_digest stored)
           || (arx_lease_id result != sac_lease_id stored)
           || (arx_outcome result != result_outcome)
           || (arx_result_digest result != sac_result_digest stored)
           || (arx_result_ref result != sac_result_ref stored)
           || (arx_evidence_digest result != evidence_digest)
           || (arx_evidence_ref result != evidence_ref)
           || (arx_recorded_at result != recorded_at)
        with rejected "activity result projection does not exactly match its signed tape event" ;;
      Ok tt
  | _ => Err (rejected "activity result projection does not reference an activity_result_recorded_v1 event")
  end.

Definition verify_signed_activity_heartbeat_projection (db : LaneDatabase)
    (claim : StoredActivityClaim) (stored : StoredActivityHeartbeat)
    (authority : ActivityClaimAuthorityV1) (require_signed_request_binding : bool)
    : Result unit ActivityFailure :=
  fail_if (sah_run_id stored != sac_run_id claim)
       || (sah_claim_event_id stored != sac_claim_event_id claim)
       || (sah_claim_event_digest stored != sac_claim_event_digest claim)
       || (sah_activity_id stored != sac_activity_id claim)
       || (sah_idempotency_key stored != sac_idempotency_key claim)
       || (sah_lease_id stored != sac_lease_id claim)
       || (sah_dispatch_event_id stored != sac_dispatch_event_id claim)
       || (sah_dispatch_envelope_digest stored != sac_dispatch_envelope_digest claim)
    with rejected "activity heartbeat projection does not bind the signed activity claim" ;;
  let* event := load_verified_authority_event (ld_tape db) (sah_heartbeat_event_id stored)
    (aca_trusted_keys authority) (aca_claim_signer authority) "activity heartbeat" in
  fail_if (ev_run_id event != sac_run_id claim)
       || (ev_parent_event_id event != Some (sac_claim_event_id claim))
    with rejected "activity heartbeat tape event does not bind the projected run and claim" ;;
  let* digest := event_digest event in
  fail_if digest != sah_heartbeat_event_digest stored
    with rejected "activity heartbeat projection digest does not match its signed tape event" ;;
  match ev_payload event with
  | Payload_ActivityHeartbeatRecordedV1 heartbeat =>
      fail_if (ahb_run_id heartbeat != sac_run_id claim)
           || (ahb_activity_id heartbeat != sac_activity_id claim)
           || (ahb_idempotency_key heartbeat != sac_idempotency_key claim)
           || (ahb_claim_event_id heartbeat != sac_claim_event_id claim)
           || (ahb_claim_event_digest heartbeat != sac_claim_event_digest claim)
           || (ahb_lease_id heartbeat != sac_lease_id claim)
           || (ahb_dispatch_event_id heartbeat != sac_dispatch_event_id claim)
           || (ahb_dispatch_envelope_digest heartbeat != sac_dispatch_envelope_digest claim)
           || (ahb_lease_expires_at heartbeat != sah_lease_expires_at stored)
           || (ahb_heartbeat_at heartbeat != sah_heartbeat_at stored)
        with rejected "activity heartbeat projection does not exactly match its signed tape event" ;;
      match ahb_heartbeat_id heartbeat, ahb_heartbeat_request_digest heartbeat with
      | Some heartbeat_id, Some request_digest =>
          fail_if (heartbeat_id != sah_heartbeat_id stored)
               || (request_digest != sah_request_digest stored)
            with rejected "activity heartbeat cache identity does not exactly match its signed tape event" ;;
          Ok tt
      | None, None =>
          if negb require_signed_request_binding then Ok tt else
          Err (rejected "activity heartbeat lacks the signed request identity required for idempotency replay")
      | _, _ => Err (rejected "activity heartbeat has a partial signed request identity")
      end
  | _ => Err (rejected "activity heartbeat projection does not reference an activity_heartbeat_recorded_v1 event")
  end.

(** The request a stored claim was granted for. *)
Definition request_of_claim (stored : StoredActivityClaim) : ActivityClaimRequestV1 :=
  {| acq_run_id := sac_run_id stored;
     acq_activity_id := sac_activity_id stored;
     acq_idempotency_key := sac_idempotency_key stored;
     acq_dispatch_event_id := sac_dispatch_event_id stored;
     acq_action_request_event_id := sac_action_request_event_id stored;
     acq_lease_duration_ms := sac_lease_duration_ms stored |}.

Definition evidence_matches_claim (evidence : VerifiedClaimEvidence)
    (stored : StoredActivityClaim) : bool :=
  (vce_action_kind evidence == sac_action_kind stored)
  && (vce_action_request_digest evidence == sac_action_request_digest stored)
  && (vce_dispatch_envelope_digest evidence == sac_dispatch_envelope_digest stored).

Definition verify_purpose_bound_process_claim_lineage (db : LaneDatabase)
    (stored : StoredActivityClaim) (authority : ActivityClaimAuthorityV1)
    (expected_purpose : ActivityClaimPurposeV1) (lane : string) : Result unit ActivityFailure :=
  let* signed_claim := verify_signed_claim_projection db stored authority in
  fail_if acl_purpose signed_claim != expected_purpose
    with rejected (if expected_purpose == ActivityClaimPurposeV1_GovernedVerifierV1
      then "governed verifier result requires a lease minted by the fixed verifier claim lane"
      else lane +:+ " result requires a lease minted by its fixed-purpose claim lane") ;;
  let* claimed_at := parse_claim_timestamp (acl_claimed_at signed_claim) in
  let* evidence := verify_claim_evidence (ld_tape db) (request_of_claim stored) authority
    claimed_at in
  fail_if negb (evidence_matches_claim evidence stored)
    with rejected (lane +:+
      " lease does not match its historical signed dispatch/action evidence") ;;
  Ok tt.

Definition verify_current_activity_claim_authority (db : LaneDatabase)
    (stored : StoredActivityClaim) (authority : ActivityClaimAuthorityV1) (now : DateTime)
    : Result GovernedDispatchWindow ActivityFailure :=
  let* signed_claim := verify_signed_claim_projection db stored authority in
  let* claimed_at := parse_claim_timestamp (acl_claimed_at signed_claim) in
  let* historical := verify_claim_evidence (ld_tape db) (request_of_claim stored) authority
    claimed_at in
  fail_if negb (evidence_matches_claim historical stored)
    with rejected "activity heartbeat claim does not match its historical signed dispatch/action evidence" ;;
  let* dispatch_event := load_verified_authority_event (ld_tape db)
    (sac_dispatch_event_id stored) (aca_trusted_keys authority) (aca_dispatch_signer authority)
    "activity heartbeat dispatch" in
  fail_if ev_run_id dispatch_event != sac_run_id stored
    with rejected "activity heartbeat dispatch run_id does not match the signed claim" ;;
  some_or dispatch_material := dispatch_authority_material (ev_payload dispatch_event)
    with rejected "activity heartbeat requires the claim's signed dispatch_envelope_v3 or graph-bound dispatch_envelope_v4" ;;
  fail_if dam_lineage_envelope_digest dispatch_material != sac_dispatch_envelope_digest stored
    with rejected "activity heartbeat dispatch digest does not match the signed claim" ;;
  validate_governed_dispatch (dam_dispatch dispatch_material) now.

(** ** The effective expiry of a lease *)

(** One heartbeat of the chain: the new effective expiry. *)
Definition extend_lease (db : LaneDatabase) (claim : StoredActivityClaim)
    (authority : ActivityClaimAuthorityV1) (effective_expiry : DateTime)
    (heartbeat : StoredActivityHeartbeat) : Result DateTime ActivityFailure :=
  let* _ := verify_signed_activity_heartbeat_projection db claim heartbeat authority false in
  let* prior_expiry := parse_claim_timestamp (sah_prior_lease_expires_at heartbeat) in
  let* heartbeat_at := parse_claim_timestamp (sah_heartbeat_at heartbeat) in
  let* next_expiry := parse_claim_timestamp (sah_lease_expires_at heartbeat) in
  let* dispatch_window := verify_current_activity_claim_authority db claim authority
    heartbeat_at in
  fail_if prior_expiry != effective_expiry
    with rejected "activity heartbeat projection does not bind the prior effective lease expiry" ;;
  fail_if effective_expiry <=? heartbeat_at
    with rejected "activity heartbeat was recorded after its prior lease expired" ;;
  fail_if next_expiry <=? effective_expiry
    with rejected "activity heartbeat does not move the effective lease expiry forward" ;;
  fail_if gdw_effective_deadline dispatch_window <? next_expiry
    with rejected "activity heartbeat exceeds the signed dispatch authority window" ;;
  Ok next_expiry.

Fixpoint extend_lease_all (db : LaneDatabase) (claim : StoredActivityClaim)
    (authority : ActivityClaimAuthorityV1) (effective_expiry : DateTime)
    (heartbeats : list StoredActivityHeartbeat) : Result DateTime ActivityFailure :=
  match heartbeats with
  | [] => Ok effective_expiry
  | heartbeat :: rest =>
      let* effective_expiry := extend_lease db claim authority effective_expiry heartbeat in
      extend_lease_all db claim authority effective_expiry rest
  end.

Definition effective_activity_lease_expiry (db : LaneDatabase) (claim : StoredActivityClaim)
    (authority : ActivityClaimAuthorityV1) : Result DateTime ActivityFailure :=
  let* effective_expiry := parse_claim_timestamp (sac_lease_expires_at claim) in
  let* heartbeats := activity_heartbeats_for_claim db (sac_run_id claim)
    (sac_claim_event_id claim) in
  extend_lease_all db claim authority effective_expiry heartbeats.

(** ** Requests *)
Definition validate_activity_claim_request (request : ActivityClaimRequestV1)
    : Result unit ActivityFailure :=
  fail_if trim_is_empty (acq_activity_id request) || trim_is_empty (acq_idempotency_key request)
    with Errored (ActivityError_InvalidPayload "claim_activity_v1"
      "activity_id and idempotency_key must be non-empty") ;;
  fail_if negb ((MIN_ACTIVITY_LEASE_MS <=? acq_lease_duration_ms request)
                && (acq_lease_duration_ms request <=? MAX_ACTIVITY_LEASE_MS))
    with Errored (ActivityError_InvalidPayload "claim_activity_v1"
      "lease_duration_ms must be between 1000 and 900000") ;;
  Ok tt.

Definition validate_activity_result_request (request : ActivityResultRequestV1)
    : Result unit ActivityFailure :=
  let invalid reason :=
    Errored (ActivityError_InvalidPayload "record_activity_result_v1" reason) in
  fail_if trim_is_empty (arq_activity_id request) || trim_is_empty (arq_idempotency_key request)
       || trim_is_empty (arq_lease_id request) || trim_is_empty (arq_evidence_ref request)
    with invalid "activity_id, idempotency_key, lease_id, and evidence_ref must be non-empty" ;;
  fail_if negb (is_canonical_sha256_digest (arq_evidence_digest request))
    with invalid "evidence_digest must be a canonical sha256 digest" ;;
  let* _ :=
    match arq_result_digest request, arq_result_ref request, arq_outcome request with
    | Some digest, Some reference, _ =>
        fail_if negb (is_canonical_sha256_digest digest) || trim_is_empty reference
          with invalid "result_digest must be canonical and result_ref must be non-empty" ;;
        Ok tt
    | None, None, ActivityResultOutcomeV1_Succeeded =>
        Err (invalid "succeeded results require result_digest and result_ref")
    | None, None, _ => Ok tt
    | _, _, _ => Err (invalid "result_digest and result_ref must be present together")
    end in
  fail_if (arq_outcome request == ActivityResultOutcomeV1_Unknown)
       && (is_some (arq_result_digest request) || is_some (arq_result_ref request))
    with invalid "unknown results must not assert a result" ;;
  Ok tt.

Definition validate_activity_heartbeat_request (request : ActivityHeartbeatRequestV1)
    : Result unit ActivityFailure :=
  fail_if trim_is_empty (ahq_activity_id request) || trim_is_empty (ahq_idempotency_key request)
       || trim_is_empty (ahq_lease_id request) || trim_is_empty (ahq_heartbeat_id request)
    with Errored (ActivityError_InvalidPayload "heartbeat_activity_v1"
      "activity_id, idempotency_key, lease_id, and heartbeat_id must be non-empty") ;;
  Ok tt.

Definition activity_heartbeat_request_digest (request : ActivityHeartbeatRequestV1) : string :=
  "sha256:" +:+ sha256_hex
    (nul_terminated "buildplane.activity-heartbeat-request.v1" +:+ serde_json_to_vec (JObject [
      ("schema_version", JInt 1);
      ("run_id", JString (uuid_to_string (ahq_run_id request)));
      ("activity_id", JString (ahq_activity_id request));
      ("idempotency_key", JString (ahq_idempotency_key request));
      ("lease_id", JString (ahq_lease_id request));
      ("heartbeat_id", JString (ahq_heartbeat_id request))])).

Definition activity_claim_conflict (request : ActivityClaimRequestV1) : ActivityFailure :=
  Errored (ActivityError_ClaimIdempotencyConflict (uuid_to_string (acq_run_id request))
    (acq_idempotency_key request)).
Definition activity_claim_conflict_from_result (request : ActivityResultRequestV1)
    : ActivityFailure :=
  Errored (ActivityError_ClaimIdempotencyConflict (uuid_to_string (arq_run_id request))
    (arq_idempotency_key request)).
Definition activity_heartbeat_conflict (request : ActivityHeartbeatRequestV1) : ActivityFailure :=
  Errored (ActivityError_HeartbeatIdempotencyConflict (uuid_to_string (ahq_run_id request))
    (ahq_heartbeat_id request)).

(** ** Answers for an existing row *)
Definition existing_claim_disposition (stored : StoredActivityClaim)
    (request : ActivityClaimRequestV1) (now effective_lease_expires_at : DateTime)
    : Result ActivityClaimDispositionV1 ActivityFailure :=
  fail_if (sac_activity_id stored != acq_activity_id request)
       || (sac_dispatch_event_id stored != acq_dispatch_event_id request)
       || (sac_action_request_event_id stored != acq_action_request_event_id request)
       || (sac_lease_duration_ms stored != acq_lease_duration_ms request)
    with activity_claim_conflict request ;;
  match sac_state stored with
  | StoredActivityClaimState_Recorded =>
      let* result_event_id := required_claim_field (sac_result_event_id stored)
        "result_event_id" in
      let* result_event_digest := required_claim_field (sac_result_event_digest stored)
        "result_event_digest" in
      let* outcome := required_claim_field (sac_result_outcome stored) "result_outcome" in
      Ok (ActivityClaimDispositionV1_Recorded (sac_claim_event_id stored) result_event_id
            result_event_digest outcome)
  | StoredActivityClaimState_Granted =>
      if effective_lease_expires_at <=? now
      then Ok (ActivityClaimDispositionV1_LeaseExpired (sac_claim_event_id stored)
                 (timestamp effective_lease_expires_at))
      else Ok (ActivityClaimDispositionV1_Pending (sac_claim_event_id stored)
                 (timestamp effective_lease_expires_at))
  end.

Definition existing_result_disposition (stored : StoredActivityClaim)
    (request : ActivityResultRequestV1) : Result ActivityResultDispositionV1 ActivityFailure :=
  fail_if sac_lease_id stored != arq_lease_id request
    with Errored (ActivityError_ClaimLeaseMismatch (uuid_to_string (arq_run_id request))
                    (arq_idempotency_key request)) ;;
  fail_if (sac_result_outcome stored != Some (arq_outcome request))
       || (sac_result_digest stored != arq_result_digest request)
       || (sac_result_ref stored != arq_result_ref request)
       || (sac_evidence_digest stored != Some (arq_evidence_digest request))
       || (sac_evidence_ref stored != Some (arq_evidence_ref request))
    with activity_claim_conflict_from_result request ;;
  let* result_event_id := required_claim_field (sac_result_event_id stored) "result_event_id" in
  let* result_event_digest := required_claim_field (sac_result_event_digest stored)
    "result_event_digest" in
  Ok (ActivityResultDispositionV1_Recorded result_event_id result_event_digest
        (arq_outcome request)).

(** ** Writing *)
Definition validate_new_ordinary_event_id (db : Database) (event : Event)
    : Result unit StoreError :=
  fail_if ev_kind event == EventKind_TapeCheckpoint with StoreError_CallerSuppliedCheckpoint ;;
  match last (List.filter (fun row => negb (is_checkpoint_row row))
                (events_for_run db (uuid_to_string (ev_run_id event)))) with
  | Some row =>
      let* latest := parse_event_id (row_id row) "activity_claims" in
      fail_if ev_id event <=? latest
        with StoreError_NonMonotonicEventId (uuid_to_string (ev_run_id event)) ;;
      Ok tt
  | None => Ok tt
  end.

(** The tail the three writers share: check the id, sign, insert the event and
    its signature.  The digest of the signature is the digest of the event. *)
Definition insert_signed_event (db : LaneDatabase) (event : Event) (signing_key : SigningKey)
    (signer : ActorKeyRef) (now : DateTime) : Result (string * LaneDatabase) ActivityFailure :=
  let* _ := of_store (validate_new_ordinary_event_id (ld_tape db) event) in
  let* signature := of_store (map_err StoreError_Ledger
    (sign_event event signing_key signer now)) in
  let* tape := of_store (insert_event (ld_tape db) event) in
  let* tape := of_store (insert_event_signature tape signature) in
  Ok (es_canonical_event_hash signature, {| db with ld_tape := tape |}).

Definition canonical_event (event : Event) : Result Event ActivityFailure :=
  of_store (map_err StoreError_Ledger (canonicalize event)).

Definition claim_row (request : ActivityClaimRequestV1) (evidence : VerifiedClaimEvidence)
    (claim : ActivityClaimedV1) (event : Event)
    (claim_event_digest lease_id lease_expires_at claimed_at : string) : ClaimRow :=
  {| clr_run_id := uuid_to_string (acq_run_id request);
     clr_idempotency_key := acq_idempotency_key request;
     clr_activity_id := acq_activity_id request;
     clr_action_kind := action_kind_wire (vce_action_kind evidence);
     clr_action_request_event_id := uuid_to_string (acq_action_request_event_id request);
     clr_action_request_digest := vce_action_request_digest evidence;
     clr_dispatch_event_id := uuid_to_string (acq_dispatch_event_id request);
     clr_dispatch_envelope_digest := vce_dispatch_envelope_digest evidence;
     clr_authority_actor := acl_authority_actor claim;
     clr_claim_event_id := uuid_to_string (ev_id event);
     clr_claim_event_digest := claim_event_digest;
     clr_lease_id := lease_id;
     clr_lease_expires_at := lease_expires_at;
     clr_lease_duration_ms := acq_lease_duration_ms request;
     clr_state := "granted";
     clr_result_event_id := None;
     clr_result_event_digest := None;
     clr_result_outcome := None;
     clr_result_digest := None;
     clr_result_ref := None;
     clr_evidence_digest := None;
     clr_evidence_ref := None;
     clr_created_at := claimed_at;
     clr_recorded_at := None |}.

(** The primary key, the two unique indexes and the foreign key. *)
Definition insert_activity_claim (db : LaneDatabase) (row : ClaimRow)
    : Result LaneDatabase StoreError :=
  let key := (clr_run_id row, clr_idempotency_key row) in
  fail_if is_some (ld_activity_claims db !! key)
       || existsb (fun other => (clr_run_id other == clr_run_id row)
                                && (clr_activity_id other == clr_activity_id row)
                                || (clr_claim_event_id other == clr_claim_event_id row))
            (map_to_list (ld_activity_claims db)).*2
       || is_none (db_events (ld_tape db) !! clr_claim_event_id row)
    with StoreError_Sqlite ;;
  Ok {| db with ld_activity_claims := <[key := row]> (ld_activity_claims db) |}.

Definition heartbeat_row (request : ActivityHeartbeatRequestV1) (request_digest : string)
    (claim : StoredActivityClaim) (event : Event)
    (heartbeat_event_digest prior_lease_expires_at lease_expires_at heartbeat_at : string)
    : HeartbeatRow :=
  {| hbr_run_id := uuid_to_string (ahq_run_id request);
     hbr_heartbeat_id := ahq_heartbeat_id request;
     hbr_request_digest := request_digest;
     hbr_claim_event_id := uuid_to_string (sac_claim_event_id claim);
     hbr_claim_event_digest := sac_claim_event_digest claim;
     hbr_activity_id := ahq_activity_id request;
     hbr_idempotency_key := ahq_idempotency_key request;
     hbr_lease_id := ahq_lease_id request;
     hbr_dispatch_event_id := uuid_to_string (sac_dispatch_event_id claim);
     hbr_dispatch_envelope_digest := sac_dispatch_envelope_digest claim;
     hbr_heartbeat_event_id := uuid_to_string (ev_id event);
     hbr_heartbeat_event_digest := heartbeat_event_digest;
     hbr_prior_lease_expires_at := prior_lease_expires_at;
     hbr_lease_expires_at := lease_expires_at;
     hbr_heartbeat_at := heartbeat_at |}.

Definition insert_activity_heartbeat (db : LaneDatabase) (row : HeartbeatRow)
    : Result LaneDatabase StoreError :=
  let key := (hbr_run_id row, hbr_heartbeat_id row) in
  fail_if is_some (ld_activity_claim_heartbeats db !! key)
       || existsb (fun other => hbr_heartbeat_event_id other == hbr_heartbeat_event_id row)
            (map_to_list (ld_activity_claim_heartbeats db)).*2
       || is_none (db_events (ld_tape db) !! hbr_claim_event_id row)
       || is_none (db_events (ld_tape db) !! hbr_heartbeat_event_id row)
    with StoreError_Sqlite ;;
  Ok {| db with ld_activity_claim_heartbeats := <[key := row]> (ld_activity_claim_heartbeats db) |}.

(** The columns the terminal [UPDATE] sets. *)
Definition recorded_row (row : ClaimRow) (request : ActivityResultRequestV1) (event : Event)
    (result_event_digest recorded_at : string) : ClaimRow :=
  {| row with
     clr_state := "recorded";
     clr_result_event_id := Some (uuid_to_string (ev_id event));
     clr_result_event_digest := Some result_event_digest;
     clr_result_outcome := Some (activity_result_outcome_wire (arq_outcome request));
     clr_result_digest := arq_result_digest request;
     clr_result_ref := arq_result_ref request;
     clr_evidence_digest := Some (arq_evidence_digest request);
     clr_evidence_ref := Some (arq_evidence_ref request);
     clr_recorded_at := Some recorded_at |}.

(** [UPDATE activity_claims SET .. WHERE .. AND state = 'granted'], which must
    touch one row. *)
Definition record_claim_result (db : LaneDatabase) (request : ActivityResultRequestV1)
    (event : Event) (result_event_digest recorded_at : string)
    : Result LaneDatabase ActivityFailure :=
  let key := (uuid_to_string (arq_run_id request), arq_idempotency_key request) in
  match ld_activity_claims db !! key with
  | Some row =>
      fail_if clr_state row != "granted"
        with rejected "activity claim terminal transition did not update exactly one row" ;;
      Ok {| db with ld_activity_claims :=
              <[key := recorded_row row request event result_event_digest recorded_at]>
                (ld_activity_claims db) |}
  | None => Err (rejected "activity claim terminal transition did not update exactly one row")
  end.

(** The answer of a transaction and the event it appended, if any. *)
Definition answer_and_mark {A} (body : LaneDatabase -> Result ((A * option Event) * LaneDatabase) ActivityFailure)
    : LaneM A :=
  lane! (answer, appended) := lane_transaction body in
  lane! _ := match appended with
    | Some event => lane_record_append event
    | None => lane_ret tt
    end in
  lane_ret answer.

(** ** Claiming *)
Definition claim_existing (db : LaneDatabase) (request : ActivityClaimRequestV1)
    (authority : ActivityClaimAuthorityV1) (now : DateTime) (purpose : ActivityClaimPurposeV1)
    (existing : StoredActivityClaim) : Result ActivityClaimDispositionV1 ActivityFailure :=
  let* existing_claim := verify_signed_claim_projection db existing authority in
  fail_if acl_purpose existing_claim != purpose
    with rejected "activity claim purpose conflicts with the existing signed reservation" ;;
  let* _ := if sac_state existing == StoredActivityClaimState_Recorded
    then verify_signed_activity_result_projection db existing authority else Ok tt in
  let* effective_lease_expires_at := effective_activity_lease_expiry db existing authority in
  existing_claim_disposition existing request now effective_lease_expires_at.

Definition claimed_event (request : ActivityClaimRequestV1) (authority : ActivityClaimAuthorityV1)
    (evidence : VerifiedClaimEvidence) (now : DateTime) (purpose : ActivityClaimPurposeV1)
    (event_id : EventId) (lease_id lease_expires_at : string) : Event :=
  {| ev_id := event_id;
     ev_run_id := acq_run_id request;
     ev_parent_event_id := Some (acq_action_request_event_id request);
     ev_schema_version := CURRENT_SCHEMA_VERSION;
     ev_kind := EventKind_ActivityClaimedV1;
     ev_occurred_at := now;
     ev_payload := Payload_ActivityClaimedV1
       {| acl_run_id := acq_run_id request;
          acl_activity_id := acq_activity_id request;
          acl_idempotency_key := acq_idempotency_key request;
          acl_action_kind := vce_action_kind evidence;
          acl_action_request_event_id := acq_action_request_event_id request;
          acl_action_request_digest := vce_action_request_digest evidence;
          acl_dispatch_event_id := acq_dispatch_event_id request;
          acl_dispatch_envelope_digest := vce_dispatch_envelope_digest evidence;
          acl_authority_actor := akr_actor_id (aca_claim_signer authority);
          acl_purpose := purpose;
          acl_lease_id := lease_id;
          acl_lease_expires_at := lease_expires_at;
          acl_claimed_at := timestamp now |} |}.

(** A first grant.  [now + Duration] panics when the sum is not representable. *)
Definition grant_claim (db : LaneDatabase) (request : ActivityClaimRequestV1)
    (authority : ActivityClaimAuthorityV1) (signing_key : SigningKey) (signer : ActorKeyRef)
    (now : DateTime) (purpose : ActivityClaimPurposeV1) (event_id : EventId) (lease_uuid : Uuid)
    : Result ((ActivityClaimDispositionV1 * option Event) * LaneDatabase) ActivityFailure :=
  let* evidence := verify_claim_evidence (ld_tape db) request authority now in
  some_or requested_lease_expiry :=
    checked_add_milliseconds now (acq_lease_duration_ms request) with Stopped Crash_Panic ;;
  let lease_expires_at :=
    timestamp (Z.min requested_lease_expiry (vce_effective_deadline evidence)) in
  let lease_id := uuid_to_string lease_uuid in
  let* event := canonical_event (claimed_event request authority evidence now purpose event_id
    lease_id lease_expires_at) in
  let* (claim_event_digest, db) := insert_signed_event db event signing_key signer now in
  match ev_payload event with
  | Payload_ActivityClaimedV1 claim =>
      let* db := of_store (insert_activity_claim db (claim_row request evidence claim event
        claim_event_digest lease_id lease_expires_at (timestamp now))) in
      Ok (ActivityClaimDispositionV1_Granted (ev_id event) claim_event_digest lease_id
            lease_expires_at, Some event, db)
  | _ => Err (Stopped Crash_Panic)
  end.

Definition claim_in_transaction (db : LaneDatabase) (request : ActivityClaimRequestV1)
    (authority : ActivityClaimAuthorityV1) (signing_key : SigningKey) (signer : ActorKeyRef)
    (now : DateTime) (purpose : ActivityClaimPurposeV1) (event_id : EventId) (lease_uuid : Uuid)
    : Result ((ActivityClaimDispositionV1 * option Event) * LaneDatabase) ActivityFailure :=
  let* existing := activity_claim_by_idempotency db (acq_run_id request)
    (acq_idempotency_key request) in
  match existing with
  | Some existing =>
      let* disposition := claim_existing db request authority now purpose existing in
      Ok (disposition, None, db)
  | None =>
      let* other := activity_claim_by_activity_id db (acq_run_id request)
        (acq_activity_id request) in
      fail_if is_some other with activity_claim_conflict request ;;
      grant_claim db request authority signing_key signer now purpose event_id lease_uuid
  end.

Definition claim_activity_v1_at (request : ActivityClaimRequestV1)
    (authority : ActivityClaimAuthorityV1) (signing_key : SigningKey) (signer : ActorKeyRef)
    (now : DateTime) (purpose : ActivityClaimPurposeV1) (event_id : EventId) (lease_uuid : Uuid)
    : LaneM ActivityClaimDispositionV1 :=
  lane! _ := lane_lift (validate_activity_claim_request request) in
  lane! _ := lane_lift (validate_claim_signer authority signing_key signer) in
  lane! now := lane_lift (canonical_ledger_timestamp now) in
  answer_and_mark (fun db =>
    claim_in_transaction db request authority signing_key signer now purpose event_id lease_uuid).

Definition claim_activity_v1 (request : ActivityClaimRequestV1)
    (authority : ActivityClaimAuthorityV1) (signing_key : SigningKey) (signer : ActorKeyRef)
    (now : DateTime) (event_id : EventId) (lease_uuid : Uuid)
    : LaneM ActivityClaimDispositionV1 :=
  claim_activity_v1_at request authority signing_key signer now ActivityClaimPurposeV1_Generic
    event_id lease_uuid.

(** ** Recording the result *)
Definition result_event (request : ActivityResultRequestV1) (existing : StoredActivityClaim)
    (now : DateTime) (event_id : EventId) : Event :=
  {| ev_id := event_id;
     ev_run_id := arq_run_id request;
     ev_parent_event_id := Some (sac_claim_event_id existing);
     ev_schema_version := CURRENT_SCHEMA_VERSION;
     ev_kind := EventKind_ActivityResultRecordedV1;
     ev_occurred_at := now;
     ev_payload := Payload_ActivityResultRecordedV1
       {| arx_run_id := arq_run_id request;
          arx_activity_id := arq_activity_id request;
          arx_idempotency_key := arq_idempotency_key request;
          arx_claim_event_id := sac_claim_event_id existing;
          arx_claim_event_digest := sac_claim_event_digest existing;
          arx_lease_id := arq_lease_id request;
          arx_outcome := arq_outcome request;
          arx_result_digest := arq_result_digest request;
          arx_result_ref := arq_result_ref request;
          arx_evidence_digest := arq_evidence_digest request;
          arx_evidence_ref := arq_evidence_ref request;
          arx_recorded_at := timestamp now |} |}.

Definition result_in_transaction (db : LaneDatabase) (request : ActivityResultRequestV1)
    (authority : ActivityClaimAuthorityV1) (signing_key : SigningKey) (signer : ActorKeyRef)
    (now : DateTime) (event_id : EventId)
    : Result ((ActivityResultDispositionV1 * option Event) * LaneDatabase) ActivityFailure :=
  let* existing := activity_claim_by_idempotency db (arq_run_id request)
    (arq_idempotency_key request) in
  some_or existing := existing
    with Errored (ActivityError_ClaimNotFound (uuid_to_string (arq_run_id request))
                    (arq_idempotency_key request)) ;;
  fail_if sac_activity_id existing != arq_activity_id request
    with activity_claim_conflict_from_result request ;;
  let* _ := verify_signed_claim_projection db existing authority in
  if sac_state existing == StoredActivityClaimState_Recorded then
    let* _ := verify_signed_activity_result_projection db existing authority in
    let* disposition := existing_result_disposition existing request in
    Ok (disposition, None, db)
  else
  fail_if sac_lease_id existing != arq_lease_id request
    with Errored (ActivityError_ClaimLeaseMismatch (uuid_to_string (arq_run_id request))
                    (arq_idempotency_key request)) ;;
  let* lease_expires_at := effective_activity_lease_expiry db existing authority in
  if (lease_expires_at <=? now) && (arq_outcome request != ActivityResultOutcomeV1_Unknown) then
    Ok (ActivityResultDispositionV1_LeaseExpired (sac_claim_event_id existing)
          (timestamp lease_expires_at), None, db)
  else
  let* event := canonical_event (result_event request existing now event_id) in
  let* (result_event_digest, db) := insert_signed_event db event signing_key signer now in
  let* db := record_claim_result db request event result_event_digest (timestamp now) in
  Ok (ActivityResultDispositionV1_Recorded (ev_id event) result_event_digest
        (arq_outcome request), Some event, db).

(** [record_activity_result_v1] reads the clock; its instant is an argument. *)
Definition record_activity_result_v1_at (request : ActivityResultRequestV1)
    (authority : ActivityClaimAuthorityV1) (signing_key : SigningKey) (signer : ActorKeyRef)
    (now : DateTime) (event_id : EventId) : LaneM ActivityResultDispositionV1 :=
  lane! _ := lane_lift (validate_activity_result_request request) in
  lane! _ := lane_lift (validate_claim_signer authority signing_key signer) in
  answer_and_mark (fun db =>
    result_in_transaction db request authority signing_key signer now event_id).

(** ** Extending the lease *)
Definition heartbeat_event (request : ActivityHeartbeatRequestV1) (request_digest : string)
    (claim : StoredActivityClaim) (now next_expiry : DateTime) (event_id : EventId) : Event :=
  {| ev_id := event_id;
     ev_run_id := ahq_run_id request;
     ev_parent_event_id := Some (sac_claim_event_id claim);
     ev_schema_version := CURRENT_SCHEMA_VERSION;
     ev_kind := EventKind_ActivityHeartbeatRecordedV1;
     ev_occurred_at := now;
     ev_payload := Payload_ActivityHeartbeatRecordedV1
       {| ahb_run_id := ahq_run_id request;
          ahb_activity_id := ahq_activity_id request;
          ahb_idempotency_key := ahq_idempotency_key request;
          ahb_heartbeat_id := Some (ahq_heartbeat_id request);
          ahb_heartbeat_request_digest := Some request_digest;
          ahb_claim_event_id := sac_claim_event_id claim;
          ahb_claim_event_digest := sac_claim_event_digest claim;
          ahb_lease_id := ahq_lease_id request;
          ahb_dispatch_event_id := sac_dispatch_event_id claim;
          ahb_dispatch_envelope_digest := sac_dispatch_envelope_digest claim;
          ahb_lease_expires_at := timestamp next_expiry;
          ahb_heartbeat_at := timestamp now |} |}.

(** The extension of a live lease. *)
Definition extend_claim (db : LaneDatabase) (request : ActivityHeartbeatRequestV1)
    (authority : ActivityClaimAuthorityV1) (signing_key : SigningKey) (signer : ActorKeyRef)
    (claim : StoredActivityClaim) (request_digest : string) (current_expiry now : DateTime)
    (event_id : EventId)
    : Result ((ActivityHeartbeatDispositionV1 * option Event) * LaneDatabase) ActivityFailure :=
  let* dispatch_window := verify_current_activity_claim_authority db claim authority now in
  some_or requested_expiry := checked_add_milliseconds now (sac_lease_duration_ms claim)
    with Stopped Crash_Panic ;;
  let next_expiry := Z.min requested_expiry (gdw_effective_deadline dispatch_window) in
  fail_if next_expiry <=? current_expiry
    with rejected "activity heartbeat cannot advance the effective lease before the signed dispatch deadline" ;;
  let* event := canonical_event (heartbeat_event request request_digest claim now next_expiry
    event_id) in
  let* (heartbeat_event_digest, db) := insert_signed_event db event signing_key signer now in
  let* db := of_store (insert_activity_heartbeat db (heartbeat_row request request_digest claim
    event heartbeat_event_digest (timestamp current_expiry) (timestamp next_expiry)
    (timestamp now))) in
  Ok (ActivityHeartbeatDispositionV1_Recorded (ev_id event) heartbeat_event_digest
        (timestamp next_expiry), Some event, db).

Definition heartbeat_in_transaction (db : LaneDatabase) (request : ActivityHeartbeatRequestV1)
    (authority : ActivityClaimAuthorityV1) (signing_key : SigningKey) (signer : ActorKeyRef)
    (now : DateTime) (event_id : EventId)
    : Result ((ActivityHeartbeatDispositionV1 * option Event) * LaneDatabase) ActivityFailure :=
  let* claim := activity_claim_by_idempotency db (ahq_run_id request)
    (ahq_idempotency_key request) in
  some_or claim := claim
    with Errored (ActivityError_ClaimNotFound (uuid_to_string (ahq_run_id request))
                    (ahq_idempotency_key request)) ;;
  fail_if sac_activity_id claim != ahq_activity_id request
    with activity_heartbeat_conflict request ;;
  fail_if sac_lease_id claim != ahq_lease_id request
    with Errored (ActivityError_ClaimLeaseMismatch (uuid_to_string (ahq_run_id request))
                    (ahq_idempotency_key request)) ;;
  let* _ := verify_signed_claim_projection db claim authority in
  let request_digest := activity_heartbeat_request_digest request in
  let* existing := activity_heartbeat_by_id db (ahq_run_id request) (ahq_heartbeat_id request) in
  match existing with
  | Some existing =>
      let* _ := verify_signed_activity_heartbeat_projection db claim existing authority true in
      fail_if sah_request_digest existing != request_digest
        with activity_heartbeat_conflict request ;;
      Ok (ActivityHeartbeatDispositionV1_Existing (sah_heartbeat_event_id existing)
            (sah_heartbeat_event_digest existing) (sah_lease_expires_at existing), None, db)
  | None =>
      if sac_state claim == StoredActivityClaimState_Recorded then
        let* _ := verify_signed_activity_result_projection db claim authority in
        Err (rejected "terminal activity results cannot receive a heartbeat")
      else
      let* current_expiry := effective_activity_lease_expiry db claim authority in
      if current_expiry <=? now then
        Ok (ActivityHeartbeatDispositionV1_LeaseExpired (sac_claim_event_id claim)
              (timestamp current_expiry), None, db)
      else
      extend_claim db request authority signing_key signer claim request_digest current_expiry
        now event_id
  end.

Definition heartbeat_activity_v1_at (request : ActivityHeartbeatRequestV1)
    (authority : ActivityClaimAuthorityV1) (signing_key : SigningKey) (signer : ActorKeyRef)
    (now : DateTime) (event_id : EventId) : LaneM ActivityHeartbeatDispositionV1 :=
  lane! _ := lane_lift (validate_activity_heartbeat_request request) in
  lane! _ := lane_lift (validate_claim_signer authority signing_key signer) in
  answer_and_mark (fun db =>
    heartbeat_in_transaction db request authority signing_key signer now event_id).

(** ** The fixed verifier lane *)
Definition claim_governed_verifier_v1_at (request : GovernedVerifierClaimRequestV1)
    (authority : ActivityClaimAuthorityV1) (signing_key : SigningKey) (signer : ActorKeyRef)
    (now : DateTime) (event_id : EventId) (lease_uuid : Uuid)
    : LaneM ActivityClaimDispositionV1 :=
  lane! _ := lane_lift (require_protected_governed_realm authority) in
  lane! action_request_event := lane_read (fun db => load_verified_authority_event (ld_tape db)
    (gvc_action_request_event_id request) (aca_trusted_keys authority)
    (aca_action_request_signer authority) "governed verifier action request") in
  if ev_run_id action_request_event != gvc_run_id request
  then lane_lift (Err (rejected "governed verifier action request run_id does not match the claim"))
  else
  match ev_payload action_request_event with
  | Payload_ActionRequestedV2 action_request =>
      if (ar2_action_kind action_request != ActionKindV1_Process)
         || (ar2_execution_role action_request != ExecutionRoleV1_Reviewer)
      then lane_lift (Err (rejected "governed verifier requires a signed reviewer process action"))
      else
      claim_activity_v1_at
        {| acq_run_id := gvc_run_id request;
           acq_activity_id := ar2_action_id action_request;
           acq_idempotency_key := ar2_idempotency_key action_request;
           acq_dispatch_event_id := gvc_dispatch_event_id request;
           acq_action_request_event_id := gvc_action_request_event_id request;
           acq_lease_duration_ms := gvc_lease_duration_ms request |}
        authority signing_key signer now ActivityClaimPurposeV1_GovernedVerifierV1 event_id
        lease_uuid
  | _ => lane_lift (Err (rejected "governed verifier requires a signed action_requested_v2 event"))
  end.

(** The claim a verifier lease names, checked against its signed reviewer action. *)
Definition resolve_verifier_lease (db : LaneDatabase) (request : GovernedVerifierResultRequestV1)
    (authority : ActivityClaimAuthorityV1) : Result StoredActivityClaim ActivityFailure :=
  let* claim := activity_claim_by_lease db (gvr_run_id request) (gvr_lease_id request) in
  some_or claim := claim
    with rejected "governed verifier lease does not name a signed activity claim" ;;
  let* _ := verify_purpose_bound_process_claim_lineage db claim authority
    ActivityClaimPurposeV1_GovernedVerifierV1 "governed verifier" in
  fail_if sac_action_kind claim != ActionKindV1_Process
    with rejected "governed verifier lease does not name a reviewer process action" ;;
  let* action_request_event := load_verified_authority_event (ld_tape db)
    (sac_action_request_event_id claim) (aca_trusted_keys authority)
    (aca_action_request_signer authority) "governed verifier action request" in
  match ev_payload action_request_event with
  | Payload_ActionRequestedV2 action_request =>
      fail_if (ar2_action_kind action_request != ActionKindV1_Process)
           || (ar2_execution_role action_request != ExecutionRoleV1_Reviewer)
           || (ar2_action_id action_request != sac_activity_id claim)
           || (ar2_idempotency_key action_request != sac_idempotency_key claim)
        with rejected "governed verifier lease does not bind a signed reviewer process action" ;;
      Ok claim
  | _ => Err (rejected "governed verifier lease action request is not action_requested_v2")
  end.

Definition record_governed_verifier_result_v1_at (request : GovernedVerifierResultRequestV1)
    (authority : ActivityClaimAuthorityV1) (signing_key : SigningKey) (signer : ActorKeyRef)
    (now : DateTime) (event_id : EventId) : LaneM ActivityResultDispositionV1 :=
  lane! _ := lane_lift (require_protected_governed_realm authority) in
  if trim_is_empty (gvr_lease_id request)
  then lane_lift (Err (Errored (ActivityError_InvalidPayload "record_governed_verifier_result_v1"
         "lease_id must be non-empty")))
  else
  lane! claim := lane_read (fun db => resolve_verifier_lease db request authority) in
  record_activity_result_v1_at
    {| arq_run_id := gvr_run_id request;
       arq_activity_id := sac_activity_id claim;
       arq_idempotency_key := sac_idempotency_key claim;
       arq_lease_id := gvr_lease_id request;
       arq_outcome := gvr_outcome request;
       arq_result_digest := gvr_result_digest request;
       arq_result_ref := gvr_result_ref request;
       arq_evidence_digest := gvr_evidence_digest request;
       arq_evidence_ref := gvr_evidence_ref request |}
    authority signing_key signer now event_id.
End Lane.
