(* ===== verification/LaneSpec.v ===== *)
(** * The execution-lease lane: leases and results

    Theorems on [ActivityLane.v].  A session is a sequence of lane operations
    and tape operations, successful or not, with any requests, authorities and
    instants.  [lane_extends] is what every operation keeps: the tape grows, the
    heartbeat table grows, and a claim row keeps its grant columns and changes at
    most once, from granted to recorded. *)
From S2P Require Import Prelude RustStr Host LedgerPayloads TrustSpine Digests Events Tape WorkflowGraph Canonicalize Engine Store StoreRows StoreSeal StoreSpec StoreSession ActivityEvidence RetryContext ActivityLane.
From stdpp Require Import base list gmap strings sorting.

#[local] Open Scope string_scope.
#[local] Open Scope list_scope.
#[local] Open Scope Z_scope.

(** ** Sessions *)
Inductive LaneOp `{Crypto} :=
| Lane_tape (op : StoreOp)
| Lane_claim (request : ActivityClaimRequestV1) (authority : ActivityClaimAuthorityV1)
    (key : SigningKey) (signer : ActorKeyRef) (now : DateTime) (purpose : ActivityClaimPurposeV1)
    (event_id : EventId) (lease : Uuid)
| Lane_verifier_claim (request : GovernedVerifierClaimRequestV1)
    (authority : ActivityClaimAuthorityV1) (key : SigningKey) (signer : ActorKeyRef)
    (now : DateTime) (event_id : EventId) (lease : Uuid)
| Lane_heartbeat (request : ActivityHeartbeatRequestV1) (authority : ActivityClaimAuthorityV1)
    (key : SigningKey) (signer : ActorKeyRef) (now : DateTime) (event_id : EventId)
| Lane_result (request : ActivityResultRequestV1) (authority : ActivityClaimAuthorityV1)
    (key : SigningKey) (signer : ActorKeyRef) (now : DateTime) (event_id : EventId)
| Lane_verifier_result (request : GovernedVerifierResultRequestV1)
    (authority : ActivityClaimAuthorityV1) (key : SigningKey) (signer : ActorKeyRef)
    (now : DateTime) (event_id : EventId).

Section Sessions.
Context `{Host, Canonicalizer, Crypto, RowDecoder, RowEncoder}.
Implicit Types (db : LaneDatabase) (s : LaneStore).

Definition forget {A} (m : LaneM A) : LaneM unit := lane! _ := m in lane_ret tt.

Definition run_lane (op : LaneOp) : LaneM unit :=
  match op with
  | Lane_tape op => on_tape (run_op op)
  | Lane_claim request authority key signer now purpose id lease =>
      forget (claim_activity_v1_at request authority key signer now purpose id lease)
  | Lane_verifier_claim request authority key signer now id lease =>
      forget (claim_governed_verifier_v1_at request authority key signer now id lease)
  | Lane_heartbeat request authority key signer now id =>
      forget (heartbeat_activity_v1_at request authority key signer now id)
  | Lane_result request authority key signer now id =>
      forget (record_activity_result_v1_at request authority key signer now id)
  | Lane_verifier_result request authority key signer now id =>
      forget (record_governed_verifier_result_v1_at request authority key signer now id)
  end.

Definition after_lane (s : LaneStore) (ops : list LaneOp) : LaneStore :=
  foldl (fun s op => (run_lane op s).2) s ops.

(** ** What every operation keeps *)

(** A claim row without its terminal columns. *)
Definition grant_columns (row : ClaimRow) : ClaimRow :=
  {| row with clr_state := "granted"; clr_result_event_id := None;
       clr_result_event_digest := None; clr_result_outcome := None; clr_result_digest := None;
       clr_result_ref := None; clr_evidence_digest := None; clr_evidence_ref := None;
       clr_recorded_at := None |}.

Definition row_advances (row row' : ClaimRow) : Prop :=
  row' = row \/
  clr_state row = "granted" /\ clr_state row' = "recorded" /\ grant_columns row' = grant_columns row.

Record lane_extends db db' : Prop := {
  lex_tape : extends (ld_tape db) (ld_tape db');
  lex_claims : forall k row, ld_activity_claims db !! k = Some row ->
    exists row', ld_activity_claims db' !! k = Some row' /\ row_advances row row';
  lex_heartbeats : ld_activity_claim_heartbeats db ⊆ ld_activity_claim_heartbeats db'
}.

Lemma row_advances_trans row1 row2 row3 :
  row_advances row1 row2 -> row_advances row2 row3 -> row_advances row1 row3.
Proof.
  intros [->|(Hg & Hr & Hc)] [->|(Hg' & Hr' & Hc')]; [by left|by right..|].
  rewrite Hr in Hg'. done.
Qed.

#[export] Instance lane_extends_preorder : PreOrder lane_extends.
Proof.
  split.
  - intros db. split; [done| |done]. intros k row Hk. exists row. split; [done|by left].
  - intros db1 db2 db3 H12 H23. split.
    + etrans; [apply H12|apply H23].
    + intros k row (row2 & (row3 & Hk3 & Ha3)%(lex_claims _ _ H23) & Ha2)%(lex_claims _ _ H12).
      exists row3. split; [done|]. by eapply row_advances_trans.
    + etrans; [apply H12|apply H23].
Qed.

(** The columns a granted row is found by. *)
Lemma advances_columns row row' :
  row_advances row row' ->
  clr_run_id row' = clr_run_id row /\ clr_idempotency_key row' = clr_idempotency_key row /\
  clr_activity_id row' = clr_activity_id row /\ clr_claim_event_id row' = clr_claim_event_id row /\
  clr_lease_id row' = clr_lease_id row /\ clr_lease_expires_at row' = clr_lease_expires_at row.
Proof. intros [->|(_ & _ & Hg)]; [done|].
  repeat split; [exact (f_equal clr_run_id Hg)|exact (f_equal clr_idempotency_key Hg)
    |exact (f_equal clr_activity_id Hg)|exact (f_equal clr_claim_event_id Hg)
    |exact (f_equal clr_lease_id Hg)|exact (f_equal clr_lease_expires_at Hg)].
Qed.

(** ** The writers *)
Lemma insert_signed_event_ok db event key signer now digest db' :
  insert_signed_event db event key signer now = Ok (digest, db') ->
  extends (ld_tape db) (ld_tape db') /\ ld_activity_claims db' = ld_activity_claims db /\
  ld_activity_claim_heartbeats db' = ld_activity_claim_heartbeats db.
Proof.
  unfold insert_signed_event, of_store. intros Hi. guards. simplify_eq. cbn. split; [|done].
  etrans; [by eapply insert_event_extends|by eapply insert_signature_extends].
Qed.

Lemma insert_activity_claim_ok db row db' :
  insert_activity_claim db row = Ok db' ->
  ld_tape db' = ld_tape db /\ ld_activity_claim_heartbeats db' = ld_activity_claim_heartbeats db /\
  ld_activity_claims db !! (clr_run_id row, clr_idempotency_key row) = None /\
  ld_activity_claims db' = <[(clr_run_id row, clr_idempotency_key row) := row]> (ld_activity_claims db).
Proof. unfold insert_activity_claim. intros Hi. guards. simplify_eq. done. Qed.

Lemma insert_activity_heartbeat_ok db row db' :
  insert_activity_heartbeat db row = Ok db' ->
  ld_tape db' = ld_tape db /\ ld_activity_claims db' = ld_activity_claims db /\
  ld_activity_claim_heartbeats db !! (hbr_run_id row, hbr_heartbeat_id row) = None /\
  ld_activity_claim_heartbeats db' =
    <[(hbr_run_id row, hbr_heartbeat_id row) := row]> (ld_activity_claim_heartbeats db).
Proof. unfold insert_activity_heartbeat. intros Hi. guards. simplify_eq. done. Qed.

Lemma record_claim_result_ok db request event digest at_ db' :
  record_claim_result db request event digest at_ = Ok db' ->
  exists row, ld_activity_claims db !! (uuid_to_string (arq_run_id request), arq_idempotency_key request) = Some row /\
    clr_state row = "granted" /\
    db' = {| db with ld_activity_claims :=
               <[(uuid_to_string (arq_run_id request), arq_idempotency_key request) :=
                   recorded_row row request event digest at_]> (ld_activity_claims db) |}.
Proof. intros Hr. unfold record_claim_result in Hr. guards. subst db'. by eexists. Qed.

(** ** Growth of the lane *)
Lemma tables_extend db db' :
  extends (ld_tape db) (ld_tape db') -> ld_activity_claims db' = ld_activity_claims db ->
  ld_activity_claim_heartbeats db' = ld_activity_claim_heartbeats db -> lane_extends db db'.
Proof.
  intros Ht Hc Hh. split; [done| |by rewrite Hh]. intros k row Hk. exists row. rewrite Hc. split; [done|by left].
Qed.

Lemma claim_insert_extends db row db' : insert_activity_claim db row = Ok db' -> lane_extends db db'.
Proof.
  intros (Ht & Hh & Hn & Hc)%insert_activity_claim_ok. split; [by rewrite Ht| |by rewrite Hh].
  intros k row' Hk. exists row'. split; [|by left]. rewrite Hc.
  rewrite lookup_insert_ne; [done|]. intros <-. congruence.
Qed.

Lemma heartbeat_insert_extends db row db' :
  insert_activity_heartbeat db row = Ok db' -> lane_extends db db'.
Proof.
  intros (Ht & Hc & Hn & Hh)%insert_activity_heartbeat_ok. split; [by rewrite Ht| |].
  - intros k row' Hk. exists row'. rewrite Hc. split; [done|by left].
  - rewrite Hh. by apply insert_subseteq.
Qed.

Lemma result_update_extends db request event digest at_ db' :
  record_claim_result db request event digest at_ = Ok db' -> lane_extends db db'.
Proof.
  intros (row & Hk & Hg & ->)%record_claim_result_ok.
  split; [done| |done]. cbn. intros k row1 Hk1.
  destruct (decide (k = (uuid_to_string (arq_run_id request), arq_idempotency_key request))) as [->|Hne].
  - rewrite Hk in Hk1. simplify_eq. eexists. rewrite lookup_insert_eq. split; [done|by right].
  - exists row1. rewrite lookup_insert_ne by done. split; [done|by left].
Qed.

Lemma signed_insert_extends db event key signer now digest db' :
  insert_signed_event db event key signer now = Ok (digest, db') -> lane_extends db db'.
Proof. intros (? & ? & ?)%insert_signed_event_ok. by apply tables_extend. Qed.

Lemma claim_transaction_extends db request authority key signer now purpose id lease a db' :
  claim_in_transaction db request authority key signer now purpose id lease = Ok (a, db') ->
  lane_extends db db'.
Proof.
  unfold claim_in_transaction, grant_claim, of_store. intros Hc. guards; [by simplify_eq|].
  destruct (ev_payload _) in Hc; try discriminate. guards. simplify_eq.
  etrans; [by eapply signed_insert_extends|by eapply claim_insert_extends].
Qed.

Lemma result_transaction_extends db request authority key signer now id a db' :
  result_in_transaction db request authority key signer now id = Ok (a, db') -> lane_extends db db'.
Proof.
  unfold result_in_transaction. intros Hc. guards; try by simplify_eq.
  simplify_eq. etrans; [by eapply signed_insert_extends|by eapply result_update_extends].
Qed.

Lemma heartbeat_transaction_extends db request authority key signer now id a db' :
  heartbeat_in_transaction db request authority key signer now id = Ok (a, db') -> lane_extends db db'.
Proof.
  unfold heartbeat_in_transaction, extend_claim, of_store. intros Hc. guards; try by simplify_eq.
  simplify_eq. etrans; [by eapply signed_insert_extends|by eapply heartbeat_insert_extends].
Qed.

(** A lane operation is its transaction: it commits, or nothing changes. *)
Lemma answer_and_mark_cases {A} (body : LaneDatabase -> Result ((A * option Event) * LaneDatabase) ActivityFailure) s r s' :
  answer_and_mark body s = (r, s') ->
  (exists a appended, body (ls_conn s) = Ok ((a, appended), ls_conn s') /\ r = Ok a) \/
  (exists e, body (ls_conn s) = Err e /\ r = Err e /\ s' = s).
Proof.
  unfold answer_and_mark, lane_bind, lane_transaction, lane_ret, lane_record_append.
  destruct (body (ls_conn s)) as [[[a [event|]] db]|e]; intros; simplify_eq/=;
    [left; by eexists _, _..|right; by eexists].
Qed.

Lemma claim_cases request authority key signer now purpose id lease s r s' :
  claim_activity_v1_at request authority key signer now purpose id lease s = (r, s') ->
  (exists now' a appended, canonical_ledger_timestamp now = Ok now' /\
     claim_in_transaction (ls_conn s) request authority key signer now' purpose id lease
       = Ok ((a, appended), ls_conn s') /\ r = Ok a) \/
  (s' = s /\ exists e, r = Err e).
Proof.
  unfold claim_activity_v1_at, lane_bind at 1 2 3, lane_lift.
  destruct (validate_activity_claim_request request) as [[]|]; [|intros; simplify_eq; right; by eauto].
  destruct (validate_claim_signer authority key signer) as [[]|]; [|intros; simplify_eq; right; by eauto].
  destruct (canonical_ledger_timestamp now) as [now'|]; [|intros; simplify_eq; right; by eauto].
  intros [(a & appended & Hb & ->)|(e & _ & -> & ->)]%answer_and_mark_cases; [left|right; by eauto].
  by exists now', a, appended.
Qed.

Lemma result_cases request authority key signer now id s r s' :
  record_activity_result_v1_at request authority key signer now id s = (r, s') ->
  (exists a appended, result_in_transaction (ls_conn s) request authority key signer now id
     = Ok ((a, appended), ls_conn s') /\ r = Ok a) \/
  (s' = s /\ exists e, r = Err e).
Proof.
  unfold record_activity_result_v1_at, lane_bind at 1 2, lane_lift.
  destruct (validate_activity_result_request request) as [[]|]; [|intros; simplify_eq; right; by eauto].
  destruct (validate_claim_signer authority key signer) as [[]|]; [|intros; simplify_eq; right; by eauto].
  intros [(a & appended & Hb & ->)|(e & _ & -> & ->)]%answer_and_mark_cases; [left|right; by eauto].
  by exists a, appended.
Qed.

Lemma heartbeat_cases request authority key signer now id s r s' :
  heartbeat_activity_v1_at request authority key signer now id s = (r, s') ->
  (exists a appended, heartbeat_in_transaction (ls_conn s) request authority key signer now id
     = Ok ((a, appended), ls_conn s') /\ r = Ok a) \/
  (s' = s /\ exists e, r = Err e).
Proof.
  unfold heartbeat_activity_v1_at, lane_bind at 1 2, lane_lift.
  destruct (validate_activity_heartbeat_request request) as [[]|]; [|intros; simplify_eq; right; by eauto].
  destruct (validate_claim_signer authority key signer) as [[]|]; [|intros; simplify_eq; right; by eauto].
  intros [(a & appended & Hb & ->)|(e & _ & -> & ->)]%answer_and_mark_cases; [left|right; by eauto].
  by exists a, appended.
Qed.

Lemma claim_extends request authority key signer now purpose id lease s :
  lane_extends (ls_conn s)
    (ls_conn (claim_activity_v1_at request authority key signer now purpose id lease s).2).
Proof.
  destruct (claim_activity_v1_at _ _ _ _ _ _ _ _ s) as [r s'] eqn:Hc.
  apply claim_cases in Hc as [(? & ? & ? & _ & Hc & _)|[-> _]]; [|done].
  by eapply claim_transaction_extends.
Qed.

Lemma result_extends request authority key signer now id s :
  lane_extends (ls_conn s)
    (ls_conn (record_activity_result_v1_at request authority key signer now id s).2).
Proof.
  destruct (record_activity_result_v1_at _ _ _ _ _ _ s) as [r s'] eqn:Hc.
  apply result_cases in Hc as [(? & ? & Hc & _)|[-> _]]; [|done]. by eapply result_transaction_extends.
Qed.

Lemma heartbeat_extends request authority key signer now id s :
  lane_extends (ls_conn s)
    (ls_conn (heartbeat_activity_v1_at request authority key signer now id s).2).
Proof.
  destruct (heartbeat_activity_v1_at _ _ _ _ _ _ s) as [r s'] eqn:Hc.
  apply heartbeat_cases in Hc as [(? & ? & Hc & _)|[-> _]]; [|done].
  by eapply heartbeat_transaction_extends.
Qed.

Lemma run_op_extends op ss r ss' : run_op op ss = (r, ss') -> extends (ss_conn ss) (ss_conn ss').
Proof.
  destruct op as [event|signature|event key signer policy now mint|run_id key signer mint|run_id key signer mint]; cbn [run_op].
  - intros [(v & e & [-> _]%validate_external_append_conn & ->)|(s0 & db1 & _ & Hi & -> & ->)]%append_cases; [done|].
    by eapply insert_event_extends.
  - unfold append_event_signature. intros [(a & db & Hb & -> & ->)|(e & Hb & -> & ->)]%transaction_cases; [|done].
    cbn. guards. simplify_eq. by eapply insert_signature_extends.
  - intros (ra & Ha & ->)%discard_cases.
    apply append_signed_cases in Ha as [(v & e & [Hc _]%validate_external_append_conn & ->)|(s0 & sg & db1 & Hv & Hs & Hst & Hrest)];
      [by rewrite Hc|].
    pose proof (store_signed_extends _ _ _ _ _ Hst) as Hext. cbv zeta in Hrest.
    destruct policy as [|cadence]; [destruct Hrest as [-> ->]; done|].
    destruct Hrest as (rc & Hrc & ->). by pose proof (emit_if_due_cases _ _ _ _ _ _ _ _ _ Hrc) as (Hext2 & _); etrans.
  - by intros (ra & (Hext & _)%emit_current_cases & ->)%discard_cases.
  - by intros (ra & (Hext & _)%seal_transaction_cases & ->)%discard_cases.
Qed.

Lemma forget_snd {A} (m : LaneM A) s : (forget m s).2 = (m s).2.
Proof. unfold forget, lane_bind, lane_ret. by destruct (m s) as [[] ?]. Qed.

Lemma run_lane_extends op s : lane_extends (ls_conn s) (ls_conn (run_lane op s).2).
Proof.
  destruct op; cbn [run_lane]; rewrite ?forget_snd.
  - unfold on_tape. destruct (run_op op (tape_store s)) as [r s'] eqn:Hr.
    apply run_op_extends in Hr. by apply tables_extend.
  - apply claim_extends.
  - unfold claim_governed_verifier_v1_at, lane_bind, lane_lift, lane_read.
    repeat (case_match; try done; cbn [snd]); simplify_eq; try done. apply claim_extends.
  - apply heartbeat_extends.
  - apply result_extends.
  - unfold record_governed_verifier_result_v1_at, lane_bind at 1, lane_lift, lane_read.
    destruct (require_protected_governed_realm authority) as [[]|]; [|done].
    case_match; [done|]. unfold lane_bind. case_match; simplify_eq; [|done]. apply result_extends.
Qed.

Lemma after_lane_extends s ops : lane_extends (ls_conn s) (ls_conn (after_lane s ops)).
Proof.
  revert s. induction ops as [|op ops IH]; intros s; cbn [after_lane foldl]; [done|].
  etrans; [apply (run_lane_extends op)|apply IH].
Qed.

(** ** A lease is granted once *)

(** What a grant is made of. *)
Record granting db request authority key signer now purpose id lease
    (evidence : VerifiedClaimEvidence) (event : Event) (claim : ActivityClaimedV1)
    (digest : string) (requested expires : DateTime) db1 db' : Prop := {
  gr_verified : verify_claim_evidence (ld_tape db) request authority now = Ok evidence;
  gr_sum : checked_add_milliseconds now (acq_lease_duration_ms request) = Some requested;
  gr_expires : expires = Z.min requested (vce_effective_deadline evidence);
  gr_event : canonicalize (claimed_event request authority evidence now purpose id
    (uuid_to_string lease) (timestamp expires)) = Ok event;
  gr_payload : ev_payload event = Payload_ActivityClaimedV1 claim;
  gr_signed : insert_signed_event db event key signer now = Ok (digest, db1);
  gr_row : insert_activity_claim db1 (claim_row request evidence claim event digest
    (uuid_to_string lease) (timestamp expires) (timestamp now)) = Ok db'
}.

Lemma existing_never_granted stored request now expiry id digest lease expires :
  existing_claim_disposition stored request now expiry
    <> Ok (ActivityClaimDispositionV1_Granted id digest lease expires).
Proof. unfold existing_claim_disposition. intros Hd. destruct (sac_state stored); guards; simplify_eq. Qed.

Lemma claim_granted db request authority key signer now purpose id lease claim_id digest lease_id expires appended db' :
  claim_in_transaction db request authority key signer now purpose id lease
    = Ok ((ActivityClaimDispositionV1_Granted claim_id digest lease_id expires, appended), db') ->
  activity_claim_by_idempotency db (acq_run_id request) (acq_idempotency_key request) = Ok None /\
  activity_claim_by_activity_id db (acq_run_id request) (acq_activity_id request) = Ok None /\
  exists evidence event claim requested t db1,
    granting db request authority key signer now purpose id lease evidence event claim digest
      requested t db1 db' /\
    claim_id = ev_id event /\ lease_id = uuid_to_string lease /\ expires = timestamp t /\
    appended = Some event.
Proof.
  unfold claim_in_transaction. intros Hc. guards.
  - simplify_eq. match goal with Hx : claim_existing _ _ _ _ _ _ = Ok _ |- _ =>
      unfold claim_existing in Hx; guards; by apply existing_never_granted in Hx end.
  - subst. unfold grant_claim, canonical_event, of_store in Hc. guards.
    destruct (ev_payload _) eqn:Hp in Hc; try discriminate. guards. simplify_eq.
    split; [done|]. split; [done|]. do 6 eexists. split; [by econstructor|done].
Qed.

(** The row a grant leaves in the table. *)
Lemma granted_row request authority key signer now purpose id lease s claim_id digest lease_id expires s' :
  claim_activity_v1_at request authority key signer now purpose id lease s
    = (Ok (ActivityClaimDispositionV1_Granted claim_id digest lease_id expires), s') ->
  exists row, ld_activity_claims (ls_conn s') !! (uuid_to_string (acq_run_id request), acq_idempotency_key request) = Some row /\
    clr_run_id row = uuid_to_string (acq_run_id request) /\ clr_activity_id row = acq_activity_id request.
Proof.
  intros [(now' & a & appended & _ & Hc & Ha)|[_ [e He]]]%claim_cases; [|done]. simplify_eq.
  apply claim_granted in Hc as (_ & _ & evidence & event & claim & requested & t & db1 & Hg & _).
  destruct (insert_activity_claim_ok _ _ _ (gr_row _ _ _ _ _ _ _ _ _ _ _ _ _ _ _ _ _ Hg)) as (_ & _ & _ & ->).
  eexists. by rewrite lookup_insert_eq.
Qed.

(** A row of the activity is found by the query on its activity. *)
Lemma claim_where_hit db run_id p k row :
  ld_activity_claims db !! k = Some row -> clr_run_id row = uuid_to_string run_id -> p row = true ->
  exists row', claim_where db run_id p = Some row'.
Proof.
  intros Hk Hr Hp. unfold claim_where. destruct (find _ _) as [row'|] eqn:Hf; [by eexists|].
  exfalso. pose proof (find_none _ _ Hf row) as Hno. cbn beta in Hno.
  rewrite Hp, bool_decide_true in Hno by done. discriminate Hno.
  apply list_elem_of_In, list_elem_of_fmap. exists (k, row). split; [done|].
  by apply elem_of_map_to_list.
Qed.

Lemma read_claim_some row r : read_claim (Some row) = Ok r -> exists stored, r = Some stored.
Proof.
  cbn. unfold of_store. destruct (stored_activity_claim_from_row row); intros; simplify_eq/=. by eexists.
Qed.

(** C13. A lease is granted once.  After a grant for an activity and an idempotency
    key of a run, no later claim of the run with that key or that activity is
    granted, whatever operations come between, and whatever authority, purpose,
    instant or lease id the later claim brings: it is refused or told the state of
    the first. *)
Theorem leases_are_granted_once request authority key signer now purpose id lease s
    claim_id digest lease_id expires s1 ops
    request' authority' key' signer' now' purpose' id' lease' claim_id' digest' lease_id' expires' :
  claim_activity_v1_at request authority key signer now purpose id lease s
    = (Ok (ActivityClaimDispositionV1_Granted claim_id digest lease_id expires), s1) ->
  acq_run_id request' = acq_run_id request ->
  acq_idempotency_key request' = acq_idempotency_key request \/
    acq_activity_id request' = acq_activity_id request ->
  (claim_activity_v1_at request' authority' key' signer' now' purpose' id' lease' (after_lane s1 ops)).1
    <> Ok (ActivityClaimDispositionV1_Granted claim_id' digest' lease_id' expires').
Proof.
  intros (row & Hk & Hrun & Hact)%granted_row Hr Hsame Hagain.
  destruct (lex_claims _ _ (after_lane_extends s1 ops) _ _ Hk) as (row' & Hk' & Hadv).
  apply advances_columns in Hadv as (Hrun' & _ & Hact' & _).
  destruct (claim_activity_v1_at request' _ _ _ _ _ _ _ _) as [r s2] eqn:Hc. cbn in Hagain. subst r.
  apply claim_cases in Hc as [(t & a & appended & _ & Hc & Ha)|[_ [e He]]]; [|done]. simplify_eq.
  apply claim_granted in Hc as (Hnone & Hnone' & _). rewrite Hr in Hnone, Hnone'.
  destruct Hsame as [Hkey|Hactivity].
  - unfold activity_claim_by_idempotency in Hnone. rewrite Hkey, Hk' in Hnone.
    by apply read_claim_some in Hnone as [].
  - unfold activity_claim_by_activity_id in Hnone'.
    destruct (claim_where_hit (ls_conn (after_lane s1 ops)) (acq_run_id request)
      (fun row => clr_activity_id row == acq_activity_id request') _ _ Hk') as [row2 Hw];
      [congruence|by apply bool_decide_true; congruence|].
    rewrite Hw in Hnone'. by apply read_claim_some in Hnone' as [].
Qed.
End Sessions.
