(* ===== verification/LaneTheorems.v ===== *)
(** * The execution-lease lane: final results, bounded leases, instants

    Theorems on [ActivityLane.v] that need what the host promises about text:
    a result is final, no lease outlives the signed dispatch, and a heartbeat that
    rounds to the expiry it extends wedges its claim; with what the reducer requires
    of the instants the heartbeat and result writers leave unrounded. *)
From S2P Require Import Prelude RustStr Host LedgerPayloads TrustSpine Digests Events Tape WorkflowGraph ReplayState ReducerCore ReducerActions Canonicalize Engine EngineSpec Store StoreRows StoreSeal StoreSpec StoreSession ActivityEvidence RetryContext ActivityLane LaneSpec CanonicalizeSpec.
From stdpp Require Import base list gmap strings sorting.

#[local] Open Scope string_scope.
#[local] Open Scope list_scope.
#[local] Open Scope Z_scope.

(** ** Interfaces *)

(** [canonicalize] checks an event and returns it. *)
Class FaithfulCanonicalizer `{Canonicalizer} : Prop :=
  canonicalize_same : forall event event', canonicalize event = Ok event' -> event' = event.

#[export] Instance ledger_canonicalizer_faithful `{Host} event_to_vec :
  @FaithfulCanonicalizer (ledger_canonicalizer event_to_vec).
Proof. intros event event' He. cbn in He. apply map_err_ok in He. by apply canonicalize_iff in He as [-> _]. Qed.

(** [DateTime::to_rfc3339_opts(SecondsFormat::Millis, true)]: the text of an
    instant ends in [Z] and reads as the instant rounded down to a millisecond. *)
Class Millis `{Host} := {
  ms_floor : DateTime -> DateTime;
  millis_reads : forall t, parse_from_rfc3339 (to_rfc3339_millis t) = Some (ms_floor t);
  millis_utc : forall t, ends_with "Z" (to_rfc3339_millis t) = true;
  ms_floor_le : forall t, ms_floor t <= t;
  ms_floor_idem : forall t, ms_floor (ms_floor t) = ms_floor t
}.

Section Wire.
Lemma action_kind_round_trip kind : action_kind_from_value (action_kind_wire kind) = Some kind.
Proof. by destruct kind. Qed.

Lemma result_outcome_round_trip outcome :
  result_outcome_from_value (activity_result_outcome_wire outcome) = Some outcome.
Proof. by destruct outcome. Qed.
End Wire.

(** ** A result is final *)
Section Results.
Context `{Host, Canonicalizer, Crypto, RowDecoder, RowEncoder, !RowLaws, !FaithfulCanonicalizer}.
Implicit Types (db : LaneDatabase) (s : LaneStore).

(** The claim a recorded row reads as. *)
Definition recorded_claim (stored : StoredActivityClaim) (request : ActivityResultRequestV1)
    (id : EventId) (digest at_ : string) : StoredActivityClaim :=
  {| stored with sac_state := StoredActivityClaimState_Recorded;
       sac_result_event_id := Some id; sac_result_event_digest := Some digest;
       sac_result_outcome := Some (arq_outcome request);
       sac_result_digest := arq_result_digest request; sac_result_ref := arq_result_ref request;
       sac_evidence_digest := Some (arq_evidence_digest request);
       sac_evidence_ref := Some (arq_evidence_ref request); sac_recorded_at := Some at_ |}.

Lemma recorded_row_reads row stored request event digest at_ :
  stored_activity_claim_from_row row = Ok stored -> uuid_ok (ev_id event) ->
  stored_activity_claim_from_row (recorded_row row request event digest at_)
    = Ok (recorded_claim stored request (ev_id event) digest at_).
Proof.
  unfold stored_activity_claim_from_row. intros Hr Hid. guards; subst stored;
    cbn -[action_kind_from_value result_outcome_from_value];
    rewrite result_outcome_round_trip, uuid_round_trip by done;
    repeat match goal with E : ?o = Some _ |- context [?o] => rewrite E end;
    (rewrite (proj2 (Z.ltb_ge _ _)) by done); done.
Qed.

(** The row under [k] is recorded and reads as [stored]. *)
Definition settled db k (stored : StoredActivityClaim) : Prop :=
  exists row, ld_activity_claims db !! k = Some row /\ clr_state row = "recorded" /\
    stored_activity_claim_from_row row = Ok stored.

Lemma settled_extends db db' k stored : lane_extends db db' -> settled db k stored -> settled db' k stored.
Proof.
  intros Hext (row & Hk & Hs & Hr). destruct (lex_claims _ _ Hext _ _ Hk) as (row' & Hk' & [->|(Hg & _)]);
    [by exists row|congruence].
Qed.

Lemma settled_state db k stored : settled db k stored -> sac_state stored = StoredActivityClaimState_Recorded.
Proof.
  intros (row & _ & Hs & Hr). unfold stored_activity_claim_from_row in Hr. rewrite Hs in Hr.
  guards; by subst stored.
Qed.

(** The result columns are those of [request]. *)
Record result_of (stored : StoredActivityClaim) (request : ActivityResultRequestV1)
    (id : EventId) (digest : string) : Prop := {
  ro_event : sac_result_event_id stored = Some id;
  ro_digest : sac_result_event_digest stored = Some digest;
  ro_outcome : sac_result_outcome stored = Some (arq_outcome request);
  ro_result_digest : sac_result_digest stored = arq_result_digest request;
  ro_result_ref : sac_result_ref stored = arq_result_ref request;
  ro_evidence_digest : sac_evidence_digest stored = Some (arq_evidence_digest request);
  ro_evidence_ref : sac_evidence_ref stored = Some (arq_evidence_ref request)
}.

Lemma existing_result_of stored request a :
  existing_result_disposition stored request = Ok a ->
  exists id digest, a = ActivityResultDispositionV1_Recorded id digest (arq_outcome request) /\
    result_of stored request id digest.
Proof.
  unfold existing_result_disposition, required_claim_field, ok_or. intros Hd. guards.
  repeat case_match; simplify_eq. do 2 eexists. by split.
Qed.

Lemma by_idempotency_settled db k run_id key stored :
  k = (uuid_to_string run_id, key) -> settled db k stored ->
  activity_claim_by_idempotency db run_id key = Ok (Some stored).
Proof.
  intros -> (row & Hk & _ & Hr). unfold activity_claim_by_idempotency. rewrite Hk. cbn. by rewrite Hr.
Qed.

Lemma result_recorded db request authority key signer now event_id id digest outcome appended db' :
  uuid_ok event_id ->
  result_in_transaction db request authority key signer now event_id
    = Ok ((ActivityResultDispositionV1_Recorded id digest outcome, appended), db') ->
  outcome = arq_outcome request /\
  exists stored, result_of stored request id digest /\
    settled db' (uuid_to_string (arq_run_id request), arq_idempotency_key request) stored.
Proof.
  intros Hid Hr. unfold result_in_transaction in Hr. apply bind_ok in Hr as (found & Hf & Hr). cbn beta in Hr.
  destruct found as [existing|]; [|done]. unfold activity_claim_by_idempotency in Hf.
  destruct (ld_activity_claims db !! _) as [row|] eqn:Hk; [|done]. cbn in Hf. unfold of_store in Hf.
  destruct (stored_activity_claim_from_row row) as [stored|] eqn:Hs; [|done]. cbn in Hf. simplify_eq.
  guards; simplify_eq.
  - match goal with Hx : existing_result_disposition _ _ = Ok _ |- _ => apply existing_result_of in Hx as (? & ? & ? & Ho) end.
    simplify_eq. split; [done|]. exists existing. split; [done|]. exists row. split; [done|]. split; [|done].
    unfold stored_activity_claim_from_row in Hs. guards; by simplify_eq/=.
  - unfold canonical_event, of_store in *. guards.
    match goal with Hc : canonicalize _ = Ok ?event |- _ => apply canonicalize_same in Hc; subst event end.
    match goal with Hx : insert_signed_event _ _ _ _ _ = Ok _ |- _ => apply insert_signed_event_ok in Hx as (_ & Hc & _) end.
    match goal with Hx : record_claim_result _ _ _ _ _ = Ok _ |- _ => apply record_claim_result_ok in Hx as (row1 & Hk1 & _ & ->) end.
    rewrite Hc, Hk in Hk1. simplify_eq. split; [done|].
    eexists. split; [|eexists; cbn; rewrite lookup_insert_eq; split; [done|]; split; [done|by apply recorded_row_reads]].
    by split.
Qed.

Lemma settled_result db request authority key signer now event_id stored a appended db' :
  settled db (uuid_to_string (arq_run_id request), arq_idempotency_key request) stored ->
  result_in_transaction db request authority key signer now event_id = Ok ((a, appended), db') ->
  db' = db /\ existing_result_disposition stored request = Ok a.
Proof.
  intros Hset Hr. unfold result_in_transaction in Hr.
  rewrite (by_idempotency_settled _ _ _ _ _ eq_refl Hset) in Hr. cbn [result_bind] in Hr.
  rewrite (settled_state _ _ _ Hset) in Hr. guards; by simplify_eq.
Qed.

Lemma settled_claim db request authority key signer now purpose event_id lease stored a appended db' :
  settled db (uuid_to_string (acq_run_id request), acq_idempotency_key request) stored ->
  claim_in_transaction db request authority key signer now purpose event_id lease = Ok ((a, appended), db') ->
  db' = db /\ exists id digest outcome,
    a = ActivityClaimDispositionV1_Recorded (sac_claim_event_id stored) id digest outcome /\
    sac_result_event_id stored = Some id /\ sac_result_event_digest stored = Some digest /\
    sac_result_outcome stored = Some outcome.
Proof.
  intros Hset Hr. unfold claim_in_transaction in Hr.
  rewrite (by_idempotency_settled _ _ _ _ _ eq_refl Hset) in Hr. cbn [result_bind] in Hr.
  unfold claim_existing, existing_claim_disposition, required_claim_field, ok_or in Hr.
  rewrite (settled_state _ _ _ Hset) in Hr. guards; repeat case_match; simplify_eq; by eauto 10.
Qed.

Lemma settled_heartbeat db request authority key signer now event_id stored a appended db' :
  settled db (uuid_to_string (ahq_run_id request), ahq_idempotency_key request) stored ->
  heartbeat_in_transaction db request authority key signer now event_id = Ok ((a, appended), db') ->
  db' = db /\ exists id digest expires, a = ActivityHeartbeatDispositionV1_Existing id digest expires.
Proof.
  intros Hset Hr. unfold heartbeat_in_transaction in Hr.
  rewrite (by_idempotency_settled _ _ _ _ _ eq_refl Hset) in Hr. cbn [result_bind] in Hr.
  rewrite (settled_state _ _ _ Hset) in Hr. guards; try discriminate; simplify_eq; by eauto.
Qed.

(** C14. A result is final.  Once a result call answered [Recorded] for an
    idempotency key of a run, whatever operations follow: a later result call for
    the key writes nothing and, if it answers, repeats that answer and carried the
    same outcome, result and evidence; a claim of the key writes nothing and can
    only be answered with that result; a heartbeat for the key writes nothing and
    can only repeat one recorded before. *)
Theorem recorded_results_are_final request authority key signer now event_id s id digest outcome s1 ops s2 :
  uuid_ok event_id ->
  record_activity_result_v1_at request authority key signer now event_id s
    = (Ok (ActivityResultDispositionV1_Recorded id digest outcome), s1) ->
  s2 = after_lane s1 ops ->
  (forall request' authority' key' signer' now' event_id' r s3,
    arq_run_id request' = arq_run_id request ->
    arq_idempotency_key request' = arq_idempotency_key request ->
    record_activity_result_v1_at request' authority' key' signer' now' event_id' s2 = (r, s3) ->
    ls_conn s3 = ls_conn s2 /\
    (forall a, r = Ok a -> a = ActivityResultDispositionV1_Recorded id digest outcome /\
      arq_outcome request' = arq_outcome request /\
      arq_result_digest request' = arq_result_digest request /\
      arq_result_ref request' = arq_result_ref request /\
      arq_evidence_digest request' = arq_evidence_digest request /\
      arq_evidence_ref request' = arq_evidence_ref request)) /\
  (forall request' authority' key' signer' now' purpose' event_id' lease' r s3,
    acq_run_id request' = arq_run_id request ->
    acq_idempotency_key request' = arq_idempotency_key request ->
    claim_activity_v1_at request' authority' key' signer' now' purpose' event_id' lease' s2 = (r, s3) ->
    ls_conn s3 = ls_conn s2 /\
    (forall a, r = Ok a -> exists claim_id,
      a = ActivityClaimDispositionV1_Recorded claim_id id digest outcome)) /\
  (forall request' authority' key' signer' now' event_id' r s3,
    ahq_run_id request' = arq_run_id request ->
    ahq_idempotency_key request' = arq_idempotency_key request ->
    heartbeat_activity_v1_at request' authority' key' signer' now' event_id' s2 = (r, s3) ->
    ls_conn s3 = ls_conn s2 /\
    (forall a, r = Ok a -> exists hid hdigest expires,
      a = ActivityHeartbeatDispositionV1_Existing hid hdigest expires)).
Proof.
  intros Hid [(a & appended & Hr & [= <-])|[_ [e [=]]]]%result_cases ->.
  apply result_recorded in Hr as (-> & stored & Ho & Hset); [|done].
  apply (settled_extends _ _ _ _ (after_lane_extends s1 ops)) in Hset.
  split; [|split].
  - intros request' authority' key' signer' now' event_id' r s3 Hrun Hkey.
    rewrite <- Hrun, <- Hkey in Hset.
    intros [(a & ap & (Hdb & Ha)%(settled_result _ _ _ _ _ _ _ _ _ _ _ Hset) & ->)|[-> [e ->]]]%result_cases;
      [|done]. split; [done|]. intros a' [= <-]. apply existing_result_of in Ha as (id' & digest' & -> & Ho').
    destruct Ho, Ho'. simplify_eq. split_and!; congruence.
  - intros request' authority' key' signer' now' purpose' event_id' lease' r s3 Hrun Hkey.
    rewrite <- Hrun, <- Hkey in Hset.
    intros [(t & a & ap & _ & (Hdb & id' & digest' & outcome' & -> & Hi & Hd & Hout)%(settled_claim _ _ _ _ _ _ _ _ _ _ _ _ _ Hset) & ->)|[-> [e ->]]]%claim_cases;
      [|done]. split; [done|]. intros a' [= <-]. destruct Ho. exists (sac_claim_event_id stored). congruence.
  - intros request' authority' key' signer' now' event_id' r s3 Hrun Hkey.
    rewrite <- Hrun, <- Hkey in Hset.
    intros [(a & ap & (Hdb & hid & hd & ex & ->)%(settled_heartbeat _ _ _ _ _ _ _ _ _ _ _ Hset) & ->)|[-> [e ->]]]%heartbeat_cases;
      [|done]. split; [done|]. intros a' [= <-]. by do 3 eexists.
Qed.
End Results.

(** ** No lease outlives the dispatch *)
Section Bounds.
Context `{Host, Canonicalizer, Crypto, RowDecoder, RowEncoder, !Millis}.
Implicit Types (db : LaneDatabase) (s : LaneStore).

(** The instant a signed envelope ends at: its expiry, or earlier when its compute
    budget runs out. *)
Definition signed_deadline (dispatch : DispatchEnvelopeV3) (deadline : DateTime) : Prop :=
  exists issued expires limited,
    parse_claim_timestamp (deb2_issued_at (de3_body dispatch)) = Ok issued /\
    parse_claim_timestamp (deb2_expires_at (de3_body dispatch)) = Ok expires /\
    dispatch_deadline (deb2_budget (de3_body dispatch)) issued expires = Ok (deadline, limited).

(** The event [id] is on the tape, verified for the dispatch signer, and carries
    [dispatch]. *)
Definition signed_dispatch db (authority : ActivityClaimAuthorityV1) (id : EventId)
    (dispatch : DispatchEnvelopeV3) : Prop :=
  exists label event material,
    load_verified_authority_event (ld_tape db) id (aca_trusted_keys authority)
      (aca_dispatch_signer authority) label = Ok event /\
    dispatch_authority_material (ev_payload event) = Some material /\
    dam_dispatch material = dispatch.

Lemma validate_window dispatch now window :
  validate_governed_dispatch dispatch now = Ok window ->
  signed_deadline dispatch (gdw_effective_deadline window) /\ now < gdw_effective_deadline window.
Proof.
  unfold validate_governed_dispatch. intros Hv. guards. subst window. cbn. split; [by do 3 eexists|done].
Qed.

Lemma evidence_window db request authority now evidence :
  verify_claim_evidence (ld_tape db) request authority now = Ok evidence ->
  exists dispatch, signed_dispatch db authority (acq_dispatch_event_id request) dispatch /\
    signed_deadline dispatch (vce_effective_deadline evidence).
Proof.
  unfold verify_claim_evidence, verify_claim_evidence_from_dispatch_material. intros Hv. guards.
  destruct (ev_payload _) eqn:Hp in Hv; try discriminate. guards. subst evidence. cbn.
  match goal with Hw : validate_governed_dispatch _ _ = Ok _ |- _ => apply validate_window in Hw as [Hw _] end.
  eexists. split; [|done]. by do 3 eexists.
Qed.

Lemma current_window db claim authority now window :
  verify_current_activity_claim_authority db claim authority now = Ok window ->
  exists dispatch, signed_dispatch db authority (sac_dispatch_event_id claim) dispatch /\
    signed_deadline dispatch (gdw_effective_deadline window).
Proof.
  unfold verify_current_activity_claim_authority. intros Hv. guards.
  apply validate_window in Hv as [Hw _]. eexists. split; [|done]. by do 3 eexists.
Qed.

Lemma timestamp_reads t : parse_claim_timestamp (timestamp t) = Ok (ms_floor t).
Proof. unfold parse_claim_timestamp, timestamp. by rewrite millis_utc, millis_reads. Qed.

Lemma canonical_now now now' : canonical_ledger_timestamp now = Ok now' -> now' = ms_floor now.
Proof. unfold canonical_ledger_timestamp. rewrite timestamp_reads. by intros [= <-]. Qed.

Lemma extension_bounded db claim authority t heartbeats t' :
  extend_lease_all db claim authority t heartbeats = Ok t' ->
  t' = t \/ t < t' /\ exists dispatch deadline,
    signed_dispatch db authority (sac_dispatch_event_id claim) dispatch /\
    signed_deadline dispatch deadline /\ t' <= deadline.
Proof.
  revert t. induction heartbeats as [|h hs IH]; intros t; cbn [extend_lease_all]; [intros [= ->]; by left|].
  intros (t1 & Ht & Hrest)%bind_ok. unfold extend_lease in Ht. guards. subst.
  match goal with Hw : verify_current_activity_claim_authority _ _ _ _ = Ok _ |- _ =>
    apply current_window in Hw as (d & Hd & Hs) end.
  right. apply IH in Hrest as [->|[Hlt Hex]]; [|split; [lia|done]].
  split; [lia|]. exists d. eexists. split_and!; [done|done|lia].
Qed.

(** C17. No lease outlives the signed dispatch.  A grant and a recorded heartbeat
    end no later than the deadline of the dispatch event on the tape, verified for
    the dispatch signer; and in any database, whatever its tables hold, the
    effective expiry of a claim is the one it was granted with or a later instant
    within that deadline. *)
Theorem leases_stay_within_the_dispatch s :
  (forall request authority key signer now purpose id lease claim_id digest lease_id expires s',
    claim_activity_v1_at request authority key signer now purpose id lease s
      = (Ok (ActivityClaimDispositionV1_Granted claim_id digest lease_id expires), s') ->
    exists dispatch deadline t requested,
      signed_dispatch (ls_conn s) authority (acq_dispatch_event_id request) dispatch /\
      signed_deadline dispatch deadline /\
      checked_add_milliseconds (ms_floor now) (acq_lease_duration_ms request) = Some requested /\
      parse_claim_timestamp expires = Ok t /\ t <= deadline /\ t <= requested) /\
  (forall request authority key signer now id hid digest expires s',
    heartbeat_activity_v1_at request authority key signer now id s
      = (Ok (ActivityHeartbeatDispositionV1_Recorded hid digest expires), s') ->
    exists claim current dispatch deadline t,
      activity_claim_by_idempotency (ls_conn s) (ahq_run_id request) (ahq_idempotency_key request)
        = Ok (Some claim) /\
      effective_activity_lease_expiry (ls_conn s) claim authority = Ok current /\ now < current /\
      signed_dispatch (ls_conn s) authority (sac_dispatch_event_id claim) dispatch /\
      signed_deadline dispatch deadline /\ parse_claim_timestamp expires = Ok t /\ t <= deadline) /\
  (forall db claim authority t,
    effective_activity_lease_expiry db claim authority = Ok t ->
    exists granted, parse_claim_timestamp (sac_lease_expires_at claim) = Ok granted /\
      (t = granted \/ granted < t /\ exists dispatch deadline,
        signed_dispatch db authority (sac_dispatch_event_id claim) dispatch /\
        signed_deadline dispatch deadline /\ t <= deadline)).
Proof.
  split; [|split].
  - intros request authority key signer now purpose id lease claim_id digest lease_id expires s'.
    intros [(now' & a & appended & Hnow & Hc & [= <-])|[_ [e [=]]]]%claim_cases.
    apply canonical_now in Hnow as ->.
    apply claim_granted in Hc as (_ & _ & evidence & event & claim & requested & t & db1 & [Hv Hsum -> _ _ _ _] & _ & _ & -> & _).
    apply evidence_window in Hv as (dispatch & Hd & Hs).
    do 4 eexists. split; [exact Hd|]. split; [exact Hs|]. split; [exact Hsum|].
    split; [apply timestamp_reads|].
    pose proof (ms_floor_le (Z.min requested (vce_effective_deadline evidence))). lia.
  - intros request authority key signer now id hid digest expires s'.
    intros [(a & appended & Hc & [= <-])|[_ [e [=]]]]%heartbeat_cases.
    unfold heartbeat_in_transaction, extend_claim, canonical_event, of_store in Hc. guards; try discriminate; simplify_eq.
    match goal with Hw : verify_current_activity_claim_authority _ _ _ _ = Ok ?w |- _ =>
      apply current_window in Hw as (d & Hd & Hs); pose proof (fun r => ms_floor_le (Z.min r (gdw_effective_deadline w))) as Hfl end.
    do 5 eexists. split; [done|]. split; [done|]. split; [done|]. split; [done|]. split; [done|].
    split; [apply timestamp_reads|]. etrans; [apply Hfl|lia].
  - intros db claim authority t (granted & Hg & (hs & _ & He)%bind_ok)%bind_ok.
    exists granted. split; [done|]. by apply extension_bounded in He.
Qed.
End Bounds.

(** ** Heartbeats that do not move the lease *)
Section Wedge.
Context `{Host, Canonicalizer, Crypto, RowDecoder, RowEncoder}.
Implicit Types (db : LaneDatabase) (s : LaneStore).

(** How an operation changes the claim table: not at all, by a new row, or by the
    result of a claim whose effective expiry it could derive. *)
Inductive claims_change db db' : Prop :=
| change_none : ld_activity_claims db' = ld_activity_claims db -> claims_change db db'
| change_grant row :
    ld_activity_claims db !! (clr_run_id row, clr_idempotency_key row) = None ->
    ld_activity_claims db' = <[(clr_run_id row, clr_idempotency_key row) := row]> (ld_activity_claims db) ->
    claims_change db db'
| change_result k row row' stored authority t :
    ld_activity_claims db !! k = Some row -> stored_activity_claim_from_row row = Ok stored ->
    effective_activity_lease_expiry db stored authority = Ok t -> row_advances row row' ->
    ld_activity_claims db' = <[k := row']> (ld_activity_claims db) ->
    claims_change db db'.

Lemma claim_change request authority key signer now purpose id lease s :
  claims_change (ls_conn s)
    (ls_conn (claim_activity_v1_at request authority key signer now purpose id lease s).2).
Proof.
  destruct (claim_activity_v1_at _ _ _ _ _ _ _ _ s) as [r s'] eqn:Hc. cbn [snd].
  apply claim_cases in Hc as [(t & a & appended & _ & Hc & _)|[-> _]]; [|by apply change_none].
  unfold claim_in_transaction, grant_claim, of_store in Hc. guards; [simplify_eq; apply change_none; congruence|].
  destruct (ev_payload _) in Hc; try discriminate. guards. simplify_eq.
  match goal with Hx : insert_signed_event _ _ _ _ _ = Ok _ |- _ => apply insert_signed_event_ok in Hx as (_ & Hcl & _) end.
  match goal with Hx : insert_activity_claim _ _ = Ok _ |- _ => apply insert_activity_claim_ok in Hx as (_ & _ & Hn & Hi) end.
  rewrite Hcl in Hn, Hi. by eapply change_grant.
Qed.

Lemma result_change request authority key signer now id s :
  claims_change (ls_conn s)
    (ls_conn (record_activity_result_v1_at request authority key signer now id s).2).
Proof.
  destruct (record_activity_result_v1_at _ _ _ _ _ _ s) as [r s'] eqn:Hc. cbn [snd].
  apply result_cases in Hc as [(a & appended & Hc & _)|[-> _]]; [|by apply change_none].
  unfold result_in_transaction in Hc. apply bind_ok in Hc as (found & Hf & Hc). cbn beta in Hc.
  destruct found as [existing|]; [|done]. unfold activity_claim_by_idempotency in Hf.
  destruct (ld_activity_claims (ls_conn s) !! _) as [row|] eqn:Hk; [|done]. cbn in Hf. unfold of_store in Hf.
  destruct (stored_activity_claim_from_row row) as [stored|] eqn:Hs; [|done]. cbn in Hf. simplify_eq.
  guards; simplify_eq; try (apply change_none; congruence).
  match goal with Hx : insert_signed_event _ _ _ _ _ = Ok _ |- _ => apply insert_signed_event_ok in Hx as (_ & Hcl & _) end.
  match goal with Hx : record_claim_result _ _ _ _ _ = Ok _ |- _ => apply record_claim_result_ok in Hx as (row1 & Hk1 & Hg & ->) end.
  rewrite Hcl in Hk1 |- *. rewrite Hk in Hk1. simplify_eq.
  eapply change_result; [exact Hk|exact Hs|done| |done]. by right.
Qed.

Lemma heartbeat_change request authority key signer now id s :
  claims_change (ls_conn s)
    (ls_conn (heartbeat_activity_v1_at request authority key signer now id s).2).
Proof.
  destruct (heartbeat_activity_v1_at _ _ _ _ _ _ s) as [r s'] eqn:Hc. cbn [snd].
  apply heartbeat_cases in Hc as [(a & appended & Hc & _)|[-> _]]; [|by apply change_none].
  unfold heartbeat_in_transaction, extend_claim, of_store in Hc. guards; simplify_eq; try (apply change_none; congruence).
  match goal with Hx : insert_signed_event _ _ _ _ _ = Ok _ |- _ => apply insert_signed_event_ok in Hx as (_ & Hcl & _) end.
  match goal with Hx : insert_activity_heartbeat _ _ = Ok _ |- _ => apply insert_activity_heartbeat_ok in Hx as (_ & Hi & _) end.
  apply change_none. congruence.
Qed.

Lemma run_lane_change op s : claims_change (ls_conn s) (ls_conn (run_lane op s).2).
Proof.
  destruct op; cbn [run_lane]; rewrite ?forget_snd.
  - unfold on_tape. destruct (run_op op (tape_store s)) as [r s']. by apply change_none.
  - apply claim_change.
  - unfold claim_governed_verifier_v1_at, lane_bind, lane_lift, lane_read.
    repeat (case_match; try (by apply change_none); cbn [snd]); simplify_eq; try (by apply change_none). apply claim_change.
  - apply heartbeat_change.
  - apply result_change.
  - unfold record_governed_verifier_result_v1_at, lane_bind at 1, lane_lift, lane_read.
    destruct (require_protected_governed_realm authority) as [[]|]; [|by apply change_none].
    case_match; [by apply change_none|]. unfold lane_bind. case_match; simplify_eq; [|by apply change_none]. apply result_change.
Qed.

(** Every row is stored under its own columns. *)
Definition keyed db : Prop :=
  forall k row, ld_activity_claims db !! k = Some row -> k = (clr_run_id row, clr_idempotency_key row).

Lemma keyed_after s ops : keyed (ls_conn s) -> keyed (ls_conn (after_lane s ops)).
Proof.
  revert s. induction ops as [|op ops IH]; intros s Hk; cbn [after_lane foldl]; [done|]. apply IH.
  intros k1 row1.
  destruct (run_lane_change op s) as [->|row Hn ->|k row row' stored authority t Hk1 _ _ Hadv ->]; [by apply Hk| |];
    intros [[<- <-]|[_ Hk2]]%lookup_insert_Some; [done|by apply Hk| |by apply Hk].
  apply advances_columns in Hadv as (-> & -> & _). by apply Hk.
Qed.

(** A row of the claim's heartbeats whose lease text is the one it extends. *)
Definition stuck db (run claim_event : string) : Prop :=
  exists k row, ld_activity_claim_heartbeats db !! k = Some row /\ hbr_run_id row = run /\
    hbr_claim_event_id row = claim_event /\ hbr_lease_expires_at row = hbr_prior_lease_expires_at row.

Lemma extend_all_in db claim authority t heartbeats t' h :
  extend_lease_all db claim authority t heartbeats = Ok t' -> h ∈ heartbeats ->
  exists t0 t1, extend_lease db claim authority t0 h = Ok t1.
Proof.
  revert t. induction heartbeats as [|h' hs IH]; intros t; cbn [extend_lease_all]; [by intros _ ?%not_elem_of_nil|].
  intros (t1 & Ht & Hrest)%bind_ok [->|Hin]%elem_of_cons; [by exists t, t1|by eapply IH].
Qed.

Lemma stuck_has_no_expiry db claim authority t :
  stuck db (uuid_to_string (sac_run_id claim)) (uuid_to_string (sac_claim_event_id claim)) ->
  effective_activity_lease_expiry db claim authority <> Ok t.
Proof.
  intros (k & row & Hk & Hr & Hc & Htext) (t0 & _ & (hs & Hhs & He)%bind_ok)%bind_ok.
  unfold activity_heartbeats_for_claim in Hhs.
  assert (row ∈ heartbeat_rows_for_claim db (sac_run_id claim) (sac_claim_event_id claim)) as Hin.
  { unfold heartbeat_rows_for_claim. rewrite merge_sort_Permutation. apply elem_of_filter_bool.
    split; [|by rewrite !bool_decide_true]. apply list_elem_of_fmap. exists (k, row).
    split; [done|by apply elem_of_map_to_list]. }
  apply collect_results_ok in Hhs. apply list_elem_of_lookup_1 in Hin as [i Hi].
  destruct (Forall2_lookup_l _ _ _ _ _ Hhs Hi) as (h & Hh%list_elem_of_lookup_2 & Hrow).
  eapply extend_all_in in He as (t1 & t2 & He); [|exact Hh].
  unfold extend_lease in He. guards. subst. unfold of_store, stored_activity_heartbeat_from_row in Hrow. guards. subst h. cbn in *.
  rewrite Htext in *.
  match goal with Hp : parse_claim_timestamp ?x = Ok ?a, Hq : parse_claim_timestamp ?x = Ok ?b |- _ =>
    assert (a = b) by congruence end. lia.
Qed.

(** The row under [k] is a granted claim with a stuck heartbeat. *)
Definition wedged db k (claim : StoredActivityClaim) : Prop :=
  (exists row, ld_activity_claims db !! k = Some row /\ clr_state row = "granted" /\
     stored_activity_claim_from_row row = Ok claim) /\
  stuck db (uuid_to_string (sac_run_id claim)) (uuid_to_string (sac_claim_event_id claim)).

Lemma stuck_extends db db' run claim_event :
  ld_activity_claim_heartbeats db ⊆ ld_activity_claim_heartbeats db' ->
  stuck db run claim_event -> stuck db' run claim_event.
Proof. intros Hsub (k & row & Hk & Hrest). exists k, row. split; [by eapply lookup_weaken|done]. Qed.

Lemma wedged_after s ops k claim :
  wedged (ls_conn s) k claim -> wedged (ls_conn (after_lane s ops)) k claim.
Proof.
  revert s. induction ops as [|op ops IH]; intros s Hw; cbn [after_lane foldl]; [done|]. apply IH.
  destruct Hw as ((row & Hk & Hg & Hr) & Hst). split; [|by eapply stuck_extends; [apply run_lane_extends|]].
  destruct (run_lane_change op s) as [->|row1 Hn ->|k1 row1 row' stored authority t Hk1 Hr1 He Hadv ->]; [by eauto| |].
  - exists row. rewrite lookup_insert_ne; [done|]. intros <-. congruence.
  - destruct (decide (k1 = k)) as [->|Hne]; [|exists row; by rewrite lookup_insert_ne].
    exfalso. rewrite Hk in Hk1. simplify_eq. rewrite Hr in Hr1. simplify_eq. by eapply stuck_has_no_expiry.
Qed.

Lemma wedged_read db k run_id key claim :
  wedged db k claim -> k = (uuid_to_string run_id, key) ->
  activity_claim_by_idempotency db run_id key = Ok (Some claim) /\
  sac_state claim = StoredActivityClaimState_Granted.
Proof.
  intros [(row & Hk & Hg & Hr) _] ->. unfold activity_claim_by_idempotency. rewrite Hk. cbn. rewrite Hr.
  split; [done|]. unfold stored_activity_claim_from_row in Hr. rewrite Hg in Hr. guards; by subst claim.
Qed.

Lemma wedged_expiry db k claim authority t :
  wedged db k claim -> effective_activity_lease_expiry db claim authority <> Ok t.
Proof. intros [_ Hst]. by apply stuck_has_no_expiry. Qed.

Lemma wedged_result db request authority key signer now id claim x :
  wedged db (uuid_to_string (arq_run_id request), arq_idempotency_key request) claim ->
  result_in_transaction db request authority key signer now id <> Ok x.
Proof.
  intros Hw Hr. destruct (wedged_read _ _ _ _ _ Hw eq_refl) as [Hread Hstate].
  unfold result_in_transaction in Hr. rewrite Hread in Hr. cbn [result_bind] in Hr. rewrite Hstate in Hr.
  guards; try discriminate; by eapply wedged_expiry.
Qed.

Lemma wedged_claim db request authority key signer now purpose id lease claim x :
  wedged db (uuid_to_string (acq_run_id request), acq_idempotency_key request) claim ->
  claim_in_transaction db request authority key signer now purpose id lease <> Ok x.
Proof.
  intros Hw Hr. destruct (wedged_read _ _ _ _ _ Hw eq_refl) as [Hread Hstate].
  unfold claim_in_transaction in Hr. rewrite Hread in Hr. cbn [result_bind] in Hr.
  unfold claim_existing in Hr. guards; by eapply wedged_expiry.
Qed.

Lemma wedged_heartbeat db request authority key signer now id claim a appended db' :
  wedged db (uuid_to_string (ahq_run_id request), ahq_idempotency_key request) claim ->
  heartbeat_in_transaction db request authority key signer now id = Ok ((a, appended), db') ->
  exists hid digest expires, a = ActivityHeartbeatDispositionV1_Existing hid digest expires.
Proof.
  intros Hw Hr. destruct (wedged_read _ _ _ _ _ Hw eq_refl) as [Hread Hstate].
  unfold heartbeat_in_transaction in Hr. rewrite Hread in Hr. cbn [result_bind] in Hr. rewrite Hstate in Hr.
  guards; try discriminate; simplify_eq; try (exfalso; by eapply wedged_expiry). by do 3 eexists.
Qed.

Lemma heartbeat_recorded db request authority key signer now id hid digest expires appended db' :
  heartbeat_in_transaction db request authority key signer now id
    = Ok ((ActivityHeartbeatDispositionV1_Recorded hid digest expires, appended), db') ->
  exists claim current row,
    activity_claim_by_idempotency db (ahq_run_id request) (ahq_idempotency_key request) = Ok (Some claim) /\
    sac_state claim = StoredActivityClaimState_Granted /\
    effective_activity_lease_expiry db claim authority = Ok current /\
    ld_activity_claims db' = ld_activity_claims db /\
    ld_activity_claim_heartbeats db' !! (uuid_to_string (ahq_run_id request), ahq_heartbeat_id request) = Some row /\
    hbr_run_id row = uuid_to_string (ahq_run_id request) /\
    hbr_claim_event_id row = uuid_to_string (sac_claim_event_id claim) /\
    hbr_prior_lease_expires_at row = timestamp current /\ hbr_lease_expires_at row = expires.
Proof.
  intros Hc. unfold heartbeat_in_transaction, extend_claim, of_store in Hc. guards; try discriminate; simplify_eq.
  match goal with Hx : insert_signed_event _ _ _ _ _ = Ok _ |- _ => apply insert_signed_event_ok in Hx as (_ & Hcl & _) end.
  match goal with Hx : insert_activity_heartbeat _ _ = Ok _ |- _ => apply insert_activity_heartbeat_ok in Hx as (_ & Hi & _ & ->) end.
  do 3 eexists. split; [done|]. split; [by destruct (sac_state _)|]. split; [done|]. split; [congruence|].
  split; [apply lookup_insert_eq|]. done.
Qed.
End Wedge.

Section Stuck.
Context `{Host, Canonicalizer, Crypto, RowDecoder, RowEncoder, !RowLaws}.

(** A heartbeat whose new lease text is the text of the expiry it extends leaves
    its claim wedged. *)
Lemma unmoved_heartbeat_wedges request authority key signer now id s hid digest expires s1 claim current :
  keyed (ls_conn s) -> uuid_ok (ahq_run_id request) ->
  heartbeat_activity_v1_at request authority key signer now id s
    = (Ok (ActivityHeartbeatDispositionV1_Recorded hid digest expires), s1) ->
  activity_claim_by_idempotency (ls_conn s) (ahq_run_id request) (ahq_idempotency_key request) = Ok (Some claim) ->
  effective_activity_lease_expiry (ls_conn s) claim authority = Ok current ->
  expires = timestamp current ->
  wedged (ls_conn s1) (uuid_to_string (ahq_run_id request), ahq_idempotency_key request) claim.
Proof.
  intros Hkeyed Hok [(a & appended & Hc & [= <-])|[_ [e [=]]]]%heartbeat_cases Hread Hcur Htext.
  apply heartbeat_recorded in Hc as (claim' & current' & hrow & Hread' & Hst & Hcur' & Hcl & Hh & Hr & Hce & Hp & Hl).
  rewrite Hread in Hread'. simplify_eq. rewrite Hcur in Hcur'. simplify_eq.
  unfold activity_claim_by_idempotency in Hread.
  destruct (ld_activity_claims (ls_conn s) !! _) as [row|] eqn:Hk; [|done]. cbn in Hread. unfold of_store in Hread.
  destruct (stored_activity_claim_from_row row) as [stored|] eqn:Hs; [|done]. cbn in Hread. simplify_eq.
  pose proof (Hkeyed _ _ Hk) as [= Hrow _]. pose proof Hs as Hs'. unfold stored_activity_claim_from_row in Hs'.
  rewrite <- Hrow, uuid_round_trip in Hs' by done. split.
  - exists row. rewrite Hcl. split; [done|]. split; [|done]. guards; by simplify_eq/=.
  - do 2 eexists. split; [exact Hh|]. split; [|by rewrite Hp].
    rewrite Hr. f_equal. guards; by simplify_eq/=.
Qed.

(** C18. A heartbeat that does not move the lease by a millisecond wedges its claim.
    The writer compares the new expiry with the current one before it rounds it
    down, the readers after.  When the rounded text is the text of the expiry it
    extends, the heartbeat is recorded, and from then on, whatever operations
    follow and at any instant: no result for the claim is accepted, not even
    [Unknown]; no claim of its key is answered; and no heartbeat but a repetition
    of a recorded one. *)
Theorem unmoved_heartbeats_wedge_the_claim s0 ops0 s request authority key signer now id
    hid digest expires s1 claim current ops :
  ld_activity_claims (ls_conn s0) = ∅ -> s = after_lane s0 ops0 -> uuid_ok (ahq_run_id request) ->
  heartbeat_activity_v1_at request authority key signer now id s
    = (Ok (ActivityHeartbeatDispositionV1_Recorded hid digest expires), s1) ->
  activity_claim_by_idempotency (ls_conn s) (ahq_run_id request) (ahq_idempotency_key request) = Ok (Some claim) ->
  effective_activity_lease_expiry (ls_conn s) claim authority = Ok current ->
  expires = timestamp current ->
  (forall request' authority' key' signer' now' id' r s2,
    arq_run_id request' = ahq_run_id request -> arq_idempotency_key request' = ahq_idempotency_key request ->
    record_activity_result_v1_at request' authority' key' signer' now' id' (after_lane s1 ops) = (r, s2) ->
    exists e, r = Err e) /\
  (forall request' authority' key' signer' now' purpose' id' lease' r s2,
    acq_run_id request' = ahq_run_id request -> acq_idempotency_key request' = ahq_idempotency_key request ->
    claim_activity_v1_at request' authority' key' signer' now' purpose' id' lease' (after_lane s1 ops) = (r, s2) ->
    exists e, r = Err e) /\
  (forall request' authority' key' signer' now' id' a s2,
    ahq_run_id request' = ahq_run_id request -> ahq_idempotency_key request' = ahq_idempotency_key request ->
    heartbeat_activity_v1_at request' authority' key' signer' now' id' (after_lane s1 ops) = (Ok a, s2) ->
    exists hid' digest' expires', a = ActivityHeartbeatDispositionV1_Existing hid' digest' expires').
Proof.
  intros Hempty -> Hok Hh Hread Hcur Htext.
  assert (keyed (ls_conn (after_lane s0 ops0))) as Hkeyed.
  { apply keyed_after. intros k row. by rewrite Hempty, lookup_empty. }
  pose proof (wedged_after _ ops _ _ (unmoved_heartbeat_wedges _ _ _ _ _ _ _ _ _ _ _ _ _ Hkeyed Hok Hh Hread Hcur Htext)) as Hw.
  split; [|split].
  - intros request' authority' key' signer' now' id' r s2 Hr Hk. rewrite <- Hr, <- Hk in Hw.
    intros [(a & ap & Hc & _)|[_ He]]%result_cases; [|done]. by apply (wedged_result _ _ _ _ _ _ _ _ _ Hw) in Hc.
  - intros request' authority' key' signer' now' purpose' id' lease' r s2 Hr Hk. rewrite <- Hr, <- Hk in Hw.
    intros [(t & a & ap & _ & Hc & _)|[_ He]]%claim_cases; [|done]. by apply (wedged_claim _ _ _ _ _ _ _ _ _ _ _ Hw) in Hc.
  - intros request' authority' key' signer' now' id' a s2 Hr Hk. rewrite <- Hr, <- Hk in Hw.
    intros [(a' & ap & Hc & [= ->])|[_ [e [=]]]]%heartbeat_cases. by eapply wedged_heartbeat.
Qed.
End Stuck.

(** ** Instants between milliseconds *)
Section Instants.
Context `{Host, Canonicalizer, Crypto, RowDecoder, RowEncoder, !FaithfulCanonicalizer, !Millis}.
Implicit Types (db : LaneDatabase) (s : LaneStore).

(** [event] is on the tape under its id, signed, with the text of its own payload. *)
Definition stored_signed db (event : Event) : Prop :=
  exists text key signer at_ signature,
    payload_to_string (ev_payload event) = Ok text /\
    sign_event event key signer at_ = Ok signature /\
    db_events (ld_tape db) !! uuid_to_string (ev_id event) = Some (event_row event text).

Lemma inserted_event db event key signer now digest db' :
  insert_signed_event db event key signer now = Ok (digest, db') -> stored_signed db' event.
Proof.
  unfold insert_signed_event, of_store, insert_event_signature. intros Hi. guards. simplify_eq.
  match goal with Hx : insert_event _ _ = Ok _ |- _ => apply insert_event_ok in Hx as (text & Htext & _ & ->) end.
  do 5 eexists. split; [exact Htext|]. split; [eassumption|]. cbn. apply lookup_insert_eq.
Qed.

Lemma utc_text t : parse_rfc3339_utc (timestamp t) = Some (ms_floor t).
Proof. unfold parse_rfc3339_utc, timestamp. by rewrite millis_utc, millis_reads. Qed.

Lemma result_time_bound claim event result :
  activity_result_timestamp_is_valid claim event result true = true ->
  parse_rfc3339_utc (arx_recorded_at result) = Some (ev_occurred_at event).
Proof.
  unfold activity_result_timestamp_is_valid.
  destruct (parse_rfc3339_utc (acls_claimed_at claim)); [|done].
  destruct (parse_rfc3339_utc (acls_lease_expires_at claim)); [|done].
  destruct (parse_rfc3339_utc (arx_recorded_at result)); [|done]. cbn. intros Hv. bool_simp. congruence.
Qed.

Lemma heartbeat_time_bound workflow claim event heartbeat :
  activity_heartbeat_timestamps_are_valid workflow claim event heartbeat = true ->
  parse_rfc3339_utc (ahb_heartbeat_at heartbeat) = Some (ev_occurred_at event).
Proof.
  unfold activity_heartbeat_timestamps_are_valid.
  destruct (parse_rfc3339_utc (acls_claimed_at claim)); [|done].
  destruct (parse_rfc3339_utc (acls_lease_expires_at claim)); [|done].
  destruct (parse_rfc3339_utc (ahb_heartbeat_at heartbeat)); [|done].
  destruct (parse_rfc3339_utc (ahb_lease_expires_at heartbeat)); [|done].
  destruct (effective_dispatch_effect_deadline workflow); [|done]. cbn. intros Hv. bool_simp. congruence.
Qed.

Lemma result_verdict_time st event result signer st' key action workflow :
  find_v3_workflow_key_for_activity_result st event result = Ok (key, action) ->
  st_workflow_instances st !! key = Some workflow -> requires_activity_claim_result workflow = true ->
  activity_result_recorded_v1_verdict st event result signer = Ok st' ->
  parse_rfc3339_utc (arx_recorded_at result) = Some (ev_occurred_at event).
Proof.
  intros Hfind Hk Hreq Hv. unfold activity_result_recorded_v1_verdict in Hv. rewrite Hfind in Hv. cbn [map_err result_bind] in Hv.
  do 3 (apply bind_ok in Hv as (? & ? & Hv) || (destruct (bool_decide _) in Hv; cbn [negb] in Hv; [|discriminate Hv])).
  apply bind_ok in Hv as (? & ? & Hv). apply bind_ok in Hv as (? & Hc & _). rewrite Hk in Hc.
  guards; rewrite Hreq in *; by eapply result_time_bound.
Qed.

Lemma heartbeat_verdict_time st event heartbeat signer st' :
  activity_heartbeat_recorded_v1_verdict st event heartbeat signer = Ok st' ->
  parse_rfc3339_utc (ahb_heartbeat_at heartbeat) = Some (ev_occurred_at event).
Proof.
  intros Hv. unfold activity_heartbeat_recorded_v1_verdict in Hv.
  apply bind_ok in Hv as (? & _ & Hv). cbn beta in Hv.
  destruct (negb _) in Hv; [discriminate Hv|]. destruct (negb _) in Hv; [discriminate Hv|].
  apply bind_ok in Hv as (? & _ & Hv). apply bind_ok in Hv as ([key action] & _ & Hv). cbn beta iota in Hv.
  apply bind_ok in Hv as (? & Hc & _). guards; by eapply heartbeat_time_bound.
Qed.

Lemma new_result db request authority key signer now id claim rid digest outcome appended db' :
  activity_claim_by_idempotency db (arq_run_id request) (arq_idempotency_key request) = Ok (Some claim) ->
  sac_state claim = StoredActivityClaimState_Granted ->
  result_in_transaction db request authority key signer now id
    = Ok ((ActivityResultDispositionV1_Recorded rid digest outcome, appended), db') ->
  stored_signed db' (result_event request claim now id).
Proof.
  intros Hread Hst Hr. unfold result_in_transaction in Hr. rewrite Hread in Hr. cbn [result_bind] in Hr.
  rewrite Hst in Hr. unfold canonical_event, of_store in Hr. guards; try discriminate; simplify_eq.
  match goal with Hc : canonicalize _ = Ok ?event |- _ => apply canonicalize_same in Hc; subst event end.
  match goal with Hx : record_claim_result _ _ _ _ _ = Ok _ |- _ => apply record_claim_result_ok in Hx as (row1 & _ & _ & ->) end.
  unfold stored_signed. cbn [ld_tape]. match goal with Hx : insert_signed_event _ _ _ _ _ = Ok _ |- _ => by apply inserted_event in Hx end.
Qed.

Lemma new_heartbeat db request authority key signer now id hid digest expires appended db' :
  heartbeat_in_transaction db request authority key signer now id
    = Ok ((ActivityHeartbeatDispositionV1_Recorded hid digest expires, appended), db') ->
  exists claim next,
    activity_claim_by_idempotency db (ahq_run_id request) (ahq_idempotency_key request) = Ok (Some claim) /\
    stored_signed db' (heartbeat_event request (activity_heartbeat_request_digest request) claim now next id).
Proof.
  intros Hr. unfold heartbeat_in_transaction, extend_claim, canonical_event, of_store in Hr.
  guards; try discriminate; simplify_eq.
  match goal with Hc : canonicalize _ = Ok ?event |- _ => apply canonicalize_same in Hc; subst event end.
  match goal with Hx : insert_activity_heartbeat _ _ = Ok _ |- _ => apply insert_activity_heartbeat_ok in Hx as (Ht & _) end.
  match goal with Hx : insert_signed_event _ _ _ _ _ = Ok _ |- _ => apply inserted_event in Hx end.
  do 2 eexists. split; [done|]. unfold stored_signed. by rewrite Ht.
Qed.
End Instants.
