(* ===== verification/LaneTape.v ===== *)
(** * The execution-lease lane: rows and tape

    The claim table against the tape it indexes.  In a session whose lane
    operations run under one authority and its claim key, next to any tape
    operations, every claim row reads back, is bound to a signed event of the
    tape, and, once recorded, to a signed result event ([lane_backed]).  So the
    checks that guard every read do not refuse an honest row, and a repeated
    claim is answered.  Last, what replay reads back from a record written between
    two milliseconds is refused by its reducer. *)
From S2P Require Import Prelude RustStr Host LedgerPayloads TrustSpine Digests Events SigningSpec Tape WorkflowGraph ReplayState ReducerCore ReducerActions Canonicalize CanonicalizeSpec Engine EngineSpec Store StoreRows StoreSeal StoreSpec StoreSession ActivityEvidence RetryContext ActivityLane LaneSpec LaneTheorems.
From stdpp Require Import base list gmap strings sorting.

#[local] Open Scope string_scope.
#[local] Open Scope list_scope.
#[local] Open Scope Z_scope.

(** The payloads the lane writes survive their text column. *)
Class LaneRowLaws `{Host, RowDecoder, RowEncoder} : Prop := {
  claim_round_trip : forall c, payload_reads_back (Payload_ActivityClaimedV1 c);
  heartbeat_round_trip : forall h, payload_reads_back (Payload_ActivityHeartbeatRecordedV1 h);
  result_round_trip : forall r, payload_reads_back (Payload_ActivityResultRecordedV1 r)
}.

Section Loads.
Context `{Host, Canonicalizer, Crypto, RowDecoder, RowEncoder}.

(** What was loaded stays loadable while the tape grows. *)
Lemma load_extends db db' id keys signer label event :
  extends db db' -> load_verified_authority_event db id keys signer label = Ok event ->
  load_verified_authority_event db' id keys signer label = Ok event.
Proof.
  intros [He Hs]. unfold load_verified_authority_event, event_and_signature_by_id.
  destruct (db_events db !! uuid_to_string id) as [row|] eqn:Hrow; [|done].
  rewrite (lookup_weaken _ _ _ _ Hrow He). unfold read_signed_row, signature_for_event.
  destruct (to_event row) as [e|]; [|done]. cbn.
  destruct (db_event_signatures db !! row_id row) as [srow|] eqn:Hsrow; [|done].
  by rewrite (lookup_weaken _ _ _ _ Hsrow Hs).
Qed.

Lemma claim_projection_extends db db' stored authority claim :
  extends (ld_tape db) (ld_tape db') ->
  verify_signed_claim_projection db stored authority = Ok claim ->
  verify_signed_claim_projection db' stored authority = Ok claim.
Proof.
  intros Hext Hv. unfold verify_signed_claim_projection in *. apply bind_ok in Hv as (event & He & Hv).
  by rewrite (load_extends _ _ _ _ _ _ _ Hext He).
Qed.

Lemma result_projection_extends db db' stored authority :
  extends (ld_tape db) (ld_tape db') ->
  verify_signed_activity_result_projection db stored authority = Ok tt ->
  verify_signed_activity_result_projection db' stored authority = Ok tt.
Proof.
  intros Hext Hv. unfold verify_signed_activity_result_projection in *.
  destruct (_ != _); [done|].
  do 6 (apply bind_ok in Hv as (? & ? & Hv); match goal with Hx : _ = Ok _ |- _ => rewrite Hx; clear Hx; cbn [result_bind] end).
  apply bind_ok in Hv as (event & He & Hv). by rewrite (load_extends _ _ _ _ _ _ _ Hext He).
Qed.
End Loads.

Section LaneTape.
Context `{Host, Crypto, RowDecoder, RowEncoder, !RowLaws, !CryptoLaws _, !LaneRowLaws, !Millis}.
Context (event_to_vec : Event -> Result string string).
#[local] Instance lane_ledger : Canonicalizer := ledger_canonicalizer event_to_vec.
Context (authority : ActivityClaimAuthorityV1) (key : SigningKey).
Implicit Types (db : LaneDatabase) (s : LaneStore).

(** The event just stored under the claim key loads for the claim signer. *)
Lemma stored_event_loads db event signer now digest db' label :
  trusts (aca_trusted_keys authority) key ->
  validate_claim_signer authority key signer = Ok tt ->
  uuid_ok (ev_id event) -> uuid_ok (ev_run_id event) -> storable event ->
  insert_signed_event db event key signer now = Ok (digest, db') ->
  load_verified_authority_event (ld_tape db') (ev_id event) (aca_trusted_keys authority)
    (aca_claim_signer authority) label = Ok event /\
  event_digest event = Ok digest.
Proof.
  intros Htrust Hsigner Hid Hrun Hst Hi. unfold insert_signed_event, of_store in Hi. guards. simplify_eq.
  match goal with Hx : sign_event _ _ _ _ = Ok ?sg |- _ => rename Hx into Hs; rename sg into signature end.
  match goal with Hx : insert_event _ _ = Ok _ |- _ => apply insert_event_ok in Hx as (text & Htext & Hfresh & ->) end.
  match goal with Hx : insert_event_signature _ _ = Ok _ |- _ => apply insert_signature_ok in Hx as (_ & _ & ->) end.
  pose proof (sign_event_Ok _ _ _ _ _ Hs) as (message & _ & Hsid & Hhash & _ & Hsg).
  split; [|unfold event_digest; by rewrite Hhash].
  unfold load_verified_authority_event, event_and_signature_by_id, read_signed_row, signature_for_event.
  cbn [ld_tape db_events db_event_signatures]. rewrite lookup_insert_eq. cbn [row_id event_row].
  rewrite Hsid, lookup_insert_eq.
  rewrite (proj2 (to_event_iff _ event)); [|apply canonical_row; [done..| |done]; by eapply (signed_is_canonical event_to_vec)].
  cbn [result_bind]. rewrite (proj2 (to_event_signature_iff _ signature)).
  2: { split; [by destruct signature as [? ? ? [] ? ?]|]. apply signature_row_reads_back. by rewrite Hsid. }
  cbn. rewrite (signed_verifies _ _ _ _ _ _ Hs Htrust). rewrite bool_decide_true by done. cbn.
  unfold validate_claim_signer in Hsigner. guards. unfold actor_matches. rewrite Hsg. cbn.
  repeat match goal with Hx : _ = _ |- _ => rewrite Hx end. rewrite !bool_decide_true by congruence. done.
Qed.

(** ** Rows that read back *)
Definition granted_claim (request : ActivityClaimRequestV1) (evidence : VerifiedClaimEvidence)
    (actor : string) (id : EventId) (digest lease_id expires : string) : StoredActivityClaim :=
  {| sac_run_id := acq_run_id request;
     sac_idempotency_key := acq_idempotency_key request;
     sac_activity_id := acq_activity_id request;
     sac_action_kind := vce_action_kind evidence;
     sac_action_request_event_id := acq_action_request_event_id request;
     sac_action_request_digest := vce_action_request_digest evidence;
     sac_dispatch_event_id := acq_dispatch_event_id request;
     sac_dispatch_envelope_digest := vce_dispatch_envelope_digest evidence;
     sac_authority_actor := actor;
     sac_claim_event_id := id;
     sac_claim_event_digest := digest;
     sac_lease_id := lease_id;
     sac_lease_expires_at := expires;
     sac_lease_duration_ms := acq_lease_duration_ms request;
     sac_state := StoredActivityClaimState_Granted;
     sac_result_event_id := None;
     sac_result_event_digest := None;
     sac_result_outcome := None;
     sac_result_digest := None;
     sac_result_ref := None;
     sac_evidence_digest := None;
     sac_evidence_ref := None;
     sac_recorded_at := None |}.

Definition request_ok (request : ActivityClaimRequestV1) : Prop :=
  uuid_ok (acq_run_id request) /\ uuid_ok (acq_action_request_event_id request) /\
  uuid_ok (acq_dispatch_event_id request).

Lemma claim_row_reads request evidence claim event digest lease_id expires at_ :
  request_ok request -> uuid_ok (ev_id event) -> 0 <= acq_lease_duration_ms request ->
  stored_activity_claim_from_row (claim_row request evidence claim event digest lease_id expires at_)
    = Ok (granted_claim request evidence (acl_authority_actor claim) (ev_id event) digest lease_id expires).
Proof.
  intros (Hrun & Hreq & Hdis) Hid Hdur. unfold stored_activity_claim_from_row.
  cbn -[action_kind_from_value result_outcome_from_value].
  rewrite action_kind_round_trip, !uuid_round_trip by done. by rewrite (proj2 (Z.ltb_ge _ _)).
Qed.

(** A row bound to the signed events it indexes. *)
Record backed db (row : ClaimRow) (stored : StoredActivityClaim) (claim : ActivityClaimedV1) : Prop := {
  bk_read : stored_activity_claim_from_row row = Ok stored;
  bk_run : clr_run_id row = uuid_to_string (sac_run_id stored);
  bk_run_ok : uuid_ok (sac_run_id stored);
  bk_claim_ok : uuid_ok (sac_claim_event_id stored);
  bk_signed : verify_signed_claim_projection db stored authority = Ok claim;
  bk_result : sac_state stored = StoredActivityClaimState_Recorded ->
    verify_signed_activity_result_projection db stored authority = Ok tt
}.

Definition lane_backed db : Prop :=
  forall k row, ld_activity_claims db !! k = Some row ->
    k = (clr_run_id row, clr_idempotency_key row) /\ exists stored claim, backed db row stored claim.

Lemma backed_extends db db' row stored claim :
  extends (ld_tape db) (ld_tape db') -> backed db row stored claim -> backed db' row stored claim.
Proof.
  intros Hext [Hread Hrun Hok Hcok Hsig Hres]. split; try done; [by eapply claim_projection_extends|].
  intros Hst. eapply result_projection_extends; [done|by apply Hres].
Qed.

Lemma backed_key db row stored claim :
  backed db row stored claim -> sac_idempotency_key stored = clr_idempotency_key row.
Proof. intros [Hread _ _ _ _ _]. unfold stored_activity_claim_from_row in Hread. guards; by subst. Qed.

(** The row of a grant is backed by the event it was written with. *)
Lemma grant_backed db request signer now purpose id lease evidence event claim digest requested t db1 db' :
  trusts (aca_trusted_keys authority) key -> validate_claim_signer authority key signer = Ok tt ->
  request_ok request -> uuid_ok id -> 0 <= acq_lease_duration_ms request ->
  granting db request authority key signer now purpose id lease evidence event claim digest requested t db1 db' ->
  ev_id event = id /\ acl_purpose claim = purpose /\
  backed db' (claim_row request evidence claim event digest (uuid_to_string lease) (timestamp t) (timestamp now))
    (granted_claim request evidence (akr_actor_id (aca_claim_signer authority)) id digest
       (uuid_to_string lease) (timestamp t)) claim.
Proof.
  intros Htrust Hsigner Hreq Hid Hdur [_ _ _ Hev Hp Hs Hrow].
  apply canonicalize_same in Hev. subst event. cbn in Hp. injection Hp as <-.
  split; [done|]. split; [done|]. destruct Hreq as (Hrun & Hareq & Hdis).
  apply (stored_event_loads _ _ _ _ _ _ "activity claim" Htrust Hsigner) in Hs as [Hload Hdig];
    [|done|done|by split; [intros ? [= <-]|apply claim_round_trip]].
  destruct (insert_activity_claim_ok _ _ _ Hrow) as (Ht & _).
  split; [by apply claim_row_reads|done|done|done| |done].
  unfold verify_signed_claim_projection. rewrite Ht. cbn [sac_claim_event_id granted_claim ev_id claimed_event] in *.
  rewrite Hload. cbn [result_bind]. rewrite Hdig. cbn -[bool_decide]. rewrite !bool_decide_true by done. done.
Qed.

(** ** Operations keep the rows backed *)
Lemma claim_validated request a k signer now purpose id lease s d s' :
  claim_activity_v1_at request a k signer now purpose id lease s = (Ok d, s') ->
  validate_claim_signer a k signer = Ok tt /\ 0 <= acq_lease_duration_ms request.
Proof.
  unfold claim_activity_v1_at, lane_bind at 1 2, lane_lift, validate_activity_claim_request.
  destruct (_ || _); [done|]. destruct (negb _) eqn:Hd; [done|].
  destruct (validate_claim_signer a k signer) as [[]|]; [|done]. intros _. split; [done|].
  unfold MIN_ACTIVITY_LEASE_MS in Hd. bool_simp. lia.
Qed.

(** A claim writes only when it grants. *)
Lemma claim_writes_grants db request a k signer now purpose id lease d appended db' :
  claim_in_transaction db request a k signer now purpose id lease = Ok ((d, appended), db') ->
  db' = db \/ exists cid digest lid expires, d = ActivityClaimDispositionV1_Granted cid digest lid expires.
Proof.
  unfold claim_in_transaction, grant_claim. intros Hc. guards; [simplify_eq; by left|].
  destruct (ev_payload _) in Hc; try discriminate. guards. simplify_eq. right. by do 4 eexists.
Qed.

Lemma result_validated request a k signer now id s d s' :
  record_activity_result_v1_at request a k signer now id s = (Ok d, s') ->
  validate_claim_signer a k signer = Ok tt.
Proof.
  unfold record_activity_result_v1_at, lane_bind at 1 2, lane_lift.
  destruct (validate_activity_result_request request) as [[]|]; [|done].
  by destruct (validate_claim_signer a k signer) as [[]|].
Qed.

Lemma lane_backed_tables db db' :
  extends (ld_tape db) (ld_tape db') -> ld_activity_claims db' = ld_activity_claims db ->
  lane_backed db -> lane_backed db'.
Proof.
  intros Hext Hc Hb k row. rewrite Hc. intros (Hk & stored & claim & Hbk)%Hb. split; [done|].
  exists stored, claim. by eapply backed_extends.
Qed.

Lemma lane_backed_insert db db' k row stored claim :
  extends (ld_tape db) (ld_tape db') -> ld_activity_claims db' = <[k := row]> (ld_activity_claims db) ->
  k = (clr_run_id row, clr_idempotency_key row) -> backed db' row stored claim ->
  lane_backed db -> lane_backed db'.
Proof.
  intros Hext Hc Hk Hbk Hb k' row'. rewrite Hc. intros [[<- <-]|[_ Hk']]%lookup_insert_Some; [by eauto|].
  apply Hb in Hk' as (-> & stored' & claim' & Hbk'). split; [done|]. exists stored', claim'. by eapply backed_extends.
Qed.

Hypothesis Htrust : trusts (aca_trusted_keys authority) key.

Lemma claim_keeps_backed request signer now purpose id lease s :
  request_ok request -> uuid_ok id -> lane_backed (ls_conn s) ->
  lane_backed (ls_conn (claim_activity_v1_at request authority key signer now purpose id lease s).2).
Proof.
  intros Hreq Hid Hb. pose proof (claim_extends request authority key signer now purpose id lease s) as Hext.
  destruct (claim_activity_v1_at _ _ _ _ _ _ _ _ s) as [[d|e] s'] eqn:Hc; cbn [snd] in *.
  2: { by apply claim_cases in Hc as [(? & ? & ? & _ & _ & [=])|[-> _]]. }
  destruct (claim_validated _ _ _ _ _ _ _ _ _ _ _ Hc) as [Hsigner Hdur].
  apply claim_cases in Hc as [(now' & a & appended & _ & Hc & [= ->])|[_ [e [=]]]].
  destruct (claim_writes_grants _ _ _ _ _ _ _ _ _ _ _ _ Hc) as [->|(cid & digest & lid & expires & ->)]; [done|].
  apply claim_granted in Hc as (_ & _ & evidence & event & claim & requested & t & db1 & Hg & _).
  pose proof (grant_backed _ _ _ _ _ _ _ _ _ _ _ _ _ _ _ Htrust Hsigner Hreq Hid Hdur Hg) as (_ & _ & Hbk).
  destruct Hg as [_ _ _ _ _ Hs Hrow]. apply insert_signed_event_ok in Hs as (_ & Hcl & _).
  apply insert_activity_claim_ok in Hrow as (_ & _ & _ & Hi). rewrite Hcl in Hi.
  eapply lane_backed_insert; [apply Hext|exact Hi|done|exact Hbk|done].
Qed.

(** The recorded row of a backed claim is backed by the result event. *)
Lemma recorded_backed db db1 request signer now id row stored claim digest :
  validate_claim_signer authority key signer = Ok tt -> uuid_ok id ->
  backed db row stored claim -> clr_state row = "granted" ->
  sac_run_id stored = arq_run_id request -> sac_idempotency_key stored = arq_idempotency_key request ->
  sac_activity_id stored = arq_activity_id request -> sac_lease_id stored = arq_lease_id request ->
  insert_signed_event db (result_event request stored now id) key signer now = Ok (digest, db1) ->
  backed db1 (recorded_row row request (result_event request stored now id) digest (timestamp now))
    (recorded_claim stored request id digest (timestamp now)) claim.
Proof.
  intros Hsigner Hid Hbk Hg Hrun Hkey Hact Hlease Hs.
  pose proof (insert_signed_event_ok _ _ _ _ _ _ _ Hs) as (Hext & _).
  destruct (backed_extends _ _ _ _ _ Hext Hbk) as [Hread Hrow Hok Hcok Hsig _].
  apply (stored_event_loads _ _ _ _ _ _ "activity result" Htrust Hsigner) in Hs as [Hload Hdig];
    [|done|cbn; by rewrite <- Hrun|by split; [intros ? [= <-]|apply result_round_trip]].
  split; [by apply (recorded_row_reads _ _ request (result_event request stored now id))|done..|].
  intros _. unfold verify_signed_activity_result_projection.
  cbn [ev_id result_event] in Hload. cbn -[bool_decide load_verified_authority_event event_digest].
  rewrite Hload. cbn -[bool_decide event_digest]. rewrite Hdig. cbn -[bool_decide].
  rewrite !bool_decide_true by congruence. done.
Qed.

Lemma result_keeps_backed request signer now id s :
  uuid_ok (arq_run_id request) -> uuid_ok id -> lane_backed (ls_conn s) ->
  lane_backed (ls_conn (record_activity_result_v1_at request authority key signer now id s).2).
Proof.
  intros Hrun Hid Hb. pose proof (result_extends request authority key signer now id s) as Hext.
  destruct (record_activity_result_v1_at _ _ _ _ _ _ s) as [[d|e] s'] eqn:Hc; cbn [snd] in *.
  2: { by apply result_cases in Hc as [(? & ? & _ & [=])|[-> _]]. }
  pose proof (result_validated _ _ _ _ _ _ _ _ _ Hc) as Hsigner.
  apply result_cases in Hc as [(a & appended & Hc & [= ->])|[_ [e [=]]]].
  unfold result_in_transaction in Hc. apply bind_ok in Hc as (found & Hf & Hc). cbn beta in Hc.
  destruct found as [existing|]; [|done]. unfold activity_claim_by_idempotency in Hf.
  destruct (ld_activity_claims (ls_conn s) !! _) as [row|] eqn:Hk; [|done].
  pose proof (Hb _ _ Hk) as ([= Hr Hi] & stored & claim & Hbk). cbn in Hf. unfold of_store in Hf.
  rewrite (bk_read _ _ _ _ Hbk) in Hf. cbn in Hf. simplify_eq.
  unfold canonical_event, of_store in Hc. guards; simplify_eq; try (match goal with Hx : ls_conn _ = ls_conn _ |- _ => by rewrite <- Hx end).
  match goal with Hx : canonicalize _ = Ok ?event |- _ => apply canonicalize_same in Hx; subst event end.
  match goal with Hx : record_claim_result _ _ _ _ _ = Ok _ |- _ => apply record_claim_result_ok in Hx as (row1 & Hk1 & Hg & Heq) end.
  match goal with Hx : insert_signed_event _ _ _ _ _ = Ok _ |- _ => rename Hx into Hs end.
  pose proof (insert_signed_event_ok _ _ _ _ _ _ _ Hs) as (_ & Hcl & _). rewrite Hcl, Hk in Hk1. simplify_eq.
  pose proof (backed_key _ _ _ _ Hbk) as Hidem.
  assert (sac_run_id existing = arq_run_id request) as Hsame.
  { apply show_inj; [by eapply bk_run_ok|done|]. by rewrite <- (bk_run _ _ _ _ Hbk). }
  eapply (recorded_backed _ _ request _ _ _ row1 existing claim) in Hs; [|done|done|done|done|done|congruence|done|done].
  eapply (lane_backed_insert (ls_conn s)); [apply Hext|by rewrite Heq, <- Hcl| |eapply backed_extends; [|exact Hs]; by rewrite Heq|done].
  cbn. congruence.
Qed.

(** Lane operations under the authority and its claim key, with 128-bit ids;
    heartbeats and tape operations are free. *)
Definition lane_op_ok (op : LaneOp) : Prop :=
  match op with
  | Lane_tape _ | Lane_heartbeat _ _ _ _ _ _ => True
  | Lane_claim request a k _ _ _ id _ => a = authority /\ k = key /\ request_ok request /\ uuid_ok id
  | Lane_verifier_claim request a k _ _ id _ =>
      a = authority /\ k = key /\ uuid_ok id /\ uuid_ok (gvc_run_id request) /\
      uuid_ok (gvc_action_request_event_id request) /\ uuid_ok (gvc_dispatch_event_id request)
  | Lane_result request a k _ _ id => a = authority /\ k = key /\ uuid_ok id /\ uuid_ok (arq_run_id request)
  | Lane_verifier_result request a k _ _ id =>
      a = authority /\ k = key /\ uuid_ok id /\ uuid_ok (gvr_run_id request)
  end.

Lemma run_lane_backed op s : lane_op_ok op -> lane_backed (ls_conn s) -> lane_backed (ls_conn (run_lane op s).2).
Proof.
  intros Hok Hb. destruct op; cbn [run_lane lane_op_ok] in *; rewrite ?forget_snd.
  - unfold on_tape. destruct (run_op op (tape_store s)) as [r s'] eqn:Hr. apply run_op_extends in Hr.
    eapply (lane_backed_tables (ls_conn s)); [exact Hr|done|done].
  - destruct Hok as (-> & -> & Hreq & Hid). by apply claim_keeps_backed.
  - destruct Hok as (-> & -> & Hid & Hrun & Hareq & Hdis).
    unfold claim_governed_verifier_v1_at, lane_bind, lane_lift, lane_read.
    repeat (case_match; try done; cbn [snd]); simplify_eq; try done. by apply claim_keeps_backed.
  - destruct (heartbeat_activity_v1_at _ _ _ _ _ _ s) as [r s'] eqn:Hh. cbn [snd].
    pose proof (heartbeat_extends request authority0 key0 signer now event_id s) as Hext. rewrite Hh in Hext. cbn [snd] in Hext.
    apply heartbeat_cases in Hh as [(a & appended & Hh & _)|[-> _]]; [|done].
    eapply lane_backed_tables; [apply Hext| |done].
    unfold heartbeat_in_transaction, extend_claim, of_store in Hh. guards; simplify_eq; try congruence.
    match goal with Hx : insert_signed_event _ _ _ _ _ = Ok _ |- _ => apply insert_signed_event_ok in Hx as (_ & Hcl & _) end.
    match goal with Hx : insert_activity_heartbeat _ _ = Ok _ |- _ => apply insert_activity_heartbeat_ok in Hx as (_ & Hi & _) end.
    congruence.
  - destruct Hok as (-> & -> & Hid & Hrun). by apply result_keeps_backed.
  - destruct Hok as (-> & -> & Hid & Hrun).
    unfold record_governed_verifier_result_v1_at, lane_bind at 1, lane_lift, lane_read.
    destruct (require_protected_governed_realm authority) as [[]|]; [|done].
    case_match; [done|]. unfold lane_bind. case_match; simplify_eq; [|done]. by apply result_keeps_backed.
Qed.

Lemma after_lane_backed s ops :
  Forall lane_op_ok ops -> lane_backed (ls_conn s) -> lane_backed (ls_conn (after_lane s ops)).
Proof.
  intros Hops. revert s. induction Hops as [|op ops Hop _ IH]; intros s Hb; cbn [after_lane foldl]; [done|].
  apply IH. by apply run_lane_backed.
Qed.

Lemma empty_backed s : ld_activity_claims (ls_conn s) = ∅ -> lane_backed (ls_conn s).
Proof. intros He k row. by rewrite He, lookup_empty. Qed.

(** C15. The claim table never runs ahead of the tape.  In every session that starts
    without claims and runs its lane operations under one authority and its claim
    key, next to any tape operations and any heartbeats, each row is stored under
    its own run and key, reads back, and passes the check against the signed claim
    event it names; a recorded row also passes the check against the signed result
    event it names. *)
Theorem claim_rows_are_backed_by_the_tape s ops k row :
  ld_activity_claims (ls_conn s) = ∅ -> Forall lane_op_ok ops ->
  ld_activity_claims (ls_conn (after_lane s ops)) !! k = Some row ->
  k = (clr_run_id row, clr_idempotency_key row) /\
  exists stored claim,
    stored_activity_claim_from_row row = Ok stored /\
    verify_signed_claim_projection (ls_conn (after_lane s ops)) stored authority = Ok claim /\
    (sac_state stored = StoredActivityClaimState_Recorded ->
     verify_signed_activity_result_projection (ls_conn (after_lane s ops)) stored authority = Ok tt).
Proof.
  intros He Hops Hk. pose proof (after_lane_backed s ops Hops (empty_backed s He)) as Hb.
  apply Hb in Hk as (Hkey & stored & claim & [Hread _ _ _ Hsig Hres]). split; [done|]. by exists stored, claim.
Qed.

(** ** A repeated claim is answered *)

(** A claim as it was granted. *)
Definition grant_part (stored : StoredActivityClaim) : StoredActivityClaim :=
  {| stored with sac_state := StoredActivityClaimState_Granted; sac_result_event_id := None;
       sac_result_event_digest := None; sac_result_outcome := None; sac_result_digest := None;
       sac_result_ref := None; sac_evidence_digest := None; sac_evidence_ref := None;
       sac_recorded_at := None |}.

Lemma grant_columns_read row stored :
  stored_activity_claim_from_row row = Ok stored ->
  stored_activity_claim_from_row (grant_columns row) = Ok (grant_part stored).
Proof.
  unfold stored_activity_claim_from_row. intros Hr. guards; subst stored;
    cbn -[action_kind_from_value result_outcome_from_value];
    repeat match goal with E : ?o = Some _ |- context [?o] => rewrite E end;
    (rewrite (proj2 (Z.ltb_ge _ _)) by done); done.
Qed.

Lemma advances_grant row row' stored stored' :
  row_advances row row' -> stored_activity_claim_from_row row = Ok stored ->
  stored_activity_claim_from_row row' = Ok stored' -> grant_part stored' = grant_part stored.
Proof.
  intros [->|(_ & _ & Hg)] Hr Hr'; [congruence|].
  apply grant_columns_read in Hr, Hr'. congruence.
Qed.

Lemma projection_of_grant db stored a :
  verify_signed_claim_projection db (grant_part stored) a = verify_signed_claim_projection db stored a.
Proof. done. Qed.

Lemma expiry_without_heartbeats db stored a t :
  heartbeat_rows_for_claim db (sac_run_id stored) (sac_claim_event_id stored) = [] ->
  sac_lease_expires_at stored = timestamp t ->
  effective_activity_lease_expiry db stored a = Ok (ms_floor t).
Proof.
  intros Hn Ht. unfold effective_activity_lease_expiry, activity_heartbeats_for_claim.
  by rewrite Ht, Hn, timestamp_reads.
Qed.

(** What a repeated claim can be told. *)
Definition status_of (claim_id : EventId) (d : ActivityClaimDispositionV1) : Prop :=
  match d with
  | ActivityClaimDispositionV1_Granted _ _ _ _ => False
  | ActivityClaimDispositionV1_Pending id _ | ActivityClaimDispositionV1_LeaseExpired id _ => id = claim_id
  | ActivityClaimDispositionV1_Recorded id _ _ _ => id = claim_id
  end.

(** The answer for a backed row of the same request and purpose. *)
Lemma backed_claim_answers db request now purpose row stored claim t :
  backed db row stored claim -> acl_purpose claim = purpose ->
  sac_activity_id stored = acq_activity_id request ->
  sac_dispatch_event_id stored = acq_dispatch_event_id request ->
  sac_action_request_event_id stored = acq_action_request_event_id request ->
  sac_lease_duration_ms stored = acq_lease_duration_ms request ->
  effective_activity_lease_expiry db stored authority = Ok t ->
  exists d, claim_existing db request authority now purpose stored = Ok d /\
    status_of (sac_claim_event_id stored) d.
Proof.
  intros Hbk Hp Ha Hd Hr Hl Ht. unfold claim_existing. rewrite (bk_signed _ _ _ _ Hbk). cbn [result_bind].
  rewrite Hp, bool_decide_true by done. cbn [negb]. unfold existing_claim_disposition.
  destruct (sac_state stored) eqn:Hst.
  - rewrite bool_decide_false by done. cbn [result_bind]. rewrite Ht. cbn [result_bind].
    rewrite !bool_decide_true by done. cbn. destruct (t <=? now); by eexists.
  - pose proof (bk_result _ _ _ _ Hbk Hst) as Hres. rewrite bool_decide_true, Hres by done. cbn [result_bind].
    rewrite Ht. cbn [result_bind]. rewrite !bool_decide_true by done. cbn [negb orb].
    unfold verify_signed_activity_result_projection, required_claim_field, ok_or in *.
    destruct (sac_result_event_id stored); [|by guards].
    destruct (sac_result_event_digest stored); [|by guards].
    destruct (sac_result_outcome stored); [|by guards]. by eexists.
Qed.

(** The row of a grant after a session, with what it still says. *)
Lemma grant_survives request signer now purpose id lease s claim_id digest lease_id expires s1 ops :
  lane_backed (ls_conn s) -> request_ok request -> uuid_ok id -> Forall lane_op_ok ops ->
  claim_activity_v1_at request authority key signer now purpose id lease s
    = (Ok (ActivityClaimDispositionV1_Granted claim_id digest lease_id expires), s1) ->
  exists row stored claim t,
    ld_activity_claims (ls_conn (after_lane s1 ops)) !! (uuid_to_string (acq_run_id request), acq_idempotency_key request) = Some row /\
    backed (ls_conn (after_lane s1 ops)) row stored claim /\ acl_purpose claim = purpose /\
    grant_part stored = grant_part (granted_claim request (Build_VerifiedClaimEvidence (sac_action_kind stored)
      (sac_action_request_digest stored) (sac_dispatch_envelope_digest stored) 0)
      (akr_actor_id (aca_claim_signer authority)) claim_id digest lease_id (timestamp t)).
Proof.
  intros Hb Hreq Hid Hops Hc. destruct (claim_validated _ _ _ _ _ _ _ _ _ _ _ Hc) as [Hsigner Hdur].
  pose proof (claim_keeps_backed request signer now purpose id lease s Hreq Hid Hb) as Hb1. rewrite Hc in Hb1. cbn [snd] in Hb1.
  apply (after_lane_backed _ _ Hops) in Hb1.
  apply claim_cases in Hc as [(now' & a & appended & _ & Hc & [= <-])|[_ [e [=]]]].
  apply claim_granted in Hc as (_ & _ & evidence & event & claim & requested & t & db1 & Hg & -> & -> & -> & _).
  pose proof (grant_backed _ _ _ _ _ _ _ _ _ _ _ _ _ _ _ Htrust Hsigner Hreq Hid Hdur Hg) as (<- & Hp & Hbk).
  destruct Hg as [_ _ _ _ _ _ Hrow]. apply insert_activity_claim_ok in Hrow as (_ & _ & _ & Hi). cbn [clr_run_id clr_idempotency_key claim_row] in Hi.
  pose proof (after_lane_extends s1 ops) as Hext.
  destruct (lex_claims _ _ Hext (uuid_to_string (acq_run_id request), acq_idempotency_key request) _
    ltac:(rewrite Hi; apply lookup_insert_eq)) as (row' & Hk' & Hadv).
  destruct (Hb1 _ _ Hk') as (_ & stored' & claim' & Hbk').
  pose proof (advances_grant _ _ _ _ Hadv (bk_read _ _ _ _ Hbk) (bk_read _ _ _ _ Hbk')) as Hgrant.
  exists row', stored', claim', t. split; [done|]. split; [done|]. split.
  - pose proof (bk_signed _ _ _ _ (backed_extends _ _ _ _ _ (lex_tape _ _ Hext) Hbk)) as Hv.
    pose proof (bk_signed _ _ _ _ Hbk') as Hv'.
    rewrite <- projection_of_grant in Hv, Hv'. rewrite Hgrant in Hv'. congruence.
  - rewrite Hgrant. unfold grant_part in *. cbn in *.
    pose proof (f_equal sac_action_kind Hgrant) as E1. pose proof (f_equal sac_action_request_digest Hgrant) as E2.
    pose proof (f_equal sac_dispatch_envelope_digest Hgrant) as E3. cbn in E1, E2, E3. by rewrite E1, E2, E3.
Qed.

(** C16. A repeated claim is answered.  In a session under one authority and its
    claim key, once a claim was granted, the same request with the same purpose is
    never refused while no heartbeat of the claim is recorded: at any instant, and
    whatever operations came between, it writes nothing and is told that the claim
    is pending, expired or recorded, under the event id of the grant. *)
Theorem repeated_claims_are_answered s0 ops0 request signer now purpose id lease
    claim_id digest lease_id expires s1 ops now' id' lease' :
  ld_activity_claims (ls_conn s0) = ∅ -> Forall lane_op_ok ops0 -> request_ok request -> uuid_ok id ->
  claim_activity_v1_at request authority key signer now purpose id lease (after_lane s0 ops0)
    = (Ok (ActivityClaimDispositionV1_Granted claim_id digest lease_id expires), s1) ->
  Forall lane_op_ok ops ->
  heartbeat_rows_for_claim (ls_conn (after_lane s1 ops)) (acq_run_id request) claim_id = [] ->
  exists d s2,
    claim_activity_v1_at request authority key signer now' purpose id' lease' (after_lane s1 ops) = (Ok d, s2) /\
    ls_conn s2 = ls_conn (after_lane s1 ops) /\ status_of claim_id d.
Proof.
  intros He Hops0 Hreq Hid Hc Hops Hnone.
  pose proof (after_lane_backed s0 ops0 Hops0 (empty_backed s0 He)) as Hb.
  destruct (grant_survives _ _ _ _ _ _ _ _ _ _ _ _ _ Hb Hreq Hid Hops Hc) as (row & stored & claim & t & Hk & Hbk & Hp & Hg).
  pose proof (f_equal sac_activity_id Hg) as Ha. pose proof (f_equal sac_dispatch_event_id Hg) as Hd.
  pose proof (f_equal sac_action_request_event_id Hg) as Hr. pose proof (f_equal sac_lease_duration_ms Hg) as Hl.
  pose proof (f_equal sac_lease_expires_at Hg) as Hexp. pose proof (f_equal sac_run_id Hg) as Hrun.
  pose proof (f_equal sac_claim_event_id Hg) as Hcid. cbn in Ha, Hd, Hr, Hl, Hexp, Hrun, Hcid. clear Hg.
  rewrite <- Hrun, <- Hcid in Hnone.
  pose proof (expiry_without_heartbeats _ _ authority _ Hnone Hexp) as Ht.
  destruct (backed_claim_answers _ request (ms_floor now') purpose _ _ _ _ Hbk Hp Ha Hd Hr Hl Ht) as (d & Hans & Hstat).
  exists d, (after_lane s1 ops). rewrite Hcid in Hstat. split; [|done].
  unfold claim_activity_v1_at in Hc |- *. unfold lane_bind at 1 2 3 in Hc. unfold lane_lift in Hc.
  unfold lane_bind at 1 2 3. unfold lane_lift.
  destruct (validate_activity_claim_request request) as [[]|]; [|done].
  destruct (validate_claim_signer authority key signer) as [[]|]; [|done].
  unfold canonical_ledger_timestamp. rewrite timestamp_reads.
  unfold answer_and_mark, lane_bind, lane_transaction, claim_in_transaction, activity_claim_by_idempotency.
  rewrite Hk. cbn [read_claim]. unfold of_store. rewrite (bk_read _ _ _ _ Hbk). cbn [map_err result_map result_bind].
  rewrite Hans. cbn. by destruct (after_lane s1 ops).
Qed.
End LaneTape.

(** ** Instants between two milliseconds *)
Section Unrounded.
Context `{Host, Crypto, RowDecoder, RowEncoder, !RowLaws, !LaneRowLaws, !Millis}.
Context (event_to_vec : Event -> Result string string).
#[local] Instance unrounded_ledger : Canonicalizer := ledger_canonicalizer event_to_vec.
Implicit Types (db : LaneDatabase) (s : LaneStore).

Lemma stored_signed_reads db event :
  uuid_ok (ev_id event) -> uuid_ok (ev_run_id event) -> storable event -> stored_signed db event ->
  exists row, db_events (ld_tape db) !! uuid_to_string (ev_id event) = Some row /\ row_to_event row = Ok event.
Proof.
  intros Hid Hrun Hst (text & key & signer & at_ & signature & Htext & Hsign & Hrow).
  eexists. split; [exact Hrow|]. apply canonical_row; try done.
  by eapply (signed_is_canonical event_to_vec).
Qed.

(** C19. Replay refuses a result or a heartbeat recorded between two milliseconds.
    The two writers take the clock's instant as it is, where the claim writer rounds
    it down.  What the replay reader reads back from the row they wrote is their
    event, with the exact instant as its time and a payload text that reads as the
    rounded one; the reducer requires the two to be equal, so no replay state whose
    workflow demands sealed evidence accepts the result, and none accepts the
    heartbeat. *)
Theorem replay_refuses_unrounded_records s now :
  ms_floor now <> now ->
  (forall request authority key signer id claim rid digest outcome s',
    uuid_ok id -> uuid_ok (arq_run_id request) -> uuid_ok (sac_claim_event_id claim) ->
    activity_claim_by_idempotency (ls_conn s) (arq_run_id request) (arq_idempotency_key request) = Ok (Some claim) ->
    sac_state claim = StoredActivityClaimState_Granted ->
    record_activity_result_v1_at request authority key signer now id s
      = (Ok (ActivityResultDispositionV1_Recorded rid digest outcome), s') ->
    exists row event result,
      db_events (ld_tape (ls_conn s')) !! uuid_to_string id = Some row /\
      row_to_event row = Ok event /\ ev_payload event = Payload_ActivityResultRecordedV1 result /\
      forall st signer' wkey action workflow,
        find_v3_workflow_key_for_activity_result st event result = Ok (wkey, action) ->
        st_workflow_instances st !! wkey = Some workflow ->
        requires_activity_claim_result workflow = true ->
        forall st', activity_result_recorded_v1_verdict st event result signer' <> Ok st') /\
  (forall request authority key signer id claim hid digest expires s',
    uuid_ok id -> uuid_ok (ahq_run_id request) -> uuid_ok (sac_claim_event_id claim) ->
    activity_claim_by_idempotency (ls_conn s) (ahq_run_id request) (ahq_idempotency_key request) = Ok (Some claim) ->
    heartbeat_activity_v1_at request authority key signer now id s
      = (Ok (ActivityHeartbeatDispositionV1_Recorded hid digest expires), s') ->
    exists row event heartbeat,
      db_events (ld_tape (ls_conn s')) !! uuid_to_string id = Some row /\
      row_to_event row = Ok event /\ ev_payload event = Payload_ActivityHeartbeatRecordedV1 heartbeat /\
      forall st signer' st', activity_heartbeat_recorded_v1_verdict st event heartbeat signer' <> Ok st').
Proof.
  intros Hfrac. split.
  - intros request authority key signer id claim rid digest outcome s' Hid Hrun Hclaim Hread Hst.
    intros [(a & appended & Hr & [= <-])|[_ [e [=]]]]%result_cases.
    eapply new_result in Hr; [|done|done].
    apply stored_signed_reads in Hr as (row & Hrow & Hback);
      [|done|done|by split; [intros ? [= <-]|apply result_round_trip]].
    exists row. do 2 eexists. split; [exact Hrow|]. split; [exact Hback|]. split; [reflexivity|].
    intros st signer' wkey action workflow Hfind Hk Hreq st' Hv.
    apply (result_verdict_time _ _ _ _ _ _ _ _ Hfind Hk Hreq) in Hv. cbn in Hv.
    rewrite utc_text in Hv. congruence.
  - intros request authority key signer id claim hid digest expires s' Hid Hrun Hclaim Hread.
    intros [(a & appended & Hr & [= <-])|[_ [e [=]]]]%heartbeat_cases.
    apply new_heartbeat in Hr as (claim' & next & Hread' & Hr). rewrite Hread in Hread'. injection Hread' as <-.
    apply stored_signed_reads in Hr as (row & Hrow & Hback);
      [|done|done|by split; [intros ? [= <-]|apply heartbeat_round_trip]].
    exists row. do 2 eexists. split; [exact Hrow|]. split; [exact Hback|]. split; [reflexivity|].
    intros st signer' st' Hv. apply heartbeat_verdict_time in Hv. cbn in Hv. rewrite utc_text in Hv. congruence.
Qed.
End Unrounded.
