(* ===== verification/SampleLane.v ===== *)
(** * A lane session on a concrete host

    A host on which the text columns of the lane read back and the text of an
    instant is rounded down to a millisecond, ten units of the sample's clock.  On
    it the theorems about the execution-lease lane are evaluated: one dispatch,
    one action request, a claim, a heartbeat and a result. *)
From S2P Require Import Prelude RustStr Host LedgerPayloads TrustSpine Digests Events DemoHost SigningSpec Tape WorkflowGraph ReplayState ReducerCore ReducerActions Canonicalize CanonicalizeSpec Engine Store StoreRows StoreSeal StoreSpec StoreSession SampleStore ActivityEvidence RetryContext ActivityLane LaneSpec LaneTheorems LaneTape.
From Stdlib Require Import Ascii Lia.
From stdpp Require Import base list gmap strings sorting.

#[local] Open Scope string_scope.
#[local] Open Scope list_scope.
#[local] Open Scope Z_scope.

Module SampleLane.

(** ** Text *)

(** A positive as its bits, the least significant first, closed by [Z]. *)
Fixpoint show_bits (p : positive) : string :=
  match p with
  | xH => "Z"
  | xO p => String "0"%char (show_bits p)
  | xI p => String "1"%char (show_bits p)
  end.
Fixpoint read_bits (s : string) : option positive :=
  match s with
  | EmptyString => None
  | String c r =>
      if ascii_dec c "1"%char then xI <$> read_bits r
      else if ascii_dec c "0"%char then xO <$> read_bits r
      else if bool_decide (s = "Z") then Some xH else None
  end.
Definition show_int (t : Z) : string :=
  match t with
  | Z0 => "=Z"
  | Zpos p => String "+"%char (show_bits p)
  | Zneg p => String "-"%char (show_bits p)
  end.
Definition read_int (s : string) : option Z :=
  match s with
  | String c r =>
      if ascii_dec c "+"%char then Zpos <$> read_bits r
      else if ascii_dec c "-"%char then Zneg <$> read_bits r
      else if bool_decide (s = "=Z") then Some 0 else None
  | EmptyString => None
  end.

Lemma read_show_bits p : read_bits (show_bits p) = Some p.
Proof. induction p as [p IH|p IH|]; cbn; by rewrite ?IH. Qed.
Lemma read_show_int t : read_int (show_int t) = Some t.
Proof. destruct t as [|p|p]; cbn; by rewrite ?read_show_bits. Qed.

Lemma ends_with_cons c s : s <> "" -> ends_with "Z" (String c s) = ends_with "Z" s.
Proof.
  intros Hs. unfold ends_with, str_skip. destruct s as [|d s]; [done|]. cbn [String.length].
  replace (S (S (String.length s)) - 1)%nat with (S (String.length s)) by lia.
  replace (S (String.length s) - 1)%nat with (String.length s) by lia.
  replace (S (S (String.length s)) - S (String.length s))%nat with 1%nat by lia.
  replace (S (String.length s) - String.length s)%nat with 1%nat by lia. done.
Qed.
Lemma show_bits_utc p : ends_with "Z" (show_bits p) = true.
Proof.
  induction p as [p IH|p IH|]; cbn [show_bits]; [| |done]; rewrite ends_with_cons; try done; by destruct p.
Qed.
Lemma show_int_utc t : ends_with "Z" (show_int t) = true.
Proof.
  destruct t as [|p|p]; cbn [show_int]; [done| |]; rewrite ends_with_cons; try apply show_bits_utc; by destruct p.
Qed.

(** A list of fields: a mark before each character, another after each field. *)
Fixpoint pack_field (s rest : string) : string :=
  match s with
  | EmptyString => String "0"%char rest
  | String c s => String "1"%char (String c (pack_field s rest))
  end.
Definition pack (fields : list string) : string := foldr pack_field "" fields.
Fixpoint unpack (text acc : string) : option (list string) :=
  match text with
  | EmptyString => if acc == "" then Some [] else None
  | String m rest =>
      if ascii_dec m "0"%char then cons acc <$> unpack rest ""
      else match rest with
           | String c rest => unpack rest (acc +:+ String c "")
           | EmptyString => None
           end
  end.

Lemma app_empty (s : string) : s +:+ "" = s.
Proof. induction s as [|c s IH]; [done|]. exact (f_equal (String c) IH). Qed.
Lemma app_three (a b c : string) : (a +:+ b) +:+ c = a +:+ (b +:+ c).
Proof. induction a as [|x a IH]; [done|]. exact (f_equal (String x) IH). Qed.

Lemma unpack_field s rest acc :
  unpack (pack_field s rest) acc = cons (acc +:+ s) <$> unpack rest "".
Proof.
  revert acc. induction s as [|c s IH]; intros acc; cbn [pack_field unpack].
  - destruct (ascii_dec _ _); [|done]. by rewrite app_empty.
  - destruct (ascii_dec _ _) as [?|_]; [done|]. rewrite IH. f_equal. by rewrite app_three.
Qed.
Lemma unpack_pack fields : unpack (pack fields) "" = Some fields.
Proof. induction fields as [|s fields IH]; [done|]. cbn [pack foldr]. rewrite unpack_field. fold (pack fields). by rewrite IH. Qed.

Definition show_option (o : option string) : string :=
  match o with None => "n" | Some s => String "s"%char s end.
Definition read_option (s : string) : option (option string) :=
  match s with
  | String c r => if ascii_dec c "s"%char then Some (Some r) else Some None
  | EmptyString => None
  end.
Lemma read_show_option o : read_option (show_option o) = Some o.
Proof. by destruct o. Qed.

(** ** The payloads of the sample *)
Definition sha (s : string) : string := "sha256:" +:+ Demo.demo_sha256_hex s.
Definition git (s : string) : string := String.substring 0 40 (Demo.demo_sha256_hex s).

#[local] Instance host : Host := {
  uuid_to_string := SampleStore.bin 128;
  parse_from_rfc3339 := read_int;
  checked_add_milliseconds := fun d ms => Some (d + 10 * ms);
  to_rfc3339_millis := fun d => show_int (d / 10 * 10);
  to_rfc3339_auto_si := show_int;
  sha256_hex := Demo.demo_sha256_hex;
  serde_json_to_vec := Demo.show_json
}.

#[local] Instance millis : Millis.
Proof.
  refine {| ms_floor := fun t => t / 10 * 10 |}.
  - intros t. apply read_show_int.
  - intros t. apply show_int_utc.
  - intros t. pose proof (Z.mul_div_le t 10). lia.
  - intros t. by rewrite Z.div_mul.
Defined.

Definition ok (r : Result string string) : string := match r with Ok s | Err s => s end.

Definition body : DispatchEnvelopeBodyV2 :=
  {| deb2_workflow_id := "wf"; deb2_workflow_revision := "r1"; deb2_unit_id := "unit";
     deb2_attempt := 1; deb2_execution_role := ExecutionRoleV1_Implementer;
     deb2_commit_mode := CommitModeV1_Atomic; deb2_provenance_ref := "prov";
     deb2_base_commit_sha := git "base"; deb2_capability_bundle_digest := sha "cap";
     deb2_acceptance_contract_digest := sha "contract"; deb2_context_manifest_digest := sha "ctx";
     deb2_worker_manifest_digest := sha "worker"; deb2_sandbox_profile_digest := sha "sandbox";
     deb2_budget := {| db_max_tokens := None; db_max_compute_time_ms := None |};
     deb2_trust_tier := TrustTierV1_Governed; deb2_idempotency_key := "d1";
     deb2_issued_at := show_int 0; deb2_expires_at := show_int 1000000 |}.

Definition envelope : string :=
  Eval vm_compute in ok (dispatch_envelope_v3_body_digest body ActionEvidenceVersionV1_SealedV3
    (sha "repo") (sha "realm") (Some (sha "packet"))).
Definition dispatch : DispatchEnvelopeV3 :=
  {| de3_body := body; de3_action_evidence_version := ActionEvidenceVersionV1_SealedV3;
     de3_repository_binding_digest := sha "repo"; de3_ledger_authority_realm_digest := sha "realm";
     de3_governed_packet_digest := Some (sha "packet"); de3_envelope_digest := envelope |}.
Definition policy : string :=
  Eval vm_compute in ok (governed_dispatch_policy_digest_v1 (sha "contract")).
Definition action : ActionRequestedV2 :=
  {| ar2_run_id := SampleStore.bin 128 1; ar2_workflow_id := "wf"; ar2_unit_id := "unit"; ar2_attempt := 1;
     ar2_provenance_ref := "prov"; ar2_action_id := "act"; ar2_idempotency_key := "act-1";
     ar2_action_kind := ActionKindV1_Process; ar2_canonical_input_digest := sha "input";
     ar2_canonical_input_ref := "cas:input"; ar2_dispatch_envelope_digest := envelope;
     ar2_repository_binding_digest := sha "repo"; ar2_ledger_authority_realm_digest := sha "realm";
     ar2_governed_packet_digest := Some (sha "packet"); ar2_capability_bundle_digest := sha "cap";
     ar2_policy_digest := policy; ar2_context_manifest_digest := sha "ctx";
     ar2_worker_manifest_digest := sha "worker"; ar2_sandbox_profile_digest := sha "sandbox";
     ar2_authority_actor := "kernel"; ar2_execution_role := ExecutionRoleV1_Implementer;
     ar2_requested_at := show_int 50 |}.

(** ** The payload column *)
Definition purposes : list ActivityClaimPurposeV1 :=
  [ActivityClaimPurposeV1_Generic; ActivityClaimPurposeV1_GovernedVerifierV1;
   ActivityClaimPurposeV1_GovernedCommandActionV1; ActivityClaimPurposeV1_GovernedModelActionV1;
   ActivityClaimPurposeV1_GovernedAcceptanceCheckV1; ActivityClaimPurposeV1_GovernedCandidateFinalizeV1].
Definition purpose_wire (p : ActivityClaimPurposeV1) : string :=
  match p with
  | ActivityClaimPurposeV1_Generic => "generic"
  | ActivityClaimPurposeV1_GovernedVerifierV1 => "verifier"
  | ActivityClaimPurposeV1_GovernedCommandActionV1 => "command"
  | ActivityClaimPurposeV1_GovernedModelActionV1 => "model"
  | ActivityClaimPurposeV1_GovernedAcceptanceCheckV1 => "check"
  | ActivityClaimPurposeV1_GovernedCandidateFinalizeV1 => "finalize"
  end.
Definition purpose_from_wire (s : string) : option ActivityClaimPurposeV1 :=
  find (fun p => purpose_wire p == s) purposes.
Lemma purpose_round_trip p : purpose_from_wire (purpose_wire p) = Some p.
Proof. by destruct p. Qed.

Definition claim_fields (c : ActivityClaimedV1) : list string :=
  ["claim"; show_int (acl_run_id c); acl_activity_id c; acl_idempotency_key c;
   action_kind_wire (acl_action_kind c); show_int (acl_action_request_event_id c);
   acl_action_request_digest c; show_int (acl_dispatch_event_id c); acl_dispatch_envelope_digest c;
   acl_authority_actor c; purpose_wire (acl_purpose c); acl_lease_id c; acl_lease_expires_at c;
   acl_claimed_at c].
Definition heartbeat_fields (h : ActivityHeartbeatRecordedV1) : list string :=
  ["heartbeat"; show_int (ahb_run_id h); ahb_activity_id h; ahb_idempotency_key h;
   show_option (ahb_heartbeat_id h); show_option (ahb_heartbeat_request_digest h);
   show_int (ahb_claim_event_id h); ahb_claim_event_digest h; ahb_lease_id h;
   show_int (ahb_dispatch_event_id h); ahb_dispatch_envelope_digest h; ahb_lease_expires_at h;
   ahb_heartbeat_at h].
Definition result_fields (r : ActivityResultRecordedV1) : list string :=
  ["result"; show_int (arx_run_id r); arx_activity_id r; arx_idempotency_key r;
   show_int (arx_claim_event_id r); arx_claim_event_digest r; arx_lease_id r;
   activity_result_outcome_wire (arx_outcome r); show_option (arx_result_digest r);
   show_option (arx_result_ref r); arx_evidence_digest r; arx_evidence_ref r; arx_recorded_at r].
Definition checkpoint_fields (c : TapeCheckpointV1) : list string :=
  ["checkpoint"; show_int (tc_run_id c); show_int (tc_checkpoint_index c);
   show_int (tc_through_event_id c); show_int (tc_through_event_count c);
   show_option (show_int <$> tc_previous_checkpoint_event_id c); tc_tape_root_hash c].

Definition payload_of_fields (fields : list string) : option Payload :=
  match fields with
  | ["dispatch"] => Some (Payload_DispatchEnvelopeV3 dispatch)
  | ["action"] => Some (Payload_ActionRequestedV2 action)
  | "claim" :: [run; act; key; kind; request; request_digest; disp; disp_digest; actor; purpose;
                lease; expires; at_] =>
      run ← read_int run; kind ← action_kind_from_value kind; request ← read_int request;
      disp ← read_int disp; purpose ← purpose_from_wire purpose;
      Some (Payload_ActivityClaimedV1
        {| acl_run_id := run; acl_activity_id := act; acl_idempotency_key := key;
           acl_action_kind := kind; acl_action_request_event_id := request;
           acl_action_request_digest := request_digest; acl_dispatch_event_id := disp;
           acl_dispatch_envelope_digest := disp_digest; acl_authority_actor := actor;
           acl_purpose := purpose; acl_lease_id := lease; acl_lease_expires_at := expires;
           acl_claimed_at := at_ |})
  | "heartbeat" :: [run; act; key; hid; hdigest; cid; cdigest; lease; disp; disp_digest; expires; at_] =>
      run ← read_int run; hid ← read_option hid; hdigest ← read_option hdigest;
      cid ← read_int cid; disp ← read_int disp;
      Some (Payload_ActivityHeartbeatRecordedV1
        {| ahb_run_id := run; ahb_activity_id := act; ahb_idempotency_key := key;
           ahb_heartbeat_id := hid; ahb_heartbeat_request_digest := hdigest;
           ahb_claim_event_id := cid; ahb_claim_event_digest := cdigest; ahb_lease_id := lease;
           ahb_dispatch_event_id := disp; ahb_dispatch_envelope_digest := disp_digest;
           ahb_lease_expires_at := expires; ahb_heartbeat_at := at_ |})
  | "result" :: [run; act; key; cid; cdigest; lease; outcome; rdigest; rref; edigest; eref; at_] =>
      run ← read_int run; cid ← read_int cid; outcome ← result_outcome_from_value outcome;
      rdigest ← read_option rdigest; rref ← read_option rref;
      Some (Payload_ActivityResultRecordedV1
        {| arx_run_id := run; arx_activity_id := act; arx_idempotency_key := key;
           arx_claim_event_id := cid; arx_claim_event_digest := cdigest; arx_lease_id := lease;
           arx_outcome := outcome; arx_result_digest := rdigest; arx_result_ref := rref;
           arx_evidence_digest := edigest; arx_evidence_ref := eref; arx_recorded_at := at_ |})
  | "checkpoint" :: [run; index; through; count; previous; root] =>
      run ← read_int run; index ← read_int index; through ← read_int through;
      count ← read_int count; previous ← read_option previous;
      previous ← match previous with None => Some None | Some p => Some <$> read_int p end;
      Some (Payload_TapeCheckpointV1
        {| tc_run_id := run; tc_checkpoint_index := index; tc_through_event_id := through;
           tc_through_event_count := count; tc_previous_checkpoint_event_id := previous;
           tc_tape_root_hash := root; tc_algorithm := TapeRootAlgorithm_Sha256Linear |})
  | _ => None
  end.

#[local] Instance decoder : RowDecoder := {
  uuid_parse_str := fun s => SampleStore.unbin s 0;
  json_from_str := fun s => Some (JString s);
  payload_from_value := fun value =>
    match value with
    | JString s =>
        match unpack s "" ≫= payload_of_fields with
        | Some payload => Ok payload
        | None => Err "unknown payload"
        end
    | _ => Err "unknown payload"
    end
}.

#[local] Instance encoder : RowEncoder := {
  payload_to_string := fun payload =>
    match payload with
    | Payload_DispatchEnvelopeV3 _ => Ok (pack ["dispatch"])
    | Payload_ActionRequestedV2 _ => Ok (pack ["action"])
    | Payload_ActivityClaimedV1 c => Ok (pack (claim_fields c))
    | Payload_ActivityHeartbeatRecordedV1 h => Ok (pack (heartbeat_fields h))
    | Payload_ActivityResultRecordedV1 r => Ok (pack (result_fields r))
    | Payload_TapeCheckpointV1 c => Ok (pack (checkpoint_fields c))
    | _ => Err "unknown payload"
    end;
  to_rfc3339 := show_int
}.

Lemma fields_read_back payload fields :
  payload_to_string payload = Ok (pack fields) -> payload_of_fields fields = Some payload ->
  payload_reads_back payload.
Proof.
  intros Hs Hf text Ht. rewrite Hs in Ht. injection Ht as <-. exists (JString (pack fields)). split; [done|].
  cbn -[pack payload_of_fields]. rewrite unpack_pack. cbn -[payload_of_fields]. by rewrite Hf.
Qed.

#[local] Instance row_laws : RowLaws.
Proof.
  split.
  - intros u Hu. apply (SampleStore.unbin_bin 128). exact Hu.
  - intros a b Ha Hb. apply (SampleStore.bin_order 128); assumption.
  - apply read_show_int.
  - intros c. apply (fields_read_back _ (checkpoint_fields c)); [done|].
    cbn -[read_int show_int read_option show_option]. rewrite !read_show_int, !read_show_option. cbn -[read_int show_int].
    destruct c as [? ? ? ? [p|] ? []]; cbn -[read_int show_int]; by rewrite ?read_show_int.
Qed.

#[local] Instance lane_row_laws : LaneRowLaws.
Proof.
  split.
  - intros c. apply (fields_read_back _ (claim_fields c)); [done|].
    cbn -[read_int show_int purpose_from_wire action_kind_from_value].
    rewrite !read_show_int. cbn -[read_int show_int purpose_from_wire action_kind_from_value].
    rewrite action_kind_round_trip. cbn -[purpose_from_wire]. rewrite purpose_round_trip. by destruct c.
  - intros h. apply (fields_read_back _ (heartbeat_fields h)); [done|].
    cbn -[read_int show_int read_option show_option]. rewrite !read_show_int, !read_show_option. by destruct h.
  - intros r. apply (fields_read_back _ (result_fields r)); [done|].
    cbn -[read_int show_int read_option show_option result_outcome_from_value].
    rewrite !read_show_int, !read_show_option. cbn -[result_outcome_from_value].
    rewrite result_outcome_round_trip. by destruct r.
Qed.

(** ** The session *)
Definition encode_event (event : Event) : Result string string :=
  Ok (as_wire (ev_kind event) +:+ SampleStore.bin 128 (ev_id event)).
#[local] Instance canonicalizer : Canonicalizer := ledger_canonicalizer encode_event.

Definition key : @SigningKey Demo.demo_crypto := true.
Definition kernel : ActorKeyRef :=
  {| akr_actor_id := "kernel"; akr_key_id := "k";
     akr_public_key_hash := Some (public_key_hash (verifying_key key)) |}.
Definition authority : ActivityClaimAuthorityV1 :=
  {| aca_trusted_keys := only_key key; aca_dispatch_signer := kernel;
     aca_action_request_signer := kernel; aca_claim_signer := kernel;
     aca_governed_reviewer_lineage := None;
     aca_ledger_authority_realm_digest := Some (sha "realm") |}.

Definition event (id : EventId) (parent : option EventId) (kind : EventKind) (payload : Payload) : Event :=
  {| ev_id := id; ev_run_id := 1; ev_parent_event_id := parent; ev_schema_version := 1;
     ev_kind := kind; ev_occurred_at := 50; ev_payload := payload |}.
Definition mint : Mint := {| mint_id := 90; mint_occurred_at := 50; mint_signed_at := 50 |}.
Definition append (e : Event) : LaneOp :=
  Lane_tape (Op_append_signed e key kernel CheckpointPolicy_Disabled 50 mint).

Definition prologue : list LaneOp :=
  [append (event 10 None EventKind_DispatchEnvelopeV3 (Payload_DispatchEnvelopeV3 dispatch));
   append (event 11 (Some 10) EventKind_ActionRequestedV2 (Payload_ActionRequestedV2 action))].

Definition opened : LaneStore :=
  {| ls_conn := {| ld_tape := empty_database; ld_activity_claims := ∅; ld_activity_claim_heartbeats := ∅ |};
     ls_ordinary_id_high_water := ∅ |}.
Definition ready : LaneStore := after_lane opened prologue.

Definition claim_request : ActivityClaimRequestV1 :=
  {| acq_run_id := 1; acq_activity_id := "act"; acq_idempotency_key := "act-1";
     acq_dispatch_event_id := 10; acq_action_request_event_id := 11; acq_lease_duration_ms := 1000 |}.
Definition claim_at (now : DateTime) (id : EventId) (lease : Uuid) : LaneM ActivityClaimDispositionV1 :=
  claim_activity_v1_at claim_request authority key kernel now ActivityClaimPurposeV1_Generic id lease.
Definition claimed := claim_at 105 20 77 ready.
Definition lease : string := SampleStore.bin 128 77.

Definition result_request (outcome : ActivityResultOutcomeV1) : ActivityResultRequestV1 :=
  {| arq_run_id := 1; arq_activity_id := "act"; arq_idempotency_key := "act-1"; arq_lease_id := lease;
     arq_outcome := outcome; arq_result_digest := None; arq_result_ref := None;
     arq_evidence_digest := sha "evidence"; arq_evidence_ref := "cas:evidence" |}.
Definition result_at (outcome : ActivityResultOutcomeV1) (now : DateTime) (id : EventId)
    : LaneM ActivityResultDispositionV1 :=
  record_activity_result_v1_at (result_request outcome) authority key kernel now id.

Definition heartbeat_request : ActivityHeartbeatRequestV1 :=
  {| ahq_run_id := 1; ahq_activity_id := "act"; ahq_idempotency_key := "act-1"; ahq_lease_id := lease;
     ahq_heartbeat_id := "h1" |}.
Definition heartbeat_at (now : DateTime) (id : EventId) : LaneM ActivityHeartbeatDispositionV1 :=
  heartbeat_activity_v1_at heartbeat_request authority key kernel now id.

(** The answers, with the digests of the events they name. *)
Definition granted_digest (r : Result ActivityClaimDispositionV1 ActivityFailure) : string :=
  match r with Ok (ActivityClaimDispositionV1_Granted _ digest _ _) => digest | _ => "" end.
Definition result_digest (r : Result ActivityResultDispositionV1 ActivityFailure) : string :=
  match r with Ok (ActivityResultDispositionV1_Recorded _ digest _) => digest | _ => "" end.
Definition heartbeat_digest (r : Result ActivityHeartbeatDispositionV1 ActivityFailure) : string :=
  match r with Ok (ActivityHeartbeatDispositionV1_Recorded _ digest _) => digest | _ => "" end.
Definition claim_digest : string :=
  Eval vm_compute in granted_digest claimed.1.
Lemma claim_granted_at_105 :
  claimed = (Ok (ActivityClaimDispositionV1_Granted 20 claim_digest lease (show_int 10100)), claimed.2).
Proof.
  assert (claimed.1 = Ok (ActivityClaimDispositionV1_Granted 20 claim_digest lease (show_int 10100))) as Hv
    by (vm_compute; reflexivity).
  rewrite <- Hv. apply surjective_pairing.
Qed.

Definition failed := result_at ActivityResultOutcomeV1_Failed 205 21 claimed.2.
Definition failed_digest : string :=
  Eval vm_compute in result_digest failed.1.
Lemma failed_at_205 :
  failed = (Ok (ActivityResultDispositionV1_Recorded 21 failed_digest ActivityResultOutcomeV1_Failed), failed.2).
Proof.
  assert (failed.1 = Ok (ActivityResultDispositionV1_Recorded 21 failed_digest ActivityResultOutcomeV1_Failed)) as Hv
    by (vm_compute; reflexivity).
  rewrite <- Hv. apply surjective_pairing.
Qed.

(** The heartbeat in the millisecond of the claim: its text is the text of the grant. *)
Definition beaten := heartbeat_at 109 21 claimed.2.
Definition beaten_digest : string :=
  Eval vm_compute in heartbeat_digest beaten.1.
Lemma beaten_at_109 :
  beaten = (Ok (ActivityHeartbeatDispositionV1_Recorded 21 beaten_digest (show_int 10100)), beaten.2).
Proof.
  assert (beaten.1 = Ok (ActivityHeartbeatDispositionV1_Recorded 21 beaten_digest (show_int 10100))) as Hv
    by (vm_compute; reflexivity).
  rewrite <- Hv. apply surjective_pairing.
Qed.

(** ** The theorems on the session *)
Lemma after_nothing s : after_lane s [] = s.
Proof. reflexivity. Qed.

(** A second claim after the result, under another purpose. *)
Lemma leases_are_granted_once_witness :
  claimed.1 = Ok (ActivityClaimDispositionV1_Granted 20 claim_digest lease (show_int 10100)) /\
  forall claim_id' digest' lease_id' expires',
    (claim_activity_v1_at claim_request authority key kernel 400 ActivityClaimPurposeV1_Generic 30 78
      (after_lane claimed.2 [Lane_result (result_request ActivityResultOutcomeV1_Failed) authority key kernel 205 21])).1
    <> Ok (ActivityClaimDispositionV1_Granted claim_id' digest' lease_id' expires').
Proof.
  refine (conj (f_equal fst claim_granted_at_105) _). intros claim_id' digest' lease_id' expires'.
  apply (leases_are_granted_once claim_request authority key kernel 105 ActivityClaimPurposeV1_Generic 20 77 ready
    20 claim_digest lease (show_int 10100) claimed.2).
  - exact claim_granted_at_105.
  - reflexivity.
  - left. reflexivity.
Defined.

(** The result of the claim, then a claim and a contradicting result. *)
Lemma recorded_results_are_final_witness :
  failed.1 = Ok (ActivityResultDispositionV1_Recorded 21 failed_digest ActivityResultOutcomeV1_Failed) /\
  forall outcome now id r s3, result_at outcome now id failed.2 = (r, s3) ->
    ls_conn s3 = ls_conn failed.2 /\
    (forall a, r = Ok a -> a = ActivityResultDispositionV1_Recorded 21 failed_digest ActivityResultOutcomeV1_Failed /\
      outcome = ActivityResultOutcomeV1_Failed).
Proof.
  refine (conj (f_equal fst failed_at_205) _). intros outcome now id r s3 Hr.
  destruct (recorded_results_are_final (result_request ActivityResultOutcomeV1_Failed) authority key kernel 205 21 claimed.2
    21 failed_digest ActivityResultOutcomeV1_Failed failed.2 [] failed.2) as [Hfinal _].
  { apply SampleStore.small_ok. lia. }
  { exact failed_at_205. }
  { exact (eq_sym (after_nothing failed.2)). }
  destruct (Hfinal (result_request outcome) authority key kernel now id r s3 eq_refl eq_refl Hr) as [Hsame Hans].
  refine (conj Hsame _). intros a Ha. destruct (Hans a Ha) as (Hd & Ho & _). exact (conj Hd Ho).
Defined.

(** The claim as the table holds it, and the expiry of its grant. *)
Definition held := activity_claim_by_idempotency (ls_conn claimed.2) 1 "act-1".
Definition claim_or_none (r : Result (option StoredActivityClaim) ActivityFailure) : StoredActivityClaim :=
  match r with
  | Ok (Some claim) => claim
  | _ => granted_claim claim_request (Build_VerifiedClaimEvidence ActionKindV1_Process "" "" 0) "" 0 "" "" ""
  end.
Definition found (r : Result (option StoredActivityClaim) ActivityFailure) : bool :=
  match r with Ok (Some _) => true | _ => false end.
Lemma found_claim r : found r = true -> r = Ok (Some (claim_or_none r)).
Proof. by destruct r as [[]|]. Qed.
Definition stored : StoredActivityClaim := claim_or_none held.
Lemma held_is_stored : held = Ok (Some stored).
Proof. apply found_claim. vm_compute. reflexivity. Qed.

Definition claim_op : LaneOp :=
  Lane_claim claim_request authority key kernel 105 ActivityClaimPurposeV1_Generic 20 77.
Lemma claimed_is_after : claimed.2 = after_lane opened (prologue ++ [claim_op]).
Proof.
  unfold after_lane. rewrite foldl_app. fold (after_lane opened prologue). fold ready.
  cbn [foldl claim_op run_lane]. rewrite forget_snd. reflexivity.
Qed.

(** The claim granted at 105 and extended at 109 accepts no result any more. *)
Lemma unmoved_heartbeats_wedge_the_claim_witness :
  beaten.1 = Ok (ActivityHeartbeatDispositionV1_Recorded 21 beaten_digest (show_int 10100)) /\
  forall outcome now id r s2, result_at outcome now id beaten.2 = (r, s2) -> exists e, r = Err e.
Proof.
  refine (conj (f_equal fst beaten_at_109) _). intros outcome now id r s2 Hr.
  pose proof (unmoved_heartbeats_wedge_the_claim opened (prologue ++ [claim_op])
    claimed.2 heartbeat_request authority key kernel 109 21 21 beaten_digest (show_int 10100) beaten.2 stored 10100 []) as Hw.
  destruct Hw as [Hw _].
  - reflexivity.
  - exact claimed_is_after.
  - apply SampleStore.small_ok. cbn. lia.
  - exact beaten_at_109.
  - exact held_is_stored.
  - vm_compute. reflexivity.
  - reflexivity.
  - exact (Hw (result_request outcome) authority key kernel now id r s2 eq_refl eq_refl Hr).
Defined.

(** The result recorded at 205, half a millisecond past one. *)
Lemma replay_refuses_unrounded_records_witness :
  exists row event result,
    db_events (ld_tape (ls_conn failed.2)) !! uuid_to_string 21 = Some row /\
    row_to_event row = Ok event /\ ev_payload event = Payload_ActivityResultRecordedV1 result /\
    forall st signer' wkey action workflow,
      find_v3_workflow_key_for_activity_result st event result = Ok (wkey, action) ->
      st_workflow_instances st !! wkey = Some workflow ->
      requires_activity_claim_result workflow = true ->
      forall st', activity_result_recorded_v1_verdict st event result signer' <> Ok st'.
Proof.
  destruct (replay_refuses_unrounded_records encode_event claimed.2 205) as [Hrefused _]; [vm_compute; discriminate|].
  apply (Hrefused (result_request ActivityResultOutcomeV1_Failed) authority key kernel 21 stored
    21 failed_digest ActivityResultOutcomeV1_Failed failed.2).
  - apply SampleStore.small_ok. lia.
  - apply SampleStore.small_ok. cbn. lia.
  - apply SampleStore.small_ok. vm_compute. split; [discriminate|reflexivity].
  - exact held_is_stored.
  - vm_compute. reflexivity.
  - exact failed_at_205.
Defined.

(** The session of the claim and its result runs under one authority. *)
Definition session : list LaneOp :=
  prologue ++ [claim_op;
    Lane_result (result_request ActivityResultOutcomeV1_Failed) authority key kernel 205 21].
Lemma request_small : request_ok claim_request.
Proof. unfold request_ok, uuid_ok. cbn. lia. Qed.
Lemma result_op_ok : lane_op_ok authority key
  (Lane_result (result_request ActivityResultOutcomeV1_Failed) authority key kernel 205 21).
Proof. split; [reflexivity|]. split; [reflexivity|]. unfold uuid_ok. cbn. lia. Qed.
Lemma prologue_ok : Forall (lane_op_ok authority key) prologue.
Proof. apply Forall_cons_2; [exact I|]. apply Forall_cons_2; [exact I|]. apply Forall_nil_2. Qed.
Lemma session_ok : Forall (lane_op_ok authority key) session.
Proof.
  apply Forall_app_2; [exact prologue_ok|]. apply Forall_cons_2.
  - split; [reflexivity|]. split; [reflexivity|]. split; [exact request_small|]. unfold uuid_ok. lia.
  - apply Forall_cons_2; [exact result_op_ok|apply Forall_nil_2].
Qed.
Lemma trusted : trusts (aca_trusted_keys authority) key.
Proof. apply only_key_trusts. Qed.

Lemma claim_rows_are_backed_by_the_tape_witness :
  size (ld_activity_claims (ls_conn (after_lane opened session))) = 1%nat /\
  forall k row, ld_activity_claims (ls_conn (after_lane opened session)) !! k = Some row ->
  k = (clr_run_id row, clr_idempotency_key row) /\
  exists stored claim,
    stored_activity_claim_from_row row = Ok stored /\
    verify_signed_claim_projection (ls_conn (after_lane opened session)) stored authority = Ok claim /\
    (sac_state stored = StoredActivityClaimState_Recorded ->
     verify_signed_activity_result_projection (ls_conn (after_lane opened session)) stored authority = Ok tt).
Proof.
  split; [vm_compute; reflexivity|]. intros k row Hk.
  exact (claim_rows_are_backed_by_the_tape encode_event authority key trusted opened session k row eq_refl session_ok Hk).
Defined.

(** The claim again, at any instant after its result. *)
Lemma repeated_claims_are_answered_witness :
  claimed.1 = Ok (ActivityClaimDispositionV1_Granted 20 claim_digest lease (show_int 10100)) /\
  forall now' id' lease', exists d s2,
    claim_activity_v1_at claim_request authority key kernel now' ActivityClaimPurposeV1_Generic id' lease'
      (after_lane claimed.2 [Lane_result (result_request ActivityResultOutcomeV1_Failed) authority key kernel 205 21]) = (Ok d, s2) /\
    ls_conn s2 = ls_conn (after_lane claimed.2 [Lane_result (result_request ActivityResultOutcomeV1_Failed) authority key kernel 205 21]) /\
    status_of 20 d.
Proof.
  refine (conj (f_equal fst claim_granted_at_105) _). intros now' id' lease'.
  apply (repeated_claims_are_answered encode_event authority key trusted opened prologue claim_request kernel 105
    ActivityClaimPurposeV1_Generic 20 77 20 claim_digest lease (show_int 10100)).
  - reflexivity.
  - exact prologue_ok.
  - exact request_small.
  - apply SampleStore.small_ok. lia.
  - exact claim_granted_at_105.
  - apply Forall_cons_2; [exact result_op_ok|apply Forall_nil_2].
  - vm_compute. reflexivity.
Defined.
End SampleLane.
