(* ===== verification/Serve.v ===== *)
(** * The ledger server

    [bp-ledger/src/serve.rs]: the line protocol of the ledger process.  A session
    reads JSON lines, the first a handshake, and answers on a second stream.  A
    line is an event, appended in the generic lane after a guard on its kind, or a
    control message; the activity controls run the operations of [ActivityLane.v]
    under the configured authority.  The governed lane is bound to one run, takes
    no events, and seals the tape of the run before and after each control.

    The input is the list of lines before the end of the stream, each with what
    the server draws while it handles the line: clock readings and fresh ids.
    Reading and writing the streams do not fail in the model.  A response is a
    value; [response_json] is the object that is written for it. *)
From S2P Require Import Prelude RustStr Host LedgerPayloads TrustSpine Digests Events Tape WorkflowGraph Canonicalize Engine Store ActivityEvidence RetryContext ActivityLane.
From Stdlib Require Import Ascii.
From stdpp Require Import base list gmap strings pretty.

#[local] Open Scope string_scope.
#[local] Open Scope list_scope.
#[local] Open Scope Z_scope.

(** ** Configuration *)
Inductive SigningConfig `{Crypto} :=
| SigningConfig_Unsigned
| SigningConfig_Signed (signing_key : SigningKey) (signer : ActorKeyRef)
    (checkpoint_policy : CheckpointPolicy).

Inductive ActivityClaimProtocolConfig :=
| ActivityClaimProtocolConfig_Disabled
| ActivityClaimProtocolConfig_Signed (authority : ActivityClaimAuthorityV1).

Record GovernedServeProtocolConfigV1 := {
  gsc_expected_run_id : RunId;
  gsc_activity_claim_authority : ActivityClaimAuthorityV1
}.

(** ** Lines *)
Inductive ControlMessage :=
| ControlMessage_Handshake (protocol : u32) (run_id : RunId) (started_at : string)
    (schema_version : u32)
| ControlMessage_Flush (seq : u64)
| ControlMessage_Close (seq : u64)
| ControlMessage_ResolveOrAuthorizeModelActionV1 (request_id : string)
| ControlMessage_ResolveRetryCandidateActionIdentityV1 (request_id : string) (run_id : RunId)
    (dispatch_event_id : EventId) (candidate_ref : string)
| ControlMessage_ClaimActivityV1 (request_id : string) (run_id : RunId)
    (activity_id idempotency_key : string) (dispatch_event_id action_request_event_id : EventId)
    (lease_duration_ms : u64)
| ControlMessage_HeartbeatActivityV1 (request_id : string) (run_id : RunId)
    (activity_id idempotency_key lease_id heartbeat_id : string)
| ControlMessage_RecordActivityResultV1 (request_id : string) (run_id : RunId)
    (activity_id idempotency_key lease_id : string) (outcome : ActivityResultOutcomeV1)
    (result_digest result_ref : option string) (evidence_digest evidence_ref : string).

Inductive Line :=
| Line_Control (message : ControlMessage)
| Line_Event (event : Event).

Inductive ServeError :=
| ServeError_Activity (error : ActivityError)
| ServeError_Ledger (message : string)
| ServeError_InvalidJson (message : string)
| ServeError_InvalidPayload (kind reason : string)
| ServeError_UnsupportedSchemaVersion (received supported : u32)
| ServeError_GovernedServeRunMismatch (expected_run_id received_run_id : string)
| ServeError_CallerSuppliedTrustSpineEvent (kind : string)
| ServeError_CallerSuppliedSignedAuthorityEvent (kind : string)
| ServeError_CallerSuppliedGovernedEvent (kind : string).

Abbreviation ServeFailure := (Failure ServeError).

(** What the server takes from derived code: [serde]'s readers of the two kinds of
    line, the displayed text of an error, whether a displayed error of the
    canonicaliser or the signer is [InvalidPayload], and the version of the crate. *)
Class ServeHost := {
  event_from_value : Json -> Result Event string;
  control_from_value : Json -> Result ControlMessage string;
  display_error : ServeError -> string;
  is_invalid_payload : string -> bool;
  cargo_pkg_version : string
}.

(** What the server draws while it handles one line. *)
Record Draws := {
  dr_now : DateTime;
  dr_event_id : EventId;
  dr_lease_uuid : Uuid;
  dr_mint_before : Mint;
  dr_mint_after : Mint
}.

(** ** Responses *)
Record ResolvedGovernedV3RetryCandidateActionIdentityV1 := {
  rri_action_id : string;
  rri_activity_id : string;
  rri_idempotency_key : string
}.
Record ResolveGovernedV3RetryCandidateActionIdentityRequestV1 := {
  rrq_run_id : RunId;
  rrq_dispatch_event_id : EventId;
  rrq_candidate_ref : string
}.

Inductive Response :=
| Response_HandshakeReady (schema_version : u32)
| Response_HandshakeRefused (reason : string)
| Response_FlushAck (seq : u64) (last : option EventId)
| Response_CloseAck (events_written : u64) (last : option EventId)
| Response_ModelActionAuthorityUnavailable (request_id : string)
| Response_ClaimDisposition (request_id : string) (disposition : ActivityClaimDispositionV1)
| Response_HeartbeatDisposition (request_id : string) (disposition : ActivityHeartbeatDispositionV1)
| Response_ResultDisposition (request_id : string) (disposition : ActivityResultDispositionV1)
| Response_IdentityResolved (request_id : string)
    (identity : ResolvedGovernedV3RetryCandidateActionIdentityV1)
| Response_Rejected (control request_id code message : string)
| Response_Error (kind : string) (line_no : u64) (message : string).

Section Json.
Context `{Host, ServeHost}.

Definition write_handshake_ready (declared_schema_version : u32) : Json :=
  JObject [("control", JString "handshake_ack"); ("ready", JBool true);
           ("ledger_version", JString cargo_pkg_version);
           ("schema_version", JInt declared_schema_version)].
Definition write_handshake_refused (reason : string) : Json :=
  JObject [("control", JString "handshake_ack"); ("ready", JBool false);
           ("reason", JString reason)].

(** [last.map(|e| e.to_string()).unwrap_or_default()]. *)
Definition last_event_text (last : option EventId) : Json :=
  JString (default "" (uuid_to_string <$> last)).
Definition write_flush_ack (seq : u64) (last : option EventId) : Json :=
  JObject [("control", JString "flush_ack"); ("seq", JInt seq);
           ("last_event_id", last_event_text last)].
Definition write_close_ack (events_written : u64) (last : option EventId) : Json :=
  JObject [("control", JString "close_ack"); ("events_written", JInt events_written);
           ("last_event_id", last_event_text last)].

Definition write_model_action_authority_unavailable (request_id : string) : Json :=
  JObject [("control", JString "resolve_or_authorize_model_action_v1_result");
           ("request_id", JString request_id); ("outcome", JString "rejected");
           ("code", JString "trusted_replay_authority_unconfigured");
           ("message", JString "native model-action authority is unavailable: ledger serve has no configured trusted replay authorities (trusted public keys plus Kernel role bindings)")].

Definition write_activity_claim_disposition (request_id : string)
    (disposition : ActivityClaimDispositionV1) : Json :=
  let answer outcome members :=
    JObject ([("control", JString "claim_activity_v1_result"); ("request_id", JString request_id);
              ("outcome", JString outcome)] ++ members) in
  match disposition with
  | ActivityClaimDispositionV1_Granted claim_event_id claim_event_digest lease_id
      lease_expires_at =>
      answer "granted"
        [("claim_event_id", JString (uuid_to_string claim_event_id));
         ("claim_event_digest", JString claim_event_digest); ("lease_id", JString lease_id);
         ("lease_expires_at", JString lease_expires_at)]
  | ActivityClaimDispositionV1_Pending claim_event_id lease_expires_at =>
      answer "pending"
        [("claim_event_id", JString (uuid_to_string claim_event_id));
         ("lease_expires_at", JString lease_expires_at)]
  | ActivityClaimDispositionV1_Recorded claim_event_id result_event_id result_event_digest
      outcome =>
      answer "recorded"
        [("claim_event_id", JString (uuid_to_string claim_event_id));
         ("result_event_id", JString (uuid_to_string result_event_id));
         ("result_event_digest", JString result_event_digest);
         ("result_outcome", JString (activity_result_outcome_wire outcome))]
  | ActivityClaimDispositionV1_LeaseExpired claim_event_id lease_expires_at =>
      answer "lease_expired"
        [("claim_event_id", JString (uuid_to_string claim_event_id));
         ("lease_expires_at", JString lease_expires_at)]
  end.

Definition write_activity_heartbeat_disposition (request_id : string)
    (disposition : ActivityHeartbeatDispositionV1) : Json :=
  let answer outcome members :=
    JObject ([("control", JString "heartbeat_activity_v1_result");
              ("request_id", JString request_id); ("outcome", JString outcome)] ++ members) in
  match disposition with
  | ActivityHeartbeatDispositionV1_Recorded heartbeat_event_id heartbeat_event_digest
      lease_expires_at =>
      answer "recorded"
        [("heartbeat_event_id", JString (uuid_to_string heartbeat_event_id));
         ("heartbeat_event_digest", JString heartbeat_event_digest);
         ("lease_expires_at", JString lease_expires_at)]
  | ActivityHeartbeatDispositionV1_Existing heartbeat_event_id heartbeat_event_digest
      lease_expires_at =>
      answer "existing"
        [("heartbeat_event_id", JString (uuid_to_string heartbeat_event_id));
         ("heartbeat_event_digest", JString heartbeat_event_digest);
         ("lease_expires_at", JString lease_expires_at)]
  | ActivityHeartbeatDispositionV1_LeaseExpired claim_event_id lease_expires_at =>
      answer "lease_expired"
        [("claim_event_id", JString (uuid_to_string claim_event_id));
         ("lease_expires_at", JString lease_expires_at)]
  end.

Definition write_activity_result_disposition (request_id : string)
    (disposition : ActivityResultDispositionV1) : Json :=
  let answer outcome members :=
    JObject ([("control", JString "record_activity_result_v1_result");
              ("request_id", JString request_id); ("outcome", JString outcome)] ++ members) in
  match disposition with
  | ActivityResultDispositionV1_Recorded result_event_id result_event_digest outcome =>
      answer "recorded"
        [("result_event_id", JString (uuid_to_string result_event_id));
         ("result_event_digest", JString result_event_digest);
         ("result_outcome", JString (activity_result_outcome_wire outcome))]
  | ActivityResultDispositionV1_LeaseExpired claim_event_id lease_expires_at =>
      answer "lease_expired"
        [("claim_event_id", JString (uuid_to_string claim_event_id));
         ("lease_expires_at", JString lease_expires_at)]
  end.

Definition write_retry_candidate_action_identity_resolved (request_id : string)
    (identity : ResolvedGovernedV3RetryCandidateActionIdentityV1) : Json :=
  JObject [("control", JString "resolve_retry_candidate_action_identity_v1_result");
           ("request_id", JString request_id); ("outcome", JString "resolved");
           ("action_id", JString (rri_action_id identity));
           ("activity_id", JString (rri_activity_id identity));
           ("idempotency_key", JString (rri_idempotency_key identity))].

Definition write_activity_claim_rejected (control request_id code message : string) : Json :=
  JObject [("control", JString control); ("request_id", JString request_id);
           ("outcome", JString "rejected"); ("code", JString code);
           ("message", JString message)].

Definition write_error (kind : string) (line_no : u64) (message : string) : Json :=
  JObject [("control", JString "error"); ("kind", JString kind); ("line", JInt line_no);
           ("message", JString message)].

Definition response_json (response : Response) : Json :=
  match response with
  | Response_HandshakeReady schema_version => write_handshake_ready schema_version
  | Response_HandshakeRefused reason => write_handshake_refused reason
  | Response_FlushAck seq last => write_flush_ack seq last
  | Response_CloseAck events_written last => write_close_ack events_written last
  | Response_ModelActionAuthorityUnavailable request_id =>
      write_model_action_authority_unavailable request_id
  | Response_ClaimDisposition request_id d => write_activity_claim_disposition request_id d
  | Response_HeartbeatDisposition request_id d => write_activity_heartbeat_disposition request_id d
  | Response_ResultDisposition request_id d => write_activity_result_disposition request_id d
  | Response_IdentityResolved request_id identity =>
      write_retry_candidate_action_identity_resolved request_id identity
  | Response_Rejected control request_id code message =>
      write_activity_claim_rejected control request_id code message
  | Response_Error kind line_no message => write_error kind line_no message
  end.
End Json.

(** ** The kinds a generic caller may not supply *)
Definition caller_trust_spine_kinds : list EventKind := [
  EventKind_DispatchEnvelope; EventKind_DispatchEnvelopeV2; EventKind_DispatchEnvelopeV3;
  EventKind_DispatchEnvelopeV4; EventKind_DispatchEnvelopeV5;
  EventKind_GovernedDispatchV5AdmissionRecordedV1; EventKind_ContextManifestDeclaredV1;
  EventKind_WorkerManifestDeclaredV1; EventKind_SandboxProfileDeclaredV1;
  EventKind_AttemptContextDeclaredV1; EventKind_WorkflowGraphDeclaredV1;
  EventKind_WorkflowGraphDeclaredV2; EventKind_ActionRequestedV2; EventKind_ModelActionIntentV1;
  EventKind_ModelActionAuthorizedV1; EventKind_ModelActionAuthorizedV2;
  EventKind_ActivityClaimedV1; EventKind_ActivityHeartbeatRecordedV1;
  EventKind_ActivityResultRecordedV1; EventKind_ActionReceiptRecordedV2;
  EventKind_ActionReceiptSetRecordedV1; EventKind_AttemptContextRecordedV1;
  EventKind_CandidateCreated; EventKind_CandidateCreatedV2;
  EventKind_CandidateCompletionRecordedV1; EventKind_CandidateAcceptanceRecorded;
  EventKind_ReviewVerdictRecorded; EventKind_ReviewVerdictRecordedV2;
  EventKind_PromotionApprovalRequested; EventKind_PromotionDecisionRecorded;
  EventKind_PromotionExecutionClaimedV1; EventKind_PromotionResultRecorded;
  EventKind_PromotionReconciliationResolved; EventKind_WorkflowTimerScheduledV1;
  EventKind_WorkflowTimerFiredV1; EventKind_WorkflowCancellationRequestedV1;
  EventKind_WorkflowTerminal; EventKind_WorkflowTerminalV2].

Definition caller_signed_authority_kinds : list EventKind := [
  EventKind_RunStarted; EventKind_RunCompleted; EventKind_RunFailed;
  EventKind_RunAdmissionRecorded; EventKind_PlanAdmitted; EventKind_PlanReceiptRecorded;
  EventKind_ActivityStarted; EventKind_ActivityCompleted; EventKind_UnitStarted;
  EventKind_UnitCompleted; EventKind_UnitFailed; EventKind_UnitCancelled;
  EventKind_GitCheckpoint; EventKind_ToolRequest; EventKind_ToolResult;
  EventKind_AcceptanceRecorded; EventKind_OperatorDecisionRecorded; EventKind_ResultReady].

Definition reject_caller_supplied_authority_event (event : Event) (signed_append : bool)
    : Result unit ServeError :=
  fail_if bool_decide (ev_kind event ∈ caller_trust_spine_kinds)
    with ServeError_CallerSuppliedTrustSpineEvent (as_wire (ev_kind event)) ;;
  fail_if signed_append && bool_decide (ev_kind event ∈ caller_signed_authority_kinds)
    with ServeError_CallerSuppliedSignedAuthorityEvent (as_wire (ev_kind event)) ;;
  Ok tt.

(** ** Closed controls *)

(** [Value::get] and [Value::as_str]. *)
Definition json_get (value : Json) (key : string) : option Json :=
  match value with
  | JObject members => snd <$> find (fun member => member.1 == key) members
  | _ => None
  end.
Definition json_as_str (value : Json) : option string :=
  match value with JString s => Some s | _ => None end.
Definition json_get_str (value : Json) (key : string) : option string :=
  json_get value key ≫= json_as_str.

Definition validate_closed_control_fields (value : Json) (control : string)
    (expected_fields : list string) : Result unit ServeError :=
  match value with
  | JObject members =>
      fail_if negb (length members =? length expected_fields)%nat
           || existsb (fun member => negb (bool_decide (member.1 ∈ expected_fields))) members
           || existsb (fun field => is_none (json_get value field)) expected_fields
        with ServeError_InvalidPayload control "control request has unknown or missing fields" ;;
      Ok tt
  | _ => Err (ServeError_InvalidPayload control "control request must be a JSON object")
  end.

Definition require_text (value : Json) (control field : string) : Result unit ServeError :=
  fail_if is_none_or (json_get_str value field) trim_is_empty
    with ServeError_InvalidPayload control (field +:+ " must be a non-empty string") ;;
  Ok tt.

Definition validate_closed_authority_controls (value : Json) : Result unit ServeError :=
  let control := default "" (json_get_str value "control") in
  let closed fields := validate_closed_control_fields value control fields in
  if control == "resolve_or_authorize_model_action_v1" then
    let* _ := closed ["control"; "request_id"] in
    let* _ := require_text value control "request_id" in
    require_text value control "request_id"
  else if control == "resolve_retry_candidate_action_identity_v1" then
    let* _ := closed ["control"; "request_id"; "run_id"; "dispatch_event_id"; "candidate_ref"] in
    let* _ := require_text value control "candidate_ref" in
    require_text value control "request_id"
  else if control == "claim_activity_v1" then
    let* _ := closed ["control"; "request_id"; "run_id"; "activity_id"; "idempotency_key";
                      "dispatch_event_id"; "action_request_event_id"; "lease_duration_ms"] in
    require_text value control "request_id"
  else if control == "heartbeat_activity_v1" then
    let* _ := closed ["control"; "request_id"; "run_id"; "activity_id"; "idempotency_key";
                      "lease_id"; "heartbeat_id"] in
    require_text value control "request_id"
  else if control == "record_activity_result_v1" then
    let* _ := closed ["control"; "request_id"; "run_id"; "activity_id"; "idempotency_key";
                      "lease_id"; "outcome"; "result_digest"; "result_ref"; "evidence_digest";
                      "evidence_ref"] in
    require_text value control "request_id"
  else Ok tt.

Section Serve.
Context `{Host, Canonicalizer, Crypto, RowDecoder, RowEncoder, ServeHost}.

Definition parse_control_or_event (line : string) : Result Line ServeError :=
  some_or value := json_from_str line
    with ServeError_InvalidPayload "<line>" "invalid json" ;;
  if is_some (json_get value "control") then
    let* _ := validate_closed_authority_controls value in
    let* message := map_err ServeError_InvalidJson (control_from_value value) in
    Ok (Line_Control message)
  else
    let* event := map_err ServeError_InvalidJson (event_from_value value) in
    Ok (Line_Event event).

(** ** Two reads of the store *)

(** [flush_fsync]: the greatest id of the table, as text. *)
Definition flush_fsync (db : LaneDatabase) : Result (option EventId) ActivityFailure :=
  match last (btree_list (db_events (ld_tape db))) with
  | None => Ok None
  | Some (id, _) =>
      some_or uuid := uuid_parse_str id with Errored (ActivityError_Store StoreError_Sqlite) ;;
      Ok (Some uuid)
  end.

Definition candidate_create_action_identity_for_suffix (suffix : string)
    (retry_action_namespace : option string) : string * option string :=
  match retry_action_namespace with
  | None => (RETRY_CANDIDATE_ACTION_KIND +:+ ":" +:+ suffix, None)
  | Some retry_action_namespace =>
      let action_id := retry_action_namespace +:+ ":" +:+ RETRY_CANDIDATE_ACTION_KIND +:+ ":" +:+ suffix in
      (action_id, Some (action_id +:+ ":idempotency"))
  end.

Definition resolve_governed_v3_retry_candidate_action_identity_v1
    (request : ResolveGovernedV3RetryCandidateActionIdentityRequestV1)
    (authority : ActivityClaimAuthorityV1) (db : LaneDatabase)
    : Result ResolvedGovernedV3RetryCandidateActionIdentityV1 ActivityFailure :=
  some_or candidate_suffix := canonical_buildplane_candidate_ref_suffix (rrq_candidate_ref request)
    with rejected "governed retry candidate identity requires a canonical Buildplane candidate ref" ;;
  let* dispatch_event := load_verified_authority_event (ld_tape db) (rrq_dispatch_event_id request)
    (aca_trusted_keys authority) (aca_dispatch_signer authority)
    "governed retry candidate identity dispatch" in
  fail_if ev_run_id dispatch_event != rrq_run_id request
    with rejected "governed retry candidate identity dispatch run_id does not match the request" ;;
  let* dispatch := match ev_kind dispatch_event, ev_payload dispatch_event with
    | EventKind_DispatchEnvelopeV3, Payload_DispatchEnvelopeV3 dispatch => Ok dispatch
    | EventKind_DispatchEnvelopeV4, Payload_DispatchEnvelopeV4 _ =>
        Err (rejected "governed retry candidate identity supports only outer sealed-V3 dispatch envelopes; graph-bound V4 retries remain rejected")
    | EventKind_DispatchEnvelopeV5, Payload_DispatchEnvelopeV5 _ =>
        Err (rejected "governed retry candidate identity supports only outer sealed-V3 dispatch envelopes; manifest-bound V5 retries remain rejected")
    | _, _ => Err (rejected "governed retry candidate identity dispatch is not a sealed-V3 dispatch envelope")
    end in
  let attempt := deb2_attempt (de3_body dispatch) in
  fail_if attempt <=? 1
    with rejected "governed retry candidate identity requires a dispatch attempt greater than one" ;;
  some_or configured_realm := aca_ledger_authority_realm_digest authority
    with rejected "governed retry candidate identity requires a configured protected activity authority realm" ;;
  let retry_authority := retry_authority_of authority configured_realm in
  let* _ := map_failure (ActivityError_ClaimAuthorityRejectedFor
      "governed retry candidate identity dispatch is outside the configured sealed-V3 realm")
    (validate_static_governed_candidate_completion_dispatch dispatch retry_authority) in
  fail_if negb (candidate_ref_suffix_binds_run_and_attempt candidate_suffix (rrq_run_id request)
                  attempt)
    with rejected "governed retry candidate identity candidate_ref must bind the signed run and attempt" ;;
  let* retry_context := map_failure (ActivityError_ClaimAuthorityRejectedFor
      "governed retry candidate identity cannot resolve its signed retry context")
    (verify_governed_sealed_v3_retry_context (ld_tape db) (rrq_run_id request) retry_authority
       dispatch_event dispatch) in
  match candidate_create_action_identity_for_suffix candidate_suffix
          (Some (vrc_retry_action_namespace retry_context)) with
  | (action_id, Some idempotency_key) =>
      Ok {| rri_action_id := action_id; rri_activity_id := action_id;
            rri_idempotency_key := idempotency_key |}
  | (_, None) => Err (Stopped Crash_Panic)
  end.

(** ** Error codes *)
Definition activity_claim_error_code (error : ActivityError) : string :=
  match error with
  | ActivityError_ClaimAuthorityRejected _ | ActivityError_ClaimAuthorityRejectedFor _ _
  | ActivityError_Store (StoreError_ActivityClaimAuthorityRejected _) =>
      "trusted_activity_authority_rejected"
  | ActivityError_ClaimIdempotencyConflict _ _ => "idempotency_conflict"
  | ActivityError_ClaimNotFound _ _ => "activity_claim_not_found"
  | ActivityError_ClaimLeaseMismatch _ _ => "lease_mismatch"
  | ActivityError_HeartbeatIdempotencyConflict _ _ => "heartbeat_idempotency_conflict"
  | ActivityError_InvalidPayload _ _ | ActivityError_Store (StoreError_InvalidPayload _) =>
      "invalid_activity_request"
  | ActivityError_Store (StoreError_Ledger message) =>
      if is_invalid_payload message then "invalid_activity_request"
      else "activity_claim_storage_failure"
  | ActivityError_Store (StoreError_NonMonotonicEventId _) => "non_monotonic_event_id"
  | _ => "activity_claim_storage_failure"
  end.

Definition retry_candidate_action_identity_error_code (error : ActivityError) : string :=
  match error with
  | ActivityError_ClaimAuthorityRejected _ | ActivityError_ClaimAuthorityRejectedFor _ _
  | ActivityError_Store (StoreError_ActivityClaimAuthorityRejected _)
  | ActivityError_CompletionAuthorityRejected _ | ActivityError_CompletionAuthorityRejectedFor _ _
  | ActivityError_PromotionAuthorityRejected _ => "trusted_activity_authority_rejected"
  | ActivityError_InvalidPayload _ _ | ActivityError_Store (StoreError_InvalidPayload _) =>
      "invalid_retry_candidate_identity_request"
  | ActivityError_Store (StoreError_Ledger message) =>
      if is_invalid_payload message then "invalid_retry_candidate_identity_request"
      else "retry_candidate_identity_storage_failure"
  | ActivityError_Store (StoreError_NonMonotonicEventId _) => "non_monotonic_event_id"
  | _ => "retry_candidate_identity_storage_failure"
  end.
End Serve.

(** ** The session *)
Record ServeOutcome := {
  so_events_written : u64;
  so_last_event_id : option EventId
}.
Definition default_serve_outcome : ServeOutcome :=
  {| so_events_written := 0; so_last_event_id := None |}.

Record ServeState := {
  sv_store : LaneStore;
  sv_stderr : list Response;
  sv_outcome : ServeOutcome
}.

Definition ServeM (A : Type) : Type := ServeState -> Result A ServeFailure * ServeState.

Definition serve_bind {A B} (m : ServeM A) (k : A -> ServeM B) : ServeM B :=
  fun st => match m st with
            | (Ok a, st') => k a st'
            | (Err e, st') => (Err e, st')
            end.
Notation "'serve!' x := m 'in' k" := (serve_bind m (fun x => k))
  (at level 10, x pattern, m at level 100, k at level 200) : rust_scope.

Definition serve_ret {A} (a : A) : ServeM A := fun st => (Ok a, st).
Definition serve_err {A} (e : ServeError) : ServeM A := fun st => (Err (Errored e), st).
Definition respond (response : Response) : ServeM unit :=
  fun st => (Ok tt, {| st with sv_stderr := sv_stderr st ++ [response] |}).
(** A store operation whose error ends the session. *)
Definition store_call {A} (m : LaneM A) : ServeM A := fun st =>
  let '(r, s) := m (sv_store st) in
  (map_failure ServeError_Activity r, {| st with sv_store := s |}).
(** A store operation whose error the session answers; a panic still ends it. *)
Definition try_store_call {A} (m : LaneM A) : ServeM (Result A ActivityError) := fun st =>
  let '(r, s) := m (sv_store st) in
  let st' := {| st with sv_store := s |} in
  match r with
  | Ok a => (Ok (Ok a), st')
  | Err (Errored e) => (Ok (Err e), st')
  | Err (Stopped crash) => (Err (Stopped crash), st')
  end.

(** Whether the loop goes on after a line. *)
Inductive Flow := Flow_Continue | Flow_Closed.

Section Session.
Context `{Host, Canonicalizer, Crypto, RowDecoder, RowEncoder, ServeHost}.
Context (declared_schema_version : u32) (signing : SigningConfig)
  (activity_claims : ActivityClaimProtocolConfig) (governed_expected_run_id : option RunId).

Definition control_run_id (line : Line) : option RunId :=
  match line with
  | Line_Control (ControlMessage_ResolveRetryCandidateActionIdentityV1 _ run_id _ _)
  | Line_Control (ControlMessage_ClaimActivityV1 _ run_id _ _ _ _ _)
  | Line_Control (ControlMessage_HeartbeatActivityV1 _ run_id _ _ _ _)
  | Line_Control (ControlMessage_RecordActivityResultV1 _ run_id _ _ _ _ _ _ _ _) => Some run_id
  | _ => None
  end.

Definition seal_governed_control_prefix (signing_key : SigningKey) (signer : ActorKeyRef)
    (mint : Mint) : LaneM unit :=
  match governed_expected_run_id with
  | Some expected_run_id =>
      lane! _ := on_tape (seal_governed_signed_prefix expected_run_id signing_key signer mint) in
      lane_ret tt
  | None => lane_ret tt
  end.

(** An error that is written before the session ends with it. *)
Definition abort_with {A} (kind : string) (line_no : u64) (message : string) (error : ServeError)
    : ServeM A :=
  serve! _ := respond (Response_Error kind line_no message) in
  serve_err error.

(** *** Handshake *)
Definition handshake_error {A} (reason : string) : ServeM A :=
  serve_err (ServeError_InvalidPayload "<handshake>" reason).

Definition await_handshake (first_line : option string) : ServeM unit :=
  match first_line with
  | None =>
      serve! _ := respond (Response_Error "handshake_missing" 1 "stdin closed before handshake") in
      handshake_error "stdin closed before handshake"
  | Some first_line =>
  match parse_control_or_event (trim first_line) with
  | Err _ =>
      serve! _ := respond (Response_Error "handshake_malformed" 1 "first line not valid json") in
      handshake_error "first line not valid json"
  | Ok (Line_Control (ControlMessage_Handshake protocol run_id _ schema_version)) =>
      if protocol != 1 then
        serve! _ := respond (Response_HandshakeRefused
          ("protocol " +:+ pretty protocol +:+ " not supported")) in
        handshake_error ("protocol " +:+ pretty protocol +:+ " not supported")
      else
      if schema_version != declared_schema_version then
        serve! _ := respond (Response_HandshakeRefused
          ("schema version " +:+ pretty schema_version +:+ " not supported (supported: "
             +:+ pretty declared_schema_version +:+ ")")) in
        serve_err (ServeError_UnsupportedSchemaVersion schema_version declared_schema_version)
      else
      serve! _ := match governed_expected_run_id with
        | Some expected_run_id =>
            if run_id != expected_run_id then
              serve! _ := respond (Response_HandshakeRefused
                ("governed serve is bound to run " +:+ uuid_to_string expected_run_id
                   +:+ ", not " +:+ uuid_to_string run_id)) in
              serve_err (ServeError_GovernedServeRunMismatch (uuid_to_string expected_run_id)
                           (uuid_to_string run_id))
            else serve_ret tt
        | None => serve_ret tt
        end in
      respond (Response_HandshakeReady declared_schema_version)
  | Ok _ =>
      serve! _ := respond (Response_Error "handshake_required" 1 "first line must be a handshake") in
      handshake_error "first line must be a handshake"
  end
  end.

(** *** Events *)
Definition is_signed : bool :=
  match signing with SigningConfig_Signed _ _ _ => true | SigningConfig_Unsigned => false end.

Definition append_event (canonical : Event) (draws : Draws) : LaneM unit :=
  match signing with
  | SigningConfig_Unsigned => on_tape (append canonical)
  | SigningConfig_Signed signing_key signer checkpoint_policy =>
      lane! _ := on_tape (append_signed_with_checkpoint canonical signing_key signer
        checkpoint_policy (dr_now draws) (dr_mint_after draws)) in
      lane_ret tt
  end.

Definition handle_event (line_no : u64) (event : Event) (draws : Draws) : ServeM unit :=
  if is_some governed_expected_run_id then
    let error := ServeError_CallerSuppliedGovernedEvent (as_wire (ev_kind event)) in
    abort_with "caller_supplied_governed_event" line_no (display_error error) error
  else
  match reject_caller_supplied_authority_event event is_signed with
  | Err error => abort_with "caller_supplied_authority_event" line_no (display_error error) error
  | Ok _ =>
  match canonicalize event with
  | Err message => serve_err (ServeError_Ledger message)
  | Ok canonical =>
      serve! appended := try_store_call (append_event canonical draws) in
      match appended with
      | Err error =>
          abort_with "storage_failure" line_no (display_error (ServeError_Activity error))
            (ServeError_Activity error)
      | Ok _ => fun st =>
          (Ok tt, {| st with sv_outcome :=
                       {| so_events_written := so_events_written (sv_outcome st) + 1;
                          so_last_event_id := Some (ev_id canonical) |} |})
      end
  end
  end.

(** *** Activity controls *)

(** A control that runs a store operation under the configured authority and key
    and answers with its disposition. *)
Definition activity_control {A} (control request_id unconfigured unsigned : string)
    (code : ActivityError -> string)
    (operation : ActivityClaimAuthorityV1 -> SigningKey -> ActorKeyRef -> LaneM A)
    (seal_after : bool) (answer : A -> Response) (draws : Draws) : ServeM unit :=
  match activity_claims with
  | ActivityClaimProtocolConfig_Disabled =>
      respond (Response_Rejected control request_id "trusted_activity_authority_unconfigured"
                 unconfigured)
  | ActivityClaimProtocolConfig_Signed authority =>
  match signing with
  | SigningConfig_Unsigned =>
      respond (Response_Rejected control request_id "signed_append_required" unsigned)
  | SigningConfig_Signed signing_key signer _ =>
      serve! _ := store_call (seal_governed_control_prefix signing_key signer
        (dr_mint_before draws)) in
      serve! disposition := try_store_call (operation authority signing_key signer) in
      match disposition with
      | Ok disposition =>
          serve! _ := if seal_after
            then store_call (seal_governed_control_prefix signing_key signer (dr_mint_after draws))
            else serve_ret tt in
          respond (answer disposition)
      | Err error =>
          respond (Response_Rejected control request_id (code error)
                     (display_error (ServeError_Activity error)))
      end
  end
  end.

Definition resolve_identity_control (request_id : string) (run_id : RunId)
    (dispatch_event_id : EventId) (candidate_ref : string) (draws : Draws) : ServeM unit :=
  let control := "resolve_retry_candidate_action_identity_v1_result" in
  if is_none governed_expected_run_id then
    respond (Response_Rejected control request_id "governed_serve_required"
      "retry candidate identity resolution is available only through governed serve")
  else activity_control control request_id
    "retry candidate identity resolution requires independent trusted activity authority configuration"
    "retry candidate identity resolution requires a signed ledger append configuration"
    retry_candidate_action_identity_error_code
    (fun authority _ _ => lane_read
       (resolve_governed_v3_retry_candidate_action_identity_v1
          {| rrq_run_id := run_id; rrq_dispatch_event_id := dispatch_event_id;
             rrq_candidate_ref := candidate_ref |} authority))
    false (Response_IdentityResolved request_id) draws.

Definition claim_control (request_id : string) (request : ActivityClaimRequestV1) (draws : Draws)
    : ServeM unit :=
  activity_control "claim_activity_v1_result" request_id
    "activity claims require independent trusted authority configuration"
    "activity claims require a signed ledger append configuration"
    activity_claim_error_code
    (fun authority signing_key signer => claim_activity_v1 request authority signing_key signer
       (dr_now draws) (dr_event_id draws) (dr_lease_uuid draws))
    true (Response_ClaimDisposition request_id) draws.

Definition result_control (request_id : string) (request : ActivityResultRequestV1)
    (draws : Draws) : ServeM unit :=
  activity_control "record_activity_result_v1_result" request_id
    "activity results require independent trusted authority configuration"
    "activity results require a signed ledger append configuration"
    activity_claim_error_code
    (fun authority signing_key signer => record_activity_result_v1_at request authority
       signing_key signer (dr_now draws) (dr_event_id draws))
    true (Response_ResultDisposition request_id) draws.

Definition heartbeat_control (request_id : string) (request : ActivityHeartbeatRequestV1)
    (draws : Draws) : ServeM unit :=
  activity_control "heartbeat_activity_v1_result" request_id
    "activity heartbeats require independent trusted authority configuration"
    "activity heartbeats require a signed ledger append configuration"
    activity_claim_error_code
    (fun authority signing_key signer => heartbeat_activity_v1_at request authority
       signing_key signer (dr_now draws) (dr_event_id draws))
    true (Response_HeartbeatDisposition request_id) draws.

Definition handle_control (line_no : u64) (message : ControlMessage) (draws : Draws)
    : ServeM Flow :=
  match message with
  | ControlMessage_Flush seq =>
      serve! last := store_call (lane_read flush_fsync) in
      serve! _ := respond (Response_FlushAck seq last) in
      serve_ret Flow_Continue
  | ControlMessage_Close _ =>
      serve! last := store_call (lane_read flush_fsync) in
      serve! _ := (fun st => respond (Response_CloseAck (so_events_written (sv_outcome st)) last) st) in
      serve_ret Flow_Closed
  | ControlMessage_ResolveOrAuthorizeModelActionV1 request_id =>
      serve! _ := respond (Response_ModelActionAuthorityUnavailable request_id) in
      serve_ret Flow_Continue
  | ControlMessage_ResolveRetryCandidateActionIdentityV1 request_id run_id dispatch_event_id
      candidate_ref =>
      serve! _ := resolve_identity_control request_id run_id dispatch_event_id candidate_ref draws in
      serve_ret Flow_Continue
  | ControlMessage_ClaimActivityV1 request_id run_id activity_id idempotency_key
      dispatch_event_id action_request_event_id lease_duration_ms =>
      serve! _ := claim_control request_id
        {| acq_run_id := run_id; acq_activity_id := activity_id;
           acq_idempotency_key := idempotency_key; acq_dispatch_event_id := dispatch_event_id;
           acq_action_request_event_id := action_request_event_id;
           acq_lease_duration_ms := lease_duration_ms |} draws in
      serve_ret Flow_Continue
  | ControlMessage_RecordActivityResultV1 request_id run_id activity_id idempotency_key lease_id
      outcome result_digest result_ref evidence_digest evidence_ref =>
      serve! _ := result_control request_id
        {| arq_run_id := run_id; arq_activity_id := activity_id;
           arq_idempotency_key := idempotency_key; arq_lease_id := lease_id; arq_outcome := outcome;
           arq_result_digest := result_digest; arq_result_ref := result_ref;
           arq_evidence_digest := evidence_digest; arq_evidence_ref := evidence_ref |} draws in
      serve_ret Flow_Continue
  | ControlMessage_HeartbeatActivityV1 request_id run_id activity_id idempotency_key lease_id
      heartbeat_id =>
      serve! _ := heartbeat_control request_id
        {| ahq_run_id := run_id; ahq_activity_id := activity_id;
           ahq_idempotency_key := idempotency_key; ahq_lease_id := lease_id;
           ahq_heartbeat_id := heartbeat_id |} draws in
      serve_ret Flow_Continue
  | ControlMessage_Handshake _ _ _ _ =>
      serve! _ := respond (Response_Error "unexpected_handshake" line_no
        "handshake after initial setup") in
      handshake_error "unexpected second handshake"
  end.

(** *** The loop *)
Definition check_bound_run (line_no : u64) (line : Line) : ServeM unit :=
  match governed_expected_run_id, control_run_id line with
  | Some expected_run_id, Some received_run_id =>
      if received_run_id != expected_run_id then
        let error := ServeError_GovernedServeRunMismatch (uuid_to_string expected_run_id)
          (uuid_to_string received_run_id) in
        abort_with "governed_run_mismatch" line_no (display_error error) error
      else serve_ret tt
  | _, _ => serve_ret tt
  end.

Definition handle_line (line_no : u64) (line : Line) (draws : Draws) : ServeM Flow :=
  serve! _ := check_bound_run line_no line in
  match line with
  | Line_Event event =>
      serve! _ := handle_event line_no event draws in
      serve_ret Flow_Continue
  | Line_Control message => handle_control line_no message draws
  end.

Definition handle_text (line_no : u64) (text : string) (draws : Draws) : ServeM Flow :=
  let text := trim text in
  if text == "" then serve_ret Flow_Continue else
  match parse_control_or_event text with
  | Err error =>
      abort_with "malformed_event" line_no
        ("line " +:+ pretty line_no +:+ ": " +:+ display_error error) error
  | Ok line => handle_line line_no line draws
  end.

Fixpoint serve_loop (line_no : u64) (lines : list (string * Draws)) : ServeM ServeOutcome :=
  match lines with
  | [] => fun st => (Ok (sv_outcome st), st)
  | (text, draws) :: rest =>
      serve! flow := handle_text (line_no + 1) text draws in
      match flow with
      | Flow_Closed => fun st => (Ok (sv_outcome st), st)
      | Flow_Continue => serve_loop (line_no + 1) rest
      end
  end.

Definition serve_with_protocol_inner (lines : list (string * Draws)) : ServeM ServeOutcome :=
  serve! _ := await_handshake (fst <$> head lines) in
  serve_loop 1 (tail lines).
End Session.

Section Entry.
Context `{Host, Canonicalizer, Crypto, RowDecoder, RowEncoder, ServeHost}.

Definition run_serve {A} (m : ServeM A) (store : LaneStore) : Result A ServeFailure * ServeState :=
  m {| sv_store := store; sv_stderr := []; sv_outcome := default_serve_outcome |}.

Definition serve_with_protocol (declared_schema_version : u32) (signing : SigningConfig)
    (lines : list (string * Draws)) : ServeM ServeOutcome :=
  serve_with_protocol_inner declared_schema_version signing ActivityClaimProtocolConfig_Disabled
    None lines.

Definition serve_with_protocol_with_activity_claims (declared_schema_version : u32)
    (signing : SigningConfig) (activity_claims : ActivityClaimProtocolConfig)
    (lines : list (string * Draws)) : ServeM ServeOutcome :=
  serve_with_protocol_inner declared_schema_version signing activity_claims None lines.

Definition serve_governed_with_protocol (declared_schema_version : u32) (signing : SigningConfig)
    (config : GovernedServeProtocolConfigV1) (lines : list (string * Draws))
    : ServeM ServeOutcome :=
  match signing with
  | SigningConfig_Unsigned =>
      serve_err (ServeError_Activity (ActivityError_ClaimAuthorityRejected
        "governed serve requires a protected signed append configuration"))
  | SigningConfig_Signed _ _ CheckpointPolicy_Disabled =>
      serve_err (ServeError_Activity (ActivityError_ClaimAuthorityRejected
        "governed serve requires an enabled tape checkpoint policy"))
  | SigningConfig_Signed _ _ _ =>
      serve_with_protocol_inner declared_schema_version signing
        (ActivityClaimProtocolConfig_Signed (gsc_activity_claim_authority config))
        (Some (gsc_expected_run_id config)) lines
  end.

(** The older loop without a protocol: events only, appended unsigned. *)
Fixpoint ingest_lines (count : u64) (lines : list string) : ServeM u64 :=
  match lines with
  | [] => serve_ret count
  | line :: rest =>
      if trim_is_empty line then ingest_lines count rest else
      match json_from_str line with
      | None => serve_err (ServeError_InvalidPayload "<unknown>" "invalid json")
      | Some value =>
      match event_from_value value with
      | Err reason => serve_err (ServeError_InvalidPayload "<unknown>" reason)
      | Ok event =>
      match canonicalize event with
      | Err message => serve_err (ServeError_Ledger message)
      | Ok canonical =>
          serve! _ := store_call (on_tape (append canonical)) in
          ingest_lines (count + 1) rest
      end
      end
      end
  end.
Definition ingest (lines : list string) : ServeM u64 := ingest_lines 0 lines.
End Entry.
