(* ===== verification/ServeSpec.v ===== *)
(** * What a server session can write

    Theorems on [Serve.v].  A session runs nothing but operations of the store:
    [serve_runs_lane_operations] turns every session into a sequence of lane
    operations of the kinds its configuration allows, so that the theorems about
    lanes and tapes apply to it.  From it: a governed session writes activity
    records and checkpoints of its own run and nothing else, and nothing a generic
    session writes moves a governed workflow when the tape is replayed. *)
From S2P Require Import Prelude RustStr Host LedgerPayloads TrustSpine Digests Events Tape WorkflowGraph ReplayState ReducerCore ReducerDispatch ReducerActions ReducerCandidates ReducerPromotion ReducerLifecycle Reducer WorkflowSpec ReducerVerdict WorkflowRefine WorkflowReplay Canonicalize CanonicalizeSpec Engine EngineSpec Store StoreRows StoreSeal StoreSpec StoreSession ActivityEvidence RetryContext ActivityLane LaneSpec LaneTheorems Serve.
From stdpp Require Import base list gmap strings pretty.

#[local] Open Scope string_scope.
#[local] Open Scope list_scope.
#[local] Open Scope Z_scope.

(** ** Sessions as lane operations *)
Section Runs.
Context `{Host, Canonicalizer, Crypto, RowDecoder, RowEncoder, ServeHost}.

(** Whatever the state, [m] runs operations of [P] on the store and nothing else. *)
Definition runs_only (P : LaneOp -> Prop) {A} (m : ServeM A) : Prop :=
  forall st, exists ops, Forall P ops /\ sv_store (m st).2 = after_lane (sv_store st) ops.

Lemma runs_nothing (P : LaneOp -> Prop) {A} (m : ServeM A) :
  (forall st, sv_store (m st).2 = sv_store st) -> runs_only P m.
Proof. intros Hm st. exists []. by rewrite Hm. Qed.

Lemma runs_ret P {A} (a : A) : runs_only P (serve_ret a).
Proof. by apply runs_nothing. Qed.
Lemma runs_err P {A} e : runs_only P (@serve_err A e).
Proof. by apply runs_nothing. Qed.
Lemma runs_respond P response : runs_only P (respond response).
Proof. by apply runs_nothing. Qed.

Lemma runs_bind P {A B} (m : ServeM A) (k : A -> ServeM B) :
  runs_only P m -> (forall a, runs_only P (k a)) -> runs_only P (serve_bind m k).
Proof.
  intros Hm Hk st. destruct (Hm st) as (ops & Hops & Hst). unfold serve_bind.
  destruct (m st) as [[a|e] st1]; cbn in Hst |- *; [|by exists ops].
  destruct (Hk a st1) as (ops' & Hops' & Hst'). exists (ops ++ ops').
  split; [by apply Forall_app|]. rewrite Hst', Hst. unfold after_lane. by rewrite foldl_app.
Qed.

Lemma runs_if P {A} (b : bool) (m1 m2 : ServeM A) :
  runs_only P m1 -> runs_only P m2 -> runs_only P (if b then m1 else m2).
Proof. by destruct b. Qed.

(** A store call is one operation, or a read. *)
Definition is_op {A} (m : LaneM A) (op : LaneOp) : Prop := forall s, (m s).2 = (run_lane op s).2.
Definition is_read {A} (m : LaneM A) : Prop := forall s, (m s).2 = s.

Lemma runs_store_call P {A} (m : LaneM A) op : is_op m op -> P op -> runs_only P (store_call m).
Proof.
  intros Hm HP st. exists [op]. split; [by repeat constructor|].
  unfold store_call. cbn. rewrite <- (Hm (sv_store st)). by destruct (m (sv_store st)).
Qed.
Lemma runs_try_store_call P {A} (m : LaneM A) op : is_op m op -> P op -> runs_only P (try_store_call m).
Proof.
  intros Hm HP st. exists [op]. split; [by repeat constructor|].
  unfold try_store_call. cbn. rewrite <- (Hm (sv_store st)). by destruct (m (sv_store st)) as [[?|[]] ?].
Qed.
Lemma runs_store_read P {A} (m : LaneM A) : is_read m -> runs_only P (store_call m).
Proof.
  intros Hm. apply runs_nothing. intros st. unfold store_call.
  pose proof (Hm (sv_store st)) as Hs. by destruct (m (sv_store st)) as [r s]; cbn in *.
Qed.
Lemma runs_try_store_read P {A} (m : LaneM A) : is_read m -> runs_only P (try_store_call m).
Proof.
  intros Hm. apply runs_nothing. intros st. unfold try_store_call.
  pose proof (Hm (sv_store st)) as Hs. by destruct (m (sv_store st)) as [[?|[]] s]; cbn in *.
Qed.

Lemma forget_op {A} (m : LaneM A) op : run_lane op = forget m -> is_op m op.
Proof. intros Heq s. by rewrite Heq, forget_snd. Qed.

Lemma tape_op {A} (m : StoreM A) op :
  (forall s, (m s).2 = (run_op op s).2) -> is_op (on_tape m) (Lane_tape op).
Proof.
  intros Hm s. unfold is_op, on_tape. cbn [run_lane]. unfold on_tape. specialize (Hm (tape_store s)).
  destruct (m _) as [r s1], (run_op op _) as [r' s1']. cbn in *. by subst.
Qed.

Lemma discard_snd {A} (m : StoreM A) s : (discard m s).2 = (m s).2.
Proof. unfold discard, store_bind, store_ret. by destruct (m s) as [[] ?]. Qed.
Lemma lane_discard {A} (m : LaneM A) op : is_op m op -> is_op (lane! _ := m in lane_ret tt) op.
Proof. intros Hm s. rewrite <- (Hm s). apply forget_snd. Qed.
End Runs.

Create HintDb serve.
#[export] Hint Resolve runs_ret runs_err runs_respond runs_bind runs_if : serve.

Section Allowed.
Context `{Host, Canonicalizer, Crypto, RowDecoder, RowEncoder, ServeHost, !FaithfulCanonicalizer}.
Context (declared_schema_version : u32) (signing : SigningConfig)
  (activity_claims : ActivityClaimProtocolConfig) (governed : option RunId).

(** The key and signer of the configuration. *)
Definition signs_with (key : SigningKey) (signer : ActorKeyRef) : Prop :=
  exists policy, signing = SigningConfig_Signed key signer policy.
(** The run of an activity control in a session bound to a run. *)
Definition in_bound_run (run_id : RunId) : Prop := forall run, governed = Some run -> run_id = run.

(** What a session with this configuration may run. *)
Definition allowed (op : LaneOp) : Prop :=
  match op with
  | Lane_tape (Op_append event) =>
      governed = None /\ signing = SigningConfig_Unsigned /\
      reject_caller_supplied_authority_event event false = Ok tt /\ canonicalize event = Ok event
  | Lane_tape (Op_append_signed event key signer policy _ _) =>
      governed = None /\ signing = SigningConfig_Signed key signer policy /\
      reject_caller_supplied_authority_event event true = Ok tt /\ canonicalize event = Ok event
  | Lane_tape (Op_seal run key signer _) => governed = Some run /\ signs_with key signer
  | Lane_claim request authority key signer _ purpose _ _ =>
      activity_claims = ActivityClaimProtocolConfig_Signed authority /\ signs_with key signer /\
      purpose = ActivityClaimPurposeV1_Generic /\ in_bound_run (acq_run_id request)
  | Lane_heartbeat request authority key signer _ _ =>
      activity_claims = ActivityClaimProtocolConfig_Signed authority /\ signs_with key signer /\
      in_bound_run (ahq_run_id request)
  | Lane_result request authority key signer _ _ =>
      activity_claims = ActivityClaimProtocolConfig_Signed authority /\ signs_with key signer /\
      in_bound_run (arq_run_id request)
  | _ => False
  end.

Abbreviation ok := (runs_only allowed).

Lemma abort_runs {A} kind line_no message error : ok (@abort_with A kind line_no message error).
Proof. unfold abort_with. eauto with serve. Qed.
Lemma handshake_error_runs {A} reason : ok (@handshake_error A reason).
Proof. apply runs_err. Qed.
#[local] Hint Resolve abort_runs handshake_error_runs : serve.

Lemma await_handshake_runs line : ok (await_handshake declared_schema_version governed line).
Proof.
  unfold await_handshake. destruct line as [line|]; [|eauto with serve].
  destruct (parse_control_or_event _) as [[[]|]|]; eauto 8 with serve.
  repeat (apply runs_if; [by eauto with serve|]). apply runs_bind; [|eauto with serve].
  destruct governed; eauto with serve.
Qed.

Lemma append_event_op event draws :
  governed = None -> reject_caller_supplied_authority_event event (is_signed signing) = Ok tt ->
  canonicalize event = Ok event ->
  exists op, is_op (append_event signing event draws) op /\ allowed op.
Proof.
  intros Hg Hr Hc. unfold append_event, is_signed in *. destruct signing as [|key signer policy] eqn:Hs.
  - exists (Lane_tape (Op_append event)). split; [by apply tape_op|]. cbn. by rewrite Hs.
  - eexists (Lane_tape (Op_append_signed event key signer policy (dr_now draws) (dr_mint_after draws))).
    split; [|cbn; by rewrite Hs]. apply lane_discard, tape_op. intros s. cbn [run_op]. by rewrite discard_snd.
Qed.

Lemma handle_event_runs line_no event draws : ok (handle_event signing governed line_no event draws).
Proof.
  unfold handle_event. destruct governed as [run|] eqn:Hg; cbn [is_some]; [eauto with serve|].
  destruct (reject_caller_supplied_authority_event _ _) as [[]|] eqn:Hr; [|eauto with serve].
  destruct (canonicalize event) as [canonical|] eqn:Hc; [|eauto with serve].
  pose proof (canonicalize_same _ _ Hc) as ->.
  destruct (append_event_op event draws) as (op & Hop & Hal); [by rewrite Hg|done|done|].
  apply runs_bind; [by eapply runs_try_store_call|].
  intros [[]|e]; [by apply runs_nothing|eauto with serve].
Qed.

Lemma seal_runs key signer mint :
  signs_with key signer -> ok (store_call (seal_governed_control_prefix governed key signer mint)).
Proof.
  intros Hk. unfold seal_governed_control_prefix. destruct governed as [run|] eqn:Hg; [|by apply runs_store_read].
  eapply (runs_store_call _ _ (Lane_tape (Op_seal run key signer mint))); [|cbn; by rewrite Hg].
  apply lane_discard, tape_op. intros s. cbn [run_op]. by rewrite discard_snd.
Qed.

Lemma activity_control_runs {A} control request_id unconfigured unsigned code
    (operation : ActivityClaimAuthorityV1 -> SigningKey -> ActorKeyRef -> LaneM A) seal_after answer draws :
  (forall authority key signer, activity_claims = ActivityClaimProtocolConfig_Signed authority ->
     signs_with key signer -> is_read (operation authority key signer) \/
     exists op, is_op (operation authority key signer) op /\ allowed op) ->
  ok (activity_control signing activity_claims governed control request_id unconfigured unsigned code
        operation seal_after answer draws).
Proof.
  intros Hop. unfold activity_control. destruct activity_claims as [|authority] eqn:Hac; [eauto with serve|].
  destruct signing as [|key signer policy] eqn:Hs; [eauto with serve|].
  assert (signs_with key signer) as Hk by (by exists policy).
  apply runs_bind; [by apply seal_runs|]. intros _. apply runs_bind.
  - destruct (Hop authority key signer) as [Hr|(op & Ho & Hal)]; [done|done|by apply runs_try_store_read|].
    by eapply runs_try_store_call.
  - intros [d|e]; [|eauto with serve]. apply runs_bind; [|eauto with serve].
    apply runs_if; [by apply seal_runs|apply runs_ret].
Qed.

Lemma handle_control_runs line_no message draws :
  (forall run, control_run_id (Line_Control message) = Some run -> in_bound_run run) ->
  ok (handle_control signing activity_claims governed line_no message draws).
Proof.
  intros Hrun. destruct message; cbn [control_run_id] in Hrun;
    unfold handle_control, resolve_identity_control, claim_control, result_control, heartbeat_control.
  - eauto with serve.
  - apply runs_bind; [by apply runs_store_read|]. eauto with serve.
  - apply runs_bind; [by apply runs_store_read|]. intros last.
    apply runs_bind; [by apply runs_nothing|eauto with serve].
  - eauto with serve.
  - apply runs_bind; [|eauto with serve]. apply runs_if; [eauto with serve|].
    apply activity_control_runs. intros; by left.
  - apply runs_bind; [|eauto with serve]. apply activity_control_runs. intros authority key signer Hac Hk. right.
    eexists (Lane_claim _ _ _ _ _ _ _ _). split; [by apply forget_op|]. cbn. eauto.
  - apply runs_bind; [|eauto with serve]. apply activity_control_runs. intros authority key signer Hac Hk. right.
    eexists (Lane_heartbeat _ _ _ _ _ _). split; [by apply forget_op|]. cbn. eauto.
  - apply runs_bind; [|eauto with serve]. apply activity_control_runs. intros authority key signer Hac Hk. right.
    eexists (Lane_result _ _ _ _ _ _). split; [by apply forget_op|]. cbn. eauto.
Qed.

Lemma handle_line_runs line_no line draws :
  ok (handle_line signing activity_claims governed line_no line draws).
Proof.
  unfold handle_line, check_bound_run.
  assert ((forall run, control_run_id line = Some run -> in_bound_run run) ->
    ok (match line with
        | Line_Event event => serve! _ := handle_event signing governed line_no event draws in serve_ret Flow_Continue
        | Line_Control message => handle_control signing activity_claims governed line_no message draws
        end)) as Hrest.
  { intros Hrun. destruct line; [by apply handle_control_runs|]. apply runs_bind; [apply handle_event_runs|eauto with serve]. }
  assert (forall m : ServeM unit, m = serve_ret tt -> forall k : unit -> ServeM Flow, ok (k tt) -> ok (serve_bind m k)) as Hret.
  { intros m -> k Hk. exact Hk. }
  unfold in_bound_run in *. destruct governed as [expected|] eqn:Hg; [|apply Hret; [done|]; apply Hrest; by intros; simplify_eq].
  destruct (control_run_id line) as [received|] eqn:Hr; [|apply Hret; [done|]; by apply Hrest].
  case_bool_decide as Heq; cbn [negb].
  - apply Hret; [done|]. apply Hrest. intros run [= <-] run' [= <-]. done.
  - intros st. by exists [].
Qed.

Lemma handle_text_runs line_no text draws :
  ok (handle_text signing activity_claims governed line_no text draws).
Proof.
  unfold handle_text. apply runs_if; [eauto with serve|].
  destruct (parse_control_or_event _); [apply handle_line_runs|eauto with serve].
Qed.

Lemma serve_loop_runs line_no lines : ok (serve_loop signing activity_claims governed line_no lines).
Proof.
  revert line_no. induction lines as [|[text draws] lines IH]; intros line_no; cbn [serve_loop]; [by apply runs_nothing|].
  apply runs_bind; [apply handle_text_runs|]. intros []; [apply IH|by apply runs_nothing].
Qed.

Lemma serve_runs_lane_operations lines :
  ok (serve_with_protocol_inner declared_schema_version signing activity_claims governed lines).
Proof.
  unfold serve_with_protocol_inner. apply runs_bind; [apply await_handshake_runs|]. intros _. apply serve_loop_runs.
Qed.
End Allowed.

(** ** New rows of the tape *)
Section Rows.
Context `{Host, Canonicalizer, Crypto, RowDecoder, RowEncoder, !FaithfulCanonicalizer}.
Implicit Types (db : Database) (s : LaneStore).

(** Every row of [db'] is a row of [db] or the row of an event of [P]. *)
Definition rows_from (P : Event -> Prop) db db' : Prop :=
  forall k row, db_events db' !! k = Some row ->
    db_events db !! k = Some row \/ exists event text, row = event_row event text /\ P event.

Lemma rows_refl P db db' : db_events db' = db_events db -> rows_from P db db'.
Proof. intros He k row Hk. left. congruence. Qed.
Lemma rows_trans P db1 db2 db3 : rows_from P db1 db2 -> rows_from P db2 db3 -> rows_from P db1 db3.
Proof. intros Hab Hbc k row [Hk|?]%Hbc; [by apply Hab|by right]. Qed.
Lemma rows_mono (P Q : Event -> Prop) db db' : (forall e, P e -> Q e) -> rows_from P db db' -> rows_from Q db db'.
Proof. intros HPQ Hr k row [?|(e & t & Hrow & HP)]%Hr; [by left|right; eauto]. Qed.

Lemma insert_rows (P : Event -> Prop) db event db' : insert_event db event = Ok db' -> P event -> rows_from P db db'.
Proof.
  intros (text & _ & _ & ->)%insert_event_ok HP k row. cbn.
  intros [[_ <-]|[_ Hk]]%lookup_insert_Some; [right; eauto|by left].
Qed.
Lemma insert_signature_rows P db signature db' : insert_event_signature db signature = Ok db' -> rows_from P db db'.
Proof. intros (_ & _ & ->)%insert_signature_ok. by apply rows_refl. Qed.

(** A checkpoint of the run. *)
Definition checkpoint_of (run : RunId) (event : Event) : Prop :=
  ev_run_id event = run /\ ev_kind event = EventKind_TapeCheckpoint /\
  exists p, ev_payload event = Payload_TapeCheckpointV1 p.

Lemma emit_rows db run_id covered prior key signer mint id db' :
  emit_checkpoint_in_transaction db run_id covered prior key signer mint = Ok (id, db') ->
  rows_from (checkpoint_of run_id) db db'.
Proof.
  unfold emit_checkpoint_in_transaction. destruct (last covered) as [t|]; [|done]. intros He.
  apply bind_ok in He as (sg & _ & He). apply bind_ok in He as (db1 & Hi%map_err_ok & He).
  apply bind_ok in He as (db2 & Hs%map_err_ok & He). simplify_eq.
  eapply rows_trans; [eapply insert_rows; [exact Hi|]|by eapply insert_signature_rows].
  split; [done|]. split; [done|]. by eexists.
Qed.

(** The events an operation may write. *)
Definition written (op : LaneOp) (event : Event) : Prop :=
  match op with
  | Lane_tape (Op_append e) => event = e
  | Lane_tape (Op_append_event_signature _) => False
  | Lane_tape (Op_append_signed e _ _ _ _ _) => event = e \/ checkpoint_of (ev_run_id e) event
  | Lane_tape (Op_emit_checkpoint run _ _ _) | Lane_tape (Op_seal run _ _ _) => checkpoint_of run event
  | Lane_claim request _ _ _ _ _ _ _ =>
      ev_run_id event = acq_run_id request /\ ev_kind event = EventKind_ActivityClaimedV1
  | Lane_verifier_claim request _ _ _ _ _ _ =>
      ev_run_id event = gvc_run_id request /\ ev_kind event = EventKind_ActivityClaimedV1
  | Lane_heartbeat request _ _ _ _ _ =>
      ev_run_id event = ahq_run_id request /\ ev_kind event = EventKind_ActivityHeartbeatRecordedV1
  | Lane_result request _ _ _ _ _ =>
      ev_run_id event = arq_run_id request /\ ev_kind event = EventKind_ActivityResultRecordedV1
  | Lane_verifier_result request _ _ _ _ _ =>
      ev_run_id event = gvr_run_id request /\ ev_kind event = EventKind_ActivityResultRecordedV1
  end.

Lemma run_op_rows op ss : rows_from (written (Lane_tape op)) (ss_conn ss) (ss_conn (run_op op ss).2).
Proof.
  destruct (run_op op ss) as [r ss'] eqn:Hr. cbn [snd].
  destruct op as [event|signature|event key signer policy now mint|run_id key signer mint|run_id key signer mint];
    cbn [run_op] in Hr.
  - apply append_cases in Hr as [(v & e & [-> _]%validate_external_append_conn & _)|(s0 & db1 & _ & Hi & _ & ->)];
      [by apply rows_refl|by eapply insert_rows].
  - unfold append_event_signature in Hr. apply transaction_cases in Hr as [(a & db & Hb & _ & ->)|(e & _ & _ & ->)];
      [|by apply rows_refl]. guards. simplify_eq. by eapply insert_signature_rows.
  - apply discard_cases in Hr as (ra & Ha & _).
    apply append_signed_cases in Ha as [(v & e & [-> _]%validate_external_append_conn & _)|(s0 & sg & db1 & _ & _ & Hst & Hrest)];
      [by apply rows_refl|].
    apply store_signed_insert in Hst as (db0 & Hi & _ & Hev).
    assert (rows_from (written (Lane_tape (Op_append_signed event key signer policy now mint))) (ss_conn ss) db1) as Hfirst.
    { eapply rows_trans; [eapply insert_rows; [exact Hi|by left]|by apply rows_refl]. }
    cbv zeta in Hrest. destruct policy as [|cadence]; [by destruct Hrest as [_ ->]|].
    destruct Hrest as (rc & Hrc & _). eapply rows_trans; [exact Hfirst|].
    unfold emit_checkpoint_if_due_for_current_signed_prefix in Hrc.
    apply transaction_cases in Hrc as [(a & db & Hb & _ & ->)|(e & _ & _ & ->)]; [|by apply rows_refl].
    cbn in Hb |- *. guards; simplify_eq; [by apply rows_refl|]. eapply rows_mono; [|by eapply emit_rows]. intros; by right.
  - apply discard_cases in Hr as (ra & Ha & _). unfold emit_checkpoint_for_current_signed_prefix in Ha.
    apply transaction_cases in Ha as [(a & db & Hb & _ & ->)|(e & _ & _ & ->)]; [|by apply rows_refl].
    cbn. guards; simplify_eq; [by apply rows_refl|by eapply emit_rows].
  - apply discard_cases in Hr as (ra & Ha & _). unfold seal_governed_signed_prefix in Ha.
    apply transaction_cases in Ha as [(a & db & Hb & _ & ->)|(e & _ & _ & ->)]; [|by apply rows_refl].
    apply seal_cases in Hb as [(-> & _)|(id & covered & t & items & n & p & prior & _ & Hs)]; [by apply rows_refl|].
    cbn. eapply emit_rows. apply Hs.
Qed.

Lemma insert_signed_rows (P : Event -> Prop) (db db' : LaneDatabase) event key signer now digest :
  insert_signed_event db event key signer now = Ok (digest, db') -> P event ->
  rows_from P (ld_tape db) (ld_tape db').
Proof.
  unfold insert_signed_event, of_store. intros Hi HP. guards. simplify_eq. cbn.
  eapply rows_trans; [by eapply insert_rows|by eapply insert_signature_rows].
Qed.

(** An activity operation leaves the tape as it is or stores one signed event. *)
Definition tape_step (P : Event -> Prop) (key : SigningKey) (signer : ActorKeyRef)
    (db db' : LaneDatabase) : Prop :=
  ld_tape db' = ld_tape db \/
  exists event now digest (db1 : LaneDatabase), insert_signed_event db event key signer now = Ok (digest, db1) /\
    ld_tape db' = ld_tape db1 /\ P event.

Lemma tape_step_rows (P Q : Event -> Prop) key signer (db db' : LaneDatabase) :
  tape_step P key signer db db' -> (forall event, P event -> Q event) ->
  rows_from Q (ld_tape db) (ld_tape db').
Proof.
  intros [Heq|(event & now & digest & db1 & Hi & -> & HP)] HPQ; [apply rows_refl; congruence|].
  eapply insert_signed_rows; [exact Hi|auto].
Qed.

(** A claim the table holds. *)
Definition stored_claim (stored : StoredActivityClaim) : Prop :=
  exists row, stored_activity_claim_from_row row = Ok stored.
Lemma by_idempotency_stored (db : LaneDatabase) run_id key stored :
  activity_claim_by_idempotency db run_id key = Ok (Some stored) -> stored_claim stored.
Proof.
  unfold activity_claim_by_idempotency, read_claim, of_store. destruct (_ !! _) as [row|]; [|done].
  destruct (stored_activity_claim_from_row row) eqn:Hr; [|done]. intros. simplify_eq/=. by exists row.
Qed.

Lemma claim_tape request authority key signer now purpose id lease s :
  tape_step (fun event => exists evidence now' lease_id expires,
      event = claimed_event request authority evidence now' purpose id lease_id expires) key signer
    (ls_conn s) (ls_conn (claim_activity_v1_at request authority key signer now purpose id lease s).2).
Proof.
  destruct (claim_activity_v1_at _ _ _ _ _ _ _ _ s) as [r s'] eqn:Hc. cbn [snd].
  apply claim_cases in Hc as [(now' & a & appended & _ & Hc & _)|[-> _]]; [|by left].
  unfold claim_in_transaction, grant_claim, canonical_event, of_store in Hc.
  guards; [simplify_eq; left; congruence|]. subst.
  match goal with Hx : canonicalize _ = Ok ?event |- _ => apply canonicalize_same in Hx; subst event end.
  cbn [ev_payload claimed_event] in Hc. guards. simplify_eq.
  match goal with Hx : insert_activity_claim _ _ = Ok _ |- _ => apply insert_activity_claim_ok in Hx as (Ht & _) end.
  right. by eauto 12.
Qed.

Lemma result_tape request authority key signer now id s :
  tape_step (fun event => exists stored, stored_claim stored /\ event = result_event request stored now id)
    key signer (ls_conn s) (ls_conn (record_activity_result_v1_at request authority key signer now id s).2).
Proof.
  destruct (record_activity_result_v1_at _ _ _ _ _ _ s) as [r s'] eqn:Hc. cbn [snd].
  apply result_cases in Hc as [(a & appended & Hc & _)|[-> _]]; [|by left].
  unfold result_in_transaction, canonical_event, of_store in Hc.
  guards; simplify_eq; try (left; congruence).
  match goal with Hx : canonicalize _ = Ok ?event |- _ => apply canonicalize_same in Hx; subst event end.
  match goal with Hx : record_claim_result _ _ _ _ _ = Ok _ |- _ => apply record_claim_result_ok in Hx as (row & _ & _ & Ht) end.
  apply (f_equal ld_tape) in Ht. right. eauto 12 using by_idempotency_stored.
Qed.

Lemma heartbeat_tape request authority key signer now id s :
  tape_step (fun event => exists stored digest expiry,
      stored_claim stored /\ event = heartbeat_event request digest stored now expiry id)
    key signer (ls_conn s) (ls_conn (heartbeat_activity_v1_at request authority key signer now id s).2).
Proof.
  destruct (heartbeat_activity_v1_at _ _ _ _ _ _ s) as [r s'] eqn:Hc. cbn [snd].
  apply heartbeat_cases in Hc as [(a & appended & Hc & _)|[-> _]]; [|by left].
  unfold heartbeat_in_transaction, extend_claim, canonical_event, of_store in Hc.
  guards; simplify_eq; try (left; congruence).
  match goal with Hx : canonicalize _ = Ok ?event |- _ => apply canonicalize_same in Hx; subst event end.
  match goal with Hx : insert_activity_heartbeat _ _ = Ok _ |- _ => apply insert_activity_heartbeat_ok in Hx as (Ht & _) end.
  right. eauto 14 using by_idempotency_stored.
Qed.

Lemma claim_rows request authority key signer now purpose id lease s :
  rows_from (fun event => ev_run_id event = acq_run_id request /\ ev_kind event = EventKind_ActivityClaimedV1)
    (ld_tape (ls_conn s))
    (ld_tape (ls_conn (claim_activity_v1_at request authority key signer now purpose id lease s).2)).
Proof. eapply tape_step_rows; [apply claim_tape|]. by intros event (? & ? & ? & ? & ->). Qed.
Lemma result_rows request authority key signer now id s :
  rows_from (fun event => ev_run_id event = arq_run_id request /\ ev_kind event = EventKind_ActivityResultRecordedV1)
    (ld_tape (ls_conn s)) (ld_tape (ls_conn (record_activity_result_v1_at request authority key signer now id s).2)).
Proof. eapply tape_step_rows; [apply result_tape|]. by intros event (? & _ & ->). Qed.
Lemma heartbeat_rows request authority key signer now id s :
  rows_from (fun event => ev_run_id event = ahq_run_id request /\ ev_kind event = EventKind_ActivityHeartbeatRecordedV1)
    (ld_tape (ls_conn s)) (ld_tape (ls_conn (heartbeat_activity_v1_at request authority key signer now id s).2)).
Proof. eapply tape_step_rows; [apply heartbeat_tape|]. by intros event (? & ? & ? & _ & ->). Qed.

Lemma run_lane_rows op s : rows_from (written op) (ld_tape (ls_conn s)) (ld_tape (ls_conn (run_lane op s).2)).
Proof.
  destruct op as [op|request a k signer now purpose id lease|request a k signer now id lease|request a k signer now id
    |request a k signer now id|request a k signer now id]; cbn [run_lane]; rewrite ?forget_snd.
  - unfold on_tape. pose proof (run_op_rows op (tape_store s)) as Hr. by destruct (run_op op (tape_store s)) as [r s'].
  - apply claim_rows.
  - unfold claim_governed_verifier_v1_at, lane_bind, lane_lift, lane_read.
    repeat (case_match; try done; cbn [snd]); simplify_eq; try (by apply rows_refl). apply claim_rows.
  - apply heartbeat_rows.
  - apply result_rows.
  - unfold record_governed_verifier_result_v1_at, lane_bind at 1, lane_lift, lane_read.
    destruct (require_protected_governed_realm a) as [[]|]; [|by apply rows_refl].
    case_match; [by apply rows_refl|]. unfold lane_bind. case_match; simplify_eq; [|by apply rows_refl]. apply result_rows.
Qed.

Lemma after_lane_rows (P : Event -> Prop) s ops :
  Forall (fun op => forall event, written op event -> P event) ops ->
  rows_from P (ld_tape (ls_conn s)) (ld_tape (ls_conn (after_lane s ops))).
Proof.
  intros Hops. revert s. induction Hops as [|op ops Hop _ IH]; intros s; [by apply rows_refl|].
  cbn [after_lane foldl]. eapply rows_trans; [|apply IH]. eapply rows_mono; [exact Hop|apply run_lane_rows].
Qed.
End Rows.

(** ** The two lanes *)
Section Lanes.
Context `{Host, Crypto, RowDecoder, RowEncoder, ServeHost}.
Context (event_to_vec : Event -> Result string string).
#[local] Instance serve_ledger : Canonicalizer := ledger_canonicalizer event_to_vec.

(** The kinds a governed session writes. *)
Definition activity_kinds : list EventKind :=
  [EventKind_ActivityClaimedV1; EventKind_ActivityHeartbeatRecordedV1;
   EventKind_ActivityResultRecordedV1; EventKind_TapeCheckpoint].

(** C10. A governed session writes only activity records of its own run.  Whatever
    lines it reads, also when it ends in an error, every row it adds to the tape is
    the row of an activity claim, heartbeat, result or checkpoint of the run it is
    bound to; rows it found stay as they were; and every claim of the table still
    stands as it was granted. *)
Theorem governed_sessions_write_only_activity version signing config lines store result st :
  run_serve (serve_governed_with_protocol version signing config lines) store = (result, st) ->
  lane_extends (ls_conn store) (ls_conn (sv_store st)) /\
  (forall k row, db_events (ld_tape (ls_conn (sv_store st))) !! k = Some row ->
    db_events (ld_tape (ls_conn store)) !! k = Some row \/
    exists event text, row = event_row event text /\ ev_run_id event = gsc_expected_run_id config /\
      ev_kind event ∈ activity_kinds).
Proof.
  intros Hrun. assert (exists ops, Forall (allowed signing (ActivityClaimProtocolConfig_Signed
      (gsc_activity_claim_authority config)) (Some (gsc_expected_run_id config))) ops /\
      sv_store st = after_lane store ops) as (ops & Hops & Hst).
  { unfold run_serve, serve_governed_with_protocol in Hrun.
    destruct signing as [|key signer [|cadence]]; [unfold serve_err in Hrun; simplify_eq; by exists []..|].
    destruct (serve_runs_lane_operations version (SigningConfig_Signed key signer (CheckpointPolicy_Enabled cadence))
      (ActivityClaimProtocolConfig_Signed (gsc_activity_claim_authority config)) (Some (gsc_expected_run_id config)) lines
      {| sv_store := store; sv_stderr := []; sv_outcome := default_serve_outcome |}) as (ops & Hops & Hst).
    rewrite Hrun in Hst. by exists ops. }
  rewrite Hst. split; [apply after_lane_extends|].
  apply (after_lane_rows (fun event => ev_run_id event = gsc_expected_run_id config /\ ev_kind event ∈ activity_kinds)).
  eapply Forall_impl; [exact Hops|]. clear. intros op Hal event Hw. unfold activity_kinds.
  destruct op as [[]|request a k signer now purpose id lease|request a k signer now id lease|request a k signer now id
    |request a k signer now id|request a k signer now id]; cbn in Hal, Hw; try done; try (by destruct Hal).
  - destruct Hal as [[= <-] _], Hw as (-> & -> & _). split; [done|set_solver].
  - destruct Hal as (_ & _ & _ & Hb), Hw as [-> ->]. split; [by apply Hb|set_solver].
  - destruct Hal as (_ & _ & Hb), Hw as [-> ->]. split; [by apply Hb|set_solver].
  - destruct Hal as (_ & _ & Hb), Hw as [-> ->]. split; [by apply Hb|set_solver].
Qed.




End Lanes.
