(* ===== verification/RetryIdentity.v ===== *)
(** * The identity of a retry candidate

    The server resolves the action identity of a retry that creates a candidate
    ([resolve_governed_v3_retry_candidate_action_identity_v1]) and the claim
    checks the identity of the action it is asked to lease
    ([verify_governed_v3_retry_candidate_claim_identity]), each from the signed
    retry context on the tape.  The two agree. *)
From S2P Require Import Prelude RustStr Host LedgerPayloads TrustSpine Digests Events Tape WorkflowGraph Canonicalize CanonicalizeSpec Engine EngineSpec Store StoreRows ActivityEvidence RetryContext ActivityLane Serve.
From stdpp Require Import base list gmap strings pretty.

#[local] Open Scope string_scope.
#[local] Open Scope list_scope.
#[local] Open Scope Z_scope.

Lemma contains_infix sub a b : str_contains sub (a +:+ sub +:+ b) = true.
Proof.
  induction a as [|x a IH].
  - change (str_contains sub (sub +:+ b) = true). unfold starts_with.
    destruct (sub +:+ b) eqn:Hs; cbn [str_contains]; rewrite <- Hs; unfold starts_with; rewrite strip_prefix_app; done.
  - change (str_contains sub (String x (a +:+ sub +:+ b)) = true). cbn [str_contains]. rewrite IH. apply orb_true_r.
Qed.

Section Identity.
Context `{Host, Canonicalizer, Crypto, RowDecoder, RowEncoder, ServeHost}.
Implicit Types (db : LaneDatabase) (authority : ActivityClaimAuthorityV1).

(** The label only names the event in an error. *)
Lemma load_label tape event_id keys signer label label' event :
  load_verified_authority_event tape event_id keys signer label = Ok event ->
  load_verified_authority_event tape event_id keys signer label' = Ok event.
Proof.
  unfold load_verified_authority_event.
  destruct (of_store _) as [[[e [sg|]]|]|]; cbn; try done. by destruct (negb _ || _).
Qed.

(** A loaded event has the payload of its kind. *)
Lemma row_event_kind row event : to_event row = Ok event -> payload_kind (ev_payload event) = ev_kind event.
Proof.
  intros Hrow%to_event_iff. by apply row_event_kinds in Hrow as [_ ?].
Qed.
Lemma loaded_kind tape event_id keys signer label event :
  load_verified_authority_event tape event_id keys signer label = Ok event ->
  payload_kind (ev_payload event) = ev_kind event.
Proof.
  unfold load_verified_authority_event, event_and_signature_by_id, read_signed_row, of_store.
  destruct (db_events tape !! _) as [row|]; [|done]. cbn.
  destruct (to_event row) as [e|] eqn:He; [|done]. intros Hl. apply row_event_kind in He. cbn in Hl.
  destruct (signature_for_event tape (row_id row)) as [sg|]; [|done]. destruct (to_event_signature sg); [|done].
  cbn in Hl. by destruct (negb _ || _); simplify_eq.
Qed.

Lemma map_failure_ok {A E F} (f : E -> F) (r : Result A (Failure E)) a : map_failure f r = Ok a <-> r = Ok a.
Proof. destruct r as [|[]]; cbn; naive_solver. Qed.

Lemma candidate_suffix_app s suffix :
  canonical_buildplane_candidate_ref_suffix (BUILDPANE_CANDIDATE_REF_PREFIX +:+ s) = Some suffix -> suffix = s.
Proof.
  unfold canonical_buildplane_candidate_ref_suffix. rewrite strip_prefix_app. by destruct (is_canonical_buildplane_candidate_ref _); intros; simplify_eq.
Qed.

Lemma candidate_suffix_ref candidate_ref suffix :
  canonical_buildplane_candidate_ref_suffix candidate_ref = Some suffix ->
  candidate_ref = BUILDPANE_CANDIDATE_REF_PREFIX +:+ suffix.
Proof.
  unfold canonical_buildplane_candidate_ref_suffix. destruct (is_canonical_buildplane_candidate_ref _); [|done].
  apply strip_prefix_Some.
Qed.

(** A suffix that binds a run and an attempt is not empty. *)
Lemma bound_suffix_nonempty suffix run attempt :
  candidate_ref_suffix_binds_run_and_attempt suffix run attempt = true -> suffix <> "".
Proof. by intros Hb ->. Qed.

(** C12. The retry identities that claims accept are exactly those the server
    resolves.  For a retry dispatch that loads for the dispatch signer and a Git
    action under it: the action is taken for a candidate creation and passes the
    identity check of the claim exactly when, for some candidate ref, the resolver
    answers with its action id and its idempotency key. *)
Theorem retry_identities_are_exact db authority request dispatch_event dispatch action :
  load_verified_authority_event (ld_tape db) (acq_dispatch_event_id request)
    (aca_trusted_keys authority) (aca_dispatch_signer authority) "dispatch" = Ok dispatch_event ->
  ev_run_id dispatch_event = acq_run_id request ->
  ev_payload dispatch_event = Payload_DispatchEnvelopeV3 dispatch ->
  1 < deb2_attempt (de3_body dispatch) -> ar2_action_kind action = ActionKindV1_Git ->
  looks_like_candidate_create action = true /\
  verify_governed_v3_retry_candidate_claim_identity (ld_tape db) request authority dispatch_event
    dispatch action = Ok tt
  <->
  exists candidate_ref identity,
    resolve_governed_v3_retry_candidate_action_identity_v1
      {| rrq_run_id := acq_run_id request; rrq_dispatch_event_id := acq_dispatch_event_id request;
         rrq_candidate_ref := candidate_ref |} authority db = Ok identity /\
    ar2_action_id action = rri_action_id identity /\
    ar2_idempotency_key action = rri_idempotency_key identity.
Proof.
  intros Hload Hrun Hpay Hatt Hgit.
  pose proof (loaded_kind _ _ _ _ _ _ Hload) as Hkind. rewrite Hpay in Hkind. cbn in Hkind.
  pose proof (load_label _ _ _ _ _ "governed retry candidate identity dispatch" _ Hload) as Hload'.
  unfold verify_governed_v3_retry_candidate_claim_identity, resolve_governed_v3_retry_candidate_action_identity_v1.
  cbn [rrq_run_id rrq_dispatch_event_id rrq_candidate_ref]. split.
  - intros [Hlook Hv]. rewrite Hlook, Hpay, (proj2 (Z.leb_gt _ _) Hatt) in Hv. cbn [negb orb result_bind] in Hv. guards.
    repeat match goal with Hx : map_failure _ _ = Ok _ |- _ => apply map_failure_ok in Hx end.
    rename select (canonical_buildplane_candidate_ref_suffix _ = Some _) into Hsuf.
    pose proof Hsuf as ->%candidate_suffix_app. rename select (RustStr.strip_prefix _ _ = Some _) into Hid.
    apply strip_prefix_Some in Hid. rename select (aca_ledger_authority_realm_digest _ = Some _) into Hrealm.
    do 2 eexists. rewrite Hsuf, Hload'. cbn [result_bind]. rewrite Hrun, <- Hkind, Hpay, bool_decide_true by done.
    cbn [negb result_bind]. rewrite (proj2 (Z.leb_gt _ _) Hatt), Hrealm.
    repeat match goal with Hx : _ = Ok _ |- _ => rewrite (proj2 (map_failure_ok _ _ _) Hx); clear Hx; cbn [result_bind] end.
    rename select (candidate_ref_suffix_binds_run_and_attempt _ _ _ = true) into Hb. rewrite Hb. cbn [negb].
    split; [done|]. rename select (ar2_idempotency_key _ = _) into Hk.
    cbn [rri_action_id rri_idempotency_key]. rewrite Hk, Hid. by rewrite !str_app_assoc.
  - intros (candidate_ref & identity & Hr & Hid & Hkey).
    destruct (canonical_buildplane_candidate_ref_suffix candidate_ref) as [suffix|] eqn:Hsuf; [|done].
    rewrite Hload' in Hr. cbn [result_bind] in Hr. rewrite Hrun, <- Hkind, Hpay, bool_decide_true in Hr by done.
    cbn [negb result_bind] in Hr. rewrite (proj2 (Z.leb_gt _ _) Hatt) in Hr.
    unfold candidate_create_action_identity_for_suffix in Hr. guards.
    repeat match goal with Hx : map_failure _ _ = Ok _ |- _ => apply map_failure_ok in Hx end.
    rename select (aca_ledger_authority_realm_digest _ = Some _) into Hrealm.
    rename select (candidate_ref_suffix_binds_run_and_attempt _ _ _ = true) into Hb.
    simplify_eq. cbn [rri_action_id rri_idempotency_key] in *.
    pose proof Hsuf as ->%candidate_suffix_ref.
    assert (looks_like_candidate_create action = true) as Hlook.
    { unfold looks_like_candidate_create. rewrite bool_decide_true, Hid by done. apply orb_true_intro. right.
      exact (contains_infix ":git-candidate-create:" _ suffix). }
    split; [done|]. rewrite Hlook, Hpay, (proj2 (Z.leb_gt _ _) Hatt), Hrealm. cbn [negb orb result_bind].
    repeat match goal with Hx : _ = Ok _ |- _ => rewrite (proj2 (map_failure_ok _ _ _) Hx); clear Hx; cbn [result_bind] end.
    match goal with |- context [RustStr.strip_prefix ?p _] => assert (ar2_action_id action = p +:+ suffix) as Hpre end.
    { rewrite Hid. by rewrite !str_app_assoc. }
    rewrite Hpre, strip_prefix_app, <- Hpre.
    rewrite bool_decide_false by (by eapply bound_suffix_nonempty).
    rewrite Hkey, Hid, bool_decide_true by done. cbn [negb]. by rewrite Hsuf, Hb.
Qed.
End Identity.
