(* ===== verification/ServeSeal.v ===== *)
(** * Answers of a governed session are sealed

    The server seals the tape of its run before and after each activity control.
    When it answers with a disposition, the run can be read back from the store as
    it stands and passes the tape verifier under the signer of the session: no
    answer refers to a record that a recovery could not certify. *)
From S2P Require Import Prelude RustStr Host LedgerPayloads TrustSpine Digests Events SigningSpec Tape WorkflowGraph Canonicalize CanonicalizeSpec Engine EngineSpec Store StoreRows StoreSeal StoreSpec StoreSession ActivityEvidence RetryContext ActivityLane LaneSpec LaneTheorems LaneTape Serve ServeSpec RetryIdentity.
From Stdlib Require Import Lia.
From stdpp Require Import base list gmap strings.

#[local] Open Scope string_scope.
#[local] Open Scope list_scope.
#[local] Open Scope Z_scope.

(** UUID values are 128-bit: those [serde] reads into a claim, and those parsed from
    a text column. *)
Class ServeLaws `{RowDecoder, ServeHost} : Prop := {
  claim_ids_ok : forall value request_id run_id activity_id idempotency_key dispatch_event_id
      action_request_event_id lease_duration_ms,
    control_from_value value = Ok (ControlMessage_ClaimActivityV1 request_id run_id activity_id
      idempotency_key dispatch_event_id action_request_event_id lease_duration_ms) ->
    uuid_ok action_request_event_id;
  parsed_ids_ok : forall text u, uuid_parse_str text = Some u -> uuid_ok u
}.

Section Seal.
Context `{Host, Crypto, RowDecoder, RowEncoder, ServeHost, !RowLaws, !CryptoLaws _, !LaneRowLaws, !ServeLaws}.
Context (event_to_vec : Event -> Result string string).
#[local] Instance seal_ledger : Canonicalizer := ledger_canonicalizer event_to_vec.
Context (authority : ActivityClaimAuthorityV1) (key : SigningKey) (signer : ActorKeyRef) (run : RunId).
Implicit Types (db : LaneDatabase) (s : LaneStore).

(** A store a session can run on: well-formed rows under canonical run ids, every
    ordinary row verified, claims under their own columns, and every checkpoint of
    the run below the ids that are still to be drawn. *)
Record served (bound : Z) db : Prop := {
  sd_wf : db_wf (ld_tape db);
  sd_runs : forall k row, db_events (ld_tape db) !! k = Some row ->
    exists u, uuid_ok u /\ row_run_id row = uuid_to_string u;
  sd_verified : all_verified event_to_vec (aca_trusted_keys authority) (ld_tape db);
  sd_keyed : keyed db;
  sd_below : forall row u, row ∈ checkpoint_rows (ld_tape db) run -> row_uuid row u -> u < bound
}.

Context (Htrust : trusts (aca_trusted_keys authority) key) (Hrun : uuid_ok run).

Lemma served_weaken b b' db : b <= b' -> served b db -> served b' db.
Proof. intros Hb [? ? ? ? Hbelow]. split; try done. intros row u Hr Hu. specialize (Hbelow _ _ Hr Hu). lia. Qed.

Lemma served_tables b db db' : ld_tape db' = ld_tape db -> keyed db' -> served b db -> served b db'.
Proof. intros Ht Hk []. by split; rewrite ?Ht. Qed.

(** A signed event of the run that is no checkpoint keeps the store served. *)
Definition plain_event (event : Event) : Prop :=
  uuid_ok (ev_id event) /\ ev_run_id event = run /\ ev_kind event <> EventKind_TapeCheckpoint /\ storable event.

Lemma store_signed_served b db event signature now tape :
  plain_event event -> sign_event event key signer now = Ok signature ->
  store_signed event signature (ld_tape db) = Ok (tt, tape) ->
  served b db -> served b {| db with ld_tape := tape |}.
Proof.
  intros (Hid & Hr & Hk & Hst) Hs Hstore Hsv. destruct Hsv as [Hwf Hruns Hall Hkeyed Hbelow].
  pose proof Hstore as (tape1 & Hi & Hsig & Hev)%store_signed_insert.
  split; cbn [ld_tape]; [| | |done|].
  - eapply insert_signature_wf; [|exact Hsig]. by eapply insert_event_wf.
  - intros k row. rewrite Hev. apply insert_event_ok in Hi as (text & _ & _ & ->). cbn.
    intros [[_ <-]|[_ Hk']]%lookup_insert_Some; [|by eapply Hruns]. exists run. cbn. by rewrite Hr.
  - eapply (store_signed_verified event_to_vec); try done. by rewrite Hr.
  - intros row u. unfold checkpoint_rows, run_rows, events_for_run. rewrite Hev.
    fold (events_for_run tape1 (uuid_to_string run)) (run_rows tape1 run) (checkpoint_rows tape1 run).
    rewrite (insert_keeps_checkpoints _ _ _ run Hk Hi). apply Hbelow.
Qed.

Lemma insert_signed_served b db event now digest db' :
  plain_event event -> insert_signed_event db event key signer now = Ok (digest, db') ->
  served b db -> served b db'.
Proof.
  intros Hp Hi Hsv. unfold insert_signed_event, of_store in Hi. guards. simplify_eq.
  eapply store_signed_served; [done|done| |done].
  unfold store_signed. repeat match goal with Hx : _ = Ok _ |- _ => rewrite Hx; clear Hx; cbn [map_err result_bind] end. done.
Qed.

Lemma tape_step_served b (P : Event -> Prop) db db' :
  tape_step P key signer db db' -> (forall event, P event -> plain_event event) -> keyed db' ->
  served b db -> served b db'.
Proof.
  intros [Ht|(event & now & digest & db1 & Hi & Ht & HP)] Hplain Hk Hsv; [eapply served_tables; eauto|].
  eapply served_tables; [exact Ht|done|]. eapply insert_signed_served; [by apply Hplain|exact Hi|done].
Qed.

(** So does an append of the kernel between sessions. *)
Lemma append_served b s event now mint :
  plain_event event -> served b (ls_conn s) ->
  served b (ls_conn (run_lane (Lane_tape (Op_append_signed event key signer CheckpointPolicy_Disabled now mint)) s).2).
Proof.
  intros Hp Hsv. cbn [run_lane]. unfold on_tape.
  destruct (run_op _ (tape_store s)) as [r ss] eqn:Hr. cbn [run_op] in Hr. apply discard_cases in Hr as (ra & Ha & _).
  apply append_signed_cases in Ha as [(v & e & [Hc _]%validate_external_append_conn & _)|(s0 & sg & db1 & _ & Hs & Hst & Hrest)].
  - eapply served_tables; [|apply Hsv|exact Hsv]. cbn. by rewrite Hc.
  - cbv zeta in Hrest. destruct Hrest as [_ ->]. cbn. by eapply store_signed_served.
Qed.

(** ** Activity operations *)
Lemma op_keyed {A} (m : LaneM A) op s : is_op m op -> keyed (ls_conn s) -> keyed (ls_conn (m s).2).
Proof. intros Hm Hk. rewrite (Hm s). exact (keyed_after s [op] Hk). Qed.

Lemma stored_claim_id stored : stored_claim stored -> uuid_ok (sac_claim_event_id stored).
Proof.
  intros [row Hr]. unfold stored_activity_claim_from_row in Hr. guards; subst; cbn; by eapply parsed_ids_ok.
Qed.

(** An operation that keeps a store served, and whose answers name a signed record
    of the run. *)
Definition signed_in_run db : Prop :=
  exists id keys claim_signer label event,
    load_verified_authority_event (ld_tape db) id keys claim_signer label = Ok event /\
    ev_run_id event = run /\ ev_kind event <> EventKind_TapeCheckpoint.

Record keeps_served {A} (m : LaneM A) : Prop := {
  ks_served : forall b s, served b (ls_conn s) -> served b (ls_conn (m s).2);
  ks_answer : forall b s a s', served b (ls_conn s) -> m s = (Ok a, s') -> signed_in_run (ls_conn s')
}.

Lemma signed_in_run_extends db db' : extends (ld_tape db) (ld_tape db') -> signed_in_run db -> signed_in_run db'.
Proof. intros Hext (id & keys & sg & label & event & Hl & Hrest). exists id, keys, sg, label, event. split; [by eapply load_extends|done]. Qed.

Lemma projection_signed db idempotency_key stored claim :
  keyed db -> activity_claim_by_idempotency db run idempotency_key = Ok (Some stored) ->
  verify_signed_claim_projection db stored authority = Ok claim -> signed_in_run db.
Proof.
  intros Hk Hf Hv. unfold activity_claim_by_idempotency, read_claim, of_store in Hf.
  destruct (_ !! _) as [row|] eqn:Hrow in Hf; [|done].
  destruct (stored_activity_claim_from_row row) as [st|] eqn:Hst in Hf; [|done]. simplify_eq/=.
  apply Hk in Hrow as [= Hr _]. assert (sac_run_id stored = run) as Hsame.
  { unfold stored_activity_claim_from_row in Hst. rewrite <- Hr, uuid_round_trip in Hst by done. guards; by subst. }
  unfold verify_signed_claim_projection in Hv. apply bind_ok in Hv as (event & Hl & Hv).
  do 5 eexists. split; [exact Hl|]. pose proof (loaded_kind _ _ _ _ _ _ Hl) as Hkind.
  guards; destruct (ev_payload event); try done; cbn in Hkind; split; congruence.
Qed.

Lemma evidence_signed db request now evidence :
  acq_run_id request = run -> verify_claim_evidence (ld_tape db) request authority now = Ok evidence -> signed_in_run db.
Proof.
  intros Hr Hv. unfold verify_claim_evidence in Hv. apply bind_ok in Hv as (event & Hl & Hv).
  do 5 eexists. split; [exact Hl|]. pose proof (loaded_kind _ _ _ _ _ _ Hl) as Hkind.
  guards. rename select (dispatch_authority_material _ = Some _) into Hm.
  destruct (ev_payload event); try done; cbn in Hkind; split; congruence.
Qed.

Lemma claim_keeps request now id lease :
  acq_run_id request = run -> uuid_ok (acq_action_request_event_id request) -> uuid_ok id ->
  keeps_served (claim_activity_v1 request authority key signer now id lease).
Proof.
  intros Hr Hreq Hid. unfold claim_activity_v1.
  assert (forall s, keyed (ls_conn s) ->
    keyed (ls_conn (claim_activity_v1_at request authority key signer now ActivityClaimPurposeV1_Generic id lease s).2)) as Hkeyed.
  { intros s. apply (op_keyed _ (Lane_claim request authority key signer now ActivityClaimPurposeV1_Generic id lease)). by apply forget_op. }
  split.
  - intros b s Hsv. eapply tape_step_served; [apply claim_tape| |by apply Hkeyed, Hsv|done].
    intros event (evidence & now' & lease_id & expires & ->). split; [done|]. split; [done|]. split; [done|].
    split; [by intros ? [= <-]|apply claim_round_trip].
  - intros b s d s' Hsv Hc. pose proof (claim_extends request authority key signer now ActivityClaimPurposeV1_Generic id lease s) as Hext.
    rewrite Hc in Hext. apply claim_cases in Hc as [(now' & a & appended & _ & Hc & _)|[_ [e [=]]]].
    eapply signed_in_run_extends; [apply Hext|]. unfold claim_in_transaction in Hc.
    apply bind_ok in Hc as ([existing|] & Hf & Hc); cbn beta iota in Hc.
    + apply bind_ok in Hc as (disposition & Hd & _). unfold claim_existing in Hd. apply bind_ok in Hd as (claim & Hv & _).
      rewrite Hr in Hf. eapply projection_signed; [apply Hsv|done|done].
    + apply bind_ok in Hc as (other & _ & Hc). destruct (is_some other); [done|]. unfold grant_claim in Hc.
      apply bind_ok in Hc as (evidence & Hv & _). by eapply evidence_signed.
Qed.

Lemma result_keeps request now id :
  arq_run_id request = run -> uuid_ok id ->
  keeps_served (record_activity_result_v1_at request authority key signer now id).
Proof.
  intros Hr Hid. split.
  - intros b s Hsv. eapply tape_step_served; [apply result_tape| | |done].
    + intros event (stored & Hst%stored_claim_id & ->). split; [done|]. split; [done|]. split; [done|].
      split; [by intros ? [= <-]|apply result_round_trip].
    + apply (op_keyed _ (Lane_result request authority key signer now id)); [by apply forget_op|apply Hsv].
  - intros b s d s' Hsv Hc. pose proof (result_extends request authority key signer now id s) as Hext.
    rewrite Hc in Hext. apply result_cases in Hc as [(a & appended & Hc & _)|[_ [e [=]]]].
    eapply signed_in_run_extends; [apply Hext|]. unfold result_in_transaction in Hc.
    apply bind_ok in Hc as ([existing|] & Hf & Hc); cbn beta iota in Hc; [|done]. rewrite Hr in Hf.
    destruct (_ != _); [done|]. apply bind_ok in Hc as (claim & Hv & _). eapply projection_signed; [apply Hsv|done|done].
Qed.

Lemma heartbeat_keeps request now id :
  ahq_run_id request = run -> uuid_ok id ->
  keeps_served (heartbeat_activity_v1_at request authority key signer now id).
Proof.
  intros Hr Hid. split.
  - intros b s Hsv. eapply tape_step_served; [apply heartbeat_tape| | |done].
    + intros event (stored & digest & expiry & Hst%stored_claim_id & ->). split; [done|]. split; [done|]. split; [done|].
      split; [by intros ? [= <-]|apply heartbeat_round_trip].
    + apply (op_keyed _ (Lane_heartbeat request authority key signer now id)); [by apply forget_op|apply Hsv].
  - intros b s d s' Hsv Hc. pose proof (heartbeat_extends request authority key signer now id s) as Hext.
    rewrite Hc in Hext. apply heartbeat_cases in Hc as [(a & appended & Hc & _)|[_ [e [=]]]].
    eapply signed_in_run_extends; [apply Hext|]. unfold heartbeat_in_transaction in Hc.
    apply bind_ok in Hc as ([existing|] & Hf & Hc); cbn beta iota in Hc; [|done]. rewrite Hr in Hf.
    destruct (_ != _); [done|]. destruct (_ != _); [done|].
    apply bind_ok in Hc as (claim & Hv & _). eapply projection_signed; [apply Hsv|done|done].
Qed.

(** ** Seals *)
Definition mint_ok (b : Z) (mint : Mint) : Prop := b <= mint_id mint /\ uuid_ok (mint_id mint).

Lemma served_follows b db mint : served b db -> mint_ok b mint -> mint_follows (ld_tape db) run mint.
Proof. intros Hsv [Hb Hm]. split; [done|]. intros row u Hr Hu. pose proof (sd_below _ _ Hsv _ _ Hr Hu). lia. Qed.

Lemma served_covered b db covered :
  served b db -> signed_ordinary_events_for_connection (ld_tape db) run = Ok covered ->
  Forall (fun e => uuid_ok (soe_event_id e)) covered.
Proof.
  intros Hsv Hc. destruct (ordinary_verified_reads _ _ _ (sd_verified _ _ Hsv run)) as (os & Hos & Hok).
  rewrite (covered_ordinary _ _ _ os (sd_wf _ _ Hsv) Hos Hok) in Hc. simplify_eq.
  eapply covered_ids_ok; [apply Hsv|exact Hos].
Qed.

Lemma seal_transaction_served b db mint outcome tape :
  served b db -> mint_ok b mint ->
  seal_governed_signed_prefix_in_transaction (ld_tape db) run key signer mint = Ok (outcome, tape) ->
  served (mint_id mint + 1) {| db with ld_tape := tape |}.
Proof.
  intros Hsv Hm Hseal. pose proof (served_follows _ _ _ Hsv Hm) as Hfollow. destruct Hm as [Hb Hm].
  apply seal_cases in Hseal as [(-> & _)|(id & covered & t & items & n & p & prior & _ & Hs)].
  { eapply served_weaken; [|eapply served_tables; [| |exact Hsv]]; [lia|done|apply Hsv]. }
  pose proof (se_emit _ _ _ _ _ _ _ _ _ _ _ _ _ Hs) as He. pose proof (emit_rows _ _ _ _ _ _ _ _ _ He) as Hrows.
  pose proof He as (-> & row & event & signature & Hem)%emit_emitted;
    [|apply Hsv|done|done|eapply served_covered; [exact Hsv|apply Hs]].
  split; cbn [ld_tape].
  - apply Hem.
  - intros k r [Hk|(e & text & -> & (Hr & _))]%Hrows; [by eapply (sd_runs _ _ Hsv)|]. exists run. cbn. by rewrite Hr.
  - eapply (emit_verified event_to_vec); [apply Hsv|apply Hsv|exact He].
  - apply Hsv.
  - intros r u. rewrite (em_checkpoints _ _ _ _ _ _ _ _ _ _ _ Hem). intros [Hr|Hr]%elem_of_app Hu.
    + pose proof (sd_below _ _ Hsv _ _ Hr Hu). lia.
    + apply list_elem_of_singleton in Hr as ->. destruct (em_row _ _ _ _ _ _ _ _ _ _ _ Hem) as [_ Hru].
      rewrite (row_uuid_unique _ _ _ Hu Hru). lia.
Qed.

(** A signed record of the run is an ordinary event the seal covers. *)
Lemma signed_is_covered b db covered :
  served b db -> signed_in_run db ->
  signed_ordinary_events_for_connection (ld_tape db) run = Ok covered -> covered <> [].
Proof.
  intros Hsv (id & keys & sg & label & event & Hl & Hr & Hk) Hc ->. apply collect_results_ok in Hc.
  unfold load_verified_authority_event, event_and_signature_by_id, read_signed_row, of_store in Hl.
  destruct (db_events (ld_tape db) !! uuid_to_string id) as [row|] eqn:Hrow; [|done]. cbn in Hl.
  destruct (to_event row) as [e|] eqn:He; [|done]. cbn in Hl.
  destruct (signature_for_event (ld_tape db) (row_id row)) as [srow|] eqn:Hs; [|done]. cbn in Hl.
  destruct (to_event_signature srow) as [signature|] eqn:Hsg; [|done]. cbn in Hl.
  destruct (negb _ || _) in Hl; [done|]. simplify_eq. apply to_event_signature_iff in Hsg as [Halg _].
  apply to_event_iff in He. destruct (sd_runs _ _ Hsv _ _ Hrow) as (u & Hu & Hur).
  assert (row_run_id row = uuid_to_string run /\ row_kind row = as_wire (ev_kind event)) as [Hrr Hkind].
  { unfold row_to_event in He. rewrite Hur, uuid_round_trip in He by done. guards; subst; cbn [ev_run_id ev_kind] in *;
      rename select (event_kind_from_value _ = Some _) into Hw; apply event_kind_from_value_wire in Hw; split; congruence. }
  apply Forall2_nil_inv_r in Hc. apply (not_elem_of_nil (row, srow)). rewrite <- Hc.
  apply list_elem_of_omap. exists row. split; [apply elem_of_run_rows; eauto|].
  unfold is_checkpoint_row. rewrite bool_decide_false.
  - rewrite Hs. cbn. by rewrite bool_decide_true.
  - rewrite Hkind. unfold CHECKPOINT_KIND. by intros Hw%as_wire_inj.
Qed.

(** The run reads back from the store and passes the tape verifier under the signer
    of the session, with the last checkpoint as the certificate of exactly the
    signed ordinary events the store holds. *)
Definition within (max : Z) db : Prop :=
  Z.of_nat (length (run_rows (ld_tape db) run)) <= max < 2 ^ 63 - 1.
Definition recoverable (max : Z) db : Prop :=
  exists events report covered id,
    all_with_verification_limit (rows_with_signatures (ld_tape db) (uuid_to_string run))
      (aca_trusted_keys authority) (Some max) = Ok events /\
    verify_full_tape_integrity_v1 events (uuid_to_string run) (identity_of key signer) = Some (Ok report) /\
    tir_checkpoint_event_ref report = uuid_to_string id /\
    signed_ordinary_events_for_connection (ld_tape db) run = Ok covered /\
    tir_signed_non_checkpoint_event_count report = Z.of_nat (length covered) /\
    tir_tape_root_hash report = tape_root_hash (soe_canonical_event_hash <$> covered).

Abbreviation conn st := (ls_conn (sv_store st)).

Lemma seal_call b st mint r st' :
  served b (conn st) -> mint_ok b mint ->
  store_call (seal_governed_control_prefix (Some run) key signer mint) st = (r, st') ->
  served (mint_id mint + 1) (conn st') /\ sv_stderr st' = sv_stderr st /\
  (r = Ok tt -> signed_in_run (conn st) -> forall max, within max (conn st') -> recoverable max (conn st')).
Proof.
  intros Hsv Hm. unfold store_call, seal_governed_control_prefix, lane_bind, on_tape, lane_ret.
  destruct (seal_governed_signed_prefix run key signer mint (tape_store (sv_store st))) as [r1 ss] eqn:Hs.
  pose proof Hs as Hc. unfold seal_governed_signed_prefix in Hc.
  apply transaction_cases in Hc as [(outcome & tape & Hb & -> & ->)|(e & _ & -> & ->)]; cbn; intros; simplify_eq.
  - cbn. split; [by eapply seal_transaction_served|]. split; [done|]. intros _ Hsigned max Hmax.
    assert (exists id, outcome = GovernedCheckpointSealOutcome_Emitted id \/
      outcome = GovernedCheckpointSealOutcome_AlreadySealed id) as [id Hid].
    { destruct outcome as [| |]; [|eauto..]. exfalso. unfold seal_governed_signed_prefix_in_transaction in Hb.
      apply bind_ok in Hb as (covered & Hc%map_err_ok & Hb). destruct (last covered) eqn:Hl.
      - guards; try done. all: destruct_and?; simplify_eq.
      - apply last_None in Hl as ->. by eapply signed_is_covered. }
    pose proof (sealed_prefix_is_recoverable (tape_store (sv_store st)) run key signer mint (aca_trusted_keys authority)
      outcome id _ max (sd_wf _ _ Hsv) Hrun (served_follows _ _ _ Hsv Hm) Htrust (sd_verified _ _ Hsv run) Hs Hid Hmax)
      as (events & report & covered & Hrest).
    exists events, report, covered, id. exact Hrest.
  - cbn. split; [|by split]. eapply served_weaken; [|eapply served_tables; [| |exact Hsv]]; [destruct Hm; lia|done|apply Hsv].
Qed.

(** ** One line *)
Definition is_disposition (response : Response) : bool :=
  match response with
  | Response_ClaimDisposition _ _ | Response_HeartbeatDisposition _ _ | Response_ResultDisposition _ _ => true
  | _ => false
  end.

(** The ids a line draws follow the checkpoints of the run. *)
Definition draws_ok (b : Z) (draws : Draws) : Prop :=
  mint_ok b (dr_mint_before draws) /\ mint_ok (mint_id (dr_mint_before draws) + 1) (dr_mint_after draws) /\
  uuid_ok (dr_event_id draws).
Abbreviation next draws := (mint_id (dr_mint_after draws) + 1).

(** A line keeps the store served and writes at most one response; when it is a
    disposition, the run is recoverable. *)
Definition step_ok (b : Z) st {A} (p : Result A ServeFailure * ServeState) : Prop :=
  served b (conn p.2) /\
  (sv_stderr p.2 = sv_stderr st \/
   exists response, sv_stderr p.2 = sv_stderr st ++ [response] /\
     (is_disposition response = true -> forall max, within max (conn p.2) -> recoverable max (conn p.2))).

Lemma quiet_step b st {A} (p : Result A ServeFailure * ServeState) :
  served b (conn st) -> conn p.2 = conn st ->
  (sv_stderr p.2 = sv_stderr st \/ exists response, sv_stderr p.2 = sv_stderr st ++ [response] /\ is_disposition response = false) ->
  step_ok b st p.
Proof.
  intros Hsv Hc He. split; [by rewrite Hc|]. destruct He as [?|(response & Hr & Hd)]; [by left|].
  right. exists response. split; [done|]. rewrite Hd. done.
Qed.

Lemma step_then b st {A B} (m : ServeM A) (k : A -> ServeM B) :
  (forall a st', (k a st').2 = st') -> step_ok b st (m st) -> step_ok b st (serve_bind m k st).
Proof. intros Hk. unfold serve_bind. destruct (m st) as [[a|e] st1]; [|done]. unfold step_ok. by rewrite Hk. Qed.

Context (cadence : Z).
Abbreviation signing := (SigningConfig_Signed key signer (CheckpointPolicy_Enabled cadence)).
Abbreviation claims := (ActivityClaimProtocolConfig_Signed authority).

Lemma draws_bound b draws : draws_ok b draws -> b <= next draws.
Proof. intros ([? _] & [? _] & _). lia. Qed.

Lemma activity_control_step {A} control request_id unconfigured unsigned code
    (operation : ActivityClaimAuthorityV1 -> SigningKey -> ActorKeyRef -> LaneM A) (seal_after : bool) answer draws b st :
  served b (conn st) -> draws_ok b draws ->
  (forall b s, served b (ls_conn s) -> served b (ls_conn (operation authority key signer s).2)) ->
  (if seal_after then keeps_served (operation authority key signer) else forall a, is_disposition (answer a) = false) ->
  step_ok (next draws) st
    (activity_control signing claims (Some run) control request_id unconfigured unsigned code operation seal_after answer draws st).
Proof.
  intros Hsv (Hbefore & Hafter & _) Hop Hans. unfold activity_control, serve_bind.
  destruct (store_call (seal_governed_control_prefix (Some run) key signer (dr_mint_before draws)) st) as [r1 st1] eqn:Hr1.
  destruct (seal_call _ _ _ _ _ Hsv Hbefore Hr1) as (Hsv1 & He1 & _).
  assert (forall st0, served (mint_id (dr_mint_before draws) + 1) (conn st0) -> served (next draws) (conn st0)) as Hweak.
  { intros st0. apply served_weaken. destruct Hafter. lia. }
  destruct r1 as [[]|e]; [|split; [by apply Hweak|by left]].
  unfold try_store_call. destruct (operation authority key signer (sv_store st1)) as [r2 s2] eqn:Hr2.
  pose proof (Hop _ _ Hsv1) as Hsv2. rewrite Hr2 in Hsv2. cbn [snd] in Hsv2.
  destruct r2 as [a|[error|crash]]; cbn [snd].
  - destruct seal_after.
    + match goal with |- context [store_call ?m ?st2] => destruct (store_call m st2) as [r3 st3] eqn:Hr3 end.
      pose proof Hr3 as Hc3. apply (seal_call (mint_id (dr_mint_before draws) + 1)) in Hc3; [|done|done].
      destruct Hc3 as (Hsv3 & He3 & Hrec). cbn in He3.
      destruct r3 as [[]|e]; [|split; [done|left; cbn; congruence]]. split; [done|]. right. eexists. cbn.
      split; [by rewrite He3, He1|]. intros _. apply Hrec; [done|].
      destruct Hans as [_ Hans]. exact (Hans _ _ a s2 Hsv1 Hr2).
    + split; [by apply Hweak|]. right. eexists. cbn. split; [by rewrite He1|]. by rewrite Hans.
  - split; [by apply Hweak|]. right. eexists. cbn. split; [by rewrite He1|done].
  - split; [by apply Hweak|]. left. cbn. congruence.
Qed.

Lemma handle_control_step line_no message draws b st :
  served b (conn st) -> draws_ok b draws ->
  (forall received, control_run_id (Line_Control message) = Some received -> received = run) ->
  (forall request_id run_id activity_id idempotency_key dispatch_event_id action_request_event_id lease_duration_ms,
     message = ControlMessage_ClaimActivityV1 request_id run_id activity_id idempotency_key dispatch_event_id
       action_request_event_id lease_duration_ms -> uuid_ok action_request_event_id) ->
  step_ok (next draws) st (handle_control signing claims (Some run) line_no message draws st).
Proof.
  intros Hsv Hd Hr Hids. pose proof Hd as (_ & _ & Hid).
  assert (served (next draws) (conn st)) as Hsv' by (apply (served_weaken b); [by eapply draws_bound|done]).
  destruct message; cbn [control_run_id] in Hr;
    unfold handle_control, resolve_identity_control, claim_control, result_control, heartbeat_control.
  - apply quiet_step; [done|done|]. right. eexists. split; [reflexivity|done].
  - unfold serve_bind, store_call, lane_read. destruct (flush_fsync _) as [o|e]; apply quiet_step; try done; [|by left].
    right. eexists. split; [reflexivity|done].
  - unfold serve_bind, store_call, lane_read. destruct (flush_fsync _) as [o|e]; apply quiet_step; try done; [|by left].
    right. eexists. split; [reflexivity|done].
  - apply quiet_step; [done|done|]. right. eexists. split; [reflexivity|done].
  - apply step_then; [done|]. apply (activity_control_step _ _ _ _ _ _ _ _ _ b); [done|done| |done]. by intros b' s.
  - specialize (Hr _ eq_refl). specialize (Hids _ _ _ _ _ _ _ eq_refl). apply step_then; [done|].
    apply (activity_control_step _ _ _ _ _ _ _ _ _ b); [done|done|apply claim_keeps; done|by apply claim_keeps].
  - specialize (Hr _ eq_refl). apply step_then; [done|].
    apply (activity_control_step _ _ _ _ _ _ _ _ _ b); [done|done|apply heartbeat_keeps; done|by apply heartbeat_keeps].
  - specialize (Hr _ eq_refl). apply step_then; [done|].
    apply (activity_control_step _ _ _ _ _ _ _ _ _ b); [done|done|apply result_keeps; done|by apply result_keeps].
Qed.

Lemma handle_line_step line_no line draws b st :
  served b (conn st) -> draws_ok b draws ->
  (forall request_id run_id activity_id idempotency_key dispatch_event_id action_request_event_id lease_duration_ms,
     line = Line_Control (ControlMessage_ClaimActivityV1 request_id run_id activity_id idempotency_key dispatch_event_id
       action_request_event_id lease_duration_ms) -> uuid_ok action_request_event_id) ->
  step_ok (next draws) st (handle_line signing claims (Some run) line_no line draws st).
Proof.
  intros Hsv Hd Hids. assert (served (next draws) (conn st)) as Hsv'
    by (apply (served_weaken b); [by eapply draws_bound|done]).
  unfold handle_line, check_bound_run.
  assert ((forall received, control_run_id line = Some received -> received = run) ->
    step_ok (next draws) st (match line with
      | Line_Event event => serve! _ := handle_event signing (Some run) line_no event draws in serve_ret Flow_Continue
      | Line_Control message => handle_control signing claims (Some run) line_no message draws
      end st)) as Hrest.
  { intros Hr. destruct line as [message|event]; [apply (handle_control_step _ _ _ b); try done; naive_solver|].
    apply quiet_step; [done|done|]. right. eexists. split; [reflexivity|done]. }
  destruct (control_run_id line) as [received|] eqn:Hc; [|apply Hrest; done].
  case_bool_decide as Heq; cbn [negb]; [apply Hrest; naive_solver|].
  apply quiet_step; [done|done|]. right. eexists. split; [reflexivity|done].
Qed.

Lemma handle_text_step line_no text draws b st :
  served b (conn st) -> draws_ok b draws ->
  step_ok (next draws) st (handle_text signing claims (Some run) line_no text draws st).
Proof.
  intros Hsv Hd. assert (served (next draws) (conn st)) as Hsv'
    by (apply (served_weaken b); [by eapply draws_bound|done]).
  unfold handle_text. destruct (_ == _); [apply quiet_step; [done|done|by left]|].
  destruct (parse_control_or_event (trim text)) as [line|error] eqn:Hp.
  - apply (handle_line_step _ _ _ b); [done|done|]. intros ? ? ? ? ? ? ? ->.
    unfold parse_control_or_event in Hp. guards; simplify_eq;
      rename select (control_from_value _ = Ok _) into Hm; by eapply claim_ids_ok.
  - apply quiet_step; [done|done|]. right. eexists. split; [reflexivity|done].
Qed.

(** ** The session *)
Fixpoint draws_follow (b : Z) (lines : list (string * Draws)) : Prop :=
  match lines with
  | [] => True
  | (_, draws) :: rest => draws_ok b draws /\ draws_follow (next draws) rest
  end.

(** One more line adds a step to the session, or finds it ended. *)
Lemma serve_loop_snoc line_no lines text draws b st :
  served b (conn st) -> draws_follow b (lines ++ [(text, draws)]) ->
  serve_loop signing claims (Some run) line_no (lines ++ [(text, draws)]) st = serve_loop signing claims (Some run) line_no lines st \/
  exists b', step_ok b' (serve_loop signing claims (Some run) line_no lines st).2
    (serve_loop signing claims (Some run) line_no (lines ++ [(text, draws)]) st).
Proof.
  revert line_no b st. induction lines as [|[text0 draws0] lines IH]; intros line_no b st Hsv Hf.
  - right. exists (next draws). cbn [app serve_loop snd]. apply step_then; [by intros [] ?|].
    destruct Hf as [Hd _]. by apply (handle_text_step _ _ _ b).
  - destruct Hf as [Hd Hf]. cbn [app serve_loop]. unfold serve_bind.
    destruct (handle_text_step (line_no + 1) text0 draws0 b st Hsv Hd) as [Hsv1 _].
    destruct (handle_text _ _ _ _ text0 draws0 st) as [[[]|e] st1]; [|by left..]. by eapply IH.
Qed.

(** The handshake is answered once and changes nothing. *)
Lemma handshake_answers version line st :
  exists response, is_disposition response = false /\
    (await_handshake version (Some run) line st).2 = {| st with sv_stderr := sv_stderr st ++ [response] |}.
Proof.
  unfold await_handshake. destruct line as [line|]; [|eexists; split; [|reflexivity]; done].
  destruct (parse_control_or_event _) as [[[]|]|]; try (eexists; split; [|reflexivity]; done).
  destruct (_ != 1); [eexists; split; [|reflexivity]; done|].
  destruct (_ != version); [eexists; split; [|reflexivity]; done|].
  unfold serve_bind at 1. destruct (_ != run); eexists; (split; [|reflexivity]); done.
Qed.

Lemma session_cases version lines st :
  serve_with_protocol_inner version signing claims (Some run) lines st =
  match await_handshake version (Some run) (fst <$> head lines) st with
  | (Ok _, st1) => serve_loop signing claims (Some run) 1 (tail lines) st1
  | (Err e, st1) => (Err e, st1)
  end.
Proof. reflexivity. Qed.

Lemma longer {A} (l : list A) x : l <> l ++ [x].
Proof. intros Heq%(f_equal length). rewrite length_app in Heq. cbn in Heq. lia. Qed.

(** C9. Answers of a governed session are sealed.  When one more line makes the
    server answer with the disposition of a claim, heartbeat or result, the replay
    reader reads the whole run back from the store as the session leaves it, and
    the tape verifier accepts it under the signer of the session, with its last
    checkpoint as the certificate of exactly the signed ordinary events of the run.
    The ids that are drawn for checkpoints must grow, as version-7 UUIDs do. *)
Theorem governed_answers_are_sealed version store lines text draws b response max :
  let config := {| gsc_expected_run_id := run; gsc_activity_claim_authority := authority |} in
  let session lines := (run_serve (serve_governed_with_protocol version signing config lines) store).2 in
  served b (ls_conn store) -> draws_follow b (lines ++ [(text, draws)]) ->
  sv_stderr (session (lines ++ [(text, draws)])) = sv_stderr (session lines) ++ [response] ->
  is_disposition response = true ->
  within max (ls_conn (sv_store (session (lines ++ [(text, draws)])))) ->
  recoverable max (ls_conn (sv_store (session (lines ++ [(text, draws)])))).
Proof.
  intros config session Hsv Hf Hans Hdis Hmax. subst session. cbv beta in *.
  unfold run_serve, serve_governed_with_protocol in *. cbn [gsc_expected_run_id gsc_activity_claim_authority config] in *.
  rewrite !session_cases in *.
  set (st := {| sv_store := store; sv_stderr := []; sv_outcome := default_serve_outcome |}) in *.
  destruct lines as [|[text0 draws0] lines]; cbn [app head fmap option_fmap option_map tail fst] in *.
  - destruct (handshake_answers version None st) as (r0 & _ & Hh0), (handshake_answers version (Some text) st) as (r1 & _ & Hh1).
    destruct (await_handshake version (Some run) None st) as [[] st0], (await_handshake version (Some run) (Some text) st) as [[] st1];
      cbn [snd serve_loop] in *; rewrite Hh0, Hh1 in Hans; done.
  - destruct (handshake_answers version (Some text0) st) as (r0 & _ & Hh0).
    destruct (await_handshake version (Some run) (Some text0) st) as [[[]|e] st1]; cbn [snd] in *; [|by apply longer in Hans].
    destruct Hf as [Hd Hf]. assert (served (next draws0) (conn st1)) as Hsv1.
    { rewrite Hh0. apply (served_weaken b); [by eapply draws_bound|done]. }
    destruct (serve_loop_snoc 1 lines text draws _ st1 Hsv1 Hf) as [Heq|(b' & _ & [Heq|(r & Heq & Hrec)])].
    { rewrite Heq in Hans. by apply longer in Hans. }
    { rewrite Heq in Hans. by apply longer in Hans. }
    rewrite Hans in Heq. apply app_inj_2 in Heq as [_ [= ->]]; [|done]. by apply Hrec.
Qed.
End Seal.
