(* ===== verification/SampleServe.v ===== *)
(** * Server sessions on a concrete host

    The host of [SampleLane.v] with a reader of protocol lines and a run whose first
    attempt failed: dispatch, action, claim, failed result, receipt, terminal record
    and attempt context, then the dispatch of the second attempt and the action that
    creates its candidate.  A governed session claims the action of the first attempt
    and renews the lease; a generic session records one event and is refused
    another; the identity of the retry is resolved. *)
From S2P Require Import Prelude RustStr Host LedgerPayloads TrustSpine Digests Events DemoHost SigningSpec Tape WorkflowGraph ReplayState ReducerCore Canonicalize CanonicalizeSpec Engine Store StoreRows StoreSeal StoreSpec StoreSession SampleStore ActivityEvidence RetryContext ActivityLane LaneSpec LaneTheorems LaneTape SampleLane WorkflowSpec WorkflowReplay Serve ServeSpec RetryIdentity ServeSeal.
From Stdlib Require Import Ascii Lia.
From stdpp Require Import base list gmap strings pretty.

#[local] Open Scope string_scope.
#[local] Open Scope list_scope.
#[local] Open Scope Z_scope.

Module SampleServe.
Import SampleLane.
#[local] Existing Instances host canonicalizer.

(** ** The failed first attempt *)
Definition text_of (r : Result string string) : string := match r with Ok s | Err s => s end.

Definition action_digest : string := Eval vm_compute in text_of (action_requested_v2_digest action).
Definition receipt : ActionReceiptRecordedV2 :=
  {| arr2_run_id := SampleStore.bin 128 1; arr2_workflow_id := "wf"; arr2_unit_id := "unit";
     arr2_attempt := 1; arr2_provenance_ref := "prov"; arr2_action_id := "act";
     arr2_idempotency_key := "act-1"; arr2_action_request_digest := action_digest;
     arr2_dispatch_envelope_digest := envelope; arr2_capability_bundle_digest := sha "cap";
     arr2_policy_digest := policy; arr2_context_manifest_digest := sha "ctx";
     arr2_worker_manifest_digest := sha "worker"; arr2_sandbox_profile_digest := sha "sandbox";
     arr2_authority_actor := "kernel"; arr2_execution_role := ExecutionRoleV1_Implementer;
     arr2_outcome := ActionReceiptOutcomeV2_Failed; arr2_result_digest := None;
     arr2_result_ref := None; arr2_evidence_digest := sha "evidence";
     arr2_evidence_ref := "cas:evidence";
     arr2_resource_usage := {| aru_wall_time_ms := 1; aru_cpu_time_ms := None;
       aru_peak_memory_bytes := None; aru_input_bytes := None; aru_output_bytes := None;
       aru_input_tokens := None; aru_output_tokens := None |};
     arr2_redactions := [];
     arr2_failure := Some {| af_code := "exit"; af_message_digest := sha "message"; af_retryable := true |};
     arr2_authorization_ref := None; arr2_action_receipt_ref := "receipt-1";
     arr2_completed_at := show_int 200 |}.
Definition receipt_digest : string := Eval vm_compute in text_of (action_receipt_recorded_v2_digest receipt).

Definition terminal : WorkflowTerminalV1 :=
  {| wt1_workflow_id := "wf"; wt1_workflow_revision := "r1"; wt1_unit_id := "unit"; wt1_attempt := 1;
     wt1_outcome := WorkflowTerminalOutcomeV1_Failed; wt1_candidate_digest := None;
     wt1_promotion_result_ref := None; wt1_reconciliation_resolution_ref := None;
     wt1_reason := Some "exit"; wt1_idempotency_key := "terminal-1"; wt1_completed_at := show_int 230 |}.

Definition event_at (id : EventId) (parent : option EventId) (kind : EventKind) (now : DateTime)
    (payload : Payload) : Event :=
  {| ev_id := id; ev_run_id := 1; ev_parent_event_id := parent; ev_schema_version := 1;
     ev_kind := kind; ev_occurred_at := now; ev_payload := payload |}.
Definition receipt_event : Event :=
  event_at 22 (Some 21) EventKind_ActionReceiptRecordedV2 220 (Payload_ActionReceiptRecordedV2 receipt).
Definition terminal_event : Event :=
  event_at 23 (Some 10) EventKind_WorkflowTerminal 230 (Payload_WorkflowTerminalV1 terminal).
Definition terminal_digest : string := Eval vm_compute in text_of (canonical_event_hash terminal_event).

(** ** The second attempt *)
Definition retry_body : DispatchEnvelopeBodyV2 :=
  {| body with deb2_attempt := 2; deb2_idempotency_key := "d2" |}.
Definition retry_envelope : string :=
  Eval vm_compute in text_of (dispatch_envelope_v3_body_digest retry_body ActionEvidenceVersionV1_SealedV3
    (sha "repo") (sha "realm") (Some (sha "packet"))).
Definition retry_dispatch : DispatchEnvelopeV3 :=
  {| dispatch with de3_body := retry_body; de3_envelope_digest := retry_envelope |}.

Definition open_context (digest : string) : AttemptContextRecordedV1 :=
  {| acr_run_id := SampleStore.bin 128 1; acr_workflow_id := "wf"; acr_workflow_revision := "r1";
     acr_unit_id := "unit"; acr_prior_attempt := 1; acr_next_attempt := 2;
     acr_prior_dispatch_envelope_digest := envelope;
     acr_prior_terminal_event_ref := SampleStore.bin 128 23;
     acr_prior_terminal_event_digest := terminal_digest; acr_prior_action_receipt_ref := "receipt-1";
     acr_prior_action_receipt_digest := receipt_digest; acr_feedback_ref := "cas:feedback";
     acr_feedback_digest := sha "feedback"; acr_next_dispatch_envelope_digest := retry_envelope;
     acr_next_dispatch_idempotency_key := "d2"; acr_retry_action_namespace := "retry-2";
     acr_idempotency_key := "context-2"; acr_recorded_at := show_int 240;
     acr_attempt_context_digest := digest |}.
Definition context_digest : string :=
  Eval vm_compute in text_of (attempt_context_recorded_v1_digest (open_context "")).
Definition context : AttemptContextRecordedV1 := open_context context_digest.

(** The candidate of the retry and the action that creates it. *)
Definition candidate_suffix : string := "cand/" +:+ SampleStore.bin 128 1 +:+ "/2".
Definition candidate_ref : string := "refs/buildplane/candidates/" +:+ candidate_suffix.
Definition retry_action_id : string := "retry-2:git-candidate-create:" +:+ candidate_suffix.
Definition retry_action : ActionRequestedV2 :=
  {| action with ar2_attempt := 2; ar2_action_id := retry_action_id;
     ar2_idempotency_key := retry_action_id +:+ ":idempotency"; ar2_action_kind := ActionKindV1_Git;
     ar2_dispatch_envelope_digest := retry_envelope; ar2_requested_at := show_int 260 |}.

Definition context_event : Event :=
  event_at 24 (Some 23) EventKind_AttemptContextRecordedV1 240 (Payload_AttemptContextRecordedV1 context).
Definition retry_dispatch_event : Event :=
  event_at 25 (Some 24) EventKind_DispatchEnvelopeV3 250 (Payload_DispatchEnvelopeV3 retry_dispatch).
Definition retry_action_event : Event :=
  event_at 26 (Some 25) EventKind_ActionRequestedV2 260 (Payload_ActionRequestedV2 retry_action).

(** ** Rows and lines *)
Definition read : WorkspaceReadV1 :=
  {| wr_tool_request_id := 3; wr_path := "p"; wr_content_hash := "h"; wr_size_bytes := 1 |}.

(** The payloads that are stored under a tag. *)
Definition tagged : list (string * Payload) :=
  [("dispatch", Payload_DispatchEnvelopeV3 dispatch); ("action", Payload_ActionRequestedV2 action);
   ("receipt", Payload_ActionReceiptRecordedV2 receipt); ("terminal", Payload_WorkflowTerminalV1 terminal);
   ("context", Payload_AttemptContextRecordedV1 context);
   ("retry-dispatch", Payload_DispatchEnvelopeV3 retry_dispatch);
   ("retry-action", Payload_ActionRequestedV2 retry_action);
   ("read", Payload_WorkspaceReadV1 read)].
Definition untag (tag : string) : option Payload := snd <$> find (fun e => e.1 == tag) tagged.
Definition tag_of (payload : Payload) : option string :=
  match payload with
  | Payload_DispatchEnvelopeV3 d =>
      Some (if deb2_attempt (de3_body d) == 1 then "dispatch" else "retry-dispatch")
  | Payload_ActionRequestedV2 a => Some (if ar2_attempt a == 1 then "action" else "retry-action")
  | Payload_ActionReceiptRecordedV2 _ => Some "receipt"
  | Payload_WorkflowTerminalV1 _ => Some "terminal"
  | Payload_AttemptContextRecordedV1 _ => Some "context"
  | Payload_WorkspaceReadV1 _ => Some "read"
  | _ => None
  end.

Fixpoint members_of (fields : list string) : list (string * Json) :=
  match fields with
  | name :: value :: rest => (name, JString value) :: members_of rest
  | _ => []
  end.
(** A text whose first field is [control] is an object, any other a string. *)
Definition read_json (text : string) : Json :=
  match unpack text "" with
  | Some ("control" :: rest) => JObject (members_of ("control" :: rest))
  | _ => JString text
  end.
Definition read_payload (fields : list string) : option Payload :=
  match fields with
  | [tag] => untag tag
  | _ => payload_of_fields fields
  end.

#[local] Instance decoder : RowDecoder := {
  uuid_parse_str := fun s => if (String.length s =? 128)%nat then SampleStore.unbin s 0 else None;
  json_from_str := fun s => Some (read_json s);
  payload_from_value := fun value =>
    match value with
    | JString s =>
        match unpack s "" ≫= read_payload with
        | Some payload => Ok payload
        | None => Err "unknown payload"
        end
    | _ => Err "unknown payload"
    end
}.
#[local] Instance encoder : RowEncoder := {
  payload_to_string := fun payload =>
    match tag_of payload with
    | Some tag => Ok (pack [tag])
    | None => @payload_to_string SampleLane.encoder payload
    end;
  to_rfc3339 := show_int
}.

(** The controls the sample sends, from the members of the object. *)
Definition control_of (value : Json) : option ControlMessage :=
  let text name := json_get_str value name in
  let number name := text name ≫= read_int in
  kind ← text "control";
  if kind == "handshake" then
    protocol ← number "protocol"; run_id ← number "run_id"; started_at ← text "started_at";
    schema_version ← number "schema_version";
    Some (ControlMessage_Handshake protocol run_id started_at schema_version)
  else if kind == "close" then seq ← number "seq"; Some (ControlMessage_Close seq)
  else if kind == "resolve_retry_candidate_action_identity_v1" then
    request_id ← text "request_id"; run_id ← number "run_id"; dispatch ← number "dispatch_event_id";
    candidate ← text "candidate_ref";
    Some (ControlMessage_ResolveRetryCandidateActionIdentityV1 request_id run_id dispatch candidate)
  else if kind == "claim_activity_v1" then
    request_id ← text "request_id"; run_id ← number "run_id"; activity ← text "activity_id";
    idem ← text "idempotency_key"; dispatch ← number "dispatch_event_id";
    request ← number "action_request_event_id"; lease_ms ← number "lease_duration_ms";
    Some (ControlMessage_ClaimActivityV1 request_id run_id activity idem dispatch request lease_ms)
  else if kind == "heartbeat_activity_v1" then
    request_id ← text "request_id"; run_id ← number "run_id"; activity ← text "activity_id";
    idem ← text "idempotency_key"; lease_id ← text "lease_id"; heartbeat ← text "heartbeat_id";
    Some (ControlMessage_HeartbeatActivityV1 request_id run_id activity idem lease_id heartbeat)
  else None.

Definition ids_fit (message : ControlMessage) : bool :=
  match message with
  | ControlMessage_ClaimActivityV1 _ _ _ _ _ request _ => (0 <=? request) && (request <? 2 ^ 128)
  | _ => true
  end.

Definition event_of (text : string) : option Event :=
  match unpack text "" with
  | Some ["event"; id; kind; tag] =>
      id ← read_int id; kind ← event_kind_from_value kind; payload ← untag tag;
      Some (event_at id None kind 300 payload)
  | _ => None
  end.

#[local] Instance serve_host : ServeHost := {
  event_from_value := fun value =>
    match value with
    | JString text => match event_of text with Some event => Ok event | None => Err "unknown event" end
    | _ => Err "unknown event"
    end;
  control_from_value := fun value =>
    match control_of value with
    | Some message => if ids_fit message then Ok message else Err "invalid id"
    | None => Err "unknown control"
    end;
  display_error := fun error =>
    match error with
    | ServeError_CallerSuppliedTrustSpineEvent kind => "refused " +:+ kind
    | _ => "refused"
    end;
  is_invalid_payload := fun _ => false;
  cargo_pkg_version := "0.1.0"
}.

(** ** Laws of the sample *)
Lemma fields_round_trip payload fields :
  payload_to_string payload = Ok (pack fields) -> head fields <> Some "control" ->
  read_payload fields = Some payload -> payload_reads_back payload.
Proof.
  intros Hs Hc Hf text Ht. rewrite Hs in Ht. injection Ht as <-. exists (JString (pack fields)).
  cbn -[pack read_payload]. unfold read_json. rewrite unpack_pack. cbn -[read_payload]. rewrite Hf. split; [|done].
  destruct fields as [|f rest]; [done|]. repeat case_match; simplify_eq; try done.
Qed.

Lemma low_bits_length n u s : String.length (SampleStore.low_bits n u s) = (n + String.length s)%nat.
Proof. revert u s. induction n as [|n IH]; intros u s; [done|]. cbn [SampleStore.low_bits]. rewrite IH. cbn. lia. Qed.
Lemma bin_length n u : String.length (SampleStore.bin n u) = n.
Proof. unfold SampleStore.bin. rewrite low_bits_length. cbn. lia. Qed.
Lemma unbin_range s acc u : 0 <= acc -> SampleStore.unbin s acc = Some u ->
  0 <= u < (acc + 1) * 2 ^ Z.of_nat (String.length s).
Proof.
  revert acc. induction s as [|c s IH]; intros acc Hacc Hu; cbn in Hu; [simplify_eq; cbn; lia|].
  cbn [String.length]. rewrite Nat2Z.inj_succ, Z.pow_succ_r by lia.
  pose proof (Z.pow_pos_nonneg 2 (Z.of_nat (String.length s))).
  destruct (ascii_dec c "1"%char); [|destruct (ascii_dec c "0"%char); [|done]]; apply IH in Hu; nia.
Qed.

#[local] Instance row_laws : RowLaws.
Proof.
  split.
  - intros u Hu. change ((if (String.length (SampleStore.bin 128 u) =? 128)%nat
      then SampleStore.unbin (SampleStore.bin 128 u) 0 else None) = Some u).
    rewrite bin_length, Nat.eqb_refl. exact (SampleStore.unbin_bin 128 u 0 Hu).
  - intros a b Ha Hb. apply (SampleStore.bin_order 128); assumption.
  - apply read_show_int.
  - intros c. apply (fields_round_trip _ (checkpoint_fields c)); [done|done|].
    cbn -[read_int show_int read_option show_option]. rewrite !read_show_int, !read_show_option. cbn -[read_int show_int].
    destruct c as [? ? ? ? [p|] ? []]; cbn -[read_int show_int]; by rewrite ?read_show_int.
Qed.
#[local] Instance lane_row_laws : LaneRowLaws.
Proof.
  split; intros x.
  - apply (fields_round_trip _ (claim_fields x)); [done|done|].
    cbn -[read_int show_int purpose_from_wire action_kind_from_value].
    rewrite !read_show_int. cbn -[read_int show_int purpose_from_wire action_kind_from_value].
    rewrite action_kind_round_trip. cbn -[purpose_from_wire]. rewrite purpose_round_trip. by destruct x.
  - apply (fields_round_trip _ (heartbeat_fields x)); [done|done|].
    cbn -[read_int show_int read_option show_option]. rewrite !read_show_int, !read_show_option. by destruct x.
  - apply (fields_round_trip _ (result_fields x)); [done|done|].
    cbn -[read_int show_int read_option show_option result_outcome_from_value].
    rewrite !read_show_int, !read_show_option. cbn -[result_outcome_from_value].
    rewrite result_outcome_round_trip. by destruct x.
Qed.
#[local] Instance serve_laws : ServeLaws.
Proof.
  split.
  - intros value q run act idem disp req lease Hc. unfold control_from_value, serve_host in Hc.
    destruct (control_of value) as [message|]; [|done]. destruct (ids_fit message) eqn:Hfit; [|done]. simplify_eq.
    cbn [ids_fit] in Hfit. unfold uuid_ok. lia.
  - intros text u. cbn. destruct (_ =? _)%nat eqn:Hl; [|done]. intros Hu%unbin_range; [|lia].
    apply Nat.eqb_eq in Hl. rewrite Hl in Hu. unfold uuid_ok. lia.
Qed.

(** ** The store before the sessions *)
Definition append_at (e : Event) : LaneOp :=
  Lane_tape (Op_append_signed e key kernel CheckpointPolicy_Disabled (ev_occurred_at e) mint).
Definition prepared : LaneStore := after_lane opened prologue.
Definition first_attempt : LaneStore := after_lane opened (prologue ++
  [Lane_claim claim_request authority key kernel 110 ActivityClaimPurposeV1_Generic 20 77;
   Lane_result (result_request ActivityResultOutcomeV1_Failed) authority key kernel 210 21]).
Definition second_attempt : LaneStore :=
  after_lane first_attempt (append_at <$> [receipt_event; terminal_event; context_event;
    retry_dispatch_event; retry_action_event]).

(** ** The governed session *)
Definition draws (line : Z) (now : DateTime) : Draws :=
  {| dr_now := now; dr_event_id := 100 * line + 1; dr_lease_uuid := 100 * line + 2;
     dr_mint_before := {| mint_id := 100 * line; mint_occurred_at := now; mint_signed_at := now |};
     dr_mint_after := {| mint_id := 100 * line + 3; mint_occurred_at := now; mint_signed_at := now |} |}.
Definition session_lease : string := SampleStore.bin 128 202.

Definition handshake : string :=
  pack ["control"; "handshake"; "protocol"; show_int 1; "run_id"; show_int 1; "started_at"; "now";
        "schema_version"; show_int 1].
Definition claim_text : string :=
  pack ["control"; "claim_activity_v1"; "request_id"; "q1"; "run_id"; show_int 1; "activity_id"; "act";
        "idempotency_key"; "act-1"; "dispatch_event_id"; show_int 10; "action_request_event_id"; show_int 11;
        "lease_duration_ms"; show_int 1000].
Definition governed_lines : list (string * Draws) :=
  [(handshake, draws 1 100); (claim_text, draws 2 110);
   (pack ["control"; "heartbeat_activity_v1"; "request_id"; "q2"; "run_id"; show_int 1;
          "activity_id"; "act"; "idempotency_key"; "act-1"; "lease_id"; session_lease; "heartbeat_id"; "h1"], draws 3 210);
   (pack ["control"; "close"; "seq"; show_int 4], draws 4 220)].

Definition signed : SigningConfig := SigningConfig_Signed key kernel (CheckpointPolicy_Enabled 4).
Definition governed : GovernedServeProtocolConfigV1 :=
  {| gsc_expected_run_id := 1; gsc_activity_claim_authority := authority |}.
Definition governed_session : Result ServeOutcome ServeFailure * ServeState :=
  run_serve (serve_governed_with_protocol 1 signed governed governed_lines) prepared.
Definition granted_in (r : Response) : bool :=
  match r with Response_ClaimDisposition _ (ActivityClaimDispositionV1_Granted _ _ _ _) => true | _ => false end.
Definition renewed_in (r : Response) : bool :=
  match r with Response_HeartbeatDisposition _ (ActivityHeartbeatDispositionV1_Recorded _ _ _) => true | _ => false end.

Definition summary (st : ServeState) : bool * bool * nat :=
  let answers := sv_stderr st in
  (existsb granted_in answers, existsb renewed_in answers,
   size (db_events (ld_tape (ls_conn (sv_store st))))).
(** The session is granted the claim and renews the lease; five rows are new, three
    of them checkpoints. *)
Lemma governed_sessions_write_only_activity_witness :
  summary governed_session.2 = (true, true, 7%nat) /\
  forall k row, db_events (ld_tape (ls_conn (sv_store governed_session.2))) !! k = Some row ->
    db_events (ld_tape (ls_conn prepared)) !! k = Some row \/
    exists event text, row = event_row event text /\ ev_run_id event = 1 /\ ev_kind event ∈ activity_kinds.
Proof.
  split; [vm_compute; reflexivity|].
  destruct (governed_sessions_write_only_activity encode_event 1 signed governed governed_lines prepared
    governed_session.1 governed_session.2) as [_ Hrows].
  { exact (surjective_pairing governed_session). }
  exact Hrows.
Defined.

(** *** The store is one a session can run on *)
Abbreviation fit := (served encode_event authority 1 0).
Abbreviation plain := (plain_event 1).

Lemma opened_fit : fit (ls_conn opened).
Proof.
  split.
  - exact empty_wf.
  - intros k row Hk. cbn in Hk. by apply lookup_empty_Some in Hk.
  - exact (empty_verified encode_event (aca_trusted_keys authority)).
  - intros k row Hk. cbn in Hk. by apply lookup_empty_Some in Hk.
  - intros row u Hr. by apply not_elem_of_nil in Hr.
Qed.

Lemma small_id u : 0 <= u < 1000 -> uuid_ok u.
Proof. unfold uuid_ok. lia. Qed.
Lemma tagged_plain e tag :
  uuid_ok (ev_id e) -> ev_run_id e = 1 -> ev_kind e <> EventKind_TapeCheckpoint ->
  (forall parent, ev_parent_event_id e = Some parent -> uuid_ok parent) ->
  tag_of (ev_payload e) = Some tag -> tag <> "control" -> untag tag = Some (ev_payload e) -> plain e.
Proof.
  intros Hid Hr Hk Hp Ht Hc Hu. split; [done|]. split; [done|]. split; [done|]. split; [done|].
  apply (fields_round_trip _ [tag]); [|intros [= ->]; done|done]. cbn -[pack tag_of]. by rewrite Ht.
Qed.
Ltac show_plain tag :=
  apply (tagged_plain _ tag); [apply small_id; cbn; lia|reflexivity|done|intros parent [=]; subst; apply small_id; lia
    |reflexivity|done|reflexivity].

(** Operations that keep a store fit. *)
Definition keeps_fit (op : LaneOp) : Prop := forall s, fit (ls_conn s) -> fit (ls_conn (run_lane op s).2).
Lemma fit_after s ops : Forall keeps_fit ops -> fit (ls_conn s) -> fit (ls_conn (after_lane s ops)).
Proof.
  intros Hops. revert s. induction Hops as [|op ops Hop _ IH]; intros s Hs; [done|]. cbn [after_lane foldl]. by apply IH, Hop.
Qed.

Lemma append_fit e now mint' : plain e -> keeps_fit (Lane_tape (Op_append_signed e key kernel CheckpointPolicy_Disabled now mint')).
Proof. intros Hp s. apply append_served; [exact trusted|apply small_id; lia|exact Hp]. Qed.
Lemma prepared_fit : fit (ls_conn prepared).
Proof.
  apply fit_after; [|exact opened_fit].
  apply Forall_cons_2; [apply append_fit; show_plain "dispatch"|].
  apply Forall_cons_2; [apply append_fit; show_plain "action"|apply Forall_nil_2].
Qed.

(** The session up to its claim. *)
Definition lines : list (string * Draws) := [(handshake, draws 1 100)].
Definition session (lines : list (string * Draws)) : ServeState :=
  (run_serve (serve_governed_with_protocol 1 signed governed lines) prepared).2.
Definition last_response (st : ServeState) : Response := List.last (sv_stderr st) (Response_HandshakeRefused "").
Definition granted_claim_answer : Response :=
  Eval vm_compute in last_response (session (lines ++ [(claim_text, draws 2 110)])).

Lemma claim_is_answered :
  sv_stderr (session (lines ++ [(claim_text, draws 2 110)])) =
    sv_stderr (session lines) ++ [granted_claim_answer].
Proof. vm_compute. reflexivity. Qed.
Lemma claim_is_within : within 1 100 (ls_conn (sv_store (session (lines ++ [(claim_text, draws 2 110)])))).
Proof. split; [|reflexivity]. apply Z.leb_le. vm_compute. reflexivity. Qed.
Lemma draws_grow : draws_follow 0 (lines ++ [(claim_text, draws 2 110)]).
Proof.
  cbn [draws_follow lines app]. unfold draws_ok, mint_ok, uuid_ok. cbn -[Z.pow]. lia.
Qed.

Lemma governed_answers_are_sealed_witness :
  is_disposition granted_claim_answer = true /\
  recoverable encode_event authority key kernel 1 100
    (ls_conn (sv_store (session (lines ++ [(claim_text, draws 2 110)])))).
Proof.
  split; [reflexivity|].
  apply (governed_answers_are_sealed encode_event authority key kernel 1 trusted (small_id 1 ltac:(lia)) 4 1 prepared
    lines claim_text (draws 2 110) 0 granted_claim_answer 100).
  - exact prepared_fit.
  - exact draws_grow.
  - exact claim_is_answered.
  - reflexivity.
  - exact claim_is_within.
Defined.



(** ** The identity of the retry *)
Definition retry_request : ActivityClaimRequestV1 :=
  {| acq_run_id := 1; acq_activity_id := retry_action_id;
     acq_idempotency_key := retry_action_id +:+ ":idempotency"; acq_dispatch_event_id := 25;
     acq_action_request_event_id := 26; acq_lease_duration_ms := 1000 |}.

(** The claim accepts the action of the retry; so the server resolves its identity. *)
Lemma retry_identities_are_exact_witness :
  exists candidate_ref identity,
    resolve_governed_v3_retry_candidate_action_identity_v1
      {| rrq_run_id := 1; rrq_dispatch_event_id := 25; rrq_candidate_ref := candidate_ref |}
      authority (ls_conn second_attempt) = Ok identity /\
    ar2_action_id retry_action = rri_action_id identity /\
    ar2_idempotency_key retry_action = rri_idempotency_key identity.
Proof.
  destruct (retry_identities_are_exact (ls_conn second_attempt) authority retry_request
    retry_dispatch_event retry_dispatch retry_action) as [Hresolved _].
  - vm_compute. reflexivity.
  - reflexivity.
  - reflexivity.
  - reflexivity.
  - reflexivity.
  - apply Hresolved. split; [vm_compute; reflexivity|]. vm_compute. reflexivity.
Defined.
End SampleServe.
