(* ===== verification/Memory.v ===== *)
(** * Scoped memory

    [bp-memory/src/lib.rs]: memory items with their audit events and links, the
    repository trait, the in-memory repository, and the service that remembers,
    forgets, restores, promotes and links items and selects those that apply in a
    context.

    The trait is the class [MemoryRepository]; a [&mut self] method is a state
    transformer.  The clock readings and the process id that [new_id] and
    [now_timestamp] draw are arguments.  Lower-casing of Unicode text is a
    parameter. *)
From S2P Require Import Prelude RustStr.
From stdpp Require Import base list gmap strings pretty sorting.

#[local] Open Scope string_scope.
#[local] Open Scope list_scope.
#[local] Open Scope Z_scope.

Definition GLOBAL_USER_SCOPE_KEY : string := "global".

(** ** Enumerations and their text *)
Inductive MemoryScope := MemoryScope_User | MemoryScope_Workspace | MemoryScope_Pack | MemoryScope_Session.
Inductive MemoryKind :=
| MemoryKind_Preference | MemoryKind_Constraint | MemoryKind_Fact | MemoryKind_Decision
| MemoryKind_Workflow | MemoryKind_Environment | MemoryKind_ProviderHeuristic | MemoryKind_Alias.
Inductive MemoryStatus :=
| MemoryStatus_Active | MemoryStatus_Forgotten | MemoryStatus_Archived | MemoryStatus_Superseded.
Inductive MemorySourceType :=
| MemorySourceType_User | MemorySourceType_Agent | MemorySourceType_Tool | MemorySourceType_Import
| MemorySourceType_Promotion.
Inductive MemoryEventAction :=
| MemoryEventAction_Created | MemoryEventAction_Updated | MemoryEventAction_Used
| MemoryEventAction_Promoted | MemoryEventAction_Forgotten | MemoryEventAction_Restored
| MemoryEventAction_Expired | MemoryEventAction_Merged.
Inductive MemoryLinkRelation :=
| MemoryLinkRelation_DerivedFrom | MemoryLinkRelation_PromotedFrom | MemoryLinkRelation_Supports
| MemoryLinkRelation_Contradicts | MemoryLinkRelation_DuplicateOf.

#[global] Instance MemoryScope_eq_dec : EqDecision MemoryScope.
Proof. solve_decision. Defined.
#[global] Instance MemoryKind_eq_dec : EqDecision MemoryKind.
Proof. solve_decision. Defined.
#[global] Instance MemoryStatus_eq_dec : EqDecision MemoryStatus.
Proof. solve_decision. Defined.
#[global] Instance MemorySourceType_eq_dec : EqDecision MemorySourceType.
Proof. solve_decision. Defined.
#[global] Instance MemoryEventAction_eq_dec : EqDecision MemoryEventAction.
Proof. solve_decision. Defined.
#[global] Instance MemoryLinkRelation_eq_dec : EqDecision MemoryLinkRelation.
Proof. solve_decision. Defined.

Inductive MemoryError :=
| MemoryError_MissingScopeKey (scope : MemoryScope)
| MemoryError_NotFound (id : string)
| MemoryError_InvalidEnumValue (field value : string)
| MemoryError_Repository (message : string).

(** [Display] and [FromStr]. *)
Class MemoryText (A : Type) := {
  to_text : A -> string;
  from_text : string -> Result A MemoryError
}.

Definition scope_to_text (scope : MemoryScope) : string :=
  match scope with
  | MemoryScope_User => "user"
  | MemoryScope_Workspace => "workspace"
  | MemoryScope_Pack => "pack"
  | MemoryScope_Session => "session"
  end.
Definition scope_from_text (value : string) : Result MemoryScope MemoryError :=
  match value with
  | "user" => Ok MemoryScope_User
  | "workspace" => Ok MemoryScope_Workspace
  | "pack" => Ok MemoryScope_Pack
  | "session" => Ok MemoryScope_Session
  | other => Err (MemoryError_InvalidEnumValue "scope" other)
  end.
#[global] Instance scope_text : MemoryText MemoryScope :=
  {| to_text := scope_to_text; from_text := scope_from_text |}.

Definition kind_to_text (kind : MemoryKind) : string :=
  match kind with
  | MemoryKind_Preference => "preference"
  | MemoryKind_Constraint => "constraint"
  | MemoryKind_Fact => "fact"
  | MemoryKind_Decision => "decision"
  | MemoryKind_Workflow => "workflow"
  | MemoryKind_Environment => "environment"
  | MemoryKind_ProviderHeuristic => "provider-heuristic"
  | MemoryKind_Alias => "alias"
  end.
Definition kind_from_text (value : string) : Result MemoryKind MemoryError :=
  match value with
  | "preference" => Ok MemoryKind_Preference
  | "constraint" => Ok MemoryKind_Constraint
  | "fact" => Ok MemoryKind_Fact
  | "decision" => Ok MemoryKind_Decision
  | "workflow" => Ok MemoryKind_Workflow
  | "environment" => Ok MemoryKind_Environment
  | "provider-heuristic" => Ok MemoryKind_ProviderHeuristic
  | "alias" => Ok MemoryKind_Alias
  | other => Err (MemoryError_InvalidEnumValue "kind" other)
  end.
#[global] Instance kind_text : MemoryText MemoryKind :=
  {| to_text := kind_to_text; from_text := kind_from_text |}.

Definition status_to_text (status : MemoryStatus) : string :=
  match status with
  | MemoryStatus_Active => "active"
  | MemoryStatus_Forgotten => "forgotten"
  | MemoryStatus_Archived => "archived"
  | MemoryStatus_Superseded => "superseded"
  end.
Definition status_from_text (value : string) : Result MemoryStatus MemoryError :=
  match value with
  | "active" => Ok MemoryStatus_Active
  | "forgotten" => Ok MemoryStatus_Forgotten
  | "archived" => Ok MemoryStatus_Archived
  | "superseded" => Ok MemoryStatus_Superseded
  | other => Err (MemoryError_InvalidEnumValue "status" other)
  end.
#[global] Instance status_text : MemoryText MemoryStatus :=
  {| to_text := status_to_text; from_text := status_from_text |}.

Definition source_type_to_text (source_type : MemorySourceType) : string :=
  match source_type with
  | MemorySourceType_User => "user"
  | MemorySourceType_Agent => "agent"
  | MemorySourceType_Tool => "tool"
  | MemorySourceType_Import => "import"
  | MemorySourceType_Promotion => "promotion"
  end.
Definition source_type_from_text (value : string) : Result MemorySourceType MemoryError :=
  match value with
  | "user" => Ok MemorySourceType_User
  | "agent" => Ok MemorySourceType_Agent
  | "tool" => Ok MemorySourceType_Tool
  | "import" => Ok MemorySourceType_Import
  | "promotion" => Ok MemorySourceType_Promotion
  | other => Err (MemoryError_InvalidEnumValue "source_type" other)
  end.
#[global] Instance source_type_text : MemoryText MemorySourceType :=
  {| to_text := source_type_to_text; from_text := source_type_from_text |}.

Definition action_to_text (action : MemoryEventAction) : string :=
  match action with
  | MemoryEventAction_Created => "create"
  | MemoryEventAction_Updated => "update"
  | MemoryEventAction_Used => "use"
  | MemoryEventAction_Promoted => "promote"
  | MemoryEventAction_Forgotten => "forget"
  | MemoryEventAction_Restored => "restore"
  | MemoryEventAction_Expired => "expire"
  | MemoryEventAction_Merged => "merge"
  end.
Definition action_from_text (value : string) : Result MemoryEventAction MemoryError :=
  match value with
  | "create" => Ok MemoryEventAction_Created
  | "update" => Ok MemoryEventAction_Updated
  | "use" => Ok MemoryEventAction_Used
  | "promote" => Ok MemoryEventAction_Promoted
  | "forget" => Ok MemoryEventAction_Forgotten
  | "restore" => Ok MemoryEventAction_Restored
  | "expire" => Ok MemoryEventAction_Expired
  | "merge" => Ok MemoryEventAction_Merged
  | other => Err (MemoryError_InvalidEnumValue "event_action" other)
  end.
#[global] Instance action_text : MemoryText MemoryEventAction :=
  {| to_text := action_to_text; from_text := action_from_text |}.

Definition relation_to_text (relation : MemoryLinkRelation) : string :=
  match relation with
  | MemoryLinkRelation_DerivedFrom => "derived-from"
  | MemoryLinkRelation_PromotedFrom => "promoted-from"
  | MemoryLinkRelation_Supports => "supports"
  | MemoryLinkRelation_Contradicts => "contradicts"
  | MemoryLinkRelation_DuplicateOf => "duplicate-of"
  end.
Definition relation_from_text (value : string) : Result MemoryLinkRelation MemoryError :=
  match value with
  | "derived-from" => Ok MemoryLinkRelation_DerivedFrom
  | "promoted-from" => Ok MemoryLinkRelation_PromotedFrom
  | "supports" => Ok MemoryLinkRelation_Supports
  | "contradicts" => Ok MemoryLinkRelation_Contradicts
  | "duplicate-of" => Ok MemoryLinkRelation_DuplicateOf
  | other => Err (MemoryError_InvalidEnumValue "link_relation" other)
  end.
#[global] Instance relation_text : MemoryText MemoryLinkRelation :=
  {| to_text := relation_to_text; from_text := relation_from_text |}.

Definition default_scope_key (scope : MemoryScope) : option string :=
  match scope with
  | MemoryScope_User => Some GLOBAL_USER_SCOPE_KEY
  | MemoryScope_Workspace | MemoryScope_Pack | MemoryScope_Session => None
  end.
Definition priority (scope : MemoryScope) : u8 :=
  match scope with
  | MemoryScope_Session => 0
  | MemoryScope_Workspace => 1
  | MemoryScope_User => 2
  | MemoryScope_Pack => 3
  end.

Definition memory_error_to_string (error : MemoryError) : string :=
  match error with
  | MemoryError_MissingScopeKey scope =>
      "missing scope key for " +:+ scope_to_text scope +:+ " memory"
  | MemoryError_NotFound id => "memory item '" +:+ id +:+ "' was not found"
  | MemoryError_InvalidEnumValue field value => "invalid " +:+ field +:+ " value '" +:+ value +:+ "'"
  | MemoryError_Repository message => "memory repository failure: " +:+ message
  end.

(** ** Records *)
Record MemoryItem := {
  mi_id : string;
  mi_scope : MemoryScope;
  mi_scope_key : string;
  mi_kind : MemoryKind;
  mi_title : string;
  mi_body : string;
  mi_tags : list string;
  mi_applicable_packs : list string;
  mi_source_type : MemorySourceType;
  mi_source_ref : option string;
  mi_origin_pack : option string;
  mi_status : MemoryStatus;
  mi_promoted_from_id : option string;
  mi_created_at : string;
  mi_updated_at : string
}.
Record MemoryEvent := {
  mev_id : string;
  mev_memory_id : string;
  mev_action : MemoryEventAction;
  mev_reason : option string;
  mev_created_at : string
}.
Record MemoryLink := {
  mln_id : string;
  mln_from_memory_id : string;
  mln_to_memory_id : string;
  mln_relation : MemoryLinkRelation;
  mln_created_at : string
}.
#[global] Instance MemoryItem_eq_dec : EqDecision MemoryItem.
Proof. solve_decision. Defined.
#[global] Instance MemoryEvent_eq_dec : EqDecision MemoryEvent.
Proof. solve_decision. Defined.
#[global] Instance MemoryLink_eq_dec : EqDecision MemoryLink.
Proof. solve_decision. Defined.

Record MemoryQuery := {
  mq_scope : option MemoryScope;
  mq_scope_key : option string;
  mq_applicable_pack : option string;
  mq_search_text : option string;
  mq_include_forgotten : bool
}.
Definition default_memory_query : MemoryQuery :=
  {| mq_scope := None; mq_scope_key := None; mq_applicable_pack := None; mq_search_text := None;
     mq_include_forgotten := false |}.
Record EffectiveMemoryContext := {
  emc_workspace_scope_key : option string;
  emc_pack_scope_key : option string;
  emc_session_scope_key : option string;
  emc_include_forgotten : bool
}.
Record EffectiveMemoryPolicy := {
  emp_include_user : bool;
  emp_include_workspace : bool;
  emp_include_pack : bool;
  emp_include_session : bool
}.
Definition default_effective_memory_policy : EffectiveMemoryPolicy :=
  {| emp_include_user := true; emp_include_workspace := true; emp_include_pack := true;
     emp_include_session := true |}.
Record ExplainedMemoryItem := { emi_item : MemoryItem; emi_reason : string }.
Record RememberMemoryInput := {
  rmi_scope : MemoryScope;
  rmi_scope_key : option string;
  rmi_kind : MemoryKind;
  rmi_title : string;
  rmi_body : string;
  rmi_tags : list string;
  rmi_origin_pack : option string;
  rmi_applicable_packs : list string
}.
Record PromoteMemoryInput := {
  pmi_id : string;
  pmi_to_scope : MemoryScope;
  pmi_to_scope_key : option string;
  pmi_title : option string;
  pmi_kind : option MemoryKind;
  pmi_applicable_packs : option (list string);
  pmi_reason : option string
}.

(** ** Selection and order *)
Class Lowercase := to_lowercase : string -> string.

(** [Vec::join]. *)
Definition join_texts (separator : string) (texts : list string) : string :=
  match texts with
  | [] => ""
  | first :: rest => foldl (fun acc text => acc +:+ separator +:+ text) first rest
  end.

Definition matches `{Lowercase} (query : MemoryQuery) (item : MemoryItem) : bool :=
  if negb (mq_include_forgotten query) && (mi_status item != MemoryStatus_Active) then false else
  if is_some_and (mq_scope query) (fun scope => mi_scope item != scope) then false else
  if is_some_and (mq_scope_key query) (fun scope_key => mi_scope_key item != scope_key)
  then false else
  if is_some_and (mq_applicable_pack query) (fun pack =>
       negb (bool_decide (mi_applicable_packs item = [])
             || existsb (fun candidate => candidate == pack) (mi_applicable_packs item)
             || is_some_and (mi_origin_pack item) (fun candidate => candidate == pack)
             || ((mi_scope item == MemoryScope_Pack) && (mi_scope_key item == pack))))
  then false else
  if is_some_and (mq_search_text query) (fun search_text =>
       let needle := to_lowercase search_text in
       negb (existsb (str_contains needle)
               [to_lowercase (mi_title item); to_lowercase (mi_body item);
                to_lowercase (join_texts " " (mi_tags item))]))
  then false else
  true.

(** The comparison both repositories and the service sort with. *)
Definition item_le (left right : MemoryItem) : bool :=
  if priority (mi_scope left) == priority (mi_scope right) then
    if mi_updated_at left == mi_updated_at right then String.leb (mi_title left) (mi_title right)
    else String.leb (mi_updated_at left) (mi_updated_at right)
  else priority (mi_scope left) <? priority (mi_scope right).

(** [Vec::sort_by], which is stable. *)
Fixpoint insert_by {A} (le : A -> A -> bool) (a : A) (l : list A) : list A :=
  match l with
  | [] => [a]
  | b :: rest => if le a b then a :: l else b :: insert_by le a rest
  end.
Definition sort_by {A} (le : A -> A -> bool) (l : list A) : list A := foldr (insert_by le) [] l.
Definition sort_items : list MemoryItem -> list MemoryItem := sort_by item_le.

(** ** The repository trait *)
Abbreviation MemoryResult A := (Result A MemoryError).

Class MemoryRepository (R : Type) := {
  upsert_item : MemoryItem -> R -> MemoryResult unit * R;
  get_item : R -> string -> MemoryResult (option MemoryItem);
  list_items : R -> MemoryQuery -> MemoryResult (list MemoryItem);
  append_event : MemoryEvent -> R -> MemoryResult unit * R;
  list_events : R -> option string -> MemoryResult (list MemoryEvent);
  upsert_link : MemoryLink -> R -> MemoryResult unit * R;
  list_links : R -> option string -> MemoryResult (list MemoryLink)
}.

(** ** The in-memory repository *)
Record InMemoryMemoryRepository := {
  imr_items : gmap string MemoryItem;
  imr_events : list MemoryEvent;
  imr_links : list MemoryLink
}.

Section InMemory.
Context `{Lowercase}.
Implicit Type r : InMemoryMemoryRepository.

Definition in_memory_upsert_item (item : MemoryItem) r : MemoryResult unit * InMemoryMemoryRepository :=
  (Ok tt, {| r with imr_items := <[mi_id item := item]> (imr_items r) |}).
Definition in_memory_get_item r (id : string) : MemoryResult (option MemoryItem) :=
  Ok (imr_items r !! id).
Definition in_memory_list_items r (query : MemoryQuery) : MemoryResult (list MemoryItem) :=
  Ok (sort_items (List.filter (matches query) (btree_list (imr_items r)).*2)).
Definition in_memory_append_event (event : MemoryEvent) r : MemoryResult unit * InMemoryMemoryRepository :=
  (Ok tt, {| r with imr_events := imr_events r ++ [event] |}).
Definition in_memory_list_events r (memory_id : option string) : MemoryResult (list MemoryEvent) :=
  Ok (List.filter (fun event => is_none_or memory_id (fun id => mev_memory_id event == id))
        (imr_events r)).
(** [iter_mut().find(..)]: the first link with the id is replaced, or the link is
    added at the end. *)
Fixpoint replace_link (link : MemoryLink) (links : list MemoryLink) : list MemoryLink :=
  match links with
  | [] => [link]
  | candidate :: rest =>
      if mln_id candidate == mln_id link then link :: rest else candidate :: replace_link link rest
  end.
Definition in_memory_upsert_link (link : MemoryLink) r : MemoryResult unit * InMemoryMemoryRepository :=
  (Ok tt, {| r with imr_links := replace_link link (imr_links r) |}).
Definition link_touches (memory_id : option string) (link : MemoryLink) : bool :=
  is_none_or memory_id (fun id => (mln_from_memory_id link == id) || (mln_to_memory_id link == id)).
Definition in_memory_list_links r (memory_id : option string) : MemoryResult (list MemoryLink) :=
  Ok (List.filter (link_touches memory_id) (imr_links r)).

#[export] Instance in_memory_repository : MemoryRepository InMemoryMemoryRepository := {|
  upsert_item := in_memory_upsert_item;
  get_item := in_memory_get_item;
  list_items := in_memory_list_items;
  append_event := in_memory_append_event;
  list_events := in_memory_list_events;
  upsert_link := in_memory_upsert_link;
  list_links := in_memory_list_links
|}.
End InMemory.

(** ** The service *)

(** What an operation draws from the clock and the process. *)
Record Clock := {
  ck_secs : u64;
  ck_later_secs : u64;
  ck_nanos : Z;
  ck_later_nanos : Z;
  ck_last_nanos : Z;
  ck_pid : u32
}.
Definition new_id (prefix : string) (nanos : Z) (pid : u32) : string :=
  prefix +:+ "_" +:+ pretty nanos +:+ "_" +:+ pretty pid.
Definition now_timestamp (secs : u64) : string := pretty secs.

Definition resolve_scope_key (scope : MemoryScope) (provided : option string) : MemoryResult string :=
  match default_scope_key scope, provided with
  | Some default_key, None => Ok default_key
  | _, Some scope_key => Ok scope_key
  | None, None => Err (MemoryError_MissingScopeKey scope)
  end.

Definition reason_for_item (item : MemoryItem) : string :=
  match mi_scope item with
  | MemoryScope_Session => "session scope matched active session"
  | MemoryScope_Workspace => "workspace scope matched active workspace"
  | MemoryScope_User => "user scope is shared for all packs"
  | MemoryScope_Pack =>
      let pack_id := default (mi_scope_key item) (mi_origin_pack item) in
      "pack scope matched active pack '" +:+ pack_id +:+ "'"
  end.

(** A fallible operation on a mutable repository: a failure keeps the writes made
    before it. *)
Definition StateM (R E A : Type) : Type := R -> Result A E * R.
Definition mem_bind {R E A B} (m : StateM R E A) (k : A -> StateM R E B) : StateM R E B :=
  fun r => match m r with
           | (Ok a, r') => k a r'
           | (Err e, r') => (Err e, r')
           end.
Definition mem_ret {R E A} (a : A) : StateM R E A := fun r => (Ok a, r).
Definition mem_lift {R E A} (result : Result A E) : StateM R E A := fun r => (result, r).
Notation "'mem!' x := m 'in' k" := (mem_bind m (fun x => k))
  (at level 10, x pattern, m at level 100, k at level 200) : rust_scope.

Section Service.
Context {R : Type} `{MemoryRepository R}.
Abbreviation MemM := (StateM R MemoryError).

(** [get_item(id)?.ok_or_else(|| NotFound)]. *)
Definition require_item (id : string) : MemM MemoryItem :=
  mem! found := (fun r => (get_item r id, r)) in
  match found with
  | Some item => mem_ret item
  | None => mem_lift (Err (MemoryError_NotFound id))
  end.

Definition remember (input : RememberMemoryInput) (clock : Clock) : MemM MemoryItem :=
  mem! scope_key := mem_lift (resolve_scope_key (rmi_scope input) (rmi_scope_key input)) in
  let timestamp := now_timestamp (ck_secs clock) in
  let item := {|
    mi_id := new_id "mem" (ck_nanos clock) (ck_pid clock);
    mi_scope := rmi_scope input;
    mi_scope_key := scope_key;
    mi_kind := rmi_kind input;
    mi_title := rmi_title input;
    mi_body := rmi_body input;
    mi_tags := rmi_tags input;
    mi_applicable_packs := rmi_applicable_packs input;
    mi_source_type := MemorySourceType_User;
    mi_source_ref := None;
    mi_origin_pack := rmi_origin_pack input;
    mi_status := MemoryStatus_Active;
    mi_promoted_from_id := None;
    mi_created_at := timestamp;
    mi_updated_at := timestamp |} in
  mem! _ := upsert_item item in
  mem! _ := append_event {|
    mev_id := new_id "evt" (ck_later_nanos clock) (ck_pid clock);
    mev_memory_id := mi_id item;
    mev_action := MemoryEventAction_Created;
    mev_reason := None;
    mev_created_at := timestamp |} in
  mem_ret item.

Definition inspect (r : R) (id : string) : MemoryResult (option MemoryItem) := get_item r id.
Definition list_memory (r : R) (query : MemoryQuery) : MemoryResult (list MemoryItem) := list_items r query.
Definition search (r : R) (search_text : string) (query : MemoryQuery) : MemoryResult (list MemoryItem) :=
  list_items r {| query with mq_search_text := Some search_text |}.

(** One scope of a context: nothing when its flag is off or its key is absent. *)
Definition scope_items (r : R) (included : bool) (scope : MemoryScope) (scope_key : option string)
    (applicable_pack : option string) (include_forgotten : bool) : MemoryResult (list MemoryItem) :=
  if included then
    match scope_key with
    | Some scope_key =>
        list_items r {| mq_scope := Some scope; mq_scope_key := Some scope_key;
                        mq_applicable_pack := applicable_pack; mq_search_text := None;
                        mq_include_forgotten := include_forgotten |}
    | None => Ok []
    end
  else Ok [].

Definition explain_effective_memory (r : R) (context : EffectiveMemoryContext)
    (policy : EffectiveMemoryPolicy) : MemoryResult (list ExplainedMemoryItem) :=
  let forgotten := emc_include_forgotten context in
  let* session := scope_items r (emp_include_session policy) MemoryScope_Session
    (emc_session_scope_key context) None forgotten in
  let* workspace := scope_items r (emp_include_workspace policy) MemoryScope_Workspace
    (emc_workspace_scope_key context) None forgotten in
  let* user := scope_items r (emp_include_user policy) MemoryScope_User
    (Some GLOBAL_USER_SCOPE_KEY) None forgotten in
  let* pack := scope_items r (emp_include_pack policy) MemoryScope_Pack
    (emc_pack_scope_key context) (emc_pack_scope_key context) forgotten in
  Ok ((fun item => {| emi_item := item; emi_reason := reason_for_item item |})
        <$> sort_items (session ++ workspace ++ user ++ pack)).

Definition effective_memory_with_policy (r : R) (context : EffectiveMemoryContext)
    (policy : EffectiveMemoryPolicy) : MemoryResult (list MemoryItem) :=
  let* explained := explain_effective_memory r context policy in
  Ok (emi_item <$> explained).
Definition effective_memory (r : R) (context : EffectiveMemoryContext)
    : MemoryResult (list MemoryItem) :=
  effective_memory_with_policy r context default_effective_memory_policy.

(** [forget] and [restore] differ in the status they set and the action they record. *)
Definition set_status (status : MemoryStatus) (action : MemoryEventAction) (id : string)
    (reason : option string) (clock : Clock) : MemM MemoryItem :=
  mem! item := require_item id in
  let item := {| item with mi_status := status; mi_updated_at := now_timestamp (ck_secs clock) |} in
  mem! _ := upsert_item item in
  mem! _ := append_event {|
    mev_id := new_id "evt" (ck_nanos clock) (ck_pid clock);
    mev_memory_id := mi_id item;
    mev_action := action;
    mev_reason := reason;
    mev_created_at := now_timestamp (ck_later_secs clock) |} in
  mem_ret item.
Definition forget : string -> option string -> Clock -> MemM MemoryItem :=
  set_status MemoryStatus_Forgotten MemoryEventAction_Forgotten.
Definition restore : string -> option string -> Clock -> MemM MemoryItem :=
  set_status MemoryStatus_Active MemoryEventAction_Restored.

Definition promoted_item (original : MemoryItem) (input : PromoteMemoryInput) (scope_key : string)
    (clock : Clock) : MemoryItem :=
  let timestamp := now_timestamp (ck_secs clock) in {|
    mi_id := new_id "mem" (ck_nanos clock) (ck_pid clock);
    mi_scope := pmi_to_scope input;
    mi_scope_key := scope_key;
    mi_kind := default (mi_kind original) (pmi_kind input);
    mi_title := default (mi_title original) (pmi_title input);
    mi_body := mi_body original;
    mi_tags := mi_tags original;
    mi_applicable_packs := default (mi_applicable_packs original) (pmi_applicable_packs input);
    mi_source_type := MemorySourceType_Promotion;
    mi_source_ref := None;
    mi_origin_pack := mi_origin_pack original;
    mi_status := MemoryStatus_Active;
    mi_promoted_from_id := Some (mi_id original);
    mi_created_at := timestamp;
    mi_updated_at := timestamp |}.

Definition promote (input : PromoteMemoryInput) (clock : Clock) : MemM MemoryItem :=
  mem! original := require_item (pmi_id input) in
  let timestamp := now_timestamp (ck_secs clock) in
  mem! scope_key := mem_lift (resolve_scope_key (pmi_to_scope input) (pmi_to_scope_key input)) in
  let promoted := promoted_item original input scope_key clock in
  mem! _ := upsert_item promoted in
  mem! _ := append_event {|
    mev_id := new_id "evt" (ck_later_nanos clock) (ck_pid clock);
    mev_memory_id := mi_id original;
    mev_action := MemoryEventAction_Promoted;
    mev_reason := pmi_reason input;
    mev_created_at := timestamp |} in
  mem! _ := append_event {|
    mev_id := new_id "evt" (ck_last_nanos clock) (ck_pid clock);
    mev_memory_id := mi_id promoted;
    mev_action := MemoryEventAction_Created;
    mev_reason := pmi_reason input;
    mev_created_at := timestamp |} in
  mem_ret promoted.

Definition link_items (from_memory_id to_memory_id : string) (relation : MemoryLinkRelation)
    (clock : Clock) : MemM MemoryLink :=
  mem! _ := require_item from_memory_id in
  mem! _ := require_item to_memory_id in
  let link := {|
    mln_id := new_id "lnk" (ck_nanos clock) (ck_pid clock);
    mln_from_memory_id := from_memory_id;
    mln_to_memory_id := to_memory_id;
    mln_relation := relation;
    mln_created_at := now_timestamp (ck_secs clock) |} in
  mem! _ := upsert_link link in
  mem_ret link.

Definition links (r : R) (memory_id : option string) : MemoryResult (list MemoryLink) :=
  list_links r memory_id.
Definition events (r : R) (memory_id : option string) : MemoryResult (list MemoryEvent) :=
  list_events r memory_id.
End Service.
