(* ===== verification/MemoryStore.v ===== *)
(** * The SQLite memory store

    [bp-storage-sqlite/src/lib.rs]: the memory repository over two databases, one
    shared by all workspaces and one of the workspace, with export, import, the
    consistency report and the removal of forgotten items.

    A table with a primary key is a map from it to the row; the full-text table has
    no key and is the list of its rows.  [INSERT OR REPLACE] is insertion under the
    key, and on the full-text table adds a row.  The order of a [SELECT] without
    [ORDER BY], the JSON of a list of strings and the full-text matcher are those of
    the libraries and are parameters; the statements themselves are taken to succeed. *)
From S2P Require Import Prelude RustStr Memory.
From stdpp Require Import base list gmap strings pretty sorting.

#[local] Open Scope string_scope.
#[local] Open Scope list_scope.
#[local] Open Scope Z_scope.

(** ** Rows *)
Record MemoryItemRow := {
  mir_id : string;
  mir_scope_type : string;
  mir_scope_key : string;
  mir_kind : string;
  mir_title : string;
  mir_body : string;
  mir_tags_json : string;
  mir_applicable_packs_json : string;
  mir_source_type : string;
  mir_source_ref : string;
  mir_origin_pack : string;
  mir_status : string;
  mir_promoted_from_id : string;
  mir_created_at : string;
  mir_updated_at : string
}.
Record MemoryEventRow := {
  mer_id : string;
  mer_memory_id : string;
  mer_action : string;
  mer_reason : string;
  mer_created_at : string
}.
Record MemoryLinkRow := {
  mlr_id : string;
  mlr_from_memory_id : string;
  mlr_to_memory_id : string;
  mlr_relation : string;
  mlr_created_at : string
}.
Record MemoryFtsRow := {
  mfr_id : string;
  mfr_title : string;
  mfr_body : string;
  mfr_tags : string
}.
#[global] Instance MemoryItemRow_eq_dec : EqDecision MemoryItemRow.
Proof. solve_decision. Defined.
#[global] Instance MemoryEventRow_eq_dec : EqDecision MemoryEventRow.
Proof. solve_decision. Defined.
#[global] Instance MemoryLinkRow_eq_dec : EqDecision MemoryLinkRow.
Proof. solve_decision. Defined.

Record Connection := {
  cn_memory_items : gmap string MemoryItemRow;
  cn_memory_events : gmap string MemoryEventRow;
  cn_memory_links : gmap string MemoryLinkRow;
  cn_memory_fts : list MemoryFtsRow
}.
Definition empty_connection : Connection :=
  {| cn_memory_items := ∅; cn_memory_events := ∅; cn_memory_links := ∅; cn_memory_fts := [] |}.

Inductive StorageError :=
| StorageError_Sqlite (message : string)
| StorageError_Io (message : string)
| StorageError_Json (message : string)
| StorageError_Memory (error : MemoryError)
| StorageError_InvalidPath (message : string)
| StorageError_MissingMemoryForEvent (memory_id : string).

Definition storage_error_to_string (error : StorageError) : string :=
  match error with
  | StorageError_Sqlite message => "failed to access sqlite storage: " +:+ message
  | StorageError_Io message => "failed to access the filesystem: " +:+ message
  | StorageError_Json message => "failed to encode or decode json: " +:+ message
  | StorageError_Memory error => memory_error_to_string error
  | StorageError_InvalidPath message => "invalid storage path: " +:+ message
  | StorageError_MissingMemoryForEvent memory_id =>
      "memory id '" +:+ memory_id +:+ "' does not exist in either database"
  end.
Definition as_repository {A} (result : Result A StorageError) : MemoryResult A :=
  map_err (fun err => MemoryError_Repository (storage_error_to_string err)) result.

Record MemoryExportBundle := {
  meb_schema_version : u32;
  meb_items : list MemoryItem;
  meb_events : list MemoryEvent;
  meb_links : list MemoryLink
}.
Record MemoryImportReport := {
  mipr_imported_items : nat;
  mipr_imported_events : nat;
  mipr_imported_links : nat
}.
Record MemoryDoctorReport := {
  mdr_global_database : string;
  mdr_workspace_database : string;
  mdr_global_item_count : nat;
  mdr_workspace_item_count : nat;
  mdr_global_event_count : nat;
  mdr_workspace_event_count : nat;
  mdr_global_link_count : nat;
  mdr_workspace_link_count : nat;
  mdr_forgotten_item_count : nat;
  mdr_duplicate_item_ids : list string;
  mdr_orphan_event_ids : list string;
  mdr_orphan_link_ids : list string;
  mdr_orphan_promoted_item_ids : list string;
  mdr_duplicate_promoted_item_ids : list string
}.
Record MemoryPruneReport := { mpr_removed_items : nat; mpr_removed_events : nat }.

Inductive DatabaseKind := DatabaseKind_Global | DatabaseKind_Workspace.
#[global] Instance DatabaseKind_eq_dec : EqDecision DatabaseKind.
Proof. solve_decision. Defined.

Record StoragePaths := {
  sp_global_database : string;
  sp_workspace_database : string;
  sp_artifacts_dir : string;
  sp_evidence_dir : string
}.
Record SqliteMemoryStore := {
  sms_paths : StoragePaths;
  sms_global_connection : Connection;
  sms_workspace_connection : Connection
}.

(** The libraries: serde_json on lists of strings, the order in which SQLite visits
    the rows of [memory_items], and FTS5's reading of a query, which is an error or
    tells which rows match. *)
Class MemoryHost := {
  strings_to_json : list string -> string;
  strings_from_json : string -> Result (list string) string;
  scan_items : gmap string MemoryItemRow -> list MemoryItemRow;
  fts5_query : string -> Result (MemoryFtsRow -> bool) string
}.

(** ** Reading rows *)
Definition from_memory {A} (result : MemoryResult A) : Result A StorageError :=
  map_err StorageError_Memory result.
Definition non_empty (text : string) : option string := if text == "" then None else Some text.

Section Store.
Context `{MemoryHost}.

Definition map_item_row (row : MemoryItemRow) : Result MemoryItem StorageError :=
  let* scope := from_memory (from_text (mir_scope_type row)) in
  let* kind := from_memory (from_text (mir_kind row)) in
  let* tags := map_err StorageError_Json (strings_from_json (mir_tags_json row)) in
  let* applicable_packs :=
    map_err StorageError_Json (strings_from_json (mir_applicable_packs_json row)) in
  let* source_type := from_memory (from_text (mir_source_type row)) in
  let* status := from_memory (from_text (mir_status row)) in
  Ok {|
    mi_id := mir_id row;
    mi_scope := scope;
    mi_scope_key := mir_scope_key row;
    mi_kind := kind;
    mi_title := mir_title row;
    mi_body := mir_body row;
    mi_tags := tags;
    mi_applicable_packs := applicable_packs;
    mi_source_type := source_type;
    mi_source_ref := non_empty (mir_source_ref row);
    mi_origin_pack := non_empty (mir_origin_pack row);
    mi_status := status;
    mi_promoted_from_id := non_empty (mir_promoted_from_id row);
    mi_created_at := mir_created_at row;
    mi_updated_at := mir_updated_at row |}.
Definition map_event_row (row : MemoryEventRow) : Result MemoryEvent StorageError :=
  let* action := from_memory (from_text (mer_action row)) in
  Ok {|
    mev_id := mer_id row;
    mev_memory_id := mer_memory_id row;
    mev_action := action;
    mev_reason := non_empty (mer_reason row);
    mev_created_at := mer_created_at row |}.
Definition map_link_row (row : MemoryLinkRow) : Result MemoryLink StorageError :=
  let* relation := from_memory (from_text (mlr_relation row)) in
  Ok {|
    mln_id := mlr_id row;
    mln_from_memory_id := mlr_from_memory_id row;
    mln_to_memory_id := mlr_to_memory_id row;
    mln_relation := relation;
    mln_created_at := mlr_created_at row |}.

(** The loop [while let Some(row) = rows.next()? { .. push(map_row(row)?) }]. *)
Fixpoint collect_rows {A B} (map_row : A -> Result B StorageError) (rows : list A)
    : Result (list B) StorageError :=
  match rows with
  | [] => Ok []
  | row :: rest =>
      let* value := map_row row in
      let* values := collect_rows map_row rest in
      Ok (value :: values)
  end.

(** [ORDER BY created_at ASC, id ASC]. *)
Definition created_le {A} (created_at id : A -> string) (left right : A) : bool :=
  if created_at left == created_at right then String.leb (id left) (id right)
  else String.leb (created_at left) (created_at right).

Definition connection_for (store : SqliteMemoryStore) (kind : DatabaseKind) : Connection :=
  match kind with
  | DatabaseKind_Global => sms_global_connection store
  | DatabaseKind_Workspace => sms_workspace_connection store
  end.
Definition with_connection (store : SqliteMemoryStore) (kind : DatabaseKind)
    (connection : Connection) : SqliteMemoryStore :=
  match kind with
  | DatabaseKind_Global => {| store with sms_global_connection := connection |}
  | DatabaseKind_Workspace => {| store with sms_workspace_connection := connection |}
  end.

Definition all_items_for (store : SqliteMemoryStore) (kind : DatabaseKind)
    : Result (list MemoryItem) StorageError :=
  collect_rows map_item_row (scan_items (cn_memory_items (connection_for store kind))).
Definition all_events_for (store : SqliteMemoryStore) (kind : DatabaseKind)
    : Result (list MemoryEvent) StorageError :=
  collect_rows map_event_row
    (sort_by (created_le mer_created_at mer_id)
       (map_to_list (cn_memory_events (connection_for store kind))).*2).
Definition all_links_for (store : SqliteMemoryStore) (kind : DatabaseKind)
    : Result (list MemoryLink) StorageError :=
  collect_rows map_link_row
    (sort_by (created_le mlr_created_at mlr_id)
       (map_to_list (cn_memory_links (connection_for store kind))).*2).

(** The ids of the matching rows; the code only asks for membership. *)
Definition fts_match_ids_for (store : SqliteMemoryStore) (kind : DatabaseKind) (query : string)
    : Result (list string) StorageError :=
  let* row_matches := map_err StorageError_Sqlite (fts5_query query) in
  Ok (mfr_id <$> List.filter row_matches (cn_memory_fts (connection_for store kind))).

Definition database_for_scope (scope : MemoryScope) : DatabaseKind :=
  match scope with
  | MemoryScope_User | MemoryScope_Pack => DatabaseKind_Global
  | MemoryScope_Workspace | MemoryScope_Session => DatabaseKind_Workspace
  end.
Definition exists_in_connection (connection : Connection) (memory_id : string) : bool :=
  is_some (cn_memory_items connection !! memory_id).
Definition database_for_memory_id (store : SqliteMemoryStore) (memory_id : string)
    : option DatabaseKind :=
  if exists_in_connection (sms_global_connection store) memory_id then Some DatabaseKind_Global else
  if exists_in_connection (sms_workspace_connection store) memory_id
  then Some DatabaseKind_Workspace else
  None.
Definition load_item_from_connection (connection : Connection) (memory_id : string)
    : Result (option MemoryItem) StorageError :=
  match cn_memory_items connection !! memory_id with
  | None => Ok None
  | Some row => let* item := map_item_row row in Ok (Some item)
  end.

(** ** The repository *)
Definition item_row (item : MemoryItem) : MemoryItemRow := {|
  mir_id := mi_id item;
  mir_scope_type := to_text (mi_scope item);
  mir_scope_key := mi_scope_key item;
  mir_kind := to_text (mi_kind item);
  mir_title := mi_title item;
  mir_body := mi_body item;
  mir_tags_json := strings_to_json (mi_tags item);
  mir_applicable_packs_json := strings_to_json (mi_applicable_packs item);
  mir_source_type := to_text (mi_source_type item);
  mir_source_ref := default "" (mi_source_ref item);
  mir_origin_pack := default "" (mi_origin_pack item);
  mir_status := to_text (mi_status item);
  mir_promoted_from_id := default "" (mi_promoted_from_id item);
  mir_created_at := mi_created_at item;
  mir_updated_at := mi_updated_at item
|}.
Definition sqlite_upsert_item (item : MemoryItem) (store : SqliteMemoryStore)
    : MemoryResult unit * SqliteMemoryStore :=
  let kind := database_for_scope (mi_scope item) in
  let connection := connection_for store kind in
  let fts := {| mfr_id := mi_id item; mfr_title := mi_title item; mfr_body := mi_body item;
                mfr_tags := join_texts " " (mi_tags item) |} in
  (Ok tt, with_connection store kind
     {| connection with
        cn_memory_items := <[mi_id item := item_row item]> (cn_memory_items connection);
        cn_memory_fts := cn_memory_fts connection ++ [fts] |}).

Definition sqlite_get_item (store : SqliteMemoryStore) (id : string)
    : MemoryResult (option MemoryItem) :=
  match database_for_memory_id store id with
  | Some kind => as_repository (load_item_from_connection (connection_for store kind) id)
  | None => Ok None
  end.

Definition query_databases (query : MemoryQuery) : list DatabaseKind :=
  match mq_scope query with
  | Some MemoryScope_User | Some MemoryScope_Pack => [DatabaseKind_Global]
  | Some MemoryScope_Workspace | Some MemoryScope_Session => [DatabaseKind_Workspace]
  | None => [DatabaseKind_Global; DatabaseKind_Workspace]
  end.
(** One turn of the loop over the databases. *)
Definition database_items (store : SqliteMemoryStore) (query : MemoryQuery) (kind : DatabaseKind)
    : MemoryResult (list MemoryItem) :=
  let* items := as_repository (all_items_for store kind) in
  match mq_search_text query with
  | None => Ok items
  | Some search_text =>
      let* ids := as_repository (fts_match_ids_for store kind search_text) in
      Ok (List.filter (fun item => bool_decide (mi_id item ∈ ids)) items)
  end.
Fixpoint databases_items (store : SqliteMemoryStore) (query : MemoryQuery)
    (databases : list DatabaseKind) : MemoryResult (list MemoryItem) :=
  match databases with
  | [] => Ok []
  | kind :: rest =>
      let* items := database_items store query kind in
      let* others := databases_items store query rest in
      Ok (items ++ others)
  end.
Definition sqlite_list_items `{Lowercase} (store : SqliteMemoryStore) (query : MemoryQuery)
    : MemoryResult (list MemoryItem) :=
  let* items := databases_items store query (query_databases query) in
  let filter_query := {| query with mq_search_text := None |} in
  Ok (sort_items (List.filter (matches filter_query) items)).

Definition event_row (event : MemoryEvent) : MemoryEventRow := {|
  mer_id := mev_id event;
  mer_memory_id := mev_memory_id event;
  mer_action := to_text (mev_action event);
  mer_reason := default "" (mev_reason event);
  mer_created_at := mev_created_at event
|}.
Definition upsert_event_on_connection (connection : Connection) (event : MemoryEvent) : Connection :=
  {| connection with
     cn_memory_events := <[mev_id event := event_row event]> (cn_memory_events connection) |}.
Definition upsert_event (event : MemoryEvent) (store : SqliteMemoryStore)
    : Result unit StorageError * SqliteMemoryStore :=
  match database_for_memory_id store (mev_memory_id event) with
  | Some kind =>
      (Ok tt, with_connection store kind (upsert_event_on_connection (connection_for store kind) event))
  | None => (Err (StorageError_MissingMemoryForEvent (mev_memory_id event)), store)
  end.
Definition sqlite_append_event (event : MemoryEvent) (store : SqliteMemoryStore)
    : MemoryResult unit * SqliteMemoryStore :=
  let (result, store') := upsert_event event store in (as_repository result, store').

Definition link_row (link : MemoryLink) : MemoryLinkRow := {|
  mlr_id := mln_id link;
  mlr_from_memory_id := mln_from_memory_id link;
  mlr_to_memory_id := mln_to_memory_id link;
  mlr_relation := to_text (mln_relation link);
  mlr_created_at := mln_created_at link
|}.
Definition sqlite_upsert_link (link : MemoryLink) (store : SqliteMemoryStore)
    : MemoryResult unit * SqliteMemoryStore :=
  match database_for_memory_id store (mln_from_memory_id link) with
  | Some database =>
      let connection := connection_for store database in
      (Ok tt, with_connection store database
         {| connection with
            cn_memory_links := <[mln_id link := link_row link]> (cn_memory_links connection) |})
  | None =>
      (Err (MemoryError_Repository ("memory id '" +:+ mln_from_memory_id link
                                    +:+ "' does not exist for link source")), store)
  end.

(** What [list_events] and [list_links] read: the database of the memory, or both. *)
Definition records_for {A} (all_for : SqliteMemoryStore -> DatabaseKind -> Result (list A) StorageError)
    (store : SqliteMemoryStore) (memory_id : option string) : MemoryResult (list A) :=
  match memory_id with
  | Some memory_id =>
      match database_for_memory_id store memory_id with
      | Some kind => as_repository (all_for store kind)
      | None => Ok []
      end
  | None =>
      let* global := as_repository (all_for store DatabaseKind_Global) in
      let* workspace := as_repository (all_for store DatabaseKind_Workspace) in
      Ok (global ++ workspace)
  end.
Definition sqlite_list_events (store : SqliteMemoryStore) (memory_id : option string)
    : MemoryResult (list MemoryEvent) :=
  let* events := records_for all_events_for store memory_id in
  Ok (List.filter (fun event => is_none_or memory_id (fun id => mev_memory_id event == id)) events).
Definition sqlite_list_links (store : SqliteMemoryStore) (memory_id : option string)
    : MemoryResult (list MemoryLink) :=
  let* links := records_for all_links_for store memory_id in
  Ok (List.filter (link_touches memory_id) links).

#[export] Instance sqlite_repository `{Lowercase} : MemoryRepository SqliteMemoryStore := {|
  upsert_item := sqlite_upsert_item;
  get_item := sqlite_get_item;
  list_items := sqlite_list_items;
  append_event := sqlite_append_event;
  list_events := sqlite_list_events;
  upsert_link := sqlite_upsert_link;
  list_links := sqlite_list_links
|}.
End Store.

(** ** Export and import *)
Section Maintenance.
Context `{MemoryHost, Lowercase}.

Definition export_bundle (store : SqliteMemoryStore) (query : MemoryQuery)
    : Result MemoryExportBundle StorageError :=
  let* items := map_err StorageError_Memory (list_items store query) in
  let memory_ids := mi_id <$> items in
  let* events := map_err StorageError_Memory (list_events store None) in
  let* links := map_err StorageError_Memory (list_links store None) in
  Ok {| meb_schema_version := 1;
        meb_items := items;
        meb_events := List.filter (fun event => bool_decide (mev_memory_id event ∈ memory_ids)) events;
        meb_links :=
          List.filter (fun link => bool_decide (mln_from_memory_id link ∈ memory_ids)
                                   || bool_decide (mln_to_memory_id link ∈ memory_ids)) links |}.

(** A [for] loop of fallible writes. *)
Fixpoint write_all {A} (write : A -> StateM SqliteMemoryStore StorageError unit) (records : list A)
    : StateM SqliteMemoryStore StorageError unit :=
  match records with
  | [] => mem_ret tt
  | record :: rest => mem! _ := write record in write_all write rest
  end.
Definition storing (write : SqliteMemoryStore -> MemoryResult unit * SqliteMemoryStore)
    : StateM SqliteMemoryStore StorageError unit :=
  fun store => let (result, store') := write store in (from_memory result, store').
Definition import_bundle (bundle : MemoryExportBundle)
    : StateM SqliteMemoryStore StorageError MemoryImportReport :=
  mem! _ := write_all (fun item => storing (upsert_item item)) (meb_items bundle) in
  mem! _ := write_all upsert_event (meb_events bundle) in
  mem! _ := write_all (fun link => storing (upsert_link link)) (meb_links bundle) in
  mem_ret {| mipr_imported_items := length (meb_items bundle);
             mipr_imported_events := length (meb_events bundle);
             mipr_imported_links := length (meb_links bundle) |}.

(** ** The consistency report *)

(** [BTreeSet::insert] over the ids in turn: those met again, in byte order. *)
Fixpoint repeated_ids (seen repeated : gset string) (ids : list string) : list string :=
  match ids with
  | [] => sort_by String.leb (elements repeated)
  | id :: rest =>
      if bool_decide (id ∈ seen) then repeated_ids seen ({[id]} ∪ repeated) rest
      else repeated_ids ({[id]} ∪ seen) repeated rest
  end.

Record DupKey := {
  dk_promoted_from_id : string;
  dk_scope : string;
  dk_scope_key : string;
  dk_kind : string;
  dk_title : string;
  dk_body : string;
  dk_tags : list string;
  dk_applicable_packs : list string
}.
#[global] Instance DupKey_eq_dec : EqDecision DupKey.
Proof. solve_decision. Defined.

(** [Vec::dedup]: of equal neighbours the first stays. *)
Fixpoint dedup (values : list string) : list string :=
  match values with
  | a :: (b :: _) as rest => if a == b then dedup rest else a :: dedup rest
  | values => values
  end.
Definition normalized_string_list (values : list string) : list string :=
  dedup (sort_by String.leb values).
Definition promoted_duplicate_key (item : MemoryItem) (promoted_from_id : string) : DupKey := {|
  dk_promoted_from_id := promoted_from_id;
  dk_scope := to_text (mi_scope item);
  dk_scope_key := mi_scope_key item;
  dk_kind := to_text (mi_kind item);
  dk_title := mi_title item;
  dk_body := mi_body item;
  dk_tags := normalized_string_list (mi_tags item);
  dk_applicable_packs := normalized_string_list (mi_applicable_packs item)
|}.

(** The derived order of vectors and tuples. *)
Fixpoint strings_compare (l r : list string) : comparison :=
  match l, r with
  | [], [] => Eq
  | [], _ :: _ => Lt
  | _ :: _, [] => Gt
  | a :: l', b :: r' => match String.compare a b with Eq => strings_compare l' r' | c => c end
  end.
Definition dup_key_compare (left right : DupKey) : comparison :=
  let columns key := [dk_promoted_from_id key; dk_scope key; dk_scope_key key; dk_kind key;
                      dk_title key; dk_body key] in
  match strings_compare (columns left) (columns right) with
  | Eq => match strings_compare (dk_tags left) (dk_tags right) with
          | Eq => strings_compare (dk_applicable_packs left) (dk_applicable_packs right)
          | c => c
          end
  | c => c
  end.
(** [entry(key).or_default().push(id)] on a [BTreeMap] kept in key order. *)
Fixpoint push_group (key : DupKey) (id : string) (groups : list (DupKey * list string))
    : list (DupKey * list string) :=
  match groups with
  | [] => [(key, [id])]
  | (key', ids) :: rest =>
      match dup_key_compare key key' with
      | Lt => (key, [id]) :: groups
      | Eq => (key', ids ++ [id]) :: rest
      | Gt => (key', ids) :: push_group key id rest
      end
  end.
Definition duplicate_promoted_groups (items : list MemoryItem) : list (DupKey * list string) :=
  foldl (fun groups item =>
    match mi_promoted_from_id item with
    | None => groups
    | Some promoted_from_id =>
        if (promoted_from_id == "") || (mi_status item != MemoryStatus_Active) then groups
        else push_group (promoted_duplicate_key item promoted_from_id) (mi_id item) groups
    end) [] items.

Definition doctor (store : SqliteMemoryStore) : Result MemoryDoctorReport StorageError :=
  let* global_items := all_items_for store DatabaseKind_Global in
  let* workspace_items := all_items_for store DatabaseKind_Workspace in
  let* global_events := all_events_for store DatabaseKind_Global in
  let* workspace_events := all_events_for store DatabaseKind_Workspace in
  let* global_links := all_links_for store DatabaseKind_Global in
  let* workspace_links := all_links_for store DatabaseKind_Workspace in
  let items := global_items ++ workspace_items in
  let known_item_ids := mi_id <$> items in
  let known id := bool_decide (id ∈ known_item_ids) in
  Ok {|
    mdr_global_database := sp_global_database (sms_paths store);
    mdr_workspace_database := sp_workspace_database (sms_paths store);
    mdr_global_item_count := length global_items;
    mdr_workspace_item_count := length workspace_items;
    mdr_global_event_count := length global_events;
    mdr_workspace_event_count := length workspace_events;
    mdr_global_link_count := length global_links;
    mdr_workspace_link_count := length workspace_links;
    mdr_forgotten_item_count :=
      length (List.filter (fun item => mi_status item == MemoryStatus_Forgotten) items);
    mdr_duplicate_item_ids := repeated_ids ∅ ∅ known_item_ids;
    mdr_orphan_event_ids :=
      mev_id <$> List.filter (fun event => negb (known (mev_memory_id event)))
                   (global_events ++ workspace_events);
    mdr_orphan_link_ids :=
      mln_id <$> List.filter (fun link => negb (known (mln_from_memory_id link))
                                          || negb (known (mln_to_memory_id link)))
                   (global_links ++ workspace_links);
    mdr_orphan_promoted_item_ids :=
      sort_by String.leb
        (mi_id <$> List.filter (fun item => is_some_and (mi_promoted_from_id item) (fun id =>
                                   (id != "") && negb (known id))) items);
    mdr_duplicate_promoted_item_ids :=
      concat ((fun group => sort_by String.leb group.2)
                <$> List.filter (fun group => Nat.ltb 1 (length group.2))
                      (duplicate_promoted_groups items)) |}.

(** ** Removal of forgotten items *)

(** [DELETE FROM .. WHERE ..]: the rows left, and how many went. *)
Definition delete_where {A} (f : A -> bool) (table : gmap string A) : nat * gmap string A :=
  (map_count f table, base.filter (fun kv => f kv.2 = false) table).

Record PruneCounts := { pc_items : nat; pc_events : nat; pc_links : nat }.

Definition prune_one (memory_id : string) (state : PruneCounts * Connection)
    : PruneCounts * Connection :=
  let (counts, connection) := state in
  let (events, event_rows) :=
    delete_where (fun row => mer_memory_id row == memory_id) (cn_memory_events connection) in
  let (links, link_rows) :=
    delete_where (fun row => (mlr_from_memory_id row == memory_id)
                             || (mlr_to_memory_id row == memory_id)) (cn_memory_links connection) in
  let fts_rows := List.filter (fun row => mfr_id row != memory_id) (cn_memory_fts connection) in
  let (items, item_rows) :=
    delete_where (fun row => mir_id row == memory_id) (cn_memory_items connection) in
  ({| pc_items := pc_items counts + items;
      pc_events := pc_events counts + events;
      pc_links := pc_links counts + links |},
   {| cn_memory_items := item_rows;
      cn_memory_events := event_rows;
      cn_memory_links := link_rows;
      cn_memory_fts := fts_rows |}).
Definition prune_forgotten_from_connection (connection : Connection) : PruneCounts * Connection :=
  let forgotten_ids :=
    mir_id <$> List.filter (fun row => mir_status row == "forgotten")
                 (scan_items (cn_memory_items connection)) in
  foldl (fun state memory_id => prune_one memory_id state)
    ({| pc_items := 0; pc_events := 0; pc_links := 0 |}, connection) forgotten_ids.

Definition prune_forgotten (store : SqliteMemoryStore) : MemoryPruneReport * SqliteMemoryStore :=
  let (global, global_connection) := prune_forgotten_from_connection (sms_global_connection store) in
  let (workspace, workspace_connection) :=
    prune_forgotten_from_connection (sms_workspace_connection store) in
  ({| mpr_removed_items := pc_items global + pc_items workspace;
      mpr_removed_events :=
        pc_events global + pc_events workspace + pc_links global + pc_links workspace |},
   {| store with sms_global_connection := global_connection;
                 sms_workspace_connection := workspace_connection |}).
End Maintenance.
