(* ===== verification/MemorySpec.v ===== *)
(** * What the memory service promises

    The service is specified against the in-memory repository.  [agrees s r] says
    that the two databases of the SQLite store [s] hold exactly the items, events and
    links of [r], each in the database of its item; every command of the service
    preserves it and answers alike on both.  Selection of effective memory is proved
    once, against the interface [MemoryReads], which both repositories implement. *)
From S2P Require Import Prelude RustStr Memory MemoryStore.
From stdpp Require Import base list gmap strings pretty sorting.

#[local] Open Scope string_scope.
#[local] Open Scope list_scope.
#[local] Open Scope Z_scope.

(** ** Sorting *)
Section Sorting.
Context {A : Type} (le : A -> A -> bool).

Lemma insert_by_permutation a l : insert_by le a l ≡ₚ a :: l.
Proof.
  induction l as [|b l IH]; cbn; [done|]. case_match; [done|]. rewrite IH. apply Permutation_swap.
Qed.

Lemma sort_by_permutation l : sort_by le l ≡ₚ l.
Proof. unfold sort_by. induction l as [|a l IH]; cbn; [done|]. by rewrite insert_by_permutation, IH. Qed.

Hypothesis le_total : forall a b, le a b = false -> le b a = true.

Lemma insert_by_sorted a l : Sorted (fun x y => le x y = true) l ->
  Sorted (fun x y => le x y = true) (insert_by le a l).
Proof.
  induction 1 as [|b l Hl IH Hb]; cbn; [by repeat constructor|].
  destruct (le a b) eqn:Hab; [by repeat constructor|].
  constructor; [done|]. destruct Hb as [|c l Hbc]; cbn; [by constructor; apply le_total|].
  destruct (le a c); by constructor; auto.
Qed.

Lemma sort_by_sorted l : Sorted (fun x y => le x y = true) (sort_by le l).
Proof. unfold sort_by. induction l; cbn; [constructor|]. by apply insert_by_sorted. Qed.
End Sorting.

Lemma string_leb_total a b : String.leb a b = false -> String.leb b a = true.
Proof. destruct (String.leb_total a b) as [Hab|Hab]; congruence. Qed.

Lemma item_le_total a b : item_le a b = false -> item_le b a = true.
Proof.
  unfold item_le. repeat case_bool_decide; try congruence; auto using string_leb_total.
  rewrite Z.ltb_ge, Z.ltb_lt. lia.
Qed.

Definition in_order : list MemoryItem -> Prop := Sorted (fun x y => item_le x y = true).

Lemma sort_items_order l : in_order (sort_items l).
Proof. apply sort_by_sorted, item_le_total. Qed.

Lemma sort_items_permutation l : sort_items l ≡ₚ l.
Proof. apply sort_by_permutation. Qed.

(** What the order looks at: two items with equal keys may stand either way. *)
Definition sort_key (item : MemoryItem) : Z * string * string :=
  (priority (mi_scope item), mi_updated_at item, mi_title item).
Definition key_before (x y : Z * string * string) : Prop :=
  x.1.1 < y.1.1 \/ (x.1.1 = y.1.1 /\
    ((x.1.2 <> y.1.2 /\ String.leb x.1.2 y.1.2 = true) \/ (x.1.2 = y.1.2 /\ String.leb x.2 y.2 = true))).

Lemma item_le_key a b : item_le a b = true <-> key_before (sort_key a) (sort_key b).
Proof.
  unfold item_le, key_before, sort_key. cbn [fst snd].
  repeat case_bool_decide; rewrite ?Z.ltb_lt; intuition (try lia; try congruence).
Qed.

Lemma string_leb_trans a b c : String.leb a b = true -> String.leb b c = true -> String.leb a c = true.
Proof. rewrite <- !Is_true_true. apply (transitivity (R := strings.String.le)). Qed.

#[local] Instance key_before_trans : Transitive key_before.
Proof.
  intros [[p u] t] [[p' u'] t'] [[p'' u''] t'']. unfold key_before. cbn [fst snd].
  intros [Hab|[-> Hab]] [Hbc|[-> Hbc]]; [left; lia..|]. right. split; [done|].
  destruct Hab as [[Hn Hab]|[-> Hab]], Hbc as [[Hn' Hbc]|[-> Hbc]].
  - left. split; [|by eapply string_leb_trans]. intros ->. by apply Hn', String.leb_antisym.
  - by left.
  - by left.
  - right. split; [done|by eapply string_leb_trans].
Qed.
#[local] Instance key_before_antisym : AntiSymm (=) key_before.
Proof.
  intros [[p u] t] [[p' u'] t']. unfold key_before. cbn [fst snd]. intros Hab Hba.
  assert (p = p') as -> by lia. destruct (decide (u = u')) as [->|Hne].
  - f_equal. apply String.leb_antisym; intuition (try lia; congruence).
  - exfalso. apply Hne, String.leb_antisym; intuition (try lia; congruence).
Qed.

Lemma in_order_keys l : in_order l -> Sorted key_before (sort_key <$> l).
Proof.
  induction 1 as [|a l _ IH Ha]; cbn; constructor; [done|].
  destruct Ha as [|b l Hab]; constructor. by apply item_le_key.
Qed.

(** Two listings of the same items in order agree place by place on the keys. *)
Lemma same_order l l' : in_order l -> in_order l' -> l ≡ₚ l' -> sort_key <$> l = sort_key <$> l'.
Proof. intros Hl%in_order_keys Hl'%in_order_keys Hp. by apply (Sorted_unique key_before); [..|rewrite Hp]. Qed.

(** ** Rows read back *)
Class MemoryHostLaws `{MemoryHost} : Prop := {
  strings_round_trip : forall l, strings_from_json (strings_to_json l) = Ok l;
  scan_items_permutation : forall table, scan_items table ≡ₚ (map_to_list table).*2
}.

(** An option that a text column can hold: [Some("")] is read back as [None]. *)
Definition storable (column : option string) : Prop := column <> Some "".
Definition item_storable (item : MemoryItem) : Prop :=
  storable (mi_source_ref item) /\ storable (mi_origin_pack item) /\ storable (mi_promoted_from_id item).
Definition event_storable (event : MemoryEvent) : Prop := storable (mev_reason event).

Lemma non_empty_default column : storable column -> non_empty (default "" column) = column.
Proof.
  unfold storable, non_empty. destruct column as [text|]; cbn; [|done].
  case_bool_decide; congruence.
Qed.

Section Rows.
Context `{MemoryHostLaws}.

Lemma item_row_round_trip item : item_storable item -> map_item_row (item_row item) = Ok item.
Proof.
  intros (Href & Horigin & Hfrom). unfold map_item_row, item_row. cbn.
  rewrite !strings_round_trip, !non_empty_default by done.
  destruct item as [? [] ? [] ? ? ? ? [] ? ? [] ? ? ?]; reflexivity.
Qed.

Lemma event_row_round_trip event : event_storable event -> map_event_row (event_row event) = Ok event.
Proof.
  intros Hreason. unfold map_event_row, event_row. cbn. rewrite non_empty_default by done.
  destruct event as [? ? [] ? ?]; reflexivity.
Qed.

Lemma link_row_round_trip link : map_link_row (link_row link) = Ok link.
Proof. destruct link as [? ? ? [] ?]; reflexivity. Qed.

Lemma collect_rows_spec {A B} (map_row : A -> Result B StorageError) (row_of : B -> A) rows values :
  Forall (fun value => map_row (row_of value) = Ok value) values -> rows ≡ₚ row_of <$> values ->
  exists result, collect_rows map_row rows = Ok result /\ result ≡ₚ values.
Proof.
  intros Hround (values' & -> & Hvalues)%Permutation_map_inv.
  exists values'. split; [|by symmetry]. rewrite Hvalues in Hround.
  clear Hvalues. induction Hround as [|value values' Hvalue _ IH]; cbn; [done|].
  by rewrite Hvalue; cbn; rewrite IH.
Qed.
End Rows.

(** ** Reading a repository *)

(** [holds r m]: the repository stands for the items [m]. *)
Class MemoryReads (R : Type) `{MemoryRepository R, Lowercase} := {
  holds : R -> gmap string MemoryItem -> Prop;
  get_item_holds : forall r m id, holds r m -> get_item r id = Ok (m !! id);
  list_items_holds : forall r m query, holds r m -> mq_search_text query = None ->
    exists items, list_items r query = Ok items /\ in_order items /\
      items ≡ₚ List.filter (matches query) (map_values m)
}.

#[export] Instance list_filter_permutation {A} (f : A -> bool) :
  Proper (Permutation ==> Permutation) (List.filter f).
Proof.
  induction 1 as [|a l l' _ IH|a b l|l1 l2 l3 _ IH1 _ IH2]; cbn; [done|by case_match; rewrite IH| |].
  - repeat case_match; (done || apply Permutation_swap).
  - by rewrite IH1.
Qed.

Lemma filter_apart {A} (f g : A -> bool) l : (forall a, f a = true -> g a = false) ->
  List.filter f l ++ List.filter g l ≡ₚ List.filter (fun a => f a || g a) l.
Proof.
  intros Hapart. induction l as [|a l IH]; cbn; [done|].
  destruct (f a) eqn:Hf; [rewrite (Hapart a Hf)|destruct (g a)]; cbn; rewrite <- IH; [done| |done].
  symmetry. apply Permutation_middle.
Qed.

(** Which items a context selects: those with status active (with the flag of the
    context set, of every status: archived and superseded items too), of a scope the
    policy includes, under the key the context gives that scope. *)
Definition selects (included : bool) (context_key : option string) (item_key : string) : bool :=
  included && (context_key == Some item_key).
Definition applies (context : EffectiveMemoryContext) (policy : EffectiveMemoryPolicy)
    (item : MemoryItem) : bool :=
  (emc_include_forgotten context || (mi_status item == MemoryStatus_Active))
  && match mi_scope item with
     | MemoryScope_Session =>
         selects (emp_include_session policy) (emc_session_scope_key context) (mi_scope_key item)
     | MemoryScope_Workspace =>
         selects (emp_include_workspace policy) (emc_workspace_scope_key context) (mi_scope_key item)
     | MemoryScope_User =>
         selects (emp_include_user policy) (Some GLOBAL_USER_SCOPE_KEY) (mi_scope_key item)
     | MemoryScope_Pack =>
         selects (emp_include_pack policy) (emc_pack_scope_key context) (mi_scope_key item)
     end.

Section Selection.
Context {R : Type} `{MemoryReads R}.
Implicit Types (context : EffectiveMemoryContext) (policy : EffectiveMemoryPolicy).

Definition in_scope (included : bool) (scope : MemoryScope) (key : option string) (forgotten : bool)
    (item : MemoryItem) : bool :=
  (forgotten || (mi_status item == MemoryStatus_Active)) && (mi_scope item == scope)
  && selects included key (mi_scope_key item).

(** The pack restriction of the pack query changes nothing: a pack item is stored
    under its pack. *)
Lemma scope_items_spec r m included scope key pack forgotten :
  holds r m -> (pack = None \/ (scope = MemoryScope_Pack /\ pack = key)) ->
  exists items, scope_items r included scope key pack forgotten = Ok items /\
    items ≡ₚ List.filter (in_scope included scope key forgotten) (map_values m).
Proof.
  intros Hm Hpack.
  assert (Hnone : included = false \/ key = None ->
    [] ≡ₚ List.filter (in_scope included scope key forgotten) (map_values m)).
  { intros Hoff. rewrite (List.filter_ext _ (fun _ => false)); [by induction (map_values m)|].
    intros item. unfold in_scope, selects. destruct Hoff as [->| ->]; cbn; [by rewrite andb_false_r|].
    by rewrite !andb_false_r. }
  unfold scope_items. destruct included; [|exists []; auto]. destruct key as [key|]; [|exists []; auto].
  edestruct (list_items_holds r m) as (items & Hitems & _ & Hperm); [done| |].
  2: { exists items. split; [exact Hitems|]. rewrite Hperm.
       erewrite List.filter_ext; [reflexivity|]. intros item. unfold matches, in_scope, selects. cbn.
       destruct Hpack as [->|[-> ->]]; cbn; destruct forgotten; cbn;
         repeat (case_bool_decide; cbn); simplify_eq; try done; try congruence.
       all: rewrite ?orb_true_r; done. }
  done.
Qed.

Lemma applies_scopes context policy item :
  applies context policy item =
    in_scope (emp_include_session policy) MemoryScope_Session (emc_session_scope_key context)
      (emc_include_forgotten context) item
    || (in_scope (emp_include_workspace policy) MemoryScope_Workspace
          (emc_workspace_scope_key context) (emc_include_forgotten context) item
        || (in_scope (emp_include_user policy) MemoryScope_User (Some GLOBAL_USER_SCOPE_KEY)
              (emc_include_forgotten context) item
            || in_scope (emp_include_pack policy) MemoryScope_Pack (emc_pack_scope_key context)
                 (emc_include_forgotten context) item)).
Proof.
  unfold applies, in_scope. destruct (mi_scope item); cbn; rewrite ?andb_true_r, ?andb_false_r; cbn;
    rewrite ?orb_false_r; done.
Qed.

Lemma in_scope_scope included scope key forgotten item :
  in_scope included scope key forgotten item = true -> mi_scope item = scope.
Proof. unfold in_scope. rewrite !andb_true_iff, !bool_decide_eq_true. tauto. Qed.

(** C34. In every repository that reads its items back, the memory that applies in a
    context is exactly the items that are active, or of any status when the context
    asks for forgotten items, whose scope the policy includes and whose key is the one
    the context gives that scope: each once, ordered by scope priority, time of update
    and title, and each explained by its own scope.
    [effective_memory] is this under the policy that includes every scope. *)
Theorem effective_memory_is_exact r m context policy :
  holds r m ->
  exists explained,
    explain_effective_memory r context policy = Ok explained /\
    effective_memory_with_policy r context policy = Ok (emi_item <$> explained) /\
    in_order (emi_item <$> explained) /\
    emi_item <$> explained ≡ₚ List.filter (applies context policy) (map_values m) /\
    Forall (fun e => emi_reason e = reason_for_item (emi_item e)) explained.
Proof.
  intros Hm. unfold effective_memory_with_policy, explain_effective_memory.
  destruct (scope_items_spec r m (emp_include_session policy) MemoryScope_Session
    (emc_session_scope_key context) None (emc_include_forgotten context)) as (l1 & -> & P1); [by auto..|].
  destruct (scope_items_spec r m (emp_include_workspace policy) MemoryScope_Workspace
    (emc_workspace_scope_key context) None (emc_include_forgotten context)) as (l2 & -> & P2); [by auto..|].
  destruct (scope_items_spec r m (emp_include_user policy) MemoryScope_User
    (Some GLOBAL_USER_SCOPE_KEY) None (emc_include_forgotten context)) as (l3 & -> & P3); [by auto..|].
  destruct (scope_items_spec r m (emp_include_pack policy) MemoryScope_Pack
    (emc_pack_scope_key context) (emc_pack_scope_key context) (emc_include_forgotten context))
    as (l4 & -> & P4); [by auto..|].
  cbn. eexists. split; [reflexivity|]. split; [reflexivity|].
  rewrite <- list_fmap_compose. cbn. rewrite list_fmap_id.
  split_and!; [apply sort_items_order| |].
  - rewrite sort_items_permutation, P1, P2, P3, P4.
    rewrite !filter_apart by (intros item Hin%in_scope_scope; unfold in_scope; rewrite Hin; cbn;
      rewrite ?andb_false_r; done).
    erewrite List.filter_ext; [reflexivity|]. intros item. symmetry. apply applies_scopes.
  - apply Forall_fmap, Forall_true. done.
Qed.
End Selection.
