(* ===== verification/MemoryRefine.v ===== *)
(** * The SQLite store implements the in-memory repository

    The abstraction relation between the two repositories, its preservation by every
    write, and what it says of every read. *)
From S2P Require Import Prelude RustStr Memory MemoryStore MemorySpec.
From stdpp Require Import base list gmap strings pretty sorting.

#[local] Open Scope string_scope.
#[local] Open Scope list_scope.
#[local] Open Scope Z_scope.

Implicit Types (r : InMemoryMemoryRepository) (s : SqliteMemoryStore) (kind : DatabaseKind)
  (item : MemoryItem) (event : MemoryEvent) (link : MemoryLink) (m : gmap string MemoryItem).

(** ** Well-formed repositories *)

(** What the service maintains: items under their ids and readable from their
    columns; events and links with distinct ids, on items that exist. *)
Definition item_ok item : Prop := mi_id item <> "" /\ item_storable item.
Record well_formed r : Prop := {
  wf_items : forall id item, imr_items r !! id = Some item -> mi_id item = id /\ item_ok item;
  wf_event_ids : NoDup (mev_id <$> imr_events r);
  wf_events : Forall (fun event => event_storable event /\ is_Some (imr_items r !! mev_memory_id event))
                (imr_events r);
  wf_link_ids : NoDup (mln_id <$> imr_links r);
  wf_links : Forall (fun link => is_Some (imr_items r !! mln_from_memory_id link) /\
                                 is_Some (imr_items r !! mln_to_memory_id link)) (imr_links r)
}.

(** ** The abstraction relation *)

(** The database an item lives in, and the part of the repository each database
    holds: an event lives with its item, a link with its source. *)
Definition home m (id : string) : option DatabaseKind :=
  (fun item => database_for_scope (mi_scope item)) <$> m !! id.

Section Agreement.
Context `{MemoryHost}.

Definition item_table kind m : gmap string MemoryItemRow :=
  omap (fun item => if database_for_scope (mi_scope item) == kind then Some (item_row item) else None) m.
Definition event_table kind m (events : list MemoryEvent) : gmap string MemoryEventRow :=
  list_to_map ((fun event => (mev_id event, event_row event))
    <$> List.filter (fun event => home m (mev_memory_id event) == Some kind) events).
Definition link_table kind m (links : list MemoryLink) : gmap string MemoryLinkRow :=
  list_to_map ((fun link => (mln_id link, link_row link))
    <$> List.filter (fun link => home m (mln_from_memory_id link) == Some kind) links).
#[local] Arguments item_table : simpl never.
#[local] Arguments event_table : simpl never.
#[local] Arguments link_table : simpl never.

Record agrees s r : Prop := {
  ag_well_formed : well_formed r;
  ag_items : forall kind, cn_memory_items (connection_for s kind) = item_table kind (imr_items r);
  ag_events : forall kind,
    cn_memory_events (connection_for s kind) = event_table kind (imr_items r) (imr_events r);
  ag_links : forall kind,
    cn_memory_links (connection_for s kind) = link_table kind (imr_items r) (imr_links r)
}.

(** ** Connections *)
Lemma connection_for_with s kind kind' connection :
  connection_for (with_connection s kind connection) kind' =
    if kind' == kind then connection else connection_for s kind'.
Proof. by destruct kind, kind'. Qed.

Lemma lookup_item_table kind m id :
  item_table kind m !! id =
    (item ← m !! id; if database_for_scope (mi_scope item) == kind then Some (item_row item) else None).
Proof. apply lookup_omap. Qed.

Lemma database_for_memory_id_spec s r id :
  agrees s r -> database_for_memory_id s id = home (imr_items r) id.
Proof.
  intros Hag. pose proof (ag_items _ _ Hag DatabaseKind_Global) as HG.
  pose proof (ag_items _ _ Hag DatabaseKind_Workspace) as HW. cbn in HG, HW.
  unfold database_for_memory_id, exists_in_connection, home. rewrite HG, HW, !lookup_item_table.
  destruct (imr_items r !! id) as [item|]; cbn; [|done]. by destruct (mi_scope item).
Qed.

(** ** Reads *)
Context `{!MemoryHostLaws}.

Lemma sqlite_get_item_spec s r id :
  agrees s r -> sqlite_get_item s id = Ok (imr_items r !! id).
Proof.
  intros Hag. unfold sqlite_get_item. rewrite (database_for_memory_id_spec s r) by done. unfold home.
  destruct (imr_items r !! id) as [item|] eqn:Hid; cbn; [|done].
  unfold load_item_from_connection. rewrite (ag_items _ _ Hag), lookup_item_table, Hid. cbn.
  rewrite bool_decide_true by done.
  apply (wf_items _ (ag_well_formed _ _ Hag)) in Hid as (_ & _ & Hstorable).
  by rewrite item_row_round_trip.
Qed.

Lemma item_table_values kind m :
  map_values (item_table kind m) ≡ₚ
    item_row <$> List.filter (fun item => database_for_scope (mi_scope item) == kind) (map_values m).
Proof.
  unfold map_values, item_table. induction m as [|id item m Hid IH] using map_ind; [done|].
  rewrite (map_to_list_insert m) by done. rewrite omap_insert. cbn.
  destruct (database_for_scope (mi_scope item) == kind) eqn:Hkind; cbn.
  - rewrite map_to_list_insert by (by rewrite lookup_omap, Hid). cbn. by rewrite IH.
  - rewrite delete_id by (by rewrite lookup_omap, Hid). done.
Qed.

Lemma scan_item_table kind m : (forall id item, m !! id = Some item -> item_storable item) ->
  exists items, collect_rows map_item_row (scan_items (item_table kind m)) = Ok items /\
    items ≡ₚ List.filter (fun item => database_for_scope (mi_scope item) == kind) (map_values m).
Proof.
  intros Hm. apply (collect_rows_spec map_item_row item_row).
  - apply Forall_forall. intros item [Hin _]%list_elem_of_In%List.filter_In.
    apply list_elem_of_In, list_elem_of_fmap in Hin as ([id item'] & -> & Hid%elem_of_map_to_list).
    by eapply item_row_round_trip, Hm.
  - rewrite scan_items_permutation. apply item_table_values.
Qed.

Lemma all_items_for_spec s r kind : agrees s r ->
  exists items, all_items_for s kind = Ok items /\
    items ≡ₚ List.filter (fun item => database_for_scope (mi_scope item) == kind) (map_values (imr_items r)).
Proof.
  intros Hag. unfold all_items_for. rewrite (ag_items _ _ Hag). apply scan_item_table.
  intros id item Hid. by apply (wf_items _ (ag_well_formed _ _ Hag)) in Hid as (_ & _ & ?).
Qed.

Lemma filter_home {A} (f : A -> DatabaseKind) (l : list A) :
  List.filter (fun a => f a == DatabaseKind_Global) l ++ List.filter (fun a => f a == DatabaseKind_Workspace) l
  ≡ₚ l.
Proof.
  rewrite filter_apart by (intros a ->%bool_decide_eq_true; done).
  induction l as [|a l IH]; cbn; [done|]. destruct (f a); cbn; by apply perm_skip.
Qed.

Lemma databases_items_spec `{Lowercase} s r query : agrees s r -> mq_search_text query = None ->
  exists items, databases_items s query (query_databases query) = Ok items /\
    List.filter (matches query) items ≡ₚ List.filter (matches query) (map_values (imr_items r)).
Proof.
  intros Hag Hsearch. unfold query_databases.
  destruct (all_items_for_spec s r DatabaseKind_Global Hag) as (global & HG & PG).
  destruct (all_items_for_spec s r DatabaseKind_Workspace Hag) as (workspace & HW & PW).
  assert (Hone : forall kind items scope, database_for_scope scope = kind -> mq_scope query = Some scope ->
    all_items_for s kind = Ok items ->
    items ≡ₚ List.filter (fun item => database_for_scope (mi_scope item) == kind) (map_values (imr_items r)) ->
    exists items, databases_items s query [kind] = Ok items /\
      List.filter (matches query) items ≡ₚ List.filter (matches query) (map_values (imr_items r))).
  { intros kind items scope Hkind Hscope Hitems P. cbn. unfold database_items.
    rewrite Hsearch, Hitems. cbn. rewrite app_nil_r. exists items. split; [done|]. rewrite P.
    clear -Hkind Hscope. induction (map_values (imr_items r)) as [|item l IH]; cbn; [done|].
    case_bool_decide as Hhome; cbn; [case_match; by rewrite IH|].
    destruct (matches query item) eqn:Hmatch; [|done]. exfalso. unfold matches in Hmatch.
    rewrite Hscope in Hmatch. cbn in Hmatch. repeat (case_bool_decide; cbn in Hmatch); try congruence.
    all: repeat case_match; done. }
  destruct (mq_scope query) as [[]|] eqn:Hscope; try (by eapply (Hone _ _ _ eq_refl eq_refl)). clear Hone.
  cbn. unfold database_items. rewrite Hsearch, HG, HW. cbn. rewrite app_nil_r. eexists.
  split; [done|]. rewrite PG, PW.
  by rewrite (filter_home (fun item => database_for_scope (mi_scope item))).
Qed.

Lemma sqlite_list_items_spec `{Lowercase} s r query : agrees s r -> mq_search_text query = None ->
  exists items, sqlite_list_items s query = Ok items /\ in_order items /\
    items ≡ₚ List.filter (matches query) (map_values (imr_items r)).
Proof.
  intros Hag Hsearch. destruct (databases_items_spec s r query Hag Hsearch) as (items & Hitems & P).
  unfold sqlite_list_items. rewrite Hitems. cbn. eexists. split; [reflexivity|].
  split; [apply sort_items_order|]. rewrite sort_items_permutation.
  destruct query; cbn in *. by rewrite Hsearch in *.
Qed.

(** The rows of a table built from records with distinct ids, in any order. *)
Lemma scan_table {A B} (map_row : B -> Result A StorageError) (row_of : A -> B) (id_of : A -> string)
    (le : B -> B -> bool) (records : list A) :
  NoDup (id_of <$> records) -> Forall (fun record => map_row (row_of record) = Ok record) records ->
  exists result,
    collect_rows map_row (sort_by le
      (map_to_list (list_to_map ((fun record => (id_of record, row_of record)) <$> records)
                    : gmap string B)).*2) = Ok result /\ result ≡ₚ records.
Proof.
  intros Hids Hround. apply (collect_rows_spec map_row row_of); [done|].
  rewrite sort_by_permutation, map_to_list_to_map.
  - by rewrite <- list_fmap_compose.
  - by rewrite <- list_fmap_compose.
Qed.

Lemma NoDup_filter_ids {A} (id_of : A -> string) (f : A -> bool) (l : list A) :
  NoDup (id_of <$> l) -> NoDup (id_of <$> List.filter f l).
Proof.
  induction l as [|a l IH]; cbn; [done|]. intros [Ha Hl]%NoDup_cons. destruct (f a); cbn; [|by apply IH].
  apply NoDup_cons. split; [|by apply IH]. contradict Ha.
  apply list_elem_of_fmap in Ha as (b & -> & [Hb _]%list_elem_of_In%List.filter_In).
  by apply list_elem_of_fmap_2, list_elem_of_In.
Qed.

Lemma Forall_list_filter {A} (P : A -> Prop) (f : A -> bool) (l : list A) :
  Forall P l -> Forall P (List.filter f l).
Proof. induction 1; cbn; [constructor|]. case_match; [by constructor|done]. Qed.

Lemma all_events_for_spec s r kind : agrees s r ->
  exists events, all_events_for s kind = Ok events /\
    events ≡ₚ List.filter (fun event => home (imr_items r) (mev_memory_id event) == Some kind) (imr_events r).
Proof.
  intros Hag. unfold all_events_for. rewrite (ag_events _ _ Hag).
  pose proof (ag_well_formed _ _ Hag) as Hwf. apply scan_table.
  - apply NoDup_filter_ids, (wf_event_ids _ Hwf).
  - apply Forall_list_filter. eapply Forall_impl; [apply (wf_events _ Hwf)|].
    intros event [Hev _]. by apply event_row_round_trip.
Qed.

Lemma all_links_for_spec s r kind : agrees s r ->
  exists links, all_links_for s kind = Ok links /\
    links ≡ₚ List.filter (fun link => home (imr_items r) (mln_from_memory_id link) == Some kind) (imr_links r).
Proof.
  intros Hag. unfold all_links_for. rewrite (ag_links _ _ Hag). apply scan_table.
  - apply NoDup_filter_ids, (wf_link_ids _ (ag_well_formed _ _ Hag)).
  - apply Forall_list_filter, Forall_true, link_row_round_trip.
Qed.

(** Records of both databases are all records, when each has a home. *)
Lemma filter_homes {A} m (id_of : A -> string) (records : list A) :
  Forall (fun record => is_Some (m !! id_of record)) records ->
  List.filter (fun record => home m (id_of record) == Some DatabaseKind_Global) records
    ++ List.filter (fun record => home m (id_of record) == Some DatabaseKind_Workspace) records
  ≡ₚ records.
Proof.
  intros Hhome. rewrite filter_apart by (intros a ->%bool_decide_eq_true; done).
  induction Hhome as [|a l [item Ha] _ IH]; cbn; [done|].
  assert (home m (id_of a) = Some (database_for_scope (mi_scope item))) as -> by (unfold home; by rewrite Ha).
  destruct (database_for_scope (mi_scope item)); cbn; by apply perm_skip.
Qed.

Lemma list_filter_conj {A} (f g : A -> bool) l :
  List.filter f (List.filter g l) = List.filter (fun a => f a && g a) l.
Proof. induction l as [|a l IH]; cbn; [done|]. destruct (g a), (f a) eqn:Hf; cbn; rewrite ?Hf, IH; done. Qed.

Lemma list_filter_ext_in {A} (f g : A -> bool) (P : A -> Prop) l :
  Forall P l -> (forall a, P a -> f a = g a) -> List.filter f l = List.filter g l.
Proof. intros Hl Hfg. induction Hl as [|a l Ha _ IH]; cbn; [done|]. by rewrite (Hfg a Ha), IH. Qed.

Lemma sqlite_list_events_spec s r memory_id : agrees s r ->
  exists events, sqlite_list_events s memory_id = Ok events /\
    events ≡ₚ List.filter (fun event => is_none_or memory_id (fun id => mev_memory_id event == id))
                (imr_events r).
Proof.
  intros Hag. pose proof (ag_well_formed _ _ Hag) as Hwf. unfold sqlite_list_events, records_for.
  destruct memory_id as [id|]; cbn.
  - rewrite (database_for_memory_id_spec s r) by done.
    destruct (home (imr_items r) id) as [kind|] eqn:Hid; cbn.
    + destruct (all_events_for_spec s r kind Hag) as (events & -> & P). cbn. eexists. split; [done|].
      rewrite P, list_filter_conj. erewrite List.filter_ext; [reflexivity|]. intros event. cbn.
      case_bool_decide as Heq; cbn; [|done]. by rewrite Heq, bool_decide_true.
    + eexists. split; [done|].
      rewrite (list_filter_ext_in _ (fun _ => false) _ _ (wf_events _ Hwf)); [by induction (imr_events r)|].
      intros event [_ [item Hitem]]. apply bool_decide_eq_false. intros <-.
      unfold home in Hid. by rewrite Hitem in Hid.
  - destruct (all_events_for_spec s r DatabaseKind_Global Hag) as (global & -> & PG).
    destruct (all_events_for_spec s r DatabaseKind_Workspace Hag) as (workspace & -> & PW).
    cbn. eexists. split; [done|]. rewrite PG, PW, (filter_homes _ mev_memory_id); [done|].
    eapply Forall_impl; [apply (wf_events _ Hwf)|]. by intros ? [_ ?].
Qed.

(** Of one item, the store lists the links that start in the database of that item. *)
Definition link_home m (memory_id : option string) link : bool :=
  is_none_or memory_id (fun id => home m (mln_from_memory_id link) == home m id).

Lemma sqlite_list_links_spec s r memory_id : agrees s r ->
  exists links, sqlite_list_links s memory_id = Ok links /\
    links ≡ₚ List.filter (fun link => link_touches memory_id link && link_home (imr_items r) memory_id link)
               (imr_links r).
Proof.
  intros Hag. pose proof (ag_well_formed _ _ Hag) as Hwf. unfold sqlite_list_links, records_for.
  destruct memory_id as [id|]; cbn.
  - rewrite (database_for_memory_id_spec s r) by done.
    destruct (home (imr_items r) id) as [kind|] eqn:Hid; cbn.
    + destruct (all_links_for_spec s r kind Hag) as (links & -> & P). cbn. eexists. split; [done|].
      by rewrite P, list_filter_conj.
    + eexists. split; [done|].
      rewrite (list_filter_ext_in _ (fun _ => false) _ _ (wf_links _ Hwf)); [by induction (imr_links r)|].
      intros link [[item Hitem] _]. apply andb_false_iff. right. apply bool_decide_eq_false.
      unfold home. by rewrite Hitem.
  - destruct (all_links_for_spec s r DatabaseKind_Global Hag) as (global & -> & PG).
    destruct (all_links_for_spec s r DatabaseKind_Workspace Hag) as (workspace & -> & PW).
    cbn. eexists. split; [done|]. rewrite PG, PW, (filter_homes _ mln_from_memory_id); [done|].
    eapply Forall_impl; [apply (wf_links _ Hwf)|]. by intros ? [? _].
Qed.

(** ** Writes *)
Lemma item_table_insert kind m item :
  (forall old, m !! mi_id item = Some old -> mi_scope old = mi_scope item) ->
  item_table kind (<[mi_id item := item]> m) =
    if kind == database_for_scope (mi_scope item)
    then <[mi_id item := item_row item]> (item_table kind m) else item_table kind m.
Proof.
  intros Hsame. apply map_eq. intros id. rewrite lookup_item_table.
  destruct (decide (mi_id item = id)) as [<-|Hne].
  - rewrite lookup_insert_eq. cbn. case_bool_decide as Hk.
    + by rewrite bool_decide_true, lookup_insert_eq.
    + rewrite bool_decide_false by congruence. rewrite lookup_item_table.
      destruct (m !! mi_id item) as [old|] eqn:Hold; cbn; [|done].
      by rewrite (Hsame old eq_refl), bool_decide_false.
  - rewrite lookup_insert_ne by done. case_bool_decide; rewrite ?lookup_insert_ne by done;
      by rewrite lookup_item_table.
Qed.

Lemma home_insert m item id :
  (forall old, m !! mi_id item = Some old -> mi_scope old = mi_scope item) -> is_Some (m !! id) ->
  home (<[mi_id item := item]> m) id = home m id.
Proof.
  intros Hsame [item' Hid]. unfold home. destruct (decide (mi_id item = id)) as [<-|Hne].
  - rewrite lookup_insert_eq, Hid. cbn. by rewrite (Hsame _ Hid).
  - by rewrite lookup_insert_ne.
Qed.

Lemma is_Some_insert m item id : is_Some (m !! id) -> is_Some (<[mi_id item := item]> m !! id).
Proof. intros Hid. destruct (decide (mi_id item = id)) as [<-|]; [by rewrite lookup_insert_eq|by rewrite lookup_insert_ne]. Qed.
Local Hint Resolve is_Some_insert : core.

Lemma well_formed_upsert r item :
  well_formed r -> item_ok item -> well_formed (in_memory_upsert_item item r).2.
Proof.
  intros [Hitems Heids Hevents Hlids Hlinks] Hok. split; cbn; [|done| |done|].
  - intros id item'. rewrite lookup_insert_Some. intros [[<- <-]|[Hne Hitem']]; auto.
  - eapply Forall_impl; [exact Hevents|]. intros event [? ?]. auto.
  - eapply Forall_impl; [exact Hlinks|]. intros link [? ?]. auto.
Qed.

Lemma agrees_upsert_item s r item :
  agrees s r -> item_ok item ->
  (forall old, imr_items r !! mi_id item = Some old -> mi_scope old = mi_scope item) ->
  agrees (sqlite_upsert_item item s).2 (in_memory_upsert_item item r).2.
Proof.
  intros Hag Hok Hsame. pose proof (ag_well_formed _ _ Hag) as Hwf.
  split; [by apply well_formed_upsert| | |]; intros kind; cbn; rewrite connection_for_with.
  - rewrite item_table_insert by done.
    case_bool_decide as Hk; [subst kind; cbn|]; by rewrite (ag_items _ _ Hag).
  - transitivity (cn_memory_events (connection_for s kind)); [by case_bool_decide; [subst kind|]|].
    rewrite (ag_events _ _ Hag). unfold event_table.
    erewrite (list_filter_ext_in _ _ _ _ (wf_events _ Hwf)); [reflexivity|].
    intros event [_ Hev]. cbn. by rewrite home_insert.
  - transitivity (cn_memory_links (connection_for s kind)); [by case_bool_decide; [subst kind|]|].
    rewrite (ag_links _ _ Hag). unfold link_table.
    erewrite (list_filter_ext_in _ _ _ _ (wf_links _ Hwf)); [reflexivity|].
    intros link [Hln _]. cbn. by rewrite home_insert.
Qed.

Lemma list_to_map_filter_snoc {A B} (f : A -> bool) (id_of : A -> string) (row_of : A -> B) l a :
  id_of a ∉ id_of <$> l ->
  list_to_map ((fun x => (id_of x, row_of x)) <$> List.filter f (l ++ [a])) =
    (if f a then <[id_of a := row_of a]> else id)
      (list_to_map ((fun x => (id_of x, row_of x)) <$> List.filter f l) : gmap string B).
Proof.
  intros Hfresh. rewrite List.filter_app, fmap_app. cbn. destruct (f a); cbn; [|by rewrite app_nil_r].
  apply list_to_map_snoc. rewrite <- list_fmap_compose. contradict Hfresh.
  apply list_elem_of_fmap in Hfresh as (b & Hb & [Hin _]%list_elem_of_In%List.filter_In). cbn in Hb.
  rewrite Hb. by apply list_elem_of_fmap_2, list_elem_of_In.
Qed.

Lemma NoDup_snoc_ids {A} (id_of : A -> string) l a :
  NoDup (id_of <$> l) -> id_of a ∉ id_of <$> l -> NoDup (id_of <$> l ++ [a]).
Proof.
  intros Hl Ha. rewrite fmap_app. apply NoDup_app. split_and!; [done| |apply NoDup_singleton].
  intros id Hid Hid'%list_elem_of_singleton. by subst.
Qed.

Lemma agrees_append_event s r event :
  agrees s r -> event_storable event -> is_Some (imr_items r !! mev_memory_id event) ->
  mev_id event ∉ mev_id <$> imr_events r ->
  (sqlite_append_event event s).1 = Ok tt /\
  agrees (sqlite_append_event event s).2 (in_memory_append_event event r).2.
Proof.
  intros Hag Hstorable Hitem Hfresh. pose proof (ag_well_formed _ _ Hag) as [Hi Heids Hev Hlids Hln].
  unfold sqlite_append_event, upsert_event. rewrite (database_for_memory_id_spec s r) by done.
  assert (exists kind, home (imr_items r) (mev_memory_id event) = Some kind) as [kind Hkind].
  { destruct Hitem as [item Hitem]. unfold home. rewrite Hitem. by eexists. }
  rewrite Hkind. cbn. split; [done|]. split; [| | |]; cbn.
  - split; cbn; [done|by apply NoDup_snoc_ids| |done..]. apply Forall_app. by split; [|repeat constructor].
  - intros kind'. rewrite connection_for_with, <- (ag_items _ _ Hag). by case_bool_decide; [subst|].
  - intros kind'. rewrite connection_for_with. unfold event_table. rewrite list_to_map_filter_snoc by done.
    rewrite Hkind. repeat case_bool_decide; simplify_eq; cbn; by rewrite (ag_events _ _ Hag).
  - intros kind'. rewrite connection_for_with, <- (ag_links _ _ Hag). by case_bool_decide; [subst|].
Qed.

Lemma replace_link_fresh link links :
  mln_id link ∉ mln_id <$> links -> replace_link link links = links ++ [link].
Proof.
  induction links as [|other links IH]; cbn; [done|]. intros [Hne Hin]%not_elem_of_cons.
  rewrite bool_decide_false by congruence. by rewrite IH.
Qed.

Lemma agrees_upsert_link s r link :
  agrees s r -> is_Some (imr_items r !! mln_from_memory_id link) ->
  is_Some (imr_items r !! mln_to_memory_id link) -> mln_id link ∉ mln_id <$> imr_links r ->
  (sqlite_upsert_link link s).1 = Ok tt /\
  agrees (sqlite_upsert_link link s).2 (in_memory_upsert_link link r).2.
Proof.
  intros Hag Hfrom Hto Hfresh. pose proof (ag_well_formed _ _ Hag) as [Hi Heids Hev Hlids Hln].
  unfold sqlite_upsert_link. rewrite (database_for_memory_id_spec s r) by done.
  assert (exists kind, home (imr_items r) (mln_from_memory_id link) = Some kind) as [kind Hkind].
  { destruct Hfrom as [item Hitem]. unfold home. rewrite Hitem. by eexists. }
  rewrite Hkind. cbn. split; [done|]. unfold in_memory_upsert_link. rewrite replace_link_fresh by done.
  split; [| | |]; cbn.
  - split; cbn; [done..|by apply NoDup_snoc_ids|]. apply Forall_app. by split; [|repeat constructor].
  - intros kind'. rewrite connection_for_with, <- (ag_items _ _ Hag). by case_bool_decide; [subst|].
  - intros kind'. rewrite connection_for_with, <- (ag_events _ _ Hag). by case_bool_decide; [subst|].
  - intros kind'. rewrite connection_for_with. unfold link_table. rewrite list_to_map_filter_snoc by done.
    rewrite Hkind. repeat case_bool_decide; simplify_eq; cbn; by rewrite (ag_links _ _ Hag).
Qed.

(** ** Both repositories read their items back *)
Context `{Lowercase}.

#[export] Instance sqlite_reads : MemoryReads SqliteMemoryStore.
Proof.
  refine {| holds := fun s m => exists r, agrees s r /\ imr_items r = m |}.
  - intros s m id (r & Hag & <-). by apply sqlite_get_item_spec.
  - intros s m query (r & Hag & <-) Hsearch. by apply sqlite_list_items_spec.
Defined.

#[export] Instance in_memory_reads : MemoryReads InMemoryMemoryRepository.
Proof.
  refine {| holds := fun r m => imr_items r = m |}.
  - by intros r m id <-.
  - intros r m query <- Hsearch. eexists. split; [done|]. split; [apply sort_items_order|].
    rewrite sort_items_permutation. by rewrite btree_list_permutation.
Defined.
End Agreement.

(** ** Sessions of the service *)
Inductive MemoryCommand :=
| Command_Remember (input : RememberMemoryInput) (clock : Clock)
| Command_Forget (id : string) (reason : option string) (clock : Clock)
| Command_Restore (id : string) (reason : option string) (clock : Clock)
| Command_Promote (input : PromoteMemoryInput) (clock : Clock)
| Command_Link (from_memory_id to_memory_id : string) (relation : MemoryLinkRelation) (clock : Clock).

Section Sessions.
Context {R : Type} `{MemoryRepository R}.

Definition map_answer {A B} (f : A -> B) (answer : MemoryResult A * R) : MemoryResult B * R :=
  (result_map f answer.1, answer.2).
Definition run_command (command : MemoryCommand) (r : R) : MemoryResult (MemoryItem + MemoryLink) * R :=
  match command with
  | Command_Remember input clock => map_answer inl (remember input clock r)
  | Command_Forget id reason clock => map_answer inl (forget id reason clock r)
  | Command_Restore id reason clock => map_answer inl (restore id reason clock r)
  | Command_Promote input clock => map_answer inl (promote input clock r)
  | Command_Link from_memory_id to_memory_id relation clock =>
      map_answer inr (link_items from_memory_id to_memory_id relation clock r)
  end.
Fixpoint run_commands (commands : list MemoryCommand) (r : R)
    : list (MemoryResult (MemoryItem + MemoryLink)) * R :=
  match commands with
  | [] => ([], r)
  | command :: rest =>
      let (answer, r') := run_command command r in
      let (answers, r'') := run_commands rest r' in
      (answer :: answers, r'')
  end.
End Sessions.

(** The ids a command draws are new and its texts are storable. *)
Definition fresh_item r (id : string) : bool := bool_decide (imr_items r !! id = None).
Definition fresh_event r (id : string) : bool := bool_decide (id ∉ mev_id <$> imr_events r).
Definition fresh_link r (id : string) : bool := bool_decide (id ∉ mln_id <$> imr_links r).
Definition command_ok r (command : MemoryCommand) : bool :=
  match command with
  | Command_Remember input clock =>
      (rmi_origin_pack input != Some "")
      && fresh_item r (new_id "mem" (ck_nanos clock) (ck_pid clock))
      && fresh_event r (new_id "evt" (ck_later_nanos clock) (ck_pid clock))
  | Command_Forget _ reason clock | Command_Restore _ reason clock =>
      (reason != Some "") && fresh_event r (new_id "evt" (ck_nanos clock) (ck_pid clock))
  | Command_Promote input clock =>
      (pmi_reason input != Some "")
      && fresh_item r (new_id "mem" (ck_nanos clock) (ck_pid clock))
      && fresh_event r (new_id "evt" (ck_later_nanos clock) (ck_pid clock))
      && fresh_event r (new_id "evt" (ck_last_nanos clock) (ck_pid clock))
      && (new_id "evt" (ck_later_nanos clock) (ck_pid clock)
          != new_id "evt" (ck_last_nanos clock) (ck_pid clock))
  | Command_Link _ _ _ clock => fresh_link r (new_id "lnk" (ck_nanos clock) (ck_pid clock))
  end.

Section Refinement.
Context `{MemoryHostLaws, Lowercase}.

(** An operation on the store and one on the reference answer alike, and leave states
    that agree. *)
Definition simulates {A} (ms : MemoryResult A * SqliteMemoryStore)
    (mr : MemoryResult A * InMemoryMemoryRepository) : Prop :=
  ms.1 = mr.1 /\ agrees ms.2 mr.2.

Fixpoint session_ok r (commands : list MemoryCommand) : bool :=
  match commands with
  | [] => true
  | command :: rest => command_ok r command && session_ok (run_command command r).2 rest
  end.

Lemma simulates_bind {A B} (ms : StateM SqliteMemoryStore MemoryError A) mr
    (ks : A -> StateM SqliteMemoryStore MemoryError B) kr s r :
  simulates (ms s) (mr r) ->
  (forall a s' r', ms s = (Ok a, s') -> mr r = (Ok a, r') -> agrees s' r' -> simulates (ks a s') (kr a r')) ->
  simulates (mem_bind ms ks s) (mem_bind mr kr r).
Proof.
  unfold simulates, mem_bind. intros [Hans Hag] Hk.
  destruct (ms s) as [[a|e] s'], (mr r) as [[a'|e'] r']; cbn in *; simplify_eq; auto.
Qed.

Lemma simulates_ret {A} (a : MemoryResult A) s r : agrees s r -> simulates (mem_lift a s) (mem_lift a r).
Proof. done. Qed.

Lemma simulates_require s r id : agrees s r -> simulates (require_item id s) (require_item id r).
Proof.
  intros Hag. unfold require_item, mem_bind, get_item. cbn.
  rewrite (sqlite_get_item_spec s r) by done. unfold in_memory_get_item.
  by destruct (imr_items r !! id).
Qed.

Lemma require_item_ok r r' id item :
  require_item id r = (Ok item, r') -> imr_items r !! id = Some item /\ r' = r.
Proof.
  unfold require_item, mem_bind. cbn. unfold in_memory_get_item.
  destruct (imr_items r !! id); cbn; unfold mem_ret, mem_lift; naive_solver.
Qed.

Lemma simulates_upsert s r item :
  agrees s r -> item_ok item ->
  (forall old, imr_items r !! mi_id item = Some old -> mi_scope old = mi_scope item) ->
  simulates (upsert_item item s) (upsert_item item r).
Proof. intros. split; [done|]. by apply agrees_upsert_item. Qed.

Lemma simulates_append s r event :
  agrees s r -> event_storable event -> is_Some (imr_items r !! mev_memory_id event) ->
  mev_id event ∉ mev_id <$> imr_events r ->
  simulates (append_event event s) (append_event event r).
Proof. intros. by apply agrees_append_event. Qed.

Lemma simulates_link s r link :
  agrees s r -> is_Some (imr_items r !! mln_from_memory_id link) ->
  is_Some (imr_items r !! mln_to_memory_id link) -> mln_id link ∉ mln_id <$> imr_links r ->
  simulates (upsert_link link s) (upsert_link link r).
Proof. intros. by apply agrees_upsert_link. Qed.

Lemma simulates_map {A B} (f : A -> B) ms mr : simulates ms mr -> simulates (map_answer f ms) (map_answer f mr).
Proof. unfold simulates, map_answer. cbn. intros [-> ?]. done. Qed.

Lemma simulates_remember s r input clock :
  agrees s r -> command_ok r (Command_Remember input clock) = true ->
  simulates (remember input clock s) (remember input clock r).
Proof.
  intros Hag Hok. cbn in Hok. unfold fresh_item, fresh_event in Hok. bool_simp.
  unfold remember. apply simulates_bind; [by apply simulates_ret|].
  intros key s' r' [= _ <-] [= _ <-] _. apply simulates_bind.
  - apply simulates_upsert; [done| |intros old; cbn; congruence].
    unfold item_ok, item_storable, storable. cbn. split_and!; (done || congruence).
  - intros [] s1 r1 _ [= <-] Hag1. apply simulates_bind; [|by intros [] s2 r2 _ _ Hag2].
    apply simulates_append; [done..| |done]. cbn. by rewrite lookup_insert_eq.
Qed.

Lemma simulates_set_status s r status action id reason clock :
  agrees s r -> command_ok r (Command_Forget id reason clock) = true ->
  simulates (set_status status action id reason clock s) (set_status status action id reason clock r).
Proof.
  intros Hag Hok. cbn in Hok. unfold fresh_event in Hok. bool_simp.
  unfold set_status. apply simulates_bind; [by apply simulates_require|].
  intros item s' r' _ [Hitem ->]%require_item_ok Hag'.
  destruct (wf_items _ (ag_well_formed _ _ Hag) _ _ Hitem) as (Hid & Hne & Hst).
  apply simulates_bind.
  - apply simulates_upsert; [done|by unfold item_ok|]. cbn. intros old. rewrite Hid. congruence.
  - intros [] s1 r1 _ [= <-] Hag1. apply simulates_bind; [|by intros [] s2 r2 _ _ Hag2].
    apply simulates_append; [done..| |done]. cbn. by rewrite lookup_insert_eq.
Qed.

Lemma simulates_promote s r input clock :
  agrees s r -> command_ok r (Command_Promote input clock) = true ->
  simulates (promote input clock s) (promote input clock r).
Proof.
  intros Hag Hok. cbn in Hok. unfold fresh_item, fresh_event in Hok. bool_simp.
  unfold promote. apply simulates_bind; [by apply simulates_require|].
  intros item s' r' _ [Hitem ->]%require_item_ok Hag'.
  destruct (wf_items _ (ag_well_formed _ _ Hag) _ _ Hitem) as (Hid & Hne & Hs1 & Hs2 & Hs3).
  apply simulates_bind; [by apply simulates_ret|]. intros key s0 r0 [= _ <-] [= _ <-] _.
  apply simulates_bind.
  - apply simulates_upsert; [done| |intros old; cbn; congruence].
    unfold item_ok, item_storable, storable. cbn. split_and!; (done || congruence).
  - intros [] s1 r1 _ [= <-] Hag1. apply simulates_bind.
    { apply simulates_append; [done..| |done]. cbn. rewrite Hid. apply is_Some_insert. by eexists. }
    intros [] s2 r2 _ [= <-] Hag2. apply simulates_bind; [|by intros [] s3 r3 _ _ Hag3].
    apply simulates_append; [done..| |]; cbn; [by rewrite lookup_insert_eq|].
    rewrite fmap_app. intros [?|?%list_elem_of_singleton]%elem_of_app; (done || congruence).
Qed.

Lemma simulates_link_items s r from to relation clock :
  agrees s r -> command_ok r (Command_Link from to relation clock) = true ->
  simulates (link_items from to relation clock s) (link_items from to relation clock r).
Proof.
  intros Hag Hok. cbn in Hok. unfold fresh_link in Hok. bool_simp.
  unfold link_items. apply simulates_bind; [by apply simulates_require|].
  intros item s' r' _ [Hitem ->]%require_item_ok Hag'. apply simulates_bind; [by apply simulates_require|].
  intros item' s'' r'' _ [Hitem' ->]%require_item_ok Hag''.
  apply simulates_bind; [|by intros [] s3 r3 _ _ Hag3].
  apply simulates_link; by eauto.
Qed.

Lemma simulates_command s r command :
  agrees s r -> command_ok r command = true -> simulates (run_command command s) (run_command command r).
Proof.
  intros Hag Hok. destruct command; cbn [run_command]; apply simulates_map.
  - by apply simulates_remember.
  - by apply simulates_set_status.
  - by apply simulates_set_status.
  - by apply simulates_promote.
  - by apply simulates_link_items.
Qed.

Lemma simulates_commands commands s r :
  agrees s r -> session_ok r commands = true ->
  (run_commands commands s).1 = (run_commands commands r).1 /\
  agrees (run_commands commands s).2 (run_commands commands r).2.
Proof.
  revert s r. induction commands as [|command commands IH]; intros s r Hag Hok; cbn; [done|].
  cbn in Hok. apply andb_true_iff in Hok as [Hcommand Hok].
  destruct (simulates_command s r command Hag Hcommand) as [Hans Hag'].
  destruct (run_command command s) as [answer s'], (run_command command r) as [answer' r']. cbn in *. subst.
  destruct (IH s' r' Hag' Hok) as [Hans Hag''].
  destruct (run_commands commands s') as [answers s''], (run_commands commands r') as [answers' r''].
  cbn in *. by subst.
Qed.
End Refinement.
