(* ===== verification/MemoryTheorems.v ===== *)
(** * Theorems about the memory store

    Sessions of the service on the SQLite store and on the in-memory repository agree;
    a complete export rebuilds the store; and two ways in which the split into two
    databases breaks links. *)
From S2P Require Import Prelude RustStr Memory MemoryStore MemorySpec MemoryRefine.
From stdpp Require Import base list gmap strings pretty sorting.

#[local] Open Scope string_scope.
#[local] Open Scope list_scope.
#[local] Open Scope Z_scope.

Implicit Types (r : InMemoryMemoryRepository) (s : SqliteMemoryStore) (kind : DatabaseKind)
  (item : MemoryItem) (event : MemoryEvent) (link : MemoryLink) (query : MemoryQuery)
  (commands : list MemoryCommand) (paths : StoragePaths).

Definition empty_repository : InMemoryMemoryRepository :=
  {| imr_items := ∅; imr_events := []; imr_links := [] |}.
Definition empty_store paths : SqliteMemoryStore :=
  {| sms_paths := paths; sms_global_connection := empty_connection;
     sms_workspace_connection := empty_connection |}.

Section Theorems.
Context `{MemoryHostLaws, Lowercase}.

Lemma agrees_empty paths : agrees (empty_store paths) empty_repository.
Proof.
  split; [|by intros []..]. split; cbn; [|constructor..]. intros id item. by rewrite lookup_empty.
Qed.

(** The store and the reference after a session. *)
Definition store_after paths commands : SqliteMemoryStore := (run_commands commands (empty_store paths)).2.
Definition reference_after commands : InMemoryMemoryRepository := (run_commands commands empty_repository).2.

Lemma agrees_after paths commands :
  session_ok empty_repository commands = true -> agrees (store_after paths commands) (reference_after commands).
Proof. intros Hok. by apply simulates_commands; [apply agrees_empty|]. Qed.

(** C33. Every session of the service, in which the ids drawn are new and no optional
    text is empty, is answered by the SQLite store exactly as by the in-memory
    repository.  Afterwards each id reads as the same item; each listing without a
    search text has the same items, and place by place the same scope priority,
    update time and title, so that only items equal in all three may be swapped; and
    the events of all items or of one, and the links of the whole store, are the same
    up to order.  Searches are left out: FTS5 and the substring test of the reference
    answer differently. *)
Theorem sqlite_refines_in_memory paths commands :
  session_ok empty_repository commands = true ->
  let s := store_after paths commands in
  let r := reference_after commands in
  (run_commands commands (empty_store paths)).1 = (run_commands commands empty_repository).1 /\
  (forall id, get_item s id = get_item r id) /\
  (forall query, mq_search_text query = None ->
     exists items items', list_items s query = Ok items /\ list_items r query = Ok items' /\
       in_order items /\ in_order items' /\ items ≡ₚ items' /\
       (sort_key <$> items) = (sort_key <$> items')) /\
  (forall memory_id, exists events events',
     list_events s memory_id = Ok events /\ list_events r memory_id = Ok events' /\ events ≡ₚ events') /\
  exists links links', list_links s None = Ok links /\ list_links r None = Ok links' /\ links ≡ₚ links'.
Proof.
  intros Hok s r. pose proof (agrees_after paths commands Hok) as Hag. fold s r in Hag.
  split; [by apply simulates_commands; [apply agrees_empty|]|]. split_and!.
  - intros id. by apply sqlite_get_item_spec.
  - intros query Hsearch. destruct (sqlite_list_items_spec s r query Hag Hsearch) as (items & ? & ? & ?).
    destruct (list_items_holds (MemoryReads := in_memory_reads) r (imr_items r) query eq_refl Hsearch) as (items' & ? & ? & Hperm).
    assert (items ≡ₚ items') by (by rewrite Hperm).
    exists items, items'. split_and!; try done. by apply same_order.
  - intros memory_id. destruct (sqlite_list_events_spec s r memory_id Hag) as (events & ? & ?).
    eexists _, _. split_and!; done.
  - destruct (sqlite_list_links_spec s r None Hag) as (links & ? & Hperm).
    eexists _, _. split_and!; [done..|]. rewrite Hperm. cbn.
    erewrite List.filter_ext; [reflexivity|done].
Qed.

(** ** Links across the databases *)
Lemma elem_of_list_filter {A} (f : A -> bool) l a : a ∈ List.filter f l <-> a ∈ l /\ f a = true.
Proof. by rewrite !list_elem_of_In, List.filter_In. Qed.

(** C36. A link between items of different databases is one-sided.  The store lists it
    for its source; for its target it never does, though the link touches it and the
    in-memory repository lists it: the links of one item are read from the database
    of that item, and a link is stored in the database of its source. *)
Theorem cross_scope_links_are_one_sided paths commands link source target :
  session_ok empty_repository commands = true ->
  link ∈ imr_links (reference_after commands) ->
  get_item (store_after paths commands) (mln_from_memory_id link) = Ok (Some source) ->
  get_item (store_after paths commands) (mln_to_memory_id link) = Ok (Some target) ->
  database_for_scope (mi_scope source) <> database_for_scope (mi_scope target) ->
  exists of_source of_target of_target',
    links (store_after paths commands) (Some (mln_from_memory_id link)) = Ok of_source /\ link ∈ of_source /\
    links (store_after paths commands) (Some (mln_to_memory_id link)) = Ok of_target /\ link ∉ of_target /\
    links (reference_after commands) (Some (mln_to_memory_id link)) = Ok of_target' /\ link ∈ of_target'.
Proof.
  intros Hok Hlink. pose proof (agrees_after paths commands Hok) as Hag. cbn.
  rewrite !(sqlite_get_item_spec _ _ _ Hag). intros [= Hsource] [= Htarget] Hapart.
  destruct (sqlite_list_links_spec _ _ (Some (mln_from_memory_id link)) Hag) as (ls & Hls & Ps).
  destruct (sqlite_list_links_spec _ _ (Some (mln_to_memory_id link)) Hag) as (lt & Hlt & Pt).
  exists ls, lt. eexists. split_and!; [exact Hls| |exact Hlt| |reflexivity|].
  - rewrite Ps, elem_of_list_filter. cbn. rewrite andb_true_iff, orb_true_iff, !bool_decide_eq_true. auto.
  - rewrite Pt, elem_of_list_filter. cbn. intros [_ [_ Hhome%bool_decide_eq_true]%andb_true_iff].
    unfold home in Hhome. rewrite Hsource, Htarget in Hhome. cbn in Hhome. congruence.
  - rewrite elem_of_list_filter. cbn. rewrite orb_true_iff, !bool_decide_eq_true. auto.
Qed.

(** ** Export and import *)

(** Reads by id depend on the item tables only. *)
Lemma database_for_memory_id_ext s s' id :
  (forall kind, cn_memory_items (connection_for s kind) = cn_memory_items (connection_for s' kind)) ->
  database_for_memory_id s id = database_for_memory_id s' id.
Proof.
  intros Hext. unfold database_for_memory_id, exists_in_connection.
  by rewrite (Hext DatabaseKind_Global : cn_memory_items (sms_global_connection s) = _),
    (Hext DatabaseKind_Workspace : cn_memory_items (sms_workspace_connection s) = _).
Qed.

Lemma sqlite_get_item_ext s s' id :
  (forall kind, cn_memory_items (connection_for s kind) = cn_memory_items (connection_for s' kind)) ->
  sqlite_get_item s id = sqlite_get_item s' id.
Proof.
  intros Hext. unfold sqlite_get_item, load_item_from_connection.
  rewrite (database_for_memory_id_ext s s') by done. case_match; [|done]. by rewrite Hext.
Qed.

Definition by_id (items : list MemoryItem) : gmap string MemoryItem :=
  list_to_map ((fun item => (mi_id item, item)) <$> items).

Lemma write_items items s r :
  agrees s r -> Forall item_ok items -> NoDup (mi_id <$> items) ->
  Forall (fun item => imr_items r !! mi_id item = None) items ->
  exists s', write_all (fun item => storing (upsert_item item)) items s = (Ok tt, s') /\
    agrees s' {| r with imr_items := by_id items ∪ imr_items r |}.
Proof.
  revert s r. induction items as [|item items IH]; intros s r Hag Hok Hids Hfresh; cbn.
  { exists s. split; [done|]. unfold by_id. cbn. rewrite (left_id_L ∅ (∪)). by destruct r. }
  apply Forall_cons in Hok as [Hitem Hok]. apply Forall_cons in Hfresh as [Hnew Hfresh].
  cbn in Hids. apply NoDup_cons in Hids as [Hnotin Hids].
  assert (Hnext : agrees (sqlite_upsert_item item s).2 (in_memory_upsert_item item r).2)
    by (apply agrees_upsert_item; [done..|congruence]).
  destruct (IH _ _ Hnext Hok Hids) as (s' & Hs' & Hag').
  { rewrite Forall_forall in Hfresh |- *. intros other Hin. cbn. rewrite lookup_insert_ne; [auto|].
    intros Heq. apply Hnotin. rewrite Heq. by apply list_elem_of_fmap_2. }
  exists s'. split; [exact Hs'|]. cbn in Hag'. unfold by_id in *. cbn.
  rewrite <- insert_union_l, insert_union_r; [exact Hag'|].
  apply not_elem_of_list_to_map_1. by rewrite <- list_fmap_compose.
Qed.

Lemma write_events events s r :
  agrees s r -> Forall (fun event => event_storable event /\ is_Some (imr_items r !! mev_memory_id event)) events ->
  NoDup (mev_id <$> imr_events r ++ events) ->
  exists s', write_all upsert_event events s = (Ok tt, s') /\
    agrees s' {| r with imr_events := imr_events r ++ events |}.
Proof.
  revert s r. induction events as [|event events IH]; intros s r Hag Hok Hids; cbn.
  { exists s. split; [done|]. rewrite app_nil_r. by destruct r. }
  apply Forall_cons in Hok as [[Hst Hitem] Hok].
  assert (Hfresh : mev_id event ∉ mev_id <$> imr_events r).
  { rewrite fmap_app in Hids. apply NoDup_app in Hids as (_ & Hapart & _). intros Hin.
    apply (Hapart _ Hin). cbn. left. }
  destruct (agrees_append_event s r event Hag Hst Hitem Hfresh) as [Hans Hnext].
  unfold sqlite_append_event in Hans, Hnext. unfold mem_bind.
  destruct (upsert_event event s) as [[[]|e] s1]; [|done].
  destruct (IH _ _ Hnext Hok) as (s' & Hs' & Hag'); [cbn; by rewrite <- (assoc_L (++))|].
  exists s'. split; [exact Hs'|]. cbn in Hag'. by rewrite <- (assoc_L (++)) in Hag'.
Qed.

Lemma write_links links s r :
  agrees s r ->
  Forall (fun link => is_Some (imr_items r !! mln_from_memory_id link) /\
                      is_Some (imr_items r !! mln_to_memory_id link)) links ->
  NoDup (mln_id <$> imr_links r ++ links) ->
  exists s', write_all (fun link => storing (upsert_link link)) links s = (Ok tt, s') /\
    agrees s' {| r with imr_links := imr_links r ++ links |}.
Proof.
  revert s r. induction links as [|link links IH]; intros s r Hag Hok Hids; cbn.
  { exists s. split; [done|]. rewrite app_nil_r. by destruct r. }
  apply Forall_cons in Hok as [[Hfrom Hto] Hok].
  assert (Hfresh : mln_id link ∉ mln_id <$> imr_links r).
  { rewrite fmap_app in Hids. apply NoDup_app in Hids as (_ & Hapart & _). intros Hin.
    apply (Hapart _ Hin). cbn. left. }
  destruct (agrees_upsert_link s r link Hag Hfrom Hto Hfresh) as [Hans Hnext].
  unfold mem_bind, storing. cbn. destruct (sqlite_upsert_link link s) as [[[]|e] s1]; [|done]. cbn.
  unfold in_memory_upsert_link in Hnext. rewrite replace_link_fresh in Hnext by done.
  destruct (IH _ _ Hnext Hok) as (s' & Hs' & Hag'); [cbn; by rewrite <- (assoc_L (++))|].
  exists s'. split; [exact Hs'|]. cbn in Hag'. by rewrite <- (assoc_L (++)) in Hag'.
Qed.

(** What an export holds of a store that agrees with [r]. *)
Definition selected r query : list MemoryItem := List.filter (matches query) (map_values (imr_items r)).
Definition touches_selection (items : list MemoryItem) link : bool :=
  bool_decide (mln_from_memory_id link ∈ mi_id <$> items)
  || bool_decide (mln_to_memory_id link ∈ mi_id <$> items).

Lemma export_bundle_spec s r query :
  agrees s r -> mq_search_text query = None ->
  exists bundle, export_bundle s query = Ok bundle /\
    meb_items bundle ≡ₚ selected r query /\
    meb_events bundle ≡ₚ List.filter (fun event => bool_decide (mev_memory_id event ∈ mi_id <$> meb_items bundle))
                           (imr_events r) /\
    meb_links bundle ≡ₚ List.filter (touches_selection (meb_items bundle)) (imr_links r).
Proof.
  intros Hag Hsearch. unfold export_bundle. cbn.
  destruct (sqlite_list_items_spec s r query Hag Hsearch) as (items & -> & _ & Pi).
  destruct (sqlite_list_events_spec s r None Hag) as (events & -> & Pe).
  destruct (sqlite_list_links_spec s r None Hag) as (links & -> & Pl). cbn in *.
  eexists. split; [done|]. cbn. split; [done|]. split.
  - rewrite Pe, list_filter_conj. erewrite List.filter_ext; [reflexivity|]. intros. by rewrite andb_true_r.
  - rewrite Pl, list_filter_conj. erewrite List.filter_ext; [reflexivity|]. intros. by rewrite andb_true_r.
Qed.

Lemma values_by_key r : well_formed r ->
  (fun item => (mi_id item, item)) <$> map_values (imr_items r) = map_to_list (imr_items r).
Proof.
  intros Hwf. unfold map_values. rewrite <- list_fmap_compose. rewrite <- (list_fmap_id (map_to_list _)) at 2.
  apply list_fmap_ext. intros i [id item] Hi. cbn.
  apply list_elem_of_lookup_2, elem_of_map_to_list, (wf_items _ Hwf) in Hi as [-> _]. done.
Qed.

Lemma values_ids r : well_formed r -> NoDup (mi_id <$> map_values (imr_items r)).
Proof.
  intros Hwf. pose proof (NoDup_fst_map_to_list (imr_items r)) as Hnd.
  rewrite <- (values_by_key r Hwf), <- list_fmap_compose in Hnd. exact Hnd.
Qed.

Lemma selected_ids r query items :
  well_formed r -> items ≡ₚ selected r query -> NoDup (mi_id <$> items).
Proof. intros Hwf ->. by apply NoDup_filter_ids, values_ids. Qed.

Lemma selected_ok r query items : well_formed r -> items ≡ₚ selected r query -> Forall item_ok items.
Proof.
  intros Hwf ->. apply Forall_list_filter, Forall_forall. intros item Hin.
  apply list_elem_of_fmap in Hin as ([id item'] & -> & Hid%elem_of_map_to_list).
  by apply (wf_items _ Hwf) in Hid as [_ ?].
Qed.

Lemma is_Some_by_id items id : is_Some (by_id items !! id) <-> id ∈ mi_id <$> items.
Proof.
  unfold by_id. rewrite <- not_eq_None_Some, <- not_elem_of_list_to_map, <- list_fmap_compose. cbn.
  destruct (decide (id ∈ mi_id <$> items)); tauto.
Qed.

(** Items and events of an export can always be written to an empty store. *)
Lemma import_items_events s r query bundle paths :
  agrees s r -> mq_search_text query = None -> export_bundle s query = Ok bundle ->
  exists s1 s2,
    write_all (fun item => storing (upsert_item item)) (meb_items bundle) (empty_store paths) = (Ok tt, s1) /\
    write_all upsert_event (meb_events bundle) s1 = (Ok tt, s2) /\
    agrees s2 {| imr_items := by_id (meb_items bundle); imr_events := meb_events bundle; imr_links := [] |}.
Proof.
  intros Hag Hsearch Hexport. pose proof (ag_well_formed _ _ Hag) as Hwf.
  destruct (export_bundle_spec s r query Hag Hsearch) as (bundle' & Hbundle & Pi & Pe & _).
  rewrite Hexport in Hbundle. injection Hbundle as <-.
  destruct (write_items (meb_items bundle) (empty_store paths) empty_repository) as (s1 & Hs1 & Hag1);
    [apply agrees_empty|by eapply selected_ok|by eapply selected_ids| |].
  { apply Forall_true. intros item. apply lookup_empty. }
  cbn in Hag1. rewrite (right_id_L ∅ (∪)) in Hag1.
  destruct (write_events (meb_events bundle) s1 _ Hag1) as (s2 & Hs2 & Hag2); cbn.
  - rewrite Pe. apply Forall_forall. intros event [Hin Hsel%bool_decide_eq_true]%elem_of_list_filter.
    split; [|by apply is_Some_by_id]. pose proof (wf_events _ Hwf) as Hev. rewrite Forall_forall in Hev.
    by apply Hev in Hin as [? _].
  - rewrite Pe. apply NoDup_filter_ids, (wf_event_ids _ Hwf).
  - by exists s1, s2.
Qed.

Definition everything : MemoryQuery :=
  {| mq_scope := None; mq_scope_key := None; mq_applicable_pack := None; mq_search_text := None;
     mq_include_forgotten := true |}.

Lemma selected_everything r : selected r everything = map_values (imr_items r).
Proof. unfold selected. by induction (map_values (imr_items r)) as [|item l IH]; cbn; [|rewrite IH]. Qed.

Lemma by_id_everything r items : well_formed r -> items ≡ₚ map_values (imr_items r) -> by_id items = imr_items r.
Proof.
  intros Hwf P. unfold by_id.
  rewrite (list_to_map_proper _ (map_to_list (imr_items r))); [by rewrite list_to_map_to_list| |].
  - rewrite <- list_fmap_compose. rewrite P. by apply (values_ids r).
  - by rewrite P, values_by_key.
Qed.

Lemma filter_every {A} (f : A -> bool) (P : A -> Prop) l :
  Forall P l -> (forall a, P a -> f a = true) -> List.filter f l = l.
Proof. intros Hl Hf. induction Hl as [|a l Ha _ IH]; cbn; [done|]. by rewrite (Hf a Ha), IH. Qed.

Lemma list_table_permutation {A B} (id_of : A -> string) (row_of : A -> B) (f : A -> bool) l l' :
  NoDup (id_of <$> l) -> l' ≡ₚ l ->
  (list_to_map ((fun a => (id_of a, row_of a)) <$> List.filter f l') : gmap string B) =
  list_to_map ((fun a => (id_of a, row_of a)) <$> List.filter f l).
Proof.
  intros Hids P. apply list_to_map_proper; [|by rewrite P].
  rewrite <- list_fmap_compose. cbn. apply NoDup_filter_ids. by rewrite P.
Qed.

(** C35. A complete export restores the store: after any session, importing the export
    of everything, forgotten items included, into an empty store succeeds, reports
    the number of records written, and leaves in both databases exactly the item,
    event and link rows of the original. *)
Theorem exports_are_restored paths paths' commands :
  session_ok empty_repository commands = true ->
  let s := store_after paths commands in
  exists bundle s',
    export_bundle s everything = Ok bundle /\
    import_bundle bundle (empty_store paths') =
      (Ok {| mipr_imported_items := size (imr_items (reference_after commands));
             mipr_imported_events := length (imr_events (reference_after commands));
             mipr_imported_links := length (imr_links (reference_after commands)) |}, s') /\
    forall kind,
      cn_memory_items (connection_for s' kind) = cn_memory_items (connection_for s kind) /\
      cn_memory_events (connection_for s' kind) = cn_memory_events (connection_for s kind) /\
      cn_memory_links (connection_for s' kind) = cn_memory_links (connection_for s kind).
Proof.
  intros Hok s. pose proof (agrees_after paths commands Hok) as Hag. fold s in Hag.
  set (r := reference_after commands) in *. pose proof (ag_well_formed _ _ Hag) as Hwf.
  destruct (export_bundle_spec s r everything Hag eq_refl) as (bundle & Hexport & Pi & Pe & Pl).
  rewrite selected_everything in Pi. pose proof (by_id_everything r _ Hwf Pi) as Hitems.
  rewrite (filter_every _ _ _ (wf_events _ Hwf)) in Pe.
  2: { intros event [_ Hin]. apply bool_decide_eq_true, is_Some_by_id. by rewrite Hitems. }
  rewrite (filter_every _ _ _ (wf_links _ Hwf)) in Pl.
  2: { intros link [Hin _]. unfold touches_selection. rewrite bool_decide_true; [done|].
       apply is_Some_by_id. by rewrite Hitems. }
  destruct (import_items_events s r everything bundle paths' Hag eq_refl Hexport) as (s1 & s2 & H1' & H2' & Hag2).
  rewrite Hitems in Hag2.
  destruct (write_links (meb_links bundle) s2 _ Hag2) as (s3 & H3' & Hag3);
    [by rewrite Pl; apply (wf_links _ Hwf)|by cbn; rewrite Pl; apply (wf_link_ids _ Hwf)|].
  exists bundle, s3. split; [done|]. split.
  - unfold import_bundle, mem_bind. rewrite H1', H2', H3'. unfold mem_ret. do 3 f_equal.
    + rewrite Pi. unfold map_values. by rewrite length_fmap, length_map_to_list.
    + by rewrite Pe.
    + by rewrite Pl.
  - intros kind. rewrite (ag_items _ _ Hag3), (ag_items _ _ Hag), (ag_events _ _ Hag3), (ag_events _ _ Hag),
      (ag_links _ _ Hag3), (ag_links _ _ Hag). split; [done|]. split; cbn.
    + apply list_table_permutation; [apply (wf_event_ids _ Hwf)|done].
    + apply list_table_permutation; [apply (wf_link_ids _ Hwf)|done].
Qed.

Lemma upsert_link_items link s kind :
  cn_memory_items (connection_for (sqlite_upsert_link link s).2 kind) = cn_memory_items (connection_for s kind).
Proof.
  unfold sqlite_upsert_link. case_match; [|done]. cbn. rewrite connection_for_with. by case_bool_decide; [subst|].
Qed.

(** A link without a source stops the import of the links; items stay as they are. *)
Lemma write_links_stop links s link :
  link ∈ links -> database_for_memory_id s (mln_from_memory_id link) = None ->
  exists e s', write_all (fun link => storing (upsert_link link)) links s = (Err e, s') /\
    forall kind, cn_memory_items (connection_for s' kind) = cn_memory_items (connection_for s kind).
Proof.
  intros Hin. revert s. induction links as [|other links IH]; [by apply not_elem_of_nil in Hin|].
  intros s Hmissing. pose proof (upsert_link_items other s) as Hitems.
  apply elem_of_cons in Hin as [<-|Hin]; cbn; unfold mem_bind, storing.
  - cbn. unfold sqlite_upsert_link. rewrite Hmissing. cbn. eauto.
  - cbn. destruct (sqlite_upsert_link other s) as [[[]|e] s1]; cbn in *; [|eauto].
    destruct (IH Hin s1) as (e & s' & Hs' & Hsame); [by rewrite (database_for_memory_id_ext s1 s)|].
    exists e, s'. split; [exact Hs'|]. intros kind. by rewrite Hsame.
Qed.

(** C37. An export that selects the target of a link but not its source cannot be
    imported into an empty store: the bundle carries the link, and the import ends in
    an error at it, after the items of the bundle have been written. *)
Theorem foreign_links_break_imports paths paths' commands query link target :
  session_ok empty_repository commands = true ->
  mq_search_text query = None ->
  link ∈ imr_links (reference_after commands) ->
  imr_items (reference_after commands) !! mln_to_memory_id link = Some target ->
  matches query target = true ->
  (forall source, imr_items (reference_after commands) !! mln_from_memory_id link = Some source ->
     matches query source = false) ->
  exists bundle error s',
    export_bundle (store_after paths commands) query = Ok bundle /\
    import_bundle bundle (empty_store paths') = (Err error, s') /\
    link ∈ meb_links bundle /\ target ∈ meb_items bundle /\
    Forall (fun item => get_item s' (mi_id item) = Ok (Some item)) (meb_items bundle).
Proof.
  intros Hok Hsearch Hlink Htarget Hmatch Hsource. pose proof (agrees_after paths commands Hok) as Hag.
  set (r := reference_after commands) in *. pose proof (ag_well_formed _ _ Hag) as Hwf.
  destruct (export_bundle_spec _ r query Hag Hsearch) as (bundle & Hexport & Pi & Pe & Pl).
  assert (Hin : target ∈ meb_items bundle).
  { rewrite Pi. apply elem_of_list_filter. split; [|done]. unfold map_values.
    by apply (list_elem_of_fmap_2 snd _ (mln_to_memory_id link, target)), elem_of_map_to_list. }
  assert (Hin' : link ∈ meb_links bundle).
  { rewrite Pl. apply elem_of_list_filter. split; [done|]. unfold touches_selection.
    rewrite orb_true_iff. right. apply bool_decide_eq_true, list_elem_of_fmap. exists target.
    split; [|done]. by apply (wf_items _ Hwf) in Htarget as [-> _]. }
  destruct (import_items_events _ r query bundle paths' Hag Hsearch Hexport) as (s1 & s2 & H1' & H2' & Hag2).
  assert (Hmissing : database_for_memory_id s2 (mln_from_memory_id link) = None).
  { rewrite (database_for_memory_id_spec _ _ _ Hag2). unfold home. cbn.
    destruct (by_id (meb_items bundle) !! mln_from_memory_id link) as [x|] eqn:Hx; [exfalso|done].
    apply elem_of_list_to_map_2, list_elem_of_fmap in Hx as (item & [= Hid ->] & Hitem).
    rewrite Pi in Hitem. apply elem_of_list_filter in Hitem as [Hitem Hyes].
    apply list_elem_of_fmap in Hitem as ([id item'] & -> & Hid'%elem_of_map_to_list). cbn in *.
    destruct (wf_items _ Hwf _ _ Hid') as [Hkey _]. rewrite Hid, Hkey in Hsource.
    by rewrite (Hsource _ Hid') in Hyes. }
  destruct (write_links_stop _ s2 link Hin' Hmissing) as (error & s3 & H3' & Hsame).
  exists bundle, error, s3. split_and!; [done| |done..|].
  - unfold import_bundle, mem_bind. by rewrite H1', H2', H3'.
  - apply Forall_forall. intros item Hitem. cbn. rewrite (sqlite_get_item_ext s3 s2) by done.
    rewrite (sqlite_get_item_spec _ _ _ Hag2). cbn. unfold by_id. f_equal.
    apply elem_of_list_to_map_1.
    + rewrite <- list_fmap_compose. by eapply (selected_ids r).
    + by apply (list_elem_of_fmap_2 (fun item => (mi_id item, item))).
Qed.

(** ** Replaced text *)
Lemma databases_items_search s r query search_text row_matches kinds :
  agrees s r -> mq_search_text query = Some search_text -> fts5_query search_text = Ok row_matches ->
  exists items, databases_items s query kinds = Ok items /\
    forall item row, imr_items r !! mi_id item = Some item ->
      database_for_scope (mi_scope item) ∈ kinds ->
      row ∈ cn_memory_fts (connection_for s (database_for_scope (mi_scope item))) ->
      row_matches row = true -> mfr_id row = mi_id item -> item ∈ items.
Proof.
  intros Hag Hsearch Hfts. induction kinds as [|kind kinds (items & IHok & IH)]; cbn.
  { exists []. split; [done|]. intros item row _ Hin. by apply not_elem_of_nil in Hin. }
  destruct (all_items_for_spec s r kind Hag) as (stored & Hstored & P).
  unfold database_items, fts_match_ids_for. rewrite Hsearch, Hstored, Hfts. cbn. rewrite IHok. cbn.
  eexists. split; [done|]. intros item row Hitem Hkind Hrow Hmatch Hid. apply elem_of_app.
  apply elem_of_cons in Hkind as [Hkind|Hkind]; [left|right; by eapply IH].
  apply elem_of_list_filter. split.
  - rewrite P. apply elem_of_list_filter. split; [|by apply bool_decide_eq_true].
    by apply (list_elem_of_fmap_2 snd _ (mi_id item, item)), elem_of_map_to_list.
  - apply bool_decide_eq_true, list_elem_of_fmap. exists row. split; [done|].
    apply elem_of_list_filter. by rewrite <- Hkind.
Qed.

Lemma matches_database query item :
  matches query item = true -> database_for_scope (mi_scope item) ∈ query_databases query.
Proof.
  unfold matches, query_databases. destruct (mq_scope query) as [scope|]; cbn.
  - destruct (decide (mi_scope item = scope)) as [<-|Hne].
    + intros _. destruct (mi_scope item); apply elem_of_cons; by left.
    + rewrite (bool_decide_false (mi_scope item = scope)) by done. cbn. by case_match.
  - intros _. destruct (database_for_scope (mi_scope item)); set_solver.
Qed.

(** C38. A search finds an item by text it no longer has.  The full-text table has no
    key, so storing an item again adds a row and keeps the one of the replaced
    version; a search that only the old text matches returns the new item. *)
Theorem replaced_text_stays_searchable paths commands old new query search_text row_matches :
  session_ok empty_repository commands = true ->
  item_ok old -> item_ok new ->
  imr_items (reference_after commands) !! mi_id old = None ->
  mi_id new = mi_id old -> mi_scope new = mi_scope old ->
  mq_search_text query = Some search_text -> fts5_query search_text = Ok row_matches ->
  row_matches {| mfr_id := mi_id old; mfr_title := mi_title old; mfr_body := mi_body old;
                 mfr_tags := join_texts " " (mi_tags old) |} = true ->
  matches {| query with mq_search_text := None |} new = true ->
  exists items,
    list_items (upsert_item new (upsert_item old (store_after paths commands)).2).2 query = Ok items /\
    new ∈ items.
Proof.
  intros Hok Hold Hnew Hfresh Hid Hscope Hsearch Hfts Hrow Hmatch.
  pose proof (agrees_upsert_item _ _ old (agrees_after paths commands Hok) Hold ltac:(congruence)) as Hag1.
  epose proof (agrees_upsert_item _ _ new Hag1 Hnew _) as Hag2. Unshelve.
  2: { cbn. rewrite Hid, lookup_insert_eq. intros ? [= <-]. done. }
  destruct (databases_items_search _ _ query search_text row_matches (query_databases query) Hag2 Hsearch Hfts)
    as (items & Hitems & Hin).
  cbn -[sqlite_upsert_item in_memory_upsert_item]. unfold sqlite_list_items. rewrite Hitems. cbn.
  eexists. split; [done|]. rewrite sort_items_permutation, elem_of_list_filter. split; [|exact Hmatch].
  eapply (Hin new).
  - cbn. by rewrite lookup_insert_eq.
  - apply matches_database in Hmatch. by destruct query.
  - cbn. rewrite Hscope, connection_for_with, bool_decide_true by done. cbn.
    rewrite connection_for_with, bool_decide_true by done. cbn.
    apply elem_of_app. left. apply elem_of_app. right. by apply list_elem_of_singleton.
  - exact Hrow.
  - by cbn.
Qed.

(** ** The consistency report *)
Lemma repeated_ids_none ids seen :
  NoDup ids -> (forall id, id ∈ ids -> id ∉ seen) -> repeated_ids seen ∅ ids = [].
Proof.
  intros Hids. revert seen. induction Hids as [|id ids Hid _ IH]; intros seen Hseen; cbn; [done|].
  rewrite bool_decide_false by (apply Hseen; left). apply IH. set_solver.
Qed.

(** Promotions are of items that exist. *)
Definition promotions_ok r : Prop :=
  forall id item from, imr_items r !! id = Some item -> mi_promoted_from_id item = Some from ->
    is_Some (imr_items r !! from).

Lemma promotions_ok_insert r item :
  promotions_ok r -> (forall from, mi_promoted_from_id item = Some from -> is_Some (imr_items r !! from)) ->
  promotions_ok (in_memory_upsert_item item r).2.
Proof.
  intros Hok Hitem id item' from. cbn. rewrite lookup_insert_Some. intros [[<- <-]|[_ Hid]] Hfrom;
    apply is_Some_insert; eauto.
Qed.

Lemma require_item_eq r id :
  require_item id r = (ok_or (imr_items r !! id) (MemoryError_NotFound id), r).
Proof. unfold require_item, mem_bind. cbn. unfold in_memory_get_item. by destruct (imr_items r !! id). Qed.

Lemma promotions_ok_set_status r status action id reason clock :
  promotions_ok r -> promotions_ok (set_status status action id reason clock r).2.
Proof.
  intros Hok. unfold set_status, mem_bind at 1. rewrite require_item_eq.
  destruct (imr_items r !! id) as [item|] eqn:Hitem; cbn [ok_or]; [|done].
  apply (promotions_ok_insert r); [done|]. cbn. eauto.
Qed.

Lemma promotions_ok_command r command :
  well_formed r -> promotions_ok r -> promotions_ok (run_command command r).2.
Proof.
  intros Hwf Hok. destruct command as [input clock|id reason clock|id reason clock|input clock|from to relation clock];
    cbn [run_command map_answer snd].
  - unfold remember, mem_bind, mem_lift. destruct (resolve_scope_key _ _); [|done].
    by apply (promotions_ok_insert r).
  - by apply promotions_ok_set_status.
  - by apply promotions_ok_set_status.
  - unfold promote, mem_bind at 1. rewrite require_item_eq.
    destruct (imr_items r !! pmi_id input) as [item|] eqn:Hitem; cbn [ok_or]; [|done]. unfold mem_bind, mem_lift.
    destruct (resolve_scope_key _ _); [|done]. apply (promotions_ok_insert r); [done|]. cbn.
    intros from [= <-]. destruct (wf_items _ Hwf _ _ Hitem) as [-> _]. by eexists.
  - unfold link_items, mem_bind. rewrite !require_item_eq. destruct (imr_items r !! from); cbn [ok_or]; [|done].
    rewrite ?require_item_eq. by destruct (imr_items r !! to).
Qed.

Lemma promotions_ok_commands commands s r :
  agrees s r -> session_ok r commands = true -> promotions_ok r -> promotions_ok (run_commands commands r).2.
Proof.
  revert s r. induction commands as [|command commands IH]; intros s r Hag Hok Hpr; cbn; [done|].
  cbn in Hok. apply andb_true_iff in Hok as [Hcommand Hok].
  pose proof (simulates_command s r command Hag Hcommand) as [_ Hag'].
  pose proof (promotions_ok_command r command (ag_well_formed _ _ Hag) Hpr) as Hpr'.
  specialize (IH _ _ Hag' Hok Hpr').
  destruct (run_command command r) as [answer r']. cbn in *. by destruct (run_commands commands r').
Qed.

Lemma filter_none {A} (f : A -> bool) (P : A -> Prop) l :
  Forall P l -> (forall a, P a -> f a = false) -> List.filter f l = [].
Proof. intros Hl Hf. induction Hl as [|a l Ha _ IH]; cbn; [done|]. by rewrite (Hf a Ha). Qed.

(** What the two databases hold together. *)
Lemma all_records_spec s r :
  agrees s r ->
  exists gi wi ge we gl wl,
    all_items_for s DatabaseKind_Global = Ok gi /\ all_items_for s DatabaseKind_Workspace = Ok wi /\
    all_events_for s DatabaseKind_Global = Ok ge /\ all_events_for s DatabaseKind_Workspace = Ok we /\
    all_links_for s DatabaseKind_Global = Ok gl /\ all_links_for s DatabaseKind_Workspace = Ok wl /\
    gi ++ wi ≡ₚ map_values (imr_items r) /\ ge ++ we ≡ₚ imr_events r /\ gl ++ wl ≡ₚ imr_links r.
Proof.
  intros Hag. pose proof (ag_well_formed _ _ Hag) as Hwf.
  destruct (all_items_for_spec _ _ DatabaseKind_Global Hag) as (gi & -> & Pgi).
  destruct (all_items_for_spec _ _ DatabaseKind_Workspace Hag) as (wi & -> & Pwi).
  destruct (all_events_for_spec _ _ DatabaseKind_Global Hag) as (ge & -> & Pge).
  destruct (all_events_for_spec _ _ DatabaseKind_Workspace Hag) as (we & -> & Pwe).
  destruct (all_links_for_spec _ _ DatabaseKind_Global Hag) as (gl & -> & Pgl).
  destruct (all_links_for_spec _ _ DatabaseKind_Workspace Hag) as (wl & -> & Pwl).
  exists gi, wi, ge, we, gl, wl. split_and!; [done..| | |].
  - rewrite Pgi, Pwi. apply (filter_home (fun item => database_for_scope (mi_scope item))).
  - rewrite Pge, Pwe. apply (filter_homes _ mev_memory_id).
    eapply Forall_impl; [apply (wf_events _ Hwf)|]. by intros ? [_ ?].
  - rewrite Pgl, Pwl. apply (filter_homes _ mln_from_memory_id).
    eapply Forall_impl; [apply (wf_links _ Hwf)|]. by intros ? [? _].
Qed.

(** After every session of the service the consistency report of the store counts
    what was written and finds nothing wrong: no id in both databases, no event, link
    or promotion that refers to a missing item. *)
Theorem sessions_leave_a_consistent_store paths commands :
  session_ok empty_repository commands = true ->
  let r := reference_after commands in
  exists report,
    doctor (store_after paths commands) = Ok report /\
    (mdr_global_item_count report + mdr_workspace_item_count report = size (imr_items r))%nat /\
    (mdr_global_event_count report + mdr_workspace_event_count report = length (imr_events r))%nat /\
    (mdr_global_link_count report + mdr_workspace_link_count report = length (imr_links r))%nat /\
    mdr_duplicate_item_ids report = [] /\ mdr_orphan_event_ids report = [] /\
    mdr_orphan_link_ids report = [] /\ mdr_orphan_promoted_item_ids report = [].
Proof.
  intros Hok r. pose proof (agrees_after paths commands Hok) as Hag. fold r in Hag.
  pose proof (ag_well_formed _ _ Hag) as Hwf.
  assert (Hpr : promotions_ok r).
  { eapply promotions_ok_commands; [apply (agrees_empty paths)|done|]. intros id item from Hid. cbn in Hid. by rewrite lookup_empty in Hid. }
  destruct (all_records_spec _ _ Hag) as
    (gi & wi & ge & we & gl & wl & Hgi & Hwi & Hge & Hwe & Hgl & Hwl & Pi & Pe & Pl).
  assert (Hknown : forall id, is_Some (imr_items r !! id) -> id ∈ mi_id <$> gi ++ wi).
  { intros id Hid. apply is_Some_by_id. by rewrite (by_id_everything r). }
  unfold doctor. rewrite Hgi, Hwi, Hge, Hwe, Hgl, Hwl. cbn [result_bind]. eexists. split; [reflexivity|].
  cbn -[repeated_ids]. rewrite <- !length_app. split_and!; [|by rewrite Pe|by rewrite Pl| | | |].
  - rewrite Pi. unfold map_values. by rewrite length_fmap, length_map_to_list.
  - apply repeated_ids_none; [|set_solver]. rewrite Pi. by apply values_ids.
  - rewrite (filter_none _ (fun event => is_Some (imr_items r !! mev_memory_id event))); [done| |].
    + rewrite Pe. eapply Forall_impl; [apply (wf_events _ Hwf)|]. by intros ? [_ ?].
    + intros event Hev. by rewrite bool_decide_true by auto.
  - rewrite (filter_none _ (fun link => is_Some (imr_items r !! mln_from_memory_id link) /\
      is_Some (imr_items r !! mln_to_memory_id link))); [done|by rewrite Pl; apply (wf_links _ Hwf)|].
    intros link [Hfrom Hto]. by rewrite !bool_decide_true by auto.
  - rewrite (filter_none _ (fun item => exists id, imr_items r !! id = Some item)); [done| |].
    + rewrite Pi. apply Forall_forall. intros item ([id item'] & -> & Hid%elem_of_map_to_list)%list_elem_of_fmap.
      by exists id.
    + intros item [id Hid]. destruct (mi_promoted_from_id item) as [from|] eqn:Hfrom; cbn; [|done].
      rewrite (bool_decide_true (from ∈ _)) by eauto. apply andb_false_r.
Qed.
End Theorems.
