(* ===== verification/SampleMemory.v ===== *)
(** * Memory on a concrete host

    A host whose lists of strings are escaped texts, whose tables are read in map
    order and whose full-text search is substring search, and a session in which a
    workspace item is linked to a user item and promoted. *)
From S2P Require Import Prelude RustStr Memory MemoryStore MemorySpec MemoryRefine MemoryTheorems.
From Stdlib Require Import Ascii.
From stdpp Require Import base list gmap strings pretty sorting.

#[local] Open Scope string_scope.
#[local] Open Scope list_scope.
#[local] Open Scope Z_scope.

Module SampleMemory.

(** ** The host *)

(** Each byte is marked with [+]; each string ends in [;]. *)
Fixpoint escape (text rest : string) : string :=
  match text with
  | EmptyString => String ";" rest
  | String c text => String "+" (String c (escape text rest))
  end.
Definition encode (texts : list string) : string := foldr escape EmptyString texts.
Fixpoint decode_from (text : string) (current : string -> string) : Result (list string) string :=
  match text with
  | EmptyString => Ok []
  | String mark rest =>
      if Ascii.eqb mark ";"%char then
        result_map (cons (current "")) (decode_from rest (fun s => s))
      else
        match rest with
        | EmptyString => Err "unexpected end"
        | String c rest => decode_from rest (fun s => current (String c s))
        end
  end.
Definition decode (text : string) : Result (list string) string := decode_from text (fun s => s).

Lemma decode_escape text rest current :
  decode_from (escape text rest) current =
    result_map (cons (current text)) (decode_from rest (fun s => s)).
Proof. revert current. induction text as [|c text IH]; intros current; cbn; [done|]. by rewrite IH. Qed.

Lemma decode_encode texts : decode (encode texts) = Ok texts.
Proof.
  unfold decode, encode. induction texts as [|text texts IH]; cbn; [done|].
  rewrite decode_escape. by rewrite IH.
Qed.

#[export] Instance host : MemoryHost := {|
  strings_to_json := encode;
  strings_from_json := decode;
  scan_items := fun table => (map_to_list table).*2;
  fts5_query := fun text => Ok (fun row =>
    str_contains text (mfr_title row) || str_contains text (mfr_body row) || str_contains text (mfr_tags row))
|}.
#[export] Instance host_laws : MemoryHostLaws.
Proof. split; [exact decode_encode|done]. Qed.

Definition lower_ascii (c : ascii) : ascii :=
  let n := nat_of_ascii c in if (65 <=? n)%nat && (n <=? 90)%nat then ascii_of_nat (n + 32) else c.
Fixpoint lower_text (text : string) : string :=
  match text with EmptyString => EmptyString | String c rest => String (lower_ascii c) (lower_text rest) end.
#[export] Instance lowercase : Lowercase := lower_text.

(** ** The session *)
Definition at_time (secs nanos : Z) : Clock :=
  {| ck_secs := secs; ck_later_secs := secs; ck_nanos := nanos; ck_later_nanos := nanos + 1;
     ck_last_nanos := nanos + 2; ck_pid := 7 |}.
Definition note (scope : MemoryScope) (key : option string) (title body : string) : RememberMemoryInput :=
  {| rmi_scope := scope; rmi_scope_key := key; rmi_kind := MemoryKind_Fact; rmi_title := title;
     rmi_body := body; rmi_tags := ["build"; "ci"]; rmi_origin_pack := None; rmi_applicable_packs := [] |}.
Definition user_id : string := "mem_10_7".
Definition work_id : string := "mem_20_7".
Definition commands : list MemoryCommand := [
  Command_Remember (note MemoryScope_User None "Style" "Prefer short names") (at_time 1 10);
  Command_Remember (note MemoryScope_Workspace (Some "/w") "Layout" "Sources live in src") (at_time 2 20);
  Command_Remember (note MemoryScope_Pack None "No key" "refused") (at_time 2 25);
  Command_Link work_id user_id MemoryLinkRelation_Supports (at_time 3 30);
  Command_Promote {| pmi_id := work_id; pmi_to_scope := MemoryScope_Session; pmi_to_scope_key := Some "s1";
    pmi_title := None; pmi_kind := None; pmi_applicable_packs := None; pmi_reason := Some "now" |} (at_time 4 40);
  Command_Forget work_id None (at_time 5 50)
].
Definition paths : StoragePaths :=
  {| sp_global_database := "/g/global.db"; sp_workspace_database := "/w/.buildplane/workspace.db";
     sp_artifacts_dir := "/w/.buildplane/artifacts"; sp_evidence_dir := "/w/.buildplane/evidence" |}.
Definition the_link : MemoryLink :=
  {| mln_id := "lnk_30_7"; mln_from_memory_id := work_id; mln_to_memory_id := user_id;
     mln_relation := MemoryLinkRelation_Supports; mln_created_at := "3" |}.

Definition work_item : MemoryItem :=
  {| mi_id := work_id; mi_scope := MemoryScope_Workspace; mi_scope_key := "/w"; mi_kind := MemoryKind_Fact;
     mi_title := "Layout"; mi_body := "Sources live in src"; mi_tags := ["build"; "ci"];
     mi_applicable_packs := []; mi_source_type := MemorySourceType_User; mi_source_ref := None;
     mi_origin_pack := None; mi_status := MemoryStatus_Forgotten; mi_promoted_from_id := None;
     mi_created_at := "2"; mi_updated_at := "5" |}.
Definition user_item : MemoryItem :=
  {| mi_id := user_id; mi_scope := MemoryScope_User; mi_scope_key := "global"; mi_kind := MemoryKind_Fact;
     mi_title := "Style"; mi_body := "Prefer short names"; mi_tags := ["build"; "ci"];
     mi_applicable_packs := []; mi_source_type := MemorySourceType_User; mi_source_ref := None;
     mi_origin_pack := None; mi_status := MemoryStatus_Active; mi_promoted_from_id := None;
     mi_created_at := "1"; mi_updated_at := "1" |}.

Lemma commands_ok : session_ok empty_repository commands = true.
Proof. vm_compute. reflexivity. Qed.

(** The forgotten workspace item is left out; the promoted session item comes first. *)
Definition context : EffectiveMemoryContext :=
  {| emc_workspace_scope_key := Some "/w"; emc_pack_scope_key := None; emc_session_scope_key := Some "s1";
     emc_include_forgotten := false |}.

Lemma effective_memory_is_exact_witness :
  result_map (fmap mi_title) (effective_memory (store_after paths commands) context) = Ok ["Layout"; "Style"] /\
  exists explained,
    explain_effective_memory (store_after paths commands) context default_effective_memory_policy = Ok explained /\
    in_order (emi_item <$> explained) /\
    emi_item <$> explained ≡ₚ List.filter (applies context default_effective_memory_policy)
                                 (map_values (imr_items (reference_after commands))).
Proof.
  split; [vm_compute; reflexivity|].
  destruct (effective_memory_is_exact (store_after paths commands) (imr_items (reference_after commands))
    context default_effective_memory_policy) as (explained & Hexplained & _ & Horder & Hperm & _).
  - exists (reference_after commands). split; [|reflexivity]. apply agrees_after, commands_ok.
  - exists explained. split; [exact Hexplained|]. split; [exact Horder|exact Hperm].
Defined.

Lemma sqlite_refines_in_memory_witness :
  length (run_commands commands empty_repository).1 = 6%nat /\
  (run_commands commands (empty_store paths)).1 = (run_commands commands empty_repository).1 /\
  forall id, get_item (store_after paths commands) id = get_item (reference_after commands) id.
Proof.
  split; [vm_compute; reflexivity|].
  destruct (sqlite_refines_in_memory paths commands) as (Hanswers & Hget & _); [apply commands_ok|].
  split; [exact Hanswers|exact Hget].
Defined.

Lemma cross_scope_links_are_one_sided_witness :
  exists of_source of_target,
    links (store_after paths commands) (Some work_id) = Ok of_source /\ the_link ∈ of_source /\
    links (store_after paths commands) (Some user_id) = Ok of_target /\ the_link ∉ of_target.
Proof.
  destruct (cross_scope_links_are_one_sided paths commands the_link work_item user_item)
    as (of_source & of_target & _ & Hs & Hins & Ht & Hint & _).
  - apply commands_ok.
  - vm_compute. left.
  - vm_compute. reflexivity.
  - vm_compute. reflexivity.
  - vm_compute. discriminate.
  - exists of_source, of_target. split; [exact Hs|]. split; [exact Hins|]. split; [exact Ht|exact Hint].
Defined.

Lemma exports_are_restored_witness :
  exists bundle s',
    export_bundle (store_after paths commands) everything = Ok bundle /\
    (import_bundle bundle (empty_store paths)) =
      (Ok {| mipr_imported_items := 3; mipr_imported_events := 5; mipr_imported_links := 1 |}, s') /\
    forall kind, cn_memory_links (connection_for s' kind)
                 = cn_memory_links (connection_for (store_after paths commands) kind).
Proof.
  destruct (exports_are_restored paths paths commands) as (bundle & s' & Hexport & Himport & Htables);
    [apply commands_ok|].
  exists bundle, s'. split; [exact Hexport|]. split; [exact Himport|].
  intros kind. exact (proj2 (proj2 (Htables kind))).
Defined.

(** The export of the user items carries the link from the workspace item. *)
Definition user_query : MemoryQuery := {| default_memory_query with mq_scope := Some MemoryScope_User |}.

Lemma foreign_links_break_imports_witness :
  exists bundle error s',
    export_bundle (store_after paths commands) user_query = Ok bundle /\
    import_bundle bundle (empty_store paths) = (Err error, s') /\
    the_link ∈ meb_links bundle.
Proof.
  destruct (foreign_links_break_imports paths paths commands user_query the_link user_item)
    as (bundle & error & s' & Hexport & Himport & Hlink & _).
  - apply commands_ok.
  - reflexivity.
  - vm_compute. left.
  - vm_compute. reflexivity.
  - vm_compute. reflexivity.
  - intros source Hsource. vm_compute in Hsource. injection Hsource as <-. vm_compute. reflexivity.
  - exists bundle, error, s'. split; [exact Hexport|]. split; [exact Himport|exact Hlink].
Defined.

(** An item stored again under a new body is still found by the old one. *)
Definition draft : MemoryItem := {| user_item with mi_id := "mem_90_7"; mi_body := "Use tabs" |}.
Definition revised : MemoryItem := {| draft with mi_body := "Use spaces" |}.
Definition tabs_query : MemoryQuery := {| default_memory_query with mq_search_text := Some "tabs" |}.

Lemma replaced_text_stays_searchable_witness :
  str_contains "tabs" (mi_body revised) = false /\
  exists items,
    list_items (upsert_item revised (upsert_item draft (store_after paths commands)).2).2 tabs_query = Ok items /\
    revised ∈ items.
Proof.
  split; [vm_compute; reflexivity|].
  apply (replaced_text_stays_searchable paths commands draft revised tabs_query "tabs"
    (fun row => str_contains "tabs" (mfr_title row) || str_contains "tabs" (mfr_body row)
                || str_contains "tabs" (mfr_tags row))).
  - apply commands_ok.
  - split; [discriminate|]. split; [discriminate|]. split; discriminate.
  - split; [discriminate|]. split; [discriminate|]. split; discriminate.
  - vm_compute. reflexivity.
  - reflexivity.
  - reflexivity.
  - reflexivity.
  - reflexivity.
  - vm_compute. reflexivity.
  - vm_compute. reflexivity.
Defined.

Lemma sessions_leave_a_consistent_store_witness :
  exists report, doctor (store_after paths commands) = Ok report /\
    (mdr_global_item_count report + mdr_workspace_item_count report = 3)%nat /\
    mdr_orphan_link_ids report = [].
Proof.
  destruct (sessions_leave_a_consistent_store paths commands) as
    (report & Hdoctor & Hcount & _ & _ & _ & _ & Hlinks & _); [apply commands_ok|].
  exists report. split; [exact Hdoctor|]. split; [exact Hcount|exact Hlinks].
Defined.
End SampleMemory.
